(* ===== verification/_CoqProject ===== *)
-Q . S2P
Prelude.v
Effects.v
Maps.v
Threads.v
CString.v
Parcel.v
SbcTables.v
SbcCrc.v
SbcBits.v
SbcFrame.v
SbcStream.v
SbcPack.v
SbcRoundtrip.v
SbcSynth.v
SbcApi.v
Plc.v
BtBytes.v
Btremoted.v
BtCodec.v
BtFifo.v
BtFrames.v
BtSockets.v
Lights.v
LightService.v
VndState.v
VndRadio.v
VndInit.v
VndDriver.v
Power.v
Nl80211.v
WifiState.v
WifiRegistry.v
WifiRequest.v
WifiCommand.v
WifiShared.v
WifiLifecycle.v
WifiEvents.v
WifiThreads.v
WifiQuery.v
WifiHal.v
WifiShutdown.v
WifiFunctions.v
HciState.v
HciPacket.v
HciWatcher.v
HciVendor.v
HciWake.v
HciEvents.v
HciSession.v
GuiState.v
GuiPool.v
GuiItems.v
GuiService.v
GuiLedger.v
GuiBinder.v
GuiClient.v
GuiContract.v
GuiExt.v
GfxExtra.v
GfxBuffer.v
GfxFps.v
GfxTunnel.v
Shims.v
