(* ===== verification/Prelude.v ===== *)
(** * Verification of the C and C++ code of the "sloane" device tree

    The tree configures Android for one device. Most of it is build configuration, overlays, policy
    files, prebuilt tables and bindings to closed libraries; the programs are the voice daemon of the
    remote control, the Bluetooth vendor library and HAL, the Wi-Fi HAL, the service of preallocated graphic
    buffers and the tools around it, the lights module and its service, the power module, the driver commands of
    wpa_supplicant and the shims. All of them are modelled here.

    Effects.v, Maps.v, Threads.v, CString.v and Parcel.v are shared: programs that may abort, and what they keep; ordered
    maps; programs of atomic steps, and two of them at once; functions of C's string library; the parcels of the binder.

    ** The voice daemon (src/mediatek/bluetooth/btremoted)

    The remote control sends voice as mSBC frames over a SCO socket; btremoted decodes them, conceals
    lost packets, and hands the samples to one client over a local socket.

    - SbcTables.v: the constants and tables of sbc.h, sbc_math.h, sbc_tables.h and msbc.c.
    - SbcCrc.v: sbc_crc8 of msbc.c, against the remainder of a division of polynomials.
    - SbcBits.v: sbc_calculate_bits, the allocation of bits to subbands.
    - SbcFrame.v: sbc_unpack_frame, reading an octet buffer through an option: [None] is an access
      outside of the memory. Safety of the unpacker.
    - SbcStream.v: the same function against a specification that reads a stream of bits.
    - SbcPack.v: sbc_pack_frame with its bit writer macros; SbcRoundtrip.v: packing, then unpacking.
    - SbcSynth.v: sbc_synthesize_audio against a bank of shift registers.
    - SbcApi.v: sbc_init, sbc_decode, sbc_encode, and the sizes of sbc.h's interface.
    - Plc.v: packet loss concealment (sbcplc.c); float is binary32 of the standard library's
      SpecFloat, the square root is taken in binary64 as the code does.
    - BtBytes.v: the conversions between shorts and octets; Btremoted.v: btremoted.c, function by
      function, its globals in one record and every system call a call of the trace; BtCodec.v and
      BtFrames.v: the packet handler; BtFifo.v: the main buffer as a queue; BtSockets.v: the daemon
      as a whole and its descriptors.

    ** The Bluetooth vendor library (src/mediatek/bluetooth/libbt-vendor)

    The stack loads it, asks it to open the UART and to configure the chip. Configuring starts a
    thread which sends the commands of the chip's script one by one.

    - VndState.v: the NVRAM record (include/CFG_BT_File.h, CFG_BT_Default.h), the globals of mtk.c,
      radiomgr.c and radiomod.c, and the calls.
    - VndRadio.v: the commands and event handlers of radiomod.c, the made-up address, and writing the
      address to NVRAM.
    - VndInit.v: GORM_FW_Init_Thread, cut into steps at its accesses to the status it shares; a step
      relation runs it beside the event handlers and notify_thread_exit, in any order.
    - VndDriver.v: mtk.c, radiomgr.c and bt_drv.c, and the contract of the operation that configures
      the firmware, from bt_drv.c down to the thread.

    ** The Bluetooth HAL (src/mediatek/bluetooth/interface)

    The framework's service: it loads the vendor library, opens the driver through it, and moves HCI packets
    between the client and the driver. A thread waits for the driver; the vendor library sends commands of
    its own, whose events are kept from the client; a timer lets the controller sleep.

    - HciState.v: hci_internals.h, the members of the classes, the calls, and what a part of the program keeps.
    - HciPacket.v: the packetizer, the protocols H4 and MCT, writing (hci_packetizer.cc, hci_protocol.cc,
      h4_protocol.cc, mct_protocol.cc), on a driver that gives a stream in pieces. Who takes the events is an
      interface ([EventSink]).
    - HciWatcher.v: the thread and its descriptors (async_fd_watcher.cc), one round at a time.
    - HciVendor.v: vendor_interface.cc and bluetooth_hci.cc, and everything the HAL does as one type of operations.
    - HciWake.v: the wake line; HciEvents.v: who gets an event ([HandleIncomingEvent] is an [EventSink]), and the
      thread on a stream; HciSession.v: initialising, failing to, and closing.

    ** The Wi-Fi HAL (src/mediatek/wifi/wifi_hal)

    The framework calls it to scan, watch access points, measure distances and keep connections alive;
    it sends vendor commands to the driver over netlink and passes events back. A command that goes on is an
    object with a count of references, which is in the table of commands under the id of the request,
    and whose handlers are in the table of handlers; the event loop runs in a thread of its own.

    - WifiState.v: the names of headers that are not in the repository, as a class; hal_info, the
      objects, the calls (common.h, cpp_bindings.h).
    - WifiRegistry.v: the two tables (common.cpp), refined to lists.
    - WifiRequest.v: WifiRequest, and WifiCommand::requestResponse (cpp_bindings.h, cpp_bindings.cpp).
    - WifiCommand.v: what every request of gscan.cpp, rtt.cpp, wifi_hal.cpp and wifi_offload.cpp consists
      of, start and cancel of the classes, references, and the functions that start and stop commands.
    - WifiShared.v: the memory as the event thread and the callers share it, and the rules for the steps of the callers.
    - WifiLifecycle.v: the machine whose state is the list of the active commands, and its refinement.
    - WifiEvents.v: handleEvent of the classes on the octets of a message, and internal_valid_message_handler.
    - WifiThreads.v: the event thread next to the callers, and the schedules that break a measurement.
    - WifiQuery.v: the commands that live for one request, and what they store of the replies.
    - WifiHal.v: wifi_initialize, the interfaces, wifi_event_loop and wifi_cleanup; WifiShutdown.v: wifi_cleanup while
      wifi_event_loop runs; WifiFunctions.v: the table of functions, and those that only report success.

    ** The service of preallocated buffers (src/mediatek/graphics/gui_ext)

    A producer has the service make a pool: for each display a queue with its buffers. Consumers in other processes
    take buffers out of a pool and give them back. Whoever dies is observed, and what it had is given back.

    - GuiState.v: GuiExtImpl.h, GuiExtDataType.h, the calls to the framework; what comes from headers that are not in
      the repository is a class. A keyed vector of the framework is a list of pairs in the order of their keys.
    - GuiPool.v: GuiExtImpl.cpp, the observers of deaths, and regDump and unregDump of GuiExtService.cpp; everything that
      can happen to the service as one type of operations.
    - GuiItems.v: what well-formed pools are. GuiService.v: every operation keeps them so, and what a death does.
      GuiLedger.v: which buffers are out, read off the trace of the calls to the queues, against the slots.
    - GuiBinder.v (on Parcel.v): IGuiExtService.cpp and the rest of GuiExtService.cpp. [IGuiExtService] is a record of methods; the service
      is one, and the proxy of the binder is another.
    - GuiClient.v: GuiExtClient.cpp, GuiExtClientConsumer.cpp and GuiExtClientProducer.cpp, on any [IGuiExtService].
    - GuiContract.v: what a service promises to a consumer ([buffer_service]), that the service and the proxy keep it, and
      what a consumer makes of it. GuiExt.v: the properties.

    ** The tools for graphics (src/mediatek/graphics/gralloc_extra and ui_ext)

    gralloc_extra asks an optional device of gralloc about buffers and packs flags into status words; ui_ext draws on
    buffers and dumps them to files, counts frames, and lets a process dump its objects through the service above.

    - GfxExtra.v: GraphicBufferExtra.cpp, GraphicBufferExtra_hal.cpp, the status words of ui/gralloc_extra.h as lists of
      fields, and the calls of both libraries.
    - GfxBuffer.v: GraphicBufferUtil.cpp; a locked buffer is the list of its bytes. What is held (the lock, the file, the
      structures of libpng) is read off the trace.
    - GfxFps.v: FpsCounter.cpp, its rate in SpecFloat.
    - GfxTunnel.v (on Parcel.v): IDumpTunnel.cpp and RefBaseDump.cpp.

    ** The other modules

    - Lights.v: src/mediatek/lights/liblights/lights.c. LightService.v: src/mediatek/lights/interface/Light.cpp, on Lights.v.
    - Shims.v: of src/libshims, the log of lab126, pthread_mutex_destroy and the functions that change what they pass on.
    - Power.v: src/mediatek/power/power.c.
    - Nl80211.v: src/mediatek/wifi/wpa_supplicant/mediatek_driver_cmd_nl80211.c.

    ** How code is modelled

    Integers are in [Z]; conversions to a type of width w are written out ([wrapu], [wraps] below).
    Arrays are lists; an access outside of an array, a null pointer and a variable without a value
    make the result [None], so that a theorem saying that a function returns [Some] says that
    none of these happens. Code with effects is in the monad [io] of this file: the globals, and
    the trace of the calls made so far. A call is answered by a function [answer] of the whole trace
    before it, about which nothing is assumed, except by named hypotheses where a theorem says so:
    a read yields no more octets than asked for, the files of the LEDs can be written, the clock
    advances. Total correctness is stated by [wp].

    The functions of the Wi-Fi HAL that take the mutex are programs of Threads.v: trees of atomic steps in [io], where
    a step may have to wait. [run] executes one on its own; [thread_step] lets two of them take steps in any order.
    A step is one access to the shared memory (a table, an object, the mutex), or a part that only makes calls. Two
    interfaces say what the threads promise each other: [sharing] (the memory, while both are at work) and the hand-over
    ([serves], [asks]: one asks the other to end, and has the memory to itself when it is answered).

    Libraries that are not in the repository are reached through calls too, or are parameters: for the
    Wi-Fi HAL, what libnl's iterators and parser make of octets (nla_attrs, nla_parse), and the choice
    of the allocator. What the theorems rely on is named: [libnl_ok] (an attribute that fits a message is
    stored), [kernel_replies] (a request is answered within some number of receives), [replies_good] (what
    the replies hold is as long as what is read of it), [retries_within] (a call is not interrupted for ever),
    [directory] (two passes over the interfaces give the same names) [exit_requested] (the other
    thread asks the event loop to end), and [pair_ok] and [events_ok] (poll and the pair of sockets between the loop and the
    cleanup work, the driver has finitely many events, and they hold what is read of them); for the Bluetooth HAL, [serves] (the driver gives a stream in pieces),
    [readable] (select reports that it has something), [writes] (it takes no more than it is given and is not
    busy for ever), [starts] (everything the HAL opens is there); for the
    preallocated buffers, [gui_headers_ok] (errors are negative), [answers_ok] (a new queue has two ends), [queues_behave] (a queue hands out buffers that it has, or none; a new one
    has a producer of its own), [refusal_seen] (the service can see that a queue had none) and [parcel_laws] (what was
    written to a parcel is read from it); for the tools, [lock_stores] and [lock_answers] (gralloc stores the address of
    a buffer that it locks) and [query_stores] and [sf_info_stores] (the device stores what it was asked for). Witnesses run the model with concrete answers.

    Loops are structural recursion over what bounds them. Fuel is used where the bound is not in the
    code: for the busy wait of lights.c it is any number of readings of the clock within which 5 ms
    pass; for the reply to a netlink request, the number of receives [kernel_replies] grants; for the event
    loop, the poll from which it is asked to end, or the number of events of the driver; for the cleanup, the number of commands. The main loop of the
    daemon and the thread of radiomod.c do not end by themselves, so they are step functions, iterated
    any number of times, or a step relation.

    ** What the theorems show

    - C1 to C5, C17, C22: the codec. Bit allocation spends exactly the bit pool; the CRC is
      the polynomial remainder; the unpacker is memory safe on any octets and computes what its specification says;
      packing is inverted by unpacking; the synthesis filter refines shift registers.
    - C20, C21: concealment of lost frames and the way back to received ones.
    - C14, C15, C36: the main buffer as a queue, the daemon and the packet handler: no access outside of a
      buffer, no descriptor used after closing or leaked, whatever the system answers and however long it runs.
    - C6: the commands of the Wi-Fi HAL. Starting and cancelling implement a list of active commands,
      without an object being used after it was deleted.
    - C7, C31: its events. An event reaches the command that listens and no other; exactly which octets of
      the driver make a handler read outside of them.
    - C8: events in their own thread, while the framework starts and cancels commands: no schedule of the steps makes
      either thread touch an object that is gone, or wait for the mutex for ever.
    - C9: the end. The cleanup, called while the event loop runs, takes nothing down before the loop has answered; both end.
    - C30: its queries. What is stored stays within the arrays of the caller.
    - C26, C27: its initialisation, with what is given back when it fails; its cleanup, which ends.
    - C10, C24, C25: packets of the Bluetooth HAL. The thread hands over what the driver gives, whole and in
      order; what is sent can be read; the event of a vendor command goes to the vendor library.
    - C11: nothing is sent to a controller that may be asleep. C23, C35: what close releases, and what the client
      is told when initialising fails.
    - C12, C13, C32: the preallocated buffers. No operation accesses what is not there, and pools stay well formed; a
      buffer is out of its queue exactly if its slot belongs to a client; a consumer that dies gives back what it had.
    - C28, C29: the binder and the consumers. A method called through the proxy is the method of the service, but for a
      variable that is not sent; what a consumer is handed out belongs to it, and what it releases to nobody.
    - C33: the tools for buffers. Dumping reads the image and nothing else and gives everything back, whatever fails.
    - C34: the counter of frames reports the rate of each interval.
    - C18, C19: the lights. At most one LED is lit; through the service a client sees the battery before notifications,
      and every file is written with the mutex held.
    - C38, C39: every command of the Bluetooth chip is a well-formed packet; events.
    - C16: the initialisation thread. Whatever the interleaving, it keeps the protocol with the
      stack, and reports success exactly when the script is completed.
    - C37: the contract of configuring the firmware.
    - C40: the country command of the driver.

    Lemmas without a number are steps to these, or properties of less weight, such as the NVRAM record as
    octets (VndState.v), the accuracy of quantisation (SbcRoundtrip.v), that the initialisation thread ends (VndInit.v), the
    tables of the Wi-Fi HAL as lists (WifiRegistry.v), its event loop on its own, which ends when asked to (WifiHal.v), two schedules of its end in a system that breaks its
    promises (WifiShutdown.v), the table of its functions (WifiFunctions.v), the information
    about a buffer and the pixels that drawing writes (GfxBuffer.v), the fields of the status words (GfxExtra.v), two schedules that break a measurement (WifiThreads.v), dumps through the binder (GfxTunnel.v), the shims (Shims.v), when the address of the chip is made up (VndRadio.v), decoding mSBC (SbcApi.v), the arrays of
    the Wi-Fi queries (WifiQuery.v), packets without a payload (HciPacket.v), the errors of opening a
    light (Lights.v), the performance profile (Power.v), what a client of the daemon gets (BtFifo.v), reading the NVRAM
    and the UART (VndDriver.v) and the channels of MCT (HciPacket.v).

    ** Not modelled

    - Code that is not compiled: the branches under DEBUG and _METRICS of btremoted.c, the functions
      under [#if 0] of mtk.c; the encoder primitives of msbc.c, which the repository does not have
      (they are parameters of SbcApi.v).
    - Logging; the attributes, initialisation and destruction of mutexes and conditions in radiomod.c,
      whose critical sections are the atomic steps of VndInit.v; the constant header fields of the
      buffers sent; registration records ([HAL_MODULE_INFO_SYM], the interface table of bt_drv.c);
      close_lights, which frees a device.
    - Of the Wi-Fi HAL: a step on the table of commands is atomic, though the code
      does not lock it, so C8 and C9 leave out the measurements, for which the event thread changes it, too; requestEvent, requestVendorEvent and parseScanResults, which nothing calls; the names and
      the dump of messages for the log; in C9 the framework makes no other calls while it cleans up.
    - Of the Bluetooth HAL: its operations run one after the other; what the threads share without a mutex is in
      the findings of the manifest. The scheduling class of the thread and the callbacks that only log.
    - Of the preallocated buffers: each method is one step (the code locks mLock around all but configDisplay and the
      observer of a consumer); dump, which prints; the code under CONFIG_FOR_SOURCE_PQ and TOUCH_ION_BUFFER,
      which the build leaves out.
    - Of the tools for graphics: an error inside libpng, which ends the process; the destructor that closes the extra
      device when the library is unloaded; RWTable.h, a template that nothing uses.
    - Of the lights service, its registration and threads (service.cpp). The shims that only rename a function.
    - The headers of src/include declare the interfaces and NVRAM tables of closed libraries. *)
From Stdlib Require Import Ascii String.
From Stdlib Require Export ZArith Lia Bool.
From stdpp Require Export base numbers list option.

Set Default Proof Using "Type".

Declare Scope c_scope.
Delimit Scope c_scope with C.

(** ** Bit operators of C on mathematical integers *)
Notation "x .& y" := (Z.land x y) (at level 36, left associativity) : c_scope.
Notation "x .| y" := (Z.lor x y) (at level 38, left associativity) : c_scope.
Notation "x .^ y" := (Z.lxor x y) (at level 37, left associativity) : c_scope.

#[global] Open Scope Z_scope.
#[global] Open Scope c_scope.

(** ** Machine integers *)

(** [wrapu w z]: conversion of [z] to an unsigned [w]-bit type. *)
Definition wrapu (w z : Z) : Z := z mod 2 ^ w.

(** [wraps w z]: conversion of [z] to a signed [w]-bit (two's complement) type. *)
Definition wraps (w z : Z) : Z := (z + 2 ^ (w - 1)) mod 2 ^ w - 2 ^ (w - 1).

Abbreviation u8 := (wrapu 8).
Abbreviation u16 := (wrapu 16).
Abbreviation u32 := (wrapu 32).
Abbreviation i16 := (wraps 16).
Abbreviation i32 := (wraps 32).

Definition is_u8 (z : Z) : Prop := 0 <= z < 256.
Definition is_i16 (z : Z) : Prop := -32768 <= z < 32768.
Definition is_i32 (z : Z) : Prop := -2147483648 <= z < 2147483648.

#[export] Instance is_u8_dec z : Decision (is_u8 z).
Proof. unfold is_u8. apply _. Defined.
#[export] Instance is_i16_dec z : Decision (is_i16 z).
Proof. unfold is_i16. apply _. Defined.

Create HintDb cint discriminated.

Lemma wrapu_range w z : 0 <= w -> 0 <= wrapu w z < 2 ^ w.
Proof. intros. apply Z.mod_pos_bound. lia. Qed.

Lemma wrapu_small w z : 0 <= z < 2 ^ w -> wrapu w z = z.
Proof. intros. by apply Z.mod_small. Qed.

Lemma wraps_range w z : 0 < w -> - 2 ^ (w - 1) <= wraps w z < 2 ^ (w - 1).
Proof.
  intros Hw. unfold wraps.
  assert (2 ^ w = 2 * 2 ^ (w - 1)) as Hd
    by (rewrite <- Z.pow_succ_r by lia; f_equal; lia).
  pose proof (Z.mod_pos_bound (z + 2 ^ (w - 1)) (2 ^ w)). lia.
Qed.

Lemma wraps_small w z : 0 < w -> - 2 ^ (w - 1) <= z < 2 ^ (w - 1) -> wraps w z = z.
Proof.
  intros Hw Hz. unfold wraps.
  assert (2 ^ w = 2 * 2 ^ (w - 1)) as Hd
    by (rewrite <- Z.pow_succ_r by lia; f_equal; lia).
  rewrite Z.mod_small by lia. lia.
Qed.

(** Two integers congruent modulo [2^w] convert to the same signed value. *)
Lemma wraps_congr w a b k : 0 < w -> a = b + k * 2 ^ w -> wraps w a = wraps w b.
Proof.
  intros Hw ->. unfold wraps. f_equal.
  replace (b + k * 2 ^ w + 2 ^ (w - 1)) with (b + 2 ^ (w - 1) + k * 2 ^ w) by lia.
  apply Z.mod_add. apply Z.pow_nonzero; lia.
Qed.

Lemma u8_range z : is_u8 (u8 z).
Proof. apply (wrapu_range 8). lia. Qed.
Lemma u8_small z : is_u8 z -> u8 z = z.
Proof. apply (wrapu_small 8). Qed.
Lemma i16_range z : is_i16 (i16 z).
Proof. apply (wraps_range 16). lia. Qed.
Lemma i16_small z : is_i16 z -> i16 z = z.
Proof. apply (wraps_small 16). lia. Qed.
Lemma i32_range z : is_i32 (i32 z).
Proof. apply (wraps_range 32). lia. Qed.
Lemma i32_small z : is_i32 z -> i32 z = z.
Proof. apply (wraps_small 32). lia. Qed.

#[export] Hint Resolve u8_range i16_range i32_range : cint.

(** Bit fields that do not overlap are added. *)
Lemma lor_shift lo hi n : 0 <= n -> 0 <= lo < 2 ^ n -> lo .| (hi ≪ n) = lo + hi * 2 ^ n.
Proof.
  intros Hn Hlo. assert (lo .& (hi ≪ n) = 0) as E.
  { apply Z.bits_inj'. intros i Hi. rewrite Z.land_spec, Z.bits_0, <- (Z.mod_small lo (2 ^ n)) by lia.
    destruct (Z.ltb_spec i n); [by rewrite Z.shiftl_spec_low, andb_false_r by lia|].
    by rewrite Z.mod_pow2_bits_high by lia. }
  rewrite <- Z.lxor_lor, <- Z.add_nocarry_lxor by done. by rewrite Z.shiftl_mul_pow2 by lia.
Qed.

(** ** Arrays of C

    An array is the list of its elements; an access outside it is undefined
    behaviour, the value [None]. *)
Definition aget {A} (l : list A) (i : Z) : option A :=
  if 0 <=? i then l !! Z.to_nat i else None.

Definition aset {A} (l : list A) (i : Z) (v : A) : option (list A) :=
  if (0 <=? i) && (i <? Z.of_nat (length l)) then Some (<[Z.to_nat i := v]> l) else None.

(** Total read, for accesses whose index the code has just bounded. *)
Definition anth (l : list Z) (i : Z) : Z := default 0 (aget l i).

Definition zlen {A} (l : list A) : Z := Z.of_nat (length l).

Lemma aget_in {A} (l : list A) i : 0 <= i < zlen l -> exists v, aget l i = Some v.
Proof.
  unfold aget, zlen. intros Hi. destruct (Z.leb_spec 0 i); [|lia].
  destruct (lookup_lt_is_Some_2 l (Z.to_nat i)) as [v Hv]; [lia|eauto].
Qed.

Lemma aget_out {A} (l : list A) i : i < 0 \/ zlen l <= i -> aget l i = None.
Proof.
  unfold aget, zlen. intros Hi. destruct (Z.leb_spec 0 i); [|done].
  apply lookup_ge_None. lia.
Qed.

Lemma aget_Some_range {A} (l : list A) i v : aget l i = Some v -> 0 <= i < zlen l.
Proof.
  unfold aget, zlen. destruct (Z.leb_spec 0 i); [|done].
  intros ?%lookup_lt_Some. lia.
Qed.

Lemma aget_Forall {A} (P : A -> Prop) l i v : Forall P l -> aget l i = Some v -> P v.
Proof.
  unfold aget. destruct (0 <=? i); [|done]. intros Hf Hl.
  by eapply Forall_lookup_1.
Qed.

Lemma aget_anth (l : list Z) i : 0 <= i < zlen l -> aget l i = Some (anth l i).
Proof. intros Hi. unfold anth. destruct (aget_in l i Hi) as [v ->]. done. Qed.

Lemma aset_in {A} (l : list A) i v :
  0 <= i < zlen l -> aset l i v = Some (<[Z.to_nat i := v]> l).
Proof.
  unfold aset, zlen. intros Hi.
  rewrite (proj2 (Z.leb_le _ _)), (proj2 (Z.ltb_lt _ _)) by lia. done.
Qed.

Lemma aset_length {A} (l l' : list A) i v : aset l i v = Some l' -> length l' = length l.
Proof.
  unfold aset. case_match; [|done]. intros [= <-]. apply length_insert.
Qed.

#[export] Hint Resolve aget_out : cint.

(** ** Counted loops of C over an optional state ([None]: undefined behaviour) *)
Fixpoint for_loop {S} (n : nat) (i : Z) (body : Z -> S -> option S) (s : S) : option S :=
  match n with
  | O => Some s
  | S n' => s' ← body i s; for_loop n' (i + 1) body s'
  end.

(** The Hoare rule of the loop: an invariant kept by every iteration makes the
    loop total and holds at its end. *)
Lemma for_loop_inv {S} (P : Z -> S -> Prop) body n i (s : S) :
  (forall j s, i <= j < i + Z.of_nat n -> P j s ->
     exists s', body j s = Some s' /\ P (j + 1) s') ->
  P i s ->
  exists s', for_loop n i body s = Some s' /\ P (i + Z.of_nat n) s'.
Proof.
  revert i s. induction n as [|n IH]; intros i s Hb Hi; simpl.
  - exists s. split; [done|]. by replace (i + Z.of_nat 0) with i by lia.
  - destruct (Hb i s ltac:(lia) Hi) as (s' & -> & Hs'). simpl.
    destruct (IH (i + 1) s') as (s'' & Hl & Hp); [|done|].
    + intros j t Hj. apply Hb. lia.
    + exists s''. split; [done|]. by replace (i + Z.of_nat (Datatypes.S n)) with (i + 1 + Z.of_nat n) by lia.
Qed.

(** The octets of a string literal. *)
Definition str (s : String.string) : list Z := map (fun a => Z.of_N (Ascii.N_of_ascii a)) (String.list_ascii_of_string s).
Arguments str s%_string.

(** Sums over lists of integers. *)
Definition zsum (l : list Z) : Z := foldr Z.add 0 l.

Lemma zsum_nil : zsum [] = 0.
Proof. done. Qed.
Lemma zsum_cons x l : zsum (x :: l) = x + zsum l.
Proof. done. Qed.

Lemma zsum_app l k : zsum (l ++ k) = zsum l + zsum k.
Proof. induction l as [|x l IH]; simpl; unfold zsum in *; simpl; lia. Qed.

Lemma zsum_nonneg l : Forall (fun x => 0 <= x) l -> 0 <= zsum l.
Proof. induction 1; unfold zsum in *; simpl; lia. Qed.

Lemma zsum_le_const (c : Z) l : Forall (fun x => x <= c) l -> zsum l <= c * zlen l.
Proof.
  unfold zlen. induction 1 as [|x l Hx _ IH]; unfold zsum in *; simpl; lia.
Qed.

(** ** Calls to the environment

    System calls, property reads, and the callbacks of the client library are
    not part of the program: a component that makes them is a state transformer
    over its globals and the trace of the calls made, and an oracle answers each
    call from the whole history before it. *)
Section Io.
Context {G C R : Type}.

Record world := World { globals : G; trace : list (C * R) }.

(** [None]: undefined behaviour, an access outside an array. *)
Definition io (A : Type) : Type := world -> option (A * world).

Definition io_ret {A} (a : A) : io A := fun w => Some (a, w).
Definition io_bind {A B} (m : io A) (k : A -> io B) : io B :=
  fun w => match m w with Some (a, w') => k a w' | None => None end.
Definition io_get : io G := fun w => Some (globals w, w).
Definition io_mod (f : G -> G) : io unit := fun w => Some (tt, World (f (globals w)) (trace w)).

(** A step of the program that makes no call. *)
Definition io_pure {A} (f : G -> option (A * G)) : io A :=
  fun w => match f (globals w) with Some (a, g) => Some (a, World g (trace w)) | None => None end.

Definition io_call (answer : list (C * R) -> C -> R) (c : C) : io R :=
  fun w => let r := answer (trace w) c in Some (r, World (globals w) (trace w ++ [(c, r)])).
End Io.
Arguments world : clear implicits.
Arguments io : clear implicits.

(** Total correctness: [m] does not fail and ends as [Q] says. *)
Definition wp {G C R A} (m : io G C R A) (Q : A -> world G C R -> Prop) (w : world G C R) : Prop :=
  match m w with Some (a, w') => Q a w' | None => False end.

Section Wp.
Context {G C R : Type}.
Implicit Types (w : world G C R).

Lemma wp_bind {A B} (m : io G C R A) (k : A -> io G C R B) Q w :
  wp m (fun a w' => wp (k a) Q w') w -> wp (io_bind m k) Q w.
Proof. unfold wp, io_bind. by destruct (m w) as [[a w']|]. Qed.

Lemma wp_ret {A} (a : A) (Q : A -> world G C R -> Prop) w : Q a w -> wp (io_ret a) Q w.
Proof. done. Qed.

Lemma wp_get (Q : G -> world G C R -> Prop) w : Q (globals w) w -> wp io_get Q w.
Proof. done. Qed.

Lemma wp_mod f (Q : unit -> world G C R -> Prop) w :
  Q tt (World (f (globals w)) (trace w)) -> wp (io_mod f) Q w.
Proof. done. Qed.

Lemma wp_call answer c (Q : R -> world G C R -> Prop) w :
  Q (answer (trace w) c) (World (globals w) (trace w ++ [(c, answer (trace w) c)])) -> wp (io_call answer c) Q w.
Proof. done. Qed.

(** A call whose answer does not matter, or is only known to be the oracle's. *)
Lemma sys_any answer c (Q : R -> world G C R -> Prop) w :
  (forall r, Q r (World (globals w) (trace w ++ [(c, r)]))) -> wp (io_call answer c) Q w.
Proof. intros HQ. apply HQ. Qed.

Lemma sys_eq answer c (Q : R -> world G C R -> Prop) w :
  (forall r, r = answer (trace w) c -> Q r (World (globals w) (trace w ++ [(c, r)]))) -> wp (io_call answer c) Q w.
Proof. intros HQ. by apply HQ. Qed.

Lemma wp_pure {A} (f : G -> option (A * G)) a g (Q : A -> world G C R -> Prop) w :
  f (globals w) = Some (a, g) -> Q a (World g (trace w)) -> wp (io_pure f) Q w.
Proof. unfold wp, io_pure. by intros ->. Qed.

Lemma wp_mono {A} (m : io G C R A) (Q Q' : A -> world G C R -> Prop) w :
  wp m Q w -> (forall a w', Q a w' -> Q' a w') -> wp m Q' w.
Proof. unfold wp. destruct (m w) as [[a w']|]; [|done]. auto. Qed.

Lemma wp_total {A} (m : io G C R A) Q w : wp m Q w -> exists a w', m w = Some (a, w') /\ Q a w'.
Proof. unfold wp. destruct (m w) as [[a w']|]; [|done]. eauto. Qed.
End Wp.

(** One step of a handler. *)
Ltac wp_step :=
  match goal with
  | |- wp (io_bind _ _) _ _ => apply wp_bind
  | |- wp (io_ret _) _ _ => apply wp_ret
  | |- wp io_get _ _ => apply wp_get
  | |- wp (io_mod _) _ _ => apply wp_mod
  | |- wp (io_call _ _) _ _ => apply wp_call
  end.

(** The same, forgetting what a call answers. *)
Ltac sys_step := first [wp_step | apply sys_any; intros ?].

Notation "'do' x <- m ; k" := (io_bind m (fun x => k))
  (at level 10, x name, m at level 100, k at level 200) : c_scope.
Notation "m ;; k" := (io_bind m (fun _ => k))
  (at level 100, right associativity) : c_scope.

(** ** Tactics of the development *)

(** Case analysis on the boolean comparisons of integers in the goal. *)
Ltac zcases :=
  repeat match goal with
    | |- context [?a <? ?b] => destruct (Z.ltb_spec a b)
    | |- context [?a <=? ?b] => destruct (Z.leb_spec a b)
    | |- context [?a =? ?b] => destruct (Z.eqb_spec a b)
    end.

(** The same in a hypothesis. *)
Ltac zcases_in H :=
  repeat match type of H with
    | context [?a <? ?b] => destruct (Z.ltb_spec a b)
    | context [?a <=? ?b] => destruct (Z.leb_spec a b)
    | context [?a =? ?b] => destruct (Z.eqb_spec a b)
    end.

(** Decides a statement over all values of a byte by computing the 256 cases. *)
Lemma u8_forall (P : Z -> bool) :
  forallb P (map Z.of_nat (seq 0 256)) = true -> forall z, is_u8 z -> P z = true.
Proof.
  intros Hall z Hz. rewrite forallb_forall in Hall. apply Hall.
  apply in_map_iff. exists (Z.to_nat z). unfold is_u8 in Hz. split; [lia|].
  apply in_seq. lia.
Qed.

(** Proves a decidable closed proposition by computing its decision procedure. *)
Ltac by_compute := apply (bool_decide_unpack _); vm_compute; exact I.

(** Splits a conjunction and closes the parts that are immediate. *)
Ltac split_auto :=
  split_and!; repeat match goal with
    | _ => assumption
    | |- _ = _ => first [ reflexivity | done | lia ]
    | |- Forall _ [] => apply Forall_nil_2
    | |- Forall _ (_ :: _) => constructor
    | _ => first [ done | lia ]
    end.
