(* ===== verification/Effects.v ===== *)
(** Programs with effects, besides what Prelude.v says of them: aborting, partial correctness, and what a part of a
    program keeps. *)
From stdpp Require Import gmap.
From S2P Require Import Prelude.

(** ** Parts of a program that may abort

    [LOG_ALWAYS_FATAL] and an exception end the process: the result is [None]. *)
Section Abort.
Context {G C R : Type}.
Definition attempt {A B} (m : io G C R (option A)) (k : A -> io G C R (option B)) : io G C R (option B) :=
  io_bind m (fun o => match o with Some a => k a | None => io_ret None end).
Definition abort {A} : io G C R (option A) := io_ret None.
Definition undefined {A} : io G C R A := fun _ => None.
(** A pure computation; [None] is an access outside of the memory. *)
Definition lift {A} (o : option A) : io G C R A := fun w => match o with Some a => Some (a, w) | None => None end.
End Abort.

Notation "'try' x <- m ; k" := (attempt m (fun x => k))
  (at level 10, x name, m at level 100, k at level 200) : c_scope.

Section Rules.
Context {G C R : Type}.
Lemma wp_attempt {A B} (m : io G C R (option A)) (k : A -> io G C R (option B)) Q w :
  wp m (fun o w' => match o with Some a => wp (k a) Q w' | None => Q None w' end) w -> wp (attempt m k) Q w.
Proof. intros Hm. apply wp_bind. eapply wp_mono; [exact Hm|]. by intros [a|] w'. Qed.

Lemma wp_lift {A} (o : option A) a (Q : A -> world G C R -> Prop) w : o = Some a -> Q a w -> wp (lift o) Q w.
Proof. by intros ->. Qed.

(** ** Partial correctness: if [m] ends, it ends as [Q] says *)
Definition wlp {A} (m : io G C R A) (Q : A -> world G C R -> Prop) (w : world G C R) : Prop :=
  match m w with Some (a, w') => Q a w' | None => True end.

Lemma wlp_bind {A B} (m : io G C R A) (k : A -> io G C R B) Q w :
  wlp m (fun a w' => wlp (k a) Q w') w -> wlp (io_bind m k) Q w.
Proof. unfold wlp, io_bind. by destruct (m w) as [[a w']|]. Qed.

Lemma wlp_attempt {A B} (m : io G C R (option A)) (k : A -> io G C R (option B)) Q w :
  wlp m (fun o w' => match o with Some a => wlp (k a) Q w' | None => Q None w' end) w -> wlp (attempt m k) Q w.
Proof. unfold wlp, attempt, io_bind. destruct (m w) as [[[a|] w']|]; auto. Qed.

Lemma wlp_mono {A} (m : io G C R A) (Q Q' : A -> world G C R -> Prop) w :
  wlp m Q w -> (forall a w', Q a w' -> Q' a w') -> wlp m Q' w.
Proof. unfold wlp. destruct (m w) as [[a w']|]; auto. Qed.

Lemma wlp_lift {A} (o : option A) (Q : A -> world G C R -> Prop) w : (forall a, o = Some a -> Q a w) -> wlp (lift o) Q w.
Proof. unfold wlp, lift. destruct o; auto. Qed.

(** ** What a part of the program keeps

    [rel w w'] relates the worlds before and after; it is reflexive and transitive. *)
Context (rel : world G C R -> world G C R -> Prop) `{!PreOrder rel}.
Definition keeps {A} (m : io G C R A) : Prop := forall w, wlp m (fun _ w' => rel w w') w.

Lemma keeps_ret {A} (a : A) : keeps (io_ret a).
Proof. intros w. unfold wlp, io_ret. reflexivity. Qed.
Lemma keeps_get : keeps io_get.
Proof. intros w. unfold wlp, io_get. reflexivity. Qed.
Lemma keeps_undefined {A} : keeps (A := A) undefined.
Proof. by intros w. Qed.
Lemma keeps_abort {A} : keeps (A := option A) abort.
Proof. apply keeps_ret. Qed.
Lemma keeps_lift {A} (o : option A) : keeps (lift o).
Proof. intros w. apply wlp_lift. reflexivity. Qed.
Lemma keeps_bind {A B} (m : io G C R A) (k : A -> io G C R B) : keeps m -> (forall a, keeps (k a)) -> keeps (io_bind m k).
Proof.
  intros Hm Hk w. apply wlp_bind. eapply wlp_mono; [apply Hm|]. cbn beta. intros a w1 H1.
  eapply wlp_mono; [apply Hk|]. cbn beta. intros _ w2 H2. by transitivity w1.
Qed.
Lemma keeps_attempt {A B} (m : io G C R (option A)) (k : A -> io G C R (option B)) :
  keeps m -> (forall a, keeps (k a)) -> keeps (attempt m k).
Proof. intros Hm Hk. apply keeps_bind; [done|]. intros [a|]; [apply Hk|apply keeps_ret]. Qed.
End Rules.

(** The structure of a part of the program; what is left are its calls and its changes of the state. *)
Ltac keeps_step :=
  match goal with
  | |- keeps _ (io_ret _) => apply keeps_ret; typeclasses eauto
  | |- keeps _ io_get => apply keeps_get; typeclasses eauto
  | |- keeps _ undefined => apply keeps_undefined; typeclasses eauto
  | |- keeps _ abort => apply keeps_abort; typeclasses eauto
  | |- keeps _ (lift _) => apply keeps_lift; typeclasses eauto
  | |- keeps _ (io_bind _ _) => apply keeps_bind; [typeclasses eauto| |intros ?]
  | |- keeps _ (attempt _ _) => apply keeps_attempt; [typeclasses eauto| |intros ?]
  | |- keeps _ (match ?x with _ => _ end) => destruct x
  | |- keeps _ (let _ := _ in _) => cbv zeta
  end.
Create HintDb keeps.
Ltac keeps_all := repeat first [solve [auto with keeps nocore] | keeps_step].
