(* ===== verification/Maps.v ===== *)
(** Ordered maps with integers as keys: [std::map] of C++ and [DefaultKeyedVector] of Android, of which the code uses that
    it keeps the pairs in the order of their keys, and has the value NULL for a key that is missing. *)
From Stdlib Require Import List Sorted.
From stdpp Require Import gmap.
From S2P Require Import Prelude.

Definition keyed_vector (V : Type) : Type := list (Z * V).

Section KeyedVector.
Context {V : Type}.
Implicit Types (l : keyed_vector V).

Fixpoint valueFor (k : Z) l : option V :=
  match l with [] => None | e :: l => if k =? e.1 then Some e.2 else valueFor k l end.
Fixpoint kv_add (k : Z) (v : V) l : keyed_vector V :=
  match l with
  | [] => [(k, v)]
  | e :: l' => if k =? e.1 then (k, v) :: l' else if k <? e.1 then (k, v) :: l else e :: kv_add k v l'
  end.
Definition removeItem (k : Z) l : keyed_vector V := List.filter (fun e => negb (e.1 =? k)) l.
End KeyedVector.

Section Facts.
Context {V : Type}.
Implicit Types (l : keyed_vector V).

(** The keys in order. *)
Definition sorted_keys l : Prop := StronglySorted Z.lt (map fst l).

Lemma valueFor_in k v l : valueFor k l = Some v -> In (k, v) l.
Proof.
  induction l as [|[k' v'] l IH]; cbn; [done|]. destruct (Z.eqb_spec k k') as [->|]; [intros [= ->]; by left|auto].
Qed.

Lemma in_valueFor k v l : sorted_keys l -> In (k, v) l -> valueFor k l = Some v.
Proof.
  unfold sorted_keys. induction l as [|[k' v'] l IH]; cbn; [done|]. intros [Hs Hlt]%StronglySorted_inv [[= -> ->]|Hin]; [by rewrite Z.eqb_refl|].
  destruct (Z.eqb_spec k k') as [->|]; [|auto]. rewrite List.Forall_forall in Hlt. specialize (Hlt k' (in_map fst _ _ Hin)). lia.
Qed.

Lemma valueFor_add k v l k' : valueFor k' (kv_add k v l) = if k' =? k then Some v else valueFor k' l.
Proof.
  induction l as [|[k0 v0] l IH]; cbn [kv_add valueFor fst snd]; [by destruct (k' =? k)|].
  destruct (Z.eqb_spec k k0) as [->|]; cbn [valueFor fst snd]; [by destruct (k' =? k0)|].
  destruct (k <? k0); cbn [valueFor fst snd]; [done|]. rewrite IH.
  destruct (Z.eqb_spec k' k0) as [->|]; [|done]. destruct (Z.eqb_spec k0 k); [lia|done].
Qed.

Lemma in_kv_add k v l e : In e (kv_add k v l) -> e = (k, v) \/ In e l.
Proof.
  induction l as [|e0 l IH]; cbn; [by intros [->|?]; [left|]|].
  destruct (k =? e0.1), (k <? e0.1); cbn; intros H; destruct_or?; subst; auto; destruct (IH H); auto.
Qed.

Lemma kv_add_sorted k v l : sorted_keys l -> sorted_keys (kv_add k v l).
Proof.
  unfold sorted_keys. induction l as [|[k0 v0] l IH]; cbn; [repeat constructor|]. intros Hs. pose proof Hs as [Hs' Hlt]%StronglySorted_inv.
  destruct (Z.eqb_spec k k0) as [->|]; cbn [map fst]; [by constructor|]. destruct (Z.ltb_spec k k0); cbn [map fst].
  - constructor; [done|]. constructor; [lia|]. eapply List.Forall_impl; [|exact Hlt]. cbn. lia.
  - constructor; [auto|]. apply List.Forall_forall. intros x Hx. apply in_map_iff in Hx as (e & <- & He).
    apply in_kv_add in He as [->|He]; cbn; [lia|]. rewrite List.Forall_forall in Hlt. apply Hlt, in_map, He.
Qed.

Lemma removeItem_in k l e : In e (removeItem k l) <-> In e l /\ e.1 <> k.
Proof. unfold removeItem. rewrite filter_In. destruct (Z.eqb_spec e.1 k); cbn; intuition congruence. Qed.

Lemma valueFor_remove k l k' : valueFor k' (removeItem k l) = if k' =? k then None else valueFor k' l.
Proof.
  unfold removeItem. induction l as [|[k0 v0] l IH]; cbn [List.filter valueFor fst snd]; [by destruct (_ =? _)|].
  destruct (Z.eqb_spec k0 k) as [->|]; cbn [negb valueFor fst snd]; rewrite IH; [by destruct (k' =? k)|].
  destruct (Z.eqb_spec k' k0) as [->|]; [|done]. by destruct (Z.eqb_spec k0 k).
Qed.

Lemma removeItem_sorted k l : sorted_keys l -> sorted_keys (removeItem k l).
Proof.
  unfold sorted_keys, removeItem. induction l as [|[k0 v0] l IH]; [done|]. cbn [map fst List.filter].
  intros [Hs Hlt]%StronglySorted_inv. destruct (negb _); [|auto]. cbn [map fst]. constructor; [auto|].
  apply List.Forall_forall. intros x Hx. apply in_map_iff in Hx as (e & <- & He). apply removeItem_in in He as [He _].
  rewrite List.Forall_forall in Hlt. apply Hlt, in_map, He.
Qed.

Lemma valueFor_none k l : valueFor k l = None -> ~ In k (map fst l).
Proof.
  induction l as [|[k0 v0] l IH]; cbn; [tauto|]. destruct (Z.eqb_spec k k0); [done|]. intros H [?|?]; [lia|by apply IH].
Qed.

Lemma sorted_keys_nodup l : sorted_keys l -> List.NoDup (map fst l).
Proof.
  unfold sorted_keys. induction 1 as [|k ks Hs IH Hlt]; constructor; [|done]. intros Hin. rewrite List.Forall_forall in Hlt.
  specialize (Hlt k Hin). lia.
Qed.
Lemma in_kv_add_iff k v l k' v' : sorted_keys l ->
  In (k', v') (kv_add k v l) <-> (k' = k /\ v' = v) \/ (k' <> k /\ In (k', v') l).
Proof.
  intros Hs. split.
  - intros H%(in_valueFor _ _ _ (kv_add_sorted k v l Hs)). rewrite valueFor_add in H.
    destruct (Z.eqb_spec k' k) as [->|]; [left; by injection H as ->|right; split; [done|by apply valueFor_in]].
  - intros [[-> ->]|[Hne H]]; apply valueFor_in; rewrite valueFor_add; [by rewrite Z.eqb_refl|].
    destruct (Z.eqb_spec k' k); [done|]. by apply in_valueFor.
Qed.

Lemma length_kv_add k v l : sorted_keys l ->
  length (kv_add k v l) = match valueFor k l with Some _ => length l | None => S (length l) end.
Proof.
  induction l as [|[k0 v0] l IH]; [done|]. unfold sorted_keys. cbn [map fst kv_add valueFor snd].
  intros [Hs Hlt]%StronglySorted_inv. destruct (Z.eqb_spec k k0) as [->|]; [done|].
  destruct (Z.ltb_spec k k0); cbn [length]; [|rewrite IH by done; by destruct (valueFor k l)].
  destruct (valueFor k l) as [x|] eqn:E; [|done]. apply valueFor_in in E. rewrite List.Forall_forall in Hlt.
  specialize (Hlt k (in_map fst _ _ E)). lia.
Qed.

Lemma valueFor_Some_iff k v l : sorted_keys l -> valueFor k l = Some v <-> In (k, v) l.
Proof. intros. split; [apply valueFor_in|by apply in_valueFor]. Qed.

Lemma aget_sorted l i k v : sorted_keys l -> aget l i = Some (k, v) -> valueFor k l = Some v.
Proof.
  intros Hs H. apply in_valueFor; [done|]. unfold aget in H. destruct (0 <=? i); [|done].
  apply list_elem_of_In, (list_elem_of_lookup_2 _ _ _ H).
Qed.

(** Setting the element that [aget] finds is setting its key. *)
Lemma aset_kv_add l i k v v' : sorted_keys l -> aget l i = Some (k, v) -> aset l i (k, v') = Some (kv_add k v' l).
Proof.
  intros Hs H. pose proof (aget_Some_range _ _ _ H) as Hr. rewrite aset_in by done. f_equal.
  unfold aget in H. destruct (0 <=? i); [|done]. clear Hr. revert H. generalize (Z.to_nat i) as n. intros n.
  revert n Hs. induction l as [|[k0 v0] l IH]; intros n; [done|]. unfold sorted_keys. cbn [map fst].
  intros [Hs Hlt]%StronglySorted_inv. destruct n as [|n]; cbn [lookup list_lookup kv_add fst insert list_insert].
  - intros [= -> ->]. by rewrite Z.eqb_refl.
  - intros H. assert (k0 < k) as Hk.
    { rewrite List.Forall_forall in Hlt. apply Hlt. change k with (fst (k, v)). apply in_map, list_elem_of_In, (list_elem_of_lookup_2 _ n), H. }
    destruct (Z.eqb_spec k k0); [lia|]. destruct (Z.ltb_spec k k0); [lia|]. f_equal. by apply IH.
Qed.

(** The element with the key, in its place. *)
Lemma kv_add_app k v v' (A B : keyed_vector V) : sorted_keys (A ++ (k, v) :: B) -> kv_add k v' (A ++ (k, v) :: B) = A ++ (k, v') :: B.
Proof.
  unfold sorted_keys. induction A as [|[k0 v0] A IH]; cbn; [by rewrite Z.eqb_refl|].
  intros [Hs Hlt]%StronglySorted_inv. assert (k0 < k) as Hk.
  { rewrite List.Forall_forall in Hlt. apply Hlt. rewrite map_app. apply in_or_app. by right; left. }
  destruct (Z.eqb_spec k k0); [lia|]. destruct (Z.ltb_spec k k0); [lia|]. by rewrite IH.
Qed.

Lemma removeItem_notin k l : ~ In k (map fst l) -> removeItem k l = l.
Proof.
  unfold removeItem. induction l as [|[k0 v0] l IH]; cbn; [done|]. intros H. destruct (Z.eqb_spec k0 k) as [->|]; [destruct H; by left|].
  cbn. rewrite IH; [done|]. intros ?. apply H. by right.
Qed.

Lemma removeItem_app k v (A B : keyed_vector V) : sorted_keys (A ++ (k, v) :: B) -> removeItem k (A ++ (k, v) :: B) = A ++ B.
Proof.
  intros Hs%sorted_keys_nodup. rewrite map_app in Hs. cbn in Hs. apply List.NoDup_remove_2 in Hs. rewrite in_app_iff in Hs.
  unfold removeItem. rewrite List.filter_app. cbn. rewrite Z.eqb_refl. cbn.
  fold (removeItem k A) (removeItem k B). by rewrite !removeItem_notin by tauto.
Qed.

Lemma removeItem_add k v l : sorted_keys l -> removeItem k (kv_add k v l) = removeItem k l.
Proof.
  unfold sorted_keys, removeItem. induction l as [|[k0 v0] l IH]; cbn; [by rewrite Z.eqb_refl|]. intros [Hs Hlt]%StronglySorted_inv.
  destruct (Z.eqb_spec k k0) as [->|]; cbn; [by rewrite !Z.eqb_refl|]. destruct (Z.ltb_spec k k0); cbn; [by rewrite Z.eqb_refl|].
  by rewrite IH.
Qed.
End Facts.
