(* ===== verification/Threads.v ===== *)
(** Programs as trees of atomic steps: one of them run on its own, and two of them that run at once on the
    same memory. What each may rely on is a [sharing]; the rules for its two sides are proved here, and those for one that
    asks the other to end and waits for it. *)
From stdpp Require Import base relations.
From S2P Require Import Prelude.

(** ** Programs *)

(** A step waits until [ready] holds of the memory and of the calls made so far, and then does [m] with nothing in
    between. *)
Inductive prog (G C R A : Type) : Type :=
  | Ret (a : A)
  | Step {B : Type} (ready : world G C R -> bool) (m : io G C R B) (k : B -> prog G C R A).
Arguments Ret {G C R A}. Arguments Step {G C R A B}.

Section Prog.
Context {G C R : Type}.

Fixpoint prog_bind {A B} (p : prog G C R A) (k : A -> prog G C R B) : prog G C R B :=
  match p with
  | Ret a => k a
  | Step ready m c => Step ready m (fun b => prog_bind (c b) k)
  end.

Definition at_once {A} (m : io G C R A) : prog G C R A := Step (fun _ => true) m Ret.
Definition await {A} (ready : world G C R -> bool) (m : io G C R A) : prog G C R A := Step ready m Ret.
Definition when {A} (ready : G -> bool) (m : io G C R A) : prog G C R A := await (fun w => ready (globals w)) m.

(** The program on its own: a step that would have to wait is [m]'s to refuse. *)
Fixpoint run {A} (p : prog G C R A) : io G C R A :=
  match p with
  | Ret a => io_ret a
  | Step _ m k => io_bind m (fun b => run (k b))
  end.

Lemma run_bind {A B} (p : prog G C R A) (k : A -> prog G C R B) w :
  run (prog_bind p k) w = io_bind (run p) (fun a => run (k a)) w.
Proof.
  revert w. induction p as [a|B' ready m c IH]; intros w; cbn [prog_bind run]; [done|].
  unfold io_bind at 1 2 3. destruct (m w) as [[b w']|]; [apply IH|done].
Qed.

Lemma run_at_once {A} (m : io G C R A) w : run (at_once m) w = m w.
Proof. cbn [run at_once]. unfold io_bind, io_ret. by destruct (m w) as [[]|]. Qed.
End Prog.

Coercion at_once : io >-> prog.

Declare Scope prog_scope.
Delimit Scope prog_scope with prog.
Notation "'do' x <- m ; k" := (prog_bind m (fun x => k)) : prog_scope.

Section Runs.
Context {G C R : Type}.
Implicit Types (w : world G C R).

Lemma wp_run_bind {A B} (p : prog G C R A) (k : A -> prog G C R B) Q w :
  wp (run p) (fun a w' => wp (run (k a)) Q w') w -> wp (run (prog_bind p k)) Q w.
Proof. intros Hp. unfold wp. rewrite run_bind. by apply wp_bind. Qed.

Lemma wp_run_at_once {A} (m : io G C R A) Q w : wp m Q w -> wp (run (at_once m)) Q w.
Proof. intros Hm. unfold wp. by rewrite run_at_once. Qed.
End Runs.

(** ** Two threads *)
Record threads (G C R A B : Type) := mk_threads { shared : world G C R; left : prog G C R A; right : prog G C R B }.
Arguments mk_threads {G C R A B}. Arguments shared {G C R A B}. Arguments left {G C R A B}. Arguments right {G C R A B}.

Section Machine.
Context {G C R : Type}.
Implicit Types (w : world G C R).

(** The next step of a program, if it has one, does not have to wait, and is defined. *)
Definition advance {A} w (p : prog G C R A) : option (world G C R * prog G C R A) :=
  match p with
  | Ret _ => None
  | Step ready m k => if ready w then match m w with Some (b, w') => Some (w', k b) | None => None end else None
  end.

Inductive thread_step {A B} : threads G C R A B -> threads G C R A B -> Prop :=
  | left_step w p q w' p' : advance w p = Some (w', p') -> thread_step (mk_threads w p q) (mk_threads w' p' q)
  | right_step w p q w' q' : advance w q = Some (w', q') -> thread_step (mk_threads w p q) (mk_threads w' p q').

(** The next step is undefined: an access to memory that is not there. *)
Definition faults {A} w (p : prog G C R A) : Prop :=
  match p with Ret _ => False | Step ready m _ => ready w = true /\ m w = None end.

Definition ended {A B} (t : threads G C R A B) : Prop :=
  match left t, right t with Ret _, Ret _ => True | _, _ => False end.

(** *** A schedule, executed: [true] lets the left thread make a step *)
Fixpoint schedule {A B} (l : list bool) (t : threads G C R A B) : option (threads G C R A B) :=
  match l with
  | [] => Some t
  | true :: l => '(w, p) ← advance (shared t) (left t); schedule l (mk_threads w p (right t))
  | false :: l => '(w, q) ← advance (shared t) (right t); schedule l (mk_threads w (left t) q)
  end.

Lemma schedule_steps {A B} l (t t' : threads G C R A B) : schedule l t = Some t' -> rtc thread_step t t'.
Proof.
  revert t. induction l as [|[] l IH]; intros [w p q]; cbn [schedule shared left right]; [by intros [= ->]| |].
  - destruct (advance w p) as [[w1 p1]|] eqn:E; [|done]. cbn. intros Hs. eapply rtc_l; [|by apply IH].
    by apply left_step.
  - destruct (advance w q) as [[w1 q1]|] eqn:E; [|done]. cbn. intros Hs. eapply rtc_l; [|by apply IH].
    by apply right_step.
Qed.

Lemma thread_step_cases {A B} (t t' : threads G C R A B) :
  thread_step t t' ->
  (exists w' p', advance (shared t) (left t) = Some (w', p') /\ t' = mk_threads w' p' (right t))
  \/ (exists w' q', advance (shared t) (right t) = Some (w', q') /\ t' = mk_threads w' (left t) q').
Proof. intros [w p q w' p' E|w p q w' q' E]; [left|right]; eauto. Qed.

Lemma advance_cases {A} w (p : prog G C R A) w' p' :
  advance w p = Some (w', p') ->
  match p with
  | Ret _ => False
  | Step ready m k => ready w = true /\ exists b, m w = Some (b, w') /\ p' = k b
  end.
Proof.
  destruct p as [a|X ready m k]; cbn [advance]; [done|]. destruct (ready _); [|done].
  destruct (m w) as [[b w1]|]; [|done]. intros [= <- <-]. eauto.
Qed.

Lemma advance_ready {A B} w ready (m : io G C R A) (k : A -> prog G C R B) :
  ready w = true -> ~ faults w (Step ready m k) -> exists w' p', advance w (Step ready m k) = Some (w', p').
Proof.
  intros Hr Hf. cbn [advance]. rewrite Hr. destruct (m w) as [[b w']|] eqn:E; [eauto|]. by destruct Hf.
Qed.

(** *** Every schedule comes to an end: the programs are finite trees *)
Lemma threads_terminate {A B} (t : threads G C R A B) : Acc (fun t' t => thread_step t t') t.
Proof.
  assert (forall w (p : prog G C R A) (q : prog G C R B),
    (forall w' p', advance w p = Some (w', p') -> Acc (fun t' t => thread_step t t') (mk_threads w' p' q)) ->
    (forall w' q', advance w q = Some (w', q') -> Acc (fun t' t => thread_step t t') (mk_threads w' p q')) ->
    Acc (fun t' t => thread_step t t') (mk_threads w p q)) as Hacc.
  { intros w p q Hl Hr. constructor. intros t' Ht.
    destruct (thread_step_cases _ _ Ht) as [(w' & p' & E & ->)|(w' & q' & E & ->)]; [by apply Hl|by apply Hr]. }
  destruct t as [w p q]. revert w q. induction p as [a|X ready m k IHp]; intros w q; revert w.
  - induction q as [b|Y ready' m' k' IHq]; intros w; apply Hacc; intros w' p' E; apply advance_cases in E; [destruct E..|].
    destruct E as (_ & y & _ & ->). apply IHq.
  - induction q as [b|Y ready' m' k' IHq]; intros w; apply Hacc; intros w' p' E; apply advance_cases in E.
    + destruct E as (_ & x & _ & ->). apply IHp.
    + destruct E.
    + destruct E as (_ & x & _ & ->). apply IHp.
    + destruct E as (_ & y & _ & ->). apply IHq.
Qed.
End Machine.

(** ** Statements about the memory alone

    Whatever happened before, and whatever the calls are answered. *)
Section Always.
Context {G C R : Type}.

Definition always {A} (m : io G C R A) (P : A -> G -> Prop) (g : G) : Prop :=
  forall tr, wp m (fun a w => P a (globals w)) (World g tr).

Lemma always_ret {A} (a : A) (P : A -> G -> Prop) g : P a g -> always (io_ret a) P g.
Proof. intros HP tr. by apply wp_ret. Qed.

Lemma always_bind {A B} (m : io G C R A) (k : A -> io G C R B) P g :
  always m (fun a g => always (k a) P g) g -> always (io_bind m k) P g.
Proof. intros Hm tr. apply wp_bind. eapply wp_mono; [apply Hm|]. intros a [g' tr'] Hk. apply Hk. Qed.

Lemma always_mono {A} (m : io G C R A) (P Q : A -> G -> Prop) g :
  always m P g -> (forall a g, P a g -> Q a g) -> always m Q g.
Proof. intros Hm HPQ tr. eapply wp_mono; [apply Hm|]. intros a w. apply HPQ. Qed.

Lemma always_call answer c (P : R -> G -> Prop) g : (forall r, P r g) -> always (io_call answer c) P g.
Proof. intros HP tr. apply sys_any. intros r. apply HP. Qed.

Lemma always_pure {A} (f : G -> option (A * G)) a g g' (P : A -> G -> Prop) :
  f g = Some (a, g') -> P a g' -> always (io_pure f) P g.
Proof. intros Hf HP tr. eapply wp_pure; [exact Hf|done]. Qed.

Lemma always_get (P : G -> G -> Prop) g : P g g -> always io_get P g.
Proof. intros HP tr. by apply wp_get. Qed.

Lemma always_run {A} (m : io G C R A) P (w : world G C R) :
  always m P (globals w) -> exists a w', m w = Some (a, w') /\ P a (globals w').
Proof. intros Hm. destruct w as [g tr]. apply (wp_total _ _ _ (Hm tr)). Qed.
End Always.

(** A program on its own, from its first step on. *)
Section Runs_step.
Context {G C R : Type}.

Lemma wp_run_step {A B} ready (m : io G C R A) (k : A -> prog G C R B) Q w :
  wp m (fun a w' => wp (run (k a)) Q w') w -> wp (run (prog_bind (Step ready m Ret) k)) Q w.
Proof. apply (wp_bind m (fun a => run (k a))). Qed.

Lemma always_run_bind {A B} (p : prog G C R A) (k : A -> prog G C R B) P g :
  always (run p) (fun a g => always (run (k a)) P g) g -> always (run (prog_bind p k)) P g.
Proof. intros Hp tr. unfold wp. rewrite run_bind. by apply (always_bind (run p) (fun a => run (k a))). Qed.

Lemma always_run_step {A B} ready (m : io G C R A) (k : A -> prog G C R B) P g :
  always m (fun a g => always (run (k a)) P g) g -> always (run (prog_bind (Step ready m Ret) k)) P g.
Proof. apply (always_bind m (fun a => run (k a))). Qed.
End Runs_step.

Ltac al_step :=
  match goal with
  | |- always (run (Ret _)) _ _ => apply always_ret
  | |- always (run (prog_bind (at_once _) _)) _ _ => apply always_run_step
  | |- always (run (prog_bind _ _)) _ _ => apply always_run_bind
  | |- always (io_bind _ _) _ _ => apply always_bind
  | |- always (io_ret _) _ _ => apply always_ret
  | |- always (io_call _ _) _ _ => apply always_call; intros ?
  | |- always io_get _ _ => apply always_get
  end.

(** ** Statements about the memory, where the calls made are those that [T] allows *)
Section Within.
Context {G C R : Type} (T : C -> Prop).

Definition within {A} (m : io G C R A) (P : A -> G -> Prop) (g : G) : Prop :=
  forall tr, wp m (fun a w => P a (globals w) /\ exists tr', trace w = tr ++ tr' /\ Forall (fun e => T e.1) tr') (World g tr).

Lemma within_ret {A} (a : A) (P : A -> G -> Prop) g : P a g -> within (io_ret a) P g.
Proof. intros HP tr. apply wp_ret. split; [done|]. exists []. by rewrite app_nil_r. Qed.

Lemma within_bind {A B} (m : io G C R A) (k : A -> io G C R B) P g :
  within m (fun a g => within (k a) P g) g -> within (io_bind m k) P g.
Proof.
  intros Hm tr. apply wp_bind. eapply wp_mono; [apply Hm|]. cbn beta. intros a [g' tr1] [Hk (tr' & E & Ht)]. cbn in E. subst tr1.
  eapply wp_mono; [apply Hk|]. cbn beta. intros b w [HP (tr2 & E & Ht2)]. split; [done|].
  exists (tr' ++ tr2). split; [by rewrite E, app_assoc|]. by apply list.Forall_app.
Qed.

Lemma within_call answer c (P : R -> G -> Prop) g : T c -> (forall r, P r g) -> within (io_call answer c) P g.
Proof. intros Hc HP tr. apply sys_any. intros r. split; [apply HP|]. eexists. split; [done|]. by repeat constructor. Qed.

Lemma within_pure {A} (f : G -> option (A * G)) a g g' (P : A -> G -> Prop) :
  f g = Some (a, g') -> P a g' -> within (io_pure f) P g.
Proof.
  intros Hf HP tr. eapply wp_pure; [exact Hf|]. split; [done|]. exists []. by rewrite app_nil_r.
Qed.

Lemma within_mono {A} (m : io G C R A) (P Q : A -> G -> Prop) g :
  within m P g -> (forall a g, P a g -> Q a g) -> within m Q g.
Proof. intros Hm HPQ tr. eapply wp_mono; [apply Hm|]. cbn beta. intros a w [HP Ht]. split; [by apply HPQ|done]. Qed.

(** A part that makes no call. *)
Lemma within_silent {A} (m : io G C R A) (P : A -> G -> Prop) g :
  (forall tr, wp m (fun a w => P a (globals w) /\ trace w = tr) (World g tr)) -> within m P g.
Proof.
  intros Hm tr. eapply wp_mono; [apply Hm|]. cbn beta. intros a w [HP ->]. split; [done|]. exists []. by rewrite app_nil_r.
Qed.
End Within.

(** A program on its own. *)
Lemma within_run_bind {G C R A B} T (p : prog G C R A) (k : A -> prog G C R B) P g :
  within T (run p) (fun a g => within T (run (k a)) P g) g -> within T (run (prog_bind p k)) P g.
Proof. intros Hp tr. unfold wp. rewrite run_bind. by apply (within_bind T (run p) (fun a => run (k a))). Qed.

Lemma within_run_step {G C R A B} T ready (m : io G C R A) (k : A -> prog G C R B) P g :
  within T m (fun a g => within T (run (k a)) P g) g -> within T (run (prog_bind (Step ready m Ret) k)) P g.
Proof. intros Hm. by apply (within_bind T m (fun a => run (k a))). Qed.

Lemma within_run_at_once {G C R A} T (m : io G C R A) P g : within T m P g -> within T (run (at_once m)) P g.
Proof. intros Hm tr. by apply wp_run_at_once. Qed.

(** ** What two threads may rely on

    [D] says what the left thread is in the middle of. [seen d g h]: the memory is [h], when the right
    thread's part of it is [g] and the left one's is [d]; [kept] holds of every [g] in between the steps of
    the right thread. [exclusive d]: the left thread is where the right one may have to wait for it;
    [idle g]: the right thread is not where the left one may have to wait. *)
Class sharing (G D : Type) := {
  seen : D -> G -> G -> Prop;
  kept : G -> Prop;
  exclusive : D -> bool;
  idle : G -> Prop;
  nobody : D;
  seen_nobody g h : seen nobody g h <-> h = g;
  nobody_exclusive : exclusive nobody = false
}.

Section Sharing.
Context {G C R D : Type} `{!sharing G D}.
Implicit Types (g h : G) (d : D).

(** The right thread from [p] on: whatever the left one is doing, each step is defined, waits for the left
    one only, and changes nothing but its own part; at the end [P] holds of the result and that part. *)
Fixpoint right_safe {A} (p : prog G C R A) (P : A -> G -> Prop) (g : G) : Prop :=
  match p with
  | Ret a => P a g
  | Step ready m k => kept g ->
      (forall d h tr, seen d g h -> exclusive d = false -> ready (World h tr) = true)
      /\ forall d h tr, seen d g h -> ready (World h tr) = true ->
           wp m (fun b w => exists g', seen d g' (globals w) /\ kept g' /\ right_safe (k b) P g') (World h tr)
  end.

(** The left thread, which only makes calls that [T] allows. *)
Fixpoint left_safe (T : C -> Prop) {A} (p : prog G C R A) (Q : A -> D -> Prop) (d : D) : Prop :=
  match p with
  | Ret a => Q a d
  | Step ready m k =>
      (forall g h tr, kept g -> seen d g h -> idle g \/ exclusive d = true -> ready (World h tr) = true)
      /\ forall g h, kept g -> seen d g h -> (exists tr, ready (World h tr) = true) ->
           within T m (fun b h' => exists d', seen d' g h' /\ left_safe T (k b) Q d') h
  end.

(** *** Rules *)
Lemma right_mono {A} (p : prog G C R A) (P Q : A -> G -> Prop) g :
  right_safe p P g -> (forall a g, P a g -> Q a g) -> right_safe p Q g.
Proof.
  intros Hp HPQ. revert g Hp. induction p as [a|X ready m k IH]; intros g; cbn [right_safe]; [by apply HPQ|].
  intros Hs Hk. destruct (Hs Hk) as [Hw Hm]. split; [exact Hw|]. intros d h tr Hd Hr.
  eapply wp_mono; [by eapply Hm|]. cbn beta. intros b w (g' & Hd' & Hk' & Hs'). eauto 6.
Qed.

Lemma right_bind {A B} (p : prog G C R A) (k : A -> prog G C R B) P g :
  right_safe p (fun a g => right_safe (k a) P g) g -> right_safe (prog_bind p k) P g.
Proof.
  revert g. induction p as [a|X ready m c IH]; intros g; cbn [right_safe prog_bind]; [done|].
  intros Hs Hk. destruct (Hs Hk) as [Hw Hm]. split; [exact Hw|]. intros d h tr Hd Hr.
  eapply wp_mono; [by eapply Hm|]. cbn beta. intros b w (g' & Hd' & Hk' & Hs'). eauto 6.
Qed.

(** A step that only makes calls. *)
Lemma right_local {A} (m : io G C R A) (Q : A -> Prop) (P : A -> G -> Prop) g :
  (forall h, always m (fun a h' => h' = h /\ Q a) h) -> (forall a, Q a -> P a g) -> right_safe (at_once m) P g.
Proof.
  intros Hm HP Hk. split; [done|]. intros d h tr Hd _. eapply wp_mono; [apply Hm|]. cbn beta. intros a w [-> Ha].
  exists g. split; [done|]. split; [done|]. by apply HP.
Qed.

(** Each step of the right thread on its own is one of the whole. *)
Lemma right_run {A} (p : prog G C R A) (P : A -> G -> Prop) g :
  kept g -> right_safe p P g -> always (run p) (fun a g' => P a g' /\ kept g') g.
Proof.
  revert g. induction p as [a|X ready m k IH]; intros g Hk Hs; cbn [run]; [by apply always_ret|].
  cbn [right_safe] in Hs. destruct (Hs Hk) as [Hw Hm]. pose proof (proj2 (seen_nobody g g) eq_refl) as Hg.
  apply always_bind. intros tr. eapply wp_mono.
  { apply (Hm _ _ tr Hg). eapply Hw; [exact Hg|apply nobody_exclusive]. }
  cbn beta. intros b w (g' & ->%seen_nobody & Hk' & Hs'). by apply IH.
Qed.

Lemma left_mono T {A} (p : prog G C R A) (P Q : A -> D -> Prop) d :
  left_safe T p P d -> (forall a d, P a d -> Q a d) -> left_safe T p Q d.
Proof.
  intros Hp HPQ. revert d Hp. induction p as [a|X ready m k IH]; intros d; cbn [left_safe]; [by apply HPQ|].
  intros [Hw Hm]. split; [exact Hw|]. intros g h Hk Hd Hr. eapply within_mono; [by apply (Hm g)|]. cbn beta.
  intros b h' (d' & Hd' & Hs'). eauto.
Qed.

Lemma left_weaken (T T' : C -> Prop) {A} (p : prog G C R A) (Q : A -> D -> Prop) d :
  (forall c, T c -> T' c) -> left_safe T p Q d -> left_safe T' p Q d.
Proof.
  intros HT. revert d. induction p as [a|X ready m k IH]; intros d; cbn [left_safe]; [done|].
  intros [Hw Hm]. split; [exact Hw|]. intros g h Hk Hd Hr tr. eapply wp_mono; [by apply (Hm g h Hk Hd Hr)|]. cbn beta.
  intros b w [(d' & Hd' & Hs) (t & Et & Ht)]. split; [by eauto|]. exists t. split; [exact Et|]. eapply list.Forall_impl; [exact Ht|]. auto.
Qed.

Lemma left_bind T {A B} (p : prog G C R A) (k : A -> prog G C R B) Q d :
  left_safe T p (fun a d => left_safe T (k a) Q d) d -> left_safe T (prog_bind p k) Q d.
Proof.
  revert d. induction p as [a|X ready m c IH]; intros d; cbn [left_safe prog_bind]; [done|].
  intros [Hw Hm]. split; [exact Hw|]. intros g h Hk Hd Hr. eapply within_mono; [by apply (Hm g)|]. cbn beta.
  intros b h' (d' & Hd' & Hs'). eauto.
Qed.

Lemma left_local T {A} (m : io G C R A) (P : A -> Prop) (Q : A -> D -> Prop) d :
  (forall g h, kept g -> seen d g h -> within T m (fun a h' => h' = h /\ P a) h) -> (forall a, P a -> Q a d) ->
  left_safe T (at_once m) Q d.
Proof.
  intros Hm HQ. split; [done|]. intros g h Hk Hd _. eapply within_mono; [by apply (Hm g)|]. cbn beta.
  intros a h' [-> Ha]. exists d. split; [done|]. by apply HQ.
Qed.

(** *** Both at once *)
Section Both.
Context {A B : Type} (T : C -> Prop) (Q : A -> D -> Prop) (P : B -> G -> Prop).
Hypothesis HQ : forall a d, Q a d -> exclusive d = false.
Hypothesis HP : forall b g, P b g -> idle g.

Definition both_safe (t : threads G C R A B) : Prop :=
  exists g d, kept g /\ seen d g (globals (shared t)) /\ left_safe T (left t) Q d /\ right_safe (right t) P g.

(** A step of the left thread only makes calls that [T] allows. *)
Lemma left_advance t w p :
  both_safe t -> advance (shared t) (left t) = Some (w, p) ->
  both_safe (mk_threads w p (right t))
  /\ exists tr, trace w = trace (shared t) ++ tr /\ Forall (fun e => T e.1) tr.
Proof.
  destruct t as [[h tr] p0 q]. cbn [left right shared]. intros (g & d & Hk & Hd & Hl & Hr) E. cbn [left right shared globals] in *.
  apply advance_cases in E. destruct p0 as [a|X ready m k]; [destruct E|].
  destruct E as (Hw & b & E & ->). destruct Hl as [_ Hm]. specialize (Hm g _ Hk Hd (ex_intro _ tr Hw) tr).
  unfold wp in Hm. rewrite E in Hm.
  destruct Hm as [(d' & Hd' & Hl') Ht]. split; [exists g, d'; by repeat split|exact Ht].
Qed.

Lemma right_advance t w q :
  both_safe t -> advance (shared t) (right t) = Some (w, q) -> both_safe (mk_threads w (left t) q).
Proof.
  destruct t as [[h tr] p q0]. cbn [left right shared]. intros (g & d & Hk & Hd & Hl & Hr) E. cbn [left right shared globals] in *.
  apply advance_cases in E. destruct q0 as [b|X ready m k]; [destruct E|].
  destruct E as (Hw & b & E & ->). destruct (Hr Hk) as [_ Hm]. specialize (Hm d _ tr Hd Hw).
  unfold wp in Hm. rewrite E in Hm.
  destruct Hm as (g' & Hd' & Hk' & Hr'). exists g', d. by repeat split.
Qed.

Lemma both_steps t t' : both_safe t -> rtc thread_step t t' -> both_safe t'.
Proof.
  intros Ht Hs. induction Hs as [t|t t1 t2 H1 H2 IH]; [done|]. apply IH.
  destruct (thread_step_cases _ _ H1) as [(w & p & E & ->)|(w & q & E & ->)].
  - by apply (left_advance t).
  - by apply right_advance.
Qed.

(** No step is undefined. *)
Lemma both_defined t : both_safe t -> ~ faults (shared t) (left t) /\ ~ faults (shared t) (right t).
Proof.
  intros (g & d & Hk & Hd & Hl & Hr). destruct (shared t) as [h tr] eqn:Ew. cbn [globals] in Hd. split.
  - destruct (left t) as [a|X ready m k]; [tauto|]. intros [Hw E]. destruct Hl as [_ Hm].
    specialize (Hm g h Hk Hd (ex_intro _ tr Hw) tr). unfold wp in Hm. by rewrite E in Hm.
  - destruct (right t) as [b|X ready m k]; [tauto|]. intros [Hw E]. destruct (Hr Hk) as [_ Hm].
    specialize (Hm d h tr Hd Hw). unfold wp in Hm. by rewrite E in Hm.
Qed.

(** Neither waits for the other forever. *)
Lemma both_progress t : both_safe t -> ended t \/ exists t', thread_step t t'.
Proof using HP HQ.
  intros Ht. destruct (both_defined t Ht) as [Hdl Hdr]. destruct Ht as (g & d & Hk & Hd & Hl & Hr).
  destruct t as [[h tr] p q]. cbn [shared left right globals] in *.
  destruct p as [a|X ready m k].
  - destruct q as [b|Y ready' m' k']; [by left|]. right. destruct (Hr Hk) as [Hw _].
    destruct (advance_ready (World h tr) ready' m' k' (Hw _ _ tr Hd (HQ _ _ Hl)) Hdr) as (w' & q' & E).
    eexists. by apply right_step.
  - right. destruct Hl as [Hwl _]. destruct (exclusive d) eqn:Ex.
    + destruct (advance_ready (World h tr) ready m k (Hwl _ _ tr Hk Hd (or_intror eq_refl)) Hdl) as (w' & p' & E).
      eexists. by apply left_step.
    + destruct q as [b|Y ready' m' k'].
      * destruct (advance_ready (World h tr) ready m k (Hwl _ _ tr Hk Hd (or_introl (HP _ _ Hr))) Hdl) as (w' & p' & E).
        eexists. by apply left_step.
      * destruct (Hr Hk) as [Hw _]. destruct (advance_ready (World h tr) ready' m' k' (Hw _ _ tr Hd Ex) Hdr) as (w' & q' & E).
        eexists. by apply right_step.
Qed.

(** What holds when both have ended. *)
Lemma both_ended t a b :
  both_safe t -> left t = Ret a -> right t = Ret b -> exists g d, kept g /\ seen d g (globals (shared t)) /\ Q a d /\ P b g.
Proof. intros (g & d & Hk & Hd & Hl & Hr) El Er. rewrite El in Hl. rewrite Er in Hr. by exists g, d. Qed.
End Both.
End Sharing.

(** ** A hand-over

    The right thread asks the left one to end, waits for its answer, and has the memory to itself from then on.
    [told]: by these calls the left thread has answered, which is the last thing it does. *)
Section Alone.
Context {G C R : Type}.

(** The program on its own: no step has to wait. *)
Fixpoint alone {A} (p : prog G C R A) (Q : A -> world G C R -> Prop) (w : world G C R) : Prop :=
  match p with
  | Ret a => Q a w
  | Step ready m k => ready w = true /\ wp m (fun b w' => alone (k b) Q w') w
  end.

(** A step that would have to wait refuses to be run. *)
Fixpoint honest {A} (p : prog G C R A) : Prop :=
  match p with
  | Ret _ => True
  | Step ready m k => (forall w, ready w = true \/ m w = None) /\ forall b, honest (k b)
  end.

Lemma honest_alone {A} (p : prog G C R A) Q w : honest p -> wp (run p) Q w -> alone p Q w.
Proof.
  revert w. induction p as [a|X ready m k IH]; intros w; cbn [honest run alone]; [by intros _ ?|].
  intros [Hw Hk]. unfold wp, io_bind in *. destruct (m w) as [[b w']|] eqn:E; [|done]. intros HQ.
  destruct (Hw w); [|congruence]. split; [done|]. by apply IH.
Qed.

Lemma honest_bind {A B} (p : prog G C R A) (k : A -> prog G C R B) : honest p -> (forall a, honest (k a)) -> honest (prog_bind p k).
Proof.
  intros Hp Hk. induction p as [a|X ready m c IH]; cbn [prog_bind]; [done|]. destruct Hp as [Hw Hc].
  split; [exact Hw|]. intros b. by apply IH.
Qed.

Lemma honest_at_once {A} (m : io G C R A) : honest (at_once m).
Proof. split; [by left|done]. Qed.
End Alone.

Section Handover.
Context {G C R D : Type} `{!sharing G D} {A B : Type}.
(** The memory until the right thread has the answer; the calls that either makes until then, and those that the
    right one makes; the request. *)
Context (meanwhile : G -> Prop) (U V : C * R -> Prop) (asked : list (C * R) -> Prop) (told : list (C * R) -> bool).
Context (Q : B -> world G C R -> Prop).
Hypothesis Hkept : forall g, meanwhile g -> kept g /\ idle g.

Definition extended (tr0 tr : list (C * R)) : Prop := exists t, tr = tr0 ++ t /\ Forall V t.

Lemma extended_refl tr : extended tr tr.
Proof. exists []. by rewrite app_nil_r. Qed.

Lemma extended_more tr0 tr t : extended tr0 tr -> Forall V t -> extended tr0 (tr ++ t).
Proof. intros (t0 & -> & H0) Ht. exists (t0 ++ t). rewrite app_assoc. split; [done|]. by apply list.Forall_app. Qed.

(** The left thread from [p] on, after the calls [tr0]: it goes on until it answers. Where it waits, it is not for
    long once it has been asked. *)
Fixpoint serves {X} (p : prog G C R X) (tr0 : list (C * R)) (d : D) : Prop :=
  match p with
  | Ret _ => False
  | Step ready m k => forall g h tr, meanwhile g -> seen d g h -> extended tr0 tr -> told tr = false ->
      (asked tr -> ready (World h tr) = true)
      /\ (ready (World h tr) = true ->
          wp m (fun b w => exists t, trace w = tr ++ t /\ Forall U t
             /\ (if told (trace w) then seen nobody g (globals w) /\ exists a, k b = Ret a
                 else exists d', seen d' g (globals w) /\ serves (k b) (trace w) d')) (World h tr))
  end.

(** The right thread: it never waits, until it has asked and waits for the answer. *)
Fixpoint asks {X} (after : list (C * R) -> Prop) (HQ : X -> world G C R -> Prop) (p : prog G C R X) (tr0 : list (C * R)) (g : G) : Prop :=
  match p with
  | Ret _ => False
  | Step ready m k =>
      (forall d h tr, seen d g h -> tr0 `prefix_of` tr ->
         ready (World h tr) = true
         /\ wp m (fun b w => exists g' t, meanwhile g' /\ seen d g' (globals w) /\ trace w = tr ++ t /\ Forall U t /\ Forall V t
              /\ told (trace w) = told tr /\ asks after HQ (k b) (trace w) g') (World h tr))
      \/ ((forall tr, tr0 `prefix_of` tr -> asked tr) /\ (forall w, ready w = told (trace w))
          /\ forall tr, told tr = true -> after tr -> alone (Step ready m k) HQ (World g tr))
  end.

(** *** Rules for the left thread *)

(** A part that neither answers nor waits but for the mutex. *)
Lemma serves_bind {X Y} (T : C -> Prop) (p : prog G C R X) (k : X -> prog G C R Y) P tr0 d :
  (forall c r, T c -> U (c, r)) -> (forall tr t, Forall (fun e => T e.1) t -> told (tr ++ t) = told tr) ->
  (forall c r, T c -> V (c, r)) -> left_safe T p P d -> (forall a d' tr, extended tr0 tr -> P a d' -> serves (k a) tr d') ->
  serves (prog_bind p k) tr0 d.
Proof using Hkept.
  intros HU Ht HV. revert tr0 d. induction p as [a|Z ready m c IH]; intros tr0 d; cbn [left_safe prog_bind].
  { intros HP Hk. apply Hk; [apply extended_refl|exact HP]. }
  intros [Hw Hm] Hk g h tr Hg Hd Hpre Hun. destruct (Hkept g Hg) as [Hkg Hi]. split; [intros _; by eapply Hw; eauto|].
  intros Hr. eapply wp_mono; [by apply (Hm g h Hkg Hd (ex_intro _ tr Hr) tr)|]. cbn beta.
  intros b w [(d' & Hd' & Hs) (t & Et & HT)]. exists t. split; [exact Et|]. split.
  { eapply list.Forall_impl; [exact HT|]. intros [c' r]. apply HU. }
  rewrite Et, Ht, Hun by done. exists d'. split; [exact Hd'|]. rewrite <- Et. apply IH; [exact Hs|].
  intros a d1 tr1 (t1 & -> & Ht1). apply Hk. rewrite Et. apply extended_more; [|exact Ht1]. apply extended_more; [exact Hpre|].
  eapply list.Forall_impl; [exact HT|]. intros [c' r]. apply HV.
Qed.

(** A step that only makes calls, but does not answer. *)
Lemma serves_step {X Y} ready (m : io G C R X) (k : X -> prog G C R Y) tr0 d :
  (forall h tr, extended tr0 tr -> told tr = false -> asked tr -> ready (World h tr) = true) ->
  (forall g h tr, meanwhile g -> seen d g h -> extended tr0 tr -> ready (World h tr) = true -> told tr = false ->
     wp m (fun a w => globals w = h /\ exists t, trace w = tr ++ t /\ Forall U t /\ told (trace w) = false
            /\ serves (k a) (trace w) d) (World h tr)) ->
  serves (Step ready m k) tr0 d.
Proof.
  intros Hw Hm g h tr Hg Hd Hpre Hun. split; [by apply Hw|]. intros Hr. eapply wp_mono; [by apply (Hm g)|]. cbn beta.
  intros a w (-> & t & Et & HU & Hn & Hs). exists t. split; [exact Et|]. split; [exact HU|]. rewrite Hn. exists d. by split.
Qed.

(** *** Both *)
Context (after : list (C * R) -> Prop).
Hypothesis Hafter : forall tr t, after tr -> Forall U t -> after (tr ++ t).
Abbreviation threads := (threads G C R A B).
Implicit Types t : threads.

(** The left thread is at work, it has answered, or the right one has gone on alone. *)
Definition at_work t : Prop :=
  exists g d tl tr, meanwhile g /\ seen d g (globals (shared t)) /\ extended tl (trace (shared t)) /\ tr `prefix_of` trace (shared t)
    /\ told (trace (shared t)) = false /\ after (trace (shared t)) /\ serves (left t) tl d /\ asks after Q (right t) tr g.
Definition answered t : Prop :=
  (exists a, left t = Ret a) /\ told (trace (shared t)) = true /\ after (trace (shared t))
  /\ exists tr, tr `prefix_of` trace (shared t) /\ meanwhile (globals (shared t)) /\ asks after Q (right t) tr (globals (shared t)).
Definition gone_on t : Prop := (exists a, left t = Ret a) /\ alone (right t) Q (shared t).
Definition handing_over t : Prop := at_work t \/ answered t \/ gone_on t.

Lemma left_handing_over t w p : handing_over t -> advance (shared t) (left t) = Some (w, p) -> handing_over (mk_threads w p (right t)).
Proof using Hafter.
  destruct t as [[h tr] p0 q]. unfold handing_over, at_work, answered, gone_on. cbn [left right shared globals trace].
  intros [H|[([a ->] & _)|([a ->] & _)]] E; [|discriminate E..]. destruct H as (g & d & tl & tq & Hg & Hd & Hl & Hq & Hn & Ha & Hs & Hr).
  apply advance_cases in E. destruct p0 as [a|X ready m k]; [destruct E|]. destruct E as (Hw & b & E & ->).
  destruct (Hs g h tr Hg Hd Hl Hn) as [_ Hm]. specialize (Hm Hw). unfold wp in Hm. rewrite E in Hm. destruct Hm as (t & Et & HU & Hs').
  assert (after (trace w)) as Ha' by (rewrite Et; by apply Hafter). assert (tq `prefix_of` trace w) as Hq' by (etrans; [exact Hq|by exists t]).
  destruct (told (trace w)) eqn:En.
  - right. left. destruct Hs' as [->%seen_nobody Ha2]. split; [exact Ha2|]. split; [done|]. split; [exact Ha'|]. exists tq. by repeat split.
  - left. destruct Hs' as (d' & Hd' & Hs'). exists g, d', (trace w), tq. do 2 (split; [done|]). split; [apply extended_refl|]. by repeat split.
Qed.

Lemma right_handing_over t w q : handing_over t -> advance (shared t) (right t) = Some (w, q) -> handing_over (mk_threads w (left t) q).
Proof using Hafter.
  destruct t as [[h tr] p q0]. unfold handing_over, at_work, answered, gone_on. cbn [left right shared globals trace].
  intros H E. apply advance_cases in E.
  destruct H as [(g & d & tl & tq & Hg & Hd & Hl & Hq & Hn & Ha & Hs & Hr)|[(Hp & Hn & Ha & tq & Hq & Hg & Hr)|(Hp & Hr)]];
    (destruct q0 as [b|X ready m k]; [destruct E|]; destruct E as (Hw & b & E & ->)).
  - destruct Hr as [Hr|(_ & Hr & _)]; [|by rewrite Hr in Hw; cbn [trace] in Hw; congruence].
    destruct (Hr d h tr Hd Hq) as [_ Hm]. unfold wp in Hm. rewrite E in Hm. destruct Hm as (g' & t & Hg' & Hd' & Et & HU & HV & En & Hr').
    left. exists g', d, tl, (trace w). rewrite En. repeat (split; [done|]). split; [rewrite Et; by apply extended_more|].
    repeat (split; [done|]). split; [rewrite Et; by apply Hafter|]. by split.
  - destruct Hr as [Hr|(_ & _ & Hr)].
    + destruct (Hr nobody h tr (proj2 (seen_nobody h h) eq_refl) Hq) as [_ Hm]. unfold wp in Hm. rewrite E in Hm.
      destruct Hm as (g' & t & Hg' & ->%seen_nobody & Et & HU & HV & En & Hr'). right. left. split; [exact Hp|]. split; [congruence|].
      split; [rewrite Et; by apply Hafter|]. exists (trace w). by repeat split.
    + right. right. split; [exact Hp|]. destruct (Hr tr Hn Ha) as [_ Hm]. unfold wp in Hm. rewrite E in Hm. exact Hm.
  - right. right. split; [exact Hp|]. destruct Hr as [_ Hm]. unfold wp in Hm. by rewrite E in Hm.
Qed.

Lemma handing_over_steps t t' : handing_over t -> rtc thread_step t t' -> handing_over t'.
Proof using Hafter.
  intros Ht Hs. induction Hs as [t|t t1 t2 H1 H2 IH]; [done|]. apply IH.
  destruct (thread_step_cases _ _ H1) as [(w & p & E & ->)|(w & q & E & ->)]; [by apply left_handing_over|by apply right_handing_over].
Qed.

Lemma wp_no_fault {X Y} ready (m : io G C R X) (k : X -> prog G C R Y) P w :
  (ready w = true -> wp m P w) -> ~ faults w (Step ready m k).
Proof. intros Hm [Hr E]. specialize (Hm Hr). unfold wp in Hm. by rewrite E in Hm. Qed.

Lemma can_step t :
  (exists w p, advance (shared t) (left t) = Some (w, p)) \/ (exists w q, advance (shared t) (right t) = Some (w, q)) ->
  exists t', thread_step t t'.
Proof. destruct t as [w p q]. intros [(w' & p' & E)|(w' & q' & E)]; eexists; [by apply left_step|by apply right_step]. Qed.

(** What each thread can do. *)
Lemma handing_over_sound t :
  handing_over t ->
  ~ faults (shared t) (left t) /\ ~ faults (shared t) (right t) /\ (ended t \/ exists t', thread_step t t').
Proof using.
  destruct t as [[h tr] p q]. unfold handing_over, at_work, answered, gone_on. cbn [left right shared globals trace].
  intros [(g & d & tl & tq & Hg & Hd & Hl & Hq & Hn & Ha & Hs & Hr)|[([a ->] & Hn & Ha & tq & Hq & Hg & Hr)|([a ->] & Hr)]].
  - destruct p as [a|X ready m k]; [done|]. destruct q as [b|Y ready' m' k']; [done|]. destruct (Hs g h tr Hg Hd Hl Hn) as [Hask Hm].
    apply wp_no_fault with (k := k) in Hm as Hf. split; [exact Hf|]. destruct Hr as [Hr|(Hr & Ht & _)].
    + destruct (Hr d h tr Hd Hq) as [Hw Hm']. pose proof (wp_no_fault ready' m' k' _ _ (fun _ => Hm')) as Hf'. split; [exact Hf'|]. right.
      apply can_step. right. by apply advance_ready.
    + split; [intros [Hw _]; rewrite Ht in Hw; cbn [trace] in Hw; congruence|]. right. apply can_step. left. apply advance_ready; [|exact Hf].
      apply Hask. by apply Hr.
  - split; [by intros []|]. destruct q as [b|Y ready' m' k']; [done|].
    assert (exists P, ready' (World h tr) = true /\ wp m' P (World h tr)) as (P & Hw & Hm).
    { destruct Hr as [Hr|(_ & _ & Hr)]; [destruct (Hr nobody h tr (proj2 (seen_nobody h h) eq_refl) Hq)|destruct (Hr tr Hn Ha)]; eauto. }
    pose proof (wp_no_fault ready' m' k' _ _ (fun _ => Hm)) as Hf. split; [exact Hf|]. right. apply can_step. right. by apply advance_ready.
  - split; [by intros []|]. destruct q as [b|Y ready' m' k']; [split; [by intros []|by left]|]. destruct Hr as [Hw Hm].
    pose proof (wp_no_fault ready' m' k' _ _ (fun _ => Hm)) as Hf. split; [exact Hf|]. right. apply can_step. right. by apply advance_ready.
Qed.

(** Until the left thread has ended, nothing else has been called. *)
Lemma handing_over_calls t : handing_over t -> (exists a, left t = Ret a) \/ (after (trace (shared t)) /\ exists g d, meanwhile g /\ seen d g (globals (shared t))).
Proof using.
  intros [(g & d & tl & tq & Hg & Hd & _ & _ & _ & Ha & _)|[(Hp & _)|(Hp & _)]]; [right|by left..]. split; [exact Ha|]. by exists g, d.
Qed.

Lemma handing_over_ended t b : handing_over t -> right t = Ret b -> (exists a, left t = Ret a) /\ Q b (shared t).
Proof using.
  intros [(g & d & tl & tq & H)|[(Hp & _ & _ & tq & H)|(Hp & Hr)]] E; rewrite E in *; [by destruct_and! H|by destruct_and! H|by split].
Qed.
End Handover.
