(* ===== verification/CString.v ===== *)
(** Strings of C: the functions of its library that several components use. *)
From stdpp Require Import base.
From S2P Require Import Prelude.

(** A string: the octets before the first NUL. *)
Fixpoint c_string (l : list Z) : list Z :=
  match l with [] => [] | c :: l => if c =? 0 then [] else c :: c_string l end.

Definition isspace (c : Z) : bool := (c =? 32) || ((9 <=? c) && (c <=? 13)).
Fixpoint skip_space (l : list Z) : list Z :=
  match l with c :: l' => if isspace c then skip_space l' else l | [] => [] end.

Fixpoint digits (l : list Z) (acc : Z) : Z :=
  match l with
  | c :: l => if (48 <=? c) && (c <=? 57) then digits l (10 * acc + (c - 48)) else acc
  | [] => acc
  end.
Definition atoi (s : list Z) : Z :=
  match skip_space s with
  | c :: l => if c =? 45 then i32 (- digits l 0) else if c =? 43 then i32 (digits l 0) else i32 (digits (c :: l) 0)
  | [] => 0
  end.
