(* ===== verification/Parcel.v ===== *)
(** [Parcel], of libbinder: what the proxies and the services of binder interfaces use of it.

    A class of operations and a class of its laws; a parcel that is a list of what was written is an instance. *)
From Stdlib Require Import List.
From stdpp Require Import base.
From S2P Require Import Prelude.

Class parcel_ops := {
  parcel : Type;
  new_parcel : parcel;
  writeInterfaceToken : parcel -> parcel;
  writeStrongBinder : Z -> parcel -> parcel;
  writeInt32 : Z -> parcel -> parcel;
  writeString8 : list Z -> parcel -> parcel;
  writeCString : list Z -> parcel -> parcel;
  writeBuffer : Z -> parcel -> parcel;
  checkInterface : parcel -> bool * parcel;
  readStrongBinder : parcel -> Z * parcel;
  readInt32 : parcel -> Z * parcel;
  readString8 : parcel -> list Z * parcel;
  readCString : parcel -> option (list Z) * parcel; (* NULL if there is none *)
  readBuffer : parcel -> (Z * Z) * parcel (* the status and the buffer *)
}.

Inductive parcel_item :=
  | I_token
  | I_binder (b : Z)
  | I_int (i : Z)
  | I_string (s : list Z)
  | I_cstring (s : list Z)
  | I_buffer (b : Z).

(** What is written is read in the same order; [import] is the status of a buffer that comes from another process. *)
Class parcel_laws `(ops : parcel_ops) (import : Z -> Z) := {
  holds : parcel -> list parcel_item -> Prop;
  holds_new : holds new_parcel [];
  holds_token p l : holds p l -> holds (writeInterfaceToken p) (l ++ [I_token]);
  holds_binder p l b : holds p l -> holds (writeStrongBinder b p) (l ++ [I_binder b]);
  holds_int p l i : holds p l -> holds (writeInt32 i p) (l ++ [I_int i]);
  holds_string p l s : holds p l -> holds (writeString8 s p) (l ++ [I_string s]);
  holds_cstring p l s : holds p l -> holds (writeCString s p) (l ++ [I_cstring s]);
  holds_buffer p l b : holds p l -> holds (writeBuffer b p) (l ++ [I_buffer b]);
  reads_token p l : holds p (I_token :: l) -> (checkInterface p).1 = true /\ holds (checkInterface p).2 l;
  reads_binder p l b : holds p (I_binder b :: l) -> (readStrongBinder p).1 = b /\ holds (readStrongBinder p).2 l;
  reads_int p l i : holds p (I_int i :: l) -> (readInt32 p).1 = i /\ holds (readInt32 p).2 l;
  reads_string p l s : holds p (I_string s :: l) -> (readString8 p).1 = s /\ holds (readString8 p).2 l;
  reads_cstring p l s : holds p (I_cstring s :: l) -> (readCString p).1 = Some s /\ holds (readCString p).2 l;
  reads_buffer p l b : holds p (I_buffer b :: l) -> (readBuffer p).1 = (import b, b) /\ holds (readBuffer p).2 l
}.

(** The contents of a parcel that has just been written. *)
Ltac written p H :=
  let l := open_constr:(_ : list parcel_item) in
  assert (holds p l) as H by (repeat first [apply holds_new | apply holds_token | apply holds_binder | apply holds_int | apply holds_string | apply holds_cstring | apply holds_buffer]);
  cbn [app] in H.

(** The next read. *)
Ltac parcel_read :=
  match goal with
  | H : holds ?p (I_token :: ?l) |- _ => let E := fresh in destruct (reads_token p l H) as [E ?]; clear H; rewrite ?E; clear E
  | H : holds ?p (I_binder ?b :: ?l) |- _ => let E := fresh in destruct (reads_binder p l b H) as [E ?]; clear H; rewrite ?E; clear E
  | H : holds ?p (I_int ?i :: ?l) |- _ => let E := fresh in destruct (reads_int p l i H) as [E ?]; clear H; rewrite ?E; clear E
  | H : holds ?p (I_string ?s :: ?l) |- _ => let E := fresh in destruct (reads_string p l s H) as [E ?]; clear H; rewrite ?E; clear E
  | H : holds ?p (I_cstring ?s :: ?l) |- _ => let E := fresh in destruct (reads_cstring p l s H) as [E ?]; clear H; rewrite ?E; clear E
  | H : holds ?p (I_buffer ?b :: ?l) |- _ => let E := fresh in destruct (reads_buffer p l b H) as [E ?]; clear H; rewrite ?E; clear E
  end.

(** ** Parcels as lists *)
Definition list_parcels : parcel_ops := {|
  parcel := list parcel_item;
  new_parcel := [];
  writeInterfaceToken p := p ++ [I_token];
  writeStrongBinder b p := p ++ [I_binder b];
  writeInt32 i p := p ++ [I_int i];
  writeString8 s p := p ++ [I_string s];
  writeCString s p := p ++ [I_cstring s];
  writeBuffer b p := p ++ [I_buffer b];
  checkInterface p := match p with I_token :: l => (true, l) | _ => (false, p) end;
  readStrongBinder p := match p with I_binder b :: l => (b, l) | _ => (0, p) end;
  readInt32 p := match p with I_int i :: l => (i, l) | _ => (0, p) end;
  readString8 p := match p with I_string s :: l => (s, l) | _ => ([], p) end;
  readCString p := match p with I_cstring s :: l => (Some s, l) | _ => (None, p) end;
  readBuffer p := match p with I_buffer b :: l => ((0, b), l) | _ => ((-22, 0), p) end
|}.
#[export] Instance list_parcel_laws : parcel_laws list_parcels (fun _ => 0).
Proof.
  apply (Build_parcel_laws list_parcels (fun _ => 0) (fun p l => p = l)); cbn; intros; subst; auto.
Defined.

