(* ===== verification/SbcTables.v ===== *)
(** Constants and tables of the SBC codec: [sbc.h], [sbc_math.h], [sbc_tables.h] and the
    CRC table of [msbc.c] under src/mediatek/bluetooth/btremoted/. *)
From S2P Require Import Prelude.

(** ** sbc.h *)
Definition SBC_FREQ_16000 : Z := 0.
Definition SBC_FREQ_32000 : Z := 1.
Definition SBC_FREQ_44100 : Z := 2.
Definition SBC_FREQ_48000 : Z := 3.
Definition SBC_BLK_4 : Z := 0.
Definition SBC_BLK_8 : Z := 1.
Definition SBC_BLK_12 : Z := 2.
Definition SBC_BLK_16 : Z := 3.
Definition SBC_MODE_MONO : Z := 0.
Definition SBC_MODE_DUAL_CHANNEL : Z := 1.
Definition SBC_MODE_STEREO : Z := 2.
Definition SBC_MODE_JOINT_STEREO : Z := 3.
Definition SBC_AM_LOUDNESS : Z := 0.
Definition SBC_AM_SNR : Z := 1.
Definition SBC_SB_4 : Z := 0.
Definition SBC_SB_8 : Z := 1.
Definition SBC_LE : Z := 0.
Definition SBC_BE : Z := 1.
Definition SBC_SYNCWORD : Z := 0x9C.
Definition MSBC_SYNCWORD : Z := 0xAD.
Definition SCALE_OUT_BITS : Z := 15.
Definition SBC_X_BUFFER_SIZE : Z := 328.

(** ** sbc_math.h: the arithmetic shift right of an [int32_t] *)
Definition ASR (val bits : Z) : Z := i32 val ≫ bits.
Definition SCALE4_STAGED1 (src : Z) : Z := ASR src 15.
Definition SCALE8_STAGED1 (src : Z) : Z := ASR src 15.
Definition MUL (a b : Z) : Z := i32 (a * b).
Definition MULA (a b res : Z) : Z := i32 (a * b + res).

(** ** sbc_tables.h *)
Definition SS4 (val : Z) : Z := ASR val 12.
Definition SS8 (val : Z) : Z := ASR val 14.
Definition SN4 (val : Z) : Z := ASR val 11.
Definition SN8 (val : Z) : Z := ASR val 11.

Definition sbc_offset4 : list (list Z) :=
  [ [ -1; 0; 0; 0 ];
    [ -2; 0; 0; 1 ];
    [ -2; 0; 0; 1 ];
    [ -2; 0; 0; 1 ] ].

Definition sbc_offset8 : list (list Z) :=
  [ [ -2; 0; 0; 0; 0; 0; 0; 1 ];
    [ -3; 0; 0; 0; 0; 0; 1; 2 ];
    [ -4; 0; 0; 0; 0; 0; 1; 2 ];
    [ -4; 0; 0; 0; 0; 0; 1; 2 ] ].

Definition sbc_proto_4_40m0 : list Z := map SS4
  [
    0x00000000; 0xffa6982f; 0xfba93848; 0x0456c7b8;
    0x005967d1; 0xfffb9ac7; 0xff589157; 0xf9c2a8d8;
    0x027c1434; 0x0019118b; 0xfff3c74c; 0xff137330;
    0xf81b8d70; 0x00ec1b8b; 0xfff0b71a; 0xffe99b00;
    0xfef84470; 0xf6fb4370; 0xffcdc351; 0xffe01dc7 ].

Definition sbc_proto_4_40m1 : list Z := map SS4
  [
    0xffe090ce; 0xff2c0475; 0xf694f800; 0xff2c0475;
    0xffe090ce; 0xffe01dc7; 0xffcdc351; 0xf6fb4370;
    0xfef84470; 0xffe99b00; 0xfff0b71a; 0x00ec1b8b;
    0xf81b8d70; 0xff137330; 0xfff3c74c; 0x0019118b;
    0x027c1434; 0xf9c2a8d8; 0xff589157; 0xfffb9ac7 ].

Definition sbc_proto_8_80m0 : list Z := map SS8
  [
    0x00000000; 0xfe8d1970; 0xee979f00; 0x11686100;
    0x0172e690; 0xfff5bd1a; 0xfdf1c8d4; 0xeac182c0;
    0x0d9daee0; 0x00e530da; 0xffe9811d; 0xfd52986c;
    0xe7054ca0; 0x0a00d410; 0x006c1de4; 0xffdba705;
    0xfcbc98e8; 0xe3889d20; 0x06af2308; 0x000bb7db;
    0xffca00ed; 0xfc3fbb68; 0xe071bc00; 0x03bf7948;
    0xffc4e05c; 0xffb54b3b; 0xfbedadc0; 0xdde26200;
    0x0142291c; 0xff960e94; 0xff9f3e17; 0xfbd8f358;
    0xdbf79400; 0xff405e01; 0xff7d4914; 0xff8b1a31;
    0xfc1417b8; 0xdac7bb40; 0xfdbb828c; 0xff762170 ].

Definition sbc_proto_8_80m1 : list Z := map SS8
  [
    0xff7c272c; 0xfcb02620; 0xda612700; 0xfcb02620;
    0xff7c272c; 0xff762170; 0xfdbb828c; 0xdac7bb40;
    0xfc1417b8; 0xff8b1a31; 0xff7d4914; 0xff405e01;
    0xdbf79400; 0xfbd8f358; 0xff9f3e17; 0xff960e94;
    0x0142291c; 0xdde26200; 0xfbedadc0; 0xffb54b3b;
    0xffc4e05c; 0x03bf7948; 0xe071bc00; 0xfc3fbb68;
    0xffca00ed; 0x000bb7db; 0x06af2308; 0xe3889d20;
    0xfcbc98e8; 0xffdba705; 0x006c1de4; 0x0a00d410;
    0xe7054ca0; 0xfd52986c; 0xffe9811d; 0x00e530da;
    0x0d9daee0; 0xeac182c0; 0xfdf1c8d4; 0xfff5bd1a ].

Definition synmatrix4 : list (list Z) := map (map SN4)
  [ [ 0x05a82798; 0xfa57d868; 0xfa57d868; 0x05a82798 ];
    [ 0x030fbc54; 0xf89be510; 0x07641af0; 0xfcf043ac ];
    [ 0x00000000; 0x00000000; 0x00000000; 0x00000000 ];
    [ 0xfcf043ac; 0x07641af0; 0xf89be510; 0x030fbc54 ];
    [ 0xfa57d868; 0x05a82798; 0x05a82798; 0xfa57d868 ];
    [ 0xf89be510; 0xfcf043ac; 0x030fbc54; 0x07641af0 ];
    [ 0xf8000000; 0xf8000000; 0xf8000000; 0xf8000000 ];
    [ 0xf89be510; 0xfcf043ac; 0x030fbc54; 0x07641af0 ] ].

Definition synmatrix8 : list (list Z) := map (map SN8)
  [ [ 0x05a82798; 0xfa57d868; 0xfa57d868; 0x05a82798; 0x05a82798; 0xfa57d868; 0xfa57d868; 0x05a82798 ];
    [ 0x0471ced0; 0xf8275a10; 0x018f8b84; 0x06a6d988; 0xf9592678; 0xfe70747c; 0x07d8a5f0; 0xfb8e3130 ];
    [ 0x030fbc54; 0xf89be510; 0x07641af0; 0xfcf043ac; 0xfcf043ac; 0x07641af0; 0xf89be510; 0x030fbc54 ];
    [ 0x018f8b84; 0xfb8e3130; 0x06a6d988; 0xf8275a10; 0x07d8a5f0; 0xf9592678; 0x0471ced0; 0xfe70747c ];
    [ 0x00000000; 0x00000000; 0x00000000; 0x00000000; 0x00000000; 0x00000000; 0x00000000; 0x00000000 ];
    [ 0xfe70747c; 0x0471ced0; 0xf9592678; 0x07d8a5f0; 0xf8275a10; 0x06a6d988; 0xfb8e3130; 0x018f8b84 ];
    [ 0xfcf043ac; 0x07641af0; 0xf89be510; 0x030fbc54; 0x030fbc54; 0xf89be510; 0x07641af0; 0xfcf043ac ];
    [ 0xfb8e3130; 0x07d8a5f0; 0xfe70747c; 0xf9592678; 0x06a6d988; 0x018f8b84; 0xf8275a10; 0x0471ced0 ];
    [ 0xfa57d868; 0x05a82798; 0x05a82798; 0xfa57d868; 0xfa57d868; 0x05a82798; 0x05a82798; 0xfa57d868 ];
    [ 0xf9592678; 0x018f8b84; 0x07d8a5f0; 0x0471ced0; 0xfb8e3130; 0xf8275a10; 0xfe70747c; 0x06a6d988 ];
    [ 0xf89be510; 0xfcf043ac; 0x030fbc54; 0x07641af0; 0x07641af0; 0x030fbc54; 0xfcf043ac; 0xf89be510 ];
    [ 0xf8275a10; 0xf9592678; 0xfb8e3130; 0xfe70747c; 0x018f8b84; 0x0471ced0; 0x06a6d988; 0x07d8a5f0 ];
    [ 0xf8000000; 0xf8000000; 0xf8000000; 0xf8000000; 0xf8000000; 0xf8000000; 0xf8000000; 0xf8000000 ];
    [ 0xf8275a10; 0xf9592678; 0xfb8e3130; 0xfe70747c; 0x018f8b84; 0x0471ced0; 0x06a6d988; 0x07d8a5f0 ];
    [ 0xf89be510; 0xfcf043ac; 0x030fbc54; 0x07641af0; 0x07641af0; 0x030fbc54; 0xfcf043ac; 0xf89be510 ];
    [ 0xf9592678; 0x018f8b84; 0x07d8a5f0; 0x0471ced0; 0xfb8e3130; 0xf8275a10; 0xfe70747c; 0x06a6d988 ] ].

(** ** msbc.c: the CRC-8 table *)
Definition crc_table : list Z :=
  [
    0x00; 0x1d; 0x3a; 0x27; 0x74; 0x69; 0x4e; 0x53;
    0xe8; 0xf5; 0xd2; 0xcf; 0x9c; 0x81; 0xa6; 0xbb;
    0xcd; 0xd0; 0xf7; 0xea; 0xb9; 0xa4; 0x83; 0x9e;
    0x25; 0x38; 0x1f; 0x02; 0x51; 0x4c; 0x6b; 0x76;
    0x87; 0x9a; 0xbd; 0xa0; 0xf3; 0xee; 0xc9; 0xd4;
    0x6f; 0x72; 0x55; 0x48; 0x1b; 0x06; 0x21; 0x3c;
    0x4a; 0x57; 0x70; 0x6d; 0x3e; 0x23; 0x04; 0x19;
    0xa2; 0xbf; 0x98; 0x85; 0xd6; 0xcb; 0xec; 0xf1;
    0x13; 0x0e; 0x29; 0x34; 0x67; 0x7a; 0x5d; 0x40;
    0xfb; 0xe6; 0xc1; 0xdc; 0x8f; 0x92; 0xb5; 0xa8;
    0xde; 0xc3; 0xe4; 0xf9; 0xaa; 0xb7; 0x90; 0x8d;
    0x36; 0x2b; 0x0c; 0x11; 0x42; 0x5f; 0x78; 0x65;
    0x94; 0x89; 0xae; 0xb3; 0xe0; 0xfd; 0xda; 0xc7;
    0x7c; 0x61; 0x46; 0x5b; 0x08; 0x15; 0x32; 0x2f;
    0x59; 0x44; 0x63; 0x7e; 0x2d; 0x30; 0x17; 0x0a;
    0xb1; 0xac; 0x8b; 0x96; 0xc5; 0xd8; 0xff; 0xe2;
    0x26; 0x3b; 0x1c; 0x01; 0x52; 0x4f; 0x68; 0x75;
    0xce; 0xd3; 0xf4; 0xe9; 0xba; 0xa7; 0x80; 0x9d;
    0xeb; 0xf6; 0xd1; 0xcc; 0x9f; 0x82; 0xa5; 0xb8;
    0x03; 0x1e; 0x39; 0x24; 0x77; 0x6a; 0x4d; 0x50;
    0xa1; 0xbc; 0x9b; 0x86; 0xd5; 0xc8; 0xef; 0xf2;
    0x49; 0x54; 0x73; 0x6e; 0x3d; 0x20; 0x07; 0x1a;
    0x6c; 0x71; 0x56; 0x4b; 0x18; 0x05; 0x22; 0x3f;
    0x84; 0x99; 0xbe; 0xa3; 0xf0; 0xed; 0xca; 0xd7;
    0x35; 0x28; 0x0f; 0x12; 0x41; 0x5c; 0x7b; 0x66;
    0xdd; 0xc0; 0xe7; 0xfa; 0xa9; 0xb4; 0x93; 0x8e;
    0xf8; 0xe5; 0xc2; 0xdf; 0x8c; 0x91; 0xb6; 0xab;
    0x10; 0x0d; 0x2a; 0x37; 0x64; 0x79; 0x5e; 0x43;
    0xb2; 0xaf; 0x88; 0x95; 0xc6; 0xdb; 0xfc; 0xe1;
    0x5a; 0x47; 0x60; 0x7d; 0x2e; 0x33; 0x14; 0x09;
    0x7f; 0x62; 0x45; 0x58; 0x0b; 0x16; 0x31; 0x2c;
    0x97; 0x8a; 0xad; 0xb0; 0xe3; 0xfe; 0xd9; 0xc4 ].
