(* ===== verification/SbcCrc.v ===== *)
(** The CRC-8 of an SBC frame header: [sbc_crc8] of
    src/mediatek/bluetooth/btremoted/msbc.c, and its equivalence with the bit-serial
    division by x^8 + x^4 + x^3 + x^2 + 1. *)
From S2P Require Import Prelude SbcTables.

(** ** The code *)

(** [for (i = 0; i < len / 8; i++) crc = crc_table[crc ^ data[i]];] *)
Fixpoint crc8_octets (n : nat) (i : Z) (data : list Z) (crc : Z) : Z :=
  match n with
  | O => crc
  | S n' => crc8_octets n' (i + 1) data (anth crc_table (crc .^ anth data i))
  end.

(** The tail loop over the [len % 8] leading bits of [octet]. *)
Fixpoint crc8_tail (n : nat) (octet crc : Z) : Z :=
  match n with
  | O => crc
  | S n' =>
      let bit := ((octet .^ crc) .& 0x80) ≫ 7 in
      let crc' := u8 (((crc .& 0x7f) ≪ 1) .^ (if bit =? 0 then 0 else 0x1d)) in
      crc8_tail n' (u8 (octet ≪ 1)) crc'
  end.

(** The octet [data[len / 8]] is read even when [len % 8] is 0; its value is then dead. *)
Definition sbc_crc8 (data : list Z) (len : Z) : Z :=
  let crc := crc8_octets (Z.to_nat (len / 8)) 0 data 0x0f in
  let octet := anth data (len / 8) in
  crc8_tail (Z.to_nat (len mod 8)) octet crc.

(** ** Specification: bit-serial division *)

(** Bit [i] of a byte string, most significant bit of each byte first. *)
Definition byte_bit (b : Z) (k : nat) : bool := Z.testbit b (7 - Z.of_nat k).
Definition byte_bits (b : Z) : list bool := map (byte_bit b) (seq 0 8).
Definition bits_of (data : list Z) : list bool := concat (map byte_bits data).

(** One step of the division register. *)
Definition crc_step (crc : Z) (b : bool) : Z :=
  let out := xorb (Z.testbit crc 7) b in
  ((crc ≪ 1) .& 0xff) .^ (if out then 0x1d else 0).

Definition crc_bits (crc : Z) (l : list bool) : Z := fold_left crc_step l crc.

(** ** Correctness of the table and of the tail loop *)
Definition crc_byte_ref (x : Z) : Z := crc_bits x (repeat false 8).

Lemma crc_table_ok x : is_u8 x -> anth crc_table x = crc_byte_ref x.
Proof.
  intros Hx.
  pose proof (u8_forall (fun x => anth crc_table x =? crc_byte_ref x) ltac:(vm_compute; done) x Hx) as H.
  by apply Z.eqb_eq.
Qed.

Lemma u8_forall2 (P : Z -> Z -> bool) :
  forallb (fun a => forallb (P a) (map Z.of_nat (seq 0 256))) (map Z.of_nat (seq 0 256)) = true ->
  forall a b, is_u8 a -> is_u8 b -> P a b = true.
Proof.
  intros Hall a b Ha Hb. apply (u8_forall (P a)); [|done].
  by apply (u8_forall (fun a => forallb (P a) (map Z.of_nat (seq 0 256)))).
Qed.

(** A table step consumes the eight bits of the byte. *)
Lemma crc_octet_ok crc b :
  is_u8 crc -> is_u8 b -> crc_bits crc (byte_bits b) = anth crc_table (crc .^ b).
Proof.
  intros Hc Hb.
  pose proof (u8_forall2 (fun c b => crc_bits c (byte_bits b) =? anth crc_table (c .^ b))
                ltac:(vm_compute; done) crc b Hc Hb) as H.
  by apply Z.eqb_eq.
Qed.

(** One round of the tail loop is one step of the division register. *)
Lemma crc_tail_round crc octet :
  is_u8 crc -> is_u8 octet ->
  u8 (((crc .& 0x7f) ≪ 1) .^ (if ((octet .^ crc) .& 0x80) ≫ 7 =? 0 then 0 else 0x1d))
  = crc_step crc (Z.testbit octet 7).
Proof.
  intros Hc Ho.
  pose proof (u8_forall2 (fun c o =>
     u8 (((c .& 0x7f) ≪ 1) .^ (if ((o .^ c) .& 0x80) ≫ 7 =? 0 then 0 else 0x1d))
     =? crc_step c (Z.testbit o 7)) ltac:(vm_compute; done) crc octet Hc Ho) as H.
  by apply Z.eqb_eq.
Qed.

Lemma crc_step_u8 crc b : is_u8 crc -> is_u8 (crc_step crc b).
Proof.
  intros Hc.
  pose proof (u8_forall (fun c => (crc_step c true <? 256) && (0 <=? crc_step c true)
     && (crc_step c false <? 256) && (0 <=? crc_step c false)) ltac:(vm_compute; done) crc Hc) as H.
  cbv beta in H. unfold is_u8. destruct b; lia.
Qed.

Lemma crc_bits_u8 l crc : is_u8 crc -> is_u8 (crc_bits crc l).
Proof.
  revert crc. induction l as [|b l IH]; intros crc Hc; [done|].
  apply IH. by apply crc_step_u8.
Qed.

Lemma crc_bits_app crc l k : crc_bits crc (l ++ k) = crc_bits (crc_bits crc l) k.
Proof. apply fold_left_app. Qed.

(** Shifting the octet left exposes its next bit. *)
Lemma octet_shift octet k :
  0 <= k < 7 -> Z.testbit (u8 (octet ≪ 1)) (7 - k) = Z.testbit octet (7 - (k + 1)).
Proof.
  intros Hk. unfold wrapu. rewrite Z.mod_pow2_bits_low by lia.
  rewrite Z.shiftl_spec by lia. f_equal. lia.
Qed.

Lemma crc8_tail_ok n octet crc :
  (n <= 8)%nat -> is_u8 crc -> is_u8 octet ->
  crc8_tail n octet crc = crc_bits crc (map (byte_bit octet) (seq 0 n)).
Proof.
  revert octet crc. induction n as [|n IH]; intros octet crc Hn Hc Ho; [done|].
  cbn [crc8_tail]. rewrite crc_tail_round by done.
  rewrite IH by (auto using crc_step_u8 with cint; lia).
  cbn [seq map crc_bits fold_left]. unfold byte_bit at 2.
  change (7 - Z.of_nat 0) with 7. fold (crc_bits (crc_step crc (Z.testbit octet 7))).
  unfold crc_bits. f_equal. rewrite <- seq_shift, map_map.
  apply map_ext_in. intros k Hk%in_seq. unfold byte_bit.
  rewrite octet_shift by lia. f_equal. lia.
Qed.

(** ** The octet loop over a prefix of the data *)
Lemma bits_of_cons b l : bits_of (b :: l) = byte_bits b ++ bits_of l.
Proof. done. Qed.

Lemma byte_bits_length b : length (byte_bits b) = 8%nat.
Proof. done. Qed.

Lemma bits_of_length l : length (bits_of l) = (8 * length l)%nat.
Proof. induction l as [|b l IH]; [done|]. rewrite bits_of_cons, length_app, IH, byte_bits_length. simpl. lia. Qed.

Lemma anth_app_r (l k : list Z) i : 0 <= i -> anth (l ++ k) (zlen l + i) = anth k i.
Proof.
  intros Hi. unfold anth, aget, zlen.
  rewrite (proj2 (Z.leb_le 0 _)), (proj2 (Z.leb_le 0 i)) by lia.
  rewrite lookup_app_r by lia. do 2 f_equal. lia.
Qed.

Lemma crc8_octets_ok n l data crc :
  Forall is_u8 data -> is_u8 crc -> (n <= length data)%nat ->
  crc8_octets n (zlen l) (l ++ data) crc = crc_bits crc (bits_of (take n data)).
Proof.
  revert l data crc. induction n as [|n IH]; intros l data crc Hd Hc Hn; [done|].
  destruct data as [|b data]; simpl in Hn; [lia|].
  inversion_clear Hd as [|?? Hb Hd']. cbn [crc8_octets take].
  replace (anth (l ++ b :: data) (zlen l)) with b
    by (rewrite <- (Z.add_0_r (zlen l)), anth_app_r by lia; done).
  rewrite <- crc_octet_ok by done.
  replace (l ++ b :: data) with ((l ++ [b]) ++ data) by (by rewrite <- app_assoc).
  replace (zlen l + 1) with (zlen (l ++ [b])) by (unfold zlen; rewrite length_app; simpl; lia).
  rewrite IH by (auto using crc_bits_u8; lia).
  by rewrite bits_of_cons, crc_bits_app.
Qed.

Lemma take_bits_of n r (data : list Z) :
  (n < length data)%nat -> (r <= 8)%nat ->
  take (8 * n + r) (bits_of data)
  = bits_of (take n data) ++ map (byte_bit (default 0 (data !! n))) (seq 0 r).
Proof.
  revert data. induction n as [|n IH]; intros [|b data] Hn Hr; simpl in Hn; try lia.
  - rewrite bits_of_cons, take_app_le by (rewrite byte_bits_length; lia).
    change (8 * 0 + r)%nat with r.
    unfold byte_bits. rewrite <- fmap_take. cbn [take lookup list_lookup default from_option bits_of map concat app].
    do 7 (destruct r as [|r]; [done|]). destruct r as [|[|r]]; [done..|lia].
  - rewrite bits_of_cons.
    replace (8 * S n + r)%nat with (8 + (8 * n + r))%nat by lia.
    replace 8%nat with (length (byte_bits b)) at 1 by done.
    rewrite take_app_add. rewrite IH by lia. cbn [take]. by rewrite bits_of_cons, app_assoc.
Qed.

Lemma sbc_crc8_bits (data : list Z) (len : Z) :
  Forall is_u8 data -> 0 <= len <= 8 * zlen data ->
  sbc_crc8 data len = crc_bits 0x0f (take (Z.to_nat len) (bits_of data)).
Proof.
  intros Hd Hlen. unfold sbc_crc8.
  pose proof (Z.div_mod len 8 ltac:(lia)) as Hdm. pose proof (Z.mod_pos_bound len 8 ltac:(lia)) as Hm.
  pose proof (Z.div_pos len 8 ltac:(lia) ltac:(lia)) as Hq. unfold zlen in *.
  rewrite (crc8_octets_ok (Z.to_nat (len / 8)) [] data) by (done || lia).
  destruct (decide (len / 8 < Z.of_nat (length data))) as [Hin|Hout].
  - assert (is_u8 (anth data (len / 8))) as Hu.
    { destruct (aget_in data (len / 8)) as [v Hv]; [unfold zlen; lia|].
      unfold anth. rewrite Hv. by eapply (aget_Forall is_u8). }
    rewrite crc8_tail_ok by (done || lia || (apply crc_bits_u8; done)).
    rewrite <- crc_bits_app. f_equal.
    replace (Z.to_nat len) with (8 * Z.to_nat (len / 8) + Z.to_nat (len mod 8))%nat by lia.
    rewrite take_bits_of by lia. do 2 f_equal. unfold anth, aget.
    by rewrite (proj2 (Z.leb_le 0 _)) by lia.
  - replace (len mod 8) with 0 by lia. cbn [Z.to_nat crc8_tail].
    rewrite take_ge by lia. f_equal. rewrite take_ge; [done|]. rewrite bits_of_length. lia.
Qed.

(** C2. The table-driven [sbc_crc8] computes, on the first [len] bits of its data, the
    remainder of the bit-serial division by x^8 + x^4 + x^3 + x^2 + 1 started at 0x0f. *)
Theorem sbc_crc8_correct (data : list Z) (len : Z) :
  Forall is_u8 data -> 0 <= len <= 8 * zlen data ->
  sbc_crc8 data len = crc_bits 0x0f (take (Z.to_nat len) (bits_of data)).
Proof. apply sbc_crc8_bits. Qed.

Lemma sbc_crc8_correct_witness :
  Forall is_u8 [0xad; 0x31; 0x80] /\
  sbc_crc8 [0xad; 0x31; 0x80] 20 = crc_bits 0x0f (take 20 (bits_of [0xad; 0x31; 0x80])).
Proof.
  assert (Forall is_u8 [0xad; 0x31; 0x80]) as H by by_compute.
  split; [exact H|]. apply (sbc_crc8_correct _ 20 H). vm_compute. split; discriminate.
Defined.
