(* ===== verification/SbcBits.v ===== *)
(** Bit allocation of an SBC frame: [sbc_calculate_bits] of
    src/mediatek/bluetooth/btremoted/msbc.c.

    The two branches of the code (mono / dual channel, and stereo / joint stereo) share
    their loop bodies; each body is a definition here and each branch composes them. *)
From S2P Require Import Prelude SbcTables.

(** Two-dimensional read of a constant table. *)
Definition anth2 (t : list (list Z)) (i j : Z) : Z := anth (default [] (aget t i)) j.

(** ** The loop bodies *)

(** [bitneed[ch][sb]] of one channel, for [sb < subbands]. *)
Definition bitneed_of (allocation freq subbands : Z) (scale_factor : list Z) (sb : Z) : Z :=
  let sfac := anth scale_factor sb in
  if allocation =? SBC_AM_SNR then i32 sfac
  else if sfac =? 0 then -5
  else
    let loudness :=
      if subbands =? 4 then i32 (sfac - anth2 sbc_offset4 freq sb)
      else i32 (sfac - anth2 sbc_offset8 freq sb) in
    if 0 <? loudness then Z.quot loudness 2 else loudness.

Definition bitneeds (allocation freq subbands : Z) (scale_factor : list Z) : list Z :=
  map (bitneed_of allocation freq subbands scale_factor) (seqZ 0 subbands).

(** [max_bitneed], starting from 0. *)
Definition max_bitneed (needs : list Z) : Z :=
  fold_left (fun m n => if m <? n then n else m) needs 0.

(** What one band adds to [slicecount] at [bitslice]. *)
Definition slice_share (bitslice n : Z) : Z :=
  if (bitslice + 1 <? n) && (n <? bitslice + 16) then 1
  else if n =? bitslice + 1 then 2 else 0.

Definition slicecount_of (bitslice : Z) (needs : list Z) : Z :=
  fold_left (fun c n => c + slice_share bitslice n) needs 0.

(** The do-while loop lowering [bitslice]; [None] when the fuel runs out. *)
Fixpoint slice_loop (fuel : nat) (bitpool : Z) (needs : list Z)
    (bitcount slicecount bitslice : Z) : option (Z * Z * Z) :=
  match fuel with
  | O => None
  | S fuel' =>
      let bitslice := bitslice - 1 in
      let bitcount := bitcount + slicecount in
      let slicecount := slicecount_of bitslice needs in
      if bitcount + slicecount <? bitpool
      then slice_loop fuel' bitpool needs bitcount slicecount bitslice
      else Some (bitcount, slicecount, bitslice)
  end.

Definition slice_fuel (needs : list Z) : nat := Z.to_nat (max_bitneed needs + 40).

(** The loop from its initial values, with the adjustment that follows it: the final
    [bitcount] and [bitslice]. *)
Definition find_slice (bitpool : Z) (needs : list Z) : option (Z * Z) :=
  '(bitcount, slicecount, bitslice) ←
    slice_loop (slice_fuel needs) bitpool needs 0 0 (max_bitneed needs + 1);
  Some (if bitcount + slicecount =? bitpool
        then (bitcount + slicecount, bitslice - 1) else (bitcount, bitslice)).

(** [bits[ch][sb]] before the two filling passes. *)
Definition first_bits (bitslice n : Z) : Z :=
  if n <? bitslice + 2 then 0
  else let b := n - bitslice in if 16 <? b then 16 else b.

(** First filling pass over (bitneed, bits) in the order the code visits the bands. *)
Fixpoint fill_pass1 (bitpool bitslice : Z) (l : list (Z * Z)) (bitcount : Z) : list Z * Z :=
  match l with
  | [] => ([], bitcount)
  | (n, b) :: l' =>
      if bitcount <? bitpool then
        let '(b', bitcount') :=
          if (2 <=? b) && (b <? 16) then (b + 1, bitcount + 1)
          else if (n =? bitslice + 1) && (bitcount + 1 <? bitpool) then (2, bitcount + 2)
          else (b, bitcount) in
        let '(r, bc) := fill_pass1 bitpool bitslice l' bitcount' in (b' :: r, bc)
      else (map snd l, bitcount)
  end.

(** Second filling pass. *)
Fixpoint fill_pass2 (bitpool : Z) (l : list Z) (bitcount : Z) : list Z * Z :=
  match l with
  | [] => ([], bitcount)
  | b :: l' =>
      if bitcount <? bitpool then
        let '(b', bitcount') := if b <? 16 then (b + 1, bitcount + 1) else (b, bitcount) in
        let '(r, bc) := fill_pass2 bitpool l' bitcount' in (b' :: r, bc)
      else (l, bitcount)
  end.

(** ** The two branches *)

(** Mono / dual channel: one channel at a time, bands in order. *)
Definition calculate_bits_mono (bitpool : Z) (needs : list Z) : option (list Z) :=
  '(bitcount, bitslice) ← find_slice bitpool needs;
  let '(bits1, bitcount1) :=
    fill_pass1 bitpool bitslice (map (fun n => (n, first_bits bitslice n)) needs) bitcount in
  Some (fst (fill_pass2 bitpool bits1 bitcount1)).

(** Stereo / joint stereo: one pool for both channels; the filling passes visit
    (ch 0, sb 0), (ch 1, sb 0), (ch 0, sb 1), ... *)
Fixpoint interleave {A} (l k : list A) : list A :=
  match l, k with
  | a :: l', b :: k' => a :: b :: interleave l' k'
  | _, _ => []
  end.

Fixpoint evens {A} (l : list A) : list A :=
  match l with a :: _ :: l' => a :: evens l' | _ => [] end.
Fixpoint odds {A} (l : list A) : list A :=
  match l with _ :: b :: l' => b :: odds l' | _ => [] end.

Definition calculate_bits_stereo (bitpool : Z) (needs0 needs1 : list Z) : option (list Z * list Z) :=
  '(bitcount, bitslice) ← find_slice bitpool (needs0 ++ needs1);
  let order := interleave needs0 needs1 in
  let '(bits1, bitcount1) :=
    fill_pass1 bitpool bitslice (map (fun n => (n, first_bits bitslice n)) order) bitcount in
  let bits := fst (fill_pass2 bitpool bits1 bitcount1) in
  Some (evens bits, odds bits).

(** [sbc_calculate_bits_internal]: the array [bits], one row per channel of the frame. *)
Definition sbc_calculate_bits_internal (mode channels allocation freq bitpool : Z)
    (scale_factor : list (list Z)) (subbands : Z) : option (list (list Z)) :=
  let row ch := default [] (aget scale_factor ch) in
  if (mode =? SBC_MODE_MONO) || (mode =? SBC_MODE_DUAL_CHANNEL) then
    mapM (fun ch => calculate_bits_mono bitpool (bitneeds allocation freq subbands (row ch)))
      (seqZ 0 channels)
  else
    '(b0, b1) ← calculate_bits_stereo bitpool
      (bitneeds allocation freq subbands (row 0)) (bitneeds allocation freq subbands (row 1));
    Some [b0; b1].

Definition sbc_calculate_bits (mode channels allocation freq bitpool subbands : Z)
    (scale_factor : list (list Z)) : option (list (list Z)) :=
  if subbands =? 4
  then sbc_calculate_bits_internal mode channels allocation freq bitpool scale_factor 4
  else sbc_calculate_bits_internal mode channels allocation freq bitpool scale_factor 8.

(** The mSBC silence frame of the daemon has scale factors c5 00 00 00. *)
Example msbc_silence_bits :
  sbc_calculate_bits 0 1 0 0 26 8 [[12; 5; 0; 0; 0; 0; 0; 0]] = Some [[15; 9; 2; 0; 0; 0; 0; 0]].
Proof. reflexivity. Qed.

(** ** The slice loop

    [share_total s] is the number of bits the bands take when the slices above [s] are
    granted; every slice adds exactly its [slicecount]. *)
Definition share_total (bitslice : Z) (needs : list Z) : Z := zsum (map (first_bits bitslice) needs).

Lemma first_bits_step s n : first_bits (s - 1) n = first_bits s n + slice_share s n.
Proof. unfold first_bits, slice_share. cbv zeta. zcases; simpl; lia. Qed.

Lemma first_bits_range s n : 0 <= first_bits s n <= 16.
Proof. unfold first_bits. cbv zeta. zcases; lia. Qed.

Lemma slicecount_sum s l : slicecount_of s l = zsum (map (slice_share s) l).
Proof.
  unfold slicecount_of.
  assert (forall c, fold_left (fun c n => c + slice_share s n) l c = c + zsum (map (slice_share s) l)) as H.
  { induction l as [|n l IH]; intros c; unfold zsum in *; simpl; [lia|]. rewrite IH. lia. }
  apply H.
Qed.

Lemma share_total_step s l : share_total (s - 1) l = share_total s l + slicecount_of s l.
Proof.
  rewrite slicecount_sum. unfold share_total.
  induction l as [|n l IH]; unfold zsum in *; simpl; [lia|]. rewrite first_bits_step. lia.
Qed.

Lemma slice_share_nonneg s n : 0 <= slice_share s n.
Proof. unfold slice_share. zcases; simpl; lia. Qed.

Lemma slicecount_nonneg s l : 0 <= slicecount_of s l.
Proof.
  rewrite slicecount_sum. apply zsum_nonneg, Forall_map, Forall_true.
  intros n. apply slice_share_nonneg.
Qed.

Lemma max_bitneed_fold l m :
  m <= fold_left (fun m n => if m <? n then n else m) l m
  /\ Forall (fun n => n <= fold_left (fun m n => if m <? n then n else m) l m) l.
Proof.
  revert m. induction l as [|n l IH]; intros m; simpl; [split; [lia|constructor]|].
  destruct (IH (if m <? n then n else m)) as [H1 H2]. split; [|constructor; [|done]].
  all: destruct (Z.ltb_spec m n); lia.
Qed.

Lemma max_bitneed_nonneg l : 0 <= max_bitneed l.
Proof. apply (max_bitneed_fold l 0). Qed.

(** Nothing is granted at the top slice. *)
Lemma share_total_top l : share_total (max_bitneed l) l = 0.
Proof.
  unfold share_total. pose proof (proj2 (max_bitneed_fold l 0)) as Hm. fold (max_bitneed l) in Hm.
  revert Hm. generalize (max_bitneed l). intros m Hm.
  induction Hm as [|n l' Hn _ IH]; [done|]. unfold zsum in *. simpl. rewrite IH.
  unfold first_bits. cbv zeta. zcases; lia.
Qed.

(** Far enough down every band holds its 16 bits. *)
Lemma share_total_bottom s l : Forall (fun n => s + 16 <= n) l -> share_total s l = 16 * zlen l.
Proof.
  unfold share_total, zlen. induction 1 as [|n l Hn _ IH]; [done|]. unfold zsum in *. simpl.
  rewrite IH. unfold first_bits. cbv zeta. zcases; lia.
Qed.

(** The loop stops within its fuel, on the slice where the pool is exhausted. *)
Lemma slice_loop_ok fuel bitpool needs bc sc s :
  Forall (fun n => -16 <= n) needs -> bitpool <= 16 * zlen needs ->
  -32 < s -> s + 32 <= Z.of_nat fuel ->
  bc + sc = share_total (s - 1) needs -> bc + sc < bitpool \/ bc + sc = 0 ->
  exists s', slice_loop fuel bitpool needs bc sc s
             = Some (share_total s' needs, slicecount_of s' needs, s')
    /\ bitpool <= share_total s' needs + slicecount_of s' needs
    /\ (share_total s' needs < bitpool \/ share_total s' needs = 0).
Proof.
  intros Hn Hp. revert bc sc s.
  induction fuel as [|fuel IH]; intros bc sc s Hs Hf Hinv Hlt; [lia|]. cbn [slice_loop].
  rewrite Hinv. destruct (Z.ltb_spec (share_total (s - 1) needs + slicecount_of (s - 1) needs) bitpool)
    as [Hlt'|Hge]; [|exists (s - 1); repeat split; lia].
  assert (-32 < s - 1) as Hs'.
  { destruct (decide (s - 1 = -32)) as [He|]; [|lia]. exfalso.
    rewrite He, (share_total_bottom (-32)) in Hlt'
      by (eapply Forall_impl; [|exact Hn]; simpl; lia).
    pose proof (slicecount_nonneg (-32) needs). lia. }
  apply IH; try lia. by rewrite (share_total_step (s - 1)).
Qed.

(** What [find_slice] returns: the bits granted so far, and room for exactly the rest. *)
Lemma find_slice_ok bitpool needs :
  Forall (fun n => -16 <= n) needs -> 0 <= bitpool <= 16 * zlen needs ->
  exists s, find_slice bitpool needs = Some (share_total s needs, s)
    /\ share_total s needs <= bitpool
    /\ (share_total s needs < bitpool -> bitpool <= share_total s needs + slicecount_of s needs).
Proof.
  intros Hn Hp. unfold find_slice.
  pose proof (max_bitneed_nonneg needs) as Hm.
  destruct (slice_loop_ok (slice_fuel needs) bitpool needs 0 0 (max_bitneed needs + 1))
    as (s & -> & Hge & Hlt); try done; try (unfold slice_fuel; lia).
  { replace (max_bitneed needs + 1 - 1) with (max_bitneed needs) by lia. by rewrite share_total_top. }
  cbn [mbind option_bind]. destruct (Z.eqb_spec (share_total s needs + slicecount_of s needs) bitpool) as [He|He].
  - exists (s - 1). rewrite share_total_step. repeat split; lia.
  - exists s. repeat split; lia.
Qed.

(** ** The filling passes *)

Definition bits_ok (l : list Z) : Prop := Forall (fun b => 0 <= b <= 16) l.

(** What one band does in the first pass: it takes its share of the slice, except that a
    band asking for two bits gets none when a single one is left. *)
Lemma fill_step1_ok bitpool s n bc :
  bc < bitpool ->
  exists b' bc',
    (if (2 <=? first_bits s n) && (first_bits s n <? 16) then (first_bits s n + 1, bc + 1)
     else if (n =? s + 1) && (bc + 1 <? bitpool) then (2, bc + 2) else (first_bits s n, bc)) = (b', bc')
    /\ 0 <= b' <= 16 /\ bc' <= bitpool /\ b' - bc' = first_bits s n - bc
    /\ (bc' = bc + slice_share s n \/ (bc' = bc /\ bc = bitpool - 1 /\ b' = 0)).
Proof.
  unfold slice_share, first_bits. cbv zeta.
  zcases; simpl; intros; (do 2 eexists; split; [reflexivity|]); lia.
Qed.

(** After the first pass at most one bit is left, and then a band of 0 bits remains. *)
Lemma fill_pass1_ok bitpool s needs bc :
  bc <= bitpool ->
  (bc < bitpool -> bitpool <= bc + slicecount_of s needs \/ bc = bitpool - 1) ->
  exists l bc', fill_pass1 bitpool s (map (fun n => (n, first_bits s n)) needs) bc = (l, bc')
    /\ length l = length needs /\ bits_ok l
    /\ zsum l - bc' = share_total s needs - bc
    /\ (bc' = bitpool \/
        (bc' = bitpool - 1 /\ (In 0 l \/ bc + slicecount_of s needs < bitpool))).
Proof.
  rewrite slicecount_sum. unfold share_total, bits_ok.
  revert bc. induction needs as [|n needs IH]; intros bc Hle Hge; unfold zsum in *; simpl in *.
  - exists [], bc. split_auto.
  - destruct (Z.ltb_spec bc bitpool) as [Hlt|Hnlt].
    + destruct (fill_step1_ok bitpool s n bc Hlt) as (b' & bc1 & -> & Hb' & Hle' & Hd & Hrem).
      pose proof (slice_share_nonneg s n).
      destruct (IH bc1 Hle') as (l & bc' & -> & Hlen & Hok & Hsum & Hend); [lia|].
      exists (b' :: l), bc'. simpl. split_auto.
      destruct Hend as [?|[? [?|?]]]; [by left|right; auto|right; split; [done|]].
      destruct Hrem as [?|(? & ? & ->)]; [right; lia|auto].
    + assert (bc = bitpool) as -> by lia. clear.
      exists (first_bits s n :: map snd (map (fun n => (n, first_bits s n)) needs)), bitpool.
      rewrite map_map. simpl. rewrite length_map. split_auto.
      all: first [ by left | apply first_bits_range
                 | apply Forall_map, Forall_true; intros; apply first_bits_range ].
Qed.

(** The second pass hands out the last bit. *)
Lemma fill_pass2_ok bitpool l bc :
  bits_ok l -> bc = bitpool \/ (bc = bitpool - 1 /\ In 0 l) ->
  exists l', fill_pass2 bitpool l bc = (l', bitpool)
    /\ length l' = length l /\ bits_ok l' /\ zsum l' - bitpool = zsum l - bc.
Proof.
  unfold bits_ok. induction 1 as [|b l Hb Hl IH]; intros Hbc; unfold zsum in *; simpl in *.
  - exists []. destruct Hbc as [->|[_ []]]. simpl. split_auto.
  - destruct (Z.ltb_spec bc bitpool) as [Hlt|Hnlt].
    + destruct (Z.ltb_spec b 16) as [Hb16|Hb16].
      * assert (bc + 1 = bitpool) as -> by lia. exists (b + 1 :: l).
        destruct l as [|b2 l2]; simpl; rewrite ?Z.ltb_irrefl; split_auto.
      * destruct IH as (l' & -> & Hlen & Hok & Hs).
        { destruct Hbc as [?|[? [?|?]]]; [by left|lia|by right]. }
        exists (b :: l'). simpl. split_auto.
    + assert (bc = bitpool) as -> by lia. exists (b :: l). split_auto.
Qed.

(** ** Allocation over one pool *)
Lemma allocation_ok bitpool s bc order needs :
  find_slice bitpool needs = Some (bc, s) -> Permutation order needs ->
  Forall (fun n => -16 <= n) needs -> 0 <= bitpool <= 16 * zlen needs ->
  exists l, (let '(bits1, bc1) := fill_pass1 bitpool s (map (fun n => (n, first_bits s n)) order) bc in
             fst (fill_pass2 bitpool bits1 bc1)) = l
    /\ length l = length order /\ bits_ok l /\ zsum l = bitpool.
Proof.
  intros Hf Hperm Hn Hp. destruct (find_slice_ok bitpool needs Hn Hp) as (s' & Hs' & Hle & Hroom).
  rewrite Hf in Hs'. injection Hs' as -> ->.
  assert (forall f, zsum (map f order) = zsum (map f needs)) as Hz.
  { intros f. clear -Hperm. induction Hperm; unfold zsum in *; simpl in *; lia. }
  destruct (fill_pass1_ok bitpool s' order (share_total s' needs)) as (l1 & bc1 & -> & Hlen & Hok & Hsum & Hend).
  { done. }
  { intros ?. left. rewrite slicecount_sum, Hz, <- slicecount_sum. auto. }
  destruct (fill_pass2_ok bitpool l1 bc1 Hok) as (l2 & -> & Hlen2 & Hok2 & Hsum2).
  { destruct Hend as [?|[? [?|Hno]]]; [by left|right; auto|exfalso].
    rewrite slicecount_sum, Hz, <- slicecount_sum in Hno.
    pose proof (slicecount_nonneg s' needs). lia. }
  assert (share_total s' order = share_total s' needs) by apply Hz.
  exists l2. split_auto.
Qed.

Lemma calculate_bits_mono_ok bitpool needs :
  Forall (fun n => -16 <= n) needs -> 0 <= bitpool <= 16 * zlen needs ->
  exists l, calculate_bits_mono bitpool needs = Some l
    /\ length l = length needs /\ bits_ok l /\ zsum l = bitpool.
Proof.
  intros Hn Hp. unfold calculate_bits_mono.
  destruct (find_slice_ok bitpool needs Hn Hp) as (s & Hs & _). rewrite Hs. cbn [mbind option_bind].
  destruct (allocation_ok bitpool s _ needs needs Hs (Permutation_refl _) Hn Hp) as (l & Hl & ?).
  destruct (fill_pass1 _ _ _ _) as [bits1 bc1]. exists l. by rewrite Hl.
Qed.

(** ** Interleaving *)
Lemma interleave_perm {A} (l k : list A) : length l = length k -> Permutation (interleave l k) (l ++ k).
Proof.
  revert k. induction l as [|a l IH]; intros [|b k] H; simpl in *; try done.
  constructor. rewrite (IH k) by lia. by rewrite Permutation_middle.
Qed.

Lemma evens_odds_ok l n :
  length l = (2 * n)%nat -> bits_ok l ->
  length (evens l) = n /\ length (odds l) = n /\ bits_ok (evens l) /\ bits_ok (odds l)
  /\ zsum (evens l) + zsum (odds l) = zsum l.
Proof.
  unfold bits_ok. revert l. induction n as [|n IH]; intros l Hl Hok.
  - destruct l; [|done]. repeat split; constructor.
  - destruct l as [|a [|b l]]; simpl in Hl; try lia.
    inversion_clear Hok as [|?? Ha Hok']. inversion_clear Hok' as [|?? Hb Hok].
    destruct (IH l ltac:(lia) Hok) as (? & ? & ? & ? & ?). unfold zsum in *. simpl.
    split_auto.
Qed.

Lemma calculate_bits_stereo_ok bitpool needs0 needs1 :
  length needs0 = length needs1 ->
  Forall (fun n => -16 <= n) (needs0 ++ needs1) -> 0 <= bitpool <= 16 * zlen (needs0 ++ needs1) ->
  exists b0 b1, calculate_bits_stereo bitpool needs0 needs1 = Some (b0, b1)
    /\ length b0 = length needs0 /\ length b1 = length needs1 /\ bits_ok b0 /\ bits_ok b1
    /\ zsum b0 + zsum b1 = bitpool.
Proof.
  intros Hlen Hn Hp. unfold calculate_bits_stereo.
  destruct (find_slice_ok bitpool _ Hn Hp) as (s & Hs & _). rewrite Hs. cbn [mbind option_bind].
  pose proof (interleave_perm needs0 needs1 Hlen) as Hperm.
  destruct (allocation_ok bitpool s _ _ _ Hs Hperm Hn Hp) as (l & Hl & Hll & Hok & Hz).
  destruct (fill_pass1 _ _ _ _) as [bits1 bc1]. rewrite Hl.
  apply Permutation_length in Hperm. rewrite length_app in Hperm.
  destruct (evens_odds_ok l (length needs0)) as (? & ? & ? & ? & ?); [lia|done|].
  exists (evens l), (odds l). split_auto.
Qed.

(** ** The whole allocation *)

Lemma anth_Forall (P : Z -> Prop) l i : P 0 -> Forall P l -> P (anth l i).
Proof.
  intros H0 Hl. unfold anth. destruct (aget l i) as [v|] eqn:Hv; [|done].
  by eapply aget_Forall.
Qed.

Lemma offset_range t i j :
  t = sbc_offset4 \/ t = sbc_offset8 -> -4 <= anth2 t i j <= 2.
Proof.
  intros Ht. unfold anth2. apply (anth_Forall (fun z => -4 <= z <= 2)); [lia|].
  destruct (aget t i) as [r|] eqn:Hr; [|apply Forall_nil_2].
  eapply (aget_Forall (Forall (fun z => -4 <= z <= 2))); [|exact Hr].
  destruct Ht as [-> | ->]; by_compute.
Qed.

(** Scale factors of a frame: four bits each. *)
Definition scale_ok (l : list Z) : Prop := Forall (fun z => 0 <= z <= 15) l.

Lemma bitneed_of_range allocation freq subbands sfs sb :
  scale_ok sfs -> -5 <= bitneed_of allocation freq subbands sfs sb <= 15.
Proof.
  intros Hs. unfold bitneed_of. cbv zeta.
  assert (0 <= anth sfs sb <= 15) as Ha by (apply (anth_Forall (fun z => 0 <= z <= 15)); [lia|done]).
  pose proof (offset_range sbc_offset4 freq sb ltac:(auto)).
  pose proof (offset_range sbc_offset8 freq sb ltac:(auto)).
  rewrite !i32_small by (unfold is_i32; lia).
  zcases; Z.to_euclidean_division_equations; lia.
Qed.

Lemma bitneeds_ok allocation freq subbands sfs :
  scale_ok sfs -> Forall (fun n => -16 <= n) (bitneeds allocation freq subbands sfs).
Proof.
  intros Hs. apply Forall_map, Forall_true. intros sb.
  pose proof (bitneed_of_range allocation freq subbands sfs sb Hs). lia.
Qed.

Lemma bitneeds_length allocation freq subbands sfs :
  0 <= subbands -> zlen (bitneeds allocation freq subbands sfs) = subbands.
Proof. intros. unfold zlen, bitneeds. rewrite length_map, length_seqZ. lia. Qed.

Definition mono_like (mode : Z) : bool := (mode =? SBC_MODE_MONO) || (mode =? SBC_MODE_DUAL_CHANNEL).

(** The bitpool bound the unpacker and the packer check. *)
Definition pool_ok (mode subbands bitpool : Z) : Prop :=
  0 <= bitpool <= (if mono_like mode then 16 else 32) * subbands.

(** Mono and dual channel frames spend the pool on each channel, stereo ones on both. *)
Definition pool_spent (mode bitpool : Z) (bits : list (list Z)) : Prop :=
  if mono_like mode then Forall (fun row => zsum row = bitpool) bits
  else zsum (map zsum bits) = bitpool.

Definition rows_ok (n subbands : Z) (bits : list (list Z)) : Prop :=
  zlen bits = n /\ Forall (fun row => zlen row = subbands /\ bits_ok row) bits.

Lemma row_scale_ok sfs ch : Forall scale_ok sfs -> scale_ok (default [] (aget sfs ch)).
Proof.
  intros Hs. destruct (aget sfs ch) as [r|] eqn:Hr; [|apply Forall_nil_2].
  by eapply (aget_Forall scale_ok).
Qed.

Lemma mapM_exists {A B} (f : A -> option B) (P : B -> Prop) l :
  (forall a, exists b, f a = Some b /\ P b) ->
  exists k, mapM f l = Some k /\ length k = length l /\ Forall P k.
Proof.
  intros Hf. induction l as [|a l (k & Hk & Hl & HP)].
  - exists []. split_auto.
  - destruct (Hf a) as (b & Hb & HPb). exists (b :: k). cbn. rewrite Hb. cbn. rewrite Hk. cbn.
    split_auto.
Qed.

Lemma sbc_calculate_bits_internal_ok mode channels allocation freq bitpool sfs subbands :
  0 <= subbands -> 0 <= channels -> (mono_like mode = false -> channels = 2) ->
  Forall scale_ok sfs -> pool_ok mode subbands bitpool ->
  exists bits, sbc_calculate_bits_internal mode channels allocation freq bitpool sfs subbands = Some bits
    /\ rows_ok channels subbands bits /\ pool_spent mode bitpool bits.
Proof.
  intros Hsb Hch Hst Hs Hp. unfold sbc_calculate_bits_internal, pool_ok, pool_spent, rows_ok in *.
  fold (mono_like mode). destruct (mono_like mode).
  - destruct (mapM_exists (fun ch => calculate_bits_mono bitpool
        (bitneeds allocation freq subbands (default [] (aget sfs ch))))
        (fun r => (zlen r = subbands /\ bits_ok r) /\ zsum r = bitpool) (seqZ 0 channels))
      as (bits & -> & Hl & HP).
    + intros ch. pose proof (bitneeds_length allocation freq subbands (default [] (aget sfs ch)) Hsb) as Hlen.
      destruct (calculate_bits_mono_ok bitpool _ (bitneeds_ok allocation freq subbands _ (row_scale_ok sfs ch Hs)))
        as (l & Hl & Hll & Hok & Hz); [lia|].
      exists l. split_auto. unfold zlen in *. lia.
    + rewrite length_seqZ in Hl. exists bits. split_and!; [done|unfold zlen; lia| |].
      all: eapply Forall_impl; [|exact HP]; by intros r [[? ?] ?].
  - rewrite Hst by done.
    pose proof (bitneeds_length allocation freq subbands (default [] (aget sfs 0)) Hsb) as Hl0.
    pose proof (bitneeds_length allocation freq subbands (default [] (aget sfs 1)) Hsb) as Hl1.
    unfold zlen in Hl0, Hl1.
    destruct (calculate_bits_stereo_ok bitpool (bitneeds allocation freq subbands (default [] (aget sfs 0)))
      (bitneeds allocation freq subbands (default [] (aget sfs 1))))
      as (b0 & b1 & -> & ? & ? & ? & ? & ?); [lia| |unfold zlen; rewrite length_app; lia|].
    { apply Forall_app. split; apply bitneeds_ok, row_scale_ok; done. }
    exists [b0; b1]. cbn [mbind option_bind]. unfold zlen, zsum in *. simpl.
    split_auto. all: split_auto.
Qed.


