(* ===== verification/SbcFrame.v ===== *)
(** The SBC frame and its unpacker: [struct sbc_frame], [sbc_unpack_frame] of
    src/mediatek/bluetooth/btremoted/msbc.c. *)
From S2P Require Import Prelude SbcTables SbcCrc SbcBits.

(** ** struct sbc_frame *)
Record sbc_frame := mk_frame {
  frequency : Z;
  block_mode : Z;
  blocks : Z;
  mode : Z;
  channels : Z;
  allocation : Z;
  subband_mode : Z;
  subbands : Z;
  bitpool : Z;
  codesize : Z;
  flength : Z;
  joint : Z;
  scale_factor : list (list Z);          (* [2][8] *)
  sb_sample_f : list (list (list Z));    (* [16][2][8] *)
  sb_sample : list (list (list Z));      (* [16][2][8] *)
  pcm_sample : list (list Z)             (* [2][16*8] *)
}.

(** The frame of a freshly [memset] private area. *)
Definition zeros3 : list (list (list Z)) := replicate 16 (replicate 2 (replicate 8 0)).
Definition frame0 : sbc_frame :=
  mk_frame 0 0 0 0 0 0 0 0 0 0 0 0 (replicate 2 (replicate 8 0)) zeros3 zeros3
    (replicate 2 (replicate 128 0)).

Definition set_header (f : sbc_frame) fr bm bl md ch al sm sb bp : sbc_frame :=
  mk_frame fr bm bl md ch al sm sb bp (codesize f) (flength f) (joint f)
    (scale_factor f) (sb_sample_f f) (sb_sample f) (pcm_sample f).
Definition set_sizes (f : sbc_frame) cs len : sbc_frame :=
  mk_frame (frequency f) (block_mode f) (blocks f) (mode f) (channels f) (allocation f)
    (subband_mode f) (subbands f) (bitpool f) cs len (joint f)
    (scale_factor f) (sb_sample_f f) (sb_sample f) (pcm_sample f).
Definition set_bitpool (f : sbc_frame) bp : sbc_frame :=
  set_header f (frequency f) (block_mode f) (blocks f) (mode f) (channels f) (allocation f)
    (subband_mode f) (subbands f) bp.
Definition set_joint (f : sbc_frame) j : sbc_frame :=
  mk_frame (frequency f) (block_mode f) (blocks f) (mode f) (channels f) (allocation f)
    (subband_mode f) (subbands f) (bitpool f) (codesize f) (flength f) j
    (scale_factor f) (sb_sample_f f) (sb_sample f) (pcm_sample f).
Definition set_scale_factor (f : sbc_frame) sf : sbc_frame :=
  mk_frame (frequency f) (block_mode f) (blocks f) (mode f) (channels f) (allocation f)
    (subband_mode f) (subbands f) (bitpool f) (codesize f) (flength f) (joint f)
    sf (sb_sample_f f) (sb_sample f) (pcm_sample f).
Definition set_sb_sample_f (f : sbc_frame) s : sbc_frame :=
  mk_frame (frequency f) (block_mode f) (blocks f) (mode f) (channels f) (allocation f)
    (subband_mode f) (subbands f) (bitpool f) (codesize f) (flength f) (joint f)
    (scale_factor f) s (sb_sample f) (pcm_sample f).
Definition set_sb_sample (f : sbc_frame) s : sbc_frame :=
  mk_frame (frequency f) (block_mode f) (blocks f) (mode f) (channels f) (allocation f)
    (subband_mode f) (subbands f) (bitpool f) (codesize f) (flength f) (joint f)
    (scale_factor f) (sb_sample_f f) s (pcm_sample f).
Definition set_pcm_sample (f : sbc_frame) p : sbc_frame :=
  mk_frame (frequency f) (block_mode f) (blocks f) (mode f) (channels f) (allocation f)
    (subband_mode f) (subbands f) (bitpool f) (codesize f) (flength f) (joint f)
    (scale_factor f) (sb_sample_f f) (sb_sample f) p.

(** Writes and reads of the two- and three-dimensional arrays. *)
Definition upd2 (t : list (list Z)) (i j v : Z) : list (list Z) :=
  alter (fun r => <[Z.to_nat j := v]> r) (Z.to_nat i) t.
Definition upd3 (t : list (list (list Z))) (i j k v : Z) : list (list (list Z)) :=
  alter (fun r => upd2 r j k v) (Z.to_nat i) t.
Definition anth3 (t : list (list (list Z))) (i j k : Z) : Z := anth2 (default [] (aget t i)) j k.

(** ** sbc_unpack_frame *)

(** The header fields of a frame starting with [SBC_SYNCWORD] (octets 1 and 2). *)
Definition read_sbc_header (f : sbc_frame) (d1 d2 : Z) : sbc_frame :=
  let frequency := (d1 ≫ 6) .& 0x03 in
  let block_mode := (d1 ≫ 4) .& 0x03 in
  let blocks :=
    if block_mode =? SBC_BLK_4 then 4
    else if block_mode =? SBC_BLK_8 then 8
    else if block_mode =? SBC_BLK_12 then 12
    else 16 in
  let mode := (d1 ≫ 2) .& 0x03 in
  let channels := if mode =? SBC_MODE_MONO then 1 else 2 in
  let allocation := (d1 ≫ 1) .& 0x01 in
  let subband_mode := d1 .& 0x01 in
  let subbands := if subband_mode =? 0 then 4 else 8 in
  set_header f frequency block_mode blocks mode channels allocation subband_mode subbands d2.

(** The fixed parameters of an mSBC frame; [block_mode] and [subband_mode] keep their values. *)
Definition msbc_header (f : sbc_frame) : sbc_frame :=
  set_header f SBC_FREQ_16000 (block_mode f) 15 SBC_MODE_MONO 1 0 (subband_mode f) 8 26.

(** Sync word and header: 0, or the error code to return, with the frame as written so far. *)
Definition unpack_header (data : list Z) (f : sbc_frame) : option (Z * sbc_frame) :=
  d0 ← aget data 0;
  if d0 =? SBC_SYNCWORD then
    d1 ← aget data 1;
    d2 ← aget data 2;
    let f := read_sbc_header f d1 d2 in
    if mono_like (mode f) && (16 * subbands f <? bitpool f) then Some (-4, f)
    else if negb (mono_like (mode f)) && (32 * subbands f <? bitpool f) then Some (-4, f)
    else Some (0, f)
  else if d0 =? MSBC_SYNCWORD then Some (0, msbc_header f)
  else _ ← aget data 1; _ ← aget data 2; Some (-2, f).

(** [crc_header] after the two header octets. *)
Definition crc_header0 (d1 d2 : Z) : list Z := d1 :: d2 :: replicate 9 0.

(** The joint-stereo octet: (joint, crc_header). *)
Definition joint_bits (d4 subbands : Z) : Z :=
  fold_left (fun j sb => j .| (((d4 ≫ (7 - sb)) .& 0x01) ≪ sb)) (seqZ 0 (subbands - 1)) 0.

(** State of the scale factor loops: consumed, crc_pos, crc_header, scale_factor. *)
Record sf_state := mk_sf { sf_consumed : Z; sf_crc_pos : Z; sf_crc_header : list Z; sf_rows : list (list Z) }.

Definition read_scale_factor (data : list Z) (ch sb : Z) (s : sf_state) : option sf_state :=
  d ← aget data (sf_consumed s ≫ 3);
  let sf := (d ≫ (4 - (sf_consumed s .& 0x7))) .& 0x0F in
  c ← aget (sf_crc_header s) (sf_crc_pos s ≫ 3);
  h ← aset (sf_crc_header s) (sf_crc_pos s ≫ 3) (u8 (c .| (sf ≪ (4 - (sf_crc_pos s .& 0x7)))));
  Some (mk_sf (sf_consumed s + 4) (sf_crc_pos s + 4) h (upd2 (sf_rows s) ch sb sf)).

Definition read_scale_factors (data : list Z) (nch nsb : Z) (s : sf_state) : option sf_state :=
  for_loop (Z.to_nat nch) 0
    (fun ch s => for_loop (Z.to_nat nsb) 0 (fun sb s => read_scale_factor data ch sb s) s) s.

(** The bits of one sample, most significant first; [inl]: the stream is too short. *)
Fixpoint read_sample (n : nat) (data : list Z) (len consumed acc : Z) : option (Z + Z * Z) :=
  match n with
  | O => Some (inr (acc, consumed))
  | S n' =>
      if len * 8 <? consumed then Some (inl consumed)
      else
        d ← aget data (consumed ≫ 3);
        let acc := if (d ≫ (7 - (consumed .& 0x7))) .& 0x01 =? 0
                   then acc else acc .| (1 ≪ Z.of_nat n') in
        read_sample n' data len (consumed + 1) acc
  end.

(** [(((audio_sample << 1) | 1) << scale_factor) / levels - (1 << scale_factor)] *)
Definition dequantize (audio_sample scale_factor level : Z) : Z :=
  i32 (u32 (u32 (((audio_sample ≪ 1) .| 1) ≪ scale_factor) / level - (1 ≪ scale_factor))).

Definition level_of (bits : Z) : Z := u32 ((1 ≪ bits) - 1).

(** State of the sample loops; [ss_short] is set by the early return -1. *)
Record sample_state := mk_ss { ss_short : bool; ss_consumed : Z; ss_samples : list (list (list Z)) }.

Definition unpack_sample (data : list Z) (len : Z) (bits sfs : list (list Z)) (blk ch sb : Z)
    (s : sample_state) : option sample_state :=
  if ss_short s then Some s
  else if 0 <? level_of (anth2 bits ch sb) then
    r ← read_sample (Z.to_nat (anth2 bits ch sb)) data len (ss_consumed s) 0;
    match r with
    | inl consumed => Some (mk_ss true consumed (ss_samples s))
    | inr (audio_sample, consumed) =>
        Some (mk_ss false consumed (upd3 (ss_samples s) blk ch sb
          (dequantize audio_sample (anth2 sfs ch sb) (level_of (anth2 bits ch sb)))))
    end
  else Some (mk_ss false (ss_consumed s) (upd3 (ss_samples s) blk ch sb 0)).

Definition unpack_samples (data : list Z) (len : Z) (bits sfs : list (list Z))
    (nblk nch nsb : Z) (s : sample_state) : option sample_state :=
  for_loop (Z.to_nat nblk) 0 (fun blk s =>
    for_loop (Z.to_nat nch) 0 (fun ch s =>
      for_loop (Z.to_nat nsb) 0 (fun sb s => unpack_sample data len bits sfs blk ch sb s) s) s) s.

(** Undoing joint stereo: sum and difference in the subbands marked in [joint]. *)
Definition unjoin_sample (joint blk sb : Z) (t : list (list (list Z))) : list (list (list Z)) :=
  if joint .& (0x01 ≪ sb) =? 0 then t
  else
    let a := anth3 t blk 0 sb in
    let b := anth3 t blk 1 sb in
    upd3 (upd3 t blk 1 sb (i32 (a - b))) blk 0 sb (i32 (a + b)).

Definition unjoin (joint nblk nsb : Z) (t : list (list (list Z))) : list (list (list Z)) :=
  fold_left (fun t blk => fold_left (fun t sb => unjoin_sample joint blk sb t) (seqZ 0 nsb) t)
    (seqZ 0 nblk) t.

(** The end of the frame: alignment to an octet and the optional zero padding octet. *)
Definition frame_end (data : list Z) (consumed : Z) : option Z :=
  let consumed := if consumed .& 0x7 =? 0 then consumed else consumed + (8 - (consumed .& 0x7)) in
  d ← aget data (consumed ≫ 3);
  Some (if d =? 0 then (consumed ≫ 3) + 1 else consumed ≫ 3).

(** From the bit allocation on. *)
Definition unpack_audio (data : list Z) (len consumed : Z) (f : sbc_frame) : option (Z * sbc_frame) :=
  bits ← sbc_calculate_bits (mode f) (channels f) (allocation f) (frequency f) (bitpool f)
           (subbands f) (scale_factor f);
  s ← unpack_samples data len bits (scale_factor f) (blocks f) (channels f) (subbands f)
        (mk_ss false consumed (sb_sample f));
  if ss_short s then Some (-1, set_sb_sample f (ss_samples s))
  else
    let f := set_sb_sample f
      (if mode f =? SBC_MODE_JOINT_STEREO
       then unjoin (joint f) (blocks f) (subbands f) (ss_samples s) else ss_samples s) in
    r ← frame_end data (ss_consumed s);
    Some (r, f).

(** Scale factors and CRC check. *)
Definition unpack_body (data : list Z) (len consumed crc_pos : Z) (crc_header : list Z)
    (f : sbc_frame) : option (Z * sbc_frame) :=
  if len * 8 <? consumed + 4 * subbands f * channels f then Some (-1, f)
  else
    s ← read_scale_factors data (channels f) (subbands f)
          (mk_sf consumed crc_pos crc_header (scale_factor f));
    let f := set_scale_factor f (sf_rows s) in
    d3 ← aget data 3;
    if negb (d3 =? sbc_crc8 (sf_crc_header s) (sf_crc_pos s)) then Some (-3, f)
    else unpack_audio data len (sf_consumed s) f.

(** [data] is the memory from the pointer on; [len] the length passed. [None] is an access
    outside [data]. *)
Definition sbc_unpack_frame (data : list Z) (f : sbc_frame) (len : Z) : option (Z * sbc_frame) :=
  if len <? 4 then Some (-1, f)
  else
    '(e, f) ← unpack_header data f;
    if e <? 0 then Some (e, f)
    else
      d1 ← aget data 1;
      d2 ← aget data 2;
      let crc_header := crc_header0 d1 d2 in
      if mode f =? SBC_MODE_JOINT_STEREO then
        if len * 8 <? 32 + subbands f then Some (-1, f)
        else
          d4 ← aget data 4;
          crc_header ← aset crc_header 2 (if subbands f =? 4 then d4 .& 0xf0 else d4);
          unpack_body data len (32 + subbands f) (16 + subbands f) crc_header
            (set_joint f (joint_bits d4 (subbands f)))
      else unpack_body data len 32 16 crc_header f.

(** ** Reading bits

    The unpacker addresses the stream by bit position; [bits_of data] is that stream. *)
Definition bval (l : list bool) : Z := fold_left (fun a b => 2 * a + Z.b2z b) l 0.

Lemma bval_fold l a : fold_left (fun a b => 2 * a + Z.b2z b) l a = a * 2 ^ zlen l + bval l.
Proof.
  unfold bval, zlen. revert a. induction l as [|b l IH]; intros a; [simpl; lia|].
  cbn [fold_left length]. rewrite (IH (2 * a + _)), (IH (2 * 0 + _)).
  replace (Z.of_nat (S (length l))) with (1 + Z.of_nat (length l)) by lia.
  rewrite Z.pow_add_r by lia. lia.
Qed.

Lemma bval_cons b l : bval (b :: l) = Z.b2z b * 2 ^ zlen l + bval l.
Proof. unfold bval at 1. cbn [fold_left]. by rewrite bval_fold. Qed.

Lemma bval_range l : 0 <= bval l < 2 ^ zlen l.
Proof.
  induction l as [|b l IH]; [done|]. rewrite bval_cons. unfold zlen in *. simpl.
  replace (Z.of_nat (S (length l))) with (1 + Z.of_nat (length l)) by lia.
  rewrite Z.pow_add_r by lia. destruct b; simpl; lia.
Qed.

Lemma shiftr3 c : 0 <= c -> c ≫ 3 = c / 8.
Proof. intros. by rewrite Z.shiftr_div_pow2. Qed.
Lemma land7 c : c .& 0x7 = c mod 8.
Proof. change 0x7 with (Z.ones 3). by rewrite Z.land_ones by lia. Qed.

Lemma aget_bit data c d :
  0 <= c -> aget data (c / 8) = Some d ->
  bits_of data !! Z.to_nat c = Some (Z.testbit d (7 - c mod 8)).
Proof.
  intros Hc Hd. pose proof (Z.mod_pos_bound c 8 ltac:(lia)). pose proof (Z.div_mod c 8 ltac:(lia)).
  pose proof (Z.div_pos c 8 Hc ltac:(lia)) as Hq.
  unfold aget in Hd. rewrite (proj2 (Z.leb_le _ _)) in Hd by done.
  pose proof (lookup_lt_Some _ _ _ Hd) as Hlt.
  pose proof (take_bits_of (Z.to_nat (c / 8)) (S (Z.to_nat (c mod 8))) data Hlt ltac:(lia)) as Ht.
  rewrite Hd in Ht. cbn [default from_option] in Ht.
  assert (take (8 * Z.to_nat (c / 8) + S (Z.to_nat (c mod 8))) (bits_of data) !! Z.to_nat c
          = Some (Z.testbit d (7 - c mod 8))) as Hl.
  { rewrite Ht, lookup_app_r by (rewrite bits_of_length, length_take; lia).
    rewrite bits_of_length, length_take. rewrite Nat.min_l by lia.
    replace (Z.to_nat c - 8 * Z.to_nat (c / 8))%nat with (Z.to_nat (c mod 8)) by lia.
    rewrite list_lookup_fmap, lookup_seq_lt by lia.
    cbn [fmap option_fmap option_map]. unfold byte_bit. do 2 f_equal. lia. }
  rewrite lookup_take in Hl. by case_decide.
Qed.

Lemma land1_testbit d k : 0 <= k -> ((d ≫ k) .& 0x01 =? 0) = negb (Z.testbit d k).
Proof.
  intros Hk. change 0x01 with (Z.ones 1). rewrite Z.land_ones by lia.
  rewrite <- (Z.add_0_l k) at 2. rewrite <- Z.shiftr_spec by lia.
  rewrite <- Z.bit0_mod. by destruct (Z.testbit (d ≫ k) 0).
Qed.

(** Setting a bit below the low end of a multiple. *)
Lemma lor_pow2 A n : 0 <= n -> (A * 2 ^ (n + 1)) .| (1 ≪ n) = A * 2 ^ (n + 1) + 2 ^ n.
Proof.
  intros Hn. rewrite Z.shiftl_1_l.
  assert ((A * 2 ^ (n + 1)) .& 2 ^ n = 0) as H.
  { apply Z.bits_inj'; intros k Hk. rewrite Z.land_spec, Z.bits_0, Z.pow2_bits_eqb by lia.
    destruct (Z.eqb_spec n k) as [<-|]; [|by rewrite andb_false_r].
    rewrite <- Z.shiftl_mul_pow2, Z.shiftl_spec_low by lia. done. }
  by rewrite (Z.add_nocarry_lxor _ _ H), (Z.lxor_lor _ _ H).
Qed.

Lemma take_drop_cons {A} (l : list A) i n x :
  l !! i = Some x -> take (S n) (drop i l) = x :: take n (drop (S i) l).
Proof. intros H. by rewrite (drop_S l x i H). Qed.

(** A sample whose bits are in the stream is read as their value. *)
Lemma read_sample_ok n data len c A :
  0 <= c -> c + Z.of_nat n <= 8 * zlen data -> c + Z.of_nat n <= len * 8 + 1 ->
  read_sample n data len c (A * 2 ^ Z.of_nat n)
  = Some (inr (A * 2 ^ Z.of_nat n + bval (take n (drop (Z.to_nat c) (bits_of data))),
               c + Z.of_nat n)).
Proof.
  revert c A. induction n as [|n IH]; intros c A Hc Hl Hn.
  - cbn [read_sample take]. unfold bval. simpl. do 3 f_equal; lia.
  - cbn [read_sample]. destruct (Z.ltb_spec (len * 8) c); [lia|].
    rewrite shiftr3, land7 by done.
    pose proof (Z.mod_pos_bound c 8 ltac:(lia)). pose proof (Z.div_mod c 8 ltac:(lia)).
    pose proof (Z.div_pos c 8 Hc ltac:(lia)).
    destruct (aget_in data (c / 8)) as [d Hd]; [lia|]. rewrite Hd. cbn [mbind option_bind].
    rewrite land1_testbit by lia.
    rewrite (take_drop_cons _ _ _ _ (aget_bit data c d Hc Hd)), bval_cons.
    replace (S (Z.to_nat c)) with (Z.to_nat (c + 1)) by lia.
    replace (Z.of_nat (S n)) with (Z.of_nat n + 1) in * by lia.
    assert (zlen (take n (drop (Z.to_nat (c + 1)) (bits_of data))) = Z.of_nat n) as Hlen.
    { unfold zlen in *. rewrite length_take, length_drop, bits_of_length. lia. }
    rewrite Hlen.
    set (b := Z.testbit d (7 - c mod 8)).
    replace (if negb b then A * 2 ^ (Z.of_nat n + 1) else (A * 2 ^ (Z.of_nat n + 1)) .| (1 ≪ Z.of_nat n))
      with ((2 * A + Z.b2z b) * 2 ^ Z.of_nat n).
    + rewrite IH by lia. rewrite Z.pow_add_r by lia. do 3 f_equal; lia.
    + destruct b; simpl; [rewrite lor_pow2 by lia|]; rewrite Z.pow_add_r by lia; lia.
Qed.

(** Otherwise the early return is taken. *)
Lemma read_sample_short n data len c acc :
  0 <= c -> len < zlen data -> (0 < n)%nat -> len * 8 + 1 < c + Z.of_nat n ->
  exists c', read_sample n data len c acc = Some (inl c') /\ c <= c' <= Z.max c (len * 8 + 1).
Proof.
  revert c acc. induction n as [|n IH]; intros c acc Hc Hl Hn Hs; [lia|]. cbn [read_sample].
  destruct (Z.ltb_spec (len * 8) c); [exists c; split; [done|lia]|].
  rewrite shiftr3 by done. pose proof (Z.div_mod c 8 ltac:(lia)).
  pose proof (Z.mod_pos_bound c 8 ltac:(lia)). pose proof (Z.div_pos c 8 Hc ltac:(lia)).
  destruct (aget_in data (c / 8)) as [d Hd]; [lia|]. rewrite Hd. cbn [mbind option_bind].
  edestruct (IH (c + 1)) as (c' & Hr & ?); [lia|done| |lia|exists c'; split; [exact Hr|lia]].
  destruct n; lia.
Qed.

(** ** Type invariant of a frame: array shapes and element ranges *)
Definition row_wf (n : nat) (P : Z -> Prop) (r : list Z) : Prop := length r = n /\ Forall P r.
Definition arr2_wf (n : nat) (P : Z -> Prop) (t : list (list Z)) : Prop :=
  length t = 2%nat /\ Forall (row_wf n P) t.
Definition arr3_wf (P : Z -> Prop) (t : list (list (list Z))) : Prop :=
  length t = 16%nat /\ Forall (arr2_wf 8 P) t.

Definition is_u4 (z : Z) : Prop := 0 <= z <= 15.
#[export] Instance is_u4_dec z : Decision (is_u4 z).
Proof. unfold is_u4. apply _. Defined.
#[export] Instance is_i32_dec z : Decision (is_i32 z).
Proof. unfold is_i32. apply _. Defined.
#[export] Instance row_wf_dec n P `{forall z, Decision (P z)} r : Decision (row_wf n P r).
Proof. unfold row_wf. apply _. Defined.
#[export] Instance arr2_wf_dec n P `{forall z, Decision (P z)} r : Decision (arr2_wf n P r).
Proof. unfold arr2_wf. apply _. Defined.
#[export] Instance arr3_wf_dec P `{forall z, Decision (P z)} r : Decision (arr3_wf P r).
Proof. unfold arr3_wf. apply _. Defined.

Record frame_wf (f : sbc_frame) : Prop := {
  wf_scale : arr2_wf 8 is_u4 (scale_factor f);
  wf_sb : arr3_wf is_i32 (sb_sample f);
  wf_sbf : arr3_wf is_i32 (sb_sample_f f);
  wf_pcm : arr2_wf 128 is_i16 (pcm_sample f)
}.

Lemma frame0_wf : frame_wf frame0.
Proof. split; by_compute. Qed.

Lemma Forall_alter {A} (P : A -> Prop) f i l :
  Forall P l -> (forall x, P x -> P (f x)) -> Forall P (alter f i l).
Proof.
  intros Hl Hf. apply Forall_lookup. intros j x.
  rewrite list_lookup_alter. case_decide as Hd; [|by apply Forall_lookup_1].
  destruct (l !! i) as [y|] eqn:Hy; simpl; [|done]. intros [= <-].
  apply Hf. by eapply Forall_lookup_1.
Qed.

Lemma row_wf_insert n (P : Z -> Prop) r j v : P v -> row_wf n P r -> row_wf n P (<[j:=v]> r).
Proof. intros Hv [Hl Hr]. split; [by rewrite length_insert|by apply Forall_insert]. Qed.

Lemma upd2_wf n (P : Z -> Prop) t i j v : P v -> arr2_wf n P t -> arr2_wf n P (upd2 t i j v).
Proof.
  intros Hv [Hl Ht]. unfold upd2. split; [by rewrite length_alter|].
  apply Forall_alter; [done|]. intros. by apply row_wf_insert.
Qed.

Lemma upd3_wf (P : Z -> Prop) t i j k v : P v -> arr3_wf P t -> arr3_wf P (upd3 t i j k v).
Proof.
  intros Hv [Hl Ht]. unfold upd3. split; [by rewrite length_alter|].
  apply Forall_alter; [done|]. intros. by apply upd2_wf.
Qed.

Lemma arr2_wf_anth2 n (P : Z -> Prop) t i j : P 0 -> arr2_wf n P t -> P (anth2 t i j).
Proof.
  intros H0 [_ Ht]. unfold anth2. destruct (aget t i) as [r|] eqn:Hr; simpl.
  - apply anth_Forall; [done|]. apply (aget_Forall _ _ _ _ Ht Hr).
  - unfold anth, aget. by case_match.
Qed.

Lemma anth2_u4 t i j : arr2_wf 8 is_u4 t -> is_u4 (anth2 t i j).
Proof. apply arr2_wf_anth2. unfold is_u4. lia. Qed.

Lemma dequantize_i32 a sf l : is_i32 (dequantize a sf l).
Proof. apply i32_range. Qed.

(** ** Memory safety of the loops

    [len] bytes were announced, [data] holds at least one more: no access leaves it. *)
Definition samples_safe (len c : Z) (s : sample_state) : Prop :=
  arr3_wf is_i32 (ss_samples s) /\ c <= ss_consumed s <= Z.max c (len * 8 + 1).

Lemma unpack_sample_safe data len bits sfs blk ch sb c s :
  0 <= c -> len < zlen data -> samples_safe len c s ->
  exists s', unpack_sample data len bits sfs blk ch sb s = Some s' /\ samples_safe len c s'.
Proof.
  intros Hc Hl [Hwf Hr]. unfold unpack_sample. destruct (ss_short s) eqn:Hsh.
  { exists s. split; [done|by split]. }
  destruct (Z.ltb_spec 0 (level_of (anth2 bits ch sb))) as [Hlv|Hlv].
  2:{ eexists. split; [reflexivity|]. split; simpl; [|lia]. by apply upd3_wf. }
  set (n := Z.to_nat (anth2 bits ch sb)).
  destruct (decide (ss_consumed s + Z.of_nat n <= len * 8 + 1 \/ n = 0%nat)) as [Hfit|Hno].
  - assert (exists v, read_sample n data len (ss_consumed s) 0
      = Some (inr (v, ss_consumed s + Z.of_nat n))) as [v Hv].
    { destruct n as [|n']; [exists 0; simpl; do 3 f_equal; lia|].
      rewrite <- (Z.mul_0_l (2 ^ Z.of_nat (S n'))). rewrite read_sample_ok by lia. eauto. }
    rewrite Hv. cbn [mbind option_bind]. eexists. split; [reflexivity|].
    split; simpl; [|lia]. apply upd3_wf; [apply dequantize_i32|done].
  - destruct (read_sample_short n data len (ss_consumed s) 0) as (c' & Hv & ?); [lia..|].
    rewrite Hv. cbn [mbind option_bind]. eexists. split; [reflexivity|]. split; simpl; [done|lia].
Qed.

Lemma unpack_samples_safe data len bits sfs nblk nch nsb c s :
  0 <= c -> len < zlen data -> samples_safe len c s ->
  exists s', unpack_samples data len bits sfs nblk nch nsb s = Some s' /\ samples_safe len c s'.
Proof.
  intros Hc Hl Hs. unfold unpack_samples.
  apply (for_loop_inv (fun _ => samples_safe len c)); [|done]. intros blk t _ Ht.
  apply (for_loop_inv (fun _ => samples_safe len c)); [|done]. intros ch u _ Hu.
  apply (for_loop_inv (fun _ => samples_safe len c)); [|done]. intros sb v _ Hv.
  by apply unpack_sample_safe.
Qed.

(** The scale factor loops: positions advance by 4 per factor, the CRC header keeps its
    11 octets. *)
Definition sf_safe (c p : Z) (s : sf_state) : Prop :=
  sf_consumed s = c /\ sf_crc_pos s = p /\ length (sf_crc_header s) = 11%nat
  /\ Forall is_u8 (sf_crc_header s) /\ arr2_wf 8 is_u4 (sf_rows s).

Lemma land15_u4 z : is_u4 (z .& 0x0F).
Proof.
  unfold is_u4. rewrite (Z.land_ones z 4 ltac:(lia) : z .& 0x0F = z mod 16).
  pose proof (Z.mod_pos_bound z 16). lia.
Qed.

Lemma read_scale_factor_safe data ch sb c p s :
  sf_safe c p s -> 0 <= c -> c / 8 < zlen data -> 0 <= p < 88 ->
  exists s', read_scale_factor data ch sb s = Some s' /\ sf_safe (c + 4) (p + 4) s'.
Proof.
  intros (Hc & Hp & Hl & Hu & Hr) Hc0 Hd Hp0. unfold read_scale_factor. rewrite Hc, Hp, !shiftr3 by lia.
  pose proof (Z.div_pos c 8 ltac:(lia) ltac:(lia)). pose proof (Z.div_pos p 8 ltac:(lia) ltac:(lia)).
  assert (p / 8 < 11) by (apply Z.div_lt_upper_bound; lia).
  destruct (aget_in data (c / 8)) as [d ->]; [lia|]. cbn [mbind option_bind].
  destruct (aget_in (sf_crc_header s) (p / 8)) as [h Hh]; [unfold zlen; lia|]. rewrite Hh. cbn [mbind option_bind].
  rewrite aset_in by (unfold zlen; lia). cbn [mbind option_bind].
  eexists. split; [reflexivity|]. split_and!; simpl; try done; try by rewrite length_insert.
  - apply Forall_insert; [done|]. apply u8_range.
  - apply upd2_wf; [apply land15_u4|done].
Qed.

Lemma read_scale_factors_safe data nch nsb c p s :
  sf_safe c p s -> 0 <= nch -> 0 <= nsb -> 0 <= c -> 0 <= p -> p + 4 * nsb * nch <= 88 ->
  c + 4 * nsb * nch <= 8 * zlen data ->
  exists s', read_scale_factors data nch nsb s = Some s'
    /\ sf_safe (c + 4 * nsb * nch) (p + 4 * nsb * nch) s'.
Proof.
  intros Hs Hnch Hnsb Hc Hp Hp88 Hd. unfold read_scale_factors.
  destruct (for_loop_inv (fun ch => sf_safe (c + 4 * nsb * ch) (p + 4 * nsb * ch))
    (fun ch s => for_loop (Z.to_nat nsb) 0 (fun sb s => read_scale_factor data ch sb s) s)
    (Z.to_nat nch) 0 s) as (s' & Hs' & Hp').
  - intros ch t Hch Ht. rewrite Z2Nat.id in Hch by lia.
    destruct (for_loop_inv (fun sb => sf_safe (c + 4 * nsb * ch + 4 * sb) (p + 4 * nsb * ch + 4 * sb))
      (fun sb s => read_scale_factor data ch sb s) (Z.to_nat nsb) 0 t) as (t' & Ht' & Hp').
    + intros sb u Hsb Hu. rewrite Z2Nat.id in Hsb by lia.
      assert (4 * nsb * ch + 4 * (sb + 1) <= 4 * nsb * nch) by nia.
      destruct (read_scale_factor_safe data ch sb _ _ u Hu) as (u' & Hu' & Hsu');
        [nia|apply Z.div_lt_upper_bound; lia|nia|].
      exists u'. split; [done|]. replace (c + 4 * nsb * ch + 4 * (sb + 1)) with (c + 4 * nsb * ch + 4 * sb + 4) by lia.
      by replace (p + 4 * nsb * ch + 4 * (sb + 1)) with (p + 4 * nsb * ch + 4 * sb + 4) by lia.
    + by rewrite !Z.add_0_r.
    + exists t'. split; [done|]. rewrite Z2Nat.id in Hp' by lia.
      replace (c + 4 * nsb * (ch + 1)) with (c + 4 * nsb * ch + 4 * (0 + nsb)) by lia.
      by replace (p + 4 * nsb * (ch + 1)) with (p + 4 * nsb * ch + 4 * (0 + nsb)) by lia.
  - by rewrite !Z.mul_0_r, !Z.add_0_r.
  - rewrite Z2Nat.id in Hp' by lia. eauto.
Qed.

(** ** The header *)
Record header_ok (f : sbc_frame) : Prop := {
  hd_freq : 0 <= frequency f <= 3;
  hd_mode : 0 <= mode f <= 3;
  hd_blocks : In (blocks f) [4; 8; 12; 15; 16];
  hd_subbands : subbands f = 4 \/ subbands f = 8;
  hd_channels : channels f = if mode f =? SBC_MODE_MONO then 1 else 2;
  hd_pool : pool_ok (mode f) (subbands f) (bitpool f)
}.

(** The part of a frame the header does not touch. *)
Definition same_arrays (f g : sbc_frame) : Prop :=
  scale_factor g = scale_factor f /\ sb_sample g = sb_sample f
  /\ sb_sample_f g = sb_sample_f f /\ pcm_sample g = pcm_sample f.

Lemma same_arrays_wf f g : same_arrays f g -> frame_wf f -> frame_wf g.
Proof. intros (H1 & H2 & H3 & H4) [? ? ? ?]. split; by rewrite ?H1, ?H2, ?H3, ?H4. Qed.

Lemma land_ones_bound z n m : 0 <= n -> m = Z.ones n -> 0 <= z .& m < 2 ^ n.
Proof. intros Hn ->. rewrite Z.land_ones by lia. apply Z.mod_pos_bound. lia. Qed.

Lemma read_sbc_header_ok f d1 d2 :
  is_u8 d2 ->
  let g := read_sbc_header f d1 d2 in
  same_arrays f g /\ bitpool g = d2 /\ 0 <= frequency g <= 3 /\ 0 <= mode g <= 3
  /\ In (blocks g) [4; 8; 12; 15; 16] /\ (subbands g = 4 \/ subbands g = 8)
  /\ channels g = (if mode g =? SBC_MODE_MONO then 1 else 2).
Proof.
  intros Hd2. simpl.
  pose proof (land_ones_bound (d1 ≫ 6) 2 3 ltac:(lia) eq_refl).
  pose proof (land_ones_bound (d1 ≫ 2) 2 3 ltac:(lia) eq_refl).
  split_and!; try done; try lia.
  - unfold SBC_BLK_4, SBC_BLK_8, SBC_BLK_12. zcases; tauto.
  - zcases; tauto.
Qed.

Lemma unpack_header_ok data f :
  Forall is_u8 data -> 4 <= zlen data ->
  exists e g, unpack_header data f = Some (e, g) /\ same_arrays f g
    /\ ((e = 0 /\ header_ok g) \/ e = -2 \/ e = -4).
Proof.
  intros Hu Hl. unfold unpack_header.
  destruct (aget_in data 0) as [d0 ->]; [lia|]. destruct (aget_in data 1) as [d1 ->]; [lia|].
  destruct (aget_in data 2) as [d2 Hd2]; [lia|]. rewrite Hd2. cbn [mbind option_bind].
  pose proof (aget_Forall is_u8 _ _ _ Hu Hd2) as Hu2. unfold is_u8 in Hu2.
  destruct (d0 =? SBC_SYNCWORD).
  - destruct (read_sbc_header_ok f d1 d2 Hu2) as (Hs & Hb & Hf & Hm & Hbl & Hsb & Hch).
    set (g := read_sbc_header f d1 d2) in *.
    destruct (mono_like (mode g)) eqn:Hmono; cbn [negb andb];
      [destruct (Z.ltb_spec (16 * subbands g) (bitpool g))
      |destruct (Z.ltb_spec (32 * subbands g) (bitpool g))];
      (do 2 eexists; split_and!; [reflexivity|exact Hs|]); try tauto.
    all: left; split; [done|]; split; auto; unfold pool_ok; rewrite Hmono; lia.
  - destruct (d0 =? MSBC_SYNCWORD); (do 2 eexists; split_and!; [reflexivity|done|]); [|tauto].
    left. split; [done|]. split; vm_compute; intuition discriminate.
Qed.

(** ** The rest of the frame *)
Lemma unjoin_wf joint nblk nsb t : arr3_wf is_i32 t -> arr3_wf is_i32 (unjoin joint nblk nsb t).
Proof.
  unfold unjoin. generalize (seqZ 0 nblk). intros bl. revert t.
  induction bl as [|blk bl IH]; intros t Ht; [done|]. apply IH. clear IH bl.
  generalize (seqZ 0 nsb). intros sl. revert t Ht.
  induction sl as [|sb sl IH]; intros t Ht; [done|]. apply IH. unfold unjoin_sample.
  case_match; [done|]. apply upd3_wf; [apply i32_range|]. apply upd3_wf; [apply i32_range|done].
Qed.

Lemma frame_end_ok data c :
  0 <= c -> c <= 8 * (zlen data - 1) ->
  exists r, frame_end data c = Some r /\ c <= 8 * r /\ 8 * r <= c + 15.
Proof.
  intros Hc Hd. unfold frame_end. rewrite land7. cbv zeta.
  set (c' := if c mod 8 =? 0 then c else c + (8 - c mod 8)).
  pose proof (Z.div_mod c 8 ltac:(lia)). pose proof (Z.mod_pos_bound c 8 ltac:(lia)).
  assert (exists k, c' = 8 * k /\ c <= 8 * k <= c + 7) as (k & Hk & Hr).
  { subst c'. destruct (Z.eqb_spec (c mod 8) 0); [exists (c / 8)|exists (c / 8 + 1)]; lia. }
  rewrite shiftr3, Hk, (Z.mul_comm 8), Z.div_mul by lia.
  destruct (aget_in data k) as [d ->]; [lia|]. cbn [mbind option_bind].
  eexists. split; [reflexivity|]. case_match; lia.
Qed.

Lemma scale_rows_ok t : arr2_wf 8 is_u4 t -> Forall scale_ok t.
Proof. intros [_ Ht]. eapply Forall_impl; [|exact Ht]. by intros r [_ Hr]. Qed.

Lemma header_calc_bits f :
  header_ok f -> Forall scale_ok (scale_factor f) ->
  exists bits, sbc_calculate_bits (mode f) (channels f) (allocation f) (frequency f) (bitpool f)
      (subbands f) (scale_factor f) = Some bits
    /\ rows_ok (channels f) (subbands f) bits /\ pool_spent (mode f) (bitpool f) bits.
Proof.
  intros [? ? ? Hsb Hch Hp] Hs. unfold sbc_calculate_bits.
  destruct Hsb as [Hsb|Hsb]; rewrite Hsb in *; cbn [Z.eqb Pos.eqb];
    apply sbc_calculate_bits_internal_ok; try done; try lia.
  all: rewrite Hch; unfold mono_like, SBC_MODE_MONO in *; zcases; simpl; (done || lia).
Qed.

Definition unpack_result (len : Z) (r : Z) (f : sbc_frame) : Prop :=
  In r [-1; -2; -3; -4] \/ (4 < r <= len + 2 /\ header_ok f).

Lemma header_ok_same f g :
  header_ok f -> frequency g = frequency f -> mode g = mode f -> blocks g = blocks f ->
  subbands g = subbands f -> channels g = channels f -> bitpool g = bitpool f -> header_ok g.
Proof. intros [? ? ? ? ? ?] E1 E2 E3 E4 E5 E6. split; by rewrite ?E1, ?E2, ?E3, ?E4, ?E5, ?E6. Qed.

Lemma unpack_audio_safe data len c f :
  frame_wf f -> header_ok f -> 40 <= c -> c <= len * 8 -> len + 2 <= zlen data ->
  exists r g, unpack_audio data len c f = Some (r, g) /\ frame_wf g /\ unpack_result len r g.
Proof.
  intros Hwf Hh Hc Hlen Hd. unfold unpack_audio.
  destruct (header_calc_bits f Hh (scale_rows_ok _ (wf_scale f Hwf))) as (bits & -> & _ & _).
  cbn [mbind option_bind].
  destruct (unpack_samples_safe data len bits (scale_factor f) (blocks f) (channels f) (subbands f) c
    (mk_ss false c (sb_sample f))) as (s & -> & Hs & Hr); [lia|lia|split; simpl; [apply Hwf|lia]|].
  cbn [mbind option_bind]. destruct (ss_short s).
  - do 2 eexists. split_and!; [reflexivity| |left; simpl; tauto]. destruct Hwf. by split.
  - destruct (frame_end_ok data (ss_consumed s)) as (r & -> & ? & ?); [lia|lia|].
    cbn [mbind option_bind]. do 2 eexists. split_and!; [reflexivity| |right; split; [lia|]].
    + destruct Hwf. split; simpl; try done. case_match; [by apply unjoin_wf|done].
    + by eapply (header_ok_same f).
Qed.

Lemma unpack_body_safe data len c p h f :
  frame_wf f -> header_ok f -> Forall is_u8 h -> length h = 11%nat ->
  32 <= c -> 16 <= p -> p + 4 * subbands f * channels f <= 88 -> len + 2 <= zlen data ->
  exists r g, unpack_body data len c p h f = Some (r, g) /\ frame_wf g /\ unpack_result len r g.
Proof.
  intros Hwf Hh Hu Hl Hc Hp Hp88 Hd. unfold unpack_body.
  assert (1 <= channels f <= 2) as Hch by (rewrite (hd_channels f Hh); case_match; lia).
  assert (4 <= subbands f) as Hsb by (destruct (hd_subbands f Hh); lia).
  destruct (Z.ltb_spec (len * 8) (c + 4 * subbands f * channels f)).
  { do 2 eexists. split_and!; [reflexivity|done|left; simpl; tauto]. }
  destruct (read_scale_factors_safe data (channels f) (subbands f) c p
    (mk_sf c p h (scale_factor f))) as (s & -> & Hsc & Hsp & _ & _ & Hrows); try lia.
  { split_and!; try done. apply Hwf. }
  cbn [mbind option_bind]. assert (frame_wf (set_scale_factor f (sf_rows s))) as Hwf'
    by (destruct Hwf; by split).
  destruct (aget_in data 3) as [d3 ->]; [nia|]. cbn [mbind option_bind].
  destruct (negb _).
  - do 2 eexists. split_and!; [reflexivity|done|left; simpl; tauto].
  - rewrite Hsc. apply unpack_audio_safe; try done; [by eapply (header_ok_same f)|nia].
Qed.

Lemma unpack_frame_safe (data : list Z) (f : sbc_frame) (len : Z) :
  frame_wf f -> Forall is_u8 data -> len + 2 <= zlen data ->
  exists r g, sbc_unpack_frame data f len = Some (r, g) /\ frame_wf g /\ unpack_result len r g.
Proof.
  intros Hwf Hu Hd. unfold sbc_unpack_frame.
  destruct (Z.ltb_spec len 4) as [Hl4|Hl4].
  { do 2 eexists. split_and!; [reflexivity|done|left; simpl; tauto]. }
  destruct (unpack_header_ok data f Hu ltac:(lia)) as (e & g & -> & Hs & Hcase). cbn [mbind option_bind].
  pose proof (same_arrays_wf _ _ Hs Hwf) as Hwfg.
  destruct Hcase as [[-> Hh]|He].
  2:{ assert ((e <? 0) = true) as -> by (destruct He; subst; done).
      do 2 eexists. split_and!; [reflexivity|done|left; simpl; destruct He; auto]. }
  cbn [Z.ltb Z.compare].
  destruct (aget_in data 1) as [d1 Hd1]; [lia|]. destruct (aget_in data 2) as [d2 Hd2]; [lia|].
  rewrite Hd1, Hd2. cbn [mbind option_bind].
  assert (Forall is_u8 (crc_header0 d1 d2)) as Hcrc.
  { constructor; [by eapply (aget_Forall is_u8)|]. constructor; [by eapply (aget_Forall is_u8)|by_compute]. }
  assert (subbands g <= 8) as Hsb by (destruct (hd_subbands g Hh); lia).
  destruct (Z.eqb_spec (mode g) SBC_MODE_JOINT_STEREO) as [Hj|Hj].
  - destruct (Z.ltb_spec (len * 8) (32 + subbands g)).
    { do 2 eexists. split_and!; [reflexivity|done|left; simpl; tauto]. }
    assert (4 <= subbands g) by (destruct (hd_subbands g Hh); lia).
    destruct (aget_in data 4) as [d4 Hd4]; [lia|]. rewrite Hd4. cbn [mbind option_bind].
    rewrite aset_in by (unfold zlen; simpl; lia). cbn [mbind option_bind].
    apply unpack_body_safe; try lia; try done.
    + destruct Hwfg; by split.
    + by eapply (header_ok_same g).
    + apply Forall_insert; [done|]. pose proof (aget_Forall is_u8 _ _ _ Hu Hd4) as H4.
      case_match; [|done].
      pose proof (u8_forall (fun d => (0 <=? d .& 0xf0) && (d .& 0xf0 <? 256)) eq_refl d4 H4) as Hm.
      cbv beta in Hm. unfold is_u8. lia.
    + simpl. pose proof (hd_channels g Hh). rewrite Hj in *. simpl in *. lia.
  - apply unpack_body_safe; try lia; try done.
    pose proof (hd_channels g Hh) as Hc. destruct (mode g =? SBC_MODE_MONO); lia.
Qed.

(** C3. Memory safety and totality of the unpacker: on a well-formed frame and a buffer that
    holds two octets more than the announced [len], [sbc_unpack_frame] never reads outside the
    buffer, always returns, keeps the frame well formed, and returns one of the documented
    error codes or a length of at most [len + 2] with a valid header in the frame. *)
Theorem sbc_unpack_frame_safe (data : list Z) (f : sbc_frame) (len : Z) :
  frame_wf f -> Forall is_u8 data -> len + 2 <= zlen data ->
  exists r g, sbc_unpack_frame data f len = Some (r, g) /\ frame_wf g /\ unpack_result len r g.
Proof. apply unpack_frame_safe. Qed.

Lemma sbc_unpack_frame_safe_witness :
  frame_wf frame0 /\ Forall is_u8 [0xad; 0; 0; 0; 0; 0; 0; 0; 0; 0] /\
  exists r g, sbc_unpack_frame [0xad; 0; 0; 0; 0; 0; 0; 0; 0; 0] frame0 8 = Some (r, g)
    /\ frame_wf g /\ unpack_result 8 r g.
Proof.
  assert (Forall is_u8 [0xad; 0; 0; 0; 0; 0; 0; 0; 0; 0]) as Hu by by_compute.
  split; [exact frame0_wf|]. split; [exact Hu|].
  apply (sbc_unpack_frame_safe _ frame0 8 frame0_wf Hu). vm_compute. discriminate.
Defined.

(** The two octets of slack are needed: on the exact buffer of an mSBC frame the check for
    the padding octet reads past its end. *)
Example unpack_reads_past_end :
  sbc_unpack_frame
    [0xad; 0x00; 0x00; 0xc5; 0x00; 0x00; 0x00; 0x00; 0x77; 0x6d;
     0xb6; 0xdd; 0xdb; 0x6d; 0xb7; 0x76; 0xdb; 0x6d; 0xdd; 0xb6;
     0xdb; 0x77; 0x6d; 0xb6; 0xdd; 0xdb; 0x6d; 0xb7; 0x76; 0xdb;
     0x6d; 0xdd; 0xb6; 0xdb; 0x77; 0x6d; 0xb6; 0xdd; 0xdb; 0x6d;
     0xb7; 0x76; 0xdb; 0x6d; 0xdd; 0xb6; 0xdb; 0x77; 0x6d; 0xb6;
     0xdd; 0xdb; 0x6d; 0xb7; 0x76; 0xdb; 0x6c] frame0 57 = None.
Proof. vm_compute. reflexivity. Qed.
