(* ===== verification/SbcStream.v ===== *)
(** What [sbc_unpack_frame] computes, in terms of the bit stream of its input: the scale
    factors, the octets the CRC covers, and every subband sample. *)
From S2P Require Import Prelude SbcTables SbcCrc SbcBits SbcFrame.

(** ** Positions in the stream *)

(** [field c n s]: the [n] bits of the stream [s] from bit [c] on. *)
Definition field (c n : Z) (s : list bool) : list bool := take (Z.to_nat n) (drop (Z.to_nat c) s).

(** Offset of sample (blk, ch, sb) from the first sample. *)
Definition sample_offset (bits : list (list Z)) (blk ch sb : Z) : Z :=
  blk * zsum (map zsum bits) + zsum (map zsum (take (Z.to_nat ch) bits))
  + zsum (take (Z.to_nat sb) (default [] (aget bits ch))).

(** The value of a sample of [b] bits. *)
Definition sample_value (b sf : Z) (l : list bool) : Z :=
  if 0 <? b then dequantize (bval l) sf (2 ^ b - 1) else 0.

Definition expected_sample (s : list bool) (c : Z) (bits sfs : list (list Z)) (blk ch sb : Z) : Z :=
  sample_value (anth2 bits ch sb) (anth2 sfs ch sb)
    (field (c + sample_offset bits blk ch sb) (anth2 bits ch sb) s).

(** Lexicographic order of the loops: (i, j, k) was visited before (blk, ch, sb). *)
Definition before (i j k blk ch sb : Z) : Prop :=
  i < blk \/ (i = blk /\ (j < ch \/ (j = ch /\ k < sb))).

(** ** Arrays *)
Lemma aget_insert_eq {A} (l : list A) i v : 0 <= i < zlen l -> aget (<[Z.to_nat i := v]> l) i = Some v.
Proof.
  intros Hi. unfold aget, zlen in *. rewrite (proj2 (Z.leb_le 0 i)) by lia.
  apply list_lookup_insert_eq. lia.
Qed.

Lemma aget_insert_ne {A} (l : list A) i j v :
  0 <= i -> i <> j -> aget (<[Z.to_nat i := v]> l) j = aget l j.
Proof.
  intros Hi Hne. unfold aget. destruct (Z.leb_spec 0 j); [|done].
  apply list_lookup_insert_ne. lia.
Qed.

Lemma aget_alter_eq {A} (f : A -> A) (l : list A) i : 0 <= i -> aget (alter f (Z.to_nat i) l) i = f <$> aget l i.
Proof.
  intros Hi. unfold aget. rewrite (proj2 (Z.leb_le 0 i)) by lia. by rewrite list_lookup_alter_eq.
Qed.

Lemma aget_alter_ne {A} (f : A -> A) (l : list A) i j :
  0 <= i -> i <> j -> aget (alter f (Z.to_nat i) l) j = aget l j.
Proof.
  intros Hi Hne. unfold aget. destruct (Z.leb_spec 0 j); [|done].
  apply list_lookup_alter_ne. lia.
Qed.

Lemma anth2_upd2_eq n P t i j v :
  arr2_wf n P t -> 0 <= i < 2 -> 0 <= j < Z.of_nat n -> anth2 (upd2 t i j v) i j = v.
Proof.
  intros [Hl Ht] Hi Hj. unfold anth2, upd2. rewrite aget_alter_eq by lia.
  destruct (aget_in t i) as [r Hr]; [unfold zlen; lia|]. rewrite Hr. simpl. unfold anth.
  pose proof (aget_Forall _ _ _ _ Ht Hr) as [Hlr _].
  rewrite aget_insert_eq; [done|unfold zlen; lia].
Qed.

Lemma anth2_upd2_ne t i j v i' j' :
  0 <= i -> 0 <= j -> (i, j) <> (i', j') -> anth2 (upd2 t i j v) i' j' = anth2 t i' j'.
Proof.
  intros Hi Hj Hne. unfold anth2, upd2. destruct (decide (i = i')) as [<-|Hii].
  - rewrite aget_alter_eq by lia. destruct (aget t i) as [r|]; [|done]. simpl. unfold anth.
    rewrite aget_insert_ne; [done|lia|congruence].
  - by rewrite aget_alter_ne by lia.
Qed.

Lemma anth3_upd3_eq P t i j k v :
  arr3_wf P t -> 0 <= i < 16 -> 0 <= j < 2 -> 0 <= k < 8 -> anth3 (upd3 t i j k v) i j k = v.
Proof.
  intros [Hl Ht] Hi Hj Hk. unfold anth3, upd3. rewrite aget_alter_eq by lia.
  destruct (aget_in t i) as [r Hr]; [unfold zlen; lia|]. rewrite Hr. simpl.
  eapply anth2_upd2_eq; [by eapply aget_Forall in Hr; [|exact Ht]|lia..].
Qed.

Lemma anth3_upd3_ne t i j k v i' j' k' :
  0 <= i -> 0 <= j -> 0 <= k -> (i, j, k) <> (i', j', k') -> anth3 (upd3 t i j k v) i' j' k' = anth3 t i' j' k'.
Proof.
  intros Hi Hj Hk Hne. unfold anth3, upd3. destruct (decide (i = i')) as [<-|Hii].
  - rewrite aget_alter_eq by lia. destruct (aget t i) as [r|]; [|done]. simpl.
    apply anth2_upd2_ne; [lia..|congruence].
  - by rewrite aget_alter_ne by lia.
Qed.

(** ** Sample offsets *)
Lemma zsum_take_succ l j : 0 <= j < zlen l -> zsum (take (Z.to_nat (j + 1)) l) = zsum (take (Z.to_nat j) l) + anth l j.
Proof.
  intros Hj. unfold zlen in *. destruct (aget_in l j) as [v Hv]; [unfold zlen; lia|].
  unfold anth. rewrite Hv. unfold aget in Hv. rewrite (proj2 (Z.leb_le 0 j)) in Hv by lia.
  replace (Z.to_nat (j + 1)) with (S (Z.to_nat j)) by lia.
  rewrite (take_S_r _ _ _ Hv), zsum_app. unfold zsum. simpl. lia.
Qed.

Section Offsets.
Context (bits : list (list Z)) (nch nsb : Z).
Hypothesis Hrows : rows_ok nch nsb bits.

Lemma row_of ch : 0 <= ch < nch ->
  exists row, aget bits ch = Some row /\ zlen row = nsb /\ bits_ok row.
Proof using Hrows.
  destruct Hrows as [Hl Hr]. intros Hch. destruct (aget_in bits ch) as [row Hrow]; [lia|].
  exists row. split; [done|]. exact (aget_Forall _ _ _ _ Hr Hrow).
Qed.

Lemma anth2_bits_range ch sb : 0 <= anth2 bits ch sb <= 16.
Proof using Hrows.
  unfold anth2. destruct (aget bits ch) as [row|] eqn:Hrow; simpl.
  - apply (anth_Forall (fun b => 0 <= b <= 16)); [lia|].
    destruct Hrows as [_ Hr]. apply (aget_Forall _ _ _ _ Hr Hrow).
  - unfold anth, aget. case_match; simpl; lia.
Qed.

Lemma offset_sb blk ch sb : 0 <= ch < nch -> 0 <= sb < nsb ->
  sample_offset bits blk ch (sb + 1) = sample_offset bits blk ch sb + anth2 bits ch sb.
Proof using Hrows.
  intros Hch Hsb. unfold sample_offset, anth2. destruct (row_of ch Hch) as (row & -> & Hl & _).
  cbn [from_option id]. rewrite zsum_take_succ by lia. lia.
Qed.

Lemma offset_ch blk ch : 0 <= ch < nch -> sample_offset bits blk ch nsb = sample_offset bits blk (ch + 1) 0.
Proof using Hrows.
  intros Hch. unfold sample_offset. destruct (row_of ch Hch) as (row & Hrow & Hl & _).
  rewrite Hrow. cbn [from_option id]. rewrite (take_ge row) by (unfold zlen in *; lia).
  change (Z.to_nat 0) with O; rewrite !take_0.
  unfold aget in Hrow. rewrite (proj2 (Z.leb_le 0 ch)) in Hrow by lia.
  replace (Z.to_nat (ch + 1)) with (S (Z.to_nat ch)) by lia.
  rewrite (take_S_r _ _ _ Hrow), map_app, zsum_app. cbn [map]. rewrite zsum_cons, !zsum_nil. lia.
Qed.

Lemma offset_blk blk : sample_offset bits blk nch 0 = sample_offset bits (blk + 1) 0 0.
Proof using Hrows.
  unfold sample_offset. change (Z.to_nat 0) with O; rewrite !take_0. cbn [map].
  destruct Hrows as [Hl _]. rewrite (take_ge bits) by (unfold zlen in *; lia).
  rewrite !zsum_nil. lia.
Qed.

Lemma zsum_rows_nonneg l : Forall (fun row => zlen row = nsb /\ bits_ok row) l -> 0 <= zsum (map zsum l).
Proof using Type.
  intros Hl. apply zsum_nonneg, Forall_map. eapply Forall_impl; [|exact Hl]. intros r [_ Hr].
  apply zsum_nonneg. eapply Forall_impl; [|exact Hr]. simpl. lia.
Qed.

Lemma offset_sb_mono blk ch a b : 0 <= a <= b -> b <= nsb -> 0 <= ch < nch ->
  sample_offset bits blk ch a <= sample_offset bits blk ch b.
Proof using Hrows.
  intros Ha Hb Hch. replace b with (a + Z.of_nat (Z.to_nat (b - a))) in * by lia.
  revert Ha Hb. generalize (Z.to_nat (b - a)). intros n. induction n as [|n IH]; intros Ha Hb.
  - by rewrite Z.add_0_r.
  - replace (a + Z.of_nat (S n)) with (a + Z.of_nat n + 1) in * by lia.
    rewrite offset_sb by lia. pose proof (anth2_bits_range ch (a + Z.of_nat n)). specialize (IH ltac:(lia) ltac:(lia)). lia.
Qed.

Lemma offset_ch_mono blk a : 0 <= nsb -> 0 <= a <= nch -> sample_offset bits blk a 0 <= sample_offset bits blk nch 0.
Proof using Hrows.
  intros Hnsb Ha. replace nch with (a + Z.of_nat (Z.to_nat (nch - a))) by lia.
  assert (a + Z.of_nat (Z.to_nat (nch - a)) <= nch) as Hle by lia. revert Hle.
  generalize (Z.to_nat (nch - a)). intros n. induction n as [|n IH]; intros Hle.
  - by rewrite Z.add_0_r.
  - replace (a + Z.of_nat (S n)) with (a + Z.of_nat n + 1) in * by lia.
    rewrite <- offset_ch by lia.
    pose proof (offset_sb_mono blk (a + Z.of_nat n) 0 nsb ltac:(lia) ltac:(lia) ltac:(lia)).
    specialize (IH ltac:(lia)). lia.
Qed.

Lemma offset_bound blk nblk ch sb : 0 <= blk < nblk -> 0 <= ch < nch -> 0 <= sb < nsb ->
  sample_offset bits blk ch (sb + 1) <= nblk * zsum (map zsum bits).
Proof using Hrows.
  intros Hb Hch Hsb.
  pose proof (offset_sb_mono blk ch (sb + 1) nsb ltac:(lia) ltac:(lia) Hch).
  pose proof (offset_ch blk ch Hch). pose proof (offset_ch_mono blk (ch + 1) ltac:(lia) ltac:(lia)).
  pose proof (offset_blk blk). pose proof (zsum_rows_nonneg bits (proj2 Hrows)).
  assert (sample_offset bits (blk + 1) 0 0 = (blk + 1) * zsum (map zsum bits)) as He.
  { unfold sample_offset. change (Z.to_nat 0) with O; rewrite !take_0. cbn [map]. rewrite !zsum_nil. lia. }
  nia.
Qed.
End Offsets.

(** ** The sample loops *)
Lemma level_of_pow b : 0 <= b <= 16 -> level_of b = 2 ^ b - 1.
Proof.
  intros Hb. unfold level_of. rewrite Z.shiftl_1_l. apply wrapu_small.
  pose proof (Z.pow_le_mono_r 2 b 16 ltac:(lia) ltac:(lia)). pose proof (Z.pow_pos_nonneg 2 b). lia.
Qed.

Lemma level_pos b : 0 <= b <= 16 -> (0 <? level_of b) = (0 <? b).
Proof.
  intros Hb. rewrite level_of_pow by done.
  destruct (Z.ltb_spec 0 b).
  - pose proof (Z.pow_le_mono_r 2 1 b ltac:(lia) ltac:(lia)). apply Z.ltb_lt. lia.
  - replace b with 0 by lia. done.
Qed.

Section Samples.
Context (data : list Z) (len : Z) (bits sfs : list (list Z)) (nblk nch nsb c : Z).
Hypothesis Hrows : rows_ok nch nsb bits.
Hypothesis Hdims : 0 <= nblk <= 16 /\ 0 <= nch <= 2 /\ 0 <= nsb <= 8.
Hypothesis Hc : 0 <= c.
Hypothesis Hdata : c + nblk * zsum (map zsum bits) <= 8 * zlen data.
Hypothesis Hfit : c + nblk * zsum (map zsum bits) <= len * 8 + 1.

Let stream := bits_of data.

Definition samples_done (blk ch sb : Z) (s : sample_state) : Prop :=
  ss_short s = false /\ arr3_wf is_i32 (ss_samples s)
  /\ ss_consumed s = c + sample_offset bits blk ch sb
  /\ forall i j k, 0 <= i -> 0 <= j < nch -> 0 <= k < nsb -> before i j k blk ch sb ->
       anth3 (ss_samples s) i j k = expected_sample stream c bits sfs i j k.

Lemma offset_nonneg blk ch sb :
  0 <= blk < nblk -> 0 <= ch < nch -> 0 <= sb < nsb -> 0 <= sample_offset bits blk ch sb.
Proof using Hdims Hrows.
  intros Hb Hch Hsb. unfold sample_offset.
  pose proof (zsum_rows_nonneg nsb bits (proj2 Hrows)).
  assert (0 <= zsum (map zsum (take (Z.to_nat ch) bits))).
  { apply (zsum_rows_nonneg nsb). apply Forall_take, Hrows. }
  destruct (row_of bits nch nsb Hrows ch Hch) as (row & -> & _ & Hok). cbn [from_option id].
  assert (0 <= zsum (take (Z.to_nat sb) row)); [|nia].
  apply zsum_nonneg, Forall_take. eapply Forall_impl; [|exact Hok]. simpl. lia.
Qed.

Lemma unpack_sample_done blk ch sb s :
  0 <= blk < nblk -> 0 <= ch < nch -> 0 <= sb < nsb -> samples_done blk ch sb s ->
  exists s', unpack_sample data len bits sfs blk ch sb s = Some s' /\ samples_done blk ch (sb + 1) s'.
Proof using All.
  intros Hb Hch Hsb (Hsh & Hwf & Hcons & Hall). unfold unpack_sample. rewrite Hsh.
  pose proof (anth2_bits_range bits nch nsb Hrows ch sb) as Hbit.
  pose proof (offset_bound bits nch nsb Hrows blk nblk ch sb Hb Hch Hsb) as Hob.
  pose proof (offset_nonneg blk ch sb Hb Hch Hsb) as Hon.
  pose proof (offset_sb bits nch nsb Hrows blk ch sb Hch Hsb) as Hos.
  rewrite level_pos by done.
  assert (exists v c', (if 0 <? anth2 bits ch sb then
      r ← read_sample (Z.to_nat (anth2 bits ch sb)) data len (ss_consumed s) 0;
      match r with
      | inl consumed => Some (mk_ss true consumed (ss_samples s))
      | inr (audio_sample, consumed) => Some (mk_ss false consumed (upd3 (ss_samples s) blk ch sb
          (dequantize audio_sample (anth2 sfs ch sb) (level_of (anth2 bits ch sb)))))
      end else Some (mk_ss false (ss_consumed s) (upd3 (ss_samples s) blk ch sb 0)))
      = Some (mk_ss false c' (upd3 (ss_samples s) blk ch sb v))
    /\ v = expected_sample stream c bits sfs blk ch sb /\ is_i32 v
    /\ c' = c + sample_offset bits blk ch (sb + 1)) as (v & c' & -> & Hv & Hi & Hc').
  { unfold expected_sample, sample_value. destruct (Z.ltb_spec 0 (anth2 bits ch sb)) as [Hp|Hp].
    - rewrite <- (Z.mul_0_l (2 ^ Z.of_nat (Z.to_nat (anth2 bits ch sb)))).
      rewrite read_sample_ok by lia. cbn [mbind option_bind]. do 2 eexists. split; [reflexivity|].
      rewrite Z.mul_0_l, Z.add_0_l, level_of_pow, Hcons by lia.
      split_and!; [done|apply dequantize_i32|lia].
    - do 2 eexists. split_and!; [reflexivity|done|unfold is_i32; lia|lia]. }
  eexists. split; [reflexivity|]. split_and!; simpl; try done.
  { by apply upd3_wf. }
  intros i j k Hi' Hj Hk Hbef.
  destruct (decide ((blk, ch, sb) = (i, j, k))) as [[= <- <- <-]|Hne].
  - rewrite (anth3_upd3_eq is_i32) by (done || lia). done.
  - rewrite anth3_upd3_ne by (done || lia). apply Hall; try done.
    unfold before in *. assert (~ (i = blk /\ j = ch /\ k = sb)) by (by intros (-> & -> & ->)). lia.
Qed.

Lemma samples_done_shift blk ch sb blk' ch' sb' s :
  samples_done blk ch sb s ->
  sample_offset bits blk ch sb = sample_offset bits blk' ch' sb' ->
  (forall i j k, 0 <= i -> 0 <= j < nch -> 0 <= k < nsb -> before i j k blk' ch' sb' -> before i j k blk ch sb) ->
  samples_done blk' ch' sb' s.
Proof using Type.
  intros (Hsh & Hwf & Hcons & Hall) Hoff Hbef. split_and!; try done; [by rewrite <- Hoff|].
  intros i j k Hi Hj Hk Hb. by apply Hall, Hbef.
Qed.

Lemma unpack_samples_done s :
  samples_done 0 0 0 s ->
  exists s', unpack_samples data len bits sfs nblk nch nsb s = Some s' /\ samples_done nblk 0 0 s'.
Proof using All.
  intros Hs. unfold unpack_samples.
  destruct (for_loop_inv (fun blk => samples_done blk 0 0) (fun blk s =>
    for_loop (Z.to_nat nch) 0 (fun ch s =>
      for_loop (Z.to_nat nsb) 0 (fun sb s => unpack_sample data len bits sfs blk ch sb s) s) s)
    (Z.to_nat nblk) 0 s) as (s' & -> & Hs'); [|done|exists s'; split; [done|]].
  2:{ by replace nblk with (0 + Z.of_nat (Z.to_nat nblk)) by lia. }
  intros blk t Hblk Ht.
  destruct (for_loop_inv (fun ch => samples_done blk ch 0) (fun ch s =>
      for_loop (Z.to_nat nsb) 0 (fun sb s => unpack_sample data len bits sfs blk ch sb s) s)
      (Z.to_nat nch) 0 t) as (t' & -> & Ht'); [|done|exists t'; split; [done|]].
  2:{ rewrite Z2Nat.id in Ht' by lia. eapply samples_done_shift; [exact Ht'| |].
      - simpl. by apply (offset_blk bits nch nsb).
      - unfold before. intros. lia. }
  intros ch u Hch Hu.
  destruct (for_loop_inv (fun sb => samples_done blk ch sb)
      (fun sb s => unpack_sample data len bits sfs blk ch sb s) (Z.to_nat nsb) 0 u)
    as (u' & -> & Hu'); [|done|exists u'; split; [done|]].
  2:{ rewrite Z2Nat.id in Hu' by lia. eapply samples_done_shift; [exact Hu'| |].
      - simpl. apply (offset_ch bits nch nsb Hrows). lia.
      - unfold before. intros. lia. }
  intros sb v Hsb Hv. apply unpack_sample_done; (done || lia).
Qed.
End Samples.

(** ** Scale factors and the CRC header *)

(** The four bits of a scale factor. *)
Definition nib (v : Z) : list bool := map (fun k => Z.testbit v (3 - Z.of_nat k)) (seq 0 4).

Lemma nib_length v : length (nib v) = 4%nat.
Proof. done. Qed.

Lemma nib_lookup v i : (i < 4)%nat -> nib v !! i = Some (Z.testbit v (3 - Z.of_nat i)).
Proof. intros Hi. unfold nib. rewrite list_lookup_fmap, lookup_seq_lt by lia. done. Qed.

Lemma bval_nib v : is_u4 v -> bval (nib v) = v.
Proof.
  intros Hv. assert (is_u8 v) as H8 by (unfold is_u4, is_u8 in *; lia).
  pose proof (u8_forall (fun v => (15 <? v) || (bval (nib v) =? v)) eq_refl v H8) as H.
  cbv beta in H. unfold is_u4 in Hv. apply orb_true_iff in H. lia.
Qed.

Lemma u4_testbit v k : is_u4 v -> 4 <= k -> Z.testbit v k = false.
Proof.
  intros [Hv0 Hv1] Hk. destruct (decide (v = 0)) as [->|]; [apply Z.bits_0|].
  apply Z.bits_above_log2; [lia|]. apply Z.lt_le_trans with 4; [|done].
  apply Z.log2_lt_pow2; lia.
Qed.

(** The stream bits at a nibble position. *)
Lemma field_nib data c d :
  0 <= c -> c mod 4 = 0 -> aget data (c / 8) = Some d ->
  field c 4 (bits_of data) = nib ((d ≫ (4 - c mod 8)) .& 0x0F).
Proof.
  intros Hc H4 Hd. pose proof (Z.div_mod c 8 ltac:(lia)). pose proof (Z.mod_pos_bound c 8 ltac:(lia)).
  pose proof (Z.div_mod c 4 ltac:(lia)).
  assert (forall i, 0 <= i < 4 -> bits_of data !! Z.to_nat (c + i) = Some (Z.testbit d (7 - c mod 8 - i))) as Hb.
  { intros i Hi. assert ((c + i) / 8 = c / 8) as Hq by (symmetry; apply Z.div_unique with (c mod 8 + i); lia).
    rewrite <- Hq in Hd. rewrite (aget_bit data (c + i) d) by (done || lia).
    do 2 f_equal. pose proof (Z.div_mod (c + i) 8 ltac:(lia)). lia. }
  apply list_eq. intros i. unfold field. destruct (decide (i < 4)%nat) as [Hi|Hi].
  - rewrite nib_lookup, lookup_take_lt, lookup_drop by (done || lia).
    replace (Z.to_nat c + i)%nat with (Z.to_nat (c + Z.of_nat i)) by lia. rewrite Hb by lia.
    f_equal. rewrite Z.land_spec, Z.shiftr_spec by lia.
    change 0x0F with (Z.ones 4). rewrite Z.ones_spec_low, andb_true_r by lia. f_equal. lia.
  - rewrite lookup_take_ge by lia. symmetry. apply lookup_ge_None. rewrite nib_length. lia.
Qed.

Lemma bits_of_lookup data (i : nat) :
  (i < 8 * length data)%nat ->
  bits_of data !! i = Some (Z.testbit (anth data (Z.of_nat i / 8)) (7 - Z.of_nat i mod 8)).
Proof.
  intros Hi. destruct (aget_in data (Z.of_nat i / 8)) as [d Hd].
  { unfold zlen. split; [apply Z.div_pos; lia|apply Z.div_lt_upper_bound; lia]. }
  pose proof (aget_bit data (Z.of_nat i) d ltac:(lia) Hd) as H. rewrite Nat2Z.id in H.
  unfold anth. by rewrite Hd.
Qed.

(** Adding a nibble to a CRC header whose bits from [p] on are still 0. *)
Lemma crc_nibble h pre p sf :
  length h = 11%nat -> 0 <= p < 88 -> p mod 4 = 0 -> is_u4 sf -> zlen pre = p ->
  bits_of h = pre ++ replicate (Z.to_nat (88 - p)) false ->
  bits_of (<[Z.to_nat (p / 8) := u8 (anth h (p / 8) .| (sf ≪ (4 - p mod 8)))]> h)
  = pre ++ nib sf ++ replicate (Z.to_nat (84 - p)) false.
Proof.
  intros Hl Hp H4 Hsf Hpre Hb. unfold zlen in Hpre.
  pose proof (Z.div_mod p 8 ltac:(lia)). pose proof (Z.mod_pos_bound p 8 ltac:(lia)).
  pose proof (Z.div_mod p 4 ltac:(lia)). pose proof (Z.div_pos p 8 ltac:(lia) ltac:(lia)).
  apply list_eq. intros i. destruct (decide (i < 88)%nat) as [Hi|Hi].
  2:{ rewrite !(proj2 (lookup_ge_None _ _)); [done|..];
      rewrite ?length_app, ?length_replicate, ?nib_length, ?bits_of_length, ?length_insert; lia. }
  rewrite bits_of_lookup by (rewrite length_insert; lia).
  set (q := Z.of_nat i). pose proof (Z.div_mod q 8 ltac:(lia)). pose proof (Z.mod_pos_bound q 8 ltac:(lia)).
  assert (bits_of h !! i = Some (Z.testbit (anth h (q / 8)) (7 - q mod 8))) as Hold by (apply bits_of_lookup; lia).
  rewrite Hb in Hold.
  assert (forall b : bool, (i < length pre)%nat -> b = Z.testbit (anth h (q / 8)) (7 - q mod 8) ->
    Some b = (pre ++ nib sf ++ replicate (Z.to_nat (84 - p)) false) !! i) as Hlow.
  { intros b Hib ->. rewrite lookup_app_l in Hold |- * by done. by rewrite Hold. }
  assert ((length pre <= i)%nat -> Z.testbit (anth h (q / 8)) (7 - q mod 8) = false) as Hhigh.
  { intros Hge. rewrite lookup_app_r, lookup_replicate_2 in Hold by lia. congruence. }
  destruct (decide (q / 8 = p / 8)) as [He|Hne].
  - unfold anth at 1. rewrite He, aget_insert_eq by (unfold zlen; lia). cbn [from_option id]. rewrite He in *.
    unfold wrapu. rewrite Z.mod_pow2_bits_low, Z.lor_spec, Z.shiftl_spec by lia.
    destruct (decide (i < length pre)%nat) as [Hlt|Hge].
    + apply Hlow; [done|]. rewrite (u4_testbit sf), orb_false_r by (done || lia). done.
    + rewrite Hhigh by lia. cbn [orb]. rewrite lookup_app_r by lia.
      destruct (decide (i - length pre < 4)%nat).
      * rewrite lookup_app_l, nib_lookup by (rewrite ?nib_length; lia). do 2 f_equal. lia.
      * rewrite lookup_app_r, nib_length, lookup_replicate_2 by (rewrite ?nib_length; lia).
        f_equal. apply Z.testbit_neg_r. lia.
  - unfold anth at 1. rewrite aget_insert_ne by lia. fold (anth h (q / 8)).
    destruct (decide (i < length pre)%nat) as [Hlt|Hge]; [by apply Hlow|].
    rewrite Hhigh, lookup_app_r by lia.
    destruct (decide (i - length pre < 4)%nat).
    + exfalso. lia.
    + rewrite lookup_app_r, nib_length, lookup_replicate_2 by (rewrite ?nib_length; lia). done.
Qed.

Lemma field_app c n m s :
  0 <= c -> 0 <= n -> 0 <= m -> field c (n + m) s = field c n s ++ field (c + n) m s.
Proof.
  intros Hc Hn Hm. unfold field. rewrite !Z2Nat.inj_add by lia.
  by rewrite <- drop_drop, take_take_drop.
Qed.

Lemma field_length c n s : 0 <= c -> 0 <= n -> c + n <= zlen s -> zlen (field c n s) = n.
Proof. intros. unfold field, zlen in *. rewrite length_take, length_drop. lia. Qed.

Section Scales.
Context (data : list Z) (nch nsb c p : Z) (pre : list bool).
Hypothesis Hdims : 0 <= nch <= 2 /\ 0 <= nsb <= 8.
Hypothesis Hc : 0 <= c /\ c mod 4 = 0.
Hypothesis Hp : 0 <= p /\ p mod 4 = 0 /\ p + 4 * nsb * nch <= 88.
Hypothesis Hpre : zlen pre = p.
Hypothesis Hdata : c + 4 * nsb * nch <= 8 * zlen data.

Let stream := bits_of data.

Definition sf_done (ch sb : Z) (s : sf_state) : Prop :=
  let n := 4 * (ch * nsb + sb) in
  sf_safe (c + n) (p + n) s
  /\ bits_of (sf_crc_header s) = (pre ++ field c n stream) ++ replicate (Z.to_nat (88 - (p + n))) false
  /\ forall j k, 0 <= j < nch -> 0 <= k < nsb -> (j < ch \/ (j = ch /\ k < sb)) ->
       anth2 (sf_rows s) j k = bval (field (c + 4 * (j * nsb + k)) 4 stream).

Lemma read_scale_factor_done ch sb s :
  0 <= ch < nch -> 0 <= sb < nsb -> sf_done ch sb s ->
  exists s', read_scale_factor data ch sb s = Some s' /\ sf_done ch (sb + 1) s'.
Proof using Hdims Hc Hp Hpre Hdata.
  intros Hch Hsb (Hsafe & Hbits & Hall).
  set (n := 4 * (ch * nsb + sb)) in *.
  assert (0 <= n /\ n + 4 <= 4 * nsb * nch) as [Hn0 Hn] by (subst n; nia).
  assert (n mod 4 = 0) as Hn4 by (subst n; rewrite Z.mul_comm; apply Z.mod_mul; lia).
  assert ((c + n) mod 4 = 0) as Hc4 by (rewrite Z.add_mod, (proj2 Hc), Hn4 by lia; done).
  assert ((p + n) mod 4 = 0) as Hp4 by (rewrite Z.add_mod, (proj1 (proj2 Hp)), Hn4 by lia; done).
  destruct (read_scale_factor_safe data ch sb _ _ s Hsafe) as (s' & Hs' & Hsafe');
    [lia|apply Z.div_lt_upper_bound; lia|lia|].
  exists s'. split; [done|]. destruct Hsafe as (Hcs & Hps & Hl & Hu & Hr).
  destruct (aget_in data ((c + n) / 8)) as [d Hd].
  { split; [apply Z.div_pos; lia|apply Z.div_lt_upper_bound; lia]. }
  pose proof (field_nib data (c + n) d ltac:(lia) Hc4 Hd) as Hnib. fold stream in Hnib.
  set (sf := (d ≫ (4 - (c + n) mod 8)) .& 0x0F) in *. pose proof (land15_u4 (d ≫ (4 - (c + n) mod 8))) as Hsf. fold sf in Hsf.
  unfold read_scale_factor in Hs'. rewrite Hcs, Hps, !shiftr3, !land7, Hd in Hs' by lia.
  cbn [mbind option_bind] in Hs'. fold sf in Hs'.
  assert (0 <= (p + n) / 8 < zlen (sf_crc_header s)) as Hq.
  { unfold zlen. rewrite Hl. split; [apply Z.div_pos; lia|apply Z.div_lt_upper_bound; lia]. }
  rewrite (aget_anth (sf_crc_header s)) in Hs' by done. cbn [mbind option_bind] in Hs'.
  rewrite aset_in in Hs' by done. cbn [mbind option_bind] in Hs'. injection Hs' as <-.
  assert (4 * (ch * nsb + (sb + 1)) = n + 4) as Hn' by (subst n; lia).
  unfold sf_done. rewrite Hn'. split_and!; [by rewrite !Z.add_assoc| |].
  - simpl. rewrite (crc_nibble _ (pre ++ field c n stream) (p + n) sf) by (try done; try lia;
      unfold zlen in *; rewrite length_app, Nat2Z.inj_add;
      pose proof (field_length c n stream) as Hfl; unfold zlen in Hfl; unfold stream in *;
      rewrite ?bits_of_length in Hfl; lia).
    rewrite <- Hnib, app_assoc, (field_app c n 4), (app_assoc pre) by lia. do 3 f_equal. lia.
  - intros j k Hj Hk Hbef. simpl. destruct (decide ((ch, sb) = (j, k))) as [[= <- <-]|Hne].
    + rewrite (anth2_upd2_eq 8 is_u4) by (done || lia). fold n. by rewrite Hnib, bval_nib.
    + rewrite anth2_upd2_ne by (done || lia). apply Hall; try done.
      assert (~ (j = ch /\ k = sb)) by (by intros [-> ->]). lia.
Qed.

Lemma read_scale_factors_done s :
  sf_done 0 0 s ->
  exists s', read_scale_factors data nch nsb s = Some s' /\ sf_done nch 0 s'.
Proof using Hdims Hc Hp Hpre Hdata.
  intros Hs. unfold read_scale_factors.
  destruct (for_loop_inv (fun ch => sf_done ch 0) (fun ch s =>
      for_loop (Z.to_nat nsb) 0 (fun sb s => read_scale_factor data ch sb s) s)
      (Z.to_nat nch) 0 s) as (s' & -> & Hs'); [|done|exists s'; split; [done|]].
  2:{ by rewrite Z2Nat.id in Hs' by lia. }
  intros ch u Hch Hu.
  destruct (for_loop_inv (fun sb => sf_done ch sb)
      (fun sb s => read_scale_factor data ch sb s) (Z.to_nat nsb) 0 u)
    as (u' & -> & Hu'); [|done|exists u'; split; [done|]].
  2:{ rewrite Z2Nat.id in Hu' by lia. unfold sf_done in *. simpl in Hu'.
      replace (4 * ((ch + 1) * nsb + 0)) with (4 * (ch * nsb + nsb)) by lia.
      destruct Hu' as (? & ? & Hall). split_and!; try done. intros j k Hj Hk Hb. apply Hall; lia. }
  intros sb v Hsb Hv. apply read_scale_factor_done; (done || lia).
Qed.
End Scales.

(** ** Joint stereo *)
Definition unjoined (joint : Z) (t : list (list (list Z))) (blk ch sb : Z) : Z :=
  let a := anth3 t blk 0 sb in
  let b := anth3 t blk 1 sb in
  if joint .& (0x01 ≪ sb) =? 0 then anth3 t blk ch sb
  else if ch =? 0 then i32 (a + b) else i32 (a - b).

(** What the loops have undone so far, in the order of the code. *)
Definition unjoin_done (joint nsb : Z) (t0 : list (list (list Z))) (blk sb : Z) (t : list (list (list Z))) : Prop :=
  arr3_wf is_i32 t /\
  forall i j k, 0 <= i < 16 -> 0 <= j < 2 -> 0 <= k < nsb ->
    anth3 t i j k = if decide (i < blk \/ (i = blk /\ k < sb))
                    then unjoined joint t0 i j k else anth3 t0 i j k.

Lemma unjoin_sample_done joint nsb t0 blk sb t :
  0 <= blk < 16 -> 0 <= sb < nsb -> nsb <= 8 ->
  unjoin_done joint nsb t0 blk sb t -> unjoin_done joint nsb t0 blk (sb + 1) (unjoin_sample joint blk sb t).
Proof.
  intros Hb Hsb Hn [Hwf Hall]. unfold unjoin_sample.
  pose proof (Hall blk 0 sb ltac:(lia) ltac:(lia) ltac:(lia)) as H0.
  pose proof (Hall blk 1 sb ltac:(lia) ltac:(lia) ltac:(lia)) as H1.
  rewrite decide_False in H0, H1 by lia. rewrite H0, H1.
  destruct (joint .& (0x01 ≪ sb) =? 0) eqn:Hbit.
  - split; [done|]. intros i j k Hi Hj Hk. rewrite Hall by done.
    destruct (decide (i = blk /\ k = sb)) as [[-> ->]|Hne].
    + rewrite decide_False, decide_True by lia. unfold unjoined. by rewrite Hbit.
    + by rewrite (decide_ext _ (i < blk \/ (i = blk /\ k < sb + 1))) by lia.
  - set (u := upd3 t blk 1 sb _).
    assert (arr3_wf is_i32 u) as Hwfu by (apply upd3_wf; [apply i32_range|done]).
    split; [by apply upd3_wf; [apply i32_range|]|]. intros i j k Hi Hj Hk.
    destruct (decide (i = blk /\ k = sb)) as [[-> ->]|Hne].
    + rewrite decide_True by lia. unfold unjoined. rewrite Hbit.
      destruct (Z.eqb_spec j 0) as [->|Hj0].
      * by rewrite (anth3_upd3_eq is_i32) by (done || lia).
      * rewrite anth3_upd3_ne by (lia || congruence). replace j with 1 by lia.
        by unfold u; rewrite (anth3_upd3_eq is_i32) by (done || lia).
    + rewrite anth3_upd3_ne by (lia || (intros [= ? ? ?]; lia)). unfold u.
      rewrite anth3_upd3_ne by (lia || (intros [= ? ? ?]; lia)). rewrite Hall by done.
      by rewrite (decide_ext _ (i < blk \/ (i = blk /\ k < sb + 1))) by lia.
Qed.

Lemma fold_left_seqZ_inv {T} (P : Z -> T -> Prop) (f : T -> Z -> T) m n t :
  0 <= n -> (forall i u, m <= i < m + n -> P i u -> P (i + 1) (f u i)) ->
  P m t -> P (m + n) (fold_left f (seqZ m n) t).
Proof.
  intros Hn. rewrite <- (Z2Nat.id n) by done. generalize (Z.to_nat n). clear. intros n. revert m t.
  induction n as [|n IH]; intros m t Hf Hm.
  - simpl. by rewrite Z.add_0_r.
  - rewrite seqZ_cons by lia. replace (Z.pred (Z.of_nat (S n))) with (Z.of_nat n) by lia.
    cbn [fold_left]. replace (m + Z.of_nat (S n)) with (Z.succ m + Z.of_nat n) by lia.
    apply IH; [intros; apply Hf; (done || lia)|]. apply Hf; (done || lia).
Qed.

Lemma unjoin_spec joint nblk nsb t :
  0 <= nblk <= 16 -> 0 <= nsb <= 8 -> arr3_wf is_i32 t ->
  forall blk ch sb, 0 <= blk < nblk -> 0 <= ch < 2 -> 0 <= sb < nsb ->
    anth3 (unjoin joint nblk nsb t) blk ch sb = unjoined joint t blk ch sb.
Proof.
  intros Hnb Hns Hwf. unfold unjoin.
  assert (unjoin_done joint nsb t (0 + nblk) 0
    (fold_left (fun t blk => fold_left (fun t sb => unjoin_sample joint blk sb t) (seqZ 0 nsb) t) (seqZ 0 nblk) t)) as [_ Hd].
  { apply (fold_left_seqZ_inv (fun blk => unjoin_done joint nsb t blk 0)); [lia| |].
    - intros blk u Hb Hu.
      pose proof (fold_left_seqZ_inv (fun sb => unjoin_done joint nsb t blk sb)
        (fun t sb => unjoin_sample joint blk sb t) 0 nsb u ltac:(lia)) as [Hw Hv]; [|done|].
      + intros sb v Hsb Hv. apply unjoin_sample_done; (done || lia).
      + split; [done|]. intros i j k Hi Hj Hk. rewrite Hv by done.
        by rewrite (decide_ext _ (i < blk + 1 \/ (i = blk + 1 /\ k < 0))) by lia.
    - split; [done|]. intros i j k Hi Hj Hk. by rewrite decide_False by lia. }
  intros blk ch sb Hb Hch Hsb. rewrite Hd by lia. by rewrite decide_True by lia.
Qed.

(** ** The unpacked frame as a function of the stream *)

(** First bit of the scale factors, and the number of bits they take. *)
Definition scale_start (f : sbc_frame) : Z :=
  32 + (if mode f =? SBC_MODE_JOINT_STEREO then subbands f else 0).
Definition scale_size (f : sbc_frame) : Z := 4 * subbands f * channels f.

(** The samples with joint stereo undone. *)
Definition final_sample (s : list bool) (g : sbc_frame) (bits : list (list Z)) (blk ch sb : Z) : Z :=
  let e ch := expected_sample s (scale_start g + scale_size g) bits (scale_factor g) blk ch sb in
  if mode g =? SBC_MODE_JOINT_STEREO then
    if joint g .& (0x01 ≪ sb) =? 0 then e ch
    else if ch =? 0 then i32 (e 0 + e 1) else i32 (e 0 - e 1)
  else e ch.

Record unpacked (data : list Z) (r : Z) (g : sbc_frame) : Prop := {
  up_header : header_ok g;
  up_joint : mode g = SBC_MODE_JOINT_STEREO -> joint g = joint_bits (anth data 4) (subbands g);
  up_crc : anth data 3
    = crc_bits 0x0f (field 8 16 (bits_of data) ++ field 32 (scale_start g - 32 + scale_size g) (bits_of data));
  up_scale : forall ch sb, 0 <= ch < channels g -> 0 <= sb < subbands g ->
    anth2 (scale_factor g) ch sb = bval (field (scale_start g + 4 * (ch * subbands g + sb)) 4 (bits_of data));
  up_samples : exists bits,
    sbc_calculate_bits (mode g) (channels g) (allocation g) (frequency g) (bitpool g) (subbands g)
      (scale_factor g) = Some bits
    /\ (forall blk ch sb, 0 <= blk < blocks g -> 0 <= ch < channels g -> 0 <= sb < subbands g ->
          anth3 (sb_sample g) blk ch sb = final_sample (bits_of data) g bits blk ch sb)
    /\ (let e := scale_start g + scale_size g + blocks g * zsum (map zsum bits) in e <= 8 * r <= e + 15)
}.

(** Without a short read the loops have consumed exactly the bits of the samples. *)
Section Exact.
Context (data : list Z) (len : Z) (bits sfs : list (list Z)) (nblk nch nsb c : Z).
Hypothesis Hrows : rows_ok nch nsb bits.
Hypothesis Hdims : 0 <= nblk <= 16 /\ 0 <= nch <= 2 /\ 0 <= nsb <= 8.
Hypothesis Hc : 0 <= c.
Hypothesis Hdata : len < zlen data.

Definition exact_at (blk ch sb : Z) (s : sample_state) : Prop :=
  samples_safe len c s /\ (ss_short s = true \/ ss_consumed s = c + sample_offset bits blk ch sb).

Lemma unpack_sample_exact blk ch sb s :
  0 <= ch < nch -> 0 <= sb < nsb -> exact_at blk ch sb s ->
  exists s', unpack_sample data len bits sfs blk ch sb s = Some s' /\ exact_at blk ch (sb + 1) s'.
Proof using Hrows Hc Hdata.
  intros Hch Hsb [Hsafe Hex]. pose proof (anth2_bits_range bits nch nsb Hrows ch sb) as Hbit.
  pose proof (offset_sb bits nch nsb Hrows blk ch sb Hch Hsb) as Hos.
  destruct (unpack_sample_safe data len bits sfs blk ch sb c s Hc Hdata Hsafe) as (s' & Hs' & Hsafe').
  exists s'. split; [done|split; [done|]]. revert Hs'. unfold unpack_sample.
  destruct (ss_short s) eqn:Hsh; [intros [= <-]; by left|].
  destruct Hex as [|Hex]; [done|]. rewrite level_pos by done.
  destruct (Z.ltb_spec 0 (anth2 bits ch sb)) as [Hp|Hp]; [|intros [= <-]; right; simpl; lia].
  destruct Hsafe as [_ Hsafe]. set (n := Z.to_nat (anth2 bits ch sb)).
  destruct (decide (ss_consumed s + Z.of_nat n <= len * 8 + 1)).
  - rewrite <- (Z.mul_0_l (2 ^ Z.of_nat n)). rewrite read_sample_ok by lia.
    cbn [mbind option_bind]. intros [= <-]. right. simpl. lia.
  - destruct (read_sample_short n data len (ss_consumed s) 0) as (c' & -> & _); [lia..|].
    cbn [mbind option_bind]. intros [= <-]. by left.
Qed.

Lemma exact_shift blk ch sb blk' ch' sb' s :
  exact_at blk ch sb s -> sample_offset bits blk ch sb = sample_offset bits blk' ch' sb' ->
  exact_at blk' ch' sb' s.
Proof using Type. intros [? ?] He. split; [done|]. by rewrite <- He. Qed.

Lemma unpack_samples_exact s :
  exact_at 0 0 0 s ->
  exists s', unpack_samples data len bits sfs nblk nch nsb s = Some s' /\ exact_at nblk 0 0 s'.
Proof using All.
  intros Hs. unfold unpack_samples.
  destruct (for_loop_inv (fun blk => exact_at blk 0 0) (fun blk s =>
    for_loop (Z.to_nat nch) 0 (fun ch s =>
      for_loop (Z.to_nat nsb) 0 (fun sb s => unpack_sample data len bits sfs blk ch sb s) s) s)
    (Z.to_nat nblk) 0 s) as (s' & -> & Hs'); [|done|exists s'; split; [done|]].
  2:{ by replace nblk with (0 + Z.of_nat (Z.to_nat nblk)) by lia. }
  intros blk t Hblk Ht.
  destruct (for_loop_inv (fun ch => exact_at blk ch 0) (fun ch s =>
      for_loop (Z.to_nat nsb) 0 (fun sb s => unpack_sample data len bits sfs blk ch sb s) s)
      (Z.to_nat nch) 0 t) as (t' & -> & Ht'); [|done|exists t'; split; [done|]].
  2:{ rewrite Z2Nat.id in Ht' by lia. eapply exact_shift; [exact Ht'|].
      by apply (offset_blk bits nch nsb). }
  intros ch u Hch Hu.
  destruct (for_loop_inv (fun sb => exact_at blk ch sb)
      (fun sb s => unpack_sample data len bits sfs blk ch sb s) (Z.to_nat nsb) 0 u)
    as (u' & -> & Hu'); [|done|exists u'; split; [done|]].
  2:{ rewrite Z2Nat.id in Hu' by lia. eapply exact_shift; [exact Hu'|].
      apply (offset_ch bits nch nsb Hrows). lia. }
  intros sb v Hsb Hv. apply unpack_sample_exact; (done || lia).
Qed.
End Exact.

Lemma sample_offset_0 bits blk : sample_offset bits blk 0 0 = blk * zsum (map zsum bits).
Proof. unfold sample_offset. change (Z.to_nat 0) with O. rewrite !take_0. cbn [map]. rewrite !zsum_nil. lia. Qed.

(** The memory that must be readable for a frame of [e] bits: two octets more than the announced
    length, or the octet after the frame. *)
Definition readable (data : list Z) (len e : Z) : Prop :=
  len + 2 <= zlen data \/ (e <= len * 8 + 1 /\ e <= 8 * (zlen data - 1)).

(** Either the frame fits the announced length and every sample is as expected, or the loops
    report a short stream. *)
Lemma unpack_samples_fit data len bits sfs nblk nch nsb c t :
  rows_ok nch nsb bits -> 0 <= nblk <= 16 /\ 0 <= nch <= 2 /\ 0 <= nsb <= 8 -> 0 <= c <= len * 8 + 1 ->
  readable data len (c + nblk * zsum (map zsum bits)) -> arr3_wf is_i32 t ->
  exists s, unpack_samples data len bits sfs nblk nch nsb (mk_ss false c t) = Some s
    /\ arr3_wf is_i32 (ss_samples s)
    /\ if ss_short s then len * 8 + 1 < c + nblk * zsum (map zsum bits)
       else c + nblk * zsum (map zsum bits) <= len * 8 + 1
            /\ samples_done data bits sfs nch nsb c nblk 0 0 s.
Proof.
  intros Hr Hdims [Hc Hcl] Hd Hwf.
  destruct (decide (c + nblk * zsum (map zsum bits) <= len * 8 + 1)) as [Hfit|Hno].
  - destruct (unpack_samples_done data len bits sfs nblk nch nsb c Hr Hdims Hc ltac:(destruct Hd; lia) Hfit
      (mk_ss false c t)) as (s & Hs & Hdone).
    + split_and!; try done; [rewrite sample_offset_0; simpl; lia|unfold before; intros; lia].
    + exists s. split; [done|]. split; [apply Hdone|]. by rewrite (proj1 Hdone).
  - destruct Hd as [Hd|Hd]; [|lia].
    destruct (unpack_samples_exact data len bits sfs nblk nch nsb c Hr Hdims Hc ltac:(lia) (mk_ss false c t))
      as (s & Hs & [Hw Hsafe] & Hex).
    + split; [split; [done|simpl; lia]|right]. rewrite sample_offset_0. simpl. lia.
    + exists s. split; [done|]. split; [done|]. rewrite sample_offset_0 in Hex.
      destruct (ss_short s); [lia|]. destruct Hex; [done|lia].
Qed.

(** ** The frame *)
Lemma unpack_audio_spec data len f bits :
  frame_wf f -> header_ok f -> scale_start f + scale_size f <= len * 8 ->
  readable data len (scale_start f + scale_size f + blocks f * zsum (map zsum bits)) ->
  sbc_calculate_bits (mode f) (channels f) (allocation f) (frequency f) (bitpool f) (subbands f)
    (scale_factor f) = Some bits ->
  rows_ok (channels f) (subbands f) bits ->
  let e := scale_start f + scale_size f + blocks f * zsum (map zsum bits) in
  exists r t, unpack_audio data len (scale_start f + scale_size f) f = Some (r, set_sb_sample f t)
    /\ arr3_wf is_i32 t
    /\ if decide (e <= len * 8 + 1) then
         e <= 8 * r <= e + 15 /\
         forall blk ch sb, 0 <= blk < blocks f -> 0 <= ch < channels f -> 0 <= sb < subbands f ->
           anth3 t blk ch sb = final_sample (bits_of data) f bits blk ch sb
       else r = -1.
Proof.
  intros Hwf Hh Hlen Hd Hbits Hrows e. unfold unpack_audio. rewrite Hbits. cbn [mbind option_bind].
  assert (1 <= channels f <= 2) as Hch by (rewrite (hd_channels f Hh); case_match; lia).
  assert (4 <= subbands f <= 8) as Hsb by (destruct (hd_subbands f Hh); lia).
  assert (0 <= blocks f <= 16) as Hblk by (pose proof (hd_blocks f Hh) as Hb; simpl in Hb; lia).
  assert (0 <= scale_start f + scale_size f) as Hc0
    by (unfold scale_start, scale_size; case_match; nia).
  destruct (unpack_samples_fit data len bits (scale_factor f) (blocks f) (channels f) (subbands f)
    (scale_start f + scale_size f) (sb_sample f)) as (s & -> & Hsw & Hs); [done|lia|lia|done|apply Hwf|].
  cbn [mbind option_bind]. destruct (ss_short s).
  { do 2 eexists. split; [reflexivity|]. split; [done|]. by rewrite decide_False by lia. }
  destruct Hs as [Hfit (_ & Hwfs & Hcons & Hall)]. rewrite sample_offset_0 in Hcons.
  assert (0 <= ss_consumed s) as Hpos.
  { rewrite Hcons. pose proof (zsum_rows_nonneg (subbands f) bits (proj2 Hrows)). nia. }
  destruct (frame_end_ok data (ss_consumed s) Hpos ltac:(destruct Hd; lia)) as (r & -> & ? & ?).
  cbn [mbind option_bind]. do 2 eexists. split; [reflexivity|].
  split; [case_match; [by apply unjoin_wf|done]|]. rewrite decide_True by (subst e; lia).
  split; [subst e; lia|]. intros blk ch sb Hb' Hc' Hs'. unfold final_sample.
  assert (forall ch, 0 <= ch < channels f -> anth3 (ss_samples s) blk ch sb = expected_sample (bits_of data)
    (scale_start f + scale_size f) bits (scale_factor f) blk ch sb) as He.
  { intros. apply Hall; try lia. left. lia. }
  destruct (Z.eqb_spec (mode f) SBC_MODE_JOINT_STEREO) as [Hj|Hj]; [|by apply He].
  pose proof (hd_channels f Hh) as Hc2. rewrite Hj in Hc2. simpl in Hc2.
  rewrite unjoin_spec by (done || lia). unfold unjoined. rewrite !He by lia. done.
Qed.

(** Number of bits of a frame, from its header. *)
Definition frame_bits (f : sbc_frame) : Z :=
  scale_start f + scale_size f
  + blocks f * ((if mono_like (mode f) then channels f else 1) * bitpool f).

Lemma pool_spent_total md n nsb bp bits :
  rows_ok n nsb bits -> pool_spent md bp bits ->
  zsum (map zsum bits) = (if mono_like md then n else 1) * bp.
Proof.
  intros [Hl _]. unfold pool_spent. case_match; [|lia]. intros Hall. subst n. unfold zlen.
  induction Hall as [|r l Hr _ IH]; [done|]. cbn [map length]. rewrite zsum_cons, IH. lia.
Qed.

(** The CRC the frame must carry, over the header octets and the scale factors. *)
Definition stream_crc (data : list Z) (f : sbc_frame) : Z :=
  crc_bits 0x0f (field 8 16 (bits_of data) ++ field 32 (scale_start f - 32 + scale_size f) (bits_of data)).

(** The outcomes of the unpacker past the header. *)
Definition body_result (data : list Z) (len r : Z) (g : sbc_frame) : Prop :=
  (r = -1 /\ len * 8 < frame_bits g) \/
  (r = -3 /\ anth data 3 <> stream_crc data g) \/
  (unpacked data r g /\ frame_bits g <= len * 8 + 1 /\ frame_bits g <= 8 * r <= frame_bits g + 15).

Lemma header_bounds f : header_ok f ->
  1 <= channels f <= 2 /\ 4 <= subbands f <= 8 /\ 0 <= blocks f <= 16 /\ 0 <= bitpool f
  /\ 0 <= scale_size f /\ 32 <= scale_start f <= 40 /\ scale_start f mod 4 = 0
  /\ scale_start f - 16 + 4 * subbands f * channels f <= 88.
Proof.
  intros Hh. pose proof (hd_blocks f Hh) as Hb. simpl in Hb. pose proof (hd_pool f Hh) as [Hp _].
  pose proof (hd_channels f Hh) as Hc. unfold scale_size, scale_start.
  destruct (hd_subbands f Hh) as [-> | ->]; rewrite Hc;
    destruct (mode f =? SBC_MODE_MONO); destruct (mode f =? SBC_MODE_JOINT_STEREO);
    split_and!; simpl; (lia || done).
Qed.

Lemma frame_bits_ge f : header_ok f -> scale_start f + scale_size f <= frame_bits f.
Proof.
  intros Hh. destruct (header_bounds f Hh) as (? & ? & ? & ? & _). unfold frame_bits.
  case_match; nia.
Qed.

(** The header fields the data determine. *)
Definition same_header (f g : sbc_frame) : Prop :=
  mode g = mode f /\ blocks g = blocks f /\ bitpool g = bitpool f /\ subbands g = subbands f
  /\ channels g = channels f /\ frequency g = frequency f /\ allocation g = allocation f
  /\ block_mode g = block_mode f /\ subband_mode g = subband_mode f.

Definition header_of (data : list Z) (f : sbc_frame) : sbc_frame :=
  if anth data 0 =? SBC_SYNCWORD then read_sbc_header f (anth data 1) (anth data 2)
  else msbc_header f.

Lemma unpack_body_spec data len h f :
  frame_wf f -> header_ok f -> Forall is_u8 h -> length h = 11%nat -> 4 <= len -> readable data len (frame_bits f) ->
  (mode f = SBC_MODE_JOINT_STEREO -> joint f = joint_bits (anth data 4) (subbands f)) ->
  bits_of h = (field 8 16 (bits_of data) ++ field 32 (scale_start f - 32) (bits_of data))
              ++ replicate (Z.to_nat (88 - (scale_start f - 16))) false ->
  exists r g, unpack_body data len (scale_start f) (scale_start f - 16) h f = Some (r, g)
    /\ frame_wf g /\ header_ok g /\ same_header f g /\ body_result data len r g.
Proof.
  intros Hwf Hh Hu Hl Hlen Hrd Hj Hbits. pose proof (frame_bits_ge f Hh) as Hfb.
  destruct (header_bounds f Hh) as (Hch & Hsb & Hbl & Hbp & Hsz & Hst & Hmod & Hp88). unfold unpack_body.
  fold (scale_size f). destruct (Z.ltb_spec (len * 8) (scale_start f + scale_size f)) as [Hs|Hs].
  { do 2 eexists. split_and!; [reflexivity|done..|left; split; lia]. }
  assert (scale_start f + scale_size f <= 8 * zlen data) as Hd by (destruct Hrd; lia).
  assert (forall a b, 0 <= a -> 0 <= b -> a + b <= 8 * zlen data -> zlen (field a b (bits_of data)) = b) as Hfl.
  { intros. apply field_length; try done. unfold zlen in *. rewrite bits_of_length. lia. }
  pose proof (Z.mod_add (scale_start f) (-4) 4 ltac:(lia)) as Hm.
  replace (scale_start f + -4 * 4) with (scale_start f - 16) in Hm by lia.
  destruct (read_scale_factors_done data (channels f) (subbands f) (scale_start f) (scale_start f - 16)
    (field 8 16 (bits_of data) ++ field 32 (scale_start f - 32) (bits_of data)))
    with (s := mk_sf (scale_start f) (scale_start f - 16) h (scale_factor f)) as (s & -> & Hdone);
    try (unfold scale_size in *; lia).
  { unfold zlen in *. rewrite length_app, Nat2Z.inj_add, !Hfl by lia. lia. }
  { unfold sf_done. replace (4 * (0 * subbands f + 0)) with 0 by lia. cbv zeta.
    rewrite !Z.add_0_r. split_and!; [split_and!; try done; apply Hwf| |lia].
    cbn [sf_crc_header]. rewrite Hbits. change (field (scale_start f) 0 _) with (@nil bool). by rewrite app_nil_r. }
  destruct Hdone as ((Hcs & Hps & Hlh & Huh & Hrows) & Hbh & Hsf). cbn [mbind option_bind].
  replace (4 * (channels f * subbands f + 0)) with (scale_size f) in * by (unfold scale_size; lia).
  set (g := set_scale_factor f (sf_rows s)).
  assert (header_ok g) as Hhg by (by eapply (header_ok_same f)).
  assert (frame_wf g) as Hwfg by (destruct Hwf; by split).
  rewrite (aget_anth data 3) by lia. cbn [mbind option_bind].
  assert (sbc_crc8 (sf_crc_header s) (sf_crc_pos s) = stream_crc data g) as Hcrc.
  { rewrite sbc_crc8_bits by (done || (unfold zlen, scale_size in *; lia)). unfold stream_crc. f_equal.
    change (scale_size g) with (scale_size f). change (scale_start g) with (scale_start f).
    rewrite Hps, Hbh, (field_app 32) by lia. rewrite app_assoc.
    replace (32 + (scale_start f - 32)) with (scale_start f) by lia.
    apply take_app_length'. rewrite !length_app.
    pose proof (Hfl 8 16) as F1. pose proof (Hfl 32 (scale_start f - 32)) as F2.
    pose proof (Hfl (scale_start f) (scale_size f)) as F3. unfold zlen in *. lia. }
  rewrite Hcrc. destruct (Z.eqb_spec (anth data 3) (stream_crc data g)) as [He|He]; cbn [negb].
  2:{ do 2 eexists. split_and!; [reflexivity|done..|right; left; by split]. }
  destruct (header_calc_bits g Hhg (scale_rows_ok _ Hrows)) as (bits & Hcb & Hro & Hsp).
  pose proof (pool_spent_total _ _ _ _ _ Hro Hsp) as Htot.
  destruct (unpack_audio_spec data len g bits Hwfg Hhg ltac:(done) ltac:(by rewrite Htot) Hcb Hro)
    as (r & t & Ha & Hwt & Hcase).
  rewrite Hcs. exists r, (set_sb_sample g t). split; [exact Ha|]. split; [destruct Hwfg; by split|].
  split; [by eapply (header_ok_same g)|]. split; [done|]. rewrite Htot in Hcase.
  change (scale_start g + scale_size g + _) with (frame_bits g) in Hcase. unfold body_result.
  change (frame_bits (set_sb_sample g t)) with (frame_bits g).
  destruct (decide (frame_bits g <= len * 8 + 1)) as [Hle|Hle]; [right; right|left; lia].
  destruct Hcase as [Hr Hsamp]. split; [|lia]. split; try done.
  - by eapply (header_ok_same g).
  - intros ch sb Hch' Hsb'. apply Hsf; simpl in *; lia.
  - exists bits. split; [done|]. cbv zeta. rewrite Htot. split; [exact Hsamp|exact Hr].
Qed.

Lemma crc_init_bits data d1 d2 :
  aget data 1 = Some d1 -> aget data 2 = Some d2 ->
  bits_of (crc_header0 d1 d2) = field 8 16 (bits_of data) ++ replicate 72 false.
Proof. destruct data as [|x0 [|x1 [|x2 data]]]; try done. intros [= ->] [= ->]. reflexivity. Qed.

Lemma crc_init_joint data d1 d2 d4 nsb h :
  aget data 1 = Some d1 -> aget data 2 = Some d2 -> aget data 4 = Some d4 -> is_u8 d4 ->
  nsb = 4 \/ nsb = 8 ->
  aset (crc_header0 d1 d2) 2 (if nsb =? 4 then d4 .& 0xf0 else d4) = Some h ->
  bits_of h = (field 8 16 (bits_of data) ++ field 32 nsb (bits_of data))
              ++ replicate (Z.to_nat (88 - (16 + nsb))) false.
Proof.
  intros H1 H2 H4 Hu Hn Hh. injection Hh as <-.
  destruct data as [|x0 [|x1 [|x2 [|x3 [|x4 data]]]]]; try done.
  injection H1 as ->. injection H2 as ->. injection H4 as ->.
  destruct Hn as [-> | ->]; [|reflexivity].
  assert (byte_bits (d4 .& 0xf0) = take 4 (byte_bits d4) ++ replicate 4 false) as Hb.
  { unfold byte_bits. cbn [seq map take app replicate]. unfold byte_bit. rewrite !Z.land_spec.
    cbn. by rewrite !andb_true_r, !andb_false_r. }
  change (bits_of _) with (byte_bits d1 ++ byte_bits d2 ++ byte_bits (d4 .& 0xf0) ++ replicate 64 false) at 1.
  rewrite Hb. reflexivity.
Qed.

(** Every outcome of the unpacker. *)
Definition unpack_outcome (data : list Z) (f : sbc_frame) (len r : Z) (g : sbc_frame) : Prop :=
  (r = -1 /\ len < 4) \/
  (r = -2 /\ anth data 0 <> SBC_SYNCWORD /\ anth data 0 <> MSBC_SYNCWORD) \/
  (r = -4 /\ anth data 0 = SBC_SYNCWORD /\ same_header (header_of data f) g
   /\ ~ pool_ok (mode g) (subbands g) (bitpool g)) \/
  (header_ok g /\ same_header (header_of data f) g /\ body_result data len r g).

Lemma unpack_header_cases data f :
  Forall is_u8 data -> 4 <= zlen data ->
  exists e g, unpack_header data f = Some (e, g) /\ same_arrays f g /\
    ((e = 0 /\ header_ok g /\ g = header_of data f) \/
     (e = -2 /\ anth data 0 <> SBC_SYNCWORD /\ anth data 0 <> MSBC_SYNCWORD) \/
     (e = -4 /\ anth data 0 = SBC_SYNCWORD /\ same_header (header_of data f) g
      /\ ~ pool_ok (mode g) (subbands g) (bitpool g))).
Proof.
  intros Hu Hl. destruct (unpack_header_ok data f Hu Hl) as (e & g & Hg & Hs & Hcase).
  exists e, g. split_and!; [done|done|]. revert Hg. unfold unpack_header.
  rewrite !(aget_anth data) by lia. cbn [mbind option_bind].
  destruct (Z.eqb_spec (anth data 0) SBC_SYNCWORD) as [He|He].
  - set (k := read_sbc_header f _ _).
    destruct (mono_like (mode k)) eqn:Hm; cbn [negb andb];
      [destruct (Z.ltb_spec (16 * subbands k) (bitpool k))
      |destruct (Z.ltb_spec (32 * subbands k) (bitpool k))]; intros [= <- <-].
    1,3: right; right; split; [done|]; split; [done|]; split; [unfold header_of; by rewrite He|];
      unfold pool_ok; rewrite Hm; lia.
    all: destruct Hcase as [[_ Hh]|[?|?]]; try done; left; split_and!; try done;
      unfold header_of; by rewrite He.
  - destruct (Z.eqb_spec (anth data 0) MSBC_SYNCWORD) as [Hm|Hm]; intros [= <- <-]; [|tauto].
    destruct Hcase as [[_ Hh]|[?|?]]; try done. left. split_and!; try done. unfold header_of.
    by rewrite Hm.
Qed.

Lemma sbc_unpack_frame_cases data f len :
  frame_wf f -> Forall is_u8 data ->
  len + 2 <= zlen data \/ (anth data 0 = MSBC_SYNCWORD /\ 57 <= len /\ 58 <= zlen data) ->
  exists r g, sbc_unpack_frame data f len = Some (r, g) /\ frame_wf g /\ unpack_outcome data f len r g.
Proof.
  intros Hwf Hu Hd. unfold sbc_unpack_frame, unpack_outcome.
  destruct (Z.ltb_spec len 4) as [Hl4|Hl4].
  { do 2 eexists. split; [reflexivity|]. split; [done|by left]. }
  destruct (unpack_header_cases data f Hu ltac:(lia)) as (e & g & -> & Hs & Hcase). cbn [mbind option_bind].
  pose proof (same_arrays_wf _ _ Hs Hwf) as Hwfg.
  destruct Hcase as [(-> & Hh & Hms)|Hcase].
  2:{ assert ((e <? 0) = true) as -> by (destruct Hcase as [[-> _]|[-> _]]; done).
      do 2 eexists. split; [reflexivity|]. split; [done|]. tauto. }
  cbn [Z.ltb Z.compare]. rewrite <- Hms.
  destruct (aget_in data 1) as [d1 Hd1]; [lia|]. destruct (aget_in data 2) as [d2 Hd2]; [lia|].
  rewrite Hd1, Hd2. cbn [mbind option_bind].
  assert (Forall is_u8 (crc_header0 d1 d2)) as Hcrc.
  { constructor; [by eapply (aget_Forall is_u8)|]. constructor; [by eapply (aget_Forall is_u8)|by_compute]. }
  destruct (header_bounds g Hh) as (Hch & Hsb & _).
  assert (readable data len (frame_bits g)) as Hrd.
  { destruct Hd as [Hd|(Hm & Hl57 & Hz)]; [by left|right].
    assert (frame_bits g = 454) as -> by (rewrite Hms; unfold header_of; rewrite Hm; reflexivity). lia. }
  assert (scale_start g = 32 + (if mode g =? SBC_MODE_JOINT_STEREO then subbands g else 0)) as Hst by done.
  destruct (Z.eqb_spec (mode g) SBC_MODE_JOINT_STEREO) as [Hj|Hj].
  - destruct (Z.ltb_spec (len * 8) (32 + subbands g)).
    { do 2 eexists. split; [reflexivity|]. split; [done|]. right; right; right. split; [done|]. split; [done|left].
      pose proof (frame_bits_ge g Hh). destruct (header_bounds g Hh) as (? & ? & ? & ? & ? & ?). split; lia. }
    destruct (aget_in data 4) as [d4 Hd4]; [lia|]. rewrite Hd4. cbn [mbind option_bind].
    pose proof (aget_Forall is_u8 _ _ _ Hu Hd4) as Hu4.
    destruct (aset (crc_header0 d1 d2) 2 (if subbands g =? 4 then d4 .& 0xf0 else d4)) as [h|] eqn:Hset; [|done].
    pose proof (crc_init_joint data d1 d2 d4 (subbands g) h Hd1 Hd2 Hd4 Hu4 (hd_subbands g Hh) Hset) as Hbits.
    cbn [mbind option_bind]. set (k := set_joint g _).
    assert (Forall is_u8 h) as Huh.
    { injection Hset as <-. apply (Forall_insert is_u8 (crc_header0 d1 d2) 2); [done|].
      case_match; [|done].
      pose proof (u8_forall (fun d => (0 <=? d .& 0xf0) && (d .& 0xf0 <? 256)) eq_refl d4 Hu4) as Hm.
      cbv beta in Hm. unfold is_u8. lia. }
    destruct (unpack_body_spec data len h k) as (r & q & Hr & Hwq & Hq & Hsq & Hbody); try done.
    + destruct Hwfg; by split.
    + by eapply (header_ok_same g).
    + by rewrite (aset_length _ _ _ _ Hset).
    + intros _. unfold anth. by rewrite Hd4.
    + change (scale_start k) with (scale_start g). rewrite Hst, Hbits.
      replace (32 + subbands g - 32) with (subbands g) by lia. do 3 f_equal; lia.
    + change (scale_start k) with (scale_start g) in Hr. rewrite Hst in Hr.
      replace (32 + subbands g - 16) with (16 + subbands g) in Hr by lia.
      exists r, q. split; [exact Hr|tauto].
  - destruct (unpack_body_spec data len (crc_header0 d1 d2) g) as (r & q & Hr & Hwq & Hq & Hsq & Hbody); try done.
    + rewrite Hst, (crc_init_bits data d1 d2 Hd1 Hd2).
      change (field 32 (32 + 0 - 32) (bits_of data)) with (@nil bool). by rewrite app_nil_r.
    + rewrite Hst in Hr. exists r, q. split; [exact Hr|tauto].
Qed.

(** ** Properties *)


(** An mSBC frame of silence, as [btremoted] receives it, with two octets after it. *)
Definition msbc_silence : list Z :=
  [0xad; 0x00; 0x00; 0xc5; 0x00; 0x00; 0x00; 0x00; 0x77; 0x6d;
   0xb6; 0xdd; 0xdb; 0x6d; 0xb7; 0x76; 0xdb; 0x6d; 0xdd; 0xb6;
   0xdb; 0x77; 0x6d; 0xb6; 0xdd; 0xdb; 0x6d; 0xb7; 0x76; 0xdb;
   0x6d; 0xdd; 0xb6; 0xdb; 0x77; 0x6d; 0xb6; 0xdd; 0xdb; 0x6d;
   0xb7; 0x76; 0xdb; 0x6d; 0xdd; 0xb6; 0xdb; 0x77; 0x6d; 0xb6;
   0xdd; 0xdb; 0x6d; 0xb7; 0x76; 0xdb; 0x6c].

Example msbc_silence_unpacks :
  (fst <$> sbc_unpack_frame (msbc_silence ++ [0; 0]) frame0 57) = Some 58
  /\ (fst <$> sbc_unpack_frame (msbc_silence ++ [1; 0]) frame0 57) = Some 57.
Proof. split; vm_compute; reflexivity. Qed.


(** The CRC of an mSBC frame: octets 1 and 2 and the eight scale factors. *)
Definition msbc_crc (data : list Z) : Z :=
  crc_bits 0x0f (field 8 16 (bits_of data) ++ field 32 32 (bits_of data)).

Lemma msbc_stream_crc data g :
  mode g = SBC_MODE_MONO -> subbands g = 8 -> channels g = 1 -> stream_crc data g = msbc_crc data.
Proof. intros Hm Hs Hc. unfold stream_crc, msbc_crc, scale_start, scale_size. by rewrite Hm, Hs, Hc. Qed.

Lemma msbc_unpack_cases (data : list Z) (f : sbc_frame) (len : Z) :
  frame_wf f -> Forall is_u8 data -> 4 <= len -> len + 2 <= zlen data \/ (57 <= len /\ 58 <= zlen data) ->
  anth data 0 = MSBC_SYNCWORD ->
  exists r g, sbc_unpack_frame data f len = Some (r, g) /\ frame_wf g
    /\ header_ok g /\ mode g = SBC_MODE_MONO /\ blocks g = 15 /\ subbands g = 8 /\ bitpool g = 26
    /\ ((r = -1 /\ len < 57) \/ (r = -3 /\ anth data 3 <> stream_crc data g)
        \/ ((r = 57 \/ r = 58) /\ 57 <= len /\ unpacked data r g)).
Proof.
  intros Hwf Hu Hl Hd Hm.
  destruct (sbc_unpack_frame_cases data f len Hwf Hu ltac:(tauto)) as (r & g & Hr & Hwg & Ho).
  destruct Ho as [Ho|[Ho|[Ho|(Hh & Hsh & Hb)]]]; [lia|tauto|destruct Ho as (_ & He & _); by rewrite Hm in He|].
  unfold header_of in Hsh. rewrite Hm in Hsh. destruct Hsh as (E1 & E2 & E3 & E4 & _).
  exists r, g. split_and!; try done.
  assert (frame_bits g = 454) as Hfb.
  { unfold frame_bits, scale_start, scale_size. rewrite (hd_channels g Hh), E1, E2, E3, E4. reflexivity. }
  unfold body_result in Hb. rewrite Hfb in Hb. destruct Hb as [Hb|[Hb|Hb]]; [left; lia|tauto|].
  right. right. split; [lia|]. split; [lia|apply Hb].
Qed.

(** An mSBC frame (sync word 0xAD) of at least 57 octets is never reported short or
    malformed, and at most 58 octets of memory are read, whatever the announced length: either its CRC is wrong and the result is -3, or the frame is unpacked as the
    fixed mSBC configuration (mono, 15 blocks of 8 subbands, bitpool 26) and the result is 57,
    or 58 when the octet after it is zero. *)
Theorem msbc_frame_length (data : list Z) (f : sbc_frame) (len : Z) :
  frame_wf f -> Forall is_u8 data -> 57 <= len -> 58 <= zlen data ->
  anth data 0 = MSBC_SYNCWORD ->
  exists r g, sbc_unpack_frame data f len = Some (r, g)
    /\ mode g = SBC_MODE_MONO /\ blocks g = 15 /\ subbands g = 8 /\ bitpool g = 26
    /\ ((r = -3 /\ anth data 3 <> stream_crc data g) \/ ((r = 57 \/ r = 58) /\ unpacked data r g)).
Proof.
  intros Hwf Hu Hl Hd Hm.
  destruct (msbc_unpack_cases data f len Hwf Hu ltac:(lia) ltac:(tauto) Hm)
    as (r & g & Hr & _ & _ & ? & ? & ? & ? & Hc).
  exists r, g. split_and!; try done. destruct Hc as [Hc|Hc]; [lia|tauto].
Qed.

Lemma msbc_frame_length_witness :
  exists r g, sbc_unpack_frame (msbc_silence ++ [0; 0]) frame0 57 = Some (r, g)
    /\ mode g = SBC_MODE_MONO /\ blocks g = 15 /\ subbands g = 8 /\ bitpool g = 26
    /\ ((r = -3 /\ anth (msbc_silence ++ [0; 0]) 3 <> stream_crc (msbc_silence ++ [0; 0]) g)
        \/ ((r = 57 \/ r = 58) /\ unpacked (msbc_silence ++ [0; 0]) r g)).
Proof.
  apply (msbc_frame_length (msbc_silence ++ [0; 0]) frame0 57);
    [exact frame0_wf|by_compute|lia|vm_compute; discriminate|reflexivity].
Defined.
