(* ===== verification/SbcPack.v ===== *)
(** The SBC frame packer: the bit writer, [sbc_pack_frame] of
    src/mediatek/bluetooth/btremoted/msbc.c, and the stream it writes. *)
From S2P Require Import Prelude SbcTables SbcCrc SbcBits SbcFrame SbcStream.

(** ** The bit writer: [data_ptr] (as an index), [bits_cache], [bits_count] over the memory *)
Record writer := mk_writer { w_data : list Z; w_ptr : Z; w_cache : Z; w_count : Z }.

(** [*data_ptr++ = (uint8_t) v] *)
Definition emit (w : writer) (v : Z) : option writer :=
  d ← aset (w_data w) (w_ptr w) (u8 v);
  Some (mk_writer d (w_ptr w + 1) (w_cache w) (w_count w)).

Definition set_count (w : writer) (c : Z) : writer := mk_writer (w_data w) (w_ptr w) (w_cache w) c.

Definition PUT_BITS (w : writer) (v n : Z) : option writer :=
  let w := mk_writer (w_data w) (w_ptr w) (u32 (v .| (w_cache w ≪ n))) (w_count w + n) in
  if 16 <=? w_count w then
    let w := set_count w (w_count w - 8) in
    w ← emit w (w_cache w ≫ w_count w);
    let w := set_count w (w_count w - 8) in
    emit w (w_cache w ≫ w_count w)
  else Some w.

(** [while (bits_count >= 8)]; each round lowers the count by 8, so the count is fuel enough. *)
Fixpoint flush_octets (fuel : nat) (w : writer) : option writer :=
  match fuel with
  | O => Some w
  | S fuel =>
      if 8 <=? w_count w then
        let w := set_count w (w_count w - 8) in
        w ← emit w (w_cache w ≫ w_count w);
        flush_octets fuel w
      else Some w
  end.

Definition FLUSH_BITS (w : writer) : option writer :=
  w ← flush_octets (Z.to_nat (w_count w)) w;
  if 0 <? w_count w then emit w (w_cache w ≪ (8 - w_count w)) else Some w.

(** ** sbc_pack_frame_internal *)

(** Octets 0 to 2: (status, data); the status is 0, -4 or -5. *)
Definition header_octet (f : sbc_frame) (frame_subbands : Z) : Z :=
  let d := u8 ((frequency f .& 0x03) ≪ 6) in
  let d := d .| ((block_mode f .& 0x03) ≪ 4) in
  let d := d .| ((mode f .& 0x03) ≪ 2) in
  let d := d .| ((allocation f .& 0x01) ≪ 1) in
  if frame_subbands =? 8 then d .| 0x01 else d.

Definition pack_header (data : list Z) (f : sbc_frame) (frame_subbands : Z) : option (Z * list Z) :=
  data ← aset data 0 SBC_SYNCWORD;
  data ← aset data 1 (header_octet f frame_subbands);
  if negb ((frame_subbands =? 4) || (frame_subbands =? 8)) then Some (-4, data)
  else
    data ← aset data 2 (u8 (bitpool f));
    if mono_like (mode f) && (frame_subbands ≪ 4 <? bitpool f) then Some (-5, data)
    else if ((mode f =? SBC_MODE_STEREO) || (mode f =? SBC_MODE_JOINT_STEREO))
            && (frame_subbands ≪ 5 <? bitpool f) then Some (-5, data)
    else Some (0, data).

(** Writer, [crc_header] and [crc_pos] of the scale factor loops. *)
Record pack_state := mk_pack { pk_w : writer; pk_crc : list Z; pk_pos : Z }.

(** A scale factor goes to the stream and, shifted in from the right, to [crc_header]. *)
Definition pack_scale_factor (sf : Z) (s : pack_state) : option pack_state :=
  w ← PUT_BITS (pk_w s) (sf .& 0x0F) 4;
  h ← aget (pk_crc s) (pk_pos s ≫ 3);
  c ← aset (pk_crc s) (pk_pos s ≫ 3) (u8 (h ≪ 4) .| (sf .& 0x0F));
  Some (mk_pack w c (pk_pos s + 4)).

Definition pack_scale_factors (sfs : list (list Z)) (nch nsb : Z) (s : pack_state) : option pack_state :=
  for_loop (Z.to_nat nch) 0 (fun ch s =>
    for_loop (Z.to_nat nsb) 0 (fun sb s => pack_scale_factor (anth2 sfs ch sb) s) s) s.

(** Alignment of the last CRC octet. *)
Definition align_crc (crc : list Z) (pos : Z) : option (list Z) :=
  if pos mod 8 =? 0 then Some crc
  else h ← aget crc (pos ≫ 3); aset crc (pos ≫ 3) (u8 (h ≪ (8 - pos mod 8))).

Definition level (b sf : Z) : Z := u32 (((1 ≪ b) - 1) ≪ (32 - (sf + SCALE_OUT_BITS + 2))).
Definition sample_delta (sf : Z) : Z := u32 (1 ≪ (sf + SCALE_OUT_BITS + 1)).

(** [((uint64_t) levels * (sb_sample_delta + sb_sample_f)) >> 32] *)
Definition quantize (b sf s : Z) : Z := u32 ((level b sf * u32 (sample_delta sf + s)) ≫ 32).

Definition pack_samples (f : sbc_frame) (bits : list (list Z)) (nch nsb : Z) (w : writer) : option writer :=
  for_loop (Z.to_nat (blocks f)) 0 (fun blk w =>
    for_loop (Z.to_nat nch) 0 (fun ch w =>
      for_loop (Z.to_nat nsb) 0 (fun sb w =>
        if anth2 bits ch sb =? 0 then Some w
        else PUT_BITS w (quantize (anth2 bits ch sb) (anth2 (scale_factor f) ch sb)
                          (anth3 (sb_sample_f f) blk ch sb)) (anth2 bits ch sb)) w) w) w.

(** (result, data); [None] is an access outside [data]. [len] is not looked at. *)
Definition sbc_pack_frame_internal (data : list Z) (f : sbc_frame)
    (frame_subbands frame_channels joint : Z) : option (Z * list Z) :=
  '(e, data) ← pack_header data f frame_subbands;
  if e <? 0 then Some (e, data)
  else
    let crc := crc_header0 (header_octet f frame_subbands) (u8 (bitpool f)) in
    s ← (if mode f =? SBC_MODE_JOINT_STEREO then
           w ← PUT_BITS (mk_writer data 4 0 0) joint frame_subbands;
           c ← aset crc 2 (u8 joint);
           Some (mk_pack w c (16 + frame_subbands))
         else Some (mk_pack (mk_writer data 4 0 0) crc 16));
    s ← pack_scale_factors (scale_factor f) frame_channels frame_subbands s;
    crc ← align_crc (pk_crc s) (pk_pos s);
    data ← aset (w_data (pk_w s)) 3 (sbc_crc8 crc (pk_pos s));
    bits ← sbc_calculate_bits (mode f) (channels f) (allocation f) (frequency f) (bitpool f)
             (subbands f) (scale_factor f);
    w ← pack_samples f bits frame_channels frame_subbands
          (mk_writer data (w_ptr (pk_w s)) (w_cache (pk_w s)) (w_count (pk_w s)));
    w ← FLUSH_BITS w;
    Some (w_ptr w, w_data w).

Definition sbc_pack_frame (data : list Z) (f : sbc_frame) (joint : Z) : option (Z * list Z) :=
  if subbands f =? 4 then
    if channels f =? 1 then sbc_pack_frame_internal data f 4 1 joint
    else sbc_pack_frame_internal data f 4 2 joint
  else
    if channels f =? 1 then sbc_pack_frame_internal data f 8 1 joint
    else sbc_pack_frame_internal data f 8 2 joint.

(** ** The bits of a number, most significant first *)
Definition low_bits (n v : Z) : list bool :=
  map (fun k => Z.testbit v (n - 1 - Z.of_nat k)) (seq 0 (Z.to_nat n)).

Lemma low_bits_length n v : length (low_bits n v) = Z.to_nat n.
Proof. unfold low_bits. by rewrite length_map, length_seq. Qed.

Lemma low_bits_lookup n v i :
  (i < Z.to_nat n)%nat -> low_bits n v !! i = Some (Z.testbit v (n - 1 - Z.of_nat i)).
Proof. intros Hi. unfold low_bits. rewrite list_lookup_fmap, lookup_seq_lt by lia. done. Qed.

Lemma low_bits_0 v : low_bits 0 v = [].
Proof. done. Qed.

Lemma nib_low_bits v : nib v = low_bits 4 v.
Proof. done. Qed.

Lemma byte_bits_low_bits v : byte_bits v = low_bits 8 v.
Proof. done. Qed.

(** Lists of bits that agree position by position. *)
Lemma bits_ext (l : list bool) n v :
  length l = Z.to_nat n ->
  (forall i, 0 <= i < n -> l !! Z.to_nat i = Some (Z.testbit v (n - 1 - i))) -> l = low_bits n v.
Proof.
  intros Hl Hb. apply list_eq. intros i. destruct (decide (i < Z.to_nat n)%nat).
  - rewrite low_bits_lookup by done. rewrite <- Hb by lia. by rewrite Nat2Z.id.
  - rewrite !(proj2 (lookup_ge_None _ _)); [done|rewrite low_bits_length; lia|lia].
Qed.

Lemma low_bits_app n m v : 0 <= n -> 0 <= m -> low_bits n (v ≫ m) ++ low_bits m v = low_bits (n + m) v.
Proof.
  intros Hn Hm. apply bits_ext; [rewrite length_app, !low_bits_length; lia|]. intros i Hi.
  destruct (decide (i < n)).
  - rewrite lookup_app_l, low_bits_lookup by (rewrite ?low_bits_length; lia).
    rewrite Z.shiftr_spec by lia. do 2 f_equal. lia.
  - rewrite lookup_app_r, low_bits_length, low_bits_lookup by (rewrite ?low_bits_length; lia).
    do 2 f_equal. lia.
Qed.

Lemma low_bits_ext n v w : (forall k, 0 <= k < n -> Z.testbit v k = Z.testbit w k) -> low_bits n v = low_bits n w.
Proof.
  intros He. apply map_ext_in. intros k Hk%in_seq. apply He. lia.
Qed.

Lemma low_bits_wrapu n w v : n <= w -> low_bits n (wrapu w v) = low_bits n v.
Proof.
  intros Hn. apply low_bits_ext. intros k Hk. unfold wrapu. apply Z.mod_pow2_bits_low. lia.
Qed.

(** A number below [2^n] has no bit from [n] on. *)
Lemma small_testbit n v k : 0 <= v < 2 ^ n -> 0 <= n <= k -> Z.testbit v k = false.
Proof.
  intros Hv Hk. rewrite <- (Z.mod_small v (2 ^ n)) by done. apply Z.mod_pow2_bits_high. lia.
Qed.

Lemma bval_low_bits n v : 0 <= n -> 0 <= v < 2 ^ n -> bval (low_bits n v) = v.
Proof.
  intros Hn. rewrite <- (Z2Nat.id n) by done. generalize (Z.to_nat n). clear n Hn. intros n. revert v.
  induction n as [|n IH]; intros v Hv.
  - change (2 ^ Z.of_nat 0) with 1 in Hv. replace v with 0 by lia. done.
  - replace (Z.of_nat (S n)) with (Z.of_nat n + 1) in * by lia.
    rewrite <- (low_bits_app (Z.of_nat n) 1) by lia. unfold bval. rewrite fold_left_app.
    fold (bval (low_bits (Z.of_nat n) (v ≫ 1))). rewrite Z.pow_add_r in Hv by lia.
    rewrite IH; rewrite Z.shiftr_div_pow2 by lia; change (2 ^ 1) with 2 in *.
    + change (low_bits 1 v) with [Z.testbit v 0]. cbn [fold_left]. rewrite Z.bit0_mod.
      pose proof (Z.div_mod v 2). lia.
    + split; [apply Z.div_pos; lia|apply Z.div_lt_upper_bound; lia].
Qed.

(** ** What the writer has emitted: octets in memory after the header [hd], and the low bits
    of the cache *)
Definition out_at (hd tl : list Z) (w : writer) (bs : list bool) : Prop :=
  exists out, w_data w = hd ++ out ++ drop (length out) tl /\ (length out <= length tl)%nat
    /\ w_ptr w = zlen hd + zlen out /\ 0 <= w_count w /\ Forall is_u8 out
    /\ bs = bits_of out ++ low_bits (w_count w) (w_cache w).

Lemma insert_after (hd out rest : list Z) (x v : Z) :
  aset (hd ++ out ++ x :: rest) (zlen hd + zlen out) v = Some (hd ++ (out ++ [v]) ++ rest).
Proof.
  rewrite aset_in by (unfold zlen; rewrite !length_app; simpl; lia). f_equal.
  replace (Z.to_nat (zlen hd + zlen out)) with (length (hd ++ out) + 0)%nat
    by (rewrite length_app; unfold zlen; lia).
  rewrite app_assoc, insert_app_r. by rewrite <- !app_assoc.
Qed.

Lemma bits_of_app l k : bits_of (l ++ k) = bits_of l ++ bits_of k.
Proof. unfold bits_of. by rewrite map_app, concat_app. Qed.

(** Writing one more octet. *)
Lemma emit_ok hd tl w out v :
  w_data w = hd ++ out ++ drop (length out) tl -> (length out < length tl)%nat ->
  w_ptr w = zlen hd + zlen out -> Forall is_u8 out ->
  exists w', emit w v = Some w' /\ w_data w' = hd ++ (out ++ [u8 v]) ++ drop (length (out ++ [u8 v])) tl
    /\ w_ptr w' = zlen hd + zlen (out ++ [u8 v]) /\ w_cache w' = w_cache w /\ w_count w' = w_count w
    /\ Forall is_u8 (out ++ [u8 v]).
Proof.
  intros Hd Hl Hp Hu. unfold emit. rewrite Hd, Hp.
  destruct (lookup_lt_is_Some_2 tl (length out) Hl) as [x Hx].
  rewrite (drop_S tl x _ Hx), insert_after. cbn [mbind option_bind]. eexists. split; [reflexivity|].
  cbn. rewrite length_app. replace (length out + length [u8 v])%nat with (S (length out)) by (simpl; lia).
  split_and!; try done.
  - unfold zlen. rewrite length_app. simpl. lia.
  - apply Forall_app. split; [done|]. constructor; [apply u8_range|done].
Qed.

(** [bits_count -= 8; *data_ptr++ = bits_cache >> bits_count] moves eight bits from the cache. *)
Lemma drain_ok hd tl w bs :
  out_at hd tl w bs -> 8 <= w_count w -> zlen bs <= 8 * zlen tl ->
  exists w', emit (set_count w (w_count w - 8)) (w_cache w ≫ (w_count w - 8)) = Some w'
    /\ out_at hd tl w' bs /\ w_count w' = w_count w - 8 /\ w_cache w' = w_cache w.
Proof.
  intros (out & Hd & Hl & Hp & Hc & Hu & Hbs) H8 Hcap.
  assert (length out < length tl)%nat as Hlt.
  { rewrite Hbs in Hcap. unfold zlen in Hcap. rewrite length_app, bits_of_length, low_bits_length in Hcap. lia. }
  destruct (emit_ok hd tl (set_count w (w_count w - 8)) out (w_cache w ≫ (w_count w - 8)) Hd Hlt Hp Hu)
    as (w' & He & Hd' & Hp' & Hca & Hco & Hu').
  exists w'. split; [done|]. split; [|done]. eexists. split; [exact Hd'|].
  rewrite Hca, Hco. cbn. split_and!; try done; [rewrite length_app; simpl; lia|lia|].
  rewrite Hbs, bits_of_app, <- app_assoc. f_equal.
  change (bits_of [u8 (w_cache w ≫ (w_count w - 8))])
    with (byte_bits (u8 (w_cache w ≫ (w_count w - 8))) ++ []).
  rewrite app_nil_r, byte_bits_low_bits, low_bits_wrapu, low_bits_app by lia. f_equal. lia.
Qed.

Lemma cache_bits c n v cache :
  0 <= c -> 0 <= n -> c + n <= 32 -> 0 <= v < 2 ^ n ->
  low_bits (c + n) (u32 (v .| (cache ≪ n))) = low_bits c cache ++ low_bits n v.
Proof.
  intros Hc Hn Hcn Hv. rewrite low_bits_wrapu by lia. rewrite <- low_bits_app by lia. f_equal.
  - apply low_bits_ext. intros k Hk. rewrite Z.shiftr_spec, Z.lor_spec, Z.shiftl_spec by lia.
    rewrite (small_testbit n v) by lia. simpl. f_equal. lia.
  - apply low_bits_ext. intros k Hk. rewrite Z.lor_spec, Z.shiftl_spec_low by lia. apply orb_false_r.
Qed.

Lemma PUT_BITS_ok hd tl w bs v n :
  out_at hd tl w bs -> w_count w < 16 -> 0 <= n <= 16 -> 0 <= v < 2 ^ n ->
  zlen (bs ++ low_bits n v) <= 8 * zlen tl ->
  exists w', PUT_BITS w v n = Some w' /\ out_at hd tl w' (bs ++ low_bits n v) /\ w_count w' < 16.
Proof.
  intros (out & Hd & Hl & Hp & Hc & Hu & Hbs) H16 Hn Hv Hcap. unfold PUT_BITS. cbn.
  set (w1 := mk_writer _ _ _ _).
  assert (out_at hd tl w1 (bs ++ low_bits n v)) as Hw1.
  { exists out. split_and!; try done; [simpl; lia|]. cbn. rewrite cache_bits, Hbs by lia. by rewrite app_assoc. }
  destruct (Z.leb_spec 16 (w_count w + n)) as [Hge|Hlt]; [|by exists w1].
  destruct (drain_ok hd tl w1 _ Hw1) as (w2 & He2 & Hw2 & Hc2 & Hca2); [simpl; lia|done|].
  cbn in He2. rewrite He2. cbn [mbind option_bind].
  destruct (drain_ok hd tl w2 _ Hw2) as (w3 & He3 & Hw3 & Hc3 & _); [rewrite Hc2; simpl; lia|done|].
  cbn in Hc2, Hca2. rewrite Hc2 in *. exists w3. rewrite <- He3. split_and!; [|done|lia].
  f_equal.
Qed.

(** The flush leaves whole octets: the stream padded with zero bits. *)
Definition padding (bs : list bool) : Z := (- zlen bs) mod 8.

Lemma out_at_length hd tl w bs :
  out_at hd tl w bs -> exists k, 0 <= k /\ zlen bs = 8 * k + w_count w.
Proof.
  intros (out & _ & _ & _ & Hc & _ & ->). exists (zlen out). unfold zlen.
  rewrite length_app, bits_of_length, low_bits_length. lia.
Qed.

Lemma low_bits_shift c v n : 0 <= c -> 0 <= n -> low_bits (c + n) (v ≪ n) = low_bits c v ++ replicate (Z.to_nat n) false.
Proof.
  intros Hc Hn. rewrite <- low_bits_app by lia. f_equal.
  - apply low_bits_ext. intros k Hk. rewrite Z.shiftr_spec, Z.shiftl_spec by lia. f_equal. lia.
  - apply list_eq. intros i. destruct (decide (i < Z.to_nat n)%nat).
    + rewrite low_bits_lookup, lookup_replicate_2, Z.shiftl_spec_low by lia. done.
    + rewrite !(proj2 (lookup_ge_None _ _)); [done|rewrite length_replicate; lia|rewrite low_bits_length; lia].
Qed.

(** The first loop of the flush leaves less than an octet in the cache. *)
Lemma flush_octets_ok hd tl w bs :
  out_at hd tl w bs -> w_count w < 16 -> zlen bs <= 8 * zlen tl ->
  exists w', flush_octets (Z.to_nat (w_count w)) w = Some w' /\ out_at hd tl w' bs /\ w_count w' < 8.
Proof.
  intros Hw H16 Hcap. assert (0 <= w_count w) as H0 by (destruct Hw as (? & _ & _ & _ & ? & _); done).
  destruct (decide (w_count w < 8)) as [Hlt|Hge].
  - exists w. split_and!; try done. destruct (Z.to_nat (w_count w)); [done|]. simpl.
    destruct (Z.leb_spec 8 (w_count w)); [lia|done].
  - destruct (drain_ok hd tl w bs Hw ltac:(lia) Hcap) as (w1 & He & Hw1 & Hc1 & _).
    exists w1. split_and!; [|done|lia]. destruct (Z.to_nat (w_count w)) as [|[|n]] eqn:Hn; [lia..|].
    cbn [flush_octets]. destruct (Z.leb_spec 8 (w_count w)); [|lia]. cbn. rewrite He. cbn [mbind option_bind].
    destruct (Z.leb_spec 8 (w_count w1)); [lia|done].
Qed.

Lemma FLUSH_BITS_ok hd tl w bs :
  out_at hd tl w bs -> w_count w < 16 -> zlen bs + padding bs <= 8 * zlen tl ->
  exists w' out, FLUSH_BITS w = Some w' /\ w_data w' = hd ++ out ++ drop (length out) tl
    /\ w_ptr w' = zlen hd + zlen out /\ Forall is_u8 out
    /\ bits_of out = bs ++ replicate (Z.to_nat (padding bs)) false.
Proof.
  intros Hw H16 Hcap. unfold FLUSH_BITS, padding in *.
  pose proof (Z.mod_pos_bound (- zlen bs) 8 ltac:(lia)) as Hm.
  destruct (flush_octets_ok hd tl w bs Hw H16 ltac:(lia)) as (w1 & -> & Hw1 & H8). cbn [mbind option_bind].
  destruct (out_at_length _ _ _ _ Hw1) as (k & Hk & Hlen).
  destruct Hw1 as (out & Hd & Hl & Hp & Hc & Hu & Hbs).
  destruct (Z.ltb_spec 0 (w_count w1)) as [Hpos|Hz].
  - assert (length out < length tl)%nat as Hlt.
    { unfold zlen in *. rewrite Hbs, length_app, bits_of_length, low_bits_length in *. lia. }
    destruct (emit_ok hd tl w1 out (w_cache w1 ≪ (8 - w_count w1)) Hd Hlt Hp Hu)
      as (w2 & He & Hd2 & Hp2 & _ & _ & Hu2).
    exists w2, (out ++ [u8 (w_cache w1 ≪ (8 - w_count w1))]). split_and!; try done.
    rewrite bits_of_app, Hbs, <- app_assoc. f_equal.
    change (bits_of [u8 (w_cache w1 ≪ (8 - w_count w1))])
      with (byte_bits (u8 (w_cache w1 ≪ (8 - w_count w1))) ++ []).
    rewrite app_nil_r, byte_bits_low_bits, low_bits_wrapu by lia.
    replace 8 with (w_count w1 + (8 - w_count w1)) at 1 by lia. rewrite low_bits_shift by lia.
    do 3 f_equal. rewrite <- Hbs. apply Z.mod_unique with (- k - 1); lia.
  - exists w1, out. split_and!; try done. assert (w_count w1 = 0) as H0 by lia.
    rewrite Hlen, H0 in *. replace (- (8 * k + 0)) with ((- k) * 8) by lia.
    rewrite Z.mod_mul by lia. by rewrite Hbs, low_bits_0, !app_nil_r.
Qed.

(** ** Loops that emit: the Hoare rule for a loop each of whose rounds appends to the stream,
    as long as the whole stream fits *)
Lemma for_loop_emits {S} (R : S -> list bool -> Prop) body (g : Z -> list bool) n i s bs total :
  (forall j s bs, i <= j < i + Z.of_nat n -> R s bs -> (bs ++ g j) `prefix_of` total ->
     exists s', body j s = Some s' /\ R s' (bs ++ g j)) ->
  R s bs -> (bs ++ concat (map g (seqZ i (Z.of_nat n)))) `prefix_of` total ->
  exists s', for_loop n i body s = Some s' /\ R s' (bs ++ concat (map g (seqZ i (Z.of_nat n)))).
Proof.
  revert i s bs. induction n as [|n IH]; intros i s bs Hb Hs Hp; cbn [for_loop].
  - exists s. simpl. by rewrite app_nil_r.
  - rewrite seqZ_cons in * by lia. replace (Z.pred (Z.of_nat (Datatypes.S n))) with (Z.of_nat n) in * by lia.
    cbn [map concat] in *. rewrite app_assoc in *.
    destruct (Hb i s bs ltac:(lia) Hs) as (s1 & -> & Hs1).
    { etrans; [|exact Hp]. by apply prefix_app_r. }
    cbn [mbind option_bind]. replace (Z.succ i) with (i + 1) in * by lia. apply IH; try done.
    intros j t cs Hj. apply Hb. lia.
Qed.

Lemma concat_const_length {A B} (g : A -> list B) l c :
  Forall (fun x => zlen (g x) = c) l -> zlen (concat (map g l)) = c * zlen l.
Proof.
  unfold zlen. induction 1 as [|x l Hx _ IH]; [simpl; lia|]. cbn [map concat length].
  rewrite length_app. lia.
Qed.

Lemma concat_sum_length {A B} (g : A -> list B) l :
  zlen (concat (map g l)) = zsum (map (fun x => zlen (g x)) l).
Proof.
  unfold zlen. induction l as [|x l IH]; [done|]. cbn [map concat].
  rewrite zsum_cons, length_app, <- IH. lia.
Qed.

(** ** The CRC header *)
Definition crc_at (h : list Z) (pos : Z) (cs : list bool) : Prop :=
  length h = 11%nat /\ 0 <= pos <= 88 /\ pos mod 4 = 0 /\ zlen cs = pos
  /\ (forall j, pos <= 8 * j -> anth h j = 0)
  /\ exists h', align_crc h pos = Some h' /\ Forall is_u8 h'
       /\ length h' = 11%nat /\ bits_of h' = cs ++ replicate (Z.to_nat (88 - pos)) false.

Lemma anth_insert_eq l i v : 0 <= i < zlen l -> anth (<[Z.to_nat i := v]> l) i = v.
Proof. intros Hi. unfold anth. by rewrite aget_insert_eq. Qed.
Lemma anth_insert_ne l i j v : 0 <= i -> i <> j -> anth (<[Z.to_nat i := v]> l) j = anth l j.
Proof. intros Hi Hne. unfold anth. by rewrite aget_insert_ne. Qed.

Lemma land15 v : is_u4 v -> v .& 0x0F = v.
Proof.
  intros Hv. change 0x0F with (Z.ones 4). rewrite Z.land_ones by lia. apply Z.mod_small.
  unfold is_u4 in Hv. change (2 ^ 4) with 16. lia.
Qed.

(** Appending a nibble to an octet that holds one, or none. *)
Lemma shift_in_nibble h sf : is_u4 sf -> is_u8 (u8 (h ≪ 4) .| sf) /\ u8 (u8 (h ≪ 4) .| sf) = u8 (h ≪ 4) .| sf.
Proof.
  intros Hsf. assert (is_u8 (u8 (h ≪ 4) .| sf)) as H; [|split; [done|by apply u8_small]].
  assert (u8 (h ≪ 4) .& sf = 0) as Hand.
  { apply Z.bits_inj'. intros k Hk. rewrite Z.land_spec, Z.bits_0. destruct (decide (4 <= k)).
    - rewrite (u4_testbit sf) by done. apply andb_false_r.
    - unfold wrapu. rewrite Z.mod_pow2_bits_low, Z.shiftl_spec_low by lia. done. }
  rewrite <- Z.lxor_lor, <- Z.add_nocarry_lxor by done. unfold wrapu, is_u4, is_u8 in *.
  rewrite Z.shiftl_mul_pow2 by lia. change (2 ^ 8) with (2 ^ 4 * 2 ^ 4).
  rewrite Z.mul_mod_distr_r by lia. pose proof (Z.mod_pos_bound h (2 ^ 4) ltac:(lia)).
  change (2 ^ 4) with 16 in *. lia.
Qed.

Lemma crc_step_ok h pos cs sf :
  crc_at h pos cs -> is_u4 sf -> pos + 4 <= 88 ->
  exists c h', aget h (pos ≫ 3) = Some c /\ aset h (pos ≫ 3) (u8 (c ≪ 4) .| (sf .& 0x0F)) = Some h'
    /\ crc_at h' (pos + 4) (cs ++ nib sf).
Proof.
  intros (Hl & Hpos & H4 & Hcs & Hz & h' & Ha & Hu & Hl' & Hb) Hsf Hroom.
  rewrite shiftr3, land15 by (done || lia).
  pose proof (Z.div_mod pos 8 ltac:(lia)). pose proof (Z.mod_pos_bound pos 8 ltac:(lia)).
  pose proof (Z.div_mod pos 4 ltac:(lia)). pose proof (Z.div_pos pos 8 ltac:(lia) ltac:(lia)).
  assert (pos / 8 < 11) as Hq by (apply Z.div_lt_upper_bound; lia).
  assert (pos mod 8 = 0 \/ pos mod 8 = 4) as Hm8 by lia.
  rewrite (aget_anth h) by (unfold zlen; lia). do 2 eexists. split; [reflexivity|].
  rewrite aset_in by (unfold zlen; lia). split; [reflexivity|].
  set (v := u8 (anth h (pos / 8) ≪ 4) .| sf). destruct (shift_in_nibble (anth h (pos / 8)) sf Hsf) as [Hvu Hv8].
  fold v in Hvu, Hv8.
  assert ((pos + 4) mod 4 = 0) as H44 by (rewrite Z.add_mod, H4 by lia; done).
  unfold crc_at. rewrite length_insert. split_and!; try done; try lia.
  { unfold zlen in *. rewrite length_app, nib_length. lia. }
  { intros j Hj. rewrite anth_insert_ne by lia. apply Hz. lia. }
  unfold align_crc in *. rewrite shiftr3 in * by lia. destruct Hm8 as [Hm|Hm].
  - rewrite Hm in Ha. cbn [Z.eqb] in Ha. injection Ha as <-.
    assert (v = sf) as Hv
      by (unfold v; rewrite Hz by lia; change (u8 (0 ≪ 4)) with 0; apply Z.lor_0_l).
    clearbody v. subst v.
    assert ((pos + 4) / 8 = pos / 8 /\ (pos + 4) mod 8 = 4) as [-> ->]
      by (split; [symmetry; apply Z.div_unique with 4|symmetry; apply Z.mod_unique with (pos / 8)]; lia).
    cbn [Z.eqb]. rewrite aget_insert_eq by (unfold zlen; lia). cbn [mbind option_bind].
    rewrite aset_in by (unfold zlen; rewrite length_insert; lia). eexists. split; [reflexivity|].
    rewrite list_insert_insert_eq. split_and!; [apply Forall_insert; [done|apply u8_range]|by rewrite length_insert|].
    pose proof (crc_nibble h cs pos sf Hl ltac:(lia) H4 Hsf Hcs Hb) as Hn.
    rewrite Hz, Z.lor_0_l, Hm in Hn by lia. rewrite <- app_assoc. replace (8 - 4) with 4 by lia. change (4 - 0) with 4 in Hn. rewrite Hn. do 4 f_equal. lia.
  - rewrite Hm in Ha. cbn [Z.eqb Pos.eqb] in Ha. rewrite (aget_anth h) in Ha by (unfold zlen; lia).
    cbn [mbind option_bind] in Ha. rewrite aset_in in Ha by (unfold zlen; lia). injection Ha as <-.
    assert ((pos + 4) mod 8 = 0) as -> by (symmetry; apply Z.mod_unique with (pos / 8 + 1); lia).
    cbn [Z.eqb]. eexists. split; [reflexivity|].
    pose proof (crc_nibble _ cs pos sf Hl' ltac:(lia) H4 Hsf Hcs Hb) as Hn.
    rewrite list_insert_insert_eq, anth_insert_eq, Hm in Hn by (unfold zlen; lia).
    change (4 - 4) with 0 in Hn. rewrite Z.shiftl_0_r in Hn. change (8 - 4) with 4 in Hn. fold v in Hn.
    rewrite Hv8 in Hn. rewrite length_insert, <- app_assoc, Hn. split_and!; [|done|do 3 f_equal; lia].
    rewrite <- (list_insert_insert_eq h (Z.to_nat (pos / 8)) v (u8 (anth h (pos / 8) ≪ (8 - 4)))).
    by apply Forall_insert.
Qed.

(** ** The two emitting loops *)
Definition packed_at (hd tl : list Z) (b0 c0 : list bool) (s : pack_state) (x : list bool) : Prop :=
  out_at hd tl (pk_w s) (b0 ++ x) /\ w_count (pk_w s) < 16 /\ crc_at (pk_crc s) (pk_pos s) (c0 ++ x).

Definition scale_bits (f : sbc_frame) : list bool :=
  concat (map (fun ch => concat (map (fun sb => nib (anth2 (scale_factor f) ch sb)) (seqZ 0 (subbands f))))
    (seqZ 0 (channels f))).

Definition block_bits (f : sbc_frame) (bits : list (list Z)) (blk : Z) : list bool :=
  concat (map (fun ch => concat (map (fun sb =>
    low_bits (anth2 bits ch sb) (quantize (anth2 bits ch sb) (anth2 (scale_factor f) ch sb)
      (anth3 (sb_sample_f f) blk ch sb))) (seqZ 0 (subbands f)))) (seqZ 0 (channels f))).

Definition sample_bits (f : sbc_frame) (bits : list (list Z)) : list bool :=
  concat (map (block_bits f bits) (seqZ 0 (blocks f))).

Lemma prefix_length_le {A} (l k : list A) : l `prefix_of` k -> zlen l <= zlen k.
Proof. intros H. apply prefix_length in H. unfold zlen. lia. Qed.

Lemma zlen_app {A} (l k : list A) : zlen (l ++ k) = zlen l + zlen k.
Proof. unfold zlen. rewrite length_app. lia. Qed.

Lemma pack_scale_factor_ok hd tl b0 c0 total sf s x :
  packed_at hd tl b0 c0 s x -> is_u4 sf -> (x ++ nib sf) `prefix_of` total ->
  zlen b0 + zlen total <= 8 * zlen tl -> zlen c0 + zlen total <= 88 ->
  exists s', pack_scale_factor sf s = Some s' /\ packed_at hd tl b0 c0 s' (x ++ nib sf).
Proof.
  intros (Hw & H16 & Hc) Hsf Hp Hb Hk. apply prefix_length_le in Hp. rewrite zlen_app in Hp.
  change (zlen (nib sf)) with 4 in Hp. unfold pack_scale_factor. rewrite (land15 sf) by done.
  destruct (PUT_BITS_ok hd tl (pk_w s) (b0 ++ x) sf 4 Hw H16) as (w & -> & Hw' & H16');
    [lia|unfold is_u4 in Hsf; change (2 ^ 4) with 16; lia| |].
  { rewrite !zlen_app. change (zlen (low_bits 4 sf)) with 4. lia. }
  cbn [mbind option_bind].
  assert (zlen (c0 ++ x) = pk_pos s) as Hpos by apply Hc. rewrite zlen_app in Hpos.
  destruct (crc_step_ok _ _ _ sf Hc Hsf ltac:(lia)) as (c & h & -> & Hs & Hc').
  cbn [mbind option_bind]. rewrite (land15 sf) in Hs by done. rewrite Hs. cbn [mbind option_bind].
  eexists. split; [reflexivity|]. unfold packed_at. cbn. rewrite !app_assoc. done.
Qed.

Lemma pack_scale_factors_ok hd tl b0 c0 f s :
  packed_at hd tl b0 c0 s [] -> arr2_wf 8 is_u4 (scale_factor f) -> 0 <= channels f <= 2 -> 0 <= subbands f <= 8 ->
  zlen b0 + zlen (scale_bits f) <= 8 * zlen tl -> zlen c0 + zlen (scale_bits f) <= 88 ->
  exists s', pack_scale_factors (scale_factor f) (channels f) (subbands f) s = Some s'
    /\ packed_at hd tl b0 c0 s' (scale_bits f).
Proof.
  intros Hs Hwf Hch Hsb Hb Hc. unfold pack_scale_factors.
  destruct (for_loop_emits (packed_at hd tl b0 c0)
    (fun ch s => for_loop (Z.to_nat (subbands f)) 0 (fun sb s => pack_scale_factor (anth2 (scale_factor f) ch sb) s) s)
    (fun ch => concat (map (fun sb => nib (anth2 (scale_factor f) ch sb)) (seqZ 0 (subbands f))))
    (Z.to_nat (channels f)) 0 s [] (scale_bits f)) as (s' & Hl & Hp); rewrite ?Z2Nat.id in * by lia; try done; [|eauto].
  intros ch t x Hj Ht Hx.
  destruct (for_loop_emits (packed_at hd tl b0 c0)
    (fun sb s => pack_scale_factor (anth2 (scale_factor f) ch sb) s)
    (fun sb => nib (anth2 (scale_factor f) ch sb))
    (Z.to_nat (subbands f)) 0 t x (scale_bits f)) as (t' & Hl & Hp); rewrite ?Z2Nat.id in * by lia; try done; [|eauto].
  intros sb u y Hk Hu Hy. eapply pack_scale_factor_ok; try done. by apply anth2_u4.
Qed.

(** The quantiser in closed form; its result fits the bits of the sample. *)
Lemma quantize_eq b sf s :
  0 <= b <= 16 -> is_u4 sf -> - 2 ^ (sf + 16) <= s < 2 ^ (sf + 16) ->
  quantize b sf s = ((2 ^ b - 1) * (2 ^ (sf + 16) + s)) / 2 ^ (sf + 17)
  /\ 0 <= quantize b sf s < 2 ^ b.
Proof.
  intros Hb Hsf Hs. unfold is_u4 in Hsf. unfold quantize, level, sample_delta, SCALE_OUT_BITS.
  assert (2 ^ b <= 2 ^ 16) as Hb16 by (apply Z.pow_le_mono_r; lia).
  assert (2 ^ 0 <= 2 ^ b) as Hb0 by (apply Z.pow_le_mono_r; lia).
  assert (2 ^ (sf + 16) <= 2 ^ 31) as Hd31 by (apply Z.pow_le_mono_r; lia).
  assert (2 ^ (sf + 17) = 2 * 2 ^ (sf + 16)) as H17
    by (rewrite <- Z.pow_succ_r by lia; f_equal; lia).
  assert (2 ^ (15 - sf) <= 2 ^ 15) as Hl15 by (apply Z.pow_le_mono_r; lia).
  assert (0 < 2 ^ (15 - sf)) as Hlp by (apply Z.pow_pos_nonneg; lia).
  assert (2 ^ 32 = 2 ^ (sf + 17) * 2 ^ (15 - sf)) as H32 by (rewrite <- Z.pow_add_r by lia; f_equal; lia).
  rewrite !Z.shiftl_1_l, Z.shiftl_mul_pow2, Z.shiftr_div_pow2 by lia.
  replace (32 - (sf + 15 + 2)) with (15 - sf) by lia. replace (sf + 15 + 1) with (sf + 16) by lia.
  change (2 ^ 16) with 65536 in *. change (2 ^ 31) with 2147483648 in *. change (2 ^ 15) with 32768 in *.
  change (2 ^ 0) with 1 in *.
  rewrite (wrapu_small 32 ((2 ^ b - 1) * 2 ^ (15 - sf))) by (change (2 ^ 32) with 4294967296; nia).
  rewrite (wrapu_small 32 (2 ^ (sf + 16))) by (change (2 ^ 32) with 4294967296; lia).
  rewrite (wrapu_small 32 (2 ^ (sf + 16) + s)) by (change (2 ^ 32) with 4294967296; lia).
  rewrite H32. replace ((2 ^ b - 1) * 2 ^ (15 - sf) * (2 ^ (sf + 16) + s))
    with ((2 ^ b - 1) * (2 ^ (sf + 16) + s) * 2 ^ (15 - sf)) by lia.
  rewrite Z.div_mul_cancel_r by lia.
  assert (0 <= (2 ^ b - 1) * (2 ^ (sf + 16) + s) / 2 ^ (sf + 17) < 2 ^ b) as Hr.
  { split; [apply Z.div_pos; nia|]. apply Z.div_lt_upper_bound; [lia|]. nia. }
  rewrite wrapu_small by (change (2 ^ 32) with 4294967296; lia). done.
Qed.

Definition samples_in_range (f : sbc_frame) : Prop :=
  forall blk ch sb, 0 <= blk < blocks f -> 0 <= ch < channels f -> 0 <= sb < subbands f ->
    - 2 ^ (anth2 (scale_factor f) ch sb + 16) <= anth3 (sb_sample_f f) blk ch sb
      < 2 ^ (anth2 (scale_factor f) ch sb + 16).

Lemma pack_samples_ok hd tl f bits w bs :
  out_at hd tl w bs -> w_count w < 16 -> arr2_wf 8 is_u4 (scale_factor f) ->
  rows_ok (channels f) (subbands f) bits -> samples_in_range f ->
  0 <= blocks f -> 0 <= channels f -> 0 <= subbands f ->
  zlen bs + zlen (sample_bits f bits) <= 8 * zlen tl ->
  exists w', pack_samples f bits (channels f) (subbands f) w = Some w'
    /\ out_at hd tl w' (bs ++ sample_bits f bits) /\ w_count w' < 16.
Proof.
  intros Hw H16 Hwf Hrows Hrange Hbl Hch Hsb Hcap. unfold pack_samples.
  set (R := fun (w : writer) x => out_at hd tl w x /\ w_count w < 16).
  set (total := bs ++ sample_bits f bits).
  destruct (for_loop_emits R (fun blk w =>
      for_loop (Z.to_nat (channels f)) 0 (fun ch w =>
        for_loop (Z.to_nat (subbands f)) 0 (fun sb w =>
          if anth2 bits ch sb =? 0 then Some w
          else PUT_BITS w (quantize (anth2 bits ch sb) (anth2 (scale_factor f) ch sb)
                 (anth3 (sb_sample_f f) blk ch sb)) (anth2 bits ch sb)) w) w)
    (block_bits f bits) (Z.to_nat (blocks f)) 0 w bs total) as (w' & Hl & Hp);
    rewrite ?Z2Nat.id in * by lia; try done; [|eauto].
  intros blk t x Hblk Ht Hx. unfold block_bits.
  refine ((fun H => _) (for_loop_emits R (fun ch w =>
        for_loop (Z.to_nat (subbands f)) 0 (fun sb w =>
          if anth2 bits ch sb =? 0 then Some w
          else PUT_BITS w (quantize (anth2 bits ch sb) (anth2 (scale_factor f) ch sb)
                 (anth3 (sb_sample_f f) blk ch sb)) (anth2 bits ch sb)) w)
    (fun ch => concat (map (fun sb => low_bits (anth2 bits ch sb)
       (quantize (anth2 bits ch sb) (anth2 (scale_factor f) ch sb) (anth3 (sb_sample_f f) blk ch sb)))
       (seqZ 0 (subbands f)))) (Z.to_nat (channels f)) 0 t x total)).
  rewrite !Z2Nat.id in H by lia. apply H; try done. clear H.
  intros ch u y Hc Hu Hy.
  refine ((fun H => _) (for_loop_emits R (fun sb w =>
          if anth2 bits ch sb =? 0 then Some w
          else PUT_BITS w (quantize (anth2 bits ch sb) (anth2 (scale_factor f) ch sb)
                 (anth3 (sb_sample_f f) blk ch sb)) (anth2 bits ch sb))
    (fun sb => low_bits (anth2 bits ch sb)
       (quantize (anth2 bits ch sb) (anth2 (scale_factor f) ch sb) (anth3 (sb_sample_f f) blk ch sb)))
       (Z.to_nat (subbands f)) 0 u y total)).
  rewrite !Z2Nat.id in H by lia. apply H; try done. clear H.
  intros sb v z Hs [Hv Hv16] Hz. pose proof (anth2_bits_range bits (channels f) (subbands f) Hrows ch sb) as Hbit.
  destruct (Z.eqb_spec (anth2 bits ch sb) 0) as [->|Hne].
  { exists v. rewrite low_bits_0, app_nil_r. done. }
  pose proof (anth2_u4 _ ch sb Hwf) as Hsf.
  destruct (quantize_eq (anth2 bits ch sb) _ _ Hbit Hsf (Hrange blk ch sb ltac:(lia) ltac:(lia) ltac:(lia))) as [_ Hq].
  apply PUT_BITS_ok; try done. apply prefix_length_le in Hz. unfold total in Hz. rewrite (zlen_app bs) in Hz. lia.
Qed.

(** ** The packed frame *)

(** What the encoder guarantees of the frame it packs. *)
Record enc_ok (f : sbc_frame) : Prop := {
  en_header : header_ok f;
  en_block_mode : 0 <= block_mode f <= 3;
  en_blocks : blocks f = 4 + 4 * block_mode f;
  en_allocation : allocation f = 0 \/ allocation f = 1;
  en_subband_mode : subband_mode f = if subbands f =? 8 then 1 else 0;
  en_bitpool : is_u8 (bitpool f);
  en_scale : arr2_wf 8 is_u4 (scale_factor f);
  en_samples : samples_in_range f
}.

Definition joint_field (f : sbc_frame) (j : Z) : list bool :=
  if mode f =? SBC_MODE_JOINT_STEREO then low_bits (subbands f) j else [].

(** The bits after the fourth octet, and the octets the CRC covers. *)
Definition payload (f : sbc_frame) (bits : list (list Z)) (j : Z) : list bool :=
  joint_field f j ++ scale_bits f ++ sample_bits f bits.
Definition packed_crc (f : sbc_frame) (j : Z) : Z :=
  crc_bits 0x0f (byte_bits (header_octet f (subbands f)) ++ byte_bits (bitpool f)
    ++ joint_field f j ++ scale_bits f).

Lemma header_octet_u8 f nsb : is_u8 (header_octet f nsb).
Proof.
  unfold header_octet.
  pose proof (land_ones_bound (frequency f) 2 3 ltac:(lia) eq_refl) as H1.
  pose proof (land_ones_bound (block_mode f) 2 3 ltac:(lia) eq_refl) as H2.
  pose proof (land_ones_bound (mode f) 2 3 ltac:(lia) eq_refl) as H3.
  pose proof (land_ones_bound (allocation f) 1 1 ltac:(lia) eq_refl) as H4.
  change (2 ^ 2) with 4 in *. change (2 ^ 1) with 2 in *.
  generalize dependent (frequency f .& 3). generalize dependent (block_mode f .& 3).
  generalize dependent (mode f .& 3). generalize dependent (allocation f .& 1).
  intros a Ha m Hm b Hb q Hq.
  assert (a = 0 \/ a = 1) by lia. assert (m = 0 \/ m = 1 \/ m = 2 \/ m = 3) by lia.
  assert (b = 0 \/ b = 1 \/ b = 2 \/ b = 3) by lia. assert (q = 0 \/ q = 1 \/ q = 2 \/ q = 3) by lia.
  repeat match goal with H : _ \/ _ |- _ => destruct H end; subst; destruct (nsb =? 8); by_compute.
Qed.

Lemma crc_header0_zero d1 d2 j : 2 <= j -> anth (crc_header0 d1 d2) j = 0.
Proof.
  intros Hj. unfold anth, aget, crc_header0. rewrite (proj2 (Z.leb_le 0 j)) by lia.
  change (d1 :: d2 :: replicate 9 0) with ([d1; d2] ++ replicate 9 0).
  rewrite lookup_app_r by (simpl; lia). simpl length. destruct (decide (Z.to_nat j - 2 < 9)%nat).
  - by rewrite lookup_replicate_2.
  - by rewrite (proj2 (lookup_ge_None _ _)) by (rewrite length_replicate; lia).
Qed.

Lemma crc_start_ok d1 d2 :
  is_u8 d1 -> is_u8 d2 -> crc_at (crc_header0 d1 d2) 16 (byte_bits d1 ++ byte_bits d2).
Proof.
  intros H1 H2. split_and!; try done; [intros j Hj; apply crc_header0_zero; lia|].
  eexists. split; [reflexivity|]. split_and!; [|done|reflexivity].
  constructor; [done|]. constructor; [done|by_compute].
Qed.

Lemma crc_joint_ok d1 d2 nsb j :
  is_u8 d1 -> is_u8 d2 -> nsb = 4 \/ nsb = 8 -> 0 <= j < 2 ^ nsb ->
  exists h, aset (crc_header0 d1 d2) 2 (u8 j) = Some h
    /\ crc_at h (16 + nsb) ((byte_bits d1 ++ byte_bits d2) ++ low_bits nsb j).
Proof.
  intros H1 H2 Hn Hj. rewrite aset_in by (unfold zlen; simpl; lia). eexists. split; [reflexivity|].
  pose proof (crc_start_ok d1 d2 H1 H2) as Hs. destruct Hn as [-> | ->].
  - assert (is_u4 j) as Hj4 by (unfold is_u4; change (2 ^ 4) with 16 in Hj; lia).
    destruct (crc_step_ok _ _ _ j Hs Hj4 ltac:(lia)) as (c & h & Hc & Ha & Hh).
    injection Hc as <-. injection Ha as <-.
    rewrite Z.lor_0_l, land15 in Hh by done. rewrite u8_small by (unfold is_u8, is_u4 in *; lia). exact Hh.
  - change (2 ^ 8) with 256 in Hj. rewrite u8_small by done.
    split_and!; try done.
    + intros i Hi. rewrite anth_insert_ne, crc_header0_zero by lia. done.
    + eexists. split; [reflexivity|]. split_and!; [|done|reflexivity].
      apply Forall_insert; [|done]. constructor; [done|]. constructor; [done|by_compute].
Qed.

Lemma mode_cases f : header_ok f ->
  (mode f =? SBC_MODE_STEREO) || (mode f =? SBC_MODE_JOINT_STEREO) = negb (mono_like (mode f)).
Proof. intros [_ Hm _ _ _ _]. unfold mono_like, SBC_MODE_MONO, SBC_MODE_DUAL_CHANNEL, SBC_MODE_STEREO, SBC_MODE_JOINT_STEREO in *. zcases; (done || lia). Qed.

Lemma pack_header_ok x0 x1 x2 x3 tl f :
  header_ok f -> is_u8 (bitpool f) ->
  pack_header (x0 :: x1 :: x2 :: x3 :: tl) f (subbands f)
  = Some (0, SBC_SYNCWORD :: header_octet f (subbands f) :: bitpool f :: x3 :: tl).
Proof.
  intros Hh Hbp. pose proof (hd_pool f Hh) as Hpool. unfold pool_ok in Hpool.
  unfold pack_header. rewrite !aset_in by (unfold zlen; simpl; lia). cbn [mbind option_bind].
  rewrite aset_in by (unfold zlen; simpl; lia). cbn [mbind option_bind].
  rewrite mode_cases, u8_small by done. rewrite !Z.shiftl_mul_pow2 by lia.
  change (2 ^ 4) with 16. change (2 ^ 5) with 32.
  assert ((subbands f =? 4) || (subbands f =? 8) = true) as -> by (destruct (hd_subbands f Hh) as [-> | ->]; done).
  cbn [negb]. rewrite aset_in by (unfold zlen; simpl; lia). cbn [mbind option_bind].
  destruct (mono_like (mode f)); cbn [andb negb]; zcases; (lia || done).
Qed.

(** ** Lengths *)
Lemma map_aget {A} (d : A) (l : list A) : map (fun i => default d (aget l i)) (seqZ 0 (zlen l)) = l.
Proof.
  apply list_eq. intros i. destruct (decide (i < length l)%nat) as [Hi|Hi].
  - rewrite list_lookup_fmap, (lookup_seqZ_lt 0 (zlen l) i) by (unfold zlen; lia). cbn [fmap option_fmap option_map].
    destruct (lookup_lt_is_Some_2 l i Hi) as [x Hx]. unfold aget.
    rewrite (proj2 (Z.leb_le _ _)) by lia. replace (Z.to_nat (0 + Z.of_nat i)) with i by lia. by rewrite Hx.
  - rewrite !(proj2 (lookup_ge_None _ _)); [done|lia|]. rewrite length_map, length_seqZ. unfold zlen. lia.
Qed.

Lemma scale_bits_length f : 0 <= channels f -> 0 <= subbands f -> zlen (scale_bits f) = scale_size f.
Proof.
  intros Hc Hs. unfold scale_bits, scale_size.
  rewrite (concat_const_length _ _ (4 * subbands f)).
  - unfold zlen. rewrite length_seqZ. lia.
  - apply Forall_forall. intros ch _. rewrite (concat_const_length _ _ 4); [unfold zlen; rewrite length_seqZ; lia|].
    by apply Forall_forall.
Qed.

Lemma block_bits_length f bits blk :
  rows_ok (channels f) (subbands f) bits -> zlen (block_bits f bits blk) = zsum (map zsum bits).
Proof.
  intros Hrows. pose proof Hrows as [Hl Hall]. unfold block_bits. rewrite concat_sum_length. f_equal.
  trans (map zsum (map (fun i => default [] (aget bits i)) (seqZ 0 (zlen bits)))); [|by rewrite map_aget].
  rewrite map_map, Hl. apply map_ext_in. intros ch Hch.
  apply list_elem_of_In, elem_of_seqZ in Hch.
  destruct (row_of bits _ _ Hrows ch ltac:(lia)) as (row & Hr & Hlr & Hok). rewrite Hr. cbn [from_option id].
  rewrite concat_sum_length. f_equal.
  trans (map (fun i => default 0 (aget row i)) (seqZ 0 (zlen row))); [|by rewrite map_aget].
  rewrite Hlr. apply map_ext.
  intros sb. unfold anth2. rewrite Hr. cbn [from_option id]. unfold zlen. rewrite low_bits_length, Z2Nat.id; [done|].
  apply (anth_Forall (fun b => 0 <= b)); [lia|]. eapply Forall_impl; [|exact Hok]. simpl. lia.
Qed.

Lemma payload_length f bits j :
  header_ok f -> rows_ok (channels f) (subbands f) bits -> pool_spent (mode f) (bitpool f) bits ->
  zlen (payload f bits j) = frame_bits f - 32.
Proof.
  intros Hh Hrows Hsp. destruct (header_bounds f Hh) as (? & ? & ? & _). unfold payload, joint_field, sample_bits.
  rewrite !zlen_app, scale_bits_length by lia.
  rewrite (concat_const_length _ _ (zsum (map zsum bits)))
    by (apply Forall_forall; intros; by apply block_bits_length).
  rewrite (pool_spent_total _ _ _ _ _ Hrows Hsp). unfold frame_bits, scale_start.
  replace (zlen (seqZ 0 (blocks f))) with (blocks f) by (unfold zlen; rewrite length_seqZ; lia).
  case_match; unfold zlen; rewrite ?low_bits_length; simpl length; nia.
Qed.

Definition packed_length (f : sbc_frame) : Z := (frame_bits f + 7) / 8.

Definition pack_start (f : sbc_frame) (joint : Z) (data : list Z) : option pack_state :=
  if mode f =? SBC_MODE_JOINT_STEREO then
    w ← PUT_BITS (mk_writer data 4 0 0) joint (subbands f);
    c ← aset (crc_header0 (header_octet f (subbands f)) (u8 (bitpool f))) 2 (u8 joint);
    Some (mk_pack w c (16 + subbands f))
  else Some (mk_pack (mk_writer data 4 0 0) (crc_header0 (header_octet f (subbands f)) (u8 (bitpool f))) 16).

Lemma pack_start_ok f j hd tl :
  header_ok f -> is_u8 (bitpool f) -> 0 <= j < 2 ^ subbands f -> zlen hd = 4 ->
  zlen (joint_field f j) <= 8 * zlen tl ->
  exists s, pack_start f j (hd ++ tl) = Some s
    /\ packed_at hd tl (joint_field f j)
         (byte_bits (header_octet f (subbands f)) ++ byte_bits (bitpool f) ++ joint_field f j) s [].
Proof.
  intros Hh Hbp Hj Hhd Hcap. unfold pack_start, packed_at. rewrite (u8_small (bitpool f)) by done.
  unfold joint_field in *.
  assert (out_at hd tl (mk_writer (hd ++ tl) 4 0 0) []) as H0.
  { exists []. split_and!; try done; simpl; [lia|unfold zlen in *; simpl; lia]. }
  destruct (Z.eqb_spec (mode f) SBC_MODE_JOINT_STEREO) as [Hm|Hm].
  - destruct (PUT_BITS_ok hd tl _ [] j (subbands f) H0) as (w & -> & Hw & H16);
      [simpl; lia|destruct (hd_subbands f Hh); lia|lia|by rewrite app_nil_l|]. cbn [mbind option_bind].
    destruct (crc_joint_ok (header_octet f (subbands f)) (bitpool f) (subbands f) j
      (header_octet_u8 _ _) Hbp (hd_subbands f Hh) Hj) as (h & -> & Hc). cbn [mbind option_bind].
    eexists. split; [reflexivity|]. cbn [pk_w pk_crc pk_pos]. rewrite !app_nil_r. split_and!; [exact Hw|done|]. by rewrite app_assoc.
  - eexists. split; [reflexivity|]. cbn [pk_w pk_crc pk_pos w_count]. rewrite !app_nil_r.
    split_and!; [done|lia|]. by apply crc_start_ok, Hbp; apply header_octet_u8.
Qed.

Lemma out_at_header hd hd' tl w bs i v :
  out_at hd tl w bs -> aset hd i v = Some hd' ->
  aset (w_data w) i v = Some (hd' ++ drop (length hd) (w_data w))
  /\ out_at hd' tl (mk_writer (hd' ++ drop (length hd) (w_data w)) (w_ptr w) (w_cache w) (w_count w)) bs.
Proof.
  intros (out & Hd & Hl & Hp & Hc & Hu & Hbs) Ha. pose proof (aset_length _ _ _ _ Ha) as Hlen.
  unfold aset in Ha. destruct ((0 <=? i) && (i <? Z.of_nat (length hd))) eqn:Hi; [|done].
  apply andb_true_iff in Hi. injection Ha as <-. rewrite Hd, drop_app_length. split.
  - rewrite aset_in by (unfold zlen; rewrite length_app; lia). f_equal. rewrite insert_app_l by lia. done.
  - exists out. split_and!; try done. cbn. unfold zlen in *. by rewrite length_insert.
Qed.

Lemma crc_at_value h pos cs :
  crc_at h pos cs -> exists h', align_crc h pos = Some h' /\ sbc_crc8 h' pos = crc_bits 0x0f cs.
Proof.
  intros (_ & Hpos & _ & Hcs & _ & h' & Ha & Hu & Hl & Hb). exists h'. split; [done|].
  rewrite sbc_crc8_bits by (done || (unfold zlen; lia)). f_equal. rewrite Hb.
  apply take_app_length'. unfold zlen in Hcs. lia.
Qed.

Lemma sbc_pack_frame_internal_eq data f j :
  header_ok f -> sbc_pack_frame data f j = sbc_pack_frame_internal data f (subbands f) (channels f) j.
Proof.
  intros Hh. unfold sbc_pack_frame. pose proof (hd_channels f Hh) as Hc.
  destruct (hd_subbands f Hh) as [Hs|Hs]; rewrite Hs; cbn [Z.eqb Pos.eqb];
    destruct (mode f =? SBC_MODE_MONO); rewrite Hc; done.
Qed.

Lemma frame_bits_payload f bits j :
  header_ok f -> rows_ok (channels f) (subbands f) bits -> pool_spent (mode f) (bitpool f) bits ->
  zlen (payload f bits j) + padding (payload f bits j) = 8 * (packed_length f - 4).
Proof.
  intros Hh Hr Hp. pose proof (payload_length f bits j Hh Hr Hp) as Hl. unfold padding, packed_length. rewrite Hl.
  pose proof (Z.div_mod (frame_bits f + 7) 8 ltac:(lia)).
  pose proof (Z.mod_pos_bound (frame_bits f + 7) 8 ltac:(lia)).
  replace ((- (frame_bits f - 32)) mod 8) with (7 - (frame_bits f + 7) mod 8); [lia|].
  apply Z.mod_unique with (- ((frame_bits f + 7) / 8) + 4); lia.
Qed.

Definition packed_octets (f : sbc_frame) (j : Z) (out : list Z) : list Z :=
  SBC_SYNCWORD :: header_octet f (subbands f) :: bitpool f :: packed_crc f j :: out.

Lemma sbc_pack_frame_spec data f j :
  enc_ok f -> 0 <= j < 2 ^ subbands f -> packed_length f <= zlen data ->
  exists bits out,
    sbc_calculate_bits (mode f) (channels f) (allocation f) (frequency f) (bitpool f) (subbands f)
      (scale_factor f) = Some bits
    /\ rows_ok (channels f) (subbands f) bits /\ pool_spent (mode f) (bitpool f) bits
    /\ sbc_pack_frame data f j
       = Some (packed_length f, packed_octets f j out ++ drop (Z.to_nat (packed_length f)) data)
    /\ Forall is_u8 out /\ 4 + zlen out = packed_length f
    /\ bits_of out = payload f bits j ++ replicate (Z.to_nat (padding (payload f bits j))) false.
Proof.
  intros Hen Hj Hlen. pose proof (en_header f Hen) as Hh. pose proof (en_bitpool f Hen) as Hbp.
  destruct (header_bounds f Hh) as (Hch & Hsb & Hbl & Hbp0 & Hsz & _ & _ & H88).
  destruct (header_calc_bits f Hh (scale_rows_ok _ (en_scale f Hen))) as (bits & Hcb & Hrows & Hsp).
  pose proof (payload_length f bits j Hh Hrows Hsp) as Hpl.
  pose proof (frame_bits_payload f bits j Hh Hrows Hsp) as Hpad.
  assert (zlen (joint_field f j) = scale_start f - 32) as Hjl.
  { unfold joint_field, scale_start. case_match; unfold zlen; rewrite ?low_bits_length; simpl length; lia. }
  pose proof (frame_bits_ge f Hh) as Hge. rewrite sbc_pack_frame_internal_eq by done.
  assert (0 <= padding (payload f bits j)) as Hpad0 by (apply Z.mod_pos_bound; lia).
  destruct data as [|x0 [|x1 [|x2 [|x3 tl]]]]; try (unfold zlen in *; simpl in *; unfold scale_start in *; lia).
  assert (zlen (x0 :: x1 :: x2 :: x3 :: tl) = 4 + zlen tl) as Htl by (unfold zlen; simpl; lia).
  pose proof (scale_bits_length f ltac:(lia) ltac:(lia)) as Hsl.
  unfold sbc_pack_frame_internal. rewrite pack_header_ok by done. cbn [mbind option_bind Z.ltb Z.compare].
  set (hd := [SBC_SYNCWORD; header_octet f (subbands f); bitpool f; x3]).
  change (SBC_SYNCWORD :: _ :: _ :: x3 :: tl) with (hd ++ tl).
  destruct (pack_start_ok f j hd tl Hh Hbp Hj eq_refl) as (s & Hst & Hs); [lia|].
  unfold pack_start in Hst. rewrite Hst. clear Hst. cbn [mbind option_bind].
  destruct (pack_scale_factors_ok hd tl _ _ f s Hs (en_scale f Hen)) as (s1 & -> & Hw & H16 & Hcrc); [lia..| |].
  { rewrite !zlen_app, Hsl, Hjl. change (zlen (byte_bits _)) with 8. unfold scale_size in *. lia. }
  cbn [mbind option_bind]. destruct (crc_at_value _ _ _ Hcrc) as (h' & -> & Hcv). cbn [mbind option_bind].
  rewrite <- !app_assoc in Hcv. fold (packed_crc f j) in Hcv. rewrite Hcv.
  destruct (out_at_header hd _ tl (pk_w s1) _ 3 (packed_crc f j) Hw eq_refl) as [-> Hw1].
  cbn [mbind option_bind]. rewrite Hcb. cbn [mbind option_bind].
  assert (zlen (payload f bits j) = zlen (joint_field f j ++ scale_bits f) + zlen (sample_bits f bits)) as Hps.
  { unfold payload. rewrite app_assoc, zlen_app. done. }
  destruct (pack_samples_ok _ _ f bits _ _ Hw1 H16 (en_scale f Hen) Hrows (en_samples f Hen)) as (w2 & -> & Hw2 & H162);
    [lia..|]. cbn [mbind option_bind].
  rewrite <- app_assoc in Hw2. fold (payload f bits j) in Hw2.
  destruct (FLUSH_BITS_ok _ _ w2 _ Hw2 H162) as (w3 & out & -> & Hd3 & Hp3 & Hu & Hbits); [lia|]. cbn [mbind option_bind].
  assert (4 + zlen out = packed_length f) as Hout.
  { assert (8 * zlen out = zlen (payload f bits j) + padding (payload f bits j)) as H8; [|lia].
    apply (f_equal zlen) in Hbits. rewrite zlen_app in Hbits. unfold zlen in *.
    rewrite bits_of_length, length_replicate in Hbits. lia. }
  exists bits, out. split_and!; try done. do 2 f_equal; [rewrite Hp3; unfold hd, zlen in *; simpl; lia|].
  rewrite Hd3. replace (Z.to_nat (packed_length f)) with (4 + length out)%nat by (unfold zlen in *; lia). done.
Qed.

(** ** Properties *)

(** C5. The packer writes, for every frame the encoder produces, exactly the octets of its bit
    stream: sync word, header octets, the CRC of the header, joint field and scale factors,
    then joint field, scale factors and quantised samples most significant bit first, padded
    with zero bits to an octet. It returns their number, which depends on the header only, and
    changes nothing after them. *)
Theorem sbc_pack_frame_correct (data : list Z) (f : sbc_frame) (j : Z) :
  enc_ok f -> 0 <= j < 2 ^ subbands f -> packed_length f <= zlen data ->
  exists bits out,
    sbc_calculate_bits (mode f) (channels f) (allocation f) (frequency f) (bitpool f) (subbands f)
      (scale_factor f) = Some bits
    /\ sbc_pack_frame data f j
       = Some (packed_length f, packed_octets f j out ++ drop (Z.to_nat (packed_length f)) data)
    /\ Forall is_u8 out /\ 4 + zlen out = packed_length f
    /\ bits_of out = payload f bits j ++ replicate (Z.to_nat (padding (payload f bits j))) false.
Proof.
  intros Hen Hj Hlen.
  destruct (sbc_pack_frame_spec data f j Hen Hj Hlen) as (bits & out & ? & _ & _ & ? & ? & ? & ?).
  by exists bits, out.
Qed.

(** A mono frame of 4 blocks and 4 subbands with bitpool 16. *)
Definition enc_frame : sbc_frame :=
  mk_frame SBC_FREQ_16000 SBC_BLK_4 4 SBC_MODE_MONO 1 SBC_AM_LOUDNESS SBC_SB_4 4 16 0 0 0
    [[3; 1; 0; 2; 0; 0; 0; 0]; [0; 0; 0; 0; 0; 0; 0; 0]]
    (replicate 16 [[400000; -70000; 65535; -123456; 0; 0; 0; 0]; [0; 0; 0; 0; 0; 0; 0; 0]])
    zeros3 (replicate 2 (replicate 128 0)).

Lemma enc_frame_ok : enc_ok enc_frame.
Proof.
  split; try by_compute.
  - split; vm_compute; intuition discriminate.
  - intros blk ch sb Hb Hc Hs. change (blocks enc_frame) with 4 in Hb. change (channels enc_frame) with 1 in Hc.
    change (subbands enc_frame) with 4 in Hs. replace ch with 0 by lia.
    assert (blk = 0 \/ blk = 1 \/ blk = 2 \/ blk = 3) by lia.
    assert (sb = 0 \/ sb = 1 \/ sb = 2 \/ sb = 3) by lia.
    repeat match goal with H : _ \/ _ |- _ => destruct H end; subst; vm_compute; by split.
Qed.

Example enc_frame_packs :
  (fst <$> sbc_pack_frame (replicate 32 7) enc_frame 0) = Some 14.
Proof. vm_compute. reflexivity. Qed.

Lemma sbc_pack_frame_correct_witness :
  exists bits out,
    sbc_calculate_bits 0 1 0 0 16 4 (scale_factor enc_frame) = Some bits
    /\ sbc_pack_frame (replicate 32 7) enc_frame 0
       = Some (14, packed_octets enc_frame 0 out ++ replicate 18 7)
    /\ Forall is_u8 out /\ 4 + zlen out = 14
    /\ bits_of out = payload enc_frame bits 0
         ++ replicate (Z.to_nat (padding (payload enc_frame bits 0))) false.
Proof.
  apply (sbc_pack_frame_correct (replicate 32 7) enc_frame 0 enc_frame_ok);
    [vm_compute; split; (discriminate || reflexivity)|vm_compute; discriminate].
Defined.
