(* ===== verification/SbcRoundtrip.v ===== *)
(** Packing then unpacking an SBC frame: the round trip through
    src/mediatek/bluetooth/btremoted/msbc.c, and the accuracy of its quantiser. *)
From S2P Require Import Prelude SbcTables SbcCrc SbcBits SbcFrame SbcStream SbcPack.

(** ** Accuracy of quantisation *)
Lemma dequantize_eq q b sf :
  1 <= b <= 16 -> is_u4 sf -> 0 <= q < 2 ^ b - 1 ->
  dequantize q sf (2 ^ b - 1) = ((2 * q + 1) * 2 ^ sf) / (2 ^ b - 1) - 2 ^ sf.
Proof.
  intros Hb Hsf Hq. unfold is_u4 in Hsf. unfold dequantize.
  assert (2 ^ b <= 2 ^ 16) as Hb16 by (apply Z.pow_le_mono_r; lia).
  assert (2 ^ 1 <= 2 ^ b) as Hb1 by (apply Z.pow_le_mono_r; lia).
  assert (2 ^ sf <= 2 ^ 15) as Hs15 by (apply Z.pow_le_mono_r; lia).
  assert (0 < 2 ^ sf) as Hs0 by (apply Z.pow_pos_nonneg; lia).
  change (2 ^ 16) with 65536 in *. change (2 ^ 1) with 2 in *. change (2 ^ 15) with 32768 in *.
  assert ((q ≪ 1) .| 1 = 2 * q + 1) as ->.
  { rewrite Z.shiftl_mul_pow2 by lia. change (2 ^ 1) with 2. pose proof (lor_pow2 q 0 ltac:(lia)) as H.
    rewrite Z.shiftl_0_r in H. change (2 ^ (0 + 1)) with 2 in H. change (2 ^ 0) with 1 in H. rewrite H. lia. }
  rewrite Z.shiftl_1_l, Z.shiftl_mul_pow2 by lia. set (D := 2 ^ sf) in *. set (L := 2 ^ b - 1) in *.
  assert (0 <= (2 * q + 1) * D < 2 ^ 32) as Hn by (change (2 ^ 32) with 4294967296; nia).
  rewrite (wrapu_small 32 ((2 * q + 1) * D)) by exact Hn.
  assert (0 <= (2 * q + 1) * D / L < 2 * D) as Hd.
  { split; [apply Z.div_pos; nia|apply Z.div_lt_upper_bound; nia]. }
  unfold wrapu, wraps. change (2 ^ (32 - 1)) with 2147483648. change (2 ^ 32) with 4294967296.
  rewrite Zplus_mod_idemp_l, Z.mod_small by lia. lia.
Qed.

(** Quantisation error: a subband sample [s] of [b] bits under scale factor [sf] is
    decoded as [v] with [|s - 2^16 v| <= 2^16 (2^sf / (2^b - 1) + 1)], half a quantisation step
    and the rounding of the decoder. *)
Theorem quantize_accuracy (b sf s : Z) :
  1 <= b <= 16 -> is_u4 sf -> - 2 ^ (sf + 16) <= s < 2 ^ (sf + 16) ->
  let v := dequantize (quantize b sf s) sf (2 ^ b - 1) in
  (2 ^ b - 1) * Z.abs (s - 2 ^ 16 * v) <= 2 ^ 16 * (2 ^ sf + (2 ^ b - 1)).
Proof.
  intros Hb Hsf Hs v. destruct (quantize_eq b sf s ltac:(lia) Hsf Hs) as [Hq Hqr].
  unfold is_u4 in Hsf. assert (2 ^ 1 <= 2 ^ b) as Hb1 by (apply Z.pow_le_mono_r; lia).
  assert (0 < 2 ^ sf) as Hs0 by (apply Z.pow_pos_nonneg; lia).
  assert (2 ^ (sf + 16) = 65536 * 2 ^ sf) as H16 by (rewrite Z.pow_add_r by lia; change (2 ^ 16) with 65536; lia).
  assert (2 ^ (sf + 17) = 131072 * 2 ^ sf) as H17 by (rewrite Z.pow_add_r by lia; change (2 ^ 17) with 131072; lia).
  change (2 ^ 1) with 2 in *. rewrite H16, H17 in *.
  pose proof (Z.div_mod ((2 ^ b - 1) * (65536 * 2 ^ sf + s)) (131072 * 2 ^ sf) ltac:(lia)) as Hdm.
  pose proof (Z.mod_pos_bound ((2 ^ b - 1) * (65536 * 2 ^ sf + s)) (131072 * 2 ^ sf) ltac:(lia)) as Hm.
  rewrite <- Hq in Hdm. set (q := quantize b sf s) in *.
  assert (q < 2 ^ b - 1) as Hql by nia.
  subst v. rewrite dequantize_eq by (done || lia). change (2 ^ 16) with 65536.
  set (D := 2 ^ sf) in *. set (L := 2 ^ b - 1) in *.
  pose proof (Z.div_mod ((2 * q + 1) * D) L ltac:(lia)) as Hvm.
  pose proof (Z.mod_pos_bound ((2 * q + 1) * D) L ltac:(lia)) as Hvr.
  set (t := (2 * q + 1) * D / L) in *. set (rem := ((2 * q + 1) * D) mod L) in *.
  set (m := (L * (65536 * D + s)) mod (131072 * D)) in *.
  assert (L * (s - 65536 * (t - D)) = m - 65536 * D + 65536 * rem) as He by lia.
  destruct (Z.abs_spec (s - 65536 * (t - D))) as [[_ ->]|[_ ->]]; lia.
Qed.

Lemma quantize_accuracy_witness :
  let v := dequantize (quantize 5 3 123456) 3 (2 ^ 5 - 1) in
  (2 ^ 5 - 1) * Z.abs (123456 - 2 ^ 16 * v) <= 2 ^ 16 * (2 ^ 3 + (2 ^ 5 - 1)).
Proof. apply (quantize_accuracy 5 3 123456); vm_compute; split; (discriminate || reflexivity). Defined.

(** ** Finding a field in the packed stream *)

(** The part of a concatenation a loop counter selects. *)
Lemma concat_split (g : Z -> list bool) n j :
  0 <= j < n ->
  exists post, concat (map g (seqZ 0 n)) = concat (map g (seqZ 0 j)) ++ g j ++ post.
Proof.
  intros Hj. exists (concat (map g (seqZ (j + 1) (n - j - 1)))).
  replace n with (j + (n - j)) at 1 by lia. rewrite seqZ_app, map_app, concat_app by lia. f_equal.
  rewrite seqZ_cons by lia. cbn [map concat]. rewrite Z.add_0_l. do 4 f_equal; lia.
Qed.

Lemma field_at (pre l post : list bool) : field (zlen pre) (zlen l) (pre ++ l ++ post) = l.
Proof.
  unfold field, zlen. rewrite !Nat2Z.id, drop_app_length. apply take_app_length.
Qed.

Lemma concat_prefix_length (g : Z -> list bool) c j :
  0 <= j -> (forall i, zlen (g i) = c) -> zlen (concat (map g (seqZ 0 j))) = c * j.
Proof.
  intros Hj Hg. rewrite (concat_const_length g _ c) by (apply Forall_forall; intros; apply Hg).
  unfold zlen. by rewrite length_seqZ, Z2Nat.id by done.
Qed.

Lemma seqZ_take_length (g : Z -> list bool) (l : list Z) j :
  0 <= j <= zlen l -> (forall i, 0 <= i < zlen l -> zlen (g i) = anth l i) ->
  zlen (concat (map g (seqZ 0 j))) = zsum (take (Z.to_nat j) l).
Proof.
  intros Hj Hg. rewrite concat_sum_length. f_equal.
  rewrite <- (map_aget 0 (take (Z.to_nat j) l)).
  replace (zlen (take (Z.to_nat j) l)) with j by (unfold zlen in *; rewrite length_take; lia).
  apply map_ext_in. intros i Hi. apply list_elem_of_In, elem_of_seqZ in Hi.
  rewrite Hg by lia. unfold anth, aget. rewrite (proj2 (Z.leb_le _ _)) by lia.
  by rewrite lookup_take_lt by lia.
Qed.

Section Fields.
Context (f : sbc_frame) (bits : list (list Z)).
Hypothesis Hrows : rows_ok (channels f) (subbands f) bits.
Hypothesis Hsb0 : 0 <= subbands f.

Lemma scale_bits_at ch sb :
  0 <= ch < channels f -> 0 <= sb < subbands f ->
  exists a b, scale_bits f = a ++ nib (anth2 (scale_factor f) ch sb) ++ b
    /\ zlen a = 4 * (ch * subbands f + sb).
Proof using Hsb0.
  intros Hch Hsb. unfold scale_bits.
  set (g := fun ch => concat (map (fun sb => nib (anth2 (scale_factor f) ch sb)) (seqZ 0 (subbands f)))).
  destruct (concat_split g (channels f) ch Hch) as (post & ->).
  destruct (concat_split (fun sb => nib (anth2 (scale_factor f) ch sb)) (subbands f) sb Hsb) as (post' & Hg).
  unfold g at 2. rewrite Hg.
  exists (concat (map g (seqZ 0 ch)) ++ concat (map (fun sb => nib (anth2 (scale_factor f) ch sb)) (seqZ 0 sb))),
    (post' ++ post). split; [by rewrite <- !app_assoc|].
  rewrite zlen_app, (concat_prefix_length g (4 * subbands f)); [|lia|].
  { rewrite (concat_prefix_length _ 4) by (done || lia). lia. }
  intros i. unfold g. by rewrite (concat_prefix_length _ 4) by (done || lia).
Qed.

Definition sample_field (blk ch sb : Z) : list bool :=
  low_bits (anth2 bits ch sb) (quantize (anth2 bits ch sb) (anth2 (scale_factor f) ch sb)
    (anth3 (sb_sample_f f) blk ch sb)).

Lemma sample_field_length blk ch sb : zlen (sample_field blk ch sb) = anth2 bits ch sb.
Proof using Hrows.
  unfold sample_field, zlen. rewrite low_bits_length.
  pose proof (anth2_bits_range bits _ _ Hrows ch sb). lia.
Qed.

Lemma sample_bits_at blk ch sb :
  0 <= blk < blocks f -> 0 <= ch < channels f -> 0 <= sb < subbands f ->
  exists a b, sample_bits f bits = a ++ sample_field blk ch sb ++ b
    /\ zlen a = sample_offset bits blk ch sb.
Proof using All.
  intros Hb Hch Hsb. unfold sample_bits.
  destruct (concat_split (block_bits f bits) (blocks f) blk Hb) as (p1 & ->).
  set (gc := fun ch => concat (map (sample_field blk ch) (seqZ 0 (subbands f)))).
  destruct (concat_split gc (channels f) ch Hch) as (p2 & H2).
  destruct (concat_split (sample_field blk ch) (subbands f) sb Hsb) as (p3 & H3).
  assert (block_bits f bits blk = (concat (map gc (seqZ 0 ch)) ++
    concat (map (sample_field blk ch) (seqZ 0 sb))) ++ sample_field blk ch sb ++ p3 ++ p2) as ->.
  { change (block_bits f bits blk) with (concat (map gc (seqZ 0 (channels f)))). rewrite H2.
    unfold gc at 2. rewrite H3. by rewrite <- !app_assoc. }
  exists (concat (map (block_bits f bits) (seqZ 0 blk)) ++ concat (map gc (seqZ 0 ch)) ++
    concat (map (sample_field blk ch) (seqZ 0 sb))), ((p3 ++ p2) ++ p1). split; [by rewrite <- !app_assoc|].
  rewrite !zlen_app. unfold sample_offset.
  rewrite (concat_prefix_length (block_bits f bits) (zsum (map zsum bits)));
    [|lia|intros; by apply block_bits_length].
  destruct (row_of bits _ _ Hrows ch Hch) as (row & Hr & Hl & _).
  rewrite (seqZ_take_length (sample_field blk ch) row) by (lia || (intros i Hi; rewrite sample_field_length; unfold anth2; by rewrite Hr)).
  rewrite Hr. cbn [from_option id].
  rewrite (seqZ_take_length gc (map zsum bits)).
  - rewrite firstn_map. lia.
  - destruct Hrows as [Hlen _]. unfold zlen in *. rewrite length_map. lia.
  - intros i Hi. assert (0 <= i < channels f) as Hi' by (destruct Hrows as [Hlen _]; unfold zlen in *; rewrite length_map in Hi; lia).
    destruct (row_of bits _ _ Hrows i Hi') as (row' & Hr' & Hl' & _). unfold gc.
    rewrite (seqZ_take_length _ row') by (lia || (intros k Hk; rewrite sample_field_length; unfold anth2; by rewrite Hr')).
    rewrite take_ge by (unfold zlen in *; lia). unfold anth, aget in *.
    rewrite (proj2 (Z.leb_le _ _)) in * by lia. rewrite list_lookup_fmap. by rewrite Hr'.
Qed.
End Fields.

Lemma field_mid (pre l post : list bool) c n :
  c = zlen pre -> n = zlen l -> field c n (pre ++ l ++ post) = l.
Proof. intros -> ->. apply field_at. Qed.

(** ** The header octets *)
Lemma header_roundtrip f f0 :
  enc_ok f -> same_header f (read_sbc_header f0 (header_octet f (subbands f)) (bitpool f)).
Proof.
  intros [Hh Hbm Hbl Hal Hsm _ _ _]. destruct Hh as [Hf Hm _ Hsb Hch _].
  unfold same_header, read_sbc_header, set_header, header_octet; cbn.
  rewrite Hbl, Hsm, Hch. clear Hbl Hsm Hch.
  generalize dependent (frequency f). generalize dependent (mode f). generalize dependent (block_mode f).
  generalize dependent (allocation f). generalize dependent (subbands f).
  intros s Hs a Ha b Hb m Hm q Hq.
  assert (b = 0 \/ b = 1 \/ b = 2 \/ b = 3) by lia. assert (m = 0 \/ m = 1 \/ m = 2 \/ m = 3) by lia.
  assert (q = 0 \/ q = 1 \/ q = 2 \/ q = 3) by lia. clear Hb Hm Hq.
  repeat match goal with H : _ \/ _ |- _ => destruct H end; subst; vm_compute; split_and!; reflexivity.
Qed.

(** ** The joint-stereo octet *)
Lemma land_shift1 x k : 0 <= k -> (x .& (0x01 ≪ k) =? 0) = negb (Z.testbit x k).
Proof.
  intros Hk. rewrite Z.shiftl_1_l. destruct (Z.testbit x k) eqn:Hb.
  - apply Z.eqb_neq. intros H0. assert (Z.testbit (x .& 2 ^ k) k = false) as H by (rewrite H0; apply Z.bits_0).
    rewrite Z.land_spec, Hb, Z.pow2_bits_true in H by lia. done.
  - apply Z.eqb_eq. apply Z.bits_inj'. intros i Hi. rewrite Z.land_spec, Z.bits_0, Z.pow2_bits_eqb by lia.
    destruct (Z.eqb_spec k i) as [<-|]; [by rewrite Hb|apply andb_false_r].
Qed.

Lemma joint_bits_testbit d nsb sb :
  is_u8 d -> nsb = 4 \/ nsb = 8 -> 0 <= sb < nsb ->
  Z.testbit (joint_bits d nsb) sb = (sb <? nsb - 1) && Z.testbit d (7 - sb).
Proof.
  intros Hd Hn Hsb.
  pose proof (u8_forall (fun d => forallb (fun sb => eqb (Z.testbit (joint_bits d nsb) sb)
    ((sb <? nsb - 1) && Z.testbit d (7 - sb))) (map Z.of_nat (seq 0 (Z.to_nat nsb))))) as H.
  apply eqb_true_iff. specialize (H ltac:(destruct Hn as [-> | ->]; vm_compute; reflexivity) d Hd).
  rewrite forallb_forall in H. apply H. apply in_map_iff. exists (Z.to_nat sb). split; [lia|]. apply in_seq. lia.
Qed.

(** Subband [sb] is coded jointly: its bit in the octet, the last one being reserved. *)
Definition joint_marked (f : sbc_frame) (j sb : Z) : bool :=
  (mode f =? SBC_MODE_JOINT_STEREO) && (sb <? subbands f - 1) && Z.testbit j (subbands f - 1 - sb).

(** ** The allocation depends on the transmitted scale factors only *)
Lemma sbc_calculate_bits_ext md nch al fr bp nsb sfs sfs' :
  nsb = 4 \/ nsb = 8 -> (mono_like md = false -> nch = 2) ->
  (forall ch sb, 0 <= ch < nch -> 0 <= sb < nsb -> anth2 sfs' ch sb = anth2 sfs ch sb) ->
  sbc_calculate_bits md nch al fr bp nsb sfs' = sbc_calculate_bits md nch al fr bp nsb sfs.
Proof.
  intros Hn Hst He.
  assert (forall ch, 0 <= ch < nch -> bitneeds al fr nsb (default [] (aget sfs' ch))
                                      = bitneeds al fr nsb (default [] (aget sfs ch))) as Hb.
  { intros ch Hch. unfold bitneeds. apply map_ext_in. intros sb Hsb.
    apply list_elem_of_In, elem_of_seqZ in Hsb. unfold bitneed_of.
    specialize (He ch sb Hch ltac:(lia)). unfold anth2 in He. by rewrite He. }
  assert (sbc_calculate_bits_internal md nch al fr bp sfs' nsb = sbc_calculate_bits_internal md nch al fr bp sfs nsb) as Hi.
  { unfold sbc_calculate_bits_internal. change ((md =? SBC_MODE_MONO) || _) with (mono_like md).
    destruct (mono_like md).
    - assert (forall l, Forall (fun ch => 0 <= ch < nch) l ->
        mapM (fun ch => calculate_bits_mono bp (bitneeds al fr nsb (default [] (aget sfs' ch)))) l
        = mapM (fun ch => calculate_bits_mono bp (bitneeds al fr nsb (default [] (aget sfs ch)))) l) as Hm.
      { induction 1 as [|c l Hc _ IH]; [done|]. cbn [mapM]. by rewrite (Hb c Hc), IH. }
      apply Hm, Forall_forall. intros c Hc. apply list_elem_of_In, elem_of_seqZ in Hc. lia.
    - by rewrite (Hb 0), (Hb 1) by (rewrite (Hst eq_refl); lia). }
  unfold sbc_calculate_bits. destruct Hn as [-> | ->]; exact Hi.
Qed.

(** ** The round trip *)
Definition decoded_channel (f : sbc_frame) (bits : list (list Z)) (blk ch sb : Z) : Z :=
  let b := anth2 bits ch sb in
  let sf := anth2 (scale_factor f) ch sb in
  if 0 <? b then dequantize (quantize b sf (anth3 (sb_sample_f f) blk ch sb)) sf (2 ^ b - 1) else 0.

Definition decoded (f : sbc_frame) (bits : list (list Z)) (j blk ch sb : Z) : Z :=
  let e ch := decoded_channel f bits blk ch sb in
  if joint_marked f j sb then if ch =? 0 then i32 (e 0 + e 1) else i32 (e 0 - e 1) else e ch.

(** The stream of a packed frame. *)
Lemma packed_stream f bits j out rest :
  bits_of out = payload f bits j ++ replicate (Z.to_nat (padding (payload f bits j))) false ->
  exists post,
    bits_of (packed_octets f j out ++ rest)
    = (byte_bits SBC_SYNCWORD ++ byte_bits (header_octet f (subbands f)) ++ byte_bits (bitpool f)
       ++ byte_bits (packed_crc f j)) ++ (joint_field f j ++ scale_bits f ++ sample_bits f bits) ++ post.
Proof.
  intros Hb. exists (replicate (Z.to_nat (padding (payload f bits j))) false ++ bits_of rest).
  rewrite bits_of_app. unfold packed_octets. rewrite !bits_of_cons, Hb. unfold payload. by rewrite <- !app_assoc.
Qed.

Section Roundtrip.
Context (f : sbc_frame) (j : Z) (bits : list (list Z)) (out rest : list Z).
Hypothesis Hen : enc_ok f.
Hypothesis Hj : 0 <= j < 2 ^ subbands f.
Hypothesis Hcalc : sbc_calculate_bits (mode f) (channels f) (allocation f) (frequency f) (bitpool f)
  (subbands f) (scale_factor f) = Some bits.
Hypothesis Hrows : rows_ok (channels f) (subbands f) bits.
Hypothesis Hsp : pool_spent (mode f) (bitpool f) bits.
Hypothesis Hout : bits_of out = payload f bits j ++ replicate (Z.to_nat (padding (payload f bits j))) false.
Hypothesis Hu : Forall is_u8 (packed_octets f j out ++ rest).

Let data := packed_octets f j out ++ rest.

Lemma joint_field_length : zlen (joint_field f j) = scale_start f - 32.
Proof using Hen.
  destruct (header_bounds f (en_header f Hen)) as (_ & ? & _).
  unfold joint_field, scale_start. case_match; unfold zlen; rewrite ?low_bits_length; simpl length; lia.
Qed.

Lemma same_header_start g : same_header f g -> scale_start g = scale_start f /\ scale_size g = scale_size f
  /\ frame_bits g = frame_bits f.
Proof using Type.
  intros (E1 & E2 & E3 & E4 & E5 & _). unfold frame_bits, scale_start, scale_size.
  by rewrite E1, E2, E3, E4, E5.
Qed.

Lemma stream_crc_packed g : same_header f g -> stream_crc data g = packed_crc f j.
Proof using All.
  intros Hs. destruct (same_header_start g Hs) as (E1 & E2 & _). unfold stream_crc, packed_crc.
  rewrite E1, E2. f_equal. unfold data. destruct (packed_stream f bits j out rest Hout) as (post & ->).
  destruct (header_bounds f (en_header f Hen)) as (? & ? & _).
  pose proof (scale_bits_length f ltac:(lia) ltac:(lia)) as Hsl. pose proof joint_field_length as Hjl.
  set (A := byte_bits SBC_SYNCWORD). set (B := byte_bits (header_octet f (subbands f))).
  set (C := byte_bits (bitpool f)). set (D := byte_bits (packed_crc f j)).
  assert (field 8 16 ((A ++ B ++ C ++ D) ++ (joint_field f j ++ scale_bits f ++ sample_bits f bits) ++ post)
          = B ++ C) as ->.
  { rewrite <- !app_assoc, (app_assoc B C). by apply field_mid. }
  rewrite <- app_assoc. do 2 f_equal.
  replace ((A ++ B ++ C ++ D) ++ (joint_field f j ++ scale_bits f ++ sample_bits f bits) ++ post)
    with ((A ++ B ++ C ++ D) ++ (joint_field f j ++ scale_bits f) ++ (sample_bits f bits ++ post))
    by (by rewrite <- !app_assoc).
  apply field_mid; [done|]. rewrite zlen_app. lia.
Qed.

Lemma joint_octet sb : mode f = SBC_MODE_JOINT_STEREO -> 0 <= sb < subbands f ->
  is_u8 (anth data 4) /\ Z.testbit (anth data 4) (7 - sb) = Z.testbit j (subbands f - 1 - sb).
Proof using All.
  intros Hm Hsb. destruct (header_bounds f (en_header f Hen)) as (? & ? & _).
  destruct (packed_stream f bits j out rest Hout) as (post & Hs). fold data in Hs.
  assert (4 < zlen data) as Hlen.
  { apply (f_equal zlen) in Hs. rewrite !zlen_app in Hs. unfold joint_field in Hs. rewrite Hm in Hs. cbn [Z.eqb] in Hs.
    change (SBC_MODE_JOINT_STEREO =? SBC_MODE_JOINT_STEREO) with true in Hs. cbn iota in Hs.
    unfold zlen in *. rewrite bits_of_length, low_bits_length in Hs. unfold byte_bits in Hs.
    rewrite !length_map, !length_seq in Hs. lia. }
  split; [apply (anth_Forall is_u8); [unfold is_u8; lia|done]|].
  pose proof (bits_of_lookup data (Z.to_nat (32 + sb))) as Hl.
  rewrite Z2Nat.id in Hl by lia. specialize (Hl ltac:(destruct (hd_subbands f (en_header f Hen)); unfold zlen in *; lia)).
  assert ((32 + sb) / 8 = 4) as E1 by (destruct (hd_subbands f (en_header f Hen)); symmetry; apply Z.div_unique with sb; lia).
  assert ((32 + sb) mod 8 = sb) as E2 by (destruct (hd_subbands f (en_header f Hen)); symmetry; apply Z.mod_unique with 4; lia).
  rewrite E1, E2, Hs in Hl. rewrite lookup_app_r in Hl by (rewrite !length_app; simpl length; lia).
  rewrite !length_app in Hl. simpl length in Hl. unfold joint_field in Hl. rewrite Hm in Hl.
  change (SBC_MODE_JOINT_STEREO =? SBC_MODE_JOINT_STEREO) with true in Hl. cbn iota in Hl.
  rewrite <- app_assoc, lookup_app_l in Hl by (rewrite low_bits_length; lia).
  rewrite low_bits_lookup in Hl by lia. injection Hl as Hl. rewrite <- Hl. f_equal. lia.
Qed.

Lemma packed_scale g ch sb : same_header f g ->
  0 <= ch < channels f -> 0 <= sb < subbands f ->
  bval (field (scale_start g + 4 * (ch * subbands g + sb)) 4 (bits_of data)) = anth2 (scale_factor f) ch sb.
Proof using All.
  intros Hs Hch Hsb. destruct (same_header_start g Hs) as (-> & _ & _).
  destruct Hs as (_ & _ & _ & -> & _).
  destruct (packed_stream f bits j out rest Hout) as (post & Hst). fold data in Hst. rewrite Hst.
  destruct (scale_bits_at f ltac:(lia) ch sb Hch Hsb) as (a & b & -> & Ha).
  set (P := byte_bits SBC_SYNCWORD ++ _). assert (zlen P = 32) as HP by done.
  replace (P ++ (joint_field f j ++ (a ++ nib (anth2 (scale_factor f) ch sb) ++ b) ++ sample_bits f bits) ++ post)
    with ((P ++ joint_field f j ++ a) ++ nib (anth2 (scale_factor f) ch sb) ++ (b ++ sample_bits f bits ++ post))
    by (by rewrite <- !app_assoc).
  rewrite field_mid by (try done; rewrite !zlen_app, joint_field_length; lia). apply bval_nib, anth2_u4, en_scale, Hen.
Qed.

Lemma packed_sample g blk ch sb : same_header f g ->
  (forall ch sb, 0 <= ch < channels f -> 0 <= sb < subbands f ->
     anth2 (scale_factor g) ch sb = anth2 (scale_factor f) ch sb) ->
  0 <= blk < blocks f -> 0 <= ch < channels f -> 0 <= sb < subbands f ->
  expected_sample (bits_of data) (scale_start g + scale_size g) bits (scale_factor g) blk ch sb
  = decoded_channel f bits blk ch sb.
Proof using All.
  intros Hs Hsf Hb Hch Hsb. unfold expected_sample, sample_value, decoded_channel. rewrite Hsf by done.
  destruct (same_header_start g Hs) as (-> & -> & _).
  pose proof (anth2_bits_range bits _ _ Hrows ch sb) as Hbit.
  destruct (Z.ltb_spec 0 (anth2 bits ch sb)); [|done].
  destruct (packed_stream f bits j out rest Hout) as (post & Hst). fold data in Hst. rewrite Hst.
  destruct (sample_bits_at f bits Hrows ltac:(lia) blk ch sb Hb Hch Hsb) as (a & b & -> & Ha).
  set (P := byte_bits SBC_SYNCWORD ++ _). assert (zlen P = 32) as HP by done.
  replace (P ++ (joint_field f j ++ scale_bits f ++ (a ++ sample_field f bits blk ch sb ++ b)) ++ post)
    with ((P ++ joint_field f j ++ scale_bits f ++ a) ++ sample_field f bits blk ch sb ++ (b ++ post))
    by (by rewrite <- !app_assoc).
  rewrite field_mid.
  - unfold sample_field. rewrite bval_low_bits; [done|lia|].
    apply quantize_eq; [lia|apply anth2_u4, en_scale, Hen|by apply en_samples].
  - rewrite !zlen_app, joint_field_length, scale_bits_length by lia. lia.
  - by rewrite sample_field_length.
Qed.
End Roundtrip.

Lemma header_ok_mono f : header_ok f -> mono_like (mode f) = false -> channels f = 2.
Proof.
  intros Hh. rewrite (hd_channels f Hh). unfold mono_like, SBC_MODE_MONO. by destruct (mode f =? 0).
Qed.

(** C17. Round trip: unpacking what [sbc_pack_frame] wrote for an encoder frame [f] succeeds,
    consumes the packed length (one octet more when a zero octet follows), and recovers the
    header, the scale factors, and as each subband sample the dequantised value of the
    quantised one, with the sum and difference taken in the subbands the joint field marks. *)
Theorem sbc_pack_unpack (data : list Z) (f f0 : sbc_frame) (j : Z) :
  enc_ok f -> frame_wf f0 -> 0 <= j < 2 ^ subbands f ->
  Forall is_u8 data -> packed_length f + 2 <= zlen data ->
  exists data' r g bits,
    sbc_pack_frame data f j = Some (packed_length f, data')
    /\ sbc_unpack_frame data' f0 (packed_length f) = Some (r, g)
    /\ (r = packed_length f \/ r = packed_length f + 1)
    /\ same_header f g
    /\ (forall ch sb, 0 <= ch < channels f -> 0 <= sb < subbands f ->
          anth2 (scale_factor g) ch sb = anth2 (scale_factor f) ch sb)
    /\ sbc_calculate_bits (mode f) (channels f) (allocation f) (frequency f) (bitpool f) (subbands f)
         (scale_factor f) = Some bits
    /\ (forall blk ch sb, 0 <= blk < blocks f -> 0 <= ch < channels f -> 0 <= sb < subbands f ->
          anth3 (sb_sample g) blk ch sb = decoded f bits j blk ch sb).
Proof.
  intros Hen Hwf Hj Hu Hlen. pose proof (en_header f Hen) as Hh.
  destruct (sbc_pack_frame_spec data f j Hen Hj ltac:(lia)) as (bits & out & Hcb & Hrows & Hsp & Hpk & Huo & Hlo & Hbo).
  set (rest := drop (Z.to_nat (packed_length f)) data) in *. set (data' := packed_octets f j out ++ rest) in *.
  pose proof (frame_bits_ge f Hh) as Hge. destruct (header_bounds f Hh) as (Hch & Hsb & Hbl & _ & Hsz & Hst & _).
  assert (Forall is_u8 data') as Hu'.
  { apply Forall_app. split; [|by apply Forall_drop]. repeat constructor; try done.
    all: try apply header_octet_u8; try apply (en_bitpool f Hen); apply crc_bits_u8; done. }
  assert (frame_bits f <= 8 * packed_length f) as Hfit.
  { unfold packed_length. pose proof (Z.div_mod (frame_bits f + 7) 8). pose proof (Z.mod_pos_bound (frame_bits f + 7) 8). lia. }
  assert (packed_length f + 2 <= zlen data') as Hlen'.
  { unfold data', rest, packed_octets. rewrite zlen_app. unfold zlen in *. simpl length. rewrite length_drop. lia. }
  destruct (sbc_unpack_frame_cases data' f0 (packed_length f) Hwf Hu' (or_introl Hlen')) as (r & g & Hr & _ & Ho).
  exists data', r, g, bits. split; [done|]. split; [done|].
  assert (header_of data' f0 = read_sbc_header f0 (header_octet f (subbands f)) (bitpool f)) as Hho by done.
  pose proof (header_roundtrip f f0 Hen) as Hsh. rewrite <- Hho in Hsh.
  assert (forall h, same_header (header_of data' f0) h -> same_header f h) as Htr.
  { unfold same_header in *. intros h Hsame. intuition congruence. }
  destruct Ho as [Ho|[Ho|[Ho|(Hhg & Hsg & Hb)]]]; [lia|by destruct Ho as (_ & ? & _)| |].
  { destruct Ho as (_ & _ & Hsg & Hno). destruct (Htr g Hsg) as (E1 & _ & E3 & E4 & _).
    destruct Hno. rewrite E1, E3, E4. apply hd_pool, Hh. }
  apply Htr in Hsg. destruct (same_header_start f g Hsg) as (Es & Ez & Ef).
  pose proof (stream_crc_packed f j bits out rest Hen Hj Hcb Hrows Hsp Hbo Hu' g Hsg) as Hcrc. fold data' in Hcrc.
  unfold body_result in Hb. rewrite Ef, Hcrc in Hb.
  destruct Hb as [Hb|[[_ Hb]|(Hup & _ & Hrr)]]; [lia|by destruct Hb|].
  assert (r = packed_length f \/ r = packed_length f + 1) as Hr'.
  { unfold packed_length. pose proof (Z.div_mod (frame_bits f + 7) 8). pose proof (Z.mod_pos_bound (frame_bits f + 7) 8). lia. }
  destruct Hup as [_ Hjt _ Hsc (bits' & Hcb' & Hsamp & _)].
  assert (forall ch sb, 0 <= ch < channels f -> 0 <= sb < subbands f ->
    anth2 (scale_factor g) ch sb = anth2 (scale_factor f) ch sb) as Hsf.
  { pose proof Hsg as (_ & _ & _ & E4 & E5 & _). intros ch sb Hc Hs. rewrite Hsc by lia.
    exact (packed_scale f j bits out rest Hen Hj Hcb Hrows Hsp Hbo Hu' g ch sb Hsg Hc Hs). }
  split_and!; try done. clear Hsc.
  pose proof Hsg as (E1 & E2 & E3 & E4 & E5 & E6 & E7 & _).
  rewrite E1, E3, E4, E5, E6, E7 in Hcb'.
  rewrite (sbc_calculate_bits_ext _ _ _ _ _ _ _ _ (hd_subbands f Hh) (header_ok_mono f Hh) Hsf), Hcb in Hcb'.
  injection Hcb' as <-. intros blk ch sb Hb Hc Hs. rewrite Hsamp by lia. unfold final_sample, decoded, joint_marked.
  rewrite E1. pose proof (fun ch (H : 0 <= ch < channels f) => packed_sample f j bits out rest Hen Hj Hcb Hrows Hsp Hbo Hu'
    g blk ch sb Hsg Hsf Hb H Hs) as He. fold data' in He.
  destruct (Z.eqb_spec (mode f) SBC_MODE_JOINT_STEREO) as [Hm|Hm]; cbn [andb]; [|by apply He].
  assert (channels f = 2) as Hc2 by (rewrite (hd_channels f Hh), Hm; done).
  rewrite land_shift1, Hjt, E4 by (lia || by rewrite E1).
  destruct (joint_octet f j bits out rest Hen Hj Hcb Hrows Hsp Hbo Hu' sb Hm Hs) as [H4 Ht]. fold data' in H4, Ht.
  rewrite joint_bits_testbit, Ht by (done || apply (hd_subbands f Hh)).
  rewrite !He by lia. by destruct (_ && _).
Qed.

Lemma sbc_pack_unpack_witness :
  exists data' r g bits,
    sbc_pack_frame (replicate 32 7) enc_frame 0 = Some (14, data')
    /\ sbc_unpack_frame data' frame0 14 = Some (r, g)
    /\ (r = 14 \/ r = 14 + 1)
    /\ same_header enc_frame g
    /\ (forall ch sb, 0 <= ch < 1 -> 0 <= sb < 4 ->
          anth2 (scale_factor g) ch sb = anth2 (scale_factor enc_frame) ch sb)
    /\ sbc_calculate_bits 0 1 0 0 16 4 (scale_factor enc_frame) = Some bits
    /\ (forall blk ch sb, 0 <= blk < 4 -> 0 <= ch < 1 -> 0 <= sb < 4 ->
          anth3 (sb_sample g) blk ch sb = decoded enc_frame bits 0 blk ch sb).
Proof.
  apply (sbc_pack_unpack (replicate 32 7) enc_frame frame0 0 enc_frame_ok frame0_wf);
    [vm_compute; split; (discriminate || reflexivity)|by_compute|vm_compute; discriminate].
Defined.
