(* ===== verification/SbcSynth.v ===== *)
(** The SBC synthesis filter bank: [struct sbc_decoder_state], [sbc_decoder_init],
    [sbc_synthesize_audio] of src/mediatek/bluetooth/btremoted/msbc.c, and its refinement of a
    bank of shift registers. *)
From S2P Require Import Prelude SbcTables SbcCrc SbcBits SbcFrame SbcStream SbcPack.

(** ** struct sbc_decoder_state *)
Record decoder_state := mk_ds {
  ds_subbands : Z;
  ds_V : list (list Z);        (* [2][170] *)
  ds_offset : list (list Z)    (* [2][16] *)
}.

Definition decoder_state0 : decoder_state :=
  mk_ds 0 (replicate 2 (replicate 170 0)) (replicate 2 (replicate 16 0)).

(** [offset[ch][i] = 10 * i + 10] for [i < 2 * subbands]; the other offsets keep their values. *)
Definition init_offsets (subbands : Z) (row : list Z) : option (list Z) :=
  for_loop (Z.to_nat (subbands * 2)) 0 (fun i row => aset row i (10 * i + 10)) row.

Definition sbc_decoder_init (state : decoder_state) (frame_subbands : Z) : option decoder_state :=
  offset ← mapM (init_offsets frame_subbands) (ds_offset state);
  Some (mk_ds frame_subbands (replicate 2 (replicate 170 0)) offset).

Definition sbc_clip16 (s : Z) : Z :=
  if 0x7FFF <? s then 0x7FFF else if s <? -0x8000 then -0x8000 else s.

(** ** One block of one channel *)

(** [MULA(a0, b0, MULA(a1, b1, ... MUL(an, bn)))] *)
Fixpoint MULAs (l : list (Z * Z)) : Z :=
  match l with
  | [] => 0
  | [(a, b)] => MUL a b
  | (a, b) :: l => MULA a b (MULAs l)
  end.

(** The new value of delay line [i]: row [i] of the matrix times the subband samples. *)
Definition matrix_value (scale : Z -> Z) (matrix : list (list Z)) (samples : list Z) (i : Z) : option Z :=
  row ← aget matrix i;
  l ← mapM (fun k => x ← aget row k; y ← aget samples k; Some (x, y)) (seqZ 0 (zlen row));
  Some (scale (MULAs l)).

(** [memcpy(v + size, v, 9 * sizeof( *v))] *)
Definition copy_head (size : Z) (v : list Z) : option (list Z) :=
  for_loop 9 0 (fun j v => x ← aget v j; aset v (j + size) x) v.

(** "Shifting" and the store of the new value: (v, offset). *)
Definition shift_in (size : Z) (i value : Z) (s : list Z * list Z) : option (list Z * list Z) :=
  let '(v, offset) := s in
  o ← aget offset i;
  if o - 1 <? 0 then
    v ← copy_head size v;
    v ← aset v (size - 1) value;
    offset ← aset offset i (size - 1);
    Some (v, offset)
  else
    v ← aset v (o - 1) value;
    offset ← aset offset i (o - 1);
    Some (v, offset).

(** The ten products of an output sample, from delay lines [i] and [k] in turn. *)
Definition taps (v offset m0 m1 : list Z) (i k idx : Z) : option (list (Z * Z)) :=
  mapM (fun n =>
    o ← aget offset (if Z.even n then i else k);
    x ← aget v (o + n);
    c ← aget (if Z.even n then m0 else m1) (idx + n / 2);
    Some (x, c)) (seqZ 0 10).

Definition output_sample (scale : Z -> Z) (n : Z) (v offset m0 m1 : list Z) (i : Z) : option Z :=
  let k := (i + n) .& 0xf in
  l ← taps v offset m0 m1 i k (5 * i);
  Some (sbc_clip16 (scale (MULAs l))).

(** The body shared by [sbc_synthesize_four] and [sbc_synthesize_eight]: [n] subbands, [2 * n]
    delay lines of ten values in a ring of [20 * n]. *)
Definition synthesize (n : Z) (scale : Z -> Z) (matrix : list (list Z)) (m0 m1 : list Z)
    (state : decoder_state) (f : sbc_frame) (ch blk : Z) : option (decoder_state * sbc_frame) :=
  v ← aget (ds_V state) ch;
  offset ← aget (ds_offset state) ch;
  block ← aget (sb_sample f) blk;
  samples ← aget block ch;
  '(v, offset) ← for_loop (Z.to_nat (2 * n)) 0 (fun i s =>
      value ← matrix_value scale matrix samples i;
      shift_in (20 * n) i value s) (v, offset);
  pcm ← aget (pcm_sample f) ch;
  pcm ← for_loop (Z.to_nat n) 0 (fun i pcm =>
      x ← output_sample scale n v offset m0 m1 i;
      aset pcm (blk * n + i) x) pcm;
  V ← aset (ds_V state) ch v;
  off ← aset (ds_offset state) ch offset;
  p ← aset (pcm_sample f) ch pcm;
  Some (mk_ds (ds_subbands state) V off, set_pcm_sample f p).

Definition sbc_synthesize_four :=
  synthesize 4 SCALE4_STAGED1 synmatrix4 sbc_proto_4_40m0 sbc_proto_4_40m1.
Definition sbc_synthesize_eight :=
  synthesize 8 SCALE8_STAGED1 synmatrix8 sbc_proto_8_80m0 sbc_proto_8_80m1.

Definition EIO : Z := 5.

(** (samples or [-EIO], state, frame) *)
Definition sbc_synthesize_audio (state : decoder_state) (f : sbc_frame)
    : option (Z * decoder_state * sbc_frame) :=
  let blocks_of step :=
    for_loop (Z.to_nat (channels f)) 0 (fun ch s =>
      for_loop (Z.to_nat (blocks f)) 0 (fun blk '(st, f) => step st f ch blk) s) (state, f) in
  if subbands f =? 4 then
    '(st, f) ← blocks_of sbc_synthesize_four; Some (blocks f * 4, st, f)
  else if subbands f =? 8 then
    '(st, f) ← blocks_of sbc_synthesize_eight; Some (blocks f * 8, st, f)
  else Some (- EIO, state, f).

(** ** Specification: a bank of shift registers

    [lines] holds, for each of the [2 * n] delay lines, its nine latest values, newest first. *)
Definition line (lines : list (list Z)) (i : Z) : list Z := default [] (aget lines i).

Section Spec.
Context (n : Z) (scale : Z -> Z) (matrix : list (list Z)) (m0 m1 : list Z).

Definition new_value (samples : list Z) (i : Z) : Z := default 0 (matrix_value scale matrix samples i).

(** The ten values of line [i] once the new one is in. *)
Definition pushed (lines : list (list Z)) (samples : list Z) (i : Z) : list Z :=
  new_value samples i :: line lines i.

Definition spec_output (lines : list (list Z)) (samples : list Z) (i : Z) : Z :=
  sbc_clip16 (scale (MULAs (map (fun t =>
    (anth (pushed lines samples (if Z.even t then i else i + n)) t,
     anth (if Z.even t then m0 else m1) (5 * i + t / 2))) (seqZ 0 10)))).

Definition spec_lines (lines : list (list Z)) (samples : list Z) : list (list Z) :=
  map (fun i => take 9 (pushed lines samples i)) (seqZ 0 (2 * n)).
End Spec.

(** ** The refinement relation *)

(** Line [m] starts at [anth offset m], which is [q + 10 t] for some [t] with
    [t mod lines = m]: lines never share a cell of the ring. *)
Definition placed (nl q lim m : Z) (offset : list Z) : Prop :=
  exists t, anth offset m = q + 10 * t /\ t mod nl = m /\ 0 <= anth offset m <= lim.

Definition ring_rel (nl : Z) (lines : list (list Z)) (v offset : list Z) : Prop :=
  zlen v = 170 /\ zlen offset = 16 /\ exists q,
    forall m, 0 <= m < nl -> placed nl q (10 * nl) m offset
      /\ forall k, 0 <= k < 9 -> anth v (anth offset m + k) = anth (line lines m) k.

(** ** Array reads and writes *)
Lemma anth_aset_eq l i v l' : aset l i v = Some l' -> anth l' i = v.
Proof.
  unfold aset. destruct ((0 <=? i) && (i <? Z.of_nat (length l))) eqn:H; [|done].
  apply andb_true_iff in H. intros [= <-]. apply anth_insert_eq. unfold zlen. lia.
Qed.

Lemma anth_aset_ne l i j v l' : aset l i v = Some l' -> i <> j -> anth l' j = anth l j.
Proof.
  unfold aset. destruct ((0 <=? i) && (i <? Z.of_nat (length l))) eqn:H; [|done].
  apply andb_true_iff in H. intros [= <-] Hne. apply anth_insert_ne; lia.
Qed.

Lemma aset_zlen {A} (l l' : list A) i v : aset l i v = Some l' -> zlen l' = zlen l.
Proof. intros H. unfold zlen. by rewrite (aset_length _ _ _ _ H). Qed.

Lemma aset_total {A} (l : list A) i v : 0 <= i < zlen l -> exists l', aset l i v = Some l'.
Proof. intros H. rewrite aset_in by done. eauto. Qed.

Lemma mapM_pointwise {A B} (f : A -> option B) (g : A -> B) l :
  Forall (fun x => f x = Some (g x)) l -> mapM f l = Some (map g l).
Proof. induction 1 as [|x l Hx _ IH]; [done|]. cbn [mapM]. by rewrite Hx, IH. Qed.

Lemma Forall_seqZ (P : Z -> Prop) m n : (forall i, m <= i < m + n -> P i) -> Forall P (seqZ m n).
Proof. intros H. apply Forall_forall. intros i Hi. apply list_elem_of_In, elem_of_seqZ in Hi. by apply H. Qed.

Lemma copy_head_ok size v :
  9 <= size -> size + 9 <= zlen v ->
  exists v', copy_head size v = Some v' /\ zlen v' = zlen v
    /\ (forall j, 0 <= j < 9 -> anth v' (size + j) = anth v j)
    /\ (forall j, j < size \/ size + 9 <= j -> anth v' j = anth v j).
Proof.
  intros H9 Hv. unfold copy_head.
  destruct (for_loop_inv (fun i u => zlen u = zlen v /\ (forall j, 0 <= j < i -> anth u (size + j) = anth v j)
      /\ (forall j, j < size \/ size + i <= j -> anth u j = anth v j))
    (fun j v => x ← aget v j; aset v (j + size) x) 9 0 v) as (v' & Hl & Hz & Hc & Hr).
  - intros i u Hi (Hz & Hc & Hr). rewrite (aget_anth u) by lia. cbn [mbind option_bind].
    destruct (aset_total u (i + size) (anth u i)) as [u' Hu']; [lia|]. exists u'. split; [done|].
    split_and!; [by rewrite (aset_zlen _ _ _ _ Hu')| |].
    + intros j Hj. destruct (decide (j = i)) as [->|].
      * rewrite (Z.add_comm size), (anth_aset_eq _ _ _ _ Hu'). apply Hr. lia.
      * rewrite (anth_aset_ne _ _ _ _ _ Hu') by lia. apply Hc. lia.
    + intros j Hj. rewrite (anth_aset_ne _ _ _ _ _ Hu') by lia. apply Hr. lia.
  - split_and!; [done|lia|done].
  - eauto.
Qed.

(** ** One round of the shifting loop *)
Section Shift.
Context (nl : Z) (lines : list (list Z)) (value : Z -> Z) (q : Z).
Hypothesis Hnl : nl = 8 \/ nl = 16.

Definition old_line (m : Z) (v offset : list Z) : Prop :=
  placed nl q (10 * nl) m offset
  /\ forall k, 0 <= k < 9 -> anth v (anth offset m + k) = anth (line lines m) k.
Definition new_line (m : Z) (v offset : list Z) : Prop :=
  placed nl (q - 1) (10 * nl - 1) m offset
  /\ forall k, 0 <= k < 10 -> anth v (anth offset m + k) = anth (value m :: line lines m) k.

Definition shifting (i : Z) (s : list Z * list Z) : Prop :=
  zlen (fst s) = 170 /\ zlen (snd s) = 16
  /\ (forall m, i <= m < nl -> old_line m (fst s) (snd s))
  /\ (forall m, 0 <= m < i -> new_line m (fst s) (snd s)).

Lemma anth_cons_succ x l k : 0 <= k -> anth (x :: l) (k + 1) = anth l k.
Proof using Type.
  intros Hk. unfold anth, aget. rewrite !(proj2 (Z.leb_le _ _)) by lia.
  replace (Z.to_nat (k + 1)) with (S (Z.to_nat k)) by lia. done.
Qed.

(** The cell [p] the new value goes to, the ring before the store being [u]. *)
Lemma store_ok i v offset u p v' off' :
  0 <= i < nl -> shifting i (v, offset) ->
  (exists t, p = q - 1 + 10 * t /\ t mod nl = i /\ 0 <= p < 10 * nl) ->
  zlen u = 170 ->
  (forall k, 0 <= k < 9 -> anth u (p + 1 + k) = anth (line lines i) k) ->
  (forall m, 0 <= m < nl -> m <> i ->
     forall k, 0 <= k < (if m <? i then 10 else 9) -> anth u (anth offset m + k) = anth v (anth offset m + k)) ->
  aset u p (value i) = Some v' -> aset offset i p = Some off' ->
  shifting (i + 1) (v', off').
Proof using Hnl.
  intros Hi (Hzv & Hzo & Hold & Hnew) (t & Hp & Ht & Hpr) Hzu Hself Hoth Hv' Hoff'. simpl in *.
  split_and!; simpl; [by rewrite (aset_zlen _ _ _ _ Hv')|by rewrite (aset_zlen _ _ _ _ Hoff')| |].
  - intros m Hm. destruct (Hold m ltac:(lia)) as [(tm & Hm1 & Hm2 & Hm3) Hc]. unfold old_line, placed.
    rewrite (anth_aset_ne _ _ _ _ _ Hoff') by lia. split; [by exists tm|]. intros k Hk.
    rewrite (anth_aset_ne _ _ _ _ _ Hv') by lia. rewrite Hoth by (try case_match; lia). by apply Hc.
  - intros m Hm. destruct (decide (m = i)) as [->|Hne].
    + unfold new_line, placed. rewrite (anth_aset_eq _ _ _ _ Hoff'). split; [exists t; split_and!; lia|].
      intros k Hk. destruct (decide (k = 0)) as [->|].
      * rewrite Z.add_0_r, (anth_aset_eq _ _ _ _ Hv'). done.
      * rewrite (anth_aset_ne _ _ _ _ _ Hv') by lia. replace (p + k) with (p + 1 + (k - 1)) by lia.
        rewrite Hself by lia. replace k with (k - 1 + 1) at 2 by lia. by rewrite anth_cons_succ by lia.
    + destruct (Hnew m ltac:(lia)) as [(tm & Hm1 & Hm2 & Hm3) Hc]. unfold new_line, placed.
      rewrite (anth_aset_ne _ _ _ _ _ Hoff') by lia. split; [by exists tm|]. intros k Hk.
      assert (p <> anth offset m + k) as Hpm.
      { intros He. assert (k = 0) by lia. assert (t = tm) by lia. congruence. }
      rewrite (anth_aset_ne _ _ _ _ _ Hv') by done.
      rewrite Hoth by (try done; try lia; destruct (Z.ltb_spec m i); lia). by apply Hc.
Qed.

Lemma shift_in_ok i s :
  0 <= i < nl -> shifting i s ->
  exists s', shift_in (10 * nl) i (value i) s = Some s' /\ shifting (i + 1) s'.
Proof using Hnl.
  destruct s as [v offset]. intros Hi Hs. pose proof Hs as (Hzv & Hzo & Hold & Hnew). simpl in Hzv, Hzo.
  destruct (Hold i ltac:(lia)) as [(t & Ht1 & Ht2 & Ht3) Hci]. simpl in *.
  unfold shift_in. rewrite (aget_anth offset) by (destruct Hnl; lia). cbn [mbind option_bind].
  destruct (Z.ltb_spec (anth offset i - 1) 0) as [Hneg|Hpos].
  - destruct (copy_head_ok (10 * nl) v) as (u & -> & Hzu & Hcopy & Hkeep); [destruct Hnl; lia..|].
    cbn [mbind option_bind].
    destruct (aset_total u (10 * nl - 1) (value i)) as [v' Hv']; [destruct Hnl; lia|].
    destruct (aset_total offset i (10 * nl - 1)) as [off' Hoff']; [destruct Hnl; lia|].
    rewrite Hv'. cbn [mbind option_bind]. rewrite Hoff'. cbn [mbind option_bind]. eexists. split; [reflexivity|].
    eapply (store_ok i v offset u); try done.
    + exists (t + nl). split_and!; [lia| |destruct Hnl; lia..].
      replace (t + nl) with (t + 1 * nl) by lia. rewrite Z.mod_add by (destruct Hnl; lia). done.
    + by rewrite Hzu.
    + intros k Hk. replace (10 * nl - 1 + 1 + k) with (10 * nl + k) by lia. rewrite Hcopy by done.
      rewrite <- Hci by done. f_equal. lia.
    + intros m Hm Hne k Hk. apply Hkeep. left. destruct (Z.ltb_spec m i).
      * destruct (Hnew m ltac:(lia)) as [(tm & Hm1 & Hm2 & Hm3) _].
        assert (tm <> t + nl); [|lia]. intros ->. replace (t + nl) with (t + 1 * nl) in Hm2 by lia.
        rewrite Z.mod_add in Hm2 by (destruct Hnl; lia). congruence.
      * destruct (Hold m ltac:(lia)) as [(tm & Hm1 & Hm2 & Hm3) _].
        assert (tm <> t + nl); [|lia]. intros ->. replace (t + nl) with (t + 1 * nl) in Hm2 by lia.
        rewrite Z.mod_add in Hm2 by (destruct Hnl; lia). congruence.
  - destruct (aset_total v (anth offset i - 1) (value i)) as [v' Hv']; [destruct Hnl; lia|].
    destruct (aset_total offset i (anth offset i - 1)) as [off' Hoff']; [destruct Hnl; lia|].
    rewrite Hv'. cbn [mbind option_bind]. rewrite Hoff'. cbn [mbind option_bind]. eexists. split; [reflexivity|].
    eapply (store_ok i v offset v); try done.
    + exists t. split_and!; (done || lia).
    + intros k Hk. rewrite <- Hci by done. f_equal. lia.
Qed.
End Shift.

(** ** One block *)
Definition samples_at (f : sbc_frame) (blk ch : Z) : list Z :=
  default [] (aget (default [] (aget (sb_sample f) blk)) ch).

Lemma sbc_clip16_range s : is_i16 (sbc_clip16 s).
Proof. unfold sbc_clip16, is_i16. zcases; lia. Qed.

Section Block.
Context (n : Z) (scale : Z -> Z) (matrix : list (list Z)) (m0 m1 : list Z).
Hypothesis Hn : n = 4 \/ n = 8.
Hypothesis Hmat : zlen matrix = 2 * n /\ Forall (fun row : list Z => zlen row <= 8) matrix.
Hypothesis Hm0 : zlen m0 = 5 * n.
Hypothesis Hm1 : zlen m1 = 5 * n.

Lemma matrix_value_ok samples i :
  zlen samples = 8 -> 0 <= i < 2 * n ->
  matrix_value scale matrix samples i = Some (new_value scale matrix samples i).
Proof using Hmat.
  intros Hs Hi. destruct Hmat as [Hl Hr]. unfold new_value, matrix_value.
  destruct (aget_in matrix i) as [row Hrow]; [lia|]. rewrite Hrow. cbn [mbind option_bind].
  pose proof (aget_Forall _ _ _ _ Hr Hrow) as Hle. cbv beta in Hle.
  erewrite (mapM_pointwise _ (fun k => (anth row k, anth samples k))); [done|].
  apply Forall_seqZ. intros k Hk. rewrite (aget_anth row), (aget_anth samples) by lia. done.
Qed.

Lemma land15_small k : 0 <= k < 16 -> k .& 0xf = k.
Proof using Type. intros. apply land15. unfold is_u4. lia. Qed.

Lemma output_sample_ok lines samples v offset q i :
  zlen v = 170 -> zlen offset = 16 -> 0 <= i < n ->
  (forall m, 0 <= m < 2 * n -> new_line (2 * n) lines (new_value scale matrix samples) q m v offset) ->
  output_sample scale n v offset m0 m1 i = Some (spec_output n scale matrix m0 m1 lines samples i).
Proof using Hn Hm0 Hm1 Hmat.
  intros Hzv Hzo Hi Hnew. unfold output_sample. cbv zeta. rewrite land15_small by lia.
  unfold taps. rewrite (mapM_pointwise _ (fun t =>
    (anth (pushed scale matrix lines samples (if Z.even t then i else i + n)) t,
     anth (if Z.even t then m0 else m1) (5 * i + t / 2)))); [done|].
  apply Forall_seqZ. intros t Ht. set (m := if Z.even t then i else i + n).
  assert (0 <= m < 2 * n) as Hm by (subst m; case_match; lia).
  destruct (Hnew m Hm) as [(tm & Hm1' & _ & Hm3) Hc].
  rewrite (aget_anth offset) by lia. cbn [mbind option_bind].
  rewrite (aget_anth v) by lia. cbn [mbind option_bind]. rewrite Hc by lia.
  assert (0 <= t / 2 < 5) by (split; [apply Z.div_pos|apply Z.div_lt_upper_bound]; lia).
  rewrite aget_anth by (case_match; lia). done.
Qed.

Lemma store_outputs_ok lines samples v offset q blk pcm :
  zlen v = 170 -> zlen offset = 16 -> zlen pcm = 128 -> Forall is_i16 pcm -> 0 <= blk < 16 ->
  (forall m, 0 <= m < 2 * n -> new_line (2 * n) lines (new_value scale matrix samples) q m v offset) ->
  exists pcm', for_loop (Z.to_nat n) 0 (fun i pcm =>
      x ← output_sample scale n v offset m0 m1 i; aset pcm (blk * n + i) x) pcm = Some pcm'
    /\ zlen pcm' = 128 /\ Forall is_i16 pcm'
    /\ forall x, 0 <= x -> anth pcm' x = if decide (blk * n <= x < blk * n + n)
         then spec_output n scale matrix m0 m1 lines samples (x - blk * n) else anth pcm x.
Proof using Hn Hm0 Hm1 Hmat.
  intros Hzv Hzo Hzp Hp Hblk Hnew.
  destruct (for_loop_inv (fun i p => zlen p = 128 /\ Forall is_i16 p /\
      forall x, 0 <= x -> anth p x = if decide (blk * n <= x < blk * n + i)
         then spec_output n scale matrix m0 m1 lines samples (x - blk * n) else anth pcm x)
    (fun i pcm => x ← output_sample scale n v offset m0 m1 i; aset pcm (blk * n + i) x) (Z.to_nat n) 0 pcm)
    as (pcm' & Hl & Hz & Hf & Hx).
  - intros i p Hi (Hz & Hf & Hx). rewrite (output_sample_ok lines samples v offset q) by (done || lia).
    cbn [mbind option_bind].
    destruct (aset_total p (blk * n + i) (spec_output n scale matrix m0 m1 lines samples i)) as [p' Hp'];
      [destruct Hn; subst; lia|]. exists p'. split; [done|]. split_and!.
    + by rewrite (aset_zlen _ _ _ _ Hp').
    + unfold aset in Hp'. case_match; [|done]. injection Hp' as <-. apply Forall_insert; [done|].
      apply sbc_clip16_range.
    + intros x Hx0. destruct (decide (x = blk * n + i)) as [->|Hne].
      * rewrite (anth_aset_eq _ _ _ _ Hp'), decide_True by lia. f_equal. lia.
      * rewrite (anth_aset_ne _ _ _ _ _ Hp'), Hx by lia.
        by rewrite (decide_ext (blk * n <= x < blk * n + i) (blk * n <= x < blk * n + (i + 1))) by lia.
  - split_and!; try done. intros x Hx0. by rewrite decide_False by lia.
  - exists pcm'. split_and!; try done. rewrite Z2Nat.id in Hx by lia. exact Hx.
Qed.

(** The decoder state implements a bank of shift registers per channel. *)
Definition dec_rel (L : Z -> list (list Z)) (st : decoder_state) : Prop :=
  zlen (ds_V st) = 2 /\ zlen (ds_offset st) = 2 /\
  forall ch, 0 <= ch < 2 -> ring_rel (2 * n) (L ch)
    (default [] (aget (ds_V st) ch)) (default [] (aget (ds_offset st) ch)).

Lemma line_spec_lines lines samples m :
  0 <= m < 2 * n -> line (spec_lines n scale matrix lines samples) m = take 9 (pushed scale matrix lines samples m).
Proof using Hn.
  intros Hm. unfold line, spec_lines, aget. rewrite (proj2 (Z.leb_le _ _)) by lia.
  rewrite list_lookup_fmap, lookup_seqZ_lt by lia. cbn [fmap option_fmap option_map from_option id].
  do 2 f_equal. lia.
Qed.

Lemma anth_take l k m : 0 <= k < Z.of_nat m -> anth (take m l) k = anth l k.
Proof using Type.
  intros Hk. unfold anth, aget. rewrite (proj2 (Z.leb_le _ _)) by lia. by rewrite lookup_take_lt by lia.
Qed.

Lemma default_aget_aset {A} (t t' : list (list A)) i r j :
  aset t i r = Some t' -> default [] (aget t' j) = if decide (j = i) then r else default [] (aget t j).
Proof using Type.
  unfold aset. destruct ((0 <=? i) && (i <? Z.of_nat (length t))) eqn:H; [|done].
  apply andb_true_iff in H. intros [= <-]. case_decide as Hd.
  - subst. rewrite aget_insert_eq by (unfold zlen; lia). done.
  - rewrite aget_insert_ne by lia. done.
Qed.

Lemma synthesize_ok L st f ch blk :
  dec_rel L st -> arr3_wf is_i32 (sb_sample f) -> arr2_wf 128 is_i16 (pcm_sample f) ->
  0 <= ch < 2 -> 0 <= blk < 16 ->
  exists st' p, synthesize n scale matrix m0 m1 st f ch blk = Some (st', set_pcm_sample f p)
    /\ ds_subbands st' = ds_subbands st
    /\ dec_rel (fun c => if decide (c = ch) then spec_lines n scale matrix (L ch) (samples_at f blk ch) else L c) st'
    /\ arr2_wf 128 is_i16 p
    /\ forall c x, 0 <= c < 2 -> 0 <= x -> anth2 p c x =
         if decide (c = ch /\ blk * n <= x < blk * n + n)
         then spec_output n scale matrix m0 m1 (L ch) (samples_at f blk ch) (x - blk * n)
         else anth2 (pcm_sample f) c x.
Proof using All.
  intros (HzV & HzO & Hrel) Hsb Hpcm Hch Hblk. unfold synthesize.
  destruct (aget_in (ds_V st) ch) as [v Hv]; [lia|]. destruct (aget_in (ds_offset st) ch) as [off Ho]; [lia|].
  destruct (Hrel ch Hch) as (Hzv & Hzo & q & Hlines). rewrite Hv in Hzv, Hlines. rewrite Ho in Hzo, Hlines.
  cbn [from_option id] in Hzv, Hzo, Hlines.
  rewrite Hv, Ho. cbn [mbind option_bind].
  destruct (aget_in (sb_sample f) blk) as [block Hblock]; [destruct Hsb as [Hl _]; unfold zlen; lia|].
  pose proof (aget_Forall _ _ _ _ (proj2 Hsb) Hblock) as [Hl2 Hr2].
  destruct (aget_in block ch) as [samples Hsamples]; [unfold zlen; lia|].
  pose proof (aget_Forall _ _ _ _ Hr2 Hsamples) as [Hl3 _].
  assert (samples_at f blk ch = samples) as Hsa by (unfold samples_at; rewrite Hblock; cbn; by rewrite Hsamples).
  rewrite Hblock. cbn [mbind option_bind]. rewrite Hsamples. cbn [mbind option_bind]. rewrite Hsa.
  destruct (for_loop_inv (shifting (2 * n) (L ch) (new_value scale matrix samples) q)
    (fun i s => value ← matrix_value scale matrix samples i; shift_in (20 * n) i value s)
    (Z.to_nat (2 * n)) 0 (v, off)) as ([v' off'] & -> & Hshift).
  { intros i s Hi Hs. rewrite matrix_value_ok by (unfold zlen; lia). cbn [mbind option_bind].
    replace (20 * n) with (10 * (2 * n)) by lia. apply shift_in_ok; [lia..|done]. }
  { split; [done|]. split; [done|].
    split; intros m Hm; [apply Hlines; lia|lia]. }
  cbn [mbind option_bind]. rewrite Z2Nat.id, Z.add_0_l in Hshift by lia.
  destruct Hshift as (Hzv' & Hzo' & _ & Hnew). simpl in Hzv', Hzo', Hnew.
  destruct (aget_in (pcm_sample f) ch) as [pcm Hp]; [destruct Hpcm as [Hl _]; unfold zlen; lia|].
  pose proof (aget_Forall _ _ _ _ (proj2 Hpcm) Hp) as [Hlp Hip].
  rewrite Hp. cbn [mbind option_bind].
  destruct (store_outputs_ok (L ch) samples v' off' q blk pcm) as (pcm' & -> & Hzp & Hfp & Hxp);
    try done; [unfold zlen; lia|]. cbn [mbind option_bind].
  destruct (aset_total (ds_V st) ch v') as [V' HV']; [lia|].
  destruct (aset_total (ds_offset st) ch off') as [O' HO']; [lia|].
  destruct (aset_total (pcm_sample f) ch pcm') as [P' HP']; [destruct Hpcm as [Hl _]; unfold zlen; lia|].
  rewrite HV'. cbn [mbind option_bind]. rewrite HO'. cbn [mbind option_bind]. rewrite HP'. cbn [mbind option_bind].
  do 2 eexists. split; [reflexivity|]. split; [done|]. split_and!.
  - unfold dec_rel. cbn. rewrite (aset_zlen _ _ _ _ HV'), (aset_zlen _ _ _ _ HO').
    split_and!; try done. intros c Hc.
    rewrite (default_aget_aset _ _ _ _ c HV'), (default_aget_aset _ _ _ _ c HO').
    destruct (decide (c = ch)) as [->|]; [|by apply Hrel]. split_and!; try done. exists (q - 1). intros m Hm.
    destruct (Hnew m Hm) as [(t & Ht1 & Ht2 & Ht3) Hc']. split; [exists t; split_and!; (done || lia)|].
    intros k Hk. rewrite line_spec_lines, anth_take by lia. apply Hc'. lia.
  - destruct Hpcm as [Hl Hf]. split; [by rewrite (aset_length _ _ _ _ HP')|].
    unfold aset in HP'. case_match; [|done]. injection HP' as <-. apply Forall_insert; [done|].
    split; [unfold zlen in *; lia|done].
  - intros c x Hc Hx. unfold anth2. rewrite (default_aget_aset _ _ _ _ c HP').
    destruct (decide (c = ch)) as [->|Hne]; [|by rewrite decide_False by tauto].
    rewrite Hxp by done. rewrite Hp. cbn [from_option id].
    by rewrite (decide_ext (ch = ch /\ blk * n <= x < blk * n + n) (blk * n <= x < blk * n + n)) by tauto.
Qed.
End Block.

(** ** A frame *)
Section Audio.
Context (n : Z) (scale : Z -> Z) (matrix : list (list Z)) (m0 m1 : list Z).

(** The delay lines after [b] blocks of channel [ch], and output sample [x] of the channel. *)
Definition lines_after (f : sbc_frame) (ch : Z) (lines : list (list Z)) (b : Z) : list (list Z) :=
  fold_left (fun l blk => spec_lines n scale matrix l (samples_at f blk ch)) (seqZ 0 b) lines.
Definition pcm_spec (f : sbc_frame) (ch : Z) (lines : list (list Z)) (x : Z) : Z :=
  spec_output n scale matrix m0 m1 (lines_after f ch lines (x / n)) (samples_at f (x / n) ch) (x mod n).

Hypothesis Hn : n = 4 \/ n = 8.
Hypothesis Hmat : zlen matrix = 2 * n /\ Forall (fun row : list Z => zlen row <= 8) matrix.
Hypothesis Hm0 : zlen m0 = 5 * n.
Hypothesis Hm1 : zlen m1 = 5 * n.

Lemma lines_after_succ f ch lines b : 0 <= b ->
  lines_after f ch lines (b + 1) = spec_lines n scale matrix (lines_after f ch lines b) (samples_at f b ch).
Proof using Type.
  intros Hb. unfold lines_after. rewrite seqZ_app by lia. rewrite fold_left_app. done.
Qed.

Context (f : sbc_frame) (L : Z -> list (list Z)).
Hypothesis Hsb : arr3_wf is_i32 (sb_sample f).
Hypothesis Hpcm : arr2_wf 128 is_i16 (pcm_sample f).

(** State of the loops: channels before [ch] done, [b] blocks of channel [ch] done. *)
Definition progress (sb ch b : Z) (s : decoder_state * sbc_frame) : Prop :=
  exists p, snd s = set_pcm_sample f p /\ ds_subbands (fst s) = sb /\ arr2_wf 128 is_i16 p
  /\ dec_rel n (fun c => if decide (c < ch) then lines_after f c (L c) (blocks f)
                       else if decide (c = ch) then lines_after f c (L c) b else L c) (fst s)
  /\ forall c x, 0 <= c < 2 -> 0 <= x -> anth2 p c x =
       if decide ((c < ch /\ x < blocks f * n) \/ (c = ch /\ x < b * n))
       then pcm_spec f c (L c) x else anth2 (pcm_sample f) c x.

Lemma dec_rel_ext K M st : dec_rel n K st -> (forall c, 0 <= c < 2 -> K c = M c) -> dec_rel n M st.
Proof using Type. intros (? & ? & Hr) He. split_and!; try done. intros c Hc. rewrite <- He by done. by apply Hr. Qed.

Lemma block_progress sb ch b s :
  0 <= ch < 2 -> 0 <= b < blocks f -> blocks f <= 16 -> progress sb ch b s ->
  exists s', (let '(st, g) := s in synthesize n scale matrix m0 m1 st g ch b) = Some s' /\ progress sb ch (b + 1) s'.
Proof using Hn Hmat Hm0 Hm1 Hsb.
  intros Hch Hb H16 (p & Hg & Hss & Hp & Hrel & Hall). destruct s as [st g]. simpl in *. subst g.
  destruct (synthesize_ok n scale matrix m0 m1 Hn Hmat Hm0 Hm1 _ st (set_pcm_sample f p) ch b Hrel Hsb Hp Hch ltac:(lia))
    as (st' & p' & -> & Hss' & Hrel' & Hp' & Hall').
  eexists. split; [reflexivity|]. exists p'. cbn [fst snd]. split_and!; [done|by rewrite Hss'|done| |].
  - eapply dec_rel_ext; [exact Hrel'|]. intros c Hc. cbv beta. destruct (decide (c = ch)) as [->|]; [|done].
    rewrite !(decide_False (P := ch < ch)), (decide_True (P := ch = ch)) by (done || lia). by rewrite lines_after_succ by lia.
  - intros c x Hc Hx. rewrite Hall' by done. cbv beta. change (pcm_sample (set_pcm_sample f p)) with p.
    destruct (decide (c = ch /\ b * n <= x < b * n + n)) as [[-> Hr]|Hr].
    + rewrite (decide_True (P := (ch < ch /\ x < blocks f * n) \/ (ch = ch /\ x < (b + 1) * n))) by lia.
      rewrite (decide_False (P := ch < ch)), (decide_True (P := ch = ch)) by (done || lia).
      unfold pcm_spec. replace (x / n) with b by (apply Z.div_unique with (x - b * n); lia).
      replace (x mod n) with (x - b * n) by (apply Z.mod_unique with b; lia). done.
    + rewrite Hall by done.
      by rewrite (decide_ext (c < ch /\ x < blocks f * n \/ c = ch /\ x < b * n)
                   (c < ch /\ x < blocks f * n \/ c = ch /\ x < (b + 1) * n)) by lia.
Qed.

Lemma channel_progress sb ch s :
  0 <= ch < 2 -> 0 <= blocks f <= 16 -> progress sb ch 0 s ->
  exists s', for_loop (Z.to_nat (blocks f)) 0 (fun blk '(st, g) => synthesize n scale matrix m0 m1 st g ch blk) s = Some s'
    /\ progress sb (ch + 1) 0 s'.
Proof using Hn Hmat Hm0 Hm1 Hsb.
  intros Hch Hb Hs.
  destruct (for_loop_inv (progress sb ch) (fun blk '(st, g) => synthesize n scale matrix m0 m1 st g ch blk)
    (Z.to_nat (blocks f)) 0 s) as (s' & Hl & (p & Hg & Hss & Hp & Hrel & Hall)); [|done|].
  - intros b [st g] Hr Hpr. apply (block_progress sb ch b (st, g)); (done || lia).
  - exists s'. split; [done|]. rewrite Z2Nat.id in * by lia. exists p. split_and!; try done.
    + eapply dec_rel_ext; [exact Hrel|]. intros c Hc. cbv beta. repeat case_decide; (done || lia || idtac).
      all: subst; try lia.
    + intros c x Hc Hx. rewrite Hall by done.
      by rewrite (decide_ext _ (c < ch + 1 /\ x < blocks f * n \/ c = ch + 1 /\ x < 0 * n)) by lia.
Qed.

Lemma frame_progress sb st :
  0 <= channels f <= 2 -> 0 <= blocks f <= 16 -> dec_rel n L st -> ds_subbands st = sb ->
  exists s', for_loop (Z.to_nat (channels f)) 0 (fun ch s =>
      for_loop (Z.to_nat (blocks f)) 0 (fun blk '(st, g) => synthesize n scale matrix m0 m1 st g ch blk) s) (st, f)
      = Some s' /\ progress sb (channels f) 0 s'.
Proof using All.
  intros Hc Hb Hrel Hss.
  destruct (for_loop_inv (fun ch => progress sb ch 0) (fun ch s =>
      for_loop (Z.to_nat (blocks f)) 0 (fun blk '(st, g) => synthesize n scale matrix m0 m1 st g ch blk) s)
    (Z.to_nat (channels f)) 0 (st, f)) as (s' & Hl & Hp).
  - intros ch s Hr Hpr. apply channel_progress; (done || lia).
  - exists (pcm_sample f). split_and!; try done; [by destruct f| |].
    + eapply dec_rel_ext; [exact Hrel|]. intros c Hc'. cbv beta. repeat case_decide; (done || lia).
    + intros c x Hc' Hx. by rewrite decide_False by lia.
  - exists s'. split; [done|]. by rewrite Z2Nat.id in Hp by lia.
Qed.
End Audio.

(** The tables of a frame with [nsb] subbands. *)
Definition synth_scale (nsb : Z) : Z -> Z := if nsb =? 4 then SCALE4_STAGED1 else SCALE8_STAGED1.
Definition synth_matrix (nsb : Z) : list (list Z) := if nsb =? 4 then synmatrix4 else synmatrix8.
Definition synth_m0 (nsb : Z) : list Z := if nsb =? 4 then sbc_proto_4_40m0 else sbc_proto_8_80m0.
Definition synth_m1 (nsb : Z) : list Z := if nsb =? 4 then sbc_proto_4_40m1 else sbc_proto_8_80m1.

Lemma synth_tables nsb : nsb = 4 \/ nsb = 8 ->
  (zlen (synth_matrix nsb) = 2 * nsb /\ Forall (fun row : list Z => zlen row <= 8) (synth_matrix nsb))
  /\ zlen (synth_m0 nsb) = 5 * nsb /\ zlen (synth_m1 nsb) = 5 * nsb.
Proof.
  intros [-> | ->]; split_and!; try reflexivity.
  all: apply (bool_decide_unpack _); vm_compute; exact I.
Qed.

(** Shift registers full of zeros. *)
Definition silent_lines (nsb : Z) : list (list Z) := replicate (Z.to_nat (2 * nsb)) (replicate 9 0).

(** The relation kept by a frame, from the registers [L] to the registers after it. *)
Definition frame_lines (f : sbc_frame) (L : Z -> list (list Z)) (ch : Z) : list (list Z) :=
  if decide (ch < channels f) then
    lines_after (subbands f) (synth_scale (subbands f)) (synth_matrix (subbands f)) f ch (L ch) (blocks f)
  else L ch.

Definition frame_pcm (f : sbc_frame) (L : Z -> list (list Z)) (ch x : Z) : Z :=
  pcm_spec (subbands f) (synth_scale (subbands f)) (synth_matrix (subbands f))
    (synth_m0 (subbands f)) (synth_m1 (subbands f)) f ch (L ch) x.

Lemma sbc_synthesize_audio_ok st f L :
  header_ok f -> frame_wf f -> dec_rel (subbands f) L st ->
  exists st' p, sbc_synthesize_audio st f = Some (blocks f * subbands f, st', set_pcm_sample f p)
    /\ ds_subbands st' = ds_subbands st /\ dec_rel (subbands f) (frame_lines f L) st'
    /\ arr2_wf 128 is_i16 p
    /\ forall ch x, 0 <= ch < channels f -> 0 <= x < blocks f * subbands f ->
         anth2 p ch x = frame_pcm f L ch x.
Proof.
  intros Hh Hwf Hrel. destruct (header_bounds f Hh) as (Hch & _ & Hbl & _).
  pose proof (hd_subbands f Hh) as Hn. destruct (synth_tables _ Hn) as (Hmat & Hm0 & Hm1).
  destruct (frame_progress (subbands f) (synth_scale (subbands f)) (synth_matrix (subbands f)) (synth_m0 (subbands f))
    (synth_m1 (subbands f)) Hn Hmat Hm0 Hm1 f L (wf_sb f Hwf) (wf_pcm f Hwf) (ds_subbands st) st
    ltac:(lia) Hbl Hrel eq_refl) as ([st' g] & Hloop & (p & Hg & Hss & Hp & Hr & Hall)).
  cbn [fst snd] in *. subst g. exists st', p. split_and!; try done.
  - unfold sbc_synthesize_audio. destruct Hn as [Hn|Hn]; rewrite Hn in Hloop |- *; cbn [Z.eqb Pos.eqb];
      unfold sbc_synthesize_four, sbc_synthesize_eight;
      change (synth_scale 4) with SCALE4_STAGED1 in Hloop; change (synth_scale 8) with SCALE8_STAGED1 in Hloop;
      change (synth_matrix 4) with synmatrix4 in Hloop; change (synth_matrix 8) with synmatrix8 in Hloop;
      change (synth_m0 4) with sbc_proto_4_40m0 in Hloop; change (synth_m0 8) with sbc_proto_8_80m0 in Hloop;
      change (synth_m1 4) with sbc_proto_4_40m1 in Hloop; change (synth_m1 8) with sbc_proto_8_80m1 in Hloop;
      rewrite Hloop; done.
  - eapply dec_rel_ext; [exact Hr|]. intros c Hc. unfold frame_lines. cbv beta. repeat case_decide; (done || lia).
  - intros ch x Hc Hx. rewrite Hall by lia. by rewrite decide_True by lia.
Qed.

(** ** Initialisation *)
Lemma sbc_decoder_init_ok st nsb :
  nsb = 4 \/ nsb = 8 -> zlen (ds_offset st) = 2 -> Forall (fun row : list Z => zlen row = 16) (ds_offset st) ->
  exists st', sbc_decoder_init st nsb = Some st' /\ ds_subbands st' = nsb
    /\ dec_rel nsb (fun _ => silent_lines nsb) st'.
Proof.
  intros Hn Hl Hr. unfold sbc_decoder_init.
  assert (forall row, zlen row = 16 -> exists row', init_offsets nsb row = Some row' /\ zlen row' = 16
    /\ forall i, 0 <= i < 2 * nsb -> anth row' i = 10 * i + 10) as Hrow.
  { intros row Hz. unfold init_offsets.
    destruct (for_loop_inv (fun i r => zlen r = 16 /\ forall j, 0 <= j < i -> anth r j = 10 * j + 10)
      (fun i row => aset row i (10 * i + 10)) (Z.to_nat (nsb * 2)) 0 row) as (r & Hl' & Hz' & Hj).
    - intros i r Hi [Hzr Hj]. destruct (aset_total r i (10 * i + 10)) as [r' Hr']; [lia|].
      exists r'. split; [done|]. split; [by rewrite (aset_zlen _ _ _ _ Hr')|]. intros k Hk.
      destruct (decide (k = i)) as [->|]; [apply (anth_aset_eq _ _ _ _ Hr')|].
      rewrite (anth_aset_ne _ _ _ _ _ Hr') by lia. apply Hj. lia.
    - split; [done|lia].
    - exists r. split_and!; try done. intros i Hi. apply Hj. lia. }
  destruct (ds_offset st) as [|r0 [|r1 [|]]]; try (unfold zlen in Hl; simpl in Hl; lia).
  inversion_clear Hr as [|?? Hz0 Hr']. inversion_clear Hr' as [|?? Hz1 _].
  destruct (Hrow r0 Hz0) as (o0 & E0 & Hzo0 & Ho0). destruct (Hrow r1 Hz1) as (o1 & E1 & Hzo1 & Ho1).
  cbn [mapM]. rewrite E0, E1. cbn [mbind option_bind]. eexists. split; [reflexivity|]. split; [done|].
  split_and!; try done. intros ch Hch. cbn [ds_V ds_offset].
  assert (forall off, zlen off = 16 -> (forall i, 0 <= i < 2 * nsb -> anth off i = 10 * i + 10) ->
    ring_rel (2 * nsb) (silent_lines nsb) (replicate 170 0) off) as Hring.
  { intros off Hz Ho. split_and!; [done|done|]. exists 10. intros m Hm. split.
    - exists m. rewrite Ho by lia. split_and!; [lia|apply Z.mod_small; lia|lia|lia].
    - intros k Hk. rewrite Ho by lia. unfold line, silent_lines.
      assert (forall j c, anth (replicate c 0) j = 0) as Hzero.
      { intros j c. unfold anth, aget. case_match; [|done]. destruct (replicate c 0 !! Z.to_nat j) eqn:E; [|done].
        by apply lookup_replicate in E as [-> _]. }
      rewrite Hzero. unfold aget. rewrite (proj2 (Z.leb_le _ _)) by lia.
      rewrite lookup_replicate_2 by lia. cbn [from_option id]. by rewrite Hzero. }
  assert (ch = 0 \/ ch = 1) as [-> | ->] by lia; apply Hring; done.
Qed.

(** C22. Refinement of the synthesis filter bank: [sbc_synthesize_audio] keeps the ring buffers
    [V] and their [offset]s a representation of [2 * subbands] ten-place shift registers per
    channel, pushes each block's matrixed samples into them, and stores as each PCM sample the
    windowed sum of the registers, clipped to 16 bits; nothing is read or written outside the
    arrays. *)
Theorem sbc_synthesize_audio_refines (st : decoder_state) (f : sbc_frame) (L : Z -> list (list Z)) :
  header_ok f -> frame_wf f -> dec_rel (subbands f) L st ->
  exists st' p, sbc_synthesize_audio st f = Some (blocks f * subbands f, st', set_pcm_sample f p)
    /\ dec_rel (subbands f) (frame_lines f L) st' /\ arr2_wf 128 is_i16 p
    /\ forall ch x, 0 <= ch < channels f -> 0 <= x < blocks f * subbands f ->
         anth2 p ch x = frame_pcm f L ch x.
Proof.
  intros Hh Hwf Hrel. destruct (sbc_synthesize_audio_ok st f L Hh Hwf Hrel) as (st' & p & ? & _ & ? & ? & ?).
  by exists st', p.
Qed.

(** A decoder initialised for 4 subbands and a frame of 4 blocks. *)
Definition synth_state : decoder_state := default decoder_state0 (sbc_decoder_init decoder_state0 4).
Definition synth_frame : sbc_frame := set_sb_sample enc_frame (sb_sample_f enc_frame).

Lemma synth_state_rel : dec_rel 4 (fun _ => silent_lines 4) synth_state.
Proof.
  destruct (sbc_decoder_init_ok decoder_state0 4) as (st & E & _ & R);
    [by left|done|by repeat constructor|]. unfold synth_state. rewrite E. exact R.
Qed.

Lemma synth_frame_wf : header_ok synth_frame /\ frame_wf synth_frame.
Proof.
  split; [|split; by_compute]. by apply (header_ok_same enc_frame); [apply (en_header _ enc_frame_ok)|..].
Qed.

Lemma sbc_synthesize_audio_refines_witness :
  exists st' p, sbc_synthesize_audio synth_state synth_frame = Some (16, st', set_pcm_sample synth_frame p)
    /\ dec_rel 4 (frame_lines synth_frame (fun _ => silent_lines 4)) st' /\ arr2_wf 128 is_i16 p
    /\ forall ch x, 0 <= ch < 1 -> 0 <= x < 16 ->
         anth2 p ch x = frame_pcm synth_frame (fun _ => silent_lines 4) ch x.
Proof.
  exact (sbc_synthesize_audio_refines synth_state synth_frame (fun _ => silent_lines 4)
    (proj1 synth_frame_wf) (proj2 synth_frame_wf) synth_state_rel).
Defined.

Example synth_frame_pcm :
  (fun '(r, _, f) => (r, take 4 (default [] (aget (pcm_sample f) 0)))) <$> sbc_synthesize_audio synth_state
    (set_sb_sample synth_frame (replicate 16 (replicate 2 [20000; 0; 0; 0; 0; 0; 0; 0])))
  = Some (16, [0; -34; 0; 167]).
Proof. vm_compute. reflexivity. Qed.
