(* ===== verification/SbcApi.v ===== *)
(** The interface of the SBC codec: [sbc_t], [sbc_init], [sbc_decode], [sbc_encode] and the
    size queries of src/mediatek/bluetooth/btremoted/msbc.c. *)
From S2P Require Import Prelude SbcTables SbcCrc SbcBits SbcFrame SbcStream SbcPack SbcSynth.

(** ** The encoder primitives

    [sbc_init_primitives] chooses them at run time; they are not part of this program. Each is
    a function on the arrays it is given a pointer to. *)
Record primitives := mk_prims {
  (** [x] is an index into the row [X[ch]]; the result holds the subbands of four blocks *)
  pr_analyze_4s : list Z -> Z -> list (list Z);
  pr_analyze_8s : list Z -> Z -> list (list Z);
  (** position, pcm, X, nsamples, nchannels: (position, X) *)
  pr_input_4s_le : Z -> list Z -> list (list Z) -> Z -> Z -> Z * list (list Z);
  pr_input_4s_be : Z -> list Z -> list (list Z) -> Z -> Z -> Z * list (list Z);
  pr_input_8s_le : Z -> list Z -> list (list Z) -> Z -> Z -> Z * list (list Z);
  pr_input_8s_be : Z -> list Z -> list (list Z) -> Z -> Z -> Z * list (list Z);
  (** sb_sample_f, scale_factor, blocks, channels, subbands: scale_factor *)
  pr_scalefactors : list (list (list Z)) -> list (list Z) -> Z -> Z -> Z -> list (list Z);
  (** sb_sample_f, scale_factor, blocks, subbands: (joint, sb_sample_f, scale_factor) *)
  pr_scalefactors_j : list (list (list Z)) -> list (list Z) -> Z -> Z
                      -> Z * list (list (list Z)) * list (list Z);
  pr_implementation_info : Z
}.

(** ** struct sbc_encoder_state, struct sbc_priv, sbc_t *)
Record encoder_state := mk_es {
  es_position : Z;
  es_X : list (list Z);                   (* [2][328] *)
  es_prims : option primitives            (* null until [sbc_encoder_init] *)
}.

Definition encoder_state0 : encoder_state := mk_es 0 (replicate 2 (replicate 328 0)) None.

Record sbc_priv := mk_priv {
  p_init : Z;
  p_frame : sbc_frame;
  p_dec : decoder_state;
  p_enc : encoder_state
}.

Definition priv0 : sbc_priv := mk_priv 0 frame0 decoder_state0 encoder_state0.

Record sbc_t := mk_sbc {
  s_flags : Z;
  s_frequency : Z;
  s_blocks : Z;
  s_subbands : Z;
  s_mode : Z;
  s_allocation : Z;
  s_bitpool : Z;
  s_endian : Z;
  s_priv : option sbc_priv
}.

Definition sbc_zero : sbc_t := mk_sbc 0 0 0 0 0 0 0 0 None.

Definition set_priv (s : sbc_t) (p : sbc_priv) : sbc_t :=
  mk_sbc (s_flags s) (s_frequency s) (s_blocks s) (s_subbands s) (s_mode s) (s_allocation s)
    (s_bitpool s) (s_endian s) (Some p).
Definition set_sbitpool (s : sbc_t) (b : Z) : sbc_t :=
  mk_sbc (s_flags s) (s_frequency s) (s_blocks s) (s_subbands s) (s_mode s) (s_allocation s)
    b (s_endian s) (s_priv s).
Definition set_frame (p : sbc_priv) (f : sbc_frame) : sbc_priv := mk_priv (p_init p) f (p_dec p) (p_enc p).
Definition set_dec (p : sbc_priv) (d : decoder_state) : sbc_priv := mk_priv (p_init p) (p_frame p) d (p_enc p).
Definition set_enc (p : sbc_priv) (e : encoder_state) : sbc_priv := mk_priv (p_init p) (p_frame p) (p_dec p) e.
Definition set_init (p : sbc_priv) (i : Z) : sbc_priv := mk_priv i (p_frame p) (p_dec p) (p_enc p).

Definition ENOMEM : Z := 12.
Definition ENOSPC : Z := 28.

(** ** Initialisation *)
Definition sbc_set_defaults (s : sbc_t) : sbc_t :=
  mk_sbc (s_flags s) SBC_FREQ_44100 SBC_BLK_16 SBC_SB_8 SBC_MODE_STEREO (s_allocation s) 32 SBC_LE (s_priv s).

(** [malloc_ok]: whether the allocation of the private area succeeds. *)
Definition sbc_init (s : option sbc_t) (malloc_ok : bool) : Z * option sbc_t :=
  match s with
  | None => (- EIO, None)
  | Some _ =>
      if malloc_ok then (0, Some (sbc_set_defaults (set_priv sbc_zero priv0)))
      else (- ENOMEM, Some sbc_zero)
  end.

Definition sbc_finish (s : option sbc_t) : option sbc_t :=
  match s with None => None | Some _ => Some sbc_zero end.

Definition sbc_reinit (s : option sbc_t) : Z * option sbc_t :=
  match s with
  | Some t =>
      match s_priv t with
      | Some p => (0, Some (sbc_set_defaults (if p_init p =? 1 then set_priv t priv0 else t)))
      | None => (- EIO, s)
      end
  | None => (- EIO, s)
  end.

Definition sbc_encoder_init (prims : primitives) (e : encoder_state) (frame_subbands : Z) : encoder_state :=
  mk_es ((SBC_X_BUFFER_SIZE - frame_subbands * 9) .& Z.lnot 7) (replicate 2 (replicate 328 0)) (Some prims).

Definition sbc_get_implementation_info (s : option sbc_t) : option Z :=
  t ← s; p ← s_priv t; r ← es_prims (p_enc p); Some (pr_implementation_info r).

(** ** Sizes *)
Definition sbc_get_codesize (s : sbc_t) (p : sbc_priv) : Z :=
  let '(subbands, blocks, channels) :=
    if p_init p =? 0 then
      (if s_subbands s =? 0 then 4 else 8, u16 (4 + s_blocks s * 4), if s_mode s =? SBC_MODE_MONO then 1 else 2)
    else (subbands (p_frame p), blocks (p_frame p), channels (p_frame p)) in
  subbands * blocks * channels * 2.

(** The computation of [sbc_get_frame_length] when it does not answer from the frame. *)
Definition frame_length_of (s : sbc_t) : Z :=
  let subbands := if s_subbands s =? 0 then 4 else 8 in
  let blocks := u8 (4 + s_blocks s * 4) in
  let channels := if s_mode s =? SBC_MODE_MONO then 1 else 2 in
  let joint := if s_mode s =? SBC_MODE_JOINT_STEREO then 1 else 0 in
  let bitpool := s_bitpool s in
  let ret := 4 + (4 * subbands * channels) / 8 in
  if channels =? 1 then ret + (blocks * channels * bitpool + 7) / 8
  else ret + ((if joint =? 0 then 0 else subbands) + blocks * bitpool + 7) / 8.

Definition sbc_get_frame_length (s : sbc_t) (p : sbc_priv) : Z :=
  if negb (p_init p =? 0) && (bitpool (p_frame p) =? s_bitpool s) then flength (p_frame p)
  else frame_length_of s.

Definition sbc_get_frame_duration (s : sbc_t) (p : sbc_priv) : Z :=
  let '(subbands, blocks) :=
    if p_init p =? 0 then (if s_subbands s =? 0 then 4 else 8, u8 (4 + s_blocks s * 4))
    else (subbands (p_frame p), blocks (p_frame p)) in
  let duration frequency := (1000000 * blocks * subbands) / frequency in
  if s_frequency s =? SBC_FREQ_16000 then duration 16000
  else if s_frequency s =? SBC_FREQ_32000 then duration 32000
  else if s_frequency s =? SBC_FREQ_44100 then duration 44100
  else if s_frequency s =? SBC_FREQ_48000 then duration 48000
  else 0.

(** ** sbc_decode *)

(** The two octets of a sample, in the order of [endian]. *)
Definition sample_octets (endian s : Z) : list Z :=
  let hi := (s .& 0xff00) ≫ 8 in
  let lo := s .& 0x00ff in
  if endian =? SBC_BE then [hi; lo] else [lo; hi].

(** [*ptr++] for each octet. *)
Fixpoint store_octets (out : list Z) (ptr : Z) (octets : list Z) : option (list Z) :=
  match octets with
  | [] => Some out
  | o :: octets => out ← aset out ptr o; store_octets out (ptr + 1) octets
  end.

Definition write_samples (out : list Z) (f : sbc_frame) (endian samples : Z) : option (list Z) :=
  '(out, _) ← for_loop (Z.to_nat samples) 0 (fun i s =>
    for_loop (Z.to_nat (channels f)) 0 (fun ch '(out, ptr) =>
      row ← aget (pcm_sample f) ch;
      x ← aget row i;
      out ← store_octets out ptr (sample_octets endian x);
      Some (out, ptr + 2)) s) (out, 0);
  Some out.

(** What [sbc_decode] does to the codec state after unpacking into [f]. *)
Definition decode_update (s : sbc_t) (p : sbc_priv) (f : sbc_frame) (framelen : Z) : option (sbc_t * sbc_priv) :=
  let p := set_frame p f in
  if p_init p =? 0 then
    dec ← sbc_decoder_init (p_dec p) (subbands f);
    let p := set_init (set_dec p dec) 1 in
    let s := mk_sbc (s_flags s) (frequency f) (block_mode f) (subband_mode f) (mode f) (allocation f)
               (bitpool f) (s_endian s) (s_priv s) in
    Some (s, set_frame p (set_sizes f (u16 (sbc_get_codesize s p)) (u8 framelen)))
  else if negb (bitpool f =? s_bitpool s) then
    Some (set_sbitpool s (bitpool f), set_frame p (set_sizes f (codesize f) (u8 framelen)))
  else Some (s, p).

(** Result, codec, output buffer and [*written]; the last two are null when not wanted. *)
Record decode_result := mk_dr { dr_ret : Z; dr_sbc : option sbc_t; dr_output : option (list Z); dr_written : option Z }.

(** [None] is a null dereference of [sbc->priv] or an access outside the arrays. *)
Definition sbc_decode (sbc : option sbc_t) (input : option (list Z)) (input_len : Z)
    (output : option (list Z)) (output_len : Z) (written : option Z) : option decode_result :=
  match sbc, input with
  | Some s, Some data =>
      p ← s_priv s;
      '(framelen, f) ← sbc_unpack_frame data (p_frame p) input_len;
      '(s, p) ← decode_update s p f framelen;
      match output with
      | None => Some (mk_dr framelen (Some (set_priv s p)) None written)
      | Some out =>
          let written0 := (fun _ => 0) <$> written in
          if framelen <=? 0 then Some (mk_dr framelen (Some (set_priv s p)) output written0)
          else
            '(samples, dec, f) ← sbc_synthesize_audio (p_dec p) (p_frame p);
            let p := set_frame (set_dec p dec) f in
            let samples := if output_len <? samples * channels f * 2
                           then output_len / (channels f * 2) else samples in
            out ← write_samples out f (s_endian s) samples;
            Some (mk_dr framelen (Some (set_priv s p)) (Some out)
                    ((fun _ => samples * channels f * 2) <$> written))
      end
  | _, _ => Some (mk_dr (- EIO) sbc output written)
  end.

Definition sbc_parse (sbc : option sbc_t) (input : option (list Z)) (input_len : Z) : option decode_result :=
  sbc_decode sbc input input_len None 0 None.

(** ** sbc_encode *)

(** The subbands of blocks [blk] to [blk + 3] of channel [ch], as the analysis filter writes
    them through its output pointer and stride. *)
Definition store_blocks (t : list (list (list Z))) (blk ch : Z) (rows : list (list Z)) : list (list (list Z)) :=
  fold_left (fun t k => fold_left (fun t sb => upd3 t (blk + k) ch sb (anth2 rows k sb))
    (seqZ 0 (zlen (default [] (aget rows k)))) t) (seqZ 0 4) t.

(** [for (blk = 0; blk < blocks; blk += 4)], [x] going down by [4 * nsb] each time. *)
Definition analyze (run : list Z -> Z -> list (list Z)) (nsb : Z) (e : encoder_state) (f : sbc_frame)
    : option (list (list (list Z))) :=
  for_loop (Z.to_nat (channels f)) 0 (fun ch t =>
    x ← aget (es_X e) ch;
    for_loop (Z.to_nat ((blocks f + 3) / 4)) 0 (fun i t =>
      Some (store_blocks t (4 * i) ch
        (run x (es_position e - 4 * nsb + blocks f * nsb - 4 * nsb * i)))) t) (sb_sample_f f).

Definition sbc_analyze_audio (e : encoder_state) (f : sbc_frame) : option (Z * sbc_frame) :=
  prims ← es_prims e;
  if subbands f =? 4 then
    t ← analyze (pr_analyze_4s prims) 4 e f; Some (blocks f * 4, set_sb_sample_f f t)
  else if subbands f =? 8 then
    t ← analyze (pr_analyze_8s prims) 8 e f; Some (blocks f * 8, set_sb_sample_f f t)
  else Some (- EIO, f).

(** The set-up at the head of [sbc_encode]; [init_prims] is what [sbc_init_primitives] installs. *)
Definition encode_update (init_prims : primitives) (s : sbc_t) (p : sbc_priv) : sbc_priv :=
  if p_init p =? 0 then
    let f := set_header (p_frame p) (s_frequency s) (s_blocks s) (u8 (4 + s_blocks s * 4)) (s_mode s)
               (if s_mode s =? SBC_MODE_MONO then 1 else 2) (s_allocation s) (s_subbands s)
               (if s_subbands s =? 0 then 4 else 8) (s_bitpool s) in
    let f := set_sizes f (u16 (sbc_get_codesize s (set_frame p f))) (u8 (sbc_get_frame_length s (set_frame p f))) in
    mk_priv 1 f (p_dec p) (sbc_encoder_init init_prims (p_enc p) (subbands f))
  else if negb (bitpool (p_frame p) =? s_bitpool s) then
    set_frame p (set_bitpool (set_sizes (p_frame p) (codesize (p_frame p)) (u8 (sbc_get_frame_length s p))) (s_bitpool s))
  else p.

(** The selection of [sbc_enc_process_input]. *)
Definition process_input (prims : primitives) (nsb endian : Z) : Z -> list Z -> list (list Z) -> Z -> Z -> Z * list (list Z) :=
  if nsb =? 8 then (if endian =? SBC_BE then pr_input_8s_be prims else pr_input_8s_le prims)
  else (if endian =? SBC_BE then pr_input_4s_be prims else pr_input_4s_le prims).

(** Scale factors and packing: (framelen, output, frame). *)
Definition encode_pack (prims : primitives) (f : sbc_frame) (out : list Z) : option (Z * list Z * sbc_frame) :=
  let '(j, f) :=
    if mode f =? SBC_MODE_JOINT_STEREO then
      let '(j, t, sf) := pr_scalefactors_j prims (sb_sample_f f) (scale_factor f) (blocks f) (subbands f) in
      (j, set_scale_factor (set_sb_sample_f f t) sf)
    else (0, set_scale_factor f (pr_scalefactors prims (sb_sample_f f) (scale_factor f) (blocks f) (channels f) (subbands f))) in
  '(framelen, out) ← sbc_pack_frame out f j;
  Some (framelen, out, f).

Definition sbc_encode (init_prims : primitives) (sbc : option sbc_t) (input : option (list Z)) (input_len : Z)
    (output : option (list Z)) (output_len : Z) (written : option Z) : option decode_result :=
  match sbc, input with
  | Some s, Some pcm =>
      p ← s_priv s;
      let written0 := (fun _ => 0) <$> written in
      let p := encode_update init_prims s p in
      let s := set_priv s p in
      let f := p_frame p in
      if input_len <? codesize f then Some (mk_dr 0 (Some s) output written0)
      else
        match output with
        | None => Some (mk_dr (- ENOSPC) (Some s) output written0)
        | Some out =>
            if output_len <? flength f then Some (mk_dr (- ENOSPC) (Some s) output written0)
            else
              prims ← es_prims (p_enc p);
              let '(position, X) := process_input prims (subbands f) (s_endian s) (es_position (p_enc p)) pcm
                                      (es_X (p_enc p)) (subbands f * blocks f) (channels f) in
              let e := mk_es position X (Some prims) in
              '(samples, f) ← sbc_analyze_audio e f;
              '(framelen, out, f) ← encode_pack prims f out;
              Some (mk_dr (samples * channels f * 2) (Some (set_priv s (set_enc (set_frame p f) e)))
                      (Some out) ((fun _ => framelen) <$> written))
        end
  | _, _ => Some (mk_dr (- EIO) sbc output written)
  end.

(** ** Sizes agree with the packed frame *)

(** The codec parameters a frame was set up from. *)
Definition params_of (s : sbc_t) (f : sbc_frame) : Prop :=
  s_frequency s = frequency f /\ s_blocks s = block_mode f /\ s_subbands s = subband_mode f
  /\ s_mode s = mode f /\ s_allocation s = allocation f /\ s_bitpool s = bitpool f.

Lemma frame_length_of_packed s f :
  enc_ok f -> params_of s f -> mode f <> SBC_MODE_DUAL_CHANNEL -> frame_length_of s = packed_length f.
Proof.
  intros [Hh Hbm Hbl _ Hsm _ _ _] (_ & Eb & Es & Em & _ & Ep) Hnd.
  pose proof (hd_channels f Hh) as Hch. pose proof (hd_mode f Hh) as Hm.
  unfold frame_length_of, packed_length, frame_bits, scale_start, scale_size, mono_like.
  rewrite Eb, Es, Em, Ep, Hch, Hsm. unfold SBC_MODE_MONO, SBC_MODE_DUAL_CHANNEL, SBC_MODE_JOINT_STEREO in *.
  assert (u8 (4 + block_mode f * 4) = blocks f) as -> by (rewrite u8_small; unfold is_u8; lia).
  set (P := bitpool f). set (B := blocks f).
  assert (mode f = 0 \/ mode f = 2 \/ mode f = 3) as [-> | [-> | ->]] by lia;
    destruct (hd_subbands f Hh) as [-> | ->]; cbn [Z.eqb Pos.eqb orb negb];
    match goal with |- context [Z.div (Z.mul (Z.mul 4 ?a) ?b) 8] =>
      let v := eval vm_compute in (4 * a * b / 8) in change (4 * a * b / 8) with v end;
    match goal with |- ?k + ?x / 8 = ?y / 8 => replace y with (x + k * 8) by lia end;
    rewrite Z.div_add by lia; lia.
Qed.

(** The size query is right where it answers by computing: outside dual-channel mode,
    [sbc_get_frame_length] is the number of octets [sbc_pack_frame] writes for a frame with the
    parameters of the codec. *)
Theorem sbc_get_frame_length_packed (s : sbc_t) (p : sbc_priv) (f : sbc_frame) (data : list Z) (j : Z) :
  p_init p = 0 -> enc_ok f -> params_of s f -> mode f <> SBC_MODE_DUAL_CHANNEL ->
  0 <= j < 2 ^ subbands f -> sbc_get_frame_length s p <= zlen data ->
  fst <$> sbc_pack_frame data f j = Some (sbc_get_frame_length s p).
Proof.
  intros Hi Hen Hp Hd Hj. unfold sbc_get_frame_length. rewrite Hi. cbn [Z.eqb negb andb].
  rewrite (frame_length_of_packed s f Hen Hp Hd). intros Hl.
  destruct (sbc_pack_frame_spec data f j Hen Hj Hl) as (bits & out & _ & _ & _ & -> & _). done.
Qed.

Definition enc_sbc : sbc_t := mk_sbc 0 SBC_FREQ_16000 SBC_BLK_4 SBC_SB_4 SBC_MODE_MONO SBC_AM_LOUDNESS 16 SBC_LE None.

Lemma sbc_get_frame_length_packed_witness :
  sbc_get_frame_length enc_sbc priv0 = 14 /\
  fst <$> sbc_pack_frame (replicate 14 7) enc_frame 0 = Some (sbc_get_frame_length enc_sbc priv0).
Proof.
  split; [reflexivity|].
  apply (sbc_get_frame_length_packed enc_sbc priv0 enc_frame (replicate 14 7) 0 eq_refl enc_frame_ok);
    [by_compute|vm_compute; discriminate|vm_compute; split; (discriminate || reflexivity)|vm_compute; discriminate].
Defined.

(** ** Decoding *)

(** The octet at position [x] of the interleaved output. *)
Definition output_octet (endian nch : Z) (pcm : list (list Z)) (x : Z) : Z :=
  anth (sample_octets endian (anth2 pcm ((x / 2) mod nch) (x / 2 / nch))) (x mod 2).

Lemma sample_octets_length endian s : zlen (sample_octets endian s) = 2.
Proof. unfold sample_octets. by case_match. Qed.

Lemma store_octets_ok octets out ptr :
  0 <= ptr -> ptr + zlen octets <= zlen out ->
  exists out', store_octets out ptr octets = Some out' /\ zlen out' = zlen out
    /\ forall x, 0 <= x -> anth out' x = if decide (ptr <= x < ptr + zlen octets) then anth octets (x - ptr) else anth out x.
Proof.
  revert out ptr. induction octets as [|o octets IH]; intros out ptr Hp Hl.
  - exists out. split_and!; try done. intros x Hx. by rewrite decide_False by (unfold zlen; simpl; lia).
  - assert (zlen (o :: octets) = zlen octets + 1) as Hz by (unfold zlen; simpl; lia). rewrite Hz in *.
    cbn [store_octets]. destruct (aset_total out ptr o) as [out1 H1]; [unfold zlen in *; lia|].
    rewrite H1. cbn [mbind option_bind]. pose proof (aset_zlen _ _ _ _ H1) as Hz1.
    destruct (IH out1 (ptr + 1)) as (out2 & H2 & Hz2 & Hx2); [lia..|].
    exists out2. split_and!; [done|lia|]. intros x Hx. rewrite Hx2 by done.
    destruct (decide (x = ptr)) as [->|Hne].
    + rewrite decide_False, decide_True by (unfold zlen; lia). rewrite (anth_aset_eq _ _ _ _ H1).
      by replace (ptr - ptr) with 0 by lia.
    + rewrite (anth_aset_ne _ _ _ _ _ H1) by done.
      rewrite (decide_ext (ptr + 1 <= x < ptr + 1 + zlen octets) (ptr <= x < ptr + (zlen octets + 1))) by lia.
      case_decide; [|done]. replace (x - ptr) with (x - (ptr + 1) + 1) by lia. by rewrite anth_cons_succ by lia.
Qed.

Lemma write_samples_ok out f endian samples :
  arr2_wf 128 is_i16 (pcm_sample f) -> 1 <= channels f <= 2 -> 0 <= samples <= 128 ->
  samples * channels f * 2 <= zlen out ->
  exists out', write_samples out f endian samples = Some out' /\ zlen out' = zlen out
    /\ forall x, 0 <= x -> anth out' x = if decide (x < samples * channels f * 2)
         then output_octet endian (channels f) (pcm_sample f) x else anth out x.
Proof.
  intros Hpcm Hch Hs Hroom. unfold write_samples. set (c := channels f) in *.
  set (P := fun w (s : list Z * Z) => zlen (fst s) = zlen out /\ snd s = 2 * w /\
    forall x, 0 <= x -> anth (fst s) x = if decide (x < 2 * w) then output_octet endian c (pcm_sample f) x else anth out x).
  destruct (for_loop_inv (fun i => P (i * c)) (fun i s =>
      for_loop (Z.to_nat c) 0 (fun ch '(out, ptr) =>
        row ← aget (pcm_sample f) ch; x ← aget row i;
        out ← store_octets out ptr (sample_octets endian x); Some (out, ptr + 2)) s)
    (Z.to_nat samples) 0 (out, 0)) as ([out' ptr'] & -> & Hz & _ & Hx).
  - intros i s Hi HP.
    destruct (for_loop_inv (fun ch => P (i * c + ch)) (fun ch '(out, ptr) =>
        row ← aget (pcm_sample f) ch; x ← aget row i;
        out ← store_octets out ptr (sample_octets endian x); Some (out, ptr + 2)) (Z.to_nat c) 0 s) as (s' & Hl & HP').
    + intros ch [o ptr] Hc (Hz & Hp & Hx). cbn [fst snd] in *.
      destruct (aget_in (pcm_sample f) ch) as [row Hrow]; [destruct Hpcm as [Hl _]; unfold zlen; lia|].
      pose proof (aget_Forall _ _ _ _ (proj2 Hpcm) Hrow) as [Hlr _]. rewrite Hrow. cbn [mbind option_bind].
      rewrite (aget_anth row) by (unfold zlen; lia). cbn [mbind option_bind].
      assert (0 <= i * c) by nia. assert (i * c + c <= samples * c) by nia.
      destruct (store_octets_ok (sample_octets endian (anth row i)) o ptr) as (o' & Ho & Hz' & Hx');
        [lia|rewrite sample_octets_length; lia|]. rewrite sample_octets_length in Hx'.
      rewrite Ho. cbn [mbind option_bind]. eexists. split; [reflexivity|]. split_and!; cbn [fst snd]; [lia|lia|].
      intros x Hx0. rewrite Hx' by done. destruct (decide (ptr <= x < ptr + 2)) as [Hin|Hout].
      * rewrite decide_True by lia. unfold output_octet.
        assert (x / 2 = i * c + ch) as -> by (symmetry; apply Z.div_unique with (x - ptr); lia).
        assert (x mod 2 = x - ptr) as -> by (symmetry; apply Z.mod_unique with (i * c + ch); lia).
        assert ((i * c + ch) mod c = ch) as -> by (symmetry; apply Z.mod_unique with i; lia).
        assert ((i * c + ch) / c = i) as -> by (symmetry; apply Z.div_unique with ch; lia).
        unfold anth2. by rewrite Hrow.
      * rewrite Hx by done. by rewrite (decide_ext (x < 2 * (i * c + ch)) (x < 2 * (i * c + (ch + 1)))) by lia.
    + by rewrite Z.add_0_r.
    + exists s'. split; [done|]. rewrite Z2Nat.id in HP' by lia. by replace ((i + 1) * c) with (i * c + (0 + c)) by lia.
  - split_and!; [done|simpl; lia|]. intros x Hx0. by rewrite decide_False by lia.
  - cbn [mbind option_bind]. exists out'. split; [done|]. split; [done|]. intros x Hx0.
    rewrite Z2Nat.id in Hx by lia. cbn [fst] in Hx. rewrite Hx by done.
    by rewrite (decide_ext (x < 2 * ((0 + samples) * c)) (x < samples * c * 2)) by lia.
Qed.

(** The private area before a frame with [n] subbands: either nothing was decoded yet, or the
    decoder represents the shift registers [L]. *)
Definition ready (n : Z) (L : Z -> list (list Z)) (p : sbc_priv) : Prop :=
  frame_wf (p_frame p) /\
  if p_init p =? 0 then
    (forall ch, L ch = silent_lines n) /\ zlen (ds_offset (p_dec p)) = 2
    /\ Forall (fun row : list Z => zlen row = 16) (ds_offset (p_dec p))
  else dec_rel n L (p_dec p).

Lemma ready_priv0 n : ready n (fun _ => silent_lines n) priv0.
Proof. split; [exact frame0_wf|]. split_and!; [done|done|by repeat constructor]. Qed.

(** After the update the decoder is initialised, the frame is the unpacked one but for its sizes. *)
Lemma decode_update_ok s p g r n L :
  ready n L p -> frame_wf g -> subbands g = n -> n = 4 \/ n = 8 ->
  exists s' p' g', decode_update s p g r = Some (s', p') /\ p_frame p' = g' /\ p_init p' <> 0
    /\ s_endian s' = s_endian s /\ dec_rel n L (p_dec p')
    /\ g' = set_sizes g (codesize g') (flength g').
Proof.
  intros [_ Hr] Hg Hsub Hn. unfold decode_update. cbn [p_init set_frame].
  destruct (Z.eqb_spec (p_init p) 0) as [Hi|Hi].
  - destruct Hr as (HL & Hz & Hrows).
    destruct (sbc_decoder_init_ok (p_dec p) n Hn Hz Hrows) as (st & E & _ & R).
    rewrite Hsub. cbn [p_dec set_frame]. rewrite E. cbn [mbind option_bind].
    do 3 eexists. split_and!; try reflexivity; [done|].
    eapply dec_rel_ext; [exact R|]. intros. by rewrite HL.
  - destruct (negb _); (do 3 eexists; split_and!; try reflexivity; try done).
    by destruct g.
Qed.

Lemma decode_success s p data len out output_len w r g L :
  s_priv s = Some p -> sbc_unpack_frame data (p_frame p) len = Some (r, g) -> 0 < r ->
  header_ok g -> frame_wf g -> ready (subbands g) L p ->
  blocks g * subbands g * channels g * 2 <= output_len <= zlen out ->
  exists s' p' out',
    sbc_decode (Some s) (Some data) len (Some out) output_len (Some w)
      = Some (mk_dr r (Some s') (Some out') (Some (blocks g * subbands g * channels g * 2)))
    /\ s_priv s' = Some p' /\ s_endian s' = s_endian s /\ ready (subbands g) (frame_lines g L) p'
    /\ p_init p' <> 0 /\ zlen out' = zlen out
    /\ (exists pcm, (forall ch x, 0 <= ch < channels g -> 0 <= x < blocks g * subbands g ->
                       anth2 pcm ch x = frame_pcm g L ch x)
         /\ forall x, 0 <= x -> anth out' x = if decide (x < blocks g * subbands g * channels g * 2)
              then output_octet (s_endian s) (channels g) pcm x else anth out x).
Proof.
  intros Hp Hr Hr0 Hh Hwf Hready Hroom. unfold sbc_decode. rewrite Hp. cbn [mbind option_bind].
  rewrite Hr. cbn [mbind option_bind].
  destruct (decode_update_ok s p g r (subbands g) L Hready Hwf eq_refl (hd_subbands g Hh))
    as (s1 & p1 & g1 & Hup & Hf1 & Hi1 & He1 & Hrel & Hg1).
  rewrite Hup. cbn [mbind option_bind]. cbn [fmap option_fmap option_map].
  destruct (Z.leb_spec r 0); [lia|]. rewrite Hf1.
  assert (header_ok g1) as Hh1 by (rewrite Hg1; by eapply (header_ok_same g)).
  assert (frame_wf g1) as Hwf1 by (rewrite Hg1; destruct Hwf; by split).
  assert (subbands g1 = subbands g /\ channels g1 = channels g /\ blocks g1 = blocks g) as (Es & Ec & Eb)
    by (rewrite Hg1; done).
  rewrite <- Es in Hrel. destruct (sbc_synthesize_audio_ok (p_dec p1) g1 L Hh1 Hwf1 Hrel)
    as (st2 & pcm & -> & _ & Hrel2 & Hpcm & Hall). cbn [mbind option_bind].
  destruct (header_bounds g Hh) as (Hch & Hsb & Hbl & _).
  change (channels (set_pcm_sample g1 pcm)) with (channels g1). rewrite Ec, Eb, Es in *.
  destruct (Z.ltb_spec output_len (blocks g * subbands g * channels g * 2)); [lia|].
  destruct (write_samples_ok out (set_pcm_sample g1 pcm) (s_endian s1) (blocks g * subbands g))
    as (out' & Hw & Hz & Hx); [done|change (channels (set_pcm_sample g1 pcm)) with (channels g1); lia|nia| |].
  { change (channels (set_pcm_sample g1 pcm)) with (channels g1). rewrite Ec. lia. }
  rewrite Hw. cbn [mbind option_bind]. do 3 eexists. split; [reflexivity|]. split; [reflexivity|].
  split; [done|]. split_and!; [|cbn; done|done|].
  - split; cbn [p_frame p_init p_dec set_frame set_dec].
    + destruct Hwf1. by split.
    + destruct (Z.eqb_spec (p_init p1) 0); [done|]. by rewrite Hg1 in Hrel2.
  - exists pcm. split.
    + intros ch x Hc Hx0. rewrite Hall by done. by rewrite Hg1.
    + intros x Hx0. rewrite Hx by done. change (channels (set_pcm_sample g1 pcm)) with (channels g1).
      change (pcm_sample (set_pcm_sample g1 pcm)) with pcm. by rewrite Ec, He1.
Qed.

Lemma decode_msbc (s : sbc_t) (p : sbc_priv) (data out : list Z) (len output_len w : Z)
    (L : Z -> list (list Z)) :
  s_priv s = Some p -> ready 8 L p -> Forall is_u8 data -> 4 <= len ->
  len + 2 <= zlen data \/ (57 <= len /\ 58 <= zlen data) ->
  anth data 0 = MSBC_SYNCWORD -> 240 <= output_len <= zlen out ->
  exists s' p' out' r w' L',
    sbc_decode (Some s) (Some data) len (Some out) output_len (Some w) = Some (mk_dr r (Some s') (Some out') (Some w'))
    /\ s_priv s' = Some p' /\ s_endian s' = s_endian s /\ ready 8 L' p'
    /\ ((((r = -3 /\ anth data 3 <> msbc_crc data) \/ (r = -1 /\ len < 57)) /\ out' = out /\ w' = 0 /\ L' = L)
        \/ ((r = 57 \/ r = 58) /\ 57 <= len /\ anth data 3 = msbc_crc data /\ w' = 240 /\ zlen out' = zlen out /\
            exists g pcm, unpacked data r g /\ L' = frame_lines g L
              /\ (forall x, 0 <= x < 120 -> anth2 pcm 0 x = frame_pcm g L 0 x)
              /\ forall x, 0 <= x -> anth out' x = if decide (x < 240)
                   then anth (sample_octets (s_endian s) (anth2 pcm 0 (x / 2))) (x mod 2) else anth out x)).
Proof.
  intros Hp Hready Hu Hl Hd Hm Hroom. pose proof Hready as [Hwf _].
  destruct (msbc_unpack_cases data (p_frame p) len Hwf Hu Hl Hd Hm) as (r & g & Hr & Hwfg & Hh & Em & Eb & Es & Ebp & Hcase).
  assert (channels g = 1) as Ec by (rewrite (hd_channels g Hh), Em; done).
  pose proof (msbc_stream_crc data g Em Es Ec) as Hcrc.
  assert (((r = -3 /\ anth data 3 <> msbc_crc data) \/ (r = -1 /\ len < 57))
    \/ ((r = 57 \/ r = 58) /\ 57 <= len /\ unpacked data r g)) as [Hneg|(Hr57 & Hl57 & Hup)]
    by (rewrite Hcrc in Hcase; tauto).
  - assert (r <= 0) as Hr0 by lia. unfold sbc_decode. rewrite Hp. cbn [mbind option_bind]. rewrite Hr. cbn [mbind option_bind].
    destruct (decode_update_ok s p g r 8 L Hready Hwfg Es ltac:(by right))
      as (s1 & p1 & g1 & -> & Hf1 & Hi1 & He1 & Hrel & Hg1). cbn [mbind option_bind].
    destruct (Z.leb_spec r 0); [|lia].
    exists (set_priv s1 p1), p1, out, r, 0, L. split_and!; try done; [|by left].
    split; [rewrite Hf1, Hg1; destruct Hwfg; by split|]. by destruct (Z.eqb_spec (p_init p1) 0).
  - rewrite <- Es in Hready.
    destruct (decode_success s p data len out output_len w r g L Hp Hr ltac:(lia) Hh Hwfg Hready)
      as (s' & p' & out' & Hdec & Hp' & He' & Hready' & _ & Hz & pcm & Hpcm & Hx); [rewrite Eb, Es, Ec; lia|].
    rewrite Eb, Es, Ec in *. exists s', p', out', r, 240, (frame_lines g L).
    split_and!; try done. right. split_and!; try done.
    { rewrite <- Hcrc. apply (up_crc _ _ _ Hup). }
    exists g, pcm.
    split_and!; try done.
    + intros x Hx0. apply Hpcm; lia.
    + intros x Hx0. rewrite Hx by done. change (15 * 8 * 1 * 2) with 240. case_decide; [|done].
      unfold output_octet. rewrite Z.mod_1_r, Z.div_1_r. done.
Qed.

(** Decoding an mSBC stream: on a codec that has decoded nothing or only frames with 8
    subbands, a frame of at least 57 octets with sync word 0xAD and a 240-octet output,
    [sbc_decode] either returns -3, on a wrong CRC, and leaves the output as it was with
    [*written] 0; or it returns 57 or 58 and writes the 120 samples of the synthesis of the
    unpacked frame, two octets each in the codec's byte order, sets [*written] to 240 and
    advances the filter bank by the frame. In both cases the codec stays ready for the next
    frame. *)
Theorem sbc_decode_msbc (s : sbc_t) (p : sbc_priv) (data out : list Z) (len output_len w : Z)
    (L : Z -> list (list Z)) :
  s_priv s = Some p -> ready 8 L p -> Forall is_u8 data -> 57 <= len -> 58 <= zlen data ->
  anth data 0 = MSBC_SYNCWORD -> 240 <= output_len <= zlen out ->
  exists s' p' out' r w' L',
    sbc_decode (Some s) (Some data) len (Some out) output_len (Some w) = Some (mk_dr r (Some s') (Some out') (Some w'))
    /\ s_priv s' = Some p' /\ ready 8 L' p'
    /\ ((r = -3 /\ out' = out /\ w' = 0 /\ L' = L)
        \/ ((r = 57 \/ r = 58) /\ w' = 240 /\ zlen out' = zlen out /\
            exists g pcm, unpacked data r g /\ L' = frame_lines g L
              /\ (forall x, 0 <= x < 120 -> anth2 pcm 0 x = frame_pcm g L 0 x)
              /\ forall x, 0 <= x -> anth out' x = if decide (x < 240)
                   then anth (sample_octets (s_endian s) (anth2 pcm 0 (x / 2))) (x mod 2) else anth out x)).
Proof.
  intros Hp Hready Hu Hl Hd Hm Hroom.
  destruct (decode_msbc s p data out len output_len w L Hp Hready Hu ltac:(lia) ltac:(tauto) Hm Hroom)
    as (s' & p' & out' & r & w' & L' & ? & ? & _ & ? & Hc).
  exists s', p', out', r, w', L'. split_and!; try done.
  destruct Hc as [([[? _]|?] & ? & ? & ?)|(? & _ & _ & Hc)]; [by left|lia|right; by split].
Qed.

Definition fresh_sbc : sbc_t := default sbc_zero (snd (sbc_init (Some sbc_zero) true)).

Lemma sbc_decode_msbc_witness :
  exists s' p' out' r w' L',
    sbc_decode (Some fresh_sbc) (Some (msbc_silence ++ [0; 0])) 57 (Some (replicate 240 0)) 240 (Some 1)
      = Some (mk_dr r (Some s') (Some out') (Some w'))
    /\ s_priv s' = Some p' /\ ready 8 L' p'
    /\ ((r = -3 /\ out' = replicate 240 0 /\ w' = 0 /\ L' = fun _ => silent_lines 8)
        \/ ((r = 57 \/ r = 58) /\ w' = 240 /\ zlen out' = zlen (replicate 240 0) /\
            exists g pcm, unpacked (msbc_silence ++ [0; 0]) r g /\ L' = frame_lines g (fun _ => silent_lines 8)
              /\ (forall x, 0 <= x < 120 -> anth2 pcm 0 x = frame_pcm g (fun _ => silent_lines 8) 0 x)
              /\ forall x, 0 <= x -> anth out' x = if decide (x < 240)
                   then anth (sample_octets (s_endian fresh_sbc) (anth2 pcm 0 (x / 2))) (x mod 2)
                   else anth (replicate 240 0) x)).
Proof.
  apply (sbc_decode_msbc fresh_sbc priv0 (msbc_silence ++ [0; 0]) (replicate 240 0) 57 240 1
    (fun _ => silent_lines 8) eq_refl (ready_priv0 8));
    [by_compute|lia|vm_compute; discriminate|reflexivity|vm_compute; split; discriminate].
Defined.

(** ** What the model shows of the code *)

(** A dual-channel frame: each channel has its own bitpool. *)
Definition dual_frame : sbc_frame :=
  mk_frame SBC_FREQ_44100 SBC_BLK_16 16 SBC_MODE_DUAL_CHANNEL 2 SBC_AM_LOUDNESS SBC_SB_8 8 32 0 0 0
    (replicate 2 (replicate 8 0)) zeros3 zeros3 (replicate 2 (replicate 128 0)).
Definition dual_sbc : sbc_t :=
  mk_sbc 0 SBC_FREQ_44100 SBC_BLK_16 SBC_SB_8 SBC_MODE_DUAL_CHANNEL SBC_AM_LOUDNESS 32 SBC_LE None.

(** In dual-channel mode the size query answers 76 octets for a frame that takes 140, and the
    packer writes past a buffer of the announced size. *)
Example dual_channel_length :
  sbc_get_frame_length dual_sbc priv0 = 76
  /\ (fst <$> sbc_pack_frame (replicate 140 0) dual_frame 0) = Some 140
  /\ sbc_pack_frame (replicate 76 0) dual_frame 0 = None.
Proof. split_and!; vm_compute; reflexivity. Qed.

(** [length] has 8 bits: with bitpool 250 a stereo frame of 512 octets is recorded as 0. *)
Example frame_length_truncated :
  frame_length_of (mk_sbc 0 2 SBC_BLK_16 SBC_SB_8 SBC_MODE_STEREO 0 250 0 None) = 512
  /\ u8 512 = 0.
Proof. split; vm_compute; reflexivity. Qed.

(** A first input that is not a frame still initialises the decoder, for 0 subbands: all the
    delay lines then share one cell, for the rest of the codec's life. *)
Example bad_first_frame :
  (r ← sbc_decode (Some fresh_sbc) (Some [0; 0; 0; 0; 0; 0]) 4 (Some []) 0 None;
   s ← dr_sbc r; p ← s_priv s; Some (dr_ret r, p_init p, ds_offset (p_dec p)))
  = Some (-2, 1, replicate 2 (replicate 16 0)).
Proof. vm_compute. reflexivity. Qed.
