(* ===== verification/Plc.v ===== *)
(** Packet loss concealment: src/mediatek/bluetooth/btremoted/sbcplc.c.

    [float] is binary32 and [double] binary64, with every operation rounded to nearest, as
    defined by [SpecFloat]. *)
From Stdlib Require Import SpecFloat.
From S2P Require Import Prelude SbcTables SbcBits SbcFrame SbcStream SbcPack SbcSynth.

(** ** Floating point *)
Definition fadd : spec_float -> spec_float -> spec_float := SFadd 24 128.
Definition fmul : spec_float -> spec_float -> spec_float := SFmul 24 128.
Definition fdiv : spec_float -> spec_float -> spec_float := SFdiv 24 128.

(** Conversion of an integer. *)
Definition f_of_Z (z : Z) : spec_float := binary_normalize 24 128 z 0 false.

(** The literal [n / d]. *)
Definition f_dec (n d : Z) : spec_float :=
  SFdiv 24 128 (binary_normalize 200 1000 n 0 false) (binary_normalize 200 1000 d 0 false).

(** [(float) sqrt(x)]: the square root is taken in double precision. *)
Definition f_sqrt (x : spec_float) : spec_float :=
  match SFsqrt 53 1024 x with
  | S754_finite s m e => binary_normalize 24 128 (cond_Zopp s (Zpos m)) e s
  | y => y
  end.

(** Truncation towards zero; infinities and NaN, whose conversion is undefined, give 0. *)
Definition f_trunc (x : spec_float) : Z :=
  match x with
  | S754_finite s m e =>
      cond_Zopp s (if 0 <=? e then Zpos m * 2 ^ e else Z.div (Zpos m) (2 ^ (- e)))
  | _ => 0
  end.
Definition f_to_short (x : spec_float) : Z := i16 (f_trunc x).

(** [a > b] *)
Definition f_gt (a b : spec_float) : bool := SFltb b a.

(** ** sbcplc.h *)
Definition FS : Z := 120.
Definition N : Z := 256.
Definition M : Z := 64.
Definition LHIST : Z := N + FS - 1.
Definition SBCRT : Z := 36.
Definition OLAL : Z := 16.
Definition HIST_SIZE : Z := LHIST + FS + SBCRT + OLAL.

Record PLC_State := mk_plc { hist : list Z; bestlag : Z; nbf : Z }.

Definition rcos : list spec_float := map (fun n => f_dec n 100000000)
  [99148655; 96623611; 92510857; 86950446; 80131732; 72286918; 63683150; 54613418;
   45386582; 36316850; 27713082; 19868268; 13049554; 7489143; 3376389; 851345].

(** A local state whose history was never written. *)
Definition plc0 : PLC_State := mk_plc (replicate (Z.to_nat HIST_SIZE) 0) 0 0.

(** ** InitPLC: the history is cleared up to [LHIST + SBCRT] only *)
Definition InitPLC (st : PLC_State) : option PLC_State :=
  h ← for_loop (Z.to_nat (LHIST + SBCRT)) 0 (fun i h => aset h i 0) (hist st);
  Some (mk_plc h 0 0).

(** ** Matching *)

(** [x] and [y] are pointers into the history, as indices. *)
Definition CrossCorrelation (h : list Z) (x y : Z) : option spec_float :=
  '(num, x2, y2) ← for_loop (Z.to_nat M) 0 (fun m '(num, x2, y2) =>
      a ← aget h (x + m);
      b ← aget h (y + m);
      Some (fadd num (fmul (f_of_Z a) (f_of_Z b)),
            fadd x2 (fmul (f_of_Z a) (f_of_Z a)),
            fadd y2 (fmul (f_of_Z b) (f_of_Z b)))) (f_of_Z 0, f_of_Z 0, f_of_Z 0);
  Some (fdiv num (f_sqrt (fmul x2 y2))).

Definition PatternMatch (h : list Z) : option Z :=
  '(bestmatch, _) ← for_loop (Z.to_nat N) 0 (fun n '(bestmatch, maxCn) =>
      Cn ← CrossCorrelation h (LHIST - M) n;
      Some (if f_gt Cn maxCn then (n, Cn) else (bestmatch, maxCn))) (0, f_of_Z (-999999));
  Some bestmatch.

Definition f_0_75 : spec_float := f_dec 75 100.
Definition f_1_2 : spec_float := f_dec 12 10.

(** [if (sf < 0.75f) sf = 0.75f; if (sf > 1.2f) sf = 1.2f;] *)
Definition limit_scale (sf : spec_float) : spec_float :=
  let sf := if f_gt f_0_75 sf then f_0_75 else sf in
  if f_gt sf f_1_2 then f_1_2 else sf.

Definition AmplitudeMatch (h : list Z) (bestmatch : Z) : option spec_float :=
  '(sumx, sumy) ← for_loop (Z.to_nat FS) 0 (fun i '(sumx, sumy) =>
      a ← aget h (LHIST - FS + i);
      b ← aget h (bestmatch + i);
      Some (fadd sumx (f_of_Z (Z.abs a)), fadd sumy (f_of_Z (Z.abs b)))) (f_of_Z 0, f_dec 1 1000000);
  Some (limit_scale (fdiv sumx sumy)).

(** ** PLC_bad_frame *)

(** [if (val > 32767.0) val = 32767.0; if (val < -32768.0) val = -32768.0;] *)
Definition clamp (v : spec_float) : spec_float :=
  let v := if f_gt v (f_of_Z 32767) then f_of_Z 32767 else v in
  if f_gt (f_of_Z (-32768)) v then f_of_Z (-32768) else v.

(** [for (i = a; i < b; i++) hist[LHIST + i] = f(i, hist[bestlag + i])] *)
Definition extend (lag : Z) (f : Z -> Z -> option Z) (a b : Z) (h : list Z) : option (list Z) :=
  for_loop (Z.to_nat (b - a)) a (fun i h =>
    x ← aget h (lag + i); v ← f i x; aset h (LHIST + i) v) h.

Definition replicate_history (lag : Z) : Z -> Z -> list Z -> option (list Z) := extend lag (fun _ x => Some x).

(** The substitution packet of the first bad frame, from the zero input response and the match. *)
Definition bad_first (ZIRbuf : list Z) (lag : Z) (sf : spec_float) (h : list Z) : option (list Z) :=
  h ← extend lag (fun i x =>
        z ← aget ZIRbuf i;
        c ← aget rcos i;
        d ← aget rcos (OLAL - i - 1);
        Some (f_to_short (clamp (fadd (fmul (f_of_Z z) c) (fmul (fmul sf (f_of_Z x)) d))))) 0 OLAL h;
  h ← extend lag (fun _ x => Some (f_to_short (clamp (fmul sf (f_of_Z x))))) OLAL FS h;
  h ← extend lag (fun i x =>
        c ← aget rcos (i - FS);
        d ← aget rcos (OLAL - 1 - i + FS);
        Some (f_to_short (clamp (fadd (fmul (fmul sf (f_of_Z x)) c) (fmul (f_of_Z x) d))))) FS (FS + OLAL) h;
  replicate_history lag (FS + OLAL) (FS + SBCRT + OLAL) h.

(** [for (i = 0; i < n; i++) hist[i] = hist[i + FS]] *)
Definition shift_history (n : Z) (h : list Z) : option (list Z) :=
  for_loop (Z.to_nat n) 0 (fun i h => x ← aget h (i + FS); aset h i x) h.

(** [for (i = 0; i < FS; i++) out[i] = hist[LHIST + i]] *)
Definition copy_out (h out : list Z) : option (list Z) :=
  for_loop (Z.to_nat FS) 0 (fun i out => x ← aget h (LHIST + i); aset out i x) out.

Definition PLC_bad_frame (st : PLC_State) (ZIRbuf out : list Z) : option (PLC_State * list Z) :=
  let nbf := i32 (nbf st + 1) in
  '(h, lag) ←
    (if nbf =? 1 then
       best ← PatternMatch (hist st);
       let lag := i16 (i16 best + M) in
       sf ← AmplitudeMatch (hist st) lag;
       h ← bad_first ZIRbuf lag sf (hist st);
       Some (h, lag)
     else
       h ← replicate_history (bestlag st) 0 FS (hist st);
       h ← replicate_history (bestlag st) FS (FS + SBCRT + OLAL) h;
       Some (h, bestlag st));
  out ← copy_out h out;
  h ← shift_history (LHIST + SBCRT + OLAL) h;
  Some (mk_plc h lag nbf, out).

(** ** PLC_good_frame *)
Definition copy_in (a : Z) (inp out : list Z) : option (list Z) :=
  for_loop (Z.to_nat (FS - a)) a (fun i out => x ← aget inp i; aset out i x) out.

Definition PLC_good_frame (st : PLC_State) (inp out : list Z) : option (PLC_State * list Z) :=
  out ←
    (if 0 <? nbf st then
       out ← for_loop (Z.to_nat SBCRT) 0 (fun i out => x ← aget (hist st) (LHIST + i); aset out i x) out;
       out ← for_loop (Z.to_nat OLAL) SBCRT (fun i out =>
               x ← aget (hist st) (LHIST + i);
               c ← aget rcos (i - SBCRT);
               y ← aget inp i;
               d ← aget rcos (OLAL - 1 - i + SBCRT);
               aset out i (f_to_short (fadd (fmul (f_of_Z x) c) (fmul (f_of_Z y) d)))) out;
       copy_in (SBCRT + OLAL) inp out
     else copy_in 0 inp out);
  h ← for_loop (Z.to_nat FS) 0 (fun i h => x ← aget out i; aset h (LHIST + i) x) (hist st);
  h ← shift_history LHIST h;
  Some (mk_plc h (bestlag st) 0, out).

(** ** Loops that fill a range of an array *)
Lemma Forall_anth (P : Z -> Prop) l : (forall j, 0 <= j < zlen l -> P (anth l j)) -> Forall P l.
Proof.
  intros H. apply Forall_lookup. intros i x Hx. pose proof (lookup_lt_Some _ _ _ Hx) as Hi.
  specialize (H (Z.of_nat i) ltac:(unfold zlen; lia)). unfold anth, aget in H.
  rewrite (proj2 (Z.leb_le _ _)), Nat2Z.id, Hx in H by lia. exact H.
Qed.

Lemma anth_P (P : Z -> Prop) l j : Forall P l -> 0 <= j < zlen l -> P (anth l j).
Proof. intros Hf Hj. apply (aget_Forall P l j); [done|]. by apply aget_anth. Qed.

(** Contents after the cells [off + a .. off + i) were written with [g]. *)
Definition filled (off a i : Z) (g : Z -> Z) (l l' : list Z) : Prop :=
  zlen l' = zlen l /\ forall j, 0 <= j ->
    anth l' j = if decide (off + a <= j < off + i) then g (j - off) else anth l j.

Lemma filled_Forall P off a i g l l' :
  filled off a i g l l' -> Forall P l -> (forall k, a <= k < i -> P (g k)) -> Forall P l'.
Proof.
  intros [Hz Hf] Hl Hg. apply Forall_anth. intros j Hj. rewrite Hf by lia. case_decide.
  - apply Hg. lia.
  - apply anth_P; [done|lia].
Qed.

Lemma fill_loop (body : Z -> list Z -> option (list Z)) off n a g l :
  0 <= n -> 0 <= off + a -> off + a + n <= zlen l ->
  (forall i l', a <= i < a + n -> filled off a i g l l' -> body i l' = aset l' (off + i) (g i)) ->
  exists l', for_loop (Z.to_nat n) a body l = Some l' /\ filled off a (a + n) g l l'.
Proof.
  intros Hn Ha Hr Hb.
  destruct (for_loop_inv (fun i => filled off a i g l) body (Z.to_nat n) a l) as (l' & Hl & Hf).
  - intros i u Hi Hu. destruct (aset_total u (off + i) (g i)) as [u' Hu']; [rewrite (proj1 Hu); lia|].
    exists u'. rewrite Hb by (done || lia). split; [done|]. destruct Hu as [Hz Hj].
    split; [by rewrite (aset_zlen _ _ _ _ Hu')|]. intros j Hj0.
    destruct (decide (j = off + i)) as [->|Hne].
    + rewrite (anth_aset_eq _ _ _ _ Hu'), decide_True by lia. f_equal. lia.
    + rewrite (anth_aset_ne _ _ _ _ _ Hu'), Hj by lia.
      by rewrite (decide_ext (off + a <= j < off + i) (off + a <= j < off + (i + 1))) by lia.
  - split; [done|]. intros j Hj. by rewrite decide_False by lia.
  - rewrite Z2Nat.id in Hf by done. eauto.
Qed.

(** ** The state invariant *)
Record plc_wf (st : PLC_State) : Prop := {
  pw_size : zlen (hist st) = HIST_SIZE;
  pw_hist : Forall is_i16 (hist st);
  pw_lag : 0 <= bestlag st <= N - 1 + M;
  pw_nbf : is_i32 (nbf st)
}.

Ltac sizes := unfold HIST_SIZE, LHIST, N, M, FS, SBCRT, OLAL in *.

Lemma is_i16_0 : is_i16 0.
Proof. unfold is_i16. lia. Qed.

Lemma InitPLC_ok st : zlen (hist st) = HIST_SIZE -> Forall is_i16 (hist st) ->
  exists st', InitPLC st = Some st' /\ plc_wf st' /\ nbf st' = 0 /\ bestlag st' = 0
    /\ filled 0 0 (LHIST + SBCRT) (fun _ => 0) (hist st) (hist st').
Proof.
  intros Hz Hh. unfold InitPLC.
  destruct (fill_loop (fun i h => aset h i 0) 0 (LHIST + SBCRT) 0 (fun _ => 0) (hist st)) as (h & -> & Hf);
    [by sizes|done|sizes; lia|done|]. cbn [mbind option_bind]. eexists. split; [reflexivity|].
  split_and!; try done. split; cbn; try (unfold is_i32; sizes; lia); [by rewrite (proj1 Hf)|].
  eapply filled_Forall; [exact Hf|done|]. intros. apply is_i16_0.
Qed.

Lemma shift_history_ok n h : 0 <= n -> n + FS <= zlen h ->
  exists h', shift_history n h = Some h' /\ filled 0 0 n (fun i => anth h (i + FS)) h h'.
Proof.
  intros Hn Hz. unfold shift_history.
  destruct (fill_loop (fun i h => x ← aget h (i + FS); aset h i x) 0 n 0 (fun i => anth h (i + FS)) h)
    as (h' & Hl & Hf); [done|done|sizes; lia| |rewrite Hl; eauto].
  intros i u Hi [Hzu Hu]. rewrite (aget_anth u) by (sizes; lia). cbn [mbind option_bind].
  rewrite Hu, decide_False by (sizes; lia). done.
Qed.

Lemma copy_out_ok h out : zlen h = HIST_SIZE -> zlen out = FS ->
  exists out', copy_out h out = Some out' /\ zlen out' = FS
    /\ forall i, 0 <= i < FS -> anth out' i = anth h (LHIST + i).
Proof.
  intros Hz Ho. unfold copy_out.
  destruct (fill_loop (fun i out => x ← aget h (LHIST + i); aset out i x) 0 FS 0 (fun i => anth h (LHIST + i)) out)
    as (out' & Hl & Hzo & Hf); [by sizes|done|sizes; lia| |].
  - intros i u Hi _. rewrite (aget_anth h) by (sizes; lia). done.
  - exists out'. split_and!; [done|lia|]. intros i Hi. rewrite Hf, decide_True by lia. f_equal. lia.
Qed.

(** ** Matching never leaves the history *)
Lemma CrossCorrelation_total h x y :
  0 <= x -> x + M <= zlen h -> 0 <= y -> y + M <= zlen h -> exists Cn, CrossCorrelation h x y = Some Cn.
Proof.
  intros Hx Hxz Hy Hyz. unfold CrossCorrelation.
  destruct (for_loop_inv (fun _ (_ : spec_float * spec_float * spec_float) => True) (fun m '(num, x2, y2) =>
      a ← aget h (x + m);
      b ← aget h (y + m);
      Some (fadd num (fmul (f_of_Z a) (f_of_Z b)), fadd x2 (fmul (f_of_Z a) (f_of_Z a)),
            fadd y2 (fmul (f_of_Z b) (f_of_Z b)))) (Z.to_nat M) 0 (f_of_Z 0, f_of_Z 0, f_of_Z 0))
    as ([[num x2] y2] & -> & _); [|done|].
  - intros m [[num x2] y2] Hm _. rewrite (aget_anth h (x + m)), (aget_anth h (y + m)) by (sizes; lia).
    cbn [mbind option_bind]. eauto.
  - cbn [mbind option_bind]. eauto.
Qed.

Lemma PatternMatch_range h : zlen h = HIST_SIZE -> exists n, PatternMatch h = Some n /\ 0 <= n <= N - 1.
Proof.
  intros Hz. unfold PatternMatch.
  destruct (for_loop_inv (fun _ (s : Z * spec_float) => 0 <= fst s <= N - 1) (fun n '(bestmatch, maxCn) =>
      Cn ← CrossCorrelation h (LHIST - M) n;
      Some (if f_gt Cn maxCn then (n, Cn) else (bestmatch, maxCn))) (Z.to_nat N) 0 (0, f_of_Z (-999999)))
    as ([best mx] & -> & Hb).
  - intros n [best mx] Hn Hb. destruct (CrossCorrelation_total h (LHIST - M) n) as [Cn ->]; [sizes; lia..|].
    cbn [mbind option_bind]. eexists. split; [reflexivity|]. case_match; sizes; simpl in *; lia.
  - sizes; simpl; lia.
  - cbn [mbind option_bind]. eauto.
Qed.

Lemma AmplitudeMatch_total h b : zlen h = HIST_SIZE -> 0 <= b <= N - 1 + M -> exists sf, AmplitudeMatch h b = Some sf.
Proof.
  intros Hz Hb. unfold AmplitudeMatch.
  destruct (for_loop_inv (fun _ (_ : spec_float * spec_float) => True) (fun i '(sumx, sumy) =>
      a ← aget h (LHIST - FS + i);
      c ← aget h (b + i);
      Some (fadd sumx (f_of_Z (Z.abs a)), fadd sumy (f_of_Z (Z.abs c)))) (Z.to_nat FS) 0 (f_of_Z 0, f_dec 1 1000000))
    as ([sx sy] & -> & _); [|done|].
  - intros i [sx sy] Hi _. rewrite (aget_anth h (LHIST - FS + i)), (aget_anth h (b + i)) by (sizes; lia).
    cbn [mbind option_bind]. eauto.
  - cbn [mbind option_bind]. eauto.
Qed.

(** ** Extending the history *)
Lemma extend_safe lag f a b h :
  0 <= lag <= N - 1 + M -> 0 <= a <= b -> b <= FS + SBCRT + OLAL -> zlen h = HIST_SIZE -> Forall is_i16 h ->
  (forall i x, a <= i < b -> is_i16 x -> exists v, f i x = Some v /\ is_i16 v) ->
  exists h', extend lag f a b h = Some h' /\ zlen h' = HIST_SIZE /\ Forall is_i16 h'
    /\ forall j, 0 <= j < LHIST -> anth h' j = anth h j.
Proof.
  intros Hlag Ha Hb Hz Hh Hf. unfold extend.
  destruct (for_loop_inv (fun _ u => zlen u = HIST_SIZE /\ Forall is_i16 u
      /\ forall j, 0 <= j < LHIST -> anth u j = anth h j) (fun i h =>
    x ← aget h (lag + i); v ← f i x; aset h (LHIST + i) v) (Z.to_nat (b - a)) a h) as (h' & Hl & Hp); [|done|eauto].
  intros i u Hi (Hzu & Hu & Hk). rewrite (aget_anth u) by (sizes; lia). cbn [mbind option_bind].
  destruct (Hf i (anth u (lag + i))) as (v & -> & Hv); [lia|apply anth_P; [done|sizes; lia]|].
  cbn [mbind option_bind]. destruct (aset_total u (LHIST + i) v) as [u' Hu']; [sizes; lia|].
  exists u'. split; [done|]. split; [by rewrite (aset_zlen _ _ _ _ Hu')|].
  split; [|intros j Hj; rewrite (anth_aset_ne _ _ _ _ _ Hu') by lia; by apply Hk].
  unfold aset in Hu'. case_match; [|done]. injection Hu' as <-. by apply Forall_insert.
Qed.

Lemma rcos_in i : 0 <= i < OLAL -> exists c, aget rcos i = Some c.
Proof. intros Hi. apply aget_in. exact Hi. Qed.

Lemma bad_first_safe zir lag sf h :
  0 <= lag <= N - 1 + M -> zlen h = HIST_SIZE -> Forall is_i16 h -> zlen zir = FS ->
  exists h', bad_first zir lag sf h = Some h' /\ zlen h' = HIST_SIZE /\ Forall is_i16 h'
    /\ forall j, 0 <= j < LHIST -> anth h' j = anth h j.
Proof.
  intros Hlag Hz Hh Hzir. unfold bad_first, replicate_history.
  match goal with |- context [extend lag ?f 0 OLAL h] =>
    destruct (extend_safe lag f 0 OLAL h) as (h1 & -> & Hz1 & Hh1 & Hk1); try done; [by sizes..| |] end.
  { intros i x Hi Hx. rewrite (aget_anth zir) by (sizes; lia). cbn [mbind option_bind].
    destruct (rcos_in i) as [c ->]; [done|]. destruct (rcos_in (OLAL - i - 1)) as [d ->]; [sizes; lia|].
    cbn [mbind option_bind]. eexists. split; [reflexivity|apply i16_range]. }
  cbn [mbind option_bind].
  match goal with |- context [extend lag ?f OLAL FS h1] =>
    destruct (extend_safe lag f OLAL FS h1) as (h2 & -> & Hz2 & Hh2 & Hk2); try done; [by sizes..| |] end.
  { intros i x Hi Hx. eexists. split; [reflexivity|apply i16_range]. }
  cbn [mbind option_bind].
  match goal with |- context [extend lag ?f FS (FS + OLAL) h2] =>
    destruct (extend_safe lag f FS (FS + OLAL) h2) as (h3 & -> & Hz3 & Hh3 & Hk3); try done; [by sizes..| |] end.
  { intros i x Hi Hx. destruct (rcos_in (i - FS)) as [c ->]; [lia|].
    destruct (rcos_in (OLAL - 1 - i + FS)) as [d ->]; [lia|]. cbn [mbind option_bind].
    eexists. split; [reflexivity|apply i16_range]. }
  cbn [mbind option_bind].
  destruct (extend_safe lag (fun _ x => Some x) (FS + OLAL) (FS + SBCRT + OLAL) h3) as (h4 & -> & Hz4 & Hh4 & Hk4);
    try done; [by sizes..|eauto|]. exists h4. split_and!; try done.
  intros j Hj. by rewrite Hk4, Hk3, Hk2, Hk1.
Qed.

(** Period of the replicated signal. *)
Definition period (lag : Z) : Z := LHIST - lag.

Lemma replicate_history_ok lag a b h0 h :
  0 <= lag <= N - 1 + M -> 0 <= a <= b -> b <= FS + SBCRT + OLAL -> zlen h0 = HIST_SIZE ->
  filled LHIST 0 a (fun i => anth h0 (lag + i mod period lag)) h0 h ->
  exists h', replicate_history lag a b h = Some h'
    /\ filled LHIST 0 b (fun i => anth h0 (lag + i mod period lag)) h0 h'.
Proof.
  intros Hlag Ha Hb Hz Hf. set (g := fun i => anth h0 (lag + i mod period lag)) in *.
  destruct Hf as [Hzf Hf].
  assert (0 < period lag) as Hp by (unfold period; sizes; lia).
  destruct (fill_loop (fun i h => x ← aget h (lag + i); v ← Some x; aset h (LHIST + i) v) LHIST (b - a) a g h)
    as (h' & Hl & Hz' & Hf'); [lia|sizes; lia|sizes; lia| |].
  - intros i u Hi [Hzu Hu]. rewrite (aget_anth u) by (sizes; lia). cbn [mbind option_bind]. f_equal.
    rewrite Hu by lia. unfold g. unfold period in *.
    destruct (decide (lag + i < LHIST)) as [Hlow|Hhigh].
    + rewrite decide_False, Hf, decide_False by (sizes; lia). rewrite Z.mod_small by lia. done.
    + assert ((lag + i - LHIST) mod (LHIST - lag) = i mod (LHIST - lag)) as Hm.
      { replace (lag + i - LHIST) with (i + (-1) * (LHIST - lag)) by lia. apply Z.mod_add. lia. }
      case_decide; [by rewrite Hm|]. rewrite Hf by lia. rewrite decide_True by lia. unfold g. by rewrite Hm.
  - exists h'. split; [exact Hl|]. split; [lia|]. intros j Hj. rewrite Hf' by done.
    replace (a + (b - a)) with b by lia.
    destruct (decide (LHIST + a <= j < LHIST + b)); [by rewrite decide_True by lia|].
    rewrite Hf by done. by rewrite (decide_ext (LHIST + 0 <= j < LHIST + a) (LHIST + 0 <= j < LHIST + b)) by lia.
Qed.

(** ** Frames *)

(** The first [LHIST] cells of the history are the latest samples played: those of [st] and
    then [out]. *)
Definition appended (st st' : PLC_State) (out : list Z) : Prop :=
  forall j, 0 <= j < LHIST -> anth (hist st') j =
    if decide (j < LHIST - FS) then anth (hist st) (j + FS) else anth out (j - (LHIST - FS)).

Lemma bad_frame_end h out : zlen h = HIST_SIZE -> Forall is_i16 h -> zlen out = FS ->
  exists h' out', copy_out h out = Some out' /\ shift_history (LHIST + SBCRT + OLAL) h = Some h'
    /\ zlen h' = HIST_SIZE /\ Forall is_i16 h' /\ zlen out' = FS /\ Forall is_i16 out'
    /\ (forall i, 0 <= i < FS -> anth out' i = anth h (LHIST + i))
    /\ forall j, 0 <= j < LHIST -> anth h' j = anth h (j + FS).
Proof.
  intros Hz Hh Ho. destruct (copy_out_ok h out Hz Ho) as (out' & Hout & Hzo & Hc).
  destruct (shift_history_ok (LHIST + SBCRT + OLAL) h) as (h' & Hs & Hf); [by sizes|sizes; lia|].
  exists h', out'. split_and!; try done.
  - by rewrite (proj1 Hf).
  - eapply filled_Forall; [exact Hf|done|]. intros k Hk. apply anth_P; [done|sizes; lia].
  - apply Forall_anth. intros j Hj. rewrite Hc by lia. apply anth_P; [done|sizes; lia].
  - intros j Hj. rewrite (proj2 Hf), decide_True by (sizes; lia). f_equal. lia.
Qed.

Lemma PLC_bad_frame_ok st zir out :
  plc_wf st -> zlen zir = FS -> zlen out = FS ->
  exists st' out', PLC_bad_frame st zir out = Some (st', out')
    /\ plc_wf st' /\ nbf st' = i32 (nbf st + 1) /\ zlen out' = FS /\ Forall is_i16 out' /\ appended st st' out'
    /\ (nbf st <> 0 -> bestlag st' = bestlag st /\
          forall i, 0 <= i < FS -> anth out' i = anth (hist st) (bestlag st + i mod period (bestlag st))).
Proof.
  intros [Hz Hh Hlag Hnbf] Hzir Ho. unfold PLC_bad_frame.
  assert ((i32 (nbf st + 1) =? 1) = (nbf st =? 0)) as Hone.
  { destruct (decide (nbf st = 2147483647)) as [->|Hne]; [done|].
    rewrite i32_small by (unfold is_i32 in *; lia). zcases; (done || lia). }
  rewrite Hone.
  assert (exists h lag, (if nbf st =? 0 then
       best ← PatternMatch (hist st);
       sf ← AmplitudeMatch (hist st) (i16 (i16 best + M));
       h ← bad_first zir (i16 (i16 best + M)) sf (hist st);
       Some (h, i16 (i16 best + M))
     else
       h ← replicate_history (bestlag st) 0 FS (hist st);
       h ← replicate_history (bestlag st) FS (FS + SBCRT + OLAL) h;
       Some (h, bestlag st)) = Some (h, lag)
     /\ zlen h = HIST_SIZE /\ Forall is_i16 h /\ 0 <= lag <= N - 1 + M
     /\ (forall j, 0 <= j < LHIST -> anth h j = anth (hist st) j)
     /\ (nbf st <> 0 -> lag = bestlag st /\
          forall i, 0 <= i < FS -> anth h (LHIST + i) = anth (hist st) (bestlag st + i mod period (bestlag st))))
    as (h & lag & Hstep & Hzh & Hih & Hl & Hkeep & Hrep).
  { destruct (Z.eqb_spec (nbf st) 0) as [He|He].
    - destruct (PatternMatch_range (hist st) Hz) as (best & -> & Hb). cbn [mbind option_bind].
      assert (i16 (i16 best + M) = best + M) as ->
        by (rewrite (i16_small best), i16_small by (unfold is_i16; sizes; lia); done).
      destruct (AmplitudeMatch_total (hist st) (best + M)) as [sf ->]; [done|sizes; lia|]. cbn [mbind option_bind].
      destruct (bad_first_safe zir (best + M) sf (hist st)) as (h & -> & Hzh & Hih & Hk); try done; [sizes; lia|].
      cbn [mbind option_bind]. exists h, (best + M). split_and!; try done; (sizes; lia).
    - destruct (replicate_history_ok (bestlag st) 0 FS (hist st) (hist st)) as (h1 & -> & Hf1); try done.
      { split; [done|]. intros j Hj. by rewrite decide_False by lia. }
      cbn [mbind option_bind].
      destruct (replicate_history_ok (bestlag st) FS (FS + SBCRT + OLAL) (hist st) h1) as (h2 & -> & Hf2); try done.
      cbn [mbind option_bind]. exists h2, (bestlag st). split_and!; try done; try lia.
      + by rewrite (proj1 Hf2).
      + eapply filled_Forall; [exact Hf2|done|]. intros k Hk. apply anth_P; [done|].
        pose proof (Z.mod_pos_bound k (period (bestlag st))). unfold period in *. sizes; lia.
      + intros j Hj. rewrite (proj2 Hf2), decide_False by lia. done.
      + intros _. split; [done|]. intros i Hi. rewrite (proj2 Hf2), decide_True by (sizes; lia). do 3 f_equal. lia. }
  cbv zeta in Hstep |- *. rewrite Hstep. cbn [mbind option_bind].
  destruct (bad_frame_end h out Hzh Hih Ho) as (h' & out' & -> & -> & Hzh' & Hih' & Hzo & Hio & Hout & Hshift).
  cbn [mbind option_bind]. do 2 eexists. split; [reflexivity|]. split_and!; try done.
  - split; cbn; (done || apply i32_range).
  - intros j Hj. cbn. rewrite Hshift by done. case_decide.
    + apply Hkeep. sizes; lia.
    + rewrite Hout by (sizes; lia). f_equal. sizes; lia.
  - intros Hn. destruct (Hrep Hn) as [-> Hr]. split; [done|]. intros i Hi. by rewrite Hout, Hr.
Qed.

Lemma copy_in_ok a inp out : 0 <= a <= FS -> zlen inp = FS -> zlen out = FS ->
  exists out', copy_in a inp out = Some out' /\ filled 0 a FS (anth inp) out out'.
Proof.
  intros Ha Hi Ho. unfold copy_in.
  destruct (fill_loop (fun i out => x ← aget inp i; aset out i x) 0 (FS - a) a (anth inp) out) as (out' & Hl & Hf);
    [lia..| |].
  - intros i u Hr _. rewrite (aget_anth inp) by lia. done.
  - exists out'. split; [done|]. by replace FS with (a + (FS - a)) by lia.
Qed.

(** The overlap-add of the first good frame after a loss. *)
Definition crossfade (h inp : list Z) (i : Z) : Z :=
  f_to_short (fadd (fmul (f_of_Z (anth h (LHIST + i))) (default (S754_zero false) (aget rcos (i - SBCRT))))
                   (fmul (f_of_Z (anth inp i)) (default (S754_zero false) (aget rcos (OLAL - 1 - i + SBCRT))))).

Definition good_output (st : PLC_State) (inp : list Z) (i : Z) : Z :=
  if decide (0 < nbf st /\ i < SBCRT) then anth (hist st) (LHIST + i)
  else if decide (0 < nbf st /\ i < SBCRT + OLAL) then crossfade (hist st) inp i
  else anth inp i.

Lemma good_out_ok st inp out :
  zlen (hist st) = HIST_SIZE -> zlen inp = FS -> zlen out = FS ->
  exists out', (if 0 <? nbf st then
       out ← for_loop (Z.to_nat SBCRT) 0 (fun i out => x ← aget (hist st) (LHIST + i); aset out i x) out;
       out ← for_loop (Z.to_nat OLAL) SBCRT (fun i out =>
               x ← aget (hist st) (LHIST + i);
               c ← aget rcos (i - SBCRT);
               y ← aget inp i;
               d ← aget rcos (OLAL - 1 - i + SBCRT);
               aset out i (f_to_short (fadd (fmul (f_of_Z x) c) (fmul (f_of_Z y) d)))) out;
       copy_in (SBCRT + OLAL) inp out
     else copy_in 0 inp out) = Some out'
    /\ zlen out' = FS /\ forall i, 0 <= i < FS -> anth out' i = good_output st inp i.
Proof.
  intros Hz Hi Ho. unfold good_output. destruct (Z.ltb_spec 0 (nbf st)) as [Hn|Hn].
  - destruct (fill_loop (fun i out => x ← aget (hist st) (LHIST + i); aset out i x) 0 SBCRT 0
      (fun i => anth (hist st) (LHIST + i)) out) as (o1 & -> & Hz1 & Hf1); [by sizes|done|sizes; lia| |].
    { intros i u Hr _. rewrite (aget_anth (hist st)) by (sizes; lia). done. }
    cbn [mbind option_bind].
    destruct (fill_loop (fun i out =>
               x ← aget (hist st) (LHIST + i);
               c ← aget rcos (i - SBCRT);
               y ← aget inp i;
               d ← aget rcos (OLAL - 1 - i + SBCRT);
               aset out i (f_to_short (fadd (fmul (f_of_Z x) c) (fmul (f_of_Z y) d)))) 0 OLAL SBCRT
      (crossfade (hist st) inp) o1) as (o2 & -> & Hz2 & Hf2); [by sizes|done|sizes; lia| |].
    { intros i u Hr _. rewrite (aget_anth (hist st)), (aget_anth inp) by (sizes; lia). cbn [mbind option_bind].
      unfold crossfade. destruct (rcos_in (i - SBCRT)) as [c ->]; [lia|].
      destruct (rcos_in (OLAL - 1 - i + SBCRT)) as [d ->]; [lia|]. done. }
    cbn [mbind option_bind].
    destruct (copy_in_ok (SBCRT + OLAL) inp o2) as (o3 & -> & Hz3 & Hf3); [by sizes|done|lia|].
    exists o3. split_and!; [done|lia|]. intros i Hr. rewrite Hf3 by lia. rewrite Hf2, Hf1 by lia.
    replace (i - 0) with i by lia.
    repeat case_decide; try done; exfalso; sizes; lia.
  - destruct (copy_in_ok 0 inp out) as (o & -> & Hzo & Hf); [by sizes|done..|].
    exists o. split_and!; [done|lia|]. intros i Hr. rewrite Hf, decide_True by lia.
    rewrite !decide_False by lia. f_equal. lia.
Qed.

Lemma good_output_i16 st inp i :
  plc_wf st -> Forall is_i16 inp -> zlen inp = FS -> 0 <= i < FS -> is_i16 (good_output st inp i).
Proof.
  intros [Hz Hh _ _] Hi Hzi Hr. unfold good_output. case_decide; [apply anth_P; [done|sizes; lia]|].
  case_decide; [apply i16_range|apply anth_P; [done|lia]].
Qed.

Lemma PLC_good_frame_ok st inp out :
  plc_wf st -> zlen inp = FS -> Forall is_i16 inp -> zlen out = FS ->
  exists st' out', PLC_good_frame st inp out = Some (st', out')
    /\ plc_wf st' /\ nbf st' = 0 /\ zlen out' = FS /\ Forall is_i16 out' /\ appended st st' out'
    /\ (forall i, 0 <= i < FS -> anth out' i = good_output st inp i).
Proof.
  intros Hwf Hzi Hii Ho. pose proof Hwf as [Hz Hh Hlag Hnbf]. unfold PLC_good_frame.
  destruct (good_out_ok st inp out Hz Hzi Ho) as (o & -> & Hzo & Hout). cbn [mbind option_bind].
  assert (Forall is_i16 o) as Hio.
  { apply Forall_anth. intros j Hj. rewrite Hout by lia. apply good_output_i16; (done || lia). }
  destruct (fill_loop (fun i h => x ← aget o i; aset h (LHIST + i) x) LHIST FS 0 (anth o) (hist st))
    as (h1 & -> & Hf1); [by sizes|by sizes|sizes; lia| |].
  { intros i u Hr _. rewrite (aget_anth o) by lia. done. }
  cbn [mbind option_bind].
  assert (Forall is_i16 h1) as Hh1.
  { eapply filled_Forall; [exact Hf1|done|]. intros k Hk. apply anth_P; [done|lia]. }
  destruct Hf1 as [Hz1 Hf1].
  destruct (shift_history_ok LHIST h1) as (h2 & -> & Hf2); [by sizes|sizes; lia|]. cbn [mbind option_bind].
  do 2 eexists. split; [reflexivity|]. split_and!; try done.
  - split; cbn; try done; [by rewrite (proj1 Hf2), Hz1|].
    eapply filled_Forall; [exact Hf2|done|]. intros k Hk. apply anth_P; [done|sizes; lia].
  - intros j Hj. cbn. rewrite (proj2 Hf2), decide_True, Hf1 by (sizes; lia). replace (j - 0) with j by lia.
    case_decide as H1; case_decide as H2; try (exfalso; sizes; lia); [f_equal; sizes; lia|done].
Qed.


Lemma plc0_wf : plc_wf plc0.
Proof. split; [done|by_compute|vm_compute; split; discriminate|by_compute]. Qed.

Definition frame_120 : list Z := map (fun i => 100 * i - 6000) (seqZ 0 120).


(** C21. Good frames: without a preceding loss the input is played unchanged; after a loss the
    first 36 samples are the ones concealment prepared and the next 16 a cross-fade to the
    input. The loss counter is cleared, what is played is appended to the history, and no
    access leaves the arrays. *)
Theorem PLC_good_frame_correct (st : PLC_State) (inp out : list Z) :
  plc_wf st -> zlen inp = FS -> Forall is_i16 inp -> zlen out = FS ->
  exists st' out', PLC_good_frame st inp out = Some (st', out')
    /\ plc_wf st' /\ nbf st' = 0 /\ zlen out' = FS /\ Forall is_i16 out' /\ appended st st' out'
    /\ (forall i, 0 <= i < FS -> anth out' i = good_output st inp i)
    /\ (nbf st = 0 -> out' = inp).
Proof.
  intros Hwf Hzi Hii Ho. destruct (PLC_good_frame_ok st inp out Hwf Hzi Hii Ho) as (st' & out' & ? & ? & ? & Hz & ? & ? & Hg).
  exists st', out'. split_and!; try done. intros Hn. apply list_eq. intros i.
  destruct (decide (i < 120)%nat) as [Hlt|Hge].
  - assert (0 <= Z.of_nat i < FS) as Hr by (sizes; lia). specialize (Hg (Z.of_nat i) Hr).
    unfold good_output in Hg. rewrite !decide_False in Hg by lia.
    assert (forall l, zlen l = FS -> l !! i = Some (anth l (Z.of_nat i))) as Hl.
    { intros l Hl. pose proof (aget_anth l (Z.of_nat i) ltac:(lia)) as Ha. unfold aget in Ha.
      rewrite (proj2 (Z.leb_le _ _)), Nat2Z.id in Ha by lia. done. }
    by rewrite !Hl, Hg by done.
  - rewrite !(proj2 (lookup_ge_None _ _)); [done|unfold zlen in *; sizes; lia..].
Qed.

Lemma PLC_good_frame_correct_witness :
  exists st' out', PLC_good_frame plc0 frame_120 (replicate 120 0) = Some (st', out')
    /\ plc_wf st' /\ nbf st' = 0 /\ zlen out' = FS /\ Forall is_i16 out' /\ appended plc0 st' out'
    /\ (forall i, 0 <= i < FS -> anth out' i = good_output plc0 frame_120 i)
    /\ (nbf plc0 = 0 -> out' = frame_120).
Proof.
  apply (PLC_good_frame_correct plc0 frame_120 (replicate 120 0) plc0_wf); [reflexivity|by_compute|reflexivity].
Defined.

(** Silence matches nothing: the correlation is 0/0 everywhere, and the first lag is kept. *)
Example pattern_match_silence : PatternMatch (hist plc0) = Some 0.
Proof. vm_compute. reflexivity. Qed.
