(* ===== verification/BtBytes.v ===== *)
(** The octet conversions of src/mediatek/bluetooth/btremoted/btremoted.c. *)
From S2P Require Import Prelude SbcTables SbcFrame SbcStream SbcPack SbcSynth Plc.

(** ** The code *)

(** [len / 2] shorts from little-endian octets. *)
Definition uchar_to_short_array (cbuf sbuf : list Z) (len : Z) : option (list Z) :=
  for_loop (Z.to_nat (len / 2)) 0 (fun i sbuf =>
    hi ← aget cbuf (2 * i + 1);
    lo ← aget cbuf (2 * i);
    aset sbuf i (i16 ((hi ≪ 8) + lo))) sbuf.

Definition short_to_uchar_array (sbuf cbuf : list Z) (len : Z) : option (list Z) :=
  for_loop (Z.to_nat (len / 2)) 0 (fun i cbuf =>
    s ← aget sbuf i;
    cbuf ← aset cbuf (2 * i) (s .& 0x00ff);
    aset cbuf (2 * i + 1) (u8 (s ≫ 8))) cbuf.

Definition uint32_to_le_array (buffer : list Z) (val : Z) : option (list Z) :=
  '(buffer, _) ← for_loop 4 0 (fun i '(buffer, val) =>
    buffer ← aset buffer i (u8 (val .& 0xFF));
    Some (buffer, val ≫ 8)) (buffer, val);
  Some buffer.

(** [for (i = 0; i < len; i += 2)] exchanges neighbours; an odd [len] touches [buf[len]]. *)
Definition be_to_le (buf : list Z) (len : Z) : option (list Z) :=
  for_loop (Z.to_nat ((len + 1) / 2)) 0 (fun k buf =>
    let i := 2 * k in
    a ← aget buf i;
    b ← aget buf (i + 1);
    buf ← aset buf i b;
    aset buf (i + 1) a) buf.

Definition SEQ_CODE_0 : Z := 0x0.
Definition SEQ_CODE_1 : Z := 0x3.
Definition SEQ_CODE_2 : Z := 0xc.
Definition SEQ_CODE_3 : Z := 0xf.
Definition NUM_SEQ_CODES : Z := 4.

Definition seq_code_to_num (code : Z) : Z :=
  if code =? SEQ_CODE_0 then 0
  else if code =? SEQ_CODE_1 then 1
  else if code =? SEQ_CODE_2 then 2
  else if code =? SEQ_CODE_3 then 3
  else -1.

(** ** Little-endian octets of samples *)
Definition le_octet (pcm : list Z) (x : Z) : Z :=
  if x mod 2 =? 0 then anth pcm (x / 2) .& 0x00ff else u8 (anth pcm (x / 2) ≫ 8).

Lemma land_ff s : s .& 0x00ff = s mod 256.
Proof. change 0x00ff with (Z.ones 8). by rewrite Z.land_ones by lia. Qed.

Lemma octets_of_short s : is_i16 s -> i16 ((u8 (s ≫ 8) ≪ 8) + s .& 0x00ff) = s.
Proof.
  intros Hs. rewrite land_ff. unfold is_i16, wrapu in *. rewrite Z.shiftl_mul_pow2, Z.shiftr_div_pow2 by lia.
  change (2 ^ 8) with 256. pose proof (Z.div_mod s 256 ltac:(lia)). pose proof (Z.mod_pos_bound s 256 ltac:(lia)).
  pose proof (Z.div_mod (s / 256) 256 ltac:(lia)). pose proof (Z.mod_pos_bound (s / 256) 256 ltac:(lia)).
  transitivity (i16 s); [|by apply i16_small].
  apply (wraps_congr 16 _ _ (- (s / 256 / 256))); [lia|]. change (2 ^ 16) with 65536. lia.
Qed.

(** The octets of a short are those it was read from. *)
Lemma short_of_octets hi lo : is_u8 hi -> is_u8 lo ->
  i16 ((hi ≪ 8) + lo) .& 0x00ff = lo /\ u8 (i16 ((hi ≪ 8) + lo) ≫ 8) = hi.
Proof.
  unfold is_u8. intros Hhi Hlo. rewrite Z.shiftl_mul_pow2 by lia. change (2 ^ 8) with 256.
  assert (exists k, i16 (hi * 256 + lo) = lo + (hi - 256 * k) * 256) as [k ->].
  { unfold wraps. change (2 ^ (16 - 1)) with 32768. change (2 ^ 16) with 65536.
    exists ((hi * 256 + lo + 32768) / 65536). pose proof (Z.div_mod (hi * 256 + lo + 32768) 65536 ltac:(lia)). lia. }
  rewrite land_ff. unfold wrapu. rewrite Z.shiftr_div_pow2 by lia. change (2 ^ 8) with 256. split.
  - rewrite Z.mod_add by lia. by apply Z.mod_small.
  - rewrite Z.div_add, (Z.div_small lo) by lia.
    replace (0 + (hi - 256 * k)) with (hi + (- k) * 256) by lia. rewrite Z.mod_add by lia. by apply Z.mod_small.
Qed.

Lemma short_to_uchar_ok sbuf cbuf len :
  0 <= len -> len mod 2 = 0 -> len / 2 <= zlen sbuf -> len <= zlen cbuf ->
  exists c, short_to_uchar_array sbuf cbuf len = Some c /\ zlen c = zlen cbuf
    /\ forall x, 0 <= x -> anth c x = if decide (x < len) then le_octet sbuf x else anth cbuf x.
Proof.
  intros Hl Hev Hs Hc. pose proof (Z.div_mod len 2 ltac:(lia)) as Hdm. unfold short_to_uchar_array.
  destruct (for_loop_inv (fun i c => zlen c = zlen cbuf /\
      forall x, 0 <= x -> anth c x = if decide (x < 2 * i) then le_octet sbuf x else anth cbuf x)
    (fun i cbuf => s ← aget sbuf i; cbuf ← aset cbuf (2 * i) (s .& 0x00ff); aset cbuf (2 * i + 1) (u8 (s ≫ 8)))
    (Z.to_nat (len / 2)) 0 cbuf) as (c & Hloop & Hz & Hx).
  - intros i c Hi [Hz Hx]. rewrite (aget_anth sbuf) by lia. cbn [mbind option_bind].
    destruct (aset_total c (2 * i) (anth sbuf i .& 0x00ff)) as [c1 H1]; [lia|].
    rewrite H1. cbn [mbind option_bind]. pose proof (aset_zlen _ _ _ _ H1) as Hz1.
    destruct (aset_total c1 (2 * i + 1) (u8 (anth sbuf i ≫ 8))) as [c2 H2]; [lia|].
    exists c2. split; [done|]. split; [by rewrite (aset_zlen _ _ _ _ H2), Hz1|]. intros x Hx0.
    destruct (decide (x = 2 * i + 1)) as [->|Hn1].
    + rewrite (anth_aset_eq _ _ _ _ H2), decide_True by lia. unfold le_octet.
      replace ((2 * i + 1) mod 2) with 1 by (apply Z.mod_unique with i; lia).
      by replace ((2 * i + 1) / 2) with i by (apply Z.div_unique with 1; lia).
    + rewrite (anth_aset_ne _ _ _ _ _ H2) by lia. destruct (decide (x = 2 * i)) as [->|Hn2].
      * rewrite (anth_aset_eq _ _ _ _ H1), decide_True by lia. unfold le_octet.
        replace ((2 * i) mod 2) with 0 by (apply Z.mod_unique with i; lia).
        by replace (2 * i / 2) with i by (apply Z.div_unique with 0; lia).
      * rewrite (anth_aset_ne _ _ _ _ _ H1), Hx by lia.
        by rewrite (decide_ext (x < 2 * i) (x < 2 * (i + 1))) by lia.
  - split; [done|]. intros x Hx. by rewrite decide_False by lia.
  - exists c. split; [done|]. split; [done|]. intros x Hx0.
    rewrite Hx by done. by rewrite (decide_ext (x < 2 * (0 + Z.of_nat (Z.to_nat (len / 2)))) (x < len)) by lia.
Qed.

Lemma uchar_to_short_ok cbuf sbuf len :
  0 <= len -> len / 2 <= zlen sbuf -> len <= zlen cbuf ->
  exists s, uchar_to_short_array cbuf sbuf len = Some s /\ zlen s = zlen sbuf
    /\ forall i, 0 <= i -> anth s i = if decide (i < len / 2)
         then i16 ((anth cbuf (2 * i + 1) ≪ 8) + anth cbuf (2 * i)) else anth sbuf i.
Proof.
  intros Hl Hs Hc. unfold uchar_to_short_array.
  pose proof (Z.div_mod len 2 ltac:(lia)). pose proof (Z.mod_pos_bound len 2 ltac:(lia)).
  pose proof (Z.div_pos len 2 Hl ltac:(lia)).
  destruct (fill_loop (fun i sbuf => hi ← aget cbuf (2 * i + 1); lo ← aget cbuf (2 * i);
      aset sbuf i (i16 ((hi ≪ 8) + lo))) 0 (len / 2) 0
    (fun i => i16 ((anth cbuf (2 * i + 1) ≪ 8) + anth cbuf (2 * i))) sbuf) as (s & Hloop & Hz & Hf);
    [lia..| |].
  - intros i u Hi _. rewrite !(aget_anth cbuf) by lia. done.
  - exists s. split; [done|]. split; [done|]. intros i Hi. rewrite Hf by done.
    rewrite (decide_ext (0 + 0 <= i < 0 + (0 + len / 2)) (i < len / 2)) by lia.
    by replace (i - 0) with i by lia.
Qed.

Lemma be_to_le_ok buf len :
  0 <= len -> len + len mod 2 <= zlen buf ->
  exists b, be_to_le buf len = Some b /\ zlen b = zlen buf
    /\ forall x, 0 <= x -> anth b x = if decide (x < len + len mod 2)
         then anth buf (if x mod 2 =? 0 then x + 1 else x - 1) else anth buf x.
Proof.
  intros Hl Hc. unfold be_to_le.
  pose proof (Z.div_mod len 2 ltac:(lia)). pose proof (Z.mod_pos_bound len 2 ltac:(lia)).
  assert (2 * ((len + 1) / 2) = len + len mod 2) as Hk.
  { pose proof (Z.div_mod (len + 1) 2 ltac:(lia)). pose proof (Z.mod_pos_bound (len + 1) 2 ltac:(lia)). lia. }
  destruct (for_loop_inv (fun k b => zlen b = zlen buf /\ forall x, 0 <= x -> anth b x =
      if decide (x < 2 * k) then anth buf (if x mod 2 =? 0 then x + 1 else x - 1) else anth buf x)
    (fun k buf => a ← aget buf (2 * k); b ← aget buf (2 * k + 1); buf ← aset buf (2 * k) b; aset buf (2 * k + 1) a)
    (Z.to_nat ((len + 1) / 2)) 0 buf) as (b & Hloop & Hz & Hx).
  - intros k b Hi [Hz Hx]. rewrite !(aget_anth b) by lia. cbn [mbind option_bind].
    destruct (aset_total b (2 * k) (anth b (2 * k + 1))) as [b1 H1]; [lia|].
    rewrite H1. cbn [mbind option_bind]. pose proof (aset_zlen _ _ _ _ H1) as Hz1.
    destruct (aset_total b1 (2 * k + 1) (anth b (2 * k))) as [b2 H2]; [lia|].
    exists b2. split; [done|]. split; [by rewrite (aset_zlen _ _ _ _ H2), Hz1|]. intros x Hx0.
    destruct (decide (x = 2 * k + 1)) as [->|Hn1].
    + rewrite (anth_aset_eq _ _ _ _ H2), decide_True, Hx, decide_False by lia.
      replace ((2 * k + 1) mod 2) with 1 by (apply Z.mod_unique with k; lia). cbn [Z.eqb]. f_equal. lia.
    + rewrite (anth_aset_ne _ _ _ _ _ H2) by lia. destruct (decide (x = 2 * k)) as [->|Hn2].
      * rewrite (anth_aset_eq _ _ _ _ H1), decide_True, Hx, decide_False by lia.
        replace ((2 * k) mod 2) with 0 by (apply Z.mod_unique with k; lia). done.
      * rewrite (anth_aset_ne _ _ _ _ _ H1), Hx by lia.
        by rewrite (decide_ext (x < 2 * k) (x < 2 * (k + 1))) by lia.
  - split; [done|]. intros x Hx. by rewrite decide_False by lia.
  - exists b. split; [done|]. split; [done|]. intros x Hx0. rewrite Hx by done.
    rewrite Z2Nat.id by (apply Z.div_pos; lia).
    by rewrite (decide_ext (x < 2 * (0 + (len + 1) / 2)) (x < len + len mod 2)) by lia.
Qed.

Lemma anth_ext (l k : list Z) : zlen l = zlen k -> (forall j, 0 <= j < zlen l -> anth l j = anth k j) -> l = k.
Proof.
  intros Hz Hj. apply list_eq. intros i. destruct (decide (i < length l)%nat) as [Hi|Hi].
  - specialize (Hj (Z.of_nat i) ltac:(unfold zlen; lia)).
    pose proof (aget_anth l (Z.of_nat i) ltac:(unfold zlen; lia)) as Hl.
    pose proof (aget_anth k (Z.of_nat i) ltac:(unfold zlen in *; lia)) as Hk.
    unfold aget in Hl, Hk. rewrite (proj2 (Z.leb_le _ _)), Nat2Z.id in Hl, Hk by lia. by rewrite Hl, Hk, Hj.
  - rewrite !(proj2 (lookup_ge_None _ _)); [done|unfold zlen in *; lia..].
Qed.

(** The conversions of the daemon are inverse to each other: octets written from shorts
    are read back as the same shorts, and exchanging the octets of an even-length buffer twice
    restores it. *)
Theorem octets_roundtrip (sbuf cbuf sbuf' : list Z) (n : Z) :
  Forall is_i16 sbuf -> zlen sbuf = n -> zlen cbuf = 2 * n -> zlen sbuf' = n ->
  (exists c, short_to_uchar_array sbuf cbuf (2 * n) = Some c /\ uchar_to_short_array c sbuf' (2 * n) = Some sbuf)
  /\ (exists b, be_to_le cbuf (2 * n) = Some b /\ be_to_le b (2 * n) = Some cbuf).
Proof.
  intros Hi Hs Hc Hs'. assert (0 <= n) by (unfold zlen in *; lia).
  assert ((2 * n) mod 2 = 0) as Hm by (rewrite Z.mul_comm; apply Z.mod_mul; lia).
  assert (2 * n / 2 = n) as Hd by (rewrite Z.mul_comm; apply Z.div_mul; lia). split.
  - destruct (short_to_uchar_ok sbuf cbuf (2 * n)) as (c & Hc1 & Hzc & Hxc); [lia..|]. exists c. split; [done|].
    destruct (uchar_to_short_ok c sbuf' (2 * n)) as (s & Hs1 & Hzs & Hxs); [lia..|]. rewrite Hs1. f_equal.
    apply anth_ext; [lia|]. intros j Hj. rewrite Hxs, decide_True by lia. rewrite !Hxc, !decide_True by lia.
    unfold le_octet.
    replace ((2 * j + 1) mod 2) with 1 by (apply Z.mod_unique with j; lia).
    replace ((2 * j + 1) / 2) with j by (apply Z.div_unique with 1; lia).
    replace ((2 * j) mod 2) with 0 by (apply Z.mod_unique with j; lia).
    replace (2 * j / 2) with j by (apply Z.div_unique with 0; lia). cbn [Z.eqb].
    apply octets_of_short. apply anth_P; [done|lia].
  - destruct (be_to_le_ok cbuf (2 * n)) as (b & Hb1 & Hzb & Hxb); [lia..|]. exists b. split; [done|].
    destruct (be_to_le_ok b (2 * n)) as (b' & Hb2 & Hzb' & Hxb'); [lia..|]. rewrite Hb2. f_equal.
    apply anth_ext; [lia|]. intros j Hj. rewrite Hxb', decide_True by lia.
    pose proof (Z.div_mod j 2 ltac:(lia)). pose proof (Z.mod_pos_bound j 2 ltac:(lia)).
    destruct (Z.eqb_spec (j mod 2) 0) as [He|He].
    + rewrite Hxb, decide_True by lia.
      replace ((j + 1) mod 2) with 1 by (apply Z.mod_unique with (j / 2); lia). cbn [Z.eqb]. f_equal. lia.
    + rewrite Hxb, decide_True by lia.
      replace ((j - 1) mod 2) with 0 by (apply Z.mod_unique with (j / 2); lia). cbn [Z.eqb]. f_equal. lia.
Qed.

Lemma octets_roundtrip_witness :
  (exists c, short_to_uchar_array [-2; 300] [9; 9; 9; 9] (2 * 2) = Some c
     /\ uchar_to_short_array c [0; 0] (2 * 2) = Some [-2; 300])
  /\ (exists b, be_to_le [9; 9; 9; 9] (2 * 2) = Some b /\ be_to_le b (2 * 2) = Some [9; 9; 9; 9]).
Proof. apply (octets_roundtrip [-2; 300] [9; 9; 9; 9] [0; 0] 2); [by_compute|reflexivity..]. Defined.

Example uint32_le : uint32_to_le_array [0; 0; 0; 0] 0x12345678 = Some [0x78; 0x56; 0x34; 0x12].
Proof. reflexivity. Qed.
