(* ===== verification/Btremoted.v ===== *)
(** The voice daemon: the state, the packet and socket handlers, the main loop and [main] of
    src/mediatek/bluetooth/btremoted/btremoted.c (built without DEBUG and _METRICS). *)
From S2P Require Import Prelude CString SbcTables BtBytes.

(** ** Interfaces of the two components the daemon drives *)

(** The frame decoder, at the use the daemon makes of it: memory at the input pointer, input
    length, output buffer and its length, and the variable behind [written]. *)
Class FrameDecoder (D : Type) := {
  dec_init : D;
  dec_decode : D -> list Z -> Z -> list Z -> Z -> Z -> option (Z * D * list Z * Z);
  dec_finish : D -> D
}.

(** Packet loss concealment: state, input and output frames of 120 samples. *)
Class Concealer (P : Type) := {
  plc_state0 : P;
  plc_init : P -> option P;
  plc_bad : P -> list Z -> list Z -> option (P * list Z);
  plc_good : P -> list Z -> list Z -> option (P * list Z)
}.

(** ** btremoted.h *)
Definition SCO_SEQ_OFFSET : Z := 1.
Definition MSBC_SYNC_OFFSET : Z := 2.
Definition MSBC_SYNC_CODE : Z := 0xAD.
Definition BUFFER_SIZE : Z := 320000.
Definition DECODE_BUF_SIZE : Z := 256.
Definition SAMPLING_FREQ : Z := 16000.
Definition BYTES_PER_SAMPLE : Z := 2.
Definition SCO_MAX_BUFFER_SZ : Z := 60.

(** The strings, as octets. *)
Definition SOCK_PATH_DEFAULT : list Z := [98; 108; 117; 101; 116; 111; 111; 116; 104]. (* "bluetooth" *)
Inductive property := SYSTEM_PROPERTY_SOCKET | SYSTEM_PROPERTY_DECODE | SYSTEM_PROPERTY_PLC | SYSTEM_PROPERTY_TRIM.
Definition PROP_VALUE_MAX : Z := 92.
Definition UNIX_PATH_MAX : Z := 108.

Definition ID_SCO : Z := 0.
Definition ID_SERVER : Z := 1.
Definition ID_CLIENT : Z := 2.
Definition ID_ALL : Z := 3.

Definition STATUS_SUCCESS : Z := 0.
Definition STATUS_CLIENT_FAILED : Z := -1.
Definition STATUS_SCO_CLOSED : Z := -2.
Definition STATUS_SCO_FAILED : Z := -3.
Definition STATUS_SCO_NO_DATA : Z := -4.
Definition STATUS_SCO_DATA_FAILED : Z := -5.

Definition POLLIN : Z := 0x1.
Definition POLLOUT : Z := 0x4.
Definition POLLERR : Z := 0x8.
Definition POLLHUP : Z := 0x10.
Definition POLLNVAL : Z := 0x20.

Definition EINTR : Z := 4.
Definition EAGAIN : Z := 11.
Definition EWOULDBLOCK : Z := 11.

Definition indices0 : list Z :=
  [0xad; 0x00; 0x00; 0xc5; 0x00; 0x00; 0x00; 0x00; 0x77; 0x6d;
   0xb6; 0xdd; 0xdb; 0x6d; 0xb7; 0x76; 0xdb; 0x6d; 0xdd; 0xb6;
   0xdb; 0x77; 0x6d; 0xb6; 0xdd; 0xdb; 0x6d; 0xb7; 0x76; 0xdb;
   0x6d; 0xdd; 0xb6; 0xdb; 0x77; 0x6d; 0xb6; 0xdd; 0xdb; 0x6d;
   0xb7; 0x76; 0xdb; 0x6d; 0xdd; 0xb6; 0xdb; 0x77; 0x6d; 0xb6;
   0xdd; 0xdb; 0x6d; 0xb7; 0x76; 0xdb; 0x6c; 0x0].

(** ** Calls to the system *)
Inductive call :=
  | Csocket (domain : Z)            (* AF_LOCAL = AF_UNIX = 1 *)
  | Cconnect (fd : Z)               (* socket_local_client_connect to SCO_AUDIO_PATH *)
  | Cusleep (us : Z)
  | Csetsockopt (fd len : Z)
  | Cshutdown (fd : Z)
  | Cclose (fd : Z)
  | Crecv (fd len : Z)              (* with MSG_WAITALL *)
  | Csend (fd : Z) (data : list Z)
  | Caccept (fd : Z)
  | Cnonblock (fd : Z)              (* fcntl(fd, F_SETFL, O_NONBLOCK) *)
  | Cpoll (fds : list (Z * Z))      (* (fd, events) *)
  | Cproperty (p : property)
  | Cgetppid
  | Cfork
  | Csetsid
  | Cunlink (path : list Z)
  | Cbind (fd : Z) (sun_path : list Z) (len : Z)
  | Clisten (fd backlog : Z).

(** The value returned, [errno] after the call, and the octets or [revents] the call stores. *)
Record resp := mk_resp { rv : Z; rerrno : Z; rdata : list Z }.

(** ** Globals *)
Record pollfd := mk_pollfd { fd : Z; events : Z; revents : Z }.
Definition no_pollfd : pollfd := mk_pollfd (-1) POLLIN 0.

Section Daemon.
Context {D P : Type} `{FrameDecoder D} `{Concealer P}.

(** The audio path: what the packet handlers read and write. *)
Record audio := mk_audio {
  a_sbc : D;
  a_plc_state : P;
  a_last_seq_num : Z;
  a_plc_in : list Z;
  a_plc_out : list Z;
  main_buf : list Z;
  head : Z;
  tail : Z
}.

(** The globals, with [fds] of [start_main_loop]. *)
Record state := mk_state {
  decode_enabled : Z;
  plc_enabled : Z;
  ntrim : Z;
  first_write : Z;
  st_audio : audio;
  fds : list pollfd
}.

Definition audio0 : audio :=
  mk_audio dec_init plc_state0 0 (replicate 120 0) (replicate 120 0) (replicate (Z.to_nat BUFFER_SIZE) 0) 0 0.
Definition state0 : state := mk_state 0 0 0 0 audio0 (replicate 3 no_pollfd).

Definition set_buf (a : audio) (buf : list Z) (h t : Z) : audio :=
  mk_audio (a_sbc a) (a_plc_state a) (a_last_seq_num a) (a_plc_in a) (a_plc_out a) buf h t.
Definition set_sbc (a : audio) (d : D) : audio :=
  mk_audio d (a_plc_state a) (a_last_seq_num a) (a_plc_in a) (a_plc_out a) (main_buf a) (head a) (tail a).
Definition set_plc (a : audio) (p : P) (i o : list Z) : audio :=
  mk_audio (a_sbc a) p (a_last_seq_num a) i o (main_buf a) (head a) (tail a).
Definition set_last_seq (a : audio) (n : Z) : audio :=
  mk_audio (a_sbc a) (a_plc_state a) n (a_plc_in a) (a_plc_out a) (main_buf a) (head a) (tail a).
Definition set_audio (s : state) (a : audio) : state :=
  mk_state (decode_enabled s) (plc_enabled s) (ntrim s) (first_write s) a (fds s).
Definition set_first_write (s : state) (v : Z) : state :=
  mk_state (decode_enabled s) (plc_enabled s) (ntrim s) v (st_audio s) (fds s).
Definition set_fds (s : state) (l : list pollfd) : state :=
  mk_state (decode_enabled s) (plc_enabled s) (ntrim s) (first_write s) (st_audio s) l.

(** ** The main buffer *)
Definition clear_main_buf (s : state) : state :=
  let h := if decode_enabled s =? 0 then 0 else u32 (ntrim s) in
  set_audio s (set_buf (st_audio s) (main_buf (st_audio s)) h 0).

(** [memcpy(main_buf + tail, buf, len)] *)
Definition blit (dst : list Z) (off : Z) (src : list Z) : option (list Z) :=
  if (0 <=? off) && (off + zlen src <=? zlen dst) then
    Some (take (Z.to_nat off) dst ++ src ++ drop (Z.to_nat off + length src) dst)
  else None.

(** The end of [write_to_main_buf]: data that does not fit is dropped. *)
Definition append_main_buf (a : audio) (buf : list Z) (len : Z) : option audio :=
  if u32 (tail a + len) <=? BUFFER_SIZE then
    m ← blit (main_buf a) (tail a) (take (Z.to_nat len) buf);
    Some (set_buf a m (head a) (u32 (tail a + len)))
  else Some a.

(** Concealment: [buf] goes through [plc_in] and [plc_out]. *)
Definition conceal (a : audio) (buf : list Z) (len good : Z) : option (audio * list Z) :=
  i ← uchar_to_short_array buf (a_plc_in a) len;
  '(p, o) ← (if good =? 0 then plc_bad (a_plc_state a) i (a_plc_out a) else plc_good (a_plc_state a) i (a_plc_out a));
  buf ← short_to_uchar_array o buf len;
  Some (set_plc a p i o, buf).

(** (audio, buf): the caller's buffer is converted in place. *)
Definition write_to_main_buf (dec plc : Z) (a : audio) (buf : list Z) (len good : Z) : option (audio * list Z) :=
  '(a, buf) ←
    (if dec =? 0 then Some (a, buf)
     else
       buf ← be_to_le buf len;
       if plc =? 0 then Some (a, buf) else conceal a buf len good);
  a ← append_main_buf a buf len;
  Some (a, buf).

(** ** SCO packets *)

(** The loop over the lost packets: the zero input response is decoded and concealed. *)
Definition conceal_lost (dec plc num_lost : Z) (a : audio) (pcm_buf : list Z) (len : Z)
    : option (audio * list Z * Z) :=
  for_loop (Z.to_nat num_lost) 0 (fun _ '(a, pcm_buf, len) =>
    '(framelen, d, pcm_buf, len) ← dec_decode (a_sbc a) indices0 (zlen indices0) pcm_buf DECODE_BUF_SIZE len;
    '(a, pcm_buf) ← write_to_main_buf dec plc (set_sbc a d) pcm_buf len 0;
    Some (a, pcm_buf, len)) (a, pcm_buf, len).

Definition num_lost (seq_num last_seq_num : Z) : Z :=
  Z.rem (seq_num - last_seq_num - 1 + NUM_SEQ_CODES) NUM_SEQ_CODES.

(** "Process received good frame" *)
Definition handle_good_frame (dec plc : Z) (a : audio) (msbc_data : list Z) (msbc_data_len : Z)
    (pcm_buf : list Z) (len : Z) : option (Z * audio) :=
  '(framelen, d, pcm_buf, len) ← dec_decode (a_sbc a) msbc_data msbc_data_len pcm_buf DECODE_BUF_SIZE len;
  if 0 <? framelen then
    '(a, _) ← write_to_main_buf dec plc (set_sbc a d) pcm_buf len 1;
    Some (STATUS_SUCCESS, a)
  else Some (STATUS_SCO_DATA_FAILED, set_sbc a d).

(** [sco_packet] is the memory of the packet buffer, [data_len] the octets received. *)
Definition handle_msbc_data (dec plc : Z) (a : audio) (sco_packet : list Z) (data_len : Z) : option (Z * audio) :=
  let msbc_data := drop (Z.to_nat MSBC_SYNC_OFFSET) sco_packet in
  let msbc_data_len := u32 (data_len - MSBC_SYNC_OFFSET) in
  sync ← aget msbc_data 0;
  if (msbc_data_len <=? 0) || negb (sync =? MSBC_SYNC_CODE) then Some (STATUS_SCO_DATA_FAILED, a)
  else if dec =? 0 then
    '(a, _) ← write_to_main_buf dec plc a msbc_data msbc_data_len 0;
    Some (STATUS_SUCCESS, a)
  else
    let pcm_buf := replicate (Z.to_nat DECODE_BUF_SIZE) 0 in
    if plc =? 0 then handle_good_frame dec plc a msbc_data msbc_data_len pcm_buf 0
    else
      b ← aget sco_packet SCO_SEQ_OFFSET;
      let seq_num := seq_code_to_num (b ≫ 4) in
      if seq_num <? 0 then Some (STATUS_SCO_DATA_FAILED, a)
      else
        '(a, pcm_buf, len) ← conceal_lost dec plc (num_lost seq_num (a_last_seq_num a)) a pcm_buf 0;
        handle_good_frame dec plc (set_last_seq a seq_num) msbc_data msbc_data_len pcm_buf len.

(** ** I/O *)
Context (answer : list (call * resp) -> call -> resp).

Abbreviation IO := (io state call resp).
Definition sys (c : call) : IO resp := io_call answer c.

(** A handler of the audio path, as a step on the globals. *)
Definition on_audio {A} (f : state -> audio -> option (A * audio)) : IO A :=
  io_pure (fun s => '(x, a) ← f s (st_audio s); Some (x, set_audio s a)).

Definition poll_at (s : state) (id : Z) : pollfd := default no_pollfd (aget (fds s) id).
Definition set_poll (s : state) (id : Z) (p : pollfd) : state := set_fds s (<[Z.to_nat id := p]> (fds s)).
Definition set_fd (s : state) (id f : Z) : state :=
  set_poll s id (mk_pollfd f (events (poll_at s id)) (revents (poll_at s id))).
Definition set_events (s : state) (id e : Z) : state :=
  set_poll s id (mk_pollfd (fd (poll_at s id)) e (revents (poll_at s id))).

(** [while (connect < 0)] with at most ten attempts; [false] after the tenth failure. *)
Fixpoint connect_sco (fuel : nat) (sco_fd retry : Z) : IO bool :=
  do r <- sys (Cconnect sco_fd);
  if rv r <? 0 then
    do _ <- sys (Cusleep 100000);
    if retry + 1 =? 10 then
      do _ <- sys (Cclose sco_fd);
      io_ret false
    else match fuel with
         | O => io_ret false
         | S fuel => connect_sco fuel sco_fd (retry + 1)
         end
  else io_ret true.

Definition open_sco_socket : IO Z :=
  do r <- sys (Csocket 1);
  let sco_fd := rv r in
  if sco_fd <? 0 then io_ret STATUS_SCO_FAILED
  else
    do ok <- connect_sco 9 sco_fd 0;
    if negb ok then io_ret STATUS_SCO_FAILED
    else
      do _ <- sys (Csetsockopt sco_fd SCO_MAX_BUFFER_SZ);
      io_ret sco_fd.

(** The packet buffer after [recv]. *)
Definition received (r : resp) : list Z :=
  take (Z.to_nat (SCO_MAX_BUFFER_SZ * 2))
    (take (Z.to_nat (rv r)) (rdata r) ++ replicate (Z.to_nat (SCO_MAX_BUFFER_SZ * 2)) 0).

Definition handle_sco_packet (sco_fd : Z) : IO Z :=
  do r <- sys (Crecv sco_fd SCO_MAX_BUFFER_SZ);
  if (rv r <? 0) || (rv r <? MSBC_SYNC_OFFSET) then
    if (rerrno r =? EAGAIN) || (rerrno r =? EWOULDBLOCK) || (rerrno r =? EINTR) then io_ret STATUS_SCO_NO_DATA
    else io_ret STATUS_SCO_DATA_FAILED
  else on_audio (fun s a => handle_msbc_data (decode_enabled s) (plc_enabled s) a (received r) (rv r)).

(** The pending octets [main_buf + head .. main_buf + tail). *)
Definition pending (a : audio) : list Z :=
  take (Z.to_nat (tail a - head a)) (drop (Z.to_nat (head a)) (main_buf a)).

(** What is recorded after [written] octets were taken by the client. *)
Definition consume (a : audio) (written : Z) : audio :=
  let h := u32 (head a + written) in
  if tail a <=? h then set_buf a (main_buf a) 0 0 else set_buf a (main_buf a) h (tail a).

Definition write_to_client (client_fd : Z) : IO Z :=
  if client_fd <? 0 then io_ret STATUS_CLIENT_FAILED
  else
    do s <- io_get;
    if tail (st_audio s) <? head (st_audio s) then io_ret STATUS_SUCCESS
    else
      do _ <- io_mod (fun s => if first_write s =? 0 then set_first_write s 1 else s);
      do r <- sys (Csend client_fd (pending (st_audio s)));
      if 0 <=? rv r then
        do _ <- io_mod (fun s => set_audio s (consume (st_audio s) (rv r)));
        io_ret STATUS_SUCCESS
      else io_ret STATUS_CLIENT_FAILED.

(** ** Sockets *)
Definition close_socket (id : Z) : IO unit :=
  do s <- io_get;
  if fd (poll_at s id) =? -1 then io_ret tt
  else
    do _ <- sys (Cshutdown (fd (poll_at s id)));
    do _ <- sys (Cclose (fd (poll_at s id)));
    io_mod (fun s => set_fd s id (-1)).

Definition close_all_sockets : IO unit :=
  do _ <- close_socket ID_SCO;
  do _ <- close_socket ID_SERVER;
  close_socket ID_CLIENT.

Definition handle_disconnection_event (id : Z) : IO Z :=
  do s <- io_get;
  if fd (poll_at s id) =? fd (poll_at s ID_SCO) then
    do _ <- close_socket ID_SCO;
    io_ret STATUS_SCO_CLOSED
  else if fd (poll_at s id) =? fd (poll_at s ID_CLIENT) then
    do _ <- close_socket ID_CLIENT;
    do _ <- io_mod (fun s => set_first_write s 0);
    do _ <- close_socket ID_SCO;
    do _ <- io_mod clear_main_buf;
    io_ret STATUS_SUCCESS
  else io_ret STATUS_SUCCESS.

(** [InitPLC(&plc_state)] *)
Definition init_plc : IO unit :=
  on_audio (fun _ a => p ← plc_init (a_plc_state a); Some (tt, set_plc a p (a_plc_in a) (a_plc_out a))).

(** The tail of [handle_connection_event]. *)
Definition start_session : IO Z :=
  do _ <- init_plc;
  do _ <- io_mod (fun s => set_audio s (set_last_seq (st_audio s) 3));
  io_ret STATUS_SUCCESS.

Definition handle_connection_event (id : Z) : IO Z :=
  do s <- io_get;
  do _ <- (if 0 <=? fd (poll_at s ID_CLIENT) then close_socket ID_CLIENT else io_ret tt);
  do s <- io_get;
  do r <- sys (Caccept (fd (poll_at s ID_SERVER)));
  let client_fd := rv r in
  if client_fd <? 0 then io_ret STATUS_CLIENT_FAILED
  else
    do _ <- sys (Cnonblock client_fd);
    do _ <- io_mod (fun s => set_poll s ID_CLIENT (mk_pollfd client_fd (events (poll_at s ID_CLIENT)) 0));
    do s <- io_get;
    if fd (poll_at s ID_SCO) =? -1 then
      do sco_fd <- open_sco_socket;
      if sco_fd <? 0 then io_ret STATUS_SCO_FAILED
      else
        do _ <- io_mod (fun s => clear_main_buf (set_poll s ID_SCO (mk_pollfd sco_fd POLLIN 0)));
        start_session
    else start_session.

(** ** The main loop *)

(** "Set POLLOUT flag if buffered data exists" *)
Definition update_events : IO unit :=
  io_mod (fun s =>
    if 0 <=? fd (poll_at s ID_CLIENT) then
      set_events s ID_CLIENT (if 0 <? tail (st_audio s) then POLLOUT else 0)
    else s).

(** The [for (i = 0; i < ID_ALL; i++)] loop from [i] on; the result is [ret] at its end. *)
Fixpoint serve (server_fd : Z) (ids : list Z) (ret : Z) : IO Z :=
  match ids with
  | [] => io_ret ret
  | i :: ids =>
      do s <- io_get;
      let p := poll_at s i in
      if (fd p =? -1) || (revents p =? 0) then serve server_fd ids ret
      else if negb (revents p .& (POLLHUP .| POLLERR .| POLLNVAL) =? 0) then
        do ret <- handle_disconnection_event i;
        if negb (ret =? STATUS_SUCCESS) then io_ret ret
        else do _ <- update_events; serve server_fd ids ret
      else if (fd p =? server_fd) && negb (revents p .& POLLIN =? 0) then
        handle_connection_event i
      else if fd p =? fd (poll_at s ID_SCO) then
        do ret <- handle_sco_packet (fd p);
        do _ <- update_events;
        serve server_fd ids ret
      else if fd p =? fd (poll_at s ID_CLIENT) then
        do _ <- (if 0 <? tail (st_audio s) then
                   do _ <- write_to_client (fd (poll_at s ID_CLIENT)); io_ret tt
                 else io_ret tt);
        do _ <- update_events;
        serve server_fd ids ret
      else
        do _ <- update_events;
        serve server_fd ids ret
  end.

(** "SCO socket failure - restart the main loop" *)
Definition restart_after_sco_failure : IO unit :=
  do s <- io_get;
  do _ <- (if 0 <=? fd (poll_at s ID_CLIENT) then
             do _ <- close_socket ID_CLIENT;
             do _ <- io_mod (fun s => clear_main_buf (set_first_write (set_events s ID_CLIENT 0) 0));
             init_plc
           else io_ret tt);
  do _ <- sys (Cusleep 10000);
  io_ret tt.

(** One iteration of [for (;;)]. *)
Definition loop_body (server_fd : Z) : IO unit :=
  do s <- io_get;
  do r <- sys (Cpoll (map (fun p => (fd p, events p)) (fds s)));
  let store s := set_fds s (imap (fun i p => mk_pollfd (fd p) (events p) (anth (rdata r) (Z.of_nat i))) (fds s)) in
  do _ <- io_mod store;
  if rv r <=? 0 then io_ret tt
  else
    do ret <- serve server_fd [ID_SCO; ID_SERVER; ID_CLIENT] STATUS_SUCCESS;
    if (ret =? STATUS_SCO_FAILED) || (ret =? STATUS_SCO_CLOSED) then restart_after_sco_failure
    else io_ret tt.

(** The placeholders [start_main_loop] sets up; it then iterates [loop_body] for ever. *)
Definition start_fds (server_fd : Z) (s : state) : state :=
  set_fds s [no_pollfd; mk_pollfd server_fd POLLIN 0; no_pollfd].

Fixpoint iterate_loop (n : nat) (server_fd : Z) : IO unit :=
  match n with
  | O => io_ret tt
  | S n => do _ <- loop_body server_fd; iterate_loop n server_fd
  end.

Definition start_main_loop (n : nat) (server_fd : Z) : IO unit :=
  do _ <- io_mod (start_fds server_fd);
  iterate_loop n server_fd.

(** ** Start-up *)
Definition EXIT_SUCCESS : Z := 0.
Definition EXIT_FAILURE : Z := 1.

(** [Some code]: the process calls [exit(code)]. *)
Definition daemonize : IO (option Z) :=
  do r <- sys Cgetppid;
  if rv r =? 1 then io_ret None
  else
    do r <- sys Cfork;
    if rv r <? 0 then io_ret (Some EXIT_FAILURE)
    else if 0 <? rv r then io_ret (Some EXIT_SUCCESS)
    else
      do r <- sys Csetsid;
      if rv r <? 0 then io_ret (Some EXIT_FAILURE)
      else
        do _ <- sys (Cclose 0);
        do _ <- sys (Cclose 1);
        do _ <- sys (Cclose 2);
        io_ret None.

(** The value of a property, terminated at the returned length. *)
Definition property_value (r : resp) : list Z := c_string (take (Z.to_nat (rv r)) (rdata r)).

Definition read_prop_str (prop : property) (value : list Z) : IO (list Z) :=
  do r <- sys (Cproperty prop);
  io_ret (if 0 <? rv r then property_value r else value).

Definition read_prop (prop : property) : IO Z :=
  do r <- sys (Cproperty prop);
  io_ret (atoi (property_value r)).

Definition open_server_socket (address : list Z) : IO Z :=
  let addr_len := 1 + zlen address in
  if UNIX_PATH_MAX <? addr_len then io_ret (-1)
  else
    do r <- sys (Csocket 1);
    let server_fd := rv r in
    if server_fd =? -1 then io_ret (-1)
    else
      do _ <- sys (Cnonblock server_fd);
      let sun_path := 0 :: address in
      do _ <- sys (Cunlink (c_string sun_path));
      do r <- sys (Cbind server_fd sun_path (addr_len + 2));
      if rv r =? -1 then io_ret (-1)
      else
        do r <- sys (Clisten server_fd 1);
        if rv r =? -1 then io_ret (-1)
        else io_ret server_fd.

(** [main] up to [n] iterations of its loop; [inl]: it returned or exited with that code. *)
Definition main (n : nat) : IO (Z + unit) :=
  do sock_path <- read_prop_str SYSTEM_PROPERTY_SOCKET SOCK_PATH_DEFAULT;
  do server_fd <- open_server_socket sock_path;
  if server_fd <? 0 then io_ret (inl (-1))
  else
    do e <- daemonize;
    match e with
    | Some code => io_ret (inl code)
    | None =>
        do dec <- read_prop SYSTEM_PROPERTY_DECODE;
        do plc <- read_prop SYSTEM_PROPERTY_PLC;
        do trim_length <- read_prop SYSTEM_PROPERTY_TRIM;
        let nt := i32 (trim_length * (SAMPLING_FREQ / 1000) * BYTES_PER_SAMPLE) in
        do _ <- io_mod (fun s => mk_state dec plc nt (first_write s) (set_sbc (st_audio s) dec_init) (fds s));
        do _ <- start_main_loop n server_fd;
        io_ret (inr tt)
    end.
End Daemon.
Arguments audio : clear implicits.
Arguments state : clear implicits.
