(* ===== verification/BtCodec.v ===== *)
(** What the daemon relies on in its decoder and its concealment, as classes of laws, and the
    SBC codec and the PLC as their instances. *)
From S2P Require Import Prelude SbcTables SbcCrc SbcBits SbcFrame SbcStream SbcPack SbcSynth SbcApi Plc BtBytes Btremoted.

(** Octet [x] of samples stored big-endian. *)
Definition be_octet (pcm : list Z) (x : Z) : Z := le_octet pcm (if x mod 2 =? 0 then x + 1 else x - 1).

(** ** The laws *)

(** A decoder never fails on a packet that starts with the sync code; it reports an error and
    leaves the buffer alone, or stores 240 octets, the big-endian samples of one frame. Whether
    it accepts a frame depends on the frame only, and it accepts the daemon's silence. *)
Class FrameDecoderLaws (D : Type) `{FrameDecoder D} := {
  dec_ok : D -> Prop;
  dec_valid : list Z -> Z -> bool;
  dec_init_ok : dec_ok dec_init;
  dec_silence : dec_valid indices0 (zlen indices0) = true;
  dec_frame d data len out w :
    dec_ok d -> Forall is_u8 data -> 4 <= len -> len + 2 <= zlen data \/ (57 <= len /\ 58 <= zlen data) ->
    anth data 0 = MSBC_SYNC_CODE -> zlen out = DECODE_BUF_SIZE -> Forall is_u8 out ->
    exists r d' out' w', dec_decode d data len out DECODE_BUF_SIZE w = Some (r, d', out', w')
      /\ dec_ok d' /\ zlen out' = DECODE_BUF_SIZE /\ Forall is_u8 out'
      /\ if dec_valid data len then
           0 < r /\ w' = 240 /\ exists pcm, zlen pcm = 120 /\ Forall is_i16 pcm
             /\ forall x, 0 <= x < 240 -> anth out' x = be_octet pcm x
         else r <= 0 /\ w' = 0 /\ out' = out
}.

(** Concealment takes and gives frames of 120 samples; outside a loss it changes nothing. *)
Class ConcealerLaws (P : Type) `{Concealer P} := {
  plc_ok : P -> Prop;
  plc_clean : P -> Prop;
  plc_state0_ok : plc_ok plc_state0;
  plc_init_law p : plc_ok p -> exists p', plc_init p = Some p' /\ plc_ok p' /\ plc_clean p';
  plc_bad_law p i o : plc_ok p -> zlen i = 120 -> Forall is_i16 i -> zlen o = 120 ->
    exists p' o', plc_bad p i o = Some (p', o') /\ plc_ok p' /\ zlen o' = 120 /\ Forall is_i16 o';
  plc_good_law p i o : plc_ok p -> zlen i = 120 -> Forall is_i16 i -> zlen o = 120 ->
    exists p' o', plc_good p i o = Some (p', o') /\ plc_ok p' /\ plc_clean p' /\ zlen o' = 120 /\ Forall is_i16 o'
      /\ (plc_clean p -> o' = i)
}.

(** ** The SBC codec *)
Definition set_endian (s : sbc_t) (e : Z) : sbc_t :=
  mk_sbc (s_flags s) (s_frequency s) (s_blocks s) (s_subbands s) (s_mode s) (s_allocation s)
    (s_bitpool s) e (s_priv s).

(** [sbc_init(&sbc, 0L); sbc.endian = SBC_BE;], the allocation succeeding. *)
#[export] Instance sbc_decoder : FrameDecoder sbc_t := {|
  dec_init := set_endian (default sbc_zero (snd (sbc_init (Some sbc_zero) true))) SBC_BE;
  dec_decode s data len out out_len w :=
    r ← sbc_decode (Some s) (Some data) len (Some out) out_len (Some w);
    s' ← dr_sbc r; o ← dr_output r; w' ← dr_written r;
    Some (dr_ret r, s', o, w');
  dec_finish s := default s (sbc_finish (Some s))
|}.

Definition sbc_ok (s : sbc_t) : Prop :=
  s_endian s = SBC_BE /\ exists p L, s_priv s = Some p /\ ready 8 L p.

Lemma be_sample_octets (pcm : list Z) x :
  Forall is_i16 pcm -> 0 <= x < 2 * zlen pcm ->
  anth (sample_octets SBC_BE (anth pcm (x / 2))) (x mod 2) = be_octet pcm x.
Proof.
  intros Hi Hx. pose proof (Z.div_mod x 2 ltac:(lia)). pose proof (Z.mod_pos_bound x 2 ltac:(lia)).
  unfold be_octet, le_octet. assert (is_i16 (anth pcm (x / 2))) as Hs by (apply anth_P; [done|lia]).
  assert (x mod 2 = 0 \/ x mod 2 = 1) as [He|He] by lia; rewrite He; cbn [Z.eqb].
  - replace ((x + 1) mod 2) with 1 by (apply Z.mod_unique with (x / 2); lia).
    replace ((x + 1) / 2) with (x / 2) by (apply Z.div_unique with 1; lia). cbn [Z.eqb].
    change (anth (sample_octets SBC_BE (anth pcm (x / 2))) 0) with ((anth pcm (x / 2) .& 0xff00) ≫ 8).
    unfold wrapu. rewrite <- Z.land_ones by lia. apply Z.bits_inj'. intros k Hk.
    rewrite Z.land_spec, !Z.shiftr_spec, Z.land_spec by lia.
    change 0xff00 with (Z.ones 8 ≪ 8). rewrite Z.shiftl_spec by lia. do 2 f_equal. lia.
  - replace ((x - 1) mod 2) with 0 by (apply Z.mod_unique with (x / 2); lia).
    replace ((x - 1) / 2) with (x / 2) by (apply Z.div_unique with 0; lia). done.
Qed.

Lemma le_octet_u8 pcm x : is_u8 (le_octet pcm x).
Proof.
  unfold le_octet. case_match; [|apply u8_range]. rewrite land_ff. unfold is_u8. apply Z.mod_pos_bound. lia.
Qed.

Lemma frame_pcm_i16 f L ch x : is_i16 (frame_pcm f L ch x).
Proof. apply sbc_clip16_range. Qed.

Definition msbc_valid (data : list Z) (len : Z) : bool := (57 <=? len) && (anth data 3 =? msbc_crc data).

Lemma sbc_dec_frame s data len out w :
  sbc_ok s -> Forall is_u8 data -> 4 <= len -> len + 2 <= zlen data \/ (57 <= len /\ 58 <= zlen data) ->
  anth data 0 = MSBC_SYNC_CODE -> zlen out = DECODE_BUF_SIZE -> Forall is_u8 out ->
  exists r d' out' w', dec_decode s data len out DECODE_BUF_SIZE w = Some (r, d', out', w')
    /\ sbc_ok d' /\ zlen out' = DECODE_BUF_SIZE /\ Forall is_u8 out'
    /\ if msbc_valid data len then
         0 < r /\ w' = 240 /\ exists pcm, zlen pcm = 120 /\ Forall is_i16 pcm
           /\ forall x, 0 <= x < 240 -> anth out' x = be_octet pcm x
       else r <= 0 /\ w' = 0 /\ out' = out.
Proof.
  intros (He & p & L & Hp & Hr) Hu Hl Hd Hm Hzo Huo. unfold DECODE_BUF_SIZE in *.
  destruct (decode_msbc s p data out len 256 w L Hp Hr Hu Hl Hd Hm ltac:(lia))
    as (s' & p' & out' & r & w' & L' & Hdec & Hp' & He' & Hr' & Hcase).
  exists r, s', out', w'. cbn [dec_decode sbc_decoder]. rewrite Hdec. cbn [mbind option_bind dr_sbc dr_output dr_written dr_ret].
  split; [done|]. split; [split; [by rewrite He'|by exists p', L']|]. unfold msbc_valid.
  destruct Hcase as [(Hbad & -> & -> & _)|(Hr57 & Hl57 & Hcrc & -> & Hz & g & pcm & _ & _ & Hpcm & Hx)].
  - assert ((57 <=? len) && (anth data 3 =? msbc_crc data) = false) as ->.
    { destruct Hbad as [[_ Hne]|[_ Hlt]]; [rewrite (proj2 (Z.eqb_neq _ _) Hne)|rewrite (proj2 (Z.leb_gt 57 len)) by lia];
        by rewrite ?andb_false_r. }
    split_and!; try done. lia.
  - rewrite (proj2 (Z.leb_le 57 len)), (proj2 (Z.eqb_eq _ _) Hcrc) by done. cbn [andb].
    set (pl := map (anth2 pcm 0) (seqZ 0 120)).
    assert (forall i, 0 <= i < 120 -> anth pl i = anth2 pcm 0 i) as Hpl.
    { intros i Hi. unfold pl, anth, aget. rewrite (proj2 (Z.leb_le 0 i)) by lia.
      rewrite list_lookup_fmap, lookup_seqZ_lt by lia. cbn. f_equal. lia. }
    assert (zlen pl = 120) as Hzl by done.
    assert (Forall is_i16 pl) as Hil.
    { apply Forall_anth. intros j Hj. rewrite Hpl, Hpcm by lia. apply frame_pcm_i16. }
    assert (forall x, 0 <= x < 240 -> anth out' x = be_octet pl x) as Hbe.
    { intros x Hx0. rewrite Hx, decide_True by lia. rewrite He, <- Hpl; [apply be_sample_octets; [done|lia]|].
      split; [apply Z.div_pos; lia|apply Z.div_lt_upper_bound; lia]. }
    split_and!; [lia| |lia|done|by exists pl]. apply Forall_anth. intros j Hj.
    destruct (decide (j < 240)); [rewrite Hbe by lia; apply le_octet_u8|].
    rewrite Hx, decide_False by lia. apply anth_P; [done|lia].
Qed.

#[export] Instance sbc_decoder_laws : FrameDecoderLaws sbc_t.
Proof.
  refine {| dec_ok := sbc_ok; dec_valid := msbc_valid |}.
  - split; [done|]. exists priv0, (fun _ => silent_lines 8). split; [done|apply ready_priv0].
  - vm_compute. reflexivity.
  - exact sbc_dec_frame.
Defined.

(** ** The PLC *)
#[export] Instance plc_concealer : Concealer PLC_State := {|
  plc_state0 := plc0;
  plc_init := InitPLC;
  plc_bad := PLC_bad_frame;
  plc_good := PLC_good_frame
|}.

#[export] Instance plc_concealer_laws : ConcealerLaws PLC_State.
Proof.
  refine {| plc_ok := plc_wf; plc_clean := fun p => nbf p = 0 |}.
  - exact plc0_wf.
  - intros p [Hz Hh _ _]. destruct (InitPLC_ok p Hz Hh) as (p' & ? & ? & ? & _). by exists p'.
  - intros p i o Hp Hi _ Ho. destruct (PLC_bad_frame_ok p i o Hp Hi Ho) as (p' & o' & ? & ? & _ & ? & ? & _).
    by exists p', o'.
  - intros p i o Hp Hi Hii Ho.
    destruct (PLC_good_frame_ok p i o Hp Hi Hii Ho) as (p' & o' & ? & ? & ? & Hz & ? & _ & Hg).
    exists p', o'. split_and!; try done. intros Hn. apply anth_ext; [by rewrite Hz, Hi|].
    intros j Hj. rewrite Hg by lia. unfold good_output. rewrite !decide_False by lia. done.
Defined.
