(* ===== verification/BtFifo.v ===== *)
(** The main buffer of the voice daemon as a queue: what the client receives.
    ([write_to_main_buf], [write_to_client], [clear_main_buf] of
    src/mediatek/bluetooth/btremoted/btremoted.c.) *)
From S2P Require Import Prelude SbcTables SbcSynth SbcApi Plc BtBytes Btremoted BtCodec.

(** ** Specification: a queue of octets behind a number of octets to trim *)
Record fifo := mk_fifo { skip : Z; queue : list Z }.

Definition push (bs : list Z) (f : fifo) : fifo :=
  if zlen bs <=? skip f then mk_fifo (skip f - zlen bs) (queue f)
  else mk_fifo 0 (queue f ++ drop (Z.to_nat (skip f)) bs).

Definition pop (n : Z) (f : fifo) : fifo := mk_fifo (skip f) (drop (Z.to_nat n) (queue f)).

Section Fifo.
Context {D P : Type} `{FrameDecoder D} `{Concealer P}.
Abbreviation audio := (audio D P).
Abbreviation state := (state D P).

(** The buffer as the specification sees it: while [head] is ahead of [tail] the difference
    is still to be trimmed. *)
Definition abs (a : audio) : fifo :=
  if tail a <? head a then mk_fifo (head a - tail a) [] else mk_fifo 0 (pending a).

Record buf_wf (a : audio) : Prop := {
  bw_size : zlen (main_buf a) = BUFFER_SIZE;
  bw_head : 0 <= head a < 2 ^ 32;
  bw_tail : 0 <= tail a <= BUFFER_SIZE
}.

Lemma blit_ok dst off src :
  0 <= off -> off + zlen src <= zlen dst ->
  exists dst', blit dst off src = Some dst' /\ zlen dst' = zlen dst
    /\ take (Z.to_nat off) dst' = take (Z.to_nat off) dst
    /\ take (length src) (drop (Z.to_nat off) dst') = src.
Proof.
  intros Ho Hl. unfold blit. rewrite (proj2 (Z.leb_le 0 off)), (proj2 (Z.leb_le _ _)) by lia.
  eexists. split; [reflexivity|]. unfold zlen in *.
  assert (length (take (Z.to_nat off) dst) = Z.to_nat off) as Ht by (rewrite length_take; lia). split_and!.
  - rewrite !length_app, length_drop, Ht. lia.
  - rewrite <- Ht at 1. apply take_app_length.
  - rewrite <- Ht at 1. rewrite drop_app_length. apply take_app_length.
Qed.

Lemma take_drop_grow (l : list Z) h t n :
  (h <= t)%nat -> take (t + n - h) (drop h l) = take (t - h) (drop h l) ++ take n (drop t l).
Proof.
  intros Hh. replace (t + n - h)%nat with ((t - h) + n)%nat by lia.
  rewrite <- take_take_drop. f_equal. rewrite drop_drop. do 2 f_equal. lia.
Qed.

(** Appending: the data is pushed, or dropped as a whole when it does not fit. *)
Lemma append_main_buf_ok a buf len :
  buf_wf a -> 0 <= len <= zlen buf -> zlen buf < 2 ^ 31 ->
  exists a', append_main_buf a buf len = Some a' /\ buf_wf a'
    /\ (a_sbc a' = a_sbc a /\ a_plc_state a' = a_plc_state a /\ a_last_seq_num a' = a_last_seq_num a
        /\ a_plc_in a' = a_plc_in a /\ a_plc_out a' = a_plc_out a)
    /\ if decide (tail a + len <= BUFFER_SIZE)
       then abs a' = push (take (Z.to_nat len) buf) (abs a) /\ tail a' = tail a + len /\ head a' = head a
       else a' = a.
Proof.
  intros [Hs Hh Ht] Hlen Hbuf. unfold append_main_buf. unfold BUFFER_SIZE in *.
  rewrite (wrapu_small 32) by (change (2 ^ 32) with 4294967296; change (2 ^ 31) with 2147483648 in *; lia).
  destruct (Z.leb_spec (tail a + len) 320000) as [Hfit|Hno].
  2:{ exists a. split; [done|]. split; [by split|]. split; [done|]. by rewrite decide_False by lia. }
  assert (zlen (take (Z.to_nat len) buf) = len) as Hzt by (unfold zlen in *; rewrite length_take; lia).
  destruct (blit_ok (main_buf a) (tail a) (take (Z.to_nat len) buf)) as (m & -> & Hzm & Hpre & Hnew); [lia..|].
  cbn [mbind option_bind]. eexists. split; [reflexivity|]. split; [split; cbn; unfold BUFFER_SIZE; lia|].
  split; [done|]. rewrite decide_True by lia. split; [|done].
  unfold abs, push. cbn [head tail set_buf]. rewrite Hzt.
  destruct (Z.ltb_spec (tail a) (head a)) as [Hlt|Hge]; cbn [skip queue].
  - destruct (Z.ltb_spec (tail a + len) (head a)); destruct (Z.leb_spec len (head a - tail a)); try lia.
    + f_equal. lia.
    + unfold pending. cbn [head tail main_buf set_buf]. replace (tail a + len - head a) with 0 by lia.
      rewrite take_0. f_equal. lia.
    + f_equal. unfold pending. cbn [head tail main_buf set_buf app].
      rewrite <- Hnew at 1. replace (length (take (Z.to_nat len) buf)) with (Z.to_nat len) by (unfold zlen in *; lia).
      rewrite skipn_firstn_comm, drop_drop. f_equal; [lia|]. f_equal. lia.
  - destruct (Z.ltb_spec (tail a + len) (head a)); [lia|].
    assert (pending (set_buf a m (head a) (tail a + len)) = pending a ++ take (Z.to_nat len) buf) as Hp.
    { unfold pending. cbn [head tail main_buf set_buf].
      replace (Z.to_nat (tail a + len - head a)) with (Z.to_nat (tail a) + Z.to_nat len - Z.to_nat (head a))%nat by lia.
      rewrite take_drop_grow by lia. f_equal.
      - replace (Z.to_nat (tail a - head a)) with (Z.to_nat (tail a) - Z.to_nat (head a))%nat by lia.
        by rewrite <- !skipn_firstn_comm, Hpre.
      - replace (Z.to_nat len) with (length (take (Z.to_nat len) buf)) at 1 by (unfold zlen in *; lia). exact Hnew. }
    rewrite Hp. destruct (Z.leb_spec len 0).
    + replace len with 0 by lia. by rewrite take_0, app_nil_r.
    + by rewrite drop_0.
Qed.

Lemma pending_length a : buf_wf a -> head a <= tail a -> zlen (pending a) = tail a - head a.
Proof.
  intros [Hs Hh Ht] Hle. unfold pending, zlen in *. rewrite length_take, length_drop. lia.
Qed.

(** Recording what the client took pops it. *)
Lemma consume_ok a w :
  buf_wf a -> head a <= tail a -> 0 <= w <= zlen (pending a) ->
  buf_wf (consume a w) /\ abs (consume a w) = pop w (abs a).
Proof.
  intros Hwf Hle Hw. pose proof (pending_length a Hwf Hle) as Hpl. destruct Hwf as [Hs Hh Ht].
  unfold consume. unfold BUFFER_SIZE in *. rewrite wrapu_small by (change (2 ^ 32) with 4294967296 in *; lia).
  unfold abs, pop. destruct (Z.ltb_spec (tail a) (head a)); [lia|]. cbn [skip queue].
  destruct (Z.leb_spec (tail a) (head a + w)) as [Hall|Hpart].
  - split; [split; cbn; unfold BUFFER_SIZE; lia|]. cbn. unfold pending at 1. cbn.
    rewrite (drop_ge (pending a)) by (unfold zlen in *; lia). done.
  - split; [split; cbn; unfold BUFFER_SIZE; lia|]. cbn [head tail set_buf].
    destruct (Z.ltb_spec (tail a) (head a + w)); [lia|]. f_equal. unfold pending. cbn [head tail main_buf set_buf].
    rewrite skipn_firstn_comm, drop_drop. f_equal; [lia|]. f_equal. lia.
Qed.

Lemma clear_main_buf_ok (s : state) :
  buf_wf (st_audio s) ->
  buf_wf (st_audio (clear_main_buf s))
  /\ abs (st_audio (clear_main_buf s)) = mk_fifo (if decode_enabled s =? 0 then 0 else u32 (ntrim s)) [].
Proof.
  intros [Hs Hh Ht]. unfold clear_main_buf, abs, pending, BUFFER_SIZE in *. cbn.
  pose proof (wrapu_range 32 (ntrim s) ltac:(lia)) as Hr. split.
  - split; cbn; [done| |unfold BUFFER_SIZE; lia]. destruct (decode_enabled s =? 0); [|exact Hr].
    change (2 ^ 32) with 4294967296. lia.
  - destruct (decode_enabled s =? 0); [done|]. destruct (Z.ltb_spec 0 (u32 (ntrim s))).
    + f_equal. lia.
    + replace (u32 (ntrim s)) with 0 by lia. done.
Qed.

(** ** Runs of the buffer: writes and sends in any order *)
Inductive bufop := Write (buf : list Z) | Sent (n : Z).

(** (audio, octets accepted so far, octets sent so far) *)
Inductive buf_step : audio * list Z * list Z -> bufop -> audio * list Z * list Z -> Prop :=
  | step_write a acc snt buf a' :
      zlen buf < 2 ^ 31 -> append_main_buf a buf (zlen buf) = Some a' ->
      buf_step (a, acc, snt) (Write buf)
        (a', if decide (tail a + zlen buf <= BUFFER_SIZE) then acc ++ buf else acc, snt)
  | step_sent a acc snt n :
      head a <= tail a -> 0 <= n <= zlen (pending a) ->
      buf_step (a, acc, snt) (Sent n) (consume a n, acc, snt ++ take (Z.to_nat n) (pending a)).

Inductive buf_run : audio * list Z * list Z -> list bufop -> audio * list Z * list Z -> Prop :=
  | run_nil s : buf_run s [] s
  | run_cons s op s' ops s'' : buf_step s op s' -> buf_run s' ops s'' -> buf_run s (op :: ops) s''.

(** What was sent and what is queued are the accepted octets without the trimmed ones. *)
Definition stream_inv (trim : Z) (s : audio * list Z * list Z) : Prop :=
  let '(a, acc, snt) := s in
  buf_wf a /\ snt ++ queue (abs a) = drop (Z.to_nat trim) acc
  /\ skip (abs a) = Z.max 0 (trim - zlen acc) /\ (0 < skip (abs a) -> queue (abs a) = []).

Lemma push_stream trim acc snt buf f :
  0 <= trim -> snt ++ queue f = drop (Z.to_nat trim) acc -> skip f = Z.max 0 (trim - zlen acc) ->
  (0 < skip f -> queue f = []) ->
  snt ++ queue (push buf f) = drop (Z.to_nat trim) (acc ++ buf)
  /\ skip (push buf f) = Z.max 0 (trim - zlen (acc ++ buf)) /\ (0 < skip (push buf f) -> queue (push buf f) = []).
Proof.
  intros Ht Hq Hs He. unfold push. assert (zlen (acc ++ buf) = zlen acc + zlen buf) as Hz
    by (unfold zlen; rewrite length_app; lia).
  rewrite Hz, drop_app. unfold zlen in *. destruct (Z.leb_spec (Z.of_nat (length buf)) (skip f)); cbn [skip queue].
  - split_and!; [|lia|intros; apply He; lia]. rewrite Hq, (drop_ge buf) by lia. by rewrite app_nil_r.
  - split_and!; [|lia|lia]. rewrite app_assoc, Hq. f_equal. f_equal. lia.
Qed.

Lemma buf_step_inv trim s op s' : 0 <= trim -> buf_step s op s' -> stream_inv trim s -> stream_inv trim s'.
Proof.
  intros Ht Hstep. destruct Hstep as [a acc snt buf a' Hl Ha|a acc snt n Hle Hn]; intros (Hwf & Hq & Hs & He).
  - destruct (append_main_buf_ok a buf (zlen buf) Hwf) as (a1 & Ha1 & Hwf1 & _ & Hcase);
      [unfold zlen; lia|done|]. rewrite Ha in Ha1. injection Ha1 as <-. case_decide.
    + destruct Hcase as (Habs & _). rewrite take_ge in Habs by (unfold zlen; lia).
      destruct (push_stream trim acc snt buf (abs a) Ht Hq Hs He) as (? & ? & ?).
      unfold stream_inv. by rewrite Habs.
    + by subst a'.
  - destruct (consume_ok a n Hwf Hle Hn) as [Hwf' Habs]. unfold stream_inv. rewrite Habs. unfold pop. cbn [skip queue].
    split_and!; try done.
    + rewrite <- Hq, <- app_assoc. f_equal. unfold abs in *.
      destruct (Z.ltb_spec (tail a) (head a)); [lia|]. cbn [queue]. apply take_drop.
    + intros Hp. rewrite He by done. apply drop_nil.
Qed.

Lemma buf_run_inv trim s ops s' : 0 <= trim -> buf_run s ops s' -> stream_inv trim s -> stream_inv trim s'.
Proof. intros Ht Hrun. induction Hrun; [done|]. eauto using buf_step_inv. Qed.

(** C14. The main buffer is a queue of octets behind the octets to trim: [write_to_main_buf]'s
    copy pushes its data when it fits and leaves the buffer alone when it does not, never
    writing past the array; taking what the client accepted pops it, and the octets offered
    to the client are the queue; clearing leaves an empty queue behind the trim length. *)
Theorem main_buf_refines_fifo (s : state) (a := st_audio s) :
  buf_wf a ->
  (forall buf len, 0 <= len <= zlen buf -> zlen buf < 2 ^ 31 ->
     exists a', append_main_buf a buf len = Some a' /\ buf_wf a'
       /\ if decide (tail a + len <= BUFFER_SIZE)
          then abs a' = push (take (Z.to_nat len) buf) (abs a) else a' = a)
  /\ (head a <= tail a -> pending a = queue (abs a))
  /\ (forall w, head a <= tail a -> 0 <= w <= zlen (pending a) ->
       buf_wf (consume a w) /\ abs (consume a w) = pop w (abs a))
  /\ abs (st_audio (clear_main_buf s)) = mk_fifo (if decode_enabled s =? 0 then 0 else u32 (ntrim s)) [].
Proof.
  intros Hwf. split_and!.
  - intros buf len Hl Hb. destruct (append_main_buf_ok a buf len Hwf Hl Hb) as (a' & ? & ? & _ & Hc).
    exists a'. split_and!; [done..|]. case_decide; [tauto|done].
  - intros Hle. unfold abs. destruct (Z.ltb_spec (tail a) (head a)); [lia|done].
  - intros w. by apply consume_ok.
  - apply clear_main_buf_ok, Hwf.
Qed.

(** From the clearing of the buffer on, whatever the order of packets and of (partial)
    sends, the client has received, and the queue holds, exactly the accepted octets in order
    without the first [ntrim] of them: nothing is lost, duplicated or reordered in between. *)
Theorem client_stream (s : state) ops a acc snt :
  buf_wf (st_audio s) ->
  buf_run (st_audio (clear_main_buf s), [], []) ops (a, acc, snt) ->
  buf_wf a
  /\ snt ++ queue (abs a) = drop (Z.to_nat (if decode_enabled s =? 0 then 0 else u32 (ntrim s))) acc.
Proof.
  intros Hwf Hrun. destruct (clear_main_buf_ok s Hwf) as [Hwf' Habs].
  set (trim := if decode_enabled s =? 0 then 0 else u32 (ntrim s)) in *.
  assert (0 <= trim) as Ht by (unfold trim; case_match; [lia|apply wrapu_range; lia]).
  destruct (buf_run_inv trim _ _ _ Ht Hrun) as (? & ? & _); [|done].
  unfold stream_inv. rewrite Habs. cbn [queue skip]. split_and!; [done| |unfold zlen; cbn; lia|done].
  by rewrite drop_nil.
Qed.

Lemma audio0_wf : buf_wf audio0.
Proof. split; [|cbn; lia|cbn; unfold BUFFER_SIZE; lia]. unfold zlen. cbn [main_buf audio0]. by rewrite length_replicate. Qed.
End Fifo.

(** A state with decoding on and two octets to trim. *)
Definition trim_state : state sbc_t PLC_State := mk_state 1 0 2 0 audio0 [].

Lemma main_buf_refines_fifo_witness :
  pending (st_audio trim_state) = queue (abs (st_audio trim_state)).
Proof. apply (main_buf_refines_fifo trim_state audio0_wf). reflexivity. Defined.

Lemma client_stream_witness :
  exists a : audio sbc_t PLC_State, buf_wf a /\ [] ++ queue (abs a) = drop (Z.to_nat 2) [1; 2; 3; 4].
Proof.
  destruct (append_main_buf_ok (st_audio (clear_main_buf trim_state)) [1; 2; 3; 4] 4) as (a & Ha & _ & _ & _);
    [apply clear_main_buf_ok, audio0_wf|done..|].
  exists a. apply (client_stream trim_state [Write [1; 2; 3; 4]] a [1; 2; 3; 4] []).
  - apply audio0_wf.
  - eapply run_cons; [exact (step_write _ [] [] [1; 2; 3; 4] a ltac:(reflexivity) Ha)|].
    rewrite decide_True by done. apply run_nil.
Defined.
