(* ===== verification/BtFrames.v ===== *)
(** SCO packets of the voice daemon: what [handle_msbc_data] of
    src/mediatek/bluetooth/btremoted/btremoted.c does with a packet, proved against the
    interfaces of the decoder and of the concealment. *)
From S2P Require Import Prelude SbcTables SbcSynth SbcApi Plc BtBytes Btremoted BtCodec BtFifo.

Section Frames.
Context {D P : Type} `{FrameDecoderLaws D} `{ConcealerLaws P}.
Abbreviation audio := (audio D P).
Abbreviation state := (state D P).

(** ** Invariant of the audio path *)
Record audio_ok (a : audio) : Prop := {
  ao_buf : buf_wf a;
  ao_dec : dec_ok (a_sbc a);
  ao_plc : plc_ok (a_plc_state a);
  ao_in : zlen (a_plc_in a) = 120 /\ Forall is_i16 (a_plc_in a);
  ao_out : zlen (a_plc_out a) = 120 /\ Forall is_i16 (a_plc_out a);
  ao_seq : 0 <= a_last_seq_num a <= 3
}.

(** The buffer part of two audio states agrees. *)
Definition same_buf (a b : audio) : Prop := main_buf b = main_buf a /\ head b = head a /\ tail b = tail a.

Lemma same_buf_abs a b : same_buf a b -> abs b = abs a.
Proof. intros (E1 & E2 & E3). unfold abs, pending. by rewrite E1, E2, E3. Qed.

Lemma audio_ok_set_sbc a d : audio_ok a -> dec_ok d -> audio_ok (set_sbc a d).
Proof. intros [[? ? ?] ? ? ? ? ?] Hd. split; (done || by split). Qed.

Lemma audio_ok_set_plc a p i o :
  audio_ok a -> plc_ok p -> zlen i = 120 -> Forall is_i16 i -> zlen o = 120 -> Forall is_i16 o ->
  audio_ok (set_plc a p i o).
Proof. intros [[? ? ?] ? ? ? ? ?] Hp Hi Hii Ho Hoo. split; (done || by split). Qed.

Lemma audio_ok_set_last_seq a n : audio_ok a -> 0 <= n <= 3 -> audio_ok (set_last_seq a n).
Proof. intros [[? ? ?] ? ? ? ? ?] Hn. split; (done || by split). Qed.

(** ** write_to_main_buf *)

(** The octets of a frame, little-endian. *)
Definition le_bytes (pcm : list Z) : list Z := map (le_octet pcm) (seqZ 0 (2 * zlen pcm)).

Lemma anth_map_seqZ (f : Z -> Z) n i : 0 <= i < n -> anth (map f (seqZ 0 n)) i = f i.
Proof using Type.
  intros Hi. unfold anth, aget. rewrite (proj2 (Z.leb_le 0 i)) by lia.
  rewrite list_lookup_fmap, lookup_seqZ_lt by lia. cbn. f_equal. lia.
Qed.

(** Frames as the decoder leaves them in a 256-octet buffer: nothing, or 240 octets. *)
Definition frame_len (len : Z) : Prop := len = 0 \/ len = 240.

Lemma conceal_ok a buf len good :
  audio_ok a -> zlen buf = DECODE_BUF_SIZE -> Forall is_u8 buf -> frame_len len ->
  exists a' buf', conceal a buf len good = Some (a', buf') /\ audio_ok a' /\ same_buf a a'
    /\ a_last_seq_num a' = a_last_seq_num a /\ a_sbc a' = a_sbc a
    /\ zlen buf' = DECODE_BUF_SIZE /\ Forall is_u8 buf'
    /\ (good <> 0 -> plc_clean (a_plc_state a'))
    /\ (good <> 0 -> plc_clean (a_plc_state a) -> len = 240 -> buf' = buf).
Proof.
  intros Ha Hz Hu Hlen. unfold conceal, DECODE_BUF_SIZE in *.
  assert (0 <= len /\ len mod 2 = 0 /\ len <= 240 /\ len / 2 <= 120 /\ 0 <= len / 2) as (Hl0 & Hev & H240 & Hh & Hh0)
    by (destruct Hlen as [-> | ->]; vm_compute; intuition discriminate).
  pose proof Ha as [_ _ Hp [Hzi Hii] [Hzo Hio] _].
  destruct (uchar_to_short_ok buf (a_plc_in a) len) as (i & -> & Hzi' & Hi); [lia..|]. cbn [mbind option_bind].
  assert (Forall is_i16 i) as Hii'.
  { apply Forall_anth. intros j Hj. rewrite Hi by lia. case_decide; [apply i16_range|apply anth_P; [done|lia]]. }
  assert (exists p o, (if good =? 0 then plc_bad (a_plc_state a) i (a_plc_out a) else plc_good (a_plc_state a) i (a_plc_out a))
      = Some (p, o) /\ plc_ok p /\ zlen o = 120 /\ Forall is_i16 o
      /\ (good <> 0 -> plc_clean p) /\ (good <> 0 -> plc_clean (a_plc_state a) -> o = i))
    as (p & o & -> & Hpo & Hzo' & Hio' & Hcl & Hpass).
  { destruct (Z.eqb_spec good 0).
    - destruct (plc_bad_law (a_plc_state a) i (a_plc_out a) Hp ltac:(lia) Hii' Hzo) as (p & o & -> & ? & ? & ?).
      by exists p, o.
    - destruct (plc_good_law (a_plc_state a) i (a_plc_out a) Hp ltac:(lia) Hii' Hzo) as (p & o & -> & ? & ? & ? & ? & ?).
      exists p, o. split_and!; auto. }
  cbn [mbind option_bind].
  destruct (short_to_uchar_ok o buf len) as (b & -> & Hzb & Hb); [lia..|]. cbn [mbind option_bind].
  do 2 eexists. split; [reflexivity|]. split_and!; try done; [apply audio_ok_set_plc; (done || lia)|lia| |].
  - apply Forall_anth. intros j Hj. rewrite Hb by lia. case_decide; [apply le_octet_u8|apply anth_P; [done|lia]].
  - intros Hg Hc ->. specialize (Hpass Hg Hc). subst o. apply anth_ext; [done|]. intros x Hx. rewrite Hb by lia.
    case_decide as Hlt; [|done]. unfold le_octet.
    pose proof (Z.div_mod x 2 ltac:(lia)). pose proof (Z.mod_pos_bound x 2 ltac:(lia)).
    assert (0 <= x / 2 < 120) by (split; [apply Z.div_pos|apply Z.div_lt_upper_bound]; lia).
    rewrite Hi, decide_True by (try lia; change (240 / 2) with 120; lia).
    assert (is_u8 (anth buf (2 * (x / 2) + 1)) /\ is_u8 (anth buf (2 * (x / 2)))) as [Hhi Hlo]
      by (split; apply anth_P; (done || lia)).
    set (hi := anth buf (2 * (x / 2) + 1)) in *. set (lo := anth buf (2 * (x / 2))) in *.
    destruct (short_of_octets hi lo Hhi Hlo) as [-> ->].
    destruct (Z.eqb_spec (x mod 2) 0).
    + unfold lo. f_equal. lia.
    + unfold hi. f_equal. lia.
Qed.

(** What a write adds to the buffer (its [tail] and its queue): [out], dropped when it does
    not fit. *)
Definition accept (b : Z * fifo) (out : list Z) : Z * fifo :=
  if decide (b.1 + zlen out <= BUFFER_SIZE) then (b.1 + zlen out, push out b.2) else b.

Definition buffered (a : audio) : Z * fifo := (tail a, abs a).

Lemma append_frame_ok a buf len :
  audio_ok a -> zlen buf = DECODE_BUF_SIZE -> frame_len len ->
  exists a', append_main_buf a buf len = Some a' /\ audio_ok a'
    /\ a_last_seq_num a' = a_last_seq_num a /\ a_sbc a' = a_sbc a /\ a_plc_state a' = a_plc_state a
    /\ buffered a' = accept (buffered a) (take (Z.to_nat len) buf).
Proof.
  intros Ha Hz Hlen. unfold DECODE_BUF_SIZE in *.
  assert (0 <= len <= 240) as Hl by (destruct Hlen as [-> | ->]; lia).
  destruct (append_main_buf_ok a buf len (ao_buf a Ha) ltac:(lia) ltac:(change (2 ^ 31) with 2147483648; lia))
    as (a' & -> & Hwf & (E1 & E2 & E3 & E4 & E5) & Hcase).
  exists a'. assert (zlen (take (Z.to_nat len) buf) = len) as Hzt by (unfold zlen in *; rewrite length_take; lia).
  split_and!; try done.
  - destruct Ha. split; by rewrite ?E1, ?E2, ?E3, ?E4, ?E5.
  - unfold accept, buffered. cbn [fst snd]. rewrite Hzt. case_decide; [by destruct Hcase as (-> & -> & _)|by subst a'].
Qed.

Lemma write_to_main_buf_ok dec plc a buf len good :
  dec <> 0 -> audio_ok a -> zlen buf = DECODE_BUF_SIZE -> Forall is_u8 buf -> frame_len len ->
  exists a' buf' out, write_to_main_buf dec plc a buf len good = Some (a', buf') /\ audio_ok a'
    /\ a_last_seq_num a' = a_last_seq_num a /\ a_sbc a' = a_sbc a
    /\ zlen buf' = DECODE_BUF_SIZE /\ Forall is_u8 buf'
    /\ zlen out = len /\ buffered a' = accept (buffered a) out
    /\ (plc <> 0 -> good <> 0 -> plc_clean (a_plc_state a'))
    /\ (plc = 0 \/ (good <> 0 /\ plc_clean (a_plc_state a)) ->
        forall pcm, zlen pcm = 120 -> (forall x, 0 <= x < 240 -> anth buf x = be_octet pcm x) ->
          len = 240 -> out = le_bytes pcm).
Proof.
  intros Hdec Ha Hz Hu Hlen. unfold write_to_main_buf. rewrite (proj2 (Z.eqb_neq _ _) Hdec).
  assert (0 <= len /\ len mod 2 = 0 /\ len <= 240) as (Hl0 & Hev & H240)
    by (destruct Hlen as [-> | ->]; vm_compute; intuition discriminate).
  assert (zlen buf = 256) as Hz' by exact Hz.
  destruct (be_to_le_ok buf len) as (b & -> & Hzb & Hb); [lia..|]. cbn [mbind option_bind].
  assert (Forall is_u8 b) as Hub.
  { apply Forall_anth. intros j Hj. rewrite Hb by lia. pose proof (Z.div_mod j 2 ltac:(lia)).
    pose proof (Z.mod_pos_bound j 2 ltac:(lia)). case_decide; [|apply anth_P; [done|lia]].
    destruct (Z.eqb_spec (j mod 2) 0); apply anth_P; (done || lia). }
  assert (exists a1 b1, (if plc =? 0 then Some (a, b) else conceal a b len good) = Some (a1, b1)
    /\ audio_ok a1 /\ same_buf a a1 /\ a_last_seq_num a1 = a_last_seq_num a /\ a_sbc a1 = a_sbc a
    /\ zlen b1 = DECODE_BUF_SIZE /\ Forall is_u8 b1
    /\ (plc <> 0 -> good <> 0 -> plc_clean (a_plc_state a1))
    /\ (plc = 0 \/ (good <> 0 /\ plc_clean (a_plc_state a)) -> len = 240 -> b1 = b))
    as (a1 & b1 & -> & Ha1 & Hsame & E1 & E2 & Hz1 & Hu1 & Hc1 & Hp1).
  { destruct (Z.eqb_spec plc 0).
    - exists a, b. split_and!; try done. by rewrite Hzb.
    - destruct (conceal_ok a b len good Ha ltac:(by rewrite Hzb) Hub Hlen)
        as (a1 & b1 & -> & ? & ? & ? & ? & ? & ? & ? & Hpass).
      exists a1, b1. split_and!; auto. intros [?|[? ?]] ?; [done|auto]. }
  cbn [mbind option_bind].
  destruct (append_frame_ok a1 b1 len Ha1 Hz1 Hlen) as (a2 & -> & Ha2 & F1 & F2 & F3 & Happ).
  cbn [mbind option_bind]. exists a2, b1, (take (Z.to_nat len) b1). split_and!; try done.
  - by rewrite F1.
  - by rewrite F2.
  - unfold DECODE_BUF_SIZE, zlen in *. rewrite length_take. lia.
  - rewrite Happ. unfold buffered. rewrite (same_buf_abs _ _ Hsame). by destruct Hsame as (_ & _ & ->).
  - intros. rewrite F3. auto.
  - intros Hcond pcm Hpcm Hbe ->. rewrite Hp1 by done.
    apply anth_ext; [unfold le_bytes, zlen in *; rewrite length_take, length_map, length_seqZ; lia|].
    intros j Hj. assert (0 <= j < 240) as Hj' by (unfold zlen in *; rewrite length_take in Hj; lia).
    unfold le_bytes. rewrite anth_map_seqZ by lia. rewrite anth_take by lia. rewrite Hb, decide_True by lia.
    pose proof (Z.div_mod j 2 ltac:(lia)). pose proof (Z.mod_pos_bound j 2 ltac:(lia)).
    rewrite Hbe by (destruct (Z.eqb_spec (j mod 2) 0); lia). unfold be_octet.
    destruct (Z.eqb_spec (j mod 2) 0) as [He|He].
    + replace ((j + 1) mod 2) with 1 by (apply Z.mod_unique with (j / 2); lia). cbn [Z.eqb]. f_equal. lia.
    + replace ((j - 1) mod 2) with 0 by (apply Z.mod_unique with (j / 2); lia). cbn [Z.eqb]. f_equal. lia.
Qed.

(** ** Lost packets *)
Lemma num_lost_mod seq last : 0 <= seq <= 3 -> 0 <= last <= 3 -> num_lost seq last = (seq - last - 1) mod 4.
Proof using Type.
  intros Hs Hl. unfold num_lost, NUM_SEQ_CODES. rewrite Z.rem_mod_nonneg by lia.
  replace (seq - last - 1 + 4) with (seq - last - 1 + 1 * 4) by lia. by rewrite Z.mod_add.
Qed.

Lemma indices0_u8 : Forall is_u8 indices0.
Proof using Type. by_compute. Qed.

Lemma conceal_lost_ok dec plc k a buf len :
  dec <> 0 -> 0 <= k -> audio_ok a -> zlen buf = DECODE_BUF_SIZE -> Forall is_u8 buf ->
  exists a' buf' len' outs, conceal_lost dec plc k a buf len = Some (a', buf', len') /\ audio_ok a'
    /\ a_last_seq_num a' = a_last_seq_num a /\ zlen buf' = DECODE_BUF_SIZE /\ Forall is_u8 buf'
    /\ zlen outs = k /\ Forall (fun o => zlen o = 240) outs
    /\ buffered a' = foldl accept (buffered a) outs
    /\ (k = 0 -> a' = a /\ buf' = buf /\ len' = len).
Proof.
  intros Hdec Hk Ha Hz Hu. unfold conceal_lost.
  destruct (for_loop_inv (fun j '(a1, b1, l1) => audio_ok a1 /\ a_last_seq_num a1 = a_last_seq_num a
      /\ zlen b1 = DECODE_BUF_SIZE /\ Forall is_u8 b1
      /\ (exists outs, zlen outs = j /\ Forall (fun o => zlen o = 240) outs /\ buffered a1 = foldl accept (buffered a) outs)
      /\ (j = 0 -> a1 = a /\ b1 = buf /\ l1 = len))
    (fun _ '(a, pcm_buf, len) =>
      '(framelen, d, pcm_buf, len) ← dec_decode (a_sbc a) indices0 (zlen indices0) pcm_buf DECODE_BUF_SIZE len;
      '(a, pcm_buf) ← write_to_main_buf dec plc (set_sbc a d) pcm_buf len 0;
      Some (a, pcm_buf, len)) (Z.to_nat k) 0 (a, buf, len))
    as ([[a1 b1] l1] & Hl & H3 & H4 & H5 & H6 & (outs & H7 & H8 & H9) & H10).
  - intros j [[a1 b1] l1] Hj (H3 & H4 & H5 & H6 & (outs & H7 & H8 & H9) & _).
    destruct (dec_frame (a_sbc a1) indices0 (zlen indices0) b1 l1 (ao_dec a1 H3) indices0_u8)
      as (r & d & o & w & -> & Hd & Hzo & Huo & Hv); [done|right; done|done|done|done|].
    rewrite dec_silence in Hv. destruct Hv as (_ & -> & _). cbn [mbind option_bind].
    destruct (write_to_main_buf_ok dec plc (set_sbc a1 d) o 240 0 Hdec (audio_ok_set_sbc a1 d H3 Hd) Hzo Huo ltac:(by right))
      as (a2 & b2 & out & -> & Ha2 & E1 & _ & Hz2 & Hu2 & Hzout & Hbuf & _ & _).
    cbn [mbind option_bind]. exists (a2, b2, 240). split; [done|]. split_and!; try done.
    + by rewrite E1.
    + exists (outs ++ [out]). split_and!.
      * unfold zlen in *. rewrite length_app. cbn. lia.
      * apply Forall_app. split; [done|]. by constructor.
      * rewrite foldl_app. cbn [foldl]. rewrite Hbuf, <- H9. done.
    + intros. lia.
  - split_and!; try done. by exists [].
  - exists a1, b1, l1, outs. rewrite Z2Nat.id in * by lia. rewrite Z.add_0_l in *.
    split_and!; try done; auto.
Qed.

(** ** The packet handler *)

Lemma handle_good_frame_ok dec plc a data len buf w :
  dec <> 0 -> audio_ok a -> Forall is_u8 data -> 4 <= len -> len + 2 <= zlen data ->
  anth data 0 = MSBC_SYNC_CODE -> zlen buf = DECODE_BUF_SIZE -> Forall is_u8 buf ->
  exists ret a' outs, handle_good_frame dec plc a data len buf w = Some (ret, a') /\ audio_ok a'
    /\ a_last_seq_num a' = a_last_seq_num a
    /\ Forall (fun o => zlen o = 240) outs /\ buffered a' = foldl accept (buffered a) outs
    /\ (ret, zlen outs) = (if dec_valid data len then (STATUS_SUCCESS, 1) else (STATUS_SCO_DATA_FAILED, 0)).
Proof.
  intros Hdec Ha Hud Hl4 Hl2 Hs Hz Hu. unfold handle_good_frame.
  destruct (dec_frame (a_sbc a) data len buf w (ao_dec a Ha) Hud) as (r & d & o & w' & -> & Hd & Hzo & Huo & Hv);
    [lia|left; lia|done|done|done|]. cbn [mbind option_bind].
  destruct (dec_valid data len).
  - destruct Hv as (Hr & -> & _). rewrite (proj2 (Z.ltb_lt 0 r)) by done.
    destruct (write_to_main_buf_ok dec plc (set_sbc a d) o 240 1 Hdec (audio_ok_set_sbc a d Ha Hd) Hzo Huo ltac:(by right))
      as (a2 & b2 & out & -> & Ha2 & E1 & _ & _ & _ & Hzout & Hbuf & _ & _).
    cbn [mbind option_bind]. exists STATUS_SUCCESS, a2, [out]. split_and!; try done. by constructor.
  - destruct Hv as (Hr & _). rewrite (proj2 (Z.ltb_ge 0 r)) by done.
    exists STATUS_SCO_DATA_FAILED, (set_sbc a d), []. split_and!; try done. by apply audio_ok_set_sbc.
Qed.

Lemma seq_code_range c : seq_code_to_num c < 0 \/ 0 <= seq_code_to_num c <= 3.
Proof using Type. unfold seq_code_to_num. repeat case_match; lia. Qed.

(** The packet as the handler takes it apart. *)
Lemma packet_parts (pkt : list Z) data_len :
  zlen pkt = 120 -> Forall is_u8 pkt -> 6 <= data_len <= 60 ->
  u32 (data_len - MSBC_SYNC_OFFSET) = data_len - 2
  /\ zlen (drop 2 pkt) = 118 /\ Forall is_u8 (drop 2 pkt)
  /\ aget (drop 2 pkt) 0 = Some (anth pkt 2) /\ anth (drop 2 pkt) 0 = anth pkt 2
  /\ aget pkt SCO_SEQ_OFFSET = Some (anth pkt 1).
Proof using Type.
  intros Hz Hu Hl. assert (zlen (drop 2 pkt) = 118) as Hd by (unfold zlen in *; rewrite length_drop; lia).
  assert (anth (drop 2 pkt) 0 = anth pkt 2) as Ha by (unfold anth, aget; cbn; by rewrite lookup_drop).
  split_and!.
  - apply wrapu_small. unfold MSBC_SYNC_OFFSET. change (2 ^ 32) with 4294967296. lia.
  - done.
  - by apply Forall_drop.
  - rewrite aget_anth by lia. by rewrite Ha.
  - done.
  - apply aget_anth. unfold SCO_SEQ_OFFSET. lia.
Qed.

Lemma silence_buf : zlen (replicate (Z.to_nat DECODE_BUF_SIZE) 0) = DECODE_BUF_SIZE
  /\ Forall is_u8 (replicate (Z.to_nat DECODE_BUF_SIZE) 0).
Proof using Type. split; [done|]. apply Forall_replicate. by_compute. Qed.

(** The guards of the handler. *)
Definition refused (plc : Z) (pkt : list Z) : bool :=
  negb (anth pkt 2 =? MSBC_SYNC_CODE) || (negb (plc =? 0) && (seq_code_to_num (anth pkt 1 ≫ 4) <? 0)).

Lemma refused_packet dec plc a pkt data_len :
  dec <> 0 -> zlen pkt = 120 -> Forall is_u8 pkt -> 6 <= data_len <= 60 -> refused plc pkt = true ->
  handle_msbc_data dec plc a pkt data_len = Some (STATUS_SCO_DATA_FAILED, a).
Proof using Type.
  intros Hdec Hz Hu Hl Hr. destruct (packet_parts pkt data_len Hz Hu Hl) as (Hlen & Hzd & Hud & Hs & Hs' & Hq).
  unfold handle_msbc_data. change (Z.to_nat MSBC_SYNC_OFFSET) with 2%nat. rewrite Hs, Hlen, Hq.
  cbn [mbind option_bind]. rewrite (proj2 (Z.leb_gt (data_len - 2) 0)), (proj2 (Z.eqb_neq _ _) Hdec) by lia.
  cbn [orb]. unfold refused in Hr. destruct (anth pkt 2 =? MSBC_SYNC_CODE); cbn [negb orb] in *; [|done].
  destruct (plc =? 0); cbn [negb andb] in *; [done|]. by rewrite Hr.
Qed.

Lemma decoded_packet dec plc a pkt data_len
    (lost := if plc =? 0 then 0 else (seq_code_to_num (anth pkt 1 ≫ 4) - a_last_seq_num a - 1) mod 4) :
  dec <> 0 -> audio_ok a -> zlen pkt = 120 -> Forall is_u8 pkt -> 6 <= data_len <= 60 -> refused plc pkt = false ->
  exists ret a' outs, handle_msbc_data dec plc a pkt data_len = Some (ret, a') /\ audio_ok a'
    /\ a_last_seq_num a' = (if plc =? 0 then a_last_seq_num a else seq_code_to_num (anth pkt 1 ≫ 4))
    /\ Forall (fun o => zlen o = 240) outs /\ buffered a' = foldl accept (buffered a) outs
    /\ (ret, zlen outs) = (if dec_valid (drop 2 pkt) (data_len - 2)
                           then (STATUS_SUCCESS, lost + 1) else (STATUS_SCO_DATA_FAILED, lost)).
Proof using Type.
  intros Hdec Ha Hz Hu Hl Hr. destruct (packet_parts pkt data_len Hz Hu Hl) as (Hlen & Hzd & Hud & Hs & Hs' & Hq).
  unfold handle_msbc_data. change (Z.to_nat MSBC_SYNC_OFFSET) with 2%nat. rewrite Hs, Hlen, Hq.
  cbn [mbind option_bind]. rewrite (proj2 (Z.leb_gt (data_len - 2) 0)), (proj2 (Z.eqb_neq _ _) Hdec) by lia.
  cbn [orb]. unfold refused in Hr. destruct (Z.eqb_spec (anth pkt 2) MSBC_SYNC_CODE) as [Hsync|]; [|done].
  cbn [negb orb] in *. rewrite <- Hs' in Hsync. destruct silence_buf as [Hzs Hus].
  destruct (Z.eqb_spec plc 0) as [->|Hplc]; cbn [negb andb] in *.
  - apply (handle_good_frame_ok dec 0 a (drop 2 pkt) (data_len - 2) _ 0 Hdec Ha Hud); (done || lia).
  - set (seq := seq_code_to_num (anth pkt 1 ≫ 4)) in *. rewrite Hr. apply Z.ltb_ge in Hr.
    assert (0 <= seq <= 3) as Hseq3 by (destruct (seq_code_range (anth pkt 1 ≫ 4)); unfold seq in *; lia).
    rewrite (num_lost_mod seq) by (done || apply Ha). fold lost. assert (0 <= lost < 4) by (apply Z.mod_pos_bound; lia).
    destruct (conceal_lost_ok dec plc lost a (replicate (Z.to_nat DECODE_BUF_SIZE) 0) 0 Hdec)
      as (a1 & b1 & l1 & outs & -> & Ha1 & _ & Hz1 & Hu1 & Hn & H240 & Hb & _); [lia|done..|].
    cbn [mbind option_bind].
    destruct (handle_good_frame_ok dec plc (set_last_seq a1 seq) (drop 2 pkt) (data_len - 2) b1 l1 Hdec)
      as (ret & a2 & outs2 & -> & Ha2 & E & H240' & Hb2 & Hret); [by apply audio_ok_set_last_seq|done|lia..|done|done|done|].
    exists ret, a2, (outs ++ outs2). split_and!; try done.
    + by apply Forall_app.
    + rewrite foldl_app, <- Hb. exact Hb2.
    + assert (zlen (outs ++ outs2) = lost + zlen outs2) as -> by (unfold zlen in *; rewrite length_app; lia).
      destruct (dec_valid (drop 2 pkt) (data_len - 2)); injection Hret as -> ->; [done|by rewrite Z.add_0_r].
Qed.


(** Without decoding the packet itself is appended. *)
Lemma raw_packet_ok plc a buf len :
  audio_ok a -> 0 <= len <= zlen buf -> zlen buf < 2 ^ 31 ->
  exists a' b, write_to_main_buf 0 plc a buf len 0 = Some (a', b) /\ audio_ok a'.
Proof using Type.
  intros Ha Hl Hb. unfold write_to_main_buf. cbn [Z.eqb mbind option_bind].
  destruct (append_main_buf_ok a buf len (ao_buf a Ha) Hl Hb) as (a' & -> & Hwf & (E1 & E2 & E3 & E4 & E5) & _).
  cbn [mbind option_bind]. exists a', buf. split; [done|]. destruct Ha. split; by rewrite ?E1, ?E2, ?E3, ?E4, ?E5.
Qed.

(** Every packet is handled, whatever the configuration. *)
Lemma handle_msbc_data_total dec plc a pkt data_len :
  audio_ok a -> zlen pkt = 120 -> Forall is_u8 pkt -> data_len = 2 \/ 6 <= data_len <= 60 ->
  exists ret a', handle_msbc_data dec plc a pkt data_len = Some (ret, a') /\ audio_ok a'.
Proof using Type.
  intros Ha Hz Hu Hl. destruct (packet_parts pkt 6 Hz Hu ltac:(lia)) as (_ & Hzd & _ & Hs & _).
  destruct Hl as [->|Hl].
  { unfold handle_msbc_data. change (Z.to_nat MSBC_SYNC_OFFSET) with 2%nat. rewrite Hs. cbn. eauto. }
  destruct (Z.eqb_spec dec 0) as [->|Hdec].
  - destruct (packet_parts pkt data_len Hz Hu Hl) as (Hlen & _).
    unfold handle_msbc_data. change (Z.to_nat MSBC_SYNC_OFFSET) with 2%nat. rewrite Hs, Hlen. cbn [mbind option_bind].
    case_match; [eauto|]. change (0 =? 0) with true. cbn iota.
    destruct (raw_packet_ok plc a (drop 2 pkt) (data_len - 2) Ha) as (a' & b & -> & Ha'); [lia|rewrite Hzd; lia|].
    cbn. eauto.
  - destruct (refused plc pkt) eqn:Hr.
    + rewrite refused_packet by done. eauto.
    + destruct (decoded_packet dec plc a pkt data_len Hdec Ha Hz Hu Hl Hr) as (ret & a' & _ & -> & ? & _). eauto.
Qed.

(** Without loss the handler is transparent: when the sequence number is the expected one
    and no concealment is in progress (or concealment is off), a packet the decoder accepts
    puts exactly its decoded samples into the buffer, as little-endian octets. *)
Theorem lossless_packet dec plc a pkt data_len :
  dec <> 0 -> audio_ok a -> zlen pkt = 120 -> Forall is_u8 pkt -> 6 <= data_len <= 60 ->
  anth pkt 2 = MSBC_SYNC_CODE -> dec_valid (drop 2 pkt) (data_len - 2) = true ->
  plc = 0 \/ (plc_clean (a_plc_state a) /\ seq_code_to_num (anth pkt 1 ≫ 4) = (a_last_seq_num a + 1) mod 4) ->
  exists r d' out' pcm a',
    dec_decode (a_sbc a) (drop 2 pkt) (data_len - 2) (replicate (Z.to_nat DECODE_BUF_SIZE) 0) DECODE_BUF_SIZE 0
      = Some (r, d', out', 240)
    /\ zlen pcm = 120 /\ (forall x, 0 <= x < 240 -> anth out' x = be_octet pcm x)
    /\ handle_msbc_data dec plc a pkt data_len = Some (STATUS_SUCCESS, a')
    /\ a_sbc a' = d' /\ buffered a' = accept (buffered a) (le_bytes pcm)
    /\ (plc <> 0 -> plc_clean (a_plc_state a')).
Proof.
  intros Hdec Ha Hz Hu Hl Hsync Hv Hplc. destruct (packet_parts pkt data_len Hz Hu Hl) as (Hlen & Hzd & Hud & Hs & Hs' & Hq).
  destruct silence_buf as [Hzs Hus]. set (buf := replicate (Z.to_nat DECODE_BUF_SIZE) 0) in *.
  destruct (dec_frame (a_sbc a) (drop 2 pkt) (data_len - 2) buf 0 (ao_dec a Ha) Hud) as (r & d & o & w & Hd & Hdok & Hzo & Huo & Hc);
    [lia|left; lia|by rewrite Hs'|done..|]. rewrite Hv in Hc. destruct Hc as (Hr & -> & pcm & Hzp & _ & Hbe).
  assert (exists n, 0 <= n <= 3 /\ (plc <> 0 -> n = seq_code_to_num (anth pkt 1 ≫ 4) /\ num_lost n (a_last_seq_num a) = 0)
      /\ (plc = 0 -> n = a_last_seq_num a)) as (n & Hn & Hn1 & Hn0).
  { pose proof (ao_seq a Ha) as Hls. destruct (Z.eqb_spec plc 0); [by exists (a_last_seq_num a)|].
    destruct Hplc as [|[_ ->]]; [done|]. exists ((a_last_seq_num a + 1) mod 4).
    pose proof (Z.mod_pos_bound (a_last_seq_num a + 1) 4 ltac:(lia)). split; [lia|]. split; [|done]. intros _. split; [done|].
    rewrite num_lost_mod by lia.
    replace ((a_last_seq_num a + 1) mod 4 - a_last_seq_num a - 1) with ((a_last_seq_num a + 1) mod 4 - (a_last_seq_num a + 1)) by lia.
    rewrite Zminus_mod_idemp_l, Z.sub_diag. done. }
  assert (audio_ok (set_last_seq a n)) as Ha' by (by apply audio_ok_set_last_seq).
  destruct (write_to_main_buf_ok dec plc (set_sbc (set_last_seq a n) d) o 240 1 Hdec (audio_ok_set_sbc _ d Ha' Hdok) Hzo Huo
    ltac:(by right)) as (a2 & b2 & out & Hw & Ha2 & _ & E2 & _ & _ & _ & Hbuf & Hcl & Hout).
  assert (handle_good_frame dec plc (set_last_seq a n) (drop 2 pkt) (data_len - 2) buf 0 = Some (STATUS_SUCCESS, a2)) as Hgood.
  { unfold handle_good_frame. cbn [a_sbc set_last_seq]. rewrite Hd. cbn [mbind option_bind].
    rewrite (proj2 (Z.ltb_lt 0 r)) by done. rewrite Hw. done. }
  exists r, d, o, pcm, a2. split_and!; try done.
  - unfold handle_msbc_data. change (Z.to_nat MSBC_SYNC_OFFSET) with 2%nat. rewrite Hs, Hlen, Hq.
    cbn [mbind option_bind]. rewrite (proj2 (Z.leb_gt (data_len - 2) 0)), (proj2 (Z.eqb_neq _ _) Hdec) by lia.
    rewrite (proj2 (Z.eqb_eq _ _) Hsync). cbn [orb negb]. fold buf. destruct (Z.eqb_spec plc 0) as [->|Hne].
    + rewrite Hn0 in Hgood by done. by destruct a.
    + destruct (Hn1 Hne) as [<- Hlost]. rewrite (proj2 (Z.ltb_ge n 0)), Hlost by lia. exact Hgood.
  - rewrite Hbuf. unfold buffered at 1. f_equal. apply Hout; try done.
    destruct Hplc as [->|[Hc _]]; [by left|right; split; [done|exact Hc]].
  - intros Hne. by apply Hcl.
Qed.

Lemma audio0_ok : audio_ok audio0.
Proof.
  split; [apply audio0_wf|apply dec_init_ok|apply plc_state0_ok| | |cbn; lia];
    (split; [done|apply Forall_replicate; by_compute]).
Qed.
End Frames.

(** A packet of the peer: header octets with sequence number 1, an mSBC frame of silence and
    its padding octet. *)
Definition packet1 : list Z := [0x01; 0x38] ++ indices0 ++ replicate 60 0.

Lemma packet1_u8 : Forall is_u8 packet1.
Proof. by_compute. Qed.


Lemma lossless_packet_witness :
  exists a', handle_msbc_data 1 1 (audio0 : audio sbc_t PLC_State) packet1 60 = Some (STATUS_SUCCESS, a').
Proof.
  destruct (lossless_packet 1 1 (audio0 : audio sbc_t PLC_State) packet1 60) as (_ & _ & _ & _ & a' & _ & _ & _ & Ha & _);
    [lia|apply audio0_ok|reflexivity|apply packet1_u8|lia|reflexivity|vm_compute; reflexivity|right; split; reflexivity|].
  exists a'. exact Ha.
Defined.
