(* ===== verification/BtSockets.v ===== *)
(** The sockets of the voice daemon: which descriptors are open, when they are used and closed,
    and the sessions of a client ([close_socket] to [start_main_loop] and [main] of
    src/mediatek/bluetooth/btremoted/btremoted.c). *)
From stdpp Require Import gmap sets.
From S2P Require Import Prelude SbcTables SbcSynth SbcApi Plc BtBytes Btremoted BtCodec BtFifo BtFrames.

(** ** Specification: the descriptors a process holds *)

(** The descriptor a call uses without closing it. *)
Definition uses (c : call) : option Z :=
  match c with
  | Caccept f | Cconnect f | Csetsockopt f _ | Cshutdown f | Crecv f _ | Csend f _ | Cnonblock f
  | Cbind f _ _ | Clisten f _ => Some f
  | _ => None
  end.

(** One call: [None] when it uses a descriptor that is not open. *)
Definition fd_step (S : gset Z) (e : call * resp) : option (gset Z) :=
  match uses e.1 with
  | Some f => if decide (f ∈ S) then Some tt else None
  | None => Some tt
  end ≫= fun _ =>
  match e.1 with
  | Csocket _ | Caccept _ => Some (if 0 <=? rv e.2 then S ∪ {[rv e.2]} else S)
  | Cclose f => if decide (f ∈ S) then Some (S ∖ {[f]}) else None
  | Cpoll l => if decide (Forall (fun p => p.1 = -1 \/ p.1 ∈ S) l) then Some S else None
  | _ => Some S
  end.

Lemma fd_step_uses S c r f :
  uses c = Some f -> f ∈ S -> (forall g, c <> Caccept g) -> fd_step S (c, r) = Some S.
Proof.
  intros Hu Hf Hc. unfold fd_step. cbn [fst snd]. rewrite Hu, decide_True by done.
  destruct c; try done. by destruct (Hc fd).
Qed.

Fixpoint fd_run (S : gset Z) (tr : list (call * resp)) : option (gset Z) :=
  match tr with [] => Some S | e :: tr => S' ← fd_step S e; fd_run S' tr end.

Lemma fd_run_snoc S tr e : fd_run S (tr ++ [e]) = (S' ← fd_run S tr; fd_step S' e).
Proof.
  revert S. induction tr as [|e' tr IH]; intros S; simpl; [by destruct (fd_step S e)|].
  destruct (fd_step S e'); simpl; [apply IH|done].
Qed.

(** The standard descriptors the process starts with. *)
Definition std_fds : gset Z := {[0; 1; 2]}.

(** A slot of the [pollfd] array holds a descriptor or -1. *)
Definition held (f : Z) : gset Z := if f =? -1 then ∅ else {[f]}.

Lemma held_in f : f <> -1 -> f ∈ held f.
Proof. intros Hf. unfold held. destruct (Z.eqb_spec f (-1)); [done|set_solver]. Qed.

Lemma held_pos f : 0 <= f -> held f = {[f]}.
Proof. intros Hf. unfold held. by rewrite (proj2 (Z.eqb_neq f (-1))) by lia. Qed.

Lemma held_close (S : gset Z) f g :
  f <> -1 -> ~ (f ∈ S) -> g <> f -> (S ∪ held f ∪ held g) ∖ {[f]} = S ∪ held g.
Proof.
  intros Hf Hn Hg. unfold held. destruct (Z.eqb_spec f (-1)); [done|]. destruct (Z.eqb_spec g (-1)); set_solver.
Qed.

Lemma held_comm (S : gset Z) f g : S ∪ held f ∪ held g = S ∪ held g ∪ held f.
Proof. set_solver. Qed.

Lemma held_empty (S : gset Z) : S ∪ held (-1) = S.
Proof. set_solver. Qed.

Section Sockets.
Context {D P : Type} `{FrameDecoderLaws D} `{ConcealerLaws P}.
Context (answer : list (call * resp) -> call -> resp).
Abbreviation audio := (audio D P).
Abbreviation state := (state D P).
Abbreviation world := (world state call resp).
Abbreviation IO := (io state call resp).

(** What the daemon relies on in the kernel: a new descriptor is not one that is open, [recv]
    stores octets, at most as many as asked for, and never a fragment of a frame header;
    [send] takes at most what it was given. *)
Record kernel_ok : Prop := {
  k_socket tr S d : fd_run std_fds tr = Some S -> ~ (rv (answer tr (Csocket d)) ∈ S);
  k_error tr d : -1 <= rv (answer tr (Csocket d));
  k_accept tr S f : fd_run std_fds tr = Some S -> ~ (rv (answer tr (Caccept f)) ∈ S);
  k_recv tr f n : rv (answer tr (Crecv f n)) <= Z.max 2 n /\ (rv (answer tr (Crecv f n)) <= 2 \/ 6 <= rv (answer tr (Crecv f n)));
  k_octets tr f n : Forall is_u8 (rdata (answer tr (Crecv f n)));
  k_send tr f l : rv (answer tr (Csend f l)) <= zlen l
}.

(** ** The invariant: [base] stays open for ever, of the rest exactly the slots are open *)
Record slots (base : gset Z) (srv : Z) (w : world) (p0 p1 p2 : pollfd) : Prop := {
  sl_fds : fds (globals w) = [p0; p1; p2];
  sl_srv : fd p1 = srv /\ srv ∈ base /\ 0 <= srv;
  sl_sco : fd p0 = -1 \/ (0 <= fd p0 /\ ~ (fd p0 ∈ base));
  sl_cli : fd p2 = -1 \/ (0 <= fd p2 /\ ~ (fd p2 ∈ base) /\ fd p2 <> fd p0);
  sl_run : fd_run std_fds (trace w) = Some (base ∪ held (fd p0) ∪ held (fd p2));
  sl_audio : audio_ok (st_audio (globals w))
}.

Definition loop_inv (base : gset Z) (srv : Z) (w : world) : Prop := (exists p0 p1 p2, slots base srv w p0 p1 p2).

Lemma poll_at_slots base srv w p0 p1 p2 :
  slots base srv w p0 p1 p2 ->
  poll_at (globals w) ID_SCO = p0 /\ poll_at (globals w) ID_SERVER = p1 /\ poll_at (globals w) ID_CLIENT = p2.
Proof using Type. intros [E _ _ _ _ _]. unfold poll_at, aget. by rewrite E. Qed.

(** A call that leaves the descriptors alone. *)
Lemma slots_call base srv w p0 p1 p2 c r :
  slots base srv w p0 p1 p2 ->
  (forall S, fd_run std_fds (trace w) = Some S -> fd_step S (c, r) = Some S) ->
  slots base srv (World (globals w) (trace w ++ [(c, r)])) p0 p1 p2.
Proof using Type.
  intros [] Hc. split; try done. cbn [trace]. rewrite fd_run_snoc, sl_run0. cbn [mbind option_bind]. by apply Hc.
Qed.

Lemma slots_state base srv w p0 p1 p2 s :
  slots base srv w p0 p1 p2 -> fds s = fds (globals w) -> audio_ok (st_audio s) ->
  slots base srv (World s (trace w)) p0 p1 p2.
Proof using Type. intros [] Hf Ha. split; try done. cbn. by rewrite Hf. Qed.

Definition closed (p : pollfd) : pollfd := mk_pollfd (-1) (events p) (revents p).

(** The number of [connect] calls in a trace. *)
Definition connects (tr : list (call * resp)) : nat :=
  length (List.filter (fun e => match e.1 with Cconnect _ => true | _ => false end) tr).

Lemma connects_snoc tr c r :
  connects (tr ++ [(c, r)]) = (connects tr + match c with Cconnect _ => 1 | _ => 0 end)%nat.
Proof using Type. unfold connects. rewrite List.filter_app, length_app. f_equal. by destruct c. Qed.

Lemma connects_no_more tr c r : (forall f, c <> Cconnect f) -> connects (tr ++ [(c, r)]) = connects tr.
Proof using Type. intros Hc. rewrite connects_snoc. destruct c; try lia. by destruct (Hc fd). Qed.

Lemma runs_close tr S f r :
  fd_run std_fds tr = Some S -> f ∈ S -> fd_run std_fds (tr ++ [(Cclose f, r)]) = Some (S ∖ {[f]}).
Proof using Type. intros Hr Hf. rewrite fd_run_snoc, Hr. cbn. by rewrite decide_True. Qed.

(** Closing a slot: its descriptor is shut down and closed, once, and the slot emptied. *)
Lemma close_slot base srv w p0 p1 p2 id :
  slots base srv w p0 p1 p2 -> id = ID_SCO \/ id = ID_CLIENT ->
  let p0' := if id =? ID_SCO then closed p0 else p0 in
  let p2' := if id =? ID_SCO then p2 else closed p2 in
  wp (close_socket answer id)
    (fun _ w' => slots base srv w' p0' p1 p2' /\ globals w' = set_fds (globals w) [p0'; p1; p2']
      /\ connects (trace w') = connects (trace w)) w.
Proof using Type.
  intros Hw Hid. destruct (poll_at_slots _ _ _ _ _ _ Hw) as (E0 & E1 & E2).
  set (p := if id =? ID_SCO then p0 else p2). intros p0' p2'.
  assert (poll_at (globals w) id = p) as Ep by (by destruct Hid as [-> | ->]).
  assert (fds (set_fd (globals w) id (-1)) = [p0'; p1; p2']) as Ef.
  { unfold set_fd, set_poll. rewrite Ep. cbn [fds set_fds]. rewrite (sl_fds _ _ _ _ _ _ Hw).
    unfold p, p0', p2'. by destruct Hid as [-> | ->]. }
  unfold close_socket, sys. repeat wp_step. rewrite Ep. destruct (Z.eqb_spec (fd p) (-1)) as [Hm|Hm].
  - wp_step. assert (p0' = p0 /\ p2' = p2) as [-> ->].
    { unfold p0', p2', p, closed in *. rewrite <- Hm. destruct Hid as [-> | ->]; cbn in *; by destruct p0, p2. }
    split_and!; [done| |done]. rewrite <- (sl_fds _ _ _ _ _ _ Hw). by destruct (globals w).
  - assert (fd p ∈ base ∪ held (fd p0) ∪ held (fd p2)) as Hin.
    { pose proof (held_in (fd p) Hm). unfold p in *. destruct Hid as [-> | ->]; cbn in *; set_solver. }
    repeat wp_step. cbn [globals trace]. rewrite !connects_no_more by done. split_and!; [| |done].
    2:{ unfold set_fd, set_poll in *. cbn [fds set_fds] in Ef. by rewrite Ef. }
    split; try done.
    + apply Hw.
    + unfold p0'. case_match; [by left|apply Hw].
    + destruct (sl_cli _ _ _ _ _ _ Hw) as [?|(? & ? & ?)]; unfold p0', p2'; case_match; try (by left).
      right. cbn. split_and!; (done || lia).
    + cbn [trace]. rewrite !fd_run_snoc, (sl_run _ _ _ _ _ _ Hw). cbn [mbind option_bind].
      rewrite (fd_step_uses _ _ _ (fd p)) by done. cbn [mbind option_bind fd_step fst uses].
      rewrite decide_True by done. f_equal. pose proof (sl_sco _ _ _ _ _ _ Hw) as Hs0. pose proof (sl_cli _ _ _ _ _ _ Hw) as Hs2.
      unfold p, p0', p2' in *. destruct Hid as [-> | ->]; cbn in *.
      * rewrite held_empty. apply held_close; [done|tauto|lia].
      * rewrite held_comm, held_empty. apply held_close; [done|tauto|lia].
    + apply Hw.
Qed.

(** ** The audio state over the handlers *)
Lemma audio_ok_clear s : audio_ok (st_audio s) -> audio_ok (st_audio (clear_main_buf s)).
Proof using Type.
  intros Ha. destruct (clear_main_buf_ok s (ao_buf _ Ha)) as [Hwf _]. destruct Ha. by split.
Qed.

Lemma plc_init_audio a : audio_ok a -> exists p, plc_init (a_plc_state a) = Some p /\ plc_clean p
  /\ audio_ok (set_plc a p (a_plc_in a) (a_plc_out a)).
Proof using Type.
  intros Ha. destruct (plc_init_law (a_plc_state a) (ao_plc _ Ha)) as (p & ? & ? & ?).
  exists p. split_and!; try done. destruct Ha as [? ? ? [? ?] [? ?] ?]. by apply audio_ok_set_plc.
Qed.

Lemma init_plc_ok w (Q : unit -> world -> Prop) :
  audio_ok (st_audio (globals w)) ->
  (forall p (g := set_audio (globals w) (set_plc (st_audio (globals w)) p (a_plc_in (st_audio (globals w))) (a_plc_out (st_audio (globals w))))),
     plc_init (a_plc_state (st_audio (globals w))) = Some p -> plc_clean p -> audio_ok (st_audio g) ->
     Q tt (World g (trace w))) ->
  wp init_plc Q w.
Proof using Type.
  intros Ha HQ. destruct (plc_init_audio _ Ha) as (p & Hp & Hc & Hok).
  unfold init_plc, on_audio. eapply wp_pure; [by rewrite Hp|]. by apply HQ.
Qed.

(** ** Connecting to the SCO server *)
Lemma runs_call tr S S' c r :
  fd_run std_fds tr = Some S -> fd_step S (c, r) = Some S' -> fd_run std_fds (tr ++ [(c, r)]) = Some S'.
Proof using Type. intros Hr Hs. by rewrite fd_run_snoc, Hr. Qed.

Lemma runs_use tr S c r f :
  fd_run std_fds tr = Some S -> uses c = Some f -> f ∈ S -> (forall g, c <> Caccept g) ->
  fd_run std_fds (tr ++ [(c, r)]) = Some S.
Proof using Type. intros Hr Hu Hf Hc. eapply runs_call; [done|]. by eapply fd_step_uses. Qed.

Lemma connect_sco_ok fuel f retry S (w : world) :
  retry + Z.of_nat fuel = 9 -> fd_run std_fds (trace w) = Some S -> f ∈ S ->
  wp (connect_sco answer fuel f retry)
    (fun ok (w' : world) => globals w' = globals w
       /\ fd_run std_fds (trace w') = Some (if ok then S else S ∖ {[f]})
       /\ (connects (trace w') <= connects (trace w) + fuel + 1)%nat
       /\ (ok = false -> connects (trace w') = connects (trace w) + fuel + 1)%nat) w.
Proof using Type.
  revert retry w. induction fuel as [|fuel IH]; intros retry w Hf Hr Hin; cbn [connect_sco]; unfold sys;
    do 2 wp_step; pose proof (runs_use (trace w) S (Cconnect f) (answer (trace w) (Cconnect f)) f Hr eq_refl Hin ltac:(done)) as Hr1;
    (destruct (Z.ltb_spec (rv (answer (trace w) (Cconnect f))) 0);
     [|wp_step; split_and!; [done|exact Hr1|cbn [trace]; rewrite connects_snoc; lia|done]]);
    do 2 wp_step; cbn [globals trace] in *; set (w1 := trace w ++ _) in *;
    assert (fd_run std_fds (w1 ++ [(Cusleep 100000, answer w1 (Cusleep 100000))]) = Some S) as Hr2
      by (rewrite fd_run_snoc, Hr1; done);
    assert (connects (w1 ++ [(Cusleep 100000, answer w1 (Cusleep 100000))]) = (connects (trace w) + 1)%nat) as Hc2
      by (unfold w1; rewrite !connects_snoc; lia).
  - rewrite (proj2 (Z.eqb_eq _ _)) by lia. repeat wp_step. cbn [trace globals]. split_and!; [done| | |].
    + rewrite fd_run_snoc, Hr2. cbn. by rewrite decide_True.
    + rewrite connects_snoc, Hc2. lia.
    + intros _. rewrite connects_snoc, Hc2. lia.
  - rewrite (proj2 (Z.eqb_neq _ _)) by lia.
    eapply wp_mono; [apply IH; [lia|exact Hr2|done]|]. cbn [trace globals]. rewrite Hc2.
    intros ok w' (? & ? & ? & Hok). split_and!; [done..|lia|]. intros Hf'. rewrite (Hok Hf'). lia.
Qed.

Lemma open_sco_socket_ok S (w : world) :
  kernel_ok -> fd_run std_fds (trace w) = Some S ->
  wp (open_sco_socket answer)
    (fun f (w' : world) => globals w' = globals w
       /\ (connects (trace w') <= connects (trace w) + 10)%nat
       /\ if f <? 0 then fd_run std_fds (trace w') = Some S
          else ~ (f ∈ S) /\ fd_run std_fds (trace w') = Some (S ∪ {[f]})) w.
Proof using Type.
  intros K Hr. unfold open_sco_socket, sys. do 2 wp_step. set (r := answer (trace w) (Csocket 1)).
  pose proof (k_socket K _ _ 1 Hr : ~ (rv r ∈ S)) as Hfresh.
  destruct (Z.ltb_spec (rv r) 0) as [Hneg|Hpos]; wp_step.
  - cbn [globals trace]. rewrite connects_snoc. change (STATUS_SCO_FAILED <? 0) with true. cbn iota.
    rewrite fd_run_snoc, Hr. cbn. rewrite (proj2 (Z.leb_gt 0 _)) by done.
    split_and!; (done || lia).
  - assert (fd_run std_fds (trace w ++ [(Csocket 1, r)]) = Some (S ∪ {[rv r]})) as Hr1.
    { eapply runs_call; [exact Hr|]. cbn. by rewrite (proj2 (Z.leb_le _ _)). }
    eapply wp_mono; [apply connect_sco_ok; [reflexivity|exact Hr1|set_solver]|].
    intros ok w1 (Eg & Hr2 & Hc & _). cbn [trace globals] in *. rewrite connects_snoc in Hc. destruct ok; cbn [negb].
    + repeat wp_step. cbn [trace globals]. rewrite connects_snoc, (proj2 (Z.ltb_ge _ _)) by done.
      split_and!; [done|lia|done|]. eapply runs_use; [exact Hr2|reflexivity|set_solver|done].
    + wp_step. split_and!; [done|lia|]. cbn. rewrite Hr2. f_equal. set_solver.
Qed.

(** ** Handlers *)

Lemma slots_replace base srv (w w' : world) p0 p1 p2 p0' p2' :
  slots base srv w p0 p1 p2 -> fds (globals w') = [p0'; p1; p2'] -> audio_ok (st_audio (globals w')) ->
  (fd p0' = -1 \/ (0 <= fd p0' /\ ~ (fd p0' ∈ base))) ->
  (fd p2' = -1 \/ (0 <= fd p2' /\ ~ (fd p2' ∈ base) /\ fd p2' <> fd p0')) ->
  fd_run std_fds (trace w') = Some (base ∪ held (fd p0') ∪ held (fd p2')) ->
  slots base srv w' p0' p1 p2'.
Proof using Type. intros [] Hf Ha H0' H2' Hr. by split. Qed.

(** What a new session finds: an accepted client, an open SCO connection, the sequence
    numbers at their start and no concealment in progress. *)
Definition session_started (g : state) : Prop :=
  0 <= fd (poll_at g ID_CLIENT) /\ 0 <= fd (poll_at g ID_SCO)
  /\ a_last_seq_num (st_audio g) = 3 /\ plc_clean (a_plc_state (st_audio g)).

Lemma start_session_ok base srv (w : world) p0 p1 p2 :
  slots base srv w p0 p1 p2 ->
  wp start_session (fun ret w' => ret = STATUS_SUCCESS /\ trace w' = trace w /\ slots base srv w' p0 p1 p2
    /\ a_last_seq_num (st_audio (globals w')) = 3 /\ plc_clean (a_plc_state (st_audio (globals w')))
    /\ buffered (st_audio (globals w')) = buffered (st_audio (globals w))) w.
Proof using Type.
  intros Hw. unfold start_session. wp_step. apply init_plc_ok; [apply Hw|]. intros p g Hp Hc Ha.
  repeat wp_step. cbn [globals trace]. split_and!; try done.
  eapply slots_state; [exact Hw|done|]. apply audio_ok_set_last_seq; [exact Ha|lia].
Qed.

(** "Disconnect current client, if exists" *)
Lemma drop_client_ok base srv (w : world) p0 p1 p2 :
  slots base srv w p0 p1 p2 ->
  wp (if 0 <=? fd (poll_at (globals w) ID_CLIENT) then close_socket answer ID_CLIENT else io_ret tt)
    (fun _ w' => slots base srv w' p0 p1 (closed p2) /\ globals w' = set_fds (globals w) [p0; p1; closed p2]
      /\ connects (trace w') = connects (trace w)) w.
Proof using Type.
  intros Hw. destruct (poll_at_slots _ _ _ _ _ _ Hw) as (E0 & E1 & E2). rewrite E2.
  destruct (Z.leb_spec 0 (fd p2)).
  - exact (close_slot base srv w p0 p1 p2 ID_CLIENT Hw ltac:(by right)).
  - wp_step. assert (fd p2 = -1) as Hm by (destruct (sl_cli _ _ _ _ _ _ Hw); lia).
    assert (closed p2 = p2) as -> by (unfold closed; rewrite <- Hm; by destruct p2). split_and!; [done| |done].
    rewrite <- (sl_fds _ _ _ _ _ _ Hw). by destruct (globals w).
Qed.

(** What the tail of the connection handler leaves, [p0] being the SCO slot before. *)
Definition session_post (base : gset Z) (srv : Z) (g : state) (p0 : pollfd) (n : nat) (ret : Z) (w' : world) : Prop :=
  loop_inv base srv w' /\ (connects (trace w') <= n + 10)%nat
  /\ (ret = STATUS_SUCCESS -> session_started (globals w')
      /\ if fd p0 =? -1
         then abs (st_audio (globals w')) = mk_fifo (if decode_enabled g =? 0 then 0 else u32 (ntrim g)) []
         else buffered (st_audio (globals w')) = buffered (st_audio g)).

Lemma enter_session base srv (w : world) p0 p1 p2 :
  slots base srv w p0 p1 p2 -> 0 <= fd p0 -> 0 <= fd p2 ->
  wp start_session (fun ret w' => loop_inv base srv w' /\ trace w' = trace w
    /\ session_started (globals w') /\ buffered (st_audio (globals w')) = buffered (st_audio (globals w))) w.
Proof using Type.
  intros Hw H0' H2'. eapply wp_mono; [apply (start_session_ok _ _ _ _ _ _ Hw)|].
  intros ret w' (_ & Ht & Hs & Hls & Hcl & Hb). split_and!; try done; [by exists p0, p1, p2|].
  destruct (poll_at_slots _ _ _ _ _ _ Hs) as (G0 & _ & G2). unfold session_started. by rewrite G0, G2.
Qed.

(** The handler after the client is accepted. *)
Lemma open_session base srv (w : world) p0 p1 p2 :
  kernel_ok -> slots base srv w p0 p1 p2 -> 0 <= fd p2 ->
  wp (if fd (poll_at (globals w) ID_SCO) =? -1 then
        do sco_fd <- open_sco_socket answer;
        if sco_fd <? 0 then io_ret STATUS_SCO_FAILED
        else
          do _ <- io_mod (fun s => clear_main_buf (set_poll s ID_SCO (mk_pollfd sco_fd POLLIN 0)));
          start_session
      else start_session)
    (session_post base srv (globals w) p0 (connects (trace w))) w.
Proof using Type.
  intros K Hw H2'. destruct (poll_at_slots _ _ _ _ _ _ Hw) as (-> & _ & _). unfold session_post.
  pose proof (sl_run _ _ _ _ _ _ Hw) as Hr.
  destruct (Z.eqb_spec (fd p0) (-1)) as [Hm|Hm].
  - rewrite Hm, held_comm, held_empty in Hr.
    wp_step. eapply wp_mono; [apply open_sco_socket_ok; [exact K|exact Hr]|].
    intros f w3 (Eg3 & Hc3 & Hf). destruct (Z.ltb_spec f 0).
    + wp_step. split_and!; [|done|done]. exists p0, p1, p2.
      eapply slots_replace; [exact Hw|rewrite Eg3; apply Hw|rewrite Eg3; apply Hw|apply Hw|apply Hw|].
      by rewrite Hf, Hm, held_comm, held_empty.
    + destruct Hf as [Hfn Hf]. do 2 wp_step. set (p0' := mk_pollfd f POLLIN 0). set (g4 := clear_main_buf _).
      assert (slots base srv (World g4 (trace w3)) p0' p1 p2) as Hw4.
      { eapply slots_replace; [exact Hw| | | | |].
        - cbn. by rewrite Eg3, (sl_fds _ _ _ _ _ _ Hw).
        - apply audio_ok_clear. rewrite Eg3. apply Hw.
        - right. split; [done|]. set_solver.
        - destruct (sl_cli _ _ _ _ _ _ Hw) as [?|(? & ? & ?)]; [by left|]. right. cbn. split_and!; [done..|].
          intros <-. apply Hfn. pose proof (held_in (fd p2)). set_solver by lia.
        - cbn [trace fd p0']. rewrite Hf, (held_pos f), <- !(assoc_L (∪)) by done. f_equal. f_equal. apply (comm_L (∪)). }
      eapply wp_mono; [apply (enter_session _ _ _ _ _ _ Hw4); done|]. intros ret w5 (? & Ht & ? & Hb). cbn [trace globals] in *.
      split_and!; [done|by rewrite Ht|]. intros _. split; [done|]. unfold buffered in Hb. injection Hb as _ ->.
      destruct (clear_main_buf_ok (set_poll (globals w) ID_SCO p0') (ao_buf _ (sl_audio _ _ _ _ _ _ Hw))) as [_ Habs].
      cbn [decode_enabled ntrim set_poll set_fds] in Habs. unfold g4. rewrite Eg3. exact Habs.
  - destruct (sl_sco _ _ _ _ _ _ Hw) as [?|[Hp0 _]]; [done|].
    eapply wp_mono; [apply (enter_session _ _ _ _ _ _ Hw); done|]. intros ret w5 (? & Ht & ? & Hb).
    split_and!; [done|rewrite Ht; lia|done].
Qed.

Lemma handle_connection_event_ok base srv (w : world) p0 p1 p2 id :
  kernel_ok -> slots base srv w p0 p1 p2 ->
  wp (handle_connection_event answer id) (session_post base srv (globals w) p0 (connects (trace w))) w.
Proof using Type.
  intros K Hw. unfold handle_connection_event, sys. do 3 wp_step.
  eapply wp_mono; [apply (drop_client_ok _ _ _ _ _ _ Hw)|]. intros _ w1 (Hw1 & Eg1 & Ec1).
  do 3 wp_step. wp_step. destruct (poll_at_slots _ _ _ _ _ _ Hw1) as (_ & -> & _).
  set (c := Caccept (fd p1)). set (r := answer (trace w1) c).
  pose proof (sl_run _ _ _ _ _ _ Hw1) as Hr1. cbn [closed fd] in Hr1. rewrite held_empty in Hr1.
  pose proof (k_accept K _ _ (fd p1) Hr1 : ~ (rv r ∈ _)) as Hfresh.
  assert (srv ∈ base /\ fd p1 = srv) as [Hsrv Esrv] by (split; apply Hw).
  assert (fd_run std_fds (trace w1 ++ [(c, r)]) = Some (base ∪ held (fd p0) ∪ (if 0 <=? rv r then {[rv r]} else ∅))) as Hr2.
  { eapply runs_call; [exact Hr1|]. cbn. rewrite decide_True by set_solver.
    destruct (0 <=? rv r); [done|]. by rewrite (right_id_L ∅ (∪)). }
  destruct (Z.ltb_spec (rv r) 0) as [Hneg|Hpos].
  - wp_step. unfold session_post. cbn [trace]. rewrite connects_no_more, Ec1 by done. split_and!; [|lia|done].
    exists p0, p1, (closed p2). eapply slots_replace; [exact Hw1|apply Hw1|apply Hw1|apply Hw|by left|].
    cbn [trace closed fd]. rewrite (proj2 (Z.leb_gt _ _)) in Hr2 by done. by rewrite held_empty, Hr2, (right_id_L ∅ (∪)).
  - rewrite (proj2 (Z.leb_le _ _)) in Hr2 by done.
    pose proof (held_pos (rv r) Hpos) as Hheld.
    repeat wp_step. cbn [globals trace].
    set (p2' := mk_pollfd (rv r) (events (poll_at (globals w1) ID_CLIENT)) 0).
    set (tr2 := (trace w1 ++ [(c, r)]) ++ _).
    assert (connects tr2 = connects (trace w)) as Ec2 by (unfold tr2; rewrite !connects_no_more; done).
    assert (slots base srv (World (set_poll (globals w1) ID_CLIENT p2') tr2) p0 p1 p2') as Hw2.
    { eapply slots_replace; [exact Hw1| |apply Hw1|apply Hw| |].
      - cbn. by rewrite (sl_fds _ _ _ _ _ _ Hw1).
      - right. cbn. split_and!; [done|set_solver|]. intros He. apply Hfresh. rewrite He.
        assert (fd p0 <> -1) by lia. pose proof (held_in (fd p0)). set_solver.
      - cbn [trace p2' fd]. rewrite Hheld. eapply runs_use; [exact Hr2|reflexivity|set_solver|done]. }
    eapply wp_mono; [exact (open_session _ _ _ _ _ _ K Hw2 Hpos)|]. unfold session_post. cbn [globals trace].
    rewrite Ec2, Eg1. intros ret w' (? & ? & Hs). split_and!; [done..|]. intros Hok. specialize (Hs Hok). exact Hs.
Qed.

Lemma handle_disconnection_event_ok base srv (w : world) p0 p1 p2 id :
  slots base srv w p0 p1 p2 -> 0 <= id < 3 -> fd (poll_at (globals w) id) <> -1 ->
  wp (handle_disconnection_event answer id)
    (fun ret w' => connects (trace w') = connects (trace w)
       /\ if id =? ID_SCO then ret = STATUS_SCO_CLOSED /\ slots base srv w' (closed p0) p1 p2
            /\ globals w' = set_fds (globals w) [closed p0; p1; p2]
          else if id =? ID_CLIENT then ret = STATUS_SUCCESS /\ slots base srv w' (closed p0) p1 (closed p2)
            /\ globals w' = clear_main_buf (set_first_write (set_fds (globals w) [closed p0; p1; closed p2]) 0)
          else ret = STATUS_SUCCESS /\ w' = w) w.
Proof using Type.
  intros Hw Hid Hopen. destruct (poll_at_slots _ _ _ _ _ _ Hw) as (E0 & E1 & E2).
  pose proof (sl_sco _ _ _ _ _ _ Hw) as S0. pose proof (sl_cli _ _ _ _ _ _ Hw) as S2.
  pose proof (sl_srv _ _ _ _ _ _ Hw) as (S1 & S1b & S1c).
  unfold handle_disconnection_event. do 2 wp_step. rewrite E0, E2.
  assert (id = ID_SCO \/ id = ID_SERVER \/ id = ID_CLIENT) as [-> | [-> | ->]]
    by (unfold ID_SCO, ID_SERVER, ID_CLIENT; lia); cbn [Z.eqb ID_SCO ID_SERVER ID_CLIENT] in *.
  - rewrite E0, Z.eqb_refl. wp_step.
    eapply wp_mono; [apply (close_slot _ _ _ _ _ _ ID_SCO Hw); by left|]. intros _ w1 (? & ? & ?). by wp_step.
  - rewrite E1. destruct (Z.eqb_spec (fd p1) (fd p0)); [destruct S0 as [?|[? ?]]; [lia|congruence]|].
    destruct (Z.eqb_spec (fd p1) (fd p2)); [destruct S2 as [?|(? & ? & ?)]; [lia|congruence]|]. by wp_step.
  - rewrite E2 in *. destruct (Z.eqb_spec (fd p2) (fd p0)); [destruct S2 as [?|(? & ? & ?)]; [done|congruence]|].
    rewrite Z.eqb_refl. wp_step.
    eapply wp_mono; [apply (close_slot _ _ _ _ _ _ ID_CLIENT Hw); by right|]. intros _ w1 (Hw1 & Eg1 & Ec1).
    cbn [Z.eqb ID_SCO ID_CLIENT] in *. do 2 wp_step.
    assert (slots base srv (World (set_first_write (globals w1) 0) (trace w1)) p0 p1 (closed p2)) as Hw2
      by (eapply slots_state; [exact Hw1|done|apply Hw1]).
    wp_step. eapply wp_mono; [apply (close_slot _ _ _ _ _ _ ID_SCO Hw2); by left|]. intros _ w3 (Hw3 & Eg3 & Ec3).
    cbn [Z.eqb ID_SCO globals trace] in *. do 3 wp_step. cbn [trace globals].
    split; [lia|]. split; [done|]. split; [|by rewrite Eg3, Eg1].
    eapply slots_state; [exact Hw3|done|]. apply audio_ok_clear, Hw3.
Qed.

(** ** Packets and writes *)

Lemma received_ok r : Forall is_u8 (rdata r) -> zlen (received r) = 120 /\ Forall is_u8 (received r).
Proof using Type.
  intros Hu. unfold received, SCO_MAX_BUFFER_SZ. change (Z.to_nat (60 * 2)) with 120%nat. split.
  - unfold zlen. rewrite length_take, length_app, length_replicate. lia.
  - apply Forall_take, Forall_app. split; [by apply Forall_take|]. apply Forall_replicate. by_compute.
Qed.

Lemma handle_sco_packet_ok base srv (w : world) p0 p1 p2 :
  kernel_ok -> slots base srv w p0 p1 p2 -> fd p0 <> -1 ->
  wp (handle_sco_packet answer (fd p0)) (fun _ w' => slots base srv w' p0 p1 p2 /\ connects (trace w') = connects (trace w)) w.
Proof using Type.
  intros K Hw Hm. unfold handle_sco_packet, sys. do 2 wp_step. cbn [globals trace].
  set (c := Crecv (fd p0) SCO_MAX_BUFFER_SZ). set (r := answer (trace w) c).
  assert (slots base srv (World (globals w) (trace w ++ [(c, r)])) p0 p1 p2) as Hw1.
  { apply slots_call; [done|]. intros S HS. eapply fd_step_uses; [reflexivity| |done].
    rewrite (sl_run _ _ _ _ _ _ Hw) in HS. injection HS as <-. pose proof (held_in (fd p0) Hm). set_solver. }
  assert (connects (trace w ++ [(c, r)]) = connects (trace w)) as Hc by (by apply connects_no_more).
  destruct (Z.ltb_spec (rv r) 0); cbn [orb]; [case_match; by wp_step|].
  destruct (Z.ltb_spec (rv r) MSBC_SYNC_OFFSET) as [|Hge]; [case_match; by wp_step|].
  destruct (k_recv K (trace w) (fd p0) SCO_MAX_BUFFER_SZ) as [Hle Hfrag]. fold c in Hle, Hfrag. fold r in Hle, Hfrag.
  destruct (received_ok r (k_octets K _ _ _)) as [Hz Hu].
  destruct (handle_msbc_data_total (decode_enabled (globals w)) (plc_enabled (globals w)) (st_audio (globals w)) (received r) (rv r))
    as (ret & a' & Hh & Ha'); [apply Hw|done|done|unfold MSBC_SYNC_OFFSET, SCO_MAX_BUFFER_SZ in *; lia|].
  unfold on_audio. eapply wp_pure; [cbn [globals]; by rewrite Hh|]. cbn [trace]. split; [|done].
  by eapply (slots_state base srv (World (globals w) _)).
Qed.

Lemma consume_audio_ok a n : audio_ok a -> head a <= tail a -> 0 <= n <= zlen (pending a) -> audio_ok (consume a n).
Proof using Type.
  intros Ha Hle Hn. destruct (consume_ok a n (ao_buf a Ha) Hle Hn) as [Hwf _]. destruct Ha.
  unfold consume in *. case_match; by split.
Qed.

Lemma write_to_client_ok base srv (w : world) p0 p1 p2 :
  kernel_ok -> slots base srv w p0 p1 p2 -> fd p2 <> -1 ->
  wp (write_to_client answer (fd p2))
    (fun _ w' => slots base srv w' p0 p1 p2 /\ connects (trace w') = connects (trace w)) w.
Proof using Type.
  intros K Hw Hm. unfold write_to_client, sys. case_match; [by wp_step|]. do 2 wp_step.
  destruct (Z.ltb_spec (tail (st_audio (globals w))) (head (st_audio (globals w)))); [by wp_step|].
  do 4 wp_step. cbn [trace globals]. set (c := Csend _ _). set (r := answer _ c).
  set (g1 := if first_write _ =? 0 then _ else _).
  assert (st_audio g1 = st_audio (globals w)) as Ea by (unfold g1; by case_match).
  assert (slots base srv (World g1 (trace w ++ [(c, r)])) p0 p1 p2) as Hw1.
  { eapply (slots_call base srv (World g1 (trace w))).
    - eapply slots_state; [exact Hw|unfold g1; by case_match|]. rewrite Ea. apply Hw.
    - intros S HS. eapply fd_step_uses; [reflexivity| |done]. cbn in HS. rewrite (sl_run _ _ _ _ _ _ Hw) in HS.
      injection HS as <-. pose proof (held_in (fd p2) Hm). set_solver. }
  assert (connects (trace w ++ [(c, r)]) = connects (trace w)) as Hc by (by apply connects_no_more).
  destruct (Z.leb_spec 0 (rv r)); [|by wp_step]. do 3 wp_step. cbn [trace globals]. split; [|done].
  eapply (slots_state base srv (World g1 _)); [exact Hw1|done|].
  cbn. rewrite Ea. apply consume_audio_ok; [apply Hw|done|].
  split; [done|]. apply (k_send K).
Qed.

(** ** The main loop *)
Lemma slots_id base srv (w : world) p0 p1 p2 id :
  slots base srv w p0 p1 p2 -> 0 <= id < 3 ->
  poll_at (globals w) id = p0 /\ id = ID_SCO \/ poll_at (globals w) id = p1 /\ id = ID_SERVER
  \/ poll_at (globals w) id = p2 /\ id = ID_CLIENT.
Proof using Type.
  intros Hw Hid. destruct (poll_at_slots _ _ _ _ _ _ Hw) as (E0 & E1 & E2).
  assert (id = ID_SCO \/ id = ID_SERVER \/ id = ID_CLIENT) as [-> | [-> | ->]]
    by (unfold ID_SCO, ID_SERVER, ID_CLIENT; lia); tauto.
Qed.

(** What one pass keeps: the invariant, and at most ten more connection attempts. *)
Definition pass_post (base : gset Z) (srv : Z) (n : nat) (w' : world) : Prop :=
  loop_inv base srv w' /\ (connects (trace w') <= n + 10)%nat.

Lemma update_events_ok base srv (w : world) (Q : unit -> world -> Prop) :
  loop_inv base srv w ->
  (forall w', loop_inv base srv w' -> trace w' = trace w -> Q tt w') -> wp update_events Q w.
Proof using Type.
  intros (p0 & p1 & p2 & Hw) HQ. destruct (poll_at_slots _ _ _ _ _ _ Hw) as (_ & _ & E2).
  unfold update_events. wp_step. apply HQ; [|done]. rewrite E2. case_match; [|exists p0, p1, p2; by destruct w].
  unfold set_events. rewrite E2. set (e := if _ <? _ then _ else _).
  exists p0, p1, (mk_pollfd (fd p2) e (revents p2)).
  eapply slots_replace; [exact Hw| |apply Hw..]. cbn. by rewrite (sl_fds _ _ _ _ _ _ Hw).
Qed.

Lemma serve_ok base srv ids ret (w : world) :
  kernel_ok -> loop_inv base srv w -> Forall (fun id => 0 <= id < 3) ids ->
  wp (serve answer srv ids ret) (fun _ w' => pass_post base srv (connects (trace w)) w') w.
Proof using Type.
  intros K Hw Hids. revert ret w Hw. induction Hids as [|id ids Hid Hids IH]; intros ret w Hinv; cbn [serve].
  - wp_step. split; [done|lia].
  - assert (forall ret (w1 : world), loop_inv base srv w1 -> connects (trace w1) = connects (trace w) ->
      wp (do _ <- update_events; serve answer srv ids ret) (fun _ w' => pass_post base srv (connects (trace w)) w') w1) as Hnext.
    { intros ret1 w1 Hw1 Hc1. wp_step. apply update_events_ok with base srv; [done|]. intros w2 Hw2 Ht.
      eapply wp_mono; [by apply IH|]. intros ? w3. unfold pass_post. by rewrite Ht, Hc1. }
    pose proof Hinv as (p0 & p1 & p2 & Hw). destruct (poll_at_slots _ _ _ _ _ _ Hw) as (E0 & E1 & E2).
    do 2 wp_step. set (p := poll_at (globals w) id).
    destruct (Z.eqb_spec (fd p) (-1)) as [|Hopen]; cbn [orb]; [by apply IH|].
    destruct (revents p =? 0); [by apply IH|].
    case_match; [|case_match; [|rewrite E0; destruct (Z.eqb_spec (fd p) (fd p0)) as [He0|Hn0];
      [|rewrite E2; destruct (Z.eqb_spec (fd p) (fd p2)) as [He2|Hn2]]]].
    + wp_step. eapply wp_mono; [apply (handle_disconnection_event_ok _ _ _ _ _ _ _ Hw Hid Hopen)|].
      intros ret' w1 [Hc Hpost].
      assert (loop_inv base srv w1).
      { destruct (id =? ID_SCO); [destruct Hpost as (_ & Hs & _); by do 3 eexists|].
        destruct (id =? ID_CLIENT); [destruct Hpost as (_ & Hs & _); by do 3 eexists|]. by destruct Hpost as [_ ->]. }
      clear Hpost. case_match; [|by apply Hnext]. wp_step. split; [done|lia].
    + eapply wp_mono; [exact (handle_connection_event_ok _ _ _ _ _ _ id K Hw)|]. intros ret' w1 (? & ? & _). by split.
    + wp_step. rewrite He0. eapply wp_mono; [apply (handle_sco_packet_ok _ _ _ _ _ _ K Hw); by rewrite <- He0|].
      intros ret' w1 [? ?]. apply Hnext; [by exists p0, p1, p2|done].
    + wp_step. case_match; [wp_step|wp_step; by apply Hnext].
      eapply wp_mono; [apply (write_to_client_ok _ _ _ _ _ _ K Hw); by rewrite <- He2|].
      intros ret' w1 [? ?]. wp_step. apply Hnext; [by exists p0, p1, p2|done].
    + by apply Hnext.
Qed.

Lemma restart_ok base srv (w : world) :
  loop_inv base srv w ->
  wp (restart_after_sco_failure answer) (fun _ w' => loop_inv base srv w' /\ connects (trace w') = connects (trace w)) w.
Proof using Type.
  intros (p0 & p1 & p2 & Hw). destruct (poll_at_slots _ _ _ _ _ _ Hw) as (E0 & E1 & E2).
  unfold restart_after_sco_failure, sys. do 2 wp_step. wp_step.
  assert (forall (w1 : world), loop_inv base srv w1 -> connects (trace w1) = connects (trace w) ->
    wp (do _ <- io_call answer (Cusleep 10000); io_ret tt)
      (fun _ w' => loop_inv base srv w' /\ connects (trace w') = connects (trace w)) w1) as Hend.
  { intros w1 (q0 & q1 & q2 & Hw1) Hc. do 3 wp_step. cbn [trace]. rewrite connects_no_more by done. split; [|done].
    exists q0, q1, q2. by apply slots_call. }
  case_match; [|wp_step; apply Hend; [by exists p0, p1, p2|done]].
  wp_step. eapply wp_mono; [exact (close_slot _ _ _ _ _ _ ID_CLIENT Hw ltac:(by right))|].
  intros _ w1 (Hw1 & Eg1 & Ec1). cbn [Z.eqb ID_SCO ID_CLIENT] in *. do 2 wp_step.
  destruct (poll_at_slots _ _ _ _ _ _ Hw1) as (_ & _ & F2). set (g2 := clear_main_buf _).
  assert (slots base srv (World g2 (trace w1)) p0 p1 (mk_pollfd (-1) 0 (revents p2))) as Hw2.
  { eapply slots_replace; [exact Hw1| | |apply Hw1|by left|apply Hw1].
    - change (fds (globals (World g2 (trace w1)))) with (fds (set_events (globals w1) ID_CLIENT 0)).
      unfold set_events. rewrite F2. cbn. by rewrite (sl_fds _ _ _ _ _ _ Hw1).
    - apply audio_ok_clear, Hw1. }
  apply init_plc_ok; [apply Hw2|]. intros p g _ _ Hg. apply Hend; [|done].
  do 3 eexists. eapply (slots_state base srv (World g2 (trace w1))); [exact Hw2|done|done].
Qed.

Lemma loop_body_ok base srv (w : world) :
  kernel_ok -> loop_inv base srv w ->
  wp (loop_body answer srv) (fun _ w' => pass_post base srv (connects (trace w)) w') w.
Proof using Type.
  intros K (p0 & p1 & p2 & Hw). unfold loop_body, sys. do 4 wp_step. wp_step. wp_step. cbn [globals trace].
  set (c := Cpoll _). set (r := answer (trace w) c). rewrite (sl_fds _ _ _ _ _ _ Hw). cbn [imap].
  assert (connects (trace w ++ [(c, r)]) = connects (trace w)) as Hc by (by apply connects_no_more).
  set (w1 := World _ _).
  assert (loop_inv base srv w1) as Hw1.
  { do 3 eexists. split; [reflexivity|apply Hw|apply Hw|apply Hw| |apply Hw].
    change (fd_run std_fds (trace w ++ [(c, r)]) = Some (base ∪ held (fd p0) ∪ held (fd p2))).
    rewrite fd_run_snoc, (sl_run _ _ _ _ _ _ Hw). cbn [mbind option_bind]. unfold fd_step. cbn [fst snd uses c mbind option_bind].
    rewrite decide_True; [done|]. rewrite (sl_fds _ _ _ _ _ _ Hw). cbn [map].
    pose proof (sl_srv _ _ _ _ _ _ Hw) as (? & ? & ?).
    apply Forall_cons; [|apply Forall_cons; [|apply Forall_cons; [|done]]]; cbn [fst].
    - destruct (decide (fd p0 = -1)); [by left|right]. pose proof (held_in (fd p0)). set_solver.
    - right. set_solver.
    - destruct (decide (fd p2 = -1)); [by left|right]. pose proof (held_in (fd p2)). set_solver. }
  case_match; [wp_step; split; [done|cbn [trace w1]; lia]|].
  wp_step. eapply wp_mono; [apply serve_ok; [done|exact Hw1|by_compute]|]. intros ret w2 [Hw2 Hc2].
  cbn [trace w1] in Hc2. rewrite Hc in Hc2. case_match; [|by wp_step].
  eapply wp_mono; [by apply restart_ok|]. intros _ w3 [? ?]. split; [done|lia].
Qed.

Lemma iterate_loop_ok base srv n (w : world) :
  kernel_ok -> loop_inv base srv w ->
  wp (iterate_loop answer n srv)
    (fun _ w' => loop_inv base srv w' /\ (connects (trace w') <= connects (trace w) + 10 * n)%nat) w.
Proof using Type.
  intros K. revert w. induction n as [|n IH]; intros w Hw; cbn [iterate_loop].
  - wp_step. split; [done|lia].
  - wp_step. eapply wp_mono; [by apply loop_body_ok|]. intros ? w1 [Hw1 Hc1].
    eapply wp_mono; [by apply IH|]. intros ? w2 [Hw2 Hc2]. split; [done|lia].
Qed.

(** ** Start-up *)
Lemma open_server_socket_ok address (w : world) :
  kernel_ok -> fd_run std_fds (trace w) = Some std_fds ->
  wp (open_server_socket answer address) (fun f (w' : world) => globals w' = globals w
    /\ connects (trace w') = connects (trace w) /\ (exists S, fd_run std_fds (trace w') = Some S)
    /\ (0 <= f -> ~ (f ∈ std_fds) /\ fd_run std_fds (trace w') = Some (std_fds ∪ {[f]}))) w.
Proof using Type.
  intros K Hr. unfold open_server_socket, sys. case_match; [by wp_step; split_and!; eauto|].
  do 2 wp_step. set (r := answer (trace w) (Csocket 1)).
  pose proof (k_socket K _ _ 1 Hr : ~ (rv r ∈ std_fds)) as Hfresh.
  assert (fd_run std_fds (trace w ++ [(Csocket 1, r)]) = Some (if 0 <=? rv r then std_fds ∪ {[rv r]} else std_fds)) as Hr1
    by (by eapply runs_call).
  destruct (Z.eqb_spec (rv r) (-1)) as [|Hm].
  { wp_step. cbn [globals trace]. rewrite connects_no_more by done. split_and!; eauto. lia. }
  assert (0 <= rv r) as Hpos by (pose proof (k_error K (trace w) 1); unfold r in *; lia).
  rewrite (proj2 (Z.leb_le _ _)) in Hr1 by done. set (S1 := std_fds ∪ {[rv r]}) in *.
  assert (rv r ∈ S1) as Hin by set_solver. repeat wp_step. cbn [globals trace].
  set (c2 := Cnonblock (rv r)). set (r2 := answer _ c2).
  pose proof (runs_use _ _ c2 r2 _ Hr1 eq_refl Hin ltac:(done)) as Hr2.
  set (c3 := Cunlink _). set (r3 := answer _ c3).
  assert (fd_run std_fds (((trace w ++ [(Csocket 1, r)]) ++ [(c2, r2)]) ++ [(c3, r3)]) = Some S1) as Hr3
    by (by eapply runs_call).
  set (c4 := Cbind _ _ _). set (r4 := answer _ c4).
  pose proof (runs_use _ _ c4 r4 _ Hr3 eq_refl Hin ltac:(done)) as Hr4.
  case_match; [wp_step; cbn [globals trace]; rewrite !connects_no_more by done; split_and!; eauto; lia|].
  do 2 wp_step. cbn [globals trace]. set (c5 := Clisten _ _). set (r5 := answer _ c5).
  pose proof (runs_use _ _ c5 r5 _ Hr4 eq_refl Hin ltac:(done)) as Hr5.
  case_match; wp_step; cbn [globals trace]; rewrite !connects_no_more by done; split_and!; eauto; lia.
Qed.

Lemma daemonize_ok srv (w : world) :
  ~ (srv ∈ std_fds) -> fd_run std_fds (trace w) = Some (std_fds ∪ {[srv]}) ->
  wp (daemonize answer) (fun e (w' : world) => globals w' = globals w /\ connects (trace w') = connects (trace w)
    /\ exists base, fd_run std_fds (trace w') = Some base
       /\ (e = None -> base = std_fds ∪ {[srv]} \/ base = {[srv]})) w.
Proof using Type.
  intros Hn Hr. unfold daemonize, sys.
  assert (forall tr S c r, fd_run std_fds tr = Some S -> fd_step S (c, r) = Some S -> fd_run std_fds (tr ++ [(c, r)]) = Some S) as Hq
    by (intros; by eapply runs_call).
  do 2 wp_step. pose proof (Hq _ _ Cgetppid (answer (trace w) Cgetppid) Hr eq_refl) as Hr1.
  case_match; [wp_step; cbn [globals trace]; rewrite connects_no_more by done; split_and!; eauto|].
  do 2 wp_step. cbn [globals trace]. set (r2 := answer _ Cfork). pose proof (Hq _ _ Cfork r2 Hr1 eq_refl) as Hr2.
  case_match; [wp_step; cbn [globals trace]; rewrite !connects_no_more by done; split_and!; eauto|].
  case_match; [wp_step; cbn [globals trace]; rewrite !connects_no_more by done; split_and!; eauto|].
  do 2 wp_step. cbn [globals trace]. set (r3 := answer _ Csetsid). pose proof (Hq _ _ Csetsid r3 Hr2 eq_refl) as Hr3.
  case_match; [wp_step; cbn [globals trace]; rewrite !connects_no_more by done; split_and!; eauto|].
  repeat wp_step. cbn [globals trace]. rewrite !connects_no_more by done. split_and!; [done..|].
  exists {[srv]}. split; [|by right].
  assert ((std_fds ∪ {[srv]}) ∖ {[0]} ∖ {[1]} ∖ {[2]} = {[srv]}) as <- by (clear - Hn; unfold std_fds in *; set_solver).
  apply runs_close; [apply runs_close; [apply runs_close; [exact Hr3|]|]|]; clear - Hn; unfold std_fds in *; set_solver.
Qed.


(** A connection request drops the client before it and, when it is accepted, starts a
    session: client and SCO connection are open, the sequence numbers and the concealment are
    as at the start (so that a first packet numbered 0 is not taken for a loss), and the buffer
    is empty behind the trim length when the SCO connection was opened for this client. At most
    ten attempts are made to open it, and the daemon's descriptors stay consistent when they
    all fail. *)
Theorem connection_starts_session base srv (w : world) p0 p1 p2 id :
  kernel_ok -> slots base srv w p0 p1 p2 ->
  exists ret (w' : world), handle_connection_event answer id w = Some (ret, w')
    /\ loop_inv base srv w' /\ (connects (trace w') <= connects (trace w) + 10)%nat
    /\ (ret = STATUS_SUCCESS ->
         0 <= fd (poll_at (globals w') ID_CLIENT) /\ 0 <= fd (poll_at (globals w') ID_SCO)
         /\ num_lost 0 (a_last_seq_num (st_audio (globals w'))) = 0 /\ plc_clean (a_plc_state (st_audio (globals w')))
         /\ if fd p0 =? -1
            then abs (st_audio (globals w')) = mk_fifo (if decode_enabled (globals w) =? 0 then 0 else u32 (ntrim (globals w))) []
            else buffered (st_audio (globals w')) = buffered (st_audio (globals w))).
Proof.
  intros K Hw. destruct (wp_total _ _ _ (handle_connection_event_ok _ _ _ _ _ _ id K Hw)) as (ret & w' & Hr & Hinv & Hc & Hs).
  exists ret, w'. split_and!; [done..|]. intros Hok. destruct (Hs Hok) as [(? & ? & Hl & ?) ?]. rewrite Hl. by split_and!.
Qed.

(** When the client goes away its descriptor and the SCO connection are closed, nothing
    but the server's descriptors stays open, and the next session starts from an empty buffer
    behind the trim length, as if nothing had been sent. *)
Theorem client_disconnected base srv (w : world) p0 p1 p2 :
  slots base srv w p0 p1 p2 -> 0 <= fd p2 ->
  exists w' : world, handle_disconnection_event answer ID_CLIENT w = Some (STATUS_SUCCESS, w')
    /\ map fd (fds (globals w')) = [-1; srv; -1] /\ fd_run std_fds (trace w') = Some base
    /\ first_write (globals w') = 0
    /\ abs (st_audio (globals w')) = mk_fifo (if decode_enabled (globals w) =? 0 then 0 else u32 (ntrim (globals w))) [].
Proof.
  intros Hw Hp. destruct (poll_at_slots _ _ _ _ _ _ Hw) as (_ & _ & E2).
  destruct (wp_total _ _ _ (handle_disconnection_event_ok _ _ _ _ _ _ ID_CLIENT Hw ltac:(unfold ID_CLIENT; lia) ltac:(rewrite E2; lia)))
    as (ret & w' & Hr & _ & -> & Hs & Eg).
  exists w'. split; [done|]. split_and!.
  - rewrite (sl_fds _ _ _ _ _ _ Hs). cbn. by destruct (sl_srv _ _ _ _ _ _ Hs) as [-> _].
  - rewrite (sl_run _ _ _ _ _ _ Hs). cbn [closed fd]. by rewrite !held_empty.
  - by rewrite Eg.
  - rewrite Eg. by destruct (clear_main_buf_ok (set_first_write (set_fds (globals w) [closed p0; p1; closed p2]) 0)
      (ao_buf _ (sl_audio _ _ _ _ _ _ Hw))) as [_ ->].
Qed.

(** A write offers the client exactly the queued octets, in one [send], and removes those
    it took; while trimmed octets are still to come nothing is sent, and a failing [send] keeps
    the queue and is reported. *)
Theorem write_to_client_correct (w : world) f (a := st_audio (globals w)) :
  buf_wf a ->
  exists ret (w' : world), write_to_client answer f w = Some (ret, w')
    /\ if (f <? 0) || (tail a <? head a) then
         trace w' = trace w /\ globals w' = globals w /\ ret = (if f <? 0 then STATUS_CLIENT_FAILED else STATUS_SUCCESS)
       else
         let r := answer (trace w) (Csend f (queue (abs a))) in
         trace w' = trace w ++ [(Csend f (queue (abs a)), r)]
         /\ first_write (globals w') <> 0
         /\ if rv r <? 0 then ret = STATUS_CLIENT_FAILED /\ st_audio (globals w') = a
            else ret = STATUS_SUCCESS
              /\ (rv r <= zlen (queue (abs a)) -> abs (st_audio (globals w')) = pop (rv r) (abs a)).
Proof.
  intros Hwf. apply wp_total. unfold write_to_client, sys. destruct (f <? 0); cbn [orb]; [by wp_step|]. do 2 wp_step. fold a.
  destruct (Z.ltb_spec (tail a) (head a)) as [|Hge]; [by wp_step|]. do 4 wp_step. cbn [trace globals].
  set (g1 := if first_write _ =? 0 then _ else _).
  assert (st_audio g1 = a) as Ea by (unfold g1; by case_match).
  assert (first_write g1 <> 0) as Hfw by (unfold g1; case_match; [done|by apply Z.eqb_neq]).
  assert (queue (abs a) = pending a) as Hq by (unfold abs; by rewrite (proj2 (Z.ltb_ge _ _))).
  rewrite Hq. set (c := Csend f _). set (r := answer _ c).
  destruct (Z.leb_spec 0 (rv r)) as [Hr|Hr].
  - rewrite (proj2 (Z.ltb_ge (rv r) 0)) by done. do 3 wp_step. cbn [trace globals]. rewrite Ea. split_and!; [done..|].
    intros Hle. by apply consume_ok.
  - rewrite (proj2 (Z.ltb_lt (rv r) 0)) by done. wp_step. cbn [trace globals]. by split_and!.
Qed.
End Sockets.

(** ** A concrete kernel: the next free descriptor, a client asking to connect at every poll *)
Definition next_fd (S : gset Z) : Z := 1 + foldr Z.max 2 (elements S).

Definition demo_kernel (tr : list (call * resp)) (c : call) : resp :=
  match c with
  | Csocket _ | Caccept _ => mk_resp (next_fd (default ∅ (fd_run std_fds tr))) 0 []
  | Cpoll _ => mk_resp 1 0 [0; POLLIN; 0]
  | Cgetppid => mk_resp 1 0 []
  | Crecv _ _ => mk_resp (-1) EAGAIN []
  | _ => mk_resp 0 0 []
  end.

Lemma next_fd_fresh S : ~ (next_fd S ∈ S) /\ 0 <= next_fd S.
Proof.
  unfold next_fd. assert (forall l x, x ∈ l -> x <= foldr Z.max 2 l) as Hmax.
  { induction l as [|y l IH]; intros x Hx; [by apply not_elem_of_nil in Hx|]. cbn.
    apply elem_of_cons in Hx as [->|Hx]; [lia|]. specialize (IH x Hx). lia. }
  assert (forall l, 2 <= foldr Z.max 2 l) as H2 by (induction l; cbn; lia). split.
  - intros Hin%elem_of_elements%Hmax. lia.
  - specialize (H2 (elements S)). lia.
Qed.

Lemma demo_kernel_ok : kernel_ok demo_kernel.
Proof.
  split; cbn; intros.
  - rewrite H. apply next_fd_fresh.
  - pose proof (next_fd_fresh (default ∅ (fd_run std_fds tr))). cbn in *. lia.
  - rewrite H. apply next_fd_fresh.
  - lia.
  - done.
  - unfold zlen. lia.
Qed.

Definition demo_world (fds : list pollfd) (tr : list (call * resp)) : world (state sbc_t PLC_State) call resp :=
  World (set_fds trim_state fds) ((Csocket 1, mk_resp 3 0 []) :: tr).

Lemma demo_slots :
  slots (std_fds ∪ {[3]}) 3 (demo_world [no_pollfd; mk_pollfd 3 POLLIN POLLIN; no_pollfd] [])
    no_pollfd (mk_pollfd 3 POLLIN POLLIN) no_pollfd.
Proof.
  split; try (by left); [done|split; [done|split; [set_solver|done]]| |apply audio0_ok].
  cbn [no_pollfd fd]. by rewrite !held_empty.
Qed.

Lemma demo_client_slots :
  slots (std_fds ∪ {[3]}) 3
    (demo_world [no_pollfd; mk_pollfd 3 POLLIN 0; mk_pollfd 4 POLLOUT POLLHUP] [(Caccept 3, mk_resp 4 0 [])])
    no_pollfd (mk_pollfd 3 POLLIN 0) (mk_pollfd 4 POLLOUT POLLHUP).
Proof.
  split; [done|split; [done|split; [set_solver|done]]|by left| |vm_compute; reflexivity|apply audio0_ok].
  right. split; [done|]. split; [|done]. unfold std_fds. set_solver.
Qed.


Lemma connection_starts_session_witness :
  exists ret w', handle_connection_event demo_kernel ID_SERVER
    (demo_world [no_pollfd; mk_pollfd 3 POLLIN POLLIN; no_pollfd] []) = Some (ret, w').
Proof.
  destruct (connection_starts_session demo_kernel _ 3 _ _ _ _ ID_SERVER demo_kernel_ok demo_slots) as (ret & w' & Hr & _).
  exists ret, w'. exact Hr.
Defined.

Lemma client_disconnected_witness :
  exists w', handle_disconnection_event demo_kernel ID_CLIENT
    (demo_world [no_pollfd; mk_pollfd 3 POLLIN 0; mk_pollfd 4 POLLOUT POLLHUP] [(Caccept 3, mk_resp 4 0 [])])
    = Some (STATUS_SUCCESS, w') /\ abs (st_audio (globals w')) = mk_fifo 2 [].
Proof.
  destruct (client_disconnected demo_kernel _ 3 _ _ _ _ demo_client_slots) as (w' & Hr & _ & _ & _ & Ha); [done|].
  exists w'. split; [exact Hr|exact Ha].
Defined.

Lemma write_to_client_correct_witness :
  exists ret w', write_to_client demo_kernel 4 (demo_world [no_pollfd; no_pollfd; no_pollfd] []) = Some (ret, w').
Proof.
  destruct (write_to_client_correct demo_kernel (demo_world [no_pollfd; no_pollfd; no_pollfd] []) 4 audio0_wf)
    as (ret & w' & Hr & _). exists ret, w'. exact Hr.
Defined.
