(* ===== verification/Lights.v ===== *)
(** The lights module: src/mediatek/lights/liblights/lights.c. The files under
    /sys/class/leds, the clock and the mutex are reached through calls. *)
From S2P Require Import Prelude.

(** ** Files, calls, data *)
Inductive color := Red | Green | Blue.

#[export] Instance color_eq_dec : EqDecision color.
Proof. solve_decision. Defined.

Inductive path :=
  | TRACKBALL_FILE
  | LED_FILE (c : color)
  | TRIGGER_FILE (c : color)
  | DELAY_ON_FILE (c : color)
  | DELAY_OFF_FILE (c : color)
  | LCD_FILE
  | KEYBOARD_FILE
  | BUTTON_FILE.

Definition O_WRONLY : Z := 1.
Definition O_RDWR : Z := 2.
Definition F_OK : Z := 0.
Definition W_OK : Z := 2.
Definition R_OK : Z := 4.

Inductive call :=
  | Copen (p : path) (flags : Z)
  | Cwrite (fd : Z) (data : list Z)
  | Cclose (fd : Z)
  | Caccess (p : path) (mode : Z)
  | Cgettimeofday
  | Clock
  | Cunlock
  | Cmalloc
  | Chw_get_module (* of the service that offers the lights *).

(** The value returned, [errno] after the call, and the time of [gettimeofday]. *)
Record resp := mk_resp { rv : Z; rerrno : Z; tv_sec : Z; tv_usec : Z }.

Definition LIGHT_FLASH_NONE : Z := 0.
Definition LIGHT_FLASH_TIMED : Z := 1.
Definition LIGHT_FLASH_HARDWARE : Z := 2.

(** [struct light_state_t] of hardware/lights.h; [color] is an [unsigned int], the others [int]. *)
Record light_state := mk_light { color_of : Z; flashMode : Z; flashOnMS : Z; flashOffMS : Z }.

(** The globals; [pre c] is the [preStatus] of the function blinking LED [c]. *)
Record state := mk_state {
  g_init : bool;
  g_haveTrackballLight : Z;
  g_notification : light_state;
  g_battery : light_state;
  g_backlight : Z;
  g_trackball : Z;
  g_buttons : Z;
  g_attention : Z;
  pre_red : Z;
  pre_green : Z;
  pre_blue : Z
}.

Definition no_light : light_state := mk_light 0 0 0 0.
Definition state0 : state := mk_state false 0 no_light no_light 255 (-1) 0 0 0 0 0.

Definition pre (s : state) (c : color) : Z :=
  match c with Red => pre_red s | Green => pre_green s | Blue => pre_blue s end.
Definition set_pre (s : state) (c : color) (v : Z) : state :=
  mk_state (g_init s) (g_haveTrackballLight s) (g_notification s) (g_battery s) (g_backlight s) (g_trackball s)
    (g_buttons s) (g_attention s)
    (match c with Red => v | _ => pre_red s end) (match c with Green => v | _ => pre_green s end)
    (match c with Blue => v | _ => pre_blue s end).
Definition set_inited (s : state) (have : Z) : state :=
  mk_state true have (g_notification s) (g_battery s) (g_backlight s) (g_trackball s) (g_buttons s) (g_attention s)
    (pre_red s) (pre_green s) (pre_blue s).
Definition set_notification (s : state) (l : light_state) : state :=
  mk_state (g_init s) (g_haveTrackballLight s) l (g_battery s) (g_backlight s) (g_trackball s) (g_buttons s)
    (g_attention s) (pre_red s) (pre_green s) (pre_blue s).
Definition set_battery (s : state) (l : light_state) : state :=
  mk_state (g_init s) (g_haveTrackballLight s) (g_notification s) l (g_backlight s) (g_trackball s) (g_buttons s)
    (g_attention s) (pre_red s) (pre_green s) (pre_blue s).
Definition set_backlight (s : state) (v : Z) : state :=
  mk_state (g_init s) (g_haveTrackballLight s) (g_notification s) (g_battery s) v (g_trackball s) (g_buttons s)
    (g_attention s) (pre_red s) (pre_green s) (pre_blue s).
Definition set_buttons (s : state) (v : Z) : state :=
  mk_state (g_init s) (g_haveTrackballLight s) (g_notification s) (g_battery s) (g_backlight s) (g_trackball s) v
    (g_attention s) (pre_red s) (pre_green s) (pre_blue s).
Definition set_attention (s : state) (v : Z) : state :=
  mk_state (g_init s) (g_haveTrackballLight s) (g_notification s) (g_battery s) (g_backlight s) (g_trackball s)
    (g_buttons s) v (pre_red s) (pre_green s) (pre_blue s).

(** ** Formatting *)

(** Decimal digits; ten of them are enough for an [int]. *)
Fixpoint dec_digits (fuel : nat) (n : Z) : list Z :=
  match fuel with
  | O => []
  | S fuel => if n <? 10 then [48 + n] else dec_digits fuel (n / 10) ++ [48 + n mod 10]
  end.

(** [sprintf(buffer, "%d\n", value)] *)
Definition sprintf_d (value : Z) : list Z :=
  (if value <? 0 then 45 :: dec_digits 10 (- value) else dec_digits 10 value) ++ [10].

Definition str_timer : list Z := [116; 105; 109; 101; 114].
Definition str_none : list Z := [110; 111; 110; 101].

(** ** The lights by name *)
Inductive light_id :=
  | LIGHT_ID_BACKLIGHT | LIGHT_ID_KEYBOARD | LIGHT_ID_BUTTONS | LIGHT_ID_BATTERY
  | LIGHT_ID_NOTIFICATIONS | LIGHT_ID_ATTENTION | LIGHT_ID_OTHER.

#[export] Instance light_id_eq_dec : EqDecision light_id.
Proof. solve_decision. Defined.

Section Lights.
Context (answer : list (call * resp) -> call -> resp).
(** Readings of the clock a busy wait may take. *)
Context (wait_fuel : nat).

Abbreviation IO := (io state call resp).
Definition sys (c : call) : IO resp := io_call answer c.

(** ** Device methods *)

(** Milliseconds, as the code computes them from a [timeval]. *)
Definition ms_of (r : resp) : Z := tv_sec r * 1000 + Z.quot (tv_usec r) 1000.

(** [while ((unsigned int)time_diff < ms)] *)
Fixpoint wait_loop (fuel : nat) (begin ms time_diff : Z) : IO unit :=
  if u32 time_diff <? ms then
    match fuel with
    | O => fun _ => None
    | S fuel =>
        do curr <- sys Cgettimeofday;
        wait_loop fuel begin ms (ms_of curr - begin)
    end
  else io_ret tt.

Definition led_wait_delay (ms : Z) : IO unit :=
  do begin <- sys Cgettimeofday;
  wait_loop wait_fuel (ms_of begin) ms 0.

Definition init_globals : IO unit :=
  do r <- sys (Caccess TRACKBALL_FILE W_OK);
  io_mod (fun s => set_inited s (if rv r =? 0 then 1 else 0)).

(** Opening, writing [data] and closing; [-errno] is read after [close]. *)
Definition write_file (p : path) (flags : Z) (data : list Z) : IO Z :=
  do r <- sys (Copen p flags);
  if 0 <=? rv r then
    do amt <- sys (Cwrite (rv r) data);
    do c <- sys (Cclose (rv r));
    io_ret (if rv amt =? -1 then - rerrno c else 0)
  else io_ret (- rerrno r).

Definition write_int (p : path) (value : Z) : IO Z := write_file p O_RDWR (sprintf_d value).
Definition write_str (p : path) (str : list Z) : IO Z := write_file p O_WRONLY str.

Definition is_lit (st : light_state) : Z := color_of st .& 0x00ffffff.

(** [(access(file, F_OK) == -1) || (access(file, R_OK|W_OK) == -1)] *)
Definition delay_missing (c : color) : IO bool :=
  do a <- sys (Caccess (DELAY_OFF_FILE c) F_OK);
  if rv a =? -1 then io_ret true
  else do b <- sys (Caccess (DELAY_OFF_FILE c) (R_OK .| W_OK)); io_ret (rv b =? -1).

(** The wait for the delay files, [n] being [10 - i]. *)
Fixpoint wait_delay_off (n : nat) (c : color) : IO unit :=
  do bad <- delay_missing c;
  if bad then
    match n with
    | O => io_ret tt
    | S n =>
        do _ <- led_wait_delay 5;
        wait_delay_off n c
    end
  else io_ret tt.

(** The body shared by [blink_red], [blink_green] and [blink_blue]. *)
Definition blink (c : color) (level onMS offMS : Z) : IO Z :=
  let nowStatus :=
    if level =? 0 then 0 else if negb (onMS =? 0) && negb (offMS =? 0) then 1 else 2 in
  do s <- io_get;
  if pre s c =? nowStatus then io_ret (-1)
  else
    do _ <- (if nowStatus =? 0 then write_int (LED_FILE c) 0
             else if nowStatus =? 1 then
               do _ <- write_str (TRIGGER_FILE c) str_timer;
               do _ <- wait_delay_off 10 c;
               do _ <- write_int (DELAY_OFF_FILE c) offMS;
               write_int (DELAY_ON_FILE c) onMS
             else
               do _ <- write_str (TRIGGER_FILE c) str_none;
               write_int (LED_FILE c) 255);
    do _ <- io_mod (fun s => set_pre s c nowStatus);
    io_ret 0.

Definition blink_red := blink Red.
Definition blink_green := blink Green.
Definition blink_blue := blink Blue.

Definition handle_trackball_light_locked : IO Z :=
  do s <- io_get;
  let mode := if (g_attention s =? 7) && negb (g_backlight s =? 0) then 0 else g_attention s in
  if g_trackball s =? mode then io_ret 0 else write_int TRACKBALL_FILE mode.

Definition rgb_to_brightness (st : light_state) : Z :=
  let color := color_of st .& 0x00ffffff in
  (77 * ((color ≫ 16) .& 0x00ff) + 150 * ((color ≫ 8) .& 0x00ff) + 29 * (color .& 0x00ff)) ≫ 8.

(** [if (g_haveTrackballLight)] *)
Definition if_trackball (m : IO Z) : IO unit :=
  do s <- io_get;
  if g_haveTrackballLight s =? 0 then io_ret tt else do _ <- m; io_ret tt.

Definition set_light_backlight (st : light_state) : IO Z :=
  let brightness := rgb_to_brightness st in
  do _ <- sys Clock;
  do _ <- io_mod (fun s => set_backlight s brightness);
  do err <- write_int LCD_FILE brightness;
  do _ <- if_trackball handle_trackball_light_locked;
  do _ <- sys Cunlock;
  io_ret err.

Definition set_light_keyboard (st : light_state) : IO Z :=
  let on := is_lit st in
  do _ <- sys Clock;
  do err <- write_int KEYBOARD_FILE (if on =? 0 then 0 else 255);
  do _ <- sys Cunlock;
  io_ret err.

Definition set_light_buttons (st : light_state) : IO Z :=
  let on := is_lit st in
  do _ <- sys Clock;
  do _ <- io_mod (fun s => set_buttons s on);
  do err <- write_int BUTTON_FILE (if on =? 0 then 0 else 255);
  do _ <- sys Cunlock;
  io_ret err.

Definition set_speaker_light_locked (st : light_state) : IO Z :=
  let '(onMS, offMS) :=
    if flashMode st =? LIGHT_FLASH_TIMED then (flashOnMS st, flashOffMS st) else (0, 0) in
  let colorRGB := color_of st in
  let alpha := (colorRGB ≫ 24) .& 0xFF in
  let '(red, green, blue) :=
    if alpha =? 0 then (0, 0, 0)
    else ((colorRGB ≫ 16) .& 0xFF, (colorRGB ≫ 8) .& 0xFF, colorRGB .& 0xFF) in
  do _ <- (if negb (red =? 0) then
             do _ <- blink_green 0 0 0;
             do _ <- blink_blue 0 0 0;
             blink_red red onMS offMS
           else if negb (green =? 0) then
             do _ <- blink_red 0 0 0;
             do _ <- blink_blue 0 0 0;
             blink_green green onMS offMS
           else if negb (blue =? 0) then
             do _ <- blink_red 0 0 0;
             do _ <- blink_green 0 0 0;
             blink_blue blue onMS offMS
           else
             do _ <- blink_red 0 0 0;
             do _ <- blink_green 0 0 0;
             blink_blue 0 0 0);
  io_ret 0.

Definition handle_speaker_battery_locked : IO unit :=
  do s <- io_get;
  if negb (is_lit (g_battery s) =? 0) then
    do _ <- set_speaker_light_locked (g_battery s); io_ret tt
  else
    do _ <- set_speaker_light_locked (g_battery s);
    do s <- io_get;
    do _ <- set_speaker_light_locked (g_notification s);
    io_ret tt.

Definition set_light_battery (st : light_state) : IO Z :=
  do _ <- sys Clock;
  do _ <- io_mod (fun s => set_battery s st);
  do _ <- if_trackball (set_speaker_light_locked st);
  do _ <- handle_speaker_battery_locked;
  do _ <- sys Cunlock;
  io_ret 0.

Definition set_light_notifications (st : light_state) : IO Z :=
  do _ <- sys Clock;
  do _ <- io_mod (fun s => set_notification s st);
  do _ <- if_trackball handle_trackball_light_locked;
  do _ <- handle_speaker_battery_locked;
  do _ <- sys Cunlock;
  io_ret 0.

Definition set_light_attention (st : light_state) : IO Z :=
  do _ <- sys Clock;
  do _ <- io_mod (fun s =>
    if flashMode st =? LIGHT_FLASH_HARDWARE then set_attention s (flashOnMS st)
    else if flashMode st =? LIGHT_FLASH_NONE then set_attention s 0 else s);
  do _ <- if_trackball handle_trackball_light_locked;
  do _ <- sys Cunlock;
  io_ret 0.

(** ** Module methods *)
Definition EINVAL : Z := 22.
Definition ENOMEM : Z := 12.

(** The files whose absence refuses a light, in the order of the checks. *)
Definition required_files (name : light_id) : list path :=
  match name with
  | LIGHT_ID_BACKLIGHT => [LCD_FILE]
  | LIGHT_ID_KEYBOARD => [KEYBOARD_FILE]
  | LIGHT_ID_BUTTONS => [BUTTON_FILE]
  | LIGHT_ID_BATTERY | LIGHT_ID_NOTIFICATIONS | LIGHT_ID_ATTENTION => [LED_FILE Red; LED_FILE Green; LED_FILE Blue]
  | LIGHT_ID_OTHER => []
  end.

(** The device's [set_light]. *)
Definition set_light (name : light_id) : light_state -> IO Z :=
  match name with
  | LIGHT_ID_BACKLIGHT => set_light_backlight
  | LIGHT_ID_KEYBOARD => set_light_keyboard
  | LIGHT_ID_BUTTONS => set_light_buttons
  | LIGHT_ID_BATTERY => set_light_battery
  | LIGHT_ID_NOTIFICATIONS => set_light_notifications
  | LIGHT_ID_ATTENTION => set_light_attention
  | LIGHT_ID_OTHER => fun _ _ => None
  end.

(** [if (access(file, F_OK) < 0) return -errno;] for each file; [None] when all are there. *)
Fixpoint check_files (files : list path) : IO (option Z) :=
  match files with
  | [] => io_ret None
  | p :: files =>
      do r <- sys (Caccess p F_OK);
      if rv r <? 0 then io_ret (Some (- rerrno r)) else check_files files
  end.

(** (result, device): the device is the light whose [set_light] it carries. *)
Definition open_lights (name : light_id) : IO (Z * option light_id) :=
  match name with
  | LIGHT_ID_OTHER => io_ret (- EINVAL, None)
  | _ =>
      do e <- check_files (required_files name);
      match e with
      | Some err => io_ret (err, None)
      | None =>
          do s <- io_get;
          do _ <- (if g_init s then io_ret tt else init_globals);
          do dev <- sys Cmalloc;
          if rv dev =? 0 then io_ret (- ENOMEM, None) else io_ret (0, Some name)
      end
  end.

(** ** Specification: what each LED was last told *)
Inductive led := LedOff | LedBlink | LedOn.

(** (the file open for writing, the three LEDs) *)
Record leds := mk_leds { cur : option (Z * path); led_red : led; led_green : led; led_blue : led }.
Definition leds0 : leds := mk_leds None LedOff LedOff LedOff.
Definition led_of (l : leds) (c : color) : led :=
  match c with Red => led_red l | Green => led_green l | Blue => led_blue l end.
Definition set_cur (l : leds) (o : option (Z * path)) : leds := mk_leds o (led_red l) (led_green l) (led_blue l).
Definition set_led (l : leds) (c : color) (v : led) : leds :=
  mk_leds (cur l) (match c with Red => v | _ => led_red l end) (match c with Green => v | _ => led_green l end)
    (match c with Blue => v | _ => led_blue l end).

(** Writing to a file of the LED class: brightness 0 and the trigger "none" turn the LED off,
    the trigger "timer" makes it blink, full brightness turns it on. *)
Definition effect (p : path) (data : list Z) (l : leds) : leds :=
  match p with
  | LED_FILE c =>
      if decide (data = sprintf_d 0) then set_led l c LedOff
      else if decide (data = sprintf_d 255) then set_led l c LedOn else l
  | TRIGGER_FILE c =>
      if decide (data = str_timer) then set_led l c LedBlink
      else if decide (data = str_none) then set_led l c LedOff else l
  | _ => l
  end.

Definition led_step (l : leds) (e : call * resp) : leds :=
  match e with
  | (Copen p _, r) => set_cur l (if 0 <=? rv r then Some (rv r, p) else None)
  | (Cwrite f data, r) =>
      match cur l with
      | Some (f', p) => if (f =? f') && negb (rv r =? -1) then effect p data l else l
      | None => l
      end
  | (Cclose _, _) => set_cur l None
  | _ => l
  end.

Definition led_run (tr : list (call * resp)) : leds := fold_left led_step tr leds0.

(** The mutex: [None] when it is taken twice, released when free, or a file is written
    without it. *)
Definition lock_step (held : bool) (e : call * resp) : option bool :=
  match e.1 with
  | Clock => if held then None else Some true
  | Cunlock => if held then Some false else None
  | Cwrite _ _ => if held then Some held else None
  | _ => Some held
  end.

Fixpoint lock_run (held : bool) (tr : list (call * resp)) : option bool :=
  match tr with [] => Some held | e :: tr => held ← lock_step held e; lock_run held tr end.

Lemma led_run_snoc tr e : led_run (tr ++ [e]) = led_step (led_run tr) e.
Proof. unfold led_run. by rewrite fold_left_app. Qed.

Lemma lock_run_snoc h tr e : lock_run h (tr ++ [e]) = (h ← lock_run h tr; lock_step h e).
Proof.
  revert h. induction tr as [|e' tr IH]; intros h; simpl; [by destruct (lock_step h e)|].
  destruct (lock_step h e'); simpl; [apply IH|done].
Qed.

(** The files can be opened and written. *)
Definition sysfs_ok : Prop :=
  forall tr, (forall p flags, 0 <= rv (answer tr (Copen p flags)))
             /\ (forall f data, rv (answer tr (Cwrite f data)) <> -1).

(** The trace after [n] readings of the clock. *)
Fixpoint readings (tr : list (call * resp)) (n : nat) : list (call * resp) :=
  match n with
  | O => tr
  | S n => readings (tr ++ [(Cgettimeofday, answer tr Cgettimeofday)]) n
  end.

(** The clock advances: among the first [wait_fuel] readings after one there is one 5 ms later
    (and all are within the range of the difference). *)
Definition clock_ok : Prop :=
  forall tr, exists n, (n < wait_fuel)%nat
    /\ 5 <= ms_of (answer (readings tr (S n)) Cgettimeofday) - ms_of (answer tr Cgettimeofday) < 2 ^ 32.

(** ** Waiting *)
Lemma readings_snoc tr n :
  readings tr (S n) = readings tr n ++ [(Cgettimeofday, answer (readings tr n) Cgettimeofday)].
Proof. revert tr. induction n as [|n IH]; intros tr; [done|]. exact (IH _). Qed.

Lemma readings_leds tr n : led_run (readings tr n) = led_run tr.
Proof. induction n as [|n IH]; [done|]. by rewrite readings_snoc, led_run_snoc, IH. Qed.

Lemma readings_lock h tr n : lock_run h (readings tr n) = lock_run h tr.
Proof. induction n as [|n IH]; [done|]. rewrite readings_snoc, lock_run_snoc, IH. by destruct (lock_run h tr). Qed.

Lemma wait_loop_done fuel b d (w : world state call resp) (Q : unit -> world state call resp -> Prop) :
  (u32 d <? 5) = false -> Q tt w -> wp (wait_loop fuel b 5 d) Q w.
Proof. intros Hd HQ. destruct fuel; cbn [wait_loop]; by rewrite Hd. Qed.

Lemma wait_loop_ok tr0 n b fuel k d (w : world state call resp) :
  5 <= ms_of (answer (readings tr0 (S n)) Cgettimeofday) - b < 2 ^ 32 ->
  trace w = readings tr0 (S k) -> (k <= n < k + fuel)%nat ->
  wp (wait_loop fuel b 5 d) (fun _ w' => globals w' = globals w /\ exists m, trace w' = readings tr0 m) w.
Proof.
  intros Hn. revert k d w. induction fuel as [|fuel IH]; intros k d w Ht Hk; [lia|]. cbn [wait_loop].
  destruct (u32 d <? 5); [|wp_step; eauto]. unfold sys. do 2 wp_step. cbn [globals trace].
  rewrite Ht, <- readings_snoc. set (d' := _ - b).
  destruct (decide (k = n)) as [->|Hne].
  - apply wait_loop_done; [|split; [done|by eexists]]. rewrite (wrapu_small 32) by (unfold d'; lia). apply Z.ltb_ge. unfold d'. lia.
  - eapply wp_mono; [apply (IH (S k)); [done|lia]|]. done.
Qed.

(** Nothing but the clock is read. *)
Definition same_leds (w w' : world state call resp) : Prop :=
  globals w' = globals w /\ led_run (trace w') = led_run (trace w)
  /\ lock_run false (trace w') = lock_run false (trace w).

Lemma same_leds_trans w1 w2 w3 : same_leds w1 w2 -> same_leds w2 w3 -> same_leds w1 w3.
Proof. intros (E1 & E2 & E3) (F1 & F2 & F3). by split_and!; [rewrite F1|rewrite F2|rewrite F3]. Qed.

Lemma led_wait_delay_ok (w : world state call resp) :
  clock_ok -> wp (led_wait_delay 5) (fun _ w' => same_leds w w') w.
Proof.
  intros Hc. destruct (Hc (trace w)) as (n & Hn & Hms). unfold led_wait_delay, sys. do 2 wp_step.
  eapply wp_mono; [apply (wait_loop_ok (trace w) n _ _ O); [exact Hms|done|lia]|].
  intros ? w' (E & m & Et). split_and!; [done| |]; rewrite Et; [apply readings_leds|apply readings_lock].
Qed.

Lemma access_same (w : world state call resp) p mode (Q : resp -> world state call resp -> Prop) :
  (forall r w', same_leds w w' -> Q r w') -> wp (sys (Caccess p mode)) Q w.
Proof.
  intros HQ. unfold sys. wp_step. apply HQ. split_and!; [done|by cbn [trace]; rewrite led_run_snoc|].
  cbn [trace]. rewrite lock_run_snoc. by destruct (lock_run false (trace w)).
Qed.

Lemma delay_missing_ok c (w : world state call resp) : wp (delay_missing c) (fun _ w' => same_leds w w') w.
Proof.
  unfold delay_missing. wp_step. apply access_same. intros a w1 H1. destruct (rv a =? -1); [by wp_step|].
  wp_step. apply access_same. intros b w2 H2. wp_step. exact (same_leds_trans _ _ _ H1 H2).
Qed.

Lemma wait_delay_off_ok n c (w : world state call resp) :
  clock_ok -> wp (wait_delay_off n c) (fun _ w' => same_leds w w') w.
Proof.
  intros Hc. revert w. induction n as [|n IH]; intros w; cbn [wait_delay_off]; wp_step;
    (eapply wp_mono; [apply delay_missing_ok|]); intros bad w2 H2; (destruct bad; [|exact H2]).
  - exact H2.
  - wp_step. eapply wp_mono; [by apply led_wait_delay_ok|]. intros ? w3 H3.
    eapply wp_mono; [apply IH|]. intros ? w4 H4. exact (same_leds_trans _ _ _ H2 (same_leds_trans _ _ _ H3 H4)).
Qed.

(** ** Writing *)
Lemma effect_led p data l l' c : (forall c, led_of l c = led_of l' c) -> led_of (effect p data l) c = led_of (effect p data l') c.
Proof.
  intros Hl. destruct p as [|d|d|d|d| | |]; try apply Hl; unfold effect; repeat case_decide; try apply Hl;
    destruct c, d; try done; apply (Hl Red) || apply (Hl Green) || apply (Hl Blue).
Qed.

(** The lock is held, and the LEDs were last told what [l] says. *)
Definition led_state (w : world state call resp) (l : leds) : Prop :=
  lock_run false (trace w) = Some true /\ forall c, led_of (led_run (trace w)) c = led_of l c.

Lemma write_file_ok p flags data (w : world state call resp) l :
  sysfs_ok -> led_state w l ->
  wp (write_file p flags data) (fun r w' => r = 0 /\ globals w' = globals w /\ led_state w' (effect p data l)) w.
Proof.
  intros Hs [Hlock Hl]. unfold write_file, sys. do 2 wp_step. cbn [globals trace].
  pose proof (proj1 (Hs (trace w)) p flags) as Ho. set (r := answer (trace w) (Copen p flags)) in *.
  rewrite (proj2 (Z.leb_le 0 (rv r)) Ho). do 4 wp_step. cbn [globals trace].
  pose proof (proj2 (Hs (trace w ++ [(Copen p flags, r)])) (rv r) data) as Hw.
  set (amt := answer _ (Cwrite (rv r) data)) in *. wp_step. rewrite (proj2 (Z.eqb_neq _ _) Hw).
  split; [done|]. split; [done|]. split.
  - cbn [trace]. rewrite !lock_run_snoc, Hlock. done.
  - intros c. cbn [trace]. rewrite !led_run_snoc. cbn [led_step cur set_cur].
    rewrite (proj2 (Z.leb_le 0 (rv r)) Ho). cbn [cur set_cur]. rewrite Z.eqb_refl, (proj2 (Z.eqb_neq _ _) Hw).
    cbn [andb negb]. transitivity (led_of (effect p data (set_cur (led_run (trace w)) (Some (rv r, p)))) c); [by destruct c|].
    apply effect_led. intros d. rewrite <- Hl. by destruct d.
Qed.

(** ** Blinking *)
Definition mode_of (status : Z) : led := if status =? 0 then LedOff else if status =? 1 then LedBlink else LedOn.

(** The lock is held and the [preStatus] variables agree with what the LEDs were told. *)
Definition leds_inv (w : world state call resp) : Prop :=
  lock_run false (trace w) = Some true /\ forall c, led_of (led_run (trace w)) c = mode_of (pre (globals w) c).

Definition with_pre (s : state) (r g b : Z) : state := set_pre (set_pre (set_pre s Red r) Green g) Blue b.

Lemma pre_set_pre s c v d : pre (set_pre s c v) d = if decide (d = c) then v else pre s d.
Proof. by destruct c, d. Qed.

Lemma set_pre_same s c : set_pre s c (pre s c) = s.
Proof. by destruct s, c. Qed.

Lemma led_of_set_led l c v d : led_of (set_led l c v) d = if decide (d = c) then v else led_of l d.
Proof. by destruct c, d. Qed.

Lemma effect_off c l d : led_of (effect (LED_FILE c) (sprintf_d 0) l) d = if decide (d = c) then LedOff else led_of l d.
Proof. cbn [effect]. rewrite decide_True by done. apply led_of_set_led. Qed.

Lemma effect_timer c l d : led_of (effect (TRIGGER_FILE c) str_timer l) d = if decide (d = c) then LedBlink else led_of l d.
Proof. cbn [effect]. rewrite decide_True by done. apply led_of_set_led. Qed.

Lemma effect_on c l d :
  led_of (effect (LED_FILE c) (sprintf_d 255) (effect (TRIGGER_FILE c) str_none l)) d
  = if decide (d = c) then LedOn else led_of l d.
Proof.
  cbn [effect]. rewrite (decide_False (P := sprintf_d 255 = sprintf_d 0)), decide_True by done.
  rewrite (decide_False (P := str_none = str_timer)), (decide_True (P := str_none = str_none)) by done.
  rewrite !led_of_set_led. by case_decide.
Qed.

(** What [blink] takes its arguments for. *)
Definition status_of (level onMS offMS : Z) : Z :=
  if level =? 0 then 0 else if negb (onMS =? 0) && negb (offMS =? 0) then 1 else 2.

Lemma same_led_state w w' l : same_leds w w' -> led_state w l -> led_state w' l.
Proof. intros (_ & E2 & E3) [Hl Hc]. split; [by rewrite E3|]. intros c. by rewrite E2. Qed.

Lemma blink_ok c level onMS offMS (w : world state call resp) :
  sysfs_ok -> clock_ok -> leds_inv w ->
  wp (blink c level onMS offMS) (fun _ w' => leds_inv w'
    /\ globals w' = set_pre (globals w) c (status_of level onMS offMS)) w.
Proof.
  intros Hs Hc [Hlock Hl]. unfold blink. fold (status_of level onMS offMS). set (st := status_of level onMS offMS).
  do 2 wp_step. destruct (Z.eqb_spec (pre (globals w) c) st) as [Hp|Hp].
  { wp_step. split; [by split|]. rewrite <- Hp. by rewrite set_pre_same. }
  set (told := fun d => if decide (d = c) then mode_of st else mode_of (pre (globals w) d)).
  assert (forall (w' : world state call resp) l, globals w' = globals w -> led_state w' l -> (forall d, led_of l d = told d) ->
    wp (do _ <- io_mod (fun s => set_pre s c st); io_ret 0)
      (fun _ w'' => leds_inv w'' /\ globals w'' = set_pre (globals w) c st) w') as Hend.
  { intros w' l Eg [Hlock' Hl'] Ht. do 3 wp_step. rewrite Eg. split; [|done]. split; [done|].
    intros d. cbn [globals trace]. rewrite Hl', Ht, pre_set_pre. unfold told. by case_decide. }
  assert (led_state w (led_run (trace w))) as Hw by done.
  wp_step. destruct (Z.eqb_spec st 0) as [E0|]; [|destruct (Z.eqb_spec st 1) as [E1|]].
  - eapply wp_mono; [by apply write_file_ok|]. intros ? w1 (_ & Eg & Hw1). eapply Hend; [done..|].
    intros d. rewrite effect_off, Hl. unfold told. by rewrite E0.
  - wp_step. eapply wp_mono; [by apply write_file_ok|]. intros ? w1 (_ & Eg & Hw1).
    wp_step. eapply wp_mono; [by apply wait_delay_off_ok|]. intros ? w2 H2. destruct H2 as (Eg2 & H2).
    assert (led_state w2 (effect (TRIGGER_FILE c) str_timer (led_run (trace w)))) as Hw2
      by (eapply same_led_state; [split; [exact Eg2|exact H2]|done]).
    wp_step. eapply wp_mono; [by apply write_file_ok|]. intros ? w3 (_ & Eg3 & Hw3).
    eapply wp_mono; [by apply write_file_ok|]. intros ? w4 (_ & Eg4 & Hw4).
    eapply Hend; [by rewrite Eg4, Eg3, Eg2|exact Hw4|]. intros d. change (effect (DELAY_ON_FILE c) _ _) with
      (effect (TRIGGER_FILE c) str_timer (led_run (trace w))). rewrite effect_timer, Hl. unfold told. by rewrite E1.
  - wp_step. eapply wp_mono; [by apply write_file_ok|]. intros ? w1 (_ & Eg & Hw1).
    eapply wp_mono; [by apply write_file_ok|]. intros ? w2 (_ & Eg2 & Hw2).
    eapply Hend; [by rewrite Eg2|exact Hw2|]. intros d. rewrite effect_on, Hl. unfold told, mode_of.
    by rewrite (proj2 (Z.eqb_neq st 0)), (proj2 (Z.eqb_neq st 1)).
Qed.

(** ** The speaker light *)

(** The component of a colour (0xAARRGGBB). *)
Definition component (st : light_state) (c : color) : Z :=
  match c with Red => (color_of st ≫ 16) .& 0xFF | Green => (color_of st ≫ 8) .& 0xFF | Blue => color_of st .& 0xFF end.

(** The one LED that shows a light: none when it is transparent or black, else the first of
    red, green and blue with a non-zero component. *)
Definition chosen (st : light_state) : option color :=
  if (color_of st ≫ 24) .& 0xFF =? 0 then None
  else if negb (component st Red =? 0) then Some Red
  else if negb (component st Green =? 0) then Some Green
  else if negb (component st Blue =? 0) then Some Blue
  else None.

Definition shown (st : light_state) (c : color) : led :=
  if decide (chosen st = Some c) then
    if (flashMode st =? LIGHT_FLASH_TIMED) && (negb (flashOnMS st =? 0) && negb (flashOffMS st =? 0))
    then LedBlink else LedOn
  else LedOff.

Definition number_of (m : led) : Z := match m with LedOff => 0 | LedBlink => 1 | LedOn => 2 end.

Lemma mode_of_number m : mode_of (number_of m) = m.
Proof. by destruct m. Qed.

(** The statuses once [st] is shown. *)
Definition showing (s : state) (st : light_state) : state :=
  with_pre s (number_of (shown st Red)) (number_of (shown st Green)) (number_of (shown st Blue)).

Lemma status_of_lit level st :
  level <> 0 ->
  (let '(onMS, offMS) := if flashMode st =? LIGHT_FLASH_TIMED then (flashOnMS st, flashOffMS st) else (0, 0) in
   status_of level onMS offMS)
  = number_of (if (flashMode st =? LIGHT_FLASH_TIMED) && (negb (flashOnMS st =? 0) && negb (flashOffMS st =? 0))
               then LedBlink else LedOn).
Proof.
  intros Hl. unfold status_of. destruct (flashMode st =? LIGHT_FLASH_TIMED); rewrite (proj2 (Z.eqb_neq _ _) Hl); [|done].
  cbn [andb]. by destruct (negb (flashOnMS st =? 0) && negb (flashOffMS st =? 0)).
Qed.

(** Three calls of [blink], one per LED. *)
Lemma blink3_ok c1 l1 on1 off1 c2 l2 on2 off2 c3 l3 on3 off3 (w : world state call resp) :
  sysfs_ok -> clock_ok -> leds_inv w ->
  wp (do _ <- blink c1 l1 on1 off1; do _ <- blink c2 l2 on2 off2; blink c3 l3 on3 off3)
    (fun _ w' => leds_inv w' /\ globals w' = set_pre (set_pre (set_pre (globals w)
       c1 (status_of l1 on1 off1)) c2 (status_of l2 on2 off2)) c3 (status_of l3 on3 off3)) w.
Proof.
  intros Hs Hc Hw. wp_step. eapply wp_mono; [by apply blink_ok|]. intros ? w1 (Hw1 & E1).
  wp_step. eapply wp_mono; [by apply blink_ok|]. intros ? w2 (Hw2 & E2).
  eapply wp_mono; [by apply blink_ok|]. intros ? w3 (Hw3 & E3). split; [done|]. by rewrite E3, E2, E1.
Qed.

Lemma speaker_ok st (w : world state call resp) :
  sysfs_ok -> clock_ok -> leds_inv w ->
  wp (set_speaker_light_locked st) (fun r w' => r = 0 /\ leds_inv w' /\ globals w' = showing (globals w) st) w.
Proof.
  intros Hs Hc Hw. unfold set_speaker_light_locked.
  pose proof (status_of_lit (component st Red) st) as HR. pose proof (status_of_lit (component st Green) st) as HG.
  pose proof (status_of_lit (component st Blue) st) as HB.
  destruct (if flashMode st =? LIGHT_FLASH_TIMED then (flashOnMS st, flashOffMS st) else (0, 0)) as [onMS offMS].
  assert (forall (m : io state call resp Z), wp m (fun _ w' => leds_inv w' /\ globals w' = showing (globals w) st) w ->
    wp (do _ <- m; io_ret 0) (fun r w' => r = 0 /\ leds_inv w' /\ globals w' = showing (globals w) st) w) as Hret.
  { intros m Hm. wp_step. eapply wp_mono; [exact Hm|]. intros ? w' [? ?]. by wp_step. }
  unfold showing, shown, chosen in *. cbn [component] in *. destruct ((color_of st ≫ 24) .& 0xFF =? 0).
  { apply Hret. cbn [Z.eqb negb]. eapply wp_mono; [by apply blink3_ok|]. intros ? w' [? ->]. done. }
  destruct (Z.eqb_spec ((color_of st ≫ 16) .& 0xFF) 0) as [E1|N1]; cbn [negb].
  2:{ apply Hret. eapply wp_mono; [by apply blink3_ok|]. intros ? w' [? ->]. split; [done|]. by rewrite HR. }
  destruct (Z.eqb_spec ((color_of st ≫ 8) .& 0xFF) 0) as [E2|N2]; cbn [negb].
  2:{ apply Hret. eapply wp_mono; [by apply blink3_ok|]. intros ? w' [? ->]. split; [done|]. by rewrite HG. }
  destruct (Z.eqb_spec (color_of st .& 0xFF) 0) as [E3|N3]; cbn [negb].
  - apply Hret. eapply wp_mono; [by apply blink3_ok|]. by intros ? w' [? ->].
  - apply Hret. eapply wp_mono; [by apply blink3_ok|]. intros ? w' [? ->]. split; [done|]. by rewrite HB.
Qed.

Lemma leds_shown st (w w' : world state call resp) c :
  (forall c, led_of (led_run (trace w')) c = mode_of (pre (globals w') c)) -> globals w' = showing (globals w) st ->
  led_of (led_run (trace w')) c = shown st c.
Proof. intros Hl E. rewrite Hl, E. unfold showing. destruct c; apply mode_of_number. Qed.

(** ** The methods of the devices *)
Lemma wp_ret_eq {A} (m : io state call resp A) a (R : world state call resp -> Prop) w :
  wp m (fun r w' => r = a /\ R w') w -> exists w', m w = Some (a, w') /\ R w'.
Proof. intros Hm. destruct (wp_total _ _ _ Hm) as (r & w' & ? & -> & ?). eauto. Qed.

(** The mutex is free, and the [preStatus] variables agree with what the LEDs were told. *)
Definition idle_inv (w : world state call resp) : Prop :=
  lock_run false (trace w) = Some false /\ forall c, led_of (led_run (trace w)) c = mode_of (pre (globals w) c).

Lemma lock_ok (w : world state call resp) (Q : resp -> world state call resp -> Prop) :
  idle_inv w -> (forall r w', leds_inv w' -> globals w' = globals w -> Q r w') -> wp (sys Clock) Q w.
Proof.
  intros [Hl Hc] HQ. unfold sys. wp_step. apply HQ; [|done]. split; cbn [trace].
  - by rewrite lock_run_snoc, Hl.
  - intros c. rewrite led_run_snoc. apply Hc.
Qed.

Lemma unlock_ok (w : world state call resp) (Q : resp -> world state call resp -> Prop) :
  leds_inv w -> (forall r w', idle_inv w' -> globals w' = globals w -> led_run (trace w') = led_run (trace w) -> Q r w') ->
  wp (sys Cunlock) Q w.
Proof.
  intros [Hl Hc] HQ. unfold sys. wp_step. apply HQ; [|done|cbn [trace]; by rewrite led_run_snoc]. split; cbn [trace].
  - by rewrite lock_run_snoc, Hl.
  - intros c. rewrite led_run_snoc. apply Hc.
Qed.

Lemma leds_inv_globals (w : world state call resp) s :
  leds_inv w -> (forall c, pre s c = pre (globals w) c) -> leds_inv (World s (trace w)).
Proof. intros [Hl Hc] Hp. split; [done|]. intros c. by rewrite Hp. Qed.

(** A write to another file than the LEDs'. *)
Lemma write_other_ok p flags data (w : world state call resp) :
  sysfs_ok -> leds_inv w -> (forall l, effect p data l = l) ->
  wp (write_file p flags data) (fun r w' => r = 0 /\ leds_inv w' /\ globals w' = globals w) w.
Proof.
  intros Hs [Hl Hc] Hp. eapply wp_mono; [apply (write_file_ok _ _ _ _ (led_run (trace w))); [done|by split]|].
  intros r w' (Hr & E & Hl' & Hc'). rewrite Hp in Hc'. split_and!; [done| |done]. split; [done|].
  intros c. by rewrite Hc', E.
Qed.

Lemma trackball_ok (w : world state call resp) :
  sysfs_ok -> leds_inv w ->
  wp handle_trackball_light_locked (fun _ w' => leds_inv w' /\ globals w' = globals w) w.
Proof.
  intros Hs Hw. unfold handle_trackball_light_locked. do 2 wp_step. case_match; [by wp_step|].
  eapply wp_mono; [by apply write_other_ok|]. by intros ? w' (_ & ? & ?).
Qed.

Lemma if_trackball_ok m (w : world state call resp) (R : world state call resp -> Prop) :
  R w -> wp m (fun _ w' => R w') w -> wp (if_trackball m) (fun _ w' => R w') w.
Proof. intros Hw Hm. unfold if_trackball. do 2 wp_step. case_match; [by wp_step|]. wp_step. eapply wp_mono; [exact Hm|done]. Qed.

Lemma battery_locked_ok (w : world state call resp) :
  sysfs_ok -> clock_ok -> leds_inv w ->
  wp handle_speaker_battery_locked (fun _ w' => leds_inv w'
    /\ exists s, globals w' = showing s (if negb (is_lit (g_battery (globals w)) =? 0)
                                         then g_battery (globals w) else g_notification (globals w))
        /\ g_battery s = g_battery (globals w) /\ g_notification s = g_notification (globals w)) w.
Proof.
  intros Hs Hc Hw. unfold handle_speaker_battery_locked. do 2 wp_step. case_match.
  - wp_step. eapply wp_mono; [by apply speaker_ok|]. intros ? w' (_ & ? & E). wp_step. eauto.
  - wp_step. eapply wp_mono; [by apply speaker_ok|]. intros ? w1 (_ & Hw1 & E1). do 3 wp_step. rewrite E1.
    eapply wp_mono; [by apply speaker_ok|]. intros ? w2 (_ & Hw2 & E2). wp_step. split; [done|].
    exists (globals w1). rewrite E1 in *. done.
Qed.

(** The end of the methods of the battery and of notifications. *)
Lemma battery_tail_ok b n (w : world state call resp) :
  sysfs_ok -> clock_ok -> leds_inv w -> g_battery (globals w) = b -> g_notification (globals w) = n ->
  wp (do _ <- handle_speaker_battery_locked; do _ <- sys Cunlock; io_ret 0)
    (fun r w' => r = 0 /\ idle_inv w' /\ g_battery (globals w') = b /\ g_notification (globals w') = n
       /\ forall c, led_of (led_run (trace w')) c = shown (if is_lit b =? 0 then n else b) c) w.
Proof.
  intros Hs Hc Hw Eb En. wp_step. eapply wp_mono; [by apply battery_locked_ok|].
  intros ? w1 (Hw1 & s & E1 & Es1 & Es2). wp_step. apply unlock_ok; [done|]. intros ? w2 Hw2 E2 _. wp_step.
  rewrite Eb, En in *. split; [done|]. split; [done|]. rewrite E2, E1. split; [done|]. split; [done|].
  intros c. destruct Hw2 as [_ Hl]. rewrite (leds_shown (if is_lit b =? 0 then n else b) (World s []) w2); [done..|].
  rewrite E2, E1. by destruct (is_lit b =? 0).
Qed.

(** The methods that handle the trackball before anything else. *)
Lemma trackball_tail_ok {A} (m : io state call resp A) (w : world state call resp) Q :
  sysfs_ok -> leds_inv w -> (forall w', leds_inv w' -> globals w' = globals w -> wp m Q w') ->
  wp (do _ <- if_trackball handle_trackball_light_locked; m) Q w.
Proof.
  intros Hs Hw HQ. wp_step. eapply wp_mono; [apply (if_trackball_ok _ _ (fun w2 => leds_inv w2 /\ globals w2 = globals w))|].
  - done.
  - by apply trackball_ok.
  - intros ? w' [? ?]. by apply HQ.
Qed.

(** C18. Showing a light on the speaker LEDs: at most one LED is lit, the first of red, green
    and blue the colour has (none for a transparent colour); it blinks for a timed light with
    both times set and is fully on otherwise. The call returns 0, however often it is made and
    whatever was shown before, and the [preStatus] variables keep describing the LEDs. *)
Theorem speaker_light_correct (st : light_state) (w : world state call resp) :
  sysfs_ok -> clock_ok -> leds_inv w ->
  exists w', set_speaker_light_locked st w = Some (0, w') /\ leds_inv w'
    /\ forall c, led_of (led_run (trace w')) c = shown st c.
Proof.
  intros Hs Hc Hw. destruct (wp_total _ _ _ (speaker_ok st w Hs Hc Hw)) as (r & w' & Hr & -> & Hw' & E).
  exists w'. split_and!; [done..|]. intros c. destruct Hw'. by eapply leds_shown.
Qed.

Lemma battery_light_ok (st : light_state) (name : light_id) (w : world state call resp) :
  sysfs_ok -> clock_ok -> idle_inv w -> name = LIGHT_ID_BATTERY \/ name = LIGHT_ID_NOTIFICATIONS ->
  let battery := if decide (name = LIGHT_ID_BATTERY) then st else g_battery (globals w) in
  let notification := if decide (name = LIGHT_ID_BATTERY) then g_notification (globals w) else st in
  wp (set_light name st) (fun r w' => r = 0 /\ idle_inv w' /\
    g_battery (globals w') = battery /\ g_notification (globals w') = notification
    /\ forall c, led_of (led_run (trace w')) c = shown (if is_lit battery =? 0 then notification else battery) c) w.
Proof.
  intros Hs Hc Hw Hname. cbv zeta.
  destruct Hname as [-> | ->]; cbn [set_light]; [unfold set_light_battery|unfold set_light_notifications];
    wp_step; (apply lock_ok; [done|]); intros r w1 Hw1 E1; do 2 wp_step.
  - wp_step. eapply wp_mono; [apply (if_trackball_ok _ _ (fun w2 => leds_inv w2 /\ g_battery (globals w2) = st
      /\ g_notification (globals w2) = g_notification (globals w)))|].
    + split; [by apply leds_inv_globals|]. by rewrite E1.
    + eapply wp_mono; [apply speaker_ok; [done..|]|]; [by apply leds_inv_globals|].
      intros ? w2 (_ & Hw2 & E2). rewrite E2, E1. by split.
    + intros ? w2 (Hw2 & Eb & En). by apply battery_tail_ok.
  - apply trackball_tail_ok; [done|by apply leds_inv_globals|]. intros w2 Hw2 E2.
    apply battery_tail_ok; [done..| |]; rewrite E2, ?E1; done.
Qed.

(** Low battery and notifications share the LEDs: after either is set the LEDs show the
    battery light when its colour is not black, and the notification light otherwise; the mutex
    is taken once and released, and every file is written under it. *)
Theorem battery_over_notification (st : light_state) (name : light_id) (w : world state call resp) :
  sysfs_ok -> clock_ok -> idle_inv w -> name = LIGHT_ID_BATTERY \/ name = LIGHT_ID_NOTIFICATIONS ->
  exists w', set_light name st w = Some (0, w') /\ idle_inv w' /\
    let battery := if decide (name = LIGHT_ID_BATTERY) then st else g_battery (globals w) in
    let notification := if decide (name = LIGHT_ID_BATTERY) then g_notification (globals w) else st in
    g_battery (globals w') = battery /\ g_notification (globals w') = notification
    /\ forall c, led_of (led_run (trace w')) c = shown (if is_lit battery =? 0 then notification else battery) c.
Proof. intros. by apply wp_ret_eq, battery_light_ok. Qed.

(** ** Every light *)
Lemma write_light_ok p v st' (w : world state call resp) (Q : Z -> world state call resp -> Prop) :
  sysfs_ok -> leds_inv w -> (forall l, effect p (sprintf_d v) l = l) ->
  (forall w', leds_inv w' -> globals w' = st' -> Q 0 w') -> globals w = st' -> wp (write_int p v) Q w.
Proof.
  intros Hs Hw Hp HQ E. eapply wp_mono; [by apply (write_other_ok p O_RDWR (sprintf_d v))|].
  intros ? w' (-> & Hw' & E'). apply HQ; [done|]. by rewrite E'.
Qed.

(** What a light does to the globals: the battery and notification lights are recorded and
    shown, a backlight records its brightness, attention its mode. *)
Definition recorded (name : light_id) (st : light_state) (s : state) : state :=
  match name with
  | LIGHT_ID_BACKLIGHT => set_backlight s (rgb_to_brightness st)
  | LIGHT_ID_BUTTONS => set_buttons s (is_lit st)
  | LIGHT_ID_ATTENTION =>
      if flashMode st =? LIGHT_FLASH_HARDWARE then set_attention s (flashOnMS st)
      else if flashMode st =? LIGHT_FLASH_NONE then set_attention s 0 else s
  | _ => s
  end.

Lemma other_light_ok (st : light_state) (name : light_id) (w : world state call resp) :
  sysfs_ok -> idle_inv w -> name <> LIGHT_ID_BATTERY -> name <> LIGHT_ID_NOTIFICATIONS -> name <> LIGHT_ID_OTHER ->
  wp (set_light name st) (fun r w' => r = 0 /\ idle_inv w' /\ globals w' = recorded name st (globals w)
    /\ forall c, led_of (led_run (trace w')) c = led_of (led_run (trace w)) c) w.
Proof.
  intros Hs Hw Hn1 Hn2 Hn3.
  assert (forall (r : Z) (w1 : world state call resp), leds_inv w1 -> globals w1 = recorded name st (globals w) ->
    wp (do _ <- sys Cunlock; io_ret r) (fun r' w' => r' = r /\ idle_inv w'
      /\ globals w' = recorded name st (globals w)
      /\ forall c, led_of (led_run (trace w')) c = led_of (led_run (trace w)) c) w1) as Hend.
  { intros r w1 Hw1 E1. wp_step. apply unlock_ok; [done|]. intros r' w' Hw' E' _. wp_step.
    split_and!; [done|done|by rewrite E'|]. intros c. destruct Hw as [_ Hl], Hw' as [_ Hl']. rewrite Hl, Hl', E', E1.
    f_equal. unfold recorded. by repeat case_match. }
  destruct name; try done; cbn [set_light]; [unfold set_light_backlight|unfold set_light_keyboard
    |unfold set_light_buttons|unfold set_light_attention];
    wp_step; (apply lock_ok; [done|]); intros r w1 Hw1 E1; wp_step.
  - do 2 wp_step. eapply write_light_ok; [done|by apply leds_inv_globals|done| |done]. intros w2 Hw2 E2. cbn [globals] in E2.
    apply trackball_tail_ok; [done..|]. intros w3 Hw3 E3. apply Hend; [done|]. by rewrite E3, E2, E1.
  - eapply write_light_ok; [done..| |done]. intros w2 Hw2 E2. apply Hend; [done|]. by rewrite E2, ?E1.
  - do 2 wp_step. eapply write_light_ok; [done|by apply leds_inv_globals|done| |done]. intros w2 Hw2 E2. cbn [globals] in E2.
    apply Hend; [done|]. by rewrite E2, E1.
  - wp_step. apply trackball_tail_ok; [done| |].
    { apply leds_inv_globals; [done|]. intros c. by repeat case_match. }
    intros w2 Hw2 E2. apply Hend; [done|]. by rewrite E2, E1.
Qed.

(** The lights other than the battery and notification lights: with the files writable,
    setting one returns 0, records exactly its own state, leaves the three LEDs alone, and takes
    and releases the mutex around its writes. *)
Theorem other_lights_correct (st : light_state) (name : light_id) (w : world state call resp) :
  sysfs_ok -> idle_inv w -> name <> LIGHT_ID_BATTERY -> name <> LIGHT_ID_NOTIFICATIONS -> name <> LIGHT_ID_OTHER ->
  exists w', set_light name st w = Some (0, w') /\ idle_inv w' /\ globals w' = recorded name st (globals w)
    /\ forall c, led_of (led_run (trace w')) c = led_of (led_run (trace w)) c.
Proof. intros. by apply wp_ret_eq, other_light_ok. Qed.

(** ** Opening *)
Lemma check_files_ok files (w : world state call resp) :
  wp (check_files files) (fun e w' => globals w' = globals w
    /\ exists tr, trace w' = trace w ++ tr /\
       match e with
       | None => map fst tr = map (fun p => Caccess p F_OK) files /\ Forall (fun x => 0 <= rv x.2) tr
       | Some err => exists ok p r rest tr', files = ok ++ p :: rest /\ tr = tr' ++ [(Caccess p F_OK, r)]
           /\ map fst tr' = map (fun p => Caccess p F_OK) ok /\ Forall (fun x => 0 <= rv x.2) tr'
           /\ rv r < 0 /\ err = - rerrno r
       end) w.
Proof.
  revert w. induction files as [|p files IH]; intros w; cbn [check_files].
  { wp_step. split; [done|]. exists []. by rewrite app_nil_r. }
  unfold sys. do 2 wp_step. set (r := answer (trace w) (Caccess p F_OK)). destruct (Z.ltb_spec (rv r) 0) as [Hr|Hr].
  { wp_step. split; [done|]. eexists. split; [reflexivity|]. by exists [], p, r, files, []. }
  eapply wp_mono; [apply IH|]. intros e w' (Eg & tr & Et & He). split; [done|].
  exists ((Caccess p F_OK, r) :: tr). split; [rewrite Et; cbn [trace]; by rewrite <- app_assoc|].
  destruct e as [err|].
  - destruct He as (ok & q & r' & rest & tr' & -> & -> & Em & Hf & He).
    exists (p :: ok), q, r', rest, ((Caccess p F_OK, r) :: tr'). split_and!; try done; [simpl; by rewrite Em|by constructor|..]; apply He.
  - destruct He as [Em Hf]. split; [simpl; by rewrite Em|by constructor].
Qed.

(** Opening a light: an unknown name is refused with -EINVAL and no call; a light whose
    files are not all there is refused with the negated errno of the first missing one, before
    anything else; otherwise the globals are set up on the first opening only, and the device
    carries the setter of the light that was asked for, unless the allocation fails. *)
Theorem open_lights_correct (name : light_id) (w : world state call resp) :
  exists r dev w', open_lights name w = Some ((r, dev), w')
  /\ match dev with
     | Some d => r = 0 /\ d = name /\ name <> LIGHT_ID_OTHER /\ g_init (globals w') = true
     | None => (name = LIGHT_ID_OTHER /\ r = - EINVAL /\ w' = w)
         \/ (exists p x, p ∈ required_files name /\ (Caccess p F_OK, x) ∈ trace w' /\ rv x < 0 /\ r = - rerrno x
               /\ globals w' = globals w)
         \/ (r = - ENOMEM /\ g_init (globals w') = true)
     end
  /\ (g_init (globals w) = true -> globals w' = globals w).
Proof.
  enough (wp (open_lights name) (fun rd w' =>
    match rd.2 with
     | Some d => rd.1 = 0 /\ d = name /\ name <> LIGHT_ID_OTHER /\ g_init (globals w') = true
     | None => (name = LIGHT_ID_OTHER /\ rd.1 = - EINVAL /\ w' = w)
         \/ (exists p x, p ∈ required_files name /\ (Caccess p F_OK, x) ∈ trace w' /\ rv x < 0 /\ rd.1 = - rerrno x
               /\ globals w' = globals w)
         \/ (rd.1 = - ENOMEM /\ g_init (globals w') = true)
     end /\ (g_init (globals w) = true -> globals w' = globals w)) w) as Hwp.
  { destruct (wp_total _ _ _ Hwp) as ([r dev] & w' & E & HQ). by exists r, dev, w'. }
  destruct (decide (name = LIGHT_ID_OTHER)) as [->|Hn]; [cbn [open_lights]; wp_step; split; [by left|done]|].
  assert (forall (m : io state call resp (Z * option light_id)) Q, (name <> LIGHT_ID_OTHER -> wp m Q w) ->
    wp (match name with LIGHT_ID_OTHER => io_ret (- EINVAL, None) | _ => m end) Q w) as Hm by (destruct name; auto; done).
  apply Hm. intros _. wp_step. eapply wp_mono; [apply check_files_ok|]. intros [err|] w1 (Eg & tr & Et & He).
  { wp_step. split; [|by intros _]. right; left. destruct He as (ok & p & r & rest & tr' & Ef & -> & _ & _ & Hr & ->).
    exists p, r. split_and!; [rewrite Ef; apply elem_of_app; right; constructor|rewrite Et; do 2 (apply elem_of_app; right); constructor|done..]. }
  do 3 wp_step. unfold init_globals, sys. destruct (g_init (globals w1)) eqn:Ei.
  - do 3 wp_step. destruct (rv (answer _ Cmalloc) =? 0); wp_step; (split; [|by intros _]); [by right; right|by split_and!].
  - rewrite Eg in Ei. do 5 wp_step. destruct (rv (answer _ Cmalloc) =? 0); wp_step; (split; [|by rewrite Ei]); [by right; right|by split_and!].
Qed.
End Lights.

(** ** Brightness and decimal numbers *)

(** A colour 0xAARRGGBB. *)
Definition argb (a r g b : Z) : Z := a * 2 ^ 24 + r * 2 ^ 16 + g * 2 ^ 8 + b.

Definition is_octet (z : Z) : Prop := 0 <= z < 256.

Lemma rgb_components a r g b mode on off :
  is_octet a -> is_octet r -> is_octet g -> is_octet b ->
  rgb_to_brightness (mk_light (argb a r g b) mode on off) = (77 * r + 150 * g + 29 * b) / 256.
Proof.
  unfold is_octet, argb, rgb_to_brightness. intros Ha Hr Hg Hb. cbn [color_of].
  change 0x00ffffff with (Z.ones 24). change 0x00ff with (Z.ones 8). rewrite !Z.land_ones, !Z.shiftr_div_pow2 by lia.
  change (2 ^ 24) with 16777216. change (2 ^ 16) with 65536. change (2 ^ 8) with 256.
  set (c := a * 16777216 + r * 65536 + g * 256 + b).
  assert (c mod 16777216 = r * 65536 + g * 256 + b) as -> by (unfold c; Z.div_mod_to_equations; lia).
  assert (((r * 65536 + g * 256 + b) / 65536) mod 256 = r) as -> by (Z.div_mod_to_equations; lia).
  assert (((r * 65536 + g * 256 + b) / 256) mod 256 = g) as -> by (Z.div_mod_to_equations; lia).
  assert ((r * 65536 + g * 256 + b) mod 256 = b) as -> by (Z.div_mod_to_equations; lia). done.
Qed.

(** The brightness of a colour is the weighted mean of its components, rounded down: it is
    an octet, a grey keeps its level (so white is 255 and black 0), brightening a component never
    dims the light, and the transparency does not matter. *)
Theorem rgb_to_brightness_correct (a r g b a' r' g' b' : Z) (mode on off mode' on' off' : Z) :
  Forall is_octet [a; r; g; b; a'; r'; g'; b'] -> r <= r' -> g <= g' -> b <= b' ->
  let v := rgb_to_brightness (mk_light (argb a r g b) mode on off) in
  let v' := rgb_to_brightness (mk_light (argb a' r' g' b') mode' on' off') in
  is_octet v /\ v <= v' /\ (r = g -> g = b -> v = r)
  /\ 256 * v <= 77 * r + 150 * g + 29 * b < 256 * (v + 1).
Proof.
  rewrite !Forall_cons_iff. intros (? & ? & ? & ? & ? & ? & ? & ? & _) Hr Hg Hb v v'. unfold v, v'.
  rewrite !rgb_components by done. unfold is_octet in *. Z.div_mod_to_equations. lia.
Qed.

(** The number a list of decimal digits denotes. *)
Definition dec_value (l : list Z) : Z := fold_left (fun n d => 10 * n + (d - 48)) l 0.

Lemma dec_digits_ok fuel n :
  0 <= n < 10 ^ Z.of_nat fuel ->
  dec_value (dec_digits fuel n) = n /\ Forall (fun d => 48 <= d <= 57) (dec_digits fuel n)
  /\ (length (dec_digits fuel n) <= fuel)%nat.
Proof.
  revert n. induction fuel as [|fuel IH]; intros n Hn; cbn [dec_digits].
  { change (10 ^ Z.of_nat 0) with 1 in Hn. split_and!; [unfold dec_value; cbn; lia|by constructor|cbn; lia]. }
  destruct (Z.ltb_spec n 10).
  - split_and!; [unfold dec_value; cbn; lia|by repeat constructor; lia|cbn; lia].
  - rewrite Nat2Z.inj_succ, Z.pow_succ_r in Hn by lia.
    destruct (IH (n / 10)) as (Hv & Hf & Hl); [Z.div_mod_to_equations; lia|].
    pose proof (Z.mod_pos_bound n 10). split_and!.
    + unfold dec_value in *. rewrite fold_left_app, Hv. cbn. Z.div_mod_to_equations. lia.
    + apply Forall_app. split; [done|]. repeat constructor; lia.
    + rewrite length_app. cbn. lia.
Qed.

(** Formatting an [int] for a file: the text is a minus sign for a negative number, the
    decimal digits of its magnitude, and a newline, and with its terminating zero it fits the
    buffer of 20 characters [write_int] keeps it in. *)
Lemma sprintf_d_ok (v : Z) :
  is_i32 v ->
  exists digits, sprintf_d v = (if v <? 0 then [45] else []) ++ digits ++ [10]
    /\ dec_value digits = Z.abs v /\ Forall (fun d => 48 <= d <= 57) digits
    /\ (length (sprintf_d v) + 1 <= 20)%nat.
Proof.
  unfold is_i32, sprintf_d. intros Hv. destruct (dec_digits_ok 10 (Z.abs v)) as (Hd & Hf & Hl); [lia|].
  exists (dec_digits 10 (Z.abs v)). destruct (Z.ltb_spec v 0).
  - rewrite Z.abs_neq in * by lia. set (l := dec_digits 10 (- v)) in *. split_and!; [done..|].
    rewrite length_app, length_cons. change (length [10]) with 1%nat. lia.
  - rewrite Z.abs_eq in * by lia. set (l := dec_digits 10 v) in *. split_and!; [done..|].
    rewrite length_app. change (length [10]) with 1%nat. lia.
Qed.

(** ** Witnesses *)

(** Files that open and take what is written, and a clock that advances by 4 ms a reading. *)
Definition answer0 (tr : list (call * resp)) (c : call) : resp :=
  match c with
  | Copen _ _ => mk_resp 3 0 0 0
  | Cwrite _ data => mk_resp (Z.of_nat (length data)) 0 0 0
  | Caccess TRACKBALL_FILE _ => mk_resp (-1) 2 0 0
  | Cgettimeofday => mk_resp 0 0 7 (4000 * Z.of_nat (length tr))
  | Cmalloc => mk_resp 1 0 0 0
  | _ => mk_resp 0 0 0 0
  end.

Lemma answer0_sysfs : sysfs_ok answer0.
Proof. intros tr. split; intros; cbn; lia. Qed.

Lemma answer0_clock : clock_ok answer0 3.
Proof.
  intros tr. exists 1%nat. split; [lia|]. unfold ms_of. cbn [readings answer0 tv_sec tv_usec]. rewrite !length_app. cbn [length].
  assert (forall k : nat, Z.quot (4000 * Z.of_nat k) 1000 = 4 * Z.of_nat k) as Hq.
  { intros k. replace (4000 * Z.of_nat k) with (4 * Z.of_nat k * 1000) by lia. by apply Z.quot_mul. }
  rewrite !Hq. lia.
Qed.

Definition world0 : world state call resp := World state0 [].
Definition held0 : world state call resp := World state0 [(Clock, mk_resp 0 0 0 0)].
Definition amber : light_state := mk_light 0xffff8000 LIGHT_FLASH_TIMED 500 500.

Lemma speaker_light_correct_witness :
  exists w', set_speaker_light_locked answer0 3 amber held0 = Some (0, w') /\ leds_inv w'
    /\ forall c, led_of (led_run (trace w')) c = match c with Red => LedBlink | _ => LedOff end.
Proof.
  destruct (speaker_light_correct answer0 3 amber held0 answer0_sysfs answer0_clock) as (w' & E & Hi & Hs).
  { split; [reflexivity|]. intros c. by destruct c. }
  exists w'. split; [exact E|]. split; [exact Hi|]. intros c. rewrite Hs. by destruct c.
Defined.

Lemma battery_over_notification_witness :
  exists w', set_light answer0 3 LIGHT_ID_NOTIFICATIONS amber world0 = Some (0, w')
    /\ idle_inv w' /\ led_of (led_run (trace w')) Red = LedBlink.
Proof.
  destruct (battery_over_notification answer0 3 amber LIGHT_ID_NOTIFICATIONS world0 answer0_sysfs answer0_clock)
    as (w' & E & Hi & _ & _ & Hs); [by split; [|intros []]|by right|].
  exists w'. split; [exact E|]. split; [exact Hi|]. rewrite Hs. reflexivity.
Defined.

Lemma other_lights_correct_witness :
  exists w', set_light answer0 3 LIGHT_ID_BACKLIGHT amber world0 = Some (0, w') /\ g_backlight (globals w') = 151.
Proof.
  destruct (other_lights_correct answer0 3 amber LIGHT_ID_BACKLIGHT world0 answer0_sysfs)
    as (w' & E & _ & Eg & _); [by split; [|intros []]|done..|].
  exists w'. split; [exact E|]. rewrite Eg. reflexivity.
Defined.

Lemma rgb_to_brightness_correct_witness : rgb_to_brightness (mk_light (argb 255 9 9 9) 0 0 0) = 9.
Proof.
  apply (rgb_to_brightness_correct 255 9 9 9 255 9 9 9 0 0 0 0 0 0); [|lia..].
  repeat first [apply Forall_nil_2 | apply Forall_cons]; unfold is_octet; lia.
Defined.
