(* ===== verification/LightService.v ===== *)
(** The lights service: src/mediatek/lights/interface/Light.cpp, on the lights module of Lights.v.

    What the interface android.hardware.light@2.0 numbers is a class: the types of lights. Its flash modes have the values of
    hardware/lights.h, which the code asserts. *)
From Stdlib Require Import List.
From stdpp Require Import gmap.
From S2P Require Import Prelude Maps Lights.

(** [Type] *)
Inductive light_type := BACKLIGHT | KEYBOARD | BUTTONS | BATTERY | NOTIFICATIONS | ATTENTION | BLUETOOTH | WIFI.
#[export] Instance light_type_eq_dec : EqDecision light_type.
Proof. solve_decision. Defined.

Class hidl_light := {
  type_number : light_type -> Z;
  type_number_inj :: Inj (=) (=) type_number;
  ENOSYS : Z;
  ENOSYS_positive : 0 < ENOSYS
}.

(** [LightState] and [Status] *)
Record LightState := mk_LightState { l_color : Z; l_flashMode : Z; l_flashOnMs : Z; l_flashOffMs : Z; l_brightnessMode : Z }.
Inductive Status := SUCCESS | LIGHT_NOT_SUPPORTED | BRIGHTNESS_NOT_SUPPORTED | UNKNOWN.

Section Service.
Context `{hidl : hidl_light} (answer : list (call * resp) -> call -> resp) (wait_fuel : nat).
Abbreviation IO := (io state call resp).
Abbreviation W := (world state call resp).

(** [std::map<Type, light_device_t*>]: a device is the light whose [set_light] it carries. *)
Abbreviation lights := (keyed_vector (light_type * light_id)).

(** The names of the lights that lights.c does not know are [LIGHT_ID_OTHER]. *)
Definition logical_light_names : list (light_type * light_id) :=
  [(BACKLIGHT, LIGHT_ID_BACKLIGHT); (KEYBOARD, LIGHT_ID_KEYBOARD); (BUTTONS, LIGHT_ID_BUTTONS); (BATTERY, LIGHT_ID_BATTERY);
   (NOTIFICATIONS, LIGHT_ID_NOTIFICATIONS); (ATTENTION, LIGHT_ID_ATTENTION); (BLUETOOTH, LIGHT_ID_OTHER); (WIFI, LIGHT_ID_OTHER)].
Definition kLogicalLights : lights := fold_left (fun m p => kv_add (type_number p.1) p m) logical_light_names [].

Definition getLightDevice (name : light_id) : IO (option light_id) :=
  do ret <- sys answer Chw_get_module;
  if rv ret =? 0 then
    do ret <- open_lights answer name;
    if ret.1 =? 0 then io_pure (fun s => device ← ret.2; Some (Some device, s)) else io_ret None
  else io_ret None.

Fixpoint open_all (l : lights) (ls : lights) : IO lights :=
  match l with
  | [] => io_ret ls
  | (k, (type, name)) :: l =>
    do light <- getLightDevice name;
    open_all l (match light with Some device => kv_add k (type, device) ls | None => ls end)
  end.
Definition HIDL_FETCH_ILight : IO lights := open_all kLogicalLights [].

(** lights.c does not read the brightness mode. *)
Definition legacy_state (st : LightState) : light_state :=
  mk_light (l_color st) (i32 (l_flashMode st)) (l_flashOnMs st) (l_flashOffMs st).

Definition setLight (type : light_type) (st : LightState) (ls : lights) : IO Status :=
  match valueFor (type_number type) ls with
  | None => io_ret LIGHT_NOT_SUPPORTED
  | Some hwLight =>
    do ret <- set_light answer wait_fuel hwLight.2 (legacy_state st);
    io_ret (if ret =? - ENOSYS then BRIGHTNESS_NOT_SUPPORTED else if ret =? 0 then SUCCESS else UNKNOWN)
  end.

Definition getSupportedTypes (ls : lights) : list light_type := map (fun e => e.2.1) ls.

(** A client that sets lights one after the other. *)
Fixpoint set_lights (l : list (light_type * LightState)) (ls : lights) : IO (list Status) :=
  match l with
  | [] => io_ret []
  | (type, st) :: l => do s <- setLight type st ls; do rest <- set_lights l ls; io_ret (s :: rest)
  end.

(** ** What the client sees

    The light that was last set for the battery and for notifications. *)
Record client_view := mk_view { last_battery : light_state; last_notification : light_state }.
Definition view0 : client_view := mk_view no_light no_light.

Definition sees (supported : list light_type) (v : client_view) (c : light_type * LightState) : client_view :=
  if decide (c.1 ∈ supported) then
    match c.1 with
    | BATTERY => mk_view (legacy_state c.2) (last_notification v)
    | NOTIFICATIONS => mk_view (last_battery v) (legacy_state c.2)
    | _ => v
    end
  else v.
Definition status_of_call (supported : list light_type) (c : light_type * LightState) : Status :=
  if decide (c.1 ∈ supported) then SUCCESS else LIGHT_NOT_SUPPORTED.

(** The light that the LEDs show. *)
Definition on_leds (v : client_view) : light_state := if is_lit (last_battery v) =? 0 then last_notification v else last_battery v.

Definition as_seen (v : client_view) (w : W) : Prop :=
  idle_inv w /\ g_battery (globals w) = last_battery v /\ g_notification (globals w) = last_notification v /\
  forall c, led_of (led_run (trace w)) c = shown (on_leds v) c.

(** [access] says why it fails. *)
Definition errno_set : Prop := forall tr p mode,
  let r := answer tr (Caccess p mode) in rv r < 0 -> 0 < rerrno r.
(** The module and the files of the lights are there, and there is memory. *)
Definition everything_there : Prop := forall tr,
  rv (answer tr Chw_get_module) = 0 /\ rv (answer tr Cmalloc) <> 0 /\
  forall p, p <> TRACKBALL_FILE -> 0 <= rv (answer tr (Caccess p F_OK)).

(** ** Opening lights changes none of this *)
Definition changes_nothing (c : call) : bool :=
  match c with Caccess _ _ | Cmalloc | Chw_get_module => true | _ => false end.

Lemma seen_sys v c Q (w : W) : changes_nothing c = true -> as_seen v w ->
  (forall w', as_seen v w' -> Q (answer (trace w) c) w') -> wp (sys answer c) Q w.
Proof.
  intros Hc [[Hlock Hpre] (Hb & Hn & Hl)] HQ. apply wp_call, HQ. unfold as_seen, idle_inv. cbn [globals trace]. rewrite lock_run_snoc, Hlock.
  assert (led_run (trace w ++ [(c, answer (trace w) c)]) = led_run (trace w)) as -> by (rewrite led_run_snoc; by destruct c).
  split_and!; try done. by destruct c.
Qed.

Lemma seen_inited v have (w : W) : as_seen v w -> as_seen v (World (set_inited (globals w) have) (trace w)).
Proof. by intros [[Hlock Hpre] (Hb & Hn & Hl)]. Qed.

Context (Herrno : errno_set).

Lemma seen_check v files (w : W) : Forall (fun p => p <> TRACKBALL_FILE) files -> as_seen v w ->
  wp (check_files answer files) (fun e w' => as_seen v w' /\ (everything_there -> e = None) /\ e <> Some 0) w.
Proof using Herrno.
  intros Hf. revert w. induction Hf as [|p files Hp Hf IH]; intros w Hw; cbn [check_files]; [by apply wp_ret|]. apply wp_bind. apply (seen_sys v); [done|done|].
  intros w1 Hw1. pose proof (Herrno (trace w) p F_OK) as He. cbv zeta in He.
  destruct (Z.ltb_spec (rv (answer (trace w) (Caccess p F_OK))) 0); [|by apply IH]. apply wp_ret. split_and!; [done| |intros [=]; lia].
  intros H0. destruct (H0 (trace w)) as (_ & _ & Ha). specialize (Ha p Hp). lia.
Qed.

(** A light that lights.c does not know is never opened. *)
Definition opened (name : light_id) (o : option light_id) : Prop :=
  match o with Some d => d = name /\ name <> LIGHT_ID_OTHER | None => everything_there -> name = LIGHT_ID_OTHER end.

Lemma seen_open v name (w : W) : as_seen v w ->
  wp (open_lights answer name) (fun r w' => as_seen v w' /\ opened name r.2 /\ (r.1 = 0 <-> is_Some r.2)) w.
Proof using Herrno.
  intros Hw. assert (forall (r : Z) (w' : W), r <> 0 -> as_seen v w' -> (everything_there -> name = LIGHT_ID_OTHER) ->
    wp (io_ret (r, None)) (fun r w' => as_seen v w' /\ opened name r.2 /\ (r.1 = 0 <-> is_Some r.2)) w') as Hno.
  { intros r w' Hr Hw' Ho. apply wp_ret. cbn. split_and!; [done|done|]. split; [lia|by intros []]. }
  destruct (decide (name = LIGHT_ID_OTHER)) as [->|Hn]; [by apply Hno|].
  assert (forall (m : IO (Z * option light_id)) Q, wp m Q w -> wp (match name with LIGHT_ID_OTHER => io_ret (- EINVAL, None) | _ => m end) Q w) as Hm
    by (destruct name; done).
  apply Hm, wp_bind. eapply wp_mono; [apply (seen_check v); [by destruct name; repeat constructor|done]|]. intros [err|] w1 (Hw1 & He & Hnz).
  { apply Hno; [congruence|done|]. intros H0. by specialize (He H0). }
  apply wp_bind, wp_get, wp_bind.
  apply (wp_mono _ (fun _ w2 => as_seen v w2)).
  { destruct (g_init (globals w1)); [by apply wp_ret|]. apply wp_bind, (seen_sys v); [done|done|]. intros w2 Hw2. by apply wp_mod, seen_inited. }
  intros _ w2 Hw2. apply wp_bind, (seen_sys v); [done|done|]. intros w3 Hw3.
  destruct (Z.eqb_spec (rv (answer (trace w2) Cmalloc)) 0) as [E|E].
  - apply Hno; [done|done|]. intros H0. by destruct (H0 (trace w2)) as (_ & ? & _).
  - apply wp_ret. cbn. split_and!; done.
Qed.

Lemma seen_device v name (w : W) : as_seen v w -> wp (getLightDevice name) (fun o w' => as_seen v w' /\ opened name o) w.
Proof using Herrno.
  intros Hw. unfold getLightDevice. apply wp_bind, (seen_sys v); [done|done|]. intros w1 Hw1.
  destruct (Z.eqb_spec (rv (answer (trace w) Chw_get_module)) 0) as [E|E].
  - apply wp_bind. eapply wp_mono; [by apply (seen_open v)|]. cbn beta. intros [r o] w2 (Hw2 & Ho & Hr). cbn [fst snd] in *.
    destruct (Z.eqb_spec r 0) as [->|Hr0].
    + destruct (proj1 Hr eq_refl) as [d ->]. eapply wp_pure; [done|]. by destruct w2.
    + apply wp_ret. destruct o as [d|]; [|done]. destruct Hr0. apply Hr. by exists d.
  - apply wp_ret. split; [done|]. intros H0. by destruct (H0 (trace w)) as (? & _).
Qed.

(** ** The map of the lights *)
Record lights_ok (ls : lights) : Prop := {
  lights_sorted : sorted_keys ls;
  lights_named : forall k type device, In (k, (type, device)) ls ->
    k = type_number type /\ device <> LIGHT_ID_OTHER /\ In (type, device) logical_light_names
}.

Lemma lights_ok_add ls type device : lights_ok ls -> device <> LIGHT_ID_OTHER -> In (type, device) logical_light_names ->
  lights_ok (kv_add (type_number type) (type, device) ls).
Proof.
  intros [Hs Hn] Hd Hin. split; [by apply kv_add_sorted|]. intros k t d [[= -> -> ->]|H]%in_kv_add; [done|by apply Hn].
Qed.

Lemma lights_ok_supported ls type : lights_ok ls -> In type (getSupportedTypes ls) <-> is_Some (valueFor (type_number type) ls).
Proof.
  intros [Hs Hn]. unfold getSupportedTypes. rewrite in_map_iff. split.
  - intros ([k [t d]] & <- & Hin). destruct (Hn k t d Hin) as (-> & _). exists (t, d). by apply in_valueFor.
  - intros [[t d] H%valueFor_in]. destruct (Hn _ _ _ H) as (Ht%type_number_inj & _). exists (type_number type, (t, d)). by subst.
Qed.

Lemma logical_lights_named : Forall (fun e => e.1 = type_number e.2.1 /\ In e.2 logical_light_names) kLogicalLights /\
  forall e, In e logical_light_names -> In (type_number e.1, e) kLogicalLights.
Proof.
  unfold kLogicalLights. assert (forall done todo m, done ++ todo = logical_light_names -> sorted_keys m ->
    Forall (fun e => e.1 = type_number e.2.1 /\ In e.2 logical_light_names) m -> (forall e, In e done -> In (type_number e.1, e) m) ->
    let m' := fold_left (fun m p => kv_add (type_number p.1) p m) todo m in
    Forall (fun e => e.1 = type_number e.2.1 /\ In e.2 logical_light_names) m' /\ forall e, In e logical_light_names -> In (type_number e.1, e) m') as H.
  2: { apply (H [] logical_light_names []); try done. constructor. }
  intros done todo. revert done. induction todo as [|p todo IH]; intros ds m E Hs Hm Hd; cbn [fold_left].
  { rewrite app_nil_r in E. by subst ds. }
  assert (In p logical_light_names) as Hp by (rewrite <- E; apply in_or_app; by right; left).
  apply (IH (ds ++ [p])); [by rewrite <- app_assoc|by apply kv_add_sorted| |].
  - apply List.Forall_forall. intros e [->|He]%in_kv_add; [done|]. rewrite List.Forall_forall in Hm. by apply Hm.
  - intros e [He|[<-|[]]]%in_app_or; apply in_kv_add_iff; [done| |done|by left]. destruct (decide (type_number e.1 = type_number p.1)) as [Ht|Ht].
    + left. split; [done|]. apply type_number_inj in Ht. assert (In e logical_light_names) as He' by (rewrite <- E; apply in_or_app; by left).
      cbn in He', Hp. repeat match goal with H : _ \/ _ |- _ => destruct H as [<-|H] | H : False |- _ => destruct H end; done.
    + right. split; [done|by apply Hd].
Qed.

Lemma seen_open_all v l ls (w : W) : as_seen v w -> lights_ok ls ->
  Forall (fun e => e.1 = type_number e.2.1 /\ In e.2 logical_light_names) l ->
  wp (open_all l ls) (fun ls' w' => as_seen v w' /\ lights_ok ls' /\
    (everything_there -> forall type, In type (getSupportedTypes ls') <->
       In type (getSupportedTypes ls) \/ exists k device, In (k, (type, device)) l /\ device <> LIGHT_ID_OTHER)) w.
Proof using Herrno.
  intros Hw Hls Hl. revert ls w Hw Hls. induction Hl as [|[k [type name]] l [Hk Hin] Hl IH]; intros ls w Hw Hls; cbn [open_all].
  { apply wp_ret. split_and!; [done|done|]. intros _ t. split; [by left|]. by intros [?|(k & d & [] & _)]. }
  cbn [fst snd] in *. apply wp_bind. eapply wp_mono; [by apply (seen_device v)|]. cbn beta. intros o w1 (Hw1 & Ho).
  destruct o as [d|]; cbn [opened] in Ho.
  - destruct Ho as [-> Hn]. subst k. pose proof (lights_ok_add ls type name Hls Hn Hin) as Hls'.
    eapply wp_mono; [by apply IH|]. cbn beta. intros ls2 w2 (Hw2 & Hls2 & Hall). split_and!; [done|done|]. intros H0 t. rewrite (Hall H0).
    rewrite !lights_ok_supported, valueFor_add by done. destruct (Z.eqb_spec (type_number t) (type_number type)) as [Et|Et].
    + split; [|by left; eexists]. intros _. right. exists (type_number type), name. apply type_number_inj in Et. subst t. split; [by left|done].
    + split; (intros [?|(k & d & Hd & Hne)]; [by left|]); right; exists k, d; (split; [|done]); [by right|]. by destruct Hd as [[= <- <- <-]|].
  - eapply wp_mono; [by apply IH|]. cbn beta. intros ls2 w2 (Hw2 & Hls2 & Hall). split_and!; [done|done|]. intros H0 t. rewrite (Hall H0).
    split; (intros [?|(k' & d & Hd & Hne)]; [by left|]); right; exists k', d; (split; [|done]); [by right|].
    destruct Hd as [[= <- <- <-]|]; [|done]. by specialize (Ho H0).
Qed.

(** ** Setting lights *)
Context (Hsysfs : sysfs_ok answer) (Hclock : clock_ok answer wait_fuel).

Lemma seen_set v type st ls (w : W) : as_seen v w -> lights_ok ls ->
  wp (setLight type st ls) (fun s w' =>
    s = status_of_call (getSupportedTypes ls) (type, st) /\ as_seen (sees (getSupportedTypes ls) v (type, st)) w') w.
Proof using Hsysfs Hclock.
  intros Hw Hls. unfold setLight, status_of_call, sees. cbn [fst snd]. pose proof (lights_ok_supported ls type Hls) as Hsup.
  destruct (valueFor (type_number type) ls) as [[t device]|] eqn:E.
  2: { rewrite !decide_False by (rewrite list_elem_of_In, Hsup; by intros []). by apply wp_ret. }
  rewrite !decide_True by (apply list_elem_of_In, Hsup; by eexists). cbn [snd].
  destruct (lights_named ls Hls _ _ _ (valueFor_in _ _ _ E)) as (Ht%type_number_inj & Hne & Hin). subst t.
  assert (forall v' (m : IO Z), wp m (fun r w' => r = 0 /\ as_seen v' w') w ->
    wp (do ret <- m; io_ret (if ret =? - ENOSYS then BRIGHTNESS_NOT_SUPPORTED else if ret =? 0 then SUCCESS else UNKNOWN))
      (fun s w' => s = SUCCESS /\ as_seen v' w') w) as Hret.
  { intros v' m Hm. apply wp_bind. eapply wp_mono; [exact Hm|]. cbn beta. intros r w' [-> Hw']. apply wp_ret. split; [|done].
    pose proof ENOSYS_positive. by rewrite (proj2 (Z.eqb_neq 0 _)) by lia. }
  apply Hret. destruct Hw as (Hidle & Hb & Hn & Hleds). destruct (decide (type = BATTERY \/ type = NOTIFICATIONS)) as [Hbn|Hbn].
  - assert (device = LIGHT_ID_BATTERY \/ device = LIGHT_ID_NOTIFICATIONS) as Hd
      by (cbn in Hin; destruct_or?; simplify_eq; auto).
    eapply wp_mono; [by apply battery_light_ok|]. cbn beta zeta. intros r w' (-> & Hidle' & Hb' & Hn' & Hl'). split; [done|].
    cbn in Hin. unfold as_seen, on_leds. rewrite <- Hb, <- Hn.
    destruct_or?; simplify_eq; cbn [last_battery last_notification]; by split_and!.
  - assert (device <> LIGHT_ID_BATTERY /\ device <> LIGHT_ID_NOTIFICATIONS) as [Hd1 Hd2]
      by (cbn in Hin; destruct_or?; simplify_eq; split; try done; intros _; apply Hbn; auto).
    eapply wp_mono; [by apply other_light_ok|]. cbn beta. intros r w' (-> & Hidle' & Hg & Hl'). split; [done|].
    replace (match type with BATTERY => _ | NOTIFICATIONS => _ | _ => v end) with v by (destruct type; tauto).
    split_and!; [done| | |intros c; by rewrite Hl']; rewrite Hg; [rewrite <- Hb|rewrite <- Hn]; unfold recorded; by repeat case_match.
Qed.

Lemma seen_run v l ls (w : W) : as_seen v w -> lights_ok ls ->
  wp (set_lights l ls) (fun r w' => r = map (status_of_call (getSupportedTypes ls)) l /\ as_seen (fold_left (sees (getSupportedTypes ls)) l v) w') w.
Proof using Hsysfs Hclock.
  intros Hw Hls. revert v w Hw. induction l as [|[type st] l IH]; intros v w Hw; cbn [set_lights]; [by apply wp_ret|].
  apply wp_bind. eapply wp_mono; [by apply (seen_set v)|]. cbn beta. intros s w1 [-> Hw1]. apply wp_bind.
  eapply wp_mono; [apply IH, Hw1|]. cbn beta. intros r w2 [-> Hw2]. by apply wp_ret.
Qed.

(** C19. The service opens the lights that are there, in the order of their types, and never one for Bluetooth or Wi-Fi. Whatever lights
    a client sets then, those that are supported are set with success, the others are refused, and the LEDs show the
    last light for the battery if it is lit, and otherwise the last one for notifications; the mutex is free in between. *)
Theorem light_service_correct (l : list (light_type * LightState)) :
  exists ls w, HIDL_FETCH_ILight (World state0 []) = Some (ls, w) /\
    sorted_keys ls /\ (forall type, type ∈ getSupportedTypes ls -> type <> BLUETOOTH /\ type <> WIFI) /\
    (everything_there -> forall type, type ∈ getSupportedTypes ls <-> type <> BLUETOOTH /\ type <> WIFI) /\
    exists w', set_lights l ls w = Some (map (status_of_call (getSupportedTypes ls)) l, w') /\
      as_seen (fold_left (sees (getSupportedTypes ls)) l view0) w'.
Proof using Herrno Hsysfs Hclock.
  assert (as_seen view0 (World state0 [])) as H0 by (split_and!; [split; [done|by intros []]|done|done|by intros []]).
  destruct (wp_total _ _ _ (seen_open_all view0 kLogicalLights [] (World state0 []) H0 ltac:(split; [constructor|done]) (proj1 logical_lights_named)))
    as (ls & w & E & Hw & Hls & Hall). exists ls, w. split; [done|]. split; [apply Hls|].
  assert (forall type, type ∈ getSupportedTypes ls -> type <> BLUETOOTH /\ type <> WIFI) as Hnot.
  { intros type [[t d] H%valueFor_in]%list_elem_of_In%lights_ok_supported; [|done].
    destruct (lights_named ls Hls _ _ _ H) as (Ht%type_number_inj & Hne & Hin). cbn in Hin. by destruct_or?; simplify_eq. }
  split; [done|]. split.
  - intros Hthere type. split; [apply Hnot|]. intros [Hn1 Hn2]. apply list_elem_of_In, (Hall Hthere). right.
    enough (exists d, In (type, d) logical_light_names /\ d <> LIGHT_ID_OTHER) as (d & Hd & Hne)
      by (exists (type_number type), d; split; [by apply (proj2 logical_lights_named (type, d))|done]).
    destruct type; try done; eexists; (split; [cbn; repeat first [by left|right]|done]).
  - destruct (wp_total _ _ _ (seen_run view0 l ls w Hw Hls)) as (r & w' & E' & -> & Hw'). by exists w'.
Qed.
End Service.

(** The numbers of the interface. *)
#[export] Instance hidl_light_2_0 : hidl_light.
Proof.
  refine {| type_number t := match t with BACKLIGHT => 0 | KEYBOARD => 1 | BUTTONS => 2 | BATTERY => 3 | NOTIFICATIONS => 4
    | ATTENTION => 5 | BLUETOOTH => 6 | WIFI => 7 end; ENOSYS := 38 |}; [by intros [] []|lia].
Defined.

Definition lit (c : Z) : LightState := mk_LightState c LIGHT_FLASH_NONE 0 0 0.

Lemma light_service_correct_witness : exists ls w w',
  HIDL_FETCH_ILight answer0 (World state0 []) = Some (ls, w) /\
  getSupportedTypes ls = [BACKLIGHT; KEYBOARD; BUTTONS; BATTERY; NOTIFICATIONS; ATTENTION] /\
  set_lights answer0 3 [(NOTIFICATIONS, lit 0xff00ff00); (WIFI, lit 0xffffffff); (BATTERY, lit 0xffff0000); (KEYBOARD, lit 0)] ls w
    = Some ([SUCCESS; LIGHT_NOT_SUPPORTED; SUCCESS; SUCCESS], w') /\
  led_of (led_run (trace w')) Red = LedOn /\ led_of (led_run (trace w')) Green = LedOff.
Proof.
  destruct (light_service_correct answer0 3 ltac:(intros tr [] mode; cbn; lia) answer0_sysfs answer0_clock
    [(NOTIFICATIONS, lit 0xff00ff00); (WIFI, lit 0xffffffff); (BATTERY, lit 0xffff0000); (KEYBOARD, lit 0)])
    as (ls & w & E & _ & _ & _ & w' & E' & Hseen).
  exists ls, w, w'. split; [exact E|]. assert (getSupportedTypes ls = [BACKLIGHT; KEYBOARD; BUTTONS; BATTERY; NOTIFICATIONS; ATTENTION]) as Hls
    by (vm_compute in E; injection E as <- _; reflexivity).
  rewrite Hls in E', Hseen. split; [exact Hls|]. split; [exact E'|]. destruct Hseen as (_ & _ & _ & Hl). rewrite !Hl. by split.
Defined.
