(* ===== verification/VndState.v ===== *)
(** The data of the Bluetooth vendor library (src/mediatek/bluetooth/libbt-vendor): the record
    kept in NVRAM and its defaults, the globals of radiomod.c, radiomgr.c and mtk.c, and the
    calls to the stack, to NVRAM and to the system. *)
From S2P Require Import Prelude.

(** ** The NVRAM record *)

(** [ap_nvram_btradio_struct] *)
Record nvram := mk_nvram {
  addr : list Z;
  Voice : list Z;
  Codec : list Z;
  Radio : list Z;
  Sleep : list Z;
  BtFTR : list Z;
  TxPWOffset : list Z;
  CoexAdjust : list Z;
  Radio_ext : list Z;
  TxPWOffset_ext : list Z;
  Reserved1 : list Z;
  Reserved2 : list Z;
  Reserved3 : list Z;
  Reserved4 : list Z
}.

(** [sizeof(ap_nvram_btradio_struct)]; the fields are arrays of [unsigned char], so there is
    no padding. *)
Definition nvram_sizes : list nat := [6; 2; 4; 6; 7; 2; 3; 6; 2; 4; 2; 4; 8; 8]%nat.
Definition nvram_size : nat := sum_list nvram_sizes.

(** The record as octets, [BT_NVRAM_DATA_T.raw]. *)
Definition nvram_fields (n : nvram) : list (list Z) :=
  [addr n; Voice n; Codec n; Radio n; Sleep n; BtFTR n; TxPWOffset n; CoexAdjust n; Radio_ext n;
   TxPWOffset_ext n; Reserved1 n; Reserved2 n; Reserved3 n; Reserved4 n].
Definition raw (n : nvram) : list Z := concat (nvram_fields n).

(** Reading the octets through the other member of the union. *)
Definition field (l : list Z) (k : nat) : list Z :=
  take (nth k nvram_sizes 0%nat) (drop (sum_list (take k nvram_sizes)) l).
Definition of_raw (l : list Z) : nvram :=
  mk_nvram (field l 0) (field l 1) (field l 2) (field l 3) (field l 4) (field l 5) (field l 6) (field l 7)
    (field l 8) (field l 9) (field l 10) (field l 11) (field l 12) (field l 13).

Definition set_addr (n : nvram) (a : list Z) : nvram :=
  mk_nvram a (Voice n) (Codec n) (Radio n) (Sleep n) (BtFTR n) (TxPWOffset n) (CoexAdjust n) (Radio_ext n)
    (TxPWOffset_ext n) (Reserved1 n) (Reserved2 n) (Reserved3 n) (Reserved4 n).

(** Octets in every field, as many as the structure has. *)
Definition nvram_ok (n : nvram) : Prop :=
  map length (nvram_fields n) = nvram_sizes /\ Forall (Forall is_u8) (nvram_fields n).

(** ** Defaults *)
Section Defaults.
(** [__MTK_MERGE_INTERFACE_SUPPORT__] and [__MTK_BT_I2S_SUPPORT__] *)
Context (merge_interface i2s : bool).

Definition stBtDefault_6628 : nvram := mk_nvram
  [0x00; 0x00; 0x46; 0x66; 0x28; 0x01] [0x60; 0x00]
  (if merge_interface then [0x63; 0x10; 0x00; 0x00] else [0x23; 0x10; 0x00; 0x00])
  [0x07; 0x80; 0x00; 0x06; 0x05; 0x07] [0x03; 0x40; 0x1F; 0x40; 0x1F; 0x00; 0x04] [0x80; 0x00]
  [0xFF; 0xFF; 0xFF] [0; 0; 0; 0; 0; 0] [0; 0] [0; 0; 0; 0]
  [0; 0] [0; 0; 0; 0] [0; 0; 0; 0; 0; 0; 0; 0] [0; 0; 0; 0; 0; 0; 0; 0].

Definition stBtDefault_6630 : nvram := mk_nvram
  [0x00; 0x00; 0x46; 0x66; 0x30; 0x01] [0x60; 0x00]
  (if merge_interface then [0x63; 0x10; 0x00; 0x00]
   else if i2s then [0x03; 0x10; 0x00; 0x02] else [0x23; 0x10; 0x00; 0x00])
  [0x07; 0x80; 0x00; 0x06; 0x07; 0x07] [0x03; 0x40; 0x1F; 0x40; 0x1F; 0x00; 0x04] [0x80; 0x00]
  [0xFF; 0xFF; 0xFF] [0; 0; 0; 0; 0; 0] [0; 0] [0; 0; 0; 0]
  [0; 0] [0; 0; 0; 0] [0; 0; 0; 0; 0; 0; 0; 0] [0; 0; 0; 0; 0; 0; 0; 0].

Definition stBtDefault_6632 : nvram := mk_nvram
  [0x00; 0x00; 0x46; 0x66; 0x32; 0x01] [0x60; 0x00]
  (if merge_interface then [0x63; 0x10; 0x00; 0x00]
   else if i2s then [0x21; 0x10; 0x00; 0x00] else [0x23; 0x10; 0x00; 0x00])
  [0x07; 0x00; 0x00; 0x00; 0x05; 0x07] [0x03; 0x40; 0x06; 0x40; 0x06; 0x00; 0x00] [0x80; 0x00]
  [0xFF; 0xFF; 0xFF] [0; 0; 0; 0; 0; 0] [0; 0] [0xFF; 0xFF; 0xFF; 0x00]
  [0; 0] [0; 0; 0; 0] [0; 0; 0; 0; 0; 0; 0; 0] [0; 0; 0; 0; 0; 0; 0; 0].

(** The initialisers of the last fields are of the sizes of other fields; all are zero. *)
Definition stBtDefault_7662 : nvram := mk_nvram
  [0x00; 0x00; 0x46; 0x66; 0x28; 0x01] [0x60; 0x00] [0x63; 0x10; 0x00; 0x00]
  [0x07; 0x80; 0x00; 0x06; 0x05; 0x07] [0x03; 0x40; 0x1F; 0x40; 0x1F; 0x00; 0x04] [0x80; 0x00]
  [0xFF; 0xFF; 0xFF] [0; 0; 0; 0; 0; 0] [0; 0] [0; 0; 0; 0]
  [0; 0] [0; 0; 0; 0] [0; 0; 0; 0; 0; 0; 0; 0] [0; 0; 0; 0; 0; 0; 0; 0].

Definition stBtDefault_consys : nvram := mk_nvram
  [0x00; 0x00; 0x46; 0x00; 0x00; 0x01] [0x60; 0x00] [0x23; 0x10; 0x00; 0x00]
  [0x07; 0x80; 0x00; 0x06; 0x07; 0x07] [0x03; 0x40; 0x1F; 0x40; 0x1F; 0x00; 0x04] [0x80; 0x00]
  [0xFF; 0xFF; 0xFF] [0; 0; 0; 0; 0; 0] [0; 0] [0; 0; 0; 0]
  [0; 0] [0; 0; 0; 0] [0; 0; 0; 0; 0; 0; 0; 0] [0; 0; 0; 0; 0; 0; 0; 0].
End Defaults.

(** The chips of which the digital die is the application processor. *)
Definition consys_chips : list Z :=
  [0x8163; 0x8127; 0x8167; 0x6582; 0x6592; 0x6752; 0x0321; 0x0335; 0x0337; 0x6580; 0x6570; 0x6755; 0x6797;
   0x6757; 0x6759; 0x6763; 0x6758; 0x6739; 0x6771; 0x6775].

(** ** Globals *)

(** The functions of the initialisation scripts, [GORMcmd_HCC_*]. *)
Inductive command :=
  | Get_Local_BD_Addr | Set_Local_BD_Addr | Set_LinkKeyType | Set_UnitKey | Set_Encryption | Set_PinCodeType
  | Set_Voice | Set_PCM | Set_Radio | Set_TX_Power_Offset | Set_Sleep_Timeout | Coex_Performance_Adjust
  | Set_BT_FTR | Set_OSC_Info | Set_LPO_Info | Set_PTA | Set_BLEPTA | Set_Internal_PTA_1 | Set_Internal_PTA_2
  | Set_RF_Reg_100 | RESET | Set_FW_SysLog | Set_SSP_Debug_Mode.

#[export] Instance command_eq_dec : EqDecision command.
Proof. solve_decision. Defined.

Inductive HCI_CMD_STATUS_T := CMD_SUCCESS | CMD_FAIL | CMD_PENDING | CMD_TERMINATE.

#[export] Instance status_eq_dec : EqDecision HCI_CMD_STATUS_T.
Proof. solve_decision. Defined.

(** The functions handed to [xmit_cb]. *)
Inductive handler := GORMevt_HCE_Get_Local_BD_Addr | GORMevt_HCE_Common_Complete.

#[export] Instance handler_eq_dec : EqDecision handler.
Proof. solve_decision. Defined.

(** A script is an array that ends with a null function pointer; [None] is the null pointer. *)
Record vstate := mk_vstate {
  bt_vnd_cbacks : bool;
  bt_fd : Z;
  chip_id : Z;
  bt_nvram : nvram;
  cur_script : option (list command);
  wOpCode : Z;
  cmd_status : HCI_CMD_STATUS_T;
  fgGetEFUSE : bool;
  ucDefaultAddr : list Z;
  worker_thread_running : bool
}.

Definition ucZeroAddr : list Z := repeat 0 6.

Definition with_cbacks (s : vstate) (b : bool) : vstate :=
  mk_vstate b (bt_fd s) (chip_id s) (bt_nvram s) (cur_script s) (wOpCode s) (cmd_status s) (fgGetEFUSE s)
    (ucDefaultAddr s) (worker_thread_running s).
Definition with_fd (s : vstate) (fd : Z) : vstate :=
  mk_vstate (bt_vnd_cbacks s) fd (chip_id s) (bt_nvram s) (cur_script s) (wOpCode s) (cmd_status s) (fgGetEFUSE s)
    (ucDefaultAddr s) (worker_thread_running s).
(** [btinit] as a whole. *)
Definition with_btinit (s : vstate) (chip : Z) (n : nvram) (script : option (list command)) : vstate :=
  mk_vstate (bt_vnd_cbacks s) (bt_fd s) chip n script (wOpCode s) (cmd_status s) (fgGetEFUSE s)
    (ucDefaultAddr s) (worker_thread_running s).
Definition with_addr (s : vstate) (a : list Z) : vstate :=
  with_btinit s (chip_id s) (set_addr (bt_nvram s) a) (cur_script s).
Definition with_opcode (s : vstate) (op : Z) : vstate :=
  mk_vstate (bt_vnd_cbacks s) (bt_fd s) (chip_id s) (bt_nvram s) (cur_script s) op (cmd_status s) (fgGetEFUSE s)
    (ucDefaultAddr s) (worker_thread_running s).
Definition with_status (s : vstate) (c : HCI_CMD_STATUS_T) : vstate :=
  mk_vstate (bt_vnd_cbacks s) (bt_fd s) (chip_id s) (bt_nvram s) (cur_script s) (wOpCode s) c (fgGetEFUSE s)
    (ucDefaultAddr s) (worker_thread_running s).
Definition with_efuse (s : vstate) (b : bool) : vstate :=
  mk_vstate (bt_vnd_cbacks s) (bt_fd s) (chip_id s) (bt_nvram s) (cur_script s) (wOpCode s) (cmd_status s) b
    (ucDefaultAddr s) (worker_thread_running s).
Definition with_default (s : vstate) (a : list Z) : vstate :=
  mk_vstate (bt_vnd_cbacks s) (bt_fd s) (chip_id s) (bt_nvram s) (cur_script s) (wOpCode s) (cmd_status s)
    (fgGetEFUSE s) a (worker_thread_running s).
Definition with_running (s : vstate) (b : bool) : vstate :=
  mk_vstate (bt_vnd_cbacks s) (bt_fd s) (chip_id s) (bt_nvram s) (cur_script s) (wOpCode s) (cmd_status s)
    (fgGetEFUSE s) (ucDefaultAddr s) b.

(** The static initialisers. *)
Definition nvram0 : nvram := of_raw (repeat 0 nvram_size).
Definition vstate0 : vstate := mk_vstate false (-1) 0 nvram0 None 0 CMD_SUCCESS false ucZeroAddr false.

(** ** Calls *)
Inductive prop := persist_bt_syslog_enable | persist_bt_sspdebug_enable | persist_mtk_wcn_combo_chipid
  | service_nvram_init.

(** Buffers and descriptors are numbers; a buffer of the stack is 0 when none was allocated.
    [Cevent] is the stack's buffer with the octets of an event, being given back. *)
Inductive vcall :=
  | Calloc (size : Z)
  | Cdealloc (p : Z)
  | Cevent (evt : list Z)
  | Cxmit (op : Z) (p : Z) (len : Z) (bytes : list Z) (h : handler)
  | Cfwcfg (result : Z)
  | Cepilog (result : Z)
  | Cproperty_get (k : prop)
  | Cusleep (us : Z)
  | CNVM_GetFileDesc (isread : Z)
  | CNVM_CloseFileDesc (fd : Z)
  | Clseek (fd : Z) (off : Z)
  | Cread (fd : Z) (n : Z)
  | Cwrite (fd : Z) (data : list Z)
  | Copen_urandom
  | Copen_uart
  | Cclose (fd : Z)
  | Ctime
  | Cgettimeofday
  | Csrand (seed : Z)
  | Crand
  | Cpthread_create
  | Cpthread_join.

(** The value returned ([tv_usec] for [gettimeofday]), the octets a call fills in, and the
    record size and number of [NVM_GetFileDesc]. *)
Record vresp := mk_vresp { rv : Z; rdata : list Z; rrec_size : Z; rrec_num : Z }.

(** ** The record and its octets *)
Create HintDb vnd discriminated.

Lemma firstn_length_app {A} (l k : list A) n : length l = n -> take n (l ++ k) = l.
Proof. intros <-. apply take_app_length. Qed.

Lemma skipn_length_app {A} (l k : list A) n m : length l = n -> drop (n + m) (l ++ k) = drop m k.
Proof. intros <-. by rewrite drop_app_add. Qed.

Lemma raw_length n : nvram_ok n -> length (raw n) = nvram_size.
Proof.
  intros [Hl _]. unfold raw, nvram_size. rewrite length_concat. by rewrite Hl.
Qed.

(** A field of the concatenation is that list. *)
Lemma field_concat (ls : list (list Z)) k :
  map length ls = nvram_sizes -> (k < length nvram_sizes)%nat -> field (concat ls) k = nth k ls [].
Proof.
  intros Hl Hk. unfold field. rewrite <- Hl. clear Hl Hk.
  revert k. induction ls as [|l ls IH]; intros k; [by destruct k|].
  destruct k as [|k]; simpl; [apply firstn_length_app; reflexivity|].
  rewrite skipn_length_app by done. apply IH.
Qed.

(** The two views of the NVRAM record agree: a record survives being copied out as octets
    and back, and so do the octets; the record is 64 octets long. *)
Theorem nvram_roundtrip (n : nvram) (l : list Z) :
  nvram_ok n -> length l = nvram_size ->
  of_raw (raw n) = n /\ raw (of_raw l) = l /\ length (raw n) = 64%nat.
Proof.
  intros Hn Hl. split; [|split].
  - destruct Hn as [Hs _]. unfold of_raw, raw. rewrite !field_concat by (done || (simpl; lia)). by destruct n.
  - do 64 (destruct l as [|? l]; [discriminate Hl|]). by destruct l.
  - by rewrite raw_length.
Qed.

Lemma nvram_roundtrip_witness :
  of_raw (raw (stBtDefault_6632 false true)) = stBtDefault_6632 false true.
Proof.
  apply (nvram_roundtrip _ (repeat 0 64)); [|reflexivity]. split; [reflexivity|].
  apply (bool_decide_unpack _); vm_compute; exact I.
Defined.
