(* ===== verification/VndRadio.v ===== *)
(** The initialisation commands of radiomod.c: what each puts in its packet, the handlers of
    their completion events, and the Bluetooth address. *)
From S2P Require Import Prelude VndState.

(** [UINT16_TO_STREAM] and [STREAM_TO_UINT16] *)
Definition UINT16_TO_STREAM (v : Z) : list Z := [u8 v; u8 (v ≫ 8)].
Definition STREAM_TO_UINT16 (b0 b1 : Z) : Z := u16 (b0 + (b1 ≪ 8)).

Definition HCI_CMD_MAX_SIZE : Z := 251.

(** The integer stored little-endian in the octets [l]. *)
Definition le_word (l : list Z) : Z := foldr (fun b n => b + 256 * n) 0 l.

(** The elements [ks] of an array. *)
Definition elements (l : list Z) (ks : list nat) : list Z := map (fun k => nth k l 0) ks.

Section Radio.
Context (answer : list (vcall * vresp) -> vcall -> vresp).
(** [BD_ADDR_AUTOGEN]: engineering builds. *)
Context (autogen : bool).

Abbreviation IO := (io vstate vcall vresp).
Definition sys (c : vcall) : IO vresp := io_call answer c.

(** ** The Bluetooth address *)
Definition GetRandomValue (string : list Z) : IO (list Z) :=
  do t <- sys Ctime;
  do _ <- sys (Csrand (u32 (rv t)));
  do r <- sys Crand;
  let string0 := u8 ((((rv r ≫ 24) .| (rv r ≫ 16)) .& 0xFE) .| 0x02) in
  do tv <- sys Cgettimeofday;
  do _ <- sys (Csrand (u32 (rv tv)));
  do r <- sys Crand;
  let string1 := u8 ((rv r ≫ 8) .& 0xFF) in
  do fd <- sys Copen_urandom;
  do iRandom <- (if 0 <=? rv fd then
                   do n <- sys (Cread (rv fd) 4);
                   do i <- (if 0 <? rv n then
                              do _ <- sys (Csrand (le_word (rdata n)));
                              do r' <- sys Crand; io_ret (rv r')
                            else io_ret (rv r));
                   do _ <- sys (Cclose (rv fd));
                   io_ret i
                 else io_ret (rv r));
  io_ret [string0; string1; nth 2 string 0; nth 3 string 0; nth 4 string 0; u8 (iRandom .& 0xFF)].

Definition WriteBDAddrToNvram (pucBDAddr : list Z) : IO bool :=
  do f <- sys (CNVM_GetFileDesc 0);
  if rv f <? 0 then io_ret false
  else if negb (rrec_num f =? 1) then
    do _ <- sys (CNVM_CloseFileDesc (rv f)); io_ret false
  else if negb (rrec_size f =? Z.of_nat nvram_size) then
    do _ <- sys (CNVM_CloseFileDesc (rv f)); io_ret false
  else
    do _ <- sys (Clseek (rv f) 0);
    do n <- sys (Cwrite (rv f) (take 6 pucBDAddr));
    if rv n <? 0 then
      do _ <- sys (CNVM_CloseFileDesc (rv f)); io_ret false
    else
      do _ <- sys (CNVM_CloseFileDesc (rv f)); io_ret true.

(** ** Commands *)

(** [xmit_cb(wOpCode, p_cmd, h)], with the [len] and the octets stored in [p_cmd]. *)
Definition xmit (p_cmd len : Z) (bytes : list Z) (h : handler) : IO bool :=
  do s <- io_get;
  if bt_vnd_cbacks s then
    do r <- sys (Cxmit (wOpCode s) p_cmd len bytes h);
    io_ret (negb (rv r =? 0))
  else io_ret false.

(** The frame shared by the commands: the opcode is recorded, [len] set, and opcode, length of
    the parameters and parameters are stored. *)
Definition put_command (p_cmd op len plen : Z) (params : vstate -> list Z) : IO bool :=
  do _ <- io_mod (fun s => with_opcode s op);
  do s <- io_get;
  xmit p_cmd len (UINT16_TO_STREAM (wOpCode s) ++ [plen] ++ params s) GORMevt_HCE_Common_Complete.

Definition GORMcmd_HCC_Get_Local_BD_Addr (p_cmd : Z) : IO bool :=
  do _ <- io_mod (fun s => with_opcode s 0x1009);
  do s <- io_get;
  xmit p_cmd 3 (UINT16_TO_STREAM (wOpCode s) ++ [0]) GORMevt_HCE_Get_Local_BD_Addr.

(** The address is made up when neither NVRAM nor the chip has one, and saved unless it came
    from NVRAM. *)
Definition settle_address : IO unit :=
  do s <- io_get;
  if bool_decide (addr (bt_nvram s) = ucDefaultAddr s) || bool_decide (addr (bt_nvram s) = ucZeroAddr) then
    do _ <- (if autogen then
               do a <- GetRandomValue (addr (bt_nvram s));
               io_mod (fun s => with_addr s a)
             else io_ret tt);
    do s <- io_get;
    do _ <- WriteBDAddrToNvram (addr (bt_nvram s)); io_ret tt
  else if fgGetEFUSE s then
    do _ <- WriteBDAddrToNvram (addr (bt_nvram s)); io_ret tt
  else io_ret tt.

Definition GORMcmd_HCC_Set_Local_BD_Addr (p_cmd : Z) : IO bool :=
  do _ <- io_mod (fun s => with_opcode s 0xFC1A);
  do _ <- settle_address;
  do _ <- io_mod (fun s => with_efuse s false);
  do s <- io_get;
  xmit p_cmd 9 (UINT16_TO_STREAM (wOpCode s) ++ [6] ++ elements (addr (bt_nvram s)) [5; 4; 3; 2; 1; 0]%nat)
    GORMevt_HCE_Common_Complete.

Definition GORMcmd_HCC_Set_LinkKeyType (p_cmd : Z) : IO bool := put_command p_cmd 0xFC1B 4 1 (fun _ => [0x01]).

Definition GORMcmd_HCC_Set_UnitKey (p_cmd : Z) : IO bool :=
  put_command p_cmd 0xFC75 19 16 (fun _ => [0; 0; 0; 0; 0; 0; 0; 0; 0; 0; 0; 0; 0; 0; 0; 0]).

Definition GORMcmd_HCC_Set_Encryption (p_cmd : Z) : IO bool :=
  put_command p_cmd 0xFC76 6 3 (fun _ => [0x00; 0x02; 0x10]).

Definition GORMcmd_HCC_Set_PinCodeType (p_cmd : Z) : IO bool := put_command p_cmd 0x0C0A 4 1 (fun _ => [0x00]).

Definition GORMcmd_HCC_Set_Voice (p_cmd : Z) : IO bool :=
  put_command p_cmd 0x0C26 5 2 (fun s => elements (Voice (bt_nvram s)) [0; 1]%nat).

Definition GORMcmd_HCC_Set_PCM (p_cmd : Z) : IO bool :=
  put_command p_cmd 0xFC72 7 4 (fun s => elements (Codec (bt_nvram s)) [0; 1; 2; 3]%nat).

Definition GORMcmd_HCC_Set_Radio (p_cmd : Z) : IO bool :=
  do s <- io_get;
  if negb (chip_id s =? 0x6632) then
    put_command p_cmd 0xFC79 9 6 (fun s => elements (Radio (bt_nvram s)) [0; 1; 2; 3; 4; 5]%nat)
  else
    put_command p_cmd 0xFC79 11 8 (fun s =>
      elements (Radio (bt_nvram s)) [0; 1; 2; 3; 4; 5]%nat ++ elements (Radio_ext (bt_nvram s)) [0; 1]%nat).

Definition GORMcmd_HCC_Set_TX_Power_Offset (p_cmd : Z) : IO bool :=
  do s <- io_get;
  if negb (chip_id s =? 0x6632) then
    put_command p_cmd 0xFC93 6 3 (fun s => elements (TxPWOffset (bt_nvram s)) [0; 1; 2]%nat)
  else
    put_command p_cmd 0xFC93 9 6 (fun s =>
      elements (TxPWOffset (bt_nvram s)) [0; 1; 2]%nat ++ elements (TxPWOffset_ext (bt_nvram s)) [0; 1; 2]%nat).

Definition GORMcmd_HCC_Set_Sleep_Timeout (p_cmd : Z) : IO bool :=
  put_command p_cmd 0xFC7A 10 7 (fun s => elements (Sleep (bt_nvram s)) [0; 1; 2; 3; 4; 5; 6]%nat).

Definition GORMcmd_HCC_Coex_Performance_Adjust (p_cmd : Z) : IO bool :=
  put_command p_cmd 0xFC22 9 6 (fun s => elements (CoexAdjust (bt_nvram s)) [0; 1; 2; 3; 4; 5]%nat).

Definition GORMcmd_HCC_Set_BT_FTR (p_cmd : Z) : IO bool :=
  put_command p_cmd 0xFC7D 5 2 (fun s => elements (BtFTR (bt_nvram s)) [0; 1]%nat).

Definition GORMcmd_HCC_Set_OSC_Info (p_cmd : Z) : IO bool :=
  put_command p_cmd 0xFC7B 8 5 (fun _ => [0x01; 0x01; 0x14; 0x0A; 0x08]).

Definition GORMcmd_HCC_Set_LPO_Info (p_cmd : Z) : IO bool :=
  put_command p_cmd 0xFC7C 13 10 (fun _ => [0x01; 0xFA; 0x0A; 0x02; 0x00; 0xA6; 0x0E; 0x00; 0x40; 0x00]).

Definition GORMcmd_HCC_Set_PTA (p_cmd : Z) : IO bool :=
  put_command p_cmd 0xFC74 13 10 (fun _ => [0xC9; 0x8B; 0xBF; 0x00; 0x00; 0x52; 0x0E; 0x0E; 0x1F; 0x1B]).

Definition GORMcmd_HCC_Set_BLEPTA (p_cmd : Z) : IO bool :=
  put_command p_cmd 0xFCFC 8 5 (fun _ => [0x16; 0x0E; 0x0E; 0x00; 0x07]).

Definition GORMcmd_HCC_Set_Internal_PTA_1 (p_cmd : Z) : IO bool :=
  put_command p_cmd 0xFCFB 18 15 (fun _ =>
    [0x00; 0x01; 0x0F; 0x0F; 0x01; 0x0F; 0x0F; 0x01; 0x0F; 0x0F; 0x01; 0x0F; 0x0F; 0x02; 0x01]).

Definition GORMcmd_HCC_Set_Internal_PTA_2 (p_cmd : Z) : IO bool :=
  put_command p_cmd 0xFCFB 10 7 (fun _ => [0x01; 0x19; 0x19; 0x07; 0xD0; 0x00; 0x01]).

Definition GORMcmd_HCC_Set_RF_Reg_100 (p_cmd : Z) : IO bool :=
  put_command p_cmd 0xFCB0 9 6 (fun _ => [0x64; 0x01; 0x02; 0x00; 0x00; 0x00]).

Definition GORMcmd_HCC_RESET (p_cmd : Z) : IO bool := put_command p_cmd 0x0C03 3 0 (fun _ => []).

Definition GORMcmd_HCC_Set_FW_SysLog (p_cmd : Z) : IO bool := put_command p_cmd 0xFCBE 4 1 (fun _ => [0x05]).

Definition GORMcmd_HCC_Set_SSP_Debug_Mode (p_cmd : Z) : IO bool := put_command p_cmd 0x1804 4 1 (fun _ => [0x01]).

(** Calling the function of a script entry. *)
Definition command_func (c : command) : Z -> IO bool :=
  match c with
  | Get_Local_BD_Addr => GORMcmd_HCC_Get_Local_BD_Addr
  | Set_Local_BD_Addr => GORMcmd_HCC_Set_Local_BD_Addr
  | Set_LinkKeyType => GORMcmd_HCC_Set_LinkKeyType
  | Set_UnitKey => GORMcmd_HCC_Set_UnitKey
  | Set_Encryption => GORMcmd_HCC_Set_Encryption
  | Set_PinCodeType => GORMcmd_HCC_Set_PinCodeType
  | Set_Voice => GORMcmd_HCC_Set_Voice
  | Set_PCM => GORMcmd_HCC_Set_PCM
  | Set_Radio => GORMcmd_HCC_Set_Radio
  | Set_TX_Power_Offset => GORMcmd_HCC_Set_TX_Power_Offset
  | Set_Sleep_Timeout => GORMcmd_HCC_Set_Sleep_Timeout
  | Coex_Performance_Adjust => GORMcmd_HCC_Coex_Performance_Adjust
  | Set_BT_FTR => GORMcmd_HCC_Set_BT_FTR
  | Set_OSC_Info => GORMcmd_HCC_Set_OSC_Info
  | Set_LPO_Info => GORMcmd_HCC_Set_LPO_Info
  | Set_PTA => GORMcmd_HCC_Set_PTA
  | Set_BLEPTA => GORMcmd_HCC_Set_BLEPTA
  | Set_Internal_PTA_1 => GORMcmd_HCC_Set_Internal_PTA_1
  | Set_Internal_PTA_2 => GORMcmd_HCC_Set_Internal_PTA_2
  | Set_RF_Reg_100 => GORMcmd_HCC_Set_RF_Reg_100
  | RESET => GORMcmd_HCC_RESET
  | Set_FW_SysLog => GORMcmd_HCC_Set_FW_SysLog
  | Set_SSP_Debug_Mode => GORMcmd_HCC_Set_SSP_Debug_Mode
  end.

(** ** Events *)

(** One octet of the event; reading past its end fails. *)
Definition octet (evt : list Z) (k : nat) : IO Z := io_pure (fun s => b ← evt !! k; Some (b, s)).

(** Command complete, for the opcode, with status 0. *)
Definition completed (event opcode status op : Z) : bool := (event =? 0x0E) && (opcode =? op) && (status =? 0).

(** The end of both handlers: the buffer is given back, the status set and the thread woken. *)
Definition finish_event (evt : list Z) (success : bool) : IO unit :=
  do s <- io_get;
  do _ <- (if bt_vnd_cbacks s then do _ <- sys (Cevent evt); io_ret tt else io_ret tt);
  io_mod (fun s => with_status s (if success then CMD_SUCCESS else CMD_FAIL)).

Definition evt_Get_Local_BD_Addr (evt : list Z) : IO unit :=
  do event <- octet evt 0;
  do o0 <- octet evt 3;
  do o1 <- octet evt 4;
  do status <- octet evt 5;
  let success := completed event (STREAM_TO_UINT16 o0 o1) status 0x1009 in
  do a5 <- octet evt 6;
  do a4 <- octet evt 7;
  do a3 <- octet evt 8;
  do a2 <- octet evt 9;
  do a1 <- octet evt 10;
  do a0 <- octet evt 11;
  do _ <- io_mod (fun s => with_addr s [a0; a1; a2; a3; a4; a5]);
  finish_event evt success.

Definition evt_Common_Complete (evt : list Z) : IO unit :=
  do event <- octet evt 0;
  do o0 <- octet evt 3;
  do o1 <- octet evt 4;
  do status <- octet evt 5;
  do s <- io_get;
  finish_event evt (completed event (STREAM_TO_UINT16 o0 o1) status (wOpCode s)).

Definition handle_event (h : handler) : list Z -> IO unit :=
  match h with
  | GORMevt_HCE_Get_Local_BD_Addr => evt_Get_Local_BD_Addr
  | GORMevt_HCE_Common_Complete => evt_Common_Complete
  end.

(** ** Specification *)

(** The opcodes of the commands: group 0x3F is the vendor's. *)
Definition opcode_of (c : command) : Z :=
  match c with
  | Get_Local_BD_Addr => 0x1009 | Set_Local_BD_Addr => 0xFC1A | Set_LinkKeyType => 0xFC1B | Set_UnitKey => 0xFC75
  | Set_Encryption => 0xFC76 | Set_PinCodeType => 0x0C0A | Set_Voice => 0x0C26 | Set_PCM => 0xFC72
  | Set_Radio => 0xFC79 | Set_TX_Power_Offset => 0xFC93 | Set_Sleep_Timeout => 0xFC7A
  | Coex_Performance_Adjust => 0xFC22 | Set_BT_FTR => 0xFC7D | Set_OSC_Info => 0xFC7B | Set_LPO_Info => 0xFC7C
  | Set_PTA => 0xFC74 | Set_BLEPTA => 0xFCFC | Set_Internal_PTA_1 | Set_Internal_PTA_2 => 0xFCFB
  | Set_RF_Reg_100 => 0xFCB0 | RESET => 0x0C03 | Set_FW_SysLog => 0xFCBE | Set_SSP_Debug_Mode => 0x1804
  end.

Definition handler_of (c : command) : handler :=
  match c with Get_Local_BD_Addr => GORMevt_HCE_Get_Local_BD_Addr | _ => GORMevt_HCE_Common_Complete end.

(** An HCI command packet: opcode, length of the parameters, parameters. *)
Definition hci_packet (op : Z) (bytes : list Z) : Prop :=
  Forall is_u8 bytes /\ zlen bytes <= HCI_CMD_MAX_SIZE
  /\ exists params, bytes = [op mod 256; op / 256; zlen params] ++ params.

(** The calls a command may make besides sending. *)
Definition neutral (c : vcall) : bool :=
  match c with
  | CNVM_GetFileDesc _ | CNVM_CloseFileDesc _ | Clseek _ _ | Cread _ _ | Cwrite _ _ | Copen_urandom | Cclose _
  | Ctime | Cgettimeofday | Csrand _ | Crand | Cproperty_get _ | Cusleep _ => true
  | _ => false
  end.

Definition neutrals (tr : list (vcall * vresp)) : Prop := Forall (fun e => neutral e.1 = true) tr.

(** What no command changes. *)
Definition kept (s s' : vstate) : Prop :=
  bt_vnd_cbacks s' = bt_vnd_cbacks s /\ chip_id s' = chip_id s /\ cur_script s' = cur_script s
  /\ cmd_status s' = cmd_status s /\ ucDefaultAddr s' = ucDefaultAddr s
  /\ worker_thread_running s' = worker_thread_running s /\ bt_fd s' = bt_fd s.

Lemma kept_trans s1 s2 s3 : kept s1 s2 -> kept s2 s3 -> kept s1 s3.
Proof. unfold kept. intuition congruence. Qed.

(** ** The address *)
Lemma nth_octet l k : Forall is_u8 l -> is_u8 (nth k l 0).
Proof.
  intros Hl. destruct (decide (k < length l)%nat) as [Hk|Hk].
  - rewrite Forall_forall in Hl. by apply Hl, nth_In.
  - rewrite nth_overflow by lia. done.
Qed.

Definition extends (w w' : world vstate vcall vresp) (tr : list (vcall * vresp)) : Prop := trace w' = trace w ++ tr.

Ltac trace_done := eexists; split; [unfold extends; cbn [trace]; rewrite <- ?app_assoc; cbn [app]; reflexivity|].

Lemma random_bits x : is_u8 (u8 ((x .& 0xFE) .| 0x02))
  /\ Z.testbit (u8 ((x .& 0xFE) .| 0x02)) 0 = false /\ Z.testbit (u8 ((x .& 0xFE) .| 0x02)) 1 = true.
Proof.
  split; [apply (wrapu_range 8); lia|]. unfold wrapu.
  split; rewrite Z.mod_pow2_bits_low by lia; rewrite Z.lor_spec, Z.land_spec; [by rewrite andb_false_r|by rewrite orb_true_r].
Qed.

Lemma GetRandomValue_ok string (w : world vstate vcall vresp) :
  Forall is_u8 string ->
  wp (GetRandomValue string) (fun a w' => globals w' = globals w
    /\ (exists tr, extends w w' tr /\ neutrals tr) /\ length a = 6%nat /\ Forall is_u8 a
    /\ Z.testbit (nth 0 a 0) 0 = false /\ Z.testbit (nth 0 a 0) 1 = true
    /\ nth 2 a 0 = nth 2 string 0 /\ nth 3 a 0 = nth 3 string 0 /\ nth 4 a 0 = nth 4 string 0) w.
Proof.
  intros Hs. pose proof (fun k => nth_octet string k Hs) as Hn.
  assert (forall x y z, let a := [u8 ((x .& 0xFE) .| 0x02); u8 (y .& 0xFF); nth 2 string 0; nth 3 string 0;
    nth 4 string 0; u8 (z .& 0xFF)] in length a = 6%nat /\ Forall is_u8 a
    /\ Z.testbit (nth 0 a 0) 0 = false /\ Z.testbit (nth 0 a 0) 1 = true
    /\ nth 2 a 0 = nth 2 string 0 /\ nth 3 a 0 = nth 3 string 0 /\ nth 4 a 0 = nth 4 string 0) as Ha.
  { intros x y z a. destruct (random_bits x) as (Hx & H0 & H1). split; [done|]. split; [|done].
    repeat (apply Forall_cons; [first [done | apply Hn | apply (wrapu_range 8); lia]|]). apply Forall_nil_2. }
  clear Hn Hs. unfold GetRandomValue. do 15 sys_step. destruct (0 <=? _).
  - do 3 sys_step. destruct (0 <? _); repeat sys_step; (split; [reflexivity|]);
      (split; [trace_done; unfold neutrals; by repeat apply Forall_cons_2|apply Ha]).
  - repeat sys_step. split; [reflexivity|]. split; [trace_done; unfold neutrals; by repeat apply Forall_cons_2|apply Ha].
Qed.

(** What writing the address does: [tr] are the calls made, [b] the result. *)
Definition nvram_written (a : list Z) (tr : list (vcall * vresp)) (b : bool) : Prop :=
  exists f, (rv f < 0 /\ b = false /\ tr = [(CNVM_GetFileDesc 0, f)])
  \/ (exists c, 0 <= rv f /\ (rrec_num f <> 1 \/ rrec_size f <> 64) /\ b = false
        /\ tr = [(CNVM_GetFileDesc 0, f); (CNVM_CloseFileDesc (rv f), c)])
  \/ (exists l n c, 0 <= rv f /\ rrec_num f = 1 /\ rrec_size f = 64 /\ b = (0 <=? rv n)
        /\ tr = [(CNVM_GetFileDesc 0, f); (Clseek (rv f) 0, l); (Cwrite (rv f) a, n); (CNVM_CloseFileDesc (rv f), c)]).

Lemma WriteBDAddrToNvram_ok a (w : world vstate vcall vresp) :
  length a = 6%nat ->
  wp (WriteBDAddrToNvram a) (fun b w' => globals w' = globals w
    /\ exists tr, extends w w' tr /\ nvram_written a tr b) w.
Proof.
  intros Ha. unfold WriteBDAddrToNvram. rewrite (take_ge a 6) by lia. change (Z.of_nat nvram_size) with 64.
  sys_step. apply sys_any. intros f. cbn [trace globals].
  destruct (Z.ltb_spec (rv f) 0); [wp_step; split; [done|]; trace_done; exists f; by left|].
  destruct (Z.eqb_spec (rrec_num f) 1); cbn [negb];
    [|repeat sys_step; split; [done|]; trace_done; exists f; right; left; eexists; by eauto].
  destruct (Z.eqb_spec (rrec_size f) 64); cbn [negb];
    [|repeat sys_step; split; [done|]; trace_done; exists f; right; left; eexists; by eauto].
  do 3 sys_step. apply sys_any. intros n.
  destruct (Z.ltb_spec (rv n) 0); repeat sys_step; (split; [done|]); trace_done; exists f; right; right; do 3 eexists;
    (split_and!; [done..| |reflexivity]); symmetry; [apply Z.leb_gt|apply Z.leb_le]; lia.
Qed.

(** ** Packets *)
Lemma elements_octets l ks : Forall is_u8 l -> Forall is_u8 (elements l ks).
Proof. intros Hl. apply Forall_map, Forall_forall. intros k _. by apply nth_octet. Qed.

Lemma set_addr_ok n a : nvram_ok n -> length a = 6%nat -> Forall is_u8 a -> nvram_ok (set_addr n a).
Proof.
  intros [Hl Hf] Ha Hu. split.
  - apply (f_equal tail) in Hl. change (length a :: list.tail (map length (nvram_fields n)) = nvram_sizes). by rewrite Ha, Hl.
  - unfold nvram_fields in *. apply Forall_cons; [done|]. by apply Forall_inv_tail in Hf.
Qed.

(** What sending command [c] from buffer [p] does. *)
Definition sent (c : command) (p : Z) (w : world vstate vcall vresp) (b : bool) (w' : world vstate vcall vresp) : Prop :=
  exists pre bytes r, extends w w' (pre ++ [(Cxmit (opcode_of c) p (zlen bytes) bytes (handler_of c), r)])
  /\ neutrals pre /\ hci_packet (opcode_of c) bytes /\ b = negb (rv r =? 0)
  /\ kept (globals w) (globals w') /\ nvram_ok (bt_nvram (globals w')) /\ wOpCode (globals w') = opcode_of c.

(** A state from which a command is sent. *)
Definition can_send (w : world vstate vcall vresp) : Prop :=
  bt_vnd_cbacks (globals w) = true /\ nvram_ok (bt_nvram (globals w)).

Lemma hci_packet_intro op plen params :
  0 <= op < 65536 -> Forall is_u8 params -> zlen params = plen -> plen <= 248 ->
  hci_packet op (UINT16_TO_STREAM op ++ [plen] ++ params).
Proof.
  intros Ho Hp Hl Hm. unfold UINT16_TO_STREAM, zlen in *. rewrite Z.shiftr_div_pow2 by lia. change (2 ^ 8) with 256.
  unfold wrapu. change (2 ^ 8) with 256. rewrite (Z.mod_small (op / 256)) by (Z.div_mod_to_equations; lia).
  split_and!.
  - cbn [app]. repeat (apply Forall_cons; [unfold is_u8; Z.div_mod_to_equations; lia|]). done.
  - cbn [app length]. unfold HCI_CMD_MAX_SIZE, zlen. cbn [length]. lia.
  - exists params. unfold zlen. by rewrite Hl.
Qed.

(** The last part of a command: the packet has been stored. *)
Lemma xmit_ok c p plen params pre (w0 w : world vstate vcall vresp) :
  extends w0 w pre -> neutrals pre -> kept (globals w0) (globals w) -> can_send w -> wOpCode (globals w) = opcode_of c ->
  Forall is_u8 params -> zlen params = plen -> plen <= 248 ->
  wp (xmit p (3 + plen) (UINT16_TO_STREAM (wOpCode (globals w)) ++ [plen] ++ params) (handler_of c)) (sent c p w0) w.
Proof.
  intros He Hn Hk [Hcb Hnv] Hop Hp Hl Hm. unfold xmit. do 2 wp_step. rewrite Hcb, Hop. wp_step. apply sys_any. intros r. wp_step.
  exists pre, (UINT16_TO_STREAM (opcode_of c) ++ [plen] ++ params), r.
  assert (3 + plen = zlen (UINT16_TO_STREAM (opcode_of c) ++ [plen] ++ params)) as <- by (unfold zlen in *; cbn [UINT16_TO_STREAM app length]; lia).
  unfold extends in *. cbn [trace globals]. rewrite He, <- app_assoc. split_and!; try done.
  apply hci_packet_intro; [by destruct c|done..].
Qed.

Lemma put_command_ok c p op len plen params (w : world vstate vcall vresp) :
  can_send w -> op = opcode_of c -> handler_of c = GORMevt_HCE_Common_Complete -> len = 3 + plen -> plen <= 248 ->
  (forall s, nvram_ok (bt_nvram s) -> Forall is_u8 (params s) /\ zlen (params s) = plen) ->
  wp (put_command p op len plen params) (sent c p w) w.
Proof.
  intros [Hcb Hn] -> Hh -> Hm Hp. unfold put_command. do 4 wp_step. rewrite <- Hh.
  destruct (Hp (with_opcode (globals w) (opcode_of c)) Hn) as [Hu Hl].
  apply (xmit_ok c p plen _ [] w (World (with_opcode (globals w) (opcode_of c)) (trace w))); try done.
  - unfold extends. cbn [trace]. by rewrite app_nil_r.
  - by apply Forall_nil_2.
Qed.

(** The octets of a field. *)
Ltac field_octets :=
  match goal with Hf : nvram_ok _ |- Forall is_u8 (elements _ _) =>
    apply elements_octets; destruct Hf as [_ Hf]; rewrite Forall_forall in Hf; apply Hf; cbn; tauto
  end.

Lemma Get_Local_BD_Addr_ok p (w : world vstate vcall vresp) :
  can_send w -> wp (GORMcmd_HCC_Get_Local_BD_Addr p) (sent Get_Local_BD_Addr p w) w.
Proof.
  intros [Hcb Hn]. unfold GORMcmd_HCC_Get_Local_BD_Addr. do 4 wp_step.
  apply (xmit_ok Get_Local_BD_Addr p 0 [] [] w (World (with_opcode (globals w) 0x1009) (trace w))); try done.
  - unfold extends. cbn [trace]. by rewrite app_nil_r.
  - by apply Forall_nil_2.
Qed.

(** The address the command writes and sends, and the calls that settle it. *)
Definition address_settled (s : vstate) (a : list Z) (tr : list (vcall * vresp)) : Prop :=
  exists rnd tr' b, tr = rnd ++ tr' /\
  if bool_decide (addr (bt_nvram s) = ucDefaultAddr s) || bool_decide (addr (bt_nvram s) = ucZeroAddr) then
    (if autogen then Z.testbit (nth 0 a 0) 0 = false /\ Z.testbit (nth 0 a 0) 1 = true
                     /\ neutrals rnd
     else a = addr (bt_nvram s) /\ rnd = [])
    /\ nvram_written a tr' b
  else a = addr (bt_nvram s) /\ rnd = [] /\ if fgGetEFUSE s then nvram_written a tr' b else tr' = [].

Lemma written_neutral a tr b : nvram_written a tr b -> neutrals tr.
Proof.
  unfold nvram_written, neutrals.
  intros (f & [(_ & _ & ->) | [(c & _ & _ & _ & ->) | (l & n & c & _ & _ & _ & _ & ->)]]); by repeat apply Forall_cons_2.
Qed.

Lemma nvram_addr n : nvram_ok n -> length (addr n) = 6%nat /\ Forall is_u8 (addr n).
Proof. intros [Hl Hf]. split; [by apply (f_equal (hd 0%nat)) in Hl|by apply Forall_inv in Hf]. Qed.

Lemma with_addr_same s : with_addr s (addr (bt_nvram s)) = s.
Proof. by destruct s as [? ? ? [] ? ? ? ? ? ?]. Qed.

(** Writing the address that is in memory. *)
Lemma write_addr_ok (w : world vstate vcall vresp) :
  nvram_ok (bt_nvram (globals w)) ->
  wp (do s <- io_get; do _ <- WriteBDAddrToNvram (addr (bt_nvram s)); io_ret tt)
    (fun _ w' => globals w' = globals w
       /\ exists tr b, extends w w' tr /\ nvram_written (addr (bt_nvram (globals w))) tr b) w.
Proof.
  intros Hn. do 3 wp_step. eapply wp_mono; [apply WriteBDAddrToNvram_ok, nvram_addr, Hn|].
  intros b w' (E & tr & He & Ht). wp_step. eauto.
Qed.

Lemma settle_ok (w : world vstate vcall vresp) :
  nvram_ok (bt_nvram (globals w)) ->
  wp settle_address (fun _ w' => exists tr, extends w w' tr /\ neutrals tr
    /\ address_settled (globals w) (addr (bt_nvram (globals w'))) tr
    /\ globals w' = with_addr (globals w) (addr (bt_nvram (globals w'))) /\ nvram_ok (bt_nvram (globals w'))) w.
Proof.
  intros Hn. unfold settle_address, address_settled. do 2 wp_step. destruct (nvram_addr _ Hn) as [Hl Hu].
  destruct (_ || _).
  - destruct autogen.
    + do 2 wp_step. eapply wp_mono; [by apply GetRandomValue_ok|].
      intros a w1 (E1 & (rnd & He1 & Hr) & Ha & Hau & H0 & H1 & _). wp_step. rewrite E1.
      eapply wp_mono; [apply write_addr_ok; by apply set_addr_ok|]. intros ? w2 (E2 & tr & b & He2 & Ht).
      exists (rnd ++ tr). unfold extends in *. cbn [trace globals] in *. rewrite He2, He1, app_assoc. rewrite E2 in *.
      cbn [with_addr with_btinit bt_nvram addr set_addr] in *.
      split; [done|]. split; [apply Forall_app; split; [done|by eapply written_neutral]|].
      split; [by exists rnd, tr, b|]. split; [done|by apply set_addr_ok].
    + do 2 wp_step. eapply wp_mono; [by apply write_addr_ok|]. intros ? w2 (E2 & tr & b & He2 & Ht).
      exists tr. rewrite E2, with_addr_same. split; [done|]. split; [by eapply written_neutral|]. split; [by exists [], tr, b|done].
  - destruct (fgGetEFUSE (globals w)) eqn:Ef.
    + wp_step. eapply wp_mono; [by apply WriteBDAddrToNvram_ok|]. intros b w2 (E2 & tr & He2 & Ht). wp_step.
      exists tr. rewrite E2, with_addr_same. split; [done|]. split; [by eapply written_neutral|]. split; [by exists [], tr, b|done].
    + wp_step. exists []. rewrite with_addr_same. split; [unfold extends; by rewrite app_nil_r|]. split; [by apply Forall_nil_2|].
      split; [by exists [], [], false|done].
Qed.

Lemma Set_Local_BD_Addr_ok p (w : world vstate vcall vresp) :
  can_send w ->
  wp (GORMcmd_HCC_Set_Local_BD_Addr p) (fun b w' => sent Set_Local_BD_Addr p w b w'
    /\ fgGetEFUSE (globals w') = false
    /\ exists tr r, let a := addr (bt_nvram (globals w')) in
       address_settled (globals w) a tr
       /\ extends w w' (tr ++ [(Cxmit 0xFC1A p 9 ([0x1A; 0xFC; 6] ++ elements a [5; 4; 3; 2; 1; 0]%nat)
                                  GORMevt_HCE_Common_Complete, r)])) w.
Proof.
  intros [Hcb Hn]. unfold GORMcmd_HCC_Set_Local_BD_Addr. do 3 wp_step. eapply wp_mono; [by apply settle_ok|].
  intros ? w1 (tr & He & Ht & Hs & E1 & Hn1). do 4 wp_step. unfold xmit. do 2 wp_step. cbn [globals with_efuse bt_vnd_cbacks wOpCode bt_nvram].
  rewrite E1. cbn [with_addr with_btinit with_opcode bt_vnd_cbacks wOpCode bt_nvram addr set_addr globals]. rewrite Hcb.
  destruct (nvram_addr _ Hn1) as [Hal Hau].
  wp_step. apply sys_any. intros r. wp_step. unfold extends in *. cbn [trace globals] in *. rewrite He, <- app_assoc.
  split; [|split; [done|]].
  - exists tr, (UINT16_TO_STREAM 0xFC1A ++ [6] ++ elements (addr (bt_nvram (globals w1))) [5; 4; 3; 2; 1; 0]%nat), r.
    split_and!; try done; [|by apply set_addr_ok].
    apply (hci_packet_intro 0xFC1A 6); [lia|by apply elements_octets|done|lia].
  - exists tr, r. split; [exact Hs|done].
Qed.

Lemma command_ok c p (w : world vstate vcall vresp) : can_send w -> wp (command_func c p) (sent c p w) w.
Proof.
  intros Hw.
  destruct (decide (c = Set_Local_BD_Addr)) as [->|Hc].
  { eapply wp_mono; [by apply Set_Local_BD_Addr_ok|]. by intros ? ? [? _]. }
  destruct (decide (c = Get_Local_BD_Addr)) as [->|Hc']; [by apply Get_Local_BD_Addr_ok|].
  destruct c; try done; cbn [command_func]; unfold GORMcmd_HCC_Set_Radio, GORMcmd_HCC_Set_TX_Power_Offset;
    try (do 2 wp_step; destruct (negb _));
    (apply put_command_ok; [done..|]; intros s Hs; split; [|reflexivity]; rewrite ?Forall_app;
         (by_compute || field_octets || (split; field_octets))).
Qed.

(** C38. Every command of the scripts: once the callbacks are registered and the NVRAM record is
    in memory, calling it hands the stack exactly one buffer, which holds an HCI command packet:
    the opcode of the command, the number of parameter octets and the parameters, at most 251
    octets, as many as [len] says, with the handler that fits; the result is whether the stack
    took it. Neither the script, the chip nor the status of the last command change. *)
Theorem command_packets (c : command) (p : Z) (w : world vstate vcall vresp) :
  can_send w -> exists b w', command_func c p w = Some (b, w') /\ sent c p w b w'.
Proof. intros Hw. by apply wp_total, command_ok. Qed.

(** The Bluetooth address. An address that is the chip's default or zero is replaced, in an
    engineering build, by a made-up one that is locally administered and no group address, and is
    written to NVRAM, as is one read from the chip; an address that came from NVRAM is neither
    changed nor written. NVRAM is written at offset 0, six octets, only when it holds one record of
    64 octets, and its descriptor is closed on every path. The packet carries the address that is
    left in memory, last octet first. *)
Theorem bd_addr_correct (p : Z) (w : world vstate vcall vresp) :
  can_send w ->
  exists b w' tr r, GORMcmd_HCC_Set_Local_BD_Addr p w = Some (b, w')
    /\ let a := addr (bt_nvram (globals w')) in
       address_settled (globals w) a tr /\ length a = 6%nat /\ Forall is_u8 a
       /\ extends w w' (tr ++ [(Cxmit 0xFC1A p 9 ([0x1A; 0xFC; 6] ++ elements a [5; 4; 3; 2; 1; 0]%nat)
                                  GORMevt_HCE_Common_Complete, r)])
       /\ fgGetEFUSE (globals w') = false.
Proof.
  intros Hw. destruct (wp_total _ _ _ (Set_Local_BD_Addr_ok p w Hw)) as (b & w' & E & Hs & Hf & tr & r & Ha & He).
  exists b, w', tr, r. split; [done|]. destruct Hs as (? & ? & ? & _ & _ & _ & _ & _ & Hn & _).
  destruct (nvram_addr _ Hn). done.
Qed.

(** ** Events *)
Lemma octet_ok evt k b (w : world vstate vcall vresp) (Q : Z -> world vstate vcall vresp -> Prop) :
  evt !! k = Some b -> Q b w -> wp (octet evt k) Q w.
Proof. intros Hb HQ. unfold octet. eapply wp_pure; [by rewrite Hb|]. by destruct w. Qed.

(** The handlers' outcome. *)
Definition completion (op : Z) (evt : list Z) : HCI_CMD_STATUS_T :=
  match evt with
  | 0x0E :: _ :: _ :: o0 :: o1 :: 0 :: _ => if STREAM_TO_UINT16 o0 o1 =? op then CMD_SUCCESS else CMD_FAIL
  | _ => CMD_FAIL
  end.

Lemma completed_completion b0 b1 b2 o0 o1 st l op :
  (if completed b0 (STREAM_TO_UINT16 o0 o1) st op then CMD_SUCCESS else CMD_FAIL)
  = completion op (b0 :: b1 :: b2 :: o0 :: o1 :: st :: l).
Proof.
  unfold completed, completion. destruct (Z.eqb_spec b0 0x0E) as [->|H0]; cbn [andb].
  - destruct (Z.eqb_spec st 0) as [->|Hst]; [by rewrite andb_true_r|]. rewrite andb_false_r. by destruct st.
  - repeat (match goal with |- context [match ?x with _ => _ end] => is_var x; destruct x end); done.
Qed.

Definition event_size (h : handler) : nat :=
  match h with GORMevt_HCE_Get_Local_BD_Addr => 12 | GORMevt_HCE_Common_Complete => 6 end.

Definition event_op (h : handler) (s : vstate) : Z :=
  match h with GORMevt_HCE_Get_Local_BD_Addr => 0x1009 | GORMevt_HCE_Common_Complete => wOpCode s end.

(** The address an event reports. *)
Definition event_addr (h : handler) (evt : list Z) (s : vstate) : list Z :=
  match h with
  | GORMevt_HCE_Get_Local_BD_Addr => rev (take 6 (drop 6 evt))
  | GORMevt_HCE_Common_Complete => addr (bt_nvram s)
  end.

Lemma handle_event_ok h evt (w : world vstate vcall vresp) :
  (event_size h <= length evt)%nat -> bt_vnd_cbacks (globals w) = true ->
  wp (handle_event h evt) (fun _ w' => (exists r, trace w' = trace w ++ [(Cevent evt, r)])
    /\ globals w' = with_status (with_addr (globals w) (event_addr h evt (globals w)))
                      (completion (event_op h (globals w)) evt)) w.
Proof.
  intros Hl Hcb.
  assert (forall op (w1 : world vstate vcall vresp) b0 b1 b2 o0 o1 st l,
    evt = b0 :: b1 :: b2 :: o0 :: o1 :: st :: l -> bt_vnd_cbacks (globals w1) = true ->
    wp (finish_event evt (completed b0 (STREAM_TO_UINT16 o0 o1) st op)) (fun _ w' =>
      (exists r, trace w' = trace w1 ++ [(Cevent evt, r)]) /\ globals w' = with_status (globals w1) (completion op evt)) w1) as Hfin.
  { intros op w1 b0 b1 b2 o0 o1 st l -> Hw1. unfold finish_event. do 3 wp_step. rewrite Hw1. wp_step. apply sys_any. intros r.
    do 2 wp_step. split; [by exists r|]. cbn [globals]. by rewrite <- completed_completion. }
  destruct h; cbn [event_size handle_event event_addr event_op] in *.
  - do 12 (destruct evt as [|? evt]; [simpl in Hl; lia|]). unfold evt_Get_Local_BD_Addr.
    repeat (wp_step; first [apply octet_ok with (1 := eq_refl) | fail]). do 2 wp_step. by eapply (Hfin 0x1009); [reflexivity|].
  - do 6 (destruct evt as [|? evt]; [simpl in Hl; lia|]). unfold evt_Common_Complete.
    do 4 (wp_step; apply octet_ok with (1 := eq_refl)). do 2 wp_step. rewrite with_addr_same. by eapply Hfin.
Qed.

Lemma handle_event_short h evt (w : world vstate vcall vresp) :
  (length evt < event_size h)%nat -> handle_event h evt w = None.
Proof.
  intros Hl. destruct h; cbn [event_size handle_event] in *;
    do 12 (destruct evt as [|? evt]; [try reflexivity; simpl in Hl; lia|]); simpl in Hl; lia.
Qed.

Lemma completion_cases op evt : completion op evt = CMD_SUCCESS \/ completion op evt = CMD_FAIL.
Proof. unfold completion. repeat (match goal with |- context [match ?x with _ => _ end] => destruct x end); auto. Qed.

Lemma completion_success op evt :
  Forall is_u8 evt -> 0 <= op < 65536 ->
  completion op evt = CMD_SUCCESS <-> exists n k rest, evt = [0x0E; n; k; op mod 256; op / 256; 0] ++ rest.
Proof.
  intros He Ho. assert (forall o0 o1, STREAM_TO_UINT16 o0 o1 = (o0 + 256 * o1) mod 65536) as Hst.
  { intros. unfold STREAM_TO_UINT16, wrapu. rewrite Z.shiftl_mul_pow2 by lia. change (2 ^ 8) with 256.
    change (2 ^ 16) with 65536. f_equal. lia. }
  split.
  - do 6 (destruct evt as [|? evt]; [simpl; by repeat (match goal with |- context [match ?x with _ => _ end] => is_var x; destruct x end)|]).
    rewrite <- completed_completion. unfold completed. rewrite Hst.
    destruct (Z.eqb_spec z 0x0E) as [->|]; [|done]. destruct (Z.eqb_spec z4 0) as [->|]; [|by rewrite andb_false_r].
    destruct (Z.eqb_spec ((z2 + 256 * z3) mod 65536) op) as [E|]; [|done]. intros _. exists z0, z1, evt.
    do 3 apply Forall_inv_tail in He. pose proof (Forall_inv He) as H2. apply Forall_inv_tail, Forall_inv in He. unfold is_u8 in *.
    cbn [app]. repeat (f_equal; [Z.div_mod_to_equations; lia|]); repeat f_equal; Z.div_mod_to_equations; lia.
  - intros (n & k & rest & ->). cbn [app]. rewrite <- completed_completion, Hst. unfold completed.
    rewrite (proj2 (Z.eqb_eq ((op mod 256 + 256 * (op / 256)) mod 65536) op)) by (Z.div_mod_to_equations; lia). done.
Qed.

(** C39. The handler of a command's event: it gives the stack's buffer back once and sets the
    status the thread waits for, to success exactly for a command complete event that carries the
    opcode of the command and status 0, to failure otherwise. The event must be long enough: the
    handler of the address reads all six octets of the address whatever the status says, and an
    event of a failed command, which ends with the status, is read past its end. *)
Theorem events_correct (c : command) (evt : list Z) (w : world vstate vcall vresp) :
  bt_vnd_cbacks (globals w) = true -> wOpCode (globals w) = opcode_of c -> Forall is_u8 evt ->
  if decide (event_size (handler_of c) <= length evt)%nat then
    exists w' r, handle_event (handler_of c) evt w = Some (tt, w') /\ trace w' = trace w ++ [(Cevent evt, r)]
      /\ (cmd_status (globals w') = CMD_SUCCESS <->
           exists n k rest, evt = [0x0E; n; k; opcode_of c mod 256; opcode_of c / 256; 0] ++ rest)
      /\ (cmd_status (globals w') = CMD_SUCCESS \/ cmd_status (globals w') = CMD_FAIL)
  else handle_event (handler_of c) evt w = None.
Proof.
  intros Hcb Hop He. case_decide as Hl.
  - destruct (wp_total _ _ _ (handle_event_ok (handler_of c) evt w Hl Hcb)) as ([] & w' & E & [r Ht] & Eg).
    exists w', r. rewrite Eg. cbn [with_status cmd_status].
    assert (event_op (handler_of c) (globals w) = opcode_of c) as -> by (by destruct c).
    split; [done|]. split; [done|]. split; [apply completion_success; [done|by destruct c]|].
    apply completion_cases.
  - by apply handle_event_short, Nat.nle_gt.
Qed.
End Radio.

(** ** Witnesses *)

(** A stack that takes every packet, an NVRAM daemon that works, and no random device. *)
Definition vanswer0 (tr : list (vcall * vresp)) (c : vcall) : vresp :=
  match c with
  | Calloc _ => mk_vresp (1 + Z.of_nat (length tr)) [] 0 0
  | Cxmit _ _ _ _ _ => mk_vresp 1 [] 0 0
  | CNVM_GetFileDesc _ => mk_vresp 7 [] 64 1
  | Cwrite _ data => mk_vresp (Z.of_nat (length data)) [] 0 0
  | Cread _ n => mk_vresp n (repeat 1 (Z.to_nat n)) 0 0
  | Crand => mk_vresp 0x5A3C1234 [] 0 0
  | Copen_urandom => mk_vresp (-1) [] 0 0
  | Cproperty_get persist_mtk_wcn_combo_chipid => mk_vresp 6 [48; 120; 54; 54; 51; 48] 0 0
  | Cproperty_get service_nvram_init => mk_vresp 5 [82; 101; 97; 100; 121] 0 0
  | _ => mk_vresp 0 [] 0 0
  end.

(** The 6630 with its default record, before its first command. *)
Definition vworld0 : world vstate vcall vresp :=
  World (with_cbacks (with_btinit (with_default vstate0 (addr (stBtDefault_6630 false true))) 0x6630
           (stBtDefault_6630 false true) None) true) [].

Lemma vworld0_can_send : can_send vworld0.
Proof. split; [reflexivity|]. split; [reflexivity|]. by_compute. Qed.

Lemma command_packets_witness : exists b w', command_func vanswer0 true Set_PCM 5 vworld0 = Some (b, w')
  /\ sent Set_PCM 5 vworld0 b w'.
Proof. apply (command_packets vanswer0 true Set_PCM 5 vworld0), vworld0_can_send. Defined.

Lemma bd_addr_correct_witness : exists b w' tr,
  GORMcmd_HCC_Set_Local_BD_Addr vanswer0 true 5 vworld0 = Some (b, w')
  /\ address_settled true (globals vworld0) (addr (bt_nvram (globals w'))) tr
  /\ addr (bt_nvram (globals w')) = [0x7E; 0x12; 0x46; 0x66; 0x30; 0x34].
Proof.
  destruct (bd_addr_correct vanswer0 true 5 vworld0 vworld0_can_send) as (b & w' & tr & r & E & Ha & _).
  exists b, w', tr. split; [exact E|]. split; [exact Ha|].
  vm_compute in E. injection E as _ <-. vm_compute. reflexivity.
Defined.

Lemma events_correct_witness : exists w', 
  handle_event vanswer0 GORMevt_HCE_Get_Local_BD_Addr [0x0E; 10; 1; 0x09; 0x10; 0; 1; 2; 3; 4; 5; 6]
    (World (with_opcode (globals vworld0) 0x1009) []) = Some (tt, w') /\ cmd_status (globals w') = CMD_SUCCESS.
Proof.
  pose proof (events_correct vanswer0 Get_Local_BD_Addr [0x0E; 10; 1; 0x09; 0x10; 0; 1; 2; 3; 4; 5; 6]
    (World (with_opcode (globals vworld0) 0x1009) []) eq_refl eq_refl ltac:(by_compute)) as H.
  destruct H as (w' & r & E & _ & Hs & _). exists w'. split; [exact E|]. apply Hs. by exists 10, 1, [1; 2; 3; 4; 5; 6].
Defined.
