(* ===== verification/VndInit.v ===== *)
(** The initialisation thread of radiomod.c (GORM_FW_Init_Thread): it sends the commands of the
    chip's script one after the other while the stack's event handlers and notify_thread_exit run
    beside it. *)
From stdpp Require Import relations.
From S2P Require Import Prelude VndState VndRadio.

(** ** Scripts *)
Definition bt_init_preload_script_6628 : list command :=
  [Get_Local_BD_Addr; Set_Local_BD_Addr; Set_LinkKeyType; Set_UnitKey; Set_Encryption; Set_PinCodeType; Set_Voice;
   Set_PCM; Set_Radio; Set_TX_Power_Offset; Set_Sleep_Timeout; Set_BT_FTR; Set_OSC_Info; Set_LPO_Info; Set_PTA;
   Set_BLEPTA; RESET; Set_Internal_PTA_1; Set_Internal_PTA_2; Set_RF_Reg_100; Set_FW_SysLog].

Definition bt_init_preload_script_6630 : list command :=
  [Get_Local_BD_Addr; Set_Local_BD_Addr; Set_PCM; Set_Radio; Set_TX_Power_Offset; Set_Sleep_Timeout;
   Coex_Performance_Adjust; Set_FW_SysLog; Set_SSP_Debug_Mode].

Definition bt_init_preload_script_6632 : list command :=
  [Get_Local_BD_Addr; Set_Local_BD_Addr; Set_PCM; Set_Radio; Set_TX_Power_Offset; Set_Sleep_Timeout; RESET;
   Set_FW_SysLog; Set_SSP_Debug_Mode].

Definition bt_init_preload_script_7662 : list command :=
  [Set_Local_BD_Addr; Set_Radio; Set_TX_Power_Offset; Set_Sleep_Timeout; Set_FW_SysLog].

Definition bt_init_preload_script_consys : list command :=
  [Set_Local_BD_Addr; Set_Radio; Set_TX_Power_Offset; Set_Sleep_Timeout; RESET; Set_FW_SysLog; Set_SSP_Debug_Mode].

Definition bt_init_postload_script_7662 : list command :=
  [Set_Local_BD_Addr; Set_Radio; Set_TX_Power_Offset; Set_Sleep_Timeout; Set_FW_SysLog].

(** The function pointer of entry [i]: [Some None] is the null pointer that ends the array,
    [None] is outside of it. *)
Definition entry (sc : list command) (i : nat) : option (option command) :=
  if (i =? length sc)%nat then Some None else Some <$> sc !! i.

Definition BT_VND_OP_RESULT_SUCCESS : Z := 0.
Definition BT_VND_OP_RESULT_FAIL : Z := 1.
(** [sizeof(HC_BT_HDR)] *)
Definition BT_HC_HDR_SIZE : Z := 8.

(** Where the thread is between its accesses to what it shares: at its start, at the condition of
    the loop for entry [i], with a buffer before and after the status is set to pending, waiting
    for the event, at the check of the end ([None]: at the label [exit]), ended. *)
Inductive pc :=
  | PStart
  | PLoop (i : nat)
  | PBuf (i : nat) (p_buf : Z)
  | PSend (i : nat) (p_buf : Z)
  | PWait (i : nat)
  | PEnd (i : option nat)
  | PDone.

#[export] Instance pc_eq_dec : EqDecision pc.
Proof. solve_decision. Defined.

Section Thread.
Context (answer : list (vcall * vresp) -> vcall -> vresp).
Context (autogen merge_interface i2s : bool).

Abbreviation IO := (io vstate vcall vresp).
Abbreviation sys := (sys answer).

Definition notify_thread_exit : IO unit := io_mod (fun s => with_status s CMD_TERMINATE).

(** The switch on the chip: script, default address, and [fgConsys]. *)
Definition select_script (chip : Z) : option (list command * list Z * bool) :=
  if chip =? 0x6628 then Some (bt_init_preload_script_6628, addr (stBtDefault_6628 merge_interface), false)
  else if chip =? 0x6630 then Some (bt_init_preload_script_6630, addr (stBtDefault_6630 merge_interface i2s), false)
  else if chip =? 0x6632 then Some (bt_init_preload_script_6632, addr (stBtDefault_6632 merge_interface i2s), false)
  else if chip =? 0x7662 then Some (bt_init_postload_script_7662, addr stBtDefault_7662, false)
  else if existsb (Z.eqb chip) consys_chips then Some (bt_init_preload_script_consys, addr stBtDefault_consys, true)
  else None.

Definition start_thread : IO pc :=
  do s <- io_get;
  do fgConsys <- (match select_script (chip_id s) with
                  | Some (sc, def, fgConsys) =>
                      do _ <- io_mod (fun s => with_default (with_btinit s (chip_id s) (bt_nvram s) (Some sc)) def);
                      io_ret fgConsys
                  | None => io_ret false
                  end);
  do s <- io_get;
  match cur_script s with
  | None => io_ret (PEnd None)
  | Some _ =>
      if negb fgConsys then
        do _ <- (if bool_decide (addr (bt_nvram s) = ucDefaultAddr s) || bool_decide (addr (bt_nvram s) = ucZeroAddr)
                 then io_mod (fun s => with_efuse s true) else io_ret tt);
        do s <- io_get;
        io_ret (PLoop (if fgGetEFUSE s then 0 else 1)%nat)
      else io_ret (PLoop 0)
  end.

Definition io_some {A} (o : option A) : IO A := io_pure (fun s => a ← o; Some (a, s)).

Definition load_entry (i : nat) : IO (option command) :=
  do s <- io_get;
  io_some (sc ← cur_script s; entry sc i).

(** [!property_get(key, val, NULL) || 0 != strcmp(val, "1")] *)
Definition disabled (k : prop) : IO bool :=
  do r <- sys (Cproperty_get k);
  io_ret ((rv r =? 0) || negb (bool_decide (rdata r = [49]))).

(** The condition of the loop and its body up to the buffer. *)
Definition loop_head (i : nat) : IO pc :=
  do e <- load_entry i;
  do s <- io_get;
  match e with
  | None => io_ret (PEnd (Some i))
  | Some c =>
      if bool_decide (cmd_status s = CMD_TERMINATE) then io_ret (PEnd (Some i))
      else
        do skip <- (match c with
                    | Set_FW_SysLog => disabled persist_bt_syslog_enable
                    | Set_SSP_Debug_Mode => disabled persist_bt_sspdebug_enable
                    | _ => io_ret false
                    end);
        if skip then io_ret (PLoop (S i))
        else
          do p_buf <- (if bt_vnd_cbacks s then
                         do r <- sys (Calloc (BT_HC_HDR_SIZE + HCI_CMD_MAX_SIZE)); io_ret (rv r)
                       else io_ret 0);
          if negb (p_buf =? 0) then io_ret (PBuf i p_buf) else io_ret (PEnd (Some i))
  end.

(** Under the mutex: the status becomes pending unless the thread has been told to exit. *)
Definition set_pending (i : nat) (p_buf : Z) : IO pc :=
  do s <- io_get;
  if negb (bool_decide (cmd_status s = CMD_TERMINATE)) then
    do _ <- io_mod (fun s => with_status s CMD_PENDING);
    io_ret (PSend i p_buf)
  else io_ret (PEnd (Some i)).

Definition send_command (i : nat) (p_buf : Z) : IO pc :=
  do e <- load_entry i;
  do c <- io_some e;
  do ok <- command_func answer autogen c p_buf;
  if negb ok then
    do s <- io_get;
    do _ <- (if bt_vnd_cbacks s then do _ <- sys (Cdealloc p_buf); io_ret tt else io_ret tt);
    io_ret (PEnd (Some i))
  else io_ret (PWait i).

(** Under the mutex: a pending command is waited for. *)
Definition wait_event (i : nat) : IO pc :=
  do s <- io_get;
  match cmd_status s with
  | CMD_PENDING => io_ret (PWait i)
  | CMD_SUCCESS => io_ret (PLoop (S i))
  | CMD_FAIL => io_ret (PEnd (Some i))
  | CMD_TERMINATE =>
      do _ <- io_mod (fun s => with_status s CMD_SUCCESS);
      io_ret (PEnd (Some i))
  end.

Definition end_thread (i : option nat) : IO pc :=
  do ret <- (match i with
             | None => io_ret BT_VND_OP_RESULT_FAIL
             | Some i =>
                 do e <- load_entry i;
                 io_ret (match e with None => BT_VND_OP_RESULT_SUCCESS | Some _ => BT_VND_OP_RESULT_FAIL end)
             end);
  do s <- io_get;
  do _ <- (if bt_vnd_cbacks s then do _ <- sys (Cfwcfg ret); io_ret tt else io_ret tt);
  do _ <- io_mod (fun s => with_running s false);
  io_ret PDone.

(** One step of [GORM_FW_Init_Thread]. *)
Definition thread_step (at_ : pc) : IO pc :=
  match at_ with
  | PStart => start_thread
  | PLoop i => loop_head i
  | PBuf i p_buf => set_pending i p_buf
  | PSend i p_buf => send_command i p_buf
  | PWait i => wait_event i
  | PEnd i => end_thread i
  | PDone => fun _ => None
  end.

(** ** The system *)

(** The handlers the stack still has to call: it calls each once, in the order of the commands. *)
Definition out_step (hs : list handler) (e : vcall * vresp) : list handler :=
  match e with
  | (Cxmit _ _ _ _ h, r) => if rv r =? 0 then hs else hs ++ [h]
  | (Cevent _, _) => tail hs
  | _ => hs
  end.
Definition outstanding (tr : list (vcall * vresp)) : list handler := fold_left out_step tr [].

(** The thread, whether it was told to exit, and the globals with the trace. *)
Record system := mk_system { at_pc : pc; notified : bool; world_of : world vstate vcall vresp }.

Inductive step : system -> system -> Prop :=
  | step_thread at_ n w at' w' :
      thread_step at_ w = Some (at', w') -> step (mk_system at_ n w) (mk_system at' n w')
  | step_event at_ n w h hs evt w' :
      outstanding (trace w) = h :: hs -> Forall is_u8 evt -> handle_event answer h evt w = Some (tt, w') ->
      step (mk_system at_ n w) (mk_system at_ n w')
  | step_notify at_ n w w' :
      notify_thread_exit w = Some (tt, w') -> step (mk_system at_ n w) (mk_system at_ true w').

Definition reachable (w0 : world vstate vcall vresp) : system -> Prop :=
  rtc step (mk_system PStart false w0).

(** ** Specification: the protocol with the stack *)
Inductive phase :=
  | Idle
  | Held (p : Z)
  | Waiting (op : Z)
  | Refused (p : Z)
  | Stopped
  | Reported (result : Z) (before : phase).

(** The commands completed so far, and the phase; [None] when the protocol is broken: a buffer is
    sent or freed that is not held, a command is sent before the last one is completed, after one
    has failed, or after the result is reported, or the result is reported twice. *)
Definition mon_step (m : list Z * phase) (e : vcall * vresp) : option (list Z * phase) :=
  let '(done, ph) := m in
  match e, ph with
  | (Calloc _, r), Idle => Some (done, if rv r =? 0 then Stopped else Held (rv r))
  | (Cxmit op p _ _ _, r), Held p' =>
      if p =? p' then Some (done, if rv r =? 0 then Refused p else Waiting op) else None
  | (Cdealloc p, _), Refused p' => if p =? p' then Some (done, Stopped) else None
  | (Cevent evt, _), Waiting op =>
      if bool_decide (completion op evt = CMD_SUCCESS) then Some (done ++ [op], Idle) else Some (done, Stopped)
  | (Cevent _, _), Reported _ _ => Some m
  | (Cfwcfg result, _), (Idle | Held _ | Waiting _ | Stopped) =>
      Some (done, Reported result ph)
  | (c, _), _ => if neutral c then Some m else None
  end.

Definition mon_run (m : list Z * phase) (tr : list (vcall * vresp)) : option (list Z * phase) :=
  fold_left (fun o e => m ← o; mon_step m e) tr (Some m).

(** The debug commands may be left out. *)
Definition optional (c : command) : bool :=
  match c with Set_FW_SysLog | Set_SSP_Debug_Mode => true | _ => false end.

(** [completes sc ops]: [ops] are the opcodes of [sc] in order, some debug commands left out. *)
Inductive completes : list command -> list Z -> Prop :=
  | completes_nil : completes [] []
  | completes_run c sc ops : completes sc ops -> completes (sc ++ [c]) (ops ++ [opcode_of c])
  | completes_skip c sc ops : optional c = true -> completes sc ops -> completes (sc ++ [c]) ops.

(** The entry the script starts with. *)
Definition start_index (s : vstate) : nat :=
  match select_script (chip_id s) with
  | Some (_, def, fgConsys) =>
      if fgConsys then 0
      else if bool_decide (addr (bt_nvram s) = def) || bool_decide (addr (bt_nvram s) = ucZeroAddr) || fgGetEFUSE s
           then 0 else 1
  | None => 0
  end%nat.

(** ** The trace *)
Lemma mon_run_snoc m tr e : mon_run m (tr ++ [e]) = (m' ← mon_run m tr; mon_step m' e).
Proof. unfold mon_run. by rewrite fold_left_app. Qed.

Lemma mon_step_neutral m e : neutral e.1 = true -> mon_step m e = Some m.
Proof. destruct m as [done ph], e as [c r]. by destruct c, ph. Qed.

Lemma out_step_neutral hs e : neutral e.1 = true -> out_step hs e = hs.
Proof. destruct e as [c r]. by destruct c. Qed.

Lemma outstanding_snoc tr e : outstanding (tr ++ [e]) = out_step (outstanding tr) e.
Proof. unfold outstanding. by rewrite fold_left_app. Qed.

(** The trace from [tr0] on follows the protocol. *)
Definition track (tr0 tr : list (vcall * vresp)) (done : list Z) (ph : phase) (outs : list handler) : Prop :=
  exists new, tr = tr0 ++ new /\ mon_run ([], Idle) new = Some (done, ph) /\ outstanding tr = outs.

Lemma track_snoc tr0 tr done ph outs e done' ph' outs' :
  track tr0 tr done ph outs -> mon_step (done, ph) e = Some (done', ph') -> out_step outs e = outs' ->
  track tr0 (tr ++ [e]) done' ph' outs'.
Proof.
  intros (new & -> & Hm & Ho) Hs <-. exists (new ++ [e]). rewrite app_assoc, outstanding_snoc, mon_run_snoc, Hm, Ho. done.
Qed.

Lemma track_neutral tr0 tr done ph outs e :
  track tr0 tr done ph outs -> neutral e.1 = true -> track tr0 (tr ++ [e]) done ph outs.
Proof. intros Ht He. eapply track_snoc; [done|by apply mon_step_neutral|by apply out_step_neutral]. Qed.

Lemma track_neutrals tr0 tr done ph outs pre :
  track tr0 tr done ph outs -> neutrals pre -> track tr0 (tr ++ pre) done ph outs.
Proof.
  intros Ht Hp. revert tr Ht. induction Hp as [|e pre He _ IH]; intros tr Ht; [by rewrite app_nil_r|].
  change (e :: pre) with ([e] ++ pre). rewrite app_assoc. by apply IH, track_neutral.
Qed.

(** How often the result was reported. *)
Definition is_report (c : vcall) : bool := match c with Cfwcfg _ => true | _ => false end.
Definition reports (tr : list (vcall * vresp)) : nat :=
  foldr (fun e n => if is_report e.1 then S n else n) 0%nat tr.

Lemma reports_app tr tr' : reports (tr ++ tr') = (reports tr + reports tr')%nat.
Proof. induction tr as [|e tr IH]; [done|]. cbn [app reports foldr]. fold (reports (tr ++ tr')). fold (reports tr). rewrite IH. by case_match. Qed.

Lemma reports_neutral tr : neutrals tr -> reports tr = 0%nat.
Proof. induction 1 as [|[c r] tr Hc _ IH]; [done|]. cbn [reports foldr fst]. destruct c; done. Qed.

Lemma mon_reports new done ph :
  mon_run ([], Idle) new = Some (done, ph) -> reports new = match ph with Reported _ _ => 1%nat | _ => 0%nat end.
Proof.
  revert done ph. induction new as [|[c r] new IH] using rev_ind; intros done ph; [by intros [= <- <-]|].
  rewrite mon_run_snoc, reports_app. destruct (mon_run ([], Idle) new) as [[done' ph']|]; [|done].
  rewrite (IH _ _ eq_refl). cbn [mbind option_bind]. destruct c, ph'; cbn [mon_step neutral]; try done;
    repeat case_match; intros Hx; simplify_eq; done.
Qed.

(** ** The invariant *)
Section Run.
Context (w0 : world vstate vcall vresp) (sc : list command) (def : list Z) (fgConsys : bool).
Context (Hsel : select_script (chip_id (globals w0)) = Some (sc, def, fgConsys)).

Definition start : nat := start_index (globals w0).
(** The commands of the script before entry [i]. *)
Definition before (i : nat) : list command := drop start (take i sc).

Lemma before_S i c : (start <= i)%nat -> sc !! i = Some c -> before (S i) = before i ++ [c].
Proof.
  intros Hi Hc. unfold before. rewrite (take_S_r _ _ _ Hc).
  apply drop_app_le. rewrite length_take_le; [done|]. apply lookup_lt_Some in Hc. lia.
Qed.

(** What the stack will call next fits the command that is awaited. *)
Definition out_ok (ph : phase) (outs : list handler) (s : vstate) : Prop :=
  match ph with
  | Waiting op => exists h, outs = [h] /\ event_op h s = op
  | Reported _ _ => True
  | _ => outs = []
  end.

Definition told (n : bool) (s : vstate) (good : HCI_CMD_STATUS_T) : Prop :=
  cmd_status s = good \/ (n = true /\ cmd_status s = CMD_TERMINATE).

Definition awaited (n : bool) (s : vstate) (i : nat) (c : command) (done : list Z) (ph : phase) : Prop :=
  (ph = Waiting (opcode_of c) /\ completes (before i) done /\ told n s CMD_PENDING)
  \/ (ph = Idle /\ completes (before (S i)) done /\ told n s CMD_SUCCESS)
  \/ (ph = Stopped /\ told n s CMD_FAIL).

Definition open_phase (ph : phase) : Prop :=
  match ph with Reported _ _ | Refused _ => False | _ => True end.

Definition pc_inv (at_ : pc) (n : bool) (s : vstate) (done : list Z) (ph : phase) : Prop :=
  match at_ with
  | PStart => done = [] /\ ph = Idle /\ (exists st, s = with_status (globals w0) st)
      /\ (n = false -> cmd_status s <> CMD_TERMINATE)
  | PLoop i => (start <= i <= length sc)%nat /\ ph = Idle /\ completes (before i) done
      /\ (n = false -> cmd_status s <> CMD_TERMINATE)
  | PBuf i p => (start <= i < length sc)%nat /\ ph = Held p /\ completes (before i) done
      /\ (n = false -> cmd_status s <> CMD_TERMINATE)
  | PSend i p => (start <= i < length sc)%nat /\ ph = Held p /\ completes (before i) done /\ told n s CMD_PENDING
  | PWait i => (start <= i < length sc)%nat /\ exists c, sc !! i = Some c /\ awaited n s i c done ph
  | PEnd oi => open_phase ph /\ exists i, oi = Some i
      /\ ((i = length sc /\ ph = Idle /\ completes (before i) done)
          \/ ((i < length sc)%nat /\ (n = true \/ ph = Stopped)))
  | PDone => exists r ph', ph = Reported r ph'
      /\ ((r = BT_VND_OP_RESULT_SUCCESS /\ ph' = Idle /\ completes (before (length sc)) done)
          \/ (r = BT_VND_OP_RESULT_FAIL /\ (n = true \/ ph' = Stopped)))
  end.

Definition inv (st : system) : Prop :=
  let w := world_of st in
  exists done ph outs, track (trace w0) (trace w) done ph outs /\ out_ok ph outs (globals w) /\ can_send w
    /\ (at_pc st <> PStart -> cur_script (globals w) = Some sc)
    /\ pc_inv (at_pc st) (notified st) (globals w) done ph.

Lemma scripts_nonempty : (1 <= length sc)%nat.
Proof.
  unfold select_script in Hsel. repeat (destruct (_ =? _); [injection Hsel as <- _ _; simpl; lia|]).
  destruct (existsb _ _); [injection Hsel as <- _ _; simpl; lia|done].
Qed.

Lemma start_le : (start <= 1)%nat.
Proof. unfold start, start_index. repeat case_match; lia. Qed.

Lemma before_start i : (i <= start)%nat -> completes (before i) [].
Proof. intros Hi. unfold before. rewrite drop_ge by (rewrite length_take; lia). constructor. Qed.

(** The thread enters the loop in the state [s], which differs from the first one in nothing the
    protocol is about. *)
Lemma inv_loop n i s tr :
  track (trace w0) tr [] Idle [] -> bt_vnd_cbacks s = true -> nvram_ok (bt_nvram s) -> cur_script s = Some sc ->
  i = start -> (n = false -> cmd_status s <> CMD_TERMINATE) -> inv (mk_system (PLoop i) n (World s tr)).
Proof.
  intros Ht Hcb Hnv Hsc -> Hn. exists [], Idle, []. pose proof start_le. pose proof scripts_nonempty.
  split; [done|]. split; [done|]. split; [done|]. split; [done|]. split; [lia|]. split; [done|].
  split; [by apply before_start|done].
Qed.

Lemma start_thread_ok n (w : world vstate vcall vresp) :
  inv (mk_system PStart n w) -> wp start_thread (fun at' w' => inv (mk_system at' n w')) w.
Proof.
  intros (done & ph & outs & Ht & Ho & [Hcb Hnv] & _ & -> & -> & [st Es] & Hn). cbn [world_of at_pc notified] in *.
  destruct w as [g tr]. cbn [out_ok globals trace] in *. subst outs g.
  unfold start_thread. do 3 wp_step. cbn [globals with_status chip_id]. rewrite Hsel. do 5 wp_step.
  cbn [globals with_default with_btinit with_status cur_script addr bt_nvram ucDefaultAddr].
  pose proof inv_loop as Hloop.
  assert (start = (if fgConsys then 0 else if bool_decide (addr (bt_nvram (globals w0)) = def)
    || bool_decide (addr (bt_nvram (globals w0)) = ucZeroAddr) || fgGetEFUSE (globals w0) then 0 else 1)%nat) as Hst
    by (unfold start, start_index; by rewrite Hsel).
  destruct fgConsys; cbn [negb]; [wp_step; by apply Hloop|].
  wp_step.
  destruct (bool_decide (addr (bt_nvram (globals w0)) = def) || bool_decide (addr (bt_nvram (globals w0)) = ucZeroAddr));
    do 4 wp_step; by apply Hloop.
Qed.
Lemma load_entry_ok i (w : world vstate vcall vresp) e (Q : option command -> world vstate vcall vresp -> Prop) :
  cur_script (globals w) = Some sc -> entry sc i = Some e -> Q e w -> wp (load_entry i) Q w.
Proof.
  intros Hsc He HQ. unfold load_entry. do 2 wp_step. rewrite Hsc. cbn [mbind option_bind]. rewrite He.
  eapply wp_pure; [reflexivity|]. by destruct w.
Qed.

Lemma entry_lt i c : sc !! i = Some c -> entry sc i = Some (Some c).
Proof.
  intros Hc. unfold entry. pose proof (lookup_lt_Some _ _ _ Hc). rewrite (proj2 (Nat.eqb_neq i (length sc))) by lia.
  by rewrite Hc.
Qed.

Lemma entry_end : entry sc (length sc) = Some None.
Proof. unfold entry. by rewrite Nat.eqb_refl. Qed.

(** The loop at an entry that is not left out: a buffer is asked for. *)
Lemma alloc_ok n i c done (w : world vstate vcall vresp) :
  track (trace w0) (trace w) done Idle [] -> can_send w -> cur_script (globals w) = Some sc ->
  (start <= i)%nat -> sc !! i = Some c -> completes (before i) done -> (n = false -> cmd_status (globals w) <> CMD_TERMINATE) ->
  forall s, s = globals w ->
  wp (do p_buf <- (if bt_vnd_cbacks s then
                     do r <- sys (Calloc (BT_HC_HDR_SIZE + HCI_CMD_MAX_SIZE)); io_ret (rv r)
                   else io_ret 0);
      if negb (p_buf =? 0) then io_ret (PBuf i p_buf) else io_ret (PEnd (Some i)))
    (fun at' w' => inv (mk_system at' n w')) w.
Proof.
  intros Ht Hc Hsc Hi Hl Hd Hn s ->. pose proof (lookup_lt_Some _ _ _ Hl). wp_step. rewrite (proj1 Hc). wp_step.
  apply sys_any. intros r. wp_step.
  assert (forall ph, mon_step (done, Idle) (Calloc (BT_HC_HDR_SIZE + HCI_CMD_MAX_SIZE), r) = Some (done, ph) ->
    track (trace w0) (trace w ++ [(Calloc (BT_HC_HDR_SIZE + HCI_CMD_MAX_SIZE), r)]) done ph []) as Ht'
    by (intros ph Hm; by eapply track_snoc).
  cbn [mon_step] in Ht'. destruct (rv r =? 0); cbn [negb]; wp_step; [exists done, Stopped, []|exists done, (Held (rv r)), []];
    (split; [by apply Ht'|]); (split; [done|]); (split; [done|]); (split; [done|]); cbn [pc_inv at_pc notified].
  - split; [done|]. exists i. split; [done|]. right. split; [lia|by right].
  - split; [lia|]. by split.
Qed.

Lemma loop_head_ok n i (w : world vstate vcall vresp) :
  inv (mk_system (PLoop i) n w) -> wp (loop_head i) (fun at' w' => inv (mk_system at' n w')) w.
Proof.
  intros (done & ph & outs & Ht & Ho & Hc & Hsc & Hi & -> & Hd & Hn). cbn [world_of at_pc notified out_ok] in *. subst outs.
  specialize (Hsc ltac:(discriminate)). unfold loop_head. wp_step. destruct (decide (i = length sc)) as [->|Hne].
  { eapply load_entry_ok; [done|by apply entry_end|]. do 3 wp_step. exists done, Idle, []. do 4 (split; [done|]).
    split; [done|]. exists (length sc). split; [done|by left]. }
  destruct (lookup_lt_is_Some_2 sc i) as [c Hl]; [lia|].
  eapply load_entry_ok; [done|by apply entry_lt|]. do 2 wp_step. case_bool_decide as Hterm.
  { wp_step. exists done, Idle, []. do 4 (split; [done|]). split; [done|]. exists i. split; [done|]. right. split; [lia|left].
    destruct n; [done|]. by destruct (Hn eq_refl). }
  assert (forall k, optional c = true -> wp (do skip <- disabled k; if skip then io_ret (PLoop (S i)) else
     do p_buf <- (if bt_vnd_cbacks (globals w) then
                     do r <- sys (Calloc (BT_HC_HDR_SIZE + HCI_CMD_MAX_SIZE)); io_ret (rv r)
                   else io_ret 0);
      if negb (p_buf =? 0) then io_ret (PBuf i p_buf) else io_ret (PEnd (Some i)))
    (fun at' w' => inv (mk_system at' n w')) w) as Hopt.
  { intros k Hk. unfold disabled. do 2 wp_step. apply sys_any. intros r. wp_step. destruct (_ || _).
    - wp_step. exists done, Idle, []. split; [by apply track_neutral|]. do 3 (split; [done|]). split; [lia|]. split; [done|].
      split; [|done]. rewrite (before_S i c) by (done || lia). by apply completes_skip.
    - eapply alloc_ok; try done; [by apply track_neutral|lia]. }
  destruct c; try (do 2 wp_step; eapply alloc_ok; done || lia); by apply Hopt.
Qed.

Lemma set_pending_ok n i p (w : world vstate vcall vresp) :
  inv (mk_system (PBuf i p) n w) -> wp (set_pending i p) (fun at' w' => inv (mk_system at' n w')) w.
Proof.
  intros (done & ph & outs & Ht & Ho & Hc & Hsc & Hi & -> & Hd & Hn). cbn [world_of at_pc notified out_ok] in *. subst outs.
  specialize (Hsc ltac:(discriminate)). unfold set_pending. do 2 wp_step. case_bool_decide as Hterm; cbn [negb].
  - wp_step. exists done, (Held p), []. do 4 (split; [done|]). split; [done|]. exists i. split; [done|]. right. split; [lia|left].
    destruct n; [done|]. by destruct (Hn eq_refl).
  - do 3 wp_step. exists done, (Held p), []. do 3 (split; [done|]). split; [done|]. split; [done|].
    split; [done|]. split; [done|]. by left.
Qed.
Lemma send_command_ok n i p (w : world vstate vcall vresp) :
  inv (mk_system (PSend i p) n w) -> wp (send_command i p) (fun at' w' => inv (mk_system at' n w')) w.
Proof.
  intros (done & ph & outs & Ht & Ho & Hc & Hsc & Hi & -> & Hd & Hs). cbn [world_of at_pc notified out_ok] in *. subst outs.
  specialize (Hsc ltac:(discriminate)). destruct (lookup_lt_is_Some_2 sc i) as [c Hl]; [lia|].
  unfold send_command. wp_step. eapply load_entry_ok; [done|by apply entry_lt|]. wp_step.
  eapply wp_pure; [reflexivity|]. wp_step. eapply wp_mono; [apply command_ok; by destruct w|].
  intros ok w1 (pre & bytes & r & He & Hpre & _ & -> & Hk & Hnv & Hop). cbn [globals trace] in *.
  destruct Hk as (Kcb & Kch & Ksc & Kst & _). destruct Hc as [Hcb _]. unfold extends in He. cbn [trace] in He.
  assert (can_send w1) as Hc1 by (split; [by rewrite Kcb|done]). rewrite app_assoc in He.
  pose proof (track_neutrals _ _ _ _ _ _ Ht Hpre) as Ht1.
  destruct (Z.eqb_spec (rv r) 0) as [Hr|Hr]; cbn [negb].
  - do 3 wp_step. rewrite (proj1 Hc1). wp_step. apply sys_any. intros r'. do 2 wp_step.
    exists done, Stopped, []. split.
    { cbn [world_of trace]. eapply (track_snoc _ (trace w1) done (Refused p) []); [|cbn [mon_step]; by rewrite Z.eqb_refl|done].
      rewrite He. eapply track_snoc; [exact Ht1|cbn [mon_step]; by rewrite Z.eqb_refl, Hr|cbn [out_step]; by rewrite Hr]. }
    split; [done|]. split; [done|]. split; [intros _; cbn [world_of globals]; by rewrite Ksc|]. split; [done|].
    exists i. split; [done|]. right. split; [lia|by right].
  - wp_step. exists done, (Waiting (opcode_of c)), [handler_of c]. split.
    { cbn [world_of]. rewrite He. eapply track_snoc; [exact Ht1|cbn [mon_step]; by rewrite Z.eqb_refl, (proj2 (Z.eqb_neq _ _) Hr)|].
      cbn [out_step]. by rewrite (proj2 (Z.eqb_neq _ _) Hr). }
    split; [exists (handler_of c); split; [done|]; cbn [world_of]; rewrite <- Hop; by destruct c|].
    split; [done|]. split; [intros _; cbn [world_of]; by rewrite Ksc|]. split; [lia|]. exists c. split; [done|]. left.
    split; [done|]. split; [done|]. unfold told in *. cbn [world_of]. by rewrite Kst.
Qed.

Lemma wait_event_ok n i (w : world vstate vcall vresp) :
  inv (mk_system (PWait i) n w) -> wp (wait_event i) (fun at' w' => inv (mk_system at' n w')) w.
Proof.
  intros (done & ph & outs & Ht & Ho & Hc & Hsc & Hi & c & Hl & Ha). cbn [world_of at_pc notified] in *.
  specialize (Hsc ltac:(discriminate)). unfold wait_event. do 2 wp_step.
  assert (open_phase ph) as Hop by (destruct Ha as [[-> _] | [[-> _] | [-> _]]]; done).
  assert (cmd_status (globals w) = CMD_TERMINATE -> n = true) as Hterm.
  { intros E. unfold awaited, told in Ha. rewrite E in Ha. destruct Ha as [(_ & _ & H) | [(_ & _ & H) | (_ & H)]];
      destruct H as [H | [H _]]; done. }
  destruct (cmd_status (globals w)) eqn:E.
  - wp_step. unfold awaited, told in Ha. rewrite E in Ha.
    destruct Ha as [(_ & _ & H) | [(-> & Hd & _) | (_ & H)]]; [by destruct H as [H | [_ H]]| |by destruct H as [H | [_ H]]].
    exists done, Idle, outs. do 4 (split; [done|]). split; [lia|]. split; [done|]. split; [done|]. cbn [world_of]. by rewrite E.
  - wp_step. exists done, ph, outs. do 4 (split; [done|]). split; [done|]. exists i. split; [done|]. right. split; [lia|].
    unfold awaited, told in Ha. rewrite E in Ha.
    destruct Ha as [(_ & _ & H) | [(_ & _ & H) | (-> & _)]]; [by destruct H as [H | [_ H]]..|by right].
  - wp_step. exists done, ph, outs. do 4 (split; [done|]). split; [lia|]. by exists c.
  - do 3 wp_step. exists done, ph, outs. split; [done|]. split; [by destruct ph|]. do 2 (split; [done|]). split; [done|].
    exists i. split; [done|]. right. split; [lia|left; by apply Hterm].
Qed.

Lemma end_thread_ok n oi (w : world vstate vcall vresp) :
  inv (mk_system (PEnd oi) n w) -> wp (end_thread oi) (fun at' w' => inv (mk_system at' n w')) w.
Proof.
  intros (done & ph & outs & Ht & Ho & Hc & Hsc & Hop & i & -> & Hi). cbn [world_of at_pc notified] in *.
  specialize (Hsc ltac:(discriminate)). unfold end_thread.
  assert (exists e, entry sc i = Some e /\ ((e = None /\ ph = Idle /\ completes (before (length sc)) done)
    \/ (is_Some e /\ (n = true \/ ph = Stopped)))) as (e & He & Hcase).
  { destruct Hi as [(-> & -> & Hd) | [Hi Hn]]; [exists None; split; [apply entry_end|by left]|].
    destruct (lookup_lt_is_Some_2 sc i Hi) as [c Hl]. exists (Some c). split; [by apply entry_lt|]. right. by split. }
  do 2 wp_step. eapply load_entry_ok; [done|exact He|]. do 3 wp_step. rewrite (proj1 Hc). do 2 wp_step. apply sys_any. intros r.
  do 4 wp_step. eexists done, (Reported _ ph), outs. split; [eapply track_snoc; [exact Ht| |done]; by destruct ph|].
  do 3 (split; [done|]). eexists _, ph. split; [reflexivity|].
  destruct Hcase as [(-> & -> & Hd) | [[c ->] Hn]]; [by left|by right].
Qed.

Lemma thread_ok at_ n (w : world vstate vcall vresp) :
  at_ <> PDone -> inv (mk_system at_ n w) -> wp (thread_step at_) (fun at' w' => inv (mk_system at' n w')) w.
Proof.
  intros Hne Hi. destruct at_; cbn [thread_step]; [by apply start_thread_ok|by apply loop_head_ok|by apply set_pending_ok
    |by apply send_command_ok|by apply wait_event_ok|by apply end_thread_ok|done].
Qed.
Lemma event_addr_ok h evt s :
  nvram_ok (bt_nvram s) -> Forall is_u8 evt -> (event_size h <= length evt)%nat ->
  nvram_ok (bt_nvram (with_addr s (event_addr h evt s))).
Proof.
  intros Hn He Hl. destruct (nvram_addr _ Hn). apply set_addr_ok; [done|..]; destruct h; try done; cbn [event_addr event_size] in *.
  - rewrite length_rev, length_take, length_drop. lia.
  - by apply Forall_rev, Forall_take, Forall_drop.
Qed.

Lemma event_inv at_ n (w w' : world vstate vcall vresp) h hs evt :
  inv (mk_system at_ n w) -> outstanding (trace w) = h :: hs -> Forall is_u8 evt ->
  handle_event answer h evt w = Some (tt, w') -> inv (mk_system at_ n w').
Proof.
  intros (done & ph & outs & Ht & Ho & [Hcb Hnv] & Hsc & Hpc) Hout He Hh. cbn [world_of at_pc notified] in *.
  destruct (decide (event_size h <= length evt)%nat) as [Hl|Hl];
    [|by rewrite handle_event_short in Hh by (apply Nat.nle_gt, Hl)].
  destruct (wp_total _ _ _ (handle_event_ok answer h evt w Hl Hcb)) as ([] & w1 & E & [r Et] & Eg).
  rewrite Hh in E. injection E as <-. pose proof Ht as (new & _ & _ & Houts). rewrite Hout in Houts. subst outs.
  assert (can_send w') as Hc' by (split; [by rewrite Eg|rewrite Eg; by apply event_addr_ok]).
  assert (at_ <> PStart -> cur_script (globals w') = Some sc) as Hsc' by (rewrite Eg; done).
  destruct ph as [|p|op|p| |res ph']; cbn [out_ok] in Ho; try discriminate Ho.
  - destruct Ho as (h' & [= <- ->] & Hop). rewrite Hop in Eg.
    set (ph1 := if bool_decide (completion op evt = CMD_SUCCESS) then Idle else Stopped).
    exists (if bool_decide (completion op evt = CMD_SUCCESS) then done ++ [op] else done), ph1, []. split.
    { cbn [world_of]. rewrite Et. eapply track_snoc; [exact Ht|cbn [mon_step]|done]. unfold ph1. by case_bool_decide. }
    split; [unfold ph1; by case_bool_decide|]. split; [done|]. split; [done|]. cbn [at_pc notified world_of].
    destruct at_ as [|i|i p|i p|i|oi|]; cbn [pc_inv] in Hpc |- *; try (destruct Hpc as (_ & [=] & _)).
    + destruct Hpc as (Hi & c & Hl' & Ha). split; [done|]. exists c. split; [done|]. rewrite Eg.
      destruct Ha as [([= ->] & Hd & _) | [([=] & _) | ([=] & _)]]. unfold ph1, awaited, told. cbn [with_status cmd_status].
      destruct (completion_cases (opcode_of c) evt) as [Ec|Ec]; rewrite Ec.
      * rewrite bool_decide_true by done. right; left. split; [done|]. split; [|by left].
        rewrite (before_S i c) by (done || lia). by apply completes_run.
      * rewrite bool_decide_false by done. right; right. split; [done|by left].
    + destruct Hpc as (_ & i & -> & Hi). split; [unfold ph1; by case_bool_decide|]. exists i. split; [done|].
      destruct Hi as [(_ & [=] & _) | (Hi & [-> | [=]])]. right. split; [done|by left].
    + by destruct Hpc as (? & ? & [=] & _).
  - exists done, (Reported res ph'), hs. split; [cbn [world_of]; rewrite Et; by eapply track_snoc|].
    split; [done|]. split; [done|]. split; [done|]. destruct at_; cbn [pc_inv at_pc notified] in *; try done;
      try (by destruct Hpc as (_ & [=] & _)).
    + destruct Hpc as (_ & c & _ & Ha). by destruct Ha as [([=] & _) | [([=] & _) | ([=] & _)]].
Qed.

Lemma notify_inv at_ n (w w' : world vstate vcall vresp) :
  inv (mk_system at_ n w) -> notify_thread_exit w = Some (tt, w') -> inv (mk_system at_ true w').
Proof.
  intros (done & ph & outs & Ht & Ho & Hc & Hsc & Hpc) [= <-]. cbn [world_of at_pc notified] in *.
  exists done, ph, outs. split; [done|]. split; [done|]. split; [done|]. split; [done|]. cbn [world_of at_pc notified globals].
  assert (forall s st, told true (with_status s CMD_TERMINATE) st) as Htold by (intros; by right).
  destruct at_ as [|i|i p|i p|i|oi|]; cbn [pc_inv] in *.
  - destruct Hpc as (-> & -> & [st ->] & _). split; [done|]. split; [done|]. split; [by exists CMD_TERMINATE|done].
  - by destruct Hpc as (? & ? & ? & _).
  - by destruct Hpc as (? & ? & ? & _).
  - destruct Hpc as (? & ? & ? & _). do 3 (split; [done|]). apply Htold.
  - destruct Hpc as (? & c & ? & Ha). split; [done|]. exists c. split; [done|]. unfold awaited in *.
    destruct Ha as [(? & ? & _) | [(? & ? & _) | (? & _)]]; [left|right; left|right; right];
      repeat (split; [done|]); apply Htold.
  - destruct Hpc as (? & i & -> & [Hi | [Hi _]]); (split; [done|]); exists i; (split; [done|]); [by left|].
    right. split; [done|by left].
  - destruct Hpc as (r & ph' & -> & [H | [-> _]]); (eexists _, ph'; split; [reflexivity|]); [by left|]. right. split; [done|by left].
Qed.

Context (Hcan : can_send w0) (Hidle : outstanding (trace w0) = []) (Hfresh : cmd_status (globals w0) <> CMD_TERMINATE).

Lemma inv_start : inv (mk_system PStart false w0).
Proof using All.
  exists [], Idle, []. split; [exists []; by rewrite app_nil_r|]. do 3 (split; [done|]). split; [done|]. split; [done|].
  split; [exists (cmd_status (globals w0)); cbn [world_of]; by destruct (globals w0)|done].
Qed.

Lemma step_inv st st' : step st st' -> inv st -> inv st'.
Proof using Hsel.
  intros Hs Hi. destruct Hs as [at_ n w at' w' E|at_ n w h hs evt w' Ho He E|at_ n w w' E].
  - destruct (decide (at_ = PDone)) as [->|Hne]; [done|]. destruct (wp_total _ _ _ (thread_ok _ _ _ Hne Hi)) as (a & w1 & E' & H').
    rewrite E in E'. injection E' as <- <-. exact H'.
  - by eapply event_inv.
  - by eapply notify_inv.
Qed.

Lemma reachable_inv st : reachable w0 st -> inv st.
Proof using All. intros Hr. refine (rtc_ind_r _ _ inv_start _ _ Hr). intros y z _ Hs Hi. by eapply step_inv. Qed.
Lemma inv_reports st : inv st -> exists new, trace (world_of st) = trace w0 ++ new
  /\ reports new = if decide (at_pc st = PDone) then 1%nat else 0%nat.
Proof using Type.
  intros (done & ph & outs & (new & Et & Hm & _) & _ & _ & _ & Hpc). exists new. split; [done|].
  rewrite (mon_reports _ _ _ Hm). destruct st as [at_ n w]. cbn [at_pc world_of notified] in *. case_decide as Hd.
  - subst. by destruct Hpc as (r & ph' & -> & _).
  - destruct at_; cbn [pc_inv] in Hpc; try done; try (by destruct Hpc as (_ & -> & _)).
    + destruct Hpc as (_ & c & _ & [[-> _] | [[-> _] | [-> _]]]); done.
    + destruct Hpc as (Hop & _). by destruct ph.
Qed.


(** Steps left, not counting waiting. *)
Definition rank (at_ : pc) : nat :=
  match at_ with
  | PStart => 4 * length sc + 9
  | PLoop i => 4 * (length sc - i) + 6
  | PBuf i _ => 4 * (length sc - i) + 5
  | PSend i _ => 4 * (length sc - i) + 4
  | PWait i => 4 * (length sc - i) + 3
  | PEnd _ => 1
  | PDone => 0
  end.

(** What a step can end in. *)
Definition ends {A} (m : IO A) (Q : A -> Prop) (w : world vstate vcall vresp) : Prop :=
  forall a w', m w = Some (a, w') -> Q a.

Lemma ends_bind {A B} (m : IO A) (k : A -> IO B) Q (w : world vstate vcall vresp) :
  (forall a w1, m w = Some (a, w1) -> ends (k a) Q w1) -> ends (io_bind m k) Q w.
Proof. intros Hk b w'. unfold io_bind. destruct (m w) as [[a w1]|] eqn:E; [|done]. by apply Hk. Qed.

Lemma ends_ret {A} (a : A) (Q : A -> Prop) (w : world vstate vcall vresp) : Q a -> ends (io_ret a) Q w.
Proof. by intros HQ ? ? [= <- <-]. Qed.

Lemma load_entry_in (w w1 : world vstate vcall vresp) i c :
  cur_script (globals w) = Some sc -> load_entry i w = Some (Some c, w1) -> (i < length sc)%nat.
Proof.
  intros Hsc. unfold load_entry, io_bind, io_get, io_some, io_pure. rewrite Hsc. cbn [mbind option_bind].
  unfold entry. destruct (Nat.eqb_spec i (length sc)); [done|]. destruct (sc !! i) eqn:E; [|done].
  intros _. by apply lookup_lt_Some in E.
Qed.

Ltac ends_step :=
  match goal with
  | |- ends (io_bind _ _) _ _ => apply ends_bind; intros ? ? ?
  | |- ends (io_ret _) _ _ => apply ends_ret; cbn [rank]; lia
  | |- ends (if ?b then _ else _) _ _ => destruct b
  end.

Lemma rank_step at_ n (w : world vstate vcall vresp) at' w' :
  inv (mk_system at_ n w) -> thread_step at_ w = Some (at', w') ->
  (rank at' < rank at_)%nat \/ (at' = at_ /\ (exists i, at_ = PWait i) /\ cmd_status (globals w) = CMD_PENDING).
Proof.
  intros (done & ph & outs & _ & _ & _ & Hsc & Hpc) E. cbn [world_of at_pc notified] in *.
  enough (ends (thread_step at_) (fun a => (rank a < rank at_)%nat \/
    (a = at_ /\ (exists i, at_ = PWait i) /\ cmd_status (globals w) = CMD_PENDING)) w) as Hends by by eapply Hends.
  assert (forall Q, ends (thread_step at_) (fun a => (rank a < rank at_)%nat) w -> 
    ends (thread_step at_) (fun a => (rank a < rank at_)%nat \/ Q a) w) as Hleft by (intros Q H a w1 Ea; left; by eapply H).
  destruct at_ as [|i|i p|i p|i|oi|]; cbn [thread_step] in *;
    [apply Hleft|apply Hleft|apply Hleft|apply Hleft| |apply Hleft|].
  - unfold start_thread. do 2 (apply ends_bind; intros ? ? _). apply ends_bind. intros s w3 _.
    destruct (cur_script s); [|ends_step]. ends_step; [|ends_step]. do 2 (apply ends_bind; intros ? ? _).
    apply ends_ret. case_match; cbn [rank]; lia.
  - unfold loop_head. apply ends_bind. intros [c|] w1 He; [apply load_entry_in in He; [|by apply Hsc]|]; ends_step; [|ends_step].
    ends_step; [ends_step|]. ends_step. ends_step; [ends_step|]. ends_step. ends_step; ends_step.
  - unfold set_pending. ends_step. ends_step; [ends_step|]; ends_step.
  - unfold send_command. do 3 ends_step. ends_step; repeat ends_step.
  - unfold wait_event. apply ends_bind. intros s w1 [= <- <-]. destruct Hpc as (Hi & _).
    destruct (cmd_status (globals w)) eqn:Est; repeat (apply ends_bind; intros ? ? ?); apply ends_ret; cbn [rank]; eauto; left; lia.
  - unfold end_thread. repeat ends_step.
  - by intros a w1 [=].
Qed.

(** The initialisation ends. As long as the thread has not ended it can take a step, and each
    step brings the end nearer, except that a thread whose command is pending waits; then the stack
    still owes the event of that command, and whatever event of sufficient length it brings, the
    thread is no longer waiting. *)
Theorem init_thread_terminates (st : system) :
  reachable w0 st -> at_pc st <> PDone ->
  exists at' w', thread_step (at_pc st) (world_of st) = Some (at', w') /\
    ((rank at' < rank (at_pc st))%nat
     \/ (at' = at_pc st /\ cmd_status (globals (world_of st)) = CMD_PENDING
         /\ exists h, outstanding (trace (world_of st)) = [h]
         /\ forall evt, (event_size h <= length evt)%nat ->
             exists w1, handle_event answer h evt (world_of st) = Some (tt, w1) /\ cmd_status (globals w1) <> CMD_PENDING)).
Proof using All.
  intros Hr Hne. pose proof (reachable_inv _ Hr) as Hi. destruct st as [at_ n w]. cbn [at_pc world_of] in *.
  destruct (wp_total _ _ _ (thread_ok _ _ _ Hne Hi)) as (at' & w' & E & _). exists at', w'. split; [done|].
  destruct (rank_step _ _ _ _ _ Hi E) as [Hlt | (-> & [i ->] & Hp)]; [by left|right]. split; [done|]. split; [done|].
  destruct Hi as (done & ph & outs & (_ & _ & _ & Ho) & Hok & [Hcb _] & _ & _ & c & _ & Ha). cbn [at_pc world_of notified] in *.
  unfold awaited, told in Ha. rewrite Hp in Ha.
  destruct Ha as [(-> & _) | [(_ & _ & H) | (_ & H)]]; [|by destruct H as [H | [_ H]]..].
  destruct Hok as (h & -> & _). exists h. split; [done|]. intros evt Hl.
  destruct (wp_total _ _ _ (handle_event_ok answer h evt w Hl Hcb)) as ([] & w1 & E1 & _ & Eg). exists w1. split; [done|].
  rewrite Eg. cbn [with_status cmd_status]. by destruct (completion_cases (event_op h (globals w)) evt) as [-> | ->].
Qed.
End Run.

(** A chip without a script: nothing is sent, and failure is reported. *)
Definition inv_unknown (w0 : world vstate vcall vresp) (st : system) : Prop :=
  let w := world_of st in
  bt_vnd_cbacks (globals w) = true /\ cur_script (globals w) = None /\ chip_id (globals w) = chip_id (globals w0) /\
  match at_pc st with
  | PStart | PEnd None => trace w = trace w0
  | PDone => exists r, trace w = trace w0 ++ [(Cfwcfg BT_VND_OP_RESULT_FAIL, r)]
  | _ => False
  end.

Lemma unknown_chip w0 st :
  select_script (chip_id (globals w0)) = None -> cur_script (globals w0) = None -> bt_vnd_cbacks (globals w0) = true ->
  outstanding (trace w0) = [] -> reachable w0 st -> inv_unknown w0 st.
Proof.
  intros Hsel Hsc Hcb Hout Hr. refine (rtc_ind_r _ _ _ _ _ Hr); [by split_and!|].
  intros y z _ Hs (Ycb & Ysc & Ychip & Hy).
  destruct Hs as [at_ n w at' w' E|at_ n w h hs evt w' Ho He E|at_ n w w' [= <-]]; cbn [world_of at_pc] in *; [| |done].
  - destruct at_ as [|i|i p|i p|i|[i|]|]; cbn [thread_step] in E; try done.
    + assert (wp start_thread (fun a w' => a = PEnd None /\ w' = w) w) as H.
      { unfold start_thread. do 3 wp_step. rewrite Ychip, Hsel. do 3 wp_step. rewrite Ysc. by wp_step. }
      destruct (wp_total _ _ _ H) as (? & ? & E' & -> & ->). rewrite E in E'. by injection E' as -> ->.
    + assert (wp (end_thread None) (fun a w' => inv_unknown w0 (mk_system a n w')) w) as H.
      { unfold end_thread. do 4 wp_step. rewrite Ycb. do 2 wp_step. apply sys_any. intros r. do 4 wp_step.
        split_and!; [done..|]. exists r. cbn [world_of trace]. by rewrite Hy. }
      destruct (wp_total _ _ _ H) as (? & ? & E' & HI). rewrite E in E'. injection E' as -> ->. exact HI.
  - exfalso. destruct at_ as [|i|i p|i p|i|[i|]|]; try done; [by rewrite Hy, Hout in Ho..|].
    destruct Hy as [r Hy]. by rewrite Hy, outstanding_snoc, Hout in Ho.
Qed.

(** A request to exit that finds the thread outside its wait is never taken back: a later
    initialisation, which finds the status still at "terminate", sends no command at all and reports
    failure, and leaves the status as it found it for the next one. *)
Theorem terminate_sticks (w0 : world vstate vcall vresp) (sc : list command) (def : list Z) (fgConsys : bool) :
  select_script (chip_id (globals w0)) = Some (sc, def, fgConsys) -> bt_vnd_cbacks (globals w0) = true ->
  cmd_status (globals w0) = CMD_TERMINATE ->
  exists i w1 w2 w3 r, thread_step PStart w0 = Some (PLoop i, w1) /\ thread_step (PLoop i) w1 = Some (PEnd (Some i), w2)
    /\ thread_step (PEnd (Some i)) w2 = Some (PDone, w3)
    /\ trace w3 = trace w0 ++ [(Cfwcfg BT_VND_OP_RESULT_FAIL, r)] /\ cmd_status (globals w3) = CMD_TERMINATE.
Proof.
  intros Hsel Hcb Ht. pose proof (scripts_nonempty w0 sc def fgConsys Hsel) as Hlen.
  assert (wp start_thread (fun at' w1 => exists i, at' = PLoop i /\ (i < length sc)%nat /\ cur_script (globals w1) = Some sc
    /\ bt_vnd_cbacks (globals w1) = true /\ cmd_status (globals w1) = CMD_TERMINATE /\ trace w1 = trace w0) w0) as H1.
  { unfold start_thread. do 3 wp_step. rewrite Hsel. do 5 wp_step. cbn [globals cur_script with_default with_btinit].
    destruct fgConsys; cbn [negb]; [wp_step; by exists 0%nat|]. wp_step.
    assert (1 < length sc)%nat as Hlen2.
    { clear - Hsel. unfold select_script in Hsel. repeat (destruct (_ =? _); [injection Hsel as <- _; simpl; lia|]).
      by destruct (existsb _ _). }
    destruct (_ || _); do 4 wp_step; (eexists; split; [reflexivity|]); (split; [case_match; lia|done]). }
  destruct (wp_total _ _ _ H1) as (? & w1 & E1 & i & -> & Hi & Hsc & Hcb1 & Ht1 & Etr).
  destruct (lookup_lt_is_Some_2 sc i Hi) as [c Hl].
  assert (wp (loop_head i) (fun at' w2 => at' = PEnd (Some i) /\ w2 = w1) w1) as H2.
  { unfold loop_head. wp_step. eapply load_entry_ok; [done|by apply entry_lt|]. do 2 wp_step.
    rewrite bool_decide_true by done. by wp_step. }
  destruct (wp_total _ _ _ H2) as (? & ? & E2 & -> & ->).
  assert (wp (end_thread (Some i)) (fun at' w3 => at' = PDone /\ (exists r, trace w3 = trace w0 ++ [(Cfwcfg BT_VND_OP_RESULT_FAIL, r)])
    /\ cmd_status (globals w3) = CMD_TERMINATE) w1) as H3.
  { unfold end_thread. do 2 wp_step. eapply load_entry_ok; [done|by apply entry_lt|]. do 3 wp_step. rewrite Hcb1. do 2 wp_step.
    apply sys_any. intros r. do 4 wp_step. split; [done|]. split; [exists r; cbn [trace]; by rewrite Etr|done]. }
  destruct (wp_total _ _ _ H3) as (? & w3 & E3 & -> & [r Er] & Es). by exists i, w1, w1, w3, r.
Qed.
End Thread.

(** ** Witnesses *)
Lemma vworld0_idle : outstanding (trace vworld0) = [].
Proof. reflexivity. Qed.

(** The 6630 in an engineering build, with a stack that answers every command at once. *)
Definition drive (answer : list (vcall * vresp) -> vcall -> vresp) (st : pc * world vstate vcall vresp) :
    pc * world vstate vcall vresp :=
  let '(at_, w) := st in
  match at_, outstanding (trace w) with
  | PWait _, h :: _ =>
      let op := event_op h (globals w) in
      match handle_event answer h ([0x0E; 10; 1; u8 op; u8 (op / 256); 0; 1; 2; 3; 4; 5; 6]) w with
      | Some (_, w') => (at_, w')
      | None => st
      end
  | _, _ => match thread_step answer true false true at_ w with Some st' => st' | None => st end
  end.

Definition driven : pc * world vstate vcall vresp := Nat.iter 60 (drive vanswer0) (PStart, vworld0).

Lemma drive_step answer n st :
  rtc (step answer true false true) (mk_system st.1 n st.2) (mk_system (drive answer st).1 n (drive answer st).2).
Proof.
  destruct st as [at_ w].
  assert (forall st', thread_step answer true false true at_ w = st' ->
    rtc (step answer true false true) (mk_system at_ n w)
      (mk_system (match st' with Some st' => st' | None => (at_, w) end).1 n
         (match st' with Some st' => st' | None => (at_, w) end).2)) as Hstep.
  { intros [[at' w']|] E; [|apply rtc_refl]. apply rtc_once. by apply step_thread. }
  unfold drive. destruct at_ as [|i|i p|i p|i|oi|]; try by apply Hstep.
  destruct (outstanding (trace w)) as [|h hs] eqn:Eo; [by apply Hstep|].
  case_match eqn:Eh; [|apply rtc_refl]. case_match. subst. apply rtc_once.
  eapply step_event; [exact Eo| |destruct u; exact Eh].
  repeat (apply Forall_cons_2; [first [apply (wrapu_range 8); lia | unfold is_u8; lia]|]). apply Forall_nil_2.
Qed.

Lemma driven_reachable n : reachable vanswer0 true false true vworld0
  (mk_system (Nat.iter n (drive vanswer0) (PStart, vworld0)).1 false (Nat.iter n (drive vanswer0) (PStart, vworld0)).2).
Proof.
  unfold reachable. induction n as [|n IH]; [apply rtc_refl|]. etrans; [exact IH|]. apply drive_step.
Qed.

Lemma vworld0_script : select_script false true (chip_id (globals vworld0))
  = Some (bt_init_preload_script_6630, addr (stBtDefault_6630 false true), false).
Proof. reflexivity. Qed.

Lemma driven_done : driven.1 = PDone /\ mon_run ([], Idle) (trace driven.2)
  = Some ([0x1009; 0xFC1A; 0xFC72; 0xFC79; 0xFC93; 0xFC7A; 0xFC22], Reported 0 Idle).
Proof. vm_compute. by split. Qed.

Lemma driven_reachable60 : reachable vanswer0 true false true vworld0 (mk_system driven.1 false driven.2).
Proof. exact (driven_reachable 60). Qed.


Lemma init_thread_terminates_witness : exists at' w', thread_step vanswer0 true false true PStart vworld0 = Some (at', w').
Proof.
  destruct (init_thread_terminates vanswer0 true false true vworld0 _ _ _ vworld0_script vworld0_can_send eq_refl ltac:(done)
    (mk_system PStart false vworld0) (driven_reachable 0) ltac:(done)) as (at' & w' & E & _).
  exists at', w'. exact E.
Defined.

Lemma terminate_sticks_witness : exists (w3 : world vstate vcall vresp) r,
  trace w3 = [(Cfwcfg BT_VND_OP_RESULT_FAIL, r)] /\ cmd_status (globals w3) = CMD_TERMINATE.
Proof.
  destruct (terminate_sticks vanswer0 true false true (World (with_status (globals vworld0) CMD_TERMINATE) []) _ _ _
    vworld0_script eq_refl eq_refl) as (i & w1 & w2 & w3 & r & _ & _ & _ & Et & Es).
  exists w3, r. split; [exact Et|exact Es].
Defined.
