(* ===== verification/VndDriver.v ===== *)
(** The vendor interface of libbt-vendor: chip identification, NVRAM and UART (mtk.c), starting
    and stopping the initialisation thread (radiomgr.c), and the operations the stack calls
    (bt_drv.c). *)
From S2P Require Import Prelude CString VndState VndRadio VndInit.

(** ** Strings *)

(** Hexadecimal digits. *)
Definition xdigit (c : Z) : option Z :=
  if (48 <=? c) && (c <=? 57) then Some (c - 48)
  else if (65 <=? c) && (c <=? 70) then Some (c - 55)
  else if (97 <=? c) && (c <=? 102) then Some (c - 87)
  else None.

(** The longest prefix of hexadecimal digits, as a number. *)
Fixpoint xdigits (acc : Z) (s : list Z) : Z :=
  match s with
  | c :: s' => match xdigit c with Some d => xdigits (16 * acc + d) s' | None => acc end
  | [] => acc
  end.

(** The prefix "0x" counts only before a digit. *)
Definition skip_0x (s : list Z) : list Z :=
  match s with
  | 48 :: x :: d :: _ => if ((x =? 120) || (x =? 88)) && bool_decide (is_Some (xdigit d)) then drop 2 s else s
  | _ => s
  end.

(** [strtoul(s, NULL, 16)] for an [unsigned long] with the maximum [ulong_max]. *)
Definition strtoul16 (ulong_max : Z) (s : list Z) : Z :=
  let s := skip_space s in
  let '(neg, s) := match s with 45 :: s' => (true, s') | 43 :: s' => (false, s') | _ => (false, s) end in
  let v := xdigits 0 (skip_0x s) in
  if ulong_max <? v then ulong_max
  else if neg then (- v) mod (ulong_max + 1) else v.

Definition str_minus1 : list Z := [45; 49].
Definition str_Ready : list Z := [82; 101; 97; 100; 121].

(** The operations of [bt_vendor_opcode_t]. *)
Inductive bt_vendor_opcode_t :=
  | BT_VND_OP_POWER_CTRL | BT_VND_OP_FW_CFG | BT_VND_OP_SCO_CFG | BT_VND_OP_USERIAL_OPEN | BT_VND_OP_USERIAL_CLOSE
  | BT_VND_OP_GET_LPM_IDLE_TIMEOUT | BT_VND_OP_LPM_SET_MODE | BT_VND_OP_LPM_WAKE_SET_STATE
  | BT_VND_OP_SET_AUDIO_STATE | BT_VND_OP_EPILOG | BT_VND_OP_A2DP_OFFLOAD_START | BT_VND_OP_A2DP_OFFLOAD_STOP.

#[export] Instance opcode_eq_dec : EqDecision bt_vendor_opcode_t.
Proof. solve_decision. Defined.

Section Driver.
Context (answer : list (vcall * vresp) -> vcall -> vresp).
Context (autogen merge_interface i2s : bool).
(** The maximum of [unsigned long]. *)
Context (ulong_max : Z).

Abbreviation IO := (io vstate vcall vresp).
Abbreviation sys := (sys answer).

(** ** mtk.c *)
Fixpoint is_memzero (buf : list Z) : bool :=
  match buf with [] => true | b :: buf => if negb (b =? 0) then false else is_memzero buf end.

Definition set_callbacks (p_cb : bool) : IO unit := io_mod (fun s => with_cbacks s p_cb).
Definition clean_callbacks : IO unit := io_mod (fun s => with_cbacks s false).

Definition init_uart : IO Z :=
  do r <- sys Copen_uart;
  do _ <- io_mod (fun s => with_fd s (rv r));
  if rv r <? 0 then io_ret (-1) else io_ret (rv r).

Definition close_uart : IO unit :=
  do s <- io_get;
  do _ <- (if 0 <=? bt_fd s then do _ <- sys (Cclose (bt_fd s)); io_ret tt else io_ret tt);
  io_mod (fun s => with_fd s (-1)).

(** [do { ... } while (retry < 10)], [n] being [10 - retry]; the number of retries and the value
    read last. *)
Fixpoint poll (k : prop) (ready : list Z -> bool) (n : nat) (retry : Z) : IO (Z * list Z) :=
  do r <- sys (Cproperty_get k);
  if negb (rv r =? 0) && ready (rdata r) then io_ret (retry, rdata r)
  else
    do _ <- sys (Cusleep 500000);
    match n with
    | S (S _ as n) => poll k ready n (retry + 1)
    | _ => io_ret (retry + 1, rdata r)
    end.

Definition bt_get_combo_id : IO (option Z) :=
  do p <- poll persist_mtk_wcn_combo_chipid (fun v => negb (bool_decide (v = str_minus1))) 10 0;
  let '(retry, val) := p in
  if 10 <=? retry then io_ret None else io_ret (Some (u32 (strtoul16 ulong_max val))).

(** [stack] is what the uninitialised structure holds that is read into. *)
Definition bt_read_nvram (stack : list Z) : IO (option (list Z)) :=
  do p <- poll service_nvram_init (fun v => bool_decide (v = str_Ready)) 10 0;
  let '(retry, val) := p in
  if 10 <=? retry then io_ret None
  else
    do f <- sys (CNVM_GetFileDesc 1);
    if rv f <? 0 then io_ret None
    else if negb (rrec_num f =? 1) then
      do _ <- sys (CNVM_CloseFileDesc (rv f)); io_ret None
    else if negb (rrec_size f =? Z.of_nat nvram_size) then
      do _ <- sys (CNVM_CloseFileDesc (rv f)); io_ret None
    else
      do n <- sys (Cread (rv f) (rrec_num f * rrec_size f));
      if rv n <? 0 then
        do _ <- sys (CNVM_CloseFileDesc (rv f)); io_ret None
      else
        do _ <- sys (CNVM_CloseFileDesc (rv f));
        io_ret (Some (rdata n ++ drop (length (rdata n)) stack)).

(** The defaults of a chip. *)
Definition default_nvram (chipId : Z) : option nvram :=
  if chipId =? 0x6628 then Some (stBtDefault_6628 merge_interface)
  else if chipId =? 0x6630 then Some (stBtDefault_6630 merge_interface i2s)
  else if chipId =? 0x6632 then Some (stBtDefault_6632 merge_interface i2s)
  else if chipId =? 0x7662 then Some stBtDefault_7662
  else if existsb (Z.eqb chipId) consys_chips then Some stBtDefault_consys
  else None.

(** ** radiomgr.c *)
Definition BT_InitDevice (chipId : Z) (pucNvRamData : list Z) : IO bool :=
  do _ <- io_mod (fun s => with_running (with_btinit s chipId (of_raw pucNvRamData) None) false);
  do r <- sys Cpthread_create;
  if negb (rv r =? 0) then io_ret false
  else do _ <- io_mod (fun s => with_running s true); io_ret true.

Definition BT_DeinitDevice : IO bool := io_ret true.

Definition BT_Cleanup : IO unit :=
  do s <- io_get;
  do _ <- (if worker_thread_running s then notify_thread_exit else io_ret tt);
  do _ <- sys Cpthread_join;
  io_ret tt.

(** ** mtk.c, continued *)
Definition mtk_fw_cfg (stack : list Z) : IO Z :=
  do chip <- bt_get_combo_id;
  match chip with
  | None => io_ret (-1)
  | Some chipId =>
      do read <- bt_read_nvram stack;
      let data :=
        match read with
        | Some d => if is_memzero d then raw <$> default_nvram chipId else Some d
        | None => raw <$> default_nvram chipId
        end in
      match data with
      | None => io_ret (-1)
      | Some ucNvRamData =>
          do ok <- BT_InitDevice chipId ucNvRamData;
          io_ret (if ok then 0 else -1)
      end
  end.

Definition mtk_prepare_off : IO Z :=
  do s <- io_get;
  do _ <- (if bt_vnd_cbacks s then do _ <- sys (Cepilog BT_VND_OP_RESULT_SUCCESS); io_ret tt else io_ret tt);
  io_ret 0.

Definition clean_resource : IO unit := BT_Cleanup.

(** ** bt_drv.c *)
Definition mtk_bt_init (p_cb : bool) : IO Z := do _ <- set_callbacks p_cb; io_ret 0.

(** The result, and what is stored at [param], if anything. *)
Definition mtk_bt_op (stack : list Z) (opcode : bt_vendor_opcode_t) : IO (Z * option Z) :=
  match opcode with
  | BT_VND_OP_POWER_CTRL => io_ret (0, None)
  | BT_VND_OP_USERIAL_OPEN => do fd <- init_uart; io_ret (1, Some fd)
  | BT_VND_OP_USERIAL_CLOSE => do _ <- close_uart; io_ret (0, None)
  | BT_VND_OP_FW_CFG => do ret <- mtk_fw_cfg stack; io_ret (ret, None)
  | BT_VND_OP_GET_LPM_IDLE_TIMEOUT => io_ret (0, Some 5000)
  | BT_VND_OP_LPM_SET_MODE => io_ret (0, None)
  | BT_VND_OP_LPM_WAKE_SET_STATE => io_ret (0, None)
  | BT_VND_OP_EPILOG => do ret <- mtk_prepare_off; io_ret (ret, None)
  | _ => io_ret (-1, None)
  end.

Definition mtk_bt_cleanup : IO unit := do _ <- clean_resource; clean_callbacks.

(** ** Polling a property *)

(** [tr] asks for [k] and sleeps between, [n] times at most; a value that is [ready] came last
    when fewer than [n] sleeps were made. *)
Inductive polled (k : prop) (ready : list Z -> bool) : nat -> list (vcall * vresp) -> option (list Z) -> Prop :=
  | polled_ready n r : rv r <> 0 -> ready (rdata r) = true -> polled k ready (S n) [(Cproperty_get k, r)] (Some (rdata r))
  | polled_last r u : rv r = 0 \/ ready (rdata r) = false ->
      polled k ready 1 [(Cproperty_get k, r); (Cusleep 500000, u)] None
  | polled_again n r u tr o : rv r = 0 \/ ready (rdata r) = false -> polled k ready (S n) tr o ->
      polled k ready (S (S n)) ((Cproperty_get k, r) :: (Cusleep 500000, u) :: tr) o.

Lemma polled_neutral k ready n tr o : polled k ready n tr o -> neutrals tr.
Proof. unfold neutrals. by induction 1; repeat apply Forall_cons_2. Qed.

Lemma poll_ok k ready n retry (w : world vstate vcall vresp) (Q : Z * list Z -> world vstate vcall vresp -> Prop) :
  (forall p tr, polled k ready (S n) tr (if retry + Z.of_nat n <? p.1 then None else Some p.2) -> p.1 <= retry + Z.of_nat n + 1 ->
     Q p (World (globals w) (trace w ++ tr))) ->
  wp (poll k ready (S n) retry) Q w.
Proof.
  revert retry w Q. induction n as [|n IH]; intros retry w Q HQ; cbn [poll]; wp_step; apply sys_any; intros r;
    (destruct (negb (rv r =? 0) && ready (rdata r)) eqn:E;
     [wp_step; apply andb_true_iff in E as [E1 E2]; apply HQ; [|cbn [fst]; lia];
      cbn [fst]; rewrite (proj2 (Z.ltb_ge _ _)) by lia; apply polled_ready; [by apply negb_true_iff, Z.eqb_neq in E1|done]|]);
    (assert (rv r = 0 \/ ready (rdata r) = false) as Hr
      by (apply andb_false_iff in E as [E|E]; [left; by apply negb_false_iff, Z.eqb_eq in E|by right]));
    wp_step; apply sys_any; intros u; cbn [globals trace].
  - wp_step. rewrite <- app_assoc. apply HQ; [|cbn [fst]; lia]. cbn [fst]. rewrite (proj2 (Z.ltb_lt _ _)) by lia. by apply polled_last.
  - apply IH. intros p tr Hp Hle. cbn [globals trace]. rewrite <- !app_assoc. apply HQ; [|lia]. cbn [app]. apply polled_again; [done|].
    by replace (retry + Z.of_nat (S n)) with (retry + 1 + Z.of_nat n) by lia.
Qed.

(** ** Reading NVRAM *)

(** A file holds octets, and a read yields no more of them than were asked for. *)
Definition reads_octets : Prop :=
  forall tr fd n, (length (rdata (answer tr (Cread fd n))) <= Z.to_nat n)%nat /\ Forall is_u8 (rdata (answer tr (Cread fd n))).

Definition record_octets (d : list Z) : Prop := length d = 64%nat /\ Forall is_u8 d.


(** The calls of a read, and the record it yields. *)
Definition nvram_read (stack : list Z) (tr : list (vcall * vresp)) (o : option (list Z)) : Prop :=
  exists f, (rv f < 0 /\ o = None /\ tr = [(CNVM_GetFileDesc 1, f)])
  \/ (exists c, 0 <= rv f /\ (rrec_num f <> 1 \/ rrec_size f <> 64) /\ o = None
        /\ tr = [(CNVM_GetFileDesc 1, f); (CNVM_CloseFileDesc (rv f), c)])
  \/ (exists n c, 0 <= rv f /\ rrec_num f = 1 /\ rrec_size f = 64
        /\ o = (if rv n <? 0 then None else Some (rdata n ++ drop (length (rdata n)) stack))
        /\ tr = [(CNVM_GetFileDesc 1, f); (Cread (rv f) 64, n); (CNVM_CloseFileDesc (rv f), c)]).

Definition is_ready (v : list Z) : bool := bool_decide (v = str_Ready).

(** The daemon is waited for, then the record is read. *)
Definition nvram_fetched (stack : list Z) (tr : list (vcall * vresp)) (o : option (list Z)) : Prop :=
  (polled service_nvram_init is_ready 10 tr None /\ o = None)
  \/ (exists polls rest v, tr = polls ++ rest /\ polled service_nvram_init is_ready 10 polls (Some v) /\ nvram_read stack rest o).

Lemma bt_read_nvram_ok stack (w : world vstate vcall vresp) :
  wp (bt_read_nvram stack) (fun o w' => globals w' = globals w
    /\ (exists tr, trace w' = trace w ++ tr /\ nvram_fetched stack tr o)
    /\ (reads_octets -> record_octets stack -> forall d, o = Some d -> record_octets d)) w.
Proof.
  unfold bt_read_nvram. change (Z.of_nat nvram_size) with 64. wp_step. apply (poll_ok _ is_ready 9).
  intros [retry val] polls Hp _. cbn [fst snd] in Hp. change (0 + Z.of_nat 9) with 9 in Hp.
  destruct (Z.leb_spec 10 retry) as [Hr|Hr].
  { wp_step. split; [done|]. split; [|done]. exists polls. split; [done|]. left.
    by rewrite (proj2 (Z.ltb_lt 9 retry)) in Hp by lia. }
  rewrite (proj2 (Z.ltb_ge 9 retry)) in Hp by lia.
  assert (forall (o : option (list Z)) rest (w' : world vstate vcall vresp), globals w' = globals w ->
    trace w' = trace w ++ polls ++ rest -> nvram_read stack rest o ->
    (reads_octets -> record_octets stack -> forall d, o = Some d -> record_octets d) -> globals w' = globals w
    /\ (exists tr, trace w' = trace w ++ tr /\ nvram_fetched stack tr o)
    /\ (reads_octets -> record_octets stack -> forall d, o = Some d -> record_octets d)) as Hend.
  { intros o rest w' Eg Et Ho Hd. split; [done|]. split; [|done]. exists (polls ++ rest). split; [done|]. right. by exists polls, rest, val. }
  wp_step. apply sys_any. intros f. cbn [globals trace].
  destruct (Z.ltb_spec (rv f) 0).
  { wp_step. eapply Hend; [done|cbn [trace]; by rewrite <- app_assoc| |done]. exists f. by left. }
  destruct (Z.eqb_spec (rrec_num f) 1) as [En|]; cbn [negb].
  2:{ wp_step. apply sys_any. intros c. wp_step. eapply Hend; [done|cbn [trace]; by rewrite <- !app_assoc| |done].
      exists f. right; left. exists c. split_and!; auto. }
  destruct (Z.eqb_spec (rrec_size f) 64) as [Es|]; cbn [negb].
  2:{ wp_step. apply sys_any. intros c. wp_step. eapply Hend; [done|cbn [trace]; by rewrite <- !app_assoc| |done].
      exists f. right; left. exists c. split_and!; auto. }
  rewrite En, Es. change (1 * 64) with 64. wp_step. apply sys_eq. intros n En'.
  assert (reads_octets -> record_octets stack -> record_octets (rdata n ++ drop (length (rdata n)) stack)) as Hoct.
  { intros Hro [Hsl Hsu]. pose proof (Hro (trace w ++ polls ++ [(CNVM_GetFileDesc 1, f)]) (rv f) 64) as [Hl Hu].
    cbn [globals trace] in En'. rewrite <- app_assoc in En'. rewrite <- En' in Hl, Hu. split; [rewrite length_app, length_drop; lia|]. apply Forall_app. split; [done|by apply Forall_drop]. }
  destruct (Z.ltb_spec (rv n) 0) as [Hn|Hn]; wp_step; apply sys_any; intros c; wp_step;
    (eapply Hend; [done|cbn [trace]; by rewrite <- !app_assoc| |by intros ? ? ? [= <-]; auto]); exists f; right; right; exists n, c; split_and!; try done;
    [by rewrite (proj2 (Z.ltb_lt _ _) Hn)|by rewrite (proj2 (Z.ltb_ge _ _) Hn)].
Qed.

Lemma bt_get_combo_id_ok (w : world vstate vcall vresp) :
  wp bt_get_combo_id (fun o w' => globals w' = globals w /\ exists tr v, trace w' = trace w ++ tr
    /\ polled persist_mtk_wcn_combo_chipid (fun v => negb (bool_decide (v = str_minus1))) 10 tr v
    /\ o = (v ← v; Some (u32 (strtoul16 ulong_max v)))) w.
Proof.
  unfold bt_get_combo_id. wp_step. apply (poll_ok _ _ 9). intros [retry val] tr Hp _. cbn [fst snd] in Hp.
  change (0 + Z.of_nat 9) with 9 in Hp.
  destruct (Z.leb_spec 10 retry) as [Hr|Hr]; wp_step; (split; [done|]); exists tr; [rewrite (proj2 (Z.ltb_lt 9 retry)) in Hp by lia; by exists None|].
  rewrite (proj2 (Z.ltb_ge 9 retry)) in Hp by lia. by exists (Some val).
Qed.

(** Reading the NVRAM record: the daemon is asked for at most ten times, half a second
    apart; a record is read, 64 octets in one go, only when the daemon is ready and keeps one record of that
    size; the descriptor that was opened is closed on every path, and is the last call. What a short
    read leaves out of the record is what the stack happened to hold. *)
Theorem bt_read_nvram_correct (stack : list Z) (w : world vstate vcall vresp) :
  exists o w' tr, bt_read_nvram stack w = Some (o, w') /\ globals w' = globals w
    /\ trace w' = trace w ++ tr /\ nvram_fetched stack tr o
    /\ (reads_octets -> record_octets stack -> forall d, o = Some d -> record_octets d).
Proof.
  destruct (wp_total _ _ _ (bt_read_nvram_ok stack w)) as (o & w' & E & Eg & (tr & Et & Ho) & Hd). by exists o, w', tr.
Qed.

(** ** Configuring the firmware *)

(** The record the chip is set up with. *)
Definition chosen_record (chipId : Z) (o : option (list Z)) : option (list Z) :=
  match o with
  | Some d => if is_memzero d then raw <$> default_nvram chipId else Some d
  | None => raw <$> default_nvram chipId
  end.

(** How [mtk_fw_cfg] ends, with result [r] and the calls [tr]: the chip cannot be identified; it has
    no record and no default; or a thread is created for the chip and its record. *)
Definition configured (stack : list Z) (s : vstate) (r : Z) (s' : vstate) (tr : list (vcall * vresp)) : Prop :=
  exists id v, polled persist_mtk_wcn_combo_chipid (fun v => negb (bool_decide (v = str_minus1))) 10 id v /\
  match v with
  | None => r = -1 /\ s' = s /\ tr = id
  | Some v =>
      let chipId := u32 (strtoul16 ulong_max v) in
      exists rd o, nvram_fetched stack rd o /\
      match chosen_record chipId o with
      | None => r = -1 /\ s' = s /\ tr = id ++ rd
      | Some d => exists t, tr = id ++ rd ++ [(Cpthread_create, t)]
          /\ r = (if rv t =? 0 then 0 else -1)
          /\ s' = with_running (with_btinit s chipId (of_raw d) None) (rv t =? 0)
      end
  end.

Lemma of_raw_ok d : record_octets d -> nvram_ok (of_raw d).
Proof.
  intros [Hl Hu]. split.
  - do 64 (destruct d as [|? d]; [discriminate Hl|]). by destruct d.
  - unfold of_raw, nvram_fields. cbn [addr Voice Codec Radio Sleep BtFTR TxPWOffset CoexAdjust Radio_ext TxPWOffset_ext
      Reserved1 Reserved2 Reserved3 Reserved4].
    repeat (apply Forall_cons; [by apply Forall_take, Forall_drop|]). apply Forall_nil_2.
Qed.

Lemma default_octets chipId d : raw <$> default_nvram chipId = Some d -> record_octets d.
Proof.
  unfold default_nvram. repeat (destruct (_ =? _); [intros [= <-]; split; [by destruct merge_interface, i2s|
    destruct merge_interface, i2s; by_compute]|]).
  destruct (existsb _ _); [|done]. intros [= <-]. split; [done|by_compute].
Qed.

Lemma chosen_octets chipId o d :
  (forall d, o = Some d -> record_octets d) -> chosen_record chipId o = Some d -> record_octets d.
Proof.
  intros Ho. unfold chosen_record. destruct o as [d'|]; [|apply default_octets].
  destruct (is_memzero d'); [apply default_octets|]. intros [= <-]. by apply Ho.
Qed.

Lemma mtk_fw_cfg_ok stack (w : world vstate vcall vresp) :
  wp (mtk_fw_cfg stack) (fun r w' => exists tr, trace w' = trace w ++ tr
    /\ configured stack (globals w) r (globals w') tr
    /\ (reads_octets -> record_octets stack -> r = 0 -> nvram_ok (bt_nvram (globals w')))) w.
Proof.
  unfold mtk_fw_cfg. wp_step. eapply wp_mono; [apply bt_get_combo_id_ok|].
  intros o w1 (E1 & id & v & Et1 & Hid & ->). destruct v as [v|]; cbn [mbind option_bind].
  2:{ wp_step. exists id. split; [done|]. split; [by exists id, None|done]. }
  set (chip := u32 (strtoul16 ulong_max v)). wp_step. eapply wp_mono; [apply bt_read_nvram_ok|].
  intros o w2 (E2 & (rd & Et2 & Ho) & Hd). fold (chosen_record chip o). destruct (chosen_record chip o) as [d|] eqn:Ed.
  2:{ wp_step. exists (id ++ rd). rewrite Et2, Et1, app_assoc, E2, E1. split; [done|]. split; [|done].
      exists id, (Some v). split; [done|]. exists rd, o. split; [done|]. fold chip. by rewrite Ed. }
  wp_step. unfold BT_InitDevice. do 3 wp_step. apply sys_any. intros t. cbn [globals trace].
  destruct (rv t =? 0) eqn:Er; cbn [negb]; repeat wp_step; exists (id ++ rd ++ [(Cpthread_create, t)]);
    (split; [cbn [trace]; rewrite Et2, Et1; by rewrite <- !app_assoc|]);
    (split; [|by intros Hro Hst _; apply of_raw_ok; eapply chosen_octets; [|exact Ed]; auto]);
    exists id, (Some v); (split; [done|]); exists rd, o; (split; [done|]); fold chip; rewrite Ed; exists t; rewrite Er; cbn [globals]; rewrite E2, E1; by split_and!.
Qed.


(** Configuring the firmware: the chip is identified (at most ten polls), the NVRAM record is
    read, a record that cannot be read or is all zero is replaced by the default of the chip, and the
    initialisation thread is created for that chip and record; -1 is the result, with nothing
    changed, when the chip has no identification, or neither record nor default, and when the thread
    cannot be created. Success leaves a well-formed record in memory. *)
Theorem mtk_fw_cfg_correct (stack : list Z) (w : world vstate vcall vresp) :
  reads_octets -> record_octets stack ->
  exists r w' tr, mtk_fw_cfg stack w = Some (r, w') /\ trace w' = trace w ++ tr
    /\ configured stack (globals w) r (globals w') tr
    /\ (r = 0 \/ r = -1) /\ (r = 0 -> nvram_ok (bt_nvram (globals w'))).
Proof.
  intros Hro Hst. destruct (wp_total _ _ _ (mtk_fw_cfg_ok stack w)) as (r & w' & E & tr & Et & Hc & Hn).
  exists r, w', tr. split; [done|]. split; [done|]. split; [done|]. split; [|auto].
  destruct Hc as (id & v & _ & Hv). destruct v as [v|]; [|right; apply Hv]. destruct Hv as (rd & o & _ & Hv).
  destruct (chosen_record _ _); [|right; apply Hv]. destruct Hv as (t & _ & -> & _). case_match; auto.
Qed.

(** ** The contract of the firmware configuration *)
Lemma fetched_neutral stack tr o : nvram_fetched stack tr o -> neutrals tr.
Proof.
  intros [[Hp _] | (polls & rest & v & -> & Hp & f & Hf)]; [by eapply polled_neutral|].
  apply Forall_app. split; [by eapply polled_neutral|].
  destruct Hf as [(_ & _ & ->) | [(c & _ & _ & _ & ->) | (n & c & _ & _ & _ & _ & ->)]]; by repeat apply Forall_cons_2.
Qed.

(** No thread is created, or the creation is the last call. *)
Lemma configured_trace stack s r s' tr :
  configured stack s r s' tr ->
  exists pre, neutrals pre /\
    ((tr = pre /\ r = -1)
     \/ exists t chipId d, tr = pre ++ [(Cpthread_create, t)] /\ r = (if rv t =? 0 then 0 else -1)
          /\ s' = with_running (with_btinit s chipId (of_raw d) None) (rv t =? 0)).
Proof.
  intros (id & v & Hid & Hv). apply polled_neutral in Hid. destruct v as [v|]; [|exists id; split; [done|]; left; by destruct Hv as (-> & _ & ->)].
  destruct Hv as (rd & o & Hrd & Hv). apply fetched_neutral in Hrd. exists (id ++ rd). split; [by apply Forall_app|].
  destruct (chosen_record _ _) as [d|]; [right|left; by destruct Hv as (-> & _ & ->)].
  destruct Hv as (t & -> & -> & ->). eexists t, _, d. by rewrite <- app_assoc.
Qed.

Lemma outstanding_app tr tr' : outstanding tr = [] -> neutrals tr' -> outstanding (tr ++ tr') = [].
Proof.
  intros Ho Hn. revert tr Ho. induction Hn as [|e tr' He _ IH]; intros tr Ho; [by rewrite app_nil_r|].
  change (e :: tr') with ([e] ++ tr'). rewrite app_assoc. apply IH. by rewrite outstanding_snoc, Ho, out_step_neutral.
Qed.

(** A thread that was started: it never gets stuck before its end, and its result is reported once,
    at its end. *)
Lemma session_ok (w : world vstate vcall vresp) st :
  can_send w -> cur_script (globals w) = None -> outstanding (trace w) = [] -> cmd_status (globals w) <> CMD_TERMINATE ->
  reachable answer autogen merge_interface i2s w st ->
  (exists new, trace (world_of st) = trace w ++ new /\ reports new = if decide (at_pc st = PDone) then 1%nat else 0%nat)
  /\ (at_pc st <> PDone -> is_Some (thread_step answer autogen merge_interface i2s (at_pc st) (world_of st))).
Proof.
  intros Hc Hsc Ho Hs Hr. destruct (select_script merge_interface i2s (chip_id (globals w))) as [[[sc def] fg]|] eqn:Hsel.
  - pose proof (reachable_inv answer autogen merge_interface i2s w sc def fg Hsel Hc Ho Hs st Hr) as Hi.
    split; [by apply inv_reports in Hi|]. intros Hne. destruct st as [at_ n w1].
    destruct (wp_total _ _ _ (thread_ok answer autogen merge_interface i2s w sc def fg Hsel _ _ _ Hne Hi)) as (a & w2 & E & _).
    cbn [at_pc world_of] in E |- *. rewrite E. by eexists.
  - destruct (unknown_chip answer autogen merge_interface i2s w st Hsel Hsc (proj1 Hc) Ho Hr) as (Hcb & Hscr & Hchip & Hpc).
    destruct st as [at_ n w1]. cbn [at_pc world_of] in *. destruct at_ as [|i|i p|i p|i|[i|]|]; try done.
    + split; [exists []; by rewrite app_nil_r|]. intros _. cbn [thread_step].
      unfold start_thread, io_bind, io_get, io_ret. by rewrite Hchip, Hsel, Hscr.
    + split; [exists []; by rewrite app_nil_r|]. intros _. cbn [thread_step].
      unfold end_thread, io_bind, io_get, io_ret. by rewrite Hcb.
    + destruct Hpc as [r Hpc]. split; [by exists [(Cfwcfg BT_VND_OP_RESULT_FAIL, r)]|done].
Qed.

(** C37. The contract of the operation that configures the firmware, between bt_drv.c, mtk.c,
    radiomgr.c and the thread of radiomod.c: when it returns 0 a thread runs which, whatever the stack
    and the cleanup do meanwhile, can always go on until its end, and has called the stack's
    configuration callback exactly once when it ends and not before; when it returns -1 there is no
    thread and the callback is never called. *)
Theorem fw_cfg_contract (stack : list Z) (w : world vstate vcall vresp) :
  reads_octets -> record_octets stack -> bt_vnd_cbacks (globals w) = true -> outstanding (trace w) = [] ->
  cmd_status (globals w) <> CMD_TERMINATE ->
  exists r w' tr, mtk_bt_op stack BT_VND_OP_FW_CFG w = Some ((r, None), w') /\ trace w' = trace w ++ tr /\ reports tr = 0%nat
  /\ ((r = -1 /\ forall t, (Cpthread_create, t) ∈ tr -> rv t <> 0)
     \/ (r = 0 /\ (exists pre t, tr = pre ++ [(Cpthread_create, t)] /\ rv t = 0) /\ worker_thread_running (globals w') = true
         /\ forall st, reachable answer autogen merge_interface i2s w' st ->
            (exists new, trace (world_of st) = trace w' ++ new
               /\ reports new = if decide (at_pc st = PDone) then 1%nat else 0%nat)
            /\ (at_pc st <> PDone -> is_Some (thread_step answer autogen merge_interface i2s (at_pc st) (world_of st))))).
Proof.
  intros Hro Hst Hcb Ho Hs.
  destruct (wp_total _ _ _ (mtk_fw_cfg_ok stack w)) as (r & w' & E & tr & Et & Hc & Hn). exists r, w', tr.
  split; [cbn [mtk_bt_op]; unfold io_bind; by rewrite E|]. split; [done|].
  destruct (configured_trace _ _ _ _ _ Hc) as (pre & Hpre & [[-> ->] | (t & chip & d & -> & Er & Es)]).
  { split; [by apply reports_neutral|]. left. split; [done|]. intros t Ht. unfold neutrals in Hpre.
    rewrite Forall_forall in Hpre. apply list_elem_of_In, Hpre in Ht. discriminate Ht. }
  split; [rewrite reports_app, (reports_neutral pre) by done; done|]. destruct (Z.eqb_spec (rv t) 0) as [Ez|Ez]; [right|left].
  - split; [done|]. split; [by exists pre, t|]. split; [by rewrite Es|]. intros st Hr. apply session_ok; [|..|done].
    + split; [by rewrite Es|]. auto.
    + by rewrite Es.
    + rewrite Et, app_assoc, outstanding_snoc, outstanding_app by done. done.
    + by rewrite Es.
  - split; [done|]. intros t' Ht. apply elem_of_app in Ht as [Ht|Ht].
    + unfold neutrals in Hpre. rewrite Forall_forall in Hpre. apply list_elem_of_In, Hpre in Ht. discriminate Ht.
    + apply list_elem_of_singleton in Ht. by injection Ht as ->.
Qed.

(** ** The UART *)
Fixpoint run_ops (stack : list Z) (ops : list bt_vendor_opcode_t) : IO unit :=
  match ops with
  | [] => io_ret tt
  | op :: ops => do _ <- mtk_bt_op stack op; run_ops stack ops
  end.

(** The UART descriptors that are open; [None] when one is closed that is not. *)
Definition uart_step (o : option (list Z)) (e : vcall * vresp) : option (list Z) :=
  fds ← o;
  match e with
  | (Copen_uart, r) => Some (if 0 <=? rv r then rv r :: fds else fds)
  | (Cclose fd, _) => match fds with fd' :: fds' => if fd =? fd' then Some fds' else None | [] => None end
  | _ => Some fds
  end.

Definition uart_run (tr : list (vcall * vresp)) : option (list Z) := fold_left uart_step tr (Some []).

(** [opened] follows the operations: no open between an open and the next close. *)
Fixpoint paired (opened : bool) (ops : list bt_vendor_opcode_t) : bool :=
  match ops with
  | [] => true
  | BT_VND_OP_USERIAL_OPEN :: ops => negb opened && paired true ops
  | BT_VND_OP_USERIAL_CLOSE :: ops => paired false ops
  | _ :: ops => paired opened ops
  end.

Lemma uart_run_app tr tr' : uart_run (tr ++ tr') = fold_left uart_step tr' (uart_run tr).
Proof. unfold uart_run. apply fold_left_app. Qed.

(** Calls that have nothing to do with the UART. *)
Definition off_uart (tr : list (vcall * vresp)) : Prop :=
  Forall (fun e => match e.1 with Copen_uart | Cclose _ => False | _ => True end) tr.

Lemma uart_off o tr : off_uart tr -> fold_left uart_step tr (Some o) = Some o.
Proof. induction 1 as [|[c r] tr Hc _ IH]; [done|]. cbn [fold_left]. destruct c; try apply IH; by destruct Hc. Qed.

Lemma configured_off stack s r s' tr :
  configured stack s r s' tr -> off_uart tr /\ bt_fd s' = bt_fd s.
Proof.
  assert (forall k ready n tr o, polled k ready n tr o -> off_uart tr) as Hp.
  { unfold off_uart. by induction 1; repeat apply Forall_cons_2. }
  assert (forall stack tr o, nvram_fetched stack tr o -> off_uart tr) as Hf.
  { intros ? ? ? [[H _] | (polls & rest & v & -> & H & f & Hf)]; [by eapply Hp|]. apply Forall_app. split; [by eapply Hp|].
    destruct Hf as [(_ & _ & ->) | [(c & _ & _ & _ & ->) | (n & c & _ & _ & _ & _ & ->)]]; by repeat apply Forall_cons_2. }
  intros (id & v & Hid & Hv). apply Hp in Hid. destruct v as [v|]; [|by destruct Hv as (_ & -> & ->)].
  destruct Hv as (rd & o & Hrd & Hv). apply Hf in Hrd. destruct (chosen_record _ _) as [d|].
  - destruct Hv as (t & -> & _ & ->). split; [|done]. apply Forall_app. split; [done|]. apply Forall_app. split; [done|].
    by apply Forall_cons_2.
  - destruct Hv as (_ & -> & ->). split; [by apply Forall_app|done].
Qed.

(** The descriptor of the library is the only one that is open. *)
Definition uart_inv (opened : bool) (w : world vstate vcall vresp) : Prop :=
  uart_run (trace w) = Some (if 0 <=? bt_fd (globals w) then [bt_fd (globals w)] else [])
  /\ (opened = false -> bt_fd (globals w) < 0).

Lemma op_uart stack op opened ops (w : world vstate vcall vresp) :
  uart_inv opened w -> paired opened (op :: ops) = true ->
  wp (mtk_bt_op stack op) (fun _ w' => exists opened', paired opened' ops = true /\ uart_inv opened' w') w.
Proof.
  intros [Hu Hf] Hp. 
  assert (forall (w' : world vstate vcall vresp) tr, trace w' = trace w ++ tr -> off_uart tr -> bt_fd (globals w') = bt_fd (globals w) ->
    uart_inv opened w') as Hoff.
  { intros w' tr Et Ho E. split; [by rewrite Et, uart_run_app, Hu, E, uart_off|by rewrite E]. }
  destruct op; cbn [mtk_bt_op paired] in *; try (wp_step; by exists opened).
  - wp_step. eapply wp_mono; [apply mtk_fw_cfg_ok|]. intros r w' (tr & Et & Hc & _). wp_step. exists opened. split; [done|].
    destruct (configured_off _ _ _ _ _ Hc). by eapply Hoff.
  - apply andb_true_iff in Hp as [Ho Hp]. apply negb_true_iff in Ho as ->. wp_step. unfold init_uart. wp_step. apply sys_any. intros r.
    do 2 wp_step. destruct (rv r <? 0); do 2 wp_step; exists true; (split; [done|]); (split; [|done]); cbn [globals trace with_fd bt_fd];
      rewrite uart_run_app, Hu; rewrite (proj2 (Z.leb_gt 0 (bt_fd (globals w)))) by auto; cbn [fold_left uart_step mbind option_bind]; done.
  - wp_step. unfold close_uart. do 3 wp_step. destruct (0 <=? bt_fd (globals w)).
    + wp_step. apply sys_any. intros r. do 3 wp_step. exists false. split; [done|]. split; [|cbn; lia]. cbn [trace globals with_fd bt_fd].
      rewrite uart_run_app, Hu. cbn [fold_left uart_step mbind option_bind]. by rewrite Z.eqb_refl.
    + do 3 wp_step. exists false. split; [done|]. split; [|cbn; lia]. cbn [globals trace with_fd bt_fd]. by rewrite Hu.
  - wp_step. unfold mtk_prepare_off. do 3 wp_step. destruct (bt_vnd_cbacks (globals w)).
    + wp_step. apply sys_any. intros r. do 3 wp_step. exists opened. split; [done|]. by eapply Hoff; [reflexivity|apply Forall_cons_2|].
    + do 3 wp_step. by exists opened.
Qed.

Lemma run_ops_uart stack ops opened (w : world vstate vcall vresp) :
  uart_inv opened w -> paired opened ops = true ->
  wp (run_ops stack ops) (fun _ w' => exists opened', uart_inv opened' w') w.
Proof.
  revert opened w. induction ops as [|op ops IH]; intros opened w Hi Hp; cbn [run_ops]; [wp_step; by exists opened|].
  wp_step. eapply wp_mono; [by eapply op_uart|]. intros ? w' (opened' & Hp' & Hi'). by eapply IH.
Qed.

(** The UART over any sequence of operations in which it is not opened twice without a close
    between: every operation returns, only a descriptor that is open is closed, and what is open at
    the end is exactly the descriptor the library remembers. *)
Theorem uart_correct (stack : list Z) (ops : list bt_vendor_opcode_t) (w : world vstate vcall vresp) :
  bt_fd (globals w) < 0 -> uart_run (trace w) = Some [] -> paired false ops = true ->
  exists w', run_ops stack ops w = Some (tt, w')
    /\ uart_run (trace w') = Some (if 0 <=? bt_fd (globals w') then [bt_fd (globals w')] else []).
Proof.
  intros Hf Hu Hp. assert (uart_inv false w) as Hi by (split; [by rewrite (proj2 (Z.leb_gt 0 _))|done]).
  destruct (wp_total _ _ _ (run_ops_uart stack ops false w Hi Hp)) as ([] & w' & E & o & Hw' & _). by exists w'.
Qed.
End Driver.

(** ** Witnesses *)
Definition stack0 : list Z := repeat 0xA5 64.

Lemma vanswer0_octets : reads_octets vanswer0.
Proof.
  intros tr fd n. cbn [vanswer0 rdata]. rewrite repeat_length. split; [done|]. apply Forall_forall. intros x Hx.
  apply repeat_spec in Hx. subst. done.
Qed.

Lemma stack0_octets : record_octets stack0.
Proof. split; [reflexivity|]. by_compute. Qed.

(** Between [mtk_bt_init] and the first operation. *)
Definition fresh : world vstate vcall vresp := World (with_cbacks vstate0 true) [].

Lemma mtk_fw_cfg_correct_witness : exists r w', mtk_fw_cfg vanswer0 false true (2 ^ 32 - 1) stack0 fresh = Some (r, w')
  /\ (r = 0 \/ r = -1) /\ chip_id (globals w') = 0x6630 /\ r = 0.
Proof.
  destruct (mtk_fw_cfg_correct vanswer0 false true (2 ^ 32 - 1) stack0 fresh vanswer0_octets stack0_octets)
    as (r & w' & tr & E & _ & _ & Hr & _).
  exists r, w'. split; [exact E|]. split; [exact Hr|]. vm_compute in E. injection E as <- <-. split; reflexivity.
Defined.

Lemma fw_cfg_contract_witness : exists r w' tr,
  mtk_bt_op vanswer0 false true (2 ^ 32 - 1) stack0 BT_VND_OP_FW_CFG fresh = Some ((r, None), w') /\ trace w' = tr /\ reports tr = 0%nat.
Proof.
  destruct (fw_cfg_contract vanswer0 true false true (2 ^ 32 - 1) stack0 fresh vanswer0_octets stack0_octets eq_refl eq_refl
    ltac:(discriminate)) as (r & w' & tr & E & Et & Hr & _).
  exists r, w', tr. split; [exact E|]. split; [exact Et|exact Hr].
Defined.

Lemma uart_correct_witness : exists w',
  run_ops vanswer0 false true (2 ^ 32 - 1) stack0 [BT_VND_OP_USERIAL_OPEN; BT_VND_OP_FW_CFG; BT_VND_OP_USERIAL_CLOSE] fresh
    = Some (tt, w') /\ uart_run (trace w') = Some (if 0 <=? bt_fd (globals w') then [bt_fd (globals w')] else []).
Proof.
  apply (uart_correct vanswer0 false true (2 ^ 32 - 1) stack0 _ fresh); [reflexivity|reflexivity|reflexivity].
Defined.
