(* ===== verification/Power.v ===== *)
(** The power module: src/mediatek/power/power.c. The performance profile is kept in a variable
    and mirrored in the property sys.perf.profile. *)
From S2P Require Import Prelude.

Definition PROFILE_POWER_SAVE : Z := 0.
Definition PROFILE_BALANCED : Z := 1.
Definition PROFILE_HIGH_PERFORMANCE : Z := 2.
Definition PROFILE_BIAS_POWER : Z := 3.

(** The property values "0" to "3". *)
Definition POWER_SAVE_PROP : list Z := [48].
Definition BALANCED_PROP : list Z := [49].
Definition HIGH_PERFORMANCE_PROP : list Z := [50].
Definition BIAS_POWER_PROP : list Z := [51].

Definition POWER_HINT_SET_PROFILE : Z := 0x111.

Inductive pcall :=
  | Cproperty_set (value : list Z)
  | Copen (path : list Z)
  | Cwrite (fd : Z) (data : list Z)
  | Cclose (fd : Z).

(** [current_power_profile] *)
Definition profile0 : Z := PROFILE_BALANCED.

Section Power.
Context (answer : list (pcall * Z) -> pcall -> Z).
Abbreviation IO := (io Z pcall Z).
Definition sys (c : pcall) : IO Z := io_call answer c.

Definition sysfs_write (path s : list Z) : IO Z :=
  do fd <- sys (Copen path);
  if fd <? 0 then io_ret (-1)
  else
    do len <- sys (Cwrite fd s);
    if len <? 0 then io_ret (-1)
    else do _ <- sys (Cclose fd); io_ret 0.

Definition set_power_profile (profile : Z) : IO unit :=
  do current <- io_get;
  if profile =? current then io_ret tt
  else
    do _ <- (if profile =? PROFILE_POWER_SAVE then do _ <- sys (Cproperty_set POWER_SAVE_PROP); io_ret tt
             else if profile =? PROFILE_BALANCED then do _ <- sys (Cproperty_set BALANCED_PROP); io_ret tt
             else if profile =? PROFILE_HIGH_PERFORMANCE then do _ <- sys (Cproperty_set HIGH_PERFORMANCE_PROP); io_ret tt
             else if profile =? PROFILE_BIAS_POWER then do _ <- sys (Cproperty_set BIAS_POWER_PROP); io_ret tt
             else io_ret tt);
    io_mod (fun _ => profile).

(** [data] is what the pointer points at. *)
Definition power_hint (hint data : Z) : IO unit :=
  if hint =? POWER_HINT_SET_PROFILE then set_power_profile data else io_ret tt.

Fixpoint run_hints (hints : list (Z * Z)) : IO unit :=
  match hints with
  | [] => io_ret tt
  | (hint, data) :: hints => do _ <- power_hint hint data; run_hints hints
  end.

(** ** Specification *)

(** The profiles asked for, and those written to the property. *)
Definition requested (hints : list (Z * Z)) : list Z :=
  omap (fun h => if h.1 =? POWER_HINT_SET_PROFILE then Some h.2 else None) hints.

Definition written (tr : list (pcall * Z)) : list Z :=
  omap (fun e => match e.1 with Cproperty_set [c] => Some (c - 48) | _ => None end) tr.

(** No element is followed by an equal one, the first being preceded by [p]. *)
Fixpoint no_repeat (p : Z) (l : list Z) : Prop :=
  match l with [] => True | x :: l => x <> p /\ no_repeat x l end.

Definition valid (p : Z) : Prop := 0 <= p <= 3.

Lemma set_profile_ok p (w : world Z pcall Z) :
  valid p -> wp (set_power_profile p) (fun _ w' => globals w' = p /\ exists tr, trace w' = trace w ++ tr
    /\ written tr = (if p =? globals w then [] else [p])) w.
Proof.
  intros Hp. unfold set_power_profile. do 2 wp_step. destruct (Z.eqb_spec p (globals w)) as [->|Hne].
  { wp_step. split; [done|]. exists []. by rewrite app_nil_r. }
  assert (p = 0 \/ p = 1 \/ p = 2 \/ p = 3) as [-> | [-> | [-> | ->]]] by (unfold valid in Hp; lia);
    cbn [Z.eqb PROFILE_POWER_SAVE PROFILE_BALANCED PROFILE_HIGH_PERFORMANCE PROFILE_BIAS_POWER]; unfold sys; repeat wp_step;
    (split; [done|]); eexists; (split; [reflexivity|done]).
Qed.

Lemma run_hints_ok hints (w : world Z pcall Z) :
  Forall valid (requested hints) ->
  wp (run_hints hints) (fun _ w' => List.last (globals w :: requested hints) 0 = globals w' /\ exists tr, trace w' = trace w ++ tr
    /\ no_repeat (globals w) (written tr) /\ List.last (globals w :: written tr) 0 = globals w') w.
Proof.
  revert w. induction hints as [|[hint data] hints IH]; intros w Hv; cbn [run_hints].
  { wp_step. split; [done|]. exists []. by rewrite app_nil_r. }
  unfold power_hint, requested in *. cbn [omap list_omap fst snd] in *. wp_step. destruct (hint =? POWER_HINT_SET_PROFILE).
  2:{ wp_step. by apply IH. }
  pose proof (Forall_inv Hv) as Hd. apply Forall_inv_tail in Hv. eapply wp_mono; [by apply set_profile_ok|].
  intros ? w1 (E1 & tr1 & Et1 & Ew1). eapply wp_mono; [by apply IH|].
  intros ? w2 (E2 & tr2 & Et2 & Hn & Hl). rewrite E1 in *. split; [exact E2|].
  exists (tr1 ++ tr2). split; [by rewrite Et2, Et1, app_assoc|]. unfold written in *. rewrite omap_app, Ew1.
  destruct (Z.eqb_spec data (globals w)) as [->|Hne]; [done|]. by split.
Qed.
End Power.

(** The performance profile over any sequence of hints that ask for the four profiles: every
    hint returns, the profile kept is the one asked for last, the property is never set to what it
    says already, and what it says in the end (balanced, if it was never set) is the profile kept. *)
Theorem power_profile_mirrored (answer : list (pcall * Z) -> pcall -> Z) (hints : list (Z * Z)) :
  Forall valid (requested hints) ->
  exists w, run_hints answer hints (World profile0 []) = Some (tt, w)
    /\ globals w = List.last (profile0 :: requested hints) 0
    /\ no_repeat profile0 (written (trace w)) /\ List.last (profile0 :: written (trace w)) 0 = globals w.
Proof.
  intros Hv. destruct (wp_total _ _ _ (run_hints_ok answer hints (World profile0 []) Hv)) as ([] & w & E & El & tr & Et & Hn & Hl).
  cbn [trace app globals] in *. exists w. by rewrite Et.
Qed.

Lemma power_profile_mirrored_witness : exists w,
  run_hints (fun _ _ => 0) [(0x111, 2); (2, 7); (0x111, 2); (0x111, 1)] (World profile0 []) = Some (tt, w) /\ globals w = 1.
Proof.
  destruct (power_profile_mirrored (fun _ _ => 0) [(0x111, 2); (2, 7); (0x111, 2); (0x111, 1)]) as (w & E & Eg & _).
  - repeat (apply Forall_cons; [unfold valid; simpl; lia|]). apply Forall_nil_2.
  - exists w. split; [exact E|]. rewrite Eg. reflexivity.
Defined.
