(* ===== verification/Nl80211.v ===== *)
(** The driver commands of wpa_supplicant:
    src/mediatek/wifi/wpa_supplicant/mediatek_driver_cmd_nl80211.c. Strings are lists of octets
    without their terminating zero; the functions of wpa_supplicant, and the kernel, are reached
    through calls. *)
From Stdlib Require Import Ascii String.
From S2P Require Import Prelude.

(** ** Strings *)
Definition tolower (c : Z) : Z := if (65 <=? c) && (c <=? 90) then c + 32 else c.

(** [os_strcasecmp(a, b) == 0], [os_strncasecmp(a, b, strlen(b)) == 0], [os_strncmp(a, b, strlen(b)) == 0] *)
Definition same_nocase (a b : list Z) : bool := bool_decide (map tolower a = map tolower b).
Definition starts_nocase (a b : list Z) : bool := same_nocase (take (length b) a) b.
Definition starts (a b : list Z) : bool := bool_decide (take (length b) a = b).

(** [os_strlcpy] into [size] octets. *)
Definition strlcpy (src : list Z) (size : nat) : list Z := take (size - 1) src.

Definition hex_digit (d : Z) : Z := if d <? 10 then 48 + d else 87 + d.
Definition hex02 (b : Z) : list Z := [hex_digit (b / 16); hex_digit (b mod 16)].

(** [MACSTR] *)
Definition macstr (a : list Z) : list Z :=
  match map hex02 a with
  | [] => []
  | d :: ds => d ++ concat (map (fun d => 58 :: d) ds)
  end.

(** What [snprintf] stores in a buffer of [size] octets, the terminating zero included. *)
Definition snprintf_stored (text : list Z) (size : Z) : list Z :=
  if 0 <? size then take (Z.to_nat (size - 1)) text ++ [0] else [].

Definition IFNAMSIZ : nat := 16.
Definition SIOCSIWPRIV : Z := 0x8B0C.
Definition WLAN_REASON_DEAUTH_LEAVING : Z := 3.

(** ** The environment *)

(** What the handler reads of [bss], [bss->drv], and the supplicant. *)
Record bss := mk_bss {
  ifname : list Z;
  drv_null : bool;
  ctx_null : bool;
  conf_null : bool;
  own_addr : list Z;
  associated : Z;
  first_bss_ifname : list Z
}.

Inductive ncall :=
  | Csocket
  | Cioctl (sock : Z) (req : Z) (ifr_name : list Z) (data : list Z)
  | Cclose (fd : Z)
  | Cchannel_list_changed (alpha2 : option (Z * Z))
  | Cset_iface_flags (name : list Z) (up : Z)
  | Cdeauthenticate (reason : Z)
  | Cmsg (text : list Z).

Section Nl80211.
Context (answer : list (ncall * Z) -> ncall -> Z).
(** [MTK_TC1_FEATURE] *)
Context (tc1 : bool).

Abbreviation IO := (io unit ncall Z).
Definition sys (c : ncall) : IO Z := io_call answer c.

(** A variable that holds no value is read. *)
Definition undefined {A} : IO A := fun _ => None.

(** [sprintf(buf, "COUNTRY %s", alpha2_arg)] overflows [buf] unless it fits 11 octets. *)
Definition wpa_driver_mediatek_set_country (b : bss) (alpha2_arg : list Z) : IO Z :=
  do sock <- sys Csocket;
  if sock <? 0 then io_ret (-1)
  else
    let name :=
      if tc1 && starts (first_bss_ifname b) (str "p2p0") then strlcpy (str "wlan0") IFNAMSIZ
      else strlcpy (first_bss_ifname b) IFNAMSIZ in
    let text := str "COUNTRY " ++ alpha2_arg in
    if 11 <? zlen text + 1 then undefined
    else
      do ret <- sys (Cioctl sock SIOCSIWPRIV name text);
      if ret <? 0 then do _ <- sys (Cclose sock); io_ret ret
      else do _ <- sys (Cclose sock); io_ret 0.

Definition wpa_driver_notify_country_change (cmd : list Z) : IO unit :=
  if starts_nocase cmd (str "COUNTRY") then
    let alpha2 := if 9 <? zlen cmd then c8 ← cmd !! 8%nat; c9 ← cmd !! 9%nat; Some (c8, c9) else None in
    do _ <- sys (Cchannel_list_changed alpha2); io_ret tt
  else io_ret tt.

(** The result, and the octets stored in [buf], if any. On the interface "ap0" the pointer to
    the supplicant is never set. *)
Definition wpa_driver_nl80211_driver_cmd (b : bss) (cmd : list Z) (buf_len : Z) : IO (Z * option (list Z)) :=
  if drv_null b then io_ret (-1, None)
  else if ctx_null b then io_ret (-1, None)
  else
    let ap0 := bool_decide (ifname b = str "ap0") in
    if negb ap0 && conf_null b then io_ret (-1, None)
    else if starts_nocase cmd (str "POWERMODE ") then io_ret (-1, None)
    else if starts cmd (str "MACADDR") then
      if ap0 then undefined
      else
        let text := str "Macaddr = " ++ macstr (take 6 (own_addr b)) ++ [10] in
        io_ret (zlen text, Some (snprintf_stored text buf_len))
    else if starts_nocase cmd (str "COUNTRY") then
      if negb (zlen cmd =? zlen (str "COUNTRY") + 3) then io_ret (0, None)
      else
        do ret <- wpa_driver_mediatek_set_country b (drop 8 cmd);
        do _ <- (if ret =? 0 then
                   if ap0 then undefined else wpa_driver_notify_country_change cmd
                 else io_ret tt);
        io_ret (ret, None)
    else if same_nocase cmd (str "start") then
      do ret <- sys (Cset_iface_flags (first_bss_ifname b) 1);
      do _ <- (if ret =? 0 then do _ <- sys (Cmsg (str "CTRL-EVENT-DRIVER-STATE STARTED")); io_ret tt else io_ret tt);
      io_ret (ret, None)
    else if same_nocase cmd (str "stop") then
      do _ <- (if negb (associated b =? 0) then
                 if ap0 then undefined else do _ <- sys (Cdeauthenticate WLAN_REASON_DEAUTH_LEAVING); io_ret tt
               else io_ret tt);
      do ret <- sys (Cset_iface_flags (first_bss_ifname b) 0);
      do _ <- (if ret =? 0 then do _ <- sys (Cmsg (str "CTRL-EVENT-DRIVER-STATE STOPPED")); io_ret tt else io_ret tt);
      io_ret (ret, None)
    else if starts_nocase cmd (str "getpower") then io_ret (-1, None)
    else if starts_nocase cmd (str "get-rts-threshold") then io_ret (-1, None)
    else if starts_nocase cmd (str "set-rts-threshold") then io_ret (-1, None)
    else if same_nocase cmd (str "btcoexscan-start") then io_ret (0, None)
    else if same_nocase cmd (str "btcoexscan-stop") then io_ret (0, None)
    else if starts_nocase cmd (str "btcoexmode") then io_ret (0, None)
    else io_ret (-1, None).

Definition wpa_driver_set_p2p_noa : IO Z := io_ret (-1).
Definition wpa_driver_get_p2p_noa : IO Z := io_ret (-1).
Definition wpa_driver_set_p2p_ps : IO Z := io_ret (-1).
Definition wpa_driver_set_ap_wps_p2p_ie : IO Z := io_ret 0.

(** ** Specification *)
(** The sockets that are open; [None] when one is closed that is not. *)
Definition sock_step (o : option (list Z)) (e : ncall * Z) : option (list Z) :=
  fds ← o;
  match e with
  | (Csocket, r) => Some (if 0 <=? r then r :: fds else fds)
  | (Cclose fd, _) => match fds with fd' :: fds' => if fd =? fd' then Some fds' else None | [] => None end
  | _ => Some fds
  end.

Definition sock_run (tr : list (ncall * Z)) : option (list Z) := fold_left sock_step tr (Some []).

(** The interface a country is set on. *)
Definition country_ifname (b : bss) : list Z :=
  if tc1 && starts (first_bss_ifname b) (str "p2p0") then str "wlan0" else take 15 (first_bss_ifname b).

(** The calls and the result of the command COUNTRY for the letters [c8], [c9]. *)
Definition country_set (b : bss) (c8 c9 : Z) (tr : list (ncall * Z)) (ret : Z) : Prop :=
  (exists s, s < 0 /\ ret = -1 /\ tr = [(Csocket, s)])
  \/ (exists s r c, 0 <= s /\ r < 0 /\ ret = r
        /\ tr = [(Csocket, s); (Cioctl s SIOCSIWPRIV (country_ifname b) (str "COUNTRY " ++ [c8; c9]), r); (Cclose s, c)])
  \/ (exists s r c e, 0 <= s /\ 0 <= r /\ ret = 0
        /\ tr = [(Csocket, s); (Cioctl s SIOCSIWPRIV (country_ifname b) (str "COUNTRY " ++ [c8; c9]), r); (Cclose s, c);
                 (Cchannel_list_changed (Some (c8, c9)), e)]).

Definition ready (b : bss) : Prop :=
  drv_null b = false /\ ctx_null b = false /\ conf_null b = false /\ ifname b <> str "ap0".

Lemma set_country_ok b c8 c9 cmd (w : world unit ncall Z) :
  starts_nocase cmd (str "COUNTRY") = true -> zlen cmd = 10 -> drop 8 cmd = [c8; c9] ->
  wp (do ret <- wpa_driver_mediatek_set_country b (drop 8 cmd);
      do _ <- (if ret =? 0 then wpa_driver_notify_country_change cmd else io_ret tt);
      io_ret (ret, @None (list Z)))
    (fun r w' => r.2 = None /\ exists tr, trace w' = trace w ++ tr /\ country_set b c8 c9 tr r.1) w.
Proof.
  intros Hs Hl Hd. unfold wpa_driver_mediatek_set_country, wpa_driver_notify_country_change. rewrite Hs, Hd, Hl.
  assert ((c8' ← cmd !! 8%nat; c9' ← cmd !! 9%nat; Some (c8', c9')) = Some (c8, c9)) as ->.
  { rewrite <- (take_drop 8 cmd), Hd. rewrite !lookup_app_r by (rewrite length_take; unfold zlen in Hl; lia).
    rewrite length_take_le by (unfold zlen in Hl; lia). reflexivity. }
  assert ((if tc1 && starts (first_bss_ifname b) (str "p2p0") then strlcpy (str "wlan0") IFNAMSIZ
      else strlcpy (first_bss_ifname b) IFNAMSIZ) = country_ifname b) as -> by done.
  change (11 <? zlen (str "COUNTRY " ++ [c8; c9]) + 1) with false. change (9 <? 10) with true.
  do 2 wp_step. apply sys_any. intros s.
  destruct (Z.ltb_spec s 0); [do 2 wp_step; cbn [Z.eqb]; do 2 wp_step; split; [done|]; eexists; split; [reflexivity|left; by exists s]|].
  wp_step. apply sys_any. intros r. destruct (Z.ltb_spec r 0).
  - wp_step. apply sys_any. intros c. do 2 wp_step. destruct (Z.eqb_spec r 0); [lia|]. do 2 wp_step.
    split; [done|]. eexists. split; [cbn [trace]; by rewrite <- !app_assoc|]. right; left. by exists s, r, c.
  - wp_step. apply sys_any. intros c. do 2 wp_step. cbn [Z.eqb]. wp_step. apply sys_any. intros e. do 2 wp_step.
    split; [done|]. eexists. split; [cbn [trace]; by rewrite <- !app_assoc|]. right; right. by exists s, r, c, e.
Qed.

(** The first letters decide. *)
Lemma starts_nocase_head cmd a l :
  starts_nocase cmd (a :: l) = true -> exists c cmd', cmd = c :: cmd' /\ tolower c = tolower a.
Proof.
  unfold starts_nocase, same_nocase. rewrite bool_decide_eq_true. destruct cmd as [|c cmd]; [done|].
  cbn [length take map]. intros [= Hc _]. by exists c, cmd.
Qed.

Lemma country_only cmd :
  starts_nocase cmd (str "COUNTRY") = true ->
  starts_nocase cmd (str "POWERMODE ") = false /\ starts cmd (str "MACADDR") = false.
Proof.
  intros (c & cmd' & -> & Hc)%starts_nocase_head. split; apply not_true_is_false; intros H.
  - apply starts_nocase_head in H as (c' & ? & [= <- <-] & Hc'). by rewrite Hc in Hc'.
  - unfold starts in H. apply bool_decide_eq_true in H. cbn in H. injection H as -> _. done.
Qed.

Lemma sock_run_country b c8 c9 tr ret : country_set b c8 c9 tr ret -> sock_run tr = Some [].
Proof.
  assert (forall s, 0 <= s -> (0 <=? s) = true) as Hle by (intros; by apply Z.leb_le).
  intros [(s & Hs & _ & ->) | [(s & r & c & Hs & _ & _ & ->) | (s & r & c & e & Hs & _ & _ & ->)]];
    unfold sock_run; cbn [fold_left sock_step mbind option_bind].
  - by rewrite (proj2 (Z.leb_gt 0 s)).
  - by rewrite Hle, Z.eqb_refl.
  - by rewrite Hle, Z.eqb_refl.
Qed.

(** What a command is answered with: nothing is stored past the buffer, no socket stays open. *)
Definition answered (b : bss) (cmd : list Z) (buf_len : Z) (r : Z * option (list Z)) (tr : list (ncall * Z)) : Prop :=
  sock_run tr = Some [] /\ (forall l, r.2 = Some l -> zlen l <= Z.max 0 buf_len)
  /\ (starts_nocase cmd (str "COUNTRY") = true ->
       r.2 = None /\ if zlen cmd =? 10 then exists c8 c9, drop 8 cmd = [c8; c9] /\ country_set b c8 c9 tr r.1
                      else r.1 = 0 /\ tr = []).

Lemma driver_cmd_ok b cmd buf_len (w : world unit ncall Z) :
  ready b -> wp (wpa_driver_nl80211_driver_cmd b cmd buf_len) (fun r w' => exists tr, trace w' = trace w ++ tr
    /\ answered b cmd buf_len r tr) w.
Proof.
  intros (Hd & Hc & Hf & Hn). unfold wpa_driver_nl80211_driver_cmd. rewrite Hd, Hc, Hf.
  rewrite (bool_decide_false (ifname b = str "ap0")) by done. cbn [negb andb].
  destruct (starts_nocase cmd (str "COUNTRY")) eqn:Ec.
  { destruct (country_only _ Ec) as [-> ->]. change (zlen (str "COUNTRY") + 3) with 10.
    destruct (Z.eqb_spec (zlen cmd) 10) as [El|El]; cbn [negb].
    - assert (exists c8 c9, drop 8 cmd = [c8; c9]) as (c8 & c9 & Ed).
      { unfold zlen in El. assert (length (drop 8 cmd) = 2%nat) as H2 by (rewrite length_drop; lia).
        destruct (drop 8 cmd) as [|c8 [|c9 [|]]]; try discriminate H2. by exists c8, c9. }
      eapply wp_mono; [by apply (set_country_ok b c8 c9)|]. intros r w' (E2 & tr & Et & Hs). exists tr. split; [done|].
      split; [by eapply sock_run_country|]. split; [by rewrite E2|]. intros _. split; [done|]. rewrite El. by exists c8, c9.
    - wp_step. exists []. split; [by rewrite app_nil_r|]. split; [done|]. split; [done|]. intros _. split; [done|].
      by rewrite (proj2 (Z.eqb_neq _ _) El). }
  assert (forall r tr (w' : world unit ncall Z), trace w' = trace w ++ tr -> sock_run tr = Some [] ->
    (forall l, r.2 = Some l -> zlen l <= Z.max 0 buf_len) ->
    exists tr, trace w' = trace w ++ tr /\ answered b cmd buf_len r tr) as Hend.
  { intros r tr w' Et Hs Hl. exists tr. unfold answered. by rewrite Ec. }
  assert (forall r, wp (io_ret (r, None)) (fun r w' => exists tr, trace w' = trace w ++ tr /\ answered b cmd buf_len r tr) w) as Hret.
  { intros r. wp_step. eapply (Hend _ []); [by rewrite app_nil_r|done..]. }
  destruct (starts_nocase cmd (str "POWERMODE ")); [apply Hret|]. destruct (starts cmd (str "MACADDR")).
  { wp_step. eapply (Hend _ []); [by rewrite app_nil_r|done|]. intros l [= <-]. unfold snprintf_stored, zlen.
    destruct (Z.ltb_spec 0 buf_len); [|cbn [length]; lia]. rewrite length_app, length_take. cbn [length]. lia. }
  destruct (same_nocase cmd (str "start")).
  { wp_step. apply sys_any. intros r. wp_step. destruct (r =? 0); repeat sys_step;
      (eapply Hend; [cbn [trace]; by rewrite <- ?app_assoc|done..]). }
  destruct (same_nocase cmd (str "stop")).
  { wp_step. destruct (negb (associated b =? 0)); repeat sys_step; destruct (_ =? 0); repeat sys_step;
      (eapply Hend; [cbn [trace]; by rewrite <- ?app_assoc|done..]). }
  repeat (match goal with |- wp (if ?x then _ else _) _ _ => destruct x; [apply Hret|] end). apply Hret.
Qed.

End Nl80211.

Definition bss0 : bss := mk_bss (str "wlan0") false false false [2; 0; 0; 0; 0xAB; 1] 0 (str "p2p0").

