(* ===== verification/WifiState.v ===== *)
(** The Wi-Fi HAL (src/mediatek/wifi/wifi_hal): what the headers it is built against give it, its
    data (common.h, cpp_bindings.h), and the calls it makes. *)
From stdpp Require Import gmap.
From S2P Require Import Prelude.

(** ** Names of headers that are not in the repository

    wifi_hal.h of Android and nl80211_copy.h: the code relies on success being 0 and errors being
    negative, and on vendor commands having a number of their own. *)
Class hal_headers := {
  WIFI_SUCCESS : Z;
  WIFI_ERROR_UNKNOWN : Z;
  WIFI_ERROR_NOT_SUPPORTED : Z;
  WIFI_ERROR_NOT_AVAILABLE : Z;
  WIFI_ERROR_INVALID_ARGS : Z;
  WIFI_ERROR_OUT_OF_MEMORY : Z;
  NL80211_CMD_VENDOR : Z;
  NL80211_ATTR_IFINDEX : Z;
  NL80211_ATTR_VENDOR_ID : Z;
  NL80211_ATTR_VENDOR_SUBCMD : Z;
  NL80211_ATTR_VENDOR_DATA : Z;
  WIFI_BAND_UNSPECIFIED : Z;
  WIFI_BAND_ABG : Z;
  WIFI_BAND_ABG_WITH_DFS : Z;
  MAX_EPNO_NETWORKS : Z;
  N_AVAIL_ID : Z;
  MKEEP_ALIVE_IP_PKT_MAX : Z;
  MAX_AP_CACHE_PER_SCAN : Z;
  sizeof_wifi_scan_result : Z;
  sizeof_wifi_rtt_result : Z;
  sizeof_wifi_channel : Z;
  sizeof_feature_set : Z;
  sizeof_wifi_gscan_capabilities : Z;
  sizeof_wifi_rtt_capabilities : Z;
  sizeof_wifi_rtt_responder : Z;
  WIFI_FEATURE_INFRA_5G : Z;
  WIFI_FEATURE_P2P : Z;
  WIFI_FEATURE_SOFT_AP : Z;
  WIFI_FEATURE_TDLS : Z;
  WIFI_FEATURE_PNO : Z;
  NL80211_ATTR_WIPHY : Z;
  CTRL_CMD_GETFAMILY : Z;
  CTRL_ATTR_FAMILY_NAME : Z;
  CTRL_ATTR_MCAST_GROUPS : Z;
  CTRL_ATTR_MCAST_GRP_NAME : Z;
  CTRL_ATTR_MCAST_GRP_ID : Z;
  success_0 : WIFI_SUCCESS = 0;
  errors_negative :
    Forall (fun e => e < 0) [WIFI_ERROR_UNKNOWN; WIFI_ERROR_NOT_SUPPORTED; WIFI_ERROR_NOT_AVAILABLE;
                             WIFI_ERROR_INVALID_ARGS; WIFI_ERROR_OUT_OF_MEMORY];
  sizes_positive :
    Forall (fun n => 0 < n) [sizeof_wifi_scan_result; sizeof_wifi_rtt_result; sizeof_wifi_channel; sizeof_feature_set;
      sizeof_wifi_gscan_capabilities; sizeof_wifi_rtt_capabilities; sizeof_wifi_rtt_responder; MAX_AP_CACHE_PER_SCAN]
}.

Lemma oom_negative `{hal_headers} : WIFI_ERROR_OUT_OF_MEMORY < 0.
Proof. pose proof errors_negative as He. do 4 apply Forall_inv_tail in He. by apply Forall_inv in He. Qed.

Lemma invalid_args_negative `{hal_headers} : WIFI_ERROR_INVALID_ARGS < 0.
Proof. pose proof errors_negative as He. do 3 apply Forall_inv_tail in He. by apply Forall_inv in He. Qed.

(** ** common.h *)
Definition DEFAULT_EVENT_CB_SIZE : Z := 64.
Definition DEFAULT_CMD_SIZE : Z := 64.
Definition DOT11_MAX_SSID_LEN : nat := 32.
Definition GOOGLE_OUI : Z := 0x001A11.

(** [WIFI_SUB_COMMAND] *)
Definition WIFI_SUBCMD_GET_CHANNEL_LIST : Z := 0x0001.
Definition WIFI_SUBCMD_GET_FEATURE_SET : Z := 0x0002.
Definition WIFI_SUBCMD_GET_FEATURE_SET_MATRIX : Z := 0x0003.
Definition WIFI_SUBCMD_SET_COUNTRY_CODE : Z := 0x0006.
Definition WIFI_SUBCMD_SET_RSSI_MONITOR : Z := 0x0007.

(** [GSCAN_SUB_COMMAND] *)
Definition GSCAN_SUBCMD_GET_CAPABILITIES : Z := 0x1000.
Definition GSCAN_SUBCMD_SET_CONFIG : Z := 0x1001.
Definition GSCAN_SUBCMD_SET_SCAN_CONFIG : Z := 0x1002.
Definition GSCAN_SUBCMD_ENABLE_GSCAN : Z := 0x1003.
Definition GSCAN_SUBCMD_GET_SCAN_RESULTS : Z := 0x1004.
Definition GSCAN_SUBCMD_SET_HOTLIST : Z := 0x1006.
Definition GSCAN_SUBCMD_SET_SIGNIFICANT_CHANGE_CONFIG : Z := 0x1007.
Definition GSCAN_SUBCMD_ENABLE_FULL_SCAN_RESULTS : Z := 0x1008.
Definition GSCAN_SUBCMD_SET_EPNO_SSID : Z := 0x100F.
Definition GSCAN_SUBCMD_ANQPO_CONFIG : Z := 0x1015.

(** [WIFI_ATTRIBUTE] *)
Definition WIFI_ATTRIBUTE_BAND : Z := 1.
Definition WIFI_ATTRIBUTE_NUM_CHANNELS : Z := 2.
Definition WIFI_ATTRIBUTE_CHANNEL_LIST : Z := 3.
Definition WIFI_ATTRIBUTE_NUM_FEATURE_SET : Z := 4.
Definition WIFI_ATTRIBUTE_FEATURE_SET : Z := 5.
Definition WIFI_ATTRIBUTE_COUNTRY_CODE : Z := 8.
Definition WIFI_ATTRIBUTE_MAX_RSSI : Z := 9.
Definition WIFI_ATTRIBUTE_MIN_RSSI : Z := 10.
Definition WIFI_ATTRIBUTE_RSSI_MONITOR_START : Z := 11.

(** [WIFI_VENDOR_EVENT] *)
Definition GSCAN_EVENT_SIGNIFICANT_CHANGE_RESULTS : Z := 0.
Definition GSCAN_EVENT_HOTLIST_RESULTS_FOUND : Z := 1.
Definition GSCAN_EVENT_SCAN_RESULTS_AVAILABLE : Z := 2.
Definition GSCAN_EVENT_FULL_SCAN_RESULTS : Z := 3.
Definition RTT_EVENT_COMPLETE : Z := 4.
Definition GSCAN_EVENT_COMPLETE_SCAN : Z := 5.
Definition GSCAN_EVENT_HOTLIST_RESULTS_LOST : Z := 6.
Definition WIFI_EVENT_RSSI_MONITOR : Z := 7.
Definition GSCAN_EVENT_EPNO_EVENT : Z := 8.
Definition GSCAN_EVENT_ANQPO_HOTSPOT_MATCH : Z := 9.

(** A handler of an event; pointers are addresses, 0 is NULL. *)
Record cb_info := mk_cb {
  nl_cmd : Z;
  vendor_id : Z;
  vendor_subcmd : Z;
  cb_func : Z;
  cb_arg : Z
}.

(** An outstanding command. *)
Record cmd_info := mk_cmd { cmd_id : Z; cmd_ptr : Z }.

(** An array allocated with room for [alloc] elements, of which [num] are in use:
    [event_cb], [num_event_cb], [alloc_event_cb], and [cmd], [num_cmd], [alloc_cmd] of [hal_info]. *)
Record table (A : Type) := mk_table { slots : list A; num : Z; alloc : Z }.
Arguments mk_table {A}. Arguments slots {A}. Arguments num {A}. Arguments alloc {A}.

(** [interface_info] *)
Record interface_info := mk_iface { if_name : list Z; if_id : Z }.

Record hal_info := mk_hal_info {
  cmd_sock : Z;
  event_sock : Z;
  nl80211_family_id : Z;
  cleanup_socks : Z * Z;
  in_event_loop : bool;
  clean_up : bool;
  cleaned_up_handler : Z;
  event_cb : table cb_info;
  cb_lock : bool;
  cmd : table cmd_info;
  interfaces : list interface_info;
  num_interfaces : Z
}.

(** ** Parameters of the commands

    Of the types of wifi_hal.h, the members the code reads; an array with its count is the list of
    the elements in use. *)
Record bucket_spec := mk_bucket {
  bk_bucket : Z; bk_period : Z; bk_band : Z; bk_step_count : Z; bk_max_period : Z; bk_report_events : Z;
  bk_channels : list Z
}.
Record wifi_scan_cmd_params := mk_scan_params {
  base_period : Z; max_ap_per_scan : Z; report_threshold_percent : Z; report_threshold_num_scans : Z;
  buckets : list bucket_spec
}.
Record ap_threshold_param := mk_ap { ap_bssid : list Z; ap_low : Z; ap_high : Z }.
Record wifi_bssid_hotlist_params := mk_hotlist { hl_lost_ap_sample_size : Z; hl_ap : list ap_threshold_param }.
Record wifi_significant_change_params := mk_sigchange {
  rssi_sample_size : Z; sc_lost_ap_sample_size : Z; min_breaching : Z; sc_ap : list ap_threshold_param
}.
Record wifi_epno_network := mk_epno_net { en_ssid : list Z; en_flags : Z; en_auth : Z }.
Record wifi_epno_params := mk_epno {
  min5GHz_rssi : Z; min24GHz_rssi : Z; initial_score_max : Z; current_connection_bonus : Z;
  same_network_bonus : Z; secure_bonus : Z; band5GHz_bonus : Z; num_networks : Z;
  ep_networks : list wifi_epno_network
}.
Record wifi_passpoint_network := mk_pp { pp_id : Z; pp_realm : list Z; pp_ids : list Z; pp_plmn : list Z }.
Record wifi_rtt_config := mk_rtt {
  rtt_addr : list Z; rtt_type : Z; rtt_peer : Z; rtt_channel : list Z; rtt_burst_period : Z; rtt_num_burst : Z;
  rtt_frames_per_burst : Z; rtt_retries_per_frame : Z; rtt_retries_per_ftmr : Z; rtt_LCI : Z; rtt_LCR : Z;
  rtt_burst_duration : Z; rtt_preamble : Z; rtt_bw : Z
}.

(** A result of a measurement: where it is, its octets, and where in them the location elements begin. *)
Record rtt_result := mk_rtt_result { rr_ptr : Z; rr_data : list Z; rr_LCI : option Z; rr_LCR : option Z }.

(** The members of [RttCommand] that change: [currentIdx] and [totalCnt] are always the number of the
    results stored. *)
Record rtt_state := mk_rtt_state { mCompleted : Z; rttResults : list rtt_result }.
Definition rtt_state0 : rtt_state := mk_rtt_state 0 [].

(** The classes whose objects live on the heap, with their members. *)
Inductive cmd_class :=
  | SetRSSIMonitorCommand (mMax_rssi mMin_rssi : Z)
  | FullScanResultsCommand
  | ScanCommand (mParams : wifi_scan_cmd_params)
  | BssidHotlistCommand (mParams : wifi_bssid_hotlist_params)
  | ePNOCommand (epno_params : wifi_epno_params)
  | SignificantWifiChangeCommand (mParams : wifi_significant_change_params)
  | AnqpoConfigureCommand (mNetworks : list wifi_passpoint_network)
  | RttCommand (rttParams : list wifi_rtt_config) (st : rtt_state).

(** An object of a class derived from [WifiCommand] (cpp_bindings.h). *)
Record wifi_command := mk_command { mClass : cmd_class; mId : Z; mIface : Z; mRefs : Z }.

(** The memory of the library: [hal_info], and the commands by their addresses. *)
Record hal := mk_hal { info : hal_info; objects : gmap Z wifi_command }.

(** ** Events and calls *)

(** [wifi_scan_result]; what is not converted is 0. *)
Record scan_result := mk_scan_result {
  sr_ts : Z; sr_ssid : list Z; sr_bssid : list Z; sr_channel : Z; sr_rssi : Z; sr_rtt : Z; sr_rtt_sd : Z;
  sr_beacon_period : Z; sr_capability : Z; sr_ie_length : Z; sr_ie_data : list Z
}.

(** [wifi_significant_change_result_internal] *)
Record change_result := mk_change { ch_bssid : list Z; ch_channel : Z; ch_rssi : list Z }.

(** What the client is told. *)
Inductive notification :=
  | On_rssi (bssid : list Z) (rssi : Z)
  | On_scan_event (event : Z)
  | On_full_scan_result (r : scan_result) (buckets_scanned : Z)
  | On_hotlist_ap_found (num : Z) (results : list Z)
  | On_hotlist_ap_lost (num : Z) (results : list Z)
  | On_network_found (num : Z) (results : list scan_result)
  | On_significant_change (results : list change_result)
  | On_passpoint (network : Z) (r : scan_result) (anqp : list Z)
  | On_rtt_results (results : list rtt_result).

(** What [WifiEvent::parse] returns and finds in a message: the attributes with their payloads. *)
Record event := mk_event { ev_parse : Z; ev_cmd : Z; ev_attrs : list (Z * list Z) }.

(** A callback that [nl_recvmsgs] makes. *)
Inductive nl_callback := CbValid (reply : event) | CbAck | CbFinish | CbError (error : Z).

Inductive wcall :=
  (* allocation of an object, of memory *)
  | Cnew
  | Cmalloc
  | Cfree (p : Z)
  (* messages of libnl *)
  | Cnlmsg_alloc
  | Cnlmsg_free (msg : Z)
  | Cgenlmsg_put (family cmd : Z)
  | Cnla_put (attr : Z) (data : list Z)
  | Cnla_nest_start (attr : Z)
  | Cnla_nest_end (attr : Z)
  (* sockets of libnl *)
  | Cnl_cb_alloc
  | Cnl_cb_put (cb : Z)
  | Cnl_send (sock msg : Z)
  | Cnl_recvmsgs (sock : Z)
  | Cnl_socket_alloc
  | Cnl_set_local_port (sock port : Z)
  | Cnl_connect (sock : Z)
  | Cnl_socket_free (sock : Z)
  | Cnl_socket_get_cb (sock : Z)
  | Cgenl_ctrl_resolve (sock : Z) (name : list Z)
  | Cadd_membership (sock group : Z)
  (* the system *)
  | Cgetpid
  | Csocketpair
  | Cclose (fd : Z)
  | Cwrite (fd : Z) (data : list Z)
  | Cread (fd : Z) (size : Z)
  | Cpoll (fd0 fd1 : Z)
  | Cmutex_init
  | Cmutex_destroy
  | Copendir
  | Creaddir
  | Cclosedir
  | Cif_nametoindex (name : list Z)
  | Cproperty_get
  (* functions of the client *)
  | Con_event (id : Z) (n : notification)
  | Ccleaned_up (handler : Z).

Record wresp := mk_resp {
  rv : Z; rv2 : Z; rcbs : list nl_callback; rdata : list Z
}.

Definition ret_code (z : Z) : wresp := mk_resp z 0 [] [].

(** ** Updates of the state *)
Definition with_event_cb (h : hal) (t : table cb_info) : hal :=
  let i := info h in
  mk_hal (mk_hal_info (cmd_sock i) (event_sock i) (nl80211_family_id i) (cleanup_socks i) (in_event_loop i) (clean_up i)
    (cleaned_up_handler i) t (cb_lock i) (cmd i) (interfaces i) (num_interfaces i)) (objects h).

Definition with_lock (h : hal) (b : bool) : hal :=
  let i := info h in
  mk_hal (mk_hal_info (cmd_sock i) (event_sock i) (nl80211_family_id i) (cleanup_socks i) (in_event_loop i) (clean_up i)
    (cleaned_up_handler i) (event_cb i) b (cmd i) (interfaces i) (num_interfaces i)) (objects h).

Definition with_cmd (h : hal) (t : table cmd_info) : hal :=
  let i := info h in
  mk_hal (mk_hal_info (cmd_sock i) (event_sock i) (nl80211_family_id i) (cleanup_socks i) (in_event_loop i) (clean_up i)
    (cleaned_up_handler i) (event_cb i) (cb_lock i) t (interfaces i) (num_interfaces i)) (objects h).

Definition with_objects (h : hal) (o : gmap Z wifi_command) : hal := mk_hal (info h) o.

(** The [n] octets of [v], least significant first: the host is little-endian. *)
Fixpoint le_bytes (n : nat) (v : Z) : list Z :=
  match n with O => [] | S n => v mod 256 :: le_bytes n (v / 256) end.

Lemma le_bytes_length n v : length (le_bytes n v) = n.
Proof. revert v. induction n as [|n IH]; intros v; cbn; [done|by rewrite IH]. Qed.

(** An unsigned number of octets stored least significant first. *)
Definition le_val (l : list Z) : Z := foldr (fun b n => b + 256 * n) 0 l.

Lemma le_val_bytes n v : le_val (le_bytes n v) = v mod 256 ^ Z.of_nat n.
Proof.
  unfold le_val. revert v. induction n as [|n IH]; intros v; cbn [le_bytes foldr]; [by rewrite Z.mod_1_r|].
  rewrite IH. replace (256 ^ Z.of_nat (S n)) with (256 * 256 ^ Z.of_nat n) by (rewrite Nat2Z.inj_succ, Z.pow_succ_r by lia; lia).
  pose proof (Z.pow_pos_nonneg 256 (Z.of_nat n)). rewrite Z.rem_mul_r by lia. lia.
Qed.

(** Numbers for the witnesses. *)
Definition headers0 : hal_headers.
Proof.
  refine {| WIFI_SUCCESS := 0; WIFI_ERROR_UNKNOWN := -1; WIFI_ERROR_NOT_SUPPORTED := -3; WIFI_ERROR_NOT_AVAILABLE := -4;
    WIFI_ERROR_INVALID_ARGS := -5; WIFI_ERROR_OUT_OF_MEMORY := -9; NL80211_CMD_VENDOR := 103; NL80211_ATTR_IFINDEX := 3;
    NL80211_ATTR_VENDOR_ID := 195; NL80211_ATTR_VENDOR_SUBCMD := 196; NL80211_ATTR_VENDOR_DATA := 197;
    WIFI_BAND_UNSPECIFIED := 0; WIFI_BAND_ABG := 3; WIFI_BAND_ABG_WITH_DFS := 7; MAX_EPNO_NETWORKS := 64; N_AVAIL_ID := 3;
    MKEEP_ALIVE_IP_PKT_MAX := 256; MAX_AP_CACHE_PER_SCAN := 32; sizeof_wifi_scan_result := 88; sizeof_wifi_rtt_result := 120;
    sizeof_wifi_channel := 4; sizeof_feature_set := 4; sizeof_wifi_gscan_capabilities := 36; sizeof_wifi_rtt_capabilities := 8;
    sizeof_wifi_rtt_responder := 20; WIFI_FEATURE_INFRA_5G := 2; WIFI_FEATURE_P2P := 8; WIFI_FEATURE_SOFT_AP := 16;
    WIFI_FEATURE_TDLS := 0x1000; WIFI_FEATURE_PNO := 0x400; NL80211_ATTR_WIPHY := 1; CTRL_CMD_GETFAMILY := 3;
    CTRL_ATTR_FAMILY_NAME := 2; CTRL_ATTR_MCAST_GROUPS := 7; CTRL_ATTR_MCAST_GRP_NAME := 1; CTRL_ATTR_MCAST_GRP_ID := 2;
    success_0 := eq_refl |}; repeat constructor.
Defined.
