(* ===== verification/WifiRegistry.v ===== *)
(** The tables of the Wi-Fi HAL: event handlers and outstanding commands
    (src/mediatek/wifi/wifi_hal/common.cpp). The arrays are refined to lists. *)
From Stdlib Require Import List.
From stdpp Require Import gmap.
From S2P Require Import Prelude Threads WifiState.

(** ** Tables *)

(** [memmove(&l[dst], &l[src], n * sizeof(l[0]))] within one array. *)
Definition memmove {A} (l : list A) (dst src n : Z) : option (list A) :=
  if (0 <=? dst) && (0 <=? src) && (0 <=? n) && (dst + n <=? zlen l) && (src + n <=? zlen l) then
    Some (take (Z.to_nat dst) l ++ take (Z.to_nat n) (drop (Z.to_nat src) l) ++ drop (Z.to_nat dst + Z.to_nat n) l)
  else None.

(** Storing at [num] when there is room. *)
Definition table_add {A} (t : table A) (x : A) : option (bool * table A) :=
  if num t <? alloc t then
    l ← aset (slots t) (num t) x; Some (true, mk_table l (num t + 1) (alloc t))
  else Some (false, t).

(** [for (int i = 0; i < num; i++) if (p(a[i])) { found = i; break; }], [n] entries being left. *)
Fixpoint table_scan {A} (p : A -> bool) (l : list A) (n : nat) (i : Z) : option (option (Z * A)) :=
  match n with
  | O => Some None
  | S n => x ← aget l i; if p x then Some (Some (i, x)) else table_scan p l n (i + 1)
  end.

Definition table_find {A} (p : A -> bool) (t : table A) : option (option (Z * A)) :=
  table_scan p (slots t) (Z.to_nat (num t)) 0.

(** The first entry that [p] accepts is removed, those behind it move up. *)
Definition table_remove {A} (p : A -> bool) (t : table A) : option (option A * table A) :=
  f ← table_find p t;
  match f with
  | None => Some (None, t)
  | Some (i, x) =>
      l ← memmove (slots t) i (i + 1) (num t - i - 1);
      Some (Some x, mk_table l (num t - 1) (alloc t))
  end.

(** ** The functions of common.cpp *)
Section Registry.
Context `{hal_headers} {C R : Type}.
Abbreviation IO := (io hal C R).
Abbreviation PROG := (prog hal C R).

(** A mutex that is not recursive: locking it twice never returns. *)
Definition pthread_mutex_lock : IO unit :=
  io_pure (fun h => if cb_lock (info h) then None else Some (tt, with_lock h true)).
Definition pthread_mutex_unlock : IO unit :=
  io_pure (fun h => if cb_lock (info h) then Some (tt, with_lock h false) else None).

(** A thread waits for the mutex until it is free. *)
Definition lock : PROG unit := when (fun h => negb (cb_lock (info h))) pthread_mutex_lock.

Definition on_event_cb {A} (f : table cb_info -> option (A * table cb_info)) : IO A :=
  io_pure (fun h => '(a, t) ← f (event_cb (info h)); Some (a, with_event_cb h t)).
Definition on_cmd {A} (f : table cmd_info -> option (A * table cmd_info)) : IO A :=
  io_pure (fun h => '(a, t) ← f (cmd (info h)); Some (a, with_cmd h t)).

Open Scope prog_scope.
Definition wifi_register_handler (nl_cmd func arg : Z) : PROG Z :=
  do _ <- lock;
  do ok <- on_event_cb (fun t => table_add t (mk_cb nl_cmd 0 0 func arg));
  do _ <- pthread_mutex_unlock;
  Ret (if ok then WIFI_SUCCESS else WIFI_ERROR_OUT_OF_MEMORY).

Definition wifi_register_vendor_handler (id subcmd func arg : Z) : PROG Z :=
  do _ <- lock;
  do ok <- on_event_cb (fun t => table_add t (mk_cb NL80211_CMD_VENDOR id subcmd func arg));
  do _ <- pthread_mutex_unlock;
  Ret (if ok then WIFI_SUCCESS else WIFI_ERROR_OUT_OF_MEMORY).

Definition for_cmd (c : Z) (e : cb_info) : bool := nl_cmd e =? c.
Definition for_vendor (id subcmd : Z) (e : cb_info) : bool :=
  (nl_cmd e =? NL80211_CMD_VENDOR) && (vendor_id e =? id) && (vendor_subcmd e =? subcmd).

Definition wifi_unregister_handler (c : Z) : PROG unit :=
  if c =? NL80211_CMD_VENDOR then Ret tt
  else
    do _ <- lock;
    do _ <- on_event_cb (table_remove (for_cmd c));
    do _ <- pthread_mutex_unlock; Ret tt.

Definition wifi_unregister_vendor_handler (id subcmd : Z) : PROG unit :=
  do _ <- lock;
  do _ <- on_event_cb (table_remove (for_vendor id subcmd));
  do _ <- pthread_mutex_unlock; Ret tt.

Close Scope prog_scope.

Definition wifi_register_cmd (id ptr : Z) : IO Z :=
  do ok <- on_cmd (fun t => table_add t (mk_cmd id ptr));
  io_ret (if ok then WIFI_SUCCESS else WIFI_ERROR_OUT_OF_MEMORY).

Definition has_id (id : Z) (e : cmd_info) : bool := cmd_id e =? id.
Definition has_ptr (ptr : Z) (e : cmd_info) : bool := cmd_ptr e =? ptr.

(** NULL is 0. *)
Definition ptr_of (e : option cmd_info) : Z := match e with Some e => cmd_ptr e | None => 0 end.

Definition wifi_unregister_cmd (id : Z) : IO Z :=
  do e <- on_cmd (table_remove (has_id id)); io_ret (ptr_of e).

Definition wifi_get_cmd (id : Z) : IO Z :=
  do e <- on_cmd (fun t =>
    match table_find (has_id id) t with Some (Some (_, e)) => Some (Some e, t) | Some None => Some (None, t) | None => None end);
  io_ret (ptr_of e).

(** The overload that takes the command. *)
Definition wifi_unregister_cmd_ptr (ptr : Z) : IO unit :=
  do _ <- on_cmd (table_remove (has_ptr ptr)); io_ret tt.
End Registry.

(** ** Tables as lists *)
Definition entries {A} (t : table A) : list A := take (Z.to_nat (num t)) (slots t).

Definition table_ok {A} (t : table A) : Prop := zlen (slots t) = alloc t /\ 0 <= num t <= alloc t.

Fixpoint remove_first {A} (p : A -> bool) (l : list A) : list A :=
  match l with
  | [] => []
  | x :: l => if p x then l else x :: remove_first p l
  end.

Section Lists.
Context {A : Type}.
Implicit Types (p : A -> bool) (l : list A) (t : table A).

Lemma entries_length t : table_ok t -> zlen (entries t) = num t.
Proof. unfold table_ok, entries, zlen. intros [Hl Hn]. rewrite length_take. lia. Qed.

Lemma memmove_down l i n :
  (i < n)%nat -> (n <= length l)%nat ->
  memmove l (Z.of_nat i) (Z.of_nat i + 1) (Z.of_nat n - Z.of_nat i - 1)
  = Some (take i l ++ take (n - i - 1) (drop (i + 1) l) ++ drop (n - 1) l).
Proof.
  intros Hi Hn. unfold memmove, zlen. repeat rewrite (proj2 (Z.leb_le _ _)) by lia. cbn [andb]. f_equal.
  replace (Z.to_nat (Z.of_nat i)) with i by lia. replace (Z.to_nat (Z.of_nat i + 1)) with (i + 1)%nat by lia.
  replace (Z.to_nat (Z.of_nat n - Z.of_nat i - 1)) with (n - i - 1)%nat by lia.
  by replace (i + (n - i - 1))%nat with (n - 1)%nat by lia.
Qed.

(** Scanning a suffix of the entries. *)
Lemma table_scan_spec p l n k :
  (k + n <= length l)%nat ->
  table_scan p l n (Z.of_nat k) = Some (
    match list_find (fun x => p x = true) (take n (drop k l)) with
    | Some (j, x) => Some (Z.of_nat (k + j), x) | None => None end).
Proof.
  revert k. induction n as [|n IH]; intros k Hk; [done|]. cbn [table_scan].
  destruct (lookup_lt_is_Some_2 l k) as [x Hx]; [lia|].
  unfold aget. rewrite (proj2 (Z.leb_le 0 _)), Nat2Z.id, Hx by lia. cbn [mbind option_bind].
  rewrite (drop_S l x k Hx). cbn [take list_find]. destruct (p x) eqn:E.
  - rewrite decide_True by done. by rewrite Nat.add_0_r.
  - rewrite decide_False by done.
    replace (Z.of_nat k + 1) with (Z.of_nat (S k)) by lia. rewrite IH by lia.
    destruct (list_find _ (take n (drop (S k) l))) as [[j y]|]; [|done]. cbn. do 3 f_equal. lia.
Qed.

Lemma table_find_spec p t :
  table_ok t ->
  table_find p t = Some (match list_find (fun x => p x = true) (entries t) with
                         | Some (j, x) => Some (Z.of_nat j, x) | None => None end).
Proof.
  intros [Hl Hn]. unfold table_find, entries. unfold zlen in Hl.
  pose proof (table_scan_spec p (slots t) (Z.to_nat (num t)) 0) as E. change (Z.of_nat 0) with 0 in E. rewrite E by lia. by rewrite drop_0.
Qed.

Lemma find_list_find p l : find p l = snd <$> list_find (fun x => p x = true) l.
Proof.
  induction l as [|x l IH]; [done|]. cbn [find list_find]. destruct (p x) eqn:E.
  - by rewrite decide_True by done.
  - rewrite decide_False by done. rewrite IH.
    by destruct (list_find _ l) as [[]|].
Qed.

Lemma remove_first_find p l i x :
  list_find (fun x => p x = true) l = Some (i, x) -> remove_first p l = take i l ++ drop (S i) l /\ (i < length l)%nat.
Proof.
  revert i. induction l as [|y l IH]; intros i; [done|]. cbn [list_find remove_first]. destruct (p y) eqn:E.
  - rewrite decide_True by done. intros [= <- <-]. cbn. split; [done|lia].
  - rewrite decide_False by done. destruct (list_find _ l) as [[j z]|]; [|done].
    cbn. intros [= <- <-]. destruct (IH j) as [-> ?]; [done|]. split; [done|lia].
Qed.

Lemma remove_first_none p l : list_find (fun x => p x = true) l = None -> remove_first p l = l.
Proof.
  induction l as [|y l IH]; [done|]. cbn [list_find remove_first]. destruct (p y) eqn:E.
  - by rewrite decide_True by done.
  - rewrite decide_False by done. destruct (list_find _ l) as [[]|]; [done|]. intros _. by rewrite IH.
Qed.

Lemma table_add_spec t x :
  table_ok t ->
  exists t', table_add t x = Some (num t <? alloc t, t') /\ table_ok t' /\ alloc t' = alloc t
    /\ entries t' = if num t <? alloc t then entries t ++ [x] else entries t.
Proof.
  intros Hok. destruct Hok as [Hl Hn]. unfold table_add. destruct (Z.ltb_spec (num t) (alloc t)) as [Hlt|]; [|by exists t].
  rewrite aset_in by lia. eexists. split; [done|]. unfold table_ok, zlen, entries in *. cbn [slots num alloc].
  rewrite length_insert. split; [lia|]. split; [done|].
  replace (Z.to_nat (num t + 1)) with (S (Z.to_nat (num t))) by lia.
  rewrite (take_S_r _ _ x) by (apply list_lookup_insert_eq; lia).
  by rewrite take_insert_ge by lia.
Qed.

Lemma table_remove_spec p t :
  table_ok t ->
  exists t', table_remove p t = Some (find p (entries t), t') /\ table_ok t' /\ alloc t' = alloc t
    /\ entries t' = remove_first p (entries t).
Proof.
  intros Hok. unfold table_remove. rewrite table_find_spec, find_list_find by done. cbn [mbind option_bind].
  destruct (list_find _ (entries t)) as [[i x]|] eqn:E.
  - destruct (remove_first_find _ _ _ _ E) as [-> Hi]. destruct Hok as [Hl Hn].
    assert (length (entries t) = Z.to_nat (num t)) as Hle
      by (unfold entries, zlen in *; rewrite length_take; lia).
    assert (num t = Z.of_nat (Z.to_nat (num t))) as En by lia.
    assert (Z.to_nat (num t) <= length (slots t))%nat as Hb by (unfold zlen in Hl; lia).
    rewrite En, memmove_down by lia. rewrite <- En. cbn [mbind option_bind]. eexists. split; [done|].
    set (l := take i (slots t) ++ _). set (n := Z.to_nat (num t)) in *.
    assert (length l = length (slots t)) as El.
    { subst l. rewrite !length_app, !length_take, !length_drop. lia. }
    unfold table_ok, zlen in *. cbn [slots num alloc]. rewrite El. split; [lia|]. split; [done|].
    unfold entries. cbn [slots num]. replace (Z.to_nat (num t - 1)) with (n - 1)%nat by lia. fold n.
    subst l. rewrite app_assoc, take_app_le by (rewrite length_app, !length_take, length_drop; lia).
    rewrite take_ge by (rewrite length_app, !length_take, length_drop; lia).
    rewrite take_take, Nat.min_l by lia. f_equal.
    rewrite skipn_firstn_comm. f_equal; [lia|]. f_equal. lia.
  - exists t. by rewrite remove_first_none.
Qed.

Lemma remove_first_length p l : (length (remove_first p l) <= length l)%nat.
Proof. induction l as [|x l IH]; cbn; [lia|]. destruct (p x); cbn; lia. Qed.

Lemma remove_first_Forall (P : A -> Prop) p l : Forall P l -> Forall P (remove_first p l).
Proof. induction 1 as [|x l Hx Hl IH]; cbn; [done|]. destruct (p x); [done|by apply Forall_cons]. Qed.

Lemma remove_first_In p l x : In x (remove_first p l) -> In x l.
Proof. induction l as [|y l IH]; cbn; [done|]. destruct (p y); cbn; naive_solver. Qed.

(** Nothing is lost but entries that [p] accepts. *)
Lemma remove_first_keeps p l x : In x l -> p x = false -> In x (remove_first p l).
Proof.
  induction l as [|y l IH]; cbn; [done|]. intros [->|Hx] Hp.
  - rewrite Hp. by left.
  - destruct (p y); [done|]. right. auto.
Qed.

Lemma find_remove_app p l x : Forall (fun y => p y = false) l -> p x = true -> remove_first p (l ++ [x]) = l.
Proof. induction 1 as [|y l Hy Hl IH]; cbn; intros Hx; [by rewrite Hx|]. rewrite Hy. f_equal. auto. Qed.

Lemma remove_first_id p l : Forall (fun y => p y = false) l -> remove_first p l = l.
Proof. induction 1 as [|y l Hy Hl IH]; cbn; [done|]. rewrite Hy. by f_equal. Qed.
End Lists.

(** ** The abstraction of the memory *)

(** What the tables stand for, the objects, and the rest of [hal_info]. *)
Record view := mk_view {
  cbs : list cb_info;
  cmds : list cmd_info;
  objs : gmap Z wifi_command;
  rest : Z * Z * Z * (Z * Z) * bool * bool * Z * list interface_info * Z
}.

Definition view_of (h : hal) : view :=
  let i := info h in
  mk_view (entries (event_cb i)) (entries (cmd i)) (objects h)
    (cmd_sock i, event_sock i, nl80211_family_id i, cleanup_socks i, in_event_loop i, clean_up i, cleaned_up_handler i,
     interfaces i, num_interfaces i).

Definition set_cbs (v : view) (l : list cb_info) : view := mk_view l (cmds v) (objs v) (rest v).
Definition set_cmds (v : view) (l : list cmd_info) : view := mk_view (cbs v) l (objs v) (rest v).
Definition set_objs (v : view) (o : gmap Z wifi_command) : view := mk_view (cbs v) (cmds v) o (rest v).

(** Between operations. *)
Definition hal_ok (h : hal) : Prop :=
  table_ok (event_cb (info h)) /\ alloc (event_cb (info h)) = DEFAULT_EVENT_CB_SIZE
  /\ table_ok (cmd (info h)) /\ alloc (cmd (info h)) = DEFAULT_CMD_SIZE
  /\ cb_lock (info h) = false.

Definition push {A} (size : Z) (l : list A) (x : A) : list A := if zlen l <? size then l ++ [x] else l.

Section Spec.
Context `{hal_headers} {C R : Type}.
Abbreviation IO := (io hal C R).
Implicit Types (w : world hal C R).

Definition add_result {A} (size : Z) (l : list A) : Z :=
  if zlen l <? size then WIFI_SUCCESS else WIFI_ERROR_OUT_OF_MEMORY.

(** An operation on the handlers, bracketed by the mutex. *)
Lemma wp_locked {A B} (f : table cb_info -> option (A * table cb_info)) (k : A -> prog hal C R B) (Q : B -> world hal C R -> Prop) w a t :
  hal_ok (globals w) ->
  f (event_cb (info (globals w))) = Some (a, t) -> table_ok t -> alloc t = DEFAULT_EVENT_CB_SIZE ->
  (forall h, hal_ok h -> view_of h = set_cbs (view_of (globals w)) (entries t) -> wp (run (k a)) Q (World h (trace w))) ->
  wp (run (do _ <- lock; do a <- on_event_cb f; do _ <- pthread_mutex_unlock; k a)%prog) Q w.
Proof.
  intros (H1 & H2 & H3 & H4 & Hl) Hf Ht Ha HQ.
  apply wp_bind. eapply wp_pure; [by rewrite Hl|]. apply wp_bind. eapply wp_pure; [cbn; by rewrite Hf|].
  apply wp_bind. eapply wp_pure; [done|]. apply HQ; [|done]. done.
Qed.

Lemma wp_on_cmd {A} (f : table cmd_info -> option (A * table cmd_info)) (Q : A -> world hal C R -> Prop) w a t :
  hal_ok (globals w) ->
  f (cmd (info (globals w))) = Some (a, t) -> table_ok t -> alloc t = DEFAULT_CMD_SIZE ->
  (forall h, hal_ok h -> view_of h = set_cmds (view_of (globals w)) (entries t) -> Q a (World h (trace w))) ->
  wp (on_cmd f) Q w.
Proof.
  intros (H1 & H2 & H3 & H4 & Hl) Hf Ht Ha HQ. unfold on_cmd.
  eapply wp_pure; [by rewrite Hf|]. by apply HQ.
Qed.

Lemma wp_register_vendor_handler id sub func arg Q w :
  hal_ok (globals w) ->
  (forall h, hal_ok h ->
     view_of h = set_cbs (view_of (globals w)) (push DEFAULT_EVENT_CB_SIZE (cbs (view_of (globals w)))
                   (mk_cb NL80211_CMD_VENDOR id sub func arg)) ->
     Q (add_result DEFAULT_EVENT_CB_SIZE (cbs (view_of (globals w)))) (World h (trace w))) ->
  wp (run (wifi_register_vendor_handler id sub func arg)) Q w.
Proof.
  intros Hok HQ. pose proof Hok as (H1 & H2 & _).
  destruct (table_add_spec (event_cb (info (globals w))) (mk_cb NL80211_CMD_VENDOR id sub func arg) H1) as (t & E & Ht & Ha & Et).
  eapply (wp_locked _ _ _ _ _ _ Hok E Ht); [by rewrite Ha|]. intros h Hh Hv. apply wp_ret.
  unfold add_result, push in HQ. cbn [cbs view_of] in HQ. rewrite entries_length in HQ by done. rewrite <- H2 in HQ. rewrite Et in Hv.
  destruct (num _ <? alloc _); by apply HQ.
Qed.

Lemma wp_register_handler c func arg Q w :
  hal_ok (globals w) ->
  (forall h, hal_ok h ->
     view_of h = set_cbs (view_of (globals w)) (push DEFAULT_EVENT_CB_SIZE (cbs (view_of (globals w))) (mk_cb c 0 0 func arg)) ->
     Q (add_result DEFAULT_EVENT_CB_SIZE (cbs (view_of (globals w)))) (World h (trace w))) ->
  wp (run (wifi_register_handler c func arg)) Q w.
Proof.
  intros Hok HQ. pose proof Hok as (H1 & H2 & _).
  destruct (table_add_spec (event_cb (info (globals w))) (mk_cb c 0 0 func arg) H1) as (t & E & Ht & Ha & Et).
  eapply (wp_locked _ _ _ _ _ _ Hok E Ht); [by rewrite Ha|]. intros h Hh Hv. apply wp_ret.
  unfold add_result, push in HQ. cbn [cbs view_of] in HQ. rewrite entries_length in HQ by done. rewrite <- H2 in HQ. rewrite Et in Hv.
  destruct (num _ <? alloc _); by apply HQ.
Qed.

Lemma wp_unregister_vendor_handler id sub Q w :
  hal_ok (globals w) ->
  (forall h, hal_ok h ->
     view_of h = set_cbs (view_of (globals w)) (remove_first (for_vendor id sub) (cbs (view_of (globals w)))) ->
     Q tt (World h (trace w))) ->
  wp (run (wifi_unregister_vendor_handler id sub)) Q w.
Proof.
  intros Hok HQ. pose proof Hok as (H1 & H2 & _).
  destruct (table_remove_spec (for_vendor id sub) _ H1) as (t & E & Ht & Ha & Et).
  unfold wifi_unregister_vendor_handler. apply wp_bind. destruct Hok as (_ & _ & H3 & H4 & Hl).
  eapply wp_pure; [by rewrite Hl|]. apply wp_bind. eapply wp_pure; [cbn; by rewrite E|].
  apply wp_bind. eapply wp_pure; [done|]. apply wp_ret. rewrite H2 in Ha. apply HQ; [done|]. unfold view_of; cbn. by rewrite Et.
Qed.

Lemma wp_unregister_handler c Q w :
  hal_ok (globals w) ->
  (forall h, hal_ok h ->
     view_of h = (if c =? NL80211_CMD_VENDOR then view_of (globals w)
                  else set_cbs (view_of (globals w)) (remove_first (for_cmd c) (cbs (view_of (globals w))))) ->
     Q tt (World h (trace w))) ->
  wp (run (wifi_unregister_handler c)) Q w.
Proof.
  intros Hok HQ. unfold wifi_unregister_handler. destruct (c =? NL80211_CMD_VENDOR).
  { apply wp_ret. destruct w. by apply HQ. }
  pose proof Hok as (H1 & H2 & _).
  destruct (table_remove_spec (for_cmd c) _ H1) as (t & E & Ht & Ha & Et).
  apply wp_bind. destruct Hok as (_ & _ & H3 & H4 & Hl).
  eapply wp_pure; [by rewrite Hl|]. apply wp_bind. eapply wp_pure; [cbn; by rewrite E|].
  apply wp_bind. eapply wp_pure; [done|]. apply wp_ret. rewrite H2 in Ha. apply HQ; [done|]. unfold view_of; cbn. by rewrite Et.
Qed.

Lemma wp_register_cmd id ptr Q w :
  hal_ok (globals w) ->
  (forall h, hal_ok h ->
     view_of h = set_cmds (view_of (globals w)) (push DEFAULT_CMD_SIZE (cmds (view_of (globals w))) (mk_cmd id ptr)) ->
     Q (add_result DEFAULT_CMD_SIZE (cmds (view_of (globals w)))) (World h (trace w))) ->
  wp (wifi_register_cmd id ptr) Q w.
Proof.
  intros Hok HQ. pose proof Hok as (_ & _ & H1 & H2 & _).
  destruct (table_add_spec (cmd (info (globals w))) (mk_cmd id ptr) H1) as (t & E & Ht & Ha & Et).
  apply wp_bind. eapply (wp_on_cmd _ _ _ _ _ Hok E Ht); [by rewrite Ha|]. intros h Hh Hv. apply wp_ret.
  unfold add_result, push in HQ. cbn [cmds view_of] in HQ. rewrite entries_length in HQ by done. rewrite <- H2 in HQ. rewrite Et in Hv.
  destruct (num _ <? alloc _); by apply HQ.
Qed.

Lemma wp_unregister_cmd id Q w :
  hal_ok (globals w) ->
  (forall h, hal_ok h ->
     view_of h = set_cmds (view_of (globals w)) (remove_first (has_id id) (cmds (view_of (globals w)))) ->
     Q (ptr_of (find (has_id id) (cmds (view_of (globals w))))) (World h (trace w))) ->
  wp (wifi_unregister_cmd id) Q w.
Proof.
  intros Hok HQ. pose proof Hok as (_ & _ & H1 & H2 & _).
  destruct (table_remove_spec (has_id id) _ H1) as (t & E & Ht & Ha & Et).
  apply wp_bind. eapply (wp_on_cmd _ _ _ _ _ Hok E Ht); [by rewrite Ha|]. intros h Hh Hv. apply wp_ret.
  apply HQ; [done|]. by rewrite Hv, Et.
Qed.

Lemma wp_unregister_cmd_ptr ptr Q w :
  hal_ok (globals w) ->
  (forall h, hal_ok h ->
     view_of h = set_cmds (view_of (globals w)) (remove_first (has_ptr ptr) (cmds (view_of (globals w)))) ->
     Q tt (World h (trace w))) ->
  wp (wifi_unregister_cmd_ptr ptr) Q w.
Proof.
  intros Hok HQ. pose proof Hok as (_ & _ & H1 & H2 & _).
  destruct (table_remove_spec (has_ptr ptr) _ H1) as (t & E & Ht & Ha & Et).
  apply wp_bind. eapply (wp_on_cmd _ _ _ _ _ Hok E Ht); [by rewrite Ha|]. intros h Hh Hv. apply wp_ret.
  apply HQ; [done|]. by rewrite Hv, Et.
Qed.

Lemma wp_get_cmd id Q w :
  hal_ok (globals w) ->
  (forall h, hal_ok h -> view_of h = view_of (globals w) ->
     Q (ptr_of (find (has_id id) (cmds (view_of (globals w))))) (World h (trace w))) ->
  wp (wifi_get_cmd id) Q w.
Proof.
  intros Hok HQ. pose proof Hok as (_ & _ & H1 & H2 & _). cbn [cmds view_of] in HQ. rewrite find_list_find in HQ.
  apply wp_bind. eapply (wp_on_cmd _ _ _ (snd <$> list_find (fun x => has_id id x = true) (entries (cmd (info (globals w)))))
    (cmd (info (globals w))) Hok); [|done..|].
  - rewrite table_find_spec by done. by destruct (list_find _ _) as [[]|].
  - intros h Hh Hv. apply wp_ret. by apply HQ.
Qed.
End Spec.

(** ** Any sequence of operations *)
Inductive reg_op :=
  | RegisterHandler (nl_cmd func arg : Z)
  | RegisterVendorHandler (id subcmd func arg : Z)
  | UnregisterHandler (nl_cmd : Z)
  | UnregisterVendorHandler (id subcmd : Z)
  | RegisterCmd (id ptr : Z)
  | UnregisterCmd (id : Z)
  | GetCmd (id : Z)
  | UnregisterCmdPtr (ptr : Z).

Section Refinement.
Context `{hal_headers} {C R : Type}.
Abbreviation IO := (io hal C R).

Definition no_result (m : IO unit) : IO Z := do _ <- m; io_ret 0.

Definition run_op (o : reg_op) : IO Z :=
  match o with
  | RegisterHandler c f a => run (wifi_register_handler c f a)
  | RegisterVendorHandler i s f a => run (wifi_register_vendor_handler i s f a)
  | UnregisterHandler c => no_result (run (wifi_unregister_handler c))
  | UnregisterVendorHandler i s => no_result (run (wifi_unregister_vendor_handler i s))
  | RegisterCmd i p => wifi_register_cmd i p
  | UnregisterCmd i => wifi_unregister_cmd i
  | GetCmd i => wifi_get_cmd i
  | UnregisterCmdPtr p => no_result (wifi_unregister_cmd_ptr p)
  end.

Fixpoint run_ops (os : list reg_op) : IO (list Z) :=
  match os with
  | [] => io_ret []
  | o :: os => do r <- run_op o; do rs <- run_ops os; io_ret (r :: rs)
  end.

(** The specification: two lists of at most 64 entries; the newest entry is the last, the oldest that
    matches is found and removed. *)
Definition spec_op (o : reg_op) (v : view) : Z * view :=
  match o with
  | RegisterHandler c f a =>
      (add_result 64 (cbs v), set_cbs v (push 64 (cbs v) (mk_cb c 0 0 f a)))
  | RegisterVendorHandler i s f a =>
      (add_result 64 (cbs v), set_cbs v (push 64 (cbs v) (mk_cb NL80211_CMD_VENDOR i s f a)))
  | UnregisterHandler c =>
      (0, if c =? NL80211_CMD_VENDOR then v else set_cbs v (remove_first (for_cmd c) (cbs v)))
  | UnregisterVendorHandler i s => (0, set_cbs v (remove_first (for_vendor i s) (cbs v)))
  | RegisterCmd i p => (add_result 64 (cmds v), set_cmds v (push 64 (cmds v) (mk_cmd i p)))
  | UnregisterCmd i => (ptr_of (find (has_id i) (cmds v)), set_cmds v (remove_first (has_id i) (cmds v)))
  | GetCmd i => (ptr_of (find (has_id i) (cmds v)), v)
  | UnregisterCmdPtr p => (0, set_cmds v (remove_first (has_ptr p) (cmds v)))
  end.

Fixpoint spec_ops (os : list reg_op) (v : view) : list Z * view :=
  match os with
  | [] => ([], v)
  | o :: os => let '(r, v) := spec_op o v in let '(rs, v) := spec_ops os v in (r :: rs, v)
  end.

Lemma run_op_spec o (w : world hal C R) :
  hal_ok (globals w) ->
  wp (run_op o) (fun r w' => hal_ok (globals w') /\ trace w' = trace w
    /\ (r, view_of (globals w')) = spec_op o (view_of (globals w))) w.
Proof.
  intros Hok. destruct o; cbn [run_op spec_op]; unfold no_result.
  - apply wp_register_handler; [done|]. intros h Hh Hv. cbn [globals trace]. by rewrite Hv.
  - apply wp_register_vendor_handler; [done|]. intros h Hh Hv. cbn [globals trace]. by rewrite Hv.
  - apply wp_bind, wp_unregister_handler; [done|]. intros h Hh Hv. apply wp_ret. cbn [globals trace]. by rewrite Hv.
  - apply wp_bind, wp_unregister_vendor_handler; [done|]. intros h Hh Hv. apply wp_ret. cbn [globals trace]. by rewrite Hv.
  - apply wp_register_cmd; [done|]. intros h Hh Hv. cbn [globals trace]. by rewrite Hv.
  - apply wp_unregister_cmd; [done|]. intros h Hh Hv. cbn [globals trace]. by rewrite Hv.
  - apply wp_get_cmd; [done|]. intros h Hh Hv. cbn [globals trace]. by rewrite Hv.
  - apply wp_bind, wp_unregister_cmd_ptr; [done|]. intros h Hh Hv. apply wp_ret. cbn [globals trace]. by rewrite Hv.
Qed.

Lemma run_ops_spec os (w : world hal C R) :
  hal_ok (globals w) ->
  wp (run_ops os) (fun rs w' => hal_ok (globals w') /\ trace w' = trace w
    /\ (rs, view_of (globals w')) = spec_ops os (view_of (globals w))) w.
Proof.
  revert w. induction os as [|o os IH]; intros w Hok; cbn [run_ops spec_ops]; [by apply wp_ret|].
  apply wp_bind. eapply wp_mono; [by apply run_op_spec|]. intros r w1 (Hok1 & Ht1 & E1).
  apply wp_bind. eapply wp_mono; [by apply IH|]. intros rs w2 (Hok2 & Ht2 & E2). apply wp_ret.
  rewrite <- E1, <- E2. by rewrite Ht2, Ht1.
Qed.

(** The tables of handlers and of commands refine two lists: any sequence of registrations, removals and
    lookups runs without an access outside of the arrays and without waiting for a mutex that is held,
    leaves the mutex free and the counts within the 64 entries allocated, and gives the results and
    the contents of the lists; in particular a registration is refused exactly when 64 are outstanding,
    and a removal moves up those registered later, keeping their order. *)
Theorem registry_refines_lists (os : list reg_op) (w : world hal C R) :
  hal_ok (globals w) ->
  exists rs w', run_ops os w = Some (rs, w') /\ hal_ok (globals w') /\ trace w' = trace w
    /\ (rs, view_of (globals w')) = spec_ops os (view_of (globals w)).
Proof. intros Hok. apply (wp_total _ _ _ (run_ops_spec os w Hok)). Qed.
End Refinement.

Definition cb_blank : cb_info := mk_cb 0 0 0 0 0.
Definition cmd_blank : cmd_info := mk_cmd 0 0.

(** The memory after a successful [wifi_initialize]. *)
Definition hal0 : hal := mk_hal
  (mk_hal_info 1 2 20 (3, 4) false false 0 (mk_table (repeat cb_blank 64) 0 64) false
    (mk_table (repeat cmd_blank 64) 0 64) [] 0) ∅.

Lemma hal0_ok : hal_ok hal0.
Proof. unfold hal_ok, table_ok. by vm_compute. Qed.

Lemma registry_refines_lists_witness : exists w',
  @run_ops headers0 unit unit
    [RegisterCmd 7 100; RegisterCmd 8 200; RegisterCmd 7 300; UnregisterCmd 7; GetCmd 7; UnregisterCmd 9] (World hal0 [])
  = Some ([0; 0; 0; 100; 300; 0], w')
  /\ hal_ok (globals w') /\ cmds (view_of (globals w')) = [mk_cmd 8 200; mk_cmd 7 300].
Proof.
  destruct (@registry_refines_lists headers0 unit unit
    [RegisterCmd 7 100; RegisterCmd 8 200; RegisterCmd 7 300; UnregisterCmd 7; GetCmd 7; UnregisterCmd 9] (World hal0 []) hal0_ok)
    as (rs & w' & E & Hok & _ & Es).
  exists w'. vm_compute in Es. injection Es as -> E1 E2 E3 E4. split; [exact E|]. split; [exact Hok|exact E2].
Defined.
