(* ===== verification/WifiRequest.v ===== *)
(** Netlink requests of the Wi-Fi HAL (src/mediatek/wifi/wifi_hal/cpp_bindings.h and
    cpp_bindings.cpp): building a message of attributes, sending it, waiting for the reply. libnl is
    reached through calls. *)
From Stdlib Require Import List.
From stdpp Require Import gmap.
From S2P Require Import Prelude WifiState.

(** ** Messages *)

(** The statements that fill a message. [Put] is [result = put(...); if (result < 0) return result;],
    [PutI] does not look at the result; [Start true] is followed by a check for NULL. *)
Inductive mop :=
  | Put (attr : Z) (data : list Z)
  | PutI (attr : Z) (data : list Z)
  | Start (checked : bool) (attr : Z)
  | End (attr : Z).

(** [attr_start(attr)] ... [attr_end] *)
Definition nest (attr : Z) (body : list mop) : list mop := Start false attr :: body ++ [End attr].
Definition nest_checked (attr : Z) (body : list mop) : list mop := Start true attr :: body ++ [End attr].

Definition put_u8 (attr v : Z) : mop := Put attr (le_bytes 1 v).
Definition put_u16 (attr v : Z) : mop := Put attr (le_bytes 2 v).
Definition put_u32 (attr v : Z) : mop := Put attr (le_bytes 4 v).
Definition put_addr (attr : Z) (a : list Z) : mop := Put attr (take 6 a).
Definition put_string (attr : Z) (s : list Z) : mop := Put attr (s ++ [0]).

Section Request.
Context `{hal_headers} (answer : list (wcall * wresp) -> wcall -> wresp).
(** How many receives a reply may take: see [kernel_replies]. *)
Context (patience : nat).
Abbreviation IO := (io hal wcall wresp).

Definition sys (c : wcall) : IO wresp := io_call answer c.
Definition undefined {A} : IO A := fun _ => None.

(** [starts]: the nested attributes that are open, innermost first; NULL is 0, and libnl does not
    expect it in [nla_nest_end]. *)
Fixpoint put_ops (starts : list Z) (ops : list mop) (result : Z) : IO Z :=
  match ops with
  | [] => io_ret result
  | Put a d :: ops =>
      do r <- sys (Cnla_put a d);
      if rv r <? 0 then io_ret (rv r) else put_ops starts ops (rv r)
  | PutI a d :: ops => do _ <- sys (Cnla_put a d); put_ops starts ops result
  | Start checked a :: ops =>
      do n <- sys (Cnla_nest_start a);
      if checked && (rv n =? 0) then io_ret WIFI_ERROR_OUT_OF_MEMORY
      else put_ops (rv n :: starts) ops result
  | End a :: ops =>
      match starts with
      | n :: starts =>
          if n =? 0 then undefined else do _ <- sys (Cnla_nest_end a); put_ops starts ops result
      | [] => undefined
      end
  end.

(** ** WifiRequest

    A request is the pointer to its message, NULL being 0; the operations return the new one. *)
Definition destroy (msg : Z) : IO unit :=
  if msg =? 0 then io_ret tt else do _ <- sys (Cnlmsg_free msg); io_ret tt.

(** [int create(int family, uint8_t cmd, int flags, int hdrlen)] *)
Definition create (msg family cmd : Z) : IO (Z * Z) :=
  do _ <- destroy msg;
  do m <- sys Cnlmsg_alloc;
  if rv m =? 0 then io_ret (WIFI_ERROR_OUT_OF_MEMORY, 0)
  else do _ <- sys (Cgenlmsg_put family cmd); io_ret (WIFI_SUCCESS, rv m).

Definition vendor_ops (iface id subcmd : Z) : list mop :=
  [put_u32 NL80211_ATTR_VENDOR_ID id; put_u32 NL80211_ATTR_VENDOR_SUBCMD subcmd]
  ++ (if iface =? -1 then [] else [put_u32 NL80211_ATTR_IFINDEX iface]).

(** [int create(uint32_t id, int subcmd)], the family being that of the HAL. *)
Definition create_vendor (msg iface id subcmd : Z) : IO (Z * Z) :=
  do s <- io_get;
  do p <- create msg (nl80211_family_id (info s)) NL80211_CMD_VENDOR;
  let '(res, msg) := p in
  if res <? 0 then io_ret (res, msg)
  else do res <- put_ops [] (vendor_ops iface id subcmd) res; io_ret (res, msg).

(** The shape of every [create...Request]: the vendor command, its attributes; at the end the [last]
    result is returned, or [WIFI_SUCCESS]. *)
Definition build (last : bool) (msg iface subcmd : Z) (ops : list mop) : IO (Z * Z) :=
  do p <- create_vendor msg iface GOOGLE_OUI subcmd;
  let '(res, msg) := p in
  if res <? 0 then io_ret (res, msg)
  else
    do res <- put_ops [] ops res;
    io_ret (if (res <? 0) || last then res else WIFI_SUCCESS, msg).

(** The destructor of a request that is a local variable. *)
Definition with_request {A} (body : Z -> IO (A * Z)) : IO A :=
  do p <- body 0; do _ <- destroy p.2; io_ret p.1.

(** ** requestResponse *)

(** The members of the command that [handleResponse] changes are [S]. *)
Section Response.
Context {S : Type} (handleResponse : S -> event -> IO S).

(** The callbacks: [err] is set by the acknowledgement, the end of a dump, and an error. *)
Fixpoint callbacks (s : S) (err : Z) (cbs : list nl_callback) : IO (Z * S) :=
  match cbs with
  | [] => io_ret (err, s)
  | CbValid reply :: cbs =>
      do s <- (if ev_parse reply <? 0 then io_ret s else handleResponse s reply);
      callbacks s err cbs
  | (CbAck | CbFinish) :: cbs => callbacks s 0 cbs
  | CbError e :: cbs => callbacks s e cbs
  end.

(** [while (err > 0) nl_recvmsgs(...)] *)
Fixpoint wait_reply (sock : Z) (n : nat) (s : S) (err : Z) : IO (Z * S) :=
  if err <=? 0 then io_ret (err, s)
  else
    match n with
    | O => undefined
    | Datatypes.S n =>
        do r <- sys (Cnl_recvmsgs sock);
        do p <- callbacks s err (rcbs r);
        wait_reply sock n p.2 p.1
    end.

Definition requestResponse (s : S) (msg : Z) : IO (Z * S) :=
  do cb <- sys Cnl_cb_alloc;
  if rv cb =? 0 then do _ <- sys (Cnl_cb_put 0); io_ret (0, s)
  else
    do g <- io_get;
    do r <- sys (Cnl_send (cmd_sock (info g)) msg);
    if rv r <? 0 then do _ <- sys (Cnl_cb_put (rv cb)); io_ret (rv r, s)
    else
      do p <- wait_reply (cmd_sock (info g)) patience s 1;
      do _ <- sys (Cnl_cb_put (rv cb));
      io_ret p.
End Response.

(** Most commands do nothing on a response. *)
Definition no_response (s : unit) (reply : event) : IO unit := io_ret s.

(** ** What the code relies on *)

(** The room a request takes in its message: an attribute is padded to a multiple of 4 octets. *)
Definition attr_size (d : list Z) : Z := 4 + (zlen d + 3) / 4 * 4.

Definition msg_step (len : Z) (e : wcall * wresp) : Z :=
  match e with
  | (Cnlmsg_alloc, _) => 16
  | (Cgenlmsg_put _ _, _) => len + 4
  | (Cnla_put _ d, r) => if rv r <? 0 then len else len + attr_size d
  | (Cnla_nest_start _, r) => if rv r =? 0 then len else len + 4
  | _ => len
  end.

(** The length of the message that was allocated last. *)
Definition msg_len (tr : list (wcall * wresp)) : Z := fold_left msg_step tr 0.

(** libnl: a message is a page; attributes are added exactly as long as there is room. *)
Record libnl_ok (page : Z) : Prop := {
  put_room : forall tr a d,
    if msg_len tr + attr_size d <=? page then rv (answer tr (Cnla_put a d)) = 0 else rv (answer tr (Cnla_put a d)) < 0;
  nest_room : forall tr a, (rv (answer tr (Cnla_nest_start a)) =? 0) = negb (msg_len tr + 4 <=? page);
  page_large : 4096 <= page
}.

(** What a batch of callbacks makes of [err]. *)
Definition err_after (err : Z) (cbs : list nl_callback) : Z :=
  fold_left (fun err c => match c with CbValid _ => err | CbAck | CbFinish => 0 | CbError e => e end) cbs err.

Fixpoint replies_within (sock : Z) (n : nat) (tr : list (wcall * wresp)) (err : Z) : Prop :=
  err <= 0 \/
  match n with
  | O => False
  | S n =>
      let r := answer tr (Cnl_recvmsgs sock) in
      replies_within sock n (tr ++ [(Cnl_recvmsgs sock, r)]) (err_after err (rcbs r))
  end.

(** The kernel acknowledges a request that was sent, or answers it with an error. *)
Definition kernel_replies : Prop :=
  forall tr sock msg, 0 <= rv (answer tr (Cnl_send sock msg)) ->
    replies_within sock patience (tr ++ [(Cnl_send sock msg, answer tr (Cnl_send sock msg))]) 1.
End Request.

(** ** Filling a message *)
Definition op_size (o : mop) : Z :=
  match o with Put _ d | PutI _ d => attr_size d | Start _ _ => 4 | End _ => 0 end.
Definition ops_size (ops : list mop) : Z := zsum (map op_size ops).

Definition op_call (o : mop) : wcall :=
  match o with
  | Put a d | PutI a d => Cnla_put a d
  | Start _ a => Cnla_nest_start a
  | End a => Cnla_nest_end a
  end.

(** How many attributes are open after [ops]. *)
Fixpoint depth (d : nat) (ops : list mop) : option nat :=
  match ops with
  | [] => Some d
  | (Put _ _ | PutI _ _) :: ops => depth d ops
  | Start _ _ :: ops => depth (S d) ops
  | End _ :: ops => match d with S d => depth d ops | O => None end
  end.

(** [ops] opens and closes properly. *)
Definition balanced (ops : list mop) : Prop := forall d, depth d ops = Some d.

(** No nested attribute is empty, and every result is looked at; [b]: the statement before is a
    [Start]. The result says the same at the end. *)
Fixpoint dense (b : bool) (ops : list mop) : option bool :=
  match ops with
  | [] => Some b
  | Put _ _ :: ops => dense false ops
  | PutI _ _ :: _ => None
  | Start _ _ :: ops => dense true ops
  | End _ :: ops => if b then None else dense false ops
  end.

(** A nonempty sequence of attributes. *)
Definition solid (ops : list mop) : Prop := forall b, dense b ops = Some false.

Create HintDb request discriminated.

Lemma depth_app d a b : depth d (a ++ b) = d' ← depth d a; depth d' b.
Proof. revert d. induction a as [|[] a IH]; intros d; cbn; auto. by destruct d. Qed.

Lemma dense_app b l k : dense b (l ++ k) = b' ← dense b l; dense b' k.
Proof. revert b. induction l as [|[] l IH]; intros b; cbn; auto. by destruct b. Qed.

Lemma balanced_nil : balanced [].
Proof. done. Qed.
Lemma balanced_app a b : balanced a -> balanced b -> balanced (a ++ b).
Proof. intros Ha Hb d. rewrite depth_app, Ha. apply Hb. Qed.
Lemma balanced_put a d ops : balanced ops -> balanced (Put a d :: ops).
Proof. intros Ho e. apply Ho. Qed.
Lemma balanced_putI a d ops : balanced ops -> balanced (PutI a d :: ops).
Proof. intros Ho e. apply Ho. Qed.
Lemma balanced_nest a body : balanced body -> balanced (nest a body).
Proof. intros Hb d. cbn. by rewrite depth_app, Hb. Qed.
Lemma balanced_nest_checked a body : balanced body -> balanced (nest_checked a body).
Proof. intros Hb d. cbn. by rewrite depth_app, Hb. Qed.
Lemma balanced_concat {A} (f : A -> list mop) l : (forall x, balanced (f x)) -> balanced (concat (map f l)).
Proof. intros Hf. induction l as [|x l IH]; cbn; [apply balanced_nil|by apply balanced_app]. Qed.

Lemma solid_put a d : solid [Put a d].
Proof. by intros []. Qed.
Lemma solid_app a b : solid a -> solid b -> solid (a ++ b).
Proof. intros Ha Hb x. rewrite dense_app, Ha. apply Hb. Qed.
Lemma solid_put_cons a d ops : solid ops -> solid (Put a d :: ops).
Proof. intros Ho. apply (solid_app [Put a d]); [apply solid_put|done]. Qed.
Lemma solid_nest a body : solid body -> solid (nest a body).
Proof. intros Hb x. cbn. rewrite dense_app, Hb. done. Qed.
Lemma solid_nest_checked a body : solid body -> solid (nest_checked a body).
Proof. intros Hb x. cbn. rewrite dense_app, Hb. done. Qed.
Lemma solid_concat {A} (f : A -> list mop) l : l <> [] -> (forall x, solid (f x)) -> solid (concat (map f l)).
Proof.
  intros Hl Hf. destruct l as [|x l]; [done|]. clear Hl. revert x. induction l as [|y l IH]; intros x; cbn.
  - rewrite app_nil_r. apply Hf.
  - apply solid_app; [apply Hf|]. apply IH.
Qed.

#[export] Hint Resolve balanced_nil balanced_app balanced_put balanced_putI balanced_nest balanced_nest_checked balanced_concat : request.
#[export] Hint Resolve solid_put solid_app solid_put_cons solid_nest solid_nest_checked solid_concat : request.

Lemma attr_size_pos d : 4 <= attr_size d.
Proof. unfold attr_size, zlen. pose proof (Z.div_pos (Z.of_nat (length d) + 3) 4). lia. Qed.
Lemma op_size_nonneg o : 0 <= op_size o.
Proof. destruct o as [? d|? d|? ?|?]; cbn; try pose proof (attr_size_pos d); lia. Qed.
Lemma ops_size_nonneg ops : 0 <= ops_size ops.
Proof. apply zsum_nonneg, Forall_map, Forall_true. apply op_size_nonneg. Qed.
Lemma ops_size_cons o ops : ops_size (o :: ops) = op_size o + ops_size ops.
Proof. done. Qed.
Lemma ops_size_app a b : ops_size (a ++ b) = ops_size a + ops_size b.
Proof. unfold ops_size. by rewrite map_app, zsum_app. Qed.

Lemma msg_len_snoc tr e : msg_len (tr ++ [e]) = msg_step (msg_len tr) e.
Proof. unfold msg_len. by rewrite fold_left_app. Qed.

Section Spec.
Context `{hal_headers} (answer : list (wcall * wresp) -> wcall -> wresp) (patience : nat) (page : Z).
Hypothesis Hnl : libnl_ok answer page.
Abbreviation IO := (io hal wcall wresp).
Abbreviation put_ops := (put_ops answer).
Abbreviation put_post ops w := (fun r w' =>
  globals w' = globals w /\ exists tr, trace w' = trace w ++ tr
    /\ if msg_len (trace w) + ops_size ops <=? page
       then r = 0 /\ map fst tr = map op_call ops /\ msg_len (trace w') = msg_len (trace w) + ops_size ops
       else r < 0).
Implicit Types (w : world hal wcall wresp).

(** Shifting the postcondition over the first operation. *)
Lemma put_post_cons o ops w e r w' :
  e.1 = op_call o -> msg_len (trace w ++ [e]) = msg_len (trace w) + op_size o ->
  put_post ops (World (globals w) (trace w ++ [e])) r w' -> put_post (o :: ops) w r w'.
Proof.
  intros He Hm (Hg & tr & Ht & Hp). split; [done|]. exists (e :: tr). cbn [trace] in *. rewrite Hm in Hp.
  rewrite ops_size_cons. split; [by rewrite Ht, <- app_assoc|].
  replace (msg_len (trace w) + (op_size o + ops_size ops)) with (msg_len (trace w) + op_size o + ops_size ops) by lia.
  destruct (_ <=? page); [|done]. destruct Hp as (-> & Hc & Hl). cbn [map]. by rewrite He, Hc.
Qed.

Lemma put_room_fits w a d :
  msg_len (trace w) + attr_size d <= page ->
  rv (answer (trace w) (Cnla_put a d)) = 0
  /\ msg_len (trace w ++ [(Cnla_put a d, answer (trace w) (Cnla_put a d))]) = msg_len (trace w) + attr_size d.
Proof using Hnl.
  intros Hf. pose proof (put_room _ _ Hnl (trace w) a d) as Hr. rewrite (proj2 (Z.leb_le _ _)) in Hr by done.
  split; [done|]. rewrite msg_len_snoc. cbn [msg_step]. by rewrite Hr.
Qed.

Lemma nest_room_fits w a :
  msg_len (trace w) + 4 <= page ->
  rv (answer (trace w) (Cnla_nest_start a)) <> 0
  /\ msg_len (trace w ++ [(Cnla_nest_start a, answer (trace w) (Cnla_nest_start a))]) = msg_len (trace w) + 4.
Proof using Hnl.
  intros Hf. pose proof (nest_room _ _ Hnl (trace w) a) as Hr. rewrite (proj2 (Z.leb_le _ _)) in Hr by done.
  cbn [negb] in Hr. split; [by apply Z.eqb_neq|]. rewrite msg_len_snoc. cbn [msg_step]. by rewrite Hr.
Qed.

Lemma put_full w a d : page < msg_len (trace w) + attr_size d -> rv (answer (trace w) (Cnla_put a d)) < 0.
Proof using Hnl.
  intros Hf. pose proof (put_room _ _ Hnl (trace w) a d) as Hr. by rewrite (proj2 (Z.leb_gt _ _)) in Hr.
Qed.

Lemma nest_full w a : page < msg_len (trace w) + 4 -> rv (answer (trace w) (Cnla_nest_start a)) = 0.
Proof using Hnl.
  intros Hf. pose proof (nest_room _ _ Hnl (trace w) a) as Hr. rewrite (proj2 (Z.leb_gt _ _)) in Hr by done.
  by apply Z.eqb_eq.
Qed.

(** A message without room for what comes next: the first attribute with a value fails. *)
Lemma put_ops_full ops starts w :
  page < msg_len (trace w) + 4 -> dense true ops = Some false ->
  wp (put_ops starts ops 0) (fun r w' => globals w' = globals w /\ (exists tr, trace w' = trace w ++ tr) /\ r < 0) w.
Proof using Hnl.
  revert starts w. induction ops as [|o ops IH]; intros starts w Hfull Hd; [done|].
  destruct o as [a d|a d|chk a|a]; cbn [WifiRequest.put_ops dense] in *; try done.
  - apply wp_bind, wp_call. pose proof (attr_size_pos d).
    pose proof (put_full w a d ltac:(lia)) as Hneg. rewrite (proj2 (Z.ltb_lt _ _)) by done. apply wp_ret. eauto.
  - apply wp_bind, wp_call. rewrite (nest_full w a Hfull). cbn [Z.eqb]. rewrite andb_true_r. destruct chk.
    + apply wp_ret. split; [done|]. split; [eauto|apply oom_negative].
    + eapply wp_mono; [apply IH; [|done]|].
      * cbn [trace]. rewrite msg_len_snoc. cbn [msg_step]. by rewrite (nest_full w a Hfull).
      * cbn [globals trace]. intros r w' (Hg & (tr & Ht) & Hr). split; [done|]. split; [|done].
        rewrite Ht, <- app_assoc. eauto.
Qed.

(** Attributes that cannot end in an empty nested one: they fit, or the request fails. *)
Lemma put_ops_dense ops b starts w :
  msg_len (trace w) <= page ->
  dense b ops = Some false -> is_Some (depth (length starts) ops) -> Forall (fun s => s <> 0) starts ->
  wp (put_ops starts ops 0) (put_post ops w) w.
Proof using Hnl.
  revert b starts w. induction ops as [|o ops IH]; intros b starts w Hp Hd Hdepth Hs.
  { apply wp_ret. split; [done|]. exists []. rewrite app_nil_r. split; [done|]. unfold ops_size. cbn [map zsum foldr].
    rewrite Z.add_0_r. by rewrite (proj2 (Z.leb_le _ _)). }
  pose proof (ops_size_nonneg ops) as Hnn.
  destruct o as [a d|a d|chk a|a]; cbn [WifiRequest.put_ops dense depth] in *; try done.
  - apply wp_bind, wp_call. destruct (Z.le_gt_cases (msg_len (trace w) + attr_size d) page) as [Hf|Hf].
    + destruct (put_room_fits w a d Hf) as [Hr Hm]. rewrite Hr. cbn [Z.ltb Z.compare].
      eapply wp_mono; [apply (IH false); cbn [trace]; [lia|done..]|].
      intros r w'. by apply put_post_cons.
    + pose proof (put_full w a d ltac:(lia)) as Hneg. rewrite (proj2 (Z.ltb_lt _ _)) by done. apply wp_ret.
      split; [done|]. eexists. split; [done|]. rewrite ops_size_cons. cbn [op_size].
      by rewrite (proj2 (Z.leb_gt _ _)) by lia.
  - apply wp_bind, wp_call. destruct (Z.le_gt_cases (msg_len (trace w) + 4) page) as [Hf|Hf].
    + destruct (nest_room_fits w a Hf) as [Hr Hm]. rewrite (proj2 (Z.eqb_neq _ _)) by done. rewrite andb_false_r.
      eapply wp_mono; [apply (IH true); cbn [trace length]; [lia|done|done|by apply Forall_cons]|].
      intros r w'. by apply put_post_cons.
    + eapply wp_mono; [apply (put_ops_full (Start chk a :: ops) starts w ltac:(lia)); done|].
      intros r w' (Hg & (tr & Ht) & Hr). split; [done|]. exists tr. split; [done|]. rewrite ops_size_cons. cbn [op_size].
      by rewrite (proj2 (Z.leb_gt _ _)) by lia.
  - destruct b; [done|]. destruct starts as [|s starts]; [by destruct Hdepth|]. apply Forall_cons_1 in Hs as [Hs0 Hs].
    rewrite (proj2 (Z.eqb_neq _ _)) by done. apply wp_bind, wp_call.
    assert (forall r, msg_len (trace w ++ [(Cnla_nest_end a, r)]) = msg_len (trace w)) as Hm
      by (intros r; by rewrite msg_len_snoc).
    eapply wp_mono; [apply (IH false); cbn [trace]; [by rewrite Hm|done..]|].
    intros r w'. apply put_post_cons; [done|]. rewrite Hm. cbn [op_size]. lia.
Qed.

(** Attributes that fit, whatever they are, before others. *)
Lemma put_ops_fit pre ops starts w d' :
  msg_len (trace w) + ops_size pre <= page ->
  depth (length starts) pre = Some d' -> Forall (fun s => s <> 0) starts ->
  (forall starts' tr, length starts' = d' -> Forall (fun s => s <> 0) starts' ->
     map fst tr = map op_call pre -> msg_len (trace w ++ tr) = msg_len (trace w) + ops_size pre ->
     wp (put_ops starts' ops 0) (put_post ops (World (globals w) (trace w ++ tr))) (World (globals w) (trace w ++ tr))) ->
  wp (put_ops starts (pre ++ ops) 0) (put_post (pre ++ ops) w) w.
Proof using Hnl.
  revert starts w. induction pre as [|o pre IH]; intros starts w Hp Hdepth Hs Hk.
  { destruct w as [g t]. cbn [app trace globals] in *. injection Hdepth as Hdepth. specialize (Hk starts [] Hdepth Hs eq_refl).
    rewrite app_nil_r in Hk. apply Hk. unfold ops_size. cbn. lia. }
  pose proof (ops_size_nonneg pre) as Hnn. rewrite ops_size_cons in Hp.
  assert (forall starts' e, e.1 = op_call o -> msg_len (trace w ++ [e]) = msg_len (trace w) + op_size o ->
    depth (length starts') pre = Some d' -> Forall (fun s => s <> 0) starts' ->
    wp (put_ops starts' (pre ++ ops) 0) (put_post (o :: pre ++ ops) w) (World (globals w) (trace w ++ [e]))) as Hstep.
  { intros starts' e He Hm Hd' Hs'. eapply wp_mono.
    - apply IH; cbn [trace globals]; [lia|done..|]. intros s2 tr Hl2 Hs2 Ht2 Hm2.
      rewrite <- app_assoc. apply Hk; [done..|cbn [app map]; by rewrite He, Ht2|].
      cbn [app]. rewrite <- (app_assoc (trace w) [e] tr) in Hm2. cbn [app] in Hm2. rewrite Hm2, ops_size_cons. lia.
    - intros r w'. by apply put_post_cons. }
  cbn [app]. destruct o as [a d|a d|chk a|a]; cbn [WifiRequest.put_ops depth op_size] in *.
  - apply wp_bind, wp_call. destruct (put_room_fits w a d ltac:(lia)) as [Hr Hm]. rewrite Hr. cbn [Z.ltb Z.compare]. by apply Hstep.
  - apply wp_bind, wp_call. destruct (put_room_fits w a d ltac:(lia)) as [Hr Hm]. by apply Hstep.
  - apply wp_bind, wp_call. destruct (nest_room_fits w a ltac:(lia)) as [Hr Hm].
    rewrite (proj2 (Z.eqb_neq _ _)) by done. rewrite andb_false_r. apply Hstep; [done..|by apply Forall_cons].
  - destruct starts as [|s starts]; [done|]. apply Forall_cons_1 in Hs as [Hs0 Hs].
    rewrite (proj2 (Z.eqb_neq _ _)) by done. apply wp_bind, wp_call. apply Hstep; [done| |done..].
    rewrite msg_len_snoc. cbn [msg_step]. lia.
Qed.

(** What a request may be made of, [len] octets being used: [pre] fits, and in what follows no nested
    attribute is empty and every result is looked at. *)
Definition good_ops (len : Z) (ops : list mop) : Prop :=
  balanced ops /\ exists pre rest, ops = pre ++ rest /\ len + ops_size pre <= page /\ dense false rest = Some false.

Lemma good_solid len ops : len <= page -> balanced ops -> solid ops -> good_ops len ops.
Proof.
  intros Hl Hb Hs. split; [done|]. exists [], ops. split; [done|]. split; [unfold ops_size; cbn; lia|]. apply Hs.
Qed.

Lemma good_fits len ops : balanced ops -> len + ops_size ops <= page -> good_ops len ops.
Proof. intros Hb Hl. split; [done|]. exists ops, []. by rewrite app_nil_r. Qed.

Lemma put_ops_spec ops w :
  good_ops (msg_len (trace w)) ops -> wp (put_ops [] ops 0) (put_post ops w) w.
Proof using Hnl.
  intros (Hb & pre & rest & -> & Hp & Hd). specialize (Hb 0%nat). rewrite depth_app in Hb.
  destruct (depth 0 pre) as [d'|] eqn:Ed; [|done]. cbn [mbind option_bind] in Hb.
  apply (put_ops_fit _ _ _ _ d'); [done|done|by apply Forall_nil_2|].
  intros starts' tr Hl Hs Hc Hm. apply (put_ops_dense _ false); cbn [trace]; [by rewrite Hm|done| |done]. by rewrite Hl, Hb.
Qed.

(** ** Requests *)
Definition request_calls (family iface subcmd : Z) (ops : list mop) : list wcall :=
  Cnlmsg_alloc :: Cgenlmsg_put family NL80211_CMD_VENDOR :: map op_call (vendor_ops iface GOOGLE_OUI subcmd ++ ops).

(** The length of the whole message. *)
Definition request_size (iface subcmd : Z) (ops : list mop) : Z := 20 + ops_size (vendor_ops iface GOOGLE_OUI subcmd ++ ops).

(** What building a request ends in: everything is in the message, or an error, for want of memory or
    of room. *)
Definition built (msg iface subcmd : Z) (ops : list mop) (w : world hal wcall wresp) (p : Z * Z) (w' : world hal wcall wresp) : Prop :=
  globals w' = globals w /\ exists tr, trace w' = trace w ++ tr /\
  ((p.1 = 0 /\ p.2 <> 0 /\ request_size iface subcmd ops <= page
    /\ map fst tr = (if msg =? 0 then [] else [Cnlmsg_free msg])
                    ++ request_calls (nl80211_family_id (info (globals w))) iface subcmd ops)
   \/ (p.1 < 0 /\ (p.2 = 0 \/ p.2 <> 0 /\ page < request_size iface subcmd ops))).

Lemma le4_size a v : op_size (put_u32 a v) = 8.
Proof. done. Qed.

Lemma vendor_ops_size iface id subcmd : 16 <= ops_size (vendor_ops iface id subcmd) <= 24.
Proof.
  assert (ops_size (vendor_ops iface id subcmd) = if iface =? -1 then 16 else 24) as ->
    by (unfold vendor_ops; destruct (iface =? -1); done).
  destruct (iface =? -1); lia.
Qed.

Lemma vendor_ops_good iface id subcmd : good_ops 20 (vendor_ops iface id subcmd).
Proof using Hnl.
  apply good_fits; [unfold vendor_ops; destruct (iface =? -1); auto with request|].
  pose proof (vendor_ops_size iface id subcmd). pose proof (page_large _ _ Hnl). lia.
Qed.

Lemma wp_destroy msg (Q : unit -> world hal wcall wresp -> Prop) w :
  (forall tr, map fst tr = (if msg =? 0 then [] else [Cnlmsg_free msg]) -> Q tt (World (globals w) (trace w ++ tr))) ->
  wp (destroy answer msg) Q w.
Proof.
  intros HQ. unfold destroy. destruct (msg =? 0).
  - apply wp_ret. specialize (HQ [] eq_refl). rewrite app_nil_r in HQ. by destruct w.
  - apply wp_bind, sys_any. intros r. apply wp_ret. by apply HQ.
Qed.

Lemma build_spec last msg iface subcmd ops w :
  good_ops (20 + ops_size (vendor_ops iface GOOGLE_OUI subcmd)) ops ->
  wp (build answer last msg iface subcmd ops) (built msg iface subcmd ops w) w.
Proof using Hnl.
  intros Hgood. unfold build, create_vendor, create. do 5 wp_step. apply wp_destroy. intros tr0 H0.
  apply wp_bind, wp_call. cbn [globals trace]. set (m := answer _ Cnlmsg_alloc).
  destruct (Z.eqb_spec (rv m) 0) as [Em|Em].
  { apply wp_ret. rewrite (proj2 (Z.ltb_lt _ _)) by apply oom_negative. apply wp_ret.
    rewrite (proj2 (Z.ltb_lt _ _)) by apply oom_negative. apply wp_ret. split; [done|].
    eexists. split; [by rewrite <- app_assoc|]. right. split; [apply oom_negative|by left]. }
  apply wp_bind, sys_any. intros g. apply wp_ret. rewrite success_0. cbn [Z.ltb Z.compare globals trace]. apply wp_bind.
  set (w1 := World _ _). assert (msg_len (trace w1) = 20) as Hm1 by (subst w1; cbn [trace]; by rewrite !msg_len_snoc).
  eapply wp_mono; [apply put_ops_spec; rewrite Hm1; apply vendor_ops_good|].
  pose proof (vendor_ops_size iface GOOGLE_OUI subcmd) as Hvs. pose proof (page_large _ _ Hnl) as Hpl.
  rewrite Hm1, (proj2 (Z.leb_le (20 + ops_size (vendor_ops iface GOOGLE_OUI subcmd)) page)) by lia.
  intros r2 w2 (Hg2 & tr2 & Ht2 & -> & Hc2 & Hm2). apply wp_ret. cbn [Z.ltb Z.compare]. apply wp_bind.
  eapply wp_mono; [apply put_ops_spec; by rewrite Hm2|]. rewrite Hm2.
  intros r3 w3 (Hg3 & tr3 & Ht3 & Hr). apply wp_ret.
  assert (trace w3 = trace w ++ tr0 ++ [(Cnlmsg_alloc, m)] ++ [(Cgenlmsg_put (nl80211_family_id (info (globals w))) NL80211_CMD_VENDOR, g)] ++ tr2 ++ tr3) as Et
    by (rewrite Ht3, Ht2; subst w1; cbn [trace]; by rewrite <- !app_assoc).
  split; [by rewrite Hg3, Hg2|]. eexists. split; [exact Et|].
  assert (request_size iface subcmd ops = 20 + ops_size (vendor_ops iface GOOGLE_OUI subcmd) + ops_size ops) as Es
    by (unfold request_size; rewrite ops_size_app; lia).
  cbn [fst snd]. rewrite Es.
  destruct (Z.leb_spec (20 + ops_size (vendor_ops iface GOOGLE_OUI subcmd) + ops_size ops) page) as [Hf|Hf].
  - left. destruct Hr as (-> & Hc3 & _). split; [by destruct last|]. split; [done|]. split; [done|].
    rewrite !map_app, H0, Hc2, Hc3. unfold request_calls. by rewrite map_app.
  - right. rewrite (proj2 (Z.ltb_lt _ _)) by done. split; [done|]. by right.
Qed.

(** ** Replies *)
Context (Hk : kernel_replies answer patience).

(** The replies of the kernel that can be parsed are [good]. *)
Definition replies_good (good : event -> Prop) : Prop :=
  forall tr sock reply, In (CbValid reply) (rcbs (answer tr (Cnl_recvmsgs sock))) -> 0 <= ev_parse reply -> good reply.

(** A response handler that, for [good] replies, makes no calls and keeps what [I] says of the members
    and the memory. *)
Definition handles {S} (good : event -> Prop) (I : S -> hal -> Prop) (h : S -> event -> IO S) : Prop :=
  forall s reply w, good reply -> I s (globals w) -> exists s' g, h s reply w = Some (s', World g (trace w)) /\ I s' g.

Section Response.
Context {S : Type} (good : event -> Prop) (Hgood : replies_good good).
Context (I : S -> hal -> Prop) (h : S -> event -> IO S) (Hh : handles good I h).

Lemma callbacks_spec s err cbs w :
  (forall reply, In (CbValid reply) cbs -> 0 <= ev_parse reply -> good reply) -> I s (globals w) ->
  wp (callbacks h s err cbs) (fun p w' => p.1 = err_after err cbs /\ trace w' = trace w /\ I p.2 (globals w')) w.
Proof using Hh.
  revert s err w. induction cbs as [|c cbs IH]; intros s err w Hc HI; cbn [callbacks]; [by apply wp_ret|].
  assert (forall reply, In (CbValid reply) cbs -> 0 <= ev_parse reply -> good reply) as Hc' by (intros; apply Hc; [by right|done]).
  destruct c as [reply| | |e]; try by apply (IH s _ w Hc').
  apply wp_bind. destruct (Z.ltb_spec (ev_parse reply) 0); [apply wp_ret; by apply IH|].
  destruct (Hh s reply w (Hc reply (or_introl eq_refl) ltac:(lia)) HI) as (s' & g & E & HI'). unfold wp at 1. rewrite E.
  eapply wp_mono; [by apply IH|]. cbn [trace]. done.
Qed.

Lemma wait_reply_spec sock n s err w :
  I s (globals w) -> replies_within answer sock n (trace w) err ->
  wp (wait_reply answer h sock n s err)
    (fun p w' => p.1 <= 0 /\ I p.2 (globals w')
       /\ exists tr, trace w' = trace w ++ tr /\ Forall (fun x => x.1 = Cnl_recvmsgs sock) tr) w.
Proof using Hh Hgood.
  revert s err w. induction n as [|n IH]; intros s err w HI Hr; cbn [wait_reply replies_within] in *.
  - destruct Hr as [Hr|[]]. rewrite (proj2 (Z.leb_le _ _)) by done. apply wp_ret. split; [done|]. split; [done|].
    exists []. by rewrite app_nil_r.
  - destruct (Z.leb_spec err 0) as [Hle|Hgt].
    { apply wp_ret. split; [done|]. split; [done|]. exists []. by rewrite app_nil_r. }
    destruct Hr as [Hr|Hr]; [lia|]. apply wp_bind, wp_call. apply wp_bind.
    eapply wp_mono; [apply callbacks_spec; [intros reply; apply Hgood|done]|]. cbn [trace globals]. intros [e s'] w1 (E & Ht1 & HI1). cbn [fst snd] in *.
    subst e. eapply wp_mono; [apply IH; [done|by rewrite Ht1]|]. intros p w2 (He & HI2 & tr & Ht2 & Hf).
    split; [done|]. split; [done|]. eexists. split; [rewrite Ht2, Ht1, <- app_assoc; done|]. by apply Forall_cons.
Qed.

Lemma requestResponse_spec s msg w :
  I s (globals w) ->
  wp (requestResponse answer patience h s msg)
    (fun p w' => p.1 <= 0 /\ I p.2 (globals w') /\ exists tr, trace w' = trace w ++ tr) w.
Proof using Hh Hk Hgood.
  intros HI. unfold requestResponse. apply wp_bind, sys_any. intros cb. destruct (rv cb =? 0).
  { apply wp_bind, sys_any. intros r. apply wp_ret. split; [done|]. split; [done|]. cbn [trace]. rewrite <- app_assoc. eauto. }
  do 2 wp_step. cbn [globals]. apply wp_bind, wp_call. cbn [trace globals].
  set (k := cmd_sock _). set (tr1 := trace w ++ _). set (r := answer tr1 _).
  destruct (Z.ltb_spec (rv r) 0).
  { apply wp_bind, sys_any. intros r'. apply wp_ret. split; [cbn [fst]; lia|]. split; [done|]. cbn [trace]. subst tr1.
    rewrite <- !app_assoc. eauto. }
  apply wp_bind. eapply wp_mono; [apply wait_reply_spec; [done|by apply (Hk tr1 k msg)]|].
  cbn [trace]. intros p w2 (He & HI2 & tr & Ht2 & _). apply wp_bind, sys_any. intros r'. apply wp_ret.
  split; [done|]. split; [done|]. cbn [trace]. rewrite Ht2. subst tr1. rewrite <- !app_assoc. eauto.
Qed.
End Response.
End Spec.
