(* ===== verification/WifiCommand.v ===== *)
(** The commands of the Wi-Fi HAL (src/mediatek/wifi/wifi_hal: the command classes of gscan.cpp,
    rtt.cpp, wifi_hal.cpp and wifi_offload.cpp): the requests they send, how they start and are
    cancelled, and the functions of the interface that create and destroy them. *)
From Stdlib Require Import List.
From stdpp Require Import gmap.
From S2P Require Import Prelude Threads WifiState WifiRegistry WifiRequest.

(** [GSCAN_ATTRIBUTE] of gscan.cpp *)
Definition GSCAN_ATTRIBUTE_CAPABILITIES : Z := 1.
Definition GSCAN_ATTRIBUTE_NUM_BUCKETS : Z := 10.
Definition GSCAN_ATTRIBUTE_BASE_PERIOD : Z := 11.
Definition GSCAN_ATTRIBUTE_BUCKETS_BAND : Z := 12.
Definition GSCAN_ATTRIBUTE_BUCKET_ID : Z := 13.
Definition GSCAN_ATTRIBUTE_BUCKET_PERIOD : Z := 14.
Definition GSCAN_ATTRIBUTE_BUCKET_NUM_CHANNELS : Z := 15.
Definition GSCAN_ATTRIBUTE_BUCKET_CHANNELS : Z := 16.
Definition GSCAN_ATTRIBUTE_NUM_AP_PER_SCAN : Z := 17.
Definition GSCAN_ATTRIBUTE_REPORT_THRESHOLD : Z := 18.
Definition GSCAN_ATTRIBUTE_NUM_SCANS_TO_CACHE : Z := 19.
Definition GSCAN_ATTRIBUTE_ENABLE_FEATURE : Z := 20.
Definition GSCAN_ATTRIBUTE_SCAN_RESULTS_COMPLETE : Z := 21.
Definition GSCAN_ATTRIBUTE_REPORT_EVENTS : Z := 24.
Definition GSCAN_ATTRIBUTE_BUCKET_STEP_COUNT : Z := 25.
Definition GSCAN_ATTRIBUTE_BUCKET_MAX_PERIOD : Z := 26.
Definition GSCAN_ATTRIBUTE_NUM_OF_RESULTS : Z := 30.
Definition GSCAN_ATTRIBUTE_FLUSH_RESULTS : Z := 31.
Definition GSCAN_ATTRIBUTE_SCAN_RESULTS : Z := 32.
Definition GSCAN_ATTRIBUTE_SCAN_ID : Z := 33.
Definition GSCAN_ATTRIBUTE_SCAN_FLAGS : Z := 34.
Definition GSCAN_ATTRIBUTE_CH_BUCKET_BITMASK : Z := 36.
Definition GSCAN_ATTRIBUTE_BSSID : Z := 41.
Definition GSCAN_ATTRIBUTE_HOTLIST_BSSIDS : Z := 50.
Definition GSCAN_ATTRIBUTE_RSSI_LOW : Z := 51.
Definition GSCAN_ATTRIBUTE_RSSI_HIGH : Z := 52.
Definition GSCAN_ATTRIBUTE_HOTLIST_ELEM : Z := 53.
Definition GSCAN_ATTRIBUTE_HOTLIST_FLUSH : Z := 54.
Definition GSCAN_ATTRIBUTE_RSSI_SAMPLE_SIZE : Z := 60.
Definition GSCAN_ATTRIBUTE_LOST_AP_SAMPLE_SIZE : Z := 61.
Definition GSCAN_ATTRIBUTE_MIN_BREACHING : Z := 62.
Definition GSCAN_ATTRIBUTE_NUM_AP : Z := 63.
Definition GSCAN_ATTRIBUTE_SIGNIFICANT_CHANGE_BSSIDS : Z := 64.
Definition GSCAN_ATTRIBUTE_SIGNIFICANT_CHANGE_FLUSH : Z := 65.
Definition GSCAN_ATTRIBUTE_EPNO_SSID_LIST : Z := 70.
Definition GSCAN_ATTRIBUTE_EPNO_SSID : Z := 71.
Definition GSCAN_ATTRIBUTE_EPNO_SSID_LEN : Z := 72.
Definition GSCAN_ATTRIBUTE_EPNO_FLAGS : Z := 74.
Definition GSCAN_ATTRIBUTE_EPNO_AUTH : Z := 75.
Definition GSCAN_ATTRIBUTE_EPNO_SSID_NUM : Z := 76.
Definition GSCAN_ATTRIBUTE_EPNO_FLUSH : Z := 77.
Definition GSCAN_ATTRIBUTE_ANQPO_HS_LIST : Z := 110.
Definition GSCAN_ATTRIBUTE_ANQPO_HS_LIST_SIZE : Z := 111.
Definition GSCAN_ATTRIBUTE_ANQPO_HS_NETWORK_ID : Z := 112.
Definition GSCAN_ATTRIBUTE_ANQPO_HS_NAI_REALM : Z := 113.
Definition GSCAN_ATTRIBUTE_ANQPO_HS_ROAM_CONSORTIUM_ID : Z := 114.
Definition GSCAN_ATTRIBUTE_ANQPO_HS_PLMN : Z := 115.
Definition GSCAN_ATTRIBUTE_EPNO_5G_RSSI_THR : Z := 130.
Definition GSCAN_ATTRIBUTE_EPNO_2G_RSSI_THR : Z := 131.
Definition GSCAN_ATTRIBUTE_EPNO_INIT_SCORE_MAX : Z := 132.
Definition GSCAN_ATTRIBUTE_EPNO_CUR_CONN_BONUS : Z := 133.
Definition GSCAN_ATTRIBUTE_EPNO_SAME_NETWORK_BONUS : Z := 134.
Definition GSCAN_ATTRIBUTE_EPNO_SECURE_BONUS : Z := 135.
Definition GSCAN_ATTRIBUTE_EPNO_5G_BONUS : Z := 136.
Definition GSCAN_ENABLE_FULL_SCAN_RESULTS : Z := 23.

(** [RTT_SUB_COMMAND] and [RTT_ATTRIBUTE] of rtt.cpp *)
Definition RTT_SUBCMD_SET_CONFIG : Z := 0x1100.
Definition RTT_SUBCMD_CANCEL_CONFIG : Z := 0x1101.
Definition RTT_SUBCMD_GETCAPABILITY : Z := 0x1102.
Definition RTT_SUBCMD_GETAVAILCHANNEL : Z := 0x1103.
Definition RTT_SUBCMD_SET_RESPONDER : Z := 0x1104.
Definition RTT_SUBCMD_CANCEL_RESPONDER : Z := 0x1105.
Definition RTT_ATTRIBUTE_CAPABILITIES : Z := 1.
Definition RTT_ATTRIBUTE_TARGET_CNT : Z := 10.
Definition RTT_ATTRIBUTE_TARGET_INFO : Z := 11.
Definition RTT_ATTRIBUTE_TARGET_MAC : Z := 12.
Definition RTT_ATTRIBUTE_TARGET_TYPE : Z := 13.
Definition RTT_ATTRIBUTE_TARGET_PEER : Z := 14.
Definition RTT_ATTRIBUTE_TARGET_CHAN : Z := 15.
Definition RTT_ATTRIBUTE_TARGET_PERIOD : Z := 16.
Definition RTT_ATTRIBUTE_TARGET_NUM_BURST : Z := 17.
Definition RTT_ATTRIBUTE_TARGET_NUM_FTM_BURST : Z := 18.
Definition RTT_ATTRIBUTE_TARGET_NUM_RETRY_FTM : Z := 19.
Definition RTT_ATTRIBUTE_TARGET_NUM_RETRY_FTMR : Z := 20.
Definition RTT_ATTRIBUTE_TARGET_LCI : Z := 21.
Definition RTT_ATTRIBUTE_TARGET_LCR : Z := 22.
Definition RTT_ATTRIBUTE_TARGET_BURST_DURATION : Z := 23.
Definition RTT_ATTRIBUTE_TARGET_PREAMBLE : Z := 24.
Definition RTT_ATTRIBUTE_TARGET_BW : Z := 25.
Definition RTT_ATTRIBUTE_RESULTS_COMPLETE : Z := 30.
Definition RTT_ATTRIBUTE_RESULTS_PER_TARGET : Z := 31.
Definition RTT_ATTRIBUTE_RESULT_CNT : Z := 32.
Definition RTT_ATTRIBUTE_RESULT : Z := 33.

(** [WIFI_OFFLOAD_SUB_COMMAND] and [WIFI_MKEEP_ALIVE_ATTRIBUTE] of wifi_offload.cpp *)
Definition WIFI_OFFLOAD_START_MKEEP_ALIVE : Z := 0x1600.
Definition WIFI_OFFLOAD_STOP_MKEEP_ALIVE : Z := 0x1601.
Definition MKEEP_ALIVE_ATTRIBUTE_ID : Z := 1.
Definition MKEEP_ALIVE_ATTRIBUTE_IP_PKT_LEN : Z := 2.
Definition MKEEP_ALIVE_ATTRIBUTE_IP_PKT : Z := 3.
Definition MKEEP_ALIVE_ATTRIBUTE_SRC_MAC_ADDR : Z := 4.
Definition MKEEP_ALIVE_ATTRIBUTE_DST_MAC_ADDR : Z := 5.
Definition MKEEP_ALIVE_ATTRIBUTE_PERIOD_MSEC : Z := 6.

(** The elements of an array with their indices. *)
Definition indexed {A} (l : list A) : list (Z * A) := combine (map Z.of_nat (seq 0 (length l))) l.

(** [strlen] *)
Fixpoint strlen (s : list Z) : Z :=
  match s with [] => 0 | c :: s => if c =? 0 then 0 else 1 + strlen s end.

(** ** What the requests consist of *)
Section Requests.
Context `{hal_headers}.

Definition vendor_data (body : list mop) : list mop := nest NL80211_ATTR_VENDOR_DATA body.

Definition rssi_ops (max_rssi min_rssi enable : Z) : list mop :=
  vendor_data
    [put_u32 WIFI_ATTRIBUTE_MAX_RSSI (if enable =? 0 then 0 else max_rssi);
     put_u32 WIFI_ATTRIBUTE_MIN_RSSI (if enable =? 0 then 0 else min_rssi);
     put_u32 WIFI_ATTRIBUTE_RSSI_MONITOR_START enable].

Definition full_scan_ops (enable : Z) : list mop := vendor_data [put_u32 GSCAN_ENABLE_FULL_SCAN_RESULTS enable].

Definition feature_ops (enable : Z) : list mop := vendor_data [put_u32 GSCAN_ATTRIBUTE_ENABLE_FEATURE enable].

(** "parameter validity check" *)
Definition valid_band (band : Z) : Z :=
  if (band <? WIFI_BAND_UNSPECIFIED) || (WIFI_BAND_ABG_WITH_DFS <? band) then WIFI_BAND_ABG else band.

Definition channel_ops (c : Z * Z) : list mop := [put_u32 c.1 c.2].

Definition bucket_ops (b : Z * bucket_spec) : list mop :=
  let '(i, b) := b in
  nest i
    ([put_u32 GSCAN_ATTRIBUTE_BUCKET_ID (bk_bucket b);
      put_u32 GSCAN_ATTRIBUTE_BUCKET_PERIOD (bk_period b);
      put_u32 GSCAN_ATTRIBUTE_BUCKETS_BAND (valid_band (bk_band b));
      put_u32 GSCAN_ATTRIBUTE_BUCKET_STEP_COUNT (bk_step_count b);
      put_u32 GSCAN_ATTRIBUTE_BUCKET_MAX_PERIOD (bk_max_period b);
      put_u32 GSCAN_ATTRIBUTE_REPORT_EVENTS (bk_report_events b);
      put_u32 GSCAN_ATTRIBUTE_BUCKET_NUM_CHANNELS (zlen (bk_channels b))]
     ++ match bk_channels b with
        | [] => []
        | chs => nest GSCAN_ATTRIBUTE_BUCKET_CHANNELS (concat (map channel_ops (indexed chs)))
        end).

Definition scan_setup_ops (p : wifi_scan_cmd_params) : list mop :=
  vendor_data
    (put_u32 GSCAN_ATTRIBUTE_BASE_PERIOD (base_period p)
     :: put_u32 GSCAN_ATTRIBUTE_NUM_BUCKETS (zlen (buckets p))
     :: concat (map bucket_ops (indexed (buckets p)))).

Definition scan_config_ops (p : wifi_scan_cmd_params) : list mop :=
  let percent := report_threshold_percent p in
  vendor_data
    [put_u32 GSCAN_ATTRIBUTE_NUM_AP_PER_SCAN (max_ap_per_scan p);
     put_u32 GSCAN_ATTRIBUTE_REPORT_THRESHOLD (if (percent <? 0) || (100 <? percent) then 100 else percent);
     put_u32 GSCAN_ATTRIBUTE_NUM_SCANS_TO_CACHE (report_threshold_num_scans p)].

Definition scan_results_ops (num flush : Z) : list mop :=
  vendor_data [put_u32 GSCAN_ATTRIBUTE_NUM_OF_RESULTS num; put_u8 GSCAN_ATTRIBUTE_FLUSH_RESULTS flush].

Definition ap_ops (ap : ap_threshold_param) : list mop :=
  [put_addr GSCAN_ATTRIBUTE_BSSID (ap_bssid ap);
   put_u32 GSCAN_ATTRIBUTE_RSSI_HIGH (ap_high ap);
   put_u32 GSCAN_ATTRIBUTE_RSSI_LOW (ap_low ap)].

Definition hotlist_setup_ops (p : wifi_bssid_hotlist_params) : list mop :=
  vendor_data
    (put_u8 GSCAN_ATTRIBUTE_HOTLIST_FLUSH 1
     :: put_u32 GSCAN_ATTRIBUTE_LOST_AP_SAMPLE_SIZE (hl_lost_ap_sample_size p)
     :: put_u16 GSCAN_ATTRIBUTE_NUM_AP (zlen (hl_ap p))
     :: nest GSCAN_ATTRIBUTE_HOTLIST_BSSIDS
          (concat (map (fun ap => nest_checked GSCAN_ATTRIBUTE_HOTLIST_ELEM (ap_ops ap)) (hl_ap p)))).

Definition hotlist_teardown_ops : list mop :=
  vendor_data (put_u8 GSCAN_ATTRIBUTE_HOTLIST_FLUSH 1 :: nest GSCAN_ATTRIBUTE_HOTLIST_BSSIDS []).

Definition epno_network_ops (n : Z * wifi_epno_network) : list mop :=
  let '(i, n) := n in
  nest_checked i
    [Put GSCAN_ATTRIBUTE_EPNO_SSID (take DOT11_MAX_SSID_LEN (en_ssid n));
     put_u32 GSCAN_ATTRIBUTE_EPNO_SSID_LEN (strlen (en_ssid n));
     put_u32 GSCAN_ATTRIBUTE_EPNO_FLAGS (en_flags n);
     put_u32 GSCAN_ATTRIBUTE_EPNO_AUTH (en_auth n)].

Definition epno_setup_ops (p : wifi_epno_params) : list mop :=
  vendor_data
    (put_u8 GSCAN_ATTRIBUTE_EPNO_FLUSH 1
     :: put_u8 GSCAN_ATTRIBUTE_EPNO_5G_RSSI_THR (min5GHz_rssi p)
     :: put_u8 GSCAN_ATTRIBUTE_EPNO_2G_RSSI_THR (min24GHz_rssi p)
     :: put_u16 GSCAN_ATTRIBUTE_EPNO_INIT_SCORE_MAX (initial_score_max p)
     :: put_u16 GSCAN_ATTRIBUTE_EPNO_CUR_CONN_BONUS (current_connection_bonus p)
     :: put_u16 GSCAN_ATTRIBUTE_EPNO_SAME_NETWORK_BONUS (same_network_bonus p)
     :: put_u16 GSCAN_ATTRIBUTE_EPNO_SECURE_BONUS (secure_bonus p)
     :: put_u16 GSCAN_ATTRIBUTE_EPNO_5G_BONUS (band5GHz_bonus p)
     :: put_u8 GSCAN_ATTRIBUTE_EPNO_SSID_NUM (num_networks p)
     :: nest GSCAN_ATTRIBUTE_EPNO_SSID_LIST
          (concat (map epno_network_ops (indexed (take (Z.to_nat (num_networks p)) (ep_networks p)))))).

Definition epno_teardown_ops : list mop := vendor_data [put_u8 GSCAN_ATTRIBUTE_EPNO_FLUSH 1].

Definition change_setup_ops (p : wifi_significant_change_params) : list mop :=
  vendor_data
    (put_u8 GSCAN_ATTRIBUTE_SIGNIFICANT_CHANGE_FLUSH 1
     :: put_u16 GSCAN_ATTRIBUTE_RSSI_SAMPLE_SIZE (rssi_sample_size p)
     :: put_u16 GSCAN_ATTRIBUTE_LOST_AP_SAMPLE_SIZE (sc_lost_ap_sample_size p)
     :: put_u16 GSCAN_ATTRIBUTE_MIN_BREACHING (min_breaching p)
     :: put_u16 GSCAN_ATTRIBUTE_NUM_AP (zlen (sc_ap p))
     :: nest GSCAN_ATTRIBUTE_SIGNIFICANT_CHANGE_BSSIDS
          (concat (map (fun ap => nest_checked ap.1 (ap_ops ap.2)) (indexed (sc_ap p))))).

Definition change_teardown_ops : list mop := vendor_data [put_u16 GSCAN_ATTRIBUTE_SIGNIFICANT_CHANGE_FLUSH 1].

Definition passpoint_ops (n : Z * wifi_passpoint_network) : list mop :=
  let '(i, n) := n in
  nest_checked i
    [put_u32 GSCAN_ATTRIBUTE_ANQPO_HS_NETWORK_ID (pp_id n);
     Put GSCAN_ATTRIBUTE_ANQPO_HS_NAI_REALM (take 256 (pp_realm n));
     Put GSCAN_ATTRIBUTE_ANQPO_HS_ROAM_CONSORTIUM_ID (take 128 (pp_ids n));
     Put GSCAN_ATTRIBUTE_ANQPO_HS_PLMN (take 3 (pp_plmn n))].

Definition anqpo_ops (l : list wifi_passpoint_network) : list mop :=
  put_u32 GSCAN_ATTRIBUTE_ANQPO_HS_LIST_SIZE (zlen l)
  :: vendor_data (nest GSCAN_ATTRIBUTE_ANQPO_HS_LIST (concat (map passpoint_ops (indexed l)))).

Definition rtt_target_ops (c : Z * wifi_rtt_config) : list mop :=
  let '(i, c) := c in
  nest_checked i
    [put_addr RTT_ATTRIBUTE_TARGET_MAC (rtt_addr c);
     put_u8 RTT_ATTRIBUTE_TARGET_TYPE (rtt_type c);
     put_u8 RTT_ATTRIBUTE_TARGET_PEER (rtt_peer c);
     Put RTT_ATTRIBUTE_TARGET_CHAN (rtt_channel c);
     put_u32 RTT_ATTRIBUTE_TARGET_NUM_BURST (rtt_num_burst c);
     put_u32 RTT_ATTRIBUTE_TARGET_NUM_FTM_BURST (rtt_frames_per_burst c);
     put_u32 RTT_ATTRIBUTE_TARGET_NUM_RETRY_FTM (rtt_retries_per_frame c);
     put_u32 RTT_ATTRIBUTE_TARGET_NUM_RETRY_FTMR (rtt_retries_per_ftmr c);
     put_u32 RTT_ATTRIBUTE_TARGET_PERIOD (rtt_burst_period c);
     put_u32 RTT_ATTRIBUTE_TARGET_BURST_DURATION (rtt_burst_duration c);
     put_u8 RTT_ATTRIBUTE_TARGET_LCI (rtt_LCI c);
     put_u8 RTT_ATTRIBUTE_TARGET_LCR (rtt_LCR c);
     put_u8 RTT_ATTRIBUTE_TARGET_BW (rtt_bw c);
     put_u8 RTT_ATTRIBUTE_TARGET_PREAMBLE (rtt_preamble c)].

Definition rtt_setup_ops (l : list wifi_rtt_config) : list mop :=
  vendor_data
    (put_u8 RTT_ATTRIBUTE_TARGET_CNT (zlen l)
     :: nest RTT_ATTRIBUTE_TARGET_INFO (concat (map rtt_target_ops (indexed l)))).

Definition rtt_teardown_ops (addrs : list (list Z)) : list mop :=
  vendor_data
    (PutI RTT_ATTRIBUTE_TARGET_CNT (le_bytes 1 (zlen addrs))
     :: map (put_addr RTT_ATTRIBUTE_TARGET_MAC) addrs).

Definition keep_alive_start_ops (index : Z) (pkt src dst : list Z) (len period : Z) : list mop :=
  vendor_data
    [put_u8 MKEEP_ALIVE_ATTRIBUTE_ID index;
     put_u16 MKEEP_ALIVE_ATTRIBUTE_IP_PKT_LEN len;
     Put MKEEP_ALIVE_ATTRIBUTE_IP_PKT (take (Z.to_nat len) pkt);
     put_addr MKEEP_ALIVE_ATTRIBUTE_SRC_MAC_ADDR src;
     put_addr MKEEP_ALIVE_ATTRIBUTE_DST_MAC_ADDR dst;
     put_u32 MKEEP_ALIVE_ATTRIBUTE_PERIOD_MSEC period].

Definition keep_alive_stop_ops (index : Z) : list mop := vendor_data [put_u8 MKEEP_ALIVE_ATTRIBUTE_ID index].
End Requests.

(** ** Objects *)
Section Commands.
Context `{hal_headers} (answer : list (wcall * wresp) -> wcall -> wresp) (patience : nat).
(** The address the allocator picks, from what was done so far and the addresses in use. *)
Context (alloc_at : list (wcall * wresp) -> gset Z -> Z).
Abbreviation IO := (io hal wcall wresp).
Abbreviation PROG := (prog hal wcall wresp).
Abbreviation sys := (sys answer).

(** [new]; NULL when there is no memory. *)
Definition new_command (c : cmd_class) (id iface : Z) : IO Z :=
  do r <- sys Cnew;
  if rv r =? 0 then io_ret 0
  else fun w =>
    let p := alloc_at (trace w) (dom (objects (globals w))) in
    Some (p, World (with_objects (globals w) (<[p := mk_command c id iface 1]> (objects (globals w)))) (trace w)).

(** An access to an object; one that was deleted is no object. *)
Definition deref (p : Z) : IO wifi_command :=
  io_pure (fun h => c ← objects h !! p; Some (c, h)).

Definition set_refs (c : wifi_command) (n : Z) : wifi_command := mk_command (mClass c) (mId c) (mIface c) n.

Definition addRef (p : Z) : IO unit :=
  io_pure (fun h => c ← objects h !! p; Some (tt, with_objects h (<[p := set_refs c (mRefs c + 1)]> (objects h)))).

Definition releaseRef (p : Z) : IO unit :=
  io_pure (fun h =>
    c ← objects h !! p;
    Some (tt, with_objects h (if mRefs c - 1 =? 0 then delete p (objects h)
                              else <[p := set_refs c (mRefs c - 1)]> (objects h)))).

(** The address of [WifiCommand::event_handler]. *)
Definition EVENT_HANDLER : Z := 1.

Open Scope prog_scope.
Definition registerVendorHandler (self subcmd : Z) : PROG Z :=
  wifi_register_vendor_handler GOOGLE_OUI subcmd EVENT_HANDLER self.
Definition unregisterVendorHandler (subcmd : Z) : PROG unit := wifi_unregister_vendor_handler GOOGLE_OUI subcmd.

(** ** Start and cancel

    A step that builds or sends a request, and an early return when it failed. The request travels
    along; its destructor runs at the end. *)
Definition negative (r : Z) : bool := r <? 0.
Definition not_success (r : Z) : bool := negb (r =? WIFI_SUCCESS).

Definition checked (failed : Z -> bool) (m : PROG (Z * Z)) (k : Z * Z -> PROG (Z * Z)) : PROG (Z * Z) :=
  do p <- m; if failed p.1 then Ret p else k p.

(** [with_request], the body being a program. *)
Definition local_request {A} (body : Z -> PROG (A * Z)) : PROG A :=
  do p <- body 0; do _ <- destroy answer p.2; Ret p.1.

(** [requestResponse(request)] of a command that ignores responses. *)
Definition exchange (rq : Z) : IO (Z * Z) :=
  (do r <- requestResponse answer patience no_response tt rq; io_ret (r.1, rq))%C.

Definition start_rssi (self iface max_rssi min_rssi : Z) : PROG Z :=
  local_request (fun rq =>
    checked negative (build answer true rq iface WIFI_SUBCMD_SET_RSSI_MONITOR (rssi_ops max_rssi min_rssi 1)) (fun p =>
    checked negative (exchange p.2) (fun p =>
    do _ <- registerVendorHandler self WIFI_EVENT_RSSI_MONITOR;
    if negative p.1 then do _ <- unregisterVendorHandler WIFI_EVENT_RSSI_MONITOR; Ret p
    else Ret p))).

Definition cancel_rssi (iface max_rssi min_rssi : Z) : PROG Z :=
  local_request (fun rq =>
    do p <- checked not_success (build answer true rq iface WIFI_SUBCMD_SET_RSSI_MONITOR (rssi_ops max_rssi min_rssi 0))
              (fun p => exchange p.2);
    do _ <- unregisterVendorHandler WIFI_EVENT_RSSI_MONITOR;
    Ret (WIFI_SUCCESS, p.2)).

Definition start_full_scan (self iface : Z) : PROG Z :=
  local_request (fun rq =>
    checked not_success (build answer false rq iface GSCAN_SUBCMD_ENABLE_FULL_SCAN_RESULTS (full_scan_ops 1)) (fun p =>
    do _ <- registerVendorHandler self GSCAN_EVENT_FULL_SCAN_RESULTS;
    do p <- exchange p.2;
    if not_success p.1 then do _ <- unregisterVendorHandler GSCAN_EVENT_FULL_SCAN_RESULTS; Ret p
    else Ret p)).

Definition cancel_full_scan (iface : Z) : PROG Z :=
  local_request (fun rq =>
    do p <- checked not_success (build answer false rq iface GSCAN_SUBCMD_ENABLE_FULL_SCAN_RESULTS (full_scan_ops 0))
              (fun p => exchange p.2);
    do _ <- unregisterVendorHandler GSCAN_EVENT_FULL_SCAN_RESULTS;
    Ret (WIFI_SUCCESS, p.2)).

Definition unregister_scan : PROG unit :=
  do _ <- unregisterVendorHandler GSCAN_EVENT_COMPLETE_SCAN;
  do _ <- unregisterVendorHandler GSCAN_EVENT_SCAN_RESULTS_AVAILABLE;
  unregisterVendorHandler GSCAN_EVENT_FULL_SCAN_RESULTS.

Definition start_scan (self iface : Z) (p : wifi_scan_cmd_params) : PROG Z :=
  local_request (fun rq =>
    checked not_success (build answer false rq iface GSCAN_SUBCMD_SET_CONFIG (scan_setup_ops p)) (fun x =>
    checked not_success (exchange x.2) (fun x =>
    do _ <- destroy answer x.2;
    checked not_success (build answer false 0 iface GSCAN_SUBCMD_SET_SCAN_CONFIG (scan_config_ops p)) (fun x =>
    checked not_success (exchange x.2) (fun x =>
    checked not_success (build answer false x.2 iface GSCAN_SUBCMD_ENABLE_GSCAN (feature_ops 1)) (fun x =>
    do _ <- registerVendorHandler self GSCAN_EVENT_SCAN_RESULTS_AVAILABLE;
    do _ <- registerVendorHandler self GSCAN_EVENT_COMPLETE_SCAN;
    do _ <- registerVendorHandler self GSCAN_EVENT_FULL_SCAN_RESULTS;
    do x <- exchange x.2;
    if not_success x.1 then do _ <- unregister_scan; Ret x else Ret x)))))).

Definition cancel_scan (iface : Z) : PROG Z :=
  local_request (fun rq =>
    do p <- checked not_success (build answer false rq iface GSCAN_SUBCMD_ENABLE_GSCAN (feature_ops 0))
              (fun p => exchange p.2);
    do _ <- unregister_scan;
    Ret (WIFI_SUCCESS, p.2)).

Definition unregister_hotlist : PROG unit :=
  do _ <- unregisterVendorHandler GSCAN_EVENT_HOTLIST_RESULTS_FOUND;
  unregisterVendorHandler GSCAN_EVENT_HOTLIST_RESULTS_LOST.

Definition start_hotlist (self iface : Z) (p : wifi_bssid_hotlist_params) : PROG Z :=
  local_request (fun rq =>
    checked negative (build answer true rq iface GSCAN_SUBCMD_SET_HOTLIST (hotlist_setup_ops p)) (fun x =>
    do x <- exchange x.2;
    if negative x.1 then do _ <- unregister_hotlist; Ret x
    else
      checked negative (build answer false x.2 iface GSCAN_SUBCMD_ENABLE_GSCAN (feature_ops 1)) (fun x =>
      do _ <- registerVendorHandler self GSCAN_EVENT_HOTLIST_RESULTS_FOUND;
      do _ <- registerVendorHandler self GSCAN_EVENT_HOTLIST_RESULTS_LOST;
      do x <- exchange x.2;
      if negative x.1 then do _ <- unregister_hotlist; Ret x else Ret x))).

Definition cancel_hotlist (iface : Z) : PROG Z :=
  do _ <- unregister_hotlist;
  local_request (fun rq =>
    checked negative (build answer true rq iface GSCAN_SUBCMD_SET_HOTLIST hotlist_teardown_ops) (fun x => exchange x.2)).

(** The parameters after [memset] to 0. *)
Definition epno_params0 : wifi_epno_params := mk_epno 0 0 0 0 0 0 0 0 [].

(** [createSetupRequest] of [ePNOCommand] looks at the number of networks first. *)
Definition epno_setup (rq iface : Z) (p : wifi_epno_params) : PROG (Z * Z) :=
  if MAX_EPNO_NETWORKS <? num_networks p then Ret (WIFI_ERROR_INVALID_ARGS, rq)
  else build answer true rq iface GSCAN_SUBCMD_SET_EPNO_SSID (epno_setup_ops p).

Definition start_epno (self iface : Z) (p : wifi_epno_params) : PROG Z :=
  local_request (fun rq =>
    checked negative (epno_setup rq iface p) (fun x =>
    do x <- exchange x.2;
    if negative x.1 then do _ <- unregisterVendorHandler GSCAN_EVENT_EPNO_EVENT; Ret x
    else do _ <- registerVendorHandler self GSCAN_EVENT_EPNO_EVENT; Ret x)).

Definition cancel_epno (iface : Z) : PROG Z :=
  do _ <- unregisterVendorHandler GSCAN_EVENT_EPNO_EVENT;
  local_request (fun rq =>
    checked negative (build answer true rq iface GSCAN_SUBCMD_SET_EPNO_SSID epno_teardown_ops) (fun x => exchange x.2)).

Definition start_change (self iface : Z) (p : wifi_significant_change_params) : PROG Z :=
  local_request (fun rq =>
    checked negative (build answer true rq iface GSCAN_SUBCMD_SET_SIGNIFICANT_CHANGE_CONFIG (change_setup_ops p)) (fun x =>
    checked negative (exchange x.2) (fun x =>
    checked negative (build answer false x.2 iface GSCAN_SUBCMD_ENABLE_GSCAN (feature_ops 1)) (fun x =>
    do _ <- registerVendorHandler self GSCAN_EVENT_SIGNIFICANT_CHANGE_RESULTS;
    do x <- exchange x.2;
    if negative x.1 then do _ <- unregisterVendorHandler GSCAN_EVENT_SIGNIFICANT_CHANGE_RESULTS; Ret x
    else Ret x)))).

Definition cancel_change (iface : Z) : PROG Z :=
  do _ <- unregisterVendorHandler GSCAN_EVENT_SIGNIFICANT_CHANGE_RESULTS;
  local_request (fun rq =>
    checked negative (build answer true rq iface GSCAN_SUBCMD_SET_SIGNIFICANT_CHANGE_CONFIG change_teardown_ops)
      (fun x => exchange x.2)).

(** [createRequest] of [AnqpoConfigureCommand] goes on when the message could not be created, and does
    not look at its argument. *)
Definition anqpo_request (rq iface : Z) (l : list wifi_passpoint_network) : IO (Z * Z) :=
  (do p <- create_vendor answer rq iface GOOGLE_OUI GSCAN_SUBCMD_ANQPO_CONFIG;
  if p.2 =? 0 then undefined
  else
    do r <- put_ops answer [] (anqpo_ops l) p.1;
    io_ret (if r <? 0 then r else WIFI_SUCCESS, p.2))%C.

Definition start_anqpo (self iface : Z) (l : list wifi_passpoint_network) : PROG Z :=
  local_request (fun rq =>
    checked not_success (anqpo_request rq iface l) (fun x =>
    do _ <- registerVendorHandler self GSCAN_EVENT_ANQPO_HOTSPOT_MATCH;
    do x <- exchange x.2;
    if not_success x.1 then do _ <- unregisterVendorHandler GSCAN_EVENT_ANQPO_HOTSPOT_MATCH; Ret x
    else Ret x)).

Definition cancel_anqpo (iface : Z) (l : list wifi_passpoint_network) : PROG Z :=
  local_request (fun rq =>
    do p <- checked not_success (anqpo_request rq iface l) (fun x => exchange x.2);
    do _ <- unregisterVendorHandler GSCAN_EVENT_ANQPO_HOTSPOT_MATCH;
    Ret (WIFI_SUCCESS, p.2)).

Definition start_rtt (self iface : Z) (l : list wifi_rtt_config) : PROG Z :=
  local_request (fun rq =>
    checked not_success (build answer false rq iface RTT_SUBCMD_SET_CONFIG (rtt_setup_ops l)) (fun x =>
    checked not_success (exchange x.2) (fun x =>
    do _ <- registerVendorHandler self RTT_EVENT_COMPLETE;
    Ret x))).

(** The body of [cancel_specific]; [cancel] is the same without devices. *)
Definition cancel_rtt (iface : Z) (addrs : list (list Z)) : PROG Z :=
  local_request (fun rq =>
    do p <- checked not_success (build answer true rq iface RTT_SUBCMD_CANCEL_CONFIG (rtt_teardown_ops addrs))
              (fun x => exchange x.2);
    do _ <- unregisterVendorHandler RTT_EVENT_COMPLETE;
    Ret (WIFI_SUCCESS, p.2)).

(** The virtual functions. *)
Definition start (self : Z) : PROG Z :=
  do c <- deref self;
  let i := mIface c in
  match mClass c with
  | SetRSSIMonitorCommand mx mn => start_rssi self i mx mn
  | FullScanResultsCommand => start_full_scan self i
  | ScanCommand p => start_scan self i p
  | BssidHotlistCommand p => start_hotlist self i p
  | ePNOCommand p => start_epno self i p
  | SignificantWifiChangeCommand p => start_change self i p
  | AnqpoConfigureCommand l => start_anqpo self i l
  | RttCommand l _ => start_rtt self i l
  end.

Definition cancel (self : Z) : PROG Z :=
  do c <- deref self;
  let i := mIface c in
  match mClass c with
  | SetRSSIMonitorCommand mx mn => cancel_rssi i mx mn
  | FullScanResultsCommand => cancel_full_scan i
  | ScanCommand _ => cancel_scan i
  | BssidHotlistCommand _ => cancel_hotlist i
  | ePNOCommand _ => cancel_epno i
  | SignificantWifiChangeCommand _ => cancel_change i
  | AnqpoConfigureCommand l => cancel_anqpo i l
  | RttCommand _ _ => cancel_rtt i []
  end.

(** ** The interface

    The functions that start a command are this one, each with its class. *)
Definition start_command (k : cmd_class) (id iface : Z) : PROG Z :=
  do cmd <- new_command k id iface;
  if cmd =? 0 then Ret WIFI_ERROR_OUT_OF_MEMORY
  else
    do result <- wifi_register_cmd id cmd;
    if not_success result then do _ <- releaseRef cmd; Ret result
    else
      do result <- start cmd;
      if not_success result then
        do _ <- wifi_unregister_cmd id;
        do _ <- releaseRef cmd;
        Ret result
      else Ret result.

Definition wifi_cancel_cmd (id : Z) : PROG Z :=
  do cmd <- wifi_unregister_cmd id;
  if negb (cmd =? 0) then
    do _ <- cancel cmd;
    do _ <- releaseRef cmd;
    Ret WIFI_SUCCESS
  else Ret WIFI_ERROR_INVALID_ARGS.

Definition wifi_start_gscan (id iface : Z) (params : wifi_scan_cmd_params) : PROG Z :=
  start_command (ScanCommand params) id iface.
Definition wifi_enable_full_scan_results (id iface : Z) : PROG Z := start_command FullScanResultsCommand id iface.
Definition wifi_set_bssid_hotlist (id iface : Z) (params : wifi_bssid_hotlist_params) : PROG Z :=
  start_command (BssidHotlistCommand params) id iface.
Definition wifi_set_significant_change_handler (id iface : Z) (params : wifi_significant_change_params) : PROG Z :=
  start_command (SignificantWifiChangeCommand params) id iface.
Definition wifi_set_epno_list (id iface : Z) (params : option wifi_epno_params) : PROG Z :=
  start_command (ePNOCommand (default epno_params0 params)) id iface.
Definition wifi_set_passpoint_list (id iface : Z) (networks : list wifi_passpoint_network) : PROG Z :=
  start_command (AnqpoConfigureCommand networks) id iface.
Definition wifi_rtt_range_request (id iface : Z) (rtt_config : list wifi_rtt_config) : PROG Z :=
  start_command (RttCommand rtt_config rtt_state0) id iface.
Definition wifi_start_rssi_monitoring (id iface max_rssi min_rssi : Z) : PROG Z :=
  start_command (SetRSSIMonitorCommand max_rssi min_rssi) id iface.

(** The functions that stop one, but for those that are [wifi_cancel_cmd] itself: the id -1 cancels through an object made for the purpose, of the class
    with empty parameters; the id that object is given ([wifi_disable_full_scan_results] gives it 0) plays no part. *)
Definition stop_command (k : cmd_class) (id iface : Z) : PROG Z :=
  if id =? -1 then
    do cmd <- new_command k id iface;
    if cmd =? 0 then Ret WIFI_ERROR_OUT_OF_MEMORY
    else
      do _ <- cancel cmd;
      do _ <- releaseRef cmd;
      Ret WIFI_SUCCESS
  else wifi_cancel_cmd id.

Definition wifi_stop_gscan (id iface : Z) : PROG Z := stop_command (ScanCommand (mk_scan_params 0 0 0 0 [])) id iface.
Definition wifi_disable_full_scan_results (id iface : Z) : PROG Z := stop_command FullScanResultsCommand id iface.
Definition wifi_reset_epno_list (id iface : Z) : PROG Z := stop_command (ePNOCommand epno_params0) id iface.
Definition wifi_stop_rssi_monitoring (id iface : Z) : PROG Z := stop_command (SetRSSIMonitorCommand 0 0) id iface.
Definition wifi_reset_bssid_hotlist (id : Z) : PROG Z := wifi_cancel_cmd id.
Definition wifi_reset_significant_change_handler (id : Z) : PROG Z := wifi_cancel_cmd id.
Definition wifi_reset_passpoint_list (id : Z) : PROG Z := wifi_cancel_cmd id.

Definition cancel_specific (self : Z) (addrs : list (list Z)) : PROG Z :=
  do c <- deref self; cancel_rtt (mIface c) addrs.

Definition wifi_rtt_range_cancel (id iface : Z) (addrs : list (list Z)) : PROG Z :=
  do cmd <- new_command (RttCommand [] rtt_state0) id iface;
  if cmd =? 0 then Ret WIFI_ERROR_OUT_OF_MEMORY
  else
    do _ <- cancel_specific cmd addrs;
    do _ <- releaseRef cmd;
    Ret WIFI_SUCCESS.

(** [createRequest] of [MKeepAliveCommand]. *)
Definition keep_alive_request (rq iface subcmd : Z) (ops : list mop) : PROG (Z * Z) :=
  checked not_success (create_vendor answer rq iface GOOGLE_OUI subcmd) (fun p =>
  do r <- put_ops answer [] ops p.1; Ret (r, p.2)).

(** [MKeepAliveCommand]: its object lives for one request. *)
Definition keep_alive (iface subcmd : Z) (ops : list mop) : PROG Z :=
  do r <- sys Cnew;
  if rv r =? 0 then Ret WIFI_ERROR_OUT_OF_MEMORY
  else
    local_request (fun rq =>
      checked not_success (keep_alive_request rq iface subcmd ops) (fun x => exchange x.2)).

(** [None]: a NULL pointer. *)
Definition wifi_start_sending_offloaded_packet (index iface : Z) (ip_packet : option (list Z)) (ip_packet_len : Z)
    (src dst : option (list Z)) (period_msec : Z) : PROG Z :=
  match ip_packet, src, dst with
  | Some pkt, Some src, Some dst =>
      if (0 <? index) && (index <=? N_AVAIL_ID) && (0 <? period_msec) && (ip_packet_len <=? MKEEP_ALIVE_IP_PKT_MAX) then
        keep_alive iface WIFI_OFFLOAD_START_MKEEP_ALIVE
          (keep_alive_start_ops index pkt src dst ip_packet_len period_msec)
      else Ret WIFI_ERROR_INVALID_ARGS
  | _, _, _ => Ret WIFI_ERROR_INVALID_ARGS
  end.

Definition wifi_stop_sending_offloaded_packet (index iface : Z) : PROG Z :=
  if (0 <? index) && (index <=? N_AVAIL_ID) then
    keep_alive iface WIFI_OFFLOAD_STOP_MKEEP_ALIVE (keep_alive_stop_ops index)
  else Ret WIFI_ERROR_INVALID_ARGS.
End Commands.
