(* ===== verification/WifiShared.v ===== *)
(** The memory of the Wi-Fi HAL as the event thread and the callers of its interface share it: what the one
    may be in the middle of when the other makes a step, and the rules for the steps of the callers. *)
From Stdlib Require Import List.
From stdpp Require Import gmap.
From S2P Require Import Prelude Threads WifiState WifiRegistry WifiRequest WifiCommand.

(** ** Handlers *)

(** The events a command listens to, in the order it registers them, and in the order it removes them. *)
Definition start_events (k : cmd_class) : list Z :=
  match k with
  | SetRSSIMonitorCommand _ _ => [WIFI_EVENT_RSSI_MONITOR]
  | FullScanResultsCommand => [GSCAN_EVENT_FULL_SCAN_RESULTS]
  | ScanCommand _ => [GSCAN_EVENT_SCAN_RESULTS_AVAILABLE; GSCAN_EVENT_COMPLETE_SCAN; GSCAN_EVENT_FULL_SCAN_RESULTS]
  | BssidHotlistCommand _ => [GSCAN_EVENT_HOTLIST_RESULTS_FOUND; GSCAN_EVENT_HOTLIST_RESULTS_LOST]
  | ePNOCommand _ => [GSCAN_EVENT_EPNO_EVENT]
  | SignificantWifiChangeCommand _ => [GSCAN_EVENT_SIGNIFICANT_CHANGE_RESULTS]
  | AnqpoConfigureCommand _ => [GSCAN_EVENT_ANQPO_HOTSPOT_MATCH]
  | RttCommand _ _ => [RTT_EVENT_COMPLETE]
  end.

Definition cancel_events (k : cmd_class) : list Z :=
  match k with
  | ScanCommand _ => [GSCAN_EVENT_COMPLETE_SCAN; GSCAN_EVENT_SCAN_RESULTS_AVAILABLE; GSCAN_EVENT_FULL_SCAN_RESULTS]
  | _ => start_events k
  end.

(** The memory is as in [v]. *)
Definition mem (v : view) (g : hal) : Prop := hal_ok g /\ view_of g = v.

(** The memory is as in [v], but for the handlers. *)
Definition as_cbs (v : view) (l : list cb_info) (g : hal) : Prop := mem (set_cbs v l) g.

Lemma mem_objects v g : mem v g -> objects g = objs v.
Proof. intros [_ <-]. done. Qed.

Lemma mem_cbs v g : mem v g -> entries (event_cb (info g)) = cbs v.
Proof. intros [_ <-]. done. Qed.

(** ** What the event thread is in the middle of

    It holds a reference to an object, it has the mutex, and it has found a handler under it. *)
Record doing := mk_doing { holds : option (Z * wifi_command); in_mutex : bool; found : option cb_info }.
Definition resting : doing := mk_doing None false None.

Section Shared.
Context `{hal_headers}.

(** The handler that a command of the class registers. *)
Definition handler (p e : Z) : cb_info := mk_cb NL80211_CMD_VENDOR GOOGLE_OUI e EVENT_HANDLER p.

(** The reference of the event thread adds to those of the object; it may be the last one, when the object
    is none of the callers' any more. *)
Definition held_too (d : option (Z * wifi_command)) (o o' : gmap Z wifi_command) : Prop :=
  match d with
  | None => o' = o
  | Some (p, c) => exists n, 0 <= n /\ o' = <[p := set_refs c (n + 1)]> o
                    /\ o !! p = if n =? 0 then None else Some (set_refs c n)
  end.

Definition hal_seen (d : doing) (g h : hal) : Prop :=
  info h = info (with_lock g (cb_lock (info g) || in_mutex d))
  /\ (cb_lock (info g) = true -> in_mutex d = false)
  /\ (forall e, found d = Some e -> in_mutex d = true /\ In e (entries (event_cb (info g))))
  /\ held_too (holds d) (objects g) (objects h).

(** Which commands there may be. *)
Context (good : cmd_class -> Z -> Prop).

(** A handler is for an event of the class of its object, which is there and is no other thread's alone. *)
Definition listener (o : gmap Z wifi_command) (e : cb_info) : Prop :=
  exists p sub c, e = handler p sub /\ p <> 0 /\ o !! p = Some c /\ In sub (start_events (mClass c))
    /\ good (mClass c) (mId c) /\ 0 < mRefs c.

Definition hal_kept (g : hal) : Prop :=
  table_ok (event_cb (info g)) /\ Forall (listener (objects g)) (entries (event_cb (info g))).

Lemma with_lock_same (g : hal) : info (with_lock g (cb_lock (info g))) = info g.
Proof. by destruct g as [[] o]. Qed.

Lemma hal_seen_nobody g h : hal_seen resting g h <-> h = g.
Proof.
  unfold hal_seen, resting. cbn [holds in_mutex found held_too]. rewrite orb_false_r, with_lock_same. split.
  - intros (E1 & _ & _ & E2). destruct g, h. cbn in *. congruence.
  - intros ->. done.
Qed.

Definition hal_sharing : sharing hal doing := {|
  seen := hal_seen;
  kept := hal_kept;
  exclusive := in_mutex;
  idle g := cb_lock (info g) = false;
  nobody := resting;
  seen_nobody := hal_seen_nobody;
  nobody_exclusive := eq_refl
|}.
End Shared.

(** ** The steps of the callers *)
Section Callers.
Context `{hal_headers} (answer : list (wcall * wresp) -> wcall -> wresp) (alloc_at : list (wcall * wresp) -> gset Z -> Z).
Context (good : cmd_class -> Z -> Prop).
Abbreviation safe := (right_safe (C := wcall) (R := wresp) (sharing0 := hal_sharing good)).
Abbreviation listeners o l := (Forall (listener good o) l).

Lemma listener_insert o p c e : o !! p = None -> listener good o e -> listener good (<[p := c]> o) e.
Proof.
  intros Hp (q & sub & cq & -> & Hnz & Hq & Hr). exists q, sub, cq. split; [done|]. split; [done|]. split; [|done].
  rewrite lookup_insert_ne; [done|]. congruence.
Qed.

Lemma listener_delete o p e : cb_arg e <> p -> listener good o e -> listener good (delete p o) e.
Proof.
  intros Hp (q & sub & cq & -> & Hnz & Hq & Hr). exists q, sub, cq. split; [done|]. split; [done|]. split; [|done].
  rewrite lookup_delete_ne; [done|]. exact (not_eq_sym Hp).
Qed.

(** An object as the caller sees it: there may be one more reference to it. *)
Lemma held_lookup d (o o' : gmap Z wifi_command) p c : held_too d o o' -> o !! p = Some c -> exists n, o' !! p = Some (set_refs c n).
Proof.
  destruct d as [[q cq]|]; cbn [held_too].
  - intros (n & Hn & -> & Hq) Hp. destruct (Z.eq_dec p q) as [->|].
    + rewrite lookup_insert_eq. exists (n + 1). rewrite Hp in Hq. destruct (n =? 0); [done|]. by injection Hq as ->.
    + rewrite lookup_insert_ne by done. exists (mRefs c). rewrite Hp. by destruct c.
  - intros -> ->. exists (mRefs c). by destruct c.
Qed.

Lemma safe_deref p c v (P : wifi_command -> hal -> Prop) g :
  mem v g -> objs v !! p = Some c -> (forall n, P (set_refs c n) g) -> safe (deref p) P g.
Proof.
  intros Hm Hp HP Hk. split; [done|]. intros d h tr Hd _. pose proof Hd as (_ & _ & _ & Ho).
  rewrite <- (mem_objects _ _ Hm) in Hp. destruct (held_lookup _ _ _ _ _ Ho Hp) as [n Hn].
  eapply wp_pure; [cbn [globals]; by rewrite Hn|]. exists g. split; [exact Hd|]. split; [done|]. apply HP.
Qed.

Lemma held_insert d (o o' : gmap Z wifi_command) p c : o' !! p = None -> held_too d o o' -> held_too d (<[p := c]> o) (<[p := c]> o').
Proof.
  destruct d as [[q cq]|]; cbn [held_too]; [|by intros _ ->]. intros Hp (n & Hn & -> & Hq). exists n.
  assert (p <> q) as Hne by (intros ->; by rewrite lookup_insert_eq in Hp).
  split; [done|]. split; [by rewrite insert_insert_ne|]. by rewrite lookup_insert_ne.
Qed.

(** [alloc_at] picks an address that is not in use. *)
Hypothesis Halloc : forall tr live, alloc_at tr live <> 0 /\ alloc_at tr live ∉ live.

Lemma held_fresh d (o o' : gmap Z wifi_command) p : held_too d o o' -> o' !! p = None -> o !! p = None.
Proof.
  intros Hh Hp. destruct (o !! p) as [c|] eqn:E; [|done]. by destruct (held_lookup _ _ _ _ _ Hh E) as [n Hn]; rewrite Hp in Hn.
Qed.

Lemma safe_new k id iface v (P : Z -> hal -> Prop) g :
  mem v g -> P 0 g ->
  (forall p g, p <> 0 -> p ∉ dom (objs v) -> mem (set_objs v (<[p := mk_command k id iface 1]> (objs v))) g -> P p g) ->
  safe (new_command answer alloc_at k id iface) P g.
Proof using Halloc.
  intros Hm H0 HP Hk. split; [done|]. intros d h tr Hd _. apply wp_bind, sys_any. intros r. destruct (rv r =? 0).
  { apply wp_ret. by exists g. }
  unfold wp. cbn [globals trace]. destruct (Halloc (tr ++ [(Cnew, r)]) (dom (objects h))) as [Hnz Hf%not_elem_of_dom].
  set (p := alloc_at _ _) in *. pose proof Hd as (Hi & Hl & Hfd & Ho). pose proof (held_fresh _ _ _ _ Ho Hf) as Hg.
  pose proof (mem_objects _ _ Hm) as Eo. exists (with_objects g (<[p := mk_command k id iface 1]> (objects g))). split; [|split].
  - split; [exact Hi|]. split; [exact Hl|]. split; [exact Hfd|]. by apply held_insert.
  - destruct Hk as [Ht Hk]. split; [exact Ht|]. cbn [info objects with_objects]. eapply List.Forall_impl; [|exact Hk].
    intros e He. by apply listener_insert.
  - apply HP; [done|rewrite <- Eo; by apply not_elem_of_dom|]. destruct Hm as [Hok Hv]. split; [exact Hok|].
    unfold view_of in *. cbn [objects info with_objects]. by rewrite <- Hv.
Qed.

(** The caller's reference is the last but for that of the event thread. *)
Lemma safe_release p c v (P : unit -> hal -> Prop) g :
  mem v g -> objs v !! p = Some c -> mRefs c = 1 -> Forall (fun e => cb_arg e <> p) (cbs v) ->
  (forall g, mem (set_objs v (delete p (objs v))) g -> P tt g) -> safe (releaseRef p) P g.
Proof.
  intros Hm Hp Hr Hn HP Hk. split; [done|]. intros d h tr Hd _. pose proof Hd as (Hi & Hl & Hfd & Ho).
  pose proof (mem_objects _ _ Hm) as Eo. rewrite <- Eo in Hp. destruct (held_lookup _ _ _ _ _ Ho Hp) as [m Hm'].
  eapply wp_pure; [cbn [globals]; rewrite Hm'; reflexivity|]. cbn [mRefs set_refs globals trace].
  exists (with_objects g (delete p (objects g))). split; [|split].
  - split; [exact Hi|]. split; [exact Hl|]. split; [exact Hfd|]. cbn [objects with_objects].
    destruct (holds d) as [[q cq]|]; cbn [held_too] in *.
    + destruct Ho as (n & Hnn & Eh & Hq). destruct (Z.eq_dec p q) as [<-|Hne].
      * rewrite Hp in Hq. destruct (Z.eqb_spec n 0); [done|]. injection Hq as ->. cbn [mRefs set_refs] in Hr. subst n.
        rewrite Eh, lookup_insert_eq in Hm'. injection Hm' as <-. change (1 + 1 - 1 =? 0) with false. cbn match. exists 0. split; [done|].
        split; [|by rewrite lookup_delete_eq]. rewrite Eh, insert_insert_eq, insert_delete_eq. done.
      * rewrite Eh, lookup_insert_ne in Hm' by done. rewrite Hp in Hm'. injection Hm' as E. apply (f_equal mRefs) in E.
        cbn [mRefs set_refs] in E. rewrite Hr in E. subst m. cbn [Z.sub Z.add Z.opp Z.pos_sub Z.eqb]. exists n. split; [done|].
        rewrite Eh, delete_insert_ne by done. split; [done|]. by rewrite lookup_delete_ne.
    + rewrite Ho, Hp in Hm'. injection Hm' as E. apply (f_equal mRefs) in E. cbn [mRefs set_refs] in E. rewrite Hr in E. subst m.
      cbn [Z.sub Z.add Z.opp Z.pos_sub Z.eqb]. by rewrite Ho.
  - destruct Hk as [Ht Hk]. split; [exact Ht|]. cbn [info objects with_objects]. rewrite (mem_cbs _ _ Hm) in Hk |- *.
    rewrite List.Forall_forall in *. intros e He. apply listener_delete; [by apply Hn|by apply Hk].
  - apply HP. destruct Hm as [Hok Hv]. split; [exact Hok|]. unfold view_of in *. cbn [objects info with_objects]. rewrite <- Hv. cbn. reflexivity.
Qed.

(** The table of commands is the callers' own. *)
Lemma safe_on_cmd {A B} (f : table cmd_info -> option (A * table cmd_info)) (r : A -> B) a t v (P : B -> hal -> Prop) g :
  mem v g -> f (cmd (info g)) = Some (a, t) -> table_ok t -> alloc t = DEFAULT_CMD_SIZE ->
  (forall g, mem (set_cmds v (entries t)) g -> P (r a) g) ->
  safe (at_once (do x <- on_cmd f; io_ret (r x))) P g.
Proof.
  intros Hm Hf Ht Ha HP Hk. split; [done|]. intros d h tr Hd _. pose proof Hd as (Hi & Hl & Hfd & Ho).
  assert (cmd (info h) = cmd (info g)) as Ec by (by rewrite Hi).
  apply wp_bind. eapply wp_pure; [cbn [globals]; by rewrite Ec, Hf|]. apply wp_ret. cbn [globals trace].
  exists (with_cmd g t). split; [|split].
  - split; [cbn [info with_cmd with_lock]; by rewrite Hi|]. split; [exact Hl|]. split; [exact Hfd|]. exact Ho.
  - exact Hk.
  - apply HP. destruct Hm as [(H1 & H2 & _ & _ & H5) Hv]. split; [done|]. unfold view_of in *. cbn. by rewrite <- Hv.
Qed.

Lemma safe_register_cmd id p v (P : Z -> hal -> Prop) g :
  mem v g -> zlen (cmds v) < DEFAULT_CMD_SIZE ->
  (forall g, mem (set_cmds v (cmds v ++ [mk_cmd id p])) g -> P WIFI_SUCCESS g) -> safe (wifi_register_cmd id p) P g.
Proof.
  intros Hm Hl HP. pose proof Hm as [(_ & _ & H1 & H2 & _) Hv].
  assert (entries (cmd (info g)) = cmds v) as Ec by (by rewrite <- Hv).
  destruct (table_add_spec (cmd (info g)) (mk_cmd id p) H1) as (t & E & Ht & Ha & Et).
  rewrite <- entries_length, Ec, H2 in E, Et by done. rewrite (proj2 (Z.ltb_lt _ _)) in E, Et by done.
  eapply safe_on_cmd; [exact Hm|exact E|done|by rewrite Ha|]. cbn match. rewrite Et. exact HP.
Qed.

Lemma safe_unregister_cmd id v (P : Z -> hal -> Prop) g :
  mem v g ->
  (forall g, mem (set_cmds v (remove_first (has_id id) (cmds v))) g -> P (ptr_of (find (has_id id) (cmds v))) g) ->
  safe (wifi_unregister_cmd id) P g.
Proof.
  intros Hm HP. pose proof Hm as [(_ & _ & H1 & H2 & _) Hv].
  assert (entries (cmd (info g)) = cmds v) as Ec by (by rewrite <- Hv).
  destruct (table_remove_spec (has_id id) _ H1) as (t & E & Ht & Ha & Et).
  eapply safe_on_cmd; [exact Hm|exact E|done|by rewrite Ha|]. rewrite Et, Ec. exact HP.
Qed.

(** A change of the handlers, bracketed by the mutex. *)
Lemma safe_locked {A B} (f : table cb_info -> option (A * table cb_info)) a t (k : A -> prog hal wcall wresp B) v
    (P : B -> hal -> Prop) g :
  mem v g -> f (event_cb (info g)) = Some (a, t) -> table_ok t -> alloc t = DEFAULT_EVENT_CB_SIZE ->
  (listeners (objects g) (entries (event_cb (info g))) -> listeners (objects g) (entries t)) ->
  (forall g, mem (set_cbs v (entries t)) g -> safe (k a) P g) ->
  safe (do _ <- lock; do a <- on_event_cb f; do _ <- pthread_mutex_unlock; k a)%prog P g.
Proof.
  intros Hm Hf Ht Ha Hls HP Hk. pose proof Hm as [(H1 & H2 & H3 & H4 & Hlk) Hv]. split.
  { intros d h tr (Hi & _) Hex. cbn [globals]. cbn [exclusive hal_sharing] in Hex. rewrite Hi. cbn [info with_lock cb_lock]. by rewrite Hlk, Hex. }
  intros d h tr (Hi & _ & Hfd & Ho) Hr. apply negb_true_iff in Hr. cbn [globals] in Hr.
  assert (in_mutex d = false) as Hd by (rewrite Hi in Hr; cbn in Hr; rewrite Hlk in Hr; exact Hr).
  assert (found d = None) as Hnf by (destruct (found d) as [e|] eqn:E; [|done]; destruct (Hfd e eq_refl); congruence).
  eapply wp_pure; [cbn [globals]; by rewrite Hr|]. cbn [globals trace]. exists (with_lock g true). split; [|split; [exact Hk|]].
  { split; [cbn; by rewrite Hi|]. split; [done|]. split; [|exact Ho]. intros e. by rewrite Hnf. }
  clear Hd Hnf Hfd Hi Ho Hr h tr d. intros _. split; [done|]. intros d h tr (Hi & Hd & Hfd & Ho) _. specialize (Hd eq_refl).
  assert (found d = None) as Hnf by (destruct (found d) as [e|] eqn:E; [|done]; destruct (Hfd e eq_refl); congruence).
  eapply wp_pure; [cbn [globals]; rewrite Hi; cbn; by rewrite Hf|]. cbn [globals trace].
  exists (with_event_cb (with_lock g true) t). split; [|split].
  { split; [cbn; rewrite Hi; done|]. split; [done|]. split; [|exact Ho]. intros e. by rewrite Hnf. }
  { destruct Hk as [_ Hk]. split; [exact Ht|]. by apply Hls. }
  clear Hd Hnf Hfd Hi Ho h tr d. intros Hk'. split; [done|]. intros d h tr (Hi & Hd & Hfd & Ho) _. specialize (Hd eq_refl).
  assert (found d = None) as Hnf by (destruct (found d) as [e|] eqn:E; [|done]; destruct (Hfd e eq_refl); congruence).
  eapply wp_pure; [cbn [globals]; rewrite Hi; reflexivity|]. cbn [globals trace].
  exists (with_event_cb g t). split; [|split; [exact Hk'|]].
  { split; [cbn; rewrite Hi; cbn; by rewrite Hlk, Hd|]. split; [done|]. split; [|exact Ho]. intros e. by rewrite Hnf. }
  apply HP. split; [done|]. unfold view_of in *. cbn. by rewrite <- Hv.
Qed.

Lemma safe_register p e v l c (P : Z -> hal -> Prop) g :
  as_cbs v l g -> zlen l < DEFAULT_EVENT_CB_SIZE ->
  p <> 0 -> objs v !! p = Some c -> In e (start_events (mClass c)) -> good (mClass c) (mId c) -> 0 < mRefs c ->
  (forall g, as_cbs v (l ++ [handler p e]) g -> P WIFI_SUCCESS g) -> safe (registerVendorHandler p e) P g.
Proof.
  intros Hm Hl Hnz Hp He Hgood Hr HP. pose proof Hm as [(H1 & H2 & _) Hv]. pose proof (mem_cbs _ _ Hm) as Ec. cbn [cbs set_cbs] in Ec.
  destruct (table_add_spec (event_cb (info g)) (handler p e) H1) as (t & E & Ht & Ha & Et).
  rewrite <- entries_length, Ec, H2 in E, Et by done. rewrite (proj2 (Z.ltb_lt _ _)) in E, Et by done.
  eapply safe_locked; [exact Hm|exact E|done|by rewrite Ha| |].
  - rewrite Et, Ec. intros Hls. apply list.Forall_app. split; [done|]. apply Forall_cons; [|apply Forall_nil_2].
    exists p, e, c. split; [done|]. split; [done|]. by rewrite (mem_objects _ _ Hm).
  - cbn match. rewrite Et. exact HP.
Qed.

Lemma safe_unregister e v l (P : unit -> hal -> Prop) g :
  as_cbs v l g ->
  (forall g, as_cbs v (remove_first (for_vendor GOOGLE_OUI e) l) g -> P tt g) -> safe (unregisterVendorHandler e) P g.
Proof.
  intros Hm HP. pose proof Hm as [(H1 & H2 & _) Hv]. pose proof (mem_cbs _ _ Hm) as Ec. cbn [cbs set_cbs] in Ec.
  destruct (table_remove_spec (for_vendor GOOGLE_OUI e) _ H1) as (t & E & Ht & Ha & Et).
  apply (safe_locked (table_remove (for_vendor GOOGLE_OUI e)) (find (for_vendor GOOGLE_OUI e) (entries (event_cb (info g)))) t (fun _ => Ret tt) (set_cbs v l)); [exact Hm|exact E|done|by rewrite Ha| |].
  - rewrite Et, Ec. apply remove_first_Forall.
  - rewrite Et, Ec. exact HP.
Qed.
End Callers.
