(* ===== verification/WifiLifecycle.v ===== *)
(** The life of the commands of the Wi-Fi HAL: an abstract machine whose state is the list of the
    commands that are active, and the proof that the functions of the interface implement it. *)
From Stdlib Require Import List.
From stdpp Require Import gmap.
From S2P Require Import Prelude Threads WifiState WifiRegistry WifiRequest WifiCommand WifiShared.

(** ** The requests can be built *)
Lemma indexed_nil {A} (l : list A) : indexed l = [] -> l = [].
Proof. by destruct l. Qed.

Section Good.
Context `{hal_headers} (page : Z) (Hpage : 4096 <= page).
Abbreviation good subcmd iface ops := (good_ops page (20 + ops_size (vendor_ops iface GOOGLE_OUI subcmd)) ops).

Lemma header_size iface subcmd : 36 <= 20 + ops_size (vendor_ops iface GOOGLE_OUI subcmd) <= 44.
Proof. pose proof (vendor_ops_size iface GOOGLE_OUI subcmd). lia. Qed.

Lemma good_of_solid iface subcmd ops : balanced ops -> solid ops -> good subcmd iface ops.
Proof using Hpage. intros Hb Hs. pose proof (header_size iface subcmd). apply good_solid; [lia|done..]. Qed.

Lemma good_of_size iface subcmd ops n : balanced ops -> ops_size ops = n -> n <= 4000 -> good subcmd iface ops.
Proof using Hpage. intros Hb Hs Hn. pose proof (header_size iface subcmd). apply good_fits; [done|lia]. Qed.

Lemma balanced_channels chs : balanced (concat (map channel_ops (indexed chs))).
Proof. apply balanced_concat. intros []. cbn. unfold put_u32. auto with request. Qed.

Lemma bucket_ok b : balanced (bucket_ops b) /\ solid (bucket_ops b).
Proof.
  destruct b as [i b]. cbn [bucket_ops]. unfold put_u32. destruct (bk_channels b) as [|c chs].
  - rewrite app_nil_r. split; auto 20 with request.
  - split; [apply balanced_nest, balanced_app; [auto 20 with request|apply balanced_nest, balanced_channels]|].
    apply solid_nest, solid_app; [auto 20 with request|]. apply solid_nest, solid_concat; [done|].
    intros []. apply solid_put.
Qed.

Lemma scan_setup_good iface subcmd p : good subcmd iface (scan_setup_ops p).
Proof using Hpage.
  unfold scan_setup_ops, vendor_data, put_u32. destruct (buckets p) as [|b bs] eqn:E.
  - by apply (good_of_size _ _ _ 20); [auto 20 with request| |].
  - apply good_of_solid; [apply balanced_nest; do 2 apply balanced_put; apply balanced_concat; intros; apply bucket_ok|].
    apply solid_nest. do 2 apply solid_put_cons. apply solid_concat; [done|]. intros; apply bucket_ok.
Qed.

Lemma ap_ok ap : balanced (ap_ops ap) /\ solid (ap_ops ap).
Proof. unfold ap_ops, put_addr, put_u32. split; auto 20 with request. Qed.

Lemma hotlist_setup_good iface subcmd p : good subcmd iface (hotlist_setup_ops p).
Proof using Hpage.
  unfold hotlist_setup_ops, vendor_data, put_u8, put_u16, put_u32. destruct (hl_ap p) as [|ap aps].
  - apply (good_of_size _ _ _ 32); [|done|done]. apply balanced_nest. do 3 apply balanced_put. auto with request.
  - apply good_of_solid.
    + apply balanced_nest. do 3 apply balanced_put. apply balanced_nest, balanced_concat. intros.
      apply balanced_nest_checked, ap_ok.
    + apply solid_nest. do 3 apply solid_put_cons. apply solid_nest, solid_concat; [done|]. intros.
      apply solid_nest_checked, ap_ok.
Qed.

Lemma epno_network_ok n : balanced (epno_network_ops n) /\ solid (epno_network_ops n).
Proof. destruct n as [i n]. unfold epno_network_ops, put_u32. split; auto 20 with request. Qed.

Lemma epno_setup_good iface subcmd p : good subcmd iface (epno_setup_ops p).
Proof using Hpage.
  unfold epno_setup_ops, vendor_data, put_u8, put_u16. destruct (take _ (ep_networks p)) as [|n ns].
  - apply (good_of_size _ _ _ 80); [|done|done]. apply balanced_nest. do 9 apply balanced_put. auto with request.
  - apply good_of_solid.
    + apply balanced_nest. do 9 apply balanced_put. apply balanced_nest, balanced_concat. intros. apply epno_network_ok.
    + apply solid_nest. do 9 apply solid_put_cons. apply solid_nest, solid_concat; [done|]. intros. apply epno_network_ok.
Qed.

Lemma change_setup_good iface subcmd p : good subcmd iface (change_setup_ops p).
Proof using Hpage.
  unfold change_setup_ops, vendor_data, put_u8, put_u16. destruct (sc_ap p) as [|ap aps].
  - apply (good_of_size _ _ _ 48); [|done|done]. apply balanced_nest. do 5 apply balanced_put. auto with request.
  - apply good_of_solid.
    + apply balanced_nest. do 5 apply balanced_put. apply balanced_nest, balanced_concat. intros.
      apply balanced_nest_checked, ap_ok.
    + apply solid_nest. do 5 apply solid_put_cons. apply solid_nest, solid_concat; [done|]. intros.
      apply solid_nest_checked, ap_ok.
Qed.

Lemma rtt_target_ok c : balanced (rtt_target_ops c) /\ solid (rtt_target_ops c).
Proof. destruct c as [i c]. unfold rtt_target_ops, put_u32, put_u8, put_addr. split; auto 30 with request. Qed.

Lemma rtt_setup_good iface subcmd l : good subcmd iface (rtt_setup_ops l).
Proof using Hpage.
  unfold rtt_setup_ops, vendor_data, put_u8. destruct l as [|c l].
  - apply (good_of_size _ _ _ 16); [|done|done]. apply balanced_nest. apply balanced_put. auto with request.
  - apply good_of_solid.
    + apply balanced_nest, balanced_put, balanced_nest, balanced_concat. intros. apply rtt_target_ok.
    + apply solid_nest, solid_put_cons, solid_nest, solid_concat; [done|]. intros. apply rtt_target_ok.
Qed.

(** The number of devices is put without looking at the result, but there is room for it. *)
Lemma rtt_teardown_good iface subcmd addrs : good subcmd iface (rtt_teardown_ops addrs).
Proof using Hpage.
  pose proof (header_size iface subcmd). split.
  - apply balanced_nest, balanced_putI. induction addrs as [|a addrs IH]; cbn; [apply balanced_nil|by apply balanced_put].
  - exists [Start false NL80211_ATTR_VENDOR_DATA; PutI RTT_ATTRIBUTE_TARGET_CNT (le_bytes 1 (zlen addrs))],
      (map (put_addr RTT_ATTRIBUTE_TARGET_MAC) addrs ++ [End NL80211_ATTR_VENDOR_DATA]).
    split; [done|]. split; [change (ops_size _) with 12 at 2; lia|].
    induction addrs as [|a addrs IH]; cbn; [done|]. apply IH.
Qed.
End Good.

(** ** What starting and cancelling do to the memory *)
Section Effects.
Context `{hal_headers} (answer : list (wcall * wresp) -> wcall -> wresp) (patience : nat) (page : Z).
Hypothesis Hnl : libnl_ok answer page.
Hypothesis Hk : kernel_replies answer patience.
Abbreviation IO := (io hal wcall wresp).

Lemma page_big : 4096 <= page.
Proof using Hnl. apply (page_large _ _ Hnl). Qed.

Lemma always_build last msg iface subcmd ops (P : Z * Z -> hal -> Prop) g :
  good_ops page (20 + ops_size (vendor_ops iface GOOGLE_OUI subcmd)) ops ->
  (forall r m, r = 0 \/ r < 0 -> P (r, m) g) -> always (build answer last msg iface subcmd ops) P g.
Proof using Hnl.
  intros Hg HP tr. eapply wp_mono; [by apply (build_spec answer page)|].
  intros [r m] w' (Hw & tr' & _ & Hr). cbn [globals] in Hw. rewrite Hw. apply HP.
  destruct Hr as [(Hr & _)|[Hr _]]; [by left|by right].
Qed.

Lemma always_exchange rq (P : Z * Z -> hal -> Prop) g :
  (forall r, r = 0 \/ r < 0 -> P (r, rq) g) -> always (exchange answer patience rq) P g.
Proof using Hk.
  intros HP tr. apply wp_bind.
  eapply wp_mono; [apply (requestResponse_spec _ _ Hk (fun _ => True) ltac:(done) (fun _ => eq g)); [|done]|].
  - intros s reply w _ E. exists s, (globals w). split; [by destruct w|done].
  - cbn beta. intros r w' (Hr & E & _). apply wp_ret. rewrite <- E. apply HP. lia.
Qed.

Lemma always_destroy msg (P : unit -> hal -> Prop) g : P tt g -> always (destroy answer msg) P g.
Proof. intros HP tr. apply wp_destroy. by intros. Qed.

Lemma always_with_request {A} (body : Z -> IO (A * Z)) (P : A -> hal -> Prop) g :
  always (body 0) (fun p g => P p.1 g) g -> always (with_request answer body) P g.
Proof.
  intros Hb. unfold with_request. apply always_bind. eapply always_mono; [apply Hb|].
  intros p g' HP. apply always_bind, always_destroy. by apply always_ret.
Qed.

(** The same in a program that shares the memory with the event thread. *)
Context (good : cmd_class -> Z -> Prop).
Abbreviation safe := (right_safe (sharing0 := hal_sharing good)).

Lemma safe_build last msg iface subcmd ops (P : Z * Z -> hal -> Prop) g :
  good_ops page (20 + ops_size (vendor_ops iface GOOGLE_OUI subcmd)) ops ->
  (forall r m, r = 0 \/ r < 0 -> P (r, m) g) -> safe (build answer last msg iface subcmd ops) P g.
Proof using Hnl.
  intros Hg HP. apply right_local with (Q := fun p => p.1 = 0 \/ p.1 < 0); [|by intros []; apply HP].
  intros h. by apply always_build.
Qed.

Lemma safe_exchange rq (P : Z * Z -> hal -> Prop) g :
  (forall r, r = 0 \/ r < 0 -> P (r, rq) g) -> safe (exchange answer patience rq) P g.
Proof using Hk.
  intros HP. apply right_local with (Q := fun p => p.2 = rq /\ (p.1 = 0 \/ p.1 < 0)); [|intros [r m] [Em Hr]; cbn in Em, Hr; subst m; by apply HP].
  intros h. by apply always_exchange.
Qed.

Lemma safe_destroy msg (P : unit -> hal -> Prop) g : P tt g -> safe (destroy answer msg) P g.
Proof. intros HP. apply right_local with (Q := fun _ => True); [|by intros []]. intros h. by apply always_destroy. Qed.

Lemma safe_local_request {A} (body : Z -> prog hal wcall wresp (A * Z)) (P : A -> hal -> Prop) g :
  safe (body 0) (fun p g => P p.1 g) g -> safe (local_request answer body) P g.
Proof.
  intros Hb. apply right_bind. eapply right_mono; [apply Hb|]. intros p g' HP. by apply right_bind, safe_destroy.
Qed.

Lemma safe_checked (failed : Z -> bool) (m : prog hal wcall wresp (Z * Z)) (k : Z * Z -> prog hal wcall wresp (Z * Z))
    (P : Z * Z -> hal -> Prop) g :
  safe m (fun p g => if failed p.1 then P p g else safe (k p) P g) g -> safe (checked failed m k) P g.
Proof.
  intros Hm. apply right_bind. eapply right_mono; [apply Hm|]. cbn beta. intros p g' HP. by destruct (failed p.1).
Qed.

Definition unregister_all (es : list Z) (l : list cb_info) : list cb_info :=
  fold_left (fun l e => remove_first (for_vendor GOOGLE_OUI e) l) es l.

Lemma set_cbs_set_cbs v l k : set_cbs (set_cbs v l) k = set_cbs v k.
Proof. done. Qed.

(** An object of the class [k] that can register handlers. *)
Definition startable (k : cmd_class) (p : Z) (v : view) : Prop :=
  p <> 0 /\ exists c, objs v !! p = Some c /\ mClass c = k /\ good (mClass c) (mId c) /\ 0 < mRefs c.

Lemma safe_register_for k p e v l (P : Z -> hal -> Prop) g :
  as_cbs v l g -> zlen l < DEFAULT_EVENT_CB_SIZE -> startable k p v -> In e (start_events k) ->
  (forall g, as_cbs v (l ++ [handler p e]) g -> P WIFI_SUCCESS g) -> safe (registerVendorHandler p e) P g.
Proof. intros Hm Hl (Hnz & c & Hp & <- & Hg & Hr) He HP. by eapply safe_register. Qed.
End Effects.

(** Comparisons of named numbers. *)
Ltac eval_eqb :=
  repeat match goal with |- context [?a =? ?b] =>
    let r := eval vm_compute in (a =? b) in
    match r with true => change (a =? b) with true | false => change (a =? b) with false end end;
  cbn match.

(** One step of a command. *)
Ltac cm_step :=
  match goal with
  | |- right_safe (local_request _ _) _ _ => apply safe_local_request
  | |- right_safe (checked _ _ _) _ _ => apply safe_checked
  | |- right_safe (at_once (exchange _ _ _)) _ _ => eapply safe_exchange; [eassumption|intros ? ?]
  | |- right_safe (at_once (destroy _ _)) _ _ => apply safe_destroy
  | |- right_safe (prog_bind _ _) _ _ => apply right_bind
  | |- right_safe (Ret _) _ _ => cbn [right_safe]
  end.

(** The classes of the commands that [init_wifi_vendor_hal_func_table] makes available. *)
Definition exported (k : cmd_class) : bool :=
  match k with FullScanResultsCommand | AnqpoConfigureCommand _ => false | _ => true end.

Section Classes.
Context `{hal_headers} (answer : list (wcall * wresp) -> wcall -> wresp) (patience : nat) (page : Z).
Hypothesis Hnl : libnl_ok answer page.
Hypothesis Hk : kernel_replies answer patience.

(** No handler of the list is for one of the events [es]. *)
Definition none_for (es : list Z) (l : list cb_info) : Prop :=
  Forall (fun c => Forall (fun e => for_vendor GOOGLE_OUI e c = false) es) l.

Lemma none_for_event es l e : none_for es l -> In e es -> Forall (fun c => for_vendor GOOGLE_OUI e c = false) l.
Proof.
  intros Hn He. eapply List.Forall_impl; [|apply Hn]. cbn beta. intros c Hc.
  rewrite List.Forall_forall in Hc. by apply Hc.
Qed.

Lemma for_vendor_handler e p e' : for_vendor GOOGLE_OUI e (handler p e') = (e' =? e).
Proof. unfold for_vendor, handler. cbn [nl_cmd vendor_id vendor_subcmd]. by rewrite Z.eqb_refl. Qed.

Lemma remove_first_app_l {A} (f : A -> bool) l k :
  Forall (fun x => f x = false) l -> remove_first f (l ++ k) = l ++ remove_first f k.
Proof. induction 1 as [|x l Hx Hl IH]; cbn; [done|]. by rewrite Hx, IH. Qed.

Lemma unregister_none es l : none_for es l -> unregister_all es l = l.
Proof.
  unfold unregister_all. induction es as [|e es IH]; intros Hn; cbn [fold_left]; [done|].
  rewrite remove_first_id by (apply (none_for_event _ _ _ Hn); by left). apply IH.
  eapply List.Forall_impl; [|apply Hn]. cbn beta. intros c Hc. by apply Forall_inv_tail in Hc.
Qed.

(** Cancelling removes exactly what starting added, whoever registered before or after. *)
Lemma unregister_started k p a b :
  none_for (start_events k) a ->
  unregister_all (cancel_events k) (a ++ map (handler p) (start_events k) ++ b) = a ++ b.
Proof.
  intros Hn. assert (forall e, In e (start_events k) -> Forall (fun c => for_vendor GOOGLE_OUI e c = false) a) as Ha
    by (intros; by apply (none_for_event (start_events k))).
  unfold unregister_all. destruct k; cbn [cancel_events start_events fold_left map app] in *;
    repeat (rewrite remove_first_app_l by (apply Ha; cbn; tauto); cbn [remove_first]; rewrite !for_vendor_handler; eval_eqb);
    reflexivity.
Qed.

Abbreviation started p k v l := (fun r g =>
  (r = 0 /\ as_cbs v (l ++ map (handler p) (start_events k)) g) \/ (r < 0 /\ as_cbs v l g)).

Lemma failed_negative r : r = 0 \/ r < 0 -> negative r = negb (r =? 0).
Proof. unfold negative. zcases; cbn; lia. Qed.
Lemma failed_not_success r : not_success r = negb (r =? 0).
Proof. unfold not_success. by rewrite success_0. Qed.
End Classes.

(** Cases on whether a step failed. *)
Ltac ok_or_failed r H :=
  cbn [fst snd]; rewrite ?failed_not_success, ?(failed_negative r H);
  destruct H as [->|H]; [cbn [Z.eqb negb] | rewrite (proj2 (Z.eqb_neq r 0)) by lia; cbn [negb]].

Ltac good_request :=
  match goal with Hnl : libnl_ok _ _ |- _ =>
    pose proof (page_big _ _ Hnl); first
      [ assumption | by apply scan_setup_good | by apply hotlist_setup_good | by apply epno_setup_good
      | by apply change_setup_good | by apply rtt_setup_good | by apply rtt_teardown_good
      | apply good_of_solid; [done|by apply balanced_nest; auto 20 with request|by apply solid_nest; auto 20 with request] ]
  end.

Section Starting.
Context `{hal_headers} (answer : list (wcall * wresp) -> wcall -> wresp) (patience : nat) (page : Z).
Hypothesis Hnl : libnl_ok answer page.
Hypothesis Hk : kernel_replies answer patience.
Context (good : cmd_class -> Z -> Prop).
Abbreviation safe := (right_safe (sharing0 := hal_sharing good)).
Abbreviation starts m p k v l := (safe m (fun r g =>
  (r = 0 /\ as_cbs v (l ++ map (handler p) (start_events k)) g) \/ (r < 0 /\ as_cbs v l g))).

Lemma start_rssi_spec p iface mx mn v l g :
  as_cbs v l g -> zlen l + 3 <= 64 -> startable good (SetRSSIMonitorCommand mx mn) p v ->
  starts (start_rssi answer patience p iface mx mn) p (SetRSSIMonitorCommand mx mn) v l g.
Proof using Hnl Hk.
  intros Hv Hl Hst. unfold start_rssi. cm_step. cm_step. eapply safe_build; [eassumption|good_request|]. intros r m Hr. ok_or_failed r Hr; [|by right].
  do 2 cm_step. ok_or_failed r H0; [|by right]. cm_step. eapply safe_register_for; [done|unfold DEFAULT_EVENT_CB_SIZE; lia|eassumption|cbn; tauto|].
  intros g' Hv'. cm_step. by left.
Qed.

Lemma start_scan_spec p iface ps v l g :
  as_cbs v l g -> zlen l + 3 <= 64 -> startable good (ScanCommand ps) p v -> none_for (start_events (ScanCommand ps)) l ->
  starts (start_scan answer patience p iface ps) p (ScanCommand ps) v l g.
Proof using Hnl Hk.
  intros Hv Hl Hst Hn. unfold start_scan. cm_step. cm_step. eapply safe_build; [eassumption|good_request|]. intros r m Hr. ok_or_failed r Hr; [|by right].
  do 2 cm_step. ok_or_failed r H0; [|by right]. do 3 cm_step.
  eapply safe_build; [eassumption|good_request|]. intros r m' Hr'. ok_or_failed r Hr'; [|by right].
  do 2 cm_step. ok_or_failed r H0; [|by right]. cm_step.
  eapply safe_build; [eassumption|good_request|]. intros r m2 Hr2. ok_or_failed r Hr2; [|by right].
  cm_step. eapply safe_register_for; [done|unfold DEFAULT_EVENT_CB_SIZE; lia|eassumption|cbn; tauto|]. intros g1 Hv1.
  cm_step. eapply safe_register_for; [done|unfold DEFAULT_EVENT_CB_SIZE, zlen in *; rewrite length_app; cbn [length]; lia|eassumption|cbn; tauto|]. intros g2 Hv2.
  cm_step. eapply safe_register_for; [done|unfold DEFAULT_EVENT_CB_SIZE, zlen in *; rewrite !length_app; cbn [length]; lia|eassumption|cbn; tauto|]. intros g3 Hv3.
  rewrite <- !app_assoc in Hv3. do 2 cm_step. ok_or_failed r H0; [cm_step; by left|].
  cm_step. unfold unregister_scan. cm_step. eapply safe_unregister; [done|]. intros g4 Hv4.
  cm_step. eapply safe_unregister; [done|]. intros g5 Hv5. eapply safe_unregister; [done|]. intros g6 Hv6.
  cm_step. right. split; [done|]. pose proof (unregister_started (ScanCommand ps) p l [] Hn) as Hu.
  rewrite !app_nil_r in Hu. cbn [unregister_all cancel_events fold_left] in Hu. by rewrite <- Hu.
Qed.

Lemma start_hotlist_spec p iface ps v l g :
  as_cbs v l g -> zlen l + 3 <= 64 -> startable good (BssidHotlistCommand ps) p v -> none_for (start_events (BssidHotlistCommand ps)) l ->
  starts (start_hotlist answer patience p iface ps) p (BssidHotlistCommand ps) v l g.
Proof using Hnl Hk.
  intros Hv Hl Hst Hn. unfold start_hotlist. cm_step. cm_step. eapply safe_build; [eassumption|good_request|]. intros r m Hr. ok_or_failed r Hr; [|by right].
  do 2 cm_step. ok_or_failed r H0.
  2:{ cm_step. unfold unregister_hotlist. cm_step. eapply safe_unregister; [done|]. intros g4 Hv4.
      eapply safe_unregister; [done|]. intros g5 Hv5. cm_step. right. split; [done|].
      pose proof (unregister_none _ _ Hn) as Hu. cbn [unregister_all start_events fold_left] in Hu. by rewrite Hu in Hv5. }
  cm_step. eapply safe_build; [eassumption|good_request|]. intros r m2 Hr2. ok_or_failed r Hr2; [|by right].
  cm_step. eapply safe_register_for; [done|unfold DEFAULT_EVENT_CB_SIZE; lia|eassumption|cbn; tauto|]. intros g1 Hv1.
  cm_step. eapply safe_register_for; [done|unfold DEFAULT_EVENT_CB_SIZE, zlen in *; rewrite length_app; cbn [length]; lia|eassumption|cbn; tauto|]. intros g2 Hv2.
  rewrite <- !app_assoc in Hv2. do 2 cm_step. ok_or_failed r H0; [cm_step; by left|].
  cm_step. unfold unregister_hotlist. cm_step. eapply safe_unregister; [done|]. intros g4 Hv4.
  eapply safe_unregister; [done|]. intros g5 Hv5. cm_step. right. split; [done|].
  pose proof (unregister_started (BssidHotlistCommand ps) p l [] Hn) as Hu.
  rewrite !app_nil_r in Hu. cbn [unregister_all cancel_events start_events fold_left] in Hu. by rewrite <- Hu.
Qed.

Lemma start_epno_spec p iface ps v l g :
  as_cbs v l g -> zlen l + 3 <= 64 -> startable good (ePNOCommand ps) p v -> none_for (start_events (ePNOCommand ps)) l ->
  starts (start_epno answer patience p iface ps) p (ePNOCommand ps) v l g.
Proof using Hnl Hk.
  intros Hv Hl Hst Hn. unfold start_epno. cm_step. cm_step. unfold epno_setup. destruct (MAX_EPNO_NETWORKS <? num_networks ps).
  { pose proof invalid_args_negative. cm_step. unfold negative. cbn [fst]. rewrite (proj2 (Z.ltb_lt _ _)) by done. by right. }
  eapply safe_build; [eassumption|good_request|]. intros r m Hr. ok_or_failed r Hr; [|by right].
  do 2 cm_step. ok_or_failed r H0.
  - cm_step. eapply safe_register_for; [done|unfold DEFAULT_EVENT_CB_SIZE; lia|eassumption|cbn; tauto|]. intros g1 Hv1. cm_step. by left.
  - cm_step. eapply safe_unregister; [done|]. intros g1 Hv1. cm_step. right. split; [done|].
    pose proof (unregister_none _ _ Hn) as Hu. cbn [unregister_all start_events fold_left] in Hu. by rewrite Hu in Hv1.
Qed.

Lemma start_change_spec p iface ps v l g :
  as_cbs v l g -> zlen l + 3 <= 64 -> startable good (SignificantWifiChangeCommand ps) p v -> none_for (start_events (SignificantWifiChangeCommand ps)) l ->
  starts (start_change answer patience p iface ps) p (SignificantWifiChangeCommand ps) v l g.
Proof using Hnl Hk.
  intros Hv Hl Hst Hn. unfold start_change. cm_step. cm_step. eapply safe_build; [eassumption|good_request|]. intros r m Hr. ok_or_failed r Hr; [|by right].
  do 2 cm_step. ok_or_failed r H0; [|by right].
  cm_step. eapply safe_build; [eassumption|good_request|]. intros r m2 Hr2. ok_or_failed r Hr2; [|by right].
  cm_step. eapply safe_register_for; [done|unfold DEFAULT_EVENT_CB_SIZE; lia|eassumption|cbn; tauto|]. intros g1 Hv1.
  do 2 cm_step. ok_or_failed r H0; [cm_step; by left|].
  cm_step. eapply safe_unregister; [done|]. intros g4 Hv4. cm_step. right. split; [done|].
  pose proof (unregister_started (SignificantWifiChangeCommand ps) p l [] Hn) as Hu.
  rewrite !app_nil_r in Hu. cbn [unregister_all cancel_events start_events fold_left] in Hu. by rewrite <- Hu.
Qed.

Lemma start_rtt_spec p iface ps st v l g :
  as_cbs v l g -> zlen l + 3 <= 64 -> startable good (RttCommand ps st) p v ->
  starts (start_rtt answer patience p iface ps) p (RttCommand ps st) v l g.
Proof using Hnl Hk.
  intros Hv Hl Hst. unfold start_rtt. cm_step. cm_step. eapply safe_build; [eassumption|good_request|]. intros r m Hr. ok_or_failed r Hr; [|by right].
  do 2 cm_step. ok_or_failed r H0; [|by right]. cm_step.
  eapply safe_register_for; [done|unfold DEFAULT_EVENT_CB_SIZE; lia|eassumption|cbn; tauto|]. intros g1 Hv1. cm_step. by left.
Qed.

(** Starting a command either registers its handlers and succeeds, or fails and leaves nothing behind. *)
Lemma start_spec k p id iface refs v l g :
  exported k = true -> as_cbs v l g -> zlen l + 3 <= 64 -> none_for (start_events k) l ->
  p <> 0 -> good k id -> 0 < refs -> objs v !! p = Some (mk_command k id iface refs) ->
  starts (start answer patience p) p k v l g.
Proof using Hnl Hk.
  intros Hx Hv Hl Hn Hnz Hg Hr Ho. assert (startable good k p v) as Hst by (split; [done|by eexists]).
  unfold start. cm_step. eapply safe_deref; [exact Hv|exact Ho|]. intros n. cbn [mClass mIface set_refs].
  destruct k; try done; eauto using start_rssi_spec, start_scan_spec, start_hotlist_spec, start_epno_spec, start_change_spec, start_rtt_spec.
Qed.
End Starting.

Section Cancelling.
Context `{hal_headers} (answer : list (wcall * wresp) -> wcall -> wresp) (patience : nat) (page : Z).
Hypothesis Hnl : libnl_ok answer page.
Hypothesis Hk : kernel_replies answer patience.
Context (good : cmd_class -> Z -> Prop).
Abbreviation safe := (right_safe (sharing0 := hal_sharing good)).

(** The exchange of a cancel whose outcome is only logged. *)
Lemma safe_ask last rq iface subcmd ops failed (P : Z * Z -> hal -> Prop) g :
  good_ops page (20 + ops_size (vendor_ops iface GOOGLE_OUI subcmd)) ops ->
  (forall x, P x g) -> safe (checked failed (build answer last rq iface subcmd ops) (fun x => exchange answer patience x.2)) P g.
Proof using Hnl Hk.
  intros Hg HP. cm_step. eapply safe_build; [eassumption|done|]. intros r m _. destruct (failed _); [done|]. by cm_step.
Qed.

(** Cancelling removes the handlers of the class, whether the kernel could be told or not. *)
Lemma cancel_spec k p id iface refs v l g :
  exported k = true -> as_cbs v l g -> objs v !! p = Some (mk_command k id iface refs) ->
  safe (cancel answer patience p) (fun _ g => as_cbs v (unregister_all (cancel_events k) l) g) g.
Proof using Hnl Hk.
  intros Hx Hv Ho. unfold cancel. cm_step. eapply safe_deref; [exact Hv|exact Ho|]. intros n. cbn [mClass mIface set_refs].
  destruct k; try done.
  - unfold cancel_rssi. do 2 cm_step. apply safe_ask; [good_request|]. intros x. cm_step.
    eapply safe_unregister; [done|]. intros g1 Hv1. by cm_step.
  - unfold cancel_scan, unregister_scan. do 2 cm_step. apply safe_ask; [good_request|]. intros x. do 2 cm_step.
    eapply safe_unregister; [done|]. intros g1 Hv1. cm_step. eapply safe_unregister; [done|]. intros g2 Hv2.
    eapply safe_unregister; [done|]. intros g3 Hv3. by cm_step.
  - unfold cancel_hotlist, unregister_hotlist. do 2 cm_step. eapply safe_unregister; [done|]. intros g1 Hv1.
    eapply safe_unregister; [done|]. intros g2 Hv2. cm_step. apply safe_ask; [|done].
    apply good_of_size with (n := 16); [by apply page_big with answer| |done|done]. apply balanced_nest. unfold put_u8. auto with request.
  - unfold cancel_epno. cm_step. eapply safe_unregister; [done|]. intros g1 Hv1. cm_step. by apply safe_ask; [good_request|].
  - unfold cancel_change. cm_step. eapply safe_unregister; [done|]. intros g1 Hv1. cm_step. by apply safe_ask; [good_request|].
  - unfold cancel_rtt. do 2 cm_step. apply safe_ask; [good_request|]. intros x. cm_step.
    eapply safe_unregister; [done|]. intros g1 Hv1. by cm_step.
Qed.

Lemma cancel_rtt_spec iface addrs v l g :
  as_cbs v l g ->
  safe (cancel_rtt answer patience iface addrs) (fun _ g => as_cbs v (unregister_all [RTT_EVENT_COMPLETE] l) g) g.
Proof using Hnl Hk.
  intros Hv. unfold cancel_rtt. do 2 cm_step. apply safe_ask; [good_request|]. intros x. cm_step.
  eapply safe_unregister; [done|]. intros g1 Hv1. by cm_step.
Qed.
End Cancelling.

(** ** The abstract machine

    What the commands are for the client: those that are active, oldest first; [a_armed]: whether
    its events are delivered. *)
Record active := mk_active { a_id : Z; a_ptr : Z; a_class : cmd_class; a_iface : Z; a_armed : bool }.

Definition kind (k : cmd_class) : nat :=
  match k with
  | SetRSSIMonitorCommand _ _ => 0 | ScanCommand _ => 1 | BssidHotlistCommand _ => 2 | ePNOCommand _ => 3
  | SignificantWifiChangeCommand _ => 4 | RttCommand _ _ => 5 | FullScanResultsCommand => 1 | AnqpoConfigureCommand _ => 6
  end.

Definition same_kind (k : cmd_class) (a : active) : bool := Nat.eqb (kind k) (kind (a_class a)).

Definition disarm (k : cmd_class) (l : list active) : list active :=
  map (fun a => if same_kind k a then mk_active (a_id a) (a_ptr a) (a_class a) (a_iface a) false else a) l.

Section Machine.
Context `{hal_headers}.

Definition handlers_of (a : active) : list cb_info :=
  if a_armed a then map (handler (a_ptr a)) (start_events (a_class a)) else [].
Definition cbs_of (l : list active) : list cb_info := concat (map handlers_of l).
Definition cmds_of (l : list active) : list cmd_info := map (fun a => mk_cmd (a_id a) (a_ptr a)) l.
Definition object_of (a : active) : wifi_command := mk_command (a_class a) (a_id a) (a_iface a) 1.
Definition objs_of (l : list active) : gmap Z wifi_command := list_to_map (map (fun a => (a_ptr a, object_of a)) l).

(** The discipline of the client and the memory: ids, addresses and kinds are all different. *)
Definition distinct (l : list active) : Prop :=
  NoDup (map a_id l) /\ NoDup (map a_ptr l) /\ NoDup (map (fun a => kind (a_class a)) l)
  /\ Forall (fun a => exported (a_class a) = true /\ a_ptr a <> 0) l.

(** The memory of the HAL stands for [l]. *)
Definition stands_for (h : hal) (l : list active) : Prop :=
  hal_ok h /\ distinct l
  /\ cbs (view_of h) = cbs_of l /\ cmds (view_of h) = cmds_of l /\ objs (view_of h) = objs_of l.
End Machine.

Section Lists.
Context `{hal_headers}.
Implicit Types (l : list active) (a : active) (k : cmd_class).

Lemma same_kind_events k k' :
  exported k = true -> exported k' = true -> kind k = kind k' ->
  start_events k = start_events k' /\ cancel_events k = cancel_events k'.
Proof. by destruct k, k'. Qed.

Lemma kinds_disjoint k k' e e' :
  exported k = true -> exported k' = true -> kind k <> kind k' ->
  In e (start_events k) -> In e' (start_events k') -> (e' =? e) = false.
Proof.
  intros Hk Hk' Hn He He'. apply Z.eqb_neq. destruct k; try done; destruct k'; try done; cbn in He, He';
    repeat match goal with Hx : _ \/ _ |- _ => destruct Hx | Hx : False |- _ => destruct Hx end; subst; discriminate.
Qed.

Lemma cbs_of_app l1 l2 : cbs_of (l1 ++ l2) = cbs_of l1 ++ cbs_of l2.
Proof. unfold cbs_of. by rewrite map_app, concat_app. Qed.

(** Commands of other kinds have no handlers for the events of [k]. *)
Lemma other_kinds_none k l :
  exported k = true -> Forall (fun a => exported (a_class a) = true /\ kind k <> kind (a_class a)) l ->
  none_for (start_events k) (cbs_of l).
Proof.
  intros Hk. induction 1 as [|a l [Ha Hn] Hl IH]; [by apply Forall_nil_2|]. unfold cbs_of. cbn [map concat].
  apply list.Forall_app. split; [|apply IH]. unfold handlers_of. destruct (a_armed a); [|by apply Forall_nil_2].
  apply List.Forall_forall. intros c (e' & <- & He')%in_map_iff. apply List.Forall_forall. intros e He.
  rewrite for_vendor_handler. by apply (kinds_disjoint k (a_class a)).
Qed.

Lemma none_for_start_cancel k (l : list cb_info) : none_for (start_events k) l -> none_for (cancel_events k) l.
Proof.
  intros Hn. eapply List.Forall_impl; [|apply Hn]. cbn beta. intros c Hc. rewrite List.Forall_forall in *.
  intros e He. apply Hc. destruct k; cbn in *; tauto.
Qed.

Lemma disarm_other k l : Forall (fun a => kind k <> kind (a_class a)) l -> disarm k l = l.
Proof.
  induction 1 as [|a l Hn Hl IH]; [done|]. cbn [disarm map]. unfold disarm in IH. rewrite IH.
  unfold same_kind. by rewrite (proj2 (Nat.eqb_neq _ _)).
Qed.

Lemma distinct_app l1 a l2 :
  distinct (l1 ++ a :: l2) ->
  exported (a_class a) = true /\ a_ptr a <> 0
  /\ Forall (fun b => a_id a <> a_id b /\ a_ptr a <> a_ptr b /\ exported (a_class b) = true
               /\ kind (a_class a) <> kind (a_class b)) (l1 ++ l2)
  /\ distinct (l1 ++ l2).
Proof.
  intros (Hi & Hp & Hc & He). rewrite !map_app in Hi, Hp, Hc. cbn [map] in Hi, Hp, Hc.
  assert (forall B (f : active -> B), NoDup (map f l1 ++ f a :: map f l2) ->
    NoDup (map f (l1 ++ l2)) /\ Forall (fun b => f a <> f b) (l1 ++ l2)) as Hsplit.
  { intros B f Hnd. rewrite map_app. apply list.NoDup_app in Hnd as (H1 & H12 & H2). apply list.NoDup_cons in H2 as [H2a H2].
    split.
    - apply list.NoDup_app. split; [done|]. split; [|done]. intros x Hx Hx2. apply (H12 x Hx). by apply elem_of_cons; right.
    - apply List.Forall_forall. intros b [Hb|Hb]%in_app_iff E.
      + apply (H12 (f b)); [apply list_elem_of_In, in_map, Hb|]. rewrite E. apply elem_of_cons. by left.
      + apply H2a. rewrite E. apply list_elem_of_In, in_map, Hb. }
  destruct (Hsplit _ _ Hi) as [Hi1 Hi2]. destruct (Hsplit _ _ Hp) as [Hp1 Hp2]. destruct (Hsplit _ _ Hc) as [Hc1 Hc2].
  apply list.Forall_app in He as [He1 He2]. apply Forall_cons_1 in He2 as [[Hea Hpa] He2].
  split; [done|]. split; [done|]. split.
  - rewrite List.Forall_forall in *. intros b Hb. split; [by apply Hi2|]. split; [by apply Hp2|]. split; [|by apply Hc2].
    apply in_app_iff in Hb as [Hb|Hb]; [by apply He1|by apply He2].
  - split; [done|]. split; [done|]. split; [done|]. by apply list.Forall_app.
Qed.

(** Removing the handlers of a kind. *)
Lemma cbs_of_disarm k l :
  exported k = true -> distinct l -> unregister_all (cancel_events k) (cbs_of l) = cbs_of (disarm k l).
Proof.
  intros Hk Hd. destruct (decide (Exists (fun a => kind k = kind (a_class a)) l)) as [He|He].
  - apply Exists_exists in He as (a & Ha & Ek). apply in_split in Ha as (l1 & l2 & ->).
    destruct (distinct_app _ _ _ Hd) as (Hxa & _ & Ho & _).
    assert (Forall (fun b => exported (a_class b) = true /\ kind k <> kind (a_class b)) (l1 ++ l2)) as Ho'
      by (eapply List.Forall_impl; [|apply Ho]; cbn beta; intros b (_ & _ & ? & ?); by rewrite Ek).
    apply list.Forall_app in Ho' as [Ho1 Ho2].
    assert (disarm k (l1 ++ a :: l2) = l1 ++ mk_active (a_id a) (a_ptr a) (a_class a) (a_iface a) false :: l2) as ->.
    { unfold disarm. rewrite map_app. cbn [map]. unfold same_kind at 2. rewrite (proj2 (Nat.eqb_eq _ _)) by done.
      f_equal; [|f_equal]; apply disarm_other; eapply List.Forall_impl; [|apply Ho1| |apply Ho2]; cbn beta; tauto. }
    destruct (same_kind_events k (a_class a) Hk Hxa Ek) as [Es Ec].
    rewrite !cbs_of_app. unfold cbs_of at 2 4. cbn [map concat]. unfold handlers_of at 1 3. cbn [a_armed].
    destruct (a_armed a).
    + rewrite Ec. rewrite unregister_started; [done|]. rewrite <- Es. by apply other_kinds_none.
    + cbn [app]. apply unregister_none, none_for_start_cancel. apply list.Forall_app. split; by apply other_kinds_none.
  - assert (Forall (fun a => kind k <> kind (a_class a)) l) as Hn
      by (apply Forall_Exists_neg in He; exact He).
    rewrite disarm_other by done. apply unregister_none, none_for_start_cancel, other_kinds_none; [done|].
    destruct Hd as (_ & _ & _ & Hx). rewrite List.Forall_forall in *. intros a Ha. split; [by apply Hx|by apply Hn].
Qed.
End Lists.

Section Objects.
Context `{hal_headers}.
Implicit Types (l : list active) (a : active).

Lemma objs_of_app l1 a l2 :
  Forall (fun b => a_ptr a <> a_ptr b) (l1 ++ l2) ->
  objs_of (l1 ++ a :: l2) = <[a_ptr a := object_of a]> (objs_of (l1 ++ l2)).
Proof.
  intros Hf. unfold objs_of. rewrite !map_app. cbn [map]. apply list.Forall_app in Hf as [H1 _].
  rewrite !list_to_map_app. cbn [list_to_map foldr uncurry fst snd].
  rewrite <- insert_union_r; [done|]. apply not_elem_of_list_to_map_1. rewrite map_map. cbn [fst].
  intros (b & E & Hb)%list_elem_of_In%in_map_iff. rewrite List.Forall_forall in H1. by apply (H1 b).
Qed.

Lemma objs_of_lookup l1 a l2 : distinct (l1 ++ a :: l2) -> objs_of (l1 ++ a :: l2) !! a_ptr a = Some (object_of a).
Proof.
  intros (_ & _ & Ho & _)%distinct_app. rewrite objs_of_app; [by rewrite lookup_insert_eq|].
  eapply List.Forall_impl; [|apply Ho]. cbn beta. tauto.
Qed.

Lemma objs_of_fresh p l : (forall a, In a l -> a_ptr a <> p) -> objs_of l !! p = None.
Proof.
  intros Hf. apply not_elem_of_list_to_map_1. rewrite map_map. cbn [fst].
  intros (b & E & Hb)%list_elem_of_In%in_map_iff. by apply (Hf b).
Qed.

Lemma objs_of_dom p l : p ∉ dom (objs_of l) -> forall a, In a l -> a_ptr a <> p.
Proof.
  intros Hp a Ha <-. apply Hp. unfold objs_of. rewrite dom_list_to_map_L, map_map. cbn [fst].
  apply elem_of_list_to_set, list_elem_of_In, in_map_iff. by exists a.
Qed.

(** Removing an object is deleting it from the list. *)
Lemma objs_of_delete l1 a l2 : distinct (l1 ++ a :: l2) -> delete (a_ptr a) (objs_of (l1 ++ a :: l2)) = objs_of (l1 ++ l2).
Proof.
  intros (_ & _ & Ho & _)%distinct_app. rewrite objs_of_app by (eapply List.Forall_impl; [|apply Ho]; cbn beta; tauto).
  rewrite delete_insert_eq. apply delete_id, objs_of_fresh. intros b Hb E. rewrite List.Forall_forall in Ho.
  by destruct (Ho b Hb) as (_ & Hp & _).
Qed.

Lemma disarm_maps k l :
  map a_id (disarm k l) = map a_id l /\ map a_ptr (disarm k l) = map a_ptr l
  /\ map (fun a => kind (a_class a)) (disarm k l) = map (fun a => kind (a_class a)) l
  /\ cmds_of (disarm k l) = cmds_of l /\ objs_of (disarm k l) = objs_of l.
Proof.
  unfold disarm, cmds_of, objs_of. rewrite !map_map. repeat split;
    try (apply map_ext; intros a; by destruct (same_kind k a)). f_equal. apply map_ext. intros a. by destruct (same_kind k a).
Qed.

Lemma disarm_distinct k l : distinct l -> distinct (disarm k l).
Proof.
  intros (Hi & Hp & Hc & He). destruct (disarm_maps k l) as (Ei & Ep & Ec & _). unfold distinct.
  rewrite Ei, Ep, Ec. split; [done|]. split; [done|]. split; [done|]. unfold disarm. apply List.Forall_map.
  eapply List.Forall_impl; [|apply He]. cbn beta. intros a. by destruct (same_kind k a).
Qed.

(** There are six kinds of commands. *)
Lemma distinct_length l : distinct l -> (length l <= 6)%nat.
Proof.
  intros (_ & _ & Hc & He). rewrite <- (length_map (fun a => kind (a_class a)) l).
  change 6%nat with (length (seq 0 6)). apply submseteq_length, NoDup_submseteq; [done|].
  intros x (a & <- & Ha)%list_elem_of_In%in_map_iff. rewrite List.Forall_forall in He.
  apply elem_of_seq. destruct (He a Ha) as [Hx _]. by destruct (a_class a); cbn in *; lia.
Qed.

Lemma handlers_length a : (length (handlers_of a) <= 3)%nat.
Proof. unfold handlers_of. destruct (a_armed a); [|cbn; lia]. rewrite length_map. destruct (a_class a); cbn; lia. Qed.

Lemma cbs_of_length l : distinct l -> zlen (cbs_of l) + 3 <= 64.
Proof.
  intros Hl%distinct_length. assert (length (cbs_of l) <= 3 * length l)%nat.
  { clear Hl. induction l as [|a l IH]; [cbn; lia|]. unfold cbs_of in *. cbn [map concat length]. rewrite length_app.
    pose proof (handlers_length a). lia. }
  unfold zlen. lia.
Qed.

Lemma cmds_of_app l1 a l2 : cmds_of (l1 ++ a :: l2) = cmds_of l1 ++ mk_cmd (a_id a) (a_ptr a) :: cmds_of l2.
Proof. unfold cmds_of. by rewrite map_app. Qed.

Lemma cmds_of_remove l1 a l2 :
  Forall (fun b => a_id a <> a_id b) (l1 ++ l2) ->
  find (has_id (a_id a)) (cmds_of (l1 ++ a :: l2)) = Some (mk_cmd (a_id a) (a_ptr a))
  /\ remove_first (has_id (a_id a)) (cmds_of (l1 ++ a :: l2)) = cmds_of (l1 ++ l2).
Proof.
  intros [H1 _]%list.Forall_app. rewrite cmds_of_app.
  assert (cmds_of (l1 ++ l2) = cmds_of l1 ++ cmds_of l2) as -> by (unfold cmds_of; by rewrite map_app).
  assert (Forall (fun c => has_id (a_id a) c = false) (cmds_of l1)) as Hn.
  { apply List.Forall_map. eapply List.Forall_impl; [|apply H1]. cbn beta. intros b Hb. by apply Z.eqb_neq. }
  assert (has_id (a_id a) (mk_cmd (a_id a) (a_ptr a)) = true) as Hh by apply Z.eqb_refl.
  rewrite remove_first_app_l by done. cbn [remove_first]. rewrite Hh.
  split; [|done]. clear H1. induction Hn as [|c cs Hc Hn IH]; cbn [app find]; [by rewrite Hh|by rewrite Hc].
Qed.

Lemma cmds_of_absent i l : Forall (fun b => a_id b <> i) l -> find (has_id i) (cmds_of l) = None /\ remove_first (has_id i) (cmds_of l) = cmds_of l.
Proof.
  induction 1 as [|b l Hb Hl [IHf IHr]]; [done|]. cbn [cmds_of map find remove_first].
  assert (has_id i (mk_cmd (a_id b) (a_ptr b)) = false) as -> by by apply Z.eqb_neq.
  split; [done|]. unfold cmds_of in IHr. by rewrite IHr.
Qed.
End Objects.

(** ** The operations of the client *)
Inductive client_op :=
  | Start_command (k : cmd_class) (id iface : Z)
  | Cancel_command (id : Z)
  | Stop_command (k : cmd_class) (id iface : Z)
  | Range_cancel (id iface : Z) (addrs : list (list Z)).

Section Client.
Context `{hal_headers} (answer : list (wcall * wresp) -> wcall -> wresp) (patience : nat)
  (alloc_at : list (wcall * wresp) -> gset Z -> Z).

Definition run_client (o : client_op) : prog hal wcall wresp Z :=
  match o with
  | Start_command k id iface => start_command answer patience alloc_at k id iface
  | Cancel_command id => wifi_cancel_cmd answer patience id
  | Stop_command k id iface => stop_command answer patience alloc_at k id iface
  | Range_cancel id iface addrs => wifi_rtt_range_cancel answer patience alloc_at id iface addrs
  end.

Fixpoint run_clients (os : list client_op) : prog hal wcall wresp (list Z) :=
  match os with
  | [] => Ret []
  | o :: os => (do r <- run_client o; do rs <- run_clients os; Ret (r :: rs))%prog
  end.

(** The discipline: the commands are those that are exported; one that is started has an id that is
    not in use, and is the only active one of its kind. *)
Definition allowed (o : client_op) (l : list active) : Prop :=
  match o with
  | Start_command k id _ =>
      exported k = true /\ Forall (fun a => a_id a <> id /\ kind k <> kind (a_class a)) l
  | Stop_command k _ _ => exported k = true
  | _ => True
  end.

(** What is started is one of the commands that there may be. *)
Definition op_good (good : cmd_class -> Z -> Prop) (o : client_op) : Prop :=
  match o with Start_command k id _ => good k id | _ => True end.

Inductive cancel_step (id : Z) (l : list active) : Z -> list active -> Prop :=
  | cancel_active l1 a l2 : l = l1 ++ a :: l2 -> a_id a = id -> cancel_step id l WIFI_SUCCESS (l1 ++ l2)
  | cancel_unknown : Forall (fun a => a_id a <> id) l -> cancel_step id l WIFI_ERROR_INVALID_ARGS l.

(** What each operation may do, and what it answers. *)
Inductive client_step : client_op -> list active -> Z -> list active -> Prop :=
  | step_started k id iface l p :
      client_step (Start_command k id iface) l WIFI_SUCCESS (l ++ [mk_active id p k iface true])
  | step_not_started k id iface l r : r < 0 -> client_step (Start_command k id iface) l r l
  | step_cancel id l r l' : cancel_step id l r l' -> client_step (Cancel_command id) l r l'
  | step_stop k id iface l r l' : id <> -1 -> cancel_step id l r l' -> client_step (Stop_command k id iface) l r l'
  | step_stop_kind k iface l : client_step (Stop_command k (-1) iface) l WIFI_SUCCESS (disarm k l)
  | step_stop_no_memory k iface l : client_step (Stop_command k (-1) iface) l WIFI_ERROR_OUT_OF_MEMORY l
  | step_range_cancel id iface addrs l :
      client_step (Range_cancel id iface addrs) l WIFI_SUCCESS (disarm (RttCommand [] rtt_state0) l)
  | step_range_no_memory id iface addrs l : client_step (Range_cancel id iface addrs) l WIFI_ERROR_OUT_OF_MEMORY l.

Inductive client_steps : list client_op -> list active -> list Z -> list active -> Prop :=
  | steps_none l : client_steps [] l [] l
  | steps_one o os l r l1 rs l2 : client_step o l r l1 -> client_steps os l1 rs l2 -> client_steps (o :: os) l (r :: rs) l2.

(** The client keeps the discipline, whatever it is answered. *)
Fixpoint plays (os : list client_op) (l : list active) : Prop :=
  match os with
  | [] => True
  | o :: os => allowed o l /\ forall r l', client_step o l r l' -> plays os l'
  end.
End Client.

Section Refinement.
Context `{hal_headers} (answer : list (wcall * wresp) -> wcall -> wresp) (patience : nat) (page : Z)
  (alloc_at : list (wcall * wresp) -> gset Z -> Z).
Hypothesis Hnl : libnl_ok answer page.
Hypothesis Hk : kernel_replies answer patience.
(** An allocator gives an address that is not in use. *)
Hypothesis Halloc : forall tr live, alloc_at tr live <> 0 /\ alloc_at tr live ∉ live.

(** The commands that there may be. *)
Context (good : cmd_class -> Z -> Prop).
Abbreviation safe := (right_safe (sharing0 := hal_sharing good)).

(** The view of a list of commands; the rest of the memory is [v]'s. *)
Definition view_for (v : view) (l : list active) : view := mk_view (cbs_of l) (cmds_of l) (objs_of l) (rest v).

Lemma stands_for_mem h l : stands_for h l <-> distinct l /\ mem (view_for (view_of h) l) h.
Proof.
  unfold stands_for, mem, view_for. destruct (view_of h) as [c1 c2 c3 c4] eqn:E. cbn [cbs cmds objs rest].
  split; [intros (? & ? & -> & -> & ->); tauto|]. intros (? & ? & [= -> -> ->]). tauto.
Qed.

(** No handler is left for an object that is in none of the commands. *)
Lemma cbs_of_args p l : Forall (fun a => a_ptr a <> p) l -> Forall (fun e => cb_arg e <> p) (cbs_of l).
Proof.
  induction 1 as [|a l Ha Hl IH]; [by apply Forall_nil_2|]. unfold cbs_of. cbn [map concat]. apply list.Forall_app. split; [|exact IH].
  unfold handlers_of. destruct (a_armed a); [|by apply Forall_nil_2]. apply List.Forall_forall.
  intros e (e' & <- & _)%in_map_iff. exact Ha.
Qed.

Lemma fresh_args p l : p ∉ dom (objs_of l) -> Forall (fun e => cb_arg e <> p) (cbs_of l).
Proof. intros Hp. apply cbs_of_args, List.Forall_forall. intros a Ha. by apply (objs_of_dom p l). Qed.

Lemma cmds_of_short l : distinct l -> zlen (cmds_of l) < DEFAULT_CMD_SIZE.
Proof.
  intros Hl%distinct_length. unfold zlen, cmds_of, DEFAULT_CMD_SIZE. rewrite length_map. lia.
Qed.

Lemma distinct_snoc l k id iface p :
  distinct l -> exported k = true -> Forall (fun a => a_id a <> id /\ kind k <> kind (a_class a)) l ->
  p <> 0 -> p ∉ dom (objs_of l) -> distinct (l ++ [mk_active id p k iface true]).
Proof.
  intros (Hi & Hp & Hc & He) Hx Hf Hnz Hfr. unfold distinct. rewrite !map_app. cbn [map a_id a_ptr a_class].
  assert (forall B (f : active -> B) x, NoDup (map f l) -> (forall a, In a l -> f a <> x) -> NoDup (map f l ++ [x])) as Hsn.
  { intros B f x Hnd Hx'. apply list.NoDup_app. split; [done|]. split; [|apply NoDup_singleton].
    intros y (a & <- & Ha)%list_elem_of_In%in_map_iff E%list_elem_of_singleton. by apply (Hx' a). }
  rewrite List.Forall_forall in Hf. split; [apply Hsn; [done|]; intros a Ha; by apply Hf|].
  split; [apply Hsn; [done|]; by apply objs_of_dom|].
  split; [apply Hsn; [done|]; intros a Ha E; by apply (Hf a Ha)|].
  apply list.Forall_app. split; [done|]. by repeat constructor.
Qed.

Lemma start_command_spec k id iface l v g :
  distinct l -> mem (view_for v l) g -> allowed (Start_command k id iface) l -> good k id ->
  safe (start_command answer patience alloc_at k id iface)
    (fun r g => exists l', client_step (Start_command k id iface) l r l' /\ distinct l' /\ mem (view_for v l') g) g.
Proof using Hnl Hk Halloc.
  intros Hd Hm [Hx Hf] Hgood. unfold start_command. cm_step. eapply safe_new; [exact Halloc|done| |].
  { cbn [Z.eqb]. cm_step. exists l. split; [apply step_not_started, oom_negative|done]. }
  intros p g1 Hnz Hfr Hm1. rewrite (proj2 (Z.eqb_neq p 0)) by done. cbn [objs view_for] in Hfr.
  cm_step. eapply safe_register_cmd; [done|by apply cmds_of_short|]. intros g2 Hm2.
  rewrite failed_not_success, success_0. cbn [Z.eqb negb]. cm_step.
  pose proof (distinct_snoc l k id iface p Hd Hx Hf Hnz Hfr) as Hd'.
  assert (Forall (fun b => id <> a_id b) (l ++ [])) as Hid
    by (rewrite app_nil_r; eapply List.Forall_impl; [|apply Hf]; cbn beta; intros a [? _]; congruence).
  assert (objs_of (l ++ [mk_active id p k iface true]) = <[p := mk_command k id iface 1]> (objs_of l)) as Eo.
  { rewrite objs_of_app; rewrite app_nil_r; [done|]. apply List.Forall_forall. intros b Hb E. by apply (objs_of_dom p l Hfr b). }
  match type of Hm2 with mem ?v2 _ => eapply right_mono; [eapply (start_spec _ _ _ Hnl Hk good k p id iface 1 v2 (cbs_of l))|] end.
  - done.
  - exact Hm2.
  - by apply cbs_of_length.
  - apply other_kinds_none; [done|]. destruct Hd as (_ & _ & _ & He). rewrite List.Forall_forall in *.
    intros a Ha. split; [by apply He|by apply Hf].
  - done.
  - done.
  - done.
  - cbn [objs set_cmds set_objs]. by rewrite lookup_insert_eq.
  - cbn beta. intros r g3 [[-> Hv3]|[Hr Hv3]]; rewrite failed_not_success.
    + cbn [Z.eqb negb]. cm_step. eexists. split; [rewrite <- success_0; apply (step_started k id iface l p)|]. split; [done|].
      destruct Hv3 as [Hok3 Hv3]. split; [done|]. rewrite Hv3. unfold view_for. rewrite Eo, cbs_of_app, cmds_of_app.
      unfold set_cbs, set_cmds, set_objs. cbn [cbs cmds objs rest]. unfold cbs_of at 3. cbn [map concat]. by rewrite app_nil_r.
    + rewrite (proj2 (Z.eqb_neq r 0)) by lia. cbn [negb]. cm_step. eapply safe_unregister_cmd; [exact Hv3|]. intros g4 Hm4. cm_step.
      assert (objs_of l !! p = None) as Hnone by (by apply not_elem_of_dom).
      eapply (safe_release good p (mk_command k id iface 1)); [exact Hm4|by apply lookup_insert_eq|done|by apply fresh_args|].
      intros g5 Hm5. cm_step. exists l. split; [by apply step_not_started|]. split; [done|].
      cbn [objs set_cmds set_objs set_cbs cbs cmds rest view_for] in Hm5. unfold set_cmds, set_objs, set_cbs in Hm5.
      cbn [objs cbs cmds rest] in Hm5. rewrite delete_insert_id in Hm5 by done.
      destruct (cmds_of_remove l (mk_active id p k iface true) [] Hid) as [_ Er]. rewrite cmds_of_app, app_nil_r in Er.
      cbn [a_id a_ptr cmds_of map] in Er. unfold cmds_of in Hm5. unfold cmds_of at 1 in Er. by rewrite Er in Hm5.
Qed.

Lemma disarm_split l1 a l2 :
  distinct (l1 ++ a :: l2) ->
  disarm (a_class a) (l1 ++ a :: l2) = l1 ++ mk_active (a_id a) (a_ptr a) (a_class a) (a_iface a) false :: l2.
Proof.
  intros (_ & _ & Ho & _)%distinct_app. apply list.Forall_app in Ho as [Ho1 Ho2].
  unfold disarm. rewrite map_app. cbn [map]. unfold same_kind at 2. rewrite Nat.eqb_refl.
  f_equal; [|f_equal]; apply disarm_other; eapply List.Forall_impl; [|apply Ho1| |apply Ho2]; cbn beta; tauto.
Qed.

Lemma cancel_cmd_spec id l v g :
  distinct l -> mem (view_for v l) g ->
  safe (wifi_cancel_cmd answer patience id)
    (fun r g => exists l', cancel_step id l r l' /\ distinct l' /\ mem (view_for v l') g) g.
Proof using Hnl Hk.
  intros Hd Hm. unfold wifi_cancel_cmd. cm_step. eapply safe_unregister_cmd; [done|]. intros g1 Hm1.
  cbn [cmds view_for] in Hm1 |- *.
  destruct (decide (Exists (fun a => a_id a = id) l)) as [He|He].
  - apply Exists_exists in He as (a & Ha & <-). apply in_split in Ha as (l1 & l2 & ->).
    destruct (distinct_app _ _ _ Hd) as (Hx & Hnz & Ho & Hd').
    destruct (cmds_of_remove l1 a l2) as [Ef Er]; [eapply List.Forall_impl; [|apply Ho]; cbn beta; tauto|].
    rewrite Ef, Er in *. cbn [ptr_of cmd_ptr]. rewrite (proj2 (Z.eqb_neq _ _)) by done. cbn [negb]. cm_step.
    match type of Hm1 with mem ?v1 _ =>
      eapply right_mono; [eapply (cancel_spec _ _ _ Hnl Hk good (a_class a) (a_ptr a) (a_id a) (a_iface a) 1 v1 (cbs_of (l1 ++ a :: l2)))|] end.
    + done.
    + exact Hm1.
    + by apply objs_of_lookup.
    + cbn beta. intros _ g2 Hm2. rewrite cbs_of_disarm, disarm_split in Hm2 by done.
      assert (cbs_of (l1 ++ mk_active (a_id a) (a_ptr a) (a_class a) (a_iface a) false :: l2) = cbs_of (l1 ++ l2)) as Ec
        by (by rewrite !cbs_of_app).
      rewrite Ec in Hm2. cm_step. eapply (safe_release good (a_ptr a) (object_of a)); [exact Hm2|by apply objs_of_lookup|done| |].
      { apply cbs_of_args. eapply List.Forall_impl; [|apply Ho]. cbn beta. intros b (_ & Hb & _). congruence. }
     
      intros g3 Hm3. cm_step. exists (l1 ++ l2). split; [by apply (cancel_active _ _ l1 a l2)|]. split; [done|].
      unfold set_objs, set_cbs, set_cmds in Hm3. cbn [objs cbs cmds rest view_for] in Hm3. by rewrite objs_of_delete in Hm3.
  - assert (Forall (fun a => a_id a <> id) l) as Hn by (apply Forall_Exists_neg in He; exact He).
    destruct (cmds_of_absent id l Hn) as [Ef Er]. rewrite Ef, Er in *. cbn [ptr_of Z.eqb negb]. cm_step.
    exists l. split; [by apply cancel_unknown|]. by split.
Qed.

Lemma unregister_Forall (F : cb_info -> Prop) es cs : Forall F cs -> Forall F (unregister_all es cs).
Proof. revert cs. induction es as [|e es IH]; intros cs Hcs; cbn [unregister_all fold_left]; [done|]. by apply IH, remove_first_Forall. Qed.

(** An object made only to cancel its class. *)
Lemma temporary_spec k id iface l v (m : Z -> prog hal wcall wresp Z) g (P : Z -> hal -> Prop) :
  distinct l -> mem (view_for v l) g -> exported k = true ->
  (forall p v g, objs v !! p = Some (mk_command k id iface 1) -> as_cbs v (cbs_of l) g ->
     safe (m p) (fun _ g => as_cbs v (unregister_all (cancel_events k) (cbs_of l)) g) g) ->
  (forall g, mem (view_for v l) g -> P WIFI_ERROR_OUT_OF_MEMORY g) ->
  (forall g, mem (view_for v (disarm k l)) g -> P WIFI_SUCCESS g) ->
  safe (do cmd <- new_command answer alloc_at k id iface;
          if cmd =? 0 then Ret WIFI_ERROR_OUT_OF_MEMORY
          else do _ <- m cmd; do _ <- releaseRef cmd; Ret WIFI_SUCCESS)%prog P g.
Proof using Halloc.
  intros Hd Hm Hx Hcancel HP0 HP1. cm_step. eapply safe_new; [exact Halloc|done| |].
  { cbn [Z.eqb]. cm_step. by apply HP0. }
  intros p g1 Hnz Hfr Hm1. rewrite (proj2 (Z.eqb_neq p 0)) by done. cbn [objs view_for] in Hfr. cm_step.
  match type of Hm1 with mem ?v1 _ => eapply right_mono; [apply (Hcancel p v1)|] end.
  - cbn [objs set_objs]. by rewrite lookup_insert_eq.
  - exact Hm1.
  - cbn beta. intros _ g2 Hm2. rewrite cbs_of_disarm in Hm2 by done. cm_step.
    eapply (safe_release good p (mk_command k id iface 1)); [exact Hm2|by apply lookup_insert_eq|done| |].
    { cbn [cbs set_cbs]. rewrite <- cbs_of_disarm by done. apply unregister_Forall. by apply fresh_args. }
    intros g3 Hm3. cm_step. apply HP1. unfold set_objs, set_cbs, set_cmds in Hm3. cbn [objs cbs cmds rest view_for] in Hm3.
    rewrite delete_insert_id in Hm3 by (by apply not_elem_of_dom).
    destruct (disarm_maps k l) as (_ & _ & _ & Ec & Eo). unfold view_for. by rewrite Ec, Eo.
Qed.

Lemma client_spec o l v g :
  distinct l -> mem (view_for v l) g -> allowed o l -> op_good good o ->
  safe (run_client answer patience alloc_at o)
    (fun r g => exists l', client_step o l r l' /\ distinct l' /\ mem (view_for v l') g) g.
Proof using Hnl Hk Halloc.
  intros Hd Hm Ha Hg. destruct o as [k id iface|id|k id iface|id iface addrs]; cbn [run_client].
  - by apply start_command_spec.
  - eapply right_mono; [by apply cancel_cmd_spec|]. intros r g' (l' & Hs & Hl). exists l'. split; [by apply step_cancel|done].
  - unfold stop_command. destruct (Z.eqb_spec id (-1)) as [->|Hid].
    + eapply (temporary_spec k (-1) iface l v); [done|done|exact Ha|..].
      * intros p v1 g1 Ho Hv1. by eapply cancel_spec.
      * intros g1 Hm1. exists l. split; [apply step_stop_no_memory|done].
      * intros g1 Hm1. exists (disarm k l). split; [apply step_stop_kind|]. split; [by apply disarm_distinct|done].
    + eapply right_mono; [by apply cancel_cmd_spec|]. intros r g' (l' & Hs & Hl). exists l'. split; [by apply step_stop|done].
  - unfold wifi_rtt_range_cancel.
    eapply (temporary_spec (RttCommand [] rtt_state0) id iface l v (fun cmd => cancel_specific answer patience cmd addrs)); [done|done|done|..].
    + intros p v1 g1 Ho Hv1. unfold cancel_specific. cm_step. eapply safe_deref; [exact Hv1|exact Ho|]. intros n. by eapply cancel_rtt_spec.
    + intros g1 Hm1. exists l. split; [apply step_range_no_memory|done].
    + intros g1 Hm1. eexists. split; [apply step_range_cancel|]. split; [by apply disarm_distinct|done].
Qed.
End Refinement.

Section Main.
Context `{hal_headers} (answer : list (wcall * wresp) -> wcall -> wresp) (patience : nat) (page : Z)
  (alloc_at : list (wcall * wresp) -> gset Z -> Z).

(** In between the operations every handler is for an event of its object. *)
Lemma stands_kept good l v g :
  distinct l -> Forall (fun a => good (a_class a) (a_id a)) l ->
  cbs v = cbs_of l -> objs v = objs_of l -> mem v g -> hal_kept good g.
Proof.
  intros Hd Hg Ec Eo Hm. pose proof Hm as [(Ht & _) _]. split; [exact Ht|]. rewrite (mem_cbs _ _ Hm), (mem_objects _ _ Hm).
  rewrite Ec, Eo. apply List.Forall_forall. intros e (hs & He & Hin)%in_concat.
  apply in_map_iff in He as (a & <- & Ha). pose proof Ha as (l1 & l2 & El)%in_split.
  unfold handlers_of in Hin. destruct (a_armed a); [|by destruct Hin]. apply in_map_iff in Hin as (sub & <- & Hsub).
  exists (a_ptr a), sub, (object_of a). split; [done|]. split; [rewrite El in Hd; destruct (distinct_app _ _ _ Hd) as (_ & Hnz & _); exact Hnz|].
  split; [rewrite El in Hd |- *; by apply objs_of_lookup|]. split; [exact Hsub|]. split; [|done].
  rewrite List.Forall_forall in Hg. by apply Hg.
Qed.

(** Cancelling when no other thread is running. *)
Lemma cancel_alone l a v g :
  libnl_ok answer page -> kernel_replies answer patience ->
  distinct l -> In a l -> cbs v = cbs_of l -> objs v = objs_of l -> mem v g ->
  always (run (cancel answer patience (a_ptr a))) (fun _ => as_cbs v (cbs_of (disarm (a_class a) l))) g.
Proof.
  intros Hnl Hk Hd (l1 & l2 & El)%in_split Ec Eo Hm. rewrite El in Hd, Ec, Eo |- *.
  pose proof (distinct_app _ _ _ Hd) as (Hx & _ & _ & _). rewrite <- cbs_of_disarm, <- Ec by done.
  assert (hal_kept (fun _ _ => True) g) as Hkept by (eapply stands_kept; [exact Hd|by apply List.Forall_forall|done..]).
  assert (right_safe (sharing0 := hal_sharing (fun _ _ => True)) (cancel answer patience (a_ptr a))
    (fun _ => as_cbs v (unregister_all (cancel_events (a_class a)) (cbs v))) g) as Hs.
  { eapply (cancel_spec answer patience page Hnl Hk _ (a_class a)); [exact Hx| |rewrite Eo; by apply objs_of_lookup].
    destruct v. exact Hm. }
  eapply always_mono; [apply (right_run (sharing0 := hal_sharing (fun _ _ => True)) _ _ _ Hkept Hs)|]. cbn beta. intros r g' [HP _]. exact HP.
Qed.

Lemma clients_spec good os l v g :
  libnl_ok answer page -> kernel_replies answer patience ->
  (forall tr live, alloc_at tr live <> 0 /\ alloc_at tr live ∉ live) ->
  distinct l -> mem (view_for v l) g -> plays os l -> Forall (op_good good) os ->
  right_safe (sharing0 := hal_sharing good) (run_clients answer patience alloc_at os)
    (fun rs g => exists l', client_steps os l rs l' /\ distinct l' /\ mem (view_for v l') g) g.
Proof.
  intros Hnl Hk Hal Hd Hm Hp Hg. revert l g Hd Hm Hp. induction Hg as [|o os Ho Hg IH]; intros l g Hd Hm Hp; cbn [run_clients].
  - cm_step. exists l. split; [apply steps_none|done].
  - destruct Hp as [Ha Hp]. cm_step. eapply right_mono; [by eapply client_spec|]. cbn beta.
    intros r g1 (l1 & Hs1 & Hd1 & Hm1). cm_step. eapply right_mono; [apply IH; [done..|by eapply Hp]|]. cbn beta.
    intros rs g2 (l2 & Hs2 & Hd2 & Hm2). cm_step. exists l2. split; [by eapply steps_one|done].
Qed.

(** C6. For a client that gives every command it starts an id that is not in use and has one active
    command of a kind at a time, the interface of the HAL implements a machine whose state is the list of
    the active commands. Any sequence of starts, cancels, resets and range cancels, whatever the kernel answers and
    whether or not memory and messages can be allocated: no object is used after it was deleted or
    deleted twice, no mutex is waited for in vain, no array is left; a start either succeeds with the command at
    the end of the list, its handlers registered, and one reference to its object, or fails and leaves
    nothing behind; a cancel removes exactly the command with the id and its handlers, and answers INVALID_ARGS
    when there is none; and in between the objects in memory are exactly those of the list. *)
Theorem hal_refines_machine (os : list client_op) (l : list active) (w : world hal wcall wresp) :
  libnl_ok answer page -> kernel_replies answer patience ->
  (forall tr live, alloc_at tr live <> 0 /\ alloc_at tr live ∉ live) ->
  stands_for (globals w) l -> plays os l ->
  exists rs w' l', run (run_clients answer patience alloc_at os) w = Some (rs, w')
    /\ client_steps os l rs l' /\ stands_for (globals w') l' /\ rest (view_of (globals w')) = rest (view_of (globals w)).
Proof.
  intros Hnl Hk Hal [Hd Hm]%stands_for_mem Hp.
  assert (Forall (op_good (fun _ _ => True)) os) as Hg by (apply List.Forall_forall; intros [] _; done).
  assert (hal_kept (fun _ _ => True) (globals w)) as Hkept by (apply (stands_kept _ l (view_for (view_of (globals w)) l)); [exact Hd|by apply List.Forall_forall|done|done|exact Hm]).
  destruct (always_run _ _ _ (right_run (sharing0 := hal_sharing (fun _ _ => True)) _ _ _ Hkept (clients_spec _ os l _ _ Hnl Hk Hal Hd Hm Hp Hg)))
    as (rs & w' & E & (l' & Hs & Hd' & Hok & Ev) & _).
  exists rs, w', l'. split; [done|]. split; [done|]. split; [|by rewrite Ev].
  apply stands_for_mem. split; [done|]. split; [done|]. rewrite Ev. done.
Qed.
End Main.

(** ** A kernel, an allocator and a client *)
Definition answer0 (tr : list (wcall * wresp)) (c : wcall) : wresp :=
  match c with
  | Cnla_put _ d => ret_code (if msg_len tr + attr_size d <=? 4096 then 0 else -5)
  | Cnla_nest_start _ => ret_code (if msg_len tr + 4 <=? 4096 then 1 else 0)
  | Cnl_recvmsgs _ => mk_resp 0 0 [CbAck] []
  | _ => ret_code 1
  end.

Lemma answer0_libnl : libnl_ok answer0 4096.
Proof.
  split; [|intros tr a|lia]; [intros tr a d|]; cbn [answer0 rv ret_code].
  - destruct (_ <=? 4096); lia.
  - destruct (_ <=? 4096); done.
Qed.

Lemma answer0_replies : kernel_replies answer0 1.
Proof. intros tr sock msg _. cbn [replies_within answer0 rcbs err_after fold_left]. right. by left. Qed.

Definition alloc0 (tr : list (wcall * wresp)) (live : gset Z) : Z := fresh ({[0]} ∪ live).

Lemma alloc0_fresh tr live : alloc0 tr live <> 0 /\ alloc0 tr live ∉ live.
Proof.
  assert (alloc0 tr live ∉ ({[0]} ∪ live : gset Z)) as Hf by apply is_fresh. set_solver.
Qed.

Lemma hal0_stands : @stands_for headers0 hal0 [].
Proof.
  split; [exact hal0_ok|]. split; [|done]. unfold distinct. cbn [map].
  split; [apply NoDup_nil_2|]. split; [apply NoDup_nil_2|]. split; [apply NoDup_nil_2|apply Forall_nil_2].
Qed.

Definition scan0 : cmd_class :=
  ScanCommand (mk_scan_params 1000 32 200 20 [mk_bucket 0 10000 9 2 30000 1 [2412; 2437]]).

Definition script0 : list client_op :=
  [Start_command scan0 7 3; Start_command (SetRSSIMonitorCommand (-50) (-70)) 8 3; Cancel_command 7; Cancel_command 7].

Lemma hal_refines_machine_witness : exists w' l',
  run (@run_clients headers0 answer0 1 alloc0 script0) (World hal0 []) = Some ([0; 0; 0; -5], w')
  /\ map a_id l' = [8] /\ @stands_for headers0 (globals w') l'.
Proof.
  destruct (@hal_refines_machine headers0 answer0 1 4096 alloc0 script0 [] (World hal0 [])
    answer0_libnl answer0_replies alloc0_fresh hal0_stands) as (rs & w' & l' & E & Hs & Hl & _).
  - unfold script0. cbn [plays]. split; [by split; [|apply Forall_nil_2]|].
    intros r l1 H1. inversion H1; subst; split.
    + split; [done|]. apply Forall_cons; [|apply Forall_nil_2]. by split.
    + done.
    + by split; [|apply Forall_nil_2].
    + done.
  - exists w', l'. destruct Hl as (Hok & Hd & Hc & Hm & Ho) eqn:EHl. clear EHl.
    assert (rs = [0; 0; 0; -5] /\ map cmd_id (cmds (view_of (globals w'))) = [8]) as [-> Hids]
      by (vm_compute in E; injection E as <- <-; split; reflexivity).
    split; [exact E|]. split; [|exact Hl]. rewrite Hm in Hids. unfold cmds_of in Hids. rewrite map_map in Hids. exact Hids.
Defined.
