(* ===== verification/WifiEvents.v ===== *)
(** The events of the Wi-Fi HAL: what the commands make of a message of the driver (handleEvent and
    handleResponse of the classes in gscan.cpp, rtt.cpp and wifi_hal.cpp), and the dispatch of an event to
    the handler that is registered for it (internal_valid_message_handler of wifi_hal.cpp). *)
From Stdlib Require Import List.
From stdpp Require Import gmap.
From S2P Require Import Prelude Threads WifiState WifiRegistry WifiRequest WifiCommand WifiShared WifiLifecycle.

(** ** Octets of a message; [None]: an access outside of it *)
Definition octets (d : list Z) (off n : Z) : option (list Z) :=
  if (0 <=? off) && (0 <=? n) && (off + n <=? zlen d) then Some (take (Z.to_nat n) (drop (Z.to_nat off) d)) else None.

Definition uint_at (n : Z) (d : list Z) (off : Z) : option Z := l ← octets d off n; Some (le_val l).
Abbreviation u8_at := (uint_at 1).
Abbreviation u16_at := (uint_at 2).
Abbreviation u32_at := (uint_at 4).
Abbreviation u64_at := (uint_at 8).

(** [WifiEvent] of cpp_bindings.h: the attributes of the message. *)
Section Access.
Context `{hal_headers}.

Definition get_attribute (ev : event) (a : Z) : option (list Z) :=
  snd <$> find (fun x => x.1 =? a) (ev_attrs ev).

(** [nla_get_u32] reads four octets, whatever the length of the attribute. *)
Definition get_u32 (ev : event) (a : Z) : option Z :=
  match get_attribute ev a with Some d => u32_at d 0 | None => Some 0 end.

Definition get_vendor_id (ev : event) : option Z := get_u32 ev NL80211_ATTR_VENDOR_ID.
Definition get_vendor_subcmd (ev : event) : option Z := v ← get_u32 ev NL80211_ATTR_VENDOR_SUBCMD; Some (i32 v).
Definition get_vendor_data (ev : event) : option (list Z) := get_attribute ev NL80211_ATTR_VENDOR_DATA.
Definition get_vendor_data_len (ev : event) : Z :=
  match get_vendor_data ev with Some d => zlen d | None => 0 end.
End Access.

(** The vendor data as an attribute of its own: the length (with the header) and the type come first. *)
Definition nla_len_of (d : list Z) : option Z := u16_at d 0.
Definition nla_type_of (d : list Z) : option Z := u16_at d 2.
Definition NLA_HDRLEN : Z := 4.

(** ** gscan.cpp *)
Definition MAX_PROBE_RESP_IE_LEN : Z := 2048.

(** The layout of [wifi_gscan_result_t] and [wifi_gscan_full_result_t] (common.h), [base] being the
    offset of the structure. *)
Definition sizeof_gscan_result : Z := 88.
Definition sizeof_gscan_full_result : Z := 104.
Definition offsetof_ie_data : Z := 96.

Definition convert_to_hal_result (d : list Z) (base : Z) : option scan_result :=
  ts ← u64_at d base;
  ssid ← octets d (base + 8) 33;
  bssid ← octets d (base + 41) 6;
  channel ← u32_at d (base + 48);
  rssi ← u32_at d (base + 52);
  rtt ← u64_at d (base + 56);
  rtt_sd ← u64_at d (base + 64);
  beacon ← u16_at d (base + 72);
  capability ← u16_at d (base + 74);
  Some (mk_scan_result ts ssid bssid channel (i32 rssi) rtt rtt_sd beacon capability 0 []).

(** The structure is at offset 4, behind the header; [None]: an access outside of the data;
    [Some None]: the event is skipped. *)
Definition full_scan_result (d : list Z) : option (option (scan_result * Z)) :=
  let len := zlen d in
  if len <? sizeof_gscan_full_result then Some None
  else
    let base := NLA_HDRLEN in
    ie_length ← u32_at d (base + 92);
    let ie_len := Z.min MAX_PROBE_RESP_IE_LEN ie_length in
    if len <? ie_len + offsetof_ie_data then Some None
    else
      r ← convert_to_hal_result d base;
      ie ← octets d (base + offsetof_ie_data) ie_len;
      bucket ← u32_at d (base + 88);
      Some (Some (mk_scan_result (sr_ts r) (sr_ssid r) (sr_bssid r) (sr_channel r) (sr_rssi r) (sr_rtt r) (sr_rtt_sd r)
                    (sr_beacon_period r) (sr_capability r) ie_len ie, bucket)).

(** The results of a hotlist event, [num] of them as one run of octets. *)
Definition hotlist_results (size : Z) (d : list Z) : option (Z * list Z) :=
  let num := Z.min 64 (zlen d / size) in
  ty ← nla_type_of d;
  if (ty =? GSCAN_EVENT_HOTLIST_RESULTS_LOST) || (ty =? GSCAN_EVENT_HOTLIST_RESULTS_FOUND) then
    r ← octets d NLA_HDRLEN (num * size); Some (num, r)
  else Some (num, repeat 0 (Z.to_nat (num * size))).

(** [wifi_pno_result_t], 44 octets; a network whose name is longer than the array it is copied to is
    an access outside of it. *)
Definition PNO_SSID_FOUND : Z := 1.
Definition scan_result0 : scan_result := mk_scan_result 0 (repeat 0 33) (repeat 0 6) 0 0 0 0 0 0 0 [].

Definition epno_result (d : list Z) (i : Z) : option scan_result :=
  let base := 44 * i in
  flags ← u16_at d (base + 36);
  if flags =? PNO_SSID_FOUND then
    ssid_len ← u8_at d (base + 32);
    if 32 <? ssid_len then None
    else
      ssid ← octets d base ssid_len;
      bssid ← octets d (base + 38) 6;
      channel ← u16_at d (base + 34);
      rssi ← u8_at d (base + 33);
      Some (mk_scan_result 0 (ssid ++ repeat 0 (33 - length ssid)) bssid channel (wraps 8 rssi) 0 0 0 0 0 [])
  else Some scan_result0.

Definition epno_results (max : Z) (d : list Z) : option (Z * list scan_result) :=
  let num := Z.min max (zlen d / 44) in
  rs ← mapM (fun i => epno_result d (Z.of_nat i)) (seq 0 (Z.to_nat num));
  Some (num, rs).

(** [ChangeInfo], 18 octets, behind the header. *)
Definition change_result_at (d : list Z) (i : Z) : option change_result :=
  let base := NLA_HDRLEN + 18 * i in
  bssid ← octets d (base + 4) 6;
  channel ← u16_at d (base + 2);
  rssi ← octets d (base + 10) 8;
  Some (mk_change bssid channel (map (wraps 8) rssi)).

(** [Some None]: the event is skipped. *)
Definition change_results (d : list Z) : option (option (list change_result)) :=
  let num := Z.min (zlen d / 18) 64 in
  ty ← nla_type_of d;
  if ty =? GSCAN_EVENT_SIGNIFICANT_CHANGE_RESULTS then
    rs ← mapM (fun i => change_result_at d (Z.of_nat i)) (seq 0 (Z.to_nat num)); Some (Some rs)
  else Some None.

(** [rssi_monitor_evt], behind the header: version, rssi, address. *)
Definition RSSI_MONITOR_EVT_VERSION : Z := 1.

Definition rssi_event (d : list Z) : option (option (list Z * Z)) :=
  ty ← nla_type_of d;
  if ty =? WIFI_EVENT_RSSI_MONITOR then
    version ← u8_at d NLA_HDRLEN;
    rssi ← u8_at d (NLA_HDRLEN + 1);
    bssid ← octets d (NLA_HDRLEN + 2) 6;
    if negb (version =? RSSI_MONITOR_EVT_VERSION) then Some None else Some (Some (bssid, wraps 8 rssi))
  else Some None.

(** ** rtt.cpp *)
Definition DOT11_HDR_LEN : Z := 2.
Definition DOT11_MNG_MEASURE_REQUEST_ID : Z := 38.
Definition DOT11_MEASURE_TYPE_LCI : Z := 8.
Definition DOT11_MEASURE_TYPE_CIVICLOC : Z := 11.
Definition MAX_RTT_RESULTS : Z := 1024.

(** The location elements behind a result of [size] octets: where the first and the second type of
    element begin. The length of the result is taken off twice. *)
Definition second_element (d : list Z) (size len1 result_len ty : Z) : option (option Z) :=
  if 0 <? result_len - (len1 + DOT11_HDR_LEN) then
    let off := size + len1 + DOT11_HDR_LEN in
    id ← u8_at d off;
    if id =? DOT11_MNG_MEASURE_REQUEST_ID then
      ty2 ← u8_at d (off + 4);
      Some (if ty2 =? ty then Some off else None)
    else Some None
  else Some None.

(** [ptr]: the memory the octets are copied to. *)
Definition parse_rtt_result (ptr size : Z) (d : list Z) : option rtt_result :=
  let result_len := zlen d - size in
  if result_len <? 0 then None
  else if 0 <? result_len then
    let result_len := result_len - size in
    id ← u8_at d size;
    if id =? DOT11_MNG_MEASURE_REQUEST_ID then
      ty ← u8_at d (size + 4);
      if ty =? DOT11_MEASURE_TYPE_LCI then
        len1 ← u8_at d (size + 1);
        lcr ← second_element d size len1 result_len DOT11_MEASURE_TYPE_CIVICLOC;
        Some (mk_rtt_result ptr d (Some size) lcr)
      else if ty =? DOT11_MEASURE_TYPE_CIVICLOC then
        len1 ← u8_at d (size + 1);
        lci ← second_element d size len1 result_len DOT11_MEASURE_TYPE_LCI;
        Some (mk_rtt_result ptr d lci (Some size))
      else Some (mk_rtt_result ptr d None None)
    else Some (mk_rtt_result ptr d None None)
  else Some (mk_rtt_result ptr d None None).

(** ** Handling *)
Section Handle.
Context `{hal_headers} (answer : list (wcall * wresp) -> wcall -> wresp).
(** The attributes that libnl's [nla_ok] and [nla_next] walk through. *)
Context (nla_attrs : list Z -> list (Z * list Z)).
Abbreviation IO := (io hal wcall wresp).
Abbreviation PROG := (prog hal wcall wresp).
Abbreviation sys := (sys answer).

Definition lift {A} (o : option A) : IO A := fun w => a ← o; Some (a, w).
Definition notify (c : wifi_command) (n : notification) : IO unit := do _ <- sys (Con_event (mId c) n); io_ret tt.

(** The client's handlers are set. *)
Definition handle_rssi (c : wifi_command) (ev : event) : IO unit :=
  match get_vendor_data ev with
  | None | Some [] => io_ret tt
  | Some d =>
      do r <- lift (rssi_event d);
      match r with Some (bssid, rssi) => notify c (On_rssi bssid rssi) | None => io_ret tt end
  end.

Definition wifi_handle_full_scan_event (c : wifi_command) (ev : event) : IO unit :=
  do event_id <- lift (get_vendor_subcmd ev);
  match get_vendor_data ev with
  | None => io_ret tt
  | Some d =>
      if zlen d <? sizeof_gscan_full_result then io_ret tt
      else if negb (event_id =? GSCAN_EVENT_FULL_SCAN_RESULTS) then io_ret tt
      else
        do r <- lift (full_scan_result d);
        match r with
        | None => io_ret tt
        | Some (r, bucket) =>
            do m <- sys Cmalloc;
            if rv m =? 0 then io_ret tt
            else
              do _ <- notify c (On_full_scan_result r bucket);
              do _ <- sys (Cfree (rv m)); io_ret tt
        end
  end.

Definition handle_scan (c : wifi_command) (ev : event) : IO unit :=
  do event_id <- lift (get_vendor_subcmd ev);
  if (event_id =? GSCAN_EVENT_COMPLETE_SCAN) || (event_id =? GSCAN_EVENT_SCAN_RESULTS_AVAILABLE) then
    match get_vendor_data ev with
    | None => io_ret tt
    | Some d =>
        do len <- lift (nla_len_of d);
        if negb (len =? 8) then io_ret tt
        else do t <- lift (u32_at d NLA_HDRLEN); notify c (On_scan_event t)
    end
  else if event_id =? GSCAN_EVENT_FULL_SCAN_RESULTS then wifi_handle_full_scan_event c ev
  else io_ret tt.

Definition handle_hotlist (c : wifi_command) (ev : event) : IO unit :=
  do event_id <- lift (get_vendor_subcmd ev);
  match get_vendor_data ev with
  | None | Some [] => io_ret tt
  | Some d =>
      do r <- lift (hotlist_results sizeof_wifi_scan_result d);
      if event_id =? GSCAN_EVENT_HOTLIST_RESULTS_FOUND then notify c (On_hotlist_ap_found r.1 r.2)
      else if event_id =? GSCAN_EVENT_HOTLIST_RESULTS_LOST then notify c (On_hotlist_ap_lost r.1 r.2)
      else io_ret tt
  end.

Definition handle_epno (c : wifi_command) (ev : event) : IO unit :=
  do _ <- lift (get_vendor_subcmd ev);
  match get_vendor_data ev with
  | None | Some [] => io_ret tt
  | Some d =>
      do r <- lift (epno_results MAX_EPNO_NETWORKS d);
      notify c (On_network_found r.1 r.2)
  end.

Definition handle_change (c : wifi_command) (ev : event) : IO unit :=
  match get_vendor_data ev with
  | None | Some [] => io_ret tt
  | Some d =>
      do r <- lift (change_results d);
      match r with
      | None | Some [] => io_ret tt
      | Some rs => notify c (On_significant_change rs)
      end
  end.

(** The lengths are those the driver gives: nothing is compared with the length of the event. *)
Definition handle_anqpo (c : wifi_command) (ev : event) : IO unit :=
  match get_vendor_data ev with
  | None => io_ret tt
  | Some d =>
      if zlen d <? sizeof_wifi_scan_result then io_ret tt
      else
        do m <- sys Cmalloc;
        if rv m =? 0 then io_ret tt
        else
          do r <- lift (convert_to_hal_result d 0);
          do ie_length <- lift (u32_at d 92);
          let anqp := offsetof_ie_data + ie_length in
          do data_len <- lift (u16_at d (anqp + 6));
          let anqp_len := 8 + data_len in
          do network <- lift (u32_at d (anqp + anqp_len));
          do bytes <- lift (octets d anqp anqp_len);
          do _ <- notify c (On_passpoint (i32 network) r bytes);
          do _ <- sys (Cfree (rv m)); io_ret tt
  end.

(** The results of one target; [false] when memory for a result could not be allocated. *)
Fixpoint rtt_target (attrs : list (Z * list Z)) (st : rtt_state) : IO rtt_state :=
  match attrs with
  | [] => io_ret st
  | (ty, d) :: attrs =>
      if ty =? RTT_ATTRIBUTE_TARGET_MAC then
        do _ <- lift (octets d 0 6); rtt_target attrs st
      else if ty =? RTT_ATTRIBUTE_RESULT_CNT then
        do _ <- lift (u32_at d 0); rtt_target attrs st
      else if ty =? RTT_ATTRIBUTE_RESULT then
        if MAX_RTT_RESULTS <=? zlen (rttResults st) then undefined
        else
          do m <- sys Cmalloc;
          if rv m =? 0 then io_ret (mk_rtt_state 1 (rttResults st))
          else
            do r <- lift (parse_rtt_result (rv m) sizeof_wifi_rtt_result d);
            rtt_target attrs (mk_rtt_state (mCompleted st) (rttResults st ++ [r]))
      else rtt_target attrs st
  end.

Fixpoint rtt_attrs (attrs : list (Z * list Z)) (st : rtt_state) : IO rtt_state :=
  match attrs with
  | [] => io_ret st
  | (ty, d) :: attrs =>
      if ty =? RTT_ATTRIBUTE_RESULTS_COMPLETE then
        do v <- lift (u32_at d 0); rtt_attrs attrs (mk_rtt_state (i32 v) (rttResults st))
      else if ty =? RTT_ATTRIBUTE_RESULTS_PER_TARGET then
        do st <- rtt_target (nla_attrs d) st; rtt_attrs attrs st
      else rtt_attrs attrs st
  end.

Definition set_rtt (self : Z) (st : rtt_state) : IO unit :=
  io_pure (fun h =>
    c ← objects h !! self;
    match mClass c with
    | RttCommand ps _ =>
        Some (tt, with_objects h (<[self := mk_command (RttCommand ps st) (mId c) (mIface c) (mRefs c)]> (objects h)))
    | _ => None
    end).

(** [for (int i = 0; i < currentIdx; i++) free(rttResults[i]);] *)
Fixpoint free_results (l : list rtt_result) : IO unit :=
  match l with [] => io_ret tt | r :: l => do _ <- sys (Cfree (rr_ptr r)); free_results l end.

Open Scope prog_scope.

(** A NULL attribute is logged, and used. *)
Definition handle_rtt (self : Z) (c : wifi_command) (st : rtt_state) (ev : event) : PROG unit :=
  match get_vendor_data ev with
  | None => undefined
  | Some d =>
      do st <- rtt_attrs (nla_attrs d) st;
      do _ <- set_rtt self st;
      if negb (mCompleted st =? 0) then
        do _ <- unregisterVendorHandler RTT_EVENT_COMPLETE;
        do _ <- notify c (On_rtt_results (rttResults st));
        do _ <- free_results (rttResults st);
        do _ <- set_rtt self (mk_rtt_state (mCompleted st) []);
        do cmd <- wifi_unregister_cmd (mId c);
        if negb (cmd =? 0) then releaseRef cmd else Ret tt
      else Ret tt
  end.

(** The virtual function of an object that is [c]. *)
Definition handle_as (self : Z) (c : wifi_command) (ev : event) : PROG unit :=
  match mClass c with
  | SetRSSIMonitorCommand _ _ => handle_rssi c ev
  | FullScanResultsCommand => wifi_handle_full_scan_event c ev
  | ScanCommand _ => handle_scan c ev
  | BssidHotlistCommand _ => handle_hotlist c ev
  | ePNOCommand _ => handle_epno c ev
  | SignificantWifiChangeCommand _ => handle_change c ev
  | AnqpoConfigureCommand _ => handle_anqpo c ev
  | RttCommand _ st => handle_rtt self c st ev
  end.

Definition handleEvent (self : Z) (ev : event) : PROG unit := do c <- deref self; handle_as self c ev.

(** [WifiCommand::event_handler]; the condition it signals is nobody's. *)
Definition event_handler (ev : event) (self : Z) : PROG unit :=
  if ev_parse ev <? 0 then Ret tt else handleEvent self ev.

(** ** internal_valid_message_handler *)
Definition handler_matches (cmd vendor subcmd : Z) (e : cb_info) : bool :=
  (cmd =? nl_cmd e)
  && negb ((cmd =? NL80211_CMD_VENDOR) && (negb (vendor =? vendor_id e) || negb (subcmd =? vendor_subcmd e))).

(** The handlers that are registered are all [event_handler], or none. *)
Definition call_handler (func : Z) (ev : event) (arg : Z) : PROG unit :=
  if func =? 0 then Ret tt else if func =? EVENT_HANDLER then event_handler ev arg else undefined.

Definition internal_valid_message_handler (ev : event) : PROG unit :=
  if ev_parse ev <? 0 then Ret tt
  else
    let cmd := ev_cmd ev in
    do vendor <- lift (if cmd =? NL80211_CMD_VENDOR then get_vendor_id ev else Some 0);
    do subcmd <- lift (if cmd =? NL80211_CMD_VENDOR then get_vendor_subcmd ev else Some 0);
    do _ <- lock;
    do e <- on_event_cb (fun t =>
      match table_find (handler_matches cmd vendor subcmd) t with
      | Some (Some (_, e)) => Some (Some e, t) | Some None => Some (None, t) | None => None end);
    match e with
    | None => pthread_mutex_unlock
    | Some e =>
        do _ <- (if negb (cb_arg e =? 0) then addRef (cb_arg e) else Ret tt);
        do _ <- pthread_mutex_unlock;
        do _ <- call_handler (cb_func e) ev (cb_arg e);
        if negb (cb_arg e =? 0) then releaseRef (cb_arg e) else Ret tt
    end.

End Handle.

(** ** Bounds *)
Lemma octets_some d off n :
  0 <= off -> 0 <= n -> off + n <= zlen d -> octets d off n = Some (take (Z.to_nat n) (drop (Z.to_nat off) d)).
Proof. intros. unfold octets. by repeat rewrite (proj2 (Z.leb_le _ _)) by lia. Qed.

Lemma octets_none d off n : 0 <= off -> 0 <= n -> octets d off n = None <-> zlen d < off + n.
Proof.
  intros Ho Hn. unfold octets. rewrite (proj2 (Z.leb_le 0 off)), (proj2 (Z.leb_le 0 n)) by done. cbn [andb].
  destruct (Z.leb_spec (off + n) (zlen d)); split; try done; lia.
Qed.

Lemma uint_some n d off : 0 <= n -> 0 <= off -> off + n <= zlen d -> exists v, uint_at n d off = Some v.
Proof. intros. unfold uint_at. rewrite octets_some by lia. by eexists. Qed.

Lemma le_val_nonneg l : Forall is_u8 l -> 0 <= le_val l.
Proof. unfold le_val, is_u8. induction 1 as [|b l Hb Hl IH]; cbn; lia. Qed.

Lemma uint_nonneg n d off v : Forall is_u8 d -> uint_at n d off = Some v -> 0 <= v.
Proof.
  intros Hd. unfold uint_at, octets. destruct (_ && _); [|done]. intros [= <-]. apply le_val_nonneg.
  by apply Forall_take, Forall_drop.
Qed.

(** Reads that succeed by arithmetic. *)
Ltac read_ok v :=
  match goal with |- context [uint_at ?n ?d ?o] =>
    destruct (uint_some n d o) as [v ->]; [lia|lia|lia|]; cbn [mbind option_bind] end.

Lemma convert_some d base : 0 <= base -> base + 76 <= zlen d -> exists r, convert_to_hal_result d base = Some r.
Proof.
  intros Hb Hl. unfold convert_to_hal_result. read_ok ts. rewrite (octets_some _ _ 33) by lia. cbn [mbind option_bind].
  rewrite (octets_some _ _ 6) by lia. cbn [mbind option_bind].
  read_ok ch. read_ok rs. read_ok rt. read_ok sd. read_ok be. read_ok ca. by eexists.
Qed.

(** What a full scan event announces: the length of its elements. *)
Definition announced_ie (d : list Z) : Z := Z.min MAX_PROBE_RESP_IE_LEN (le_val (take 4 (drop 96 d))).

Lemma full_scan_bounds d :
  Forall is_u8 d ->
  full_scan_result d = None <-> 104 <= zlen d /\ 96 + announced_ie d <= zlen d < 100 + announced_ie d.
Proof.
  intros Hd. unfold full_scan_result, sizeof_gscan_full_result, offsetof_ie_data, NLA_HDRLEN.
  destruct (Z.ltb_spec (zlen d) 104) as [Hs|Hs]; [split; [done|lia]|].
  assert (u32_at d (4 + 92) = Some (le_val (take 4 (drop 96 d)))) as -> by (unfold uint_at; by rewrite octets_some by lia).
  cbn [mbind option_bind].
  fold (announced_ie d). assert (0 <= announced_ie d) as Hnn.
  { unfold announced_ie. pose proof (le_val_nonneg (take 4 (drop 96 d)) ltac:(by apply Forall_take, Forall_drop)).
    unfold MAX_PROBE_RESP_IE_LEN. lia. }
  destruct (Z.ltb_spec (zlen d) (announced_ie d + 96)); [split; [done|lia]|].
  destruct (convert_some d 4) as [r ->]; [lia|lia|]. cbn [mbind option_bind].
  destruct (octets d (4 + 96) (announced_ie d)) as [ie|] eqn:E.
  - cbn [mbind option_bind]. read_ok bk. split; [done|]. intros [_ Hb].
    assert (octets d (4 + 96) (announced_ie d) = None) by (apply octets_none; lia). congruence.
  - split; [|done]. intros _. apply octets_none in E; lia.
Qed.

Lemma hotlist_bounds size d :
  0 < size -> d <> [] ->
  hotlist_results size d = None <->
    zlen d < 4 \/ ((nla_type_of d = Some GSCAN_EVENT_HOTLIST_RESULTS_LOST \/ nla_type_of d = Some GSCAN_EVENT_HOTLIST_RESULTS_FOUND)
                  /\ zlen d < 4 + Z.min 64 (zlen d / size) * size).
Proof.
  intros Hs Hd. unfold hotlist_results. destruct (nla_type_of d) as [ty|] eqn:E; cbn [mbind option_bind].
  - assert (4 <= zlen d) as Hl.
    { unfold nla_type_of, uint_at in E. destruct (octets d 2 2) eqn:Eo; [|done].
      destruct (Z.le_gt_cases 4 (zlen d)); [done|]. assert (octets d 2 2 = None) by (apply octets_none; lia). congruence. }
    pose proof (Z.div_pos (zlen d) size ltac:(lia) ltac:(lia)).
    assert (0 <= Z.min 64 (zlen d / size) * size) by (apply Z.mul_nonneg_nonneg; lia).
    destruct (_ || _) eqn:Et.
    + assert (ty = GSCAN_EVENT_HOTLIST_RESULTS_LOST \/ ty = GSCAN_EVENT_HOTLIST_RESULTS_FOUND) as Ht
        by (apply orb_prop in Et as [?%Z.eqb_eq|?%Z.eqb_eq]; auto).
      destruct (octets d NLA_HDRLEN _) as [r|] eqn:Eo.
      * split; [done|]. intros [|[_ Hb]]; [lia|].
        assert (octets d NLA_HDRLEN (Z.min 64 (zlen d / size) * size) = None) by (apply octets_none; unfold NLA_HDRLEN; lia). congruence.
      * split; [|done]. intros _. apply octets_none in Eo; [|unfold NLA_HDRLEN; lia|lia]. right.
        split; [destruct Ht as [->| ->]; auto|done].
    + split; [done|]. apply orb_false_iff in Et as [?%Z.eqb_neq ?%Z.eqb_neq]. intros [|[[[= ->]|[= ->]] _]]; [lia|done|done].
  - split; [|done]. intros _. left. unfold nla_type_of, uint_at in E. destruct (octets d 2 2) eqn:Eo; [done|].
    apply octets_none in Eo; lia.
Qed.

Lemma nla_type_read d : (exists ty, nla_type_of d = Some ty /\ 4 <= zlen d) \/ (nla_type_of d = None /\ zlen d < 4).
Proof.
  unfold nla_type_of, uint_at. destruct (octets d 2 2) as [l|] eqn:E; [left|right].
  - eexists. split; [done|]. destruct (Z.le_gt_cases 4 (zlen d)); [done|].
    assert (octets d 2 2 = None) by (apply octets_none; lia). congruence.
  - split; [done|]. apply octets_none in E; lia.
Qed.

Lemma change_result_bounds d i : 0 <= i -> change_result_at d i = None <-> zlen d < 22 + 18 * i.
Proof.
  intros Hi. unfold change_result_at, NLA_HDRLEN. destruct (Z.lt_ge_cases (zlen d) (22 + 18 * i)) as [Hl|Hl].
  - split; [done|]. intros _. destruct (octets d (4 + 18 * i + 4) 6); [|done]. cbn [mbind option_bind].
    destruct (u16_at d (4 + 18 * i + 2)); [|done]. cbn [mbind option_bind].
    by rewrite (proj2 (octets_none d (4 + 18 * i + 10) 8 ltac:(lia) ltac:(lia))) by lia.
  - split; [|lia]. rewrite (octets_some _ _ 6) by lia. cbn [mbind option_bind]. read_ok ch.
    rewrite (octets_some _ _ 8) by lia. done.
Qed.

Lemma change_bounds d :
  change_results d = None <->
    zlen d < 4 \/ (nla_type_of d = Some GSCAN_EVENT_SIGNIFICANT_CHANGE_RESULTS
                  /\ 18 <= zlen d < 4 + 18 * Z.min (zlen d / 18) 64).
Proof.
  unfold change_results. destruct (nla_type_read d) as [(ty & -> & Hl)|[-> Hl]]; cbn [mbind option_bind]; [|split; [by left|done]].
  assert (0 <= zlen d / 18) as Hq by (apply Z.div_pos; lia).
  destruct (Z.eqb_spec ty GSCAN_EVENT_SIGNIFICANT_CHANGE_RESULTS) as [->|Hty]; [|split; [done|]; intros [|[[= ?] _]]; [lia|done]].
  set (num := Z.min (zlen d / 18) 64). assert (1 <= num <-> 18 <= zlen d) as Hnum.
  { subst num. split; intros Hn.
    - assert (1 <= zlen d / 18) by lia. pose proof (Z.mul_div_le (zlen d) 18). lia.
    - assert (1 <= zlen d / 18) by (apply Z.div_le_lower_bound; lia). lia. }
  destruct (mapM _ _) as [rs|] eqn:E; cbn [mbind option_bind].
  - split; [done|]. intros [|[_ [Hb1 Hb2]]]; [lia|]. apply mk_is_Some, mapM_is_Some in E. rewrite list.Forall_forall in E.
    destruct (E (Z.to_nat num - 1)%nat) as [r Hr]; [apply elem_of_seq; lia|].
    assert (change_result_at d (Z.of_nat (Z.to_nat num - 1)) = None) as En by (apply change_result_bounds; lia). congruence.
  - split; [|done]. intros _. right. split; [done|]. apply mapM_None, list.Exists_exists in E as (i & Hi & En).
    apply elem_of_seq in Hi. apply change_result_bounds in En; [|lia]. lia.
Qed.

Lemma rssi_bounds d :
  rssi_event d = None <-> zlen d < 4 \/ (nla_type_of d = Some WIFI_EVENT_RSSI_MONITOR /\ zlen d < 12).
Proof.
  unfold rssi_event, NLA_HDRLEN. destruct (nla_type_read d) as [(ty & -> & Hl)|[-> Hl]]; cbn [mbind option_bind]; [|split; [by left|done]].
  destruct (Z.eqb_spec ty WIFI_EVENT_RSSI_MONITOR) as [->|Hty]; [|split; [done|]; intros [|[[= ?] _]]; [lia|done]].
  destruct (Z.lt_ge_cases (zlen d) 12) as [Hs|Hs].
  - split; [auto|]. intros _. destruct (u8_at d 4); [|done]. cbn [mbind option_bind]. destruct (u8_at d (4 + 1)); [|done].
    cbn [mbind option_bind]. by rewrite (proj2 (octets_none d (4 + 2) 6 ltac:(lia) ltac:(lia))) by lia.
  - split; [|intros [|[_ ?]]; lia]. read_ok v1. read_ok v2. rewrite (octets_some _ _ 6) by lia. cbn [mbind option_bind].
    by destruct (negb _).
Qed.

(** The name of the [i]-th network is too long for the array it is copied to. *)
Definition epno_overflow (d : list Z) (i : Z) : Prop :=
  u16_at d (44 * i + 36) = Some PNO_SSID_FOUND /\ exists n, u8_at d (44 * i + 32) = Some n /\ 32 < n.

Lemma epno_result_bounds d i :
  Forall is_u8 d -> 0 <= i -> 44 * i + 44 <= zlen d -> epno_result d i = None <-> epno_overflow d i.
Proof.
  intros Hd Hi Hl. unfold epno_result, epno_overflow. destruct (uint_some 2 d (44 * i + 36)) as [fl Ef]; [lia..|].
  rewrite Ef. cbn [mbind option_bind]. destruct (Z.eqb_spec fl PNO_SSID_FOUND) as [->|Hn]; [|split; [done|]; by intros [[= ?] _]].
  destruct (uint_some 1 d (44 * i + 32)) as [n En]; [lia..|]. rewrite En. cbn [mbind option_bind].
  pose proof (uint_nonneg 1 d _ _ Hd En) as Hnn. destruct (Z.ltb_spec 32 n) as [Hlt|Hge].
  - split; [|done]. intros _. split; [done|]. by exists n.
  - split; [|intros (_ & n' & [= <-] & ?); lia]. rewrite (octets_some _ _ n) by lia. cbn [mbind option_bind].
    rewrite (octets_some _ _ 6) by lia. cbn [mbind option_bind]. read_ok ch. read_ok rs. done.
Qed.

Lemma epno_bounds max d :
  Forall is_u8 d ->
  epno_results max d = None <-> exists i, 0 <= i < Z.min max (zlen d / 44) /\ epno_overflow d i.
Proof.
  intros Hd. unfold epno_results. set (num := Z.min max (zlen d / 44)).
  assert (forall i, 0 <= i < num -> 44 * i + 44 <= zlen d) as Hin.
  { intros i Hi. pose proof (Z.mul_div_le (zlen d) 44 ltac:(lia)). subst num. lia. }
  destruct (mapM _ _) as [rs|] eqn:E; cbn [mbind option_bind].
  - split; [done|]. intros (i & Hi & Ho). apply mk_is_Some, mapM_is_Some in E. rewrite list.Forall_forall in E.
    destruct (E (Z.to_nat i)) as [r Hr]; [apply elem_of_seq; lia|]. rewrite Z2Nat.id in Hr by lia.
    apply (epno_result_bounds d i Hd ltac:(lia) (Hin i Hi)) in Ho. congruence.
  - split; [|done]. intros _. apply mapM_None, list.Exists_exists in E as (i & Hi & En). apply elem_of_seq in Hi.
    exists (Z.of_nat i). split; [lia|]. apply epno_result_bounds in En; [done|done|lia|apply Hin; lia].
Qed.


(** A full scan event of 104 octets whose last 8 are elements: the copy ends 4 octets behind it. *)
Definition scan_event0 : list Z := repeat 0 96 ++ [8; 0; 0; 0] ++ repeat 7 4.


(** ** To whom events go *)
Ltac wi_step :=
  match goal with
  | |- within _ (run (prog_bind (at_once _) _)) _ _ => apply within_run_step
  | |- within _ (run (prog_bind lock _)) _ _ => apply within_run_step
  | |- within _ (run (prog_bind _ _)) _ _ => apply within_run_bind
  | |- within _ (run (at_once _)) _ _ => apply within_run_at_once
  | |- within _ (run (Ret _)) _ _ => apply within_ret
  | |- within _ (match _ with _ => _ end) _ _ => progress cbn match
  | |- within _ (io_bind _ _) _ _ => apply within_bind
  | |- within _ (io_ret _) _ _ => apply within_ret
  | |- within _ (sys _ _) _ _ => apply within_call; [done|intros ?]
  end.

(** The calls made on behalf of the command [id]: its client is told, and memory allocated and freed. *)
Definition on_behalf (id : Z) (c : wcall) : Prop :=
  match c with Con_event i _ => i = id | Cmalloc | Cfree _ => True | _ => False end.

Section Delivery.
Context `{hal_headers} (answer : list (wcall * wresp) -> wcall -> wresp) (nla_attrs : list Z -> list (Z * list Z)).
Abbreviation IO := (io hal wcall wresp).

Lemma within_lift {A} T (o : option A) a (P : A -> hal -> Prop) g :
  o = Some a -> P a g -> within (C := wcall) (R := wresp) T (lift o) P g.
Proof. intros -> HP tr. split; [done|]. exists []. by rewrite app_nil_r. Qed.

(** The results of one target can be read: the addresses, counts and results are as long as what is read of them. *)
Definition target_ok (a : Z * list Z) : Prop :=
  (a.1 = RTT_ATTRIBUTE_TARGET_MAC -> 6 <= zlen a.2)
  /\ (a.1 = RTT_ATTRIBUTE_RESULT_CNT -> 4 <= zlen a.2)
  /\ (a.1 = RTT_ATTRIBUTE_RESULT -> forall ptr, is_Some (parse_rtt_result ptr sizeof_wifi_rtt_result a.2)).

Definition results_in (l : list (Z * list Z)) : Z := zlen (filter (fun a => a.1 = RTT_ATTRIBUTE_RESULT) l).

Definition rtt_attr_ok (a : Z * list Z) : Prop :=
  (a.1 = RTT_ATTRIBUTE_RESULTS_COMPLETE -> 4 <= zlen a.2)
  /\ (a.1 = RTT_ATTRIBUTE_RESULTS_PER_TARGET -> Forall target_ok (nla_attrs a.2)).

Definition results_of (l : list (Z * list Z)) : Z :=
  zsum (map (fun a => if a.1 =? RTT_ATTRIBUTE_RESULTS_PER_TARGET then results_in (nla_attrs a.2) else 0) l).

(** What [handleEvent] of a class needs of a message. *)
Definition readable (k : cmd_class) (ev : event) : Prop :=
  match k, get_vendor_data ev with
  | RttCommand _ st, Some d =>
      Forall rtt_attr_ok (nla_attrs d) /\ zlen (rttResults st) + results_of (nla_attrs d) <= MAX_RTT_RESULTS
  | RttCommand _ _, None => False
  | SetRSSIMonitorCommand _ _, Some d => d = [] \/ is_Some (rssi_event d)
  | ScanCommand _, Some d =>
      is_Some (full_scan_result d) /\ is_Some (nla_len_of d) /\ (nla_len_of d = Some 8 -> 8 <= zlen d)
  | FullScanResultsCommand, Some d => is_Some (full_scan_result d)
  | BssidHotlistCommand _, Some d => d = [] \/ is_Some (hotlist_results sizeof_wifi_scan_result d)
  | ePNOCommand _, Some d => d = [] \/ is_Some (epno_results MAX_EPNO_NETWORKS d)
  | SignificantWifiChangeCommand _, Some d => d = [] \/ is_Some (change_results d)
  | AnqpoConfigureCommand _, _ => False (* never active: the class is not exported *)
  | _, None => True
  end.

Definition is_rtt (k : cmd_class) : bool := match k with RttCommand _ _ => true | _ => false end.

Lemma within_notify c n (P : unit -> hal -> Prop) g : P tt g -> within (on_behalf (mId c)) (notify answer c n) P g.
Proof. intros HP. unfold notify. by do 3 wi_step. Qed.

Lemma within_free_results id l (P : unit -> hal -> Prop) g : P tt g -> within (on_behalf id) (free_results answer l) P g.
Proof. intros HP. induction l as [|r l IH]; cbn [free_results]; [by wi_step|by do 2 wi_step]. Qed.

Lemma handle_full_scan_spec c ev (P : unit -> hal -> Prop) g :
  is_Some (get_vendor_subcmd ev) -> (forall d, get_vendor_data ev = Some d -> is_Some (full_scan_result d)) ->
  P tt g -> within (on_behalf (mId c)) (wifi_handle_full_scan_event answer c ev) P g.
Proof.
  intros [s Es] Hr HP. unfold wifi_handle_full_scan_event. wi_step. eapply within_lift; [exact Es|].
  destruct (get_vendor_data ev) as [d|]; [|by wi_step]. destruct (zlen d <? _); [by wi_step|].
  destruct (negb _); [by wi_step|]. destruct (Hr d eq_refl) as [[[r b]|] Er]; wi_step; (eapply within_lift; [exact Er|]).
  - do 3 wi_step. destruct (_ =? 0); [by wi_step|]. wi_step. apply within_notify. by do 3 wi_step.
  - by do 2 wi_step.
Qed.

(** Every class but the measurements: the client of the command is told, and nothing else changes. *)
Lemma handle_plain p c ev :
  is_Some (get_vendor_subcmd ev) -> readable (mClass c) ev -> is_rtt (mClass c) = false ->
  exists m : IO unit, handle_as answer nla_attrs p c ev = m /\ forall g, within (on_behalf (mId c)) m (fun _ g' => g' = g) g.
Proof.
  intros Hsub Hr Hrtt. pose proof Hsub as [s Es]. unfold readable in Hr. unfold handle_as.
  destruct (mClass c) as [mx mn| |ps|ps|ps|ps|ps|ps st]; try done; eexists; (split; [reflexivity|]); intros g.
  - unfold handle_rssi. destruct (get_vendor_data ev) as [[|x d]|]; [by wi_step| |by wi_step].
    destruct Hr as [?|[r Er]]; [done|]. wi_step. eapply within_lift; [exact Er|]. destruct r as [[b r]|]; cbn match; [by apply within_notify|by wi_step].
  - apply handle_full_scan_spec; [done| |done]. intros d Ed. by rewrite Ed in Hr.
  - unfold handle_scan. wi_step. eapply within_lift; [exact Es|]. destruct (_ || _).
    + destruct (get_vendor_data ev) as [d|]; [|by wi_step]. destruct Hr as (_ & [n En] & Hn). wi_step. eapply within_lift; [exact En|].
      destruct (Z.eqb_spec n 8) as [->|]; cbn [negb]; [|by wi_step]. destruct (uint_some 4 d NLA_HDRLEN) as [v Ev];
        [lia|unfold NLA_HDRLEN; lia|specialize (Hn En); unfold NLA_HDRLEN; lia|]. wi_step. eapply within_lift; [exact Ev|]. by apply within_notify.
    + destruct (_ =? _); [|by wi_step]. apply handle_full_scan_spec; [done| |done]. intros d Ed. rewrite Ed in Hr. tauto.
  - unfold handle_hotlist. wi_step. eapply within_lift; [exact Es|]. destruct (get_vendor_data ev) as [[|x d]|]; [by wi_step| |by wi_step].
    destruct Hr as [?|[r Er]]; [done|]. wi_step. eapply within_lift; [exact Er|].
    destruct (_ =? _); [by apply within_notify|]. destruct (_ =? _); [by apply within_notify|by wi_step].
  - unfold handle_epno. wi_step. eapply within_lift; [exact Es|]. destruct (get_vendor_data ev) as [[|x d]|]; [by wi_step| |by wi_step].
    destruct Hr as [?|[r Er]]; [done|]. wi_step. eapply within_lift; [exact Er|]. by apply within_notify.
  - unfold handle_change. destruct (get_vendor_data ev) as [[|x d]|]; [by wi_step| |by wi_step].
    destruct Hr as [?|[r Er]]; [done|]. wi_step. eapply within_lift; [exact Er|]. destruct r as [[|y rs]|]; cbn match; [by wi_step|by apply within_notify|by wi_step].
Qed.

Lemma handleEvent_plain p c ev g :
  is_Some (get_vendor_subcmd ev) -> readable (mClass c) ev -> is_rtt (mClass c) = false -> objects g !! p = Some c ->
  within (on_behalf (mId c)) (run (handleEvent answer nla_attrs p ev)) (fun _ g' => g' = g) g.
Proof.
  intros Hsub Hr Hrtt Ho. unfold handleEvent. wi_step. eapply within_pure; [by rewrite Ho|].
  destruct (handle_plain p c ev Hsub Hr Hrtt) as (m & -> & Hm). by wi_step.
Qed.

Lemma results_in_cons ty d l :
  results_in ((ty, d) :: l) = (if ty =? RTT_ATTRIBUTE_RESULT then 1 else 0) + results_in l.
Proof.
  unfold results_in, zlen. rewrite filter_cons. cbn [fst]. destruct (Z.eqb_spec ty RTT_ATTRIBUTE_RESULT).
  - rewrite decide_True by done. cbn [length]. lia.
  - by rewrite decide_False.
Qed.

Lemma results_in_nonneg l : 0 <= results_in l.
Proof. unfold results_in, zlen. lia. Qed.

Lemma rtt_target_spec id attrs st g :
  Forall target_ok attrs -> zlen (rttResults st) + results_in attrs <= MAX_RTT_RESULTS ->
  within (on_behalf id) (rtt_target answer attrs st)
    (fun st' g' => g' = g /\ zlen (rttResults st') <= zlen (rttResults st) + results_in attrs) g.
Proof.
  intros Hok. revert st. induction Hok as [|[ty d] attrs (Hm & Hc & Hr) Hok IH]; intros st Hl; cbn [rtt_target].
  { wi_step. split; [done|]. pose proof (results_in_nonneg []). lia. }
  cbn [fst snd] in Hm, Hc, Hr. rewrite results_in_cons in *. pose proof (results_in_nonneg attrs) as Hnn.
  destruct (Z.eqb_spec ty RTT_ATTRIBUTE_TARGET_MAC) as [->|].
  { specialize (Hm eq_refl). wi_step. eapply within_lift; [by apply octets_some; lia|]. by apply IH. }
  destruct (Z.eqb_spec ty RTT_ATTRIBUTE_RESULT_CNT) as [->|].
  { specialize (Hc eq_refl). destruct (uint_some 4 d 0) as [v Ev]; [lia..|]. wi_step. eapply within_lift; [exact Ev|]. by apply IH. }
  destruct (Z.eqb_spec ty RTT_ATTRIBUTE_RESULT) as [->|]; [|by apply IH].
  rewrite (proj2 (Z.leb_gt _ _)) by lia. wi_step. apply within_call; [done|]. intros m. destruct (_ =? 0).
  - wi_step. cbn [rttResults]. split; [done|lia].
  - destruct (Hr eq_refl (rv m)) as [r Er]. wi_step. eapply within_lift; [exact Er|]. eapply within_mono; [apply IH|].
    + cbn [rttResults]. unfold zlen in *. rewrite length_app. cbn [length]. lia.
    + cbn beta. cbn [rttResults]. intros st' g' [-> Hl']. split; [done|]. unfold zlen in *. rewrite length_app in Hl'.
      cbn [length] in Hl'. lia.
Qed.

Lemma rtt_attrs_spec id attrs st g :
  Forall rtt_attr_ok attrs -> zlen (rttResults st) + results_of attrs <= MAX_RTT_RESULTS ->
  within (on_behalf id) (rtt_attrs answer nla_attrs attrs st) (fun st' g' => g' = g) g.
Proof.
  intros Hok. revert st. induction Hok as [|[ty d] attrs [Hc Ht] Hok IH]; intros st Hl; cbn [rtt_attrs]; [by wi_step|].
  cbn [fst snd] in Hc, Ht. unfold results_of in Hl. cbn [map fst snd] in Hl. rewrite zsum_cons in Hl.
  fold (results_of attrs) in Hl. destruct (Z.eqb_spec ty RTT_ATTRIBUTE_RESULTS_COMPLETE) as [->|].
  { specialize (Hc eq_refl). destruct (uint_some 4 d 0) as [v Ev]; [lia..|]. wi_step. eapply within_lift; [exact Ev|].
    apply IH. cbn [rttResults]. change (RTT_ATTRIBUTE_RESULTS_COMPLETE =? RTT_ATTRIBUTE_RESULTS_PER_TARGET) with false in Hl. cbn match in Hl. lia. }
  destruct (Z.eqb_spec ty RTT_ATTRIBUTE_RESULTS_PER_TARGET) as [->|]; [|apply IH; lia].
  specialize (Ht eq_refl). wi_step.
  assert (0 <= results_of attrs) as Hnn.
  { apply zsum_nonneg, List.Forall_map, List.Forall_forall. intros [ty' d'] _. cbn. destruct (ty' =? _); [apply results_in_nonneg|lia]. }
  eapply within_mono; [apply rtt_target_spec; [done|lia]|]. cbn beta. intros st' g' [-> Hl']. apply IH. lia.
Qed.

(** ** Dispatch *)

(** The command an event is for. *)
Definition listens (ev : event) (a : active) : bool :=
  a_armed a && (ev_cmd ev =? NL80211_CMD_VENDOR)
  && bool_decide (get_vendor_id ev = Some GOOGLE_OUI)
  && existsb (fun e => bool_decide (get_vendor_subcmd ev = Some e)) (start_events (a_class a)).

Definition target (ev : event) (l : list active) : option active := find (listens ev) l.

(** The vendor and the subcommand of a vendor event can be read. *)
Definition ids_ok (ev : event) : Prop := is_Some (get_vendor_id ev) /\ is_Some (get_vendor_subcmd ev).

Lemma find_app {A} (f : A -> bool) l k : find f (l ++ k) = match find f l with Some x => Some x | None => find f k end.
Proof. induction l as [|x l IH]; cbn; [done|]. destruct (f x); [done|apply IH]. Qed.

Lemma find_handlers (ev : event) vendor subcmd l :
  get_vendor_id ev = Some vendor -> get_vendor_subcmd ev = Some subcmd -> ev_cmd ev = NL80211_CMD_VENDOR ->
  find (handler_matches NL80211_CMD_VENDOR vendor subcmd) (cbs_of l)
  = match target ev l with Some a => Some (handler (a_ptr a) subcmd) | None => None end.
Proof.
  intros Ev Es Ec. unfold target. induction l as [|a l IH]; [done|]. unfold cbs_of. cbn [map concat find]. rewrite find_app.
  fold (cbs_of l). rewrite IH. unfold listens at 2. rewrite Ec, Z.eqb_refl, Ev, Es.
  unfold handlers_of. destruct (a_armed a); cbn [andb]; [|done].
  assert (forall e, handler_matches NL80211_CMD_VENDOR vendor subcmd (handler (a_ptr a) e)
    = bool_decide (Some vendor = Some GOOGLE_OUI) && bool_decide (Some subcmd = Some e)) as Hm.
  { intros e. unfold handler_matches, handler. cbn [nl_cmd vendor_id vendor_subcmd]. rewrite Z.eqb_refl. cbn [andb].
    rewrite negb_orb, !negb_involutive. f_equal; (apply eq_true_iff_eq; rewrite Z.eqb_eq, bool_decide_eq_true; split; [by intros ->|by intros [= ->]]). }
  generalize (start_events (a_class a)). intros es. induction es as [|e es IHe]; cbn [map find existsb]; [by rewrite andb_false_r|].
  rewrite Hm. destruct (bool_decide (Some vendor = Some GOOGLE_OUI)) eqn:Eb; cbn [andb] in *.
  - destruct (bool_decide_reflect (Some subcmd = Some e)) as [[= ->]|]; cbn [orb]; [done|apply IHe].
  - exact IHe.
Qed.

Lemma find_no_vendor cmd vendor subcmd l :
  cmd <> NL80211_CMD_VENDOR -> find (handler_matches cmd vendor subcmd) (cbs_of l) = None.
Proof.
  intros Hc. unfold cbs_of. induction l as [|a l IH]; cbn [map concat]; [done|]. rewrite find_app, IH.
  unfold handlers_of. destruct (a_armed a); [|done]. induction (start_events (a_class a)) as [|e es IHe]; cbn [map find]; [done|].
  unfold handler_matches at 1, handler at 1. cbn [nl_cmd]. by rewrite (proj2 (Z.eqb_neq _ _)).
Qed.

(** *** The registry inside of an event *)
Lemma within_set_objects T (f : hal -> option (unit * hal)) v o (P : unit -> hal -> Prop) g :
  mem v g -> f g = Some (tt, with_objects g o) -> (forall g, mem (set_objs v o) g -> P tt g) ->
  within (C := wcall) (R := wresp) T (io_pure f) P g.
Proof.
  intros [Hok Hv] Hf HP. eapply within_pure; [exact Hf|]. apply HP. split; [exact Hok|].
  unfold view_of in *. cbn [objects info with_objects]. by rewrite <- Hv.
Qed.

Lemma within_unregister T e v (P : unit -> hal -> Prop) g :
  mem v g -> (forall g, mem (set_cbs v (remove_first (for_vendor GOOGLE_OUI e) (cbs v))) g -> P tt g) ->
  within (C := wcall) (R := wresp) T (run (unregisterVendorHandler e)) P g.
Proof.
  intros [Hok Hv] HP. apply within_silent. intros tr. apply wp_unregister_vendor_handler; [done|]. cbn [globals]. rewrite Hv.
  intros h Hh Ev. split; [|done]. apply HP. by split.
Qed.

Lemma within_unregister_cmd T id v (P : Z -> hal -> Prop) g :
  mem v g ->
  (forall g, mem (set_cmds v (remove_first (has_id id) (cmds v))) g -> P (ptr_of (find (has_id id) (cmds v))) g) ->
  within (C := wcall) (R := wresp) T (wifi_unregister_cmd id) P g.
Proof.
  intros [Hok Hv] HP. apply within_silent. intros tr. apply wp_unregister_cmd; [done|]. cbn [globals]. rewrite Hv.
  intros h Hh Ev. split; [|done]. apply HP. by split.
Qed.

Definition set_class (a : active) (k : cmd_class) : active := mk_active (a_id a) (a_ptr a) k (a_iface a) (a_armed a).

(** The memory while an event of [a] is handled: its object has the reference of the dispatcher, too. *)
Definition handling (v : view) (l : list active) (a : active) (n : Z) (g : hal) : Prop :=
  mem (set_objs (view_for v l) (<[a_ptr a := set_refs (object_of a) n]> (objs_of l))) g.

Lemma set_class_distinct l1 a l2 k :
  distinct (l1 ++ a :: l2) -> exported k = true -> kind k = kind (a_class a) -> distinct (l1 ++ set_class a k :: l2).
Proof.
  intros (Hi & Hp & Hc & He) Hk Ek. unfold distinct. rewrite !map_app in *. cbn [map] in *. cbn [set_class a_id a_ptr a_class].
  rewrite Ek. split; [done|]. split; [done|]. split; [done|]. apply list.Forall_app in He as [He1 He2].
  apply list.Forall_app. split; [done|]. apply Forall_cons_1 in He2 as [[_ Hnz] He2]. by apply Forall_cons.
Qed.

Lemma view_set_class v l1 a l2 k :
  start_events k = start_events (a_class a) ->
  distinct (l1 ++ a :: l2) ->
  view_for v (l1 ++ set_class a k :: l2)
  = set_objs (view_for v (l1 ++ a :: l2)) (<[a_ptr a := object_of (set_class a k)]> (objs_of (l1 ++ a :: l2))).
Proof.
  intros Es (_ & _ & Ho & _)%distinct_app. unfold view_for, set_objs. cbn [cbs cmds objs rest].
  rewrite !cbs_of_app, !cmds_of_app. unfold cbs_of at 2 4. cbn [map concat]. unfold handlers_of at 1 3. cbn [set_class a_armed a_class a_ptr].
  rewrite Es. assert (Forall (fun b => a_ptr a <> a_ptr b) (l1 ++ l2)) as Hp by (eapply List.Forall_impl; [|apply Ho]; cbn beta; tauto).
  rewrite (objs_of_app l1 a l2 Hp), (objs_of_app l1 (set_class a k) l2 Hp). cbn [set_class a_ptr].
  by rewrite insert_insert_eq.
Qed.

(** What becomes of the active commands when an event of [a] was handled. *)
Inductive handled (l1 : list active) (a : active) (l2 : list active) : list active -> Prop :=
  | handled_plain : is_rtt (a_class a) = false -> handled l1 a l2 (l1 ++ a :: l2)
  | handled_more ps st st' :
      a_class a = RttCommand ps st -> mCompleted st' = 0 -> handled l1 a l2 (l1 ++ set_class a (RttCommand ps st') :: l2)
  | handled_completed ps st : a_class a = RttCommand ps st -> handled l1 a l2 (l1 ++ l2).

Lemma handle_rtt_spec ps st l1 a l2 v ev g :
  distinct (l1 ++ a :: l2) -> a_class a = RttCommand ps st -> a_armed a = true -> readable (a_class a) ev ->
  handling v (l1 ++ a :: l2) a 2 g ->
  within (on_behalf (a_id a)) (run (handle_rtt answer nla_attrs (a_ptr a) (set_refs (object_of a) 2) st ev))
    (fun _ g' => (exists st', mCompleted st' = 0
                    /\ handling v (l1 ++ set_class a (RttCommand ps st') :: l2) (set_class a (RttCommand ps st')) 2 g')
                 \/ (exists st', handling v (l1 ++ l2) (set_class a (RttCommand ps st')) 1 g')) g.
Proof.
  intros Hd Ek Harm Hr Hm. pose proof Hd as (Hx & Hnz & Ho & Hd')%distinct_app. rewrite Ek in Hr. unfold readable in Hr.
  unfold handle_rtt. destruct (get_vendor_data ev) as [d|]; [|done]. destruct Hr as [Hok Hl].
  wi_step. eapply within_mono; [by apply rtt_attrs_spec|]. cbn beta. intros st' g1 ->.
  set (l := l1 ++ a :: l2) in *. set (obj := fun st n => mk_command (RttCommand ps st) (a_id a) (a_iface a) n).
  assert (set_refs (object_of a) 2 = obj st 2) as Eobj by (unfold set_refs, object_of; cbn; by rewrite Ek).
  rewrite Eobj in *. unfold handling in Hm. rewrite Eobj in Hm.
  assert (forall st0 st1 w (Q : unit -> hal -> Prop) g0 x, mem (set_objs w (<[a_ptr a := obj st0 x]> (objs_of l))) g0 ->
    (forall g, mem (set_objs w (<[a_ptr a := obj st1 x]> (objs_of l))) g -> Q tt g) ->
    within (C := wcall) (R := wresp) (on_behalf (a_id a)) (set_rtt (a_ptr a) st1) Q g0) as Hset.
  { intros st0 st1 w Q g0 x Hm0 HQ. eapply within_set_objects; [exact Hm0| |].
    - rewrite (mem_objects _ _ Hm0). cbn [objs set_objs]. rewrite lookup_insert_eq. reflexivity.
    - intros g2 Hm2. apply HQ. rewrite insert_insert_eq in Hm2. exact Hm2. }
  wi_step. eapply Hset; [exact Hm|]. intros g2 Hm2. destruct (Z.eqb_spec (mCompleted st') 0) as [E0|E0]; cbn [negb].
  - wi_step. left. exists st'. split; [done|]. unfold handling. rewrite view_set_class; [|by rewrite Ek|done].
    unfold set_objs. cbn [cbs cmds rest objs]. unfold view_for, set_objs in Hm2. cbn [cbs cmds rest objs] in Hm2.
    cbn [set_class a_ptr]. rewrite objs_of_app; [|eapply List.Forall_impl; [|apply Ho]; cbn beta; tauto].
    unfold l in Hm2. rewrite objs_of_app in Hm2 by (eapply List.Forall_impl; [|apply Ho]; cbn beta; tauto).
    cbn [set_class a_ptr]. rewrite insert_insert_eq in Hm2 |- *. exact Hm2.
  - wi_step. eapply within_unregister; [exact Hm2|]. intros g3 Hm3. cbn [cbs set_objs view_for] in Hm3.
    assert (remove_first (for_vendor GOOGLE_OUI RTT_EVENT_COMPLETE) (cbs_of l) = cbs_of (l1 ++ l2)) as Ec.
    { pose proof (cbs_of_disarm (a_class a) l Hx Hd) as E. rewrite Ek in E. unfold unregister_all in E. cbn [cancel_events start_events fold_left] in E.
      rewrite E. rewrite <- Ek. unfold l. rewrite disarm_split by done. by rewrite !cbs_of_app. }
    rewrite Ec in Hm3. wi_step. apply (within_notify (obj st 2)). wi_step.
    apply within_free_results. wi_step.
    eapply (Hset st' _ (set_cbs (view_for v l) (cbs_of (l1 ++ l2)))); [exact Hm3|]. intros g4 Hm4.
    destruct (cmds_of_remove l1 a l2) as [Ef Er]; [eapply List.Forall_impl; [|apply Ho]; cbn beta; tauto|].
    wi_step. eapply within_unregister_cmd; [exact Hm4|]. cbn [cmds set_cbs set_objs view_for mId obj]. fold l in Ef, Er. rewrite Ef, Er.
    intros g5 Hm5. cbn [ptr_of cmd_ptr]. rewrite (proj2 (Z.eqb_neq _ _)) by done. cbn [negb].
    wi_step. eapply within_set_objects; [exact Hm5| |].
    + rewrite (mem_objects _ _ Hm5). cbn [objs set_cmds set_cbs set_objs]. rewrite lookup_insert_eq. reflexivity.
    + intros g6 Hm6. right. exists (mk_rtt_state (mCompleted st') []). unfold handling, view_for, set_objs. cbn [cbs cmds rest objs].
      unfold set_cmds, set_cbs, set_objs, view_for in Hm6. cbn [cbs cmds rest objs] in Hm6. cbn [set_class a_ptr].
      change (mRefs (obj (mk_rtt_state (mCompleted st') []) 2) - 1 =? 0) with false in Hm6. cbn match in Hm6.
      rewrite insert_insert_eq in Hm6. unfold l in Hm6.
      rewrite objs_of_app in Hm6 by (eapply List.Forall_impl; [|apply Ho]; cbn beta; tauto).
      rewrite insert_insert_eq in Hm6. exact Hm6.
Qed.

(** The dispatcher up to the handler: nothing is found, or the reference is taken and the mutex is free again. *)
Lemma within_found T cmd vendor subcmd l v g (k : cb_info -> prog hal wcall wresp unit) (P : unit -> hal -> Prop) :
  mem (view_for v l) g -> find (handler_matches cmd vendor subcmd) (cbs_of l) = None ->
  (forall g, mem (view_for v l) g -> P tt g) ->
  within T (run (do _ <- lock;
            do e <- on_event_cb (fun t =>
              match table_find (handler_matches cmd vendor subcmd) t with
              | Some (Some (_, e)) => Some (Some e, t) | Some None => Some (None, t) | None => None end);
            match e with None => at_once pthread_mutex_unlock | Some e => k e end)%prog) P g.
Proof.
  intros [Hok Hv] Hf HP. pose proof Hok as (Ht & Ha & Ht2 & Ha2 & Hl). assert (entries (event_cb (info g)) = cbs_of l) as He
    by (apply (f_equal cbs) in Hv; exact Hv).
  wi_step. eapply within_pure; [by rewrite Hl|]. wi_step.
  eapply (within_pure _ _ None _ _); [cbn; rewrite table_find_spec by done|].
  { rewrite find_list_find, He in *. by destruct (list_find _ (cbs_of l)) as [[]|]. }
  cbn match. wi_step. eapply within_pure; [reflexivity|]. apply HP. split; [done|]. unfold view_of in *. cbn. exact Hv.
Qed.

Lemma within_taken T cmd vendor subcmd l v a e g (k : cb_info -> prog hal wcall wresp unit) (P : unit -> hal -> Prop) :
  mem (view_for v l) g -> find (handler_matches cmd vendor subcmd) (cbs_of l) = Some e ->
  cb_arg e = a_ptr a -> a_ptr a <> 0 -> objs_of l !! a_ptr a = Some (object_of a) ->
  (forall g, handling v l a 2 g -> within T (run (k e)) P g) ->
  within T (run (do _ <- lock;
            do e <- on_event_cb (fun t =>
              match table_find (handler_matches cmd vendor subcmd) t with
              | Some (Some (_, e)) => Some (Some e, t) | Some None => Some (None, t) | None => None end);
            match e with
            | None => at_once pthread_mutex_unlock
            | Some e =>
                do _ <- (if negb (cb_arg e =? 0) then at_once (addRef (cb_arg e)) else Ret tt);
                do _ <- pthread_mutex_unlock;
                k e
            end)%prog) P g.
Proof.
  intros [Hok Hv] Hf Harg Hnz Ho HP. pose proof Hok as (Ht & Ha & Ht2 & Ha2 & Hl).
  assert (entries (event_cb (info g)) = cbs_of l) as He by (apply (f_equal cbs) in Hv; exact Hv).
  assert (objects g = objs_of l) as Eo by (apply (f_equal objs) in Hv; exact Hv).
  wi_step. eapply within_pure; [by rewrite Hl|]. wi_step.
  eapply (within_pure _ _ (Some e) _ _); [cbn; rewrite table_find_spec by done|].
  { rewrite find_list_find, He in *. destruct (list_find _ (cbs_of l)) as [[i x]|]; [|done]. cbn in Hf. injection Hf as ->. reflexivity. }
  cbn match. rewrite Harg, (proj2 (Z.eqb_neq _ _)) by done. cbn [negb]. cbn match. wi_step.
  eapply within_pure; [cbn; rewrite Eo, Ho; reflexivity|]. wi_step. eapply within_pure; [reflexivity|]. apply HP.
  split; [done|]. unfold view_of in *. cbn. rewrite <- Hv. unfold view_for, set_objs. cbn [cbs cmds rest]. by rewrite He.
Qed.

(** The reference of the dispatcher is given back. *)
Lemma within_give_back T v l a n g (P : unit -> hal -> Prop) :
  handling v l a n g ->
  (forall g, mem (set_objs (view_for v l)
       (if n - 1 =? 0 then delete (a_ptr a) (<[a_ptr a := set_refs (object_of a) n]> (objs_of l))
        else <[a_ptr a := set_refs (object_of a) (n - 1)]> (objs_of l))) g -> P tt g) ->
  within (C := wcall) (R := wresp) T (run (releaseRef (a_ptr a))) P g.
Proof.
  intros Hm HP. apply within_run_at_once. eapply within_set_objects; [exact Hm| |].
  - rewrite (mem_objects _ _ Hm). cbn [objs set_objs]. rewrite lookup_insert_eq. reflexivity.
  - intros g2 Hm2. apply HP. cbn [mRefs set_refs] in Hm2. destruct (n - 1 =? 0); [exact Hm2|].
    rewrite insert_insert_eq in Hm2. exact Hm2.
Qed.

Lemma target_split ev l a : target ev l = Some a -> a_armed a = true /\ exists l1 l2, l = l1 ++ a :: l2.
Proof.
  intros [Hin Hl]%find_some. split.
  - unfold listens in Hl. by do 3 apply andb_prop in Hl as [Hl _].
  - by apply in_split in Hin.
Qed.

Lemma target_other ev l : ev_cmd ev <> NL80211_CMD_VENDOR -> target ev l = None.
Proof.
  intros Hc. unfold target. induction l as [|a l IH]; cbn [find]; [done|].
  assert (listens ev a = false) as -> by (unfold listens; by rewrite (proj2 (Z.eqb_neq _ _)), andb_false_r by done). exact IH.
Qed.

(** What an event does to the active commands. *)
Definition delivered (ev : event) (l l' : list active) : Prop :=
  match target ev l with
  | None => l' = l
  | Some a => exists l1 l2, l = l1 ++ a :: l2 /\ handled l1 a l2 l'
  end.

Definition told (ev : event) (l : list active) (c : wcall) : Prop :=
  match target ev l with None => False | Some a => on_behalf (a_id a) c end.

Lemma dispatch_spec ev l v g :
  distinct l -> mem (view_for v l) g -> 0 <= ev_parse ev ->
  (ev_cmd ev = NL80211_CMD_VENDOR -> ids_ok ev) ->
  (forall a, target ev l = Some a -> readable (a_class a) ev) ->
  within (told ev l) (run (internal_valid_message_handler answer nla_attrs ev))
    (fun _ g' => exists l', delivered ev l l' /\ distinct l' /\ mem (view_for v l') g') g.
Proof.
  intros Hd Hm Hp Hids Hr. unfold internal_valid_message_handler. rewrite (proj2 (Z.ltb_ge _ _)) by done.
  destruct (Z.eqb_spec (ev_cmd ev) NL80211_CMD_VENDOR) as [Ec|Ec].
  2:{ do 2 (wi_step; eapply within_lift; [reflexivity|]).
      apply (within_found _ _ _ _ l v g); [done|by apply find_no_vendor|]. intros g' Hm'. exists l. unfold delivered.
      by rewrite target_other. }
  destruct (Hids Ec) as [[vendor Ev] [subcmd Es]]. rewrite Ec. wi_step. eapply within_lift; [exact Ev|].
  wi_step. eapply within_lift; [exact Es|]. pose proof (find_handlers ev vendor subcmd l Ev Es Ec) as Hf.
  unfold delivered, told. destruct (target ev l) as [a|] eqn:Et.
  2:{ apply (within_found _ _ _ _ l v g); [done|done|]. intros g' Hm'. by exists l. }
  destruct (target_split _ _ _ Et) as (Harm & l1 & l2 & ->). pose proof Hd as (Hx & Hnz & Ho & Hd')%distinct_app.
  eapply (within_taken _ _ _ _ (l1 ++ a :: l2) v a (handler (a_ptr a) subcmd) g); [done|exact Hf|done|done|by apply objs_of_lookup|].
  intros g1 Hm1. cbn [cb_func cb_arg handler]. wi_step. unfold call_handler. change (EVENT_HANDLER =? 0) with false.
  cbn match. rewrite Z.eqb_refl. unfold event_handler. rewrite (proj2 (Z.ltb_ge _ _)) by done.
  specialize (Hr a eq_refl). destruct (is_rtt (a_class a)) eqn:Ek.
  - destruct (a_class a) as [| | | | | | |ps st] eqn:Ecl; try done. unfold handleEvent, deref. wi_step.
    eapply within_pure; [rewrite (mem_objects _ _ Hm1); cbn [objs set_objs]; rewrite lookup_insert_eq; reflexivity|].
    unfold handle_as. cbn [mClass set_refs object_of]. rewrite Ecl. fold (set_refs (object_of a) 2). rewrite <- Ecl in Hr.
    eapply within_mono; [apply (handle_rtt_spec ps st l1 a l2 v); done|]. cbn beta. rewrite (proj2 (Z.eqb_neq _ _)) by done. cbn [negb].
    intros _ g2 [(st' & E0 & Hm2)|(st' & Hm2)].
    + apply (within_give_back _ v (l1 ++ set_class a (RttCommand ps st') :: l2) (set_class a (RttCommand ps st')) 2 g2); [exact Hm2|]. change (2 - 1 =? 0) with false. cbn match.
      intros g3 Hm3. exists (l1 ++ set_class a (RttCommand ps st') :: l2).
      split; [exists l1, l2; split; [done|]; by eapply handled_more|].
      assert (distinct (l1 ++ set_class a (RttCommand ps st') :: l2)) as Hd2 by (apply set_class_distinct; [done|done|by rewrite Ecl]).
      split; [done|]. rewrite insert_id in Hm3; [exact Hm3|]. exact (objs_of_lookup _ _ _ Hd2).
    + apply (within_give_back _ v (l1 ++ l2) (set_class a (RttCommand ps st')) 1 g2); [exact Hm2|]. change (1 - 1 =? 0) with true. cbn match.
      intros g3 Hm3. exists (l1 ++ l2). split; [exists l1, l2; split; [done|]; by eapply handled_completed|]. split; [done|].
      cbn [set_class a_ptr] in Hm3. rewrite delete_insert_id in Hm3; [exact Hm3|]. apply objs_of_fresh. intros b Hb E.
      rewrite List.Forall_forall in Ho. by destruct (Ho b Hb) as (_ & Hpb & _).
  - eapply within_mono; [apply (handleEvent_plain (a_ptr a) (set_refs (object_of a) 2)); [by eexists|done|done|]|].
    + rewrite (mem_objects _ _ Hm1). cbn [objs set_objs]. by rewrite lookup_insert_eq.
    + cbn beta. intros _ g2 ->. rewrite (proj2 (Z.eqb_neq _ _)) by done. cbn [negb].
      apply (within_give_back _ v (l1 ++ a :: l2) a 2 g1); [exact Hm1|]. change (2 - 1 =? 0) with false. cbn match. intros g3 Hm3.
      exists (l1 ++ a :: l2). split; [exists l1, l2; split; [done|by apply handled_plain]|]. split; [done|].
      rewrite insert_id in Hm3; [exact Hm3|]. exact (objs_of_lookup _ _ _ Hd).
Qed.

End Delivery.

(** A HAL with a measurement of the signal strength that is under way, and an event for it. *)
Definition active0 : active := mk_active 8 1 (SetRSSIMonitorCommand (-50) (-70)) 3 true.

Definition hal1 : hal := mk_hal
  (mk_hal_info 1 2 20 (3, 4) false false 0
    (mk_table (mk_cb 103 GOOGLE_OUI WIFI_EVENT_RSSI_MONITOR EVENT_HANDLER 1 :: repeat cb_blank 63) 1 64) false
    (mk_table (mk_cmd 8 1 :: repeat cmd_blank 63) 1 64) [] 0) {[1 := @object_of active0]}.

Definition rssi_event0 : event :=
  mk_event 0 103 [(195, le_bytes 4 GOOGLE_OUI); (196, le_bytes 4 WIFI_EVENT_RSSI_MONITOR); (197, [12; 0; 7; 0; 1; 200; 1; 2; 3; 4; 5; 6])].

Lemma hal1_stands : @stands_for headers0 hal1 [active0].
Proof.
  split; [unfold hal_ok, table_ok; by vm_compute|]. split; [|by vm_compute]. unfold distinct. cbn [map].
  split; [apply NoDup_singleton|]. split; [apply NoDup_singleton|]. split; [apply NoDup_singleton|].
  apply Forall_cons; [done|apply Forall_nil_2].
Qed.

