(* ===== verification/WifiThreads.v ===== *)
(** The event thread of the Wi-Fi HAL at work while the framework starts and cancels commands: no schedule
    of their steps makes either of them touch an object that is gone, or wait forever. *)
From Stdlib Require Import List.
From stdpp Require Import gmap relations.
From S2P Require Import Prelude Threads WifiState WifiRegistry WifiRequest WifiCommand WifiShared WifiLifecycle WifiEvents.

(** ** The event thread

    The messages that [nl_recvmsgs] hands to the callback of the event socket, one after the other. *)
Section EventThread.
Context `{hal_headers} (answer : list (wcall * wresp) -> wcall -> wresp) (nla_attrs : list Z -> list (Z * list Z)).

Fixpoint handle_events (evs : list event) : prog hal wcall wresp unit :=
  match evs with
  | [] => Ret tt
  | ev :: evs => (do _ <- internal_valid_message_handler answer nla_attrs ev; handle_events evs)%prog
  end.

(** The commands that there may be: those of the interface whose ids are [known], but for measurements, which
    change the tables when they complete. *)
Context (known : Z -> Prop).
Definition settled (k : cmd_class) (id : Z) : Prop := exported k = true /\ is_rtt k = false /\ known id.

Definition for_known (c : wcall) : Prop := exists id, known id /\ on_behalf id c.

Abbreviation Sh := (hal_sharing settled).
Abbreviation safe := (left_safe (C := wcall) (R := wresp) (sharing0 := Sh) for_known).

(** An event whose message holds what the classes that listen to it read. *)
Definition event_ok (ev : event) : Prop :=
  ev_cmd ev = NL80211_CMD_VENDOR -> ids_ok ev
  /\ forall k sub, get_vendor_id ev = Some GOOGLE_OUI -> get_vendor_subcmd ev = Some sub -> In sub (start_events k) ->
       exported k = true -> is_rtt k = false -> readable nla_attrs k ev.

Lemma within_calls {A} (T T' : wcall -> Prop) (m : io hal wcall wresp A) P g :
  (forall c, T c -> T' c) -> within T m P g -> within T' m P g.
Proof.
  intros HT Hm tr. eapply wp_mono; [apply Hm|]. cbn beta. intros a w [HP (tr' & E & Ht)]. split; [done|].
  exists tr'. split; [done|]. eapply List.Forall_impl; [|exact Ht]. intros e. apply HT.
Qed.

Lemma safe_lift_ids {A} (o : option A) a (Q : A -> doing -> Prop) d : o = Some a -> Q a d -> safe (lift o) Q d.
Proof.
  intros Ho HQ. apply left_local with (P := fun x => x = a); [|by intros ? ->].
  intros g h _ _. eapply within_lift; [exact Ho|done].
Qed.

(** *** The steps under the mutex *)
Lemma safe_lock (Q : unit -> doing -> Prop) : Q tt (mk_doing None true None) -> safe lock Q resting.
Proof.
  intros HQ. split.
  - intros g h tr _ ->%hal_seen_nobody [Hi|?]; [|done]. cbn [idle] in Hi. cbn. by rewrite Hi.
  - intros g h _ ->%hal_seen_nobody [tr Hr]. apply negb_true_iff in Hr. cbn [globals] in Hr. eapply within_pure; [by rewrite Hr|].
    exists (mk_doing None true None). split; [|exact HQ]. split; [cbn; by rewrite orb_true_r|]. cbn [in_mutex found holds].
    split; [congruence|]. split; [done|]. done.
Qed.

Lemma same_event_cb h : with_event_cb h (event_cb (info h)) = h.
Proof. by destruct h as [[] o]. Qed.

Definition in_lock (f : option cb_info) : doing := mk_doing None true f.

(** Looking for a handler: what is found listens to the event. *)
Lemma safe_find (p : cb_info -> bool) (Q : option cb_info -> doing -> Prop) :
  Q None (in_lock None) ->
  (forall q sub, q <> 0 -> p (handler q sub) = true -> Q (Some (handler q sub)) (in_lock (Some (handler q sub)))) ->
  safe (on_event_cb (fun t => match table_find p t with
          | Some (Some (_, e)) => Some (Some e, t) | Some None => Some (None, t) | None => None end)) Q (in_lock None).
Proof.
  intros Hnone Hsome. split; [done|]. intros g h [Ht Hls] Hd _. pose proof Hd as (Hi & Hl & _ & Ho).
  assert (event_cb (info h) = event_cb (info g)) as Ee by (by rewrite Hi).
  eapply (within_pure _ _ (find p (entries (event_cb (info g))))).
  { rewrite Ee, table_find_spec, find_list_find by done. destruct (list_find _ _) as [[i x]|]; cbn; rewrite <- Ee, same_event_cb; reflexivity. }
  destruct (find p (entries (event_cb (info g)))) as [e|] eqn:Ef.
  - apply find_some in Ef as [Hin Hp]. rewrite List.Forall_forall in Hls.
    destruct (Hls e Hin) as (q & sub & c & -> & Hnz & _). exists (in_lock (Some (handler q sub))). split; [|by apply Hsome].
    split; [exact Hi|]. split; [exact Hl|]. split; [|exact Ho]. intros e [= <-]. done.
  - exists (in_lock None). by split.
Qed.

Lemma safe_unlock holds0 f (Q : unit -> doing -> Prop) :
  Q tt (mk_doing holds0 false None) -> safe pthread_mutex_unlock Q (mk_doing holds0 true f).
Proof.
  intros HQ. split; [done|]. intros g h _ (Hi & Hl & _ & Ho) _. cbn [in_mutex] in *.
  assert (cb_lock (info g) = false) as Hg by (destruct (cb_lock (info g)); [by discriminate Hl|done]).
  eapply within_pure; [rewrite Hi; cbn; by rewrite orb_true_r|]. exists (mk_doing holds0 false None). split; [|exact HQ].
  split; [cbn; rewrite Hi; cbn; by rewrite Hg|]. split; [by rewrite Hg|]. split; [done|exact Ho].
Qed.

(** The reference is taken while the handler that was found cannot be removed. *)
Lemma safe_addRef q sub (Q : unit -> doing -> Prop) :
  (forall c, settled (mClass c) (mId c) -> In sub (start_events (mClass c)) ->
     Q tt (mk_doing (Some (q, c)) true (Some (handler q sub)))) ->
  safe (addRef q) Q (in_lock (Some (handler q sub))).
Proof.
  intros HQ. split; [done|]. intros g h [Ht Hls] (Hi & Hl & Hf & Ho) _. cbn [in_mutex found holds held_too in_lock] in *.
  destruct (Hf _ eq_refl) as [_ Hin]. rewrite List.Forall_forall in Hls.
  destruct (Hls _ Hin) as (q' & sub' & c & [= <- <-] & Hnz & Hc & Hsub & Hgood & Hr).
  eapply within_pure; [rewrite Ho, Hc; reflexivity|]. exists (mk_doing (Some (q, c)) true (Some (handler q sub))).
  split; [|by apply HQ]. split; [exact Hi|]. split; [exact Hl|]. split; [exact Hf|]. cbn [holds held_too].
  exists (mRefs c). split; [lia|]. split; [done|]. rewrite (proj2 (Z.eqb_neq _ _)) by lia. rewrite Hc. by destruct c.
Qed.

(** *** The steps with the reference *)
Lemma safe_deref_held q c (Q : wifi_command -> doing -> Prop) :
  (forall n, Q (set_refs c n) (mk_doing (Some (q, c)) false None)) -> safe (deref q) Q (mk_doing (Some (q, c)) false None).
Proof.
  intros HQ. split; [done|]. intros g h _ Hd _. pose proof Hd as (_ & _ & _ & (n & Hn & Eo & _)).
  eapply within_pure; [rewrite Eo, lookup_insert_eq; reflexivity|]. eexists. split; [exact Hd|apply HQ].
Qed.

Lemma safe_giveback q c (Q : unit -> doing -> Prop) :
  Q tt resting -> safe (releaseRef q) Q (mk_doing (Some (q, c)) false None).
Proof.
  intros HQ. split; [done|]. intros g h _ (Hi & Hl & _ & (n & Hn & Eo & Eg)) _.
  eapply within_pure; [rewrite Eo, lookup_insert_eq; reflexivity|]. exists resting. split; [|exact HQ]. apply hal_seen_nobody.
  cbn [in_mutex] in Hi. rewrite orb_false_r, with_lock_same in Hi. cbn [mRefs set_refs].
  replace (n + 1 - 1) with n by lia. destruct (Z.eqb_spec n 0) as [->|].
  - rewrite delete_insert_id by done. destruct g, h. cbn in *. by subst.
  - rewrite insert_insert_eq. change (set_refs (set_refs c (n + 1)) n) with (set_refs c n). rewrite insert_id by done. destruct g, h. cbn in *. by subst.
Qed.
(** *** One event *)
Lemma dispatch_safe ev :
  event_ok ev -> safe (internal_valid_message_handler answer nla_attrs ev) (fun _ d => d = resting) resting.
Proof.
  intros Hok. unfold internal_valid_message_handler. destruct (ev_parse ev <? 0) eqn:Ep; [done|]. set (cmd := ev_cmd ev).
  assert (exists vendor subcmd, (if cmd =? NL80211_CMD_VENDOR then get_vendor_id ev else Some 0) = Some vendor
    /\ (if cmd =? NL80211_CMD_VENDOR then get_vendor_subcmd ev else Some 0) = Some subcmd) as (vendor & subcmd & Ev & Es).
  { destruct (Z.eqb_spec cmd NL80211_CMD_VENDOR) as [Ec|]; [|eauto]. destruct (Hok Ec) as [[[v Ev] [s Es]] _]. eauto. }
  apply left_bind, (safe_lift_ids _ vendor); [exact Ev|]. apply left_bind, (safe_lift_ids _ subcmd); [exact Es|].
  apply left_bind, safe_lock, left_bind, safe_find; [by apply safe_unlock|]. intros q sub Hnz Hm. cbn [cb_arg cb_func handler].
  rewrite (proj2 (Z.eqb_neq _ _)) by done. cbn [negb]. cbn match.
  apply andb_prop in Hm as [Hc%Z.eqb_eq Hm]. cbn [nl_cmd vendor_id vendor_subcmd handler] in Hc, Hm. rewrite Hc, Z.eqb_refl in *.
  apply negb_true_iff, orb_false_iff in Hm as [Hv%negb_false_iff Hs%negb_false_iff]. apply Z.eqb_eq in Hv as ->, Hs as ->.
  apply left_bind, safe_addRef. intros c Hgood Hsub. apply left_bind, safe_unlock. unfold call_handler.
  change (EVENT_HANDLER =? 0) with false. rewrite Z.eqb_refl. cbn match. unfold event_handler. rewrite Ep.
  unfold handleEvent. apply left_bind, left_bind, safe_deref_held. intros n. destruct (Hok Hc) as [[_ Hsome] Hr].
  pose proof Hgood as (Hx & Hrtt & Hknown).
  destruct (handle_plain answer nla_attrs q (set_refs c n) ev) as (m & -> & Hw);
    [exact Hsome|exact (Hr _ _ Ev Es Hsub Hx Hrtt)|exact Hrtt|].
  apply left_local with (P := fun _ => True); [|intros [] _; by apply safe_giveback].
  intros g h _ _. eapply within_mono; [eapply within_calls; [|apply Hw]|by intros ? ? ->].
  intros call Hcall. by exists (mId c).
Qed.

Lemma events_safe evs : Forall event_ok evs -> safe (handle_events evs) (fun _ d => d = resting) resting.
Proof.
  induction 1 as [|ev evs Hev Hevs IH]; cbn [handle_events]; [done|]. apply left_bind.
  eapply left_mono; [by apply dispatch_safe|]. by intros _ d ->.
Qed.
End EventThread.

(** ** Both threads *)

(** The ids of the commands that are active and of those the client starts. *)
Definition ids_of (l : list active) (os : list client_op) : list Z :=
  map a_id l ++ concat (map (fun o => match o with Start_command _ id _ => [id] | _ => [] end) os).

Definition without_measurements (l : list active) (os : list client_op) : Prop :=
  Forall (fun a => is_rtt (a_class a) = false) l
  /\ Forall (fun o => match o with Start_command k _ _ => exported k = true /\ is_rtt k = false | _ => True end) os.

Section Main.
Context `{hal_headers} (answer : list (wcall * wresp) -> wcall -> wresp) (patience : nat) (page : Z)
  (alloc_at : list (wcall * wresp) -> gset Z -> Z) (nla_attrs : list Z -> list (Z * list Z)).

Definition both (evs : list event) (os : list client_op) (w : world hal wcall wresp) : threads hal wcall wresp unit (list Z) :=
  mk_threads w (handle_events answer nla_attrs evs) (run_clients answer patience alloc_at os).

Lemma both_start evs os l w known :
  libnl_ok answer page -> kernel_replies answer patience ->
  (forall tr live, alloc_at tr live <> 0 /\ alloc_at tr live ∉ live) ->
  stands_for (globals w) l -> plays os l -> without_measurements l os -> Forall (event_ok nla_attrs) evs ->
  (forall id, In id (ids_of l os) -> known id) ->
  both_safe (sharing0 := hal_sharing (settled known)) (for_known known) (fun _ d => d = resting)
    (fun rs g => exists l', client_steps os l rs l' /\ distinct l' /\ mem (view_for (view_of (globals w)) l') g) (both evs os w).
Proof.
  intros Hnl Hk Hal [Hd Hm]%stands_for_mem Hp [Hl Ho] Hevs Hids. exists (globals w), resting. split; [|split; [|split]].
  - apply (stands_kept _ l _ _ Hd) with (4 := Hm); [|done|done]. rewrite List.Forall_forall in *. intros a Ha.
    destruct Hd as (_ & _ & _ & Hx). rewrite List.Forall_forall in Hx. split; [by apply Hx|]. split; [by apply Hl|].
    apply Hids, in_app_iff. left. by apply in_map.
  - by apply hal_seen_nobody.
  - by apply events_safe.
  - eapply clients_spec; [done..|]. rewrite List.Forall_forall in *. intros o Hin. specialize (Ho o Hin).
    destruct o as [k id iface|id|k id iface|id iface addrs]; try done. destruct Ho as [Hx Hr]. split; [done|]. split; [done|].
    apply Hids, in_app_iff. right. apply in_concat. exists [id]. split; [|by left]. apply in_map_iff. by exists (Start_command k id iface).
Qed.

(** C8. The event thread and the framework at once. While the framework starts and cancels commands other than
    measurements, one after the other and with the discipline of [hal_refines_machine], and the event thread
    handles any events whose messages hold what the classes that listen to them read: whatever the schedule of
    their steps, it comes to an end; no step touches an object that was deleted, or anything else that is not
    there; until both have ended one of them can go on, so neither waits for the mutex in vain; the event thread
    only tells the clients of commands that were active or have been started; and when both have ended,
    the framework was answered as the machine of the active commands allows, and the memory stands for its state. *)
Theorem events_during_calls (evs : list event) (os : list client_op) (l : list active) (w : world hal wcall wresp) :
  libnl_ok answer page -> kernel_replies answer patience ->
  (forall tr live, alloc_at tr live <> 0 /\ alloc_at tr live ∉ live) ->
  stands_for (globals w) l -> plays os l -> without_measurements l os -> Forall (event_ok nla_attrs) evs ->
  Acc (fun t' t => thread_step t t') (both evs os w)
  /\ forall t, rtc thread_step (both evs os w) t ->
    ~ faults (shared t) (left t) /\ ~ faults (shared t) (right t)
    /\ (ended t \/ exists t', thread_step t t')
    /\ (forall w' p', advance (shared t) (left t) = Some (w', p') ->
          exists tr, trace w' = trace (shared t) ++ tr
            /\ Forall (fun e => exists id, In id (ids_of l os) /\ on_behalf id e.1) tr)
    /\ (forall rs, left t = Ret tt -> right t = Ret rs -> exists l',
          client_steps os l rs l' /\ stands_for (globals (shared t)) l'
          /\ rest (view_of (globals (shared t))) = rest (view_of (globals w))).
Proof.
  intros Hnl Hk Hal Hs Hp Hno Hevs. split; [apply threads_terminate|]. intros t Ht.
  pose proof (both_start evs os l w (fun id => In id (ids_of l os)) Hnl Hk Hal Hs Hp Hno Hevs (fun _ h => h)) as Hb.
  eapply both_steps in Hb; [|exact Ht]. destruct (both_defined _ _ _ _ Hb) as [Hdl Hdr].
  split; [exact Hdl|]. split; [exact Hdr|]. split; [|split].
  - eapply (both_progress (sharing0 := hal_sharing _)); [| |exact Hb]; cbn beta.
    + by intros a d ->.
    + by intros rs g (l' & _ & _ & [(_ & _ & _ & _ & Hl) _]).
  - intros w' p' E. by destruct (left_advance _ _ _ _ _ _ Hb E) as [_ Htr].
  - intros rs El Er. destruct (both_ended _ _ _ _ _ _ Hb El Er) as (g & d & _ & Hseen & -> & l' & Hst & Hd' & Hm').
    apply hal_seen_nobody in Hseen. rewrite Hseen. exists l'. split; [exact Hst|]. destruct Hm' as [Hok Ev].
    split; [|by rewrite Ev]. apply stands_for_mem. split; [done|]. split; [done|]. by rewrite Ev.
Qed.
End Main.

(** A measurement of the signal strength under way, an event for it, and a client that starts a scan and
    cancels the measurement. *)
Definition script1 : list client_op := [Start_command scan0 7 3; Cancel_command 8].

Lemma rssi_event0_ok : @event_ok headers0 (fun _ => []) rssi_event0.
Proof.
  intros _. split; [split; eexists; vm_compute; reflexivity|].
  intros k sub _ Es Hin Hx _. vm_compute in Es. injection Es as <-.
  destruct k; cbn in Hin; repeat destruct Hin as [Hin|Hin]; try discriminate Hin; try destruct Hin.
  right. eexists. vm_compute. reflexivity.
Qed.

Lemma script1_plays : @plays headers0 script1 [active0].
Proof.
  unfold script1. cbn [plays]. split.
  - split; [done|]. apply Forall_cons; [|apply Forall_nil_2]. by split.
  - intros r l' _. split; [done|]. by intros r' l2 _.
Qed.

Lemma script1_settled : without_measurements [active0] script1.
Proof. split; repeat constructor. Qed.

(** The scan is started and the measurement cancelled while the event thread has found the handler of the
    measurement, whose object it holds: the client is told, and the object is deleted by the event thread. *)
Definition schedule1 : list bool := repeat true 6 ++ repeat false 29 ++ repeat true 3.

Definition results {A B} (t : threads hal wcall wresp A B) : option (A * B) :=
  match left t, right t with Ret a, Ret b => Some (a, b) | _, _ => None end.

Lemma results_ended {A B} (t : threads hal wcall wresp A B) a b : results t = Some (a, b) -> left t = Ret a /\ right t = Ret b.
Proof. unfold results. destruct (left t), (right t); try done. by intros [= -> ->]. Qed.

Lemma events_during_calls_witness : exists t l',
  rtc thread_step (@both headers0 answer0 1 alloc0 (fun _ => []) [rssi_event0] script1 (World hal1 [])) t
  /\ right t = Ret [0; 0] /\ @stands_for headers0 (globals (shared t)) l'.
Proof.
  assert ((fun t => results t) <$> schedule schedule1 (@both headers0 answer0 1 alloc0 (fun _ => []) [rssi_event0] script1 (World hal1 []))
          = Some (Some (tt, [0; 0]))) as Hs by (vm_compute; reflexivity).
  destruct (schedule schedule1 _) as [t|] eqn:Et; [|discriminate Hs]. injection Hs as Hs.
  destruct (results_ended t tt [0; 0] Hs) as [El Er]. apply schedule_steps in Et.
  destruct (@events_during_calls headers0 answer0 1 4096 alloc0 (fun _ => []) [rssi_event0] script1 [active0] (World hal1 [])
    answer0_libnl answer0_replies alloc0_fresh hal1_stands script1_plays script1_settled
    (Forall_cons_2 _ _ _ rssi_event0_ok (Forall_nil_2 _))) as [_ Hall].
  destruct (Hall t Et) as (_ & _ & _ & _ & Hend). destruct (Hend [0; 0] El Er) as (l' & _ & Hl' & _).
  exists t, l'. split; [exact Et|]. split; [exact Er|exact Hl'].
Defined.

(** ** Measurements

    The event thread takes a measurement that completes out of the tables after it has told the client. *)
Definition measurement0 : active := mk_active 7 1 (RttCommand [] rtt_state0) 3 true.

Definition hal2 : hal := mk_hal
  (mk_hal_info 1 2 20 (3, 4) false false 0
    (mk_table (mk_cb 103 GOOGLE_OUI RTT_EVENT_COMPLETE EVENT_HANDLER 1 :: repeat cb_blank 63) 1 64) false
    (mk_table (mk_cmd 7 1 :: repeat cmd_blank 63) 1 64) [] 0) {[1 := @object_of measurement0]}.

Definition complete_event0 : event :=
  mk_event 0 103 [(195, le_bytes 4 GOOGLE_OUI); (196, le_bytes 4 RTT_EVENT_COMPLETE); (197, [0; 0; 0; 0])].
Definition complete_attrs0 (_ : list Z) : list (Z * list Z) := [(RTT_ATTRIBUTE_RESULTS_COMPLETE, le_bytes 4 1)].

(** A kernel that refuses every request. *)
Definition refusing0 (tr : list (wcall * wresp)) (c : wcall) : wresp :=
  match c with Cnl_recvmsgs _ => mk_resp 0 0 [CbError (-16)] [] | _ => answer0 tr c end.

Definition faulty {A} (w : world hal wcall wresp) (p : prog hal wcall wresp A) : bool :=
  match p with
  | Ret _ => false
  | Step ready m _ => ready w && match m w with None => true | Some _ => false end
  end.

Lemma faulty_faults {A} w (p : prog hal wcall wresp A) : faulty w p = true -> faults w p.
Proof.
  destruct p as [a|X ready m k]; cbn; [done|]. intros [Hr Hm]%andb_prop. split; [done|]. by destruct (m w) as [[]|].
Qed.

Lemma hal2_stands : @stands_for headers0 hal2 [measurement0].
Proof.
  split; [unfold hal_ok, table_ok; by vm_compute|]. split; [|by vm_compute]. unfold distinct. cbn [map].
  split; [apply NoDup_singleton|]. split; [apply NoDup_singleton|]. split; [apply NoDup_singleton|].
  apply Forall_cons; [done|apply Forall_nil_2].
Qed.

(** The client is told the results of the measurement 7, and asks for another with the same id, which the kernel
    refuses: [wifi_unregister_cmd] takes the old object out of the table instead of the new one, which is
    deleted, and the event thread, looking for its own, finds and releases the deleted one. *)
Theorem measurement_with_same_id_faults :
  let t0 := @both headers0 refusing0 1 alloc0 complete_attrs0 [complete_event0]
              [Start_command (RttCommand [] rtt_state0) 7 3] (World hal2 []) in
  (fun t => map fst (trace (shared t))) <$> schedule (repeat true 15) t0 = Some [Con_event 7 (On_rtt_results [])]
  /\ (fun t => faulty (shared t) (left t)) <$> schedule (repeat true 15 ++ repeat false 8 ++ [true]) t0 = Some true.
Proof. split; vm_compute; reflexivity. Qed.

(** The client cancels a measurement while its results are being handled, and starts another one: the event
    thread takes the handler of the new one for that of its own. Both calls succeed, the new measurement is in
    the table of commands, and no event will ever be delivered to it. *)
Theorem cancelled_measurement_disarms_next :
  let t0 := @both headers0 answer0 1 alloc0 complete_attrs0 [complete_event0]
              [Range_cancel 7 3 []; Start_command (RttCommand [] rtt_state0) 8 3] (World hal2 []) in
  (fun t => (match left t, right t with Ret _, Ret rs => rs | _, _ => [] end, map cmd_id (cmds (view_of (globals (shared t)))),
             cbs (view_of (globals (shared t)))))
    <$> schedule (repeat true 9 ++ repeat false 18 ++ repeat true 9) t0 = Some ([0; 0], [8], []).
Proof. vm_compute. reflexivity. Qed.
