(* ===== verification/WifiQuery.v ===== *)
(** The queries of the Wi-Fi HAL: commands that live for one request and take what they want from the
    replies (GetCapabilitiesCommand, GetChannelListCommand and GetScanResultsCommand of gscan.cpp,
    GetFeatureSetCommand, SetCountryCodeCommand and GetMulticastIdCommand of wifi_hal.cpp, the commands of
    rtt.cpp that are not measurements). *)
From Stdlib Require Import String List.
From stdpp Require Import gmap.
From S2P Require Import Prelude Threads WifiState WifiRegistry WifiRequest WifiCommand WifiShared WifiLifecycle WifiEvents.

(** [memcpy] to the beginning of [to]. *)
Definition overlay (to from : list Z) : list Z := from ++ drop (length from) to.

(** [strncmp(a, b, n) == 0]; [None]: an access behind the end of one of them. *)
Fixpoint strncmp_eq (n : nat) (a b : list Z) : option bool :=
  match n with
  | O => Some true
  | S n =>
      match a, b with
      | x :: a, y :: b =>
          if x =? y then if x =? 0 then Some true else strncmp_eq n a b else Some false
      | _, _ => None
      end
  end.

Section Queries.
Context `{hal_headers} (answer : list (wcall * wresp) -> wcall -> wresp) (patience : nat).
(** What libnl's [nla_ok] and [nla_next] walk through, and the table [nla_parse] fills. *)
Context (nla_attrs nla_parse : list Z -> list (Z * list Z)).
Abbreviation IO := (io hal wcall wresp).

(** [command.requestResponse()] of a local variable: the request is created and sent, [h] is its
    [handleResponse], and the destructor runs. *)
Definition query {S} (create_request : Z -> IO (Z * Z)) (h : event -> S -> option S) (s : S) : IO (Z * S) :=
  with_request answer (fun rq =>
    do p <- create_request rq;
    if p.1 <? 0 then io_ret ((p.1, s), p.2)
    else do r <- requestResponse answer patience (fun s ev => lift (h ev s)) s p.2; io_ret (r, p.2)).

(** Replies that are no vendor commands are skipped. *)
Definition vendor_reply {S} (ev : event) (s : S) (k : option S) : option S :=
  if negb (ev_cmd ev =? NL80211_CMD_VENDOR) then Some s
  else _ ← get_vendor_id ev; _ ← get_vendor_subcmd ev; k.

(** ** Capabilities *)

(** The vendor data is taken for an attribute, NULL or not. *)
Definition capabilities_response (attr size : Z) (ev : event) (s : list Z) : option (list Z) :=
  vendor_reply ev s (
    _ ← get_u32 ev NL80211_ATTR_WIPHY; _ ← get_u32 ev NL80211_ATTR_IFINDEX;
    d ← get_vendor_data ev;
    ty ← nla_type_of d;
    if ty =? attr then
      p ← octets d NLA_HDRLEN (Z.min (zlen d - NLA_HDRLEN) size); Some (overlay s p)
    else Some s).

Definition zeros (n : Z) : list Z := repeat 0 (Z.to_nat n).

Definition wifi_get_gscan_capabilities (iface : Z) : IO (Z * list Z) :=
  query (fun rq => create_vendor answer rq iface GOOGLE_OUI GSCAN_SUBCMD_GET_CAPABILITIES)
    (capabilities_response GSCAN_ATTRIBUTE_CAPABILITIES sizeof_wifi_gscan_capabilities) (zeros sizeof_wifi_gscan_capabilities).

Definition wifi_get_rtt_capabilities (iface : Z) : IO (Z * list Z) :=
  query (fun rq => create_vendor answer rq iface GOOGLE_OUI RTT_SUBCMD_GETCAPABILITY)
    (capabilities_response RTT_ATTRIBUTE_CAPABILITIES sizeof_wifi_rtt_capabilities) (zeros sizeof_wifi_rtt_capabilities).

(** ** The responder of measurements; the hint and the duration are not sent. *)
Definition responder_response (ev : event) (s : list Z) : option (list Z) :=
  vendor_reply ev s
    match get_vendor_data ev with
    | None => Some s
    | Some d => p ← octets d 0 (Z.min (zlen d) sizeof_wifi_rtt_responder); Some (overlay s p)
    end.

Definition wifi_rtt_get_responder_info (iface : Z) : IO (Z * list Z) :=
  query (fun rq => create_vendor answer rq iface GOOGLE_OUI RTT_SUBCMD_GETAVAILCHANNEL)
    responder_response (zeros sizeof_wifi_rtt_responder).

Definition wifi_enable_responder (iface : Z) : IO (Z * list Z) :=
  query (fun rq => create_vendor answer rq iface GOOGLE_OUI RTT_SUBCMD_SET_RESPONDER)
    responder_response (zeros sizeof_wifi_rtt_responder).

Definition ignore_response (ev : event) (s : unit) : option unit := Some s.

Definition wifi_disable_responder (iface : Z) : IO Z :=
  do r <- query (fun rq => create_vendor answer rq iface GOOGLE_OUI RTT_SUBCMD_CANCEL_RESPONDER) ignore_response tt;
  io_ret r.1.

(** ** The country code *)
Definition wifi_set_country_code (iface : Z) (code : list Z) : IO Z :=
  do r <- query (fun rq => build answer false rq iface WIFI_SUBCMD_SET_COUNTRY_CODE
                             (vendor_data [put_string WIFI_ATTRIBUTE_COUNTRY_CODE code])) ignore_response tt;
  io_ret r.1.

(** ** The list of channels: the array as octets, and [*num_channels]. *)
Record channel_list := mk_channel_list { mChannels : list Z; mNumOfChannel : Z }.

Fixpoint channel_attrs (mMaxChannels : Z) (attrs : list (Z * list Z)) (num_channels : Z) (s : channel_list) : option channel_list :=
  match attrs with
  | [] => Some s
  | (ty, d) :: attrs =>
      if ty =? WIFI_ATTRIBUTE_NUM_CHANNELS then
        v ← u32_at d 0;
        let num := if mMaxChannels <? i32 v then mMaxChannels else i32 v in
        channel_attrs mMaxChannels attrs num (mk_channel_list (mChannels s) num)
      else if (ty =? WIFI_ATTRIBUTE_CHANNEL_LIST) && negb (num_channels =? 0) then
        p ← octets d 0 (sizeof_wifi_channel * num_channels);
        channel_attrs mMaxChannels attrs num_channels (mk_channel_list (overlay (mChannels s) p) (mNumOfChannel s))
      else channel_attrs mMaxChannels attrs num_channels s
  end.

(** The first two channels are logged. *)
Definition channels_response (mMaxChannels : Z) (ev : event) (s : channel_list) : option channel_list :=
  vendor_reply ev s
    match get_vendor_data ev with
    | None | Some [] => Some s
    | Some d =>
        s ← channel_attrs mMaxChannels (nla_attrs d) 0 s;
        _ ← octets (mChannels s) 0 (2 * sizeof_wifi_channel);
        Some s
    end.

Definition wifi_get_valid_channels (iface band max_channels num_channels : Z) : IO (Z * channel_list) :=
  query (fun rq => build answer true rq iface WIFI_SUBCMD_GET_CHANNEL_LIST (vendor_data [put_u32 WIFI_ATTRIBUTE_BAND band]))
    (channels_response max_channels) (mk_channel_list (zeros (sizeof_wifi_channel * max_channels)) num_channels).

(** ** Feature sets

    [None]: a NULL pointer. *)
Record features := mk_features { fs_set : option (list Z); fs_matrix : option (list Z); fs_size : option Z }.

Fixpoint matrix_attrs (max : Z) (attrs : list (Z * list Z)) (num i : Z) (matrix : list Z) (size : Z) : option (list Z * Z) :=
  match attrs with
  | [] => Some (matrix, size)
  | (ty, d) :: attrs =>
      if ty =? WIFI_ATTRIBUTE_NUM_FEATURE_SET then
        v ← u32_at d 0;
        let num := if negb (max =? 0) && (max <? i32 v) then max else i32 v in
        matrix_attrs max attrs num i matrix num
      else if (ty =? WIFI_ATTRIBUTE_FEATURE_SET) && (i <? num) then
        v ← u32_at d 0; matrix ← aset matrix i v; matrix_attrs max attrs num (i + 1) matrix size
      else matrix_attrs max attrs num i matrix size
  end.

Definition features_response (feature_type set_size_max : Z) (ev : event) (s : features) : option features :=
  vendor_reply ev s
    match get_vendor_data ev with
    | None | Some [] => Some s
    | Some d =>
        if feature_type =? WIFI_ATTRIBUTE_FEATURE_SET then
          match fs_set s with
          | None => Some s
          | Some set =>
              p ← octets d 0 (Z.min (zlen d) sizeof_feature_set);
              Some (mk_features (Some (overlay set p)) (fs_matrix s) (fs_size s))
          end
        else if feature_type =? WIFI_ATTRIBUTE_NUM_FEATURE_SET then
          match fs_matrix s, fs_size s with
          | Some matrix, Some size =>
              '(matrix, size) ← matrix_attrs set_size_max (nla_attrs d) 0 0 matrix size;
              Some (mk_features (fs_set s) (Some matrix) (Some size))
          | _, _ => Some s
          end
        else Some s
    end.

Definition features_create (feature_type iface rq : Z) : IO (Z * Z) :=
  if feature_type =? WIFI_ATTRIBUTE_FEATURE_SET then create_vendor answer rq iface GOOGLE_OUI WIFI_SUBCMD_GET_FEATURE_SET
  else if feature_type =? WIFI_ATTRIBUTE_NUM_FEATURE_SET then
    create_vendor answer rq iface GOOGLE_OUI WIFI_SUBCMD_GET_FEATURE_SET_MATRIX
  else io_ret (-1, rq).

Definition wifi_get_concurrency_matrix (iface set_size_max : Z) (set : option (list Z)) (set_size : option Z) : IO (Z * features) :=
  query (features_create WIFI_ATTRIBUTE_NUM_FEATURE_SET iface)
    (features_response WIFI_ATTRIBUTE_NUM_FEATURE_SET set_size_max) (mk_features None set set_size).

(** [CONFIG_PNO_SUPPORT] is a flag of the build; the property's value comes without its end. *)
Definition wifi_get_supported_feature_set (CONFIG_PNO_SUPPORT : bool) : IO (Z * Z) :=
  do r <- sys answer Cproperty_get;
  let set := if bool_decide (rdata r = str "1") then WIFI_FEATURE_INFRA_5G else 0 in
  let set := Z.lor (Z.lor (Z.lor set WIFI_FEATURE_P2P) WIFI_FEATURE_SOFT_AP) WIFI_FEATURE_TDLS in
  io_ret (WIFI_SUCCESS, if CONFIG_PNO_SUPPORT then Z.lor set WIFI_FEATURE_PNO else set).

(** ** GetScanResultsCommand

    [mScans]: the scans retrieved so far, at most [mMax] of them; the counts are what the code stores. *)
Record cached_scan := mk_cached { cs_scan_id : Z; cs_flags : Z; cs_num_results : Z; cs_buckets : Z; cs_results : list scan_result }.
Record retrieval := mk_retrieval { mScans : list cached_scan; rt_completed : Z }.

(** One result, 88 octets. *)
Definition cached_result (d : list Z) (i : Z) : option scan_result :=
  r ← convert_to_hal_result d (sizeof_gscan_result * i);
  ie ← u32_at d (sizeof_gscan_result * i + 76);
  Some (mk_scan_result (sr_ts r) (sr_ssid r) (sr_bssid r) (sr_channel r) (sr_rssi r) (sr_rtt r) (sr_rtt_sd r)
          (sr_beacon_period r) (sr_capability r) ie []).

(** The attributes of one scan; [None]: an access outside of the memory. *)
Fixpoint scan_attrs (mMax : Z) (attrs : list (Z * list Z)) (scan_id flags num mask : Z) (s : list cached_scan)
  : option (list cached_scan) :=
  match attrs with
  | [] => Some s
  | (ty, d) :: attrs =>
      if ty =? GSCAN_ATTRIBUTE_SCAN_ID then
        v ← u32_at d 0; scan_attrs mMax attrs (i32 v) flags num mask s
      else if ty =? GSCAN_ATTRIBUTE_SCAN_FLAGS then
        v ← u8_at d 0; scan_attrs mMax attrs scan_id v num mask s
      else if ty =? GSCAN_ATTRIBUTE_NUM_OF_RESULTS then
        v ← u32_at d 0; scan_attrs mMax attrs scan_id flags (i32 v) mask s
      else if ty =? GSCAN_ATTRIBUTE_CH_BUCKET_BITMASK then
        v ← u32_at d 0; scan_attrs mMax attrs scan_id flags num (i32 v) s
      else if (ty =? GSCAN_ATTRIBUTE_SCAN_RESULTS) && negb (num =? 0) then
        if mMax <=? zlen s then Some s
        else
          let num := Z.min (Z.min num (zlen d / sizeof_wifi_scan_result)) MAX_AP_CACHE_PER_SCAN in
          rs ← mapM (fun i => cached_result d (Z.of_nat i)) (seq 0 (Z.to_nat num));
          scan_attrs mMax attrs scan_id flags num mask (s ++ [mk_cached scan_id flags num mask rs])
      else scan_attrs mMax attrs scan_id flags num mask s
  end.

Fixpoint results_attrs (mMax : Z) (attrs : list (Z * list Z)) (s : retrieval) : option retrieval :=
  match attrs with
  | [] => Some s
  | (ty, d) :: attrs =>
      if ty =? GSCAN_ATTRIBUTE_SCAN_RESULTS_COMPLETE then
        v ← u8_at d 0; results_attrs mMax attrs (mk_retrieval (mScans s) v)
      else if (GSCAN_ATTRIBUTE_NUM_OF_RESULTS <=? ty) && (ty <=? GSCAN_ATTRIBUTE_CH_BUCKET_BITMASK) then
        l ← scan_attrs mMax (nla_attrs d) 0 0 0 0 (mScans s); results_attrs mMax attrs (mk_retrieval l (rt_completed s))
      else results_attrs mMax attrs s
  end.

(** The vendor data is an attribute, whose contents are walked through; one that is shorter than its header
    has none. *)
Definition scan_contents (d : list Z) : option (list Z) :=
  len ← nla_len_of d; _ ← nla_type_of d;
  if len <? NLA_HDRLEN then Some [] else octets d NLA_HDRLEN (len - NLA_HDRLEN).

Definition scan_results_response (mMax : Z) (ev : event) (s : retrieval) : option retrieval :=
  vendor_reply ev s
    match get_vendor_data ev with
    | None | Some [] => Some s
    | Some d =>
        contents ← scan_contents d;
        results_attrs mMax (nla_attrs contents) s
    end.

(** [execute]: ten requests at most. [None]: the loop is over; [Some r]: an early return. The request
    comes back for its destructor. *)
Fixpoint retrieve (n : nat) (iface mMax flush rq : Z) (s : retrieval) : IO (option Z * retrieval * Z) :=
  match n with
  | O => io_ret (None, s, rq)
  | S n =>
      if mMax <=? zlen (mScans s) then io_ret (None, s, rq)
      else
        do p <- build answer false rq iface GSCAN_SUBCMD_GET_SCAN_RESULTS (scan_results_ops (mMax - zlen (mScans s)) flush);
        if p.1 <? 0 then io_ret (Some p.1, s, p.2)
        else
          do r <- requestResponse answer patience (fun s ev => lift (scan_results_response mMax ev s)) s p.2;
          if not_success r.1 then io_ret (Some r.1, r.2, p.2)
          else if (zlen (mScans r.2) =? zlen (mScans s)) || negb (rt_completed r.2 =? 0) then io_ret (None, r.2, p.2)
          else do _ <- destroy answer p.2; retrieve n iface mMax flush 0 r.2
  end.

Definition execute (iface mMax flush : Z) : IO (Z * option Z * list cached_scan) :=
  with_request answer (fun rq =>
    do x <- retrieve 10 iface mMax flush rq (mk_retrieval [] 0);
    let '(r, s, rq) := x in
    match r with
    | Some e => io_ret (e, None, mScans s, rq)
    | None => io_ret (WIFI_SUCCESS, Some (zlen (mScans s)), mScans s, rq)
    end).

(** The result, what is stored to [*num], and the scans. The object is not registered. *)
Definition wifi_get_cached_gscan_results (iface flush max : Z) : IO (Z * option Z * list cached_scan) :=
  do r <- sys answer Cnew;
  if rv r =? 0 then io_ret (WIFI_ERROR_OUT_OF_MEMORY, None, []) else execute iface max flush.

(** ** The multicast groups of nl80211 *)
Fixpoint find_group (mGroup : list Z) (groups : list (Z * list Z)) (mId : Z) : option Z :=
  match groups with
  | [] => Some mId
  | (_, d) :: groups =>
      let tb := nla_parse d in
      match snd <$> find (fun x => x.1 =? CTRL_ATTR_MCAST_GRP_NAME) tb, snd <$> find (fun x => x.1 =? CTRL_ATTR_MCAST_GRP_ID) tb with
      | Some grpName, Some grpId =>
          same ← strncmp_eq (length grpName) grpName (mGroup ++ [0]);
          if same : bool then v ← u32_at grpId 0; Some (i32 v) else find_group mGroup groups mId
      | _, _ => find_group mGroup groups mId
      end
  end.

Definition multicast_response (mGroup : list Z) (ev : event) (mId : Z) : option Z :=
  match get_attribute ev CTRL_ATTR_MCAST_GROUPS with
  | None => Some mId
  | Some d => find_group mGroup (nla_attrs d) mId
  end.

Definition multicast_create (name : list Z) (rq : Z) : IO (Z * Z) :=
  do s <- io_get;
  do nlctrl <- sys answer (Cgenl_ctrl_resolve (cmd_sock (info s)) (str "nlctrl"));
  do p <- create answer rq (rv nlctrl) CTRL_CMD_GETFAMILY;
  if p.1 <? 0 then io_ret p
  else do ret <- put_ops answer [] [put_string CTRL_ATTR_FAMILY_NAME name] p.1; io_ret (ret, p.2).

Definition wifi_get_multicast_id (name group : list Z) : IO Z :=
  do r <- query (multicast_create name) (multicast_response group) (-1);
  io_ret (if r.1 <? 0 then r.1 else r.2).
End Queries.

(** ** A query as a whole *)
Section Spec.
Context `{hal_headers} (answer : list (wcall * wresp) -> wcall -> wresp) (patience : nat) (page : Z).
Hypothesis Hnl : libnl_ok answer page.
Hypothesis Hk : kernel_replies answer patience.

Lemma always_create_vendor msg iface id subcmd (P : Z * Z -> hal -> Prop) g :
  (forall r m, r = 0 \/ r < 0 -> P (r, m) g) -> always (create_vendor answer msg iface id subcmd) P g.
Proof using Hnl.
  intros HP tr. unfold create_vendor, create. do 4 wp_step. apply wp_destroy. intros tr0 _. cbn [globals trace].
  apply wp_bind, wp_call. cbn [globals trace]. destruct (_ =? 0).
  - apply wp_ret. rewrite (proj2 (Z.ltb_lt _ _)) by apply oom_negative. apply wp_ret. apply HP. right. apply oom_negative.
  - apply wp_bind, sys_any. intros r. apply wp_ret. rewrite success_0. cbn [Z.ltb Z.compare globals trace]. apply wp_bind.
    set (w := World g _). assert (msg_len (trace w) = 20) as Hm by (subst w; cbn [trace]; by rewrite !msg_len_snoc).
    eapply wp_mono; [apply (put_ops_spec answer page Hnl); rewrite Hm; apply good_fits|].
    + unfold vendor_ops. destruct (iface =? -1); auto with request.
    + pose proof (vendor_ops_size iface id subcmd). pose proof (page_large _ _ Hnl). lia.
    + intros res w' (Hg & tr' & _ & Hr). apply wp_ret. rewrite Hg. apply HP. case_match; [left|right]; tauto.
Qed.

(** [h] answers every [good] reply, and keeps [I]. *)
Lemma always_query {S} (good : event -> Prop) (I : S -> Prop) create_request (h : event -> S -> option S) s g :
  replies_good answer good ->
  (forall reply s, good reply -> I s -> exists s', h reply s = Some s' /\ I s') -> I s ->
  (forall P : Z * Z -> hal -> Prop, (forall r m, r = 0 \/ r < 0 -> P (r, m) g) -> always (create_request 0) P g) ->
  always (query answer patience create_request h s) (fun r g' => r.1 <= 0 /\ I r.2 /\ g' = g) g.
Proof using Hk.
  intros Hgood Hh HI Hc. unfold query. apply always_with_request, always_bind, Hc. intros r m Hr. cbn [fst snd].
  destruct (Z.ltb_spec r 0); [al_step; cbn [fst snd]; split; [lia|done]|]. al_step. intros tr.
  eapply wp_mono; [apply (requestResponse_spec _ _ Hk good Hgood (fun s g' => I s /\ g' = g)); [|done]|].
  - intros s0 reply w Hrep [Hs0 <-]. destruct (Hh _ _ Hrep Hs0) as (s' & E & Hs'). exists s', (globals w).
    unfold lift. rewrite E. by destruct w.
  - cbn beta. intros [e s'] w (He & [HI' ->] & _). al_step. cbn [fst snd]. done.
Qed.

Lemma reply_ids {S} ev (s : S) k (Q : S -> Prop) :
  (ev_cmd ev = NL80211_CMD_VENDOR -> ids_ok ev) -> Q s ->
  (ev_cmd ev = NL80211_CMD_VENDOR -> exists s', k = Some s' /\ Q s') -> exists s', vendor_reply ev s k = Some s' /\ Q s'.
Proof.
  intros Hi HQ Hs. unfold vendor_reply. destruct (Z.eqb_spec (ev_cmd ev) NL80211_CMD_VENDOR) as [E|]; cbn [negb]; [|by exists s].
  destruct (Hi E) as [[? ->] [? ->]]. cbn [mbind option_bind]. by apply Hs.
Qed.

(** ** Cached scans *)
Context (nla_attrs : list Z -> list (Z * list Z)).

Definition kept (mMax : Z) (s : list cached_scan) : Prop :=
  zlen s <= mMax
  /\ Forall (fun c => zlen (cs_results c) = Z.max 0 (cs_num_results c) /\ cs_num_results c <= MAX_AP_CACHE_PER_SCAN) s.

(** What is read of an attribute of a scan, and of the attributes of a reply. *)
Definition scan_attr_ok (a : Z * list Z) : Prop :=
  (a.1 = GSCAN_ATTRIBUTE_SCAN_ID \/ a.1 = GSCAN_ATTRIBUTE_NUM_OF_RESULTS \/ a.1 = GSCAN_ATTRIBUTE_CH_BUCKET_BITMASK -> 4 <= zlen a.2)
  /\ (a.1 = GSCAN_ATTRIBUTE_SCAN_FLAGS -> 1 <= zlen a.2).

Definition results_attr_ok (a : Z * list Z) : Prop :=
  (a.1 = GSCAN_ATTRIBUTE_SCAN_RESULTS_COMPLETE -> 1 <= zlen a.2) /\ Forall scan_attr_ok (nla_attrs a.2).

(** The vendor data is an attribute that is as long as it says. *)
Definition scan_reply_ok (ev : event) : Prop :=
  (ev_cmd ev = NL80211_CMD_VENDOR -> ids_ok ev)
  /\ forall d, get_vendor_data ev = Some d -> d <> [] ->
       exists contents, scan_contents d = Some contents /\ Forall results_attr_ok (nla_attrs contents).

Lemma max_ap_positive : 0 < MAX_AP_CACHE_PER_SCAN.
Proof. pose proof sizes_positive as Hs. by do 7 apply Forall_inv_tail in Hs; apply Forall_inv in Hs. Qed.

Lemma cached_result_some d i : 0 <= i -> sizeof_gscan_result * i + 80 <= zlen d -> is_Some (cached_result d i).
Proof.
  intros Hi Hl. unfold cached_result, sizeof_gscan_result in *. destruct (convert_some d (88 * i)) as [r ->]; [lia..|].
  cbn [mbind option_bind]. destruct (uint_some 4 d (88 * i + 76)) as [v ->]; [lia..|]. by eexists.
Qed.

Lemma scan_attrs_spec mMax attrs scan_id flags num mask s :
  sizeof_gscan_result <= sizeof_wifi_scan_result -> Forall scan_attr_ok attrs -> kept mMax s ->
  exists s', scan_attrs mMax attrs scan_id flags num mask s = Some s' /\ kept mMax s'.
Proof.
  intros Hsz Hok. revert scan_id flags num mask s. induction Hok as [|[ty d] attrs [H4 H1] Hok IH]; intros scan_id flags num mask s Hs.
  { by exists s. }
  cbn [scan_attrs fst snd] in *. assert (forall n, 0 <= n -> n <= zlen d -> exists v, uint_at n d 0 = Some v) as Hread
    by (intros; apply uint_some; lia).
  destruct (Z.eqb_spec ty GSCAN_ATTRIBUTE_SCAN_ID); [destruct (Hread 4) as [v ->]; [lia|auto|apply IH, Hs]|].
  destruct (Z.eqb_spec ty GSCAN_ATTRIBUTE_SCAN_FLAGS); [destruct (Hread 1) as [v ->]; [lia|auto|apply IH, Hs]|].
  destruct (Z.eqb_spec ty GSCAN_ATTRIBUTE_NUM_OF_RESULTS); [destruct (Hread 4) as [v ->]; [lia|auto|apply IH, Hs]|].
  destruct (Z.eqb_spec ty GSCAN_ATTRIBUTE_CH_BUCKET_BITMASK); [destruct (Hread 4) as [v ->]; [lia|auto|apply IH, Hs]|].
  destruct (_ && _); [|by apply IH]. destruct (Z.leb_spec mMax (zlen s)) as [|Hlt]; [by exists s|].
  set (cnt := Z.min (Z.min num (zlen d / sizeof_wifi_scan_result)) MAX_AP_CACHE_PER_SCAN). pose proof max_ap_positive as Hap.
  destruct (mapM _ _) as [rs|] eqn:E; cbn [mbind option_bind].
  - apply IH. destruct Hs as [Hl Hs]. split; [unfold zlen in *; rewrite length_app; cbn [length]; lia|].
    apply list.Forall_app. split; [done|]. apply Forall_cons; [|apply Forall_nil_2]. cbn [cs_results cs_num_results].
    apply length_mapM in E. rewrite length_seq in E. unfold zlen. split; lia.
  - apply mapM_None, list.Exists_exists in E as (i & Hi & En). apply elem_of_seq in Hi.
    destruct (cached_result_some d (Z.of_nat i)) as [r Hr]; [lia| |congruence].
    unfold sizeof_gscan_result in *. assert (Z.of_nat i + 1 <= zlen d / sizeof_wifi_scan_result) by lia.
    assert (sizeof_wifi_scan_result * (zlen d / sizeof_wifi_scan_result) <= zlen d) by (apply Z.mul_div_le; lia). nia.
Qed.

Lemma results_attrs_spec mMax attrs s :
  sizeof_gscan_result <= sizeof_wifi_scan_result -> Forall results_attr_ok attrs -> kept mMax (mScans s) ->
  exists s', results_attrs nla_attrs mMax attrs s = Some s' /\ kept mMax (mScans s').
Proof.
  intros Hsz Hok. revert s. induction Hok as [|[ty d] attrs [H1 Hin] Hok IH]; intros s Hs; [by exists s|].
  cbn [results_attrs fst snd] in *. destruct (Z.eqb_spec ty GSCAN_ATTRIBUTE_SCAN_RESULTS_COMPLETE) as [->|].
  - destruct (uint_some 1 d 0) as [v ->]; [lia|lia|by specialize (H1 eq_refl)|]. by apply IH.
  - destruct (_ && _); [|by apply IH]. destruct (scan_attrs_spec mMax (nla_attrs d) 0 0 0 0 (mScans s)) as (l & -> & Hl); [done..|].
    by apply IH.
Qed.

Lemma scan_results_response_spec mMax ev s :
  sizeof_gscan_result <= sizeof_wifi_scan_result -> scan_reply_ok ev -> kept mMax (mScans s) ->
  exists s', scan_results_response nla_attrs mMax ev s = Some s' /\ kept mMax (mScans s').
Proof.
  intros Hsz [Hi Hd] Hs. apply (reply_ids _ _ _ (fun s => kept mMax (mScans s))); [done|done|]. intros _.
  destruct (get_vendor_data ev) as [[|x d]|]; [by exists s| |by exists s].
  destruct (Hd _ eq_refl) as (c & E & Hc); [done|].
  rewrite E. cbn [mbind option_bind]. by apply results_attrs_spec.
Qed.

Lemma scan_results_good iface subcmd num flush : good_ops page (20 + ops_size (vendor_ops iface GOOGLE_OUI subcmd)) (scan_results_ops num flush).
Proof using Hnl.
  apply (good_of_solid page (page_big _ _ Hnl)); unfold scan_results_ops, vendor_data, put_u32, put_u8;
    [by apply balanced_nest; auto 20 with request|by apply solid_nest; auto 20 with request].
Qed.

Lemma retrieve_spec n iface mMax flush rq s g :
  sizeof_gscan_result <= sizeof_wifi_scan_result -> replies_good answer scan_reply_ok -> kept mMax (mScans s) ->
  always (retrieve answer patience nla_attrs n iface mMax flush rq s)
    (fun x g' => g' = g /\ kept mMax (mScans x.1.2) /\ match x.1.1 with Some e => e < 0 | None => True end) g.
Proof using Hnl Hk.
  intros Hsz Hgood. revert rq s. induction n as [|n IH]; intros rq s Hs; cbn [retrieve]; [by al_step|].
  destruct (mMax <=? _); [by al_step|]. al_step. apply (always_build answer page Hnl); [apply scan_results_good|].
  intros r m Hr. cbn [fst snd]. destruct (Z.ltb_spec r 0); [by al_step|]. al_step. intros tr.
  eapply wp_mono; [apply (requestResponse_spec _ _ Hk scan_reply_ok Hgood (fun s g' => kept mMax (mScans s) /\ g' = g)); [|done]|].
  - intros s0 reply w Hrep [Hs0 <-]. destruct (scan_results_response_spec mMax reply s0) as (s' & E & Hs'); [done..|].
    exists s', (globals w). unfold lift. rewrite E. by destruct w.
  - cbn beta. intros [e s'] [g' tr'] (He & [Hs' Eg] & _). cbn [fst snd globals trace] in *. subst g'.
    unfold not_success. rewrite success_0. destruct (Z.eqb_spec e 0); cbn [negb]; [|al_step; cbn [fst snd]; split; [done|]; split; [done|lia]].
    destruct (_ || _); [by al_step|]. al_step. apply always_destroy. by apply IH.
Qed.


(** ** The arrays of the caller *)
Lemma zlen_overlay to from : zlen from <= zlen to -> zlen (overlay to from) = zlen to.
Proof. unfold overlay, zlen. rewrite length_app, length_drop. lia. Qed.

Lemma octets_length d off n p : octets d off n = Some p -> zlen p = n.
Proof.
  unfold octets, zlen. destruct (_ && _) eqn:E; [|done]. intros [= <-]. apply andb_prop in E as [[?%Z.leb_le ?%Z.leb_le]%andb_prop ?%Z.leb_le].
  rewrite length_take, length_drop. lia.
Qed.

Lemma channel_size_positive : 0 < sizeof_wifi_channel.
Proof. pose proof sizes_positive as Hs. do 2 apply Forall_inv_tail in Hs. by apply Forall_inv in Hs. Qed.

(** The array keeps its size, and the count stays within it, whatever a reply holds. *)
Lemma channel_attrs_bounded mMax attrs num s s' :
  0 <= mMax -> num <= mMax -> zlen (mChannels s) = sizeof_wifi_channel * mMax -> mNumOfChannel s <= mMax ->
  channel_attrs mMax attrs num s = Some s' -> zlen (mChannels s') = zlen (mChannels s) /\ mNumOfChannel s' <= mMax.
Proof.
  pose proof channel_size_positive as Hpos. intros Hmax. revert num s. induction attrs as [|[ty d] attrs IH]; intros num s Hnum Hl Hn; cbn [channel_attrs].
  { by intros [= <-]. }
  destruct (ty =? _).
  - destruct (u32_at d 0) as [v|]; [|done]. cbn [mbind option_bind]. intros E.
    assert ((if mMax <? i32 v then mMax else i32 v) <= mMax) by (destruct (Z.ltb_spec mMax (i32 v)); lia).
    apply IH in E; [done|done|done|]. done.
  - destruct (_ && _); [|by apply IH]. destruct (octets _ _ _) as [p|] eqn:Ep; [|done]. cbn [mbind option_bind].
    apply octets_length in Ep. assert (zlen (overlay (mChannels s) p) = zlen (mChannels s)) as Eo by (apply zlen_overlay; nia).
    intros E. apply IH in E; cbn [mChannels mNumOfChannel] in *; [by rewrite Eo in E|done|by rewrite Eo|done].
Qed.

(** The same for the feature sets: the number of sets given, and the sets stored so far. *)
Lemma matrix_attrs_bounded max attrs num i matrix size :
  0 < max -> max <= zlen matrix -> num <= max -> 0 <= i ->
  Forall (fun a => a.1 = WIFI_ATTRIBUTE_NUM_FEATURE_SET \/ a.1 = WIFI_ATTRIBUTE_FEATURE_SET -> 4 <= zlen a.2) attrs -> size <= max ->
  exists m' n', matrix_attrs max attrs num i matrix size = Some (m', n') /\ zlen m' = zlen matrix /\ n' <= max.
Proof.
  intros Hmax Hm Hnum Hi Ha. revert num i matrix size Hm Hnum Hi. induction Ha as [|[ty d] attrs H4 Ha IH]; intros num i matrix size Hm Hnum Hi Hs.
  { by exists matrix, size. }
  cbn [matrix_attrs fst snd] in *. destruct (Z.eqb_spec ty WIFI_ATTRIBUTE_NUM_FEATURE_SET) as [E|].
  - destruct (uint_some 4 d 0) as [v ->]; [lia|lia|auto|]. cbn [mbind option_bind]. rewrite (proj2 (Z.eqb_neq max 0)) by lia. cbn [negb andb].
    destruct (Z.ltb_spec max (i32 v)); apply IH; lia.
  - destruct (Z.eqb_spec ty WIFI_ATTRIBUTE_FEATURE_SET) as [E|]; cbn [andb]; [|by apply IH].
    destruct (Z.ltb_spec i num); [|by apply IH]. destruct (uint_some 4 d 0) as [v ->]; [lia|lia|auto|]. cbn [mbind option_bind].
    rewrite aset_in by lia. cbn [mbind option_bind]. destruct (IH num (i + 1) (<[Z.to_nat i:=v]> matrix) size) as (m' & n' & E' & Hl & Hn);
      [unfold zlen in *; rewrite length_insert; lia|lia|lia|done|].
    exists m', n'. split; [done|]. split; [|done]. rewrite Hl. unfold zlen. by rewrite length_insert.
Qed.

(** The arrays of the queries. The list of channels: whatever octets a reply is made of, if it is
    accepted at all, the array of the caller keeps its size and the number reported is not more than it has room
    for; a reply that gives a number [n] and then the channels is accepted exactly when the number is not negative
    and the channels are there, and then the first [n], or as many as fit, are in the array and
    the rest is unchanged; a negative number makes the size of the copy wrap around. The feature sets: a reply
    never writes outside of the array if the caller gives its size, and if it gives 0 then a reply of
    one set writes outside of an empty array. *)
Theorem query_arrays_bounded (mMax n : Z) (l : list Z) (s : channel_list) (matrix : list Z) (size : Z) :
  2 <= mMax -> zlen (mChannels s) = sizeof_wifi_channel * mMax -> mNumOfChannel s <= mMax -> - 2 ^ 31 <= n < 2 ^ 31 -> n <> 0 ->
  (forall ev s', channels_response nla_attrs mMax ev s = Some s' -> zlen (mChannels s') = zlen (mChannels s) /\ mNumOfChannel s' <= mMax)
  /\ (let k := Z.min n mMax in
      channel_attrs mMax [(WIFI_ATTRIBUTE_NUM_CHANNELS, le_bytes 4 n); (WIFI_ATTRIBUTE_CHANNEL_LIST, l)] 0 s
      = if (0 <? n) && (sizeof_wifi_channel * k <=? zlen l)
        then Some (mk_channel_list (overlay (mChannels s) (take (Z.to_nat (sizeof_wifi_channel * k)) l)) k) else None)
  /\ (forall max attrs, 0 < max <= zlen matrix -> size <= max ->
        Forall (fun a => a.1 = WIFI_ATTRIBUTE_NUM_FEATURE_SET \/ a.1 = WIFI_ATTRIBUTE_FEATURE_SET -> 4 <= zlen a.2) attrs ->
        exists m' n', matrix_attrs max attrs 0 0 matrix size = Some (m', n') /\ zlen m' = zlen matrix /\ n' <= max)
  /\ matrix_attrs 0 [(WIFI_ATTRIBUTE_NUM_FEATURE_SET, le_bytes 4 1); (WIFI_ATTRIBUTE_FEATURE_SET, le_bytes 4 7)] 0 0 [] size = None.
Proof.
  intros Hmax Hl Hn Hr Hn0. pose proof channel_size_positive as Hpos. split; [|split; [|split]].
  - intros ev s'. unfold channels_response, vendor_reply. destruct (negb _); [by intros [= <-]|].
    destruct (get_vendor_id ev); [|done]. destruct (get_vendor_subcmd ev); [|done]. cbn [mbind option_bind].
    destruct (get_vendor_data ev) as [[|x d]|]; [by intros [= <-]| |by intros [= <-]].
    destruct (channel_attrs _ _ _ _) as [s1|] eqn:E; [|done]. cbn [mbind option_bind]. destruct (octets _ _ _); [|done]. cbn [mbind option_bind].
    intros [= <-]. apply channel_attrs_bounded in E; [done|lia|lia|done|done].
  - cbn zeta. cbn [channel_attrs]. change (WIFI_ATTRIBUTE_NUM_CHANNELS =? WIFI_ATTRIBUTE_NUM_CHANNELS) with true.
    change (WIFI_ATTRIBUTE_CHANNEL_LIST =? WIFI_ATTRIBUTE_NUM_CHANNELS) with false.
    change (WIFI_ATTRIBUTE_CHANNEL_LIST =? WIFI_ATTRIBUTE_CHANNEL_LIST) with true. cbn match.
    assert (u32_at (le_bytes 4 n) 0 = Some (n mod 2 ^ 32)) as ->.
    { unfold uint_at. rewrite octets_some by (unfold zlen; rewrite ?le_bytes_length; lia). rewrite drop_0, take_ge by (rewrite le_bytes_length; lia).
      cbn [mbind option_bind]. by rewrite le_val_bytes. }
    cbn [mbind option_bind mChannels]. assert (i32 (n mod 2 ^ 32) = n) as -> by (unfold wraps; rewrite Z.add_mod_idemp_l by lia; rewrite Z.mod_small by lia; lia).
    replace (if mMax <? n then mMax else n) with (Z.min n mMax) by (destruct (Z.ltb_spec mMax n); lia).
    rewrite (proj2 (Z.eqb_neq (Z.min n mMax) 0)) by lia. cbn [negb andb].
    unfold octets. cbn [Z.leb Z.compare andb]. rewrite Z.add_0_l, drop_0.
    destruct (Z.ltb_spec 0 n); cbn [andb].
    + rewrite (proj2 (Z.leb_le 0 (sizeof_wifi_channel * Z.min n mMax))) by nia. cbn [andb]. by destruct (_ <=? _).
    + by rewrite (proj2 (Z.leb_gt 0 (sizeof_wifi_channel * Z.min n mMax))) by nia.
  - intros max attrs Hm Hs Ha. by apply matrix_attrs_bounded; [lia|lia|lia|lia| |].
  - reflexivity.
Qed.
End Spec.

(** ** Multicast groups *)
Section Groups.
Context `{hal_headers} (answer : list (wcall * wresp) -> wcall -> wresp) (patience : nat) (page : Z).
Context (nla_attrs nla_parse : list Z -> list (Z * list Z)).
Hypothesis Hnl : libnl_ok answer page.
Hypothesis Hk : kernel_replies answer patience.

Lemma strncmp_total a b : is_Some (strncmp_eq (length a) a (b ++ [0])).
Proof.
  revert b. induction a as [|x a IH]; intros b; cbn [length strncmp_eq]; [by eexists|].
  destruct b as [|y b]; cbn [app].
  - destruct (Z.eqb_spec x 0) as [->|]; by eexists.
  - destruct (x =? y); [|by eexists]. destruct (x =? 0); [by eexists|apply IH].
Qed.

(** The number of a group is as long as what is read of it. *)
Definition group_ok (x : Z * list Z) : Prop :=
  match snd <$> find (fun y => y.1 =? CTRL_ATTR_MCAST_GRP_ID) (nla_parse x.2) with Some id => 4 <= zlen id | None => True end.

Definition groups_ok (ev : event) : Prop :=
  match get_attribute ev CTRL_ATTR_MCAST_GROUPS with Some d => Forall group_ok (nla_attrs d) | None => True end.

Lemma find_group_total mGroup groups mId : Forall group_ok groups -> is_Some (find_group nla_parse mGroup groups mId).
Proof.
  induction 1 as [|[ty d] groups Hg Hgs IH]; cbn [find_group]; [by eexists|]. unfold group_ok in Hg. cbn [snd] in Hg.
  destruct (snd <$> find (fun x => x.1 =? CTRL_ATTR_MCAST_GRP_NAME) (nla_parse d)) as [name|]; [|done].
  destruct (snd <$> find (fun y => y.1 =? CTRL_ATTR_MCAST_GRP_ID) (nla_parse d)) as [id|]; [|done].
  destruct (strncmp_total name mGroup) as [same ->]. cbn [mbind option_bind]. destruct same; [|done].
  destruct (uint_some 4 id 0) as [v ->]; [lia|lia|lia|]. by eexists.
Qed.

Lemma always_multicast_id name group (P : Z -> hal -> Prop) g :
  20 + attr_size (name ++ [0]) <= 4096 -> replies_good answer groups_ok ->
  (forall r, P r g) -> always (wifi_get_multicast_id answer patience nla_attrs nla_parse name group) P g.
Proof using Hnl Hk.
  intros Hlen Hgood HP. unfold wifi_get_multicast_id. al_step. eapply always_mono.
  - apply (always_query answer patience Hk groups_ok (fun _ => True)); [done| |done|].
    + intros reply s Hrep _. unfold multicast_response, groups_ok in *. destruct (get_attribute _ _); [|by exists s].
      destruct (find_group_total group _ s Hrep) as [s' E]. by exists s'.
    + intros Q HQ tr. unfold multicast_create. do 2 wp_step. apply wp_bind, sys_any. intros f. apply wp_bind. unfold create.
      apply wp_bind, wp_destroy. intros tr0 _. cbn [globals trace]. apply wp_bind, wp_call. destruct (_ =? 0).
      * apply wp_ret. cbn [fst]. rewrite (proj2 (Z.ltb_lt _ _)) by apply oom_negative. apply wp_ret. apply HQ. right. apply oom_negative.
      * apply wp_bind, sys_any. intros x. apply wp_ret. cbn [fst snd globals trace]. rewrite success_0. cbn [Z.ltb Z.compare]. apply wp_bind.
        set (w := World g _). assert (msg_len (trace w) = 20) as Hm by (subst w; cbn [trace]; by rewrite !msg_len_snoc).
        eapply wp_mono; [apply (put_ops_spec answer page Hnl); rewrite Hm; apply good_fits|].
        -- unfold put_string. auto with request.
        -- pose proof (page_large _ _ Hnl). unfold ops_size. cbn. lia.
        -- intros res w' (Hg & tr' & _ & Hr). apply wp_ret. rewrite Hg. apply HQ. case_match; [left|right]; tauto.
  - cbn beta. intros r g' (_ & _ & ->). al_step. apply HP.
Qed.
End Groups.

(** ** Replies of a driver *)

(** The attributes of libnl: length and type, two octets each, the payload, padded to 4 octets. *)
Definition nla_attr0 (ty : Z) (payload : list Z) : list Z :=
  le_bytes 2 (4 + zlen payload) ++ le_bytes 2 ty ++ payload ++ repeat 0 (Z.to_nat ((- zlen payload) mod 4)).

Fixpoint nla_walk0 (fuel : nat) (d : list Z) : list (Z * list Z) :=
  match fuel with
  | O => []
  | S fuel =>
      match u16_at d 0, u16_at d 2 with
      | Some len, Some ty =>
          if (4 <=? len) && (len <=? zlen d) then
            (ty, take (Z.to_nat (len - 4)) (drop 4 d)) :: nla_walk0 fuel (drop (Z.to_nat ((len + 3) / 4 * 4)) d)
          else []
      | _, _ => []
      end
  end.

Definition scan_reply0 : event :=
  mk_event 0 103 [(195, le_bytes 4 GOOGLE_OUI); (196, le_bytes 4 GSCAN_SUBCMD_GET_SCAN_RESULTS);
    (197, nla_attr0 1 (nla_attr0 32 (nla_attr0 33 (le_bytes 4 5) ++ nla_attr0 34 [1] ++ nla_attr0 30 (le_bytes 4 1)
                                      ++ nla_attr0 36 (le_bytes 4 3) ++ nla_attr0 32 (repeat 9 88))
                       ++ nla_attr0 21 [1]))].

Definition answer3 (tr : list (wcall * wresp)) (c : wcall) : wresp :=
  match c with Cnl_recvmsgs _ => mk_resp 0 0 [CbValid scan_reply0; CbAck] [] | _ => answer0 tr c end.

Lemma answer3_libnl : libnl_ok answer3 4096.
Proof. destruct answer0_libnl as [H1 H2 H3]. by constructor. Qed.

Lemma answer3_replies : kernel_replies answer3 1.
Proof. intros tr sock msg _. cbn [replies_within answer3 rcbs err_after fold_left]. right. by left. Qed.

Lemma answer3_scan : @replies_good answer3 (@scan_reply_ok headers0 (nla_walk0 8)).
Proof.
  intros tr sock reply [[= <-]|[|[]]] _; [|done]. split; [intros _; split; eexists; vm_compute; reflexivity|].
  intros d Hd _. vm_compute in Hd. injection Hd as <-. eexists. split; [vm_compute; reflexivity|].
  match goal with |- Forall ?P ?l => let l' := eval vm_compute in l in change (Forall P l') end.
  repeat (apply Forall_cons; [split; [intros E; vm_compute in E; first [discriminate E|by vm_compute]|];
    match goal with |- Forall ?P ?l => let l' := eval vm_compute in l in change (Forall P l') end;
    repeat (apply Forall_cons; [split; intros E; vm_compute in E; first [discriminate E|by vm_compute|by destruct E as [|[|]]]|]); apply Forall_nil_2|]).
  apply Forall_nil_2.
Qed.


Lemma query_arrays_bounded_witness :
  @channel_attrs headers0 3 [(WIFI_ATTRIBUTE_NUM_CHANNELS, le_bytes 4 2); (WIFI_ATTRIBUTE_CHANNEL_LIST, [108; 9; 0; 0; 113; 9; 0; 0])] 0
    (mk_channel_list (repeat 0 12) 0)
  = Some (mk_channel_list [108; 9; 0; 0; 113; 9; 0; 0; 0; 0; 0; 0] 2).
Proof.
  destruct (@query_arrays_bounded headers0 (nla_walk0 8) 3 2 [108; 9; 0; 0; 113; 9; 0; 0] (mk_channel_list (repeat 0 12) 0) [] 0)
    as (_ & E & _).
  - discriminate.
  - reflexivity.
  - discriminate.
  - split; [discriminate|reflexivity].
  - discriminate.
  - rewrite E. reflexivity.
Defined.
