(* ===== verification/WifiHal.v ===== *)
(** The Wi-Fi HAL as a whole (src/mediatek/wifi/wifi_hal/wifi_hal.cpp): its initialisation, the
    interfaces, the event loop, and its cleanup. *)
From Stdlib Require Import String List.
From stdpp Require Import gmap.
From S2P Require Import Prelude Threads WifiState WifiRegistry WifiRequest WifiCommand WifiShared WifiLifecycle WifiEvents WifiQuery.

Definition WIFI_HAL_CMD_SOCK_PORT : Z := 644.
Definition WIFI_HAL_EVENT_SOCK_PORT : Z := 645.
Definition EINTR : Z := 4.

(** Updates of [hal_info]. *)
Definition on_info (f : hal_info -> hal_info) (h : hal) : hal := mk_hal (f (info h)) (objects h).

Definition set_socks (c e : Z) (i : hal_info) : hal_info :=
  mk_hal_info c e (nl80211_family_id i) (cleanup_socks i) (in_event_loop i) (clean_up i) (cleaned_up_handler i)
    (event_cb i) (cb_lock i) (cmd i) (interfaces i) (num_interfaces i).
Definition set_family (f : Z) (i : hal_info) : hal_info :=
  mk_hal_info (cmd_sock i) (event_sock i) f (cleanup_socks i) (in_event_loop i) (clean_up i) (cleaned_up_handler i)
    (event_cb i) (cb_lock i) (cmd i) (interfaces i) (num_interfaces i).
Definition set_cleanup_socks (s : Z * Z) (i : hal_info) : hal_info :=
  mk_hal_info (cmd_sock i) (event_sock i) (nl80211_family_id i) s (in_event_loop i) (clean_up i) (cleaned_up_handler i)
    (event_cb i) (cb_lock i) (cmd i) (interfaces i) (num_interfaces i).
Definition set_in_event_loop (b : bool) (i : hal_info) : hal_info :=
  mk_hal_info (cmd_sock i) (event_sock i) (nl80211_family_id i) (cleanup_socks i) b (clean_up i) (cleaned_up_handler i)
    (event_cb i) (cb_lock i) (cmd i) (interfaces i) (num_interfaces i).
Definition set_clean_up (b : bool) (i : hal_info) : hal_info :=
  mk_hal_info (cmd_sock i) (event_sock i) (nl80211_family_id i) (cleanup_socks i) (in_event_loop i) b (cleaned_up_handler i)
    (event_cb i) (cb_lock i) (cmd i) (interfaces i) (num_interfaces i).
Definition set_cleaned_up_handler (h : Z) (i : hal_info) : hal_info :=
  mk_hal_info (cmd_sock i) (event_sock i) (nl80211_family_id i) (cleanup_socks i) (in_event_loop i) (clean_up i) h
    (event_cb i) (cb_lock i) (cmd i) (interfaces i) (num_interfaces i).
Definition set_tables (e : table cb_info) (c : table cmd_info) (i : hal_info) : hal_info :=
  mk_hal_info (cmd_sock i) (event_sock i) (nl80211_family_id i) (cleanup_socks i) (in_event_loop i) (clean_up i)
    (cleaned_up_handler i) e (cb_lock i) c (interfaces i) (num_interfaces i).
Definition set_interfaces (l : list interface_info) (n : Z) (i : hal_info) : hal_info :=
  mk_hal_info (cmd_sock i) (event_sock i) (nl80211_family_id i) (cleanup_socks i) (in_event_loop i) (clean_up i)
    (cleaned_up_handler i) (event_cb i) (cb_lock i) (cmd i) l n.

(** The structure after [memset] to 0. *)
Definition hal_info_zero : hal_info :=
  mk_hal_info 0 0 0 (0, 0) false false 0 (mk_table [] 0 0) false (mk_table [] 0 0) [] 0.

(** [strncpy(dst, s, n)]: the octets stored, the zeros included. *)
Definition strncpy (s : list Z) (n : nat) : list Z := take n (s ++ repeat 0 n).

(** A sum over the calls made. *)
Definition held (weight : wcall * wresp -> Z) (tr : list (wcall * wresp)) : Z := zsum (map weight tr).

Section Hal.
Context `{hal_headers} (answer : list (wcall * wresp) -> wcall -> wresp) (patience : nat).
Context (nla_attrs nla_parse : list Z -> list (Z * list Z)).
(** How many entries the directory of the interfaces has at most. *)
Context (dir_size : nat).
Abbreviation IO := (io hal wcall wresp).
Abbreviation PROG := (prog hal wcall wresp).
Abbreviation sys := (sys answer).

Definition update (f : hal_info -> hal_info) : IO unit := io_mod (on_info f).

(** ** Sockets *)
Definition wifi_socket_set_local_port (sock port : Z) : IO unit :=
  do p <- sys Cgetpid;
  let pid := rv p .& 0x3FFFFF in
  do _ <- sys (Cnl_set_local_port sock (u32 (pid + Z.shiftl port 22))); io_ret tt.

(** NULL is 0. *)
Definition wifi_create_nl_socket (port : Z) : IO Z :=
  do sock <- sys Cnl_socket_alloc;
  if rv sock =? 0 then io_ret 0
  else
    do _ <- wifi_socket_set_local_port (rv sock) port;
    do r <- sys (Cnl_connect (rv sock));
    if negb (rv r =? 0) then do _ <- sys (Cnl_socket_free (rv sock)); io_ret 0
    else io_ret (rv sock).

Definition wifi_add_membership (group : list Z) : IO Z :=
  do id <- wifi_get_multicast_id answer patience nla_attrs nla_parse (str "nl80211") group;
  if id <? 0 then io_ret id
  else do g <- io_get; do r <- sys (Cadd_membership (event_sock (info g)) id); io_ret (rv r).

(** [... < 0 || ...] *)
Fixpoint add_memberships (groups : list (list Z)) : IO bool :=
  match groups with
  | [] => io_ret true
  | g :: groups => do r <- wifi_add_membership g; if r <? 0 then io_ret false else add_memberships groups
  end.

(** ** Interfaces *)
Definition is_wifi_interface (name : list Z) : bool :=
  bool_decide (take 4 name = str "wlan") || bool_decide (take 3 name = str "p2p").

Definition hidden (name : list Z) : bool := bool_decide (take 1 name = str ".").

(** The name has room for 8 characters. *)
Definition get_interface (name : list Z) : IO interface_info :=
  do r <- sys (Cif_nametoindex name); io_ret (mk_iface (take 8 name) (rv r)).

Fixpoint count_interfaces (fuel : nat) (n : Z) : IO Z :=
  match fuel with
  | O => undefined
  | S fuel =>
      do de <- sys Creaddir;
      if rv de =? 0 then io_ret n
      else if hidden (rdata de) then count_interfaces fuel n
      else count_interfaces fuel (if is_wifi_interface (rdata de) then n + 1 else n)
  end.

(** There is room for [n] of them. *)
Fixpoint fill_interfaces (fuel : nat) (n : Z) (l : list interface_info) : IO (list interface_info) :=
  match fuel with
  | O => undefined
  | S fuel =>
      do de <- sys Creaddir;
      if rv de =? 0 then io_ret l
      else if hidden (rdata de) then fill_interfaces fuel n l
      else if is_wifi_interface (rdata de) then
        do m <- sys Cmalloc;
        if rv m =? 0 then undefined
        else
          do i <- get_interface (rdata de);
          if n <=? zlen l then undefined else fill_interfaces fuel n (l ++ [i])
      else fill_interfaces fuel n l
  end.

Definition wifi_init_interfaces : IO Z :=
  do d <- sys Copendir;
  if rv d =? 0 then io_ret WIFI_ERROR_UNKNOWN
  else
    do n <- count_interfaces (S dir_size) 0;
    do _ <- sys Cclosedir;
    if n =? 0 then io_ret WIFI_ERROR_NOT_AVAILABLE
    else
      do d <- sys Copendir;
      if rv d =? 0 then io_ret WIFI_ERROR_UNKNOWN
      else
        do m <- sys Cmalloc;
        if rv m =? 0 then do _ <- sys Cclosedir; io_ret WIFI_ERROR_OUT_OF_MEMORY
        else
          do l <- fill_interfaces (S dir_size) n [];
          do _ <- sys Cclosedir;
          do _ <- update (set_interfaces l n);
          io_ret WIFI_SUCCESS.

Definition wifi_get_ifaces : IO (Z * list interface_info) :=
  do g <- io_get; io_ret (num_interfaces (info g), interfaces (info g)).

(** What is stored to the array of [size] octets. *)
Definition wifi_get_iface_name (i : interface_info) (size : nat) : list Z := strncpy (if_name i) size.

(** ** wifi_initialize: the result, and whether the handle was given *)
Definition wifi_initialize : IO (Z * bool) :=
  do i <- sys Cmalloc;
  if rv i =? 0 then io_ret (WIFI_ERROR_OUT_OF_MEMORY, false)
  else
    let info := rv i in
    do _ <- update (fun _ => hal_info_zero);
    do sp <- sys Csocketpair;
    if rv sp <? 0 then do _ <- sys (Cfree info); io_ret (WIFI_ERROR_UNKNOWN, false)
    else
      do _ <- update (set_cleanup_socks (nth 0 (rdata sp) 0, nth 1 (rdata sp) 0));
      do cmd_sock <- wifi_create_nl_socket WIFI_HAL_CMD_SOCK_PORT;
      if cmd_sock =? 0 then do _ <- sys (Cfree info); io_ret (WIFI_ERROR_UNKNOWN, false)
      else
        do event_sock <- wifi_create_nl_socket WIFI_HAL_EVENT_SOCK_PORT;
        if event_sock =? 0 then
          do _ <- sys (Cnl_socket_free cmd_sock); do _ <- sys (Cfree info); io_ret (WIFI_ERROR_UNKNOWN, false)
        else
          do cb <- sys (Cnl_socket_get_cb event_sock);
          if rv cb =? 0 then
            do _ <- sys (Cnl_socket_free cmd_sock); do _ <- sys (Cnl_socket_free event_sock);
            do _ <- sys (Cfree info); io_ret (WIFI_ERROR_UNKNOWN, false)
          else
            do _ <- sys (Cnl_cb_put (rv cb));
            do _ <- update (set_socks cmd_sock event_sock);
            do _ <- update (set_clean_up false);
            do _ <- update (set_in_event_loop false);
            do e <- sys Cmalloc;
            if rv e =? 0 then
              do _ <- sys (Cnl_socket_free cmd_sock); do _ <- sys (Cnl_socket_free event_sock);
              do _ <- sys (Cfree info); io_ret (WIFI_ERROR_OUT_OF_MEMORY, false)
            else
              do c <- sys Cmalloc;
              if rv c =? 0 then
                do _ <- sys (Cnl_socket_free cmd_sock); do _ <- sys (Cnl_socket_free event_sock);
                do _ <- sys (Cfree (rv e)); do _ <- sys (Cfree info); io_ret (WIFI_ERROR_OUT_OF_MEMORY, false)
              else
                do _ <- update (set_tables (mk_table (repeat cb_blank (Z.to_nat DEFAULT_EVENT_CB_SIZE)) 0 DEFAULT_EVENT_CB_SIZE)
                                  (mk_table (repeat cmd_blank (Z.to_nat DEFAULT_CMD_SIZE)) 0 DEFAULT_CMD_SIZE));
                do f <- sys (Cgenl_ctrl_resolve cmd_sock (str "nl80211"));
                do _ <- update (set_family (rv f));
                if rv f <? 0 then
                  do _ <- sys (Cnl_socket_free cmd_sock); do _ <- sys (Cnl_socket_free event_sock);
                  do _ <- sys (Cfree (rv e)); do _ <- sys (Cfree (rv c)); do _ <- sys (Cfree info);
                  io_ret (WIFI_ERROR_UNKNOWN, false)
                else
                  do _ <- sys Cmutex_init;
                  do n <- wifi_init_interfaces;
                  do ok <- (if not_success n then io_ret false
                            else add_memberships [str "scan"; str "mlme"; str "regulatory"; str "vendor"]);
                  if negb ok then
                    do _ <- sys (Cnl_socket_free cmd_sock); do _ <- sys (Cnl_socket_free event_sock);
                    do _ <- sys (Cfree (rv e)); do _ <- sys (Cfree (rv c)); do _ <- sys Cmutex_destroy;
                    do _ <- sys (Cfree info); io_ret (WIFI_ERROR_NOT_AVAILABLE, false)
                  else io_ret (WIFI_SUCCESS, true).

(** ** The event loop *)

(** [TEMP_FAILURE_RETRY]; the second value of a response is [errno]. *)
Fixpoint retry (n : nat) (c : wcall) : IO wresp :=
  match n with
  | O => undefined
  | S n => do r <- sys c; if (rv r =? -1) && (rv2 r =? EINTR) then retry n c else io_ret r
  end.

Definition POLLIN : Z := 1.
Definition POLLERR : Z := 8.
Definition POLLHUP : Z := 16.
Definition has (events bit : Z) : bool := negb ((events .& bit) =? 0).

(** When [poll] returns, as far as the calls made so far tell. *)
Context (wakes : list (wcall * wresp) -> bool).

(** What was written to the other end of a pair of sockets and has not been read yet. *)
Definition unread_weight (mine theirs : Z) (e : wcall * wresp) : Z :=
  match e with
  | (Cwrite fd _, r) => if fd =? theirs then Z.max 0 (rv r) else 0
  | (Cread fd _, r) => if fd =? mine then - Z.max 0 (rv r) else 0
  | _ => 0
  end.
Definition unread (mine theirs : Z) (tr : list (wcall * wresp)) : Z := held (unread_weight mine theirs) tr.

Open Scope prog_scope.

(** The messages [nl_recvmsgs] hands to [internal_valid_message_handler]. *)
Fixpoint handle_messages (cbs : list nl_callback) : PROG unit :=
  match cbs with
  | [] => Ret tt
  | CbValid ev :: cbs => do _ <- internal_valid_message_handler answer nla_attrs ev; handle_messages cbs
  | _ :: cbs => handle_messages cbs
  end.

Definition internal_pollin_handler : PROG unit :=
  do g <- io_get;
  do cb <- sys (Cnl_socket_get_cb (event_sock (info g)));
  do r <- sys (Cnl_recvmsgs (event_sock (info g)));
  do _ <- handle_messages (rcbs r);
  do _ <- sys (Cnl_cb_put (rv cb));
  Ret tt.

(** What one round of the loop does; [true]: [break]. It waits in [poll]. [fd0] stands for the descriptor of the
    event socket. The two [revents] are in the data of the response. *)
Definition loop_round (fd0 fd1 : Z) : PROG bool :=
  do p <- await (fun w => wakes (trace w)) (retry patience (Cpoll fd0 fd1));
  let revents0 := nth 0 (rdata p) 0 in
  let revents1 := nth 1 (rdata p) 0 in
  if rv p <? 0 then Ret false
  else if has revents0 POLLERR then do _ <- retry patience (Cread fd0 2048); Ret false
  else if has revents0 POLLHUP then Ret true
  else if has revents0 POLLIN then do _ <- internal_pollin_handler; Ret false
  else if has revents1 POLLIN then
    do r <- retry patience (Cread fd1 2048);
    if bool_decide (take 4 (rdata r) = str "Exit") then
      do _ <- retry patience (Cwrite fd1 (str "Done")); Ret true
    else Ret false
  else Ret false.

(** [do ... while (!info->clean_up)] *)
Fixpoint event_loop (fd0 fd1 : Z) (n : nat) : PROG unit :=
  match n with
  | O => at_once undefined
  | S n =>
      do stop <- loop_round fd0 fd1;
      if stop : bool then Ret tt
      else do g <- io_get; if clean_up (info g) then Ret tt else event_loop fd0 fd1 n
  end.

Definition wifi_event_loop (n : nat) : PROG unit :=
  do g <- io_get;
  if in_event_loop (info g) then Ret tt
  else
    do _ <- update (set_in_event_loop true);
    event_loop (event_sock (info g)) (snd (cleanup_socks (info g))) n.

(** ** Cleanup *)

(** The log names the type of the object. *)
Definition log_type (cmd : Z) : PROG unit := if cmd =? 0 then Ret tt else do _ <- deref cmd; Ret tt.

Fixpoint log_handlers (l : list cb_info) : PROG unit :=
  match l with [] => Ret tt | c :: l => do _ <- log_type (cb_arg c); log_handlers l end.

(** [while (info->num_cmd > bad_commands)] *)
Fixpoint cancel_all (n : nat) (bad_commands : Z) : PROG unit :=
  do g <- io_get;
  let num_cmd := num (cmd (info g)) in
  if num_cmd <=? bad_commands then Ret tt
  else
    match n with
    | O => at_once undefined
    | S n =>
        do e <- lift (aget (slots (cmd (info g))) bad_commands);
        let cmd := cmd_ptr e in
        if negb (cmd =? 0) then
          do _ <- log_type cmd;
          do _ <- pthread_mutex_unlock;
          do _ <- cancel answer patience cmd;
          do _ <- lock;
          do g <- io_get;
          if num_cmd =? num (WifiState.cmd (info g)) then
            do _ <- log_type cmd; do _ <- releaseRef cmd; cancel_all n (bad_commands + 1)
          else do _ <- releaseRef cmd; cancel_all n bad_commands
        else cancel_all n bad_commands
    end.

(** [handle]: the address of [info]. *)
Definition internal_cleaned_up_handler (handle : Z) : PROG unit :=
  do g <- io_get;
  let i := info g in
  do _ <- (if negb (cmd_sock i =? 0) then
             do _ <- sys (Cclose (fst (cleanup_socks i)));
             do _ <- sys (Cclose (snd (cleanup_socks i)));
             do _ <- sys (Cnl_socket_free (cmd_sock i));
             do _ <- sys (Cnl_socket_free (event_sock i));
             update (set_socks 0 0)
           else Ret tt);
  if cleaned_up_handler i =? 0 then at_once undefined
  else
    do _ <- sys (Ccleaned_up (cleaned_up_handler i));
    do _ <- sys Cmutex_destroy;
    do _ <- sys (Cfree handle);
    Ret tt.

(** [wifi_cleanup] from where it sets [clean_up]. *)
Definition end_commands (n : nat) (handle : Z) : PROG unit :=
  do _ <- update (set_clean_up true);
  do _ <- lock;
  do g <- io_get;
  do _ <- log_handlers (take (Z.to_nat (num (event_cb (info g)))) (slots (event_cb (info g))));
  do _ <- cancel_all n 0;
  do _ <- pthread_mutex_unlock;
  internal_cleaned_up_handler handle.

(** The [read] waits until the loop has written something. *)
Definition wifi_cleanup (n : nat) (handle handler : Z) : PROG unit :=
  do _ <- update (set_cleaned_up_handler handler);
  do g <- io_get;
  let (mine, theirs) := cleanup_socks (info g) in
  do r <- retry patience (Cwrite mine (str "Exit"));
  if rv r <? 1 then end_commands n handle
  else
    do _ <- await (fun w => 0 <? unread mine theirs (trace w)) (retry patience (Cread mine 64));
    end_commands n handle.
Close Scope prog_scope.
End Hal.

(** ** The calls a part of the program can make

    Whatever it is answered, and whether or not it runs to its end. *)
Section Makes.
Context {G C R : Type} (T : C * R -> Prop).

Definition makes {A} (m : io G C R A) : Prop :=
  forall w a w', m w = Some (a, w') -> exists tr, trace w' = trace w ++ tr /\ Forall T tr.

Lemma makes_ret {A} (a : A) : makes (io_ret a).
Proof. intros w a' w' [= <- <-]. exists []. by rewrite app_nil_r. Qed.

Lemma makes_bind {A B} (m : io G C R A) (k : A -> io G C R B) : makes m -> (forall a, makes (k a)) -> makes (io_bind m k).
Proof.
  intros Hm Hk w b w'. unfold io_bind. destruct (m w) as [[a w1]|] eqn:E; [|done]. intros Ek.
  destruct (Hm _ _ _ E) as (t1 & E1 & H1). destruct (Hk _ _ _ _ Ek) as (t2 & E2 & H2).
  exists (t1 ++ t2). split; [by rewrite E2, E1, app_assoc|]. by apply list.Forall_app.
Qed.

Lemma makes_call answer c : (forall r, T (c, r)) -> makes (io_call answer c).
Proof. intros Hc w a w' [= <- <-]. eexists. split; [done|]. by repeat constructor. Qed.

Lemma makes_silent {A} (m : io G C R A) : (forall w a w', m w = Some (a, w') -> trace w' = trace w) -> makes m.
Proof. intros Hm w a w' E. exists []. rewrite app_nil_r. split; [by eapply Hm|done]. Qed.

Lemma makes_pure {A} (f : G -> option (A * G)) : makes (io_pure f).
Proof. apply makes_silent. intros w a w'. unfold io_pure. destruct (f _) as [[? ?]|]; [|done]. by intros [= <- <-]. Qed.

Lemma makes_get : makes io_get.
Proof. apply makes_silent. by intros w a w' [= <- <-]. Qed.

Lemma makes_mod f : makes (io_mod f).
Proof. apply makes_silent. by intros w a w' [= <- <-]. Qed.

Lemma makes_run_bind {A B} (p : prog G C R A) (k : A -> prog G C R B) :
  makes (run p) -> (forall a, makes (run (k a))) -> makes (run (prog_bind p k)).
Proof. intros Hp Hk w a w'. rewrite run_bind. by apply (makes_bind (run p) (fun a => run (k a))). Qed.

Lemma makes_run_at_once {A} (m : io G C R A) : makes m -> makes (run (at_once m)).
Proof. intros Hm w a w'. rewrite run_at_once. apply Hm. Qed.

Lemma wp_makes {A} (m : io G C R A) (P : A -> world G C R -> Prop) w :
  makes m -> wp m P w -> wp m (fun a w' => P a w' /\ exists tr, trace w' = trace w ++ tr /\ Forall T tr) w.
Proof. intros Hm. unfold wp. destruct (m w) as [[a w']|] eqn:E; [|done]. intros HP. split; [done|by eapply Hm]. Qed.
End Makes.

Create HintDb makes discriminated.
#[export] Hint Resolve makes_ret makes_pure makes_get makes_mod : makes.

Ltac makes_run :=
  repeat match goal with
    | |- makes _ (run (prog_bind _ _)) => apply makes_run_bind; [|intros]
    | |- makes _ (run (at_once _)) => apply makes_run_at_once; auto with makes
    | |- makes _ (run (Ret _)) => apply makes_ret
    | |- makes _ (run (match ?x with _ => _ end)) => destruct x
    | |- makes _ (run _) => solve [auto with makes]
    end.

Ltac makes_tac :=
  repeat first
    [ solve [eauto with makes]
    | match goal with
      | |- makes _ (io_bind _ _) => apply makes_bind; [|intros]
      | |- makes _ (io_call _ _) => apply makes_call; intros
      | |- makes _ (match ?x with _ => _ end) => destruct x
      end ].

(** ** Resources: the sockets of libnl, file descriptors, blocks of memory *)
Definition sock_weight (e : wcall * wresp) : Z :=
  match e with (Cnl_socket_alloc, r) => if rv r =? 0 then 0 else 1 | (Cnl_socket_free _, _) => -1 | _ => 0 end.
Definition fd_weight (e : wcall * wresp) : Z :=
  match e with (Csocketpair, r) => if rv r <? 0 then 0 else 2 | (Cclose _, _) => -1 | _ => 0 end.
Definition heap_weight (e : wcall * wresp) : Z :=
  match e with (Cmalloc, r) => if rv r =? 0 then 0 else 1 | (Cfree _, _) => -1 | _ => 0 end.

Lemma held_app f tr tr' : held f (tr ++ tr') = held f tr + held f tr'.
Proof. unfold held. by rewrite map_app, zsum_app. Qed.

Lemma held_snoc f tr e : held f (tr ++ [e]) = held f tr + f e.
Proof. rewrite held_app. unfold held. cbn. lia. Qed.

Lemma held_zero f tr : Forall (fun e => f e = 0) tr -> held f tr = 0.
Proof. induction 1 as [|e l He Hl IH]; [done|]. unfold held in *. cbn [map]. rewrite zsum_cons. lia. Qed.

Lemma held_nonneg f tr : Forall (fun e => 0 <= f e) tr -> 0 <= held f tr.
Proof. intros Hf. apply zsum_nonneg, List.Forall_map, Hf. Qed.

(** Calls that hold on to nothing that lasts. *)
Definition quiet (e : wcall * wresp) : Prop := sock_weight e = 0 /\ fd_weight e = 0 /\ heap_weight e = 0.

Lemma held_quiet tr tr' : Forall quiet tr' ->
  held sock_weight (tr ++ tr') = held sock_weight tr /\ held fd_weight (tr ++ tr') = held fd_weight tr
  /\ held heap_weight (tr ++ tr') = held heap_weight tr.
Proof.
  intros Hq. rewrite !held_app. repeat split; rewrite (held_zero _ tr'); try lia; eapply List.Forall_impl; try exact Hq; by intros e (? & ? & ?).
Qed.

(** What is held at the end of [tr'] more than at the end of [tr]. *)
Definition holds_more (socks fds heap : Z) (tr tr' : list (wcall * wresp)) : Prop :=
  held sock_weight tr' = held sock_weight tr + socks /\ held fd_weight tr' = held fd_weight tr + fds
  /\ held heap_weight tr' = held heap_weight tr + heap.

Lemma holds_quiet tr0 a b c tr tr' : holds_more a b c tr0 tr -> Forall quiet tr' -> holds_more a b c tr0 (tr ++ tr').
Proof. intros (Ha & Hb & Hc) Hq. unfold holds_more. destruct (held_quiet tr tr' Hq) as (-> & -> & ->). done. Qed.

Lemma holds_refl tr : holds_more 0 0 0 tr tr.
Proof. unfold holds_more. lia. Qed.

(** Adds up what the last calls hold. *)
Ltac holds_tac := unfold holds_more in *; cbn [trace globals] in *; rewrite ?held_snoc; cbn [sock_weight fd_weight heap_weight]; zcases; lia.

Section Quiet.
Context `{hal_headers} (answer : list (wcall * wresp) -> wcall -> wresp) (patience : nat).
Abbreviation q := (makes (G := hal) quiet).

Lemma quiet_sys c : (forall r, quiet (c, r)) -> q (sys answer c).
Proof. apply makes_call. Qed.

Lemma quiet_undefined {A} : q (undefined (A := A)).
Proof. by intros w a w'. Qed.

Lemma quiet_lift {A} (o : option A) : q (lift o).
Proof. apply makes_silent. intros w a w'. unfold lift. destruct o; [|done]. by intros [= <- <-]. Qed.

Ltac quiet_call := apply quiet_sys; intros; by repeat split.
Ltac quiet_tac := repeat (makes_tac; first [quiet_call | apply quiet_undefined | apply quiet_lift]); makes_tac.

Lemma quiet_put_ops starts ops r : q (put_ops answer starts ops r).
Proof. revert starts r. induction ops as [|[] ops IH]; intros starts r; cbn [put_ops]; quiet_tac. Qed.

Lemma quiet_destroy m : q (destroy answer m).
Proof. unfold destroy. quiet_tac. Qed.
Hint Resolve quiet_put_ops quiet_destroy : makes.

Lemma quiet_create m f c : q (create answer m f c).
Proof. unfold create. quiet_tac. Qed.
Hint Resolve quiet_create : makes.

Lemma quiet_create_vendor m i id s : q (create_vendor answer m i id s).
Proof. unfold create_vendor. quiet_tac. Qed.
Hint Resolve quiet_create_vendor : makes.

Lemma quiet_build last m i s ops : q (build answer last m i s ops).
Proof. unfold build. quiet_tac. Qed.

Lemma quiet_with_request {A} (body : Z -> io hal wcall wresp (A * Z)) : (forall r, q (body r)) -> q (with_request answer body).
Proof. intros Hb. unfold with_request. quiet_tac. Qed.

Lemma quiet_callbacks {S} (h : S -> event -> io hal wcall wresp S) s err cbs : (forall s e, q (h s e)) -> q (callbacks h s err cbs).
Proof. intros Hh. revert s err. induction cbs as [|[] cbs IH]; intros s err; cbn [callbacks]; quiet_tac. Qed.

Lemma quiet_requestResponse {S} (h : S -> event -> io hal wcall wresp S) s m :
  (forall s e, q (h s e)) -> q (requestResponse answer patience h s m).
Proof.
  intros Hh. unfold requestResponse. pose proof (fun s e c => quiet_callbacks h s e c Hh) as Hcb.
  assert (forall sock n s err, q (wait_reply answer h sock n s err)) as Hw; [|quiet_tac].
  intros sock n. induction n as [|n IH]; intros s0 err; cbn [wait_reply]; quiet_tac.
Qed.

Lemma quiet_query {S} create_request (h : event -> S -> option S) s :
  (forall r, q (create_request r)) -> q (query answer patience create_request h s).
Proof.
  intros Hc. unfold query. apply quiet_with_request. intros r. makes_tac.
  apply quiet_requestResponse. intros. apply quiet_lift.
Qed.

Lemma quiet_multicast_id nla_attrs nla_parse name group : q (wifi_get_multicast_id answer patience nla_attrs nla_parse name group).
Proof.
  unfold wifi_get_multicast_id. apply makes_bind; [|intros; makes_tac]. apply quiet_query. intros r. unfold multicast_create. quiet_tac.
Qed.

Lemma quiet_add_membership nla_attrs nla_parse group : q (wifi_add_membership answer patience nla_attrs nla_parse group).
Proof. unfold wifi_add_membership. apply makes_bind; [apply quiet_multicast_id|intros]. quiet_tac. Qed.

Lemma quiet_add_memberships nla_attrs nla_parse groups : q (add_memberships answer patience nla_attrs nla_parse groups).
Proof.
  induction groups as [|g groups IH]; cbn [add_memberships]; [makes_tac|]. apply makes_bind; [apply quiet_add_membership|intros]. makes_tac.
Qed.

Lemma quiet_count fuel n : q (count_interfaces answer fuel n).
Proof. revert n. induction fuel as [|fuel IH]; intros n; cbn [count_interfaces]; quiet_tac. Qed.

(** The registry makes no calls. *)
Lemma quiet_unregister e : q (run (unregisterVendorHandler e)).
Proof. unfold unregisterVendorHandler, wifi_unregister_vendor_handler, pthread_mutex_lock, pthread_mutex_unlock, on_event_cb. cbn [run prog_bind lock when await at_once]. makes_tac. Qed.
Hint Resolve quiet_unregister : makes.

Lemma quiet_lock : q (run lock).
Proof. unfold pthread_mutex_lock. cbn [run lock when await]. makes_tac. Qed.

Lemma quiet_exchange rq : q (exchange answer patience rq).
Proof. unfold exchange. apply makes_bind; [|intros; makes_tac]. apply quiet_requestResponse. intros. unfold no_response. makes_tac. Qed.
Hint Resolve quiet_build quiet_exchange : makes.

Lemma quiet_local_request {A} (body : Z -> prog hal wcall wresp (A * Z)) : (forall r, q (run (body r))) -> q (run (local_request answer body)).
Proof. intros Hb. unfold local_request. makes_run. Qed.

Lemma quiet_cancel p : q (run (cancel answer patience p)).
Proof.
  unfold cancel, deref. apply makes_run_bind; [apply makes_run_at_once; makes_tac|]. intros c. destruct (mClass c);
    unfold cancel_rssi, cancel_full_scan, cancel_scan, cancel_hotlist, cancel_epno, cancel_change, cancel_anqpo, cancel_rtt,
      unregister_scan, unregister_hotlist, checked, anqpo_request;
    repeat first [apply quiet_local_request; intros | progress makes_run | progress makes_tac | apply quiet_undefined].
Qed.
End Quiet.

Lemma not_available_negative `{hal_headers} : WIFI_ERROR_NOT_AVAILABLE < 0.
Proof. pose proof errors_negative as He. do 2 apply Forall_inv_tail in He. by apply Forall_inv in He. Qed.

Lemma unknown_negative `{hal_headers} : WIFI_ERROR_UNKNOWN < 0.
Proof. pose proof errors_negative as He. by apply Forall_inv in He. Qed.

(** ** The directory of the interfaces *)

(** How many entries were read since it was opened. *)
Definition dir_pos (tr : list (wcall * wresp)) : nat :=
  fold_left (fun n e => match e.1 with Copendir => 0%nat | Creaddir => S n | _ => n end) tr 0%nat.

Lemma dir_pos_snoc tr e :
  dir_pos (tr ++ [e]) = match e.1 with Copendir => 0%nat | Creaddir => S (dir_pos tr) | _ => dir_pos tr end.
Proof. unfold dir_pos. by rewrite fold_left_app. Qed.

(** The directory holds [names], each time it is read; and there is memory for the interfaces. *)
Record directory (answer : list (wcall * wresp) -> wcall -> wresp) (names : list (list Z)) : Prop := {
  dir_entry : forall tr, match names !! dir_pos tr with
                         | Some name => rv (answer tr Creaddir) <> 0 /\ rdata (answer tr Creaddir) = name
                         | None => rv (answer tr Creaddir) = 0
                         end;
  dir_memory : forall tr, (0 < dir_pos tr)%nat -> rv (answer tr Cmalloc) <> 0
}.

Definition wifi_names (names : list (list Z)) : list (list Z) :=
  List.filter (fun n => negb (hidden n) && is_wifi_interface n) names.

Section Initialize.
Context `{hal_headers} (answer : list (wcall * wresp) -> wcall -> wresp) (patience : nat) (page : Z).
Context (nla_attrs nla_parse : list Z -> list (Z * list Z)) (names : list (list Z)).
Hypothesis Hnl : libnl_ok answer page.
Hypothesis Hk : kernel_replies answer patience.
Hypothesis Hdir : directory answer names.
Implicit Types (w : world hal wcall wresp).

Lemma count_spec fuel n w :
  (length names - dir_pos (trace w) < fuel)%nat ->
  wp (count_interfaces answer fuel n)
    (fun r w' => r = n + zlen (wifi_names (drop (dir_pos (trace w)) names)) /\ globals w' = globals w) w.
Proof using Hdir.
  revert n w. induction fuel as [|fuel IH]; intros n w Hf; [lia|]. cbn [count_interfaces].
  apply wp_bind, wp_call. pose proof (dir_entry _ _ Hdir (trace w)) as He.
  destruct (names !! dir_pos (trace w)) as [name|] eqn:E.
  - destruct He as [Hnz Hd]. rewrite (proj2 (Z.eqb_neq _ _)), Hd by done. rewrite (drop_S _ _ _ E).
    pose proof (lookup_lt_Some _ _ _ E).
    assert (forall n', wp (count_interfaces answer fuel n') (fun r w' => r = n' + zlen (wifi_names (drop (S (dir_pos (trace w))) names))
      /\ globals w' = globals w) (World (globals w) (trace w ++ [(Creaddir, answer (trace w) Creaddir)]))) as Hrec.
    { intros n'. eapply wp_mono; [apply IH; cbn [trace]; rewrite dir_pos_snoc; cbn; lia|]. cbn [trace globals].
      by rewrite dir_pos_snoc. }
    unfold wifi_names. cbn [List.filter]. destruct (hidden name); cbn [negb andb]; [apply Hrec|].
    eapply wp_mono; [apply Hrec|]. cbn beta. intros r w' [-> Hg]. split; [|done]. unfold wifi_names, zlen.
    destruct (is_wifi_interface name); cbn [length]; lia.
  - rewrite He. cbn [Z.eqb]. apply wp_ret. split; [|done].
    apply lookup_ge_None in E. rewrite drop_ge by lia. unfold zlen. cbn. lia.
Qed.

Lemma fill_spec fuel n l w :
  (length names - dir_pos (trace w) < fuel)%nat ->
  n = zlen l + zlen (wifi_names (drop (dir_pos (trace w)) names)) ->
  wp (fill_interfaces answer fuel n l)
    (fun r w' => map if_name r = map if_name l ++ map (take 8) (wifi_names (drop (dir_pos (trace w)) names)) /\ zlen r = n
       /\ globals w' = globals w /\ held sock_weight (trace w') = held sock_weight (trace w)
       /\ held fd_weight (trace w') = held fd_weight (trace w) /\ held heap_weight (trace w') = held heap_weight (trace w) + n - zlen l) w.
Proof using Hdir.
  revert l w. induction fuel as [|fuel IH]; intros l w Hf Hn; [lia|]. cbn [fill_interfaces].
  apply wp_bind, wp_call. pose proof (dir_entry _ _ Hdir (trace w)) as He.
  destruct (names !! dir_pos (trace w)) as [name|] eqn:E.
  - destruct He as [Hnz Hd]. rewrite (proj2 (Z.eqb_neq _ _)), Hd by done. rewrite (drop_S _ _ _ E) in *.
    pose proof (lookup_lt_Some _ _ _ E). set (w1 := World _ _).
    assert (dir_pos (trace w1) = S (dir_pos (trace w))) as Ep by (subst w1; cbn [trace]; by rewrite dir_pos_snoc).
    assert (held sock_weight (trace w1) = held sock_weight (trace w) /\ held fd_weight (trace w1) = held fd_weight (trace w)
      /\ held heap_weight (trace w1) = held heap_weight (trace w)) as (Es & Ed & Eh)
      by (subst w1; cbn [trace]; rewrite !held_snoc; cbn; lia).
    assert (forall b, n = zlen l + zlen (wifi_names (drop (S (dir_pos (trace w))) names)) -> b = false ->
      wp (fill_interfaces answer fuel n l)
        (fun r w' => map if_name r = map if_name l ++ map (take 8) (if b : bool then name :: wifi_names (drop (S (dir_pos (trace w))) names) else wifi_names (drop (S (dir_pos (trace w))) names)) /\ zlen r = n
         /\ globals w' = globals w /\ held sock_weight (trace w') = held sock_weight (trace w)
         /\ held fd_weight (trace w') = held fd_weight (trace w) /\ held heap_weight (trace w') = held heap_weight (trace w) + n - zlen l) w1) as Hskip.
    { intros b Hn' ->. eapply wp_mono; [apply IH; [rewrite Ep; lia|by rewrite Ep]|]. rewrite Ep, Es, Ed, Eh. by cbn [globals]. }
    unfold wifi_names in Hn |- *. cbn [List.filter] in Hn |- *. fold (wifi_names (drop (S (dir_pos (trace w))) names)) in Hn |- *.
    destruct (hidden name); cbn [negb andb] in Hn |- *; [by apply (Hskip false)|].
    destruct (is_wifi_interface name); [|by apply (Hskip false)].
    apply wp_bind, sys_eq. intros m Hm. assert (rv m <> 0) as Hm0 by (rewrite Hm; apply (dir_memory _ _ Hdir); rewrite Ep; lia).
    rewrite (proj2 (Z.eqb_neq _ _)) by done. apply wp_bind. unfold get_interface. apply wp_bind, sys_any. intros x. apply wp_ret.
    unfold zlen in Hn. cbn [length] in Hn. rewrite (proj2 (Z.leb_gt _ _)) by (unfold zlen; lia).
    eapply wp_mono; [apply IH; cbn [trace]; rewrite !dir_pos_snoc, Ep; cbn [fst]; [lia|]|].
    + unfold zlen. rewrite length_app. cbn [length]. lia.
    + cbn [trace globals]. rewrite !dir_pos_snoc, !held_snoc, Ep, Es, Ed, Eh. cbn [fst sock_weight fd_weight heap_weight].
      rewrite (proj2 (Z.eqb_neq (rv m) 0)) by done. intros r w' (-> & -> & Hg & -> & -> & ->). split.
      * rewrite map_app, <- app_assoc. done.
      * split; [done|]. split; [done|]. split; [lia|]. split; [lia|]. unfold zlen. rewrite length_app. cbn [length]. lia.
  - rewrite He. cbn [Z.eqb]. apply wp_ret. apply lookup_ge_None in E. rewrite drop_ge in * by lia. cbn [wifi_names List.filter map].
    rewrite app_nil_r. cbn [globals trace]. rewrite !held_snoc. cbn. unfold wifi_names, zlen in *. cbn in Hn. repeat split; lia.
Qed.

Context (dir_size : nat) (Hsize : (length names <= dir_size)%nat).

Definition wifi_count : Z := zlen (wifi_names names).

(** Nothing is set up, and everything given back; or the interfaces are those of the directory. *)
Lemma init_interfaces_spec w :
  wp (wifi_init_interfaces answer dir_size)
    (fun r w' => (r < 0 /\ globals w' = globals w /\ holds_more 0 0 0 (trace w) (trace w'))
       \/ (r = 0 /\ 0 < wifi_count /\ holds_more 0 0 (1 + wifi_count) (trace w) (trace w')
           /\ exists l, map if_name l = map (take 8) (wifi_names names) /\ zlen l = wifi_count
                /\ globals w' = on_info (set_interfaces l wifi_count) (globals w))) w.
Proof using Hdir Hsize.
  unfold wifi_init_interfaces. apply wp_bind, sys_any. intros d.
  assert (holds_more 0 0 0 (trace w) (trace w ++ [(Copendir, d)])) as H1 by holds_tac.
  destruct (rv d =? 0); [apply wp_ret; left; split; [apply unknown_negative|done]|].
  apply wp_bind. eapply wp_mono; [apply (wp_makes quiet); [apply quiet_count|]|].
  { apply count_spec. cbn [trace]. rewrite dir_pos_snoc. cbn [fst]. lia. }
  cbn [trace globals]. rewrite dir_pos_snoc. cbn [fst]. rewrite drop_0.
  intros n [g1 tr1] [[-> Hg] (t & Et & Hq)]. cbn [globals trace] in Hg, Et. subst g1 tr1. fold wifi_count.
  apply (holds_quiet _ _ _ _ _ t) in H1; [|done].
  apply wp_bind, sys_any. intros c. cbn [globals trace]. set (tr1 := (_ ++ [(Cclosedir, c)])) in *. assert (holds_more 0 0 0 (trace w) tr1) as H2 by (subst tr1; holds_tac).
  destruct (Z.eqb_spec (0 + wifi_count) 0) as [E|E].
  { apply wp_ret. left. split; [apply not_available_negative|]. split; [done|]. exact H2. }
  apply wp_bind, sys_any. intros d2. cbn [globals trace]. set (tr2 := tr1 ++ [(Copendir, d2)]) in *.
  assert (holds_more 0 0 0 (trace w) tr2) as H3 by (subst tr2; holds_tac).
  assert (dir_pos tr2 = 0%nat) as Ep by (subst tr2; by rewrite dir_pos_snoc).
  destruct (rv d2 =? 0); [apply wp_ret; left; split; [apply unknown_negative|done]|].
  apply wp_bind, sys_any. intros m. cbn [globals trace]. destruct (Z.eqb_spec (rv m) 0) as [Em|Em].
  { apply wp_bind, sys_any. intros c2. apply wp_ret. left. split; [apply oom_negative|]. split; [done|]. cbn [trace]. holds_tac. }
  set (w3 := World (globals w) (tr2 ++ [(Cmalloc, m)])). assert (dir_pos (trace w3) = 0%nat) as Ep3 by (subst w3; cbn [trace]; by rewrite dir_pos_snoc).
  assert (holds_more 0 0 1 (trace w) (trace w3)) as H4 by (subst w3; cbn [trace]; holds_tac).
  apply wp_bind. eapply wp_mono; [apply fill_spec; rewrite Ep3; [lia|]|].
  { rewrite drop_0. fold wifi_count. unfold zlen. cbn. lia. }
  rewrite Ep3, drop_0. intros l [g4 tr4] (Hm & Hl & Hg & Hs & Hf & Hh). cbn [globals trace] in *. subst g4.
  apply wp_bind, sys_any. intros c3. cbn [globals trace]. apply wp_bind, wp_mod. apply wp_ret. right.
  split; [apply success_0|]. split; [pose proof (Zle_0_nat (length (wifi_names names))); unfold wifi_count, zlen in *; lia|]. split.
  - cbn [trace]. change (zlen []) with 0 in Hh. holds_tac.
  - exists l. cbn [map app] in Hm. split; [done|]. split; [lia|]. done.
Qed.

Lemma create_nl_socket_spec port w :
  wp (wifi_create_nl_socket answer port)
    (fun r w' => globals w' = globals w
       /\ (r = 0 /\ holds_more 0 0 0 (trace w) (trace w') \/ r <> 0 /\ holds_more 1 0 0 (trace w) (trace w'))) w.
Proof.
  unfold wifi_create_nl_socket, wifi_socket_set_local_port. apply wp_bind, sys_any. intros s.
  destruct (Z.eqb_spec (rv s) 0) as [E|E].
  { apply wp_ret. split; [done|]. left. split; [done|]. cbn [trace]. holds_tac. }
  apply wp_bind. do 2 (apply wp_bind, sys_any; intros ?). apply wp_ret. apply wp_bind, sys_any. intros x.
  destruct (Z.eqb_spec (rv x) 0) as [E2|E2]; cbn [negb].
  - apply wp_ret. split; [done|]. right. split; [done|]. cbn [trace]. holds_tac.
  - apply wp_bind, sys_any. intros f. apply wp_ret. split; [done|]. left. split; [done|]. cbn [trace]. holds_tac.
Qed.

Hypothesis Hgroups : replies_good answer (groups_ok nla_attrs nla_parse).

Lemma add_memberships_spec groups g :
  always (add_memberships answer patience nla_attrs nla_parse groups) (fun _ g' => g' = g) g.
Proof using Hnl Hk Hgroups.
  induction groups as [|grp groups IH]; cbn [add_memberships]; [by al_step|]. al_step.
  unfold wifi_add_membership. al_step. apply (always_multicast_id answer patience page nla_attrs nla_parse Hnl Hk); [by vm_compute|done|].
  intros id. assert (forall r, always (if r <? 0 then io_ret false else add_memberships answer patience nla_attrs nla_parse groups)
    (fun _ g' => g' = g) g) as Hrest by (intros r; destruct (r <? 0); [by al_step|apply IH]).
  destruct (id <? 0); [al_step; apply Hrest|]. do 3 al_step. apply always_call. intros r. al_step. apply Hrest.
Qed.

(** What is given back when the initialisation fails. *)
Definition given_back (r : Z) (w w' : world hal wcall wresp) : Prop :=
  r < 0 /\
  ((exists tr, trace w' = trace w ++ tr /\ (map fst tr = [Cmalloc] \/ exists p, map fst tr = [Cmalloc; Csocketpair; Cfree p]))
     /\ holds_more 0 0 0 (trace w) (trace w')
   \/ holds_more 0 2 0 (trace w) (trace w') \/ holds_more 0 2 (1 + wifi_count) (trace w) (trace w')).

Definition initialized (w w' : world hal wcall wresp) : Prop :=
  holds_more 2 2 (4 + wifi_count) (trace w) (trace w')
  /\ stands_for (globals w') []
  /\ map if_name (interfaces (info (globals w'))) = map (take 8) (wifi_names names)
  /\ num_interfaces (info (globals w')) = zlen (interfaces (info (globals w'))) /\ 0 < num_interfaces (info (globals w'))
  /\ clean_up (info (globals w')) = false /\ in_event_loop (info (globals w')) = false
  /\ cmd_sock (info (globals w')) <> 0 /\ event_sock (info (globals w')) <> 0 /\ 0 <= nl80211_family_id (info (globals w')).

(** The calls of an error path, and the return. *)
Ltac give_back := repeat (apply wp_bind, sys_any; intros ?); apply wp_ret; cbn [trace globals fst snd].

Lemma initialize_spec w :
  objects (globals w) = ∅ ->
  wp (wifi_initialize answer patience nla_attrs nla_parse dir_size)
    (fun p w' => if p.2 : bool then p.1 = 0 /\ initialized w w' else given_back p.1 w w') w.
Proof using Hnl Hk Hgroups Hdir Hsize.
  intros Hobj. pose proof oom_negative as Hoom. pose proof unknown_negative as Hunk. pose proof not_available_negative as Hna.
  unfold wifi_initialize. apply wp_bind, sys_any. intros i. destruct (Z.eqb_spec (rv i) 0) as [Ei|Ei].
  { apply wp_ret. split; [done|]. left. cbn [trace]. split; [|holds_tac]. eexists. split; [done|]. by left. }
  apply wp_bind, wp_mod. apply wp_bind, sys_any. intros sp. cbn [globals trace]. destruct (Z.ltb_spec (rv sp) 0) as [Es|Es].
  { give_back. split; [done|]. left. split; [|holds_tac]. eexists. split; [by rewrite <- !app_assoc|]. right. by eexists. }
  apply wp_bind, wp_mod. apply wp_bind. cbn [globals trace]. set (w0 := World _ _).
  assert (holds_more 0 2 1 (trace w) (trace w0)) as H0 by (subst w0; cbn [trace]; holds_tac).
  eapply wp_mono; [apply create_nl_socket_spec|]. intros cs w1 (Hg1 & [(-> & H1)|(Hcs & H1)]).
  { cbn [Z.eqb]. give_back. split; [done|]. right. left. holds_tac. }
  rewrite (proj2 (Z.eqb_neq _ _)) by done. apply wp_bind. eapply wp_mono; [apply create_nl_socket_spec|].
  intros es w2 (Hg2 & [(-> & H2)|(Hes & H2)]).
  { cbn [Z.eqb]. give_back. split; [done|]. right. left. holds_tac. }
  rewrite (proj2 (Z.eqb_neq es _)) by done. assert (holds_more 2 2 1 (trace w) (trace w2)) as H3 by holds_tac.
  assert (globals w2 = globals w0) as Hg by congruence. clear H0 H1 H2 Hg1 Hg2 w1. subst w0. cbn [globals] in Hg.
  apply wp_bind, sys_any. intros cb. destruct (rv cb =? 0).
  { give_back. split; [done|]. right. left. holds_tac. }
  apply wp_bind, sys_any. intros cp. do 3 (apply wp_bind, wp_mod). cbn [globals trace].
  apply wp_bind, sys_any. intros e. cbn [globals trace]. destruct (Z.eqb_spec (rv e) 0) as [Ee|Ee].
  { give_back. split; [done|]. right. left. holds_tac. }
  apply wp_bind, sys_any. intros c. cbn [globals trace]. destruct (Z.eqb_spec (rv c) 0) as [Ec|Ec].
  { give_back. split; [done|]. right. left. holds_tac. }
  apply wp_bind, wp_mod. apply wp_bind, sys_any. intros f. apply wp_bind, wp_mod. cbn [globals trace]. destruct (Z.ltb_spec (rv f) 0) as [Ef|Ef].
  { give_back. split; [done|]. right. left. holds_tac. }
  apply wp_bind, sys_any. intros mi. cbn [globals trace]. apply wp_bind. set (w4 := World _ _).
  assert (holds_more 2 2 3 (trace w) (trace w4)) as H4 by (subst w4; cbn [trace]; holds_tac).
  eapply wp_mono; [apply init_interfaces_spec|]. intros n w5 [(Hn & Hg5 & H5)|(-> & Hpos & H5 & l & Hl & Hlen & Hg5)].
  { unfold not_success. rewrite success_0, (proj2 (Z.eqb_neq n 0)) by lia. cbn [negb]. apply wp_bind, wp_ret. cbn [negb]. give_back.
    split; [done|]. right. left. holds_tac. }
  unfold not_success. rewrite success_0. cbn [Z.eqb negb]. apply wp_bind.
  eapply wp_mono; [apply (wp_makes quiet _ (fun _ w' => globals w' = globals w5)); [apply quiet_add_memberships|]|].
  { destruct w5 as [g5 tr5]. apply add_memberships_spec. }
  cbn beta. intros ok w6 [Hg6 (t & Et & Hq)]. assert (holds_more 2 2 (4 + wifi_count) (trace w) (trace w6)) as H6.
  { rewrite Et. apply holds_quiet; [|done]. holds_tac. }
  destruct ok; cbn [negb].
  - apply wp_ret. split; [done|]. split; [exact H6|].
    rewrite Hg6, Hg5. subst w4. cbn [globals on_info info objects] in *. rewrite Hg. unfold on_info. cbn [objects info]. rewrite Hobj.
    split; [|split_and!; cbn [interfaces num_interfaces set_interfaces clean_up in_event_loop cmd_sock event_sock nl80211_family_id]; done || lia].
    apply stands_for_mem. split; [|split; [|done]].
    + unfold distinct. cbn [map]. split; [apply NoDup_nil_2|]. split; [apply NoDup_nil_2|]. split; [apply NoDup_nil_2|apply Forall_nil_2].
    + unfold hal_ok, table_ok. by vm_compute.
  - give_back. split; [done|]. right. right. holds_tac.
Qed.
End Initialize.

(** ** Calls that may be interrupted *)
Definition interrupted (r : wresp) : bool := (rv r =? -1) && (rv2 r =? EINTR).

Fixpoint retries_within (answer : list (wcall * wresp) -> wcall -> wresp) (n : nat) (tr : list (wcall * wresp)) (c : wcall) : Prop :=
  match n with
  | O => False
  | S n => interrupted (answer tr c) = false \/ retries_within answer n (tr ++ [(c, answer tr c)]) c
  end.

Section Retry.
Context `{hal_headers} (answer : list (wcall * wresp) -> wcall -> wresp).

(** The call is made until it is not interrupted; the response is that of the last time. *)
Lemma retry_spec n c w :
  retries_within answer n (trace w) c ->
  wp (retry answer n c)
    (fun r w' => globals w' = globals w /\ interrupted r = false
       /\ exists tr, trace w' = trace w ++ tr ++ [(c, r)] /\ r = answer (trace w ++ tr) c
           /\ Forall (fun e => e.1 = c /\ interrupted e.2 = true) tr) w.
Proof.
  revert w. induction n as [|n IH]; intros w Hr; [done|]. cbn [retry retries_within] in *. apply wp_bind, wp_call.
  unfold interrupted in *. destruct (_ && _) eqn:E.
  - destruct Hr as [Hr|Hr]; [congruence|]. eapply wp_mono; [by apply IH|]. cbn [globals trace].
    intros r w' (Hg & Hi & tr & Et & Er & Hf). split; [done|]. split; [done|]. exists ((c, answer (trace w) c) :: tr).
    rewrite <- app_assoc in Et. cbn [app] in Et. split; [done|]. rewrite <- app_assoc in Er. split; [done|]. by apply Forall_cons.
  - apply wp_ret. split; [done|]. split; [done|]. exists []. rewrite app_nil_r. split; [done|]. split; [done|apply Forall_nil_2].
Qed.

Lemma quiet_retry n c : (forall r, quiet (c, r)) -> makes quiet (retry answer n c).
Proof. intros Hq. induction n as [|n IH]; cbn [retry]; [apply quiet_undefined|]. makes_tac. by apply quiet_sys. Qed.
End Retry.

(** ** Cleanup *)
Section Cleanup.
Context `{hal_headers} (answer : list (wcall * wresp) -> wcall -> wresp) (patience : nat) (page : Z).
Hypothesis Hnl : libnl_ok answer page.
Hypothesis Hk : kernel_replies answer patience.

(** The memory is as in [v], and the mutex is held. *)
Definition locked (v : view) (g : hal) : Prop := exists g0, mem v g0 /\ g = with_lock g0 true.

Lemma lock_id g : cb_lock (info g) = false -> with_lock (with_lock g true) false = g.
Proof. destruct g as [[] ?]. cbn. by intros ->. Qed.

Lemma always_lock v (P : unit -> hal -> Prop) g :
  mem v g -> (forall g, locked v g -> P tt g) -> always (C := wcall) (R := wresp) pthread_mutex_lock P g.
Proof.
  intros Hm HP. pose proof Hm as [(_ & _ & _ & _ & Hl) _]. eapply always_pure; [by rewrite Hl|]. apply HP. by exists g.
Qed.

Lemma always_unlock v (P : unit -> hal -> Prop) g :
  locked v g -> (forall g, mem v g -> P tt g) -> always (C := wcall) (R := wresp) pthread_mutex_unlock P g.
Proof.
  intros (g0 & Hm & ->) HP. pose proof Hm as [(_ & _ & _ & _ & Hl) _]. eapply always_pure; [done|].
  rewrite lock_id by done. by apply HP.
Qed.

Lemma always_lift {A} (o : option A) a (P : A -> hal -> Prop) g :
  o = Some a -> P a g -> always (C := wcall) (R := wresp) (lift o) P g.
Proof. intros -> HP tr. exact HP. Qed.

(** What is read of the table of commands. *)
Lemma mem_num v g : mem v g -> num (cmd (info g)) = zlen (cmds v).
Proof. intros [(_ & _ & Ht & _) <-]. cbn [cmds view_of]. by rewrite entries_length. Qed.

Lemma mem_entry v g i c : mem v g -> cmds v !! i = Some c -> aget (slots (cmd (info g))) (Z.of_nat i) = Some c.
Proof.
  intros [_ <-] Hi. cbn [cmds view_of] in Hi. unfold entries in Hi. apply lookup_take_Some in Hi as [Hi _].
  unfold aget. by rewrite (proj2 (Z.leb_le 0 _)), Nat2Z.id by lia.
Qed.

Lemma always_log v p (P : unit -> hal -> Prop) g :
  locked v g -> p = 0 \/ is_Some (objs v !! p) -> P tt g -> always (C := wcall) (R := wresp) (run (log_type p)) P g.
Proof.
  intros (g0 & [_ Hv] & ->) Hp HP. unfold log_type. destruct (Z.eqb_spec p 0); [by al_step|].
  destruct Hp as [?|[c Hc]]; [done|]. al_step. unfold deref. eapply always_pure; [|al_step; exact HP].
  apply (f_equal objs) in Hv. cbn [objs view_of] in Hv. cbn [objects with_lock]. by rewrite Hv, Hc.
Qed.

Lemma always_release_locked p c v (P : unit -> hal -> Prop) g :
  locked v g -> objs v !! p = Some c -> mRefs c = 1 ->
  (forall g, locked (set_objs v (delete p (objs v))) g -> P tt g) -> always (C := wcall) (R := wresp) (releaseRef p) P g.
Proof.
  intros (g0 & [Hok Hv] & ->) Ho Hr HP. assert (objects g0 = objs v) as Eo by (by rewrite <- Hv).
  eapply always_pure; [cbn [objects with_lock]; rewrite Eo, Ho; cbn [mbind option_bind]; by rewrite Hr|]. cbn [Z.sub Z.add Z.opp Z.pos_sub Z.eqb].
  apply HP. exists (with_objects g0 (delete p (objs v))). split; [|by destruct g0]. split; [exact Hok|].
  unfold view_of in *. cbn [objects info with_objects]. by rewrite <- Hv.
Qed.

Lemma always_log_handlers v hs (P : unit -> hal -> Prop) g :
  locked v g -> Forall (fun c => is_Some (objs v !! cb_arg c)) hs -> P tt g ->
  always (C := wcall) (R := wresp) (run (log_handlers hs)) P g.
Proof.
  intros Hl Hs HP. induction Hs as [|c hs Hc Hs IH]; cbn [log_handlers]; [by al_step|]. al_step. eapply always_log; [done|by right|exact IH].
Qed.

Lemma handlers_have_objects l : distinct l -> Forall (fun c => is_Some (objs_of l !! cb_arg c)) (cbs_of l).
Proof.
  intros Hd. apply List.Forall_forall. intros c (hs & (a & <- & Ha)%in_map_iff & Hc)%in_concat.
  unfold handlers_of in Hc. destruct (a_armed a); [|done]. apply in_map_iff in Hc as (e & <- & _). cbn [cb_arg handler].
  apply in_split in Ha as (l1 & l2 & ->). rewrite objs_of_lookup by done. by eexists.
Qed.

(** After [done]: their objects are gone, their handlers, too, but the table of commands has all of them. *)
Definition cleaning (v : view) (done todo : list active) : view :=
  mk_view (cbs_of todo) (cmds_of (done ++ todo)) (objs_of todo) (rest v).

Lemma cancel_all_spec n v done todo g :
  distinct todo -> (length todo <= n)%nat -> locked (cleaning v done todo) g ->
  always (run (cancel_all answer patience n (zlen done))) (fun _ g' => locked (cleaning v (done ++ todo) []) g') g.
Proof using Hnl Hk.
  revert done todo g. induction n as [|n IH]; intros dn todo g Hd Hn Hl; cbn [cancel_all];
    pose proof Hl as (g0 & Hm & Eg); pose proof (mem_num _ _ Hm) as Hnum;
    cbn [cmds cleaning] in Hnum; unfold cmds_of, zlen in Hnum; rewrite length_map, length_app in Hnum;
    (do 2 al_step; rewrite Eg; change (cmd (info (with_lock g0 true))) with (cmd (info g0)); rewrite Hnum).
  - destruct todo; [|cbn in Hn; lia]. rewrite (proj2 (Z.leb_le _ _)) by (unfold zlen; cbn [length]; lia).
    al_step. rewrite <- Eg, app_nil_r. exact Hl.
  - destruct todo as [|a todo].
    { rewrite (proj2 (Z.leb_le _ _)) by (unfold zlen; cbn [length]; lia). al_step. rewrite <- Eg, app_nil_r. exact Hl. }
    rewrite (proj2 (Z.leb_gt _ _)) by (unfold zlen; cbn [length]; lia).
    pose proof (distinct_app [] a todo Hd) as (Hx & Hnz & Ho & Hd').
    assert (forall g, mem (cleaning v dn (a :: todo)) g ->
      aget (slots (cmd (info g))) (zlen dn) = Some (mk_cmd (a_id a) (a_ptr a))) as Hget.
    { intros g1 Hm1. apply (mem_entry _ _ _ _ Hm1). cbn [cmds cleaning]. rewrite cmds_of_app.
      unfold cmds_of. rewrite lookup_app_r by (by rewrite length_map). by rewrite length_map, Nat.sub_diag. }
    assert (objs_of (a :: todo) !! a_ptr a = Some (object_of a)) as Hobj by exact (objs_of_lookup [] a todo Hd).
    al_step. apply always_lift with (1 := Hget _ Hm). cbn [cmd_ptr]. rewrite (proj2 (Z.eqb_neq _ _)) by done. cbn [negb].
    rewrite <- Eg. al_step. eapply always_log; [exact Hl|right; cbn [objs cleaning]; by rewrite Hobj|].
    al_step. eapply always_unlock; [exact Hl|]. intros g1 Hm1. al_step.
    eapply always_mono; [apply (cancel_alone answer patience page (a :: todo) a (cleaning v dn (a :: todo)) _ Hnl Hk Hd); [by left|done|done|exact Hm1]|].
    cbn beta. intros _ g2 Hm2. pose proof (disarm_split [] a todo Hd) as Ed. cbn [app] in Ed. rewrite Ed in Hm2.
    change (cbs_of (mk_active (a_id a) (a_ptr a) (a_class a) (a_iface a) false :: todo)) with (cbs_of todo) in Hm2.
    apply always_run_step; eapply always_lock; [exact Hm2|]. intros g3 Hl3. do 2 al_step. pose proof Hl3 as (g4 & Hm4 & Eg4).
    pose proof (mem_num _ _ Hm4) as Hnum4. cbn [cmds set_cbs cleaning] in Hnum4. unfold cmds_of, zlen in Hnum4. rewrite length_map, length_app in Hnum4.
    rewrite Eg4 at 1. change (cmd (info (with_lock g4 true))) with (cmd (info g4)). rewrite Hnum4, Z.eqb_refl.
    al_step. eapply always_log; [exact Hl3|right; cbn [objs set_cbs cleaning]; by rewrite Hobj|].
    al_step. eapply (always_release_locked (a_ptr a) (object_of a)); [exact Hl3|exact Hobj|done|]. intros g5 Hl5.
    replace (zlen dn + 1) with (zlen (dn ++ [a])) by (unfold zlen; rewrite length_app; cbn [length]; lia).
    replace (dn ++ a :: todo) with ((dn ++ [a]) ++ todo) by (by rewrite <- app_assoc).
    apply IH; [exact Hd'|cbn [length] in Hn; lia|]. unfold set_objs, set_cbs, cleaning in Hl5. cbn [cbs cmds objs rest] in Hl5.
    pose proof (objs_of_delete [] a todo Hd) as Edel. cbn [app] in Edel. rewrite Edel in Hl5. unfold cleaning. by rewrite <- app_assoc.
Qed.

Lemma quiet_cancel_all n bad : makes quiet (run (cancel_all answer patience n bad)).
Proof.
  revert bad. induction n as [|n IH]; intros bad; cbn [cancel_all];
    unfold log_type, deref, pthread_mutex_unlock, releaseRef;
    repeat first [progress makes_run | progress makes_tac | apply quiet_undefined | apply quiet_lift | apply quiet_cancel | apply quiet_lock].
Qed.

Lemma quiet_log_handlers hs : makes (G := hal) quiet (run (log_handlers hs)).
Proof. induction hs as [|c hs IH]; cbn [log_handlers]; [by apply makes_ret|]. unfold log_type, deref. makes_run; makes_tac. Qed.

Hypothesis Hint : forall tr c, retries_within answer patience tr c.

(** The calls of the end. *)
Definition farewell (i : hal_info) (handle handler : Z) : list wcall :=
  [Cclose (fst (cleanup_socks i)); Cclose (snd (cleanup_socks i)); Cnl_socket_free (cmd_sock i); Cnl_socket_free (event_sock i);
   Ccleaned_up handler; Cmutex_destroy; Cfree handle].

(** A part that holds on to nothing. *)
Lemma wp_quiet {A B} (p : prog hal wcall wresp A) (k : A -> prog hal wcall wresp B) (P : A -> hal -> Prop) Q tr0 t g :
  Forall quiet t -> makes quiet (run p) -> always (run p) P g ->
  (forall a g t, P a g -> Forall quiet t -> wp (run (k a)) Q (World g (tr0 ++ t))) ->
  wp (run (prog_bind p k)) Q (World g (tr0 ++ t)).
Proof.
  intros Ht Hm Ha Hk'. apply wp_run_bind. eapply wp_mono; [apply (wp_makes quiet); [exact Hm|apply Ha]|].
  cbn beta. intros a [g' tr'] [HP (t' & Et & Ht')]. cbn [trace globals] in *. subst tr'. rewrite <- app_assoc.
  apply Hk'; [done|]. by apply list.Forall_app.
Qed.

(** One of its steps. *)
Lemma wp_quiet_step {A B} ready (m : io hal wcall wresp A) (k : A -> prog hal wcall wresp B) (P : A -> hal -> Prop) Q tr0 t g :
  Forall quiet t -> makes quiet m -> always m P g ->
  (forall a g t, P a g -> Forall quiet t -> wp (run (k a)) Q (World g (tr0 ++ t))) ->
  wp (run (prog_bind (Step ready m Ret) k)) Q (World g (tr0 ++ t)).
Proof.
  intros Ht Hm Ha. apply wp_quiet; [done|by apply makes_run_at_once|]. cbn [run]. apply always_bind.
  eapply always_mono; [exact Ha|]. intros a g' HP. by apply always_ret.
Qed.

Lemma always_retry c (P : wresp -> hal -> Prop) g : (forall r, P r g) -> always (retry answer patience c) P g.
Proof using Hint.
  intros HP tr. eapply wp_mono; [apply retry_spec, Hint|]. cbn beta. intros r w (-> & _). apply HP.
Qed.

(** The commands are cancelled and deleted, and everything that is given back is, by the last calls. *)
Definition cleaned (i : hal_info) (handle handler : Z) (tr : list (wcall * wresp)) (w : world hal wcall wresp) : Prop :=
  objects (globals w) = ∅ /\ cbs (view_of (globals w)) = []
  /\ holds_more (-2) (-2) (-1) tr (trace w)
  /\ exists tr1 tr2, trace w = tr ++ tr1 ++ tr2 /\ Forall quiet tr1 /\ map fst tr2 = farewell i handle handler.

Lemma cleaned_up_spec v l i handle tr t g :
  mem (cleaning v l []) g -> Forall quiet t -> cmd_sock i <> 0 -> cleaned_up_handler i <> 0 ->
  cmd_sock (info g) = cmd_sock i -> event_sock (info g) = event_sock i -> cleanup_socks (info g) = cleanup_socks i ->
  cleaned_up_handler (info g) = cleaned_up_handler i ->
  wp (run (internal_cleaned_up_handler answer handle)) (fun _ => cleaned i handle (cleaned_up_handler i) tr) (World g (tr ++ t)).
Proof.
  intros [Hok Hv] Ht Hs Hh E1 E2 E3 E4. unfold internal_cleaned_up_handler. apply wp_run_step, wp_get. cbn [globals].
  rewrite E1, E2, E3, E4. rewrite (proj2 (Z.eqb_neq _ _)) by done. cbn [negb]. apply wp_run_bind.
  do 4 (apply wp_run_step, sys_any; intros ?). apply wp_run_at_once, wp_mod. rewrite (proj2 (Z.eqb_neq (cleaned_up_handler i) _)) by done.
  do 3 (apply wp_run_step, sys_any; intros ?). apply wp_ret. unfold cleaned. cbn [globals trace].
  apply (f_equal cbs) in Hv as Ecb. apply (f_equal objs) in Hv. split; [exact Hv|]. split; [exact Ecb|].
  pose proof (holds_quiet _ _ _ _ _ t (holds_refl tr) Ht) as Hq. split; [holds_tac|].
  exists t. eexists. split; [by rewrite <- !app_assoc|]. split; [done|]. reflexivity.
Qed.

Lemma end_commands_spec n l v handle tr t g :
  mem (view_for v l) g -> distinct l -> (length l <= n)%nat -> Forall quiet t ->
  cmd_sock (info g) <> 0 -> cleaned_up_handler (info g) <> 0 ->
  wp (run (end_commands answer patience n handle)) (fun _ => cleaned (info g) handle (cleaned_up_handler (info g)) tr) (World g (tr ++ t)).
Proof using Hnl Hk.
  intros Hm0 Hd Hn Ht Hs Hh. unfold end_commands. apply wp_run_step, wp_mod. cbn [globals trace]. set (g2 := on_info _ _).
  set (v2 := view_of g2). assert (mem (view_for v2 l) g2) as Hm.
  { destruct Hm0 as [Hok Hv]. split; [exact Hok|]. subst v2. unfold view_for, view_of in *. cbn [cbs cmds objs rest] in *.
    injection Hv as Ec Ecm Eo _. cbn [info objects on_info event_cb cmd set_clean_up] in *. by rewrite <- Ec, <- Ecm, <- Eo. }
  eapply (wp_quiet_step _ _ _ (fun _ g => locked (view_for v2 l) g)); [exact Ht|apply makes_pure| |].
  { eapply always_lock; [exact Hm|]. by intros. }
  intros _ g3 t3 Hl H3. apply wp_run_step, wp_get. cbn [globals].
  eapply (wp_quiet _ _ (fun _ g => locked (view_for v2 l) g)); [exact H3|apply quiet_log_handlers| |].
  { eapply always_log_handlers; [exact Hl| |exact Hl]. destruct Hl as (g0 & [Hok Hv] & ->).
    change (Forall (fun c => is_Some (objs (view_for v2 l) !! cb_arg c)) (cbs (view_of g0))). rewrite Hv. by apply handlers_have_objects. }
  intros _ g4 t4 Hl4 H4. eapply (wp_quiet _ _ (fun _ g => locked (cleaning v2 l []) g)); [exact H4|apply quiet_cancel_all| |].
  { apply (cancel_all_spec n v2 [] l); [done|done|exact Hl4]. }
  intros _ g5 t5 Hl5 H5. eapply (wp_quiet_step _ _ _ (fun _ g => mem (cleaning v2 l []) g)); [exact H5|apply makes_pure| |].
  { eapply always_unlock; [exact Hl5|]. by intros. }
  intros _ g6 t6 Hm6 H6. pose proof Hm6 as [_ Hv6].
  assert (cmd_sock (info g6) = cmd_sock (info g) /\ event_sock (info g6) = event_sock (info g)
    /\ cleanup_socks (info g6) = cleanup_socks (info g) /\ cleaned_up_handler (info g6) = cleaned_up_handler (info g)) as (E1 & E2 & E3 & E4).
  { apply (f_equal rest) in Hv6. unfold view_of in Hv6. cbn [rest cleaning] in Hv6. subst v2. unfold view_of, g2 in Hv6. cbn in Hv6.
    injection Hv6 as -> -> _ -> _ _ -> _ _. done. }
  by eapply cleaned_up_spec.
Qed.

Lemma cleanup_spec n l handle handler w :
  stands_for (globals w) l -> (length l <= n)%nat -> handler <> 0 -> cmd_sock (info (globals w)) <> 0 ->
  wp (run (wifi_cleanup answer patience n handle handler)) (fun _ => cleaned (info (globals w)) handle handler (trace w)) w.
Proof using Hnl Hk Hint.
  intros Hst Hn Hh Hs. unfold wifi_cleanup. apply wp_run_step, wp_mod, wp_run_step, wp_get. cbn [globals trace].
  set (g := on_info _ _). pose proof Hst as [Hd Hm]%stands_for_mem.
  assert (forall t, Forall quiet t ->
    wp (run (end_commands answer patience n handle)) (fun _ => cleaned (info (globals w)) handle handler (trace w)) (World g (trace w ++ t))) as Hrest.
  { intros t Ht. apply (end_commands_spec n l (view_of g) handle (trace w) t g); try done.
    destruct Hst as (Hok & _ & Hc & Hcm & Ho). split; [exact Hok|]. unfold view_for, view_of in *.
    cbn [cbs cmds objs rest] in *. by rewrite <- Hc, <- Hcm, <- Ho. }
  destruct (cleanup_socks (info g)) as [mine theirs].
  replace (World g (trace w)) with (World g (trace w ++ [])) by (by rewrite app_nil_r). eapply (wp_quiet_step _ _ _ (fun _ g' => g' = g)); [apply Forall_nil_2|by apply quiet_retry|by apply always_retry|].
  intros r g1 t1 -> H1. destruct (rv r <? 1); [by apply Hrest|].
  eapply (wp_quiet_step _ _ _ (fun _ g' => g' = g)); [exact H1|by apply quiet_retry|by apply always_retry|].
  intros _ g2 t2 -> H2. by apply Hrest.
Qed.
End Cleanup.

(** ** The event loop *)
Definition poll_weight (e : wcall * wresp) : Z := match e.1 with Cpoll _ _ => 1 | _ => 0 end.
Abbreviation polls := (held poll_weight).

Lemma polls_more tr tr' : polls tr <= polls (tr ++ tr').
Proof.
  rewrite held_app. assert (0 <= polls tr'); [|lia]. apply zsum_nonneg, List.Forall_map, List.Forall_forall.
  intros [[] r] _; cbn; lia.
Qed.

Section Loop.
Context `{hal_headers} (answer : list (wcall * wresp) -> wcall -> wresp) (patience : nat).
Context (nla_attrs : list Z -> list (Z * list Z)) (wakes : list (wcall * wresp) -> bool).
Hypothesis Hint : forall tr c, retries_within answer patience tr c.

(** The messages of the driver hold what the active commands read of them. *)
Definition messages_ok (l : list active) : Prop :=
  forall tr sock ev, In (CbValid ev) (rcbs (answer tr (Cnl_recvmsgs sock))) -> 0 <= ev_parse ev ->
    (ev_cmd ev = NL80211_CMD_VENDOR -> ids_ok ev) /\ Forall (fun a => readable nla_attrs (a_class a) ev) l.

(** From the [N]-th poll on, the other end of the cleanup sockets has asked the loop to end. *)
Definition exit_requested (N : Z) : Prop :=
  (forall tr fd0 fd1, N <= polls tr ->
     let r := answer tr (Cpoll fd0 fd1) in
     0 <= rv r /\ Forall (fun b => has (nth 0 (rdata r) 0) b = false) [POLLERR; POLLHUP; POLLIN] /\ has (nth 1 (rdata r) 0) POLLIN = true)
  /\ (forall tr fd, N <= polls tr -> take 4 (rdata (answer tr (Cread fd 2048))) = str "Exit").

Context (l : list active) (v : view).
Hypothesis Hmsg : messages_ok l.
Hypothesis Hd : distinct l.
Hypothesis Hnortt : Forall (fun a => is_rtt (a_class a) = false) l.

(** The calls made for the clients, and only for those of [l]. *)
Lemma handle_messages_spec cbs g tr :
  mem (view_for v l) g ->
  (forall ev, In (CbValid ev) cbs -> 0 <= ev_parse ev ->
     (ev_cmd ev = NL80211_CMD_VENDOR -> ids_ok ev) /\ Forall (fun a => readable nla_attrs (a_class a) ev) l) ->
  wp (run (handle_messages answer nla_attrs cbs))
    (fun _ w' => mem (view_for v l) (globals w') /\ exists tr', trace w' = tr ++ tr') (World g tr).
Proof using Hd Hnortt.
  revert g tr. induction cbs as [|c cbs IH]; intros g tr Hm Hc; cbn [handle_messages].
  { apply wp_ret. split; [done|]. exists []. by rewrite app_nil_r. }
  assert (forall ev, In (CbValid ev) cbs -> 0 <= ev_parse ev ->
     (ev_cmd ev = NL80211_CMD_VENDOR -> ids_ok ev) /\ Forall (fun a => readable nla_attrs (a_class a) ev) l) as Hc' by (intros; apply Hc; [by right|done]).
  destruct c as [ev| | |e]; try by apply IH. apply wp_run_bind. destruct (Z.lt_ge_cases (ev_parse ev) 0) as [Hp|Hp].
  - unfold internal_valid_message_handler. rewrite (proj2 (Z.ltb_lt _ _)) by done. apply wp_ret. by apply IH.
  - destruct (Hc ev (or_introl eq_refl) Hp) as [Hids Hread].
    eapply wp_mono; [apply (dispatch_spec answer nla_attrs ev l v g Hd Hm Hp Hids)|].
    + intros a (_ & l1 & l2 & E)%target_split. rewrite E in Hread. rewrite List.Forall_forall in Hread. apply Hread, in_elt.
    + cbn beta. intros _ [g1 tr1] ((l' & Hdel & _ & Hm1) & tr' & Et & _). cbn [trace globals] in *. subst tr1.
      assert (l' = l) as ->.
      { unfold delivered in Hdel. destruct (target ev l) as [a|]; [|done]. destruct Hdel as (l1 & l2 & E & Hh).
        rewrite E in Hnortt. rewrite List.Forall_forall in Hnortt. specialize (Hnortt a (in_elt _ _ _)).
        inversion Hh as [|ps st st' Ek|ps st Ek]; [done|by rewrite Ek in Hnortt..]. }
      eapply wp_mono; [by apply IH|]. cbn beta. intros _ w' (Hm' & t & Et). split; [done|]. exists (tr' ++ t). by rewrite Et, app_assoc.
Qed.

(** A call that goes on until it is not interrupted, with the last response. *)
Lemma wp_retry {A} ready c (k : wresp -> prog hal wcall wresp A) Q g tr :
  (forall tr', wp (run (k (answer (tr ++ tr') c))) Q (World g (tr ++ tr' ++ [(c, answer (tr ++ tr') c)]))) ->
  wp (run (prog_bind (Step ready (retry answer patience c) Ret) k)) Q (World g tr).
Proof using Hint.
  intros Hw. apply wp_run_step. eapply wp_mono; [apply retry_spec, Hint|]. cbn beta.
  intros r [g' tr'] (Hg & _ & t & Et & -> & _). cbn [globals trace] in *. subst g' tr'. apply Hw.
Qed.

Lemma round_spec N fd0 fd1 g tr :
  exit_requested N -> mem (view_for v l) g ->
  wp (run (loop_round answer patience nla_attrs wakes fd0 fd1))
    (fun stop w' => mem (view_for v l) (globals w') /\ polls tr + 1 <= polls (trace w') /\ (N <= polls tr -> stop = true)) (World g tr).
Proof using Hint Hmsg Hd Hnortt.
  intros [Hpoll Hread] Hm. unfold loop_round.
  apply wp_retry. intros t1. set (p := answer (tr ++ t1) (Cpoll fd0 fd1)). cbn zeta.
  pose proof (Hpoll (tr ++ t1) fd0 fd1) as Hp. fold p in Hp. pose proof (polls_more tr t1) as Hle.
  assert (polls tr + 1 <= polls (tr ++ t1 ++ [(Cpoll fd0 fd1, p)])) as H1.
  { rewrite app_assoc, held_snoc. cbn [poll_weight fst]. lia. }
  set (tr1 := tr ++ t1 ++ _) in *. assert (forall t, polls tr + 1 <= polls (tr1 ++ t)) as Hmore by (intros t; pose proof (polls_more tr1 t); lia).
  assert (N <= polls tr -> 0 <= rv p /\ has (nth 0 (rdata p) 0) POLLERR = false /\ has (nth 0 (rdata p) 0) POLLHUP = false
    /\ has (nth 0 (rdata p) 0) POLLIN = false /\ has (nth 1 (rdata p) 0) POLLIN = true) as Hp'.
  { intros HN. destruct (Hp ltac:(lia)) as (? & Hf & ?). apply Forall_cons_1 in Hf as [? Hf]. apply Forall_cons_1 in Hf as [? Hf].
    apply Forall_cons_1 in Hf as [? _]. done. }
  destruct (Z.ltb_spec (rv p) 0); [apply wp_ret; split; [done|]; split; [done|]; intros HN; destruct (Hp' HN); lia|].
  destruct (has _ POLLERR).
  { apply wp_retry. intros t2. apply wp_ret. split; [done|]. split; [apply Hmore|]. intros HN. by destruct (Hp' HN) as (_ & ? & _). }
  destruct (has _ POLLHUP); [by apply wp_ret|]. destruct (has _ POLLIN).
  { apply wp_run_bind. unfold internal_pollin_handler. apply wp_run_step, wp_get. cbn [globals]. apply wp_run_step, sys_any. intros cb. apply wp_run_step, sys_eq. intros r Er.
    cbn [trace globals]. apply wp_run_bind. eapply wp_mono; [apply handle_messages_spec; [exact Hm|]|].
    - intros ev Hin Hev. rewrite Er in Hin. by eapply Hmsg.
    - cbn beta. intros _ [g2 tr2] (Hm2 & t & Et). cbn [globals trace] in *. subst tr2. apply wp_run_step, sys_any. intros x. apply wp_ret. apply wp_ret.
      cbn [trace]. split; [exact Hm2|]. split; [rewrite <- !app_assoc; apply Hmore|]. intros HN. by destruct (Hp' HN) as (_ & _ & _ & ? & _). }
  destruct (has _ POLLIN) eqn:Ein.
  - apply wp_retry. intros t2. case_bool_decide as Ex.
    + apply wp_retry. intros t3. apply wp_ret. cbn [trace]. split; [done|]. split; [rewrite <- !app_assoc; apply Hmore|done].
    + apply wp_ret. split; [done|]. split; [apply Hmore|]. intros HN. destruct Ex. apply Hread. pose proof (polls_more tr1 t2). lia.
  - apply wp_ret. split; [done|]. split; [done|]. intros HN. destruct (Hp' HN) as (_ & _ & _ & _ & ?). congruence.
Qed.

Lemma event_loop_spec N fd0 fd1 n g tr :
  exit_requested N -> mem (view_for v l) g -> Z.max 0 (N - polls tr) < Z.of_nat n ->
  wp (run (event_loop answer patience nla_attrs wakes fd0 fd1 n)) (fun _ w' => mem (view_for v l) (globals w')) (World g tr).
Proof using Hint Hmsg Hd Hnortt.
  intros Hex. revert g tr. induction n as [|n IH]; intros g tr Hm Hn; [lia|]. cbn [event_loop].
  apply wp_run_bind. eapply wp_mono; [by apply (round_spec N)|]. cbn beta. intros stop [g1 tr1] (Hm1 & Hp & Hs). cbn [globals trace] in *.
  destruct stop; [by apply wp_ret|]. apply wp_run_step, wp_get. cbn [globals]. destruct (clean_up (info g1)); [by apply wp_ret|].
  apply IH; [done|]. destruct (Z.le_gt_cases N (polls tr)); [by specialize (Hs ltac:(lia))|lia].
Qed.
End Loop.

(** ** The whole life *)
Section Main.
Context `{hal_headers} (answer : list (wcall * wresp) -> wcall -> wresp) (patience : nat) (page : Z).
Context (nla_attrs nla_parse : list Z -> list (Z * list Z)) (wakes : list (wcall * wresp) -> bool).


(** C27. Cleanup. From a HAL that stands for any list of active commands, whatever the kernel answers: the loop that
    cancels the commands ends after as many rounds as there are commands, although none of them
    leaves the table; every object is cancelled and deleted once, no handler is left, no deleted object is looked
    at, and the mutex is free when the HAL is freed; the last calls close the pair of sockets, free both
    netlink sockets, tell the client, and free the HAL, and of the memory nothing but that one block is given back: the two
    tables and the interfaces are not. *)
Theorem cleanup_correct (n : nat) (l : list active) (handle handler : Z) (w : world hal wcall wresp) :
  libnl_ok answer page -> kernel_replies answer patience -> (forall tr c, retries_within answer patience tr c) ->
  stands_for (globals w) l -> (length l <= n)%nat -> handler <> 0 -> cmd_sock (info (globals w)) <> 0 ->
  exists w', run (wifi_cleanup answer patience n handle handler) w = Some (tt, w')
    /\ objects (globals w') = ∅ /\ cbs (view_of (globals w')) = [] /\ holds_more (-2) (-2) (-1) (trace w) (trace w')
    /\ exists tr1 tr2, trace w' = trace w ++ tr1 ++ tr2 /\ Forall quiet tr1 /\ map fst tr2 = farewell (info (globals w)) handle handler.
Proof.
  intros Hnl Hk Hint Hst Hn Hh Hs.
  destruct (wp_total _ _ _ (cleanup_spec answer patience page Hnl Hk Hint n l handle handler w Hst Hn Hh Hs)) as ([] & w' & E & HP).
  by exists w'.
Qed.

(** The event loop ends. For any HAL whose active commands are no measurements, and messages that hold what those
    commands read of them: if from the [N]-th poll on the cleanup has asked it to, the loop returns after [N] + 1 rounds at
    most, whatever is polled and received before; it runs without an access outside of the memory and without waiting for a
    mutex in vain, and the active commands are the same afterwards. A loop that is running already is not entered again. *)
Theorem event_loop_ends (N : Z) (n : nat) (l : list active) (w : world hal wcall wresp) :
  (forall tr c, retries_within answer patience tr c) -> exit_requested answer N -> messages_ok answer nla_attrs l ->
  Forall (fun a => is_rtt (a_class a) = false) l -> stands_for (globals w) l -> Z.max 0 N < Z.of_nat n -> polls (trace w) = 0 ->
  exists w', run (wifi_event_loop answer patience nla_attrs wakes n) w = Some (tt, w') /\ stands_for (globals w') l
    /\ (in_event_loop (info (globals w)) = true -> w' = w).
Proof.
  intros Hint Hex Hmsg Hnortt Hst Hn Hp. unfold wifi_event_loop. destruct (in_event_loop (info (globals w))) eqn:Ei.
  { exists w. split; [|done]. cbn [run prog_bind at_once]. unfold io_bind, io_get. by rewrite Ei. }
  pose proof Hst as [Hd Hm]%stands_for_mem. set (g := on_info (set_in_event_loop true) (globals w)).
  assert (mem (view_for (view_of g) l) g) as Hm'.
  { destruct Hst as (Hok & _ & Hc & Hcm & Ho). split; [exact Hok|]. unfold view_for, view_of in *. cbn [cbs cmds objs rest] in *.
    by rewrite <- Hc, <- Hcm, <- Ho. }
  destruct (wp_total _ _ _ (event_loop_spec answer patience nla_attrs wakes Hint l (view_of g) Hmsg Hd Hnortt N (event_sock (info (globals w))) (snd (cleanup_socks (info (globals w)))) n g (trace w) Hex Hm' ltac:(rewrite Hp; lia)))
    as ([] & w' & E & Hw').
  exists w'. split; [|split; [|done]].
  - cbn [run prog_bind at_once]. unfold io_bind, io_get, io_mod. rewrite Ei. exact E.
  - destruct Hw' as [Hok Hv]. apply stands_for_mem. split; [done|]. split; [done|]. rewrite Hv. done.
Qed.
End Main.

(** ** A system *)
Definition names0 : list (list Z) := [str "."; str "lo"; str "wlan0"; str "p2p-wlan0-0"].
Definition groups_reply0 : event := mk_event 0 1 [(7, [0])].
Definition nla_attrs0 (d : list Z) : list (Z * list Z) :=
  [(1, str "config" ++ [0]); (2, str "scan" ++ [0]); (3, str "regulatory" ++ [0]); (4, str "mlme" ++ [0]); (5, str "vendor" ++ [0])].
Definition nla_parse0 (d : list Z) : list (Z * list Z) := [(1, d); (2, le_bytes 4 (zlen d))].

Definition answer1 (tr : list (wcall * wresp)) (c : wcall) : wresp :=
  match c with
  | Cnl_recvmsgs _ => mk_resp 0 0 [CbValid groups_reply0; CbAck] []
  | Creaddir => match names0 !! dir_pos tr with Some n => mk_resp 1 0 [] n | None => ret_code 0 end
  | Csocketpair => mk_resp 0 0 [] [3; 4]
  | Cnl_connect _ => ret_code 0
  | _ => answer0 tr c
  end.

Lemma answer1_libnl : libnl_ok answer1 4096.
Proof. destruct answer0_libnl as [H1 H2 H3]. by constructor. Qed.

Lemma answer1_replies : kernel_replies answer1 1.
Proof. intros tr sock msg _. cbn [replies_within answer1 rcbs err_after fold_left]. right. by left. Qed.

Lemma answer1_groups : @replies_good answer1 (@groups_ok headers0 nla_attrs0 nla_parse0).
Proof.
  intros tr sock reply [[= <-]|[|[]]] _; [|done]. unfold groups_ok. cbn.
  repeat (apply Forall_cons; [by vm_compute|]). apply Forall_nil_2.
Qed.

Lemma answer1_directory : directory answer1 names0.
Proof. constructor; [|done]. intros tr. cbn [answer1]. by destruct (names0 !! dir_pos tr). Qed.


Lemma answer0_never_interrupted tr c : retries_within answer0 1 tr c.
Proof. left. destruct c; cbn [answer0]; try reflexivity; destruct (_ <=? 4096); reflexivity. Qed.

Lemma cleanup_correct_witness : exists w',
  run (@wifi_cleanup headers0 answer0 1 1 55 77) (World hal1 []) = Some (tt, w')
  /\ objects (globals w') = ∅ /\ holds_more (-2) (-2) (-1) [] (trace w').
Proof.
  destruct (@cleanup_correct headers0 answer0 1 4096 1 [active0] 55 77 (World hal1 []) answer0_libnl answer0_replies
    answer0_never_interrupted hal1_stands) as (w' & E & Ho & _ & Hh & _).
  - reflexivity.
  - discriminate.
  - discriminate.
  - exists w'. split; [exact E|]. split; [exact Ho|exact Hh].
Defined.

(** One message, then the request to exit. *)
Definition answer2 (tr : list (wcall * wresp)) (c : wcall) : wresp :=
  match c with
  | Cpoll _ _ => mk_resp 1 0 [] (if polls tr <? 1 then [POLLIN; 0] else [0; POLLIN])
  | Cnl_recvmsgs _ => mk_resp 0 0 [CbValid rssi_event0] []
  | Cread _ _ => mk_resp 4 0 [] (str "Exit")
  | _ => answer0 tr c
  end.

Lemma answer2_never_interrupted tr c : retries_within answer2 1 tr c.
Proof. left. destruct c; cbn [answer2 answer0]; try reflexivity; destruct (_ <=? 4096); reflexivity. Qed.

Lemma answer2_exit : exit_requested answer2 1.
Proof.
  split; [|done]. intros tr fd0 fd1 Hp. cbn [answer2 rv rdata]. rewrite (proj2 (Z.ltb_ge _ _)) by done.
  split; [done|]. split; [|done]. repeat (apply Forall_cons; [done|]). apply Forall_nil_2.
Qed.

Lemma answer2_messages : @messages_ok headers0 answer2 (fun _ => []) [active0].
Proof.
  intros tr sock ev [[= <-]|[]] _. split; [intros _; split; eexists; vm_compute; reflexivity|].
  apply Forall_cons; [|apply Forall_nil_2]. right. eexists. vm_compute. reflexivity.
Qed.

Lemma event_loop_ends_witness : exists w',
  run (@wifi_event_loop headers0 answer2 1 (fun _ => []) (fun _ => true) 2) (World hal1 []) = Some (tt, w')
  /\ @stands_for headers0 (globals w') [active0]
  /\ In (Con_event 8 (On_rssi [1; 2; 3; 4; 5; 6] (-56))) (map fst (trace w')).
Proof.
  destruct (@event_loop_ends headers0 answer2 1 (fun _ => []) (fun _ => true) 1 2 [active0] (World hal1 []) answer2_never_interrupted answer2_exit answer2_messages)
    as (w' & E & Hst & _).
  - apply Forall_cons; [reflexivity|apply Forall_nil_2].
  - exact hal1_stands.
  - reflexivity.
  - reflexivity.
  - exists w'. split; [exact E|]. split; [exact Hst|]. vm_compute in E. injection E as <-. vm_compute. tauto.
Defined.
