(* ===== verification/WifiShutdown.v ===== *)
(** The end of the Wi-Fi HAL: [wifi_cleanup] asks the event loop, which runs in a thread of its own, to end,
    waits for its answer, and takes everything down. *)
From Stdlib Require Import String List.
From stdpp Require Import gmap relations.
From S2P Require Import Prelude Threads WifiState WifiRegistry WifiRequest WifiCommand WifiShared WifiLifecycle WifiEvents WifiThreads WifiHal.

(** ** The pair of sockets *)

(** The calls that neither write to [fd] nor read from it. *)
Definition leaves (fd : Z) (c : wcall) : Prop :=
  match c with Cwrite f _ | Cread f _ => f <> fd | _ => True end.
Definition not_read (fd : Z) (c : wcall) : Prop := match c with Cread f _ => f <> fd | _ => True end.

Definition not_written (fd : Z) (c : wcall) : Prop := match c with Cwrite f _ => f <> fd | _ => True end.

(** Something was written to [fd]. *)
Definition written (fd : Z) (e : wcall * wresp) : Prop := exists s, e.1 = Cwrite fd s /\ 1 <= rv e.2.

Lemma unread_app mine theirs tr t : unread mine theirs (tr ++ t) = unread mine theirs tr + unread mine theirs t.
Proof. apply held_app. Qed.

(** What is not read stays. *)
Lemma unread_nonneg mine theirs t : Forall (fun e => not_read mine e.1) t -> 0 <= unread mine theirs t.
Proof.
  intros Hn. apply held_nonneg. eapply list.Forall_impl; [exact Hn|]. intros [[] r] Hc; cbn in *; zcases; lia.
Qed.

Lemma unread_written mine theirs t :
  Forall (fun e => not_read mine e.1) t -> List.Exists (written theirs) t -> 0 < unread mine theirs t.
Proof.
  intros Hn ([c r] & Hin & s & Ec & Hr)%List.Exists_exists. apply in_split in Hin as (t1 & t2 & ->). cbn in Ec, Hr. subst c.
  apply list.Forall_app in Hn as [H1 [_ H2]%Forall_cons_1]. rewrite unread_app. change ((Cwrite theirs s, r) :: t2) with ([(Cwrite theirs s, r)] ++ t2).
  rewrite unread_app. pose proof (unread_nonneg mine theirs t1 H1). pose proof (unread_nonneg mine theirs t2 H2).
  assert (unread mine theirs [(Cwrite theirs s, r)] = Z.max 0 (rv r) + 0) as -> by (unfold unread, held; cbn; by rewrite Z.eqb_refl). lia.
Qed.

Lemma unread_same mine theirs t : Forall (fun e => not_read mine e.1 /\ not_written theirs e.1) t -> unread mine theirs t = 0.
Proof.
  intros Hn. apply held_zero. eapply list.Forall_impl; [exact Hn|]. intros [[] r] [H1 H2]; cbn in *; zcases; lia.
Qed.

(** ** Programs whose steps wait for nothing but the mutex *)
Section Honest.
Context `{hal_headers} (answer : list (wcall * wresp) -> wcall -> wresp) (patience : nat).
Abbreviation hon := (honest (G := hal) (C := wcall) (R := wresp)).

Lemma honest_lock : hon lock.
Proof.
  split; [|done]. intros [g tr]. cbn [globals]. unfold pthread_mutex_lock, io_pure. cbn [globals]. destruct (cb_lock (info g)); [by right|by left].
Qed.

Ltac honest_tac :=
  repeat match goal with
    | |- honest (prog_bind _ _) => apply honest_bind; [|intros]
    | |- honest (at_once _) => apply honest_at_once
    | |- honest lock => apply honest_lock
    | |- honest (Ret _) => exact I
    | |- honest (match ?x with _ => _ end) => destruct x
    end.

Lemma honest_unregister e : hon (unregisterVendorHandler e).
Proof. unfold unregisterVendorHandler, wifi_unregister_vendor_handler. honest_tac. Qed.

Lemma honest_cancel p : hon (cancel answer patience p).
Proof.
  unfold cancel. honest_tac; unfold cancel_rssi, cancel_full_scan, cancel_scan, cancel_hotlist, cancel_epno, cancel_change, cancel_anqpo,
    cancel_rtt, unregister_scan, unregister_hotlist, checked, local_request; honest_tac; apply honest_unregister.
Qed.

Lemma honest_log_type p : hon (log_type p).
Proof. unfold log_type. honest_tac. Qed.

Lemma honest_log_handlers l : hon (log_handlers l).
Proof. induction l as [|c l IH]; cbn [log_handlers]; honest_tac; [apply honest_log_type|exact IH]. Qed.

Lemma honest_cancel_all n bad : hon (cancel_all answer patience n bad).
Proof.
  revert bad. induction n as [|n IH]; intros bad; cbn [cancel_all]; honest_tac; try apply honest_log_type; try apply honest_cancel; apply IH.
Qed.

Lemma honest_end_commands n handle : hon (end_commands answer patience n handle).
Proof.
  unfold end_commands, internal_cleaned_up_handler. honest_tac; [apply honest_log_handlers|apply honest_cancel_all].
Qed.
End Honest.

(** ** The system *)
Section Shutdown.
Context `{hal_headers} (answer : list (wcall * wresp) -> wcall -> wresp) (patience : nat) (page : Z).
Context (nla_attrs : list Z -> list (Z * list Z)) (wakes : list (wcall * wresp) -> bool).

(** What the system promises of the pair of sockets and of [poll]: the loop is at the end [theirs], the cleanup at the
    end [mine]; the driver has no more than [N] events. *)
Record pair_ok (mine theirs sock N : Z) : Prop := {
  pair_distinct : mine <> theirs /\ sock <> mine /\ sock <> theirs;
  (** [poll] returns when there is something to read, ... *)
  pair_wakes : forall tr, 0 < unread theirs mine tr -> wakes tr = true;
  (** ... or when there is an event of the driver; it reports that there is only if there is, ... *)
  pair_polled : forall tr, let r := answer tr (Cpoll sock theirs) in
    0 <= rv r -> has (nth 1 (rdata r) 0) POLLIN = true -> 0 < unread theirs mine tr;
  (** ... never that a netlink socket was hung up, ... *)
  pair_no_hangup : forall tr, has (nth 0 (rdata (answer tr (Cpoll sock theirs))) 0) POLLHUP = false;
  (** ... and nothing else when there are no more events. *)
  pair_sleeps : forall tr, N <= polls tr -> wakes tr = true -> 0 < unread theirs mine tr;
  pair_quiet : forall tr, let r := answer tr (Cpoll sock theirs) in
    N <= polls tr -> 0 < unread theirs mine tr ->
    0 <= rv r /\ has (nth 0 (rdata r) 0) POLLERR = false /\ has (nth 0 (rdata r) 0) POLLIN = false /\ has (nth 1 (rdata r) 0) POLLIN = true;
  (** What is read is what was written, and writing succeeds. *)
  pair_read : forall tr, 0 < unread theirs mine tr -> take 4 (rdata (answer tr (Cread theirs 2048))) = str "Exit";
  pair_write : forall tr fd s, fd = mine \/ fd = theirs -> interrupted (answer tr (Cwrite fd s)) = false -> 1 <= rv (answer tr (Cwrite fd s))
}.

(** The events are as the classes that listen to them expect. *)
Definition events_ok : Prop :=
  forall tr sock ev, In (CbValid ev) (rcbs (answer tr (Cnl_recvmsgs sock))) -> event_ok nla_attrs ev.

(** The calls of the two threads until the loop has answered: none of them closes, frees or destroys anything of
    the HAL, and the clients that are told are those of active commands. *)
Definition running (ids : list Z) (e : wcall * wresp) : Prop :=
  match e.1 with
  | Cpoll _ _ | Cread _ _ | Cwrite _ _ | Cnl_socket_get_cb _ | Cnl_recvmsgs _ | Cnl_cb_put _ => True
  | c => exists id, In id ids /\ on_behalf id c
  end.

Definition unused (mine theirs : Z) (tr : list (wcall * wresp)) : Prop :=
  Forall (fun e => leaves mine e.1 /\ leaves theirs e.1) tr.

(** The loop has been entered, and the cleanup begins. *)
Definition closing (rounds n : nat) (handle handler : Z) (w : world hal wcall wresp) : threads hal wcall wresp unit unit :=
  mk_threads w (event_loop answer patience nla_attrs wakes (event_sock (info (globals w))) (snd (cleanup_socks (info (globals w)))) rounds)
    (wifi_cleanup answer patience n handle handler).

Context (mine theirs sock N : Z).
Hypothesis Hpair : pair_ok mine theirs sock N.
Hypothesis Hint : forall tr c, retries_within answer patience tr c.
Hypothesis Hev : events_ok.

Context (l : list active) (g0 : hal).
Hypothesis Hst : stands_for g0 l.
Hypothesis Hnortt : Forall (fun a => is_rtt (a_class a) = false) l.
Hypothesis Hcl : clean_up (info g0) = false.

Abbreviation known := (fun id => In id (map a_id l)).
Abbreviation Sh := (hal_sharing (settled known)).
Abbreviation U := (running (map a_id l)).
Abbreviation V := (fun e => not_read theirs e.1 /\ not_read mine e.1).

(** Until the answer, the memory changes in one field. *)
Definition waiting (g : hal) : Prop := exists x, g = on_info (set_cleaned_up_handler x) g0.

Definition exit_sent (tr : list (wcall * wresp)) : Prop := List.Exists (written mine) tr.
Definition done_sent (tr : list (wcall * wresp)) : bool := 0 <? unread mine theirs tr.

Lemma waiting_stands g : waiting g -> stands_for g l.
Proof using Hst. intros [x ->]. exact Hst. Qed.

Lemma waiting_kept g : waiting g -> @kept _ _ Sh g /\ @idle _ _ Sh g.
Proof using Hst Hnortt.
  intros [Hd Hm]%waiting_stands%stands_for_mem. split; [|by destruct Hm as [(_ & _ & _ & _ & ?) _]].
  apply (stands_kept _ l _ _ Hd) with (4 := Hm); [|done|done]. rewrite List.Forall_forall in *. intros a Ha.
  destruct Hd as (_ & _ & _ & Hx). rewrite List.Forall_forall in Hx. split; [by apply Hx|]. split; [by apply Hnortt|]. by apply in_map.
Qed.

Abbreviation serves := (serves (sharing0 := Sh) waiting U V exit_sent done_sent).

Lemma done_app tr t : Forall (fun e => not_read mine e.1 /\ not_written theirs e.1) t -> done_sent (tr ++ t) = done_sent tr.
Proof. intros Ht. unfold done_sent. by rewrite unread_app, (unread_same _ _ t Ht), Z.add_0_r. Qed.

(** *** The loop *)

(** A call, made until it is not interrupted, that does not answer. *)
Lemma serves_retry {Y} ready c (k : wresp -> prog hal wcall wresp Y) tr0 d :
  (forall h tr, extended V tr0 tr -> done_sent tr = false -> exit_sent tr -> ready (World h tr) = true) ->
  (forall r, U (c, r)) -> not_read mine c -> not_written theirs c ->
  (forall h tr t, extended V tr0 tr -> ready (World h tr) = true -> Forall (fun e => e.1 = c /\ interrupted e.2 = true) t ->
     let r := answer (tr ++ t) c in serves (k r) (tr ++ t ++ [(c, r)]) d) ->
  serves (Step ready (retry answer patience c) k) tr0 d.
Proof using Hint.
  intros Hr HU Hm Ht Hk. apply serves_step; [exact Hr|]. intros g h tr _ _ Hx Hw Hn.
  eapply wp_mono; [apply retry_spec, Hint|]. cbn beta. cbn [globals trace]. intros r w (Hg & _ & t & Et & -> & Hc). split; [exact Hg|].
  assert (Forall (fun e : wcall * wresp => e.1 = c) (t ++ [(c, answer (tr ++ t) c)])) as Hc'.
  { apply list.Forall_app. split; [|by apply Forall_cons]. eapply list.Forall_impl; [exact Hc|]. by intros e []. }
  exists (t ++ [(c, answer (tr ++ t) c)]). split; [exact Et|]. rewrite Et. split; [|split].
  - eapply list.Forall_impl; [exact Hc'|]. intros [c' r] [= ->]. apply HU.
  - rewrite done_app; [exact Hn|]. eapply list.Forall_impl; [exact Hc'|]. intros [c' r] [= ->]. by split.
  - by eapply Hk.
Qed.

Lemma serves_get {Y} (k : hal -> prog hal wcall wresp Y) tr0 :
  (forall g tr, waiting g -> extended V tr0 tr -> serves (k g) tr resting) -> serves (Step (fun _ => true) io_get k) tr0 resting.
Proof.
  intros Hk. apply serves_step; [done|]. intros g h tr Hg ->%hal_seen_nobody Hx _ Hn. apply wp_get. split; [done|].
  exists []. cbn [trace globals]. rewrite app_nil_r. split; [done|]. split; [apply Forall_nil_2|]. split; [exact Hn|]. by apply Hk.
Qed.

(** The calls with which a message is received and handled. *)
Definition receiving (c : wcall) : Prop := (forall r, U (c, r)) /\ V (c, ret_code 0) /\ not_written theirs c.

Lemma for_known_receiving c : for_known known c -> receiving c.
Proof. intros (id & Hid & Hc). unfold receiving, running. destruct c; cbn in *; try done; (split; [intros r; by exists id|done]). Qed.

Abbreviation receives := (left_safe (sharing0 := Sh) receiving).

Lemma messages_safe cbs :
  (forall ev, In (CbValid ev) cbs -> event_ok nla_attrs ev) ->
  receives (handle_messages answer nla_attrs cbs) (fun _ d => d = resting) resting.
Proof.
  induction cbs as [|[ev| | |e] cbs IH]; intros Hok; cbn [handle_messages]; [done| |apply IH; intros; apply Hok; by right..].
  apply left_bind. eapply left_mono.
  - eapply left_weaken; [exact for_known_receiving|]. apply dispatch_safe, Hok. by left.
  - intros _ d ->. apply IH. intros; apply Hok. by right.
Qed.

Lemma receives_sys (P : wresp -> Prop) c (Q : wresp -> doing -> Prop) :
  receiving c -> (forall tr, P (answer tr c)) -> (forall r, P r -> Q r resting) -> receives (sys answer c) Q resting.
Proof.
  intros Hc HP HQ. apply left_local with (P := P); [|exact HQ]. intros g h _ _ tr. apply sys_eq. intros r ->. cbn [globals trace].
  split; [by split|]. eexists. split; [done|]. by apply Forall_cons.
Qed.

Lemma pollin_safe : receives (internal_pollin_handler answer nla_attrs) (fun _ d => d = resting) resting.
Proof using Hev.
  apply left_bind. apply left_local with (P := fun _ => True).
  { intros g h _ _ tr. apply wp_get. cbn [globals trace]. split; [done|]. exists []. by rewrite app_nil_r. }
  intros g _. apply left_bind, receives_sys with (P := fun _ => True); [done..|]. intros cb _.
  apply left_bind, (receives_sys (fun r => forall ev, In (CbValid ev) (rcbs r) -> event_ok nla_attrs ev)); [done|intros tr ev; apply Hev|].
  intros r Hr. apply left_bind. eapply left_mono; [by apply messages_safe|]. intros _ d ->.
  by apply left_bind, receives_sys with (P := fun _ => True).
Qed.

(** *** One round, and the loop

    Nothing was read from this end of the pair yet. *)
Definition fresh_pair (n : nat) (tr : list (wcall * wresp)) : Prop := Forall V tr /\ Z.max 0 (N - polls tr) < Z.of_nat n.

Lemma fresh_extended n tr0 tr : fresh_pair n tr0 -> extended V tr0 tr -> fresh_pair n tr.
Proof. intros [Hv Hn] (t & -> & Ht). split; [by apply list.Forall_app|]. pose proof (polls_more tr0 t). lia. Qed.

Lemma retried_calls n tr0 tr t c r :
  fresh_pair n tr0 -> extended V tr0 tr -> Forall (fun e => e.1 = c /\ interrupted e.2 = true) t -> V (c, r) ->
  fresh_pair n (tr ++ t ++ [(c, r)]).
Proof.
  intros Hf Hx Hc Hn. eapply fresh_extended; [exact Hf|]. apply extended_more; [exact Hx|].
  apply list.Forall_app. split; [|by apply Forall_cons]. eapply list.Forall_impl; [exact Hc|]. by intros [c' r'] [[= ->] _].
Qed.

Lemma serves_pollin {Y} n (k : bool -> prog hal wcall wresp Y) tr0 :
  fresh_pair n tr0 -> (forall tr, fresh_pair n tr -> serves (k false) tr resting) ->
  serves (prog_bind (prog_bind (internal_pollin_handler answer nla_attrs) (fun _ => Ret false)) k) tr0 resting.
Proof using Hev Hst Hnortt.
  intros Hf Hk. apply (serves_bind _ U V exit_sent done_sent waiting_kept receiving) with (P := fun b d => b = false /\ d = resting).
  - intros c r (H1 & _). apply H1.
  - intros tr t Ht. apply done_app. eapply list.Forall_impl; [exact Ht|]. by intros [c r] (_ & [] & ?).
  - by intros c r (_ & ? & _).
  - apply left_bind. eapply left_mono; [exact pollin_safe|]. by intros _ d ->.
  - intros b d tr Hx [-> ->]. apply Hk. by eapply fresh_extended.
Qed.

(** The answer, and the end of the loop. *)
Lemma serves_answer {Y} (k : wresp -> prog hal wcall wresp Y) tr0 :
  Forall (fun e => not_read mine e.1) tr0 -> (forall r, exists a, k r = Ret a) ->
  serves (Step (fun _ => true) (retry answer patience (Cwrite theirs (str "Done"))) k) tr0 resting.
Proof using Hpair Hint.
  intros Hv Hk g h tr Hg Hd (t0 & -> & Ht0) Hn. split; [done|]. intros _.
  eapply wp_mono; [apply retry_spec, Hint|]. cbn beta. cbn [globals trace]. intros r w (Eg & Hi & t & Et & Er & Hc).
  exists (t ++ [(Cwrite theirs (str "Done"), r)]). split; [exact Et|]. split.
  { apply list.Forall_app. split; [|by apply Forall_cons]. eapply list.Forall_impl; [exact Hc|]. by intros [c' r'] [[= ->] _]. }
  assert (done_sent (trace w) = true) as ->.
  { apply Z.ltb_lt. rewrite Et. apply unread_written.
    - apply list.Forall_app. split; [apply list.Forall_app; split; [exact Hv|]|apply list.Forall_app; split; [|by apply Forall_cons]].
      + eapply list.Forall_impl; [exact Ht0|]. by intros e [].
      + eapply list.Forall_impl; [exact Hc|]. by intros [c' r'] [[= ->] _].
    - apply List.Exists_app. right. apply List.Exists_app. right. apply List.Exists_cons_hd. exists (str "Done"). split; [done|]. cbn [snd].
      rewrite Er. eapply pair_write; [exact Hpair|by right|]. by rewrite <- Er. }
  rewrite Eg. split; [exact Hd|apply Hk].
Qed.

Lemma unread_retried tr t fd : Forall (fun e => e.1 = Cread theirs fd /\ interrupted e.2 = true) t -> unread theirs mine (tr ++ t) = unread theirs mine tr.
Proof.
  intros Ht. rewrite unread_app. assert (unread theirs mine t = 0) as ->; [|lia]. apply held_zero.
  eapply list.Forall_impl; [exact Ht|]. intros [c r] [[= ->] [Hr _]%andb_prop]. cbn [unread_weight fst snd] in *.
  apply Z.eqb_eq in Hr as ->. rewrite Z.eqb_refl. done.
Qed.

Lemma unread_polled tr t : Forall (fun e => e.1 = Cpoll sock theirs /\ interrupted e.2 = true) t -> unread theirs mine (tr ++ t) = unread theirs mine tr.
Proof.
  intros Ht. rewrite unread_app, (unread_same theirs mine t); [lia|]. eapply list.Forall_impl; [exact Ht|]. by intros [c r] [[= ->] _].
Qed.

(** Where the loop has found that it is asked to end. *)
Lemma serves_request {Y} n (k : bool -> prog hal wcall wresp Y) tr0 :
  fresh_pair n tr0 -> 0 < unread theirs mine tr0 -> (exists a, k true = Ret a) ->
  serves (prog_bind (prog_bind (at_once (retry answer patience (Cread theirs 2048))) (fun r =>
    if bool_decide (take 4 (rdata r) = str "Exit") then
      prog_bind (at_once (retry answer patience (Cwrite theirs (str "Done")))) (fun _ => Ret true)
    else Ret false)) k) tr0 resting.
Proof using Hpair Hint.
  intros [Hv Hn] Hu Hk. cbn [prog_bind at_once]. pose proof (pair_distinct _ _ _ _ Hpair) as (Hne & _).
  apply serves_retry; [done|done|by apply not_eq_sym|done|]. intros h tr t (t0 & -> & H0) _ Ht. cbn zeta.
  rewrite bool_decide_eq_true_2; [|].
  - cbn [prog_bind]. apply serves_answer; [|done]. apply list.Forall_app. split.
    + apply list.Forall_app. split; [eapply list.Forall_impl; [exact Hv|]|eapply list.Forall_impl; [exact H0|]]; by intros e [].
    + apply list.Forall_app. split; [|apply Forall_cons; [by apply not_eq_sym|apply Forall_nil_2]].
      eapply list.Forall_impl; [exact Ht|]. intros [c r] [[= ->] _]. by apply not_eq_sym.
  - apply (pair_read _ _ _ _ Hpair). rewrite (unread_retried _ _ _ Ht), unread_app.
    assert (0 <= unread theirs mine t0); [|lia]. apply unread_nonneg. eapply list.Forall_impl; [exact H0|]. by intros e [].
Qed.

Lemma serves_loop n tr0 : fresh_pair n tr0 -> serves (event_loop answer patience nla_attrs wakes sock theirs n) tr0 resting.
Proof using Hpair Hint Hev Hst Hnortt Hcl.
  revert tr0. induction n as [|n IH]; intros tr0 Hf; [destruct Hf; lia|]. cbn [event_loop].
  set (K := fun stop : bool => _). assert (exists a, K true = Ret a) as Hstop by (by exists tt).
  assert (forall tr, fresh_pair n tr -> serves (K false) tr resting) as Hgo.
  { intros tr H1. subst K. cbn [prog_bind at_once]. apply serves_get. intros g tr2 [x ->] H2. cbn [info on_info clean_up set_cleaned_up_handler].
    rewrite Hcl. apply IH. by eapply fresh_extended. }
  pose proof (pair_distinct _ _ _ _ Hpair) as (Hne & Hs1 & Hs2).
  unfold loop_round. cbn [prog_bind await]. apply serves_retry; [|done|done|done|].
  { intros h tr Hx _ He. apply (pair_wakes _ _ _ _ Hpair), unread_written; [|exact He].
    pose proof (fresh_extended _ _ _ Hf Hx) as [Hv _]. eapply list.Forall_impl; [exact Hv|]. by intros e []. }
  intros h tr t Hx Hw Ht. cbn zeta. cbn [trace] in Hw. set (p := answer (tr ++ t) (Cpoll sock theirs)).
  assert (fresh_pair (S n) (tr ++ t ++ [(Cpoll sock theirs, p)])) as Hf1 by (by eapply retried_calls).
  assert (polls tr + 1 <= polls (tr ++ t ++ [(Cpoll sock theirs, p)])) as Hp1.
  { rewrite app_assoc, held_snoc. pose proof (polls_more tr t). cbn [poll_weight fst]. lia. }
  pose proof (fresh_extended _ _ _ Hf Hx) as [_ Hn]. pose proof (polls_more tr t) as Hp2.
  set (tr1 := tr ++ t ++ _) in *.
  assert (N <= polls tr -> 0 <= rv p /\ has (nth 0 (rdata p) 0) POLLERR = false /\ has (nth 0 (rdata p) 0) POLLIN = false
          /\ has (nth 1 (rdata p) 0) POLLIN = true) as Hlast.
  { intros HN. apply (pair_quiet _ _ _ _ Hpair); [lia|]. rewrite (unread_polled _ _ Ht). by apply (pair_sleeps _ _ _ _ Hpair). }
  assert (polls tr < N -> fresh_pair n tr1) as Hmore.
  { intros HN. split; [apply Hf1|]. lia. }
  destruct (Z.ltb_spec (rv p) 0).
  { apply Hgo, Hmore. destruct (Z.lt_ge_cases (polls tr) N) as [|HN]; [done|]. destruct (Hlast HN). lia. }
  destruct (has (nth 0 _ _) POLLERR) eqn:Ee.
  { cbn [prog_bind at_once]. apply serves_retry; [done|done|done|done|]. intros h' tr' t' Hx' _ Ht'. cbn zeta.
    apply Hgo. eapply retried_calls; [|exact Hx'|exact Ht'|done]. apply Hmore. destruct (Z.lt_ge_cases (polls tr) N) as [|HN]; [done|].
    destruct (Hlast HN) as (_ & ? & _). congruence. }
  pose proof (pair_no_hangup _ _ _ _ Hpair (tr ++ t)) as Eh. fold p in Eh. rewrite Eh.
  destruct (has (nth 0 _ _) POLLIN) eqn:Ei.
  { apply (serves_pollin n); [|exact Hgo]. apply Hmore. destruct (Z.lt_ge_cases (polls tr) N) as [|HN]; [done|].
    destruct (Hlast HN) as (_ & _ & ? & _). congruence. }
  destruct (has (nth 1 _ _) POLLIN) eqn:E1.
  - apply (serves_request (S n)); [exact Hf1| |exact Hstop]. unfold tr1. rewrite app_assoc, unread_app.
    pose proof (pair_polled _ _ _ _ Hpair (tr ++ t) ltac:(done) E1) as Hu. unfold unread at 2, held. cbn. fold (unread theirs mine (tr ++ t)). lia.
  - apply Hgo, Hmore. destruct (Z.lt_ge_cases (polls tr) N) as [|HN]; [done|]. destruct (Hlast HN) as (_ & _ & _ & ?). congruence.
Qed.

(** *** The cleanup *)
Context (start : list (wcall * wresp)) (n : nat) (handle handler : Z).
Hypothesis Hnl : libnl_ok answer page.
Hypothesis Hk : kernel_replies answer patience.
Hypothesis Hsocks : cleanup_socks (info g0) = (mine, theirs).
Hypothesis Hn : (length l <= n)%nat.
Hypothesis Hhandler : handler <> 0.
Hypothesis Hsock : cmd_sock (info g0) <> 0.

Definition after (tr : list (wcall * wresp)) : Prop := exists t, tr = start ++ t /\ Forall U t.

Lemma after_more tr t : after tr -> Forall U t -> after (tr ++ t).
Proof. intros (t0 & -> & H0) Ht. exists (t0 ++ t). rewrite app_assoc. split; [done|]. by apply list.Forall_app. Qed.

(** The HAL is taken down after the calls of the time when the loop was running. *)
Definition taken_down (_ : unit) (w : world hal wcall wresp) : Prop := exists tr, after tr /\ cleaned (info g0) handle handler tr w.

Abbreviation asks := (asks (sharing0 := Sh) waiting U V exit_sent done_sent after taken_down).

(** With the answer, it has the HAL to itself. *)
Lemma alone_rest tr : after tr -> done_sent tr = true ->
  alone (prog_bind (await (fun w => 0 <? unread mine theirs (trace w)) (retry answer patience (Cread mine 64))) (fun _ => end_commands answer patience n handle))
    taken_down (World (on_info (set_cleaned_up_handler handler) g0) tr).
Proof using Hst Hint Hnl Hk Hn Hhandler Hsock.
  intros Ha Hd. split; [exact Hd|].
  eapply wp_mono; [apply retry_spec, Hint|]. cbn beta. cbn [globals trace]. intros r [g1 tr1] (Hg & _ & t & Et & _ & Hc).
  cbn [prog_bind globals trace] in *. subst g1 tr1.
  apply honest_alone; [apply honest_end_commands|]. set (g := on_info _ g0). pose proof Hst as [Hdist Hm]%stands_for_mem.
  assert (after (tr ++ t ++ [(Cread mine 64, r)])) as Ha'.
  { apply after_more; [exact Ha|]. apply list.Forall_app. split; [|by apply Forall_cons]. eapply list.Forall_impl; [exact Hc|]. by intros [c r'] [[= ->] _]. }
  rewrite <- (app_nil_r (_ ++ t ++ _)). eapply wp_mono.
  - apply (end_commands_spec answer patience page Hnl Hk n l (view_of g) handle _ [] g); [|exact Hdist|exact Hn|apply Forall_nil_2|exact Hsock|exact Hhandler].
    destruct Hst as (Hok & _ & Hc1 & Hcm & Ho). split; [exact Hok|]. unfold view_for, view_of in *.
    cbn [cbs cmds objs rest] in *. by rewrite <- Hc1, <- Hcm, <- Ho.
  - intros [] w Hw. by exists (tr ++ t ++ [(Cread mine 64, r)]).
Qed.

Lemma seen_update d g h x : hal_seen d g h -> hal_seen d (on_info (set_cleaned_up_handler x) g) (on_info (set_cleaned_up_handler x) h).
Proof. intros (Hi & Hl & Hf & Ho). split; [cbn; by rewrite Hi|]. split; [exact Hl|]. split; [exact Hf|exact Ho]. Qed.

Lemma cleanup_asks : asks (wifi_cleanup answer patience n handle handler) start g0.
Proof using Hpair Hst Hint Hnl Hk Hsocks Hn Hhandler Hsock.
  unfold wifi_cleanup. left. intros d h tr Hd _. split; [done|]. apply wp_mod. cbn [globals trace].
  exists (on_info (set_cleaned_up_handler handler) g0), []. split; [by exists handler|]. split; [by apply seen_update|].
  rewrite app_nil_r. do 4 (split; [done|]). clear h Hd d.
  left. intros d h tr' Hd Hpre. split; [done|]. apply wp_get. cbn [globals trace].
  exists (on_info (set_cleaned_up_handler handler) g0), []. split; [by exists handler|]. split; [exact Hd|].
  rewrite app_nil_r. do 4 (split; [done|]).
  cbn [prog_bind]. assert (cleanup_socks (info h) = (mine, theirs)) as ->.
  { destruct Hd as (-> & _). exact Hsocks. }
  clear h Hd d. left. intros d h tr2 Hd _. split; [done|]. eapply wp_mono; [apply retry_spec, Hint|]. cbn beta. cbn [globals trace].
  intros r w (-> & Hi & t & Et & Er & Hc). pose proof (pair_distinct _ _ _ _ Hpair) as (Hne & _).
  assert (1 <= rv r) as Hr by (rewrite Er; eapply pair_write; [exact Hpair|by left|by rewrite <- Er]).
  assert (Forall (fun e : wcall * wresp => e.1 = Cwrite mine (str "Exit")) (t ++ [(Cwrite mine (str "Exit"), r)])) as Hc'.
  { apply list.Forall_app. split; [|by apply Forall_cons]. eapply list.Forall_impl; [exact Hc|]. by intros e []. }
  exists (on_info (set_cleaned_up_handler handler) g0), (t ++ [(Cwrite mine (str "Exit"), r)]). split; [by exists handler|]. split; [exact Hd|].
  split; [exact Et|]. split; [eapply list.Forall_impl; [exact Hc'|]; by intros [c r'] [= ->]|].
  split; [eapply list.Forall_impl; [exact Hc'|]; by intros [c r'] [= ->]|].
  split; [rewrite Et; apply done_app; eapply list.Forall_impl; [exact Hc'|]; by intros [c r'] [= ->]|].
  cbn [prog_bind]. rewrite (proj2 (Z.ltb_ge _ _)) by lia. right. split; [|split; [done|]].
  - intros tr3 (t3 & ->). apply List.Exists_app. left. rewrite Et. apply List.Exists_app. right. apply List.Exists_app. right.
    apply List.Exists_cons_hd. by exists (str "Exit").
  - intros tr3 Hdone Ha. by apply alone_rest.
Qed.
End Shutdown.

Section Main.
Context `{hal_headers} (answer : list (wcall * wresp) -> wcall -> wresp) (patience : nat) (page : Z).
Context (nla_attrs : list Z -> list (Z * list Z)) (wakes : list (wcall * wresp) -> bool).

(** C9. The end. The event loop has been entered, the active commands are any but measurements, and the framework calls
    [wifi_cleanup]; the messages hold what the classes that listen to them read, the driver has at most [N] events, and
    the pair of sockets works as [socketpair] promises. Whatever the schedule: it comes to an end; no step of either
    thread is an access to something that is gone; until both have ended one of them can go on, so the loop leaves
    [poll] and the cleanup is answered; as long as the loop has not ended, nothing of the HAL is closed, destroyed or
    given back, every command is still there, and only the clients of active commands are told of events; and when
    the cleanup returns the loop has ended, every object is deleted, no handler is left, and the sockets and the
    HAL have been given back, each once. *)
Theorem cleanup_waits_for_loop (mine theirs N : Z) (rounds n : nat) (l : list active) (handle handler : Z) (w : world hal wcall wresp) :
  libnl_ok answer page -> kernel_replies answer patience -> (forall tr c, retries_within answer patience tr c) ->
  pair_ok answer wakes mine theirs (event_sock (info (globals w))) N -> events_ok answer nla_attrs ->
  stands_for (globals w) l -> Forall (fun a => is_rtt (a_class a) = false) l ->
  clean_up (info (globals w)) = false -> cleanup_socks (info (globals w)) = (mine, theirs) -> unused mine theirs (trace w) ->
  cmd_sock (info (globals w)) <> 0 -> handler <> 0 ->
  (length l <= n)%nat -> Z.max 0 N < Z.of_nat rounds -> polls (trace w) = 0 ->
  Acc (fun t' t => thread_step t t') (closing answer patience nla_attrs wakes rounds n handle handler w)
  /\ forall t, rtc thread_step (closing answer patience nla_attrs wakes rounds n handle handler w) t ->
    ~ faults (shared t) (left t) /\ ~ faults (shared t) (right t)
    /\ (ended t \/ exists t', thread_step t t')
    /\ (left t = Ret tt
        \/ (exists tr, trace (shared t) = trace w ++ tr /\ Forall (running (map a_id l)) tr)
           /\ exists g d, waiting (globals w) g /\ hal_seen d g (globals (shared t)))
    /\ (right t = Ret tt -> left t = Ret tt /\ exists tr,
          Forall (running (map a_id l)) tr /\ cleaned (info (globals w)) handle handler (trace w ++ tr) (shared t)).
Proof.
  intros Hnl Hk Hint Hpair Hev Hst Hnortt Hcl Hsocks Hun Hs Hh Hn HN Hp. split; [apply threads_terminate|]. intros t Ht.
  set (Sh := hal_sharing (settled (fun id => In id (map a_id l)))).
  assert (handing_over (sharing0 := Sh) (waiting (globals w)) (running (map a_id l)) (fun e => not_read theirs e.1 /\ not_read mine e.1)
    (exit_sent mine) (done_sent mine theirs) (taken_down l (globals w) (trace w) handle handler) (after l (trace w)) t) as Hover.
  { eapply (handing_over_steps (sharing0 := Sh)); [by apply after_more| |exact Ht]. left.
    exists (globals w), resting, (trace w), (trace w). split; [exists (cleaned_up_handler (info (globals w))); by destruct (globals w) as [[] o]|].
    split; [by apply hal_seen_nobody|]. split; [apply extended_refl|]. split; [done|].
    split; [|split; [exists []; rewrite app_nil_r; by split|split]].
    - apply Z.ltb_ge. cbn [shared closing]. rewrite unread_same; [done|]. eapply list.Forall_impl; [exact Hun|]. intros [[] r] []; cbn in *; by split.
    - cbn [left closing]. rewrite Hsocks. eapply serves_loop; try done. split; [|by rewrite Hp, Z.sub_0_r].
      eapply list.Forall_impl; [exact Hun|]. intros [[] r] []; cbn in *; by split.
    - eapply cleanup_asks; done. }
  destruct (handing_over_sound (sharing0 := Sh) _ _ _ _ _ _ _ _ Hover) as (H1 & H2 & H3).
  split; [exact H1|]. split; [exact H2|]. split; [exact H3|]. split.
  - destruct (handing_over_calls (sharing0 := Sh) _ _ _ _ _ _ _ _ Hover) as [[[] E]|[Ha Hg]]; [by left|right]. split; [exact Ha|exact Hg].
  - intros E. destruct (handing_over_ended (sharing0 := Sh) _ _ _ _ _ _ _ _ _ Hover E) as [[[] El] (tr & (tr1 & -> & Hr) & Hc)].
    split; [exact El|]. by exists tr1.
Qed.
End Main.

(** ** A system

    One event for a measurement of the signal strength; the cleanup begins while the loop waits. *)
Definition answer4 (tr : list (wcall * wresp)) (c : wcall) : wresp :=
  match c with
  | Cpoll _ _ => mk_resp 1 0 [] (if polls tr <? 1 then [POLLIN; 0] else [0; if 0 <? unread 4 3 tr then POLLIN else 0])
  | Cnl_recvmsgs _ => mk_resp 0 0 [CbValid rssi_event0; CbAck] []
  | Cread fd _ => mk_resp 4 0 [] (if fd =? 4 then str "Exit" else str "Done")
  | Cwrite _ _ => ret_code 4
  | _ => answer0 tr c
  end.
Definition wakes3 (tr : list (wcall * wresp)) : bool := (polls tr <? 1) || (0 <? unread 4 3 tr).

Definition closing3 : threads hal wcall wresp unit unit := @closing headers0 answer4 1 (fun _ => []) wakes3 2 1 55 77 (World hal1 []).

Lemma answer4_libnl : libnl_ok answer4 4096.
Proof. destruct answer0_libnl as [H1 H2 H3]. by constructor. Qed.

Lemma answer4_replies : kernel_replies answer4 1.
Proof. intros tr sock msg _. cbn [replies_within answer4 rcbs err_after fold_left]. right. by left. Qed.

Lemma answer4_never_interrupted tr c : retries_within answer4 1 tr c.
Proof. left. destruct c; cbn [answer4 answer0]; try reflexivity; destruct (_ <=? 4096); reflexivity. Qed.

Lemma answer4_pair : pair_ok answer4 wakes3 3 4 2 1.
Proof.
  constructor; unfold wakes3.
  - done.
  - intros tr Hu. rewrite (proj2 (Z.ltb_lt 0 _)) by done. by rewrite orb_true_r.
  - intros tr. cbn [answer4 rv rdata]. intros _. destruct (polls tr <? 1); [done|]. cbn [nth]. by destruct (Z.ltb_spec 0 (unread 4 3 tr)).
  - intros tr. cbn [answer4 rdata]. by destruct (polls tr <? 1).
  - intros tr Hp. rewrite (proj2 (Z.ltb_ge _ _)) by done. cbn [orb]. by intros ?%Z.ltb_lt.
  - intros tr. cbn [answer4 rv rdata]. intros Hp Hu. rewrite (proj2 (Z.ltb_ge _ _)), (proj2 (Z.ltb_lt _ _)) by done. done.
  - done.
  - done.
Qed.

Lemma answer4_events : @events_ok headers0 answer4 (fun _ => []).
Proof. intros tr sock ev [[= <-]|[|[]]]; [exact rssi_event0_ok|done]. Qed.

(** The cleanup asks while the loop handles the event, which it finishes first. *)
Definition schedule3 : list bool := repeat true 6 ++ repeat false 3 ++ repeat true 12 ++ repeat false 31.

Lemma cleanup_waits_for_loop_witness : exists t,
  rtc thread_step closing3 t /\ left t = Ret tt /\ right t = Ret tt /\ objects (globals (shared t)) = ∅
  /\ In (Con_event 8 (On_rssi [1; 2; 3; 4; 5; 6] (-56))) (map fst (trace (shared t))).
Proof.
  assert ((fun t => (results t, map fst (trace (shared t)))) <$> schedule schedule3 closing3
     = Some (Some (tt, tt), map fst (trace (shared (default closing3 (schedule schedule3 closing3)))))) as Hs by (vm_compute; reflexivity).
  assert (In (Con_event 8 (On_rssi [1; 2; 3; 4; 5; 6] (-56))) (map fst (trace (shared (default closing3 (schedule schedule3 closing3)))))) as Hin
    by (vm_compute; tauto).
  destruct (schedule schedule3 closing3) as [t|] eqn:Et; [|discriminate Hs]. injection Hs as Hs.
  destruct (results_ended t tt tt Hs) as [El Er]. apply schedule_steps in Et.
  destruct (@cleanup_waits_for_loop headers0 answer4 1 4096 (fun _ => []) wakes3 3 4 1 2 1 [active0] 55 77 (World hal1 [])
    answer4_libnl answer4_replies answer4_never_interrupted answer4_pair answer4_events hal1_stands) as [_ Hall];
    [repeat constructor|reflexivity|reflexivity|apply Forall_nil_2|discriminate|discriminate|reflexivity|reflexivity|reflexivity|].
  destruct (Hall t Et) as (_ & _ & _ & _ & Hend). destruct (Hend Er) as (_ & tr & _ & Ho & _).
  exists t. split; [exact Et|]. split; [exact El|]. split; [exact Er|]. split; [exact Ho|exact Hin].
Defined.

(** *** Where the promises are not kept *)

(** Neither thread can make a step, and they have not both ended. *)
Definition waits {A} (w : world hal wcall wresp) (p : prog hal wcall wresp A) : bool :=
  match p with Ret _ => true | Step ready _ _ => negb (ready w) end.
Definition has_ended {A} (p : prog hal wcall wresp A) : bool := match p with Ret _ => true | _ => false end.
Definition stuck {A B} (t : threads hal wcall wresp A B) : bool :=
  waits (shared t) (left t) && waits (shared t) (right t) && negb (has_ended (left t) && has_ended (right t)).

Lemma stuck_no_step {A B} (t : threads hal wcall wresp A B) : stuck t = true -> ~ ended t /\ forall t', ~ thread_step t t'.
Proof.
  destruct t as [w p q]. unfold stuck. cbn [shared left right]. intros [[Hp Hq]%andb_prop Hn]%andb_prop. split.
  - unfold ended. cbn [left right]. destruct p, q; cbn in Hn; try discriminate Hn; tauto.
  - intros t' Ht. destruct (thread_step_cases _ _ Ht) as [(w' & p' & E & _)|(w' & q' & E & _)]; cbn [shared left right] in E; apply advance_cases in E.
    + destruct p; [done|]. destruct E as [E _]. cbn in Hp. by rewrite E in Hp.
    + destruct q; [done|]. destruct E as [E _]. cbn in Hq. by rewrite E in Hq.
Qed.

(** A loop that was told of a hang-up has ended without an answer. *)
Definition hung_up0 (tr : list (wcall * wresp)) (c : wcall) : wresp :=
  match c with Cpoll _ _ => mk_resp 1 0 [] [POLLHUP; 0] | _ => answer4 tr c end.

(** The loop ends because the other side hung up; the cleanup writes its request, which nobody will read, and waits
    for an answer for ever. *)
Theorem cleanup_waits_for_ended_loop :
  (fun t => (has_ended (left t), stuck t)) <$>
    schedule (repeat true 1 ++ repeat false 3) (@closing headers0 hung_up0 1 (fun _ => []) wakes3 2 1 55 77 (World hal1 []))
  = Some (true, true).
Proof. vm_compute. reflexivity. Qed.

(** A system that cannot write the request. *)
Definition no_room0 (tr : list (wcall * wresp)) (c : wcall) : wresp :=
  match c with Cwrite _ _ => mk_resp (-1) 11 [] [] | _ => answer4 tr c end.

(** The cleanup goes on without an answer: it closes the sockets and frees the HAL while the loop is about to call the
    handler of an event, whose object it holds; the client is told of the event after that, and the loop goes on to
    ask the HAL that was freed whether to end. *)
Theorem cleanup_frees_under_loop :
  (fun t => (has_ended (left t), has_ended (right t), take 2 (rev (map fst (trace (shared t)))))) <$>
    schedule (repeat true 10 ++ repeat false 33 ++ repeat true 2) (@closing headers0 no_room0 1 (fun _ => []) wakes3 2 1 55 77 (World hal1 []))
  = Some (false, true, [Con_event 8 (On_rssi [1; 2; 3; 4; 5; 6] (-56)); Cfree 55]).
Proof. vm_compute. reflexivity. Qed.
