(* ===== verification/WifiFunctions.v ===== *)
(** The table of functions of the Wi-Fi HAL, and the functions behind it that only report success
    (src/mediatek/wifi/wifi_hal/wifi_hal.cpp). *)
From Stdlib Require Import String List.
From stdpp Require Import gmap strings.
From S2P Require Import Prelude Threads WifiState WifiRegistry WifiHal.

Section Functions.
Context `{hal_headers}.

(** ** The table

    The fields of [wifi_hal_fn] with the functions they point to, by their names. *)
Abbreviation wifi_hal_fn := (gmap string string).

(** The assignments in their order. *)
Definition assignments : list (string * string) := [
  ("wifi_initialize", "wifi_initialize");
  ("wifi_cleanup", "wifi_cleanup");
  ("wifi_event_loop", "wifi_event_loop");
  ("wifi_get_supported_feature_set", "wifi_get_supported_feature_set");
  ("wifi_get_concurrency_matrix", "wifi_get_concurrency_matrix");
  ("wifi_set_scanning_mac_oui", "wifi_set_scanning_mac_oui_dummy");
  ("wifi_get_ifaces", "wifi_get_ifaces");
  ("wifi_get_iface_name", "wifi_get_iface_name");
  ("wifi_start_gscan", "wifi_start_gscan");
  ("wifi_stop_gscan", "wifi_stop_gscan");
  ("wifi_get_cached_gscan_results", "wifi_get_cached_gscan_results");
  ("wifi_set_bssid_hotlist", "wifi_set_bssid_hotlist");
  ("wifi_reset_bssid_hotlist", "wifi_reset_bssid_hotlist");
  ("wifi_set_significant_change_handler", "wifi_set_significant_change_handler");
  ("wifi_reset_significant_change_handler", "wifi_reset_significant_change_handler");
  ("wifi_get_valid_channels", "wifi_get_valid_channels");
  ("wifi_rtt_range_request", "wifi_rtt_range_request");
  ("wifi_rtt_range_cancel", "wifi_rtt_range_cancel");
  ("wifi_get_rtt_capabilities", "wifi_get_rtt_capabilities");
  ("wifi_start_logging", "wifi_start_logging_dummy");
  ("wifi_set_epno_list", "wifi_set_epno_list");
  ("wifi_reset_epno_list", "wifi_reset_epno_list");
  ("wifi_set_country_code", "wifi_set_country_code");
  ("wifi_set_log_handler", "wifi_set_log_handler_dummy");
  ("wifi_reset_log_handler", "wifi_reset_log_handler_dummy");
  ("wifi_get_firmware_version", "wifi_get_firmware_version_dummy");
  ("wifi_get_ring_buffers_status", "wifi_get_ring_buffers_status_dummy");
  ("wifi_get_logger_supported_feature_set", "wifi_get_logger_supported_feature_set_dummy");
  ("wifi_get_ring_data", "wifi_get_ring_data_dummy");
  ("wifi_get_driver_version", "wifi_get_driver_version_dummy");
  ("wifi_start_rssi_monitoring", "wifi_start_rssi_monitoring");
  ("wifi_stop_rssi_monitoring", "wifi_stop_rssi_monitoring");
  ("wifi_configure_nd_offload", "wifi_configure_nd_offload_dummy");
  ("wifi_start_sending_offloaded_packet", "wifi_start_sending_offloaded_packet");
  ("wifi_stop_sending_offloaded_packet", "wifi_stop_sending_offloaded_packet");
  ("wifi_start_pkt_fate_monitoring", "wifi_start_pkt_fate_monitoring_dummy");
  ("wifi_get_tx_pkt_fates", "wifi_get_tx_pkt_fates_dummy");
  ("wifi_get_rx_pkt_fates", "wifi_get_rx_pkt_fates_dummy");
  ("wifi_get_packet_filter_capabilities", "wifi_get_packet_filter_capabilities_dummy");
  ("wifi_get_driver_memory_dump", "wifi_get_driver_memory_dump_dummy");
  ("wifi_get_wake_reason_stats", "wifi_get_wake_reason_stats_dummy");
  ("wifi_get_packet_filter_capabilities", "wifi_get_packet_filter_capabilities_dummy")
]%string.

(** [None]: the pointer is NULL. *)
Definition init_wifi_vendor_hal_func_table (fn : option wifi_hal_fn) : Z * option wifi_hal_fn :=
  match fn with
  | None => (WIFI_ERROR_UNKNOWN, None)
  | Some fn => (WIFI_SUCCESS, Some (fold_left (fun t a => <[a.1 := a.2]> t) assignments fn))
  end.

(** ** Functions without a function

    An argument that the function writes through is what is there, or [None] for NULL; the result has what is there
    afterwards. The functions without such an argument. *)
Definition wifi_set_scanning_mac_oui_dummy : Z := WIFI_SUCCESS.
Definition wifi_set_log_handler_dummy : Z := WIFI_SUCCESS.
Definition wifi_reset_log_handler_dummy : Z := WIFI_SUCCESS.
Definition wifi_configure_nd_offload_dummy : Z := WIFI_SUCCESS.
Definition wifi_start_pkt_fate_monitoring_dummy : Z := WIFI_SUCCESS.
Definition wifi_get_driver_memory_dump_dummy : Z := WIFI_SUCCESS.

Definition wifi_get_wake_reason_stats_dummy (cnt : option (list Z)) : Z * option (list Z) :=
  match cnt with
  | Some cnt => (WIFI_SUCCESS, Some (repeat 0 (length cnt)))
  | None => (WIFI_ERROR_INVALID_ARGS, None)
  end.

Definition wifi_get_packet_filter_capabilities_dummy (version max_len : option Z) : Z * option Z * option Z :=
  match version, max_len with
  | Some _, Some _ => (WIFI_SUCCESS, Some 0, Some 0)
  | _, _ => (WIFI_ERROR_INVALID_ARGS, version, max_len)
  end.

Definition wifi_get_tx_pkt_fates_dummy (n_provided_fates : option Z) : Z * option Z :=
  match n_provided_fates with Some _ => (WIFI_SUCCESS, Some 0) | None => (WIFI_ERROR_INVALID_ARGS, None) end.
Definition wifi_get_rx_pkt_fates_dummy (n_provided_fates : option Z) : Z * option Z :=
  match n_provided_fates with Some _ => (WIFI_SUCCESS, Some 0) | None => (WIFI_ERROR_INVALID_ARGS, None) end.
Definition wifi_get_logger_supported_feature_set_dummy (support : option Z) : Z * option Z :=
  match support with Some _ => (WIFI_SUCCESS, Some 0) | None => (WIFI_ERROR_INVALID_ARGS, None) end.

(** [strncpy] into a buffer. *)
Definition copy_into (s : list Z) (n : nat) (buffer : list Z) : option (list Z) :=
  if (n <=? length buffer)%nat then Some (strncpy s n ++ drop n buffer) else None.

(** [None]: the buffer is smaller than the caller says. *)
Definition wifi_get_firmware_version_dummy (buffer : option (list Z)) (buffer_size : Z) : option (Z * option (list Z)) :=
  match buffer with
  | Some b => if 0 <? buffer_size then b' ← copy_into (str "0") (Z.to_nat buffer_size) b; Some (WIFI_SUCCESS, Some b')
              else Some (WIFI_ERROR_INVALID_ARGS, buffer)
  | None => Some (WIFI_ERROR_INVALID_ARGS, None)
  end.
Definition wifi_get_driver_version_dummy (buffer : option (list Z)) (buffer_size : Z) : option (Z * option (list Z)) :=
  match buffer with
  | Some b => if 0 <? buffer_size then b' ← copy_into (str "0") (Z.to_nat buffer_size) b; Some (WIFI_SUCCESS, Some b')
              else Some (WIFI_ERROR_INVALID_ARGS, buffer)
  | None => Some (WIFI_ERROR_INVALID_ARGS, None)
  end.

Definition wifi_get_ring_data_dummy (ring_name : option (list Z)) : Z :=
  match ring_name with Some _ => WIFI_SUCCESS | None => WIFI_ERROR_INVALID_ARGS end.
Definition wifi_start_logging_dummy (ring_name : option (list Z)) : Z :=
  match ring_name with Some _ => WIFI_SUCCESS | None => WIFI_ERROR_INVALID_ARGS end.

(** [wifi_ring_buffer_status]: the octets of its name, and the others. [sizeof( *status->name)] is the size of a character. *)
Record ring_status := mk_ring_status { ring_name : list Z; ring_rest : list Z }.
Definition sizeof_name : nat := 1.

Definition wifi_get_ring_buffers_status_dummy (num_rings : option Z) (status : option ring_status)
    : option (Z * option Z * option ring_status) :=
  match num_rings, status with
  | Some _, Some s =>
      name ← copy_into (str "dummy") sizeof_name (repeat 0 (length (ring_name s)));
      Some (WIFI_SUCCESS, Some 1, Some (mk_ring_status name (repeat 0 (length (ring_rest s)))))
  | _, _ => Some (WIFI_ERROR_INVALID_ARGS, num_rings, status)
  end.

(** ** What they promise *)
Definition dummy_of (slot : string) : string := (slot ++ "_dummy")%string.

Lemma assigned_lookup (l : list (string * string)) (t : wifi_hal_fn) k :
  fold_left (fun t a => <[a.1 := a.2]> t) l t !! k
  = match find (fun a => bool_decide (a.1 = k)) (rev l) with Some a => Some a.2 | None => t !! k end.
Proof.
  induction l as [|[x f] l IH] using rev_ind; [done|]. rewrite fold_left_app, rev_app_distr. cbn [fold_left rev app find fst snd].
  case_bool_decide as E; [by rewrite E, lookup_insert_eq|]. by rewrite lookup_insert_ne, IH.
Qed.

(** A field that is assigned has the function of its name, or the one that does nothing in its place; the others are
    what the caller had there. *)
Theorem func_table_correct (fn : wifi_hal_fn) :
  exists t, init_wifi_vendor_hal_func_table (Some fn) = (WIFI_SUCCESS, Some t)
    /\ (forall slot f, In (slot, f) assignments -> t !! slot = Some f /\ (f = slot \/ f = dummy_of slot))
    /\ (forall slot, ~ In slot (map fst assignments) -> t !! slot = fn !! slot).
Proof.
  eexists. split; [reflexivity|]. split.
  - intros slot f Hin. rewrite assigned_lookup.
    assert (Forall (fun a => find (fun b => bool_decide (b.1 = a.1)) (rev assignments) = Some a /\ (a.2 = a.1 \/ a.2 = dummy_of a.1)) assignments) as Hall.
    { unfold assignments. repeat (apply Forall_cons; [split; [by vm_compute|first [left; reflexivity|right; by vm_compute]]|]). apply Forall_nil_2. }
    rewrite List.Forall_forall in Hall. destruct (Hall _ Hin) as [E Hf]. cbn [fst snd] in *. rewrite E. by split.
  - intros slot Hn. rewrite assigned_lookup. destruct (find _ _) as [a|] eqn:E; [|done]. apply find_some in E as [Hin E%bool_decide_eq_true].
    destruct Hn. rewrite <- E. apply in_map. by apply in_rev.
Qed.

(** The version is the string of one digit, as long as there is room for its end. *)
Theorem firmware_version_reads (buffer : list Z) (buffer_size : Z) :
  2 <= buffer_size <= zlen buffer ->
  exists b, wifi_get_firmware_version_dummy (Some buffer) buffer_size = Some (WIFI_SUCCESS, Some b)
    /\ take 2 b = str "0" ++ [0] /\ length b = length buffer.
Proof.
  unfold zlen. intros Hs. unfold wifi_get_firmware_version_dummy, copy_into. rewrite (proj2 (Z.ltb_lt _ _)) by lia.
  rewrite (proj2 (Nat.leb_le _ _)) by lia. cbn [mbind option_bind]. eexists. split; [reflexivity|]. unfold strncpy.
  destruct (Z.to_nat buffer_size) as [|[|n]] eqn:E; [lia..|]. split; [done|].
  rewrite length_app, length_take, length_app, repeat_length, length_drop. cbn [length str]. lia.
Qed.

(** The name of the ring is cut to its first character. *)
Theorem ring_name_cut (num_rings : Z) (status : ring_status) (n : nat) :
  length (ring_name status) = S (S n) ->
  exists s, wifi_get_ring_buffers_status_dummy (Some num_rings) (Some status) = Some (WIFI_SUCCESS, Some 1, Some s)
    /\ take 2 (ring_name s) = str "d" ++ [0].
Proof. intros Hl. unfold wifi_get_ring_buffers_status_dummy. rewrite Hl. cbn. eexists. split; reflexivity. Qed.
End Functions.
