(* ===== verification/HciState.v ===== *)
(** The Bluetooth HAL (src/mediatek/bluetooth/interface): its data (hci_internals.h and the members of the
    classes), and the calls it makes: to the system, to the vendor library, and to the client. *)
From Stdlib Require Import List.
From stdpp Require Import gmap.
From S2P Require Import Prelude.

(** ** hci_internals.h *)
Definition HCI_PACKET_TYPE_UNKNOWN : Z := 0.
Definition HCI_PACKET_TYPE_COMMAND : Z := 1.
Definition HCI_PACKET_TYPE_ACL_DATA : Z := 2.
Definition HCI_PACKET_TYPE_SCO_DATA : Z := 3.
Definition HCI_PACKET_TYPE_EVENT : Z := 4.

Definition HCI_COMMAND_PREAMBLE_SIZE : Z := 3.
Definition HCI_LENGTH_OFFSET_CMD : Z := 2.
Definition HCI_ACL_PREAMBLE_SIZE : Z := 4.
Definition HCI_LENGTH_OFFSET_ACL : Z := 2.
Definition HCI_SCO_PREAMBLE_SIZE : Z := 3.
Definition HCI_LENGTH_OFFSET_SCO : Z := 2.
Definition HCI_EVENT_PREAMBLE_SIZE : Z := 2.
Definition HCI_LENGTH_OFFSET_EVT : Z := 1.
Definition HCI_PREAMBLE_SIZE_MAX : Z := HCI_ACL_PREAMBLE_SIZE.

Definition HCI_COMMAND_COMPLETE_EVENT : Z := 0x0E.

(** The channels of bt_vendor_lib.h. *)
Definition CH_CMD : Z := 0.
Definition CH_EVT : Z := 1.
Definition CH_ACL_OUT : Z := 2.
Definition CH_ACL_IN : Z := 3.
Definition CH_MAX : Z := 4.

Definition INVALID_FD : Z := -1.
Definition EAGAIN : Z := 11.

(** ** The objects *)

(** [HciPacketizer] *)
Inductive pk_state := HCI_PREAMBLE | HCI_PAYLOAD.
Record packetizer := mk_pk {
  state_ : pk_state; preamble_ : list Z; packet_ : list Z; bytes_remaining_ : Z; bytes_read_ : Z
}.
Definition packetizer0 : packetizer := mk_pk HCI_PREAMBLE (repeat 0 4) [] 0 0.

(** [H4Protocol] and [MctProtocol]. *)
Inductive protocol :=
  | H4Protocol (uart_fd_ : Z) (hci_packet_type_ : Z) (hci_packetizer_ : packetizer)
  | MctProtocol (uart_fds_ : list Z) (event_packetizer_ acl_packetizer_ : packetizer).

(** The functions that are called when a descriptor can be read, and when the time is over. *)
Inductive read_callback := H4_OnDataReady | Mct_OnEventDataReady | Mct_OnAclDataReady.
Inductive timeout_callback := On_timeout | Never_happens.

(** [AsyncFdWatcher]; the map is the list of its pairs in the order of the keys. *)
Record fd_watcher := mk_watcher {
  running_ : bool;
  thread_ : bool; (* joinable *)
  internal_mutex_ : bool;
  timeout_mutex_ : bool;
  watched_fds_ : list (Z * read_callback);
  notification_listen_fd_ : Z;
  notification_write_fd_ : Z;
  timeout_cb_ : option timeout_callback;
  timeout_ms_ : Z
}.
Definition watcher0 : fd_watcher := mk_watcher false false false false [] INVALID_FD INVALID_FD None 0.

(** [VendorInterface]; pointers are addresses, 0 is NULL. *)
Record vendor_interface := mk_vi {
  lib_handle_ : Z;
  lib_interface_ : Z;
  fd_watcher_ : fd_watcher;
  initialize_complete_cb_ : bool;
  hci_ : option protocol;
  firmware_startup_timer_ : bool
}.
Definition vendor_interface0 : vendor_interface := mk_vi 0 0 watcher0 false None false.

(** The globals of vendor_interface.cc, and the object of bluetooth_hci.cc. *)
Record hci_globals := mk_globals {
  internal_cb : Z;
  internal_opcode : Z;
  lpm_wake_deasserted : bool;
  lpm_timeout_ms : Z;
  recent_activity_flag : bool;
  g_vendor_interface : option vendor_interface;
  unlink_cb_ : bool;
  has_died_ : bool
}.
(** The memory of a process that has just started. *)
Definition globals0 : hci_globals := mk_globals 0 0 false 0 false None false false.

(** [HC_BT_HDR] of bt_vendor_lib.h, with the octets behind it. *)
Record HC_BT_HDR := mk_hdr { hdr_event : Z; hdr_len : Z; hdr_offset : Z; hdr_layer_specific : Z; hdr_data : list Z }.

(** ** Calls *)
Inductive vendor_op :=
  | Power_ctrl (on : bool)
  | Userial_open
  | Userial_close
  | Fw_cfg
  | Get_lpm_idle_timeout
  | Lpm_set_mode (enable : bool)
  | Lpm_wake_set_state (assert : bool).

Inductive hcall :=
  (* the system; a call in TEMP_FAILURE_RETRY is the last of its repetitions *)
  | Cread (fd n : Z)
  | Cwrite (fd : Z) (data : list Z)
  | Cwritev (fd : Z) (iov : list (list Z))
  | Cyield
  | Cpipe2
  | Cstart_thread
  | Cjoin
  | Cclose (fd : Z)
  | Cnotify (fd : Z) (* write of one octet to the pipe *)
  | Cdrain (fd : Z) (* read of one octet from the pipe *)
  | Cselect (fds : list Z) (timeout_ms : Z)
  | Cdlopen
  | Cdlsym (handle : Z)
  | Cdlclose (handle : Z)
  (* the vendor library *)
  | Clib_init
  | Clib_op (op : vendor_op)
  | Clib_cleanup
  | Ccommand_cback (cb : Z) (event : HC_BT_HDR)
  (* the client *)
  | Cinitialization_complete (success : bool)
  | Cevent_received (packet : list Z)
  | Cacl_received (packet : list Z)
  | Csco_received (packet : list Z)
  | Clink_to_death
  | Cunlink_to_death.

(** [rdata]: the octets read, the descriptors that are opened or can be read, the time. *)
Record hresp := mk_hresp { rv : Z; rerrno : Z; rdata : list Z }.

(** ** Updates of the state *)
Definition with_command (s : hci_globals) (cb opcode : Z) : hci_globals :=
  mk_globals cb opcode (lpm_wake_deasserted s) (lpm_timeout_ms s) (recent_activity_flag s) (g_vendor_interface s)
    (unlink_cb_ s) (has_died_ s).
Definition with_deasserted (s : hci_globals) (b : bool) : hci_globals :=
  mk_globals (internal_cb s) (internal_opcode s) b (lpm_timeout_ms s) (recent_activity_flag s) (g_vendor_interface s)
    (unlink_cb_ s) (has_died_ s).
Definition with_lpm_timeout (s : hci_globals) (t : Z) : hci_globals :=
  mk_globals (internal_cb s) (internal_opcode s) (lpm_wake_deasserted s) t (recent_activity_flag s) (g_vendor_interface s)
    (unlink_cb_ s) (has_died_ s).
Definition with_activity (s : hci_globals) (b : bool) : hci_globals :=
  mk_globals (internal_cb s) (internal_opcode s) (lpm_wake_deasserted s) (lpm_timeout_ms s) b (g_vendor_interface s)
    (unlink_cb_ s) (has_died_ s).
Definition with_interface (s : hci_globals) (v : option vendor_interface) : hci_globals :=
  mk_globals (internal_cb s) (internal_opcode s) (lpm_wake_deasserted s) (lpm_timeout_ms s) (recent_activity_flag s) v
    (unlink_cb_ s) (has_died_ s).
Definition with_client (s : hci_globals) (unlink died : bool) : hci_globals :=
  mk_globals (internal_cb s) (internal_opcode s) (lpm_wake_deasserted s) (lpm_timeout_ms s) (recent_activity_flag s)
    (g_vendor_interface s) unlink died.

Definition with_lib (h i : Z) (v : vendor_interface) : vendor_interface :=
  mk_vi h i (fd_watcher_ v) (initialize_complete_cb_ v) (hci_ v) (firmware_startup_timer_ v).
Definition with_watcher (w : fd_watcher) (v : vendor_interface) : vendor_interface :=
  mk_vi (lib_handle_ v) (lib_interface_ v) w (initialize_complete_cb_ v) (hci_ v) (firmware_startup_timer_ v).
Definition with_complete_cb (b : bool) (v : vendor_interface) : vendor_interface :=
  mk_vi (lib_handle_ v) (lib_interface_ v) (fd_watcher_ v) b (hci_ v) (firmware_startup_timer_ v).
Definition with_hci (p : option protocol) (v : vendor_interface) : vendor_interface :=
  mk_vi (lib_handle_ v) (lib_interface_ v) (fd_watcher_ v) (initialize_complete_cb_ v) p (firmware_startup_timer_ v).
Definition with_timer (b : bool) (v : vendor_interface) : vendor_interface :=
  mk_vi (lib_handle_ v) (lib_interface_ v) (fd_watcher_ v) (initialize_complete_cb_ v) (hci_ v) b.

Definition with_running (b : bool) (w : fd_watcher) : fd_watcher :=
  mk_watcher b (thread_ w) (internal_mutex_ w) (timeout_mutex_ w) (watched_fds_ w) (notification_listen_fd_ w)
    (notification_write_fd_ w) (timeout_cb_ w) (timeout_ms_ w).
Definition with_thread (b : bool) (w : fd_watcher) : fd_watcher :=
  mk_watcher (running_ w) b (internal_mutex_ w) (timeout_mutex_ w) (watched_fds_ w) (notification_listen_fd_ w)
    (notification_write_fd_ w) (timeout_cb_ w) (timeout_ms_ w).
Definition with_internal_mutex (b : bool) (w : fd_watcher) : fd_watcher :=
  mk_watcher (running_ w) (thread_ w) b (timeout_mutex_ w) (watched_fds_ w) (notification_listen_fd_ w)
    (notification_write_fd_ w) (timeout_cb_ w) (timeout_ms_ w).
Definition with_timeout_mutex (b : bool) (w : fd_watcher) : fd_watcher :=
  mk_watcher (running_ w) (thread_ w) (internal_mutex_ w) b (watched_fds_ w) (notification_listen_fd_ w)
    (notification_write_fd_ w) (timeout_cb_ w) (timeout_ms_ w).
Definition with_watched (l : list (Z * read_callback)) (w : fd_watcher) : fd_watcher :=
  mk_watcher (running_ w) (thread_ w) (internal_mutex_ w) (timeout_mutex_ w) l (notification_listen_fd_ w)
    (notification_write_fd_ w) (timeout_cb_ w) (timeout_ms_ w).
Definition with_pipe (listen write : Z) (w : fd_watcher) : fd_watcher :=
  mk_watcher (running_ w) (thread_ w) (internal_mutex_ w) (timeout_mutex_ w) (watched_fds_ w) listen write
    (timeout_cb_ w) (timeout_ms_ w).
Definition with_timeout (cb : option timeout_callback) (ms : Z) (w : fd_watcher) : fd_watcher :=
  mk_watcher (running_ w) (thread_ w) (internal_mutex_ w) (timeout_mutex_ w) (watched_fds_ w) (notification_listen_fd_ w)
    (notification_write_fd_ w) cb ms.
