(* ===== verification/HciPacket.v ===== *)
(** HCI packets (src/mediatek/bluetooth/interface: hci_packetizer.cc, hci_protocol.cc, h4_protocol.cc,
    mct_protocol.cc): writing them to the driver, and putting them together from what is read. *)
From Stdlib Require Import List.
From stdpp Require Import gmap.
From S2P Require Import Prelude Effects HciState.

Definition preamble_size_for_type : list Z :=
  [0; HCI_COMMAND_PREAMBLE_SIZE; HCI_ACL_PREAMBLE_SIZE; HCI_SCO_PREAMBLE_SIZE; HCI_EVENT_PREAMBLE_SIZE].
Definition packet_length_offset_for_type : list Z :=
  [0; HCI_LENGTH_OFFSET_CMD; HCI_LENGTH_OFFSET_ACL; HCI_LENGTH_OFFSET_SCO; HCI_LENGTH_OFFSET_EVT].

Definition HciGetPacketLengthForType (type : Z) (preamble : list Z) : option Z :=
  offset ← aget packet_length_offset_for_type type;
  if negb (type =? HCI_PACKET_TYPE_ACL_DATA) then aget preamble offset
  else hi ← aget preamble (offset + 1); lo ← aget preamble offset; Some ((hi ≪ 8) .| lo).

(** [memcpy] into an array. *)
Definition store (l : list Z) (off : Z) (d : list Z) : option (list Z) :=
  if (0 <=? off) && (off + zlen d <=? zlen l) then
    Some (take (Z.to_nat off) l ++ d ++ drop (Z.to_nat off + length d) l)
  else None.

(** [hidl_vec::resize]; the new elements are not initialised, and stand here as [junk]. *)
Definition resize (junk : Z) (l : list Z) (n : Z) : list Z :=
  take (Z.to_nat n) l ++ repeat junk (Z.to_nat n - length l).

Section Protocols.
Context (answer : list (hcall * hresp) -> hcall -> hresp) (junk : Z).
Abbreviation IO := (io hci_globals hcall hresp).
Abbreviation sys := (io_call answer).

(** ** HciPacketizer::OnDataReady

    [packet_ready_cb_] is given the packet; the result is the new state, and what the callback made of
    a packet that became complete. *)
Definition OnDataReady {A} (p : packetizer) (fd packet_type : Z) (packet_ready_cb_ : list Z -> IO (option A))
  : IO (option (packetizer * option A)) :=
  do size <- lift (aget preamble_size_for_type packet_type);
  match state_ p with
  | HCI_PREAMBLE =>
      do r <- sys (Cread fd (size - bytes_read_ p));
      if rv r <=? 0 then abort
      else
        do preamble <- lift (store (preamble_ p) (bytes_read_ p) (rdata r));
        let bytes_read := bytes_read_ p + rv r in
        if bytes_read =? size then
          do packet_length <- lift (HciGetPacketLengthForType packet_type preamble);
          do header <- lift (if size <=? zlen preamble then Some (take (Z.to_nat size) preamble) else None);
          do packet <- lift (store (resize junk (packet_ p) (size + packet_length)) 0 header);
          io_ret (Some (mk_pk HCI_PAYLOAD preamble packet packet_length 0, None))
        else io_ret (Some (mk_pk HCI_PREAMBLE preamble (packet_ p) (bytes_remaining_ p) bytes_read, None))
  | HCI_PAYLOAD =>
      do r <- sys (Cread fd (bytes_remaining_ p));
      if rv r <=? 0 then abort
      else
        do packet <- lift (store (packet_ p) (size + bytes_read_ p) (rdata r));
        let bytes_remaining := bytes_remaining_ p - rv r in
        let bytes_read := bytes_read_ p + rv r in
        if bytes_remaining =? 0 then
          try a <- packet_ready_cb_ packet;
          io_ret (Some (mk_pk HCI_PREAMBLE (preamble_ p) packet 0 0, Some a))
        else io_ret (Some (mk_pk HCI_PAYLOAD (preamble_ p) packet bytes_remaining bytes_read, None))
  end.

(** ** HciProtocol::WriteSafely: the number of octets transmitted *)
Fixpoint write_loop (fuel : nat) (fd : Z) (data : list Z) (transmitted_length length : Z) : IO Z :=
  if length <=? 0 then io_ret transmitted_length
  else
    match fuel with
    | O => undefined
    | S fuel =>
        do r <- sys (Cwrite fd (take (Z.to_nat length) (drop (Z.to_nat transmitted_length) data)));
        if rv r =? -1 then
          if rerrno r =? EAGAIN then do _ <- sys Cyield; write_loop fuel fd data transmitted_length length
          else io_ret transmitted_length
        else if rv r =? 0 then io_ret transmitted_length
        else write_loop fuel fd data (transmitted_length + rv r) (length - rv r)
    end.

(** [patience]: how often in a row the driver may be busy. *)
Context (patience : nat).
Definition WriteSafely (fd : Z) (data : list Z) : IO Z :=
  write_loop (S patience * length data) fd data 0 (zlen data).

(** ** HciProtocol::WritevSafely (nothing calls it); [None] for [iov] is NULL *)
Fixpoint consume (iov : list (list Z)) (ret : Z) : option (list (list Z)) :=
  match iov with
  | [] => None (* iov is behind the array *)
  | v :: iov => if zlen v <=? ret then consume iov (ret - zlen v)
                else Some ((if 0 <? ret then drop (Z.to_nat ret) v else v) :: iov)
  end.

Fixpoint writev_loop (fuel : nat) (fd : Z) (iov : list (list Z)) (transmitted_length : Z) : IO Z :=
  if zlen iov <=? 0 then io_ret transmitted_length
  else
    match fuel with
    | O => undefined
    | S fuel =>
        do r <- sys (Cwritev fd iov);
        if rv r =? -1 then
          if rerrno r =? EAGAIN then do _ <- sys Cyield; writev_loop fuel fd iov transmitted_length
          else io_ret transmitted_length
        else if rv r =? 0 then io_ret transmitted_length
        else do iov <- lift (consume iov (rv r)); writev_loop fuel fd iov (transmitted_length + rv r)
    end.

Definition WritevSafely (fd : Z) (iov : option (list (list Z))) : IO (option Z) :=
  if -1 =? fd then abort
  else
    match iov with
    | None => abort
    | Some iov => do n <- writev_loop (S patience * length (concat iov)) fd iov 0; io_ret (Some n)
    end.

(** ** H4Protocol *)
Definition h4_Send (uart_fd_ type : Z) (data : list Z) : IO Z := WriteSafely uart_fd_ (type :: data).

(** [event_cb_]; the other two callbacks are the client's. *)
Context (event_cb_ : list Z -> IO unit).

(** The new [hci_packet_type_]. *)
Definition h4_OnPacketReady (hci_packet_type_ : Z) (packet : list Z) : IO (option Z) :=
  if hci_packet_type_ =? HCI_PACKET_TYPE_EVENT then
    do _ <- event_cb_ packet; io_ret (Some HCI_PACKET_TYPE_UNKNOWN)
  else if hci_packet_type_ =? HCI_PACKET_TYPE_ACL_DATA then
    do _ <- sys (Cacl_received packet); io_ret (Some HCI_PACKET_TYPE_UNKNOWN)
  else if hci_packet_type_ =? HCI_PACKET_TYPE_SCO_DATA then
    do _ <- sys (Csco_received packet); io_ret (Some HCI_PACKET_TYPE_UNKNOWN)
  else abort.

(** The new [hci_packet_type_] and [hci_packetizer_]. *)
Definition h4_OnDataReady (hci_packet_type_ : Z) (hci_packetizer_ : packetizer) (fd : Z) : IO (option (Z * packetizer)) :=
  if hci_packet_type_ =? HCI_PACKET_TYPE_UNKNOWN then
    do r <- sys (Cread fd 1);
    if negb (rv r =? 1) then abort
    else
      do type <- lift (aget (rdata r) 0);
      if negb (type =? HCI_PACKET_TYPE_ACL_DATA) && negb (type =? HCI_PACKET_TYPE_SCO_DATA)
         && negb (type =? HCI_PACKET_TYPE_EVENT) then abort
      else io_ret (Some (type, hci_packetizer_))
  else
    try x <- OnDataReady hci_packetizer_ fd hci_packet_type_ (h4_OnPacketReady hci_packet_type_);
    io_ret (Some (default hci_packet_type_ x.2, x.1)).

(** ** MctProtocol *)
Definition mct_Send (uart_fds_ : list Z) (type : Z) (data : list Z) : IO (option Z) :=
  if type =? HCI_PACKET_TYPE_COMMAND then
    do fd <- lift (aget uart_fds_ CH_CMD); do n <- WriteSafely fd data; io_ret (Some n)
  else if type =? HCI_PACKET_TYPE_ACL_DATA then
    do fd <- lift (aget uart_fds_ CH_ACL_OUT); do n <- WriteSafely fd data; io_ret (Some n)
  else abort.

Definition OnEventPacketReady (packet : list Z) : IO (option unit) := do _ <- event_cb_ packet; io_ret (Some tt).
Definition OnAclDataPacketReady (packet : list Z) : IO (option unit) := do _ <- sys (Cacl_received packet); io_ret (Some tt).

Definition OnEventDataReady (event_packetizer_ : packetizer) (fd : Z) : IO (option packetizer) :=
  try x <- OnDataReady event_packetizer_ fd HCI_PACKET_TYPE_EVENT OnEventPacketReady; io_ret (Some x.1).
Definition OnAclDataReady (acl_packetizer_ : packetizer) (fd : Z) : IO (option packetizer) :=
  try x <- OnDataReady acl_packetizer_ fd HCI_PACKET_TYPE_ACL_DATA OnAclDataPacketReady; io_ret (Some x.1).
End Protocols.

(** ** Arrays *)
Lemma store_some l off d : 0 <= off -> off + zlen d <= zlen l ->
  exists l', store l off d = Some l' /\ zlen l' = zlen l
    /\ take (Z.to_nat (off + zlen d)) l' = take (Z.to_nat off) l ++ d.
Proof.
  intros Ho Hl. unfold store. rewrite (proj2 (Z.leb_le 0 off)), (proj2 (Z.leb_le _ (zlen l))) by done. cbn [andb].
  eexists. split; [done|]. unfold zlen in *. split; [rewrite !length_app, length_take, length_drop; lia|].
  rewrite app_assoc, take_app_le by (rewrite length_app, length_take; lia). apply take_ge. rewrite length_app, length_take. lia.
Qed.

Lemma resize_length junk l n : 0 <= n -> zlen (resize junk l n) = n.
Proof. intros Hn. unfold resize, zlen. rewrite length_app, length_take, repeat_length. lia. Qed.

Lemma drop_split (l : list Z) i k : 0 <= i -> 0 <= k ->
  drop (Z.to_nat k) (drop (Z.to_nat i) l) = drop (Z.to_nat (i + k)) l.
Proof. intros. rewrite drop_drop. f_equal. lia. Qed.

Lemma take_take_drop (l : list Z) i k : 0 <= i -> 0 <= k ->
  take (Z.to_nat i) l ++ take (Z.to_nat k) (drop (Z.to_nat i) l) = take (Z.to_nat (i + k)) l.
Proof. intros. rewrite take_take_drop. f_equal. lia. Qed.

(** ** A stream of octets *)

(** How many octets were read from [fd]. *)
Definition read_size (fd : Z) (e : hcall * hresp) : Z :=
  match e.1 with Cread f _ => if f =? fd then Z.max 0 (rv e.2) else 0 | _ => 0 end.
Definition received (fd : Z) (tr : list (hcall * hresp)) : Z := zsum (map (read_size fd) tr).

(** The driver gives the octets of [s], as long as there are any, in pieces of its choice. *)
Definition serves (answer : list (hcall * hresp) -> hcall -> hresp) (fd : Z) (s : list Z) : Prop :=
  forall tr n, 0 < n -> received fd tr < zlen s ->
    exists k, 0 < k <= n /\ received fd tr + k <= zlen s /\ rv (answer tr (Cread fd n)) = k
      /\ rdata (answer tr (Cread fd n)) = take (Z.to_nat k) (drop (Z.to_nat (received fd tr)) s).

Lemma received_app fd t1 t2 : received fd (t1 ++ t2) = received fd t1 + received fd t2.
Proof. unfold received. by rewrite map_app, zsum_app. Qed.

Lemma received_nonneg fd tr : 0 <= received fd tr.
Proof.
  apply zsum_nonneg, List.Forall_map, List.Forall_forall. intros [c r] _. unfold read_size. cbn [fst snd].
  destruct c; try lia. destruct (_ =? _); lia.
Qed.

(** ** Packets *)
Definition header_size (ty : Z) : Z := default 0 (aget preamble_size_for_type ty).
Definition received_type (ty : Z) : Prop :=
  ty = HCI_PACKET_TYPE_ACL_DATA \/ ty = HCI_PACKET_TYPE_SCO_DATA \/ ty = HCI_PACKET_TYPE_EVENT.

(** The octets of a packet behind its type: a header, and as many octets as it says; [n] is their number. *)
Definition body_of (ty n : Z) (body : list Z) : Prop :=
  zlen body = header_size ty + n /\ HciGetPacketLengthForType ty (take (Z.to_nat (header_size ty)) body) = Some n.

(** A packet the HAL can take: its payload is not empty. *)
Definition packet_ok (pk : Z * list Z) : Prop := received_type pk.1 /\ exists n, 0 < n /\ body_of pk.1 n pk.2.

Definition h4_encode (pk : Z * list Z) : list Z := pk.1 :: pk.2.

(** What was handed over, with the types: events to the vendor library or to the client, data to the client. *)
Definition handed (e : hcall * hresp) : list (Z * list Z) :=
  match e.1 with
  | Cevent_received pk => [(HCI_PACKET_TYPE_EVENT, pk)]
  | Ccommand_cback _ h => [(HCI_PACKET_TYPE_EVENT, hdr_data h)]
  | Cacl_received pk => [(HCI_PACKET_TYPE_ACL_DATA, pk)]
  | Csco_received pk => [(HCI_PACKET_TYPE_SCO_DATA, pk)]
  | _ => []
  end.
Definition delivered (tr : list (hcall * hresp)) : list (Z * list Z) := concat (map handed tr).

Lemma delivered_app t1 t2 : delivered (t1 ++ t2) = delivered t1 ++ delivered t2.
Proof. unfold delivered. by rewrite map_app, concat_app. Qed.

(** Nothing read and nothing handed over. *)
Definition silent (fd : Z) (t : list (hcall * hresp)) : Prop := received fd t = 0 /\ delivered t = [].

Lemma header_facts ty : received_type ty -> aget preamble_size_for_type ty = Some (header_size ty) /\ 2 <= header_size ty <= 4.
Proof. intros [->|[->| ->]]; vm_compute; repeat split; congruence. Qed.

Lemma aget_take (l : list Z) k i v : aget (take k l) i = Some v -> aget l i = Some v.
Proof. unfold aget. destruct (0 <=? i); [|done]. rewrite lookup_take_Some. tauto. Qed.

(** The header says how long the packet is. *)
Lemma packet_length_prefix ty l n : received_type ty ->
  HciGetPacketLengthForType ty (take (Z.to_nat (header_size ty)) l) = Some n -> HciGetPacketLengthForType ty l = Some n.
Proof.
  unfold HciGetPacketLengthForType. generalize (Z.to_nat (header_size ty)) as k. intros k [->|[->| ->]].
  - change (aget packet_length_offset_for_type HCI_PACKET_TYPE_ACL_DATA) with (Some 2). cbn -[take aget].
    change (Some 2 ≫= ?f) with (f 2). cbn beta. change (2 + 1) with 3.
    destruct (aget (take k l) 3) eqn:E1; [|done]. destruct (aget (take k l) 2) eqn:E2; [|done].
    by rewrite (aget_take _ _ _ _ E1), (aget_take _ _ _ _ E2).
  - change (aget packet_length_offset_for_type HCI_PACKET_TYPE_SCO_DATA) with (Some 2). apply aget_take.
  - change (aget packet_length_offset_for_type HCI_PACKET_TYPE_EVENT) with (Some 1). apply aget_take.
Qed.

(** ** The packetizer on a stream *)
Section Stream.
Context (answer : list (hcall * hresp) -> hcall -> hresp) (junk fd : Z) (s : list Z).
Hypothesis Hserves : serves answer fd s.
Abbreviation IO := (io hci_globals hcall hresp).
Abbreviation W := (world hci_globals hcall hresp).

(** What is still to come. *)
Definition left_of (w : W) : list Z := drop (Z.to_nat (received fd (trace w))) s.

Lemma read_some {A} n d rest (k : hresp -> IO A) Q (w : W) :
  0 < n <= zlen d -> left_of w = d ++ rest ->
  (forall r m, 0 < m <= n -> rv r = m -> rdata r = take (Z.to_nat m) d ->
     forall w', globals w' = globals w -> delivered (trace w') = delivered (trace w) ->
       received fd (trace w') = received fd (trace w) + m -> left_of w' = drop (Z.to_nat m) d ++ rest ->
       wp (k r) Q w') ->
  wp (io_bind (io_call answer (Cread fd n)) k) Q w.
Proof using Hserves.
  intros Hn Hl HQ. apply wp_bind, sys_eq. intros r ->. pose proof (received_nonneg fd (trace w)) as Hr0. unfold left_of in Hl.
  assert (received fd (trace w) < zlen s) as Hlt.
  { assert (length (drop (Z.to_nat (received fd (trace w))) s) = length (d ++ rest)) as E by (by rewrite Hl).
    rewrite length_drop, length_app in E. unfold zlen in *. lia. }
  destruct (Hserves (trace w) n ltac:(lia) Hlt) as (m & Hm & Hs & Erv & Ed).
  assert (received fd [(Cread fd n, answer (trace w) (Cread fd n))] = m) as Em.
  { unfold received, read_size. cbn [map fst snd]. rewrite Z.eqb_refl, zsum_cons, zsum_nil. lia. }
  apply (HQ _ m); [done|done| |done| | |].
  - rewrite Ed, Hl, take_app_le by (unfold zlen in *; lia). done.
  - cbn [trace]. rewrite delivered_app. cbn. by rewrite app_nil_r.
  - cbn [trace]. by rewrite received_app, Em.
  - unfold left_of. cbn [trace]. rewrite received_app, Em, <- drop_split, Hl by lia.
    rewrite drop_app_le by (unfold zlen in *; lia). done.
Qed.

(** In the middle of a body, [i] octets of which were read; [rest] follows it. *)
Definition partial (ty : Z) (body rest : list Z) (i : Z) (p : packetizer) (w : W) : Prop :=
  0 <= i <= zlen body /\ left_of w = drop (Z.to_nat i) body ++ rest /\ zlen (preamble_ p) = HCI_PREAMBLE_SIZE_MAX
  /\ match state_ p with
     | HCI_PREAMBLE => bytes_read_ p = i /\ i < header_size ty /\ take (Z.to_nat i) (preamble_ p) = take (Z.to_nat i) body
     | HCI_PAYLOAD =>
         bytes_read_ p = i - header_size ty /\ header_size ty <= i /\ bytes_remaining_ p = zlen body - i
         /\ zlen (packet_ p) = zlen body /\ take (Z.to_nat i) (packet_ p) = take (Z.to_nat i) body
     end.

(** Between packets. *)
Definition idle (p : packetizer) : Prop :=
  state_ p = HCI_PREAMBLE /\ bytes_read_ p = 0 /\ zlen (preamble_ p) = HCI_PREAMBLE_SIZE_MAX.

Lemma idle_partial ty body rest p w :
  received_type ty -> idle p -> left_of w = body ++ rest -> partial ty body rest 0 p w.
Proof.
  intros Hty (Hst & Hr & Hp) Hl. destruct (header_facts ty Hty) as [_ Hh]. unfold partial. rewrite Hst.
  split_and!; done || (unfold zlen; lia).
Qed.

(** One call of [OnDataReady] in the middle of a packet reads something; the last one hands the packet over. *)
Lemma OnDataReady_partial {A} ty n body rest i p (ready : list Z -> IO (option A)) Q (w : W) :
  received_type ty -> 0 <= n -> body_of ty n body -> i < zlen body -> partial ty body rest i p w ->
  (forall j p' w', i < j -> n = 0 \/ j < zlen body -> partial ty body rest j p' w' -> globals w' = globals w -> delivered (trace w') = delivered (trace w) ->
     received fd (trace w') = received fd (trace w) + (j - i) -> Q (Some (p', None)) w') ->
  (forall w', 0 < n -> globals w' = globals w -> delivered (trace w') = delivered (trace w) ->
     received fd (trace w') = received fd (trace w) + (zlen body - i) -> left_of w' = rest ->
     wp (ready body) (fun o w'' => exists a, o = Some a /\ forall p', idle p' -> Q (Some (p', Some a)) w'') w') ->
  wp (OnDataReady answer junk p fd ty ready) Q w.
Proof using Hserves.
  intros Hty Hn [Hlen Hhdr] Hib (Hi & Hl & Hpre & Hst) Hstep Hdone. destruct (header_facts ty Hty) as [Hsz Hh].
  set (size := header_size ty) in *. unfold OnDataReady. apply wp_bind. eapply wp_lift; [exact Hsz|].
  assert (zlen (drop (Z.to_nat i) body) = zlen body - i) as Hd by (unfold zlen in *; rewrite length_drop; lia).
  destruct (state_ p) eqn:Es.
  - destruct Hst as (-> & Hlt & Hpp). apply (read_some _ (drop (Z.to_nat i) body) rest); [lia|exact Hl|].
    intros r m Hm Erv Edata w' Hg Hdel Hrec Hl'. rewrite Erv, (proj2 (Z.leb_gt _ _)) by lia.
    rewrite drop_split in Hl' by lia.
    assert (zlen (rdata r) = m) as Hzr by (rewrite Edata; unfold zlen in *; rewrite length_take; lia).
    destruct (store_some (preamble_ p) i (rdata r)) as (pre & Epre & Hzp & Htp); [lia|unfold HCI_PREAMBLE_SIZE_MAX, HCI_ACL_PREAMBLE_SIZE in *; lia|].
    rewrite Hzr, Edata, Hpp, take_take_drop in Htp by lia. apply wp_bind. eapply wp_lift; [exact Epre|].
    destruct (Z.eqb_spec (i + m) size) as [E|].
    + rewrite E in *. assert (HciGetPacketLengthForType ty pre = Some n) as Ehdr.
      { apply packet_length_prefix; [done|]. by rewrite <- Hhdr, <- Htp. }
      apply wp_bind. eapply wp_lift; [exact Ehdr|]. apply wp_bind. eapply wp_lift.
      { rewrite (proj2 (Z.leb_le size (zlen pre))) by (unfold HCI_PREAMBLE_SIZE_MAX, HCI_ACL_PREAMBLE_SIZE in *; lia). by rewrite Htp. }
      assert (zlen (take (Z.to_nat size) body) = size) as Hzt by (unfold zlen in *; rewrite length_take; lia).
      destruct (store_some (resize junk (packet_ p) (size + n)) 0 (take (Z.to_nat size) body)) as (pkt & Ek & Hzk & Htk);
        [lia|rewrite resize_length by lia; lia|]. apply wp_bind. eapply wp_lift; [exact Ek|]. apply wp_ret.
      rewrite resize_length in Hzk by lia. rewrite Hzt in Htk. rewrite Z.add_0_l in Htk. cbn [take app Z.to_nat] in Htk.
      apply (Hstep size); [lia|lia| |done|done|lia]. unfold partial. cbn [state_ preamble_ bytes_read_ bytes_remaining_ packet_].
      fold size. rewrite Htk. split_and!; done || lia.
    + apply wp_ret. apply (Hstep (i + m)); [lia|lia| |done|done|lia]. unfold partial. cbn [state_ preamble_ bytes_read_]. fold size.
      split_and!; done || lia.
  - destruct Hst as (Er & Hle & Erem & Hzk & Htk). rewrite Erem.
    apply (read_some _ (drop (Z.to_nat i) body) rest); [lia|exact Hl|].
    intros r m Hm Erv Edata w' Hg Hdel Hrec Hl'. rewrite Erv, (proj2 (Z.leb_gt _ _)) by lia. rewrite drop_split in Hl' by lia.
    assert (zlen (rdata r) = m) as Hzr by (rewrite Edata; unfold zlen in *; rewrite length_take; lia).
    replace (size + bytes_read_ p) with i by lia.
    destruct (store_some (packet_ p) i (rdata r)) as (pkt & Ek & Hzk' & Htk'); [lia|lia|].
    rewrite Hzr, Edata, Htk, take_take_drop in Htk' by lia. apply wp_bind. eapply wp_lift; [exact Ek|].
    destruct (Z.eqb_spec (zlen body - i - m) 0) as [E|].
    + assert (pkt = body) as ->.
      { rewrite <- (take_ge pkt (Z.to_nat (i + m))), Htk' by (unfold zlen in *; lia). apply take_ge. unfold zlen in *. lia. }
      apply wp_attempt. eapply wp_mono.
      * apply Hdone; [lia|done|done|lia|]. rewrite Hl', drop_ge by (unfold zlen in *; lia). done.
      * cbn beta. intros o w2 (a & -> & HQ). apply wp_ret, HQ. by split_and!.
    + apply wp_ret. apply (Hstep (i + m)); [lia|lia| |done|done|lia]. unfold partial. cbn [state_ preamble_ bytes_read_ bytes_remaining_ packet_]. fold size.
      split_and!; done || lia.
Qed.
(** ** Repeated calls *)
Fixpoint calls {X} (call : X -> IO (option X)) (k : nat) (x : X) : IO (option X) :=
  match k with O => io_ret (Some x) | S k => try x' <- call x; calls call k x' end.

Lemma left_size (w : W) l : left_of w = l -> 0 < zlen l -> received fd (trace w) + zlen l = zlen s.
Proof.
  unfold left_of, zlen. intros <-. rewrite length_drop. pose proof (received_nonneg fd (trace w)). lia.
Qed.

(** Each call reads something, and hands over a part of what is expected. *)
Lemma calls_reach {X} (call : X -> IO (option X)) (P : list (Z * list Z) -> X -> W -> Prop) bound :
  (forall pk ps x w, P (pk :: ps) x w -> received fd (trace w) < bound) ->
  (forall pk ps x w, P (pk :: ps) x w -> wp (call x) (fun o w' => exists x' ps1 ps2, o = Some x' /\ pk :: ps = ps1 ++ ps2
     /\ P ps2 x' w' /\ delivered (trace w') = delivered (trace w) ++ ps1 /\ received fd (trace w) < received fd (trace w')) w) ->
  forall ps x w, P ps x w -> exists k, Z.of_nat k <= Z.max 0 (bound - received fd (trace w))
    /\ wp (calls call k x) (fun o w' => exists x', o = Some x' /\ P [] x' w' /\ delivered (trace w') = delivered (trace w) ++ ps) w.
Proof.
  intros Hb Hstep ps x w. remember (Z.to_nat (bound - received fd (trace w))) as m eqn:Em. revert ps x w Em.
  induction (lt_wf m) as [m _ IH]. intros [|pk ps] x w -> HP.
  - exists 0%nat. split; [lia|]. apply wp_ret. exists x. by rewrite app_nil_r.
  - pose proof (Hb _ _ _ _ HP) as Hlt. destruct (wp_total _ _ _ (Hstep _ _ _ _ HP)) as (o & w1 & E & x1 & ps1 & ps2 & -> & Eps & HP1 & Hd & Hr).
    destruct (IH (Z.to_nat (bound - received fd (trace w1))) ltac:(lia) ps2 x1 w1 eq_refl HP1) as (k & Hk & Hwp).
    exists (S k). split; [lia|]. cbn [calls]. apply wp_attempt. unfold wp at 1. rewrite E. eapply wp_mono; [exact Hwp|].
    cbn beta. intros o w2 (x2 & -> & HP2 & Hd2). exists x2. split_and!; [done|done|]. by rewrite Hd2, Hd, <- app_assoc, <- Eps.
Qed.

(** ** H4 on a stream *)

(** What takes the events: it hands over each good one, and neither reads nor changes the protocol. *)
Class EventSink (event_cb_ : list Z -> IO unit) (good : list Z -> Prop) : Prop :=
  event_sink n body (w : W) : body_of HCI_PACKET_TYPE_EVENT n body -> good body ->
    wp (event_cb_ body) (fun _ w' => received fd (trace w') = received fd (trace w)
      /\ delivered (trace w') = delivered (trace w) ++ [(HCI_PACKET_TYPE_EVENT, body)]
      /\ g_vendor_interface (globals w') = g_vendor_interface (globals w)) w.

Context (event_cb_ : list Z -> IO unit) (good : list Z -> Prop) `{Hsink : !EventSink event_cb_ good}.

Definition fine (pk : Z * list Z) : Prop := packet_ok pk /\ (pk.1 = HCI_PACKET_TYPE_EVENT -> good pk.2).

Lemma h4_OnPacketReady_fine ty n body (w : W) :
  received_type ty -> body_of ty n body -> (ty = HCI_PACKET_TYPE_EVENT -> good body) ->
  wp (h4_OnPacketReady answer event_cb_ ty body) (fun o w' => o = Some HCI_PACKET_TYPE_UNKNOWN
    /\ received fd (trace w') = received fd (trace w) /\ delivered (trace w') = delivered (trace w) ++ [(ty, body)]
    /\ g_vendor_interface (globals w') = g_vendor_interface (globals w)) w.
Proof using Hsink.
  intros [->|[->| ->]] Hb Hg; unfold h4_OnPacketReady; cbn [Z.eqb Pos.eqb HCI_PACKET_TYPE_EVENT HCI_PACKET_TYPE_ACL_DATA HCI_PACKET_TYPE_SCO_DATA].
  - apply wp_bind, sys_any. intros r. apply wp_ret. cbn [trace]. by rewrite received_app, delivered_app, Z.add_0_r.
  - apply wp_bind, sys_any. intros r. apply wp_ret. cbn [trace]. by rewrite received_app, delivered_app, Z.add_0_r.
  - apply wp_bind. eapply wp_mono; [eapply event_sink; [exact Hb|auto]|]. intros _ w' (H1 & H2 & H3). by apply wp_ret.
Qed.

Definition h4_call (x : Z * packetizer) : IO (option (Z * packetizer)) := h4_OnDataReady answer junk event_cb_ x.1 x.2 fd.
Definition stream (ps : list (Z * list Z)) : list Z := concat (map h4_encode ps).

(** [ps] are the packets that are not handed over yet. *)
Definition h4_at (rest : list Z) (ps : list (Z * list Z)) (x : Z * packetizer) (w : W) : Prop :=
  Forall fine ps
  /\ ((x.1 = HCI_PACKET_TYPE_UNKNOWN /\ idle x.2 /\ left_of w = stream ps ++ rest)
      \/ exists pk ps' i, ps = pk :: ps' /\ x.1 = pk.1 /\ i < zlen pk.2 /\ partial pk.1 pk.2 (stream ps' ++ rest) i x.2 w).

Lemma fine_size pk : fine pk -> received_type pk.1 /\ exists n, 0 < n /\ body_of pk.1 n pk.2 /\ 0 < zlen pk.2.
Proof.
  intros [[Hty (n & Hn & Hb)] _]. split; [done|]. exists n. split_and!; [done|done|].
  destruct (header_facts _ Hty), Hb. lia.
Qed.

Lemma h4_type pk ps rest x (w : W) (Q : option (Z * packetizer) -> W -> Prop) :
  received_type pk.1 -> x.1 = HCI_PACKET_TYPE_UNKNOWN -> idle x.2 -> left_of w = pk.1 :: pk.2 ++ stream ps ++ rest ->
  (forall w', partial pk.1 pk.2 (stream ps ++ rest) 0 x.2 w' -> delivered (trace w') = delivered (trace w) ->
     received fd (trace w') = received fd (trace w) + 1 -> globals w' = globals w -> Q (Some (pk.1, x.2)) w') ->
  wp (h4_call x) Q w.
Proof using Hserves.
  intros Hty Ex Hidle Hl HQ. unfold h4_call, h4_OnDataReady. rewrite Ex. cbn [Z.eqb HCI_PACKET_TYPE_UNKNOWN].
  apply (read_some 1 [pk.1] (pk.2 ++ stream ps ++ rest)); [unfold zlen; cbn; lia|exact Hl|].
  intros r m Hm Erv Edata w' Hg Hd Hr Hl'. assert (m = 1) as -> by lia. rewrite Erv. cbn [Z.eqb Pos.eqb negb].
  apply wp_bind. eapply wp_lift; [rewrite Edata; reflexivity|].
  replace (_ && _ && _) with false by (destruct Hty as [->|[->| ->]]; reflexivity). apply wp_ret, HQ; [|done|done|done].
  apply idle_partial; [done|done|]. by rewrite Hl'.
Qed.

Lemma h4_call_packet ty p : received_type ty ->
  h4_call (ty, p) = try x <- OnDataReady answer junk p fd ty (h4_OnPacketReady answer event_cb_ ty); io_ret (Some (default ty x.2, x.1)).
Proof. by intros [->|[->| ->]]. Qed.

(** One call of [OnDataReady] of the protocol. *)
Lemma h4_step rest pk ps x (w : W) : h4_at rest (pk :: ps) x w ->
  wp (h4_call x) (fun o w' => exists x' ps1 ps2, o = Some x' /\ pk :: ps = ps1 ++ ps2 /\ h4_at rest ps2 x' w'
    /\ delivered (trace w') = delivered (trace w) ++ ps1 /\ received fd (trace w) < received fd (trace w')
    /\ g_vendor_interface (globals w') = g_vendor_interface (globals w)) w.
Proof using Hserves Hsink.
  intros [Hf [(Ex & Hidle & Hl)|(pk' & ps' & i & [= <- <-] & Ex & Hi & Hpart)]];
    pose proof (Forall_inv Hf) as Hpk; destruct (fine_size pk Hpk) as (Hty & n & Hn & Hb & Hz).
  - apply (h4_type pk ps rest); [done|done|done|by rewrite Hl; unfold stream, h4_encode; cbn; rewrite <- app_assoc|].
    intros w' Hp Hd Hr Hg. exists (pk.1, x.2), [], (pk :: ps). rewrite app_nil_r. split_and!; [done|done| |done|lia|by rewrite Hg].
    split; [done|]. right. exists pk, ps, 0. by split_and!.
  - rewrite (surjective_pairing x), Ex, h4_call_packet by done. apply wp_attempt. destruct Hpart as [Hi0 Hpart']. pose proof (conj Hi0 Hpart') as Hpart.
    eapply (OnDataReady_partial pk.1 n pk.2 (stream ps ++ rest) i); [done|lia|done|done|done| |].
    + intros j p' w' Hij Hj Hp' Hg Hd Hr. apply wp_ret. exists (pk.1, p'), [], (pk :: ps). rewrite app_nil_r.
      split_and!; [done|done| |done|lia|by rewrite Hg]. split; [done|]. right. exists pk, ps, j. split_and!; [done|done|lia|done].
    + intros w' _ Hg Hd Hr Hl. eapply wp_mono; [eapply h4_OnPacketReady_fine; [done|exact Hb|apply Hpk]|].
      cbn beta. intros o w2 (-> & Hr2 & Hd2 & Hg2). eexists. split; [done|]. intros p' Hp'. apply wp_ret.
      exists (HCI_PACKET_TYPE_UNKNOWN, p'), [pk], ps. split_and!; [done|done| |rewrite Hd2, Hd; by destruct pk|lia|by rewrite Hg2, Hg].
      split; [exact (Forall_inv_tail Hf)|]. left. split_and!; [done|done|].
      rewrite <- Hl. unfold left_of. by rewrite Hr2.
Qed.

Lemma h4_bound rest pk ps x (w : W) : h4_at rest (pk :: ps) x w -> received fd (trace w) < zlen s - zlen rest.
Proof.
  intros [Hf [(Ex & Hidle & Hl)|(pk' & ps' & i & [= <- <-] & Ex & Hi & Hi0 & Hl & _)]];
    apply left_size in Hl; unfold zlen, stream, h4_encode in *; cbn in *; rewrite ?length_app, ?length_drop in *; cbn in *; lia.
Qed.

Lemma h4_progress rest pk ps x (w : W) : h4_at rest (pk :: ps) x w ->
  wp (h4_call x) (fun o w' => exists x' ps1 ps2, o = Some x' /\ pk :: ps = ps1 ++ ps2 /\ h4_at rest ps2 x' w'
    /\ delivered (trace w') = delivered (trace w) ++ ps1 /\ received fd (trace w) < received fd (trace w')) w.
Proof using Hserves Hsink. intros Hat. eapply wp_mono; [by apply h4_step|]. cbn beta. naive_solver. Qed.

(** As many calls as there are octets at most, and all the packets are handed over. *)
Lemma h4_calls rest ps x (w : W) :
  Forall fine ps -> x.1 = HCI_PACKET_TYPE_UNKNOWN -> idle x.2 -> left_of w = stream ps ++ rest ->
  exists k, Z.of_nat k <= zlen (stream ps) /\ wp (calls h4_call k x) (fun o w' => exists p', o = Some (HCI_PACKET_TYPE_UNKNOWN, p')
    /\ idle p' /\ delivered (trace w') = delivered (trace w) ++ ps /\ left_of w' = rest) w.
Proof using Hserves Hsink.
  intros Hf Ex Hidle Hl. destruct x as [ty p]. cbn [fst snd] in *. subst ty. destruct ps as [|pk ps].
  { exists 0%nat. split; [done|]. apply wp_ret. exists p. by rewrite app_nil_r. }
  destruct (calls_reach h4_call (h4_at rest) (zlen s - zlen rest) (h4_bound rest) (h4_progress rest) (pk :: ps) (HCI_PACKET_TYPE_UNKNOWN, p) w) as (k & Hk & Hwp).
  { split; [done|]. left. by split_and!. }
  exists k. split.
  - apply left_size in Hl; unfold zlen, stream, h4_encode in *; cbn in *; rewrite ?length_app in *; cbn in *; lia.
  - eapply wp_mono; [exact Hwp|]. cbn beta. intros o w' ([ty p1] & -> & [_ [(E1 & E2 & E3)|(? & ? & ? & ? & _)]] & Hd); [|done].
    cbn [fst snd] in *. subst ty. by exists p1.
Qed.

Lemma calls_app {X} (call : X -> IO (option X)) k1 k2 x Q (w : W) :
  wp (calls call k1 x) (fun o w' => match o with Some x' => wp (calls call k2 x') Q w' | None => Q None w' end) w ->
  wp (calls call (k1 + k2) x) Q w.
Proof.
  revert x w. induction k1 as [|k1 IH]; intros x w; [done|]. cbn [calls plus]. unfold attempt, wp, io_bind.
  destruct (call x w) as [[[x'|] w1]|]; [|done|done]. apply IH.
Qed.

(** A packet with an empty payload: its header is taken, and the next call reads no octets from the driver, which is
    the end of the process. *)
Lemma h4_empty_payload ty body rest i p (w : W) :
  (forall tr, rv (answer tr (Cread fd 0)) <= 0) -> received_type ty -> body_of ty 0 body -> partial ty body rest i p w ->
  exists k, wp (calls h4_call k (ty, p)) (fun o w' => o = None /\ delivered (trace w') = delivered (trace w)) w.
Proof using Hserves.
  intros H0 Hty Hb. destruct (header_facts _ Hty) as [Hsz Hh]. remember (Z.to_nat (zlen body - i)) as m eqn:Em.
  revert i p w Em. induction (lt_wf m) as [m _ IH]. intros i p w -> Hp. destruct (Z.eq_dec i (zlen body)) as [->|Hne].
  - exists 1%nat. apply wp_attempt. rewrite h4_call_packet by done. apply wp_attempt. unfold OnDataReady. apply wp_bind.
    eapply wp_lift; [exact Hsz|]. destruct Hb as [Hz _]. destruct Hp as (_ & _ & _ & Hst). destruct (state_ p); [lia|].
    destruct Hst as (_ & _ & -> & _). rewrite Z.sub_diag. apply wp_bind, sys_eq. intros r ->.
    rewrite (proj2 (Z.leb_le _ _)) by apply H0. apply wp_ret. split; [done|].
    cbn [trace]. rewrite delivered_app. cbn. by rewrite app_nil_r.
  - assert (i < zlen body) as Hi by (destruct Hp; lia).
    assert (wp (h4_call (ty, p)) (fun o w' => exists j p', i < j <= zlen body /\ o = Some (ty, p') /\ partial ty body rest j p' w'
      /\ delivered (trace w') = delivered (trace w)) w) as Hcall.
    { rewrite h4_call_packet by done. apply wp_attempt.
      eapply (OnDataReady_partial ty 0 body rest i); [done|lia|done|done|done| |intros; lia].
      intros j p' w' Hij _ Hp' _ Hd _. apply wp_ret. exists j, p'. split_and!; [done|destruct Hp'; lia|done|done|done]. }
    destruct (wp_total _ _ _ Hcall) as (o & w2 & E & j & p' & Hj & -> & Hp' & Hd).
    destruct (IH (Z.to_nat (zlen body - j)) ltac:(lia) j p' w2 eq_refl Hp') as (k & Hk).
    exists (S k). cbn [calls]. apply wp_attempt. unfold wp at 1. rewrite E, <- Hd. exact Hk.
Qed.

(** Everything in front of it is handed over. *)
Lemma h4_empty_calls ps ty body rest p (w : W) :
  (forall tr, rv (answer tr (Cread fd 0)) <= 0) -> Forall fine ps -> received_type ty -> body_of ty 0 body ->
  idle p -> left_of w = stream ps ++ ty :: body ++ rest ->
  exists k, wp (calls h4_call k (HCI_PACKET_TYPE_UNKNOWN, p)) (fun o w' => o = None /\ delivered (trace w') = delivered (trace w) ++ ps) w.
Proof using Hserves Hsink.
  intros H0 Hf Hty Hb Hidle Hl.
  destruct (h4_calls (ty :: body ++ rest) ps (HCI_PACKET_TYPE_UNKNOWN, p) w) as (k1 & _ & H1); [done..|].
  destruct (wp_total _ _ _ H1) as (o & w1 & E1 & p1 & -> & Hp1 & Hd1 & Hl1).
  assert (wp (h4_call (HCI_PACKET_TYPE_UNKNOWN, p1)) (fun o w' => o = Some (ty, p1) /\ partial ty body rest 0 p1 w'
    /\ delivered (trace w') = delivered (trace w1)) w1) as H2.
  { apply (h4_type (ty, body) [] rest); [done|done|done|done|]. by intros w' Hp Hd _ _. }
  destruct (wp_total _ _ _ H2) as (o & w2 & E2 & -> & Hp2 & Hd2).
  destruct (h4_empty_payload ty body rest 0 p1 w2) as (k3 & H3); [done..|].
  exists (k1 + S k3)%nat. apply calls_app. unfold wp at 1. rewrite E1. cbn [calls]. apply wp_attempt. unfold wp at 1. rewrite E2.
  eapply wp_mono; [exact H3|]. cbn beta. intros o w3 [-> ->]. by rewrite Hd2, Hd1.
Qed.

(** An octet that is not the type of a packet is the end of the process. *)
Lemma h4_bad_type ty p rest (w : W) : idle p -> left_of w = ty :: rest -> ~ received_type ty ->
  wp (h4_call (HCI_PACKET_TYPE_UNKNOWN, p)) (fun o w' => o = None /\ delivered (trace w') = delivered (trace w)) w.
Proof using Hserves.
  intros Hidle Hl Hty. unfold h4_call, h4_OnDataReady. cbn [fst snd Z.eqb HCI_PACKET_TYPE_UNKNOWN].
  apply (read_some 1 [ty] rest); [unfold zlen; cbn; lia|exact Hl|].
  intros r m Hm Erv Edata w' _ Hd _ _. assert (m = 1) as -> by lia. rewrite Erv. cbn [Z.eqb Pos.eqb negb].
  apply wp_bind. eapply wp_lift; [rewrite Edata; reflexivity|].
  replace (_ && _ && _) with true; [by apply wp_ret|]. unfold received_type in Hty.
  destruct (Z.eqb_spec ty HCI_PACKET_TYPE_ACL_DATA), (Z.eqb_spec ty HCI_PACKET_TYPE_SCO_DATA), (Z.eqb_spec ty HCI_PACKET_TYPE_EVENT);
    done || tauto.
Qed.

(** ** A channel of MCT on a stream: packets of one type, which is not sent *)
Section Channel.
Context (ty : Z) (ready : list Z -> IO (option unit)).
Context (Hty : received_type ty).
Context (Hready : forall n body (w : W), fine (ty, body) -> body_of ty n body ->
  wp (ready body) (fun o w' => o = Some tt /\ received fd (trace w') = received fd (trace w)
     /\ delivered (trace w') = delivered (trace w) ++ [(ty, body)]) w).

Definition channel_call (p : packetizer) : IO (option packetizer) :=
  try x <- OnDataReady answer junk p fd ty ready; io_ret (Some x.1).
Definition bodies (ps : list (Z * list Z)) : list Z := concat (map snd ps).

Definition channel_at (rest : list Z) (ps : list (Z * list Z)) (p : packetizer) (w : W) : Prop :=
  Forall (fun pk => fine pk /\ pk.1 = ty) ps
  /\ match ps with
     | [] => idle p /\ left_of w = rest
     | pk :: ps => exists i, i < zlen pk.2 /\ partial ty pk.2 (bodies ps ++ rest) i p w
     end.

Lemma channel_idle rest ps p (w : W) :
  Forall (fun pk => fine pk /\ pk.1 = ty) ps -> idle p -> left_of w = bodies ps ++ rest -> channel_at rest ps p w.
Proof using Hty.
  intros Hf Hidle Hl. split; [done|]. destruct ps as [|pk ps]; [done|]. destruct (Forall_inv Hf) as [Hpk _].
  destruct (fine_size pk Hpk) as (_ & n & _ & _ & Hz). exists 0. split; [done|].
  apply idle_partial; [done|done|]. rewrite Hl. unfold bodies. cbn. by rewrite <- app_assoc.
Qed.

Lemma channel_step rest pk ps p (w : W) : channel_at rest (pk :: ps) p w ->
  wp (channel_call p) (fun o w' => exists p' ps1 ps2, o = Some p' /\ pk :: ps = ps1 ++ ps2 /\ channel_at rest ps2 p' w'
    /\ delivered (trace w') = delivered (trace w) ++ ps1 /\ received fd (trace w) < received fd (trace w')) w.
Proof using Hserves Hty Hready.
  intros [Hf (i & Hi & Hpart)]. destruct (Forall_inv Hf) as [Hpk Ety]. destruct (fine_size pk Hpk) as (_ & n & Hn & Hb & Hz).
  rewrite Ety in Hb. assert (0 <= i) by (destruct Hpart; lia). apply wp_attempt.
  eapply (OnDataReady_partial ty n pk.2 (bodies ps ++ rest) i); [done|lia|done|done|done| |].
  - intros j p' w' Hij Hj Hp' _ Hd Hr. apply wp_ret. exists p', [], (pk :: ps). rewrite app_nil_r.
    split_and!; [done|done| |done|lia]. split; [done|]. exists j. split; [lia|done].
  - intros w' _ _ Hd Hr Hl. eapply wp_mono; [eapply (Hready n); [by rewrite <- Ety, <- surjective_pairing|exact Hb]|].
    cbn beta. intros o w2 (-> & Hr2 & Hd2). exists tt. split; [done|]. intros p' Hp'. apply wp_ret.
    exists p', [pk], ps. split_and!; [done|done| |by rewrite Hd2, Hd, <- Ety, <- surjective_pairing|lia].
    apply channel_idle; [exact (Forall_inv_tail Hf)|done|]. rewrite <- Hl. unfold left_of. by rewrite Hr2.
Qed.

Lemma channel_bound rest pk ps p (w : W) : channel_at rest (pk :: ps) p w -> received fd (trace w) < zlen s - zlen rest.
Proof.
  intros [_ (i & Hi & Hi0 & Hl & _)]. apply left_size in Hl; unfold zlen in *; rewrite ?length_app, ?length_drop in *; lia.
Qed.

Lemma channel_calls rest ps p (w : W) :
  Forall (fun pk => fine pk /\ pk.1 = ty) ps -> idle p -> left_of w = bodies ps ++ rest ->
  exists k, Z.of_nat k <= zlen (bodies ps) /\ wp (calls channel_call k p) (fun o w' => exists p', o = Some p' /\ idle p'
    /\ delivered (trace w') = delivered (trace w) ++ ps /\ left_of w' = rest) w.
Proof using Hserves Hty Hready.
  intros Hf Hidle Hl. destruct ps as [|pk ps].
  { exists 0%nat. split; [done|]. apply wp_ret. exists p. by rewrite app_nil_r. }
  destruct (calls_reach channel_call (channel_at rest) (zlen s - zlen rest) (channel_bound rest) (channel_step rest) (pk :: ps) p w)
    as (k & Hk & Hwp); [by apply channel_idle|].
  destruct (fine_size pk (proj1 (Forall_inv Hf))) as (_ & _ & _ & _ & Hz). exists k. split.
  - apply left_size in Hl; unfold zlen, bodies in *; cbn in *; rewrite ?length_app in *; cbn in *; lia.
  - eapply wp_mono; [exact Hwp|]. cbn beta. intros o w' (p1 & -> & [_ [H1 H2]] & Hd). by exists p1.
Qed.
End Channel.

End Stream.

(** ** Writing *)

(** What the driver took. *)
Definition taken_of (fd : Z) (e : hcall * hresp) : list Z :=
  match e.1 with Cwrite f d => if f =? fd then take (Z.to_nat (rv e.2)) d else [] | _ => [] end.
Definition taken (fd : Z) (tr : list (hcall * hresp)) : list Z := concat (map (taken_of fd) tr).

(** How often in a row the driver was busy. *)
Definition busy_step (b : nat) (e : hcall * hresp) : nat :=
  match e.1 with
  | Cwrite _ _ | Cwritev _ _ => if (rv e.2 =? -1) && (rerrno e.2 =? EAGAIN) then S b else O
  | Cyield => b
  | _ => O
  end.
Definition busy (tr : list (hcall * hresp)) : nat := fold_left busy_step tr O.

(** [write] takes no more than it is given, and is not busy more than [patience] times in a row. *)
Record writes (answer : list (hcall * hresp) -> hcall -> hresp) (patience : nat) : Prop := {
  writes_bound tr fd d : -1 <= rv (answer tr (Cwrite fd d)) <= zlen d;
  writes_patience tr fd d : rv (answer tr (Cwrite fd d)) = -1 -> rerrno (answer tr (Cwrite fd d)) = EAGAIN ->
    (busy tr < patience)%nat
}.

(** The write that was given up. *)
Definition gave_up (answer : list (hcall * hresp) -> hcall -> hresp) (fd : Z) (tr : list (hcall * hresp)) : Prop :=
  exists tr0 d, let r := answer tr0 (Cwrite fd d) in
    tr = tr0 ++ [(Cwrite fd d, r)] /\ d <> [] /\ (rv r = 0 \/ rv r = -1 /\ rerrno r <> EAGAIN).

Section Writing.
Context (answer : list (hcall * hresp) -> hcall -> hresp) (patience : nat) (Hw : writes answer patience).
Abbreviation W := (world hci_globals hcall hresp).

Lemma busy_snoc tr e : busy (tr ++ [e]) = busy_step (busy tr) e.
Proof. unfold busy. by rewrite fold_left_app. Qed.
Lemma taken_app fd t1 t2 : taken fd (t1 ++ t2) = taken fd t1 ++ taken fd t2.
Proof. unfold taken. by rewrite map_app, concat_app. Qed.

(** A write of the octets that are left. *)
Lemma write_once fd data n len (w : W) :
  0 <= n -> n + len = zlen data -> 0 < len ->
  let d := take (Z.to_nat len) (drop (Z.to_nat n) data) in
  let r := answer (trace w) (Cwrite fd d) in
  -1 <= rv r <= len /\ taken fd [(Cwrite fd d, r)] = take (Z.to_nat (rv r)) (drop (Z.to_nat n) data).
Proof using Hw.
  intros Hn Hlen Hl d r. assert (zlen d = len) as Hd.
  { unfold d, zlen in *. rewrite length_take, length_drop. lia. }
  pose proof (writes_bound _ _ Hw (trace w) fd d) as Hr. fold r in Hr. split; [lia|].
  unfold taken, taken_of. cbn [map concat fst snd]. rewrite Z.eqb_refl, app_nil_r. fold r. unfold d. rewrite take_take. f_equal. lia.
Qed.

Lemma write_loop_correct fd data fuel n len (w : W) :
  0 <= n -> 0 <= len -> n + len = zlen data -> (busy (trace w) <= patience)%nat ->
  (S patience * Z.to_nat len <= fuel + busy (trace w))%nat ->
  wp (write_loop answer fuel fd data n len) (fun m w' => n <= m <= zlen data /\ globals w' = globals w
     /\ taken fd (trace w') = taken fd (trace w) ++ take (Z.to_nat (m - n)) (drop (Z.to_nat n) data)
     /\ (m = zlen data /\ (busy (trace w') = O \/ m = n /\ w' = w) \/ gave_up answer fd (trace w'))) w.
Proof using Hw.
  revert n len w. induction fuel as [|fuel IH]; intros n len w Hn Hl0 Hlen Hb Hf; cbn [write_loop];
    (destruct (Z.leb_spec len 0) as [Hl|Hl];
     [apply wp_ret; rewrite Z.sub_diag, app_nil_r; split_and!; [lia|lia|done|done|left; split; [lia|auto]]|]).
  { exfalso. nia. }
  destruct (write_once fd data n len w Hn Hlen Hl) as [Hr Ht]. apply wp_bind, sys_eq. intros r Er. rewrite <- Er in Hr, Ht.
  assert (take (Z.to_nat len) (drop (Z.to_nat n) data) <> []) as Hne.
  { intros E%(f_equal length). unfold zlen in *. rewrite length_take, length_drop in E. cbn in E. lia. }
  pose proof (busy_snoc (trace w) (Cwrite fd (take (Z.to_nat len) (drop (Z.to_nat n) data)), r)) as Eb. cbn [busy_step fst snd] in Eb.
  destruct (Z.eqb_spec (rv r) (-1)) as [E1|E1]; [destruct (Z.eqb_spec (rerrno r) EAGAIN) as [E2|E2]|destruct (Z.eqb_spec (rv r) 0) as [E3|E3]];
    cbn [andb] in Eb.
  - pose proof (writes_patience _ _ Hw (trace w) fd (take (Z.to_nat len) (drop (Z.to_nat n) data))) as Hp. rewrite <- Er in Hp.
    specialize (Hp E1 E2). apply wp_bind, sys_any. intros r2. cbn [trace globals]. rewrite E1 in Ht. eapply wp_mono.
    + apply IH; cbn [trace]; rewrite ?(busy_snoc (_ ++ _)), ?Eb; cbn [busy_step fst]; try done; lia.
    + cbn [trace globals]. intros m w' (H1 & H2 & H3 & H4). split_and!; [lia|lia|done| |destruct H4 as [[? [?|[? _]]]|?]; [auto|lia|auto]].
      rewrite H3, !taken_app, Ht. cbn [taken_of taken map concat fst Z.to_nat take]. by rewrite !app_nil_r.
  - apply wp_ret. rewrite Z.sub_diag. split_and!; [lia|lia|done| |].
    + cbn [trace]. by rewrite taken_app, Ht, E1.
    + right. exists (trace w), (take (Z.to_nat len) (drop (Z.to_nat n) data)). cbn [trace]. rewrite <- Er. auto.
  - apply wp_ret. rewrite Z.sub_diag. split_and!; [lia|lia|done| |].
    + cbn [trace]. by rewrite taken_app, Ht, E3.
    + right. exists (trace w), (take (Z.to_nat len) (drop (Z.to_nat n) data)). cbn [trace]. rewrite <- Er. auto.
  - eapply wp_mono.
    + apply IH; cbn [trace]; rewrite ?Eb; try lia. nia.
    + cbn [trace globals]. intros m w' (H1 & H2 & H3 & H4). split_and!; [lia|lia|done| |].
      2: { destruct H4 as [[? [?|[_ ->]]]|?]; [auto| |auto]. left. split; [done|]. left. exact Eb. }
      rewrite H3, taken_app, Ht, <- app_assoc. f_equal. rewrite <- (drop_split data n (rv r)), take_take_drop by lia. f_equal. lia.
Qed.

(** [WriteSafely] returns; the octets it counts are the ones the driver took, and it only stops early when a
    write fails or takes nothing. *)
Lemma WriteSafely_total fd data (w : W) : busy (trace w) = O ->
  wp (WriteSafely answer patience fd data) (fun m w' => 0 <= m <= zlen data /\ globals w' = globals w
     /\ taken fd (trace w') = taken fd (trace w) ++ take (Z.to_nat m) data
     /\ (m = zlen data /\ busy (trace w') = O \/ gave_up answer fd (trace w'))) w.
Proof using Hw.
  intros Hb. eapply wp_mono.
  - apply write_loop_correct; [lia|unfold zlen; lia|lia|lia|]. rewrite Hb. unfold zlen. lia.
  - cbn beta. intros m w'. rewrite Z.sub_0_r. intros (H1 & H2 & H3 & H4). split_and!; [lia|lia|done|done|].
    destruct H4 as [[? [?|[_ ->]]]|?]; auto.
Qed.

(** The packets of [ps] are sent, one after the other. *)
Fixpoint send_all (fd : Z) (ps : list (Z * list Z)) : io hci_globals hcall hresp unit :=
  match ps with
  | [] => io_ret tt
  | pk :: ps => do _ <- h4_Send answer patience fd pk.1 pk.2; send_all fd ps
  end.

(** A driver that takes something when it is not busy. *)
Definition never_fails (fd : Z) : Prop :=
  forall tr d, d <> [] -> let r := answer tr (Cwrite fd d) in rv r <> 0 /\ (rv r = -1 -> rerrno r = EAGAIN).

Lemma send_all_correct fd ps (w : W) : never_fails fd -> busy (trace w) = O ->
  wp (send_all fd ps) (fun _ w' => taken fd (trace w') = taken fd (trace w) ++ concat (map h4_encode ps)) w.
Proof using Hw.
  intros Hnf. revert w. induction ps as [|pk ps IH]; intros w Hb; cbn [send_all map concat].
  - apply wp_ret. by rewrite app_nil_r.
  - apply wp_bind. eapply wp_mono; [by apply WriteSafely_total|]. cbn beta. intros m w' (Hm & _ & Ht & Hend).
    destruct Hend as [[-> Hb']|(tr0 & d & _ & Hd & Hr)].
    + eapply wp_mono; [by apply IH|]. cbn beta. intros _ w2 ->. rewrite Ht, <- app_assoc, take_ge; [done|].
      unfold zlen. rewrite Nat2Z.id. done.
    + exfalso. destruct (Hnf tr0 d Hd) as [H1 H2]. destruct Hr as [?|[? ?]]; [done|]. auto.
Qed.

(** Everything transmitted at once: [WritevSafely] then looks at the buffers behind the last one. *)
Lemma consume_all iov ret : zlen (concat iov) <= ret -> consume iov ret = None.
Proof.
  revert ret. induction iov as [|v iov IH]; intros ret H; [done|]. cbn in H. unfold zlen in H. rewrite length_app in H.
  cbn [consume]. rewrite (proj2 (Z.leb_le _ _)) by (unfold zlen; lia). apply IH. unfold zlen. lia.
Qed.

Lemma WritevSafely_overrun fd iov (w : W) :
  fd <> -1 -> concat iov <> [] -> rv (answer (trace w) (Cwritev fd iov)) = zlen (concat iov) ->
  WritevSafely answer patience fd (Some iov) w = None.
Proof.
  intros Hfd Hne Hr. unfold WritevSafely. rewrite (proj2 (Z.eqb_neq (-1) fd)) by auto.
  assert (0 < length (concat iov))%nat as Hl by (destruct (concat iov); [done|cbn; lia]).
  destruct iov as [|v iov]; [done|]. destruct (S patience * length (concat (v :: iov)))%nat as [|fuel] eqn:Ef; [lia|].
  cbn [writev_loop]. unfold io_bind. unfold io_call. cbn [zlen length]. rewrite (proj2 (Z.leb_gt _ _)) by (unfold zlen; cbn; lia).
  rewrite Hr. unfold zlen at 1 2. rewrite (proj2 (Z.eqb_neq _ _)), (proj2 (Z.eqb_neq _ _)) by lia.
  unfold lift. by rewrite consume_all by lia.
Qed.
End Writing.



(** ** A driver, for examples: three octets at a time are read from [s], two at a time are taken, and what the HAL
    needs to start is there *)
Definition driver (fd : Z) (s : list Z) (tr : list (hcall * hresp)) (c : hcall) : hresp :=
  match c with
  | Cread f n =>
      let k := Z.max 0 (Z.min (Z.min n 3) (zlen s - received fd tr)) in
      mk_hresp k 0 (take (Z.to_nat k) (drop (Z.to_nat (received fd tr)) s))
  | Cwrite _ d => mk_hresp (Z.min 2 (zlen d)) 0 []
  | Cselect _ _ => mk_hresp 1 0 [fd]
  | Cdlopen => mk_hresp 100 0 []
  | Cdlsym _ => mk_hresp 200 0 []
  | Clib_op Userial_open => mk_hresp 1 0 [fd]
  | Cpipe2 => mk_hresp 0 0 [8; 9]
  | _ => mk_hresp 0 0 []
  end.

Lemma driver_serves fd s : serves (driver fd s) fd s.
Proof. intros tr n Hn Hr. cbn [driver rv rdata]. pose proof (received_nonneg fd tr). eexists. split_and!; [| | |reflexivity|reflexivity]; lia. Qed.

Lemma driver_writes fd s patience : writes (driver fd s) patience.
Proof. split; cbn; intros; unfold zlen in *; lia. Qed.

Lemma driver_never_fails fd s fd' : never_fails (driver fd s) fd'.
Proof. intros tr d Hd. cbn. destruct d; [done|]. unfold zlen. cbn [length]. split; [lia|intros; lia]. Qed.

(** The client itself takes the events. *)
Definition to_client (answer : list (hcall * hresp) -> hcall -> hresp) (packet : list Z) : io hci_globals hcall hresp unit :=
  do _ <- io_call answer (Cevent_received packet); io_ret tt.
#[export] Instance to_client_sink answer fd : EventSink fd (to_client answer) (fun _ => True).
Proof.
  intros n body w _ _. unfold to_client. apply wp_bind, sys_any. intros r. apply wp_ret. cbn [globals trace].
  by rewrite received_app, delivered_app, Z.add_0_r.
Qed.

(** A command complete event, two octets of data, and an event of two octets. *)
Definition example_packets : list (Z * list Z) :=
  [(HCI_PACKET_TYPE_EVENT, [0x0E; 4; 1; 3; 12; 0]); (HCI_PACKET_TYPE_ACL_DATA, [1; 32; 2; 0; 7; 8]);
   (HCI_PACKET_TYPE_EVENT, [0x13; 2; 5; 6])].

(** ** Properties *)


Lemma example_packets_fine : Forall (fine (fun _ => True)) example_packets.
Proof.
  repeat constructor; cbn [fst snd]; unfold received_type, packet_ok; auto; [exists 4|exists 2|exists 2]; vm_compute; done.
Qed.


(** [Send] of H4 returns; the number it returns is that of the octets the driver took, the type included, and it is only
    less than all of them when a write failed or took nothing. *)
Theorem h4_Send_terminates (answer : list (hcall * hresp) -> hcall -> hresp) (patience : nat) uart_fd type data w :
  writes answer patience -> busy (trace w) = O ->
  wp (h4_Send answer patience uart_fd type data) (fun n w' =>
    0 <= n <= zlen data + 1 /\ globals w' = globals w
    /\ taken uart_fd (trace w') = taken uart_fd (trace w) ++ take (Z.to_nat n) (h4_encode (type, data))
    /\ (n < zlen data + 1 -> gave_up answer uart_fd (trace w'))) w.
Proof.
  intros Hw Hb. eapply wp_mono; [by apply WriteSafely_total|]. cbn beta. intros n w' (Hn & Hg & Ht & Hend).
  assert (zlen (type :: data) = zlen data + 1) as E by (unfold zlen; cbn [length]; lia). rewrite E in *.
  split_and!; [lia|lia|done|exact Ht|]. intros Hlt. destruct Hend as [[? _]|?]; [lia|done].
Qed.

Lemma h4_Send_terminates_witness :
  busy (@nil (hcall * hresp)) = O /\
  wp (h4_Send (driver 5 []) 0 5 1 [3; 12; 0]) (fun n w' => 0 <= n <= zlen [3; 12; 0] + 1 /\ globals w' = globals0
    /\ taken 5 (trace w') = [] ++ take (Z.to_nat n) (h4_encode (1, [3; 12; 0]))
    /\ (n < zlen [3; 12; 0] + 1 -> gave_up (driver 5 []) 5 (trace w'))) (World globals0 []).
Proof. split; [reflexivity|]. apply (h4_Send_terminates (driver 5 []) 0 5 1 [3; 12; 0] (World globals0 [])); [apply driver_writes|reflexivity]. Defined.

(** A packet without a payload ends the process, after everything in front of it was handed over. *)
Theorem h4_empty_payload_aborts (answer : list (hcall * hresp) -> hcall -> hresp) (junk fd : Z) s
    (event_cb_ : list Z -> io hci_globals hcall hresp unit) (good : list Z -> Prop) ps ty header rest p w :
  serves answer fd s -> EventSink fd event_cb_ good ->
  (forall tr, rv (answer tr (Cread fd 0)) = 0) ->
  Forall (fine good) ps -> received_type ty -> body_of ty 0 header -> idle p ->
  left_of fd s w = stream ps ++ h4_encode (ty, header) ++ rest ->
  exists k, wp (calls (h4_call answer junk fd event_cb_) k (HCI_PACKET_TYPE_UNKNOWN, p)) (fun o w' =>
    o = None /\ delivered (trace w') = delivered (trace w) ++ ps) w.
Proof.
  intros Hs Hsink H0 Hf Hty Hb Hp Hl. eapply (h4_empty_calls answer junk fd s Hs event_cb_ good ps ty header rest); try done.
  intros tr. by rewrite H0.
Qed.

(** A data packet without data. *)
Definition example_empty : Z * list Z := (HCI_PACKET_TYPE_ACL_DATA, [1; 32; 0; 0]).

Lemma driver_no_octets fd s tr : rv (driver fd s tr (Cread fd 0)) = 0.
Proof. cbn [driver rv]. lia. Qed.

Lemma h4_empty_payload_aborts_witness :
  let s := stream example_packets ++ h4_encode example_empty ++ [4] in
  serves (driver 7 s) 7 s /\
  exists k, wp (calls (h4_call (driver 7 s) 0 7 (to_client (driver 7 s))) k (HCI_PACKET_TYPE_UNKNOWN, packetizer0)) (fun o w' =>
    o = None /\ delivered (trace w') = [] ++ example_packets) (World globals0 []).
Proof.
  set (s := stream example_packets ++ h4_encode example_empty ++ [4]). split; [apply driver_serves|].
  apply (h4_empty_payload_aborts (driver 7 s) 0 7 s (to_client (driver 7 s)) (fun _ => True) example_packets
    HCI_PACKET_TYPE_ACL_DATA [1; 32; 0; 0] [4] packetizer0 (World globals0 [])).
  - apply driver_serves.
  - apply to_client_sink.
  - intros tr. apply driver_no_octets.
  - apply example_packets_fine.
  - by left.
  - split; reflexivity.
  - by split_and!.
  - reflexivity.
Defined.

(** A channel of MCT hands over exactly the packets of its stream. *)
Theorem mct_reassembly (answer : list (hcall * hresp) -> hcall -> hresp) (junk fd : Z) s
    (event_cb_ : list Z -> io hci_globals hcall hresp unit) (good : list Z -> Prop) ty ps rest p w :
  serves answer fd s -> EventSink fd event_cb_ good ->
  ty = HCI_PACKET_TYPE_EVENT \/ ty = HCI_PACKET_TYPE_ACL_DATA ->
  Forall (fun pk => fine good pk /\ pk.1 = ty) ps -> idle p -> left_of fd s w = bodies ps ++ rest ->
  exists k, Z.of_nat k <= zlen (bodies ps) /\
    wp (calls (fun p => if ty =? HCI_PACKET_TYPE_EVENT then OnEventDataReady answer junk event_cb_ p fd
                        else OnAclDataReady answer junk p fd) k p) (fun o w' =>
      exists p', o = Some p' /\ idle p' /\ delivered (trace w') = delivered (trace w) ++ ps /\ left_of fd s w' = rest) w.
Proof.
  intros Hs Hsink [-> | ->] Hf Hp Hl; cbn [Z.eqb Pos.eqb HCI_PACKET_TYPE_EVENT HCI_PACKET_TYPE_ACL_DATA].
  - apply (channel_calls answer junk fd s Hs good HCI_PACKET_TYPE_EVENT (OnEventPacketReady event_cb_)); [right; by right| |done..].
    intros n body w1 [_ Hg] Hb. apply wp_bind. eapply wp_mono; [exact (Hsink n body w1 Hb (Hg eq_refl))|].
    cbn beta. intros _ w2 (H1 & H2 & _). by apply wp_ret.
  - apply (channel_calls answer junk fd s Hs good HCI_PACKET_TYPE_ACL_DATA (OnAclDataPacketReady answer)); [by left| |done..].
    intros n body w1 _ Hb. apply wp_bind, sys_any. intros r. apply wp_ret. cbn [trace].
    by rewrite received_app, delivered_app, Z.add_0_r.
Qed.

Lemma mct_reassembly_witness :
  let ps := [(HCI_PACKET_TYPE_EVENT, [0x0E; 4; 1; 3; 12; 0]); (HCI_PACKET_TYPE_EVENT, [0x13; 2; 5; 6])] in
  exists k, Z.of_nat k <= zlen (bodies ps) /\
    wp (calls (fun p => OnEventDataReady (driver 7 (bodies ps)) 0 (to_client (driver 7 (bodies ps))) p 7) k packetizer0)
      (fun o w' => exists p', o = Some p' /\ idle p' /\ delivered (trace w') = [] ++ ps /\ left_of 7 (bodies ps) w' = [])
      (World globals0 []).
Proof.
  set (ps := [(HCI_PACKET_TYPE_EVENT, [0x0E; 4; 1; 3; 12; 0]); (HCI_PACKET_TYPE_EVENT, [0x13; 2; 5; 6])]).
  apply (mct_reassembly (driver 7 (bodies ps)) 0 7 (bodies ps) (to_client (driver 7 (bodies ps))) (fun _ => True)
    HCI_PACKET_TYPE_EVENT ps [] packetizer0 (World globals0 [])).
  - apply driver_serves.
  - apply to_client_sink.
  - by left.
  - repeat constructor; cbn [fst snd]; unfold received_type; auto; [exists 4|exists 2]; vm_compute; done.
  - by split_and!.
  - reflexivity.
Defined.
