(* ===== verification/HciWatcher.v ===== *)
(** The thread that waits for descriptors (src/mediatek/bluetooth/interface/async_fd_watcher.cc). *)
From Stdlib Require Import List.
From stdpp Require Import gmap.
From S2P Require Import Prelude Effects HciState.

(** The descriptors that [FD_SET] takes. *)
Definition FD_SETSIZE : Z := 1024.
Definition fd_ok (fd : Z) : bool := (0 <=? fd) && (fd <? FD_SETSIZE).

(** [watched_fds_[fd] = cb]. *)
Fixpoint watch_fd (fd : Z) (cb : read_callback) (l : list (Z * read_callback)) : list (Z * read_callback) :=
  match l with
  | [] => [(fd, cb)]
  | e :: l' => if fd =? e.1 then (fd, cb) :: l' else if fd <? e.1 then (fd, cb) :: l else e :: watch_fd fd cb l'
  end.

Section Watcher.
Context (answer : list (hcall * hresp) -> hcall -> hresp).
Abbreviation IO := (io hci_globals hcall hresp).
Abbreviation sys := (io_call answer).

(** [*this] of a method of [VendorInterface], and its watcher. *)
Definition the_vi : IO vendor_interface := do s <- io_get; lift (g_vendor_interface s).
Definition mod_vi (f : vendor_interface -> vendor_interface) : IO unit :=
  io_mod (fun s => with_interface s (f <$> g_vendor_interface s)).
Definition the_watcher : IO fd_watcher := do v <- the_vi; io_ret (fd_watcher_ v).
Definition mod_watcher (f : fd_watcher -> fd_watcher) : IO unit := mod_vi (fun v => with_watcher (f (fd_watcher_ v)) v).

(** A [std::mutex] must not be locked by the thread that owns it. *)
Definition lock_internal : IO unit :=
  do w <- the_watcher; if internal_mutex_ w then undefined else mod_watcher (with_internal_mutex true).
Definition unlock_internal : IO unit := mod_watcher (with_internal_mutex false).
Definition lock_timeout : IO unit :=
  do w <- the_watcher; if timeout_mutex_ w then undefined else mod_watcher (with_timeout_mutex true).
Definition unlock_timeout : IO unit := mod_watcher (with_timeout_mutex false).

Definition notifyThread : IO Z :=
  do w <- the_watcher;
  do r <- sys (Cnotify (notification_write_fd_ w));
  if rv r <? 0 then io_ret (-1) else io_ret 0.

(** The constructor of [std::thread] throws when there is no thread; assigning to a thread that is joinable is
    the end of the process. *)
Definition tryStartThread : IO (option Z) :=
  do w <- the_watcher;
  do _ <- mod_watcher (with_running true);
  if running_ w then io_ret (Some 0)
  else
    do r <- sys Cpipe2;
    if negb (rv r =? 0) then io_ret (Some (-1))
    else
      do listen <- lift (aget (rdata r) 0);
      do write <- lift (aget (rdata r) 1);
      do _ <- mod_watcher (with_pipe listen write);
      do t <- sys Cstart_thread;
      if negb (rv t =? 0) || thread_ w then abort
      else do _ <- mod_watcher (with_thread true); io_ret (Some 0).

(** [self]: the calling thread is the one of the watcher. [join] throws when there is no thread. *)
Definition stopThread (self : bool) : IO (option Z) :=
  do w <- the_watcher;
  do _ <- mod_watcher (with_running false);
  if negb (running_ w) then io_ret (Some 0)
  else
    do _ <- notifyThread;
    try _ <- (if self then io_ret (Some tt)
              else if thread_ w then do _ <- sys Cjoin; do _ <- mod_watcher (with_thread false); io_ret (Some tt)
              else abort);
    do _ <- lock_internal;
    do _ <- mod_watcher (with_watched []);
    do _ <- unlock_internal;
    do _ <- lock_timeout;
    do _ <- mod_watcher (fun w => with_timeout None (timeout_ms_ w) w);
    do _ <- unlock_timeout;
    do w <- the_watcher;
    do _ <- sys (Cclose (notification_listen_fd_ w));
    do _ <- sys (Cclose (notification_write_fd_ w));
    io_ret (Some 0).

Definition WatchFdForNonBlockingReads (file_descriptor : Z) (on_read_fd_ready_callback : read_callback) : IO (option Z) :=
  do _ <- lock_internal;
  do _ <- mod_watcher (fun w => with_watched (watch_fd file_descriptor on_read_fd_ready_callback (watched_fds_ w)) w);
  do _ <- unlock_internal;
  tryStartThread.

Definition ConfigureTimeout (timeout : Z) (on_timeout_callback : timeout_callback) : IO Z :=
  do _ <- lock_timeout;
  do _ <- mod_watcher (with_timeout (Some on_timeout_callback) timeout);
  do _ <- unlock_timeout;
  do _ <- notifyThread;
  io_ret 0.

Definition StopWatchingFileDescriptors (self : bool) : IO (option unit) := try _ <- stopThread self; io_ret (Some tt).

(** ** The thread: one round of the loop of [ThreadRoutine] *)
Context (read_ready : read_callback -> Z -> IO (option unit)) (time_over : timeout_callback -> IO (option unit)).

(** The callbacks of the descriptors that can be read. *)
Fixpoint ready_callbacks (l : list (Z * read_callback)) (read_fds : list Z) : IO (option unit) :=
  match l with
  | [] => io_ret (Some tt)
  | it :: l => try _ <- (if bool_decide (it.1 ∈ read_fds) then read_ready it.2 it.1 else io_ret (Some tt)); ready_callbacks l read_fds
  end.

Definition thread_round : IO (option unit) :=
  do w <- the_watcher;
  let fds := notification_listen_fd_ w :: map fst (watched_fds_ w) in
  if negb (forallb fd_ok fds) then undefined
  else
    do r <- sys (Cselect fds (if 0 <? timeout_ms_ w then timeout_ms_ w else 0));
    if rv r <? 0 then io_ret (Some tt)
    else if rv r =? 0 then
      do _ <- lock_timeout;
      do w <- the_watcher;
      do _ <- unlock_timeout;
      match (if 0 <? timeout_ms_ w then timeout_cb_ w else None) with
      | Some saved_cb => time_over saved_cb
      | None => io_ret (Some tt)
      end
    else if bool_decide (notification_listen_fd_ w ∈ rdata r) then
      do _ <- sys (Cdrain (notification_listen_fd_ w)); io_ret (Some tt)
    else
      do _ <- lock_internal;
      do w <- the_watcher;
      try _ <- ready_callbacks (watched_fds_ w) (rdata r);
      do _ <- unlock_internal;
      io_ret (Some tt).

(** [while (running_)]: whether there was a round. The other threads run between the rounds. *)
Definition ThreadRoutine_step : IO (option bool) :=
  do w <- the_watcher;
  if negb (running_ w) then io_ret (Some false) else try _ <- thread_round; io_ret (Some true).
End Watcher.
