(* ===== verification/HciVendor.v ===== *)
(** The vendor interface and the object of the Bluetooth HAL
    (src/mediatek/bluetooth/interface: vendor_interface.cc, bluetooth_hci.cc). *)
From Stdlib Require Import List.
From stdpp Require Import gmap.
From S2P Require Import Prelude Effects HciState HciPacket HciWatcher.

(** ** The packets of the vendor library *)
Definition u16 (z : Z) : Z := wrapu 16 z.

Definition WrapPacketAndCopy (event : Z) (data : list Z) : HC_BT_HDR := mk_hdr event (u16 (zlen data)) 0 0 data.

(** [None]: it reads behind the packet. *)
Definition internal_command_event_match (opcode : Z) (packet : list Z) : option bool :=
  event_code ← aget packet 0;
  if negb (event_code =? HCI_COMMAND_COMPLETE_EVENT) then Some false
  else
    let opcode_offset := HCI_EVENT_PREAMBLE_SIZE + 1 in
    lo ← aget packet opcode_offset; hi ← aget packet (opcode_offset + 1);
    Some (u16 (lo .| (hi ≪ 8)) =? opcode).

Definition HCI_DATA_TYPE_COMMAND : Z := 1.
Definition HCI_DATA_TYPE_ACL : Z := 2.
Definition HCI_DATA_TYPE_SCO : Z := 3.

Section Vendor.
Context (answer : list (hcall * hresp) -> hcall -> hresp) (junk : Z) (patience : nat).
Abbreviation IO := (io hci_globals hcall hresp).
Abbreviation sys := (io_call answer).

(** [lib_interface_->op] *)
Definition lib_op (op : vendor_op) : IO hresp :=
  do v <- the_vi; if lib_interface_ v =? 0 then undefined else sys (Clib_op op).

(** ** VendorInterface *)
Definition OnTimeout : IO (option unit) :=
  do s <- io_get;
  do _ <- (if negb (recent_activity_flag s) then
             do _ <- io_mod (fun s => with_deasserted s true);
             do _ <- lib_op (Lpm_wake_set_state false);
             do _ <- ConfigureTimeout answer 0 Never_happens;
             io_ret tt
           else io_ret tt);
  do _ <- io_mod (fun s => with_activity s false);
  io_ret (Some tt).

Definition Send (type : Z) (data : list Z) : IO (option Z) :=
  do _ <- io_mod (fun s => with_activity s true);
  do s <- io_get;
  do _ <- (if lpm_wake_deasserted s then
             do _ <- ConfigureTimeout answer (lpm_timeout_ms s) On_timeout;
             do _ <- io_mod (fun s => with_deasserted s false);
             do _ <- lib_op (Lpm_wake_set_state true);
             io_ret tt
           else io_ret tt);
  do v <- the_vi;
  match hci_ v with
  | None => undefined
  | Some (H4Protocol uart_fd_ _ _) => do n <- h4_Send answer patience uart_fd_ type data; io_ret (Some n)
  | Some (MctProtocol uart_fds_ _ _) => mct_Send answer patience uart_fds_ type data
  end.

Definition OnFirmwareConfigured (result : Z) : IO (option unit) :=
  do v <- the_vi;
  do _ <- mod_vi (with_timer false);
  do _ <- (if initialize_complete_cb_ v then
             do _ <- sys (Cinitialization_complete (result =? 0));
             mod_vi (with_complete_cb false)
           else io_ret tt);
  do t <- lib_op Get_lpm_idle_timeout;
  do _ <- io_mod (fun s => match rdata t with ms :: _ => with_lpm_timeout s ms | [] => s end);
  do _ <- lib_op (Lpm_set_mode true);
  do s <- io_get;
  do _ <- ConfigureTimeout answer (lpm_timeout_ms s) On_timeout;
  io_ret (Some tt).

Definition HandleIncomingEvent (hci_packet : list Z) : IO unit :=
  do s <- io_get;
  do mine <- lift (if internal_cb s =? 0 then Some false else internal_command_event_match (internal_opcode s) hci_packet);
  if mine then
    do _ <- io_mod (fun s => with_command s 0 (internal_opcode s));
    do _ <- sys (Ccommand_cback (internal_cb s) (WrapPacketAndCopy HCI_PACKET_TYPE_EVENT hci_packet));
    io_ret tt
  else do _ <- sys (Cevent_received hci_packet); io_ret tt.

(** The callbacks of the watcher. *)
Definition read_ready (cb : read_callback) (fd : Z) : IO (option unit) :=
  do v <- the_vi;
  match cb, hci_ v with
  | H4_OnDataReady, Some (H4Protocol uart_fd_ ty p) =>
      try x <- h4_OnDataReady answer junk HandleIncomingEvent ty p fd;
      do _ <- mod_vi (with_hci (Some (H4Protocol uart_fd_ x.1 x.2))); io_ret (Some tt)
  | Mct_OnEventDataReady, Some (MctProtocol uart_fds_ ev acl) =>
      try ev <- OnEventDataReady answer junk HandleIncomingEvent ev fd;
      do _ <- mod_vi (with_hci (Some (MctProtocol uart_fds_ ev acl))); io_ret (Some tt)
  | Mct_OnAclDataReady, Some (MctProtocol uart_fds_ ev acl) =>
      try acl <- OnAclDataReady answer junk acl fd;
      do _ <- mod_vi (with_hci (Some (MctProtocol uart_fds_ ev acl))); io_ret (Some tt)
  | _, _ => undefined
  end.
Definition time_over (cb : timeout_callback) : IO (option unit) :=
  match cb with On_timeout => OnTimeout | Never_happens => io_ret (Some tt) end.

(** The protocol and its descriptors; [false]: one of them is invalid. *)
Definition open_protocol (fd_count : Z) (fd_list : list Z) : IO (option unit) :=
  if fd_count =? 1 then
    do fd <- lift (aget fd_list 0);
    try _ <- WatchFdForNonBlockingReads answer fd H4_OnDataReady;
    do _ <- mod_vi (with_hci (Some (H4Protocol fd HCI_PACKET_TYPE_UNKNOWN packetizer0))); io_ret (Some tt)
  else
    do evt <- lift (aget fd_list CH_EVT);
    try _ <- WatchFdForNonBlockingReads answer evt Mct_OnEventDataReady;
    do acl_in <- lift (aget fd_list CH_ACL_IN);
    try _ <- WatchFdForNonBlockingReads answer acl_in Mct_OnAclDataReady;
    do _ <- mod_vi (with_hci (Some (MctProtocol fd_list packetizer0 packetizer0))); io_ret (Some tt).

Definition Open : IO (option bool) :=
  do _ <- mod_vi (with_complete_cb true);
  do h <- sys Cdlopen;
  do _ <- mod_vi (with_lib (rv h) 0);
  if rv h =? 0 then io_ret (Some false)
  else
    do i <- sys (Cdlsym (rv h));
    do _ <- mod_vi (with_lib (rv h) (rv i));
    if rv i =? 0 then io_ret (Some false)
    else
      do status <- sys Clib_init;
      if negb (rv status =? 0) then io_ret (Some false)
      else
        do _ <- lib_op (Power_ctrl true);
        do r <- lib_op Userial_open;
        do fd_list <- lift (store (repeat 0 (Z.to_nat CH_MAX)) 0 (rdata r));
        let fd_count := rv r in
        if (fd_count <? 1) || (CH_MAX - 1 <? fd_count) then io_ret (Some false)
        else if existsb (fun fd => fd =? INVALID_FD) (take (Z.to_nat fd_count) fd_list) then io_ret (Some false)
        else
          try _ <- open_protocol fd_count fd_list;
          do _ <- io_mod (fun s => with_deasserted s true);
          do _ <- mod_vi (with_timer true);
          do _ <- lib_op Fw_cfg;
          io_ret (Some true).

Definition Close (self : bool) : IO (option unit) :=
  do v <- the_vi;
  do _ <- (if negb (lib_interface_ v =? 0) then do _ <- lib_op (Lpm_set_mode false); io_ret tt else io_ret tt);
  try _ <- StopWatchingFileDescriptors answer self;
  do _ <- mod_vi (with_hci None);
  do _ <- (if negb (lib_interface_ v =? 0) then
             do _ <- lib_op Userial_close;
             do _ <- lib_op (Power_ctrl false);
             do _ <- sys Clib_cleanup;
             io_ret tt
           else io_ret tt);
  do _ <- (if negb (lib_handle_ v =? 0) then
             do _ <- sys (Cdlclose (lib_handle_ v));
             mod_vi (fun v => with_lib 0 (lib_interface_ v) v)
           else io_ret tt);
  do _ <- mod_vi (with_timer false);
  io_ret (Some tt).

Definition Initialize : IO (option bool) :=
  do s <- io_get;
  match g_vendor_interface s with
  | Some _ => io_ret (Some false)
  | None => do _ <- io_mod (fun s => with_interface s (Some vendor_interface0)); Open
  end.

(** Deleting the watcher while its thread is joinable is the end of the process. *)
Definition Shutdown (self : bool) : IO (option unit) :=
  do s <- io_get;
  match g_vendor_interface s with
  | None => abort
  | Some _ =>
      try _ <- Close self;
      do w <- the_watcher;
      if thread_ w then abort
      else do _ <- io_mod (fun s => with_interface s None); io_ret (Some tt)
  end.

(** ** The callbacks of the vendor library *)
Definition transmit_cb (opcode : Z) (buffer : HC_BT_HDR) (callback : Z) : IO (option bool) :=
  do _ <- io_mod (fun s => with_command s callback opcode);
  do data <- lift (if hdr_len buffer <=? zlen (hdr_data buffer) then Some (take (Z.to_nat (hdr_len buffer)) (hdr_data buffer)) else None);
  try _ <- Send HCI_PACKET_TYPE_COMMAND data;
  io_ret (Some true).
Definition firmware_config_cb (result : Z) : IO (option unit) := OnFirmwareConfigured (result mod 256).

(** ** BluetoothHci *)
Definition initialize (cb : bool) : IO (option unit) :=
  if negb cb then io_ret (Some tt)
  else
    do _ <- io_mod (fun s => with_client s (unlink_cb_ s) false);
    do _ <- sys Clink_to_death;
    try rc <- Initialize;
    do _ <- (if negb rc then do _ <- sys (Cinitialization_complete false); io_ret tt else io_ret tt);
    do _ <- io_mod (fun s => with_client s true (has_died_ s));
    io_ret (Some tt).

Definition close (self : bool) : IO (option unit) :=
  do s <- io_get;
  if negb (unlink_cb_ s) then abort
  else
    do _ <- (if has_died_ s then io_ret tt else do _ <- sys Cunlink_to_death; io_ret tt);
    Shutdown self.

(** BluetoothDeathRecipient::serviceDied *)
Definition serviceDied : IO (option unit) :=
  do _ <- io_mod (fun s => with_client s (unlink_cb_ s) true); close false.

Definition sendDataToController (type : Z) (data : list Z) : IO (option unit) := try _ <- Send type data; io_ret (Some tt).
Definition sendHciCommand (command : list Z) : IO (option unit) := sendDataToController HCI_DATA_TYPE_COMMAND command.
Definition sendAclData (data : list Z) : IO (option unit) := sendDataToController HCI_DATA_TYPE_ACL data.
Definition sendScoData (data : list Z) : IO (option unit) := sendDataToController HCI_DATA_TYPE_SCO data.

(** ** Everything the HAL does: the calls of its client and of the vendor library, and the rounds of its thread *)
Inductive hal_op :=
  | Op_initialize (cb : bool)
  | Op_close
  | Op_serviceDied
  | Op_sendHciCommand (command : list Z)
  | Op_sendAclData (data : list Z)
  | Op_sendScoData (data : list Z)
  | Op_transmit (opcode : Z) (buffer : HC_BT_HDR) (callback : Z)
  | Op_firmware_config (result : Z)
  | Op_thread.

Definition hal_step (op : hal_op) : IO (option unit) :=
  match op with
  | Op_initialize cb => initialize cb
  | Op_close => close false
  | Op_serviceDied => serviceDied
  | Op_sendHciCommand c => sendHciCommand c
  | Op_sendAclData d => sendAclData d
  | Op_sendScoData d => sendScoData d
  | Op_transmit o b c => try _ <- transmit_cb o b c; io_ret (Some tt)
  | Op_firmware_config r => firmware_config_cb r
  | Op_thread => try _ <- ThreadRoutine_step answer read_ready time_over; io_ret (Some tt)
  end.
Fixpoint hal_run (ops : list hal_op) : IO (option unit) :=
  match ops with [] => io_ret (Some tt) | op :: ops => try _ <- hal_step op; hal_run ops end.
End Vendor.
