(* ===== verification/HciWake.v ===== *)
(** The Bluetooth HAL keeps the controller awake while something is sent to it. *)
From Stdlib Require Import List.
From stdpp Require Import gmap.
From S2P Require Import Prelude Effects HciState HciPacket HciWatcher HciVendor.

Abbreviation W := (world hci_globals hcall hresp).

(** ** The wake line

    [Some awake], or [None] once something was written to a controller that may be asleep, or the line was asserted
    twice. Configuring the firmware begins with the line released. *)
Definition wake_step (st : option bool) (e : hcall * hresp) : option bool :=
  match st, e.1 with
  | None, _ => None
  | Some awake, Clib_op (Lpm_wake_set_state true) => if awake then None else Some true
  | Some _, Clib_op (Lpm_wake_set_state false) => Some false
  | Some _, Clib_op Fw_cfg => Some false
  | Some awake, Cwrite _ _ => if awake then Some true else None
  | Some awake, _ => Some awake
  end.
Definition wake (tr : list (hcall * hresp)) : option bool := fold_left wake_step tr (Some false).

(** A call that has nothing to do with the line. *)
Definition aside (c : hcall) : bool :=
  match c with
  | Clib_op (Lpm_wake_set_state _) | Clib_op Fw_cfg | Cwrite _ _ => false
  | _ => true
  end.

Lemma wake_snoc tr e : wake (tr ++ [e]) = wake_step (wake tr) e.
Proof. unfold wake. by rewrite fold_left_app. Qed.
Lemma wake_aside tr c r : aside c = true -> wake (tr ++ [(c, r)]) = wake tr.
Proof.
  rewrite wake_snoc. unfold wake_step. cbn [fst]. destruct (wake tr) as [a|]; [|done]. destruct c; try done.
  destruct op; done.
Qed.

(** There is a protocol to send through. *)
Definition hci_on (s : hci_globals) : Prop := exists v p, g_vendor_interface s = Some v /\ hci_ v = Some p.

(** The flag says what the line is. *)
Definition low_power (w : W) : Prop :=
  exists a, wake (trace w) = Some a /\ (hci_on (globals w) -> a = negb (lpm_wake_deasserted (globals w))).

(** Neither the line, nor the flag, and no new protocol. *)
Definition quiet (w w' : W) : Prop :=
  wake (trace w') = wake (trace w) /\ lpm_wake_deasserted (globals w') = lpm_wake_deasserted (globals w)
  /\ (hci_on (globals w') -> hci_on (globals w)).

#[export] Instance quiet_preorder : PreOrder quiet.
Proof. split; [done|]. intros w1 w2 w3 (H1 & H2 & H3) (H4 & H5 & H6). unfold quiet. split_and!; [congruence|congruence|auto]. Qed.

Lemma quiet_low_power w w' : quiet w w' -> low_power w -> low_power w'.
Proof. intros (H1 & H2 & H3) (a & Ha & Hon). exists a. rewrite H1, H2. auto. Qed.

(** The same, but the protocol may be new. *)
Definition steady (w w' : W) : Prop :=
  wake (trace w') = wake (trace w) /\ lpm_wake_deasserted (globals w') = lpm_wake_deasserted (globals w).
#[export] Instance steady_preorder : PreOrder steady.
Proof. split; [done|]. intros w1 w2 w3 [H1 H2] [H3 H4]. split; congruence. Qed.

Lemma quiet_steady {A} (m : io hci_globals hcall hresp A) : keeps quiet m -> keeps steady m.
Proof. intros Hm w. eapply wlp_mono; [apply Hm|]. cbn beta. by intros _ w' (H1 & H2 & _). Qed.

Lemma steady_quiet w w' : hci_on (globals w) -> steady w w' -> quiet w w'.
Proof. by intros Hon [H1 H2]. Qed.

Section Quiet.
Context (answer : list (hcall * hresp) -> hcall -> hresp) (junk : Z) (patience : nat).

Lemma quiet_call c : aside c = true -> keeps quiet (io_call answer c).
Proof. intros Hc w. unfold wlp, io_call. split; [by apply wake_aside|]. by split. Qed.

Lemma quiet_mod f : (forall s, lpm_wake_deasserted (f s) = lpm_wake_deasserted s /\ (hci_on (f s) -> hci_on s)) ->
  keeps quiet (io_mod f).
Proof. intros Hf w. unfold wlp, io_mod. split; [done|]. apply (Hf (globals w)). Qed.

Lemma quiet_mod_vi f : (forall v, is_Some (hci_ (f v)) -> is_Some (hci_ v)) -> keeps quiet (mod_vi f).
Proof.
  intros Hf. apply quiet_mod. intros s. split; [done|]. intros (v & p & Hv & Hp). cbn in Hv.
  destruct (g_vendor_interface s) as [v0|] eqn:E; [|done]. injection Hv as <-. destruct (Hf v0) as [p0 Hp0]; [by rewrite Hp|].
  by exists v0, p0.
Qed.

Lemma quiet_mod_watcher f : keeps quiet (mod_watcher f).
Proof. by apply quiet_mod_vi. Qed.

#[local] Hint Resolve quiet_call quiet_mod_watcher : keeps.
#[local] Hint Extern 1 (aside _ = true) => reflexivity : keeps.

Lemma quiet_the_vi : keeps quiet the_vi.
Proof. unfold the_vi. keeps_all. Qed.
Lemma quiet_the_watcher : keeps quiet the_watcher.
Proof. unfold the_watcher. keeps_all. apply quiet_the_vi. Qed.
#[local] Hint Resolve quiet_the_vi quiet_the_watcher : keeps.

Lemma quiet_lib_op op : aside (Clib_op op) = true -> keeps quiet (lib_op answer op).
Proof. intros Ho. unfold lib_op. keeps_all. Qed.

Lemma quiet_mutexes : keeps quiet lock_internal /\ keeps quiet unlock_internal /\ keeps quiet lock_timeout /\ keeps quiet unlock_timeout.
Proof. unfold lock_internal, unlock_internal, lock_timeout, unlock_timeout. split_and!; keeps_all. Qed.
#[local] Hint Resolve quiet_lib_op : keeps.
#[local] Hint Extern 1 (keeps quiet lock_internal) => apply quiet_mutexes : keeps.
#[local] Hint Extern 1 (keeps quiet unlock_internal) => apply quiet_mutexes : keeps.
#[local] Hint Extern 1 (keeps quiet lock_timeout) => apply quiet_mutexes : keeps.
#[local] Hint Extern 1 (keeps quiet unlock_timeout) => apply quiet_mutexes : keeps.

Lemma quiet_notify : keeps quiet (notifyThread answer).
Proof. unfold notifyThread. keeps_all. Qed.
#[local] Hint Resolve quiet_notify : keeps.
Lemma quiet_configure t cb : keeps quiet (ConfigureTimeout answer t cb).
Proof. unfold ConfigureTimeout. keeps_all. Qed.
Lemma quiet_start : keeps quiet (tryStartThread answer).
Proof. unfold tryStartThread. keeps_all. Qed.
#[local] Hint Resolve quiet_configure quiet_start : keeps.
Lemma quiet_watch fd cb : keeps quiet (WatchFdForNonBlockingReads answer fd cb).
Proof. unfold WatchFdForNonBlockingReads. keeps_all. Qed.
Lemma quiet_stop self : keeps quiet (stopThread answer self).
Proof. unfold stopThread. keeps_all. Qed.
#[local] Hint Resolve quiet_watch quiet_stop : keeps.

Lemma quiet_Close self : keeps quiet (Close answer self).
Proof.
  unfold Close, StopWatchingFileDescriptors. keeps_all; apply quiet_mod_vi; done || (intros ? [? ?]; done).
Qed.

Lemma quiet_Shutdown self : keeps quiet (Shutdown answer self).
Proof.
  unfold Shutdown. keeps_all; [apply quiet_Close|]. apply quiet_mod. intros s1. split; [done|]. by intros (v1 & p1 & Hv1 & _).
Qed.

Lemma quiet_client u d : keeps quiet (io_mod (fun s => with_client s (u s) (d s))).
Proof. by apply quiet_mod. Qed.

Lemma quiet_close self : keeps quiet (close answer self).
Proof. unfold close. keeps_all. apply quiet_Shutdown. Qed.
Lemma quiet_died : keeps quiet (serviceDied answer).
Proof. unfold serviceDied. keeps_all; [by apply quiet_mod|apply quiet_close]. Qed.

Lemma quiet_firmware r : keeps quiet (firmware_config_cb answer r).
Proof.
  unfold firmware_config_cb, OnFirmwareConfigured. keeps_all; try by apply quiet_mod_vi.
  apply quiet_mod. intros s. by destruct (rdata _).
Qed.

Lemma quiet_event packet : keeps quiet (HandleIncomingEvent answer packet).
Proof. unfold HandleIncomingEvent. keeps_all. by apply quiet_mod. Qed.
#[local] Hint Resolve quiet_event : keeps.


Lemma steady_packetizer {A} p fd ty (ready : list Z -> io hci_globals hcall hresp (option A)) :
  (forall packet, keeps steady (ready packet)) -> keeps steady (OnDataReady answer junk p fd ty ready).
Proof. intros Hr. unfold OnDataReady. keeps_all; by apply quiet_steady, quiet_call. Qed.

Lemma steady_call c : aside c = true -> keeps steady (io_call answer c).
Proof. intros Hc. by apply quiet_steady, quiet_call. Qed.
Lemma steady_event packet : keeps steady (HandleIncomingEvent answer packet).
Proof. apply quiet_steady, quiet_event. Qed.
Lemma steady_mod_vi f : keeps steady (mod_vi f).
Proof. by intros w. Qed.
#[local] Hint Resolve steady_call steady_event steady_mod_vi steady_packetizer : keeps.

Lemma quiet_read_ready cb fd : keeps quiet (read_ready answer junk cb fd).
Proof.
  intros w. assert (keeps steady (read_ready answer junk cb fd)) as Hs.
  { unfold read_ready, h4_OnDataReady, h4_OnPacketReady, OnEventDataReady, OnAclDataReady, OnEventPacketReady, OnAclDataPacketReady.
    apply keeps_bind; [typeclasses eauto|apply quiet_steady, quiet_the_vi|]. intros v.
    keeps_all; apply steady_packetizer; intros packet; keeps_all. }
  specialize (Hs w). unfold wlp in *. destruct (read_ready answer junk cb fd w) as [[o w']|] eqn:E; [|done].
  apply steady_quiet; [|done]. revert E. unfold read_ready, the_vi, io_bind, io_get, lift.
  destruct (g_vendor_interface (globals w)) as [v|] eqn:Ev; [|done].
  destruct (hci_ v) as [p|] eqn:Ep; [intros _; by exists v, p|]. by destruct cb.
Qed.
End Quiet.

(** ** The flag is kept true *)
Definition safe {A} (m : io hci_globals hcall hresp A) : Prop := forall w, low_power w -> wlp m (fun _ w' => low_power w') w.

Lemma quiet_safe {A} (m : io hci_globals hcall hresp A) : keeps quiet m -> safe m.
Proof. intros Hm w Hw. eapply wlp_mono; [apply Hm|]. cbn beta. intros _ w' Hq. by eapply quiet_low_power. Qed.
Lemma safe_bind {A B} (m : io hci_globals hcall hresp A) (k : A -> io hci_globals hcall hresp B) :
  safe m -> (forall a, safe (k a)) -> safe (io_bind m k).
Proof. intros Hm Hk w Hw. apply wlp_bind. eapply wlp_mono; [by apply Hm|]. cbn beta. intros a w' Hw'. by apply Hk. Qed.
Lemma safe_ret {A} (a : A) : safe (io_ret a).
Proof. intros w Hw. exact Hw. Qed.
Lemma safe_attempt {A B} (m : io hci_globals hcall hresp (option A)) (k : A -> io hci_globals hcall hresp (option B)) :
  safe m -> (forall a, safe (k a)) -> safe (attempt m k).
Proof. intros Hm Hk. apply safe_bind; [done|]. intros [a|]; [apply Hk|apply safe_ret]. Qed.

(** The protocol stays, and the line stays asserted. *)
Definition awake_still (w w' : W) : Prop :=
  (wake (trace w) = Some true -> wake (trace w') = Some true) /\ globals w' = globals w.
#[export] Instance awake_still_preorder : PreOrder awake_still.
Proof. split; [done|]. intros w1 w2 w3 [H1 H2] [H3 H4]. split; [auto|congruence]. Qed.

Section Safe.
Context (answer : list (hcall * hresp) -> hcall -> hresp) (junk : Z) (patience : nat).

Lemma awake_write fd d : keeps awake_still (io_call answer (Cwrite fd d)).
Proof. intros w. unfold wlp, io_call. split; [|done]. cbn [trace]. rewrite wake_snoc. by intros ->. Qed.
Lemma awake_yield : keeps awake_still (io_call answer Cyield).
Proof. intros w. unfold wlp, io_call. split; [|done]. cbn [trace]. by rewrite wake_aside. Qed.
#[local] Hint Resolve awake_write awake_yield : keeps.

Lemma awake_WriteSafely fd data : keeps awake_still (WriteSafely answer patience fd data).
Proof.
  unfold WriteSafely. generalize (S patience * length data)%nat as fuel, 0 as n, (zlen data) as len. intros fuel.
  induction fuel as [|fuel IH]; intros n len; cbn [write_loop]; keeps_all; apply IH.
Qed.
#[local] Hint Resolve awake_WriteSafely : keeps.

(** What the wake line is when the protocol is called. *)
Lemma low_power_write {A} (m : io hci_globals hcall hresp A) w :
  keeps awake_still m -> low_power w -> hci_on (globals w) -> lpm_wake_deasserted (globals w) = false ->
  wlp m (fun _ w' => low_power w') w.
Proof.
  intros Hm (a & Ha & Hon) Hhci Hf. rewrite Hf in Hon. rewrite (Hon Hhci) in Ha.
  eapply wlp_mono; [apply Hm|]. cbn beta. intros _ w' [H1 H2]. exists true. split; [by apply H1|]. by rewrite H2, Hf.
Qed.

(** The part of [Send] in front of the protocol. *)
Definition wake_up : io hci_globals hcall hresp unit :=
  do s <- io_get;
  if lpm_wake_deasserted s then
    do _ <- ConfigureTimeout answer (lpm_timeout_ms s) On_timeout;
    do _ <- io_mod (fun s => with_deasserted s false);
    do _ <- lib_op answer (Lpm_wake_set_state true);
    io_ret tt
  else io_ret tt.

Lemma Send_wake_up type data : Send answer patience type data =
  do _ <- io_mod (fun s => with_activity s true);
  do _ <- wake_up;
  do v <- the_vi;
  match hci_ v with
  | None => undefined
  | Some (H4Protocol uart_fd_ _ _) => do n <- h4_Send answer patience uart_fd_ type data; io_ret (Some n)
  | Some (MctProtocol uart_fds_ _ _) => mct_Send answer patience uart_fds_ type data
  end.
Proof. reflexivity. Qed.

Lemma wlp_the_vi Q (w : W) : (forall v, g_vendor_interface (globals w) = Some v -> Q v w) -> wlp the_vi Q w.
Proof. intros HQ. unfold the_vi. apply wlp_bind. unfold wlp at 1, io_get. apply wlp_lift. exact HQ. Qed.

Lemma wlp_lib_op op Q (w : W) :
  (forall r, Q r (World (globals w) (trace w ++ [(Clib_op op, r)]))) -> wlp (lib_op answer op) Q w.
Proof.
  intros HQ. unfold lib_op. apply wlp_bind, wlp_the_vi. intros v _. destruct (_ =? 0); [done|]. apply HQ.
Qed.

Lemma wake_up_asserts w : low_power w ->
  wlp wake_up (fun _ w' => hci_on (globals w') -> low_power w' /\ lpm_wake_deasserted (globals w') = false) w.
Proof.
  intros (a & Ha & Hon). unfold wake_up. apply wlp_bind. unfold wlp at 1, io_get.
  destruct (lpm_wake_deasserted (globals w)) eqn:Ef.
  - apply wlp_bind. eapply wlp_mono; [apply quiet_configure|]. cbn beta. intros _ w1 (H1 & H2 & H3).
    apply wlp_bind. unfold wlp at 1, io_mod. apply wlp_bind, wlp_lib_op. intros r. unfold wlp, io_ret. cbn [globals trace with_deasserted lpm_wake_deasserted].
    intros Hhci. split; [|done]. exists true. cbn [globals trace lpm_wake_deasserted]. split; [|done].
    rewrite wake_snoc, H1, Ha. rewrite (Hon (H3 Hhci)). reflexivity.
  - unfold wlp, io_ret. intros Hhci. split; [|done]. exists a. rewrite Ef in *. auto.
Qed.

Lemma safe_Send type data : safe (Send answer patience type data).
Proof.
  intros w Hw. rewrite Send_wake_up. apply wlp_bind. unfold wlp at 1, io_mod.
  apply wlp_bind. eapply wlp_mono; [by apply wake_up_asserts|]. cbn beta. intros _ w1 H1.
  apply wlp_bind, wlp_the_vi. intros v Hv. destruct (hci_ v) as [p|] eqn:Ep; [|done].
  destruct (H1 ltac:(by exists v, p)) as [Hlow Hf].
  destruct p; (apply low_power_write; [|done|eexists v, _; split; [exact Hv|exact Ep]|done]).
  - unfold h4_Send. keeps_all.
  - unfold mct_Send. keeps_all.
Qed.

Lemma safe_OnTimeout : safe (OnTimeout answer).
Proof.
  intros w Hw. pose proof Hw as (a & Ha & _). unfold OnTimeout. apply wlp_bind. unfold wlp at 1, io_get. apply wlp_bind.
  apply (wlp_mono _ (fun _ w' => low_power w')).
  - destruct (negb _); [|exact Hw]. apply wlp_bind. unfold wlp at 1, io_mod. apply wlp_bind, wlp_lib_op. intros r.
    apply wlp_bind. eapply wlp_mono; [apply quiet_configure|]. cbn beta. intros _ w1 Hq. eapply quiet_low_power; [exact Hq|].
    exists false. cbn [globals trace lpm_wake_deasserted with_deasserted]. rewrite wake_snoc, Ha. by destruct a.
  - intros _ w1 Hw1. apply wlp_bind. unfold wlp, io_mod, io_ret. exact Hw1.
Qed.

(** A protocol is there once its descriptors are watched. *)
Lemma steady_open_protocol n l (w : W) :
  wlp (open_protocol answer n l) (fun o w' => steady w w' /\ (o = None -> quiet w w')) w.
Proof.
  assert (forall fd cb (w1 : W) (k : Z -> io hci_globals hcall hresp (option unit)), quiet w w1 ->
    (forall z w2, quiet w w2 -> wlp (k z) (fun o w' => steady w w' /\ (o = None -> quiet w w')) w2) ->
    wlp (try z <- WatchFdForNonBlockingReads answer fd cb; k z) (fun o w' => steady w w' /\ (o = None -> quiet w w')) w1) as Hwatch.
  { intros fd cb w1 k H1 Hk. apply wlp_attempt. eapply wlp_mono; [apply quiet_watch|]. cbn beta. intros [z|] w2 H2.
    - apply Hk. by transitivity w1.
    - assert (quiet w w2) as Hq by (by transitivity w1). split; [|done]. destruct Hq as (? & ? & _). by split. }
  assert (forall p (w1 : W), quiet w w1 ->
    wlp (do _ <- mod_vi (with_hci p); io_ret (Some tt)) (fun o w' => steady w w' /\ (o = None -> quiet w w')) w1) as Hend.
  { intros p w1 (H1 & H2 & _). apply wlp_bind. unfold wlp, mod_vi, io_mod, io_ret. by split. }
  unfold open_protocol. destruct (n =? 1); apply wlp_bind, wlp_lift; intros fd _; apply Hwatch; try reflexivity; intros _ w2 H2.
  - by apply Hend.
  - apply wlp_bind, wlp_lift. intros fd2 _. apply Hwatch; [done|]. intros _ w3 H3. by apply Hend.
Qed.

Lemma safe_lift {A} (o : option A) : safe (lift o).
Proof. intros w Hw. by apply wlp_lift. Qed.

Lemma safe_Open : safe (Open answer).
Proof.
  unfold Open. assert (forall h i, keeps quiet (mod_vi (with_lib h i))) as Hlib by (intros h i; by apply quiet_mod_vi).
  assert (forall op, aside (Clib_op op) = true -> safe (lib_op answer op)) as Hop by (intros op Hop; by apply quiet_safe, quiet_lib_op).
  apply safe_bind; [by apply quiet_safe, quiet_mod_vi|]. intros _.
  apply safe_bind; [by apply quiet_safe, quiet_call|]. intros h.
  apply safe_bind; [apply quiet_safe, Hlib|]. intros _. destruct (rv h =? 0); [apply safe_ret|].
  apply safe_bind; [by apply quiet_safe, quiet_call|]. intros i.
  apply safe_bind; [apply quiet_safe, Hlib|]. intros _. destruct (rv i =? 0); [apply safe_ret|].
  apply safe_bind; [by apply quiet_safe, quiet_call|]. intros status. destruct (negb _); [apply safe_ret|].
  apply safe_bind; [by apply Hop|]. intros _. apply safe_bind; [by apply Hop|]. intros r.
  apply safe_bind; [apply safe_lift|]. intros l. destruct (_ || _); [apply safe_ret|]. destruct (existsb _ _); [apply safe_ret|].
  intros w Hw. apply wlp_attempt. eapply wlp_mono; [apply steady_open_protocol|]. cbn beta. intros o w1 [[H1 _] H2].
  destruct o as [[]|]; [|eapply quiet_low_power; [by apply H2|done]].
  apply wlp_bind. unfold wlp at 1, io_mod. apply wlp_bind. unfold wlp at 1, mod_vi, io_mod. apply wlp_bind, wlp_lib_op. intros r2.
  exists false. cbn [globals trace lpm_wake_deasserted with_deasserted with_interface]. split; [|done].
  destruct Hw as (a & Ha & _). by rewrite wake_snoc, H1, Ha.
Qed.

Lemma safe_initialize cb : safe (initialize answer cb).
Proof.
  unfold initialize. destruct cb; [|apply safe_ret]. apply safe_bind; [apply quiet_safe, quiet_client|]. intros _.
  apply safe_bind; [by apply quiet_safe, quiet_call|]. intros _. apply safe_attempt.
  - unfold Initialize. apply safe_bind; [by intros w Hw|]. intros s. destruct (g_vendor_interface s); [apply safe_ret|].
    apply safe_bind; [|intros _; apply safe_Open]. apply quiet_safe, quiet_mod. intros s1. split; [done|].
    intros (v & p & [= <-] & Hp). done.
  - intros rc. apply quiet_safe. destruct rc; keeps_all; by (apply quiet_call || apply quiet_mod).
Qed.

Lemma safe_thread : safe (ThreadRoutine_step answer (read_ready answer junk) (time_over answer)).
Proof.
  unfold ThreadRoutine_step. apply safe_bind; [apply quiet_safe, quiet_the_watcher|]. intros fw.
  destruct (negb _); [apply safe_ret|]. apply safe_attempt; [|intros _; apply safe_ret]. unfold thread_round.
  apply safe_bind; [apply quiet_safe, quiet_the_watcher|]. intros fw1. destruct (negb _); [by intros w|].
  apply safe_bind; [by apply quiet_safe, quiet_call|]. intros r. destruct (rv r <? 0); [apply safe_ret|]. destruct (rv r =? 0).
  - destruct quiet_mutexes as (_ & _ & Hl & Hu). apply safe_bind; [by apply quiet_safe|]. intros _.
    apply safe_bind; [apply quiet_safe, quiet_the_watcher|]. intros fw2. apply safe_bind; [by apply quiet_safe|]. intros _.
    destruct (if 0 <? timeout_ms_ fw2 then timeout_cb_ fw2 else None) as [[|]|]; [apply safe_OnTimeout|apply safe_ret..].
  - apply quiet_safe. destruct (bool_decide _); keeps_all; try apply quiet_call; try done; try apply quiet_mutexes; try apply quiet_the_watcher.
    generalize (watched_fds_ a0) as l. intros l. induction l as [|it l IH]; cbn [ready_callbacks]; keeps_all; [apply quiet_read_ready|exact IH..].
Qed.

Lemma safe_step op : safe (hal_step answer junk patience op).
Proof.
  destruct op; cbn [hal_step].
  - apply safe_initialize.
  - apply quiet_safe, quiet_close.
  - apply quiet_safe, quiet_died.
  - apply safe_attempt; [apply safe_Send|intros _; apply safe_ret].
  - apply safe_attempt; [apply safe_Send|intros _; apply safe_ret].
  - apply safe_attempt; [apply safe_Send|intros _; apply safe_ret].
  - apply safe_attempt; [|intros _; apply safe_ret]. unfold transmit_cb. apply safe_bind; [by apply quiet_safe, quiet_mod|]. intros _.
    apply safe_bind; [apply safe_lift|]. intros d. apply safe_attempt; [apply safe_Send|intros _; apply safe_ret].
  - apply quiet_safe, quiet_firmware.
  - apply safe_attempt; [apply safe_thread|intros _; apply safe_ret].
Qed.

Lemma safe_run ops : safe (hal_run answer junk patience ops).
Proof. induction ops as [|op ops IH]; [apply safe_ret|]. apply safe_attempt; [apply safe_step|intros _; exact IH]. Qed.
End Safe.

(** The line was asserted, and was not released since. *)
Definition releases (e : hcall * hresp) : bool :=
  match e.1 with Clib_op (Lpm_wake_set_state false) | Clib_op Fw_cfg => true | _ => false end.
Definition asserted (tr : list (hcall * hresp)) : Prop :=
  exists t0 r0 t, tr = t0 ++ (Clib_op (Lpm_wake_set_state true), r0) :: t /\ Forall (fun e => releases e = false) t.

Lemma wake_prefix t1 t2 : wake (t1 ++ t2) <> None -> wake t1 <> None.
Proof.
  induction t2 as [|e t2 IH] using rev_ind; [by rewrite app_nil_r|]. rewrite app_assoc, wake_snoc. intros H. apply IH. intros E.
  by rewrite E in H.
Qed.

Lemma asserted_snoc tr e : asserted (tr ++ [e]) <->
  (exists r, e = (Clib_op (Lpm_wake_set_state true), r)) \/ releases e = false /\ asserted tr.
Proof.
  split.
  - intros (t0 & r0 & t & E & Ht). destruct t as [|e' t _] using rev_ind.
    + left. apply app_inj_tail in E as [_ ->]. eauto.
    + right. rewrite app_comm_cons, app_assoc in E. apply app_inj_tail in E as [-> ->].
      apply Forall_app in Ht as [Ht He]. split; [exact (Forall_inv He)|]. by exists t0, r0, t.
  - intros [[r ->]|[He (t0 & r0 & t & -> & Ht)]]; [by exists tr, r, []|].
    exists t0, r0, (t ++ [e]). split; [by rewrite <- app_assoc|]. apply Forall_app. auto.
Qed.

Lemma wake_asserted tr a : wake tr = Some a -> (a = true <-> asserted tr).
Proof.
  revert a. induction tr as [|e tr IH] using rev_ind; intros a.
  - intros [= <-]. split; [done|]. intros (t0 & r0 & t & E & _). by destruct t0.
  - rewrite wake_snoc, asserted_snoc. destruct (wake tr) as [b|]; [|done]. specialize (IH b eq_refl). destruct e as [c r].
    unfold wake_step, releases. cbn [fst]. intros Ha.
    assert (forall c', (exists r0, (c', r) = (Clib_op (Lpm_wake_set_state true), r0)) <-> c' = Clib_op (Lpm_wake_set_state true)) as E.
    { intros c'. split; [by intros (? & [= -> ->])|intros ->; eauto]. }
    rewrite E. destruct c; try (injection Ha as <-; rewrite IH; naive_solver); [|].
    + destruct b; [|done]. injection Ha as <-. rewrite <- IH. naive_solver.
    + destruct op as [| | | | | |[]]; try (injection Ha as <-; rewrite IH; naive_solver); try (injection Ha as <-; naive_solver).
      destruct b; [done|]. injection Ha as <-. naive_solver.
Qed.

(** ** Properties *)

(** C11. In any run of the HAL nothing is written to the controller unless the wake line was asserted and not released
    since, and the line is never asserted twice. *)
Theorem controller_awake answer junk patience ops o w' :
  hal_run answer junk patience ops (World globals0 []) = Some (o, w') ->
  (forall t1 fd d r t2, trace w' = t1 ++ (Cwrite fd d, r) :: t2 -> asserted t1)
  /\ (forall t1 r t2, trace w' = t1 ++ (Clib_op (Lpm_wake_set_state true), r) :: t2 -> ~ asserted t1).
Proof.
  intros Hrun. pose proof (safe_run answer junk patience ops (World globals0 [])) as Hsafe. unfold wlp in Hsafe. rewrite Hrun in Hsafe.
  destruct Hsafe as (a & Ha & _); [exists false; split; [reflexivity|by intros (v & p & Hv & _)]|].
  assert (forall t1 e t2, trace w' = t1 ++ e :: t2 -> exists b, wake t1 = Some b /\ wake_step (Some b) e <> None) as Hpre.
  { intros t1 e t2 E. assert (wake (t1 ++ [e]) <> None) as Hne.
    { apply (wake_prefix _ t2). rewrite <- app_assoc. cbn [app]. by rewrite <- E, Ha. }
    rewrite wake_snoc in Hne. destruct (wake t1) as [b|] eqn:Eb; [by exists b|]. by destruct Hne. }
  split.
  - intros t1 fd d r t2 E. destruct (Hpre _ _ _ E) as (b & Hb & Hstep). apply (wake_asserted _ _ Hb). by destruct b.
  - intros t1 r t2 E. destruct (Hpre _ _ _ E) as (b & Hb & Hstep). rewrite <- (wake_asserted _ _ Hb). by destruct b.
Qed.

(** A client initialises, the vendor library sends a command and is done, and the client sends one. *)
Definition example_ops : list hal_op :=
  [Op_initialize true; Op_transmit 0x0C03 (mk_hdr 0 3 0 0 [3; 12; 0]) 77; Op_firmware_config 0; Op_sendHciCommand [9; 16; 0]].

Lemma controller_awake_witness :
  match hal_run (driver 7 []) 0 0 example_ops (World globals0 []) with
  | Some (o, w') =>
      o = Some tt /\ length (trace w') = 19%nat
      /\ (forall t1 fd d r t2, trace w' = t1 ++ (Cwrite fd d, r) :: t2 -> asserted t1)
      /\ (forall t1 r t2, trace w' = t1 ++ (Clib_op (Lpm_wake_set_state true), r) :: t2 -> ~ asserted t1)
  | None => False
  end.
Proof.
  destruct (hal_run (driver 7 []) 0 0 example_ops (World globals0 [])) as [[o w']|] eqn:E; [|by vm_compute in E].
  split_and!; [| |exact (proj1 (controller_awake _ _ _ _ _ _ E))|exact (proj2 (controller_awake _ _ _ _ _ _ E))];
    vm_compute in E; injection E as <- <-; reflexivity.
Defined.

