(* ===== verification/HciEvents.v ===== *)
(** Who gets an event of the controller, and the thread that hands the packets over. *)
From Stdlib Require Import List.
From stdpp Require Import gmap.
From S2P Require Import Prelude Effects HciState HciPacket HciWatcher HciVendor.

Abbreviation W := (world hci_globals hcall hresp).

(** ** Who gets an event *)

(** The event completes the command [opcode]. *)
Definition completes (opcode : Z) (packet : list Z) : bool :=
  (anth packet 0 =? HCI_COMMAND_COMPLETE_EVENT) && (anth packet 3 =? opcode mod 256) && (anth packet 4 =? opcode / 256).

(** An event the HAL can look at: octets, one at least, and the opcode when it completes a command. *)
Definition whole (packet : list Z) : Prop :=
  Forall is_u8 packet /\ packet <> [] /\ (anth packet 0 = HCI_COMMAND_COMPLETE_EVENT -> 5 <= zlen packet).

Lemma lor_octets lo hi : is_u8 lo -> lo .| (hi ≪ 8) = lo + hi * 256.
Proof. intros Hlo. by apply (lor_shift lo hi 8). Qed.

Lemma u16_split opcode lo hi : 0 <= opcode < 65536 -> is_u8 lo -> is_u8 hi ->
  (u16 (lo .| (hi ≪ 8)) =? opcode) = (lo =? opcode mod 256) && (hi =? opcode / 256).
Proof.
  intros Ho Hlo Hhi. rewrite lor_octets by done. unfold is_u8 in *.
  unfold u16. rewrite wrapu_small by lia.
  pose proof (Z.div_mod opcode 256 ltac:(lia)). pose proof (Z.mod_pos_bound opcode 256 ltac:(lia)).
  apply eq_true_iff_eq. rewrite andb_true_iff, !Z.eqb_eq. lia.
Qed.

Lemma event_match opcode packet : 0 <= opcode < 65536 -> whole packet ->
  internal_command_event_match opcode packet = Some (completes opcode packet).
Proof.
  intros Ho (Hf & Hne & Hlen). unfold internal_command_event_match, completes, mbind, option_bind.
  rewrite (aget_anth packet 0) by (destruct packet; [done|unfold zlen; cbn; lia]).
  destruct (Z.eqb_spec (anth packet 0) HCI_COMMAND_COMPLETE_EVENT) as [E|E]; [|done]. specialize (Hlen E).
  cbn [negb andb]. change (HCI_EVENT_PREAMBLE_SIZE + 1) with 3. change (3 + 1) with 4.
  rewrite (aget_anth packet 3), (aget_anth packet 4) by lia.
  assert (forall i, 0 <= i < zlen packet -> is_u8 (anth packet i)) as Hu.
  { intros i Hi. eapply aget_Forall; [exact Hf|]. by apply aget_anth. }
  by rewrite u16_split by (done || apply Hu; lia).
Qed.

(** A command of the vendor library is waiting for this event. *)
Definition awaited (s : hci_globals) (packet : list Z) : bool :=
  negb (internal_cb s =? 0) && completes (internal_opcode s) packet.

Section Events.
Context (answer : list (hcall * hresp) -> hcall -> hresp) (junk : Z).

Lemma HandleIncomingEvent_spec packet (w : W) : 0 <= internal_opcode (globals w) < 65536 -> whole packet ->
  wp (HandleIncomingEvent answer packet) (fun _ w' =>
    if awaited (globals w) packet then
      globals w' = with_command (globals w) 0 (internal_opcode (globals w))
      /\ exists r, trace w' = trace w ++ [(Ccommand_cback (internal_cb (globals w)) (WrapPacketAndCopy HCI_PACKET_TYPE_EVENT packet), r)]
    else globals w' = globals w /\ exists r, trace w' = trace w ++ [(Cevent_received packet, r)]) w.
Proof.
  intros Ho Hp. unfold HandleIncomingEvent, awaited. apply wp_bind, wp_get, wp_bind.
  apply (wp_lift _ (negb (internal_cb (globals w) =? 0) && completes (internal_opcode (globals w)) packet)).
  { destruct (_ =? 0); [done|]. by apply event_match. }
  destruct (_ && _); repeat sys_step; cbn [globals trace]; eauto.
Qed.

Fixpoint handle_events (es : list (list Z)) : io hci_globals hcall hresp unit :=
  match es with [] => io_ret tt | e :: es => do _ <- HandleIncomingEvent answer e; handle_events es end.

(** Events nobody waits for. *)
Lemma handle_others es (w : W) : 0 <= internal_opcode (globals w) < 65536 -> Forall whole es ->
  Forall (fun e => awaited (globals w) e = false) es ->
  wp (handle_events es) (fun _ w' => globals w' = globals w
    /\ exists rs, length rs = length es /\ trace w' = trace w ++ zip (map Cevent_received es) rs) w.
Proof.
  revert w. induction es as [|e es IH]; intros w Ho Hw Ha; cbn [handle_events].
  - apply wp_ret. split; [done|]. exists []. by rewrite app_nil_r.
  - apply wp_bind. eapply wp_mono; [apply HandleIncomingEvent_spec; [done|exact (Forall_inv Hw)]|]. cbn beta.
    rewrite (Forall_inv Ha). intros _ w1 [Hg (r & Hr)]. eapply wp_mono.
    + apply IH; [by rewrite Hg|exact (Forall_inv_tail Hw)|rewrite Hg; exact (Forall_inv_tail Ha)].
    + cbn beta. intros _ w2 [Hg2 (rs & Hlen & Ht)]. split; [congruence|]. exists (r :: rs). split; [cbn; congruence|].
      by rewrite Ht, Hr, <- app_assoc.
Qed.

Lemma event_match_some opcode packet : whole packet -> exists b, internal_command_event_match opcode packet = Some b.
Proof.
  intros (_ & Hne & Hlen). unfold internal_command_event_match, mbind, option_bind.
  rewrite (aget_anth packet 0) by (destruct packet; [done|unfold zlen; cbn; lia]).
  destruct (Z.eqb_spec (anth packet 0) HCI_COMMAND_COMPLETE_EVENT) as [E|E]; [|by exists false]. specialize (Hlen E).
  cbn [negb]. change (HCI_EVENT_PREAMBLE_SIZE + 1) with 3. change (3 + 1) with 4.
  rewrite (aget_anth packet 3), (aget_anth packet 4) by lia. by eexists.
Qed.

(** [HandleIncomingEvent] is what the protocols promise their events to. *)
#[export] Instance vendor_sink fd : EventSink fd (HandleIncomingEvent answer) whole.
Proof.
  intros n body w _ Hw. unfold HandleIncomingEvent. apply wp_bind, wp_get, wp_bind.
  destruct (event_match_some (internal_opcode (globals w)) body Hw) as [b Hb].
  eapply (wp_lift _ (if internal_cb (globals w) =? 0 then false else b)); [rewrite Hb; by destruct (_ =? 0)|].
  destruct (if internal_cb (globals w) =? 0 then false else b); repeat sys_step; cbn [globals trace];
    rewrite received_app, delivered_app; split_and!; done || (cbn; lia).
Qed.
End Events.

(** ** The thread, when the driver has something to read

    [select] always reports the descriptor of the driver as long as there are octets of [s] left. *)
Definition readable (answer : list (hcall * hresp) -> hcall -> hresp) (fd : Z) (s : list Z) : Prop :=
  forall tr fds t, received fd tr < zlen s ->
    rv (answer tr (Cselect fds t)) = 1 /\ rdata (answer tr (Cselect fds t)) = [fd].

(** The thread runs and watches the descriptor of an H4 protocol. *)
Definition watching (fd ty : Z) (p : packetizer) (v : vendor_interface) : Prop :=
  hci_ v = Some (H4Protocol fd ty p) /\ watched_fds_ (fd_watcher_ v) = [(fd, H4_OnDataReady)]
  /\ running_ (fd_watcher_ v) = true /\ internal_mutex_ (fd_watcher_ v) = false
  /\ notification_listen_fd_ (fd_watcher_ v) <> fd /\ fd_ok (notification_listen_fd_ (fd_watcher_ v)) = true /\ fd_ok fd = true.

Section Thread.
Context (answer : list (hcall * hresp) -> hcall -> hresp) (junk fd : Z) (s : list Z).
Context (Hserves : serves answer fd s) (Hreadable : readable answer fd s).

Definition thread_at (rest : list Z) (ps : list (Z * list Z)) (x : unit) (w : W) : Prop :=
  exists v ty p, g_vendor_interface (globals w) = Some v /\ watching fd ty p v /\ h4_at fd s whole rest ps (ty, p) w.

Definition thread_call (x : unit) : io hci_globals hcall hresp (option unit) :=
  try _ <- ThreadRoutine_step answer (read_ready answer junk) (time_over answer); io_ret (Some tt).

Lemma h4_at_silent rest ps x (w w' : W) :
  received fd (trace w') = received fd (trace w) -> h4_at fd s whole rest ps x w -> h4_at fd s whole rest ps x w'.
Proof.
  intros Hr. unfold h4_at, partial, left_of. by rewrite Hr.
Qed.

Lemma wp_the_vi v Q (w : W) : g_vendor_interface (globals w) = Some v -> Q v w -> wp the_vi Q w.
Proof. intros Hv HQ. unfold the_vi. apply wp_bind, wp_get. by eapply wp_lift. Qed.
Lemma wp_the_watcher v Q (w : W) : g_vendor_interface (globals w) = Some v -> Q (fd_watcher_ v) w -> wp the_watcher Q w.
Proof. intros Hv HQ. unfold the_watcher. apply wp_bind. eapply wp_the_vi; [exact Hv|]. by apply wp_ret. Qed.
Lemma wp_mod_vi v f (Q : unit -> W -> Prop) (w : W) : g_vendor_interface (globals w) = Some v ->
  Q tt (World (with_interface (globals w) (Some (f v))) (trace w)) -> wp (mod_vi f) Q w.
Proof. intros Hv HQ. unfold mod_vi. apply wp_mod. by rewrite Hv. Qed.

Lemma wp_lock_internal v (Q : unit -> W -> Prop) (w : W) : g_vendor_interface (globals w) = Some v ->
  internal_mutex_ (fd_watcher_ v) = false ->
  Q tt (World (with_interface (globals w) (Some (with_watcher (with_internal_mutex true (fd_watcher_ v)) v))) (trace w)) ->
  wp lock_internal Q w.
Proof.
  intros Hv Hm HQ. unfold lock_internal. apply wp_bind. eapply wp_the_watcher; [exact Hv|]. rewrite Hm.
  unfold mod_watcher. eapply wp_mod_vi; [exact Hv|exact HQ].
Qed.

(** The callback of the descriptor is one call of [OnDataReady] of the protocol. *)
Lemma read_ready_h4 v ty p rest pk ps (w : W) :
  g_vendor_interface (globals w) = Some v -> hci_ v = Some (H4Protocol fd ty p) -> h4_at fd s whole rest (pk :: ps) (ty, p) w ->
  wp (read_ready answer junk H4_OnDataReady fd) (fun o w' => exists ty' p' ps1 ps2, o = Some tt /\ pk :: ps = ps1 ++ ps2
    /\ h4_at fd s whole rest ps2 (ty', p') w' /\ delivered (trace w') = delivered (trace w) ++ ps1
    /\ received fd (trace w) < received fd (trace w')
    /\ g_vendor_interface (globals w') = Some (with_hci (Some (H4Protocol fd ty' p')) v)) w.
Proof using Hserves.
  intros Hv Hp Hat. unfold read_ready. apply wp_bind. eapply wp_the_vi; [exact Hv|]. rewrite Hp. apply wp_attempt.
  change (h4_OnDataReady answer junk (HandleIncomingEvent answer) ty p fd) with (h4_call answer junk fd (HandleIncomingEvent answer) (ty, p)).
  eapply wp_mono; [eapply (h4_step answer junk fd s Hserves (HandleIncomingEvent answer) whole); exact Hat|]. cbn beta.
  intros o w1 ([ty' p'] & ps1 & ps2 & -> & E & Hat1 & Hd & Hr & Hg). apply wp_bind. eapply wp_mod_vi; [rewrite Hg; exact Hv|].
  apply wp_ret. exists ty', p', ps1, ps2. cbn [globals trace]. split_and!; done.
Qed.

Lemma thread_step rest pk ps x (w : W) : thread_at rest (pk :: ps) x w ->
  wp (thread_call x) (fun o w' => exists x' ps1 ps2, o = Some x' /\ pk :: ps = ps1 ++ ps2 /\ thread_at rest ps2 x' w'
    /\ delivered (trace w') = delivered (trace w) ++ ps1 /\ received fd (trace w) < received fd (trace w')) w.
Proof using Hserves Hreadable.
  intros (v & ty & p & Hv & (Hp & Hwatch & Hrun & Hmutex & Hlisten & Hok1 & Hok2) & Hat).
  pose proof (h4_bound _ _ _ _ _ _ _ _ Hat) as Hb.
  unfold thread_call, ThreadRoutine_step. apply wp_attempt, wp_bind. eapply wp_the_watcher; [exact Hv|]. rewrite Hrun. cbn [negb].
  apply wp_attempt. unfold thread_round. apply wp_bind. eapply wp_the_watcher; [exact Hv|]. rewrite Hwatch. cbn [map fst forallb].
  rewrite Hok1, Hok2. cbn [andb negb]. apply wp_bind, sys_eq. intros r Er.
  assert (rv r = 1 /\ rdata r = [fd]) as [Hr1 Hr2] by (rewrite Er; apply Hreadable; unfold zlen in *; lia).
  rewrite Hr1, Hr2. cbn [Z.ltb Z.eqb Z.compare].
  rewrite bool_decide_eq_false_2 by (rewrite list_elem_of_singleton; exact Hlisten).
  apply wp_bind. eapply wp_lock_internal; [exact Hv|exact Hmutex|]. apply wp_bind. eapply wp_the_watcher; [reflexivity|].
  cbn [fd_watcher_ with_watcher watched_fds_ with_internal_mutex]. rewrite Hwatch. apply wp_attempt. cbn [ready_callbacks fst snd].
  rewrite bool_decide_eq_true_2 by (by apply list_elem_of_singleton). apply wp_attempt.
  eapply wp_mono; [eapply read_ready_h4; [reflexivity|exact Hp|eapply h4_at_silent; [|exact Hat]; cbn [trace]; by rewrite received_app, Z.add_0_r]|].
  cbn beta. intros o w1 (ty' & p' & ps1 & ps2 & -> & E & Hat1 & Hd & Hr & Hg). apply wp_ret, wp_bind.
  unfold unlock_internal, mod_watcher. eapply wp_mod_vi; [exact Hg|]. apply wp_ret, wp_ret, wp_ret. cbn [trace] in Hd, Hr.
  rewrite delivered_app in Hd. rewrite received_app in Hr. unfold delivered at 3 in Hd. cbn in Hd. rewrite app_nil_r in Hd.
  exists tt, ps1, ps2. cbn [trace]. split_and!; [done|done| |done|].
  - eexists _, ty', p'. split; [reflexivity|]. split; [by split_and!|]. exact Hat1.
  - revert Hr. unfold received at 2. cbn. lia.
Qed.

Lemma thread_bound rest pk ps x (w : W) : thread_at rest (pk :: ps) x w -> received fd (trace w) < zlen s - zlen rest.
Proof. intros (v & ty & p & _ & _ & Hat). by eapply h4_bound. Qed.

End Thread.

(** The interface after a successful [Open]. *)
Definition opened (h i fd a b : Z) : vendor_interface :=
  mk_vi h i (mk_watcher true true false false [(fd, H4_OnDataReady)] a b None 0) true
    (Some (H4Protocol fd HCI_PACKET_TYPE_UNKNOWN packetizer0)) true.

(** The calls alone. *)
Definition calls_of (tr : list (hcall * hresp)) : list hcall := map fst tr.

(** ** Properties *)


Lemma driver_readable fd s : readable (driver fd s) fd s.
Proof. by intros tr fds t _. Qed.

Lemma whole_check packet : forallb (fun x => (0 <=? x) && (x <? 256)) packet = true -> 5 <= zlen packet \/ packet <> [] /\ anth packet 0 <> 0x0E ->
  whole packet.
Proof.
  intros Hu Hl. split; [|split].
  - apply List.Forall_forall. intros x Hx. rewrite forallb_forall in Hu. specialize (Hu x Hx). unfold is_u8. lia.
  - intros ->. destruct Hl as [Hl|[? _]]; [|done]. unfold zlen in Hl. cbn in Hl. lia.
  - intros E. destruct Hl as [Hl|[_ ?]]; done.
Qed.

Lemma example_packets_whole : Forall (fine whole) example_packets.
Proof.
  apply List.Forall_cons; [|apply List.Forall_cons; [|apply List.Forall_cons; [|apply List.Forall_nil]]].
  - split; [split; [by right; right|exists 4; by vm_compute]|]. intros _. apply whole_check; [reflexivity|left; by vm_compute].
  - split; [split; [by left|exists 2; by vm_compute]|]. done.
  - split; [split; [by right; right|exists 2; by vm_compute]|]. intros _. apply whole_check; [reflexivity|right; by vm_compute].
Qed.


(** C25. The event that completes a command of the vendor library goes to its callback, once; every other event, before
    it and after it, goes to the client. *)
Theorem command_completes answer opcode callback es1 packet es2 w :
  0 <= opcode < 65536 -> callback <> 0 ->
  Forall whole es1 -> Forall whole es2 -> whole packet ->
  Forall (fun e => completes opcode e = false) es1 -> completes opcode packet = true ->
  internal_cb (globals w) = callback -> internal_opcode (globals w) = opcode ->
  wp (handle_events answer (es1 ++ packet :: es2)) (fun _ w' =>
    internal_cb (globals w') = 0
    /\ calls_of (trace w') = calls_of (trace w) ++ map Cevent_received es1
         ++ Ccommand_cback callback (WrapPacketAndCopy HCI_PACKET_TYPE_EVENT packet) :: map Cevent_received es2) w.
Proof.
  intros Ho Hc H1 H2 Hp Hn Hy Ecb Eop.
  assert (forall es1 es2 Q (w : W), wp (handle_events answer es1) (fun _ w' => wp (handle_events answer es2) Q w') w ->
    wp (handle_events answer (es1 ++ es2)) Q w) as Happ.
  { clear. intros es1 es2 Q. induction es1 as [|e es1 IH]; intros w Hw; [exact Hw|]. cbn [app handle_events] in *.
    unfold wp, io_bind in *. destruct (HandleIncomingEvent answer e w) as [[? w1]|]; [apply IH, Hw|done]. }
  assert (forall es rs, length rs = length es -> calls_of (zip (map Cevent_received es) rs) = map Cevent_received es) as Hzip.
  { intros es rs Hlen. unfold calls_of. rewrite fst_zip; [done|]. rewrite length_map. lia. }
  apply Happ. eapply wp_mono; [apply handle_others; [by rewrite Eop|done|]|].
  { refine (List.Forall_impl _ _ Hn). intros e He. unfold awaited. rewrite Eop, He. apply andb_false_r. }
  cbn beta. intros _ w1 [Hg (rs & Hlen & Ht)]. cbn [handle_events]. apply wp_bind.
  eapply wp_mono; [apply HandleIncomingEvent_spec; [by rewrite Hg, Eop|done]|]. cbn beta.
  replace (awaited (globals w1) packet) with true
    by (unfold awaited; rewrite Hg, Ecb, Eop, Hy; by rewrite (proj2 (Z.eqb_neq callback 0))).
  intros _ w2 [Hg2 (r & Hr)]. eapply wp_mono; [apply handle_others; [by rewrite Hg2, Hg; cbn; rewrite Eop|done|]|].
  { apply List.Forall_forall. intros e _. unfold awaited. by rewrite Hg2. }
  cbn beta. intros _ w3 [Hg3 (rs3 & Hlen3 & Ht3)]. split; [by rewrite Hg3, Hg2|].
  rewrite Ht3, Hr, Ht. unfold calls_of in *. rewrite !map_app, !Hzip by done. rewrite Hg, Ecb. cbn [map fst]. by rewrite <- !app_assoc.
Qed.

Lemma command_completes_witness :
  let w := World (with_command globals0 77 0x0C03) [] in
  let done := [0x0E; 4; 1; 3; 12; 0] in
  whole done /\
  wp (handle_events (driver 7 []) ([[0x13; 2; 5; 6]; [0x0E; 4; 1; 9; 16; 0]] ++ done :: [done])) (fun _ w' =>
    internal_cb (globals w') = 0
    /\ calls_of (trace w') = [] ++ [Cevent_received [0x13; 2; 5; 6]; Cevent_received [0x0E; 4; 1; 9; 16; 0]]
         ++ Ccommand_cback 77 (mk_hdr 4 6 0 0 done) :: [Cevent_received done]) w.
Proof.
  assert (whole [0x0E; 4; 1; 3; 12; 0]) as Hd by (apply whole_check; [reflexivity|left; by vm_compute]).
  split; [exact Hd|].
  apply (command_completes (driver 7 []) 0x0C03 77 [[0x13; 2; 5; 6]; [0x0E; 4; 1; 9; 16; 0]] [0x0E; 4; 1; 3; 12; 0] [[0x0E; 4; 1; 3; 12; 0]]
    (World (with_command globals0 77 0x0C03) [])); try done.
  - apply List.Forall_cons; [|apply List.Forall_cons; [|apply List.Forall_nil]].
    + apply whole_check; [reflexivity|right; by vm_compute].
    + apply whole_check; [reflexivity|left; by vm_compute].
  - apply List.Forall_cons; [exact Hd|apply List.Forall_nil].
  - apply List.Forall_cons; [reflexivity|apply List.Forall_cons; [reflexivity|apply List.Forall_nil]].
Defined.

