(* ===== verification/HciSession.v ===== *)
(** Initialising and closing the Bluetooth HAL: what is started, what is released, and what the client is told. *)
From Stdlib Require Import List.
From stdpp Require Import gmap.
From S2P Require Import Prelude Effects HciState HciPacket HciWatcher HciVendor HciWake HciEvents.

(** ** Initialising and closing *)
(** What the client was told. *)
Definition report_of (e : hcall * hresp) : list bool := match e.1 with Cinitialization_complete b => [b] | _ => [] end.
Definition reports (tr : list (hcall * hresp)) : list bool := concat (map report_of tr).

(** Everything is there: the vendor library at [h], its interface at [i], the driver's descriptor, a pipe, a thread. *)
Record starts (answer : list (hcall * hresp) -> hcall -> hresp) (h i fd a b : Z) : Prop := {
  starts_lib tr : rv (answer tr Cdlopen) = h /\ h <> 0;
  starts_sym tr : rv (answer tr (Cdlsym h)) = i /\ i <> 0;
  starts_init tr : rv (answer tr Clib_init) = 0;
  starts_uart tr : rv (answer tr (Clib_op Userial_open)) = 1 /\ rdata (answer tr (Clib_op Userial_open)) = [fd];
  starts_pipe tr : rv (answer tr Cpipe2) = 0 /\ rdata (answer tr Cpipe2) = [a; b];
  starts_thread tr : rv (answer tr Cstart_thread) = 0;
  starts_fds : fd_ok fd = true /\ fd_ok a = true /\ a <> fd
}.

Section Session.
Context (answer : list (hcall * hresp) -> hcall -> hresp) (junk : Z).

Lemma wp_lib_call op v (Q : hresp -> W -> Prop) (w : W) : g_vendor_interface (globals w) = Some v -> lib_interface_ v <> 0 ->
  (forall r, r = answer (trace w) (Clib_op op) -> Q r (World (globals w) (trace w ++ [(Clib_op op, r)]))) ->
  wp (lib_op answer op) Q w.
Proof.
  intros Hv Hi HQ. unfold lib_op. apply wp_bind. eapply wp_the_vi; [exact Hv|]. rewrite (proj2 (Z.eqb_neq _ 0)) by done.
  by apply sys_eq.
Qed.

Lemma calls_snoc tr c r : calls_of (tr ++ [(c, r)]) = calls_of tr ++ [c].
Proof. unfold calls_of. by rewrite map_app. Qed.

(** Watching the first descriptor starts the thread. *)
Lemma watch_starts h i fd a b v (Q : option Z -> W -> Prop) (w : W) :
  starts answer h i fd a b -> g_vendor_interface (globals w) = Some v -> fd_watcher_ v = watcher0 ->
  (forall r1 r2, Q (Some 0) (World (with_interface (globals w)
       (Some (with_watcher (mk_watcher true true false false [(fd, H4_OnDataReady)] a b None 0) v)))
     (trace w ++ [(Cpipe2, r1); (Cstart_thread, r2)]))) ->
  wp (WatchFdForNonBlockingReads answer fd H4_OnDataReady) Q w.
Proof.
  intros Hs Hv Hw HQ. destruct w as [[g1 g2 g3 g4 g5 gv g7 g8] tr], v as [v1 v2 v3 v4 v5 v6].
  cbn [globals trace g_vendor_interface fd_watcher_] in *. subst gv v3.
  unfold WatchFdForNonBlockingReads. apply wp_bind. eapply wp_lock_internal; [reflexivity|reflexivity|].
  apply wp_bind. eapply wp_mod_vi; [reflexivity|]. apply wp_bind. eapply wp_mod_vi; [reflexivity|].
  unfold tryStartThread. apply wp_bind. eapply wp_the_watcher; [reflexivity|]. apply wp_bind. eapply wp_mod_vi; [reflexivity|].
  cbn [fd_watcher_ with_watcher with_running with_internal_mutex with_watched watcher0 running_ thread_ watched_fds_ watch_fd
       internal_mutex_ timeout_mutex_ notification_listen_fd_ notification_write_fd_ timeout_cb_ timeout_ms_].
  apply wp_bind, sys_eq. cbn [globals trace]. intros r1 E1. destruct (starts_pipe _ _ _ _ _ _ Hs tr) as [Ep Ed].
  rewrite <- E1 in Ep, Ed. rewrite Ep. cbn [Z.eqb negb]. rewrite Ed.
  apply wp_bind. eapply wp_lift; [reflexivity|]. apply wp_bind. eapply wp_lift; [reflexivity|].
  apply wp_bind. eapply wp_mod_vi; [reflexivity|]. apply wp_bind, sys_eq. cbn [globals trace]. intros r2 E2.
  rewrite E2, (starts_thread _ _ _ _ _ _ Hs). cbn [Z.eqb negb orb]. apply wp_bind. eapply wp_mod_vi; [reflexivity|]. apply wp_ret.
  rewrite <- E2. specialize (HQ r1 r2). rewrite <- app_assoc. exact HQ.
Qed.

Lemma Open_h4 h i fd a b (w : W) : starts answer h i fd a b -> g_vendor_interface (globals w) = Some vendor_interface0 ->
  wp (Open answer) (fun o w' => o = Some true /\ globals w' = with_deasserted (with_interface (globals w) (Some (opened h i fd a b))) true
    /\ calls_of (trace w') = calls_of (trace w) ++ [Cdlopen; Cdlsym h; Clib_init; Clib_op (Power_ctrl true);
         Clib_op Userial_open; Cpipe2; Cstart_thread; Clib_op Fw_cfg]) w.
Proof.
  intros Hs Hv. destruct w as [[g1 g2 g3 g4 g5 gv g7 g8] tr]. cbn [globals trace g_vendor_interface] in *. subst gv. unfold Open.
  destruct (starts_lib _ _ _ _ _ _ Hs []) as [_ Hh]. destruct (starts_sym _ _ _ _ _ _ Hs []) as [_ Hi].
  apply wp_bind. eapply wp_mod_vi; [reflexivity|]. apply wp_bind, sys_eq. intros r ->.
  rewrite (proj1 (starts_lib _ _ _ _ _ _ Hs _)). apply wp_bind. eapply wp_mod_vi; [reflexivity|].
  rewrite (proj2 (Z.eqb_neq h 0)) by done. apply wp_bind, sys_eq. intros r ->. rewrite (proj1 (starts_sym _ _ _ _ _ _ Hs _)).
  apply wp_bind. eapply wp_mod_vi; [reflexivity|]. rewrite (proj2 (Z.eqb_neq i 0)) by done.
  cbn [globals trace with_interface]. apply wp_bind, sys_eq. intros r ->. rewrite (starts_init _ _ _ _ _ _ Hs). cbn [Z.eqb negb].
  apply wp_bind. eapply wp_lib_call; [reflexivity|exact Hi|]. intros r _.
  apply wp_bind. eapply wp_lib_call; [reflexivity|exact Hi|]. intros r1 E1.
  assert (rv r1 = 1 /\ rdata r1 = [fd]) as [Ec El] by (rewrite E1; apply (starts_uart _ _ _ _ _ _ Hs)).
  rewrite Ec, El. apply wp_bind. eapply wp_lift; [reflexivity|]. cbn [Z.ltb Z.compare Pos.compare Pos.compare_cont CH_MAX Z.sub Z.add Z.opp Z.pos_sub Pos.pred_double orb].
  destruct (starts_fds _ _ _ _ _ _ Hs) as (Hfd & _). unfold fd_ok in Hfd. apply andb_true_iff in Hfd as [Hfd%Z.leb_le _].
  replace (existsb _ _) with false by (symmetry; change (((fd =? INVALID_FD) || false) = false); rewrite (proj2 (Z.eqb_neq fd INVALID_FD)) by (unfold INVALID_FD; lia); done).
  cbn [globals trace with_interface]. apply wp_attempt. unfold open_protocol. cbn [Z.eqb Pos.eqb]. apply wp_bind. eapply wp_lift; [reflexivity|].
  apply wp_attempt. eapply watch_starts; [exact Hs|reflexivity|reflexivity|]. intros r2 r3.
  apply wp_bind. eapply wp_mod_vi; [reflexivity|]. apply wp_ret, wp_bind, wp_mod, wp_bind.
  eapply wp_mod_vi; [reflexivity|]. cbn [globals trace with_interface]. apply wp_bind. eapply wp_lib_call; [reflexivity|exact Hi|]. intros r4 _.
  cbn [globals trace with_interface]. apply wp_ret. split_and!; [done|done|]. cbn [trace]. unfold calls_of. rewrite !map_app, <- !app_assoc. done.
Qed.

(** *** What stays until [close] *)

(** The library at [h] and [i], the pipe [a], [b] and the thread are there; [m]: a callback is running. *)
Definition live_vi (h i a b : Z) (m : bool) (v : vendor_interface) : Prop :=
  lib_handle_ v = h /\ lib_interface_ v = i /\ running_ (fd_watcher_ v) = true /\ thread_ (fd_watcher_ v) = true
  /\ internal_mutex_ (fd_watcher_ v) = m /\ timeout_mutex_ (fd_watcher_ v) = false
  /\ notification_listen_fd_ (fd_watcher_ v) = a /\ notification_write_fd_ (fd_watcher_ v) = b.
Definition live (h i a b : Z) (m : bool) (s : hci_globals) : Prop :=
  unlink_cb_ s = true /\ has_died_ s = false /\ exists v, g_vendor_interface s = Some v /\ live_vi h i a b m v.

Section Live.
Context (h i a b : Z) (patience : nat).
Definition lives (m : bool) (w w' : W) : Prop := live h i a b m (globals w) -> live h i a b m (globals w').

#[local] Instance lives_preorder m : PreOrder (lives m).
Proof. split; [intros w H; exact H|]. intros w1 w2 w3 H1 H2. unfold lives in *. auto. Qed.

Lemma lives_call m c : keeps (lives m) (io_call answer c).
Proof. intros w H. exact H. Qed.
Lemma lives_mod m f : (forall s, g_vendor_interface (f s) = g_vendor_interface s /\ unlink_cb_ (f s) = unlink_cb_ s /\ has_died_ (f s) = has_died_ s) ->
  keeps (lives m) (io_mod f).
Proof.
  intros Hf w. unfold wlp, io_mod, lives, live. cbn [globals]. destruct (Hf (globals w)) as (-> & -> & ->). done.
Qed.
Lemma lives_mod_vi m f : (forall v, live_vi h i a b m v -> live_vi h i a b m (f v)) -> keeps (lives m) (mod_vi f).
Proof.
  intros Hf w. unfold wlp, mod_vi, io_mod, lives. cbn [globals]. intros (H1 & H2 & v & Hv & Hl). rewrite Hv. split_and!; [done|done|].
  exists (f v). split; [done|auto].
Qed.
#[local] Hint Resolve lives_call : keeps.
Lemma lives_the_vi m : keeps (lives m) the_vi.
Proof. unfold the_vi. keeps_all. Qed.
#[local] Hint Resolve lives_the_vi : keeps.
Lemma lives_the_watcher m : keeps (lives m) the_watcher.
Proof. unfold the_watcher. keeps_all. Qed.
#[local] Hint Resolve lives_the_watcher : keeps.
Lemma lives_lib_op m op : keeps (lives m) (lib_op answer op).
Proof. unfold lib_op. keeps_all. Qed.
Lemma lives_notify m : keeps (lives m) (notifyThread answer).
Proof. unfold notifyThread. keeps_all. Qed.
#[local] Hint Resolve lives_lib_op lives_notify : keeps.

(** The mutex of the timeout is free again. *)
Lemma lives_configure m t cb : keeps (lives m) (ConfigureTimeout answer t cb).
Proof.
  intros w. unfold ConfigureTimeout, lives. apply wlp_bind. unfold lock_timeout. apply wlp_bind.
  unfold the_watcher. apply wlp_bind, wlp_the_vi. intros v Hv. unfold wlp at 1, io_ret.
  destruct (timeout_mutex_ (fd_watcher_ v)); [done|]. unfold wlp at 1, mod_watcher, mod_vi, io_mod.
  apply wlp_bind. unfold wlp at 1. apply wlp_bind. unfold wlp at 1, unlock_timeout, mod_watcher, mod_vi, io_mod.
  apply wlp_bind. eapply wlp_mono; [apply lives_notify|]. cbn beta. intros _ w1 H1. unfold wlp, io_ret. intros (Hu & Hd & v1 & Hv1 & Hl).
  apply (H1 : live h i a b m _ -> _). cbn [globals]. rewrite Hv. rewrite Hv in Hv1. injection Hv1 as <-. split_and!; [done|done|].
  eexists. split; [reflexivity|]. unfold live_vi in *. destruct v as [? ? [] ? ? ?]. cbn in *. naive_solver.
Qed.
#[local] Hint Resolve lives_configure : keeps.

Lemma lives_OnTimeout m : keeps (lives m) (OnTimeout answer).
Proof. unfold OnTimeout. keeps_all; by apply lives_mod. Qed.
Lemma lives_WriteSafely m fd data : keeps (lives m) (WriteSafely answer patience fd data).
Proof.
  unfold WriteSafely. generalize (S patience * length data)%nat as fuel, 0 as n, (zlen data) as len. intros fuel.
  induction fuel as [|fuel IH]; intros n len; cbn [write_loop]; keeps_all; apply IH.
Qed.
#[local] Hint Resolve lives_WriteSafely : keeps.
Lemma lives_Send m ty data : keeps (lives m) (Send answer patience ty data).
Proof. unfold Send, h4_Send, mct_Send. keeps_all; by apply lives_mod. Qed.
Lemma lives_firmware m r : keeps (lives m) (firmware_config_cb answer r).
Proof.
  unfold firmware_config_cb, OnFirmwareConfigured. keeps_all; try by apply lives_mod_vi.
  apply lives_mod. intros s. by destruct (rdata _).
Qed.
Lemma lives_event m packet : keeps (lives m) (HandleIncomingEvent answer packet).
Proof. unfold HandleIncomingEvent. keeps_all. by apply lives_mod. Qed.
#[local] Hint Resolve lives_event : keeps.
Lemma lives_packetizer {A} m p fd ty (ready : list Z -> io hci_globals hcall hresp (option A)) :
  (forall packet, keeps (lives m) (ready packet)) -> keeps (lives m) (OnDataReady answer junk p fd ty ready).
Proof. intros Hr. unfold OnDataReady. keeps_all. Qed.
Lemma lives_read_ready m cb fd : keeps (lives m) (read_ready answer junk cb fd).
Proof.
  unfold read_ready, h4_OnDataReady, h4_OnPacketReady, OnEventDataReady, OnAclDataReady, OnEventPacketReady, OnAclDataPacketReady.
  keeps_all; try (by apply lives_mod_vi); apply lives_packetizer; intros packet; keeps_all.
Qed.

Lemma lives_ready_callbacks m l fds : keeps (lives m) (ready_callbacks (read_ready answer junk) l fds).
Proof. induction l as [|it l IH]; cbn [ready_callbacks]; keeps_all; try apply lives_read_ready; exact IH. Qed.

Lemma live_mutex m m' (w : W) : live h i a b m (globals w) ->
  wlp (mod_watcher (with_internal_mutex m')) (fun _ w' => live h i a b m' (globals w')) w.
Proof.
  intros (Hu & Hd & v & Hv & Hl). unfold wlp, mod_watcher, mod_vi, io_mod. cbn [globals]. rewrite Hv. split_and!; [done|done|].
  eexists. split; [reflexivity|]. unfold live_vi in *. destruct v as [? ? [] ? ? ?]. cbn in *. naive_solver.
Qed.

Lemma live_lock (w : W) : live h i a b false (globals w) -> wlp lock_internal (fun _ w' => live h i a b true (globals w')) w.
Proof.
  intros Hl. unfold lock_internal. apply wlp_bind. eapply wlp_mono; [apply lives_the_watcher|]. cbn beta. intros fw w1 H1.
  destruct (internal_mutex_ fw); [done|]. eapply live_mutex. exact (H1 Hl).
Qed.

(** The part of the round that looks at the timeout. *)
Lemma live_timeout {A} m (k : fd_watcher -> io hci_globals hcall hresp A) Q (w : W) : live h i a b m (globals w) ->
  (forall fw w', live h i a b m (globals w') -> wlp (k fw) Q w') ->
  wlp (do _ <- lock_timeout; do fw <- the_watcher; do _ <- unlock_timeout; k fw) Q w.
Proof.
  intros (Hu & Hd & v & Hv & Hl) HQ. apply wlp_bind. unfold lock_timeout, the_watcher. apply wlp_bind, wlp_bind, wlp_the_vi. intros v1 Hv1.
  rewrite Hv in Hv1. injection Hv1 as <-. unfold wlp at 1, io_ret. assert (timeout_mutex_ (fd_watcher_ v) = false) as Ht by apply Hl.
  rewrite Ht. unfold wlp at 1, mod_watcher, mod_vi, io_mod. apply wlp_bind, wlp_bind, wlp_the_vi. intros v1 _.
  unfold wlp at 1. apply wlp_bind. unfold wlp at 1, unlock_timeout, mod_watcher, mod_vi, io_mod. apply HQ.
  cbn [globals g_vendor_interface with_interface]. rewrite Hv. split_and!; [done|done|].
  eexists. split; [reflexivity|]. unfold live_vi in *. destruct v as [? ? [] ? ? ?]. cbn in *. naive_solver.
Qed.

(** A round ends with the mutexes free, unless the process ended. *)
Lemma live_round (w : W) : live h i a b false (globals w) ->
  wlp (thread_round answer (read_ready answer junk) (time_over answer)) (fun o w' => o = None \/ live h i a b false (globals w')) w.
Proof.
  intros Hl. unfold thread_round. apply wlp_bind. eapply wlp_mono; [apply lives_the_watcher|]. cbn beta. intros fw w1 H1. specialize (H1 Hl).
  destruct (negb _); [done|]. apply wlp_bind. unfold wlp at 1, io_call.
  destruct (_ <? 0); [by right|]. destruct (_ =? 0).
  - eapply live_timeout; [exact H1|]. intros fw2 w2 H2.
    destruct (if 0 <? timeout_ms_ fw2 then timeout_cb_ fw2 else None) as [[|]|]; [|by right..].
    eapply wlp_mono; [apply (lives_OnTimeout false)|]. cbn beta. intros o w3 H3. right. exact (H3 H2).
  - destruct (bool_decide _).
    + apply wlp_bind. unfold wlp, io_call, io_ret. by right.
    + apply wlp_bind. eapply wlp_mono; [by apply live_lock|]. cbn beta. intros _ w2 H2.
      apply wlp_bind. eapply wlp_mono; [apply (lives_the_watcher true)|]. cbn beta. intros fw3 w3 H3. specialize (H3 H2).
      apply wlp_attempt. eapply wlp_mono; [apply (lives_ready_callbacks true)|]. cbn beta. intros [[]|] w4 H4; [|by left].
      apply wlp_bind. eapply wlp_mono; [eapply live_mutex; exact (H4 H3)|]. cbn beta. intros _ w5 H5. unfold wlp, io_ret. by right.
Qed.

(** Everything but [close]. *)
Definition not_close (op : hal_op) : bool := match op with Op_close | Op_serviceDied => false | _ => true end.

Lemma live_initialize cb (w : W) : live h i a b false (globals w) ->
  wlp (initialize answer cb) (fun o w' => live h i a b false (globals w')) w.
Proof.
  intros (Hu & Hd & v & Hv & Hl). unfold initialize. destruct cb; [|by split_and!; [..|exists v]].
  apply wlp_bind. unfold wlp at 1, io_mod. apply wlp_bind. unfold wlp at 1, io_call. apply wlp_attempt. unfold Initialize.
  apply wlp_bind. unfold wlp at 1, io_get. cbn [globals g_vendor_interface with_client]. rewrite Hv. unfold wlp at 1, io_ret.
  cbn [negb]. apply wlp_bind, wlp_bind. unfold wlp at 1, io_call. unfold wlp at 1. apply wlp_bind. unfold wlp, io_mod.
  split_and!; [done|done|by exists v].
Qed.

Lemma live_step op (w : W) : not_close op = true -> live h i a b false (globals w) ->
  wlp (hal_step answer junk patience op) (fun o w' => o = None \/ live h i a b false (globals w')) w.
Proof.
  intros Hop Hl. assert (forall ty d, wlp (Send answer patience ty d) (fun _ w' => live h i a b false (globals w')) w) as Hsend.
  { intros ty d. eapply wlp_mono; [apply (lives_Send false)|]. cbn beta. auto. }
  assert (forall ty d, wlp (sendDataToController answer patience ty d) (fun o w' => o = None \/ live h i a b false (globals w')) w) as Hdata.
  { intros ty d. apply wlp_attempt. eapply wlp_mono; [apply Hsend|]. cbn beta. intros [n|] w1 H1; [unfold wlp, io_ret|]; by auto. }
  destruct op; cbn [hal_step]; try done; try apply Hdata.
  - eapply wlp_mono; [by apply live_initialize|]. auto.
  - apply wlp_attempt. unfold transmit_cb. apply wlp_bind. unfold wlp at 1, io_mod. apply wlp_bind, wlp_lift. intros d _.
    apply wlp_attempt. eapply wlp_mono; [apply (lives_Send false)|]. cbn beta. intros [n|] w1 H1; [|by left]. unfold wlp, io_ret. right. exact (H1 Hl).
  - eapply wlp_mono; [apply (lives_firmware false)|]. cbn beta. auto.
  - apply wlp_attempt, wlp_bind. eapply wlp_mono; [apply (lives_the_watcher false)|]. cbn beta. intros fw w1 H1.
    destruct (negb _); [unfold wlp, io_ret; right; exact (H1 Hl)|]. apply wlp_attempt.
    eapply wlp_mono; [apply live_round; exact (H1 Hl)|]. cbn beta. intros [[]|] w2 [|H2]; try done; unfold wlp, io_ret; by auto.
Qed.

Lemma live_run ops (w : W) : forallb not_close ops = true -> live h i a b false (globals w) ->
  wlp (hal_run answer junk patience ops) (fun o w' => o = None \/ live h i a b false (globals w')) w.
Proof.
  revert w. induction ops as [|op ops IH]; intros w Hops Hl; cbn [hal_run]; [unfold wlp, io_ret; by right|].
  cbn [forallb] in Hops. apply andb_true_iff in Hops as [Hop Hops]. apply wlp_attempt. eapply wlp_mono; [by apply live_step|].
  cbn beta. intros [[]|] w1 [|H1]; try done; auto.
Qed.
End Live.

(** *** Closing *)
Definition close_calls (h a b : Z) : list hcall :=
  [Cunlink_to_death; Clib_op (Lpm_set_mode false); Cnotify b; Cjoin; Cclose a; Cclose b; Clib_op Userial_close;
   Clib_op (Power_ctrl false); Clib_cleanup; Cdlclose h].

Lemma wp_notify v (Q : Z -> W -> Prop) (w : W) : g_vendor_interface (globals w) = Some v ->
  (forall z r, Q z (World (globals w) (trace w ++ [(Cnotify (notification_write_fd_ (fd_watcher_ v)), r)]))) ->
  wp (notifyThread answer) Q w.
Proof.
  intros Hv HQ. unfold notifyThread. apply wp_bind. eapply wp_the_watcher; [exact Hv|]. apply wp_bind, sys_any. intros r.
  destruct (_ <? 0); apply wp_ret, HQ.
Qed.

Lemma stopThread_live h i a b v (Q : option Z -> W -> Prop) (w : W) :
  g_vendor_interface (globals w) = Some v -> live_vi h i a b false v ->
  (forall r1 r2 r3 r4, Q (Some 0) (World (with_interface (globals w) (Some (with_watcher
       (mk_watcher false false false false [] a b None (timeout_ms_ (fd_watcher_ v))) v)))
     (trace w ++ [(Cnotify b, r1); (Cjoin, r2); (Cclose a, r3); (Cclose b, r4)]))) ->
  wp (stopThread answer false) Q w.
Proof.
  intros Hv Hl HQ. destruct w as [[g1 g2 g3 g4 g5 gv g7 g8] tr], v as [v1 v2 [t1 t2 t3 t4 t5 t6 t7 t8 t9] v4 v5 v6].
  unfold live_vi in Hl. cbn in Hv, Hl. destruct Hl as (_ & _ & -> & -> & -> & -> & -> & ->). subst gv. cbn [fd_watcher_ timeout_ms_] in HQ.
  unfold stopThread. apply wp_bind. eapply wp_the_watcher; [reflexivity|]. apply wp_bind. eapply wp_mod_vi; [reflexivity|]. cbn [running_ fd_watcher_ negb].
  apply wp_bind. eapply wp_notify; [reflexivity|]. intros z r1. cbn [globals trace with_interface thread_ fd_watcher_].
  apply wp_attempt, wp_bind, sys_any. intros r2. apply wp_bind. eapply wp_mod_vi; [reflexivity|]. apply wp_ret.
  cbn [globals trace with_interface]. apply wp_bind. eapply wp_lock_internal; [reflexivity|reflexivity|].
  apply wp_bind. eapply wp_mod_vi; [reflexivity|]. apply wp_bind. eapply wp_mod_vi; [reflexivity|]. cbn [globals trace with_interface].
  apply wp_bind. unfold lock_timeout. apply wp_bind. eapply wp_the_watcher; [reflexivity|].
  change (timeout_mutex_ _) with false. cbv iota. eapply wp_mod_vi; [reflexivity|].
  apply wp_bind. eapply wp_mod_vi; [reflexivity|]. apply wp_bind. eapply wp_mod_vi; [reflexivity|]. cbn [globals trace with_interface].
  apply wp_bind. eapply wp_the_watcher; [reflexivity|]. apply wp_bind, sys_any. intros r3. apply wp_bind, sys_any. intros r4.
  apply wp_ret. cbn [globals trace]. specialize (HQ r1 r2 r3 r4). rewrite <- !app_assoc. exact HQ.
Qed.

(** Everything that was started is stopped, in this order. *)
Lemma close_live h i a b (w : W) : h <> 0 -> i <> 0 -> live h i a b false (globals w) ->
  wp (close answer false) (fun o w' => o = Some tt /\ g_vendor_interface (globals w') = None
    /\ calls_of (trace w') = calls_of (trace w) ++ close_calls h a b) w.
Proof.
  intros Hh Hi (Hu & Hd & v & Hv & Hl). unfold close. apply wp_bind, wp_get. rewrite Hu, Hd. cbn [negb].
  apply wp_bind, wp_bind, sys_any. intros r0. apply wp_ret. unfold Shutdown. apply wp_bind, wp_get. cbn [globals]. rewrite Hv.
  destruct Hl as (Eh & Ei & Hl). apply wp_attempt. unfold Close. apply wp_bind. eapply wp_the_vi; [exact Hv|]. rewrite Eh, Ei.
  rewrite (proj2 (Z.eqb_neq i 0)), (proj2 (Z.eqb_neq h 0)) by done. cbn [negb].
  apply wp_bind, wp_bind. eapply wp_lib_call; [exact Hv|by rewrite Ei|]. intros r1 _. apply wp_ret. cbn [globals trace].
  apply wp_attempt. unfold StopWatchingFileDescriptors. apply wp_attempt. eapply (stopThread_live h i a b); [exact Hv|exact (conj Eh (conj Ei Hl))|].
  intros r2 r3 r4 r5. cbn [globals trace]. apply wp_ret, wp_bind. eapply wp_mod_vi; [reflexivity|].
  apply wp_bind, wp_bind. eapply wp_lib_call; [reflexivity|cbn; congruence|]. intros r6 _.
  apply wp_bind. eapply wp_lib_call; [reflexivity|cbn; congruence|]. intros r7 _. apply wp_bind, sys_any. intros r8. apply wp_ret.
  apply wp_bind, wp_bind, sys_any. intros r9. eapply wp_mod_vi; [reflexivity|]. apply wp_bind. eapply wp_mod_vi; [reflexivity|]. apply wp_ret.
  apply wp_bind. eapply wp_the_watcher; [reflexivity|]. change (thread_ _) with false. cbv iota. apply wp_bind, wp_mod, wp_ret.
  split_and!; [done|done|]. cbn [trace]. unfold calls_of. rewrite !map_app, <- !app_assoc. done.
Qed.

(** The state after a successful start. *)
Lemma initialize_live h i fd a b (w : W) : starts answer h i fd a b -> g_vendor_interface (globals w) = None ->
  wp (initialize answer true) (fun o w' => o = Some tt /\ live h i a b false (globals w')
    /\ g_vendor_interface (globals w') = Some (opened h i fd a b) /\ lpm_wake_deasserted (globals w') = true
    /\ calls_of (trace w') = calls_of (trace w) ++ [Clink_to_death; Cdlopen; Cdlsym h; Clib_init; Clib_op (Power_ctrl true);
         Clib_op Userial_open; Cpipe2; Cstart_thread; Clib_op Fw_cfg]) w.
Proof.
  intros Hs Hv. unfold initialize. cbn [negb]. apply wp_bind, wp_mod, wp_bind, sys_any. intros r. cbn [globals trace].
  apply wp_attempt. unfold Initialize. apply wp_bind, wp_get. cbn [globals with_client g_vendor_interface]. rewrite Hv.
  apply wp_bind, wp_mod. eapply wp_mono; [eapply Open_h4; [exact Hs|reflexivity]|]. cbn beta. intros o w1 (-> & Hg & Hc).
  cbn [negb]. apply wp_bind, wp_ret, wp_bind, wp_mod, wp_ret. cbn [globals trace] in *. rewrite Hg, Hc, calls_snoc, <- app_assoc.
  split; [done|]. split; [|by split_and!]. split; [done|]. split; [done|]. eexists. split; [reflexivity|]. unfold live_vi. by split_and!.
Qed.
End Session.

(** ** When initialising fails *)
Definition unopened (w w' : W) : Prop :=
  reports (trace w') = reports (trace w)
  /\ (forall v, g_vendor_interface (globals w) = Some v -> hci_ v = None ->
        exists v', g_vendor_interface (globals w') = Some v' /\ hci_ v' = None).
#[export] Instance unopened_preorder : PreOrder unopened.
Proof.
  split; [intros w; split; [done|eauto]|]. intros w1 w2 w3 [H1 H2] [H3 H4]. split; [congruence|].
  intros v Hv Hp. destruct (H2 v Hv Hp) as (v' & Hv' & Hp'). eauto.
Qed.

Section Failing.
Context (answer : list (hcall * hresp) -> hcall -> hresp).

(** Calls that tell the client nothing. *)
Definition silent_call (c : hcall) : bool := match c with Cinitialization_complete _ => false | _ => true end.

Lemma reports_snoc tr c r : reports (tr ++ [(c, r)]) = reports tr ++ report_of (c, r).
Proof. unfold reports. rewrite map_app, concat_app. cbn [map concat]. by rewrite app_nil_r. Qed.
Lemma unopened_call c : silent_call c = true -> keeps unopened (io_call answer c).
Proof.
  intros Hc w. unfold wlp, io_call, unopened. cbn [trace globals]. rewrite reports_snoc.
  split; [destruct c; cbn [report_of fst]; done || by rewrite app_nil_r|eauto].
Qed.
Lemma unopened_mod_vi f : (forall v, hci_ v = None -> hci_ (f v) = None) -> keeps unopened (mod_vi f).
Proof. intros Hf w. unfold wlp, mod_vi, io_mod, unopened. cbn [trace globals]. split; [done|]. intros v -> Hv. exists (f v). auto. Qed.
#[local] Hint Resolve unopened_call : keeps.
#[local] Hint Extern 1 (silent_call _ = true) => reflexivity : keeps.
Lemma unopened_mod_watcher f : keeps unopened (mod_watcher f).
Proof. by apply unopened_mod_vi. Qed.
Lemma unopened_the_vi : keeps unopened the_vi.
Proof. unfold the_vi. keeps_all. Qed.
#[local] Hint Resolve unopened_mod_watcher unopened_the_vi : keeps.
Lemma unopened_the_watcher : keeps unopened the_watcher.
Proof. unfold the_watcher. keeps_all. Qed.
#[local] Hint Resolve unopened_the_watcher : keeps.
Lemma unopened_lib_op op : keeps unopened (lib_op answer op).
Proof. unfold lib_op. keeps_all. Qed.
#[local] Hint Resolve unopened_lib_op : keeps.
Lemma unopened_watch fd cb : keeps unopened (WatchFdForNonBlockingReads answer fd cb).
Proof. unfold WatchFdForNonBlockingReads, tryStartThread, lock_internal, unlock_internal. keeps_all. Qed.
#[local] Hint Resolve unopened_watch : keeps.

(** [Open] tells the client nothing, and there is a protocol exactly when it succeeds. *)
Definition open_ends (o : option bool) (w w' : W) : Prop :=
  reports (trace w') = reports (trace w)
  /\ match o with
     | Some true => hci_on (globals w') /\ lpm_wake_deasserted (globals w') = true
     | Some false => exists v, g_vendor_interface (globals w') = Some v /\ hci_ v = None
     | None => True
     end.

(** A part of [Open] in front of the protocol. *)
Lemma open_bind {A} (m : io hci_globals hcall hresp A) (k : A -> io hci_globals hcall hresp (option bool)) w w1 :
  keeps unopened m -> unopened w w1 -> (forall a w2, unopened w w2 -> wlp (k a) (fun o w' => open_ends o w w') w2) ->
  wlp (io_bind m k) (fun o w' => open_ends o w w') w1.
Proof.
  intros Hm H1 Hk. apply wlp_bind. eapply wlp_mono; [apply Hm|]. cbn beta. intros a w2 H2. apply Hk. by transitivity w1.
Qed.

Lemma open_fails w v w1 : g_vendor_interface (globals w) = Some v -> hci_ v = None -> unopened w w1 ->
  wlp (io_ret (Some false)) (fun o w' => open_ends o w w') w1.
Proof. intros Hv Hp [H1 H2]. unfold wlp, io_ret. split; [done|]. exact (H2 v Hv Hp). Qed.

Lemma open_protocol_ends w v w1 n l (k : unit -> io hci_globals hcall hresp (option bool)) :
  g_vendor_interface (globals w) = Some v -> hci_ v = None -> unopened w w1 ->
  (forall w2, reports (trace w2) = reports (trace w) -> hci_on (globals w2) -> wlp (k tt) (fun o w' => open_ends o w w') w2) ->
  wlp (try x <- open_protocol answer n l; k x) (fun o w' => open_ends o w w') w1.
Proof.
  intros Hv Hp H1 Hk. apply wlp_attempt.
  apply (wlp_mono _ (fun o w2 => reports (trace w2) = reports (trace w) /\ (o <> None -> hci_on (globals w2)))).
  2: { intros [[]|] w2 [Hr Hon]; [apply Hk; [done|by apply Hon]|by split]. }
  assert (forall fd cb (k' : Z -> io hci_globals hcall hresp (option unit)) w2, unopened w w2 ->
    (forall z w3, unopened w w3 -> wlp (k' z) (fun o w' => reports (trace w') = reports (trace w) /\ (o <> None -> hci_on (globals w'))) w3) ->
    wlp (try z <- WatchFdForNonBlockingReads answer fd cb; k' z)
      (fun o w' => reports (trace w') = reports (trace w) /\ (o <> None -> hci_on (globals w'))) w2) as Hwatch.
  { intros fd cb k' w2 H2 Hk'. apply wlp_attempt. eapply wlp_mono; [apply unopened_watch|]. cbn beta. intros [z|] w3 H3.
    - apply Hk'. by transitivity w2.
    - assert (unopened w w3) as [Hr _] by (by transitivity w2). by split. }
  assert (forall p w2, unopened w w2 -> wlp (do _ <- mod_vi (with_hci (Some p)); io_ret (Some tt))
    (fun o w' => reports (trace w') = reports (trace w) /\ (o <> None -> hci_on (globals w'))) w2) as Hend.
  { intros p w2 [Hr H2]. destruct (H2 v Hv Hp) as (v2 & Hv2 & _). apply wlp_bind. unfold wlp, mod_vi, io_mod, io_ret.
    cbn [trace globals]. split; [done|]. intros _. rewrite Hv2. by eexists _, p. }
  unfold open_protocol. destruct (n =? 1); apply wlp_bind, wlp_lift; intros fd _; apply Hwatch; [done|by intros; apply Hend|done|].
  intros _ w2 H2. apply wlp_bind, wlp_lift. intros fd2 _. apply Hwatch; [done|]. intros _ w3 H3. by apply Hend.
Qed.

Lemma Open_ends w v : g_vendor_interface (globals w) = Some v -> hci_ v = None ->
  wlp (Open answer) (fun o w' => open_ends o w w') w.
Proof.
  intros Hv Hp. assert (forall h i, keeps unopened (mod_vi (with_lib h i))) as Hlib by (intros h i; by apply unopened_mod_vi).
  unfold Open. apply open_bind; [by apply unopened_mod_vi|done|]. intros _ w1 H1.
  apply open_bind; [by apply unopened_call|done|]. intros h w2 H2. apply open_bind; [apply Hlib|done|]. intros _ w3 H3.
  destruct (rv h =? 0); [by eapply open_fails|]. apply open_bind; [by apply unopened_call|done|]. intros i w4 H4.
  apply open_bind; [apply Hlib|done|]. intros _ w5 H5. destruct (rv i =? 0); [by eapply open_fails|].
  apply open_bind; [by apply unopened_call|done|]. intros st w6 H6. destruct (negb _); [by eapply open_fails|].
  apply open_bind; [apply unopened_lib_op|done|]. intros _ w7 H7. apply open_bind; [apply unopened_lib_op|done|]. intros r w8 H8.
  apply open_bind; [apply keeps_lift; typeclasses eauto|done|]. intros l w9 H9. destruct (_ || _); [by eapply open_fails|].
  destruct (existsb _ _); [by eapply open_fails|]. eapply open_protocol_ends; [exact Hv|exact Hp|done|].
  intros w10 Hr (v1 & p & Hv1 & Hp1). apply wlp_bind. unfold wlp at 1, io_mod. apply wlp_bind. unfold wlp at 1, mod_vi, io_mod.
  apply wlp_bind, wlp_lib_op. intros r2. unfold wlp, io_ret, open_ends. cbn [trace globals].
  rewrite reports_snoc, app_nil_r. split; [done|]. split; [|done]. cbn [g_vendor_interface with_deasserted with_interface]. rewrite Hv1. by eexists _, p.
Qed.

(** A second [initialize] is refused, whatever became of the first one. *)
Lemma initialize_refused (w : W) v : g_vendor_interface (globals w) = Some v ->
  wp (initialize answer true) (fun o w' => o = Some tt /\ g_vendor_interface (globals w') = Some v
    /\ calls_of (trace w') = calls_of (trace w) ++ [Clink_to_death; Cinitialization_complete false]) w.
Proof.
  intros Hv. unfold initialize. cbn [negb]. apply wp_bind, wp_mod, wp_bind, sys_any. intros r1. apply wp_attempt. unfold Initialize.
  apply wp_bind, wp_get. cbn [globals with_client g_vendor_interface trace]. rewrite Hv. apply wp_ret. cbn [negb].
  apply wp_bind, wp_bind, sys_any. intros r2. apply wp_ret, wp_bind, wp_mod, wp_ret. cbn [globals trace with_client g_vendor_interface].
  split_and!; [done|done|]. unfold calls_of. rewrite !map_app, <- app_assoc. done.
Qed.
End Failing.

Lemma driver_starts fd s : fd_ok fd = true -> fd <> 8 -> starts (driver fd s) 100 200 fd 8 9.
Proof. intros Hfd Hne. split; intros; repeat split; auto; lia. Qed.

(** ** Properties *)

(** C23. Whatever happened since a successful [initialize], [close] stops the thread, closes both ends of the pipe and the
    driver, powers the controller off and unloads the library, each once and in this order. *)
Theorem close_releases answer junk patience h i fd a b ops w w' :
  starts answer h i fd a b -> g_vendor_interface (globals w) = None -> forallb not_close ops = true ->
  hal_run answer junk patience (Op_initialize true :: ops) w = Some (Some tt, w') ->
  wp (close answer false) (fun o w'' => o = Some tt /\ g_vendor_interface (globals w'') = None
    /\ calls_of (trace w'') = calls_of (trace w') ++
         [Cunlink_to_death; Clib_op (Lpm_set_mode false); Cnotify b; Cjoin; Cclose a; Cclose b; Clib_op Userial_close;
          Clib_op (Power_ctrl false); Clib_cleanup; Cdlclose h]) w'.
Proof.
  intros Hs Hv Hops Hrun. pose proof (proj2 (starts_lib _ _ _ _ _ _ Hs [])) as Hh. pose proof (proj2 (starts_sym _ _ _ _ _ _ Hs [])) as Hi.
  eapply (close_live answer h i a b); [done|done|]. cbn [hal_run hal_step] in Hrun. unfold attempt, io_bind in Hrun.
  destruct (wp_total _ _ _ (initialize_live answer h i fd a b w Hs Hv)) as (o & w1 & E & -> & Hl & _). rewrite E in Hrun.
  pose proof (live_run answer junk h i a b patience ops w1 Hops Hl) as Hlive. unfold wlp in Hlive. rewrite Hrun in Hlive.
  destruct Hlive as [|Hlive]; [done|exact Hlive].
Qed.

Lemma close_releases_witness :
  match hal_run (driver 7 []) 0 0 example_ops (World globals0 []) with
  | Some (Some tt, w') =>
      wp (close (driver 7 []) false) (fun o w'' => o = Some tt /\ g_vendor_interface (globals w'') = None
        /\ calls_of (trace w'') = calls_of (trace w') ++
             [Cunlink_to_death; Clib_op (Lpm_set_mode false); Cnotify 9; Cjoin; Cclose 8; Cclose 9; Clib_op Userial_close;
              Clib_op (Power_ctrl false); Clib_cleanup; Cdlclose 100]) w'
  | _ => False
  end.
Proof.
  destruct (hal_run (driver 7 []) 0 0 example_ops (World globals0 [])) as [[[[]|] w']|] eqn:E; [|by vm_compute in E..].
  apply (close_releases (driver 7 []) 0 0 100 200 7 8 9 (tl example_ops) (World globals0 []) w').
  - by apply driver_starts.
  - reflexivity.
  - reflexivity.
  - exact E.
Defined.


(** A system without the library. *)
Definition no_library (tr : list (hcall * hresp)) (c : hcall) : hresp := mk_hresp 0 0 [].


