(* ===== verification/GuiState.v ===== *)
(** The service of preallocated buffers (src/mediatek/graphics/gui_ext): its data (GuiExtImpl.h, GuiExtDataType.h), and
    the calls it makes to the libraries of the framework. *)
From Stdlib Require Import List.
From stdpp Require Import gmap.
From S2P Require Import Prelude Maps.

(** The values of headers that are not in the repository. *)
Class gui_headers := {
  BAD_INDEX : Z;
  BAD_VALUE : Z;
  NOT_ENOUGH_DATA : Z;
  INVALID_OPERATION : Z;
  WOULD_BLOCK : Z;
  NAME_NOT_FOUND : Z;
  UNKNOWN_TRANSACTION : Z;
  PERMISSION_DENIED : Z;
  GRALLOC_USAGE_SW_READ_RARELY : Z;
  GRALLOC_USAGE_SW_WRITE_NEVER : Z;
  GRALLOC_USAGE_HW_TEXTURE : Z;
  GRALLOC_USAGE_HW_COMPOSER : Z;
  HAL_PIXEL_FORMAT_YV12 : Z;
  HWC_DISPLAY_PRIMARY : Z;
  HWC_DISPLAY_VIRTUAL : Z;
  HWC_NUM_DISPLAY_TYPES : Z;
  FIRST_CALL_TRANSACTION : Z
}.

(** What the code relies on: errors are negative, and the displays are numbered from 0. *)
Class gui_headers_ok `(H : gui_headers) : Prop := {
  errors_negative : Forall (fun e => - 2 ^ 31 <= e < 0)
    [BAD_INDEX; BAD_VALUE; NOT_ENOUGH_DATA; INVALID_OPERATION; WOULD_BLOCK; NAME_NOT_FOUND; UNKNOWN_TRANSACTION; PERMISSION_DENIED];
  displays_numbered : HWC_DISPLAY_PRIMARY = 0 /\ 0 < HWC_NUM_DISPLAY_TYPES <= 8 /\ HWC_DISPLAY_VIRTUAL = HWC_NUM_DISPLAY_TYPES - 1
}.

Definition NO_ERROR : Z := 0.

(** gralloc_mtk_defs.h and graphics_mtk_defs.h *)
Definition GRALLOC_USAGE_SECURE : Z := 0x01000000.
Definition HAL_PIXEL_FORMAT_YUYV : Z := 0x0000010c.

Definition GUI_EXT_USAGE_GPU : Z := 0.
Definition GUI_EXT_USAGE_HWC : Z := 1.
Definition GUI_EXT_USAGE_MAX : Z := 2.

Definition MAX_ALLOC_SIZE : Z := 10.
Definition MAX_GLES_DEQUEUED_NUM : Z := 3.
Definition MAX_HWC_DEQUEUED_NUM : Z := 3.
Definition LOCK_FOR_USAGE `{gui_headers} : Z := GRALLOC_USAGE_SW_READ_RARELY .| GRALLOC_USAGE_SW_WRITE_NEVER .| GRALLOC_USAGE_HW_TEXTURE.

Definition POOL_COMBINED_ID (usage type idx : Z) : Z := u32 ((usage ≪ 6) .| (type ≪ 3) .| idx).

(** ** The objects; a pointer is an address, 0 is NULL *)

(** [DispInfo] *)
Record disp_info := mk_disp { d_type : Z; d_w : Z; d_h : Z; d_bufNum : Z }.
(** [HwcBqSlot] *)
Record hwc_slot := mk_queue { mProducer : Z; mConsumer : Z; q_type : Z; q_bufNum : Z }.
(** [ConsumerSlot]; whether it has an observer. *)
Record consumer_slot := mk_slot { s_usage : Z; s_type : Z; s_idx : Z; s_pid : Z; s_token : Z; s_observer : bool }.
(** [GuiExtPoolItem] *)
Record pool_item := mk_item {
  mId : Z;
  mIsHwcNeeded : bool;
  mGPUUsedProducer : Z;
  mHwcUsedBqList : keyed_vector hwc_slot;
  mProducerPid : Z;
  mProducerToken : Z;
  mIsDisconnected : list bool;
  mConsumerList : keyed_vector consumer_slot;
  mConsumerDeathListener : bool
}.
(** [GuiExtPool], and the tunnels of [GuiExtService] by their keys. *)
Record gui_pool := mk_pool {
  mPoolId : Z;
  mPoolList : keyed_vector pool_item;
  mDisplayList : keyed_vector disp_info;
  mDefaultDisplayWidth : Z;
  mDefaultDisplayHeight : Z;
  mDumpTunnels : list (list Z * Z)
}.
Definition pool0 : gui_pool := mk_pool 0 [] [] 0 0 [].

(** ** Calls *)
Inductive gcall :=
  | Cget_display_info
  | Clink_to_death (token : Z)
  | Clocal_binder (token : Z) (* whether the token belongs to the process of the service *)
  | Cgetpid
  | Cget_calling_pid
  | Cremote_binder (tunnel : Z)
  | Calive (tunnel : Z)
  | Ccheck_service (* of the service manager *)
  (* BufferQueue *)
  | Ccreate_queue
  | Cset_default_size (consumer w h : Z)
  | Cset_name (consumer : Z) (name : list Z)
  | Cset_max_dequeued (producer n : Z)
  | Cset_max_acquired (consumer n : Z)
  | Cconsumer_connect (consumer : Z)
  | Cproducer_connect (producer : Z)
  | Cdequeue (producer format usage : Z)
  | Crequest (producer buf : Z)
  | Ccancel (producer buf : Z).

(** [gdata]: width and height, producer and consumer, or the buffer, if it is set. *)
Record gresp := mk_gresp { grv : Z; gdata : list Z }.

(** ** Updates *)
Definition with_pool_id (i : Z) (s : gui_pool) : gui_pool :=
  mk_pool i (mPoolList s) (mDisplayList s) (mDefaultDisplayWidth s) (mDefaultDisplayHeight s) (mDumpTunnels s).
Definition with_pools (l : keyed_vector pool_item) (s : gui_pool) : gui_pool :=
  mk_pool (mPoolId s) l (mDisplayList s) (mDefaultDisplayWidth s) (mDefaultDisplayHeight s) (mDumpTunnels s).
Definition with_displays (l : keyed_vector disp_info) (s : gui_pool) : gui_pool :=
  mk_pool (mPoolId s) (mPoolList s) l (mDefaultDisplayWidth s) (mDefaultDisplayHeight s) (mDumpTunnels s).
Definition with_default (w h : Z) (s : gui_pool) : gui_pool :=
  mk_pool (mPoolId s) (mPoolList s) (mDisplayList s) w h (mDumpTunnels s).
Definition with_tunnels (l : list (list Z * Z)) (s : gui_pool) : gui_pool :=
  mk_pool (mPoolId s) (mPoolList s) (mDisplayList s) (mDefaultDisplayWidth s) (mDefaultDisplayHeight s) l.

Definition with_queues (q : keyed_vector hwc_slot) (i : pool_item) : pool_item :=
  mk_item (mId i) (mIsHwcNeeded i) (mGPUUsedProducer i) q (mProducerPid i) (mProducerToken i) (mIsDisconnected i)
    (mConsumerList i) (mConsumerDeathListener i).
Definition with_producer (pid token : Z) (i : pool_item) : pool_item :=
  mk_item (mId i) (mIsHwcNeeded i) (mGPUUsedProducer i) (mHwcUsedBqList i) pid token (mIsDisconnected i)
    (mConsumerList i) (mConsumerDeathListener i).
Definition with_disconnected (d : list bool) (i : pool_item) : pool_item :=
  mk_item (mId i) (mIsHwcNeeded i) (mGPUUsedProducer i) (mHwcUsedBqList i) (mProducerPid i) (mProducerToken i) d
    (mConsumerList i) (mConsumerDeathListener i).
Definition with_consumers (l : keyed_vector consumer_slot) (i : pool_item) : pool_item :=
  mk_item (mId i) (mIsHwcNeeded i) (mGPUUsedProducer i) (mHwcUsedBqList i) (mProducerPid i) (mProducerToken i)
    (mIsDisconnected i) l (mConsumerDeathListener i).
Definition with_listener (b : bool) (i : pool_item) : pool_item :=
  mk_item (mId i) (mIsHwcNeeded i) (mGPUUsedProducer i) (mHwcUsedBqList i) (mProducerPid i) (mProducerToken i)
    (mIsDisconnected i) (mConsumerList i) b.

(** A slot nobody holds. *)
Definition free_slot (s : consumer_slot) : consumer_slot := mk_slot (s_usage s) (s_type s) (s_idx s) (-1) 0 false.
