(* ===== verification/GuiPool.v ===== *)
(** The service of preallocated buffers: the pools (GuiExtImpl.cpp).

    A method of [GuiExtPoolItem] takes the item and returns it as the method leaves it; those of [GuiExtPool] write it
    back, which is what the shared object does. Each method of [GuiExtPool] locks [mLock] from its begin to its end
    (but [configDisplay]) and is one step here. *)
From Stdlib Require Import String List.
From stdpp Require Import gmap.
From S2P Require Import Prelude Maps Lights Effects GuiState.

Section Pool.
Context `{headers : gui_headers} (answer : list (gcall * gresp) -> gcall -> gresp).
Abbreviation IO := (io gui_pool gcall gresp).
Abbreviation sys := (io_call answer).

(** A call of a method of an object. *)
Definition on (object : Z) (c : gcall) : IO gresp := if object =? 0 then undefined else sys c.

(** The arguments [szUsageName[usage]] and [szDisplayType[type]] of the log. *)
Definition log_names (usage type : Z) : IO unit :=
  if (usage <? 2) && (type <? HWC_NUM_DISPLAY_TYPES) then io_ret tt else undefined.

(** [String8::appendFormat("_%d", i)] *)
Definition append_d (name : list Z) (i : Z) : list Z :=
  name ++ str "_" ++ (let v := i32 i in if v <? 0 then str "-" ++ dec_digits 10 (- v) else dec_digits 10 v).

Definition gAcquiredFormat : list Z := [HAL_PIXEL_FORMAT_YV12; HAL_PIXEL_FORMAT_YUYV].

(** [(NULL != token->localBinder()) ? getpid() : getCallingPid()] *)
Definition pid_of (token : Z) : IO Z :=
  do l <- on token (Clocal_binder token);
  do p <- sys (if negb (grv l =? 0) then Cgetpid else Cget_calling_pid);
  io_ret (grv p).

(** ** GuiExtPoolItem *)

(** The producer and the consumer of the queue. *)
Definition createBufferQueue (w h num : Z) (name : list Z) : IO (Z * Z) :=
  do q <- sys Ccreate_queue;
  do producer <- lift (aget (gdata q) 0);
  do consumer <- lift (aget (gdata q) 1);
  do _ <- on consumer (Cset_default_size consumer w h);
  do _ <- on consumer (Cset_name consumer name);
  do _ <- on producer (Cset_max_dequeued producer num);
  do _ <- on consumer (Cset_max_acquired consumer 2);
  do _ <- on consumer (Cconsumer_connect consumer);
  do _ <- on producer (Cproducer_connect producer);
  io_ret (producer, consumer).

(** A queue for each display. *)
Fixpoint create_queues (l : keyed_vector disp_info) (name : list Z) (queues : keyed_vector hwc_slot) : IO (keyed_vector hwc_slot) :=
  match l with
  | [] => io_ret queues
  | (_, d) :: l =>
    do pc <- createBufferQueue (d_w d) (d_h d) (d_bufNum d) (append_d name (d_type d));
    create_queues l name (kv_add (d_type d) (mk_queue pc.1 pc.2 (d_type d) (d_bufNum d)) queues)
  end.

Definition new_GuiExtPoolItem (token : Z) (isHwcNeeded : bool) (poolId w h : Z) (dispList : keyed_vector disp_info) : IO pool_item :=
  do queues <- (if isHwcNeeded then create_queues dispList (append_d (str "GuiExt_Hwc") poolId) [] else io_ret []);
  do pid <- pid_of token;
  io_ret (mk_item poolId isHwcNeeded 0 queues pid token (repeat true (Z.to_nat GUI_EXT_USAGE_MAX)) [] false).

(** The loops of [prepareBuffer]: every buffer is dequeued, then every one is cancelled. *)
Fixpoint dequeue_all (n : nat) (i producer usage type fmt usg : Z) (slots : keyed_vector consumer_slot) : IO (keyed_vector consumer_slot) :=
  match n with
  | O => io_ret slots
  | S n =>
    do _ <- on producer (Cdequeue producer fmt usg);
    let combine_id := POOL_COMBINED_ID usage type i in
    dequeue_all n (i + 1) producer usage type fmt usg
      match valueFor combine_id slots with
      | Some _ => slots
      | None => kv_add combine_id (mk_slot usage type i (-1) 0 false) slots
      end
  end.
Fixpoint cancel_all (n : nat) (i producer : Z) : IO unit :=
  match n with
  | O => io_ret tt
  | S n => do _ <- on producer (Ccancel producer i); cancel_all n (i + 1) producer
  end.

Definition prepareBuffer_queue (producer usage type gralloc_usage bufNum : Z) (item : pool_item) : IO (Z * pool_item) :=
  let usg := if negb (gralloc_usage .& GRALLOC_USAGE_SECURE =? 0) then LOCK_FOR_USAGE .| GRALLOC_USAGE_SECURE else LOCK_FOR_USAGE in
  do fmt <- lift (aget gAcquiredFormat usage);
  do slots <- dequeue_all (Z.to_nat bufNum) 0 producer usage type fmt usg (mConsumerList item);
  do _ <- cancel_all (Z.to_nat bufNum) 0 producer;
  io_ret (NO_ERROR, with_consumers slots item).

Fixpoint prepare_queues (l : keyed_vector hwc_slot) (gralloc_usage err : Z) (item : pool_item) : IO (Z * pool_item) :=
  match l with
  | [] => io_ret (err, item)
  | (_, q) :: l =>
    do r <- prepareBuffer_queue (mProducer q) GUI_EXT_USAGE_HWC (q_type q) gralloc_usage (q_bufNum q) item;
    prepare_queues l gralloc_usage r.1 r.2
  end.
Definition prepareBuffer (gralloc_usage : Z) (item : pool_item) : IO (Z * pool_item) :=
  if mIsHwcNeeded item then prepare_queues (mHwcUsedBqList item) gralloc_usage NO_ERROR item else io_ret (NO_ERROR, item).

Definition getIGraphicBufferProducer (usage type : Z) (item : pool_item) : Z :=
  if usage =? GUI_EXT_USAGE_HWC then
    match valueFor type (mHwcUsedBqList item) with
    | Some slot => if HWC_NUM_DISPLAY_TYPES <=? type then 0 else mProducer slot
    | None => 0
    end
  else mGPUUsedProducer item.

(** [buf] is what [*buf] holds before the call; the result is the status, [*buf] and the item. *)
Definition item_acquire (token usage type buf : Z) (item : pool_item) : IO (Z * Z * pool_item) :=
  if negb (mIsHwcNeeded item) && (usage =? GUI_EXT_USAGE_HWC) then io_ret (INVALID_OPERATION, buf, item)
  else
    let producer := getIGraphicBufferProducer usage type item in
    if producer =? 0 then io_ret (BAD_INDEX, buf, item)
    else
      do fmt <- lift (aget gAcquiredFormat usage);
      do ret <- on producer (Cdequeue producer fmt LOCK_FOR_USAGE);
      let buf := default buf (aget (gdata ret) 0) in
      if (grv ret =? WOULD_BLOCK) || (buf <? 0) then io_ret (WOULD_BLOCK, buf, item)
      else
        do _ <- on token (Clink_to_death token);
        let combine_id := POOL_COMBINED_ID usage type buf in
        match valueFor combine_id (mConsumerList item) with
        | None => io_ret (BAD_INDEX, buf, item)
        | Some consumerSlot =>
          do item <- (if s_token consumerSlot =? 0 then
                        do pid <- pid_of token;
                        io_ret (with_consumers (kv_add combine_id (mk_slot usage type buf pid token true) (mConsumerList item)) item)
                      else io_ret item);
          do connected <- lift (aset (mIsDisconnected item) usage false);
          io_ret (NO_ERROR, buf, with_listener true (with_disconnected connected item))
        end.

(** The status and [*buffer]. *)
Definition item_request (usage type buf buffer : Z) (item : pool_item) : IO (Z * Z) :=
  if negb (mIsHwcNeeded item) && (usage =? GUI_EXT_USAGE_HWC) then io_ret (INVALID_OPERATION, buffer)
  else
    let producer := getIGraphicBufferProducer usage type item in
    if producer =? 0 then io_ret (BAD_INDEX, buffer)
    else do r <- on producer (Crequest producer buf); io_ret (NO_ERROR, default buffer (aget (gdata r) 0)).

Definition item_release (usage type buf : Z) (item : pool_item) : IO (Z * pool_item) :=
  if negb (mIsHwcNeeded item) && (usage =? GUI_EXT_USAGE_HWC) then io_ret (INVALID_OPERATION, item)
  else
    let producer := getIGraphicBufferProducer usage type item in
    if producer =? 0 then io_ret (BAD_INDEX, item)
    else
      do _ <- on producer (Ccancel producer buf);
      let combine_id := POOL_COMBINED_ID usage type buf in
      io_ret (NO_ERROR,
        match valueFor combine_id (mConsumerList item) with
        | Some consumerSlot => with_consumers (kv_add combine_id (free_slot consumerSlot) (mConsumerList item)) item
        | None => item
        end).

Definition item_disconnect (usage : Z) (item : pool_item) : IO (Z * pool_item) :=
  if negb (mIsHwcNeeded item) && (usage =? GUI_EXT_USAGE_HWC) then io_ret (INVALID_OPERATION, item)
  else do d <- lift (aset (mIsDisconnected item) usage true); io_ret (NO_ERROR, with_disconnected d item).

(** ** GuiExtPool *)
Definition the_item (poolId : Z) : IO (option pool_item) := do s <- io_get; io_ret (valueFor poolId (mPoolList s)).
(** What a method leaves in the object with this key. *)
Definition put_item (poolId : Z) (item : pool_item) : IO unit := io_mod (fun s => with_pools (kv_add poolId item (mPoolList s)) s).

(** The ids that [getPoolId] tries; the first that is free. *)
Fixpoint next_free (fuel : nat) (pools : keyed_vector pool_item) (p : Z) : option Z :=
  match fuel with
  | O => None
  | S fuel =>
    let p := u32 (p + 1) mod MAX_ALLOC_SIZE in
    let id := if p =? 0 then MAX_ALLOC_SIZE else p in
    match valueFor id pools with None => Some id | Some _ => next_free fuel pools p end
  end.
Definition getPoolId : IO Z :=
  do s <- io_get;
  do id <- lift (next_free 10 (mPoolList s) (mPoolId s));
  do _ <- io_mod (with_pool_id id);
  io_ret id.

Definition default_display : IO unit :=
  do dinfo <- sys Cget_display_info;
  do w <- lift (aget (gdata dinfo) 0);
  do h <- lift (aget (gdata dinfo) 1);
  io_mod (fun s => with_displays (kv_add (u32 HWC_DISPLAY_PRIMARY) (mk_disp 0 w h MAX_HWC_DEQUEUED_NUM) (mDisplayList s)) (with_default w h s)).

(** The status and [*poolId]. *)
Definition alloc (token gralloc_usage w h : Z) : IO (Z * Z) :=
  do s <- io_get;
  if MAX_ALLOC_SIZE <=? zlen (mPoolList s) then io_ret (NOT_ENOUGH_DATA, 0)
  else
    do _ <- (if zlen (mPoolList s) =? 0 then default_display else io_ret tt);
    do poolId <- getPoolId;
    let isHwcNeeded := negb (gralloc_usage .& GRALLOC_USAGE_HW_COMPOSER =? 0) in
    do _ <- on token (Clink_to_death token);
    do s <- io_get;
    do item <- new_GuiExtPoolItem token isHwcNeeded poolId w h (mDisplayList s);
    do r <- prepareBuffer gralloc_usage item;
    if negb (r.1 =? NO_ERROR) then io_ret (r.1, 0)
    else do _ <- put_item poolId r.2; io_ret (r.1, poolId).

Definition removePoolItemLocked (poolId : Z) : IO unit :=
  do o <- the_item poolId;
  match o with
  | None => io_ret tt
  | Some item =>
    if forallb (fun d => d) (mIsDisconnected item) && (mProducerToken item =? 0)
    then io_mod (fun s => with_pools (removeItem poolId (mPoolList s)) s)
    else io_ret tt
  end.
Definition removePoolItem (poolId : Z) : IO unit := removePoolItemLocked poolId.

Definition free (poolId : Z) : IO Z :=
  do o <- the_item poolId;
  match o with
  | None => io_ret BAD_INDEX
  | Some item => do _ <- put_item poolId (with_producer (-1) 0 item); do _ <- removePoolItemLocked poolId; io_ret NO_ERROR
  end.

Definition acquire (token poolId usage type buf : Z) : IO (Z * Z) :=
  do o <- the_item poolId;
  match o with
  | None => do _ <- log_names usage type; io_ret (BAD_INDEX, -1)
  | Some item =>
    do r <- item_acquire token usage type buf item;
    do _ <- put_item poolId r.2;
    do _ <- log_names usage type;
    io_ret r.1
  end.

Definition request (poolId usage type buf buffer : Z) : IO (Z * Z) :=
  do o <- the_item poolId;
  match o with
  | None => do _ <- log_names usage type; io_ret (BAD_INDEX, buffer)
  | Some item => do r <- item_request usage type buf buffer item; do _ <- log_names usage type; io_ret r
  end.

Definition release (poolId usage type buf : Z) : IO Z :=
  do o <- the_item poolId;
  match o with
  | None => do _ <- log_names usage type; io_ret BAD_INDEX
  | Some item =>
    do r <- item_release usage type buf item;
    do _ <- put_item poolId r.2;
    do _ <- log_names usage type;
    io_ret r.1
  end.

Definition disconnect (poolId usage type : Z) : IO Z :=
  do o <- the_item poolId;
  match o with
  | None => do _ <- log_names usage type; io_ret BAD_INDEX
  | Some item =>
    do r <- item_disconnect usage item;
    do _ <- put_item poolId r.2;
    do _ <- removePoolItemLocked poolId;
    do _ <- log_names usage type;
    io_ret r.1
  end.

Definition configDisplay (type : Z) (enable : bool) (w h bufNum : Z) : IO unit :=
  do s <- io_get;
  if negb enable || (w =? 0) || (h =? 0) || (bufNum =? 0) then
    match valueFor type (mDisplayList s) with
    | Some _ =>
      do _ <- (if negb (type =? HWC_DISPLAY_PRIMARY) then io_mod (fun s => with_displays (removeItem type (mDisplayList s)) s) else io_ret tt);
      io_mod (fun s => with_displays (removeItem type (mDisplayList s)) s)
    | None => io_ret tt
    end
  else io_mod (fun s => with_displays (kv_add type (mk_disp type w h bufNum) (mDisplayList s)) s).

(** ** The observers of the deaths *)

(** [ProducerDeathObserver::binderDied]: the indices from [i - 1] down to 0. *)
Fixpoint producer_died_loop (who : Z) (i : nat) : IO unit :=
  match i with
  | O => io_ret tt
  | S i =>
    do s <- io_get;
    do e <- lift (aget (mPoolList s) (Z.of_nat i));
    do _ <- (if mProducerToken e.2 =? who then do _ <- put_item e.1 (with_producer (-1) 0 e.2); removePoolItem (mId e.2) else io_ret tt);
    producer_died_loop who i
  end.
Definition producer_died (who : Z) : IO unit := do s <- io_get; producer_died_loop who (length (mPoolList s)).

(** [ConsumerDeathObserver::binderDied]: the slots of the consumer are released in their order, ... *)
Fixpoint release_slots (n : nat) (i who : Z) (item : pool_item) : IO pool_item :=
  match n with
  | O => io_ret item
  | S n =>
    do e <- lift (aget (mConsumerList item) i);
    do item <- (if s_token e.2 =? who then
                  do r <- item_release (s_usage e.2) (s_type e.2) (s_idx e.2) item;
                  do slot <- lift (aget (mConsumerList r.2) i);
                  do l <- lift (aset (mConsumerList r.2) i (slot.1, free_slot slot.2));
                  io_ret (with_consumers l r.2)
                else io_ret item);
    release_slots n (i + 1) who item
  end.
(** ... then [mIsDisconnected] is computed again; whether no slot has a token. *)
Fixpoint still_connected (l : keyed_vector consumer_slot) (disconnected : list bool) (isDisconnect : bool) : option (list bool * bool) :=
  match l with
  | [] => Some (disconnected, isDisconnect)
  | (_, s) :: l =>
    if negb (s_token s =? 0) then disconnected ← aset disconnected (s_usage s) false; still_connected l disconnected false
    else still_connected l disconnected isDisconnect
  end.
Definition consumer_died (poolId who : Z) (item : pool_item) : IO unit :=
  if zlen (mConsumerList item) =? 0 then io_ret tt
  else
    do item <- release_slots (length (mConsumerList item)) 0 who item;
    do d <- lift (still_connected (mConsumerList item) (map (fun _ => true) (mIsDisconnected item)) true);
    let item := with_disconnected d.1 item in
    do _ <- put_item poolId item;
    if d.2 then if mConsumerDeathListener item then removePoolItem (mId item) else undefined
    else io_ret tt.

(** ** GuiExtService: the tunnels *)

(** [strcmp] *)
Fixpoint strcmp (a b : list Z) : comparison :=
  match a, b with
  | [], [] => Eq
  | [], _ => Lt
  | _, [] => Gt
  | x :: a, y :: b => match x ?= y with Eq => strcmp a b | c => c end
  end.
Fixpoint tunnel_add (key : list Z) (tunnel : Z) (l : list (list Z * Z)) : list (list Z * Z) :=
  match l with
  | [] => [(key, tunnel)]
  | e :: l' => match strcmp key e.1 with Eq => (key, tunnel) :: l' | Lt => (key, tunnel) :: l | Gt => e :: tunnel_add key tunnel l' end
  end.
Definition tunnel_remove (key : list Z) (l : list (list Z * Z)) : list (list Z * Z) :=
  List.filter (fun e => match strcmp key e.1 with Eq => false | _ => true end) l.
Fixpoint tunnel_get (key : list Z) (l : list (list Z * Z)) : option Z :=
  match l with [] => None | e :: l => match strcmp key e.1 with Eq => Some e.2 | _ => tunnel_get key l end end.

(** The loop that removes the tunnels that are dead, from the last to the first. *)
Fixpoint remove_zombies (l : list (list Z * Z)) : IO (list (list Z * Z)) :=
  match l with
  | [] => io_ret []
  | e :: l =>
    do l' <- remove_zombies l;
    do alive <- on e.2 (Calive e.2);
    io_ret (if grv alive =? 0 then l' else e :: l')
  end.

Definition regDump (tunnel : Z) (key : list Z) : IO Z :=
  do remote <- on tunnel (Cremote_binder tunnel);
  if grv remote =? 0 then io_ret NO_ERROR
  else
    do alive <- on tunnel (Calive tunnel);
    if grv alive =? 0 then io_ret BAD_VALUE
    else
      do _ <- on tunnel (Clink_to_death tunnel);
      do s <- io_get;
      do _ <- (if 200 <? zlen (mDumpTunnels s) then do l <- remove_zombies (mDumpTunnels s); io_mod (with_tunnels l) else io_ret tt);
      do _ <- io_mod (fun s => with_tunnels (tunnel_add key tunnel (mDumpTunnels s)) s);
      io_ret NO_ERROR.
(** It is also what the death of a tunnel calls. *)
Definition unregDump (key : list Z) : IO Z :=
  do _ <- io_mod (fun s => with_tunnels (tunnel_remove key (mDumpTunnels s)) s); io_ret NO_ERROR.

(** ** The service: GuiExtService.cpp hands each call to its pool; the deaths come from the binder

    The observer of a consumer lives in the slots that it holds: without one nothing is called. *)
Definition observed (who : Z) (item : pool_item) : bool :=
  existsb (fun e => (s_token e.2 =? who) && s_observer e.2) (mConsumerList item).
Definition consumer_death (poolId who : Z) : IO unit :=
  do o <- the_item poolId;
  match o with
  | Some item => if observed who item then consumer_died poolId who item else io_ret tt
  | None => io_ret tt
  end.

Inductive gui_op :=
  | Alloc (token gralloc_usage w h : Z)
  | Free (poolId : Z)
  | Acquire (token poolId usage type buf : Z)
  | Request (poolId usage type buf buffer : Z)
  | Release (poolId usage type buf : Z)
  | Disconnect (poolId usage type : Z)
  | ConfigDisplay (type : Z) (enable : bool) (w h bufNum : Z)
  | ProducerDied (who : Z)
  | ConsumerDied (poolId who : Z)
  | RegDump (tunnel : Z) (key : list Z)
  | UnregDump (key : list Z).

Definition gui_step (o : gui_op) : IO unit :=
  match o with
  | Alloc token usage w h => do _ <- alloc token usage w h; io_ret tt
  | Free id => do _ <- free id; io_ret tt
  | Acquire token id usage type buf => do _ <- acquire token id usage type buf; io_ret tt
  | Request id usage type buf buffer => do _ <- request id usage type buf buffer; io_ret tt
  | Release id usage type buf => do _ <- release id usage type buf; io_ret tt
  | Disconnect id usage type => do _ <- disconnect id usage type; io_ret tt
  | ConfigDisplay type enable w h bufNum => configDisplay type enable w h bufNum
  | ProducerDied who => producer_died who
  | ConsumerDied id who => consumer_death id who
  | RegDump tunnel key => do _ <- regDump tunnel key; io_ret tt
  | UnregDump key => do _ <- unregDump key; io_ret tt
  end.
Fixpoint gui_run (l : list gui_op) : IO unit :=
  match l with [] => io_ret tt | o :: l => do _ <- gui_step o; gui_run l end.
End Pool.
