(* ===== verification/GuiItems.v ===== *)
(** The service of preallocated buffers: what is true of every pool between two calls, and that each call of the
    service and each death keeps it. *)
From Stdlib Require Import String List.
From stdpp Require Import gmap.
From S2P Require Import Prelude Maps Effects GuiState GuiPool.

Section Types.
Context `{headers : gui_headers}.

(** A slot under the key [c] of the list of an item. *)
Record slot_ok (item : pool_item) (c : Z) (s : consumer_slot) : Prop := {
  slot_usage : s_usage s = GUI_EXT_USAGE_HWC;
  slot_key : c = POOL_COMBINED_ID (s_usage s) (s_type s) (s_idx s);
  slot_queue : is_Some (valueFor (s_type s) (mHwcUsedBqList item));
  slot_free : s_token s = 0 -> s_pid s = -1 /\ s_observer s = false;
  slot_held : s_token s <> 0 -> s_observer s = true /\ s_type s < HWC_NUM_DISPLAY_TYPES
}.

(** A queue, and the slots that were made for its buffers. *)
Record queue_ok (item : pool_item) (k : Z) (q : hwc_slot) : Prop := {
  queue_key : q_type q = k;
  queue_producer : mProducer q <> 0;
  queue_slots : forall b, 0 <= b < q_bufNum q -> is_Some (valueFor (POOL_COMBINED_ID GUI_EXT_USAGE_HWC k b) (mConsumerList item))
}.

(** An item under the key [k] of the list of pools. *)
Record item_ok (k : Z) (item : pool_item) : Prop := {
  item_id : mId item = k /\ 1 <= k <= MAX_ALLOC_SIZE;
  item_gpu : mGPUUsedProducer item = 0;
  item_flags : exists d, mIsDisconnected item = [true; d] /\ (d = false -> mConsumerDeathListener item = true);
  item_needed : mIsHwcNeeded item = false -> mHwcUsedBqList item = [];
  item_queues : sorted_keys (mHwcUsedBqList item) /\ forall t q, In (t, q) (mHwcUsedBqList item) -> queue_ok item t q;
  item_slots : sorted_keys (mConsumerList item) /\ forall c s, In (c, s) (mConsumerList item) -> slot_ok item c s;
  item_listener : forall c s, In (c, s) (mConsumerList item) -> s_token s <> 0 -> mConsumerDeathListener item = true
}.

(** Somebody uses the item: its producer, or a consumer that has not disconnected. *)
Definition used (item : pool_item) : Prop := mProducerToken item <> 0 \/ In false (mIsDisconnected item).

Definition displays_ok (l : keyed_vector disp_info) : Prop :=
  sorted_keys l /\ forall k d, In (k, d) l -> d_type d = k /\ 0 <= k.

(** All is well, but perhaps nobody uses the pools in [but]. *)
Record pools_but (but : list Z) (s : gui_pool) : Prop := {
  pool_id : 0 <= mPoolId s <= MAX_ALLOC_SIZE;
  pool_size : zlen (mPoolList s) <= MAX_ALLOC_SIZE;
  pool_keys : sorted_keys (mPoolList s);
  pool_items : forall k i, In (k, i) (mPoolList s) -> item_ok k i /\ (used i \/ In k but);
  pool_displays : displays_ok (mDisplayList s);
  pool_tunnels : Forall (fun e => e.2 <> 0) (mDumpTunnels s)
}.
Definition pools_ok : gui_pool -> Prop := pools_but [].

Lemma pools_ok_0 : pools_ok pool0.
Proof.
  split; cbn; try done; try (unfold zlen, MAX_ALLOC_SIZE; cbn; lia); [constructor|]. split; [constructor|done].
Qed.

(** The arguments that the clients of the library pass. *)
Definition args_ok (usage type : Z) : Prop := 0 <= usage < GUI_EXT_USAGE_MAX /\ 0 <= type < HWC_NUM_DISPLAY_TYPES.
Definition op_ok (o : gui_op) : Prop :=
  match o with
  | Alloc token _ _ _ => token <> 0
  | Free _ => True
  | Acquire token _ usage type _ => token <> 0 /\ args_ok usage type
  | Request _ usage type _ _ | Release _ usage type _ | Disconnect _ usage type => args_ok usage type
  | ConfigDisplay type _ _ _ _ => 0 <= type
  | ProducerDied who => who <> 0
  | ConsumerDied _ who => who <> 0
  | RegDump tunnel _ => tunnel <> 0
  | UnregDump _ => True
  end.

(** Queues are made with both of their ends, and a display has a width and a height. *)
Definition answers_ok (answer : list (gcall * gresp) -> gcall -> gresp) : Prop :=
  forall tr, (exists p c l, gdata (answer tr Ccreate_queue) = p :: c :: l /\ p <> 0 /\ c <> 0)
    /\ (exists w h l, gdata (answer tr Cget_display_info) = w :: h :: l).
End Types.


(** ** The methods of an item *)
Section Methods.
Context `{headers : gui_headers} (answer : list (gcall * gresp) -> gcall -> gresp) (Hanswer : answers_ok answer).
Abbreviation W := (world gui_pool gcall gresp).

Lemma wp_on object c Q (w : W) : object <> 0 ->
  (forall r, Q r (World (globals w) (trace w ++ [(c, r)]))) -> wp (on answer object c) Q w.
Proof. unfold on. intros Hne HQ. destruct (Z.eqb_spec object 0); [done|]. by apply sys_any. Qed.

Lemma wp_log_names usage type Q (w : W) : args_ok usage type -> Q tt w -> wp (log_names usage type) Q w.
Proof.
  unfold args_ok, GUI_EXT_USAGE_MAX, log_names. intros [Hu Ht] HQ.
  rewrite (proj2 (Z.ltb_lt _ _)), (proj2 (Z.ltb_lt _ _)) by lia. by apply wp_ret.
Qed.

Lemma wp_pid_of token Q (w : W) : token <> 0 ->
  (forall pid w', globals w' = globals w -> Q pid w') -> wp (pid_of answer token) Q w.
Proof. unfold pid_of. intros Ht HQ. apply wp_bind, wp_on; [done|]. intros r. apply wp_bind, sys_any. intros p. apply wp_ret. by apply HQ. Qed.

Definition queues_ok (l : keyed_vector hwc_slot) : Prop :=
  sorted_keys l /\ forall t q, In (t, q) l -> q_type q = t /\ mProducer q <> 0.

Lemma queues_ok_nil : queues_ok [].
Proof. split; [constructor|done]. Qed.

Lemma create_queues_ok l name queues (w : W) : queues_ok queues ->
  wp (create_queues answer l name queues) (fun l' w' => globals w' = globals w /\ queues_ok l') w.
Proof using Hanswer.
  revert queues w. induction l as [|[k d] l IH]; intros queues w Hq; cbn [create_queues]; [by apply wp_ret|].
  unfold createBufferQueue. do 2 apply wp_bind. apply sys_eq. intros r Hr.
  destruct (proj1 (Hanswer (trace w))) as (p & c & rest & Hd & Hp & Hc). rewrite Hr, Hd.
  do 2 (eapply wp_bind, wp_lift; [done|]). repeat (apply wp_bind, wp_on; [assumption|intros ?]). apply wp_ret. cbn [fst snd].
  eapply wp_mono; [apply IH|cbn beta; by intros l' w' [-> H]]. destruct Hq as [Hs Hq]. split; [by apply kv_add_sorted|].
  intros t q [[-> ->]|[_ Hin]]%in_kv_add_iff; [done|by apply Hq|done].
Qed.

(** What the loop over the buffers adds to the slots. *)
Lemma dequeue_all_ok n i p type fmt usg slots (w : W) : p <> 0 -> sorted_keys slots ->
  wp (dequeue_all answer n i p GUI_EXT_USAGE_HWC type fmt usg slots) (fun slots' w' => globals w' = globals w /\ sorted_keys slots'
    /\ (forall c s, In (c, s) slots' -> In (c, s) slots \/
          exists b, i <= b < i + Z.of_nat n /\ c = POOL_COMBINED_ID GUI_EXT_USAGE_HWC type b /\ s = mk_slot GUI_EXT_USAGE_HWC type b (-1) 0 false)
    /\ (forall c, is_Some (valueFor c slots) -> is_Some (valueFor c slots'))
    /\ forall b, i <= b < i + Z.of_nat n -> is_Some (valueFor (POOL_COMBINED_ID GUI_EXT_USAGE_HWC type b) slots')) w.
Proof.
  intros Hp. revert i slots w. induction n as [|n IH]; intros i slots w Hs; cbn [dequeue_all].
  - apply wp_ret. split_and!; auto. intros b Hb. lia.
  - apply wp_bind, wp_on; [done|]. intros r. set (c0 := POOL_COMBINED_ID _ _ i).
    set (slots1 := match valueFor c0 slots with Some _ => slots | None => _ end).
    assert (sorted_keys slots1) as Hs1 by (unfold slots1; destruct (valueFor c0 slots); [done|by apply kv_add_sorted]).
    assert (is_Some (valueFor c0 slots1)) as Hc0.
    { unfold slots1. destruct (valueFor c0 slots) eqn:E; [by rewrite E|]. rewrite valueFor_add, Z.eqb_refl. done. }
    assert (forall c, is_Some (valueFor c slots) -> is_Some (valueFor c slots1)) as Hmono.
    { intros c Hc. unfold slots1. destruct (valueFor c0 slots) eqn:E; [done|]. rewrite valueFor_add. by destruct (c =? c0). }
    eapply wp_mono; [by apply IH|]. cbn beta. intros slots' w' (-> & Hs' & Hin & Hold & Hnew). split_and!; auto.
    + intros c s [Hc|(b & Hb & H)]%Hin; [|right; exists b; split; [lia|done]]. unfold slots1 in Hc. destruct (valueFor c0 slots); [by left|].
      apply in_kv_add_iff in Hc as [[-> ->]|[_ Hc]]; [right; exists i; split; [lia|done]|by left|done].
    + intros b Hb. destruct (decide (b = i)) as [->|]; [by apply Hold|]. apply Hnew. lia.
Qed.

Lemma cancel_all_ok n i p (w : W) : p <> 0 -> wp (cancel_all answer n i p) (fun _ w' => globals w' = globals w) w.
Proof.
  intros Hp. revert i w. induction n as [|n IH]; intros i w; cbn [cancel_all]; [by apply wp_ret|].
  apply wp_bind, wp_on; [done|]. intros r. eapply wp_mono; [apply IH|]. by intros _ w' ->.
Qed.

(** An item whose queues but those in [l] are prepared. *)
Record prepared (l : keyed_vector hwc_slot) (item : pool_item) : Prop := {
  prepared_queues : queues_ok (mHwcUsedBqList item);
  prepared_sorted : sorted_keys (mConsumerList item);
  prepared_free : forall c s, In (c, s) (mConsumerList item) -> exists t q b, valueFor t (mHwcUsedBqList item) = Some q /\ 0 <= b < q_bufNum q
    /\ c = POOL_COMBINED_ID GUI_EXT_USAGE_HWC t b /\ s = mk_slot GUI_EXT_USAGE_HWC t b (-1) 0 false;
  prepared_slots : forall t q, In (t, q) (mHwcUsedBqList item) -> In (t, q) l \/
    forall b, 0 <= b < q_bufNum q -> is_Some (valueFor (POOL_COMBINED_ID GUI_EXT_USAGE_HWC t b) (mConsumerList item))
}.

Lemma prepare_queues_ok l usage item (w : W) :
  incl l (mHwcUsedBqList item) -> prepared l item ->
  wp (prepare_queues answer l usage NO_ERROR item)
    (fun r w' => globals w' = globals w /\ r.1 = NO_ERROR /\ (exists slots, r.2 = with_consumers slots item) /\ prepared [] r.2) w.
Proof.
  revert item w. induction l as [|[t q] l IH]; intros item w Hl Hp; cbn [prepare_queues].
  - apply wp_ret. split_and!; try done. exists (mConsumerList item). by destruct item.
  - destruct Hp as [[Hqs Hq] Hs Hfree Hslots]. pose proof (Hl _ (or_introl eq_refl)) as Hin. destruct (Hq t q Hin) as [Ht Hprod].
    unfold prepareBuffer_queue. do 2 apply wp_bind. eapply wp_lift; [done|].
    apply wp_bind. eapply wp_mono; [by apply dequeue_all_ok|]. cbn beta. intros slots w1 (Hg1 & Hs1 & Hin1 & Hold1 & Hnew1).
    apply wp_bind. eapply wp_mono; [by apply cancel_all_ok|]. cbn beta. intros [] w2 Hg2. apply wp_ret. cbn [fst snd].
    eapply wp_mono; [apply IH|].
    + intros e He. cbn. apply Hl. by right.
    + split; cbn [mHwcUsedBqList mConsumerList with_consumers]; try done.
      * intros c s [Hc|(b & Hb & -> & ->)]%Hin1; [by apply Hfree|]. exists t, q, b. rewrite Ht. split_and!; [by apply in_valueFor|lia..|done|done].
      * intros t' q' [[[= <- <-]|Hin']|Hb]%Hslots; [|by left|].
        -- right. intros b Hb. rewrite <- Ht. apply Hnew1. lia.
        -- right. intros b Hb'. apply Hold1. by apply Hb.
    + cbn beta. intros r w3 (Hg & Hr & (slots' & ->) & Hok). rewrite Hg, Hg2, Hg1. split_and!; try done. by exists slots'.
Qed.

(** A new item. *)
Lemma new_item_ok token needed id width h disp usage (w : W) : token <> 0 -> 1 <= id <= MAX_ALLOC_SIZE ->
  wp (do item <- new_GuiExtPoolItem answer token needed id width h disp; prepareBuffer answer usage item)
    (fun r w' => globals w' = globals w /\ r.1 = NO_ERROR /\ item_ok id r.2 /\ mProducerToken r.2 = token
      /\ forall c s, In (c, s) (mConsumerList r.2) -> s_token s = 0 /\ exists q, In (s_type s, q) (mHwcUsedBqList r.2) /\ 0 <= s_idx s < q_bufNum q) w.
Proof using Hanswer.
  intros Ht Hid. apply wp_bind. unfold new_GuiExtPoolItem. apply wp_bind.
  apply wp_mono with (Q := fun l w' => globals w' = globals w /\ queues_ok l /\ (needed = false -> l = [])).
  { destruct needed; [|by apply wp_ret; split_and!; [|apply queues_ok_nil|]].
    eapply wp_mono; [apply create_queues_ok, queues_ok_nil|]. cbn beta. by intros l w' [-> ?]. }
  cbn beta. intros l w1 (<- & Hl & Hn). apply wp_bind, wp_pid_of; [done|]. intros pid w2 <-. apply wp_ret.
  unfold prepareBuffer. cbn [mIsHwcNeeded mHwcUsedBqList].
  assert (forall slots item, item = mk_item id needed 0 l pid token [true; true] slots false -> prepared [] item -> item_ok id item /\ mProducerToken item = token /\
    forall c s, In (c, s) (mConsumerList item) -> s_token s = 0 /\ exists q, In (s_type s, q) (mHwcUsedBqList item) /\ 0 <= s_idx s < q_bufNum q) as Hok.
  { intros slots item -> [[Hqs Hq] Hs Hfree Hslots]. cbn [mHwcUsedBqList mConsumerList] in *. split; [|split; [done|]].
    2: { intros c s (t & q & b & Hq' & Hb & -> & ->)%Hfree. split; [done|]. exists q. split; [by apply valueFor_in|done]. }
    split; cbn [mId mGPUUsedProducer mIsDisconnected mConsumerDeathListener mIsHwcNeeded mHwcUsedBqList mConsumerList]; try done.
    - by exists true.
    - split; [done|]. intros t q Hin. split; [apply Hq, Hin|apply (Hq t), Hin|]. intros b Hb. destruct (Hslots t q Hin) as [[]|H]. by apply H.
    - split; [done|]. intros c s (t & q & b & Hq' & _ & -> & ->)%Hfree. by split.
    - intros c s (t & q & b & Hq' & _ & -> & ->)%Hfree Hf. done. }
  destruct needed.
  - eapply wp_mono; [apply prepare_queues_ok|].
    + apply incl_refl.
    + split; cbn [mHwcUsedBqList mConsumerList]; try done; [constructor|]. intros t q ?. by left.
    + cbn beta. intros r w3 (-> & Hr & (slots & Hi) & Hp). split_and!; try done; by apply (Hok slots).
  - apply wp_ret. cbn [fst snd]. split_and!; [done|done|..]; (eapply Hok; [reflexivity|]); rewrite (Hn eq_refl);
      (split; cbn; [apply queues_ok_nil|constructor|done|done]).
Qed.

(** ** The changes of an item *)
Lemma item_ok_producer k item pid token : item_ok k item -> item_ok k (with_producer pid token item).
Proof. intros [H1 H2 H3 H4 [H5 Hq] [H6 Hs] H7]. split; try done; (split; [done|]); intros ? ? Hin; [destruct (Hq _ _ Hin)|destruct (Hs _ _ Hin)]; by split. Qed.

Lemma item_ok_disconnected k item d : item_ok k item -> (d = false -> mConsumerDeathListener item = true) ->
  item_ok k (with_disconnected [true; d] item).
Proof.
  intros [H1 H2 H3 H4 [H5 Hq] [H6 Hs] H7] Hd. split; try done; [by exists d|..]; (split; [done|]);
    intros ? ? Hin; [destruct (Hq _ _ Hin)|destruct (Hs _ _ Hin)]; by split.
Qed.

Lemma item_ok_listener k item : item_ok k item -> item_ok k (with_listener true item).
Proof.
  intros [H1 H2 (d & H3 & _) H4 [H5 Hq] [H6 Hs] H7]. split; try done; [by exists d|..]; (split; [done|]);
    intros ? ? Hin; [destruct (Hq _ _ Hin)|destruct (Hs _ _ Hin)]; by split.
Qed.

Lemma item_ok_slot k item c s s' : item_ok k item -> valueFor c (mConsumerList item) = Some s -> slot_ok item c s' ->
  (s_token s' <> 0 -> mConsumerDeathListener item = true) ->
  item_ok k (with_consumers (kv_add c s' (mConsumerList item)) item).
Proof.
  intros [H1 H2 H3 H4 [H5 Hq] [H6 Hs] H7] Hc [] Hl. split; cbn [mConsumerList with_consumers mHwcUsedBqList]; try done.
  - split; [done|]. intros t q Hin. destruct (Hq _ _ Hin) as [? ? Hslots]. split; cbn [mConsumerList with_consumers]; try done.
    intros b Hb. rewrite valueFor_add. destruct (_ =? _); [done|]. by apply Hslots.
  - split; [by apply kv_add_sorted|]. intros c' s0 [[-> ->]|[_ Hin]]%in_kv_add_iff; [by split| |done]. destruct (Hs _ _ Hin). by split.
  - intros c' s0 [[-> ->]|[_ Hin]]%in_kv_add_iff; [done|by apply (H7 c')|done].
Qed.

(** The slots of an item after [buf] is released. *)
Definition released (usage type buf : Z) (item : pool_item) : pool_item :=
  match valueFor (POOL_COMBINED_ID usage type buf) (mConsumerList item) with
  | Some s => with_consumers (kv_add (POOL_COMBINED_ID usage type buf) (free_slot s) (mConsumerList item)) item
  | None => item
  end.

Lemma item_ok_free_slot k item c s : item_ok k item -> valueFor c (mConsumerList item) = Some s ->
  item_ok k (with_consumers (kv_add c (free_slot s) (mConsumerList item)) item).
Proof.
  intros Hok Hc. eapply item_ok_slot; [done|done| |done]. destruct (proj2 (item_slots _ _ Hok) _ _ (valueFor_in _ _ _ Hc)). by split.
Qed.

Lemma released_ok k usage type buf item : item_ok k item -> item_ok k (released usage type buf item).
Proof. intros Hok. unfold released. destruct (valueFor _ _) eqn:E; [by apply item_ok_free_slot|done]. Qed.

Lemma used_released usage type buf item : used item -> used (released usage type buf item).
Proof. unfold released. by destruct (valueFor _ (mConsumerList item)). Qed.

Lemma wp_item_release usage type buf item Q (w : W) :
  (forall e, Q (e, item) w) ->
  (forall r, getIGraphicBufferProducer usage type item <> 0 ->
    Q (NO_ERROR, released usage type buf item) (World (globals w) (trace w ++ [(Ccancel (getIGraphicBufferProducer usage type item) buf, r)]))) ->
  wp (item_release answer usage type buf item) Q w.
Proof.
  intros He HQ. unfold item_release. destruct (_ && _); [apply wp_ret, He|].
  destruct (Z.eqb_spec (getIGraphicBufferProducer usage type item) 0) as [|Hp]; [apply wp_ret, He|].
  apply wp_bind, wp_on; [done|]. intros r. apply wp_ret. by apply HQ.
Qed.

(** Only the queues of the displays can be asked for a buffer. *)
Lemma producer_usage k usage type item : item_ok k item -> getIGraphicBufferProducer usage type item <> 0 ->
  usage = GUI_EXT_USAGE_HWC /\ type < HWC_NUM_DISPLAY_TYPES /\
  exists q, valueFor type (mHwcUsedBqList item) = Some q /\ mProducer q = getIGraphicBufferProducer usage type item.
Proof.
  unfold getIGraphicBufferProducer. intros Hok. destruct (Z.eqb_spec usage GUI_EXT_USAGE_HWC) as [->|]; [|by rewrite (item_gpu _ _ Hok)].
  destruct (valueFor type _) as [q|]; [|done]. destruct (Z.leb_spec HWC_NUM_DISPLAY_TYPES type); [done|]. eauto.
Qed.

Lemma item_acquire_ok k token usage type buf item (w : W) : item_ok k item -> token <> 0 ->
  wp (item_acquire answer token usage type buf item)
    (fun r w' => globals w' = globals w /\ item_ok k r.2 /\ (used item -> used r.2)) w.
Proof.
  intros Hok Ht. unfold item_acquire. destruct (_ && _); [by apply wp_ret|].
  destruct (Z.eqb_spec (getIGraphicBufferProducer usage type item) 0) as [|Hp]; [by apply wp_ret|].
  destruct (producer_usage _ _ _ _ Hok Hp) as (-> & Htype & q & Hq & _). apply wp_bind. eapply wp_lift; [done|].
  apply wp_bind, wp_on; [done|]. intros r. cbv zeta. set (b := default buf _). clearbody b.
  destruct (_ || _); [by apply wp_ret|]. apply wp_bind, wp_on; [done|]. intros r1. set (c := POOL_COMBINED_ID _ _ _).
  destruct (valueFor c _) as [s|] eqn:Hc; [|by apply wp_ret]. apply wp_bind.
  apply wp_mono with (Q := fun i w' => globals w' = globals w /\ item_ok k (with_listener true i) /\ mIsDisconnected i = mIsDisconnected item).
  - destruct (Z.eqb_spec (s_token s) 0) as [Hs|Hs].
    + apply wp_bind, wp_pid_of; [done|]. intros pid w1 Hg. apply wp_ret. split_and!; [exact Hg| |done].
      change (item_ok k (with_consumers (kv_add c (mk_slot GUI_EXT_USAGE_HWC type b pid token true) (mConsumerList (with_listener true item))) (with_listener true item))).
      eapply item_ok_slot; [by apply item_ok_listener|exact Hc| |done]. by split; [| |exists q| |].
    + apply wp_ret. split_and!; try done. by apply item_ok_listener.
  - cbn beta. intros i w1 (Hg & Hi & Hd). destruct (item_flags _ _ Hok) as (d & Hflags & _). rewrite Hd, Hflags.
    apply wp_bind. eapply wp_lift; [done|]. apply wp_ret. cbn [fst snd]. split_and!; [done| |].
    + change (item_ok k (with_disconnected [true; false] (with_listener true i))). by apply item_ok_disconnected.
    + intros _. right. by right; left.
Qed.

Lemma item_disconnect_ok k usage item (w : W) : item_ok k item -> 0 <= usage < GUI_EXT_USAGE_MAX ->
  wp (item_disconnect usage item) (fun r w' => w' = w /\ item_ok k r.2 /\ mHwcUsedBqList r.2 = mHwcUsedBqList item
    /\ mConsumerList r.2 = mConsumerList item) w.
Proof.
  intros Hok Hu. unfold item_disconnect. destruct (_ && _); [by apply wp_ret|]. destruct (item_flags _ _ Hok) as (d & Hd & Hl).
  rewrite Hd. apply wp_bind. unfold GUI_EXT_USAGE_MAX in Hu. assert (usage = 0 \/ usage = 1) as [->| ->] by lia; (eapply wp_lift; [done|]);
    apply wp_ret; (split_and!; [done| |done|done]); by apply item_ok_disconnected.
Qed.
End Methods.
