(* ===== verification/GuiService.v ===== *)
(** The service of preallocated buffers: its calls, and the deaths of its clients. *)
From Stdlib Require Import String List.
From stdpp Require Import gmap.
From S2P Require Import Prelude Maps Effects GuiState GuiPool GuiItems.

Section Service.
Context `{headers : gui_headers} (headers_ok : gui_headers_ok headers).
Context (answer : list (gcall * gresp) -> gcall -> gresp) (Hanswer : answers_ok answer).
Abbreviation W := (world gui_pool gcall gresp).

(** ** Lists of pools *)
Definition unused (item : pool_item) : bool := forallb (fun d => d) (mIsDisconnected item) && (mProducerToken item =? 0).

Lemma used_dec item : if unused item then ~ used item else used item.
Proof.
  unfold unused, used. destruct (forallb _ _) eqn:E; cbn.
  - rewrite forallb_forall in E. destruct (Z.eqb_spec (mProducerToken item) 0); [|by left]. intros [?|Hf%E]; done.
  - right. induction (mIsDisconnected item) as [|[] l IH]; cbn in *; [done|right; by apply IH|by left].
Qed.

Lemma pools_put but id item i0 s : pools_but but s -> valueFor id (mPoolList s) = Some i0 -> item_ok id item ->
  pools_but (id :: but) (with_pools (kv_add id item (mPoolList s)) s).
Proof.
  intros [H1 H2 H3 H4 H5 H6] Hid Hok. split; cbn [mPoolId mPoolList mDisplayList with_pools]; [done| |by apply kv_add_sorted| |done|done].
  - unfold zlen in *. by rewrite length_kv_add, Hid.
  - intros k i [[-> ->]|[Hne Hin]]%in_kv_add_iff; [split; [done|right; by left]| |done].
    destruct (H4 k i Hin) as [? [?|?]]; split; auto. right. by right.
Qed.

(** Somebody uses the pool after all. *)
Lemma pools_used but id item s : pools_but (id :: but) s -> valueFor id (mPoolList s) = Some item -> used item -> pools_but but s.
Proof.
  intros [H1 H2 H3 H4 H5 H6] Hid Hu. split; try done. intros k i Hin. destruct (H4 k i Hin) as [? [?|[<-|?]]]; split; auto.
  left. rewrite (in_valueFor _ _ _ H3 Hin) in Hid. by injection Hid as ->.
Qed.

(** Nobody does, and the pool is removed. *)
Lemma pools_remove but id s : pools_but (id :: but) s -> pools_but but (with_pools (removeItem id (mPoolList s)) s).
Proof.
  intros [H1 H2 H3 H4 H5 H6]. split; cbn [mPoolId mPoolList mDisplayList with_pools]; [done| |by apply removeItem_sorted| |done|done].
  - unfold zlen in *. etransitivity; [|exact H2]. unfold removeItem. pose proof (List.filter_length_le (fun e => negb (e.1 =? id)) (mPoolList s)). lia.
  - intros k i [Hin Hne]%removeItem_in. destruct (H4 k i Hin) as [? [?|[<-|?]]]; split; auto. done.
Qed.

(** What [put_item] and then [removePoolItemLocked] make of the pools. *)
Definition keep_if_used (id : Z) (item : pool_item) (s : gui_pool) : gui_pool :=
  with_pools (if unused item then removeItem id (mPoolList s) else kv_add id item (mPoolList s)) s.

Lemma keep_if_used_ok id item i0 s : pools_ok s -> valueFor id (mPoolList s) = Some i0 -> item_ok id item ->
  pools_ok (keep_if_used id item s).
Proof.
  intros Hs Hid Hok. unfold keep_if_used. pose proof (used_dec item) as Hu. destruct (unused item).
  - apply pools_remove. destruct Hs as [H1 H2 H3 H4 H5 H6]. split; auto. intros k i Hin. destruct (H4 k i Hin) as [? [?|[]]]; auto.
  - eapply pools_used; [by eapply pools_put| |exact Hu]. cbn. by rewrite valueFor_add, Z.eqb_refl.
Qed.

Lemma valueFor_keep_if_used id item s k : valueFor k (mPoolList (keep_if_used id item s)) =
  if k =? id then if unused item then None else Some item else valueFor k (mPoolList s).
Proof.
  unfold keep_if_used. cbn. destruct (unused item); [rewrite valueFor_remove|rewrite valueFor_add]; by destruct (k =? id).
Qed.

Lemma wp_the_item id Q (w : W) : Q (valueFor id (mPoolList (globals w))) w -> wp (the_item id) Q w.
Proof. intros HQ. unfold the_item. by apply wp_bind, wp_get, wp_ret. Qed.

Lemma wp_put_remove id item i0 Q (w : W) : pools_ok (globals w) -> valueFor id (mPoolList (globals w)) = Some i0 -> item_ok id item ->
  Q tt (World (keep_if_used id item (globals w)) (trace w)) -> wp (put_item id item ;; removePoolItemLocked id) Q w.
Proof.
  intros Hs Hid Hok HQ. unfold put_item, removePoolItemLocked. apply wp_bind, wp_mod, wp_bind, wp_the_item.
  cbn [globals trace mPoolList with_pools]. rewrite valueFor_add, Z.eqb_refl. fold (unused item). unfold keep_if_used in HQ.
  destruct (unused item); [|by apply wp_ret]. apply wp_mod. cbn [globals trace with_pools mPoolList].
  rewrite removeItem_add; [done|]. apply Hs.
Qed.

Lemma wp_put_remove_then {A} id item i0 (m : io gui_pool gcall gresp A) Q (w : W) :
  pools_ok (globals w) -> valueFor id (mPoolList (globals w)) = Some i0 -> item_ok id item ->
  wp m Q (World (keep_if_used id item (globals w)) (trace w)) -> wp (do _ <- put_item id item; do _ <- removePoolItemLocked id; m) Q w.
Proof.
  intros Hs Hid Hok HQ. pose proof (wp_put_remove id item i0 (fun _ w' => wp m Q w') w Hs Hid Hok HQ) as H.
  unfold wp, io_bind in *. destruct (put_item id item w) as [[[] w1]|]; [|done]. by destruct (removePoolItemLocked id w1) as [[[] w2]|].
Qed.

Lemma wp_and {A} (m : io gui_pool gcall gresp A) P Q (w : W) : wp m P w -> wp m Q w -> wp m (fun a w' => P a w' /\ Q a w') w.
Proof. unfold wp. by destruct (m w) as [[a w']|]. Qed.

Lemma wp_item_then {A B C} (m1 : io gui_pool gcall gresp A) (m2 : A -> io gui_pool gcall gresp B) (k : B -> io gui_pool gcall gresp C) P Q (w : W) :
  wp (do a <- m1; m2 a) P w -> (forall b w', P b w' -> wp (k b) Q w') -> wp (do a <- m1; do b <- m2 a; k b) Q w.
Proof.
  unfold wp, io_bind. intros H Hk. destruct (m1 w) as [[a w1]|]; [|done]. destruct (m2 a w1) as [[b w2]|]; [|done]. by apply Hk.
Qed.

Lemma wp_put_used id item i0 Q (w : W) : pools_ok (globals w) -> valueFor id (mPoolList (globals w)) = Some i0 -> item_ok id item ->
  used item -> Q tt (World (keep_if_used id item (globals w)) (trace w)) -> wp (put_item id item) Q w.
Proof. intros Hs Hid Hok Hu HQ. pose proof (used_dec item). unfold put_item, keep_if_used in *. apply wp_mod. by destruct (unused item). Qed.

Lemma the_pool_ok id item s : pools_ok s -> valueFor id (mPoolList s) = Some item -> item_ok id item /\ used item.
Proof. intros Hs Hid%valueFor_in. by destruct (pool_items _ _ Hs _ _ Hid) as [? [?|[]]]. Qed.

(** ** The calls *)
Definition stays (Q : gui_pool -> Prop) : forall {A}, A -> W -> Prop := fun _ _ w' => Q (globals w').

Lemma free_ok id (w : W) : pools_ok (globals w) -> wp (free id) (stays pools_ok) w.
Proof.
  intros Hs. unfold free. apply wp_bind, wp_the_item. destruct (valueFor id _) as [item|] eqn:Hid; [|by apply wp_ret].
  destruct (the_pool_ok _ _ _ Hs Hid) as [Hok _].
  pose proof (item_ok_producer _ _ (-1) 0 Hok) as Hok'. eapply wp_put_remove_then; [done|done|done|]. apply wp_ret.
  by eapply keep_if_used_ok.
Qed.

Lemma log_ok usage type {A} (a : A) Q (w : W) : args_ok usage type -> Q a w -> wp (do _ <- log_names usage type; io_ret a) Q w.
Proof. intros Ha HQ. apply wp_bind, wp_log_names; [done|]. by apply wp_ret. Qed.

Lemma acquire_ok token id usage type buf (w : W) : pools_ok (globals w) -> token <> 0 -> args_ok usage type ->
  wp (acquire answer token id usage type buf) (stays pools_ok) w.
Proof.
  intros Hs Ht Ha. unfold acquire. apply wp_bind, wp_the_item. destruct (valueFor id _) as [item|] eqn:Hid; [|by apply log_ok].
  destruct (the_pool_ok _ _ _ Hs Hid) as [Hok Hu]. apply wp_bind. eapply wp_mono; [by apply item_acquire_ok|].
  cbn beta. intros [[e b] i] w1 (Hg & Hi & Hu'). apply wp_bind. rewrite <- Hg in Hs, Hid.
  eapply wp_put_used; [done|done|done|by apply Hu'|]. apply log_ok; [done|]. by eapply keep_if_used_ok.
Qed.

Lemma request_ok id usage type buf buffer (w : W) : pools_ok (globals w) -> args_ok usage type ->
  wp (request answer id usage type buf buffer) (stays pools_ok) w.
Proof.
  intros Hs Ha. unfold request. apply wp_bind, wp_the_item. destruct (valueFor id _) as [item|] eqn:Hid; [|by apply log_ok].
  apply wp_bind. unfold item_request. destruct (_ && _); [by apply wp_ret, log_ok|].
  destruct (Z.eqb_spec (getIGraphicBufferProducer usage type item) 0); [by apply wp_ret, log_ok|].
  apply wp_bind, wp_on; [done|]. intros r. by apply wp_ret, log_ok.
Qed.

Lemma release_ok id usage type buf (w : W) : pools_ok (globals w) -> args_ok usage type ->
  wp (release answer id usage type buf) (stays pools_ok) w.
Proof.
  intros Hs Ha. unfold release. apply wp_bind, wp_the_item. destruct (valueFor id _) as [item|] eqn:Hid; [|by apply log_ok].
  destruct (the_pool_ok _ _ _ Hs Hid) as [Hok Hu].
  assert (forall w' i, globals w' = globals w -> item_ok id i -> used i -> forall e : Z,
    wp (do _ <- put_item id i; do _ <- log_names usage type; io_ret e) (stays pools_ok) w') as Hput.
  { intros w' i Hg Hi Hui e. rewrite <- Hg in Hs, Hid. apply wp_bind. eapply wp_put_used; [done..|].
    apply log_ok; [done|]. by eapply keep_if_used_ok. }
  apply wp_bind, wp_item_release.
  - intros e. by apply Hput.
  - intros r _. apply Hput; [done|by apply released_ok|by apply used_released].
Qed.

Lemma disconnect_ok id usage type (w : W) : pools_ok (globals w) -> args_ok usage type ->
  wp (disconnect id usage type) (stays pools_ok) w.
Proof.
  intros Hs Ha. unfold disconnect. apply wp_bind, wp_the_item. destruct (valueFor id _) as [item|] eqn:Hid; [|by apply log_ok].
  destruct (the_pool_ok _ _ _ Hs Hid) as [Hok _]. apply wp_bind. eapply wp_mono; [by apply item_disconnect_ok, Ha|].
  cbn beta. intros [e i] w' (-> & Hi & _). eapply wp_put_remove_then; [done..|]. apply log_ok; [done|]. by eapply keep_if_used_ok.
Qed.

Lemma pools_displays l s : pools_ok s -> displays_ok l -> pools_ok (with_displays l s).
Proof. intros [H1 H2 H3 H4 H5 H6] Hl. by split. Qed.

Lemma displays_add type d l : displays_ok l -> d_type d = type -> 0 <= type -> displays_ok (kv_add type d l).
Proof.
  intros [Hs Hd] Ht Hp. split; [by apply kv_add_sorted|]. intros k d' [[-> ->]|[_ Hin]]%in_kv_add_iff; [done|by apply Hd|done].
Qed.

Lemma displays_remove type l : displays_ok l -> displays_ok (removeItem type l).
Proof. intros [Hs Hd]. split; [by apply removeItem_sorted|]. intros k d [Hin _]%removeItem_in. by apply Hd. Qed.

Lemma configDisplay_ok type enable width h bufNum (w : W) : pools_ok (globals w) -> 0 <= type ->
  wp (configDisplay type enable width h bufNum) (fun _ w' => pools_ok (globals w') /\ mPoolList (globals w') = mPoolList (globals w) /\
    trace w' = trace w /\ forall k d, In (k, d) (mDisplayList (globals w')) -> In (k, d) (mDisplayList (globals w)) \/ k = type /\ d_bufNum d = bufNum) w.
Proof.
  intros Hs Ht. pose proof (pool_displays _ _ Hs) as Hd. unfold configDisplay. apply wp_bind, wp_get. destruct (_ || _).
  - destruct (valueFor type _); [|by apply wp_ret; split_and!; [..|left]]. apply wp_bind.
    destruct (negb _); wp_step; wp_step; cbn [globals trace]; (split_and!; [|done|done|]);
      try (repeat apply pools_displays; try done; repeat apply displays_remove; done); cbn; intros k d0 Hin; left;
      repeat apply removeItem_in in Hin as [Hin _]; done.
  - apply wp_mod. cbn [globals trace]. split_and!; [|done|done|].
    + apply pools_displays; [done|]. by apply displays_add.
    + cbn. intros k d [[-> ->]|[_ Hin]]%in_kv_add_iff; [by right|by left|apply Hd].
Qed.

(** ** A new pool *)

(** The id of the attempt [x]. *)
Definition id_at (x : Z) : Z := if x mod MAX_ALLOC_SIZE =? 0 then MAX_ALLOC_SIZE else x mod MAX_ALLOC_SIZE.

Lemma id_at_step p x : 0 <= p <= MAX_ALLOC_SIZE -> id_at (u32 (p + 1) mod MAX_ALLOC_SIZE + x) = id_at (p + (1 + x)).
Proof.
  unfold id_at, MAX_ALLOC_SIZE, wrapu. intros Hp. rewrite (Z.mod_small (p + 1)) by lia.
  rewrite Z.add_mod_idemp_l by lia. by rewrite Z.add_assoc.
Qed.

Lemma next_free_spec fuel pools p : 0 <= p <= MAX_ALLOC_SIZE ->
  match next_free fuel pools p with
  | Some id => 1 <= id <= MAX_ALLOC_SIZE /\ valueFor id pools = None
  | None => forall j, 1 <= j <= Z.of_nat fuel -> is_Some (valueFor (id_at (p + j)) pools)
  end.
Proof.
  revert p. induction fuel as [|fuel IH]; intros p Hp; cbn [next_free]; [intros j Hj; lia|].
  set (p1 := u32 (p + 1) mod MAX_ALLOC_SIZE).
  assert (0 <= p1 < MAX_ALLOC_SIZE) as Hp1 by (apply Z.mod_pos_bound; unfold MAX_ALLOC_SIZE; lia).
  assert ((if p1 =? 0 then MAX_ALLOC_SIZE else p1) = id_at (p + 1)) as Hid.
  { replace (p + 1) with (p + (1 + 0)) by lia. rewrite <- id_at_step by done. fold p1. unfold id_at. rewrite Z.mod_small by lia. by rewrite Z.add_0_r. }
  rewrite Hid. destruct (valueFor (id_at (p + 1)) pools) eqn:E.
  - specialize (IH p1 ltac:(lia)). destruct (next_free fuel pools p1); [done|]. intros j Hj.
    destruct (decide (j = 1)) as [->|]; [by rewrite E|]. replace (p + j) with (p + (1 + (j - 1))) by lia.
    rewrite <- id_at_step by done. apply IH. lia.
  - split; [|done]. rewrite <- Hid. destruct (Z.eqb_spec p1 0); unfold MAX_ALLOC_SIZE in *; lia.
Qed.

(** Ten attempts are enough: they are ten different ids. *)
Lemma next_free_total pools p : 0 <= p <= MAX_ALLOC_SIZE -> sorted_keys pools -> zlen pools < MAX_ALLOC_SIZE ->
  exists id, next_free 10 pools p = Some id /\ 1 <= id <= MAX_ALLOC_SIZE /\ valueFor id pools = None.
Proof.
  intros Hp Hs Hlen. pose proof (next_free_spec 10 pools p Hp) as H. destruct (next_free 10 pools p) as [id|]; [by exists id|exfalso].
  assert (incl (map Z.of_nat (List.seq 1 10)) (map fst pools)) as Hincl.
  { intros x (n & <- & Hn%in_seq)%in_map_iff. destruct (H ((Z.of_nat n - p - 1) mod 10 + 1)) as [i Hi].
    - pose proof (Z.mod_pos_bound (Z.of_nat n - p - 1) 10). lia.
    - apply valueFor_in, (in_map fst) in Hi. cbn [fst] in Hi. revert Hi. unfold id_at, MAX_ALLOC_SIZE.
      replace ((p + ((Z.of_nat n - p - 1) mod 10 + 1)) mod 10) with (Z.of_nat n mod 10).
      + destruct (Z.eqb_spec (Z.of_nat n mod 10) 0) as [E|E].
        * by replace (Z.of_nat n) with 10 by (apply Z.mod_divide in E as [q Hq]; lia).
        * rewrite Z.mod_small; [done|]. destruct (decide (Z.of_nat n = 10)) as [Hn10|]; [by rewrite Hn10 in E|lia].
      + rewrite Z.add_assoc, (Z.add_comm p), <- Z.add_assoc, Z.add_mod_idemp_l by lia. f_equal. lia. }
  apply List.NoDup_incl_length in Hincl.
  - rewrite !List.length_map, length_seq in Hincl. unfold zlen, MAX_ALLOC_SIZE in Hlen. lia.
  - apply NoDup_ListNoDup; by_compute.
Qed.

Lemma getPoolId_ok (w : W) : pools_ok (globals w) -> zlen (mPoolList (globals w)) < MAX_ALLOC_SIZE ->
  wp getPoolId (fun id w' => w' = World (with_pool_id id (globals w)) (trace w) /\ 1 <= id <= MAX_ALLOC_SIZE
    /\ valueFor id (mPoolList (globals w)) = None) w.
Proof.
  intros [H1 _ H3 _ _] Hlen. destruct (next_free_total (mPoolList (globals w)) (mPoolId (globals w)) H1 H3 Hlen) as (id & Hn & Hid & Hf).
  unfold getPoolId. apply wp_bind, wp_get, wp_bind. eapply wp_lift; [exact Hn|]. apply wp_bind, wp_mod. by apply wp_ret.
Qed.

Lemma default_display_ok Q (w : W) : pools_ok (globals w) ->
  (forall x y e, e.1 = Cget_display_info ->
    let g := with_displays (kv_add 0 (mk_disp 0 x y MAX_HWC_DEQUEUED_NUM) (mDisplayList (globals w))) (with_default x y (globals w)) in
    pools_ok g -> Q tt (World g (trace w ++ [e]))) -> wp (default_display answer) Q w.
Proof using headers_ok Hanswer.
  intros Hs HQ. unfold default_display. apply wp_bind, sys_eq. intros r Hr. destruct (proj2 (Hanswer (trace w))) as (x & y & l & Hd).
  rewrite Hr, Hd. do 2 (apply wp_bind; eapply wp_lift; [done|]). apply wp_mod. cbn [globals trace].
  destruct displays_numbered as [-> _]. apply HQ; [done|]. apply pools_displays; [by destruct Hs|]. apply displays_add; [apply Hs|done|done].
Qed.

(** The pools with a new one. *)
Definition with_pool (id : Z) (item : pool_item) (s : gui_pool) : gui_pool := with_pools (kv_add id item (mPoolList s)) s.

(** The display of an empty service, and the call that asks for it. *)
Definition displayed (w w1 : W) : Prop :=
  (exists l, trace w1 = trace w ++ l /\ forall e, In e l -> e.1 = Cget_display_info \/ exists token, e.1 = Clink_to_death token) /\
  (mDisplayList (globals w1) = mDisplayList (globals w) \/
   exists x y, mDisplayList (globals w1) = kv_add 0 (mk_disp 0 x y MAX_HWC_DEQUEUED_NUM) (mDisplayList (globals w))).

Lemma wp_alloc token usage width h Q (w : W) : pools_ok (globals w) -> token <> 0 ->
  (zlen (mPoolList (globals w)) = MAX_ALLOC_SIZE -> Q (NOT_ENOUGH_DATA, 0) w) ->
  (forall id needed w1, pools_ok (globals w1) -> mPoolList (globals w1) = mPoolList (globals w) -> displayed w w1 ->
    1 <= id <= MAX_ALLOC_SIZE -> valueFor id (mPoolList (globals w)) = None ->
    wp (do item <- new_GuiExtPoolItem answer token needed id width h (mDisplayList (globals w1)); prepareBuffer answer usage item)
      (fun r w2 => globals w2 = globals w1 /\ r.1 = NO_ERROR /\
        (pools_ok (with_pool id r.2 (globals w1)) -> Q (NO_ERROR, id) (World (with_pool id r.2 (globals w1)) (trace w2)))) w1) ->
  wp (alloc answer token usage width h) Q w.
Proof using headers_ok Hanswer.
  intros Hs Ht Hfull Hnew. unfold alloc. apply wp_bind, wp_get. pose proof (pool_size _ _ Hs) as Hsize.
  destruct (Z.leb_spec MAX_ALLOC_SIZE (zlen (mPoolList (globals w)))); [apply wp_ret, Hfull; lia|].
  apply wp_bind. apply wp_mono with (Q := fun _ w' => pools_ok (globals w') /\ mPoolList (globals w') = mPoolList (globals w) /\ displayed w w').
  { destruct (_ =? 0).
    - apply default_display_ok; [done|]. intros x y e He g Hg. split_and!; [done|done|split; [exists [e]|right; by exists x, y]].
      split; [done|]. intros e' [<-|[]]. by left.
    - apply wp_ret. split_and!; [done|done|split; [exists []; by rewrite app_nil_r|by left]]. }
  cbn beta. intros [] w1 (Hs1 & Hp1 & (l & Htr & Hcalls) & Hdisp). apply wp_bind. eapply wp_mono; [apply getPoolId_ok; [done|by rewrite Hp1]|]. cbn beta.
  intros id w2 (-> & Hid & Hfree). apply wp_bind, wp_on; [done|]. intros r. apply wp_bind, wp_get. cbn [globals trace].
  pose proof Hs1 as [H1 H2 H3 H4 H5 H6]. rewrite Hp1 in Hfree.
  set (w2 := World (with_pool_id id (globals w1)) (trace w1 ++ [(Clink_to_death token, r)])).
  assert (pools_ok (globals w2)) as Hs2 by (split; cbn; auto; lia).
  eapply wp_item_then.
  - eapply wp_mono.
    + apply wp_and.
      * apply (Hnew id _ w2); try done. split; [|done]. exists (l ++ [(Clink_to_death token, r)]). cbn. rewrite Htr, app_assoc. split; [done|].
        intros e [He|[<-|[]]]%in_app_or; [by apply Hcalls|right; by exists token].
      * by apply (new_item_ok answer Hanswer token _ id).
    + cbn beta. intros r' w3 H'. exact H'.
  - cbn beta zeta. intros [e item] w3 ((Hg & He & HQ) & _ & _ & Hok & Htok & _). cbn [fst snd] in *. rewrite He. cbn [NO_ERROR negb Z.eqb].
    apply wp_bind, wp_mod, wp_ret. rewrite Hg. apply HQ. split; cbn [mPoolId mPoolList mDisplayList with_pools with_pool_id globals w2 with_pool]; [lia| |by apply kv_add_sorted| |done|done].
    + unfold zlen. rewrite length_kv_add, Hp1, Hfree by done. rewrite Hp1 in H2. unfold zlen in *. lia.
    + intros k i [[-> ->]|[_ Hin]]%in_kv_add_iff; [|by apply H4|done]. split; [done|]. left. left. by rewrite Htok.
Qed.

Lemma pool_alloc_ok token usage width h (w : W) : pools_ok (globals w) -> token <> 0 ->
  wp (alloc answer token usage width h) (fun r w' => pools_ok (globals w') /\
    (zlen (mPoolList (globals w)) = MAX_ALLOC_SIZE /\ r = (NOT_ENOUGH_DATA, 0) /\ w' = w \/
     r.1 = NO_ERROR /\ 1 <= r.2 <= MAX_ALLOC_SIZE /\ valueFor r.2 (mPoolList (globals w)) = None /\
     exists item, mPoolList (globals w') = kv_add r.2 item (mPoolList (globals w)) /\ item_ok r.2 item /\ mProducerToken item = token)) w.
Proof using headers_ok Hanswer.
  intros Hs Ht. apply wp_alloc; [done|done|intros Hlen; split; [done|by left]|].
  intros id needed w1 Hs1 Hp1 _ Hid Hfree. eapply wp_mono; [by apply new_item_ok|]. cbn beta. intros r w2 (Hg & Hr & Hok & Htok & _).
  split_and!; [done|done|]. intros Hpools. split; [done|right]. cbn [fst snd]. split_and!; [done|lia|lia|done|].
  exists r.2. cbn. by rewrite Hp1.
Qed.

(** ** The death of a consumer *)

(** The slots when [who] is gone. *)
Definition without (who : Z) (e : Z * consumer_slot) : Z * consumer_slot :=
  if s_token e.2 =? who then (e.1, free_slot e.2) else e.
Definition held_by (who : Z) (e : Z * consumer_slot) : bool := s_token e.2 =? who.
(** The call that gives the buffer of a slot back to the queue of its display. *)
Definition give_back (item : pool_item) (e : Z * consumer_slot) : gcall :=
  Ccancel (getIGraphicBufferProducer (s_usage e.2) (s_type e.2) item) (s_idx e.2).

Lemma held_release k item c s : item_ok k item -> valueFor c (mConsumerList item) = Some s -> s_token s <> 0 ->
  mIsHwcNeeded item = true /\ getIGraphicBufferProducer (s_usage s) (s_type s) item <> 0 /\
  released (s_usage s) (s_type s) (s_idx s) item = with_consumers (kv_add c (free_slot s) (mConsumerList item)) item.
Proof.
  intros Hok Hc Ht. destruct (proj2 (item_slots _ _ Hok) _ _ (valueFor_in _ _ _ Hc)) as [Hu Hk [q Hq] _ Hh]. destruct (Hh Ht) as [_ Hty].
  split_and!.
  - destruct (mIsHwcNeeded item) eqn:E; [done|]. by rewrite (item_needed _ _ Hok E) in Hq.
  - unfold getIGraphicBufferProducer. rewrite Hu, Hq. cbn. destruct (Z.leb_spec HWC_NUM_DISPLAY_TYPES (s_type s)); [lia|].
    apply valueFor_in in Hq. by apply (proj2 (item_queues _ _ Hok)) in Hq as [].
  - unfold released. by rewrite <- Hk, Hc.
Qed.

Lemma aget_app {A} (l1 l2 : list A) x i : i = zlen l1 -> aget (l1 ++ x :: l2) i = Some x.
Proof. intros ->. unfold aget, zlen. rewrite (proj2 (Z.leb_le _ _)) by lia. rewrite Nat2Z.id. by apply list_lookup_middle. Qed.
Lemma aset_app {A} (l1 l2 : list A) x y i : i = zlen l1 -> aset (l1 ++ x :: l2) i y = Some (l1 ++ y :: l2).
Proof.
  intros ->. rewrite aset_in by (unfold zlen; rewrite length_app; cbn; lia). unfold zlen. rewrite Nat2Z.id.
  by rewrite insert_app_r_alt, Nat.sub_diag by lia.
Qed.

Lemma release_slots_ok k who done rest item (w : W) : who <> 0 -> item_ok k item -> mConsumerList item = done ++ rest ->
  wp (release_slots answer (length rest) (zlen done) who item) (fun item' w' => globals w' = globals w
    /\ item' = with_consumers (done ++ map (without who) rest) item /\ item_ok k item'
    /\ exists l, trace w' = trace w ++ l /\ map fst l = map (give_back item) (List.filter (held_by who) rest)) w.
Proof.
  intros Hw. revert done item w. induction rest as [|[c s] rest IH]; intros dn item w Hok Hl; cbn [release_slots length].
  - apply wp_ret. rewrite app_nil_r in Hl. split_and!; [done| |done|exists []; by rewrite app_nil_r].
    cbn [map]. rewrite app_nil_r, <- Hl. by destruct item.
  - rewrite Hl. apply wp_bind. eapply wp_lift; [by apply aget_app|]. cbn [fst snd]. apply wp_bind.
    assert (zlen dn + 1 = zlen (dn ++ [without who (c, s)])) as Hlen by (unfold zlen; rewrite length_app; cbn; lia).
    assert (forall item1 w1, item1 = with_consumers (dn ++ without who (c, s) :: rest) item -> item_ok k item1 -> globals w1 = globals w ->
      (exists l, trace w1 = trace w ++ l /\ map fst l = map (give_back item) (List.filter (held_by who) [(c, s)])) ->
      wp (release_slots answer (length rest) (zlen dn + 1) who item1) (fun item' w' => globals w' = globals w
        /\ item' = with_consumers (dn ++ map (without who) ((c, s) :: rest)) item /\ item_ok k item'
        /\ exists l, trace w' = trace w ++ l /\ map fst l = map (give_back item) (List.filter (held_by who) ((c, s) :: rest))) w1) as Hnext.
    { intros item1 w1 -> Hok1 Hg (l1 & Ht1 & Hl1). rewrite Hlen.
      eapply wp_mono; [apply (IH (dn ++ [without who (c, s)])); [done|cbn; by rewrite <- app_assoc]|]. cbn beta.
      intros item' w' (Hg' & -> & Hok' & l2 & Ht2 & Hl2). rewrite Hg'. split_and!; [done| |done|].
      - cbn. by rewrite <- app_assoc.
      - exists (l1 ++ l2). rewrite Ht2, Ht1, <- app_assoc, map_app, Hl1, Hl2. split; [done|]. cbn. by destruct (held_by who (c, s)). }
    pose proof (proj1 (item_slots _ _ Hok)) as Hs. rewrite Hl in Hs.
    assert (valueFor c (mConsumerList item) = Some s) as Hc.
    { rewrite Hl. apply in_valueFor; [done|]. apply in_or_app. right. by left. }
    destruct (Z.eqb_spec (s_token s) who) as [Htok|Htok].
    + destruct (held_release k item c s Hok Hc ltac:(by rewrite Htok)) as (Hn & Hp & Hr).
      unfold item_release. rewrite Hn. cbn [negb andb]. rewrite (proj2 (Z.eqb_neq _ _) Hp). apply wp_bind, wp_bind, wp_on; [done|]. intros r.
      apply wp_ret. fold (released (s_usage s) (s_type s) (s_idx s) item). rewrite Hr. cbn [fst snd mConsumerList with_consumers].
      rewrite Hl, kv_add_app by done. apply wp_bind. eapply wp_lift; [by apply aget_app|]. apply wp_bind. eapply wp_lift; [by apply aset_app|].
      apply wp_ret. apply Hnext.
      * unfold without. cbn [fst snd]. by rewrite (proj2 (Z.eqb_eq _ _) Htok).
      * pose proof (item_ok_free_slot k item c s Hok Hc) as H. by rewrite Hl, kv_add_app in H.
      * done.
      * exists [(give_back item (c, s), r)]. split; [done|]. unfold held_by. cbn [List.filter fst snd]. by rewrite (proj2 (Z.eqb_eq _ _) Htok).
    + apply wp_ret. apply Hnext; [|done|done|exists []].
      * unfold without. cbn [fst snd]. rewrite (proj2 (Z.eqb_neq _ _) Htok), <- Hl. by destruct item.
      * rewrite app_nil_r. split; [done|]. unfold held_by. cbn [List.filter fst snd]. by rewrite (proj2 (Z.eqb_neq _ _) Htok).
Qed.

Definition is_free (e : Z * consumer_slot) : bool := s_token e.2 =? 0.

Lemma still_connected_ok l d : (forall c s, In (c, s) l -> s_usage s = GUI_EXT_USAGE_HWC) ->
  still_connected l [true; d] d = Some ([true; d && forallb is_free l], d && forallb is_free l).
Proof.
  revert d. induction l as [|[c s] l IH]; intros d Hu; cbn [still_connected forallb]; [by rewrite andb_true_r|].
  rewrite (Hu c s) by (by left). unfold is_free at 1 3. cbn [snd]. destruct (s_token s =? 0); cbn [negb].
  - apply IH. intros c' s' Hin. apply (Hu c'). by right.
  - cbn [aset]. change (aset [true; d] GUI_EXT_USAGE_HWC false) with (Some [true; false]). cbn [mbind option_bind].
    rewrite IH; [by rewrite !andb_false_r|]. intros c' s' Hin. apply (Hu c'). by right.
Qed.

(** An item when [who] is gone. *)
Definition bereaved (who : Z) (item : pool_item) : pool_item :=
  let l := map (without who) (mConsumerList item) in with_disconnected [true; forallb is_free l] (with_consumers l item).

Lemma observed_held who item : observed who item = true -> exists c s, In (c, s) (mConsumerList item) /\ s_token s = who.
Proof. intros H. apply existsb_exists in H as ([c s] & Hin & [Ht%Z.eqb_eq _]%andb_true_iff). by exists c, s. Qed.

Lemma consumer_died_ok id who item (w : W) : pools_ok (globals w) -> who <> 0 -> valueFor id (mPoolList (globals w)) = Some item ->
  observed who item = true ->
  wp (consumer_died answer id who item) (fun _ w' => item_ok id (bereaved who item) /\ globals w' = keep_if_used id (bereaved who item) (globals w)
    /\ exists l, trace w' = trace w ++ l /\ map fst l = map (give_back item) (List.filter (held_by who) (mConsumerList item))) w.
Proof.
  intros Hs Hw Hid Hob. destruct (the_pool_ok _ _ _ Hs Hid) as [Hok _]. destruct (observed_held _ _ Hob) as (c & s & Hin & Htok).
  assert (mConsumerDeathListener item = true) as Hlis by (apply (item_listener _ _ Hok c s Hin); by rewrite Htok).
  unfold consumer_died. destruct (Z.eqb_spec (zlen (mConsumerList item)) 0) as [Hlen|_].
  { unfold zlen in Hlen. destruct (mConsumerList item); [done|cbn in Hlen; lia]. }
  apply wp_bind. eapply wp_mono; [apply (release_slots_ok id who [] (mConsumerList item)); done|]. cbn [app].
  intros item1 w1 (Hg & -> & Hok1 & Ht). cbn beta. destruct (item_flags _ _ Hok1) as (d & Hd & _). rewrite Hd. cbn [map mConsumerList with_consumers].
  apply wp_bind. eapply wp_lift.
  { apply still_connected_ok. intros c' s' Hin'. apply (proj2 (item_slots _ _ Hok1) c' s' Hin'). }
  cbv zeta. cbn [fst snd andb]. set (item2 := with_disconnected _ _). change item2 with (bereaved who item). clear item2.
  assert (item_ok id (bereaved who item)) as Hok2 by (by apply item_ok_disconnected).
  rewrite <- Hg in Hs, Hid. destruct (forallb is_free (map (without who) (mConsumerList item))) eqn:Hfree.
  - replace (mConsumerDeathListener (bereaved who item)) with true. rewrite (proj1 (item_id _ _ Hok2)).
    eapply wp_put_remove; [done..|]. cbn [globals trace]. by rewrite Hg.
  - apply wp_bind. eapply wp_put_used; [done|done|done| |apply wp_ret; cbn [globals trace]; by rewrite Hg].
    right. unfold bereaved. cbn. rewrite Hfree. by right; left.
Qed.

Lemma consumer_death_ok id who (w : W) : pools_ok (globals w) -> who <> 0 -> wp (consumer_death answer id who) (stays pools_ok) w.
Proof.
  intros Hs Hw. unfold consumer_death. apply wp_bind, wp_the_item. destruct (valueFor id _) as [item|] eqn:Hid; [|by apply wp_ret].
  destruct (observed who item) eqn:Hob; [|by apply wp_ret]. eapply wp_mono; [by apply consumer_died_ok|]. cbn beta.
  intros [] w' (Hok & Hg & _). unfold stays. rewrite Hg. by eapply keep_if_used_ok.
Qed.

(** ** The death of a producer *)

(** What is left of the pools: those of [who] have no producer, and are removed if nobody else uses them. *)
Definition orphaned (who : Z) (e : Z * pool_item) : keyed_vector pool_item :=
  if mProducerToken e.2 =? who then let item := with_producer (-1) 0 e.2 in if unused item then [] else [(e.1, item)] else [e].

Lemma producer_died_ok who i l rest (w : W) : pools_ok (globals w) -> mPoolList (globals w) = l ++ rest -> i = length l ->
  wp (producer_died_loop who i) (fun _ w' => pools_ok (globals w') /\ trace w' = trace w
    /\ mDisplayList (globals w') = mDisplayList (globals w) /\ mPoolList (globals w') = flat_map (orphaned who) l ++ rest) w.
Proof.
  intros Hs Hl ->. revert rest w Hs Hl. induction l as [|[k item] l IH] using rev_ind; intros rest w Hs Hl; [by apply wp_ret|].
  rewrite List.length_app. cbn [length]. rewrite Nat.add_1_r. cbn [producer_died_loop].
  rewrite <- app_assoc in Hl. cbn [app] in Hl. apply wp_bind, wp_get. apply wp_bind. eapply wp_lift; [rewrite Hl; by apply aget_app|].
  cbn [fst snd]. apply wp_bind. pose proof (pool_keys _ _ Hs) as Hk. rewrite Hl in Hk.
  assert (valueFor k (mPoolList (globals w)) = Some item) as Hid.
  { rewrite Hl. apply in_valueFor; [done|]. apply in_or_app. right. by left. }
  destruct (the_pool_ok _ _ _ Hs Hid) as [Hok _]. rewrite flat_map_app. cbn [flat_map]. rewrite app_nil_r, <- app_assoc.
  unfold orphaned at 2. cbn [fst snd]. destruct (Z.eqb_spec (mProducerToken item) who).
  - pose proof (item_ok_producer _ _ (-1) 0 Hok) as Hok'. rewrite (proj1 (item_id _ _ Hok)).
    eapply wp_put_remove; [done..|]. apply (IH _ (World (keep_if_used k (with_producer (-1) 0 item) (globals w)) (trace w))); cbn [globals]; [by eapply keep_if_used_ok|].
    unfold keep_if_used. cbn [mPoolList with_pools]. rewrite Hl. destruct (unused _); [by rewrite removeItem_app|by rewrite kv_add_app].
  - apply wp_ret. by apply IH.
Qed.

(** ** Every call *)
Lemma remove_zombies_ok l (w : W) : Forall (fun e => e.2 <> 0) l ->
  wp (remove_zombies answer l) (fun l' w' => globals w' = globals w /\ Forall (fun e => e.2 <> 0) l' /\
    exists calls, trace w' = trace w ++ calls /\ Forall (fun e => exists tunnel, e.1 = Calive tunnel) calls) w.
Proof.
  induction 1 as [|[key t] l Ht _ IH]; cbn [remove_zombies]; [apply wp_ret; split_and!; [done|done|exists []; by rewrite app_nil_r]|].
  apply wp_bind. eapply wp_mono; [exact IH|]. cbn beta. intros l' w' (Hg & Hl & calls & Hc & Ha). apply wp_bind, wp_on; [done|]. intros r. apply wp_ret.
  cbn [globals trace]. split_and!; [done|destruct (grv r =? 0); [done|by constructor]|].
  exists (calls ++ [(Calive t, r)]). rewrite Hc, app_assoc. split; [done|]. apply Forall_app. split; [done|]. constructor; [by exists t|constructor].
Qed.

Lemma tunnel_add_ok key t l : t <> 0 -> Forall (fun e => e.2 <> 0) l -> Forall (fun e => e.2 <> 0) (tunnel_add key t l).
Proof. intros Ht. induction 1 as [|e l He Hl IH]; cbn; [by constructor|]. destruct (strcmp _ _); by repeat constructor. Qed.

Lemma pools_tunnels l s : pools_ok s -> Forall (fun e => e.2 <> 0) l -> pools_ok (with_tunnels l s).
Proof. intros [H1 H2 H3 H4 H5 H6] Hl. by split. Qed.

Definition tunnel_call (e : gcall * gresp) : Prop := exists t, e.1 = Cremote_binder t \/ e.1 = Calive t \/ e.1 = Clink_to_death t.

Lemma regDump_ok tunnel key (w : W) : pools_ok (globals w) -> tunnel <> 0 ->
  wp (regDump answer tunnel key) (fun _ w' => exists l calls, globals w' = with_tunnels l (globals w) /\ pools_ok (globals w') /\
    trace w' = trace w ++ calls /\ Forall tunnel_call calls) w.
Proof.
  intros Hs Ht. unfold regDump. apply wp_bind, wp_on; [done|]. intros r.
  assert (tunnel_call (Cremote_binder tunnel, r)) as C1 by (exists tunnel; auto).
  destruct (grv r =? 0). { apply wp_ret. exists (mDumpTunnels (globals w)). eexists. split_and!; [by destruct (globals w)|done|done|by repeat constructor]. }
  apply wp_bind, wp_on; [done|]. intros r1. cbn [globals trace]. rewrite <- app_assoc. assert (tunnel_call (Calive tunnel, r1)) as C2 by (exists tunnel; auto).
  destruct (grv r1 =? 0). { apply wp_ret. exists (mDumpTunnels (globals w)). eexists. split_and!; [by destruct (globals w)|done|done|by repeat constructor]. }
  apply wp_bind, wp_on; [done|]. intros r2. cbn [globals trace]. rewrite <- app_assoc. assert (tunnel_call (Clink_to_death tunnel, r2)) as C3 by (exists tunnel; auto).
  apply wp_bind, wp_get. apply wp_bind. cbn [app globals]. pose proof (pool_tunnels _ _ Hs) as Htu.
  apply wp_mono with (Q := fun _ w' => exists l calls, globals w' = with_tunnels l (globals w) /\ Forall (fun e => e.2 <> 0) l /\ trace w' = trace w ++ calls /\ Forall tunnel_call calls).
  - destruct (_ <? _).
    + apply wp_bind. eapply wp_mono; [by apply remove_zombies_ok|]. cbn beta. intros l w' (Hg & Hl & calls & Hc & Ha). apply wp_mod. cbn [globals trace] in Hg, Hc.
      cbn [globals trace]. rewrite Hc, <- app_assoc. eexists l, _. rewrite Hg. split_and!; [done|done|done|]. cbn [app]. repeat (constructor; [done|]).
      eapply List.Forall_impl; [|exact Ha]. intros e [t E]. exists t. auto.
    + apply wp_ret. exists (mDumpTunnels (globals w)). eexists. split_and!; [by destruct (globals w)|done|done|by repeat constructor].
  - cbn beta. intros [] w' (l & calls & Hg & Hl & Hc & Ha). apply wp_bind, wp_mod, wp_ret. cbn [globals trace]. rewrite Hg.
    exists (tunnel_add key tunnel l), calls. split_and!; [done| |done|done]. apply pools_tunnels; [by apply pools_tunnels|]. by apply tunnel_add_ok.
Qed.

Lemma unregDump_ok key (w : W) : pools_ok (globals w) ->
  wp (unregDump key) (fun _ w' => w' = World (with_tunnels (tunnel_remove key (mDumpTunnels (globals w))) (globals w)) (trace w) /\ pools_ok (globals w')) w.
Proof.
  intros Hs. unfold unregDump. apply wp_bind, wp_mod, wp_ret. split; [done|]. apply pools_tunnels; [done|].
  pose proof (pool_tunnels _ _ Hs) as Htu. apply List.Forall_forall. intros e [He _]%filter_In. rewrite List.Forall_forall in Htu. by apply Htu.
Qed.

Lemma gui_step_ok o (w : W) : pools_ok (globals w) -> op_ok o -> wp (gui_step answer o) (stays pools_ok) w.
Proof using headers_ok Hanswer.
  intros Hs. destruct o as [token usage width h|id|token id usage type buf|id usage type buf buffer|id usage type buf|id usage type
    |type enable width h bufNum|who|id who|tunnel key|key]; cbn [op_ok gui_step]; intros Hop;
    lazymatch goal with |- wp (io_bind _ _) _ _ => apply wp_bind | _ => idtac end.
  - eapply wp_mono; [by apply pool_alloc_ok|]. intros r w' [? _]. by apply wp_ret.
  - eapply wp_mono; [by apply free_ok|]. intros r w' ?. by apply wp_ret.
  - destruct Hop. eapply wp_mono; [by apply acquire_ok|]. intros r w' ?. by apply wp_ret.
  - eapply wp_mono; [by apply request_ok|]. intros r w' ?. by apply wp_ret.
  - eapply wp_mono; [by apply release_ok|]. intros r w' ?. by apply wp_ret.
  - eapply wp_mono; [by apply disconnect_ok|]. intros r w' ?. by apply wp_ret.
  - eapply wp_mono; [by apply configDisplay_ok|]. by intros r w' [? _].
  - unfold producer_died. apply wp_bind, wp_get. eapply wp_mono; [apply (producer_died_ok who _ (mPoolList (globals w)) []); [done|by rewrite app_nil_r|done]|].
    cbn beta. by intros [] w' [? _].
  - by apply consumer_death_ok.
  - eapply wp_mono; [by apply regDump_ok|]. intros r w' (l & calls & _ & ? & _). by apply wp_ret.
  - eapply wp_mono; [by apply unregDump_ok|]. intros r w' [_ ?]. by apply wp_ret.
Qed.

Lemma gui_run_ok l (w : W) : pools_ok (globals w) -> Forall op_ok l -> wp (gui_run answer l) (stays pools_ok) w.
Proof using headers_ok Hanswer.
  intros Hs Hl. revert w Hs. induction Hl as [|o l Ho _ IH]; intros w Hs; cbn [gui_run]; [by apply wp_ret|].
  apply wp_bind. eapply wp_mono; [by apply gui_step_ok|]. cbn beta. intros [] w' Hs'. by apply IH.
Qed.
End Service.
