(* ===== verification/GuiLedger.v ===== *)
(** The service of preallocated buffers: its slots and the buffer queues.

    Which buffers of a queue are out follows from the calls that were made to it. The slots of the service always say
    the same: a slot has a token exactly if its buffer is out. *)
From Stdlib Require Import String List.
From stdpp Require Import gmap.
From S2P Require Import Prelude Maps Effects GuiState GuiPool GuiItems GuiService.

(** ** What the calls say of the producer [p] *)
Abbreviation calls := (list (gcall * gresp)).

(** Its buffer [b] was dequeued, and not cancelled since. *)
Definition out_step (p b : Z) (o : bool) (e : gcall * gresp) : bool :=
  match e.1 with
  | Cdequeue p' _ _ => if p' =? p then match gdata e.2 with b' :: _ => (b' =? b) || o | [] => o end else o
  | Ccancel p' b' => if (p' =? p) && (b' =? b) then false else o
  | _ => o
  end.
Definition out (tr : calls) (p b : Z) : bool := fold_left (out_step p b) tr false.

(** How many buffers it may hand out. *)
Definition capacity_step (p c : Z) (e : gcall * gresp) : Z :=
  match e.1 with Cset_max_dequeued p' n => if p' =? p then n else c | _ => c end.
Definition capacity (tr : calls) (p : Z) : Z := fold_left (capacity_step p) tr 0.

(** Whether it was made. *)
Definition made (p : Z) (e : gcall * gresp) : bool :=
  match e.1 with Ccreate_queue => match gdata e.2 with p' :: _ => p' =? p | [] => false end | _ => false end.
Definition created (tr : calls) (p : Z) : bool := existsb (made p) tr.

Definition touches (p : Z) (c : gcall) : bool :=
  match c with Cdequeue p' _ _ | Ccancel p' _ | Cset_max_dequeued p' _ => p' =? p | _ => false end.

(** What the service relies on: [dequeueBuffer] hands out a buffer below the number that was set, which is not out,
    or none; a new queue has a producer of its own. *)
Record queues_behave (answer : calls -> gcall -> gresp) : Prop := {
  dequeue_fresh : forall tr p f u, let r := answer tr (Cdequeue p f u) in
    gdata r = [] \/ 0 <= grv r /\ exists b, gdata r = [b] /\ 0 <= b < capacity tr p /\ out tr p b = false;
  create_fresh : forall tr p l, gdata (answer tr Ccreate_queue) = p :: l -> created tr p = false
}.

Lemma out_snoc tr e p b : out (tr ++ [e]) p b = out_step p b (out tr p b) e.
Proof. unfold out. by rewrite fold_left_app. Qed.

Lemma frame tr l p : (forall e, In e l -> touches p e.1 = false) ->
  (forall b, out (tr ++ l) p b = out tr p b) /\ capacity (tr ++ l) p = capacity tr p.
Proof.
  intros Hl. unfold out, capacity. setoid_rewrite fold_left_app.
  generalize (fold_left (capacity_step p) tr 0) as c. intros c. split.
  - intros b. generalize (fold_left (out_step p b) tr false) as o. revert Hl. induction l as [|e l IH]; intros Hl o; cbn [fold_left]; [done|].
    rewrite IH by (intros e' ?; apply Hl; by right). specialize (Hl e (or_introl eq_refl)). unfold touches, out_step in *. destruct e.1; try done; by rewrite Hl.
  - revert c Hl. induction l as [|e l IH]; intros c Hl; cbn [fold_left]; [done|].
    rewrite IH by (intros e' ?; apply Hl; by right). specialize (Hl e (or_introl eq_refl)). unfold touches, capacity_step in *. destruct e.1; try done; by rewrite Hl.
Qed.

Lemma untouched (l : calls) p : existsb (fun e => touches p e.1) l = false -> forall e, In e l -> touches p e.1 = false.
Proof. intros H e He. apply not_true_is_false. intros Ht. assert (existsb (fun e => touches p e.1) l = true); [|congruence]. apply existsb_exists. by exists e. Qed.

Lemma created_app tr l p : created (tr ++ l) p = created tr p || created l p.
Proof. apply existsb_app. Qed.

(** The keys of the slots differ as long as there are no more than 8 displays and buffers. *)
Lemma combined_id_inj t b t' b' : 0 <= t < 8 -> 0 <= b < 8 -> 0 <= t' < 8 -> 0 <= b' < 8 ->
  POOL_COMBINED_ID GUI_EXT_USAGE_HWC t b = POOL_COMBINED_ID GUI_EXT_USAGE_HWC t' b' -> t = t' /\ b = b'.
Proof.
  assert (forall t b, 0 <= t < 8 -> 0 <= b < 8 -> POOL_COMBINED_ID GUI_EXT_USAGE_HWC t b = b + t * 2 ^ 3 + GUI_EXT_USAGE_HWC * 2 ^ 6) as H.
  { intros x y Hx Hy. unfold POOL_COMBINED_ID. rewrite Z.lor_comm, (Z.lor_comm (GUI_EXT_USAGE_HWC ≪ 6)), Z.lor_assoc.
    rewrite (lor_shift y x 3), lor_shift by lia. unfold GUI_EXT_USAGE_HWC. rewrite wrapu_small by lia. lia. }
  intros Ht Hb Ht' Hb'. rewrite !H by done. lia.
Qed.

(** ** The ledger *)
Section Ledger.
Context `{headers : gui_headers} (headers_ok : gui_headers_ok headers).
Context (answer : calls -> gcall -> gresp) (Hanswer : answers_ok answer) (Hqueues : queues_behave answer).
Abbreviation W := (world gui_pool gcall gresp).

(** Some client has the buffer [b] of the display [t]. *)
Definition held (item : pool_item) (t b : Z) : Prop :=
  exists c s, In (c, s) (mConsumerList item) /\ s_type s = t /\ s_idx s = b /\ s_token s <> 0.

(** The queue of the display [t] of an item, after the calls [tr]. *)
Record queue_book (tr : calls) (item : pool_item) (t : Z) (q : hwc_slot) : Prop := {
  book_created : created tr (mProducer q) = true;
  book_capacity : capacity tr (mProducer q) = q_bufNum q;
  book_small : 0 <= t < 8 /\ q_bufNum q <= 8;
  book_out : forall b, out tr (mProducer q) b = true <-> held item t b
}.
Record item_book (tr : calls) (item : pool_item) : Prop := {
  item_queue_book : forall t q, In (t, q) (mHwcUsedBqList item) -> queue_book tr item t q;
  item_distinct : forall t q t' q', In (t, q) (mHwcUsedBqList item) -> In (t', q') (mHwcUsedBqList item) -> mProducer q = mProducer q' -> t = t';
  item_idx : forall c s, In (c, s) (mConsumerList item) -> exists q, In (s_type s, q) (mHwcUsedBqList item) /\ 0 <= s_idx s < q_bufNum q
}.

Definition has_producer (item : pool_item) (p : Z) : Prop := exists t q, In (t, q) (mHwcUsedBqList item) /\ mProducer q = p.

Record ledger (w : W) : Prop := {
  ledger_ok : pools_ok (globals w);
  ledger_displays : forall k d, In (k, d) (mDisplayList (globals w)) -> k < 8 /\ d_bufNum d <= 8;
  ledger_book : forall k i, In (k, i) (mPoolList (globals w)) -> item_book (trace w) i;
  ledger_distinct : forall k i k' i' p, In (k, i) (mPoolList (globals w)) -> In (k', i') (mPoolList (globals w)) ->
    has_producer i p -> has_producer i' p -> k = k';
  ledger_out : forall p b, out (trace w) p b = true -> created (trace w) p = true
}.

(** Calls that touch no queue of an item leave its book. *)
Lemma item_book_frame tr l item : item_book tr item -> (forall p e, has_producer item p -> In e l -> touches p e.1 = false) ->
  item_book (tr ++ l) item.
Proof.
  intros [H1 H2 H3] Hl. split; [|done|done]. intros t q Hin. destruct (H1 t q Hin) as [B1 B2 B3 B4].
  destruct (frame tr l (mProducer q)) as [Fo Fc]; [intros e He; apply Hl; [by exists t, q|done]|].
  split; [by rewrite created_app, B1|by rewrite Fc|done|]. intros b. by rewrite Fo.
Qed.

(** The book depends on the queues and the slots alone. *)
Lemma item_book_same tr item item' : mHwcUsedBqList item' = mHwcUsedBqList item -> mConsumerList item' = mConsumerList item ->
  item_book tr item -> item_book tr item'.
Proof.
  intros Hq Hs [H1 H2 H3]. split; rewrite ?Hq, ?Hs; try done. intros t q Hin. destruct (H1 t q Hin) as [B1 B2 B3 B4].
  split; try done. intros b. rewrite B4. unfold held. by rewrite Hs.
Qed.

(** One item changes; the calls touch no queue but those of this item. *)
Lemma ledger_update id i0 item l (w : W) : ledger w -> valueFor id (mPoolList (globals w)) = Some i0 -> item_ok id item ->
  mHwcUsedBqList item = mHwcUsedBqList i0 -> item_book (trace w ++ l) item ->
  (forall p e, In e l -> touches p e.1 = true -> has_producer i0 p) ->
  ledger (World (keep_if_used id item (globals w)) (trace w ++ l)).
Proof.
  intros [H1 H2 H3 H4 H5] Hid Hok Hq Hb Hl. pose proof (valueFor_in _ _ _ Hid) as Hin0.
  assert (forall k i, In (k, i) (mPoolList (keep_if_used id item (globals w))) -> k = id /\ i = item \/ k <> id /\ In (k, i) (mPoolList (globals w))) as Hin.
  { intros k i Hin. unfold keep_if_used in Hin. cbn in Hin. destruct (unused item).
    - apply removeItem_in in Hin as [Hin Hne]. right. by split.
    - apply in_kv_add_iff in Hin; [done|apply H1]. }
  assert (forall p, has_producer item p -> has_producer i0 p) as Hp by (intros p (t & q & Ht & ?); exists t, q; by rewrite Hq in Ht).
  split; cbn [globals trace].
  - by eapply keep_if_used_ok.
  - exact H2.
  - intros k i [[-> ->]|[Hne Hi]]%Hin; [done|]. apply item_book_frame; [by apply (H3 k)|]. intros p e Hpi He.
    destruct (touches p e.1) eqn:E; [|done]. destruct Hne. apply (H4 k i id i0 p); eauto.
  - intros k i k' i' p [[-> ->]|[Hne Hi]]%Hin [[-> ->]|[Hne' Hi']]%Hin; intros Hp1 Hp2; try done.
    + apply (H4 id i0 k' i' p); auto.
    + apply (H4 k i id i0 p); auto.
    + by apply (H4 k i k' i' p).
  - intros p b Ho. rewrite created_app. destruct (existsb (fun e => touches p e.1) l) eqn:E.
    + apply existsb_exists in E as (e & He & Ht). destruct (Hl p e He Ht) as (t & q & Hi & <-).
      by rewrite (book_created _ _ _ _ (item_queue_book _ _ (H3 _ _ Hin0) t q Hi)).
    + rewrite (proj1 (frame (trace w) l p (untouched l p E))) in Ho. by rewrite (H5 p b Ho).
Qed.

(** ** The slots of an item and the calls that go with their changes *)
Lemma slot_at k tr item t b s : item_ok k item -> item_book tr item -> 0 <= t < 8 -> 0 <= b < 8 ->
  valueFor (POOL_COMBINED_ID GUI_EXT_USAGE_HWC t b) (mConsumerList item) = Some s -> s_type s = t /\ s_idx s = b.
Proof.
  intros Hok Hb Ht Hr Hs%valueFor_in. destruct (proj2 (item_slots _ _ Hok) _ _ Hs) as [Hu Hk _ _ _]. rewrite Hu in Hk.
  destruct (item_idx _ _ Hb _ _ Hs) as (q & Hq & Hi). destruct (book_small _ _ _ _ (item_queue_book _ _ Hb _ _ Hq)) as [? ?].
  apply combined_id_inj in Hk; [|done|done|done|lia]. by destruct Hk.
Qed.

Lemma held_slot k tr item t b s : item_ok k item -> item_book tr item -> 0 <= t < 8 -> 0 <= b < 8 ->
  valueFor (POOL_COMBINED_ID GUI_EXT_USAGE_HWC t b) (mConsumerList item) = s ->
  held item t b <-> exists s', s = Some s' /\ s_token s' <> 0.
Proof.
  intros Hok Hb Ht Hr <-. split.
  - intros (c & s & Hin & <- & <- & Htok). exists s. split; [|done].
    destruct (proj2 (item_slots _ _ Hok) _ _ Hin) as [Hu Hk _ _ _]. rewrite <- Hu, <- Hk. by apply in_valueFor; [apply (item_slots _ _ Hok)|].
  - intros (s & Hs & Htok). destruct (slot_at k tr item t b s Hok Hb Ht Hr Hs) as [? ?].
    exists (POOL_COMBINED_ID GUI_EXT_USAGE_HWC t b), s. split_and!; try done. by apply valueFor_in.
Qed.

(** The calls [tr'] differ from [tr] in one buffer of the queue of [t0], as its slot does. *)
Lemma item_book_slot k tr tr' item t0 q0 b0 s s' : item_ok k item -> item_book tr item ->
  valueFor t0 (mHwcUsedBqList item) = Some q0 -> 0 <= b0 < 8 ->
  valueFor (POOL_COMBINED_ID GUI_EXT_USAGE_HWC t0 b0) (mConsumerList item) = Some s -> s_type s' = t0 -> s_idx s' = b0 ->
  (forall b, out tr' (mProducer q0) b = if b =? b0 then negb (s_token s' =? 0) else out tr (mProducer q0) b) ->
  (forall p, (created tr p = true -> created tr' p = true) /\ capacity tr' p = capacity tr p) ->
  (forall p b, p <> mProducer q0 -> out tr' p b = out tr p b) ->
  item_book tr' (with_consumers (kv_add (POOL_COMBINED_ID GUI_EXT_USAGE_HWC t0 b0) s' (mConsumerList item)) item).
Proof.
  intros Hok Hb Hq0 Hr0 Hs Ht' Hi' Hout Hrest Hother. pose proof (valueFor_in _ _ _ Hq0) as Hin0.
  pose proof (book_small _ _ _ _ (item_queue_book _ _ Hb _ _ Hin0)) as [Ht0 _].
  destruct (slot_at k tr item t0 b0 s Hok Hb Ht0 Hr0 Hs) as [Hst Hsi]. pose proof (proj1 (item_slots _ _ Hok)) as Hsorted.
  split; cbn [mHwcUsedBqList mConsumerList with_consumers].
  - intros t q Hin. destruct (item_queue_book _ _ Hb t q Hin) as [B1 B2 B3 B4].
    split; [by apply Hrest|by rewrite (proj2 (Hrest _))|done|]. intros b.
    assert (held (with_consumers (kv_add (POOL_COMBINED_ID GUI_EXT_USAGE_HWC t0 b0) s' (mConsumerList item)) item) t b <->
      if (t =? t0) && (b =? b0) then s_token s' <> 0 else held item t b) as ->.
    { unfold held. cbn [mConsumerList with_consumers]. split.
      - intros (c & s1 & [[-> ->]|[Hne Hc]]%in_kv_add_iff & <- & <- & Htok); [by rewrite Ht', Hi', !Z.eqb_refl| |done].
        destruct ((s_type s1 =? t0) && (s_idx s1 =? b0)) eqn:E; [|by exists c, s1]. apply andb_true_iff in E as [<-%Z.eqb_eq <-%Z.eqb_eq].
        destruct (proj2 (item_slots _ _ Hok) _ _ Hc) as [Hu Hk _ _ _]. by rewrite Hu in Hk.
      - destruct ((t =? t0) && (b =? b0)) eqn:E.
        + apply andb_true_iff in E as [->%Z.eqb_eq ->%Z.eqb_eq]. intros Htok. eexists _, s'. split_and!; [|done..].
          apply in_kv_add_iff; [done|by left].
        + intros (c & s1 & Hc & <- & <- & Htok). exists c, s1. split_and!; try done. apply in_kv_add_iff; [done|right]. split; [|done].
          intros ->. rewrite (in_valueFor _ _ _ Hsorted Hc) in Hs. injection Hs as ->. by rewrite Hst, Hsi, !Z.eqb_refl in E. }
    destruct (decide (t = t0)) as [->|Hne].
    + rewrite (in_valueFor _ _ _ (proj1 (item_queues _ _ Hok)) Hin) in Hq0. injection Hq0 as ->. rewrite Hout, Z.eqb_refl. cbn [andb].
      destruct (b =? b0); [|by apply B4]. destruct (Z.eqb_spec (s_token s') 0); cbn [negb]; split; done.
    + rewrite (proj2 (Z.eqb_neq _ _) Hne). cbn [andb]. rewrite Hother; [by apply B4|]. intros E. by apply Hne, (item_distinct _ _ Hb t q t0 q0).
  - apply Hb.
  - intros c s1 [[-> ->]|[Hne Hc]]%in_kv_add_iff; [|by apply (item_idx _ _ Hb c)|done]. rewrite Ht', Hi', <- Hst, <- Hsi.
    exact (item_idx _ _ Hb _ _ (valueFor_in _ _ _ Hs)).
Qed.

(** A buffer is given back. *)
Lemma released_book k tr item usage type b r : item_ok k item -> item_book tr item -> 0 <= b < 8 ->
  getIGraphicBufferProducer usage type item <> 0 ->
  item_book (tr ++ [(Ccancel (getIGraphicBufferProducer usage type item) b, r)]) (released usage type b item).
Proof.
  intros Hok Hb Hr Hp. destruct (producer_usage _ _ _ _ Hok Hp) as (-> & _ & q & Hq & Hpq). rewrite <- Hpq. clear Hp Hpq.
  pose proof (item_queue_book _ _ Hb _ _ (valueFor_in _ _ _ Hq)) as [B1 B2 [Ht _] B4].
  assert (forall p b', p <> mProducer q -> out (tr ++ [(Ccancel (mProducer q) b, r)]) p b' = out tr p b') as Hother.
  { intros p b' Hne. rewrite out_snoc. unfold out_step. cbn. by destruct (Z.eqb_spec (mProducer q) p); [subst|]. }
  assert (forall b', out (tr ++ [(Ccancel (mProducer q) b, r)]) (mProducer q) b' = if b' =? b then false else out tr (mProducer q) b') as Hout.
  { intros b'. rewrite out_snoc. unfold out_step. cbn. by rewrite Z.eqb_refl, Z.eqb_sym. }
  assert (forall p, (created tr p = true -> created (tr ++ [(Ccancel (mProducer q) b, r)]) p = true) /\
    capacity (tr ++ [(Ccancel (mProducer q) b, r)]) p = capacity tr p) as Hrest.
  { intros p. rewrite created_app. unfold capacity. rewrite fold_left_app. split; [by intros ->|done]. }
  unfold released. destruct (valueFor _ (mConsumerList item)) as [s|] eqn:Hs.
  - destruct (slot_at _ _ _ _ _ _ Hok Hb Ht Hr Hs) as [Hst Hsi]. by eapply item_book_slot.
  - destruct Hb as [H1 H2 H3]. split; [|done|done]. intros t' q' Hin'. destruct (H1 t' q' Hin') as [C1 C2 C3 C4].
    split; [by apply Hrest|by rewrite (proj2 (Hrest _))|done|]. intros b'. rewrite <- C4.
    destruct (decide (mProducer q' = mProducer q)) as [E|]; [|by rewrite Hother]. rewrite E, Hout. destruct (Z.eqb_spec b' b) as [->|]; [|done].
    split; [done|]. rewrite B4. intros (s & Hc & _)%(held_slot _ _ _ _ _ _ Hok (Build_item_book _ _ H1 H2 H3) Ht Hr Hs). done.
Qed.

Lemma item_book_ext tr tr' item : item_book tr item -> (forall p b, out tr' p b = out tr p b) ->
  (forall p, (created tr p = true -> created tr' p = true) /\ capacity tr' p = capacity tr p) -> item_book tr' item.
Proof.
  intros [H1 H2 H3] Ho Hrest. split; [|done|done]. intros t q Hin. destruct (H1 t q Hin) as [B1 B2 B3 B4].
  split; [by apply Hrest|by rewrite (proj2 (Hrest _))|done|]. intros b. by rewrite Ho.
Qed.

(** Calls to other objects. *)
Definition elsewhere (c : gcall) : Prop := forall p, touches p c = false.

Lemma wp_pid_trace token Q (w : W) : token <> 0 ->
  (forall pid l w', globals w' = globals w -> trace w' = trace w ++ l -> (forall e, In e l -> elsewhere e.1) -> Q pid w') -> wp (pid_of answer token) Q w.
Proof.
  unfold pid_of. intros Ht HQ. apply wp_bind, wp_on; [done|]. intros r. apply wp_bind, sys_any. intros p. apply wp_ret.
  eapply HQ; [done|cbn; by rewrite <- app_assoc|]. cbn. intros e [<-|[<-|[]]] ?; [done|]. by destruct (_ =? 0).
Qed.

(** The service sees that it gets no buffer: by [*buf], which is left as it was, or by the status. *)
Definition refusal_seen (buf : Z) : Prop :=
  buf < 0 \/ forall tr p f u, let r := answer tr (Cdequeue p f u) in gdata r = [] -> grv r = WOULD_BLOCK.

(** An error, or a buffer that belongs to the token. *)
Definition granted (token usage type buf : Z) (r : Z * Z * pool_item) : Prop :=
  - 2 ^ 31 <= r.1.1 < 0 /\ r.1.2 = buf \/
  r.1.1 = NO_ERROR /\ 0 <= r.1.2 < 8 /\ used r.2 /\ exists s, valueFor (POOL_COMBINED_ID usage type r.1.2) (mConsumerList r.2) = Some s /\ s_token s = token.

(** Nothing was handed out. *)
Lemma refused_book tr item p f u r : item_book tr item -> gdata r = [] -> item_book (tr ++ [(Cdequeue p f u, r)]) item.
Proof.
  intros Hb Hd. eapply item_book_ext; [exact Hb| |].
  - intros p' b. rewrite out_snoc. unfold out_step. cbn. rewrite Hd. destruct (p =? p'); done.
  - intros p'. rewrite created_app. unfold capacity. rewrite fold_left_app. split; [by intros ->|done].
Qed.

(** The buffer [b] was handed out, and is now that of the slot [s']. *)
Lemma granted_book k tr item t q b s s' f u r l : item_ok k item -> item_book tr item -> valueFor t (mHwcUsedBqList item) = Some q -> 0 <= b < 8 ->
  valueFor (POOL_COMBINED_ID GUI_EXT_USAGE_HWC t b) (mConsumerList item) = Some s -> s_type s' = t -> s_idx s' = b -> s_token s' <> 0 ->
  gdata r = [b] -> (forall e, In e l -> elsewhere e.1) ->
  item_book (tr ++ (Cdequeue (mProducer q) f u, r) :: l) (with_consumers (kv_add (POOL_COMBINED_ID GUI_EXT_USAGE_HWC t b) s' (mConsumerList item)) item).
Proof.
  intros Hok Hb Hq Hb8 Hs Ht Hi Htok Hd Hl. rewrite cons_middle, app_assoc. set (tr1 := tr ++ [(Cdequeue (mProducer q) f u, r)]).
  assert (forall p b', out (tr1 ++ l) p b' = out_step p b' (out tr p b') (Cdequeue (mProducer q) f u, r)) as Hout.
  { intros p b'. rewrite (proj1 (frame tr1 l p (fun e He => Hl e He p))). apply out_snoc. }
  eapply item_book_slot; [done|exact Hb|exact Hq|done|exact Hs|done|done| | |].
  - intros b'. rewrite Hout. unfold out_step. cbn [fst snd]. rewrite Hd, Z.eqb_refl, (proj2 (Z.eqb_neq _ _) Htok), Z.eqb_sym. by destruct (b' =? b).
  - intros p. split; [unfold tr1; rewrite !created_app; by intros ->|].
    rewrite (proj2 (frame tr1 l p (fun e He => Hl e He p))). unfold capacity, tr1. by rewrite fold_left_app.
  - intros p b' Hne. rewrite Hout. unfold out_step. cbn [fst snd]. by destruct (Z.eqb_spec (mProducer q) p); [subst|].
Qed.

Lemma item_acquire_book k token usage type buf item (w : W) : item_ok k item -> item_book (trace w) item -> token <> 0 -> refusal_seen buf ->
  wp (item_acquire answer token usage type buf item) (fun r w' => mHwcUsedBqList r.2 = mHwcUsedBqList item /\ item_book (trace w') r.2 /\
    (exists l, trace w' = trace w ++ l /\ forall p e, In e l -> touches p e.1 = true -> has_producer item p) /\
    granted token usage type buf r) w.
Proof using headers_ok Hqueues.
  intros Hok Hb Htok Hbuf. pose proof errors_negative as Herr. rewrite !List.Forall_cons_iff in Herr. destruct Herr as (Ebi & _ & _ & Eio & Ewb & _).
  unfold item_acquire. destruct (_ && _). { apply wp_ret. split_and!; try done; [exists []; by rewrite app_nil_r|by left]. }
  destruct (Z.eqb_spec (getIGraphicBufferProducer usage type item) 0) as [|Hp].
  { apply wp_ret. split_and!; try done; [exists []; by rewrite app_nil_r|by left]. }
  destruct (producer_usage _ _ _ _ Hok Hp) as (-> & Htype & q & Hq & Hpq). rewrite <- Hpq. clear Hp Hpq.
  pose proof (valueFor_in _ _ _ Hq) as Hin. pose proof (item_queue_book _ _ Hb _ _ Hin) as [B1 B2 [Ht Hn] B4].
  destruct (proj2 (item_queues _ _ Hok) _ _ Hin) as [_ Hp Hslots].
  assert (forall e, touches (mProducer q) e = true \/ elsewhere e -> forall p, touches p e = true -> has_producer item p) as Howner.
  { intros e [H|H] p Hte; [|by rewrite H in Hte]. exists type, q. split; [done|]. destruct e; cbn in H, Hte; try done; lia. }
  apply wp_bind. eapply wp_lift; [done|]. apply wp_bind. unfold on at 1. rewrite (proj2 (Z.eqb_neq _ _) Hp). apply sys_eq. intros r Hr. cbv zeta.
  pose proof (dequeue_fresh _ Hqueues (trace w) (mProducer q) HAL_PIXEL_FORMAT_YUYV LOCK_FOR_USAGE) as Hd. cbv zeta in Hd. rewrite <- Hr in Hd.
  assert (gdata r = [] -> (grv r =? WOULD_BLOCK) || (buf <? 0) = true) as Href.
  { intros E. apply orb_true_iff. destruct Hbuf as [Hbuf|Hbuf]; [right; by apply Z.ltb_lt|left; apply Z.eqb_eq]. rewrite Hr in *. by apply Hbuf. }
  clear Hr. destruct Hd as [Hd|(Hrv & b & Hd & Hbr & Hfree)]; rewrite Hd.
  - cbn [aget default]. change (default buf (aget [] 0)) with buf. rewrite (Href Hd). apply wp_ret. cbn [fst snd trace]. split_and!; [done| | |by left].
    + by apply refused_book.
    + eexists. split; [done|]. intros p e [<-|[]]. apply Howner. left. apply Z.eqb_refl.
  - change (default buf (aget [b] 0)) with b. rewrite (proj2 (Z.eqb_neq _ _)), (proj2 (Z.ltb_ge _ _)) by lia. cbn [orb].
    rewrite B2 in Hbr. assert (0 <= b < 8) as Hb8 by lia. destruct (Hslots b Hbr) as [s Hs].
    assert (s_token s = 0) as Hs0.
    { destruct (decide (s_token s = 0)) as [|Hne]; [done|]. rewrite (proj2 (B4 b)) in Hfree; [done|].
      apply (held_slot _ _ _ _ _ _ Hok Hb Ht Hb8 Hs). by exists s. }
    apply wp_bind, wp_on; [done|]. intros r1. rewrite Hs, Hs0. cbn [Z.eqb]. apply wp_bind, wp_bind, wp_pid_trace; [done|].
    intros pid l w1 _ Htr Hl. apply wp_ret. destruct (item_flags _ _ Hok) as (d & Hflags & _). cbn [mIsDisconnected with_consumers].
    rewrite Hflags. apply wp_bind. eapply wp_lift; [done|]. apply wp_ret. cbn [fst snd trace] in *. rewrite Htr, <- !app_assoc. cbn [app].
    assert (forall e, In e ((Clink_to_death token, r1) :: l) -> elsewhere e.1) as Hl' by (intros e [<-|?]; [by intros p|by apply Hl]).
    split_and!; [done| | |].
    + apply (item_book_same _ (with_consumers (kv_add (POOL_COMBINED_ID GUI_EXT_USAGE_HWC type b)
        (mk_slot GUI_EXT_USAGE_HWC type b pid token true) (mConsumerList item)) item)); [done|done|]. by eapply granted_book.
    + eexists. split; [done|]. intros p e [<-|He]; apply Howner; [left; apply Z.eqb_refl|right; by apply Hl'].
    + right. cbn [fst snd]. split_and!; [done|lia|lia|right; by right; left|]. eexists.
      cbn [mConsumerList with_consumers with_listener with_disconnected]. by rewrite valueFor_add, Z.eqb_refl.
Qed.

(** ** A new item *)

(** Calls that make queues, and set how many buffers they have. *)
Definition makes_queue (e : gcall * gresp) : bool :=
  match e.1 with Cdequeue _ _ _ | Ccancel _ _ => false | _ => true end.

Lemma makes_queue_out tr l p b : forallb makes_queue l = true -> out (tr ++ l) p b = out tr p b.
Proof.
  unfold out. rewrite fold_left_app. generalize (fold_left (out_step p b) tr false) as o. induction l as [|e l IH]; intros o Hl; cbn in *; [done|].
  apply andb_true_iff in Hl as [He Hl]. rewrite IH by done. unfold makes_queue, out_step in *. by destruct e.1.
Qed.

(** The queues that were made after the calls [tr0]. *)
Record new_queues (tr0 tr : calls) (queues : keyed_vector hwc_slot) : Prop := {
  new_made : forall t q, In (t, q) queues -> created tr0 (mProducer q) = false /\ created tr (mProducer q) = true /\ capacity tr (mProducer q) = q_bufNum q;
  new_small : forall t q, In (t, q) queues -> 0 <= t < 8 /\ q_bufNum q <= 8;
  new_distinct : forall t q t' q', In (t, q) queues -> In (t', q') queues -> mProducer q = mProducer q' -> t = t'
}.
(** The calls since then touch only new queues. *)
Definition only_new (tr0 tr : calls) : Prop := exists l, tr = tr0 ++ l /\
  forall p e, In e l -> touches p e.1 = true -> created tr0 p = false /\ created tr p = true.

Lemma only_new_app tr0 tr l : only_new tr0 tr -> (forall p e, In e l -> touches p e.1 = true -> created tr0 p = false /\ created (tr ++ l) p = true) ->
  only_new tr0 (tr ++ l).
Proof.
  intros (l0 & -> & H0) Hl. exists (l0 ++ l). rewrite <- app_assoc. split; [done|]. intros p e [He|He]%in_app_or Ht.
  - destruct (H0 p e He Ht) as [? H]. split; [done|]. by rewrite app_assoc, created_app, H.
  - rewrite app_assoc. by apply (Hl p e).
Qed.

Lemma create_queues_trace tr0 disp name queues (w : W) : new_queues tr0 (trace w) queues -> sorted_keys queues -> only_new tr0 (trace w) ->
  (forall k d, In (k, d) disp -> 0 <= d_type d < 8 /\ d_bufNum d <= 8) ->
  wp (create_queues answer disp name queues) (fun queues' w' => new_queues tr0 (trace w') queues' /\ only_new tr0 (trace w') /\
    forall p b, out (trace w') p b = out (trace w) p b) w.
Proof using Hanswer Hqueues.
  revert queues w. induction disp as [|[k d] disp IH]; intros queues w Hq Hs Hnew Hd; cbn [create_queues]; [by apply wp_ret|].
  unfold createBufferQueue. do 2 apply wp_bind. apply sys_eq. intros r Hr.
  destruct (proj1 (Hanswer (trace w))) as (p & c & rest & Hpc & Hp & Hc). pose proof (create_fresh _ Hqueues (trace w) p (c :: rest) Hpc) as Hfresh.
  rewrite <- Hr in Hpc. clear Hr. rewrite Hpc. do 2 (eapply wp_bind, wp_lift; [done|]). repeat (apply wp_bind, wp_on; [assumption|intros ?]). apply wp_ret.
  cbn [fst snd globals trace]. rewrite <- !app_assoc. cbn [app].
  match goal with |- wp _ _ (World _ (trace w ++ ?l0)) => set (l := l0) end.
  assert (forall p', touches p' (Cset_max_dequeued p (d_bufNum d)) = false -> forall e, In e l -> touches p' e.1 = false) as Hl.
  { intros p' Hp' e He. unfold l in He. cbn in He. destruct_or?; subst; done. }
  assert (created tr0 p = false) as Hp0.
  { destruct Hnew as (l0 & Htr & _). rewrite Htr, created_app in Hfresh. apply orb_false_iff in Hfresh. apply Hfresh. }
  assert (created (trace w ++ l) p = true) as Hp1.
  { rewrite created_app. unfold l at 1. cbn [created existsb made fst snd]. by rewrite Hpc, Z.eqb_refl, orb_true_r. }
  assert (forall p', created (trace w) p' = true -> created (trace w ++ l) p' = true /\ capacity (trace w ++ l) p' = capacity (trace w) p') as Hold.
  { intros p' H. split; [by rewrite created_app, H|]. apply frame, Hl. cbn. destruct (Z.eqb_spec p p') as [->|]; [|done]. congruence. }
  assert (capacity (trace w ++ l) p = d_bufNum d) as Hcap.
  { unfold capacity. rewrite fold_left_app. unfold l. cbn [fold_left capacity_step fst]. by rewrite Z.eqb_refl. }
  destruct (Hd k d (or_introl eq_refl)) as [Ht Hn].
  assert (forall t q, In (t, q) (kv_add (d_type d) (mk_queue p c (d_type d) (d_bufNum d)) queues) ->
    t = d_type d /\ q = mk_queue p c (d_type d) (d_bufNum d) \/ In (t, q) queues /\ mProducer q <> p) as Hin.
  { intros t q [H|[_ H]]%in_kv_add_iff; [by left| |done]. right. split; [done|]. intros E. destruct (new_made _ _ _ Hq t q H) as (_ & Hc' & _). congruence. }
  eapply wp_mono; [apply IH|].
  - split.
    + intros t q [[-> ->]|[H Hne]]%Hin; [done|]. destruct (new_made _ _ _ Hq t q H) as (? & Hc' & Hcap'). destruct (Hold _ Hc') as [? Hcap2]. cbn [trace]. by rewrite Hcap2.
    + intros t q [[-> ->]|[H Hne]]%Hin; [done|by apply (new_small _ _ _ Hq)].
    + intros t q t' q' [[-> ->]|[H Hne]]%Hin [[-> ->]|[H' Hne']]%Hin E; try done. by apply (new_distinct _ _ _ Hq t q t' q').
  - by apply kv_add_sorted.
  - cbn [trace]. apply only_new_app; [done|]. intros p' e He Ht'. destruct (Z.eqb_spec p p') as [<-|Hne]; [done|].
    rewrite (Hl p') in Ht'; [done| |done]. cbn. by apply Z.eqb_neq.
  - intros k' d' H. apply (Hd k'). by right.
  - cbn beta. intros queues' w' (H1 & H2 & H3). split_and!; [done|done|]. intros p' b. rewrite H3. cbn [trace]. by apply makes_queue_out.
Qed.

(** Calls that dequeue and cancel the buffers of [p]. *)
Definition hands_out (p : Z) (e : gcall * gresp) : Prop :=
  match e.1 with Cdequeue p' _ _ | Ccancel p' _ => p' = p | _ => False end.

Lemma hands_out_frame p tr l : Forall (hands_out p) l ->
  (forall p', capacity (tr ++ l) p' = capacity tr p' /\ created (tr ++ l) p' = created tr p') /\
  (forall p' b, p' <> p -> out (tr ++ l) p' b = out tr p' b).
Proof.
  intros Hl. split.
  - intros p'. rewrite created_app. unfold capacity. rewrite fold_left_app. split.
    + generalize (fold_left (capacity_step p') tr 0) as c. induction Hl as [|e l He _ IH]; intros c; cbn [fold_left]; [done|].
      rewrite IH. unfold hands_out, capacity_step in *. by destruct e.1.
    + replace (created l p') with false; [by rewrite orb_false_r|]. induction Hl as [|e l He _ IH]; [done|]. cbn [created existsb]. fold (created l p'). rewrite <- IH, orb_false_r.
      unfold hands_out, made in *. by destruct e.1.
  - intros p' b Hne. apply frame. rewrite List.Forall_forall in Hl. intros e He%Hl. unfold hands_out, touches in *. destruct e.1; try done; subst; by apply Z.eqb_neq.
Qed.

Lemma dequeue_all_trace n i p usage type fmt usg slots (w : W) : p <> 0 ->
  wp (dequeue_all answer n i p usage type fmt usg slots) (fun _ w' => exists l, trace w' = trace w ++ l /\ Forall (hands_out p) l /\
    forall b, out (trace w') p b = true -> out (trace w) p b = true \/ 0 <= b < capacity (trace w) p) w.
Proof using Hqueues.
  intros Hp. revert i slots w. induction n as [|n IH]; intros i slots w; cbn [dequeue_all].
  - apply wp_ret. exists []. rewrite app_nil_r. split_and!; [done|constructor|by left].
  - apply wp_bind. unfold on. rewrite (proj2 (Z.eqb_neq _ _) Hp). apply sys_eq. intros r Hr.
    pose proof (dequeue_fresh _ Hqueues (trace w) p fmt usg) as Hd. cbv zeta in Hd. rewrite <- Hr in Hd. clear Hr.
    eapply wp_mono; [apply IH|]. cbn beta. cbn [trace]. intros _ w' (l & -> & Hl & Hout). exists ((Cdequeue p fmt usg, r) :: l).
    rewrite <- app_assoc. split_and!; [done|by constructor|]. intros b Hb. rewrite app_assoc in Hb.
    destruct (Hout b Hb) as [H|H].
    + rewrite out_snoc in H. unfold out_step in H. cbn in H. rewrite Z.eqb_refl in H.
      destruct Hd as [Hd|(_ & b' & Hd & Hr & _)]; rewrite Hd in H; [by left|].
      apply orb_true_iff in H as [<-%Z.eqb_eq|H]; [by right|by left].
    + right. unfold capacity in *. by rewrite fold_left_app in H.
Qed.

Lemma cancel_all_trace n i p (w : W) : p <> 0 ->
  wp (cancel_all answer n i p) (fun _ w' => exists l, trace w' = trace w ++ l /\ Forall (hands_out p) l /\
    forall b, out (trace w') p b = true -> out (trace w) p b = true /\ ~ (i <= b < i + Z.of_nat n)) w.
Proof.
  intros Hp. revert i w. induction n as [|n IH]; intros i w; cbn [cancel_all].
  - apply wp_ret. exists []. rewrite app_nil_r. split_and!; [done|constructor|]. intros b ?. split; [done|lia].
  - apply wp_bind, wp_on; [done|]. intros r. eapply wp_mono; [apply IH|]. cbn beta. cbn [trace]. intros _ w' (l & -> & Hl & Hout).
    exists ((Ccancel p i, r) :: l). rewrite <- app_assoc. split_and!; [done|by constructor|]. intros b Hb. rewrite app_assoc in Hb.
    destruct (Hout b Hb) as [H Hr]. rewrite out_snoc in H. unfold out_step in H. cbn in H. rewrite Z.eqb_refl in H. cbn in H.
    destruct (Z.eqb_spec i b); [done|]. split; [done|lia].
Qed.

(** A queue with its buffers in place. *)
Lemma prepare_queue_trace p usage type gu n item (w : W) : p <> 0 -> capacity (trace w) p = n -> 0 <= usage < 2 ->
  (forall b, out (trace w) p b = false) ->
  wp (prepareBuffer_queue answer p usage type gu n item) (fun r w' => mHwcUsedBqList r.2 = mHwcUsedBqList item /\
    (exists l, trace w' = trace w ++ l /\ Forall (hands_out p) l) /\ forall b, out (trace w') p b = false) w.
Proof using Hqueues.
  intros Hp Hcap Hu Hout. unfold prepareBuffer_queue. apply wp_bind. destruct (aget_in gAcquiredFormat usage ltac:(done)) as [fmt Hfmt].
  eapply wp_lift; [exact Hfmt|]. apply wp_bind. eapply wp_mono; [by apply dequeue_all_trace|]. cbn beta. intros slots w1 (l1 & Ht1 & Hl1 & Hd).
  apply wp_bind. eapply wp_mono; [by apply cancel_all_trace|]. cbn beta. intros [] w2 (l2 & Ht2 & Hl2 & Hc). apply wp_ret.
  split_and!; [done|exists (l1 ++ l2); split; [by rewrite Ht2, Ht1, app_assoc|by apply Forall_app]|].
  intros b. apply not_true_is_false. intros H. destruct (Hc b H) as [H1 Hn]. destruct (Hd b H1) as [H2|H2]; [by rewrite Hout in H2|]. lia.
Qed.

(** Queues with all of their buffers in place. *)
Definition all_in (tr : calls) (queues : keyed_vector hwc_slot) : Prop := forall t q b, In (t, q) queues -> out tr (mProducer q) b = false.

Lemma prepare_queues_trace tr0 l usage err item (w : W) : incl l (mHwcUsedBqList item) -> queues_ok (mHwcUsedBqList item) ->
  new_queues tr0 (trace w) (mHwcUsedBqList item) -> only_new tr0 (trace w) -> all_in (trace w) (mHwcUsedBqList item) ->
  wp (prepare_queues answer l usage err item) (fun r w' => mHwcUsedBqList r.2 = mHwcUsedBqList item /\
    new_queues tr0 (trace w') (mHwcUsedBqList item) /\ only_new tr0 (trace w') /\ all_in (trace w') (mHwcUsedBqList item)) w.
Proof using Hqueues.
  revert err item w. induction l as [|[t q] l IH]; intros err item w Hl Hok Hnew Honly Hin; cbn [prepare_queues]; [by apply wp_ret|].
  assert (In (t, q) (mHwcUsedBqList item)) as Hq by (apply Hl; by left). destruct (proj2 Hok t q Hq) as [_ Hp].
  destruct (new_made _ _ _ Hnew t q Hq) as (Hc0 & Hc & Hcap). apply wp_bind.
  eapply wp_mono; [apply prepare_queue_trace; [done|exact Hcap|done|intros b; by apply (Hin t)]|]. cbn beta.
  intros [e item1] w1 (Hi & (l1 & Ht1 & Hl1) & Hin1). cbn [fst snd] in *. destruct (hands_out_frame _ (trace w) _ Hl1) as [F1 F2].
  rewrite <- Hi. apply IH; rewrite ?Hi; try done.
  - intros x Hx. apply Hl. by right.
  - split; rewrite ?Ht1; [|apply Hnew|apply Hnew]. intros t' q' H. destruct (F1 (mProducer q')) as [-> ->]. by apply (new_made _ _ _ Hnew t').
  - rewrite Ht1. apply only_new_app; [done|]. intros p e' He Ht. destruct (F1 p) as [_ ->].
    assert (p = mProducer q) as ->; [|done]. rewrite List.Forall_forall in Hl1. specialize (Hl1 e' He).
    unfold hands_out, touches in *. destruct e'.1; try done; apply Z.eqb_eq in Ht; congruence.
  - intros t' q' b H. destruct (decide (mProducer q' = mProducer q)) as [->|Hne]; [by apply Hin1|]. rewrite Ht1, F2 by done. by apply (Hin t').
Qed.

(** The first books of a new item. *)
Lemma new_item_book token needed id width h disp usage (w : W) : token <> 0 -> 1 <= id <= MAX_ALLOC_SIZE ->
  (forall p b, out (trace w) p b = true -> created (trace w) p = true) ->
  (forall k d, In (k, d) disp -> 0 <= d_type d < 8 /\ d_bufNum d <= 8) ->
  wp (do item <- new_GuiExtPoolItem answer token needed id width h disp; prepareBuffer answer usage item)
    (fun r w' => only_new (trace w) (trace w') /\ new_queues (trace w) (trace w') (mHwcUsedBqList r.2) /\
      all_in (trace w') (mHwcUsedBqList r.2)) w.
Proof using Hanswer Hqueues.
  intros Ht Hid Hout Hdisp. apply wp_bind. unfold new_GuiExtPoolItem. apply wp_bind.
  assert (only_new (trace w) (trace w)) as Hrefl by (exists []; by rewrite app_nil_r).
  apply wp_mono with (Q := fun l w' => queues_ok l /\ new_queues (trace w) (trace w') l /\ only_new (trace w) (trace w') /\ all_in (trace w') l).
  { destruct needed; [|by apply wp_ret; split_and!; [apply queues_ok_nil|split|done|intros t q b []]].
    eapply wp_mono; [apply wp_and; [by apply (create_queues_ok answer Hanswer disp _ []), queues_ok_nil|
      apply (create_queues_trace (trace w)); [by split|constructor|done|done]]|].
    cbn beta. intros l w1 ((_ & Hok) & Hnew & Honly & Ho). split_and!; [done..|]. intros t q b Hq. rewrite Ho.
    apply not_true_is_false. intros Hb%Hout. by destruct (new_made _ _ _ Hnew t q Hq) as [? _]; congruence. }
  cbn beta. intros l w1 (Hok & Hnew & Honly & Hin). apply wp_bind, wp_pid_trace; [done|]. intros pid l2 w2 _ Ht2 Hl2. apply wp_ret.
  assert (forall p, capacity (trace w2) p = capacity (trace w1) p /\ forall b, out (trace w2) p b = out (trace w1) p b) as Hf.
  { intros p. rewrite Ht2. destruct (frame (trace w1) l2 p (fun e He => Hl2 e He p)). done. }
  assert (new_queues (trace w) (trace w2) l) as Hnew2.
  { split; [|apply Hnew|apply Hnew]. intros t q Hq. destruct (new_made _ _ _ Hnew t q Hq) as (? & ? & ?). rewrite (proj1 (Hf _)).
    split_and!; [done| |done]. rewrite Ht2, created_app. by apply orb_true_iff; left. }
  assert (only_new (trace w) (trace w2)) as Honly2.
  { rewrite Ht2. apply only_new_app; [done|]. intros p e He. by rewrite (Hl2 e He). }
  assert (all_in (trace w2) l) as Hin2 by (intros t q b Hq; rewrite (proj2 (Hf _)); by apply (Hin t)).
  unfold prepareBuffer. cbn [mIsHwcNeeded mHwcUsedBqList]. destruct needed; [|by apply wp_ret].
  eapply wp_mono; [apply (prepare_queues_trace (trace w)); [apply incl_refl|done..]|]. cbn beta. cbn [mHwcUsedBqList]. by intros r w' (-> & ? & ? & ?).
Qed.

(** ** Every call keeps the ledger *)
Lemma ledger_quiet g l (w : W) : ledger w -> pools_ok g -> mPoolList g = mPoolList (globals w) ->
  (forall k d, In (k, d) (mDisplayList g) -> k < 8 /\ d_bufNum d <= 8) -> (forall e, In e l -> elsewhere e.1) -> ledger (World g (trace w ++ l)).
Proof.
  intros [H1 H2 H3 H4 H5] Hg Hp Hd Hl. split; cbn [globals trace]; rewrite ?Hp; try done.
  - intros k i Hin. apply item_book_frame; [by apply (H3 k)|]. intros p e _ He. by apply Hl.
  - intros p b. rewrite (proj1 (frame (trace w) l p (fun e He => Hl e He p))), created_app. by intros ->%H5.
Qed.

Lemma ledger_new id item tr' (w : W) : ledger w -> only_new (trace w) tr' -> new_queues (trace w) tr' (mHwcUsedBqList item) ->
  all_in tr' (mHwcUsedBqList item) -> pools_ok (with_pool id item (globals w)) ->
  (forall c s, In (c, s) (mConsumerList item) -> s_token s = 0 /\ exists q, In (s_type s, q) (mHwcUsedBqList item) /\ 0 <= s_idx s < q_bufNum q) ->
  ledger (World (with_pool id item (globals w)) tr').
Proof.
  intros [H1 H2 H3 H4 H5] (l & -> & Hl) Hnew Hin Hok Hslots.
  assert (forall k i, In (k, i) (mPoolList (with_pool id item (globals w))) -> k = id /\ i = item \/ k <> id /\ In (k, i) (mPoolList (globals w))) as Hpools.
  { intros k i Hi. apply in_kv_add_iff in Hi; [done|apply H1]. }
  assert (forall k i p, In (k, i) (mPoolList (globals w)) -> has_producer i p -> created (trace w) p = true) as Hold.
  { intros k i p Hi (t & q & Hq & <-). by apply (item_queue_book _ _ (H3 _ _ Hi) t q). }
  assert (forall p, has_producer item p -> created (trace w) p = false) as Hfresh by (intros p (t & q & Hq & <-); by apply (new_made _ _ _ Hnew t q)).
  split; cbn [globals trace].
  - done.
  - exact H2.
  - intros k i [[-> ->]|[_ Hi]]%Hpools.
    + split; [|apply Hnew|intros c s Hs; by apply (Hslots c)]. intros t q Hq. destruct (new_made _ _ _ Hnew t q Hq) as (_ & ? & ?).
      split; [done|done|by apply (new_small _ _ _ Hnew)|]. intros b. rewrite (Hin t q b Hq). split; [done|].
      intros (c & s & Hs & _ & _ & Hne). by destruct (Hslots c s Hs).
    + apply item_book_frame; [by apply (H3 k)|]. intros p e Hp He. apply not_true_is_false. intros Ht. destruct (Hl p e He Ht) as [Hc _].
      by rewrite (Hold k i p Hi Hp) in Hc.
  - intros k i k' i' p [[-> ->]|[_ Hi]]%Hpools [[-> ->]|[_ Hi']]%Hpools Hp Hp'; [done| | |by apply (H4 k i k' i' p)].
    + specialize (Hfresh p Hp). by rewrite (Hold k' i' p Hi' Hp') in Hfresh.
    + specialize (Hfresh p Hp'). by rewrite (Hold k i p Hi Hp) in Hfresh.
  - intros p b Ho. destruct (existsb (fun e => touches p e.1) l) eqn:E.
    + apply existsb_exists in E as (e & He & Ht). by apply (Hl p e).
    + rewrite (proj1 (frame (trace w) l p (untouched l p E))) in Ho. by rewrite created_app, (H5 p b Ho).
Qed.

(** The books of an item that a consumer has left. *)
Definition cancels (p b : Z) (e : gcall * gresp) : bool := match e.1 with Ccancel p' b' => (p' =? p) && (b' =? b) | _ => false end.

Lemma cancelled_out tr l p b : (forall e, In e l -> exists p' b', e.1 = Ccancel p' b') ->
  out (tr ++ l) p b = out tr p b && negb (existsb (cancels p b) l).
Proof.
  unfold out. rewrite fold_left_app. generalize (fold_left (out_step p b) tr false) as o. induction l as [|e l IH]; intros o Hl; cbn [fold_left existsb]; [by rewrite andb_true_r|].
  rewrite IH by (intros e' ?; apply Hl; by right). destruct (Hl e (or_introl eq_refl)) as (p' & b' & He). unfold out_step, cancels at 2. rewrite He.
  destruct ((p' =? p) && (b' =? b)); cbn [orb negb]; [by rewrite andb_false_r|done].
Qed.

Lemma cancels_frame tr l p : (forall e, In e l -> exists p' b', e.1 = Ccancel p' b') ->
  created (tr ++ l) p = created tr p /\ capacity (tr ++ l) p = capacity tr p.
Proof.
  intros Hl. rewrite created_app. unfold capacity. rewrite fold_left_app. split.
  - replace (created l p) with false; [by rewrite orb_false_r|]. induction l as [|e l IH]; [done|]. cbn [created existsb]. fold (created l p).
    rewrite <- IH, orb_false_r by (intros e' ?; apply Hl; by right). destruct (Hl e (or_introl eq_refl)) as (p' & b' & He). unfold made. by rewrite He.
  - generalize (fold_left (capacity_step p) tr 0) as c. induction l as [|e l IH]; intros c; cbn [fold_left]; [done|].
    rewrite IH by (intros e' ?; apply Hl; by right). destruct (Hl e (or_introl eq_refl)) as (p' & b' & He). unfold capacity_step. by rewrite He.
Qed.

Lemma gives_back k item e : item_ok k item -> In e (mConsumerList item) -> s_token e.2 <> 0 ->
  exists q, In (s_type e.2, q) (mHwcUsedBqList item) /\ give_back item e = Ccancel (mProducer q) (s_idx e.2).
Proof.
  destruct e as [c s]. cbn. intros Hok Hin Ht. destruct (proj2 (item_slots _ _ Hok) _ _ Hin) as [Hu _ [q Hq] _ Hh]. destruct (Hh Ht) as [_ Hty].
  exists q. split; [by apply valueFor_in|]. unfold give_back, getIGraphicBufferProducer. cbn [snd]. rewrite Hu, Hq. cbn.
  by destruct (Z.leb_spec HWC_NUM_DISPLAY_TYPES (s_type s)); [lia|].
Qed.

Lemma bereaved_book k tr who item l : item_ok k item -> item_book tr item -> who <> 0 ->
  map fst l = map (give_back item) (List.filter (held_by who) (mConsumerList item)) ->
  item_book (tr ++ l) (bereaved who item) /\ forall p e, In e l -> touches p e.1 = true -> has_producer item p.
Proof.
  intros Hok Hb Hw Hl.
  assert (forall e, In e l -> exists x q, In x (mConsumerList item) /\ s_token x.2 = who /\ In (s_type x.2, q) (mHwcUsedBqList item) /\
    e.1 = Ccancel (mProducer q) (s_idx x.2)) as Hcalls.
  { intros e He%(in_map fst). rewrite Hl in He. apply in_map_iff in He as (x & <- & [Hx Hh%Z.eqb_eq]%filter_In).
    destruct (gives_back k item x Hok Hx ltac:(by rewrite Hh)) as (q & ? & ?). by exists x, q. }
  assert (forall e, In e l -> exists p' b', e.1 = Ccancel p' b') as Hcancel by (intros e (x & q & _ & _ & _ & ->)%Hcalls; eauto).
  split.
  2: { intros p e (x & q & _ & _ & Hq & ->)%Hcalls Ht%Z.eqb_eq. subst p. by exists (s_type x.2), q. }
  split; [|apply Hb|].
  - intros t q Hq. destruct (item_queue_book _ _ Hb t q Hq) as [B1 B2 B3 B4]. destruct (cancels_frame tr l (mProducer q) Hcancel) as [Fc Fp].
    split; [by rewrite Fc|by rewrite Fp|done|]. intros b. rewrite (cancelled_out tr l _ b Hcancel), andb_true_iff, negb_true_iff, B4. split.
    + intros [(c & s & Hs & <- & <- & Ht) Hnc]. assert (s_token s <> who) as Hne.
      { intros E. destruct (gives_back k item (c, s) Hok Hs Ht) as (q' & Hq' & Hg). cbn [snd] in *.
        assert (In (give_back item (c, s)) (map fst l)) as Hg' by (rewrite Hl; apply in_map, filter_In; split; [done|by apply Z.eqb_eq]).
        apply in_map_iff in Hg' as (e & He & Hel). rewrite Hg in He.
        assert (existsb (cancels (mProducer q) (s_idx s)) l = true); [|congruence]. apply existsb_exists. exists e. split; [done|].
        unfold cancels. rewrite He. assert (q' = q) as ->; [|by rewrite !Z.eqb_refl].
        pose proof (proj1 (item_queues _ _ Hok)) as Hsq. apply (in_valueFor _ _ _ Hsq) in Hq, Hq'. congruence. }
      exists c, s. split_and!; try done. apply in_map_iff. exists (c, s). split; [|done]. unfold without. cbn. by rewrite (proj2 (Z.eqb_neq _ _) Hne).
    + intros (c & s' & Hs' & Ht & Hi & Hne). apply in_map_iff in Hs' as ([c0 s] & Hw' & Hs). unfold without in Hw'. cbn [fst snd] in Hw'.
      destruct (Z.eqb_spec (s_token s) who) as [E|E]; [by injection Hw' as -> <-|]. injection Hw' as -> ->. split; [by exists c, s'|].
      apply not_true_is_false. intros (e & He & Hc)%existsb_exists. destruct (Hcalls e He) as ([c1 s1] & q1 & Hx & Htok & Hq1 & Ee).
      unfold cancels in Hc. rewrite Ee in Hc. apply andb_true_iff in Hc as [Hp%Z.eqb_eq Hb'%Z.eqb_eq]. cbn [snd] in *.
      apply (item_distinct _ _ Hb _ _ _ _ Hq1 Hq) in Hp. pose proof (item_slots _ _ Hok) as [Hss Hsl].
      destruct (Hsl _ _ Hx) as [U1 K1 _ _ _], (Hsl _ _ Hs) as [U2 K2 _ _ _]. assert (c1 = c) as -> by congruence.
      apply (in_valueFor _ _ _ Hss) in Hx, Hs. congruence.
  - intros c s' Hs'. apply in_map_iff in Hs' as ([c0 s] & Hw' & Hs). destruct (item_idx _ _ Hb c0 s Hs) as (q & Hq). unfold without in Hw'. cbn [fst snd] in Hw'.
    exists q. destruct (s_token s =? who); by injection Hw' as -> <-.
Qed.

(** The calls that the clients of the library make, for displays with at most eight buffers. *)
Definition op_booked (o : gui_op) : Prop :=
  op_ok o /\ match o with
  | Acquire _ _ _ _ buf => refusal_seen buf
  | Release _ _ _ buf => 0 <= buf < 8
  | ConfigDisplay type _ _ _ bufNum => type < 8 /\ bufNum <= 8
  | _ => True
  end.

Lemma ledger_put id item i0 l (w w1 : W) : ledger w -> valueFor id (mPoolList (globals w)) = Some i0 -> item_ok id item ->
  globals w1 = globals w -> trace w1 = trace w ++ l ->
  mHwcUsedBqList item = mHwcUsedBqList i0 -> item_book (trace w1) item -> (forall p e, In e l -> touches p e.1 = true -> has_producer i0 p) ->
  ledger (World (keep_if_used id item (globals w1)) (trace w1)).
Proof. intros Hw Hid Hok Hg Ht Hq Hb Hl. rewrite Hg, Ht in *. by eapply ledger_update. Qed.

Lemma alloc_ledger token usage width h (w : W) : ledger w -> token <> 0 -> wp (alloc answer token usage width h) (fun _ => ledger) w.
Proof using headers_ok Hanswer Hqueues.
  intros Hw Ht. apply wp_alloc; [done|done|apply Hw|done|done|].
  intros id needed w1 Hs1 Hp1 ((l & Htr & Hl) & Hd) Hid Hfree.
  assert (forall k d, In (k, d) (mDisplayList (globals w1)) -> k < 8 /\ d_bufNum d <= 8) as Hd1.
  { destruct Hd as [-> |(x & y & ->)]; [apply Hw|]. intros k d [[-> ->]|[_ Hin]]%in_kv_add_iff; [done|by apply (ledger_displays _ Hw)|apply Hw]. }
  assert (ledger w1) as Hw1.
  { destruct w1 as [g tr]. cbn in Htr. subst tr. apply ledger_quiet; try done.
    intros e He. destruct (Hl e He) as [->|[? ->]]; by intros p. }
  eapply wp_mono; [apply wp_and; [by apply new_item_ok|apply (new_item_book token needed id); [done|done|apply Hw1|]]|].
  - intros k d Hin. destruct (Hd1 k d Hin). destruct (proj2 (pool_displays _ _ Hs1) k d Hin) as [-> ?]. done.
  - cbn beta. intros r w2 ((Hg & Hr & Hok & Htok & Hslots) & Honly & Hnew & Hin). split_and!; [done|done|]. intros Hpools. by apply ledger_new.
Qed.

Lemma log_ledger {A} usage type (a : A) (w : W) : ledger w -> args_ok usage type -> wp (do _ <- log_names usage type; io_ret a) (fun _ => ledger) w.
Proof. intros Hw Ha. by apply log_ok. Qed.

Lemma acquire_ledger token id usage type buf (w : W) : ledger w -> token <> 0 -> args_ok usage type -> refusal_seen buf ->
  wp (acquire answer token id usage type buf) (fun _ => ledger) w.
Proof using headers_ok Hqueues.
  intros Hw Ht Ha Hbuf. unfold acquire. apply wp_bind, wp_the_item. destruct (valueFor id _) as [item|] eqn:Hid; [|by apply log_ledger].
  destruct (the_pool_ok _ _ _ (ledger_ok _ Hw) Hid) as [Hok Hu]. pose proof (ledger_book _ Hw _ _ (valueFor_in _ _ _ Hid)) as Hb. apply wp_bind.
  eapply wp_mono; [apply wp_and; [by apply (item_acquire_ok answer id token usage type)|by apply (item_acquire_book id)]|]. cbn beta.
  intros [eb i] w1 ((Hg & Hi & Hu') & Hq & Hb1 & (l & Hl & Hown) & _). cbn [fst snd] in *. apply wp_bind.
  eapply (wp_put_used id i item); [rewrite Hg; apply Hw|by rewrite Hg|done|by apply Hu'|]. apply log_ledger; [|done].
  eapply (ledger_put id i item l w w1); done.
Qed.

Lemma release_ledger id usage type buf (w : W) : ledger w -> args_ok usage type -> 0 <= buf < 8 ->
  wp (release answer id usage type buf) (fun _ => ledger) w.
Proof.
  intros Hw Ha Hbuf. unfold release. apply wp_bind, wp_the_item. destruct (valueFor id _) as [item|] eqn:Hid; [|by apply log_ledger].
  destruct (the_pool_ok _ _ _ (ledger_ok _ Hw) Hid) as [Hok Hu]. pose proof (ledger_book _ Hw _ _ (valueFor_in _ _ _ Hid)) as Hb.
  apply wp_bind, wp_item_release; cbn [fst snd].
  - intros e. apply wp_bind. eapply wp_put_used; [apply Hw|done|done|done|]. apply log_ledger; [|done].
    eapply (ledger_put id item item [] w w); try done. by rewrite app_nil_r.
  - intros r Hp. apply wp_bind. eapply wp_put_used; [apply Hw|done|by apply released_ok|by apply used_released|]. apply log_ledger; [|done].
    eapply (ledger_put id _ item _ w (World _ _)); [done|done|by apply released_ok|done|done| |by eapply released_book|].
    + unfold released. by destruct (valueFor _ (mConsumerList item)).
    + intros p e [<-|[]] Hte. cbn in Hte. apply Z.eqb_eq in Hte as <-.
      destruct (producer_usage _ _ _ _ Hok Hp) as (-> & _ & q & Hq & <-). exists type, q. split; [by apply valueFor_in|done].
Qed.

(** An item whose queues and slots stay. *)
Lemma ledger_flags id item i0 (w : W) : ledger w -> valueFor id (mPoolList (globals w)) = Some i0 -> item_ok id item ->
  mHwcUsedBqList item = mHwcUsedBqList i0 -> mConsumerList item = mConsumerList i0 -> ledger (World (keep_if_used id item (globals w)) (trace w)).
Proof.
  intros Hw Hid Hok Hq Hs. eapply (ledger_put id item i0 [] w w); try done; [by rewrite app_nil_r|].
  eapply item_book_same; [done|done|]. apply (ledger_book _ Hw id). by apply valueFor_in.
Qed.

Lemma gui_step_ledger o (w : W) : ledger w -> op_booked o -> wp (gui_step answer o) (fun _ => ledger) w.
Proof using headers_ok Hanswer Hqueues.
  intros Hw. pose proof (ledger_ok _ Hw) as Hs. destruct o as [token usage width h|id|token id usage type buf|id usage type buf buffer|id usage type buf|id usage type
    |type enable width h bufNum|who|id who|tunnel key|key]; intros [Hop Hbook]; cbn [op_ok gui_step] in *.
  - apply wp_bind. eapply wp_mono; [by apply alloc_ledger|]. intros r w' ?. by apply wp_ret.
  - apply wp_bind. unfold free. apply wp_bind, wp_the_item. destruct (valueFor id _) as [item|] eqn:Hid; [|by do 2 apply wp_ret].
    destruct (the_pool_ok _ _ _ Hs Hid) as [Hok _]. pose proof (item_ok_producer _ _ (-1) 0 Hok) as Hok'.
    eapply wp_put_remove_then; [done..|]. do 2 apply wp_ret. by eapply ledger_flags.
  - destruct Hop. apply wp_bind. eapply wp_mono; [by apply acquire_ledger|]. intros r w' ?. by apply wp_ret.
  - apply wp_bind. unfold request. apply wp_bind, wp_the_item. destruct (valueFor id _) as [item|] eqn:Hid; [|by apply log_ok; [|apply wp_ret]].
    apply wp_bind. unfold item_request. destruct (_ && _); [by apply wp_ret, log_ok, wp_ret|].
    destruct (Z.eqb_spec (getIGraphicBufferProducer usage type item) 0); [by apply wp_ret, log_ok, wp_ret|].
    apply wp_bind, wp_on; [done|]. intros r. apply wp_ret, log_ok, wp_ret; [done|]. apply ledger_quiet; try done; [apply Hw|]. by intros e [<-|[]] p.
  - apply wp_bind. eapply wp_mono; [by apply release_ledger|]. intros r w' ?. by apply wp_ret.
  - apply wp_bind. unfold disconnect. apply wp_bind, wp_the_item. destruct (valueFor id _) as [item|] eqn:Hid; [|by apply log_ok; [|apply wp_ret]].
    destruct (the_pool_ok _ _ _ Hs Hid) as [Hok _]. apply wp_bind. eapply wp_mono; [by apply item_disconnect_ok, Hop|].
    cbn beta. intros [e i] w' (-> & Hi & Hq & Hsl). eapply wp_put_remove_then; [done..|]. apply log_ok; [done|]. apply wp_ret. by eapply ledger_flags.
  - eapply wp_mono; [by apply configDisplay_ok|]. cbn beta. intros [] w' (Hs' & Hp & Ht & Hd). destruct w' as [g tr]. cbn in *. rewrite Ht.
    rewrite <- (app_nil_r (trace w)). apply ledger_quiet; try done. intros k d Hin. destruct (Hd k d Hin) as [H|[-> ->]]; [by apply (ledger_displays _ Hw)|done].
  - unfold producer_died. apply wp_bind, wp_get. eapply wp_mono; [apply (producer_died_ok who _ (mPoolList (globals w)) []); [done|by rewrite app_nil_r|done]|].
    cbn beta. rewrite app_nil_r. intros [] w' (Hs' & Ht & Hd & Hp).
    assert (forall k i, In (k, i) (mPoolList (globals w')) -> exists i0, In (k, i0) (mPoolList (globals w)) /\
      mHwcUsedBqList i = mHwcUsedBqList i0 /\ mConsumerList i = mConsumerList i0) as Hin.
    { intros k i Hi. rewrite Hp in Hi. apply in_flat_map in Hi as ([k0 i0] & Hi0 & Hi). unfold orphaned in Hi. cbn [fst snd] in Hi.
      destruct (_ =? _); [destruct (unused _); [done|]|]; destruct Hi as [[= <- <-]|[]]; by exists i0. }
    split; rewrite ?Ht, ?Hd; [done|apply Hw| | |apply Hw].
    + intros k i (i0 & Hi & Hq & Hsl)%Hin. eapply item_book_same; [done|done|by apply (ledger_book _ Hw k)].
    + intros k i k' i' p (i0 & Hi & Hq & _)%Hin (i1 & Hi' & Hq' & _)%Hin. unfold has_producer. rewrite Hq, Hq'. by apply (ledger_distinct _ Hw k i0 k' i1).
  - unfold consumer_death. apply wp_bind, wp_the_item. destruct (valueFor id _) as [item|] eqn:Hid; [|by apply wp_ret].
    destruct (observed who item) eqn:Hob; [|by apply wp_ret]. destruct (the_pool_ok _ _ _ Hs Hid) as [Hok _].
    eapply wp_mono; [by apply consumer_died_ok|]. cbn beta. intros [] [g tr] (Hok' & Hg & l & Ht & Hl). cbn in Hg, Ht. subst g tr.
    destruct (bereaved_book id (trace w) who item l Hok (ledger_book _ Hw _ _ (valueFor_in _ _ _ Hid)) Hop Hl) as [Hb Hown].
    by eapply ledger_update.
  - apply wp_bind. eapply wp_mono; [by apply regDump_ok|]. cbn beta. intros r [g tr] (l & calls & Hg & Hs' & Ht & Ha). apply wp_ret. cbn in *. subst g tr.
    apply ledger_quiet; [done|done|done|apply Hw|]. rewrite List.Forall_forall in Ha. intros e He%Ha p. destruct He as (t & [->|[->| ->]]); done.
  - apply wp_bind. eapply wp_mono; [by apply unregDump_ok|]. cbn beta. intros r [g tr] ([= -> ->] & Hs'). apply wp_ret. cbn in *.
    rewrite <- (app_nil_r (trace w)). by apply ledger_quiet; [done|done|done|apply Hw|].
Qed.

Lemma ledger_0 : ledger (World pool0 []).
Proof. split; cbn; try done; [apply pools_ok_0|by intros ? ? []..]. Qed.

Lemma gui_run_ledger l (w : W) : ledger w -> Forall op_booked l -> wp (gui_run answer l) (fun _ => ledger) w.
Proof using headers_ok Hanswer Hqueues.
  intros Hw Hl. revert w Hw. induction Hl as [|o l Ho _ IH]; intros w Hw; cbn [gui_run]; [by apply wp_ret|].
  apply wp_bind. eapply wp_mono; [by apply gui_step_ledger|]. cbn beta. intros [] w' Hw'. by apply IH.
Qed.
End Ledger.
