(* ===== verification/GuiBinder.v ===== *)
(** The service of preallocated buffers: its interface, and the binder between it and its clients
    (IGuiExtService.cpp). *)
From Stdlib Require Import String List.
From stdpp Require Import gmap.
From S2P Require Import Prelude Maps Effects Parcel GuiState GuiPool.

Abbreviation IO := (io gui_pool gcall gresp).

(** ** [IGuiExtService]

    An argument that the method writes through a pointer is given with what the pointer points to, and comes back
    behind the status. *)
Record IGuiExtService := {
  s_alloc : forall token gralloc_usage w h id : Z, IO (Z * Z);
  s_free : forall id : Z, IO Z;
  s_acquire : forall token poolId usage type buf : Z, IO (Z * Z);
  s_request : forall poolId usage type buf buffer : Z, IO (Z * Z);
  s_release : forall poolId usage type buf : Z, IO Z;
  s_disconnect : forall poolId usage type : Z, IO Z;
  s_configDisplay : forall (type : Z) (enable : bool) (w h bufNum : Z), IO Z;
  s_regDump : forall (tunnel : Z) (key : list Z), IO Z;
  s_unregDump : forall key : list Z, IO Z
}.

(** GuiExtService.cpp *)
Section Service.
Context `{headers : gui_headers} (answer : list (gcall * gresp) -> gcall -> gresp).
Definition GuiExtService : IGuiExtService := {|
  s_alloc token gralloc_usage w h _ := alloc answer token gralloc_usage w h;
  s_free id := free id;
  s_acquire token poolId usage type buf := acquire answer token poolId usage type buf;
  s_request poolId usage type buf buffer := request answer poolId usage type buf buffer;
  s_release poolId usage type buf := release answer poolId usage type buf;
  s_disconnect poolId usage type := disconnect poolId usage type;
  s_configDisplay type enable w h bufNum := do _ <- configDisplay type enable w h bufNum; io_ret NO_ERROR;
  s_regDump tunnel key := regDump answer tunnel key;
  s_unregDump key := unregDump key
|}.
End Service.

(** Services that do the same. *)
Record same_service (a b : IGuiExtService) : Prop := {
  same_alloc : forall token usage w h id s, s_alloc a token usage w h id s = s_alloc b token usage w h id s;
  same_free : forall id s, s_free a id s = s_free b id s;
  same_acquire : forall token id usage type buf s, s_acquire a token id usage type buf s = s_acquire b token id usage type buf s;
  same_request : forall id usage type buf buffer s, s_request a id usage type buf buffer s = s_request b id usage type buf buffer s;
  same_release : forall id usage type buf s, s_release a id usage type buf s = s_release b id usage type buf s;
  same_disconnect : forall id usage type s, s_disconnect a id usage type s = s_disconnect b id usage type s;
  same_configDisplay : forall type enable w h n s, s_configDisplay a type enable w h n s = s_configDisplay b type enable w h n s;
  same_regDump : forall tunnel key s, s_regDump a tunnel key s = s_regDump b tunnel key s;
  same_unregDump : forall key s, s_unregDump a key s = s_unregDump b key s
}.

Section Binder.
Context `{headers : gui_headers} `{ops : parcel_ops}.

Definition GUI_EXT_ALLOC : Z := FIRST_CALL_TRANSACTION.
Definition GUI_EXT_FREE : Z := FIRST_CALL_TRANSACTION + 1.
Definition GUI_EXT_ACQUIRE : Z := FIRST_CALL_TRANSACTION + 2.
Definition GUI_EXT_REQUEST : Z := FIRST_CALL_TRANSACTION + 3.
Definition GUI_EXT_RELEASE : Z := FIRST_CALL_TRANSACTION + 4.
Definition GUI_EXT_DISCONNECT : Z := FIRST_CALL_TRANSACTION + 5.
Definition GUI_EXT_CONFIGDISPLAY : Z := FIRST_CALL_TRANSACTION + 6.
Definition GUI_EXT_REGDUMP : Z := FIRST_CALL_TRANSACTION + 7.
Definition GUI_EXT_UNREGDUMP : Z := FIRST_CALL_TRANSACTION + 8.

(** ** [BpGuiExtService] *)
Section Proxy.
Context (transact : Z -> parcel -> IO (Z * parcel)).

Definition bp_alloc (token gralloc_usage w h id : Z) : IO (Z * Z) :=
  let data := writeInterfaceToken new_parcel in
  let data := writeStrongBinder token data in
  let data := writeInt32 (i32 gralloc_usage) data in
  let data := writeInt32 (i32 w) data in
  let data := writeInt32 (i32 h) data in
  do result <- transact GUI_EXT_ALLOC data;
  if negb (result.1 =? NO_ERROR) then io_ret (result.1, id)
  else
    let id := readInt32 result.2 in
    let result := readInt32 id.2 in
    io_ret (result.1, u32 id.1).

Definition bp_free (id : Z) : IO Z :=
  let data := writeInt32 (i32 id) (writeInterfaceToken new_parcel) in
  do result <- transact GUI_EXT_FREE data;
  if negb (result.1 =? NO_ERROR) then io_ret (-1) else io_ret (readInt32 result.2).1.

Definition bp_acquire (token poolId usage type buf : Z) : IO (Z * Z) :=
  let data := writeInterfaceToken new_parcel in
  let data := writeStrongBinder token data in
  let data := writeInt32 (i32 poolId) data in
  let data := writeInt32 (i32 usage) data in
  let data := writeInt32 (i32 type) data in
  do result <- transact GUI_EXT_ACQUIRE data;
  if negb (result.1 =? NO_ERROR) then io_ret (result.1, buf)
  else
    let buf := readInt32 result.2 in
    let result := readInt32 buf.2 in
    io_ret (result.1, buf.1).

Definition bp_request (poolId usage type buf buffer : Z) : IO (Z * Z) :=
  let data := writeInterfaceToken new_parcel in
  let data := writeInt32 (i32 poolId) data in
  let data := writeInt32 (i32 usage) data in
  let data := writeInt32 (i32 type) data in
  let data := writeInt32 (i32 buf) data in
  do result <- transact GUI_EXT_REQUEST data;
  if negb (result.1 =? NO_ERROR) then io_ret (result.1, buffer)
  else
    let nonNull := readInt32 result.2 in
    if negb (nonNull.1 =? 0) then
      let read := readBuffer nonNull.2 in
      if negb (read.1.1 =? NO_ERROR) then io_ret (read.1.1, 0)
      else io_ret ((readInt32 read.2).1, read.1.2)
    else io_ret ((readInt32 nonNull.2).1, buffer).

Definition bp_release (poolId usage type buf : Z) : IO Z :=
  let data := writeInterfaceToken new_parcel in
  let data := writeInt32 (i32 poolId) data in
  let data := writeInt32 (i32 usage) data in
  let data := writeInt32 (i32 type) data in
  let data := writeInt32 (i32 buf) data in
  do result <- transact GUI_EXT_RELEASE data;
  if negb (result.1 =? NO_ERROR) then io_ret result.1 else io_ret (readInt32 result.2).1.

Definition bp_disconnect (poolId usage type : Z) : IO Z :=
  let data := writeInterfaceToken new_parcel in
  let data := writeInt32 (i32 poolId) data in
  let data := writeInt32 (i32 usage) data in
  let data := writeInt32 (i32 type) data in
  do result <- transact GUI_EXT_DISCONNECT data;
  if negb (result.1 =? NO_ERROR) then io_ret result.1 else io_ret (readInt32 result.2).1.

Definition bp_configDisplay (type : Z) (enable : bool) (w h bufNum : Z) : IO Z :=
  let data := writeInterfaceToken new_parcel in
  let data := writeInt32 (i32 type) data in
  let data := writeInt32 (if enable then 1 else 0) data in
  let data := writeInt32 (i32 w) data in
  let data := writeInt32 (i32 h) data in
  let data := writeInt32 (i32 bufNum) data in
  do result <- transact GUI_EXT_CONFIGDISPLAY data;
  if negb (result.1 =? NO_ERROR) then io_ret result.1 else io_ret (readInt32 result.2).1.

Definition bp_regDump (tunnel : Z) (key : list Z) : IO Z :=
  let data := writeString8 key (writeStrongBinder tunnel (writeInterfaceToken new_parcel)) in
  do result <- transact GUI_EXT_REGDUMP data; io_ret (readInt32 result.2).1.
Definition bp_unregDump (key : list Z) : IO Z :=
  let data := writeString8 key (writeInterfaceToken new_parcel) in
  do result <- transact GUI_EXT_UNREGDUMP data; io_ret (readInt32 result.2).1.

Definition BpGuiExtService : IGuiExtService := {|
  s_alloc := bp_alloc; s_free := bp_free; s_acquire := bp_acquire; s_request := bp_request; s_release := bp_release;
  s_disconnect := bp_disconnect; s_configDisplay := bp_configDisplay; s_regDump := bp_regDump; s_unregDump := bp_unregDump
|}.
End Proxy.

(** ** [BnGuiExtService::onTransact]

    [stack] is what the local variables [id] and [buf] hold before they are set. *)
Section Native.
Context (impl : IGuiExtService) (stack : Z) (BBinder_onTransact : Z -> parcel -> IO (Z * parcel)).

(** [CHECK_INTERFACE] *)
Definition check_interface (data : parcel) (k : parcel -> IO (Z * parcel)) : IO (Z * parcel) :=
  let c := checkInterface data in if c.1 then k c.2 else io_ret (PERMISSION_DENIED, new_parcel).
Definition reply_int (p : parcel) (i : Z) : parcel := writeInt32 (i32 i) p.

Definition onTransact (code : Z) (data : parcel) : IO (Z * parcel) :=
  if code =? GUI_EXT_ALLOC then check_interface data (fun data =>
    let token := readStrongBinder data in
    let gralloc_usage := readInt32 token.2 in
    let w := readInt32 gralloc_usage.2 in
    let h := readInt32 w.2 in
    do r <- s_alloc impl token.1 (u32 gralloc_usage.1) (u32 w.1) (u32 h.1) stack;
    io_ret (NO_ERROR, reply_int (reply_int new_parcel r.2) r.1))
  else if code =? GUI_EXT_FREE then check_interface data (fun data =>
    let id := readInt32 data in
    do ret <- s_free impl (u32 id.1);
    io_ret (NO_ERROR, reply_int new_parcel ret))
  else if code =? GUI_EXT_ACQUIRE then check_interface data (fun data =>
    let token := readStrongBinder data in
    let poolId := readInt32 token.2 in
    let usage := readInt32 poolId.2 in
    let type := readInt32 usage.2 in
    do r <- s_acquire impl token.1 (u32 poolId.1) (u32 usage.1) (u32 type.1) stack;
    io_ret (NO_ERROR, reply_int (reply_int new_parcel r.2) r.1))
  else if code =? GUI_EXT_REQUEST then check_interface data (fun data =>
    let poolId := readInt32 data in
    let usage := readInt32 poolId.2 in
    let type := readInt32 usage.2 in
    let buf := readInt32 type.2 in
    do r <- s_request impl (u32 poolId.1) (u32 usage.1) (u32 type.1) (i32 (u32 buf.1)) 0;
    let reply := reply_int new_parcel (if r.2 =? 0 then 0 else 1) in
    let reply := if negb (r.2 =? 0) then writeBuffer r.2 reply else reply in
    io_ret (NO_ERROR, reply_int reply r.1))
  else if code =? GUI_EXT_RELEASE then check_interface data (fun data =>
    let poolId := readInt32 data in
    let usage := readInt32 poolId.2 in
    let type := readInt32 usage.2 in
    let buf := readInt32 type.2 in
    do result <- s_release impl (u32 poolId.1) (u32 usage.1) (u32 type.1) (i32 (u32 buf.1));
    io_ret (NO_ERROR, reply_int new_parcel result))
  else if code =? GUI_EXT_DISCONNECT then check_interface data (fun data =>
    let poolId := readInt32 data in
    let usage := readInt32 poolId.2 in
    let type := readInt32 usage.2 in
    do result <- s_disconnect impl (u32 poolId.1) (u32 usage.1) (u32 type.1);
    io_ret (NO_ERROR, reply_int new_parcel result))
  else if code =? GUI_EXT_CONFIGDISPLAY then check_interface data (fun data =>
    let type := readInt32 data in
    let enable := readInt32 type.2 in
    let w := readInt32 enable.2 in
    let h := readInt32 w.2 in
    let bufNum := readInt32 h.2 in
    do result <- s_configDisplay impl (u32 type.1) (negb (enable.1 =? 0)) (u32 w.1) (u32 h.1) (u32 bufNum.1);
    io_ret (NO_ERROR, reply_int new_parcel result))
  else if code =? GUI_EXT_REGDUMP then check_interface data (fun data =>
    let tunnel := readStrongBinder data in
    let key := readString8 tunnel.2 in
    do result <- s_regDump impl tunnel.1 key.1;
    io_ret (NO_ERROR, reply_int new_parcel result))
  else if code =? GUI_EXT_UNREGDUMP then check_interface data (fun data =>
    let key := readString8 data in
    do result <- s_unregDump impl key.1;
    io_ret (NO_ERROR, reply_int new_parcel result))
  else BBinder_onTransact code data.
End Native.

(** ** What a client gets through the binder

    The arguments arrive at their widths; [*buf] of [acquire] is not sent, and the service sees its own variable. *)
Definition marshalled (impl : IGuiExtService) (stack : Z) (import : Z -> Z) : IGuiExtService := {|
  s_alloc token usage w h id := do r <- s_alloc impl token (u32 usage) (u32 w) (u32 h) stack; io_ret (i32 r.1, u32 r.2);
  s_free id := do r <- s_free impl (u32 id); io_ret (i32 r);
  s_acquire token id usage type buf := do r <- s_acquire impl token (u32 id) (u32 usage) (u32 type) stack; io_ret (i32 r.1, i32 r.2);
  s_request id usage type buf buffer :=
    do r <- s_request impl (u32 id) (u32 usage) (u32 type) (i32 buf) 0;
    io_ret (if r.2 =? 0 then (i32 r.1, buffer) else if import r.2 =? 0 then (i32 r.1, r.2) else (import r.2, 0));
  s_release id usage type buf := do r <- s_release impl (u32 id) (u32 usage) (u32 type) (i32 buf); io_ret (i32 r);
  s_disconnect id usage type := do r <- s_disconnect impl (u32 id) (u32 usage) (u32 type); io_ret (i32 r);
  s_configDisplay type enable w h n := do r <- s_configDisplay impl (u32 type) enable (u32 w) (u32 h) (u32 n); io_ret (i32 r);
  s_regDump tunnel key := do r <- s_regDump impl tunnel key; io_ret (i32 r);
  s_unregDump key := do r <- s_unregDump impl key; io_ret (i32 r)
|}.
End Binder.

(** ** The proxy is the service, but for [*buf] *)

(** The branch of the transaction. *)
Ltac this_code :=
  repeat match goal with
  | |- context [FIRST_CALL_TRANSACTION + ?a =? ?b] =>
    first [rewrite (proj2 (Z.eqb_neq (FIRST_CALL_TRANSACTION + a) b)) by lia | rewrite (Z.eqb_refl (FIRST_CALL_TRANSACTION + a))]
  end.

Lemma u32_i32 z : u32 (i32 z) = u32 z.
Proof.
  unfold wrapu, wraps. rewrite Zminus_mod, Zmod_mod, <- Zminus_mod. f_equal. lia.
Qed.
Lemma i32_u32 z : i32 (u32 z) = i32 z.
Proof. unfold wrapu, wraps. by rewrite Z.add_mod_idemp_l. Qed.
Lemma i32_i32 z : i32 (i32 z) = i32 z.
Proof. apply i32_small, i32_range. Qed.

Section Transparent.
Context `{headers : gui_headers} `{laws : parcel_laws}.
Context (impl : IGuiExtService) (stack : Z) (BBinder_onTransact : Z -> parcel -> IO (Z * parcel)).
(** The transport hands the parcel to the service, and its reply back. *)
Context (transact : Z -> parcel -> IO (Z * parcel)).
Context (delivers : forall code data s, transact code data s = onTransact impl stack BBinder_onTransact code data s).

(** A request arrives, ... *)
Ltac arrives :=
  cbv zeta; unfold io_bind at 1; rewrite delivers;
  match goal with |- context [onTransact _ _ _ _ ?p] => let H := fresh in written p H end;
  unfold onTransact, GUI_EXT_UNREGDUMP, GUI_EXT_REGDUMP, GUI_EXT_CONFIGDISPLAY, GUI_EXT_DISCONNECT, GUI_EXT_RELEASE, GUI_EXT_REQUEST,
    GUI_EXT_ACQUIRE, GUI_EXT_FREE, GUI_EXT_ALLOC, check_interface;
  cbv zeta; rewrite ?Z.eqb_refl; this_code; repeat parcel_read; rewrite ?u32_i32, ?i32_u32, ?i32_i32;
  cbn [marshalled s_alloc s_free s_acquire s_request s_release s_disconnect s_configDisplay s_regDump s_unregDump]; unfold io_bind, io_ret.
(** ... and so does the reply [p]. *)
Ltac replied p := let H := fresh in written p H; repeat parcel_read; try done.

Lemma binder_same : same_service (BpGuiExtService transact) (marshalled impl stack import).
Proof using delivers laws.
  split; intros; cbn [BpGuiExtService s_alloc s_free s_acquire s_request s_release s_disconnect s_configDisplay s_regDump s_unregDump].
  - unfold bp_alloc. arrives. destruct (s_alloc impl _ _ _ _ _ s) as [[r s']|]; [|done]. cbn [fst snd NO_ERROR Z.eqb negb].
    replied (reply_int (reply_int new_parcel r.2) r.1). by rewrite u32_i32.
  - unfold bp_free. arrives. destruct (s_free impl _ s) as [[r s']|]; [|done]. cbn [fst snd NO_ERROR Z.eqb negb]. replied (reply_int new_parcel r).
  - unfold bp_acquire. arrives. destruct (s_acquire impl _ _ _ _ _ s) as [[r s']|]; [|done]. cbn [fst snd NO_ERROR Z.eqb negb].
    replied (reply_int (reply_int new_parcel r.2) r.1).
  - unfold bp_request. arrives. destruct (s_request impl _ _ _ _ _ s) as [[r s']|]; [|done]. cbn [fst snd NO_ERROR Z.eqb negb].
    destruct (r.2 =? 0); cbn [negb].
    + replied (reply_int (reply_int new_parcel 0) r.1).
    + replied (reply_int (writeBuffer r.2 (reply_int new_parcel 1)) r.1). change (i32 1) with 1. unfold NO_ERROR. cbn [fst snd Z.eqb negb]. by destruct (import r.2 =? 0).
  - unfold bp_release. arrives. destruct (s_release impl _ _ _ _ s) as [[r s']|]; [|done]. cbn [fst snd NO_ERROR Z.eqb negb]. replied (reply_int new_parcel r).
  - unfold bp_disconnect. arrives. destruct (s_disconnect impl _ _ _ s) as [[r s']|]; [|done]. cbn [fst snd NO_ERROR Z.eqb negb]. replied (reply_int new_parcel r).
  - unfold bp_configDisplay. arrives. replace (negb ((if enable then 1 else 0) =? 0)) with enable by (by destruct enable).
    destruct (s_configDisplay impl _ _ _ _ _ s) as [[r s']|]; [|done]. cbn [fst snd NO_ERROR Z.eqb negb]. replied (reply_int new_parcel r).
  - unfold bp_regDump. arrives. destruct (s_regDump impl _ _ s) as [[r s']|]; [|done]. cbn [fst snd]. replied (reply_int new_parcel r).
  - unfold bp_unregDump. arrives. destruct (s_unregDump impl _ s) as [[r s']|]; [|done]. cbn [fst snd]. replied (reply_int new_parcel r).
Qed.
End Transparent.
