(* ===== verification/GuiClient.v ===== *)
(** The service of preallocated buffers: its clients (GuiExtClient.cpp, GuiExtClientConsumer.cpp,
    GuiExtClientProducer.cpp).

    A method takes the client object and returns it as the method leaves it, behind its result. *)
From Stdlib Require Import String List.
From stdpp Require Import gmap.
From S2P Require Import Prelude Maps Effects GuiState GuiPool GuiBinder.

(** [GuiExtClientConsumer::BufferSlot] *)
Record buffer_slot := mk_buffer {
  b_buffer : Z; b_poolId : Z; b_usage : Z; b_type : Z; b_idx : Z; b_isAcquired : bool
}.
(** Whether the client has the service, and the slots of a consumer. *)
Record gui_client := mk_client { mGuiExtService : bool; mSlots : keyed_vector buffer_slot }.
Definition client0 : gui_client := mk_client false [].

Definition with_service (b : bool) (c : gui_client) : gui_client := mk_client b (mSlots c).
Definition with_slots (l : keyed_vector buffer_slot) (c : gui_client) : gui_client := mk_client (mGuiExtService c) l.
Definition set_acquired (a : bool) (s : buffer_slot) : buffer_slot :=
  mk_buffer (b_buffer s) (b_poolId s) (b_usage s) (b_type s) (b_idx s) a.

(** [POOL_COMBINED_ID] of GuiExtClientConsumer.cpp *)
Definition CLIENT_COMBINED_ID (id usage type idx : Z) : Z := u32 ((id ≪ 10) .| (usage ≪ 6) .| (type ≪ 3) .| idx).

Section Client.
Context `{headers : gui_headers} (answer : list (gcall * gresp) -> gcall -> gresp).
(** The service, the token of the process, and the handle of a buffer. *)
Context (service : IGuiExtService) (sLife : Z) (handle : Z -> Z).
Abbreviation sys := (io_call answer).

(** ** GuiExtClient *)
Definition assertStateLocked (c : gui_client) : IO (Z * gui_client) :=
  if mGuiExtService c then io_ret (NO_ERROR, c)
  else
    do binder <- sys Ccheck_service;
    if grv binder =? 0 then io_ret (NAME_NOT_FOUND, c)
    else do _ <- sys (Clink_to_death (grv binder)); io_ret (NO_ERROR, with_service true c).

(** ** GuiExtClientConsumer *)
Definition serviceDied (c : gui_client) : gui_client := with_service false (with_slots [] c).

(** The first slot that [acquire] may hand out when the service has no buffer. *)
Definition is_backup (poolId usage type : Z) (s : buffer_slot) : bool :=
  (b_poolId s =? poolId) && (b_usage s =? usage) && (b_type s =? type) && negb (b_isAcquired s).
Fixpoint find_backup (poolId usage type : Z) (l : keyed_vector buffer_slot) : option (Z * buffer_slot) :=
  match l with [] => None | e :: l => if is_backup poolId usage type e.2 then Some e else find_backup poolId usage type l end.

(** The status, [*buffer] and the client. *)
Definition client_acquire (poolId usage type : Z) (c : gui_client) : IO (Z * Z * gui_client) :=
  if GUI_EXT_USAGE_MAX <=? usage then io_ret (BAD_VALUE, 0, c)
  else if HWC_DISPLAY_VIRTUAL <? type then io_ret (BAD_VALUE, 0, c)
  else
    do r <- assertStateLocked c;
    let c := r.2 in
    if negb (r.1 =? NO_ERROR) then io_ret (r.1, 0, c)
    else
      do a <- s_acquire service sLife poolId usage type (-1);
      if a.1 <? 0 then
        match find_backup poolId usage type (mSlots c) with
        | Some e => io_ret (NO_ERROR, b_buffer e.2, with_slots (kv_add e.1 (set_acquired true e.2) (mSlots c)) c)
        | None => io_ret (a.1, 0, c)
        end
      else
        let combine_id := CLIENT_COMBINED_ID poolId usage type a.2 in
        match valueFor combine_id (mSlots c) with
        | None =>
          do q <- s_request service poolId usage type a.2 0;
          if negb (q.1 =? NO_ERROR) then io_ret (q.1, 0, c)
          else io_ret (NO_ERROR, q.2, with_slots (kv_add combine_id (mk_buffer q.2 poolId usage type a.2 true) (mSlots c)) c)
        | Some slot => io_ret (NO_ERROR, b_buffer slot, c)
        end.

(** [None] is an access through a null pointer. *)
Fixpoint getSlotFromBufferLocked (buffer : Z) (l : keyed_vector buffer_slot) : option Z :=
  match l with
  | [] => Some BAD_VALUE
  | e :: l =>
    if (b_buffer e.2 =? 0) || (buffer =? 0) then None
    else if handle (b_buffer e.2) =? handle buffer then Some (b_idx e.2)
    else getSlotFromBufferLocked buffer l
  end.

Definition releaseLocked (buffer poolId usage type : Z) (c : gui_client) : IO (Z * gui_client) :=
  do idx <- lift (getSlotFromBufferLocked buffer (mSlots c));
  if idx <? 0 then io_ret (idx, c)
  else
    let combine_id := CLIENT_COMBINED_ID poolId usage type idx in
    let c := match valueFor combine_id (mSlots c) with
             | Some slot => with_slots (kv_add combine_id (set_acquired false slot) (mSlots c)) c
             | None => c
             end in
    do e <- s_release service poolId usage type idx;
    io_ret (e, c).

Definition client_release (buffer poolId usage type : Z) (c : gui_client) : IO (Z * gui_client) :=
  if GUI_EXT_USAGE_MAX <=? usage then io_ret (BAD_VALUE, c)
  else if HWC_DISPLAY_VIRTUAL <? type then io_ret (BAD_VALUE, c)
  else
    do r <- assertStateLocked c;
    if negb (r.1 =? NO_ERROR) then io_ret r
    else if buffer =? 0 then io_ret (BAD_VALUE, r.2)
    else releaseLocked buffer poolId usage type r.2.

(** The slots from the index [i - 1] down to 0. *)
Fixpoint disconnect_slots (i : nat) (poolId usage type : Z) (c : gui_client) : IO gui_client :=
  match i with
  | O => io_ret c
  | S i =>
    do e <- lift (aget (mSlots c) (Z.of_nat i));
    do c <- (if (b_poolId e.2 =? poolId) && (b_usage e.2 =? usage) && (b_type e.2 =? type) then
               do c <- (if b_isAcquired e.2 then do r <- releaseLocked (b_buffer e.2) poolId usage type c; io_ret r.2 else io_ret c);
               io_ret (with_slots (removeItem (CLIENT_COMBINED_ID poolId usage type (b_idx e.2)) (mSlots c)) c)
             else io_ret c);
    disconnect_slots i poolId usage type c
  end.
Definition client_disconnect (poolId usage type : Z) (c : gui_client) : IO (Z * gui_client) :=
  if GUI_EXT_USAGE_MAX <=? usage then io_ret (BAD_VALUE, c)
  else if HWC_DISPLAY_VIRTUAL <? type then io_ret (BAD_VALUE, c)
  else
    do r <- assertStateLocked c;
    let c := r.2 in
    if negb (r.1 =? NO_ERROR) then io_ret (r.1, c)
    else if zlen (mSlots c) =? 0 then io_ret (BAD_VALUE, c)
    else
      do c <- disconnect_slots (length (mSlots c)) poolId usage type c;
      do e <- s_disconnect service poolId usage type;
      io_ret (e, c).

Definition client_configDisplay (type : Z) (enable : bool) (w h bufNum : Z) (c : gui_client) : IO (Z * gui_client) :=
  do r <- assertStateLocked c;
  if negb (r.1 =? NO_ERROR) then io_ret r
  else do e <- s_configDisplay service type enable w h bufNum; io_ret (e, r.2).

Definition isValidBuffer (buffer : Z) (c : gui_client) : IO bool :=
  do idx <- lift (getSlotFromBufferLocked buffer (mSlots c)); io_ret (negb (idx <? 0)).

(** ** GuiExtClientProducer; its state is whether it has the service *)
Definition producer_alloc (gralloc_usage w h poolId : Z) (c : gui_client) : IO (Z * Z * gui_client) :=
  do r <- assertStateLocked c;
  if negb (r.1 =? NO_ERROR) then io_ret (r.1, poolId, r.2)
  else do a <- s_alloc service sLife gralloc_usage w h poolId; io_ret (a.1, a.2, r.2).
Definition producer_free (poolId : Z) (c : gui_client) : IO (Z * gui_client) :=
  do r <- assertStateLocked c;
  if negb (r.1 =? NO_ERROR) then io_ret r
  else do e <- s_free service poolId; io_ret (e, r.2).
End Client.

(** ** Free functions of IGuiExtService.cpp; the answer to [Ccheck_service] is the binder *)
Section Functions.
Context `{headers : gui_headers} (answer : list (gcall * gresp) -> gcall -> gresp) (service : IGuiExtService).

Definition lib_regDump (tunnel : Z) (key : list Z) : IO bool :=
  do guiExt <- io_call answer Ccheck_service;
  if negb (grv guiExt =? 0) then do r <- s_regDump service tunnel key; io_ret (r =? NO_ERROR) else io_ret false.
Definition lib_unregDump (key : list Z) : IO bool :=
  do guiExt <- io_call answer Ccheck_service;
  if negb (grv guiExt =? 0) then do r <- s_unregDump service key; io_ret (r =? NO_ERROR) else io_ret false.
End Functions.
