(* ===== verification/GuiContract.v ===== *)
(** The service of preallocated buffers: what it promises to a client, and what a client makes of it.

    The promises hold for the service itself, and for what a client gets through the binder. *)
From Stdlib Require Import String List.
From stdpp Require Import gmap.
From S2P Require Import Prelude Maps Effects GuiState GuiPool GuiItems GuiService GuiLedger GuiBinder GuiClient.

Abbreviation W := (world gui_pool gcall gresp).

(** [owned w token id usage type buf]: the client has the buffer. *)
Class buffer_service `{headers : gui_headers} (answer : calls -> gcall -> gresp) (svc : IGuiExtService) (inv : W -> Prop) (owned : W -> Z -> Z -> Z -> Z -> Z -> Prop) : Prop := {
  promises_quiet : forall g tr c r, inv (World g tr) -> elsewhere c -> inv (World g (tr ++ [(c, r)]));
  promises_acquire : forall token id usage type buf w, inv w -> token <> 0 -> args_ok usage type -> 0 <= id < 2 ^ 32 -> is_i32 buf -> refusal_seen answer buf ->
    wp (s_acquire svc token id usage type buf) (fun r w' => inv w' /\ is_i32 r.2 /\
      (- 2 ^ 31 <= r.1 < 0 \/ r.1 = NO_ERROR /\ 0 <= r.2 < 8 /\ owned w' token id usage type r.2)) w;
  promises_request : forall token id usage type buf w, inv w -> args_ok usage type -> 0 <= id < 2 ^ 32 -> 0 <= buf < 8 -> owned w token id usage type buf ->
    wp (s_request svc id usage type buf 0) (fun r w' => inv w' /\ is_i32 r.1 /\ owned w' token id usage type buf) w;
  promises_release : forall id usage type buf w, inv w -> args_ok usage type -> 0 <= id < 2 ^ 32 -> 0 <= buf < 8 ->
    wp (s_release svc id usage type buf) (fun e w' => inv w' /\ is_i32 e /\
      (e = NO_ERROR -> forall token, token <> 0 -> ~ owned w' token id usage type buf)) w
}.

(** ** The service keeps the promises *)
Section Service.
Context `{headers : gui_headers} (headers_ok : gui_headers_ok headers).
Context (answer : calls -> gcall -> gresp) (Hanswer : answers_ok answer) (Hqueues : queues_behave answer).

Definition slot_owned (w : W) (token id usage type buf : Z) : Prop := exists item s,
  valueFor id (mPoolList (globals w)) = Some item /\ valueFor (POOL_COMBINED_ID usage type buf) (mConsumerList item) = Some s /\ s_token s = token.

Lemma errors_i32 e : - 2 ^ 31 <= e < 0 -> is_i32 e.
Proof. unfold is_i32. lia. Qed.

Lemma bad_index : - 2 ^ 31 <= BAD_INDEX < 0 /\ - 2 ^ 31 <= INVALID_OPERATION < 0.
Proof using headers_ok. pose proof errors_negative as Herr. rewrite !List.Forall_cons_iff in Herr. tauto. Qed.

Lemma acquire_promise token id usage type buf (w : W) : ledger w -> token <> 0 -> args_ok usage type -> is_i32 buf -> refusal_seen answer buf ->
  wp (acquire answer token id usage type buf) (fun r w' => ledger w' /\ is_i32 r.2 /\
    (- 2 ^ 31 <= r.1 < 0 \/ r.1 = NO_ERROR /\ 0 <= r.2 < 8 /\ slot_owned w' token id usage type r.2)) w.
Proof using headers_ok Hqueues.
  intros Hw Ht Ha Hbi Hbuf. unfold acquire. apply wp_bind, wp_the_item. destruct (valueFor id _) as [item|] eqn:Hid.
  2: { apply log_ok; [done|]. split_and!; [done|done|left; apply bad_index]. }
  destruct (the_pool_ok _ _ _ (ledger_ok _ Hw) Hid) as [Hok Hu]. pose proof (ledger_book _ Hw _ _ (valueFor_in _ _ _ Hid)) as Hb. apply wp_bind.
  eapply wp_mono; [apply wp_and; [by apply (item_acquire_ok answer id token usage type)|by apply (item_acquire_book headers_ok answer Hqueues id)]|]. cbn beta.
  intros [[e b] i] w1 ((Hg & Hi & Hu') & Hq & Hb1 & (l & Hl & Hown) & Hgr). cbn [fst snd] in *. apply wp_bind.
  eapply (wp_put_used id i item); [rewrite Hg; apply Hw|by rewrite Hg|done|by apply Hu'|]. apply log_ok; [done|]. cbn [fst snd].
  split; [by eapply (ledger_put id i item l w w1)|]. unfold granted in Hgr. cbn [fst snd] in Hgr.
  destruct Hgr as [[He ->]|(-> & Hr & Hui & s & Hs & Htok)]; [split; [done|by left]|]. split; [unfold is_i32; lia|right]. split_and!; [done|lia|lia|].
  exists i, s. split; [|done]. cbn [globals]. rewrite valueFor_keep_if_used, Z.eqb_refl. pose proof (used_dec i). by destruct (unused i).
Qed.

Lemma request_promise token id usage type buf buffer (w : W) : ledger w -> args_ok usage type -> slot_owned w token id usage type buf ->
  wp (request answer id usage type buf buffer) (fun r w' => ledger w' /\ is_i32 r.1 /\ slot_owned w' token id usage type buf) w.
Proof using headers_ok.
  intros Hw Ha Ho. pose proof bad_index as [B1 B2]. apply errors_i32 in B1, B2.
  unfold request. apply wp_bind, wp_the_item. destruct (valueFor id _) as [item|] eqn:Hid; [|by apply log_ok].
  apply wp_bind. unfold item_request. destruct (_ && _); [by apply wp_ret, log_ok|].
  destruct (Z.eqb_spec (getIGraphicBufferProducer usage type item) 0); [by apply wp_ret, log_ok|].
  apply wp_bind, wp_on; [done|]. intros r. apply wp_ret, log_ok; [done|]. split_and!; [|done|done].
  apply ledger_quiet; try done; [apply Hw|apply Hw|]. by intros e [<-|[]] p.
Qed.

Lemma release_promise id usage type buf (w : W) : ledger w -> args_ok usage type -> 0 <= buf < 8 ->
  wp (release answer id usage type buf) (fun e w' => ledger w' /\ is_i32 e /\
    (e = NO_ERROR -> forall token, token <> 0 -> ~ slot_owned w' token id usage type buf)) w.
Proof using headers_ok.
  intros Hw Ha Hbuf. pose proof bad_index as [B1 B2]. unfold release. apply wp_bind, wp_the_item. destruct (valueFor id _) as [item|] eqn:Hid.
  2: { apply log_ok; [done|]. split_and!; [done|by apply errors_i32|]. unfold NO_ERROR. lia. }
  destruct (the_pool_ok _ _ _ (ledger_ok _ Hw) Hid) as [Hok Hu]. pose proof (ledger_book _ Hw _ _ (valueFor_in _ _ _ Hid)) as Hb.
  assert (forall e, - 2 ^ 31 <= e < 0 -> wp (do _ <- put_item id item; do _ <- log_names usage type; io_ret e) (fun e w' => ledger w' /\ is_i32 e /\
    (e = NO_ERROR -> forall token, token <> 0 -> ~ slot_owned w' token id usage type buf)) w) as Herr.
  { intros e He. apply wp_bind. eapply wp_put_used; [apply Hw|done|done|done|]. apply log_ok; [done|]. split_and!; [|by apply errors_i32|unfold NO_ERROR; lia].
    eapply (ledger_put id item item [] w w); try done. by rewrite app_nil_r. }
  apply wp_bind. unfold item_release. destruct (_ && _); [by apply wp_ret, Herr|].
  destruct (Z.eqb_spec (getIGraphicBufferProducer usage type item) 0) as [|Hp]; [by apply wp_ret, Herr|].
  apply wp_bind, wp_on; [done|]. intros r. apply wp_ret. fold (released usage type buf item). cbn [fst snd].
  pose proof (released_ok id usage type buf item Hok) as Hok'. pose proof (used_released usage type buf item Hu) as Hu'.
  apply wp_bind. eapply wp_put_used; [apply Hw|done|done|done|]. apply log_ok; [done|]. split_and!; [|done|].
  - eapply (ledger_put id _ item _ w (World _ _)); [done|done|done|done|done| |by eapply released_book|].
    + unfold released. by destruct (valueFor _ (mConsumerList item)).
    + intros p e [<-|[]] Hte. cbn in Hte. apply Z.eqb_eq in Hte as <-.
      destruct (producer_usage _ _ _ _ Hok Hp) as (-> & _ & q & Hq & <-). exists type, q. split; [by apply valueFor_in|done].
  - intros _ token Htok (i & s & Hi & Hs & Hst). cbn [globals] in Hi. rewrite valueFor_keep_if_used, Z.eqb_refl in Hi.
    destruct (unused _); [done|]. injection Hi as <-. unfold released in Hs.
    destruct (valueFor (POOL_COMBINED_ID usage type buf) (mConsumerList item)) as [s0|] eqn:E; cbn [mConsumerList with_consumers] in Hs; [|congruence].
    rewrite valueFor_add, Z.eqb_refl in Hs. injection Hs as <-. by rewrite <- Hst in Htok.
Qed.

#[export] Instance GuiExtService_promises : buffer_service answer (GuiExtService answer) ledger slot_owned.
Proof using headers_ok Hanswer Hqueues.
  split; cbn [GuiExtService s_acquire s_request s_release].
  - intros g tr c r Hw Hc. apply (ledger_quiet g [(c, r)] (World g tr)); [done|apply Hw|done|apply Hw|]. by intros e [<-|[]].
  - intros. by apply acquire_promise.
  - intros. by apply request_promise.
  - intros. by apply release_promise.
Qed.
End Service.

(** ** So does what comes through the binder *)
Section Through.
Context `{headers : gui_headers} (headers_ok : gui_headers_ok headers).
Context (answer : calls -> gcall -> gresp) (inv : W -> Prop) (owned : W -> Z -> Z -> Z -> Z -> Z -> Prop).

Lemma args_u32 usage type : args_ok usage type -> u32 usage = usage /\ u32 type = type.
Proof using headers_ok.
  unfold args_ok, GUI_EXT_USAGE_MAX. intros [Hu Ht]. pose proof displays_numbered as (_ & Hn & _).
  unfold wrapu. rewrite !Z.mod_small by lia. done.
Qed.

(** Here the service must see a refusal with what its own variable [buf] happens to hold. *)
Lemma marshalled_promises impl stack import : (forall b, is_i32 (import b)) -> is_i32 stack -> refusal_seen answer stack ->
  buffer_service answer impl inv owned -> buffer_service answer (marshalled impl stack import) inv owned.
Proof using headers_ok.
  intros Himp Hstack Hseen [P1 P2 P3 P4]. split; cbn [marshalled s_acquire s_request s_release].
  - done.
  - intros token id usage type buf w Hw Ht Ha Hid _ _. destruct (args_u32 _ _ Ha) as [-> ->]. unfold wrapu. rewrite Z.mod_small by done.
    apply wp_bind. eapply wp_mono; [by apply P2|]. cbn beta. intros [e b] w' (Hw' & Hb & Hr). apply wp_ret. cbn [fst snd] in *.
    rewrite (i32_small b) by done. rewrite (i32_small e); [done|]. unfold NO_ERROR, is_i32 in *. lia.
  - intros token id usage type buf w Hw Ha Hid Hb Ho. destruct (args_u32 _ _ Ha) as [-> ->]. unfold wrapu. rewrite Z.mod_small by done.
    rewrite (i32_small buf) by (unfold is_i32; lia). apply wp_bind. eapply wp_mono; [by apply (P3 token)|]. cbn beta.
    intros [e b] w' (Hw' & He & Ho'). apply wp_ret. cbn [fst snd] in *. destruct (b =? 0); [|destruct (import b =? 0)]; cbn [fst]; rewrite ?i32_small by done; done.
  - intros id usage type buf w Hw Ha Hid Hb. destruct (args_u32 _ _ Ha) as [-> ->]. unfold wrapu. rewrite Z.mod_small by done.
    rewrite (i32_small buf) by (unfold is_i32; lia). apply wp_bind. eapply wp_mono; [by apply P4|]. cbn beta.
    intros e w' (Hw' & He & Ho). apply wp_ret. by rewrite i32_small.
Qed.

Lemma same_promises a b : same_service a b -> buffer_service answer b inv owned -> buffer_service answer a inv owned.
Proof.
  intros [_ _ Sa Sq Sr _ _ _ _] [P1 P2 P3 P4]. unfold wp in *. split; unfold wp; intros; rewrite ?Sa, ?Sq, ?Sr; [by apply P1|by apply P2|by eapply P3|by apply P4].
Qed.
End Through.

(** ** A consumer *)
Section Consumer.
Context `{headers : gui_headers} (headers_ok : gui_headers_ok headers).
Context (answer : calls -> gcall -> gresp) (svc : IGuiExtService) (sLife : Z) (HsLife : sLife <> 0).
Context (inv : W -> Prop) (owned : W -> Z -> Z -> Z -> Z -> Z -> Prop) `{promises : !buffer_service answer svc inv owned}.

(** A slot under its key; a pool has an id below [2 ^ 22]. *)
Definition buffer_ok (k : Z) (s : buffer_slot) : Prop :=
  k = CLIENT_COMBINED_ID (b_poolId s) (b_usage s) (b_type s) (b_idx s) /\ 0 <= b_poolId s < 2 ^ 22 /\ args_ok (b_usage s) (b_type s) /\ 0 <= b_idx s < 8.
Definition client_ok (c : gui_client) : Prop := sorted_keys (mSlots c) /\ forall k s, In (k, s) (mSlots c) -> buffer_ok k s.

Lemma client_id_inj id usage type b id' usage' type' b' :
  0 <= id < 2 ^ 22 -> args_ok usage type -> 0 <= b < 8 -> 0 <= id' < 2 ^ 22 -> args_ok usage' type' -> 0 <= b' < 8 ->
  CLIENT_COMBINED_ID id usage type b = CLIENT_COMBINED_ID id' usage' type' b' -> id = id' /\ usage = usage' /\ type = type' /\ b = b'.
Proof using headers_ok.
  pose proof displays_numbered as (_ & Hn & _).
  assert (forall id usage type b, 0 <= id < 2 ^ 22 -> args_ok usage type -> 0 <= b < 8 ->
    CLIENT_COMBINED_ID id usage type b = b + type * 2 ^ 3 + usage * 2 ^ 6 + id * 2 ^ 10) as H.
  { unfold args_ok, GUI_EXT_USAGE_MAX. intros i u t x Hi [Hu Ht] Hx. unfold CLIENT_COMBINED_ID.
    rewrite Z.lor_comm, (Z.lor_comm _ (t ≪ 3)), (Z.lor_comm (i ≪ 10)), !Z.lor_assoc.
    rewrite (lor_shift x t 3), (lor_shift _ u 6), (lor_shift _ i 10) by lia. apply wrapu_small. lia. }
  unfold args_ok, GUI_EXT_USAGE_MAX in *. intros Hi Ha Hb Hi' Ha' Hb'. rewrite !H by done. lia.
Qed.

Lemma client_ok_add k s c : client_ok c -> buffer_ok k s -> client_ok (with_slots (kv_add k s (mSlots c)) c).
Proof.
  intros [Hs Hk] Hb. split; cbn [mSlots with_slots]; [by apply kv_add_sorted|].
  intros k' s' [[-> ->]|[_ Hin]]%in_kv_add_iff; [done|by apply Hk|done].
Qed.

Lemma assertState_ok c Q (w : W) : inv w ->
  (forall w', inv w' -> Q (NO_ERROR, with_service true c) w') -> (forall w', inv w' -> Q (NAME_NOT_FOUND, c) w') -> wp (assertStateLocked answer c) Q w.
Proof using promises.
  intros Hw Hok Hno. unfold assertStateLocked. destruct (mGuiExtService c) eqn:E.
  - apply wp_ret. replace c with (with_service true c) at 1; [by apply Hok|]. destruct c. cbn in *. by subst.
  - apply wp_bind, sys_any. intros r. destruct w as [g tr]. assert (inv (World g (tr ++ [(Ccheck_service, r)]))) as Hw1 by (by apply promises_quiet).
    destruct (grv r =? 0); [by apply wp_ret, Hno|]. apply wp_bind, sys_any. intros r'. apply wp_ret, Hok. by apply promises_quiet.
Qed.

Lemma find_backup_ok id usage type l k s : find_backup id usage type l = Some (k, s) -> In (k, s) l /\ is_backup id usage type s = true.
Proof.
  induction l as [|e l IH]; cbn; [done|]. destruct (is_backup id usage type e.2) eqn:E; [intros [= ->]; auto|]. intros H%IH. tauto.
Qed.

(** What [acquire] hands out is a slot of the pool and the display, which the service has given to this process; or,
    when the service refused, a slot that was not acquired. *)
Definition handed_out (id usage type buffer : Z) (c c' : gui_client) (w' : W) : Prop := exists s,
  valueFor (CLIENT_COMBINED_ID id usage type (b_idx s)) (mSlots c') = Some s /\ b_buffer s = buffer /\
  b_poolId s = id /\ b_usage s = usage /\ b_type s = type /\ 0 <= b_idx s < 8 /\
  (owned w' sLife id usage type (b_idx s) \/
   exists s0, valueFor (CLIENT_COMBINED_ID id usage type (b_idx s)) (mSlots c) = Some s0 /\ b_isAcquired s0 = false /\ b_isAcquired s = true).

Lemma client_acquire_ok id usage type c (w : W) : client_ok c -> inv w -> args_ok usage type -> 0 <= id < 2 ^ 22 ->
  wp (client_acquire answer svc sLife id usage type c)
    (fun r w' => inv w' /\ client_ok r.2 /\ (r.1.1 = NO_ERROR -> handed_out id usage type r.1.2 c r.2 w')) w.
Proof using headers_ok HsLife promises.
  intros Hc Hw Ha Hid. pose proof displays_numbered as (_ & Hn & Hv). pose proof Ha as [Hu Ht]. unfold client_acquire.
  rewrite (proj2 (Z.leb_gt _ _)), (proj2 (Z.ltb_ge _ _)) by lia. apply wp_bind, assertState_ok; [done| |]; intros w1 Hw1; cbn [fst snd]; cbv zeta.
  2: { assert (NAME_NOT_FOUND <> NO_ERROR) as Hne. { pose proof errors_negative as Herr. rewrite !List.Forall_cons_iff in Herr. unfold NO_ERROR. lia. }
       rewrite (proj2 (Z.eqb_neq _ _) Hne). by apply wp_ret. }
  change (NO_ERROR =? NO_ERROR) with true. cbn [negb]. apply wp_bind. eapply wp_mono; [apply promises_acquire; [done|done|done|lia|done|by left]|]. cbn beta.
  intros [e b] w2 (Hw2 & _ & He). cbn [fst snd] in *. change (mSlots (with_service true c)) with (mSlots c). destruct (Z.ltb_spec e 0) as [Hneg|Hpos].
  - destruct (find_backup id usage type (mSlots c)) as [[k s]|] eqn:Hf; [|apply wp_ret; split_and!; [done|done|cbn; unfold NO_ERROR; lia]].
    apply find_backup_ok in Hf as [Hin Hb]. destruct (proj2 Hc k s Hin) as (-> & H1 & H2 & H3). unfold is_backup in Hb.
    rewrite !andb_true_iff, !Z.eqb_eq, negb_true_iff in Hb. destruct Hb as [[[<- <-] <-] Hacq]. apply wp_ret. cbn [fst snd]. split_and!; [done|by apply (client_ok_add _ _ (with_service true c)); [|exact (conj eq_refl (conj H1 (conj H2 H3)))]|].
    intros _. exists (set_acquired true s). cbn [b_idx b_buffer b_poolId b_usage b_type set_acquired mSlots with_slots with_service].
    rewrite valueFor_add, Z.eqb_refl. split_and!; try done; try lia. right. exists s. split_and!; [by apply in_valueFor; [apply Hc|]|done|done].
  - destruct He as [He|(-> & Hb & Ho)]; [lia|]. destruct (valueFor _ (mSlots c)) as [s|] eqn:Hs.
    + apply wp_ret. cbn [fst snd]. split_and!; [done|done|]. intros _. destruct (proj2 Hc _ s (valueFor_in _ _ _ Hs)) as (Hk & H1 & H2 & H3).
      apply client_id_inj in Hk as (-> & -> & -> & ->); [|done..]. exists s. split_and!; try done; try lia. by left.
    + apply wp_bind. eapply wp_mono; [by apply (promises_request sLife); [..|lia| |]|]. cbn beta. intros [e q] w3 (Hw3 & He & Ho3). cbn [fst snd].
      destruct (Z.eqb_spec e NO_ERROR); cbn [negb]; apply wp_ret; cbn [fst snd]; [|by split_and!].
      split_and!; [done|by apply (client_ok_add _ _ (with_service true c)); [|split_and!; cbn; lia || done]|]. intros _.
      exists (mk_buffer q id usage type b true). cbn [mSlots with_slots with_service b_buffer b_poolId b_usage b_type b_idx].
      rewrite valueFor_add, Z.eqb_refl. split_and!; try done; try lia. by left.
Qed.

Context (handle : Z -> Z).
(** The slots whose buffers are not null, and one buffer for each handle. *)
Definition buffers_known (c : gui_client) : Prop :=
  (forall k s, In (k, s) (mSlots c) -> b_buffer s <> 0) /\
  forall k s k' s', In (k, s) (mSlots c) -> In (k', s') (mSlots c) -> handle (b_buffer s) = handle (b_buffer s') -> k = k'.

Lemma getSlot_ok l k s : (forall k s, In (k, s) l -> b_buffer s <> 0) ->
  (forall k' s', In (k', s') l -> handle (b_buffer s') = handle (b_buffer s) -> b_idx s' = b_idx s) -> In (k, s) l ->
  getSlotFromBufferLocked handle (b_buffer s) l = Some (b_idx s).
Proof.
  intros Hnn Huniq Hin. pose proof (Hnn k s Hin) as Hs. induction l as [|[k0 s0] l IH]; [done|]. cbn [getSlotFromBufferLocked snd].
  rewrite (proj2 (Z.eqb_neq _ _) (Hnn k0 s0 (or_introl eq_refl))), (proj2 (Z.eqb_neq _ _) Hs). cbn [orb].
  destruct (Z.eqb_spec (handle (b_buffer s0)) (handle (b_buffer s))) as [E|E].
  - f_equal. apply (Huniq k0); [by left|done].
  - destruct Hin as [[= -> ->]|Hin]; [done|]. apply IH; [intros k' s' H; apply (Hnn k'); by right| |done].
    intros k' s' H. apply (Huniq k'). by right.
Qed.

(** [release] gives the buffer back: nobody has it then, and its slot can be handed out again. *)
Lemma client_release_ok id usage type s c (w : W) : client_ok c -> buffers_known c -> inv w -> args_ok usage type -> 0 <= id < 2 ^ 22 -> 0 <= b_idx s < 8 ->
  mGuiExtService c = true -> valueFor (CLIENT_COMBINED_ID id usage type (b_idx s)) (mSlots c) = Some s ->
  wp (client_release answer svc handle (b_buffer s) id usage type c) (fun r w' => inv w' /\ client_ok r.2 /\
    valueFor (CLIENT_COMBINED_ID id usage type (b_idx s)) (mSlots r.2) = Some (set_acquired false s) /\
    (r.1 = NO_ERROR -> forall token, token <> 0 -> ~ owned w' token id usage type (b_idx s))) w.
Proof using headers_ok promises.
  intros Hc [Hnn Huniq] Hw Ha Hid Hidx Hsvc Hs. pose proof displays_numbered as (_ & Hn & Hv). pose proof Ha as [Hu Ht]. unfold client_release.
  rewrite (proj2 (Z.leb_gt _ _)), (proj2 (Z.ltb_ge _ _)) by lia. unfold assertStateLocked. rewrite Hsvc. apply wp_bind, wp_ret. cbn [fst snd].
  change (NO_ERROR =? NO_ERROR) with true. cbn [negb]. pose proof (valueFor_in _ _ _ Hs) as Hin. pose proof (proj2 Hc _ _ Hin) as Hb.
  rewrite (proj2 (Z.eqb_neq _ _) (Hnn _ _ Hin)). unfold releaseLocked. apply wp_bind. eapply wp_lift.
  { eapply getSlot_ok; [exact Hnn| |exact Hin]. intros k' s' Hin' E. pose proof (Huniq _ _ _ _ Hin' Hin E) as Hk.
    apply (in_valueFor _ _ _ (proj1 Hc)) in Hin'. rewrite Hk, Hs in Hin'. by injection Hin' as ->. }
  rewrite (proj2 (Z.ltb_ge _ _)) by lia. cbv zeta. rewrite Hs. apply wp_bind. eapply wp_mono; [apply promises_release; [done|done|lia|done]|]. cbn beta.
  intros e w' (Hw' & _ & Ho). apply wp_ret. cbn [fst snd]. split_and!; [done| |cbn; by rewrite valueFor_add, Z.eqb_refl|done]. by apply client_ok_add.
Qed.
End Consumer.
