(* ===== verification/GuiExt.v ===== *)
(** The service of preallocated buffers: the properties of the service and of the way from a client to it. *)
From Stdlib Require Import String List.
From stdpp Require Import gmap.
From S2P Require Import Prelude Maps Effects Parcel GuiState GuiPool GuiItems GuiService GuiLedger GuiBinder GuiClient GuiContract.

(** Some client but [who] has the buffer. *)
Definition held_by_another (who : Z) (item : pool_item) (t b : Z) : Prop :=
  exists c s, In (c, s) (mConsumerList item) /\ s_type s = t /\ s_idx s = b /\ s_token s <> 0 /\ s_token s <> who.

Lemma held_bereaved who item t b : held (bereaved who item) t b <-> held_by_another who item t b.
Proof.
  unfold held, held_by_another. cbn [bereaved mConsumerList with_disconnected with_consumers]. split.
  - intros (c & s' & Hs' & <- & <- & Ht). apply in_map_iff in Hs' as ([c0 s] & Hw & Hin). unfold without in Hw. cbn [fst snd] in Hw.
    destruct (Z.eqb_spec (s_token s) who); injection Hw as -> <-; [done|]. by exists c, s.
  - intros (c & s & Hin & <- & <- & Ht & Hne). exists c, s. split_and!; try done. apply in_map_iff. exists (c, s). split; [|done].
    unfold without. cbn. by rewrite (proj2 (Z.eqb_neq _ _) Hne).
Qed.

(** ** A machine for the examples *)
Definition aosp_headers : gui_headers := {|
  BAD_INDEX := -75; BAD_VALUE := -22; NOT_ENOUGH_DATA := -61; INVALID_OPERATION := -38; WOULD_BLOCK := -11; NAME_NOT_FOUND := -2;
  UNKNOWN_TRANSACTION := -74; PERMISSION_DENIED := -1; GRALLOC_USAGE_SW_READ_RARELY := 2; GRALLOC_USAGE_SW_WRITE_NEVER := 0;
  GRALLOC_USAGE_HW_TEXTURE := 0x100; GRALLOC_USAGE_HW_COMPOSER := 0x800; HAL_PIXEL_FORMAT_YV12 := 0x32315659; HWC_DISPLAY_PRIMARY := 0;
  HWC_DISPLAY_VIRTUAL := 2; HWC_NUM_DISPLAY_TYPES := 3; FIRST_CALL_TRANSACTION := 1
|}.

Lemma aosp_headers_ok : gui_headers_ok aosp_headers.
Proof. split; cbn; [by repeat constructor|lia]. Qed.

(** Queues that hand out the first buffer that is in. *)
Definition producer_of (e : gcall * gresp) : Z :=
  match e.1 with Ccreate_queue => match gdata e.2 with p :: _ => p | [] => 0 end | _ => 0 end.
Definition last_producer (tr : calls) : Z := fold_right Z.max 0 (map producer_of tr).
Definition machine (tr : calls) (c : gcall) : gresp :=
  match c with
  | Ccreate_queue => mk_gresp 0 [last_producer tr + 1; 1]
  | Cdequeue p _ _ =>
    match List.find (fun b => negb (out tr p b)) (map Z.of_nat (List.seq 0 (Z.to_nat (capacity tr p)))) with
    | Some b => mk_gresp 0 [b]
    | None => mk_gresp (-11) []
    end
  | Cget_display_info => mk_gresp 0 [1280; 800]
  | Crequest p b => mk_gresp 0 [1000 + 8 * p + b]
  | Cremote_binder _ | Calive _ | Ccheck_service => mk_gresp 1 []
  | Cget_calling_pid => mk_gresp 42 []
  | _ => mk_gresp 0 []
  end.

Lemma last_producer_nonneg tr : 0 <= last_producer tr.
Proof. unfold last_producer. induction tr as [|e tr IH]; cbn; lia. Qed.

Lemma last_producer_le tr e : In e tr -> producer_of e <= last_producer tr.
Proof.
  unfold last_producer. induction tr as [|y tr IH]; [done|]. cbn [map fold_right]. intros [->|Hx]; [lia|]. specialize (IH Hx). lia.
Qed.

Lemma machine_answers : answers_ok machine.
Proof.
  intros tr. split; [|by exists 1280, 800, []]. exists (last_producer tr + 1), 1, []. pose proof (last_producer_nonneg tr). split_and!; [done|lia|done].
Qed.

Lemma machine_queues : queues_behave machine.
Proof.
  split.
  - intros tr p f u. cbn [machine]. destruct (List.find _ _) as [b|] eqn:E; [|by left]. right. split; [cbn; lia|]. exists b.
    apply find_some in E as [Hin Ho]. apply in_map_iff in Hin as (n & <- & Hn%in_seq). apply negb_true_iff in Ho. split_and!; [done|lia|lia|done].
  - intros tr p l [= <- _]. apply not_true_is_false. intros (e & He & Hm)%existsb_exists. unfold made in Hm.
    pose proof (last_producer_le tr e He) as Hle. unfold producer_of in Hle. destruct e.1; try done. destruct (gdata e.2) as [|q ?]; [done|]. apply Z.eqb_eq in Hm. lia.
Qed.

(** ** The service *)
Section Service.
Context `{headers : gui_headers}.

(** C32. From the start of the service, any calls with arguments in their ranges and any deaths end without an access outside of
    an array or through a null pointer, and leave the data of the service well formed: at most ten pools under
    different ids from 1 to 10, each with somebody who uses it; queues for its displays with a slot for each of
    their buffers, under the key made of its fields; process, observer and listener of a slot set exactly as its token says. *)
Theorem pools_well_formed (headers_ok : gui_headers_ok headers) answer (Hanswer : answers_ok answer) l (Hl : Forall op_ok l) :
  exists w, gui_run answer l (World pool0 []) = Some (tt, w) /\ pools_ok (globals w).
Proof.
  destruct (wp_total _ _ _ (gui_run_ok headers_ok answer Hanswer l (World pool0 []) pools_ok_0 Hl)) as ([] & w & Hw & Hok). by exists w.
Qed.


(** C13. When a consumer dies, each buffer that it had, and no other, is given back to the queue it came from, in the order of
    the slots, and the other clients keep theirs; the pool is removed if neither a producer nor another client uses it,
    and the other pools stay as they are. *)
Theorem consumer_death_gives_back (headers_ok : gui_headers_ok headers) answer (Hanswer : answers_ok answer) (Hqueues : queues_behave answer)
  l (Hl : Forall (op_booked answer) l) w (Hw : gui_run answer l (World pool0 []) = Some (tt, w))
  id who item (Hwho : who <> 0) (Hid : valueFor id (mPoolList (globals w)) = Some item) (Hob : observed who item = true) :
  exists w' cs, consumer_death answer id who w = Some (tt, w') /\
    trace w' = trace w ++ cs /\ map fst cs = map (give_back item) (List.filter (held_by who) (mConsumerList item)) /\
    (forall t q b, valueFor t (mHwcUsedBqList item) = Some q -> out (trace w') (mProducer q) b = true <-> held_by_another who item t b) /\
    (forall k, valueFor k (mPoolList (globals w')) =
      if k =? id then if unused (bereaved who item) then None else Some (bereaved who item) else valueFor k (mPoolList (globals w))).
Proof.
  destruct (wp_total _ _ _ (gui_run_ledger headers_ok answer Hanswer Hqueues l _ ledger_0 Hl)) as ([] & w0 & Hw0 & Hled).
  rewrite Hw in Hw0. injection Hw0 as <-. destruct (the_pool_ok _ _ _ (ledger_ok _ Hled) Hid) as [Hok _].
  destruct (wp_total _ _ _ (consumer_died_ok answer id who item w (ledger_ok _ Hled) Hwho Hid Hob)) as ([] & w' & Hd & _ & Hg & cs & Ht & Hcs).
  exists w', cs. split_and!; [|done|done| |].
  - unfold consumer_death, the_item, io_bind, io_get, io_ret. by rewrite Hid, Hob.
  - intros t q b Hq%valueFor_in. destruct (bereaved_book id (trace w) who item cs Hok (ledger_book _ Hled _ _ (valueFor_in _ _ _ Hid)) Hwho Hcs) as [Hb _].
    rewrite Ht. etransitivity; [apply (item_queue_book _ _ Hb t q Hq)|apply held_bereaved].
  - intros k. rewrite Hg. apply valueFor_keep_if_used.
Qed.
End Service.

(** A pool, two consumers that take three buffers, and a display that comes too late for the pool. *)
Definition a_day : list gui_op :=
  [Alloc 7 0x800 1280 800; Acquire 9 1 1 0 (-1); Acquire 8 1 1 0 (-1); ConfigDisplay 1 true 640 480 2; Acquire 9 1 1 0 (-1);
   Acquire 9 1 1 1 (-1); Release 1 1 0 1; Acquire 8 1 1 0 (-1); RegDump 5 [66; 81]; Free 1].

Lemma a_day_booked : Forall (@op_booked aosp_headers machine) a_day.
Proof.
  assert (@refusal_seen aosp_headers machine (-1)) as H by (by left).
  repeat (constructor; [split; [cbn; unfold args_ok; cbn; try lia; try done|cbn; try lia; try done]|]). constructor.
Qed.

Lemma pools_well_formed_witness :
  Forall (@op_ok aosp_headers) a_day /\ exists w, gui_run (headers := aosp_headers) machine a_day (World pool0 []) = Some (tt, w) /\ pools_ok (headers := aosp_headers) (globals w).
Proof.
  assert (Forall (@op_ok aosp_headers) a_day) as Hl by (eapply List.Forall_impl; [|exact a_day_booked]; by intros o [? _]).
  split; [exact Hl|]. exact (pools_well_formed (headers := aosp_headers) aosp_headers_ok machine machine_answers a_day Hl).
Defined.


Lemma consumer_death_gives_back_witness : exists w item,
  gui_run (headers := aosp_headers) machine a_day (World pool0 []) = Some (tt, w) /\ valueFor 1 (mPoolList (globals w)) = Some item /\
  exists w' cs, consumer_death (headers := aosp_headers) machine 1 9 w = Some (tt, w') /\ trace w' = trace w ++ cs /\ map fst cs = [Ccancel 1 0; Ccancel 1 2].
Proof.
  destruct (gui_run (headers := aosp_headers) machine a_day (World pool0 [])) as [[[] w]|] eqn:Hw; [|exfalso; vm_compute in Hw; discriminate].
  destruct (valueFor 1 (mPoolList (globals w))) as [item|] eqn:Hid.
  2: { exfalso. vm_compute in Hw. injection Hw as <-. vm_compute in Hid. discriminate. }
  assert (observed 9 item = true) as Hob by (vm_compute in Hw; injection Hw as <-; vm_compute in Hid; injection Hid as <-; reflexivity).
  exists w, item. split; [done|]. split; [done|].
  destruct (consumer_death_gives_back (headers := aosp_headers) aosp_headers_ok machine machine_answers machine_queues a_day a_day_booked w Hw 1 9 item
    ltac:(discriminate) Hid Hob) as (w' & cs & Hd & Ht & Hcs & _). exists w', cs. split; [exact Hd|]. split; [exact Ht|]. rewrite Hcs.
  clear - Hw Hid. vm_compute in Hw. injection Hw as <-. vm_compute in Hid. injection Hid as <-. reflexivity.
Defined.

(** ** From a client to the service *)
Section Through.
Context `{headers : gui_headers} `{laws : parcel_laws}.
Context (answer : calls -> gcall -> gresp) (BBinder_onTransact : Z -> parcel -> IO (Z * parcel)) (transact : Z -> parcel -> IO (Z * parcel)).

(** The transport hands a parcel to the service, and its reply back. *)
Definition connects (stack : Z) : Prop := forall code data s,
  transact code data s = onTransact (GuiExtService answer) stack BBinder_onTransact code data s.

(** C29. Through the binder every method of the service does what it does when it is called directly, with the arguments at their
    widths and the same results, for any parcels; but the service does not see [*buf] of [acquire], and hands out
    what its own variable holds instead. *)
Theorem binder_transparent stack (Hconnects : connects stack) :
  same_service (BpGuiExtService transact) (marshalled (GuiExtService answer) stack import).
Proof using laws. apply (binder_same _ _ _ _ Hconnects). Qed.

End Through.

Definition other_code (code : Z) (data : list parcel_item) : IO (Z * list parcel_item) := io_ret (-74, []).
Definition direct (stack : Z) : Z -> list parcel_item -> IO (Z * list parcel_item) :=
  onTransact (headers := aosp_headers) (ops := list_parcels) (GuiExtService (headers := aosp_headers) machine) stack other_code.

Lemma binder_transparent_witness :
  same_service (BpGuiExtService (headers := aosp_headers) (ops := list_parcels) (direct 3))
    (marshalled (GuiExtService (headers := aosp_headers) machine) 3 (fun _ => 0)).
Proof. exact (binder_transparent (headers := aosp_headers) (laws := list_parcel_laws) machine other_code (direct 3) 3 (fun _ _ _ => eq_refl)). Defined.

Lemma direct_connects stack :
  connects (headers := aosp_headers) (ops := list_parcels) machine other_code (direct stack) stack.
Proof. intros code data s. reflexivity. Qed.

Lemma client0_ok `{headers : gui_headers} : client_ok client0.
Proof. split; [constructor|]. by intros k s []. Qed.

Lemma minus_five : is_i32 (-5).
Proof. unfold is_i32. lia. Qed.

Lemma zero_i32 : is_i32 0.
Proof. unfold is_i32. lia. Qed.

Lemma seen_minus_five : refusal_seen (headers := aosp_headers) machine (-5).
Proof. by left. Qed.

Lemma nine_nonzero : 9 <> 0.
Proof. lia. Qed.

Lemma primary_args : args_ok (headers := aosp_headers) 1 0.
Proof. unfold args_ok, GUI_EXT_USAGE_MAX. cbn. lia. Qed.

Lemma one_id : 0 <= 1 < 2 ^ 22.
Proof. lia. Qed.

