(* ===== verification/GfxExtra.v ===== *)
(** The graphics libraries: gralloc_extra (src/mediatek/graphics/gralloc_extra: GraphicBufferExtra.cpp,
    GraphicBufferExtra_hal.cpp, ui/gralloc_extra.h), which asks the extra device of gralloc about a buffer; the formats of
    graphics_mtk_defs.h; and the calls that this library and ui_ext make. *)
From Stdlib Require Import List.
From stdpp Require Import gmap.
From S2P Require Import Prelude Effects.

(** graphics_mtk_defs.h *)
Definition HAL_PIXEL_FORMAT_I420 : Z := 0x32315659 + 0x10.
Definition HAL_PIXEL_FORMAT_YUV_PRIVATE : Z := 0x32315659 + 0x20.
Definition HAL_PIXEL_FORMAT_NV12_BLK : Z := 0x7F000001.
Definition HAL_PIXEL_FORMAT_NV12_BLK_FCM : Z := 0x7F000002.
Definition HAL_PIXEL_FORMAT_YUYV : Z := 0x10c.

(** The values of headers of Android, and the components of a 16-bit pixel as Skia expands them. *)
Class gfx_headers := {
  PIXEL_FORMAT_UNKNOWN : Z;
  HAL_PIXEL_FORMAT_RGBA_8888 : Z;
  HAL_PIXEL_FORMAT_RGBX_8888 : Z;
  HAL_PIXEL_FORMAT_RGB_888 : Z;
  HAL_PIXEL_FORMAT_RGB_565 : Z;
  HAL_PIXEL_FORMAT_BGRA_8888 : Z;
  HAL_PIXEL_FORMAT_YV12 : Z;
  INVALID_OPERATION : Z;
  SkPacked16ToR32 : Z -> Z;
  SkPacked16ToG32 : Z -> Z;
  SkPacked16ToB32 : Z -> Z;
  (* the formats below 0x100 are RGB, and all differ, as those of a switch do *)
  YV12_custom : 0x100 <= HAL_PIXEL_FORMAT_YV12;
  formats_distinct :
    NoDup [HAL_PIXEL_FORMAT_RGBA_8888; HAL_PIXEL_FORMAT_RGBX_8888; HAL_PIXEL_FORMAT_BGRA_8888; 0x1ff; HAL_PIXEL_FORMAT_RGB_888;
           HAL_PIXEL_FORMAT_RGB_565; HAL_PIXEL_FORMAT_YUYV; HAL_PIXEL_FORMAT_I420; HAL_PIXEL_FORMAT_NV12_BLK;
           HAL_PIXEL_FORMAT_NV12_BLK_FCM; HAL_PIXEL_FORMAT_YV12; HAL_PIXEL_FORMAT_YUV_PRIVATE]
}.

(** ui/gralloc_extra.h *)
Definition GRALLOC_EXTRA_OK : Z := 0.
Definition GRALLOC_EXTRA_NOT_SUPPORTED : Z := 2.
Definition GRALLOC_EXTRA_ERROR : Z := 7.
Definition GRALLOC_EXTRA_GET_WIDTH : Z := 10.
Definition GRALLOC_EXTRA_GET_HEIGHT : Z := 11.
Definition GRALLOC_EXTRA_GET_STRIDE : Z := 12.
Definition GRALLOC_EXTRA_GET_FORMAT : Z := 15.
Definition GRALLOC_EXTRA_GET_SF_INFO : Z := 100.

Definition GRALLOC_EXTRA_MAKE_BIT (start_bit index : Z) : Z := i32 (index ≪ start_bit).
Definition GRALLOC_EXTRA_MAKE_MASK (start_bit end_bit : Z) : Z :=
  u32 (((2 ^ 32 - 1) ≫ (4 * 8 - 1 - end_bit + start_bit)) ≪ start_bit).

(** A field of a status word: its first and last bit, and the values that have names. *)
Record status_field := mk_field { f_start : Z; f_end : Z; f_values : list Z }.
Definition f_mask (f : status_field) : Z := GRALLOC_EXTRA_MAKE_MASK (f_start f) (f_end f).

(** [sf_info.status]: type, colour format, secure, S3D, dirty, orientation, alpha, blending, dirty parameters, flush, colour space. *)
Definition GRALLOC_EXTRA_MASK_CM : Z := GRALLOC_EXTRA_MAKE_MASK 2 6.
Definition GRALLOC_EXTRA_BIT_CM_YV12 : Z := GRALLOC_EXTRA_MAKE_BIT 2 0.
Definition GRALLOC_EXTRA_BIT_CM_NV12_BLK : Z := GRALLOC_EXTRA_MAKE_BIT 2 5.
Definition GRALLOC_EXTRA_BIT_CM_NV12_BLK_FCM : Z := GRALLOC_EXTRA_MAKE_BIT 2 6.
Definition GRALLOC_EXTRA_MASK_YUV_COLORSPACE : Z := GRALLOC_EXTRA_MAKE_MASK 29 31.
Definition GRALLOC_EXTRA_BIT_YUV_BT601_NARROW : Z := GRALLOC_EXTRA_MAKE_BIT 29 1.
Definition status_fields : list status_field :=
  [mk_field 0 1 [0; 1; 2; 3];
   mk_field 2 6 [0; 1; 2; 3; 4; 5; 6; 7; 8; 9; 10; 11; 12; 13; 14; 15; 16; 17];
   mk_field 7 7 [0; 1];
   mk_field 8 9 [0; 1; 2];
   mk_field 10 11 [0; 3];
   mk_field 12 15 [];
   mk_field 16 23 [];
   mk_field 24 25 [];
   mk_field 26 26 [];
   mk_field 27 27 [0; 1];
   mk_field 29 31 [0; 1; 2; 3; 4; 5; 6]].
(** [sf_info.status2]: type of the layer, rotation, width of a video, picture quality of the interface and of a video. *)
Definition status2_fields : list status_field :=
  [mk_field 0 2 [0; 1]; mk_field 3 5 [0; 1; 2; 3; 4; 5; 6; 7]; mk_field 6 17 []; mk_field 18 18 [0; 1]; mk_field 19 19 [0; 1]].

(** [gralloc_extra_ion_sf_info_t] *)
Record crop := mk_crop { c_x : Z; c_y : Z; c_w : Z; c_h : Z }.
Record sf_info := mk_sf_info {
  sf_magic : Z; src_crop : crop; dst_crop : crop; sf_status : Z; sf_pool_id : Z; sf_sequence : Z; secure_handle_hwc : Z;
  sf_timestamp : Z; sf_status2 : Z; videobuffer_status : Z
}.
Definition sf_info0 : sf_info := mk_sf_info 0 (mk_crop 0 0 0 0) (mk_crop 0 0 0 0) 0 0 0 0 0 0 0.
Definition with_status (s : Z) (i : sf_info) : sf_info :=
  mk_sf_info (sf_magic i) (src_crop i) (dst_crop i) s (sf_pool_id i) (sf_sequence i) (secure_handle_hwc i) (sf_timestamp i)
    (sf_status2 i) (videobuffer_status i).
Definition with_status2 (s : Z) (i : sf_info) : sf_info :=
  mk_sf_info (sf_magic i) (src_crop i) (dst_crop i) (sf_status i) (sf_pool_id i) (sf_sequence i) (secure_handle_hwc i) (sf_timestamp i)
    s (videobuffer_status i).

(** ** Calls *)

(** The functions of [extra_device_t]. *)
Inductive extra_function := getIonFd | getBufInfo | getSecureBuffer | setBufParameter | getMVA | setBufInfo | query | perform.

(** Flags of gralloc: what is done with a buffer that is locked. *)
Inductive lock_usage := USAGE_SW_READ_OFTEN | LOCK_FOR_SW.

Inductive xcall :=
  | Chw_get_module
  | Cextra_open
  | Cfunction (device : Z) (f : extra_function) (* the pointer to it, NULL is 0 *)
  | Cdevice (device : Z) (f : extra_function) (args : list Z)
  (* GraphicBufferMapper *)
  | Clock (handle : Z) (usage : lock_usage) (width height : Z)
  | Cunlock (handle : Z)
  (* files *)
  | Cfopen (dir prefix : list Z) (handle width height stride : Z) (suffix : list Z)
  | Cfwrite (data : list Z)
  | Cfclose
  (* libpng *)
  | Cpng_create_write_struct
  | Cpng_create_info_struct
  | Cpng_init_io
  | Cpng_set_IHDR (width height bit_depth : Z) (alpha : bool)
  | Cpng_set_sBIT (red green blue alpha : Z)
  | Cpng_write_info
  | Cpng_set_filler
  | Cpng_write_row (row : list Z)
  | Cpng_write_end
  | Cpng_free_data
  | Cpng_destroy_write_struct.

(** What is returned, and what is stored through the pointer that is an argument, if anything. *)
Record xresp := mk_xresp { rv : Z; rdata : list Z }.

(** The device, once it was looked for (NULL is 0), and the memory of the buffer that is locked. *)
Record gfx := mk_gfx { mExtraDev : option Z; memory : list Z }.
Definition with_device (d : Z) (g : gfx) : gfx := mk_gfx (Some d) (memory g).
Definition with_memory (m : list Z) (g : gfx) : gfx := mk_gfx (mExtraDev g) m.

Section Extra.
Context `{headers : gfx_headers} (answer : list (xcall * xresp) -> xcall -> xresp).
Abbreviation IO := (io gfx xcall xresp).
Abbreviation sys := (io_call answer).

(** The singleton [GraphicBufferExtra]; its constructor runs when it is asked for first. *)
Definition new_GraphicBufferExtra : IO unit :=
  do err <- sys Chw_get_module;
  if rv err =? 0 then do o <- sys Cextra_open; io_mod (with_device (default 0 (aget (rdata o) 0)))
  else io_mod (with_device 0).
Definition get : IO Z :=
  do s <- io_get;
  do _ <- match mExtraDev s with Some _ => io_ret tt | None => new_GraphicBufferExtra end;
  do s <- io_get;
  io_ret (default 0 (mExtraDev s)).

(** [GRALLOC_EXTRA_IMPLEMENTATION_], and [query] and [perform], which return another error. *)
Definition extra_method (f : extra_function) (err : Z) (args : list Z) : IO (Z * list Z) :=
  do dev <- get;
  if dev =? 0 then io_ret (err, [])
  else
    do p <- sys (Cfunction dev f);
    if rv p =? 0 then io_ret (err, [])
    else do r <- sys (Cdevice dev f args); io_ret (rv r, rdata r).

Definition gralloc_extra_getIonFd (handle : Z) := extra_method getIonFd (-1) [handle].
Definition gralloc_extra_getSecureBuffer (handle : Z) := extra_method getSecureBuffer (-1) [handle].
Definition gralloc_extra_getBufInfo (handle : Z) := extra_method getBufInfo (-1) [handle].
Definition gralloc_extra_setBufParameter (handle mask value : Z) := extra_method setBufParameter (-1) [handle; mask; value].
Definition gralloc_extra_getMVA (handle : Z) := extra_method getMVA (-1) [handle].
Definition gralloc_extra_setBufInfo (handle : Z) (s : list Z) := extra_method setBufInfo (-1) (handle :: s).
Definition gralloc_extra_query (handle attribute : Z) := extra_method query (- GRALLOC_EXTRA_NOT_SUPPORTED) [handle; attribute].
Definition gralloc_extra_perform (handle attribute : Z) (pointer : list Z) :=
  extra_method perform (- GRALLOC_EXTRA_NOT_SUPPORTED) (handle :: attribute :: pointer).

Definition gralloc_extra_sf_set_int (data mask value : Z) : Z :=
  let new_status := data .& Z.lnot mask in new_status .| (value .& mask).
Definition gralloc_extra_sf_set_status (sf : sf_info) (mask value : Z) : sf_info :=
  with_status (gralloc_extra_sf_set_int (sf_status sf) (i32 mask) (i32 value)) sf.
Definition gralloc_extra_sf_set_status2 (sf : sf_info) (mask value : Z) : sf_info :=
  with_status2 (gralloc_extra_sf_set_int (sf_status2 sf) (i32 mask) (i32 value)) sf.

Definition sf_formats : list Z :=
  [HAL_PIXEL_FORMAT_YV12; HAL_PIXEL_FORMAT_I420; HAL_PIXEL_FORMAT_YUV_PRIVATE; HAL_PIXEL_FORMAT_NV12_BLK; HAL_PIXEL_FORMAT_NV12_BLK_FCM;
   HAL_PIXEL_FORMAT_YUYV].
(** A query that succeeds stores the format. *)
Definition gralloc_extra_sf_init (handle : Z) : IO (Z * sf_info) :=
  do r <- gralloc_extra_query handle GRALLOC_EXTRA_GET_FORMAT;
  do mv <- (if r.1 =? GRALLOC_EXTRA_OK then
              do format <- lift (aget r.2 0);
              io_ret (if existsb (Z.eqb format) sf_formats
                      then (i32 (0 .| GRALLOC_EXTRA_MASK_YUV_COLORSPACE), i32 (0 .| GRALLOC_EXTRA_BIT_YUV_BT601_NARROW)) else (0, 0))
            else io_ret (0, 0));
  io_ret (0, gralloc_extra_sf_set_status sf_info0 mv.1 mv.2).
End Extra.

(** ** The fields of a status word *)

Lemma u32_spec z i : 0 <= i -> Z.testbit (u32 z) i = (i <? 32) && Z.testbit z i.
Proof.
  intros Hi. unfold wrapu. destruct (Z.ltb_spec i 32); [by apply Z.mod_pow2_bits_low|apply Z.mod_pow2_bits_high; lia].
Qed.

Lemma i32_mod_u32 z : exists k, i32 z = u32 z + k * 2 ^ 32.
Proof.
  unfold wraps, wrapu. exists (z / 2 ^ 32 - (z + 2 ^ (32 - 1)) / 2 ^ 32).
  pose proof (Z.div_mod (z + 2 ^ (32 - 1)) (2 ^ 32)). pose proof (Z.div_mod z (2 ^ 32)). lia.
Qed.

Lemma i32_spec z i : 0 <= i < 32 -> Z.testbit (i32 z) i = Z.testbit z i.
Proof.
  intros Hi. destruct (i32_mod_u32 z) as [k E]. rewrite <- (Z.mod_pow2_bits_low (i32 z) 32), E by lia. unfold wrapu.
  rewrite Z.mod_add, Z.mod_mod, Z.mod_pow2_bits_low by lia. done.
Qed.

Lemma is_i32_bits z : (forall i, 32 <= i -> Z.testbit z i = Z.testbit z 31) -> is_i32 z.
Proof.
  intros Hz. enough (i32 z = z) as <- by apply i32_range. apply Z.bits_inj'. intros i Hi.
  destruct (decide (i < 32)); [by apply i32_spec|]. rewrite (Hz i) by lia. rewrite <- (i32_spec z 31) by lia.
  destruct (Z.bounded_iff_bits 31 (i32 z)) as [Hb _]; [lia|].
  specialize (Hb (i32_range z)). by rewrite !Hb by lia.
Qed.

(** A field: the bits from its first one. *)
Definition f_bits (f : status_field) : Z := f_end f - f_start f + 1.
Definition f_get (f : status_field) (status : Z) : Z := (u32 status .& f_mask f) ≫ f_start f.
Definition f_ok (f : status_field) : Prop := 0 <= f_start f <= f_end f /\ f_end f < 32.
#[export] Instance f_ok_dec f : Decision (f_ok f).
Proof. unfold f_ok. apply _. Defined.
Definition f_apart (f g : status_field) : Prop := f_end f < f_start g \/ f_end g < f_start f.

Lemma f_mask_spec f i : f_ok f -> 0 <= i -> Z.testbit (f_mask f) i = (f_start f <=? i) && (i <=? f_end f).
Proof.
  intros [Hf1 Hf2] Hi. unfold f_mask, GRALLOC_EXTRA_MAKE_MASK. rewrite u32_spec by done.
  destruct (Z.leb_spec (f_start f) i); [|rewrite Z.shiftl_spec_low, andb_false_r by lia; done].
  rewrite Z.shiftl_spec, Z.shiftr_spec by lia. change (2 ^ 32 - 1) with (Z.ones 32).
  rewrite Z.testbit_ones by lia. zcases; cbn; try done; lia.
Qed.

Lemma f_get_spec f status i : f_ok f -> 0 <= i -> Z.testbit (f_get f status) i = (i <? f_bits f) && Z.testbit status (i + f_start f).
Proof.
  intros Hf Hi. pose proof Hf as [Hf1 Hf2]. unfold f_get, f_bits. rewrite Z.shiftr_spec, Z.land_spec, f_mask_spec, u32_spec by (done || lia).
  zcases; cbn; rewrite ?andb_false_r, ?andb_true_r; try done; lia.
Qed.

Lemma set_int_spec data mask value i : 0 <= i ->
  Z.testbit (gralloc_extra_sf_set_int data mask value) i = if Z.testbit mask i then Z.testbit value i else Z.testbit data i.
Proof.
  intros Hi. unfold gralloc_extra_sf_set_int. rewrite Z.lor_spec, !Z.land_spec, Z.lnot_spec by done.
  destruct (Z.testbit mask i), (Z.testbit value i), (Z.testbit data i); done.
Qed.

Lemma is_i32_high z i : is_i32 z -> 32 <= i -> Z.testbit z i = Z.testbit z 31.
Proof. intros Hz Hi. destruct (Z.bounded_iff_bits 31 z) as [Hb _]; [lia|]. specialize (Hb Hz). by rewrite !Hb by lia. Qed.

Lemma set_int_i32 data mask value : is_i32 data -> is_i32 mask -> is_i32 value -> is_i32 (gralloc_extra_sf_set_int data mask value).
Proof.
  intros Hd Hm Hv. apply is_i32_bits. intros i Hi. rewrite !set_int_spec by lia.
  by rewrite (is_i32_high mask), (is_i32_high value), (is_i32_high data) by done.
Qed.

(** What is read from a field after it was set, and from another one. *)
Lemma get_set_int f v status : f_ok f -> 0 <= v < 2 ^ f_bits f ->
  f_get f (gralloc_extra_sf_set_int status (i32 (f_mask f)) (i32 (v ≪ f_start f))) = v.
Proof.
  intros Hf Hv. pose proof Hf as [Hf1 Hf2]. apply Z.bits_inj'. intros i Hi. rewrite f_get_spec by done.
  unfold f_bits in *. destruct (Z.ltb_spec i (f_end f - f_start f + 1)).
  - rewrite set_int_spec, !i32_spec, f_mask_spec by (done || lia). rewrite Z.shiftl_spec by lia.
    zcases; cbn; try lia. f_equal. lia.
  - symmetry. rewrite <- (Z.mod_small v (2 ^ (f_end f - f_start f + 1))) by done. by rewrite Z.mod_pow2_bits_high by lia.
Qed.
Lemma get_set_int_other f g v status : f_ok f -> f_ok g -> f_apart f g ->
  f_get g (gralloc_extra_sf_set_int status (i32 (f_mask f)) v) = f_get g status.
Proof.
  intros Hf Hg Ha. pose proof Hg as [Hg1 Hg2]. apply Z.bits_inj'. intros i Hi. rewrite !f_get_spec by done. unfold f_bits.
  destruct (Z.ltb_spec i (f_end g - f_start g + 1)); [|done]. cbn. rewrite set_int_spec, i32_spec, f_mask_spec by (done || lia).
  unfold f_apart in Ha. zcases; cbn; try done; lia.
Qed.

#[export] Instance status_field_eq_dec : EqDecision status_field.
Proof. solve_decision. Defined.

(** A word of fields: they are fields, apart from one another, and have room for the values that have names. *)
Definition layout_ok (l : list status_field) : Prop :=
  forall f, f ∈ l -> f_ok f /\ (forall g, g ∈ l -> g <> f -> f_apart f g) /\ forall v, v ∈ f_values f -> 0 <= v < 2 ^ f_bits f.
Definition layout_check (l : list status_field) : bool :=
  forallb (fun f => bool_decide (f_ok f) && forallb (fun g => bool_decide (g = f) || (f_end f <? f_start g) || (f_end g <? f_start f)) l
                    && forallb (fun v => (0 <=? v) && (v <? 2 ^ f_bits f)) (f_values f)) l.
Lemma layout_sound l : layout_check l = true -> layout_ok l.
Proof.
  unfold layout_check, layout_ok. rewrite forallb_forall. intros H f Hf%list_elem_of_In. specialize (H f Hf).
  rewrite !andb_true_iff, !forallb_forall in H. destruct H as [[H1 H2] H3]. apply bool_decide_eq_true in H1. split_and!; [done| |].
  - intros g Hg%list_elem_of_In Hgf. specialize (H2 g Hg). unfold f_apart. rewrite !orb_true_iff, bool_decide_eq_true in H2.
    destruct H2 as [[->|?]|?]; [done|lia..].
  - intros v Hv%list_elem_of_In. specialize (H3 v Hv). cbn beta in H3. lia.
Qed.
Lemma status_layout : layout_ok status_fields.
Proof. by apply layout_sound. Qed.
Lemma status2_layout : layout_ok status2_fields.
Proof. by apply layout_sound. Qed.

(** Setting one field. *)
Definition only_field_set (l : list status_field) (f : status_field) (v old new : Z) : Prop :=
  f_get f new = v /\ (forall g, g ∈ l -> g <> f -> f_get g new = f_get g old) /\ is_i32 new.
Lemma set_one l f v old : layout_ok l -> f ∈ l -> 0 <= v < 2 ^ f_bits f -> is_i32 old ->
  only_field_set l f v old (gralloc_extra_sf_set_int old (i32 (f_mask f)) (i32 (v ≪ f_start f))).
Proof.
  intros Hl Hf Hv Ho. destruct (Hl f Hf) as (H1 & H2 & _). split_and!; [by apply get_set_int| |].
  - intros g Hg Hgf. apply get_set_int_other; [done|by apply (Hl g)|by apply H2].
  - apply set_int_i32; [done|apply i32_range..].
Qed.

(** Every field of the status words of a buffer can be set on its own: what was set is read back (a value that has a name fits its
    field, and any value that fits may be set), the other fields of both words and the rest of the information keep their values,
    and the words stay 32-bit integers. *)
Theorem sf_status_fields (sf : sf_info) (f : status_field) (v : Z) :
  is_i32 (sf_status sf) -> is_i32 (sf_status2 sf) -> 0 <= v < 2 ^ f_bits f ->
  (f ∈ status_fields ->
   let sf' := gralloc_extra_sf_set_status sf (f_mask f) (v ≪ f_start f) in
   only_field_set status_fields f v (sf_status sf) (sf_status sf') /\ with_status (sf_status sf) sf' = sf) /\
  (f ∈ status2_fields ->
   let sf' := gralloc_extra_sf_set_status2 sf (f_mask f) (v ≪ f_start f) in
   only_field_set status2_fields f v (sf_status2 sf) (sf_status2 sf') /\ with_status2 (sf_status2 sf) sf' = sf) /\
  (f ∈ status_fields ++ status2_fields -> forall x, x ∈ f_values f -> 0 <= x < 2 ^ f_bits f).
Proof.
  intros H1 H2 Hv. split_and!.
  - intros Hf. split; [by apply set_one; [apply status_layout|..]|by destruct sf].
  - intros Hf. split; [by apply set_one; [apply status2_layout|..]|by destruct sf].
  - intros [Hf|Hf]%elem_of_app; [apply (status_layout f Hf)|apply (status2_layout f Hf)].
Qed.

Lemma sf_status_fields_witness :
  let sf := gralloc_extra_sf_set_status (with_status (-1) sf_info0) (f_mask (mk_field 29 31 [0; 1; 2; 3; 4; 5; 6])) (5 ≪ 29) in
  f_get (mk_field 29 31 [0; 1; 2; 3; 4; 5; 6]) (sf_status sf) = 5 /\ f_get (mk_field 16 23 []) (sf_status sf) = 255.
Proof.
  set (f := mk_field 29 31 [0; 1; 2; 3; 4; 5; 6]).
  destruct (sf_status_fields (with_status (-1) sf_info0) f 5) as [[(E1 & E2 & _) _] _]; [done|done|done| |].
  - by_compute.
  - split; [exact E1|]. rewrite E2; [done|by_compute|done].
Defined.
