(* ===== verification/GfxBuffer.v ===== *)
(** The tools for graphic buffers: src/mediatek/graphics/ui_ext/lib/GraphicBufferUtil.cpp, on GfxExtra.v.

    A buffer that is locked is the list of its bytes; the addresses of the code are offsets in it. What the code reads or
    writes outside of it, or through NULL, is undefined. *)
From Stdlib Require Import String List.
From stdpp Require Import gmap.
From S2P Require Import Prelude Effects GfxExtra.

Definition NO_ERROR : Z := 0.
(** The members that a constructor leaves uninitialised are [None]. *)
Record BufferInfo := mk_info { mErr : Z; mWidth : option Z; mHeight : option Z; mStride : option Z; mFormat : option Z; mHandle : option Z }.
Definition BufferInfo0 : BufferInfo := mk_info NO_ERROR None None None None None.

Record GraphicBuffer := mk_buffer { gb_handle : Z; gb_width : Z; gb_height : Z; gb_stride : Z; gb_format : Z }.

Definition ALIGN_CEIL (x a : Z) : Z := (x + a - 1) .& Z.lnot (a - 1).

(** What [dump] decides by the format: the suffix of the file, whether the height is aligned to
    32 rows, whether the data is written as it is, and the two ways of an image. *)
Record dump_way := mk_way { suffix : list Z; aligned : bool; isRaw : bool; is565 : bool; stripAlpha : bool }.

Section Util.
Context `{headers : gfx_headers} (answer : list (xcall * xresp) -> xcall -> xresp).
Abbreviation IO := (io gfx xcall xresp).
Abbreviation sys := (io_call answer).

Definition getBitsPerPixel (format : Z) : Z :=
  if existsb (Z.eqb format) [HAL_PIXEL_FORMAT_RGBA_8888; HAL_PIXEL_FORMAT_RGBX_8888; HAL_PIXEL_FORMAT_BGRA_8888; 0x1ff] then 32
  else if format =? HAL_PIXEL_FORMAT_RGB_888 then 24
  else if existsb (Z.eqb format) [HAL_PIXEL_FORMAT_RGB_565; HAL_PIXEL_FORMAT_YUYV] then 16
  else if existsb (Z.eqb format) [HAL_PIXEL_FORMAT_I420; HAL_PIXEL_FORMAT_NV12_BLK; HAL_PIXEL_FORMAT_NV12_BLK_FCM; HAL_PIXEL_FORMAT_YV12;
                                  HAL_PIXEL_FORMAT_YUV_PRIVATE] then 12
  else 32.

Definition getBitsPerPixel_handle (handle : Z) : IO Z :=
  do r <- gralloc_extra_query answer handle GRALLOC_EXTRA_GET_FORMAT;
  io_ret (if r.1 =? GRALLOC_EXTRA_OK then getBitsPerPixel (default 0 (aget r.2 0)) else 0).

(** [getRealFormat]: the error, and the format that is stored; [format] is what the pointer points to, [None] if it is NULL. *)
Definition sf_info_status : Z := 9.
Definition getRealFormat (handle : Z) (format : option Z) : IO (Z * option Z) :=
  if handle =? 0 then io_ret (GRALLOC_EXTRA_ERROR, format)
  else match format with
  | None => io_ret (GRALLOC_EXTRA_ERROR, None)
  | Some f =>
    do r <- gralloc_extra_query answer handle GRALLOC_EXTRA_GET_FORMAT;
    let f := default f (aget r.2 0) in
    if negb (r.1 =? GRALLOC_EXTRA_OK) then io_ret (r.1, Some f)
    else if f =? HAL_PIXEL_FORMAT_YUV_PRIVATE then
      do r <- gralloc_extra_query answer handle GRALLOC_EXTRA_GET_SF_INFO;
      if negb (r.1 =? GRALLOC_EXTRA_OK) then io_ret (r.1, Some f)
      else
        do status <- lift (aget r.2 sf_info_status);
        let cm := u32 status .& GRALLOC_EXTRA_MASK_CM in
        io_ret (if cm =? GRALLOC_EXTRA_BIT_CM_YV12 then (GRALLOC_EXTRA_OK, Some HAL_PIXEL_FORMAT_YV12)
                else if cm =? GRALLOC_EXTRA_BIT_CM_NV12_BLK then (GRALLOC_EXTRA_OK, Some HAL_PIXEL_FORMAT_NV12_BLK)
                else if cm =? GRALLOC_EXTRA_BIT_CM_NV12_BLK_FCM then (GRALLOC_EXTRA_OK, Some HAL_PIXEL_FORMAT_NV12_BLK_FCM)
                else (GRALLOC_EXTRA_ERROR, Some f))
    else io_ret (r.1, Some f)
  end.

(** A query stores what it finds; what it does not store stays as it is. *)
Definition query_into (handle attribute : Z) (old : option Z) : IO (Z * option Z) :=
  do r <- gralloc_extra_query answer handle attribute;
  io_ret (r.1, match aget r.2 0 with Some v => Some v | None => old end).

Definition getInfo (handle : Z) (i : BufferInfo) : IO (Z * BufferInfo) :=
  do w <- query_into handle GRALLOC_EXTRA_GET_WIDTH (mWidth i);
  do h <- query_into handle GRALLOC_EXTRA_GET_HEIGHT (mHeight i);
  do s <- query_into handle GRALLOC_EXTRA_GET_STRIDE (mStride i);
  do f <- query_into handle GRALLOC_EXTRA_GET_FORMAT (mFormat i);
  do r <- getRealFormat handle (Some PIXEL_FORMAT_UNKNOWN);
  let err := w.1 .| h.1 .| s.1 .| f.1 .| r.1 in
  io_ret (err, mk_info err w.2 h.2 s.2 (if r.1 =? GRALLOC_EXTRA_OK then r.2 else f.2) (Some handle)).

Definition getInfo_buffer (gb : GraphicBuffer) (i : BufferInfo) : IO (Z * BufferInfo) :=
  do r <- getInfo (gb_handle gb) i;
  io_ret (if negb (r.1 =? NO_ERROR) then
            (NO_ERROR, mk_info NO_ERROR (Some (i32 (gb_width gb))) (Some (i32 (gb_height gb))) (Some (i32 (gb_stride gb))) (Some (gb_format gb)) (Some (gb_handle gb)))
          else r).

(** ** The memory of the buffer *)
Definition memset (ptr off val n : Z) : IO unit :=
  if n =? 0 then io_ret tt
  else if ptr =? 0 then undefined
  else io_pure (fun g =>
    if (0 <=? off) && (off + n <=? zlen (memory g))
    then Some (tt, with_memory (take (Z.to_nat off) (memory g) ++ replicate (Z.to_nat n) val ++ drop (Z.to_nat (off + n)) (memory g)) g)
    else None).

Definition slice (m : list Z) (off n : Z) : option (list Z) :=
  if (0 <=? off) && (off + n <=? zlen m) then Some (take (Z.to_nat n) (drop (Z.to_nat off) m)) else None.

(** ** drawLine *)

Fixpoint fill_rows (rows : nat) (ptr off val n pitch : Z) : IO unit :=
  match rows with
  | O => io_ret tt
  | S rows => memset ptr off val n;; fill_rows rows ptr (off + pitch) val n pitch
  end.

(** [log2] of a number that is not positive is not a number, and not an integer. *)
Definition log2_5 (ptn : Z) : option Z := if 0 <? ptn then Some (if 5 <? Z.log2 ptn then 5 else Z.log2 ptn) else None.

Definition drawLine (info : BufferInfo) (val ptn_w ptn_h pos : Z) : IO Z :=
  do width <- lift (mWidth info);
  do height <- lift (mHeight info);
  do stride <- lift (mStride info);
  do handle <- lift (mHandle info);
  do format <- lift (mFormat info);
  let width := u32 width in
  let height := u32 height in
  let stride := u32 stride in
  let ptn_w := if ptn_w =? 0 then 1 else ptn_w in
  let ptn_h := if ptn_h =? 0 then 1 else ptn_h in
  do log_w <- lift (log2_5 ptn_w);
  let line_w := 2 ^ log_w in
  do log_h <- lift (log2_5 ptn_h);
  let line_h := 2 ^ log_h in
  do r <- sys (Clock handle LOCK_FOR_SW width height);
  do _ <- (if rv r =? NO_ERROR then
             do ptr <- lift (aget (rdata r) 0);
             let bits := if format <? 0x100 then getBitsPerPixel format else 8 in
             if ptn_w =? 1 then
               let pos := i32 (u32 pos .& (line_h - 1)) in
               let bsize := (u32 (u32 (stride * height) * bits) ≫ 3) ≫ log_h in
               memset ptr (u32 (bsize * pos)) val bsize
             else
               let block_w := width ≫ log_w in
               let block_h := height ≫ log_h in
               let pos_x := u32 pos .& (line_w - 1) in
               let pos_y := (u32 pos / line_w) .& (line_h - 1) in
               let block_w := u32 (block_w * bits) ≫ 3 in
               let off := u32 ((u32 (u32 (u32 (stride * pos_y) * block_h) * bits) ≫ 3) + u32 (block_w * pos_x)) in
               fill_rows (Z.to_nat block_h) ptr off val block_w (u32 (stride * bits) ≫ 3)
           else io_ret tt);
  do _ <- sys (Cunlock handle);
  io_ret NO_ERROR.

Definition drawLine_buffer (gb : option GraphicBuffer) (val ptn_w ptn_h pos : Z) : IO Z :=
  match gb with
  | None => io_ret INVALID_OPERATION
  | Some gb => do r <- getInfo_buffer gb BufferInfo0; drawLine r.2 val ptn_w ptn_h pos
  end.
Definition drawLine_handle (handle val ptn_w ptn_h pos : Z) : IO Z :=
  if handle =? 0 then io_ret INVALID_OPERATION
  else do r <- getInfo handle BufferInfo0; drawLine r.2 val ptn_w ptn_h pos.

(** ** dump *)

Definition way_of (format : Z) : option dump_way :=
  if format =? HAL_PIXEL_FORMAT_RGBA_8888 then Some (mk_way (str ".png") false false false false)
  else if format =? HAL_PIXEL_FORMAT_RGBX_8888 then Some (mk_way (str ".png") false false false true)
  else if format =? HAL_PIXEL_FORMAT_BGRA_8888 then Some (mk_way (str "(RBswapped).png") false false false false)
  else if format =? 0x1ff then Some (mk_way (str "(RBswapped).png") false false false true)
  else if format =? HAL_PIXEL_FORMAT_RGB_565 then Some (mk_way (str ".png") false false true true)
  else if format =? HAL_PIXEL_FORMAT_I420 then Some (mk_way (str ".i420") false true false false)
  else if format =? HAL_PIXEL_FORMAT_NV12_BLK then Some (mk_way (str ".nv12_blk") true true false false)
  else if format =? HAL_PIXEL_FORMAT_NV12_BLK_FCM then Some (mk_way (str ".nv12_blk_fcm") true true false false)
  else if format =? HAL_PIXEL_FORMAT_YV12 then Some (mk_way (str ".yv12") false true false false)
  else if format =? HAL_PIXEL_FORMAT_YUYV then Some (mk_way (str ".yuyv") false true false false)
  else if format =? HAL_PIXEL_FORMAT_RGB_888 then Some (mk_way (str ".RGB") false true false false)
  else None.

(** The size of the data that is written as it is: the planes of YV12 are padded to 16 bytes. *)
Definition raw_size (format stride height bits : Z) : Z :=
  if format =? HAL_PIXEL_FORMAT_YV12 then
    let remainder := (stride / 2) mod 16 in
    let remainder := if negb (remainder =? 0) then u32 (16 - remainder) else remainder in
    u32 ((u32 (u32 (stride * u32 height) * bits) ≫ 3) + u32 (remainder * u32 height))
  else u32 (u32 (stride * u32 height) * bits) ≫ 3.

(** A call of [png_write_rows] reads the four bytes of each of the pixels of the image. *)
Fixpoint convert565 (n : nat) (m : list Z) (in_ wptr : Z) (tmp : list Z) : option (list Z * Z) :=
  match n with
  | O => Some (tmp, in_)
  | S n =>
    c0 ← aget m in_; c1 ← aget m (in_ + 1);
    let c := c0 + 256 * c1 in
    tmp ← aset tmp wptr (u8 (SkPacked16ToR32 c));
    tmp ← aset tmp (wptr + 1) (u8 (SkPacked16ToG32 c));
    tmp ← aset tmp (wptr + 2) (u8 (SkPacked16ToB32 c));
    tmp ← aset tmp (wptr + 3) 255;
    convert565 n m (in_ + 2) (wptr + 4) tmp
  end.
Fixpoint write565_rows (rows : nat) (width : Z) (in_ : Z) (tmp : list Z) : IO unit :=
  match rows with
  | O => io_ret tt
  | S rows =>
    do g <- io_get;
    do c <- lift (convert565 (Z.to_nat width) (memory g) in_ 0 tmp);
    do row <- lift (slice c.1 0 (width * 4));
    do _ <- sys (Cpng_write_row row);
    write565_rows rows width c.2 c.1
  end.
Definition write565Data (width height : Z) : IO unit :=
  write565_rows (Z.to_nat height) width 0 (replicate (Z.to_nat (u32 (width * 4))) 0).

Fixpoint write_rows (rows : nat) (width : Z) (in_ : Z) : IO unit :=
  match rows with
  | O => io_ret tt
  | S rows =>
    do g <- io_get;
    do row <- lift (slice (memory g) in_ (width * 4));
    do _ <- sys (Cpng_write_row row);
    write_rows rows width (in_ + u32 (width * 4))
  end.
Definition writeData (width height : Z) : IO unit := write_rows (Z.to_nat height) width 0.

(** From the first call of libpng on: what is to be destroyed, [png_ptr] and [info_ptr]. *)
Definition dump_png (way : dump_way) (stride height dumpHeight : Z) : IO (bool * bool) :=
  do p <- sys Cpng_create_write_struct;
  if rv p =? 0 then io_ret (false, false)
  else
    do i <- sys Cpng_create_info_struct;
    if rv i =? 0 then io_ret (true, false)
    else
      do _ <- sys Cpng_init_io;
      do _ <- sys (Cpng_set_IHDR stride (u32 dumpHeight) 8 (negb (stripAlpha way)));
      do _ <- sys (if is565 way then Cpng_set_sBIT 5 6 5 0 else Cpng_set_sBIT 8 8 8 8);
      do _ <- sys Cpng_write_info;
      do _ <- (if stripAlpha way then do _ <- sys Cpng_set_filler; io_ret tt else io_ret tt);
      do _ <- (if is565 way then write565Data stride height else writeData stride height);
      do _ <- sys Cpng_write_end;
      io_ret (true, true).

Definition dump_to (way : dump_way) (format stride height dumpHeight : Z) : IO (bool * bool) :=
  if isRaw way then
    do g <- io_get;
    do data <- lift (slice (memory g) 0 (raw_size format stride dumpHeight (getBitsPerPixel format)));
    do _ <- sys (Cfwrite data);
    io_ret (false, false)
  else dump_png way stride height dumpHeight.

Definition or_default (s : option (list Z)) (d : list Z) : list Z := match s with None | Some [] => d | Some s => s end.

Definition dump (info : BufferInfo) (prefix dir : option (list Z)) : IO unit :=
  do width <- lift (mWidth info);
  do height <- lift (mHeight info);
  do stride <- lift (mStride info);
  do handle <- lift (mHandle info);
  do format <- lift (mFormat info);
  let width := u32 width in
  let height := u32 height in
  let stride := u32 stride in
  match way_of format with
  | None => io_ret tt
  | Some way =>
    let dumpHeight := i32 (if aligned way then ALIGN_CEIL height 32 else height) in
    do l <- sys (Clock handle USAGE_SW_READ_OFTEN width height);
    do _ <- (if rv l =? NO_ERROR then
               do ptr <- lift (aget (rdata l) 0);
               if ptr =? 0 then io_ret tt
               else
                 do f <- sys (Cfopen (or_default dir (str "/data/")) (or_default prefix []) handle width height stride (suffix way));
                 if rv f =? 0 then io_ret tt
                 else
                   do r <- dump_to way format stride height dumpHeight;
                   do _ <- sys Cfclose;
                   do _ <- (if r.2 then do _ <- sys Cpng_free_data; io_ret tt else io_ret tt);
                   if r.1 then do _ <- sys Cpng_destroy_write_struct; io_ret tt else io_ret tt
             else io_ret tt);
    do _ <- sys (Cunlock handle);
    io_ret tt
  end.

Definition dump_buffer (gb : option GraphicBuffer) (prefix dir : option (list Z)) : IO unit :=
  match gb with
  | None => io_ret tt
  | Some gb => do r <- getInfo_buffer gb BufferInfo0; dump r.2 prefix dir
  end.
Definition dump_handle (handle : Z) (prefix dir : option (list Z)) : IO unit :=
  if handle =? 0 then io_ret tt
  else do r <- getInfo handle BufferInfo0; dump r.2 prefix dir.
End Util.

(** ** Painting *)

(** [m'] is [m] with [val] at the places of [P]. *)
Definition painted_by (P : Z -> Prop) (val : Z) (m m' : list Z) : Prop :=
  zlen m' = zlen m /\ forall k, (P k -> aget m' k = Some val) /\ (~ P k -> aget m' k = aget m k).

Lemma painted_none P val m : (forall k, ~ P k) -> painted_by P val m m.
Proof. intros HP. split; [done|]. intros k. by specialize (HP k). Qed.

Lemma painted_iff P Q val m m' : (forall k, P k <-> Q k) -> painted_by P val m m' -> painted_by Q val m m'.
Proof. intros E [Hl Hk]. split; [done|]. intros k. by rewrite <- !E. Qed.

Lemma painted_or P a b Q val m m1 m2 : (forall k, Q k <-> a <= k < b \/ P k) ->
  painted_by (fun k => a <= k < b) val m m1 -> painted_by P val m1 m2 -> painted_by Q val m m2.
Proof.
  intros E [H1 K1] [H2 K2]. split; [lia|]. intros k. rewrite E. specialize (K1 k) as [K1 K1']. specialize (K2 k) as [K2 K2'].
  split; [|intros Hn; rewrite K2' by tauto; apply K1'; tauto].
  intros Hq. destruct (decide (aget m2 k = Some val)) as [|Hv]; [done|]. assert (~ P k) as Hp by auto.
  rewrite K2' in Hv by done. destruct Hv. apply K1. tauto.
Qed.

Lemma aget_cat {A} (l1 l2 : list A) k : 0 <= k -> aget (l1 ++ l2) k = if k <? zlen l1 then aget l1 k else aget l2 (k - zlen l1).
Proof.
  unfold aget, zlen. intros Hk. rewrite (proj2 (Z.leb_le 0 k)) by done. destruct (Z.ltb_spec k (Z.of_nat (List.length l1))).
  - apply lookup_app_l. lia.
  - rewrite (proj2 (Z.leb_le 0 _)), lookup_app_r by lia. f_equal. lia.
Qed.

Lemma painted_interval off n val m : 0 <= off -> 0 <= n -> off + n <= zlen m ->
  painted_by (fun k => off <= k < off + n) val m
    (take (Z.to_nat off) m ++ replicate (Z.to_nat n) val ++ drop (Z.to_nat (off + n)) m).
Proof.
  unfold painted_by, zlen. intros Ho Hn Hm. rewrite !length_app, length_take, length_replicate, length_drop. split; [lia|].
  intros k. destruct (Z.ltb_spec k 0); [split; [lia|]; intros _; rewrite !aget_out by (left; lia); done|].
  assert (zlen (take (Z.to_nat off) m) = off) as E1 by (unfold zlen; rewrite length_take; lia).
  assert (zlen (replicate (Z.to_nat n) val) = n) as E2 by (unfold zlen; rewrite length_replicate; lia).
  rewrite aget_cat, E1 by done. destruct (Z.ltb_spec k off).
  { split; [lia|]. intros _. unfold aget. rewrite (proj2 (Z.leb_le 0 k)) by done. apply lookup_take_lt. lia. }
  rewrite aget_cat, E2 by lia. unfold aget. rewrite !(proj2 (Z.leb_le 0 k)) by done.
  destruct (Z.ltb_spec (k - off) n); split; [|lia..|]; intros Hk.
  - rewrite (proj2 (Z.leb_le 0 _)) by lia. apply lookup_replicate_2. lia.
  - rewrite (proj2 (Z.leb_le 0 _)), lookup_drop by lia. f_equal. lia.
Qed.

Section Painting.
Context `{headers : gfx_headers} (answer : list (xcall * xresp) -> xcall -> xresp).
Abbreviation W := (world gfx xcall xresp).

(** What paints, calls nothing and changes nothing else. *)
Definition paints (P : Z -> Prop) (val : Z) (w w' : W) : Prop :=
  trace w' = trace w /\ mExtraDev (globals w') = mExtraDev (globals w) /\ painted_by P val (memory (globals w)) (memory (globals w')).

Lemma wp_memset ptr off val n (w : W) : ptr <> 0 -> 0 <= off -> 0 <= n -> off + n <= zlen (memory (globals w)) ->
  wp (memset ptr off val n) (fun _ w' => paints (fun k => off <= k < off + n) val w w') w.
Proof.
  intros Hp Ho Hn Hm. unfold memset. destruct (Z.eqb_spec n 0).
  { apply wp_ret. split_and!; [done..|]. apply painted_none. lia. }
  rewrite (proj2 (Z.eqb_neq ptr 0)) by done. eapply wp_pure.
  - cbn beta. by rewrite (proj2 (Z.leb_le 0 off)), (proj2 (Z.leb_le (off + n) _)) by lia.
  - split_and!; [done..|]. by apply painted_interval.
Qed.

Lemma wp_fill_rows ptr val n pitch rows : ptr <> 0 -> 0 <= n -> 0 <= pitch -> forall off (w : W), 0 <= off ->
  (rows <> O -> off + (Z.of_nat rows - 1) * pitch + n <= zlen (memory (globals w))) ->
  wp (fill_rows rows ptr off val n pitch)
    (fun _ w' => paints (fun k => exists j, 0 <= j < Z.of_nat rows /\ off + j * pitch <= k < off + j * pitch + n) val w w') w.
Proof.
  intros Hp Hn Hq. induction rows as [|rows IH]; intros off w Ho Hm; cbn [fill_rows].
  { apply wp_ret. split_and!; [done..|]. apply painted_none. intros k (j & Hj & _). lia. }
  specialize (Hm ltac:(done)). apply wp_bind. eapply wp_mono; [apply wp_memset; [done..|nia]|]. cbn beta. intros _ w1 (T1 & D1 & P1).
  eapply wp_mono; [apply IH; [lia|]|].
  { intros Hr. destruct P1 as [-> _]. nia. }
  cbn beta. intros _ w2 (T2 & D2 & P2). split_and!; [congruence..|]. eapply painted_or; [|exact P1|exact P2].
  intros k. split.
  - intros (j & Hj & Hk). destruct (decide (j = 0)) as [->|]; [left; lia|]. right. exists (j - 1). split; [lia|]. lia.
  - intros [Hk|(j & Hj & Hk)]; [exists 0; lia|]. exists (j + 1). lia.
Qed.

(** ** What a line is

    [ptn_h] asks for the plane to be split, in a power of two of parts, 32 at most; [ptn_w] for the columns. *)
Definition parts (ptn : Z) : Z := 2 ^ Z.min 5 (Z.log2 (Z.max 1 ptn)).
(** The bytes of a pixel; a format of the vendor counts as one byte. *)
Definition pixel_bytes (format : Z) : Z := if format <? 0x100 then getBitsPerPixel format / 8 else 1.

(** With one column, the part [pos] of the bytes of the plane; otherwise the block [pos], counting rows of blocks, of the
    pixels of the image. *)
Definition line (width height stride format ptn_w ptn_h pos : Z) (k : Z) : Prop :=
  let bytes := pixel_bytes format in
  if ptn_w <=? 1 then
    let size := stride * height * bytes / parts ptn_h in
    let part := pos mod parts ptn_h in
    size * part <= k < size * (part + 1)
  else
    let block_w := width / parts ptn_w in
    let block_h := height / parts ptn_h in
    let column := pos mod parts ptn_w in
    let row := (pos / parts ptn_w) mod parts ptn_h in
    exists x y, k = (y * stride) * bytes + x /\ block_h * row <= y < block_h * (row + 1) /\
      block_w * column * bytes <= x < block_w * (column + 1) * bytes.

Lemma bits_bytes format : (if format <? 0x100 then getBitsPerPixel format else 8) = 8 * pixel_bytes format /\ 1 <= pixel_bytes format <= 4.
Proof.
  unfold pixel_bytes. destruct (Z.ltb_spec format 0x100) as [Hf|]; [|lia]. unfold getBitsPerPixel.
  destruct (existsb _ _); [by compute|]. destruct (format =? _); [by compute|]. destruct (existsb _ _); [by compute|].
  pose proof YV12_custom. cbn [existsb].
  rewrite !(proj2 (Z.eqb_neq _ _)); [by compute|..]; unfold HAL_PIXEL_FORMAT_YUV_PRIVATE, HAL_PIXEL_FORMAT_NV12_BLK, HAL_PIXEL_FORMAT_NV12_BLK_FCM, HAL_PIXEL_FORMAT_I420; lia.
Qed.

Lemma log2_5_ok ptn : 0 <= ptn -> exists l, log2_5 (if ptn =? 0 then 1 else ptn) = Some l /\ parts ptn = 2 ^ l /\ 0 <= l <= 5.
Proof.
  intros Hp. unfold log2_5, parts. exists (Z.min 5 (Z.log2 (Z.max 1 ptn))). pose proof (Z.log2_nonneg (Z.max 1 ptn)).
  split_and!; [|done|lia..]. destruct (Z.eqb_spec ptn 0) as [->|]; [done|]. rewrite (Z.max_r 1 ptn), (proj2 (Z.ltb_lt 0 ptn)) by lia.
  f_equal. zcases; lia.
Qed.

Lemma land_parts z l : 0 <= l <= 5 -> u32 z .& (2 ^ l - 1) = z mod 2 ^ l.
Proof.
  intros Hl. replace (2 ^ l - 1) with (Z.ones l) by (rewrite Z.ones_equiv; lia). rewrite Z.land_ones by lia.
  apply Z.bits_inj'. intros i Hi. destruct (decide (i < l)).
  - by rewrite !Z.mod_pow2_bits_low, u32_spec, (proj2 (Z.ltb_lt i 32)) by lia.
  - by rewrite !Z.mod_pow2_bits_high by lia.
Qed.

Lemma land_parts_row z l m : 0 <= l <= 5 -> 0 <= m <= 5 -> (u32 z / 2 ^ l) .& (2 ^ m - 1) = (z / 2 ^ l) mod 2 ^ m.
Proof.
  intros Hl Hm. replace (2 ^ m - 1) with (Z.ones m) by (rewrite Z.ones_equiv; lia). rewrite Z.land_ones by lia.
  apply Z.bits_inj'. intros i Hi. destruct (decide (i < m)).
  - rewrite !Z.mod_pow2_bits_low, !Z.div_pow2_bits, u32_spec by lia. by rewrite (proj2 (Z.ltb_lt _ 32)) by lia.
  - by rewrite !Z.mod_pow2_bits_high by lia.
Qed.

Lemma shiftr_bytes a b : (a * (8 * b)) ≫ 3 = a * b.
Proof. rewrite Z.shiftr_div_pow2 by lia. change (2 ^ 3) with 8. replace (a * (8 * b)) with (a * b * 8) by lia. by rewrite Z.div_mul. Qed.

(** A buffer: what [getInfo] finds of one. *)
Definition is_buffer (info : BufferInfo) (width height stride format handle : Z) : Prop :=
  mWidth info = Some width /\ mHeight info = Some height /\ mStride info = Some stride /\ mFormat info = Some format /\
  mHandle info = Some handle /\ 0 <= width <= stride /\ 0 < height < 2 ^ 31 /\ stride * height * 32 < 2 ^ 32.

Section Line.
Context (width height stride format ptn_w ptn_h pos val ptr : Z) (w : W).
Context (Hw : 0 <= width <= stride) (Hh : 0 < height < 2 ^ 31) (Hs : stride * height * 32 < 2 ^ 32).
Context (Hm : stride * height * pixel_bytes format <= zlen (memory (globals w))) (Hp : ptr <> 0) (lw lh : Z).
Context (Hlw : 0 <= lw <= 5) (Hlh : 0 <= lh <= 5).
Abbreviation B := (pixel_bytes format).

Lemma line_plane :
  let size := (u32 (u32 (stride * height) * (8 * B)) ≫ 3) ≫ lh in
  wp (memset ptr (u32 (size * i32 (pos mod 2 ^ lh))) val size)
    (fun _ w' => paints (fun k => stride * height * B / 2 ^ lh * (pos mod 2 ^ lh) <= k
                                  < stride * height * B / 2 ^ lh * (pos mod 2 ^ lh + 1)) val w w') w.
Proof using Hw Hh Hs Hm Hp Hlh.
  cbv zeta. pose proof (bits_bytes format) as [_ HB]. assert (0 <= stride * height) by nia.
  assert (0 <= stride * height * (8 * B) < 2 ^ 32) by (split; [nia|]; apply (Z.le_lt_trans _ (stride * height * 32)); nia).
  rewrite (wrapu_small 32 (stride * height)), (wrapu_small 32 (_ * (8 * B))) by (done || lia).
  rewrite shiftr_bytes, Z.shiftr_div_pow2 by lia.
  assert (0 < 2 ^ lh <= 32) as Hl by (split; [lia|]; change 32 with (2 ^ 5); apply Z.pow_le_mono_r; lia).
  pose proof (Z.mod_pos_bound pos (2 ^ lh) ltac:(lia)) as Hr. set (p := pos mod 2 ^ lh) in *.
  assert (0 <= stride * height * B) as Hpl by nia.
  pose proof (Z.mul_div_le (stride * height * B) (2 ^ lh) ltac:(lia)). pose proof (Z.div_pos (stride * height * B) (2 ^ lh) Hpl ltac:(lia)).
  set (q := stride * height * B / 2 ^ lh) in *. rewrite i32_small by (unfold is_i32; lia). rewrite wrapu_small by nia.
  eapply wp_mono; [apply wp_memset; [done|nia..]|]. cbn beta. intros _ w' (T & D & P). split_and!; [done..|].
  eapply painted_iff; [|exact P]. intros k. cbn beta. lia.
Qed.

Lemma line_blocks :
  let block_w := width ≫ lw in
  let block_h := height ≫ lh in
  let pos_x := pos mod 2 ^ lw in
  let pos_y := (pos / 2 ^ lw) mod 2 ^ lh in
  let off := u32 ((u32 (u32 (u32 (stride * pos_y) * block_h) * (8 * B)) ≫ 3) + u32 ((u32 (block_w * (8 * B)) ≫ 3) * pos_x)) in
  wp (fill_rows (Z.to_nat block_h) ptr off val (u32 (block_w * (8 * B)) ≫ 3) (u32 (stride * (8 * B)) ≫ 3))
    (fun _ w' => paints (fun k => exists x y, k = (y * stride) * B + x /\ height / 2 ^ lh * pos_y <= y < height / 2 ^ lh * (pos_y + 1) /\
      width / 2 ^ lw * pos_x * B <= x < width / 2 ^ lw * (pos_x + 1) * B) val w w') w.
Proof using Hw Hh Hs Hm Hp Hlh Hlw.
  cbv zeta. rewrite !(Z.shiftr_div_pow2 width), !(Z.shiftr_div_pow2 height) by lia. pose proof (bits_bytes format) as [_ HB].
  assert (0 < 2 ^ lh) as Hh2 by lia. assert (0 < 2 ^ lw) as Hw2 by lia.
  pose proof (Z.mod_pos_bound pos (2 ^ lw) ltac:(lia)) as Hx. set (px := pos mod 2 ^ lw) in *.
  pose proof (Z.mod_pos_bound (pos / 2 ^ lw) (2 ^ lh) ltac:(lia)) as Hy. set (py := (pos / 2 ^ lw) mod 2 ^ lh) in *.
  pose proof (Z.mul_div_le width (2 ^ lw) ltac:(lia)). pose proof (Z.div_pos width (2 ^ lw) ltac:(lia) ltac:(lia)).
  pose proof (Z.mul_div_le height (2 ^ lh) ltac:(lia)). pose proof (Z.div_pos height (2 ^ lh) ltac:(lia) ltac:(lia)).
  set (bw := width / 2 ^ lw) in *. set (bh := height / 2 ^ lh) in *. clearbody px py bw bh.
  destruct (decide (bh = 0)) as [->|Hbh].
  { apply wp_ret. split_and!; [done..|]. apply painted_none. intros k (x & y & _ & Hky & _). lia. }
  assert (bh * (py + 1) <= height) by nia. assert (bw * (px + 1) <= width) by nia.
  assert (stride * 1 <= stride * height) by nia. assert (stride * (py * bh + bh) <= stride * height) by nia.
  assert (py <= py * bh) by nia. assert (stride * py <= stride * (py * bh)) by nia. assert (0 <= stride * py) by nia.
  rewrite (wrapu_small 32 (stride * py)) by nia. rewrite (wrapu_small 32 (_ * bh)) by nia.
  rewrite (wrapu_small 32 (stride * py * bh * _)), (wrapu_small 32 (stride * _)), (wrapu_small 32 (bw * _)) by nia.
  rewrite !shiftr_bytes. assert (bw * B * px <= stride * B) by nia. rewrite (wrapu_small 32 (bw * B * px)) by nia.
  rewrite (wrapu_small 32) by nia.
  eapply wp_mono; [apply wp_fill_rows; [done|nia..]|]. cbn beta. intros _ w' (T & D & P). split_and!; [done..|].
  eapply painted_iff; [|exact P]. intros k. cbn beta. rewrite Z2Nat.id by lia. split.
  - intros (j & Hj & Hk). exists (k - ((py * bh + j) * stride) * B), (py * bh + j). split_and!; nia.
  - intros (x & y & -> & Hky & Hkx). exists (y - py * bh). split; nia.
Qed.
End Line.

(** gralloc stores the address of a buffer that it locks. *)
Definition lock_stores : Prop := forall tr handle usage width height,
  let r := answer tr (Clock handle usage width height) in
  rv r = NO_ERROR -> exists ptr, aget (rdata r) 0 = Some ptr /\ ptr <> 0.

(** A line is drawn on a buffer of any format, with any pattern and at any position: all writes are inside of the plane, no 32-bit
    computation overflows, exactly the bytes of the part, or the pixels of the block, of that position get the value,
    and the buffer is locked and unlocked once. Nothing is drawn if the lock fails, and the result is the same. *)
Theorem drawLine_correct (info : BufferInfo) (width height stride format handle val ptn_w ptn_h pos : Z) (w : W) :
  lock_stores -> is_buffer info width height stride format handle ->
  stride * height * pixel_bytes format <= zlen (memory (globals w)) ->
  0 <= ptn_w -> 0 <= ptn_h ->
  exists w' r r', drawLine answer info val ptn_w ptn_h pos w = Some (NO_ERROR, w') /\
    trace w' = trace w ++ [(Clock handle LOCK_FOR_SW width height, r); (Cunlock handle, r')] /\
    painted_by (fun k => rv r = NO_ERROR /\ line width height stride format ptn_w ptn_h pos k) val (memory (globals w)) (memory (globals w')).
Proof.
  intros Hl (E1 & E2 & E3 & E4 & E5 & Hw & Hh & Hs) Hm Hpw Hph.
  enough (wp (drawLine answer info val ptn_w ptn_h pos) (fun e w' => e = NO_ERROR /\ exists r r',
    trace w' = trace w ++ [(Clock handle LOCK_FOR_SW width height, r); (Cunlock handle, r')] /\
    painted_by (fun k => rv r = NO_ERROR /\ line width height stride format ptn_w ptn_h pos k) val (memory (globals w)) (memory (globals w'))) w)
    as H by (destruct (wp_total _ _ _ H) as (e & w' & E & -> & r & r' & H1 & H2); eauto 10).
  unfold drawLine. repeat (apply wp_bind; eapply wp_lift; [eassumption|]).
  destruct (log2_5_ok ptn_w Hpw) as (lw & Ew & Pw & Hlw). destruct (log2_5_ok ptn_h Hph) as (lh & Eh & Ph & Hlh).
  repeat (apply wp_bind; eapply wp_lift; [eassumption|]).
  assert (stride * 1 <= stride * height) as Hsh by nia. rewrite !(wrapu_small 32 width), !(wrapu_small 32 height), !(wrapu_small 32 stride) by lia.
  apply wp_bind, sys_eq. intros r Er. cbv zeta. rewrite (proj1 (bits_bytes format)), !land_parts, land_parts_row by done.
  apply wp_bind. destruct (Z.eqb_spec (rv r) NO_ERROR) as [Hr|Hr].
  2: { apply wp_ret. repeat sys_step. split; [done|]. eexists _, _. cbn [trace globals]. rewrite <- app_assoc. split; [done|].
       apply painted_none. by intros k [? _]. }
  destruct (Hl (trace w) handle LOCK_FOR_SW width height) as (ptr & Hptr & Hp); [by rewrite <- Er|].
  rewrite <- Er in Hptr. apply wp_bind. eapply wp_lift; [exact Hptr|].
  set (w1 := World _ _). eapply (wp_mono _ (fun _ w' => paints (line width height stride format ptn_w ptn_h pos) val w1 w')).
  2: { cbn beta. intros _ w2 (T & D & P). repeat sys_step. split; [done|]. eexists _, _. cbn [trace globals].
       rewrite T. unfold w1. cbn [trace]. rewrite <- app_assoc. split; [done|]. eapply painted_iff; [|exact P]. naive_solver. }
  unfold line. rewrite Pw, Ph. replace ((if ptn_w =? 0 then 1 else ptn_w) =? 1) with (ptn_w <=? 1)
    by (destruct (Z.eqb_spec ptn_w 0) as [->|]; [done|]; destruct (Z.leb_spec ptn_w 1), (Z.eqb_spec ptn_w 1); done || lia).
  destruct (ptn_w <=? 1); [by apply (line_plane width)|by apply (line_blocks width)].
Qed.

(** ** What is held while a buffer is dumped

    The buffer that is locked, the file, and the two structures of libpng; whether something could not be had; and the pieces
    of data written. A call that must not be made then is [None]. *)
Record held := mk_held { h_lock : bool; h_file : bool; h_png : bool; h_info : bool; missing : bool; written : list (list Z) }.
Definition held0 : held := mk_held false false false false false [].

Definition held_step (h : held) (e : xcall * xresp) : option held :=
  let got := negb (rv e.2 =? 0) in
  let '(mk_held lock file png info mis out) := h in
  let writes (data : list (list Z)) := if file && png && info then Some (mk_held lock file png info mis (out ++ data)) else None in
  match e.1 with
  | Clock _ _ _ _ => if lock then None else Some (mk_held (rv e.2 =? NO_ERROR) file png info (mis || (default 0 (aget (rdata e.2) 0) =? 0)) out)
  | Cunlock _ => if lock && negb file && negb png && negb info then Some (mk_held false false false false mis out) else None
  | Cfopen _ _ _ _ _ _ _ => if lock && negb file then Some (mk_held lock got png info (mis || negb got) out) else None
  | Cfwrite data => if file && negb png then Some (mk_held lock file png info mis (out ++ [data])) else None
  | Cfclose => if file then Some (mk_held lock false png info mis out) else None
  | Cpng_create_write_struct => if negb png then Some (mk_held lock file got info (mis || negb got) out) else None
  | Cpng_create_info_struct => if png && negb info then Some (mk_held lock file png got (mis || negb got) out) else None
  | Cpng_init_io | Cpng_set_IHDR _ _ _ _ | Cpng_set_sBIT _ _ _ _ | Cpng_write_info | Cpng_set_filler | Cpng_write_end => writes []
  | Cpng_write_row row => writes [row]
  | Cpng_free_data => if png && info then Some (mk_held lock file png false mis out) else None
  | Cpng_destroy_write_struct => if png && negb info then Some (mk_held lock file false info mis out) else None
  | _ => None
  end.

Fixpoint held_run (h : held) (tr : list (xcall * xresp)) : option held :=
  match tr with [] => Some h | e :: tr => h ← held_step h e; held_run h tr end.

Lemma held_run_app tr1 tr2 h : held_run h (tr1 ++ tr2) = (h ← held_run h tr1; held_run h tr2).
Proof. revert h. induction tr1 as [|e tr1 IH]; intros h; cbn; [done|]. destruct (held_step h e); cbn; [apply IH|done]. Qed.

(** ** The image

    What a dump of the buffer holds: the bytes as they are, in one piece, or a piece for every row of pixels of four bytes. *)
Definition rows_of (way : dump_way) (height : Z) : Z := if aligned way then (height + 31) / 32 * 32 else height.
Definition image_size (way : dump_way) (format stride height : Z) : Z :=
  if format =? HAL_PIXEL_FORMAT_YV12 then stride * height + (stride / 2 + 15) / 16 * 16 * height
  else stride * rows_of way height * getBitsPerPixel format / 8.
Definition pixels565 (m : list Z) (k : Z) : list Z :=
  let c := anth m k + 256 * anth m (k + 1) in [u8 (SkPacked16ToR32 c); u8 (SkPacked16ToG32 c); u8 (SkPacked16ToB32 c); 255].
Definition row_of (way : dump_way) (m : list Z) (stride y : Z) : list Z :=
  if is565 way then List.concat (map (fun x => pixels565 m ((y * stride + Z.of_nat x) * 2)) (List.seq 0 (Z.to_nat stride)))
  else take (Z.to_nat (stride * 4)) (drop (Z.to_nat (y * (stride * 4))) m).
Definition rows_from (way : dump_way) (m : list Z) (stride y : Z) (n : nat) : list (list Z) :=
  map (fun i => row_of way m stride (y + Z.of_nat i)) (List.seq 0 n).
Definition image (way : dump_way) (format stride height : Z) (m : list Z) : list (list Z) :=
  if isRaw way then [take (Z.to_nat (image_size way format stride height)) m]
  else rows_from way m stride 0 (Z.to_nat height).

(** ** The rows *)

Lemma slice_in m off n : 0 <= off -> 0 <= n -> off + n <= zlen m -> slice m off n = Some (take (Z.to_nat n) (drop (Z.to_nat off) m)).
Proof. intros. unfold slice. by rewrite (proj2 (Z.leb_le 0 off)), (proj2 (Z.leb_le (off + n) _)) by lia. Qed.

Lemma aset_cat {A} (pre rest : list A) x v i : i = zlen pre -> aset (pre ++ x :: rest) i v = Some (pre ++ v :: rest).
Proof.
  intros ->. unfold aset, zlen. rewrite length_app. cbn [List.length]. rewrite (proj2 (Z.leb_le 0 _)), (proj2 (Z.ltb_lt _ _)) by lia.
  cbn. rewrite Nat2Z.id. by rewrite insert_app_r_alt, Nat.sub_diag by lia.
Qed.

Lemma zlen_snoc {A} (l : list A) x : zlen (l ++ [x]) = zlen l + 1.
Proof. unfold zlen. rewrite length_app. cbn. lia. Qed.

Lemma convert565_ok m n : forall in_ pre rest, 0 <= in_ -> in_ + 2 * Z.of_nat n <= zlen m -> (4 * n <= List.length rest)%nat ->
  convert565 n m in_ (zlen pre) (pre ++ rest)
    = Some (pre ++ List.concat (map (fun x => pixels565 m (in_ + 2 * Z.of_nat x)) (List.seq 0 n)) ++ drop (4 * n) rest, in_ + 2 * Z.of_nat n).
Proof.
  induction n as [|n IH]; intros in_ pre rest Hi Hm Hr; cbn [convert565].
  { cbn. by rewrite Z.add_0_r. }
  rewrite !aget_anth by lia. cbn [mbind option_bind]. destruct rest as [|a [|b [|c [|d rest]]]]; cbn [List.length] in Hr; [lia..|].
  rewrite aset_cat by done. cbn [mbind option_bind]. rewrite (cons_middle _ pre), app_assoc, aset_cat by (rewrite zlen_snoc; lia).
  cbn [mbind option_bind]. rewrite (cons_middle _ (pre ++ _)), app_assoc, aset_cat by (rewrite !zlen_snoc; lia).
  cbn [mbind option_bind]. rewrite (cons_middle _ ((pre ++ _) ++ _)), app_assoc, aset_cat by (rewrite !zlen_snoc; lia).
  cbn [mbind option_bind]. rewrite (cons_middle _ (((pre ++ _) ++ _) ++ _)), app_assoc.
  replace (zlen pre + 4) with (zlen ((((pre ++ [u8 (SkPacked16ToR32 (anth m in_ + 256 * anth m (in_ + 1)))])
    ++ [u8 (SkPacked16ToG32 (anth m in_ + 256 * anth m (in_ + 1)))]) ++ [u8 (SkPacked16ToB32 (anth m in_ + 256 * anth m (in_ + 1)))]) ++ [255]))
    by (rewrite !zlen_snoc; lia).
  rewrite IH by lia. f_equal. f_equal; [|lia]. replace (4 * S n)%nat with (S (S (S (S (4 * n))))) by lia. cbn [drop].
  rewrite <- !app_assoc. f_equal. cbn [List.seq map List.concat app]. unfold pixels565 at 2. rewrite Z.add_0_r. cbn [app]. do 4 f_equal.
  f_equal. f_equal. rewrite <- List.seq_shift, map_map. apply map_ext. intros x. f_equal. lia.
Qed.

(** ** What a part of [dump] has done

    It began with a trace, and something held. *)
Definition holds (g : gfx) (from : list (xcall * xresp) * held) (h : held) (w : W) : Prop :=
  globals w = g /\ exists tr, trace w = from.1 ++ tr /\ held_run from.2 tr = Some h.

Lemma wp_held g from h c f (Q : xresp -> W -> Prop) w : holds g from h w -> (forall r, held_step h (c, r) = Some (f r)) ->
  (forall r w', holds g from (f r) w' -> Q r w') -> wp (io_call answer c) Q w.
Proof.
  intros (Hg & tr & Ht & Hr) Hf HQ. apply sys_any. intros r. apply HQ. split; [done|]. exists (tr ++ [(c, r)]). cbn [trace].
  rewrite Ht, app_assoc. split; [done|]. rewrite held_run_app, Hr. cbn. by rewrite Hf.
Qed.

Definition more (h : held) (data : list (list Z)) : held :=
  mk_held (h_lock h) (h_file h) (h_png h) (h_info h) (missing h) (written h ++ data).
Lemma more_nil h : more h [] = h.
Proof. destruct h. unfold more. cbn. by rewrite app_nil_r. Qed.
Lemma more_more h d d' : more (more h d) d' = more h (d ++ d').
Proof. unfold more. cbn. by rewrite app_assoc. Qed.

(** The structures of libpng, and the file. *)
Definition png_open (h : held) : Prop := h_file h = true /\ h_png h = true /\ h_info h = true.
Lemma png_open_more h d : png_open h -> png_open (more h d).
Proof. done. Qed.

Lemma wp_row g from h row (Q : xresp -> W -> Prop) w : holds g from h w -> png_open h ->
  (forall r w', holds g from (more h [row]) w' -> Q r w') -> wp (io_call answer (Cpng_write_row row)) Q w.
Proof.
  intros Hw (H1 & H2 & H3) HQ. eapply (wp_held _ _ _ _ (fun _ => more h [row])); [exact Hw| |exact HQ].
  intros r. destruct h as [? f p i ? ?]. cbn in H1, H2, H3. by subst.
Qed.

Lemma wp_setup g from h c (Q : xresp -> W -> Prop) w : holds g from h w -> png_open h ->
  match c with Cpng_init_io | Cpng_set_IHDR _ _ _ _ | Cpng_set_sBIT _ _ _ _ | Cpng_write_info | Cpng_set_filler | Cpng_write_end => True | _ => False end ->
  (forall r w', holds g from h w' -> Q r w') -> wp (io_call answer c) Q w.
Proof.
  intros Hw (H1 & H2 & H3) Hc HQ. eapply (wp_held _ _ _ _ (fun _ => h)); [exact Hw| |exact HQ].
  intros r. destruct h as [? f p i ? out]. cbn in H1, H2, H3. subst. destruct c; try done; cbn; by rewrite app_nil_r.
Qed.

Lemma rows_from_S way m stride y n : rows_from way m stride y (S n) = row_of way m stride y :: rows_from way m stride (y + 1) n.
Proof.
  unfold rows_from. cbn [List.seq map]. rewrite Z.add_0_r, <- List.seq_shift, map_map. f_equal. apply map_ext. intros i. f_equal. lia.
Qed.

Section Rows.
Context (g : gfx) (from : list (xcall * xresp) * held) (way : dump_way) (stride height : Z).
Context (Hs : 0 < stride) (Hh : 0 <= height) (Hfit : stride * 4 < 2 ^ 32).
Abbreviation m := (memory g).

Lemma wp_write_rows rows : is565 way = false -> forall y h w, 0 <= y -> (y + Z.of_nat rows) * (stride * 4) <= zlen m ->
  holds g from h w -> png_open h ->
  wp (write_rows answer rows stride (y * (stride * 4)))
    (fun _ w' => holds g from (more h (rows_from way m stride y rows)) w') w.
Proof using Hs Hfit.
  intros H5. induction rows as [|rows IH]; intros y h w Hy Hm Hw Hp; cbn [write_rows].
  { apply wp_ret. cbn [List.seq map]. by rewrite more_nil. }
  apply wp_bind, wp_get. rewrite (proj1 Hw). apply wp_bind. eapply wp_lift; [apply slice_in; nia|].
  apply wp_bind. eapply wp_row; [exact Hw|exact Hp|]. intros r w1 Hw1. rewrite wrapu_small by lia.
  replace (y * (stride * 4) + stride * 4) with ((y + 1) * (stride * 4)) by lia. eapply wp_mono; [apply IH; [lia|nia|exact Hw1|done]|].
  cbn beta. intros _ w2. rewrite more_more, rows_from_S. unfold row_of. by rewrite H5.
Qed.

Lemma row565_length y : is565 way = true -> List.length (row_of way m stride y) = Z.to_nat (stride * 4).
Proof using Hs.
  intros H5. unfold row_of. rewrite H5, (Z2Nat.inj_mul stride 4) by lia. change (Z.to_nat 4) with 4%nat.
  rewrite <- (List.length_seq (Z.to_nat stride) 0) at 2. induction (List.seq 0 (Z.to_nat stride)) as [|x l IH]; [done|].
  cbn [map List.concat List.length]. rewrite length_app, IH. unfold pixels565. cbn [List.length]. lia.
Qed.

Lemma wp_write565_rows rows : is565 way = true -> forall y tmp h w, 0 <= y -> (y + Z.of_nat rows) * stride * 2 <= zlen m ->
  List.length tmp = Z.to_nat (stride * 4) -> holds g from h w -> png_open h ->
  wp (write565_rows answer rows stride (y * stride * 2) tmp)
    (fun _ w' => holds g from (more h (rows_from way m stride y rows)) w') w.
Proof using Hs.
  intros H5. induction rows as [|rows IH]; intros y tmp h w Hy Hm Ht Hw Hp; cbn [write565_rows].
  { apply wp_ret. cbn [List.seq map]. by rewrite more_nil. }
  apply wp_bind, wp_get. rewrite (proj1 Hw).
  pose proof (convert565_ok m (Z.to_nat stride) (y * stride * 2) [] tmp ltac:(nia) ltac:(nia) ltac:(lia)) as E.
  change (zlen []) with 0 in E. rewrite drop_ge, app_nil_r, Z2Nat.id in E by lia. cbn [app] in E.
  assert (List.concat (map (fun x => pixels565 m (y * stride * 2 + 2 * Z.of_nat x)) (List.seq 0 (Z.to_nat stride))) = row_of way m stride y) as Er.
  { unfold row_of. rewrite H5. f_equal. apply map_ext. intros x. f_equal. lia. }
  rewrite Er in E. pose proof (row565_length y H5) as Hl.
  apply wp_bind. eapply wp_lift; [exact E|]. cbn [fst snd].
  apply wp_bind. eapply wp_lift; [apply slice_in; unfold zlen; lia|]. change (Z.to_nat 0) with O. rewrite drop_0, take_ge by lia.
  apply wp_bind. eapply wp_row; [exact Hw|exact Hp|]. intros r w1 Hw1.
  replace (y * stride * 2 + 2 * stride) with ((y + 1) * stride * 2) by lia. eapply wp_mono; [apply IH; [lia|nia|exact Hl|exact Hw1|done]|].
  cbn beta. intros _ w2. by rewrite more_more, rows_from_S.
Qed.
End Rows.

(** ** The size *)
Lemma YV12_way : way_of HAL_PIXEL_FORMAT_YV12 = Some (mk_way (str ".yv12") false true false false) /\ getBitsPerPixel HAL_PIXEL_FORMAT_YV12 = 12.
Proof.
  pose proof formats_distinct as H. rewrite !list.NoDup_cons, !not_elem_of_cons in H. destruct_and? H.
  unfold way_of, getBitsPerPixel. cbn [existsb]. rewrite !Z.eqb_refl.
  repeat match goal with |- context [?a =? ?b] => rewrite (proj2 (Z.eqb_neq a b)) by congruence end. split; reflexivity.
Qed.

Lemma ALIGN_32 x : ALIGN_CEIL x 32 = (x + 31) / 32 * 32.
Proof.
  unfold ALIGN_CEIL. replace (x + 32 - 1) with (x + 31) by lia. change (32 - 1) with (Z.ones 5).
  rewrite <- Z.ldiff_land, Z.ldiff_ones_r, Z.shiftr_div_pow2, Z.shiftl_mul_pow2 by lia. done.
Qed.

Lemma bits_range format : 12 <= getBitsPerPixel format <= 32.
Proof. unfold getBitsPerPixel. repeat case_match; lia. Qed.

Lemma rows_of_bound way height : 0 < height -> height <= rows_of way height <= height + 31.
Proof.
  intros H. unfold rows_of. destruct (aligned way); [|lia]. pose proof (Z.div_mod (height + 31) 32). pose proof (Z.mod_pos_bound (height + 31) 32). lia.
Qed.

Lemma dumpHeight_ok way height : 0 < height < 2 ^ 30 -> i32 (if aligned way then ALIGN_CEIL height 32 else height) = rows_of way height.
Proof.
  intros H. pose proof (rows_of_bound way height). unfold rows_of in *. rewrite ALIGN_32. apply i32_small. unfold is_i32. lia.
Qed.

(** The padding of a line of the chroma planes to 16 bytes. *)
Lemma padding c : 0 <= c -> let r := if negb (c mod 16 =? 0) then u32 (16 - c mod 16) else c mod 16 in (c + 15) / 16 * 16 = c + r /\ 0 <= r < 16.
Proof.
  intros Hc. cbv zeta. pose proof (Z.div_mod c 16 ltac:(lia)). pose proof (Z.mod_pos_bound c 16 ltac:(lia)).
  destruct (Z.eqb_spec (c mod 16) 0) as [E0|]; cbn [negb].
  - rewrite E0 in *. replace (c + 15) with (15 + c / 16 * 16) by lia. rewrite Z.div_add by lia. change (15 / 16) with 0. lia.
  - rewrite wrapu_small by lia. replace (c + 15) with (c mod 16 - 1 + (c / 16 + 1) * 16) by lia. rewrite Z.div_add, Z.div_small by lia. lia.
Qed.

Lemma raw_size_ok way format stride height : 0 < stride -> 0 < height -> stride * (height + 31) * 32 < 2 ^ 32 -> way_of format = Some way ->
  (format = HAL_PIXEL_FORMAT_YV12 -> stride mod 2 = 0) ->
  raw_size format stride (rows_of way height) (getBitsPerPixel format) = image_size way format stride height /\ 0 <= image_size way format stride height.
Proof.
  intros Hs Hh Hfit Hway Heven. pose proof (rows_of_bound way height Hh) as Hr. pose proof (bits_range format) as Hb.
  unfold raw_size, image_size. set (rows := rows_of way height) in *.
  assert (stride * rows <= stride * (height + 31)) by nia. assert (0 <= stride * rows) by nia. assert (1 * rows <= stride * rows) by nia.
  assert (0 <= stride * rows * getBitsPerPixel format < 2 ^ 32) by nia.
  rewrite (wrapu_small 32 rows), (wrapu_small 32 (stride * rows)), (wrapu_small 32 (_ * getBitsPerPixel _)) by lia.
  rewrite Z.shiftr_div_pow2 by lia. change (2 ^ 3) with 8.
  assert (0 <= stride * rows * getBitsPerPixel format / 8) by (apply Z.div_pos; lia).
  destruct (Z.eqb_spec format HAL_PIXEL_FORMAT_YV12) as [->|]; [|lia]. specialize (Heven eq_refl).
  destruct YV12_way as [E E12]. rewrite E in Hway. injection Hway as <-. subst rows. cbn [rows_of aligned] in *. rewrite E12.
  pose proof (Z.div_mod stride 2 ltac:(lia)) as Hd. pose proof (padding (stride / 2) ltac:(lia)) as Hpad.
  cbv zeta in Hpad. set (r := if negb _ then _ else (_ : Z)) in *. set (c := stride / 2) in *. destruct Hpad as [-> Hr16].
  assert (stride * height * 12 / 8 = stride * height + c * height) as ->.
  { rewrite Hd, Heven. replace ((2 * c + 0) * height * 12) with (((2 * c + 0) * height + c * height) * 8) by lia. by rewrite Z.div_mul. }
  assert (0 <= r * height <= 15 * height) by nia. assert (0 <= c * height) by nia.
  assert (2 * (c * height) <= stride * height) by nia. assert (15 * height <= 15 * (stride * height)) by nia.
  rewrite (wrapu_small 32 (r * height)), (wrapu_small 32) by lia. split; lia.
Qed.

(** The bytes of the buffer that a dump reads. *)
Definition image_bytes (way : dump_way) (format stride height : Z) : Z :=
  if isRaw way then image_size way format stride height else stride * height * (if is565 way then 2 else 4).

Section DumpTo.
Context (g : gfx) (from : list (xcall * xresp) * held) (way : dump_way) (format stride height : Z).
Context (Hs : 0 < stride) (Hh : 0 < height) (Hfit : stride * (height + 31) * 32 < 2 ^ 32) (Hway : way_of format = Some way).
Context (Heven : format = HAL_PIXEL_FORMAT_YV12 -> stride mod 2 = 0) (Hm : image_bytes way format stride height <= zlen (memory g)).

(** With the file open: what is held after. *)
Definition dumped (r : bool * bool) (w : W) : Prop :=
  (r.2 = true -> r.1 = true) /\
  exists mis, holds g from (mk_held true true r.1 r.2 mis (if mis then [] else image way format stride height (memory g))) w.

Lemma wp_png_rows h w : isRaw way = false -> holds g from h w -> png_open h ->
  wp (if is565 way then write565Data answer stride height else writeData answer stride height)
    (fun _ w' => holds g from (more h (rows_from way (memory g) stride 0 (Z.to_nat height))) w') w.
Proof using Hs Hh Hfit Hm.
  intros Hraw Hw Hp. assert (0 <= stride * 4 < 2 ^ 32) as H4 by nia. unfold image_bytes in Hm. rewrite Hraw in Hm. destruct (is565 way) eqn:H5.
  - apply (wp_write565_rows g from way stride Hs _ H5 0); [done|lia| |done..]. by rewrite length_replicate, wrapu_small.
  - apply (wp_write_rows g from way stride Hs (proj2 H4) _ H5 0); [done|lia|done..].
Qed.

Lemma wp_dump_png w : isRaw way = false -> holds g from (mk_held true true false false false []) w ->
  wp (dump_png answer way stride height (rows_of way height)) dumped w.
Proof using Hs Hh Hfit Hm.
  intros Hraw Hw. unfold dump_png. apply wp_bind.
  eapply (wp_held _ _ _ _ (fun r => mk_held true true (negb (rv r =? 0)) false (negb (negb (rv r =? 0))) [])); [exact Hw|done|].
  intros r1 w1. destruct (rv r1 =? 0); cbn [negb]; intros Hw1; [apply wp_ret; split; [done|]; by exists true|]. apply wp_bind.
  eapply (wp_held _ _ _ _ (fun r => mk_held true true true (negb (rv r =? 0)) (negb (negb (rv r =? 0))) [])); [exact Hw1|done|].
  intros r2 w2. destruct (rv r2 =? 0); cbn [negb]; intros Hw2; [apply wp_ret; split; [done|]; by exists true|].
  set (h := mk_held true true true true false []) in *. assert (png_open h) as Hh0 by done.
  apply wp_bind. eapply wp_setup; [exact Hw2|done..|]. clear w2 Hw2. intros _ w2 Hw2.
  apply wp_bind. eapply wp_setup; [exact Hw2|done..|]. clear w2 Hw2. intros _ w2 Hw2.
  apply wp_bind. eapply wp_setup; [exact Hw2|done|by destruct (is565 way)|]. clear w2 Hw2. intros _ w2 Hw2.
  apply wp_bind. eapply wp_setup; [exact Hw2|done..|]. clear w2 Hw2. intros _ w2 Hw2.
  apply wp_bind. apply (wp_mono _ (fun _ w' => holds g from h w')).
  { destruct (stripAlpha way); [|by apply wp_ret]. apply wp_bind. eapply wp_setup; [exact Hw2|done..|]. intros _ w' Hw'. by apply wp_ret. }
  cbn beta. clear w2 Hw2. intros _ w2 Hw2. apply wp_bind.
  eapply (wp_mono _ (fun _ w' => holds g from (more h (rows_from way (memory g) stride 0 (Z.to_nat height))) w')).
  { by apply wp_png_rows. }
  cbn beta. clear w2 Hw2. intros _ w2 Hw2. apply wp_bind. eapply wp_setup; [exact Hw2|done..|]. clear w2 Hw2. intros _ w2 Hw2. apply wp_ret.
  split; [done|]. exists false. unfold image. by rewrite Hraw.
Qed.

Lemma wp_dump_to w : holds g from (mk_held true true false false false []) w ->
  wp (dump_to answer way format stride height (rows_of way height)) dumped w.
Proof using Hs Hh Hfit Hm Hway Heven.
  intros Hw. unfold dump_to. destruct (isRaw way) eqn:Hraw; [|by apply wp_dump_png].
  destruct (raw_size_ok way format stride height) as [E E0]; [done..|]. unfold image_bytes in Hm. rewrite Hraw in Hm.
  apply wp_bind, wp_get. rewrite (proj1 Hw), E. apply wp_bind. eapply wp_lift; [apply slice_in; lia|]. apply wp_bind.
  eapply (wp_held _ _ _ _ (fun _ => mk_held true true false false false _)); [exact Hw|done|].
  intros _ w1 Hw1. apply wp_ret. split; [done|]. exists false. unfold image. rewrite Hraw. exact Hw1.
Qed.
End DumpTo.

(** gralloc stores an address, or NULL, for a buffer that it locks. *)
Definition lock_answers : Prop := forall tr handle usage width height,
  let r := answer tr (Clock handle usage width height) in rv r = NO_ERROR -> exists ptr, aget (rdata r) 0 = Some ptr.

(** What is left of the file and the structures: nothing. *)
Definition all_released (h : held) : Prop := h_lock h = false /\ h_file h = false /\ h_png h = false /\ h_info h = false.

(** From the lock on. *)
Lemma wp_dump_locked g from way format stride height handle width prefix dir ptr mis w :
  0 < stride -> 0 < height -> stride * (height + 31) * 32 < 2 ^ 32 -> way_of format = Some way ->
  (format = HAL_PIXEL_FORMAT_YV12 -> stride mod 2 = 0) -> image_bytes way format stride height <= zlen (memory g) ->
  mis = (ptr =? 0) -> holds g from (mk_held true false false false mis []) w ->
  wp (if ptr =? 0 then io_ret tt
      else
        do f <- io_call answer (Cfopen dir prefix handle width height stride (suffix way));
        if rv f =? 0 then io_ret tt
        else
          do r <- dump_to answer way format stride height (rows_of way height);
          do _ <- io_call answer Cfclose;
          do _ <- (if r.2 then do _ <- io_call answer Cpng_free_data; io_ret tt else io_ret tt);
          if r.1 then do _ <- io_call answer Cpng_destroy_write_struct; io_ret tt else io_ret tt)
    (fun _ w' => exists mis, holds g from (mk_held true false false false mis (if mis then [] else image way format stride height (memory g))) w') w.
Proof.
  intros Hs Hh Hfit Hway Heven Hm -> Hw. destruct (ptr =? 0); [apply wp_ret; by exists true|]. apply wp_bind.
  eapply (wp_held _ _ _ _ (fun r => mk_held true (negb (rv r =? 0)) false false (negb (negb (rv r =? 0))) [])); [exact Hw|done|].
  intros r w1. destruct (rv r =? 0); cbn [negb]; intros Hw1; [apply wp_ret; by exists true|]. apply wp_bind.
  eapply wp_mono; [by apply wp_dump_to|]. intros [p i] w2 [Hpi [mis Hw2]]. cbn [fst snd] in *. set (out := if mis then _ else _) in *.
  apply wp_bind. eapply (wp_held _ _ _ _ (fun _ => mk_held true false p i mis out)); [exact Hw2|done|]. intros _ w3 Hw3. apply wp_bind.
  apply (wp_mono _ (fun _ w' => holds g from (mk_held true false p false mis out) w')).
  { destruct i; [|by apply wp_ret]. rewrite (Hpi eq_refl) in *. apply wp_bind.
    eapply (wp_held _ _ _ _ (fun _ => mk_held true false true false mis out)); [exact Hw3|done|]. intros _ w4 Hw4. by apply wp_ret. }
  intros _ w4 Hw4. cbn beta in Hw4. destruct p; [|apply wp_ret; by exists mis]. apply wp_bind.
  eapply (wp_held _ _ _ _ (fun _ => mk_held true false false false mis out)); [exact Hw4|done|]. intros _ w5 Hw5. apply wp_ret. by exists mis.
Qed.


(** ** The information of a buffer *)

(** A query of the device that succeeds stores its answer. *)
Definition query_stores : Prop := forall tr device handle attribute,
  let r := answer tr (Cdevice device query [handle; attribute]) in
  rv r = GRALLOC_EXTRA_OK -> exists v, aget (rdata r) 0 = Some v.
(** And the one of the information for the display stores all of it. *)
Definition sf_info_stores : Prop := forall tr device handle,
  let r := answer tr (Cdevice device query [handle; GRALLOC_EXTRA_GET_SF_INFO]) in
  rv r = GRALLOC_EXTRA_OK -> exists v, aget (rdata r) sf_info_status = Some v.

Definition same_memory (w w' : W) : Prop := memory (globals w') = memory (globals w).

Lemma wp_device w : wp (get answer) (fun _ w' => same_memory w w') w.
Proof.
  unfold get. apply wp_bind, wp_get. apply wp_bind. apply (wp_mono _ (fun _ w' => same_memory w w')).
  - destruct (mExtraDev (globals w)); [by apply wp_ret|]. unfold new_GraphicBufferExtra. apply wp_bind, sys_any. intros e.
    destruct (rv e =? 0); [apply wp_bind, sys_any; intros o|]; by apply wp_mod.
  - intros _ w1 H1. apply wp_bind, wp_get. by apply wp_ret.
Qed.

Lemma wp_query handle attribute w : query_stores ->
  wp (gralloc_extra_query answer handle attribute)
    (fun r w' => same_memory w w' /\ (r.1 = GRALLOC_EXTRA_OK -> (exists v, aget r.2 0 = Some v) /\
      (sf_info_stores -> attribute = GRALLOC_EXTRA_GET_SF_INFO -> exists v, aget r.2 sf_info_status = Some v))) w.
Proof.
  intros Hq. unfold gralloc_extra_query, extra_method. apply wp_bind. eapply wp_mono; [apply wp_device|]. intros dev w1 H1.
  destruct (dev =? 0); [by apply wp_ret|]. apply wp_bind, sys_any. intros p. destruct (rv p =? 0); [by apply wp_ret|].
  apply wp_bind, sys_eq. intros r Er. apply wp_ret. split; [done|]. cbn [fst snd]. intros Hr. rewrite Er in *. split; [by apply Hq|].
  intros Hsf ->. by apply Hsf.
Qed.

Lemma wp_query_into handle attribute old w : query_stores ->
  wp (query_into answer handle attribute old) (fun r w' => same_memory w w' /\ (r.1 = GRALLOC_EXTRA_OK -> exists v, r.2 = Some v)) w.
Proof.
  intros Hq. unfold query_into. apply wp_bind. eapply wp_mono; [by apply wp_query|]. intros r w1 [H1 H2]. apply wp_ret. split; [done|].
  cbn [fst snd]. intros Hr. destruct (H2 Hr) as [[v ->] _]. eauto.
Qed.

Lemma wp_getRealFormat handle f w : query_stores -> sf_info_stores ->
  wp (getRealFormat answer handle (Some f)) (fun r w' => same_memory w w' /\ exists v, r.2 = Some v) w.
Proof.
  intros Hq Hsf. unfold getRealFormat. destruct (handle =? 0); [apply wp_ret; split; [done|eauto]|]. apply wp_bind.
  eapply wp_mono; [by apply wp_query|]. intros r w1 [H1 _]. cbv zeta. destruct (negb _); [apply wp_ret; split; [done|eauto]|].
  destruct (_ =? HAL_PIXEL_FORMAT_YUV_PRIVATE); [|apply wp_ret; split; [done|eauto]]. apply wp_bind.
  eapply wp_mono; [by apply wp_query|]. intros r2 w2 [H2 H3]. unfold same_memory in *. rewrite H1 in H2.
  destruct (Z.eqb_spec r2.1 GRALLOC_EXTRA_OK) as [E|]; cbn [negb]; [|apply wp_ret; split; [done|eauto]].
  destruct (proj2 (H3 E) Hsf eq_refl) as [v Ev]. apply wp_bind. eapply wp_lift; [exact Ev|]. apply wp_ret. split; [done|].
  repeat case_match; cbn; eauto.
Qed.

Definition initialised (i : BufferInfo) (handle : Z) : Prop :=
  (exists v, mWidth i = Some v) /\ (exists v, mHeight i = Some v) /\ (exists v, mStride i = Some v) /\ (exists v, mFormat i = Some v) /\
  mHandle i = Some handle.

Lemma wp_getInfo handle i w : query_stores -> sf_info_stores ->
  wp (getInfo answer handle i) (fun r w' => same_memory w w' /\ (r.1 = NO_ERROR -> initialised r.2 handle)) w.
Proof.
  intros Hq Hsf. unfold getInfo. apply wp_bind. eapply wp_mono; [by apply wp_query_into|]. intros a w1 [M1 A].
  apply wp_bind. eapply wp_mono; [by apply wp_query_into|]. intros b w2 [M2 B].
  apply wp_bind. eapply wp_mono; [by apply wp_query_into|]. intros c w3 [M3 C].
  apply wp_bind. eapply wp_mono; [by apply wp_query_into|]. intros d w4 [M4 D].
  apply wp_bind. eapply wp_mono; [by apply wp_getRealFormat|]. intros e w5 [M5 [f Ef]]. apply wp_ret. unfold same_memory in *.
  split; [congruence|]. cbn [fst snd]. unfold NO_ERROR. rewrite !Z.lor_eq_0_iff. intros [[[[Ea Eb] Ec] Ed] Ee]. unfold initialised.
  cbn [mWidth mHeight mStride mFormat mHandle]. rewrite Ee. cbn. split_and!; eauto.
Qed.

(** The information about a [GraphicBuffer] is always complete, whatever the device answers: all members are set, the result is no
    error and the memory of the buffer is not touched, so that what [dump] and [drawLine] read is defined. About a bare handle it is complete
    when there is no error; but without the extra device [drawLine] of a handle, which does not look at the error, reads
    members that were never set. *)
Theorem getInfo_complete (gb : GraphicBuffer) (i : BufferInfo) (w : W) (val ptn_w ptn_h pos : Z) :
  query_stores -> sf_info_stores ->
  wp (getInfo_buffer answer gb i) (fun r w' => r.1 = NO_ERROR /\ initialised r.2 (gb_handle gb) /\ same_memory w w') w /\
  wp (getInfo answer (gb_handle gb) i) (fun r w' => (r.1 = NO_ERROR -> initialised r.2 (gb_handle gb)) /\ same_memory w w') w /\
  (mExtraDev (globals w) = Some 0 -> gb_handle gb <> 0 -> drawLine_handle answer (gb_handle gb) val ptn_w ptn_h pos w = None).
Proof.
  intros Hq Hsf. split_and!.
  - unfold getInfo_buffer. apply wp_bind. eapply wp_mono; [by apply wp_getInfo|]. intros r w1 [H1 H2]. apply wp_ret.
    destruct (Z.eqb_spec r.1 NO_ERROR) as [E|]; cbn; [by auto|]. unfold initialised. cbn. split_and!; eauto.
  - eapply wp_mono; [by apply wp_getInfo|]. intros r w1 [H1 H2]. auto.
  - intros Hd Hh. unfold drawLine_handle, getInfo, query_into, getRealFormat, gralloc_extra_query, extra_method, get. rewrite (proj2 (Z.eqb_neq _ 0)) by done.
    unfold io_bind, io_get, io_ret. rewrite Hd. cbn [default]. rewrite !Hd. cbn. rewrite !Hd. cbn. rewrite !Hd. cbn. rewrite !Hd. cbn. rewrite !Hd. done.
Qed.
End Painting.

(** ** The values of Android *)
#[export] Instance android_gfx : gfx_headers.
Proof.
  refine {| PIXEL_FORMAT_UNKNOWN := 0; HAL_PIXEL_FORMAT_RGBA_8888 := 1; HAL_PIXEL_FORMAT_RGBX_8888 := 2; HAL_PIXEL_FORMAT_RGB_888 := 3;
            HAL_PIXEL_FORMAT_RGB_565 := 4; HAL_PIXEL_FORMAT_BGRA_8888 := 5; HAL_PIXEL_FORMAT_YV12 := 0x32315659; INVALID_OPERATION := -38;
            SkPacked16ToR32 c := let r := (c ≫ 11) .& 31 in (r ≪ 3) .| (r ≫ 2);
            SkPacked16ToG32 c := let g := (c ≫ 5) .& 63 in (g ≪ 2) .| (g ≫ 4);
            SkPacked16ToB32 c := let b := c .& 31 in (b ≪ 3) .| (b ≫ 2) |}; [lia|by_compute].
Defined.

(** gralloc and the others do what they are asked for, or nothing can be had after the file. *)
Definition willing (tr : list (xcall * xresp)) (c : xcall) : xresp :=
  match c with
  | Clock _ _ _ _ => mk_xresp 0 [4096]
  | Cdevice _ _ [_; attribute] => mk_xresp 0 (replicate 20 (if attribute =? GRALLOC_EXTRA_GET_FORMAT then 4 else 2))
  | Cfopen _ _ _ _ _ _ _ | Cpng_create_write_struct | Cpng_create_info_struct | Cfunction _ _ => mk_xresp 1 []
  | Cextra_open => mk_xresp 0 [1]
  | _ => mk_xresp 0 []
  end.
Definition no_png (tr : list (xcall * xresp)) (c : xcall) : xresp :=
  match c with Cpng_create_info_struct => mk_xresp 0 [] | _ => willing tr c end.
Definition the_info : BufferInfo := mk_info 0 (Some 6) (Some 4) (Some 8) (Some 4) (Some 77).
Definition the_world : world gfx xcall xresp := World (mk_gfx None (replicate 64 9)) [].

Lemma willing_locks : lock_stores willing.
Proof. intros tr handle usage width height r Hr. by exists 4096. Qed.
Lemma willing_answers : lock_answers willing.
Proof. intros tr handle usage width height r Hr. by exists 4096. Qed.
Lemma no_png_answers : lock_answers no_png.
Proof. intros tr handle usage width height r Hr. by exists 4096. Qed.
Lemma the_info_buffer : is_buffer the_info 6 4 8 4 77.
Proof. repeat split; lia. Qed.
Lemma willing_queries : query_stores willing.
Proof. intros tr device handle attribute r Hr. by eexists. Qed.
Lemma willing_sf : sf_info_stores willing.
Proof. intros tr device handle r Hr. by eexists. Qed.

(** Two columns and two rows of blocks, of 3 pixels by 2; the block -1 is the last one. *)
Lemma drawLine_correct_witness : exists w', drawLine willing the_info 5 2 3 (-1) the_world = Some (NO_ERROR, w') /\
  aget (memory (globals w')) (3 * 16 + 6) = Some 5 /\ aget (memory (globals w')) (3 * 16 + 12) = Some 9.
Proof.
  destruct (drawLine_correct willing the_info 6 4 8 4 77 5 2 3 (-1) the_world willing_locks the_info_buffer) as (w' & r & r' & E & T & P);
    [by_compute|lia..|].
  exists w'. split; [exact E|]. destruct P as [_ P].
  assert (rv r = NO_ERROR) as Hr.
  { assert (trace w' = trace (default ((0, the_world)) (drawLine willing the_info 5 2 3 (-1) the_world)).2) as Et by (rewrite E; done).
    rewrite T in Et. vm_compute in Et. by injection Et as -> _. }
  split.
  - apply (P (3 * 16 + 6)). split; [done|]. exists 6, 3. vm_compute. split_and!; done.
  - rewrite (proj2 (P (3 * 16 + 12))); [done|]. intros [_ (x & y & E2 & Hy & Hx)]. assert (60 = y * 8 * 2 + x) by exact E2.
    assert (2 <= y < 4) by exact Hy. assert (6 <= x < 12) by exact Hx. lia.
Defined.


Definition the_gb : GraphicBuffer := mk_buffer 77 6 4 8 4.
Definition no_device : world gfx xcall xresp := World (mk_gfx (Some 0) []) [].

Lemma getInfo_complete_witness :
  wp (getInfo_buffer willing the_gb BufferInfo0)
    (fun r w' => r.1 = NO_ERROR /\ initialised r.2 (gb_handle the_gb) /\ same_memory the_world w') the_world /\
  drawLine_handle willing (gb_handle the_gb) 0 1 1 0 no_device = None.
Proof.
  destruct (getInfo_complete willing the_gb BufferInfo0 the_world 0 1 1 0 willing_queries willing_sf) as [H _]. split; [exact H|].
  destruct (getInfo_complete willing the_gb BufferInfo0 no_device 0 1 1 0 willing_queries willing_sf) as (_ & _ & H').
  exact (H' eq_refl ltac:(discriminate)).
Defined.
