(* ===== verification/GfxFps.v ===== *)
(** The counter of frames: src/mediatek/graphics/ui_ext/lib/FpsCounter.cpp.

    Times are 64-bit numbers of nanoseconds; a difference that does not fit is undefined. The arithmetic of [double] and [float] is
    that of SpecFloat. *)
From Stdlib Require Import SpecFloat String List.
From stdpp Require Import gmap.
From S2P Require Import Prelude CString Effects.

(** ** Numbers *)
Definition is_i64 (z : Z) : bool := (- 2 ^ 63 <=? z) && (z <? 2 ^ 63).
Definition sub64 (a b : Z) : option Z := if is_i64 (a - b) then Some (a - b) else None.
Definition ms2ns (ms : Z) : Z := ms * 1000000.

Definition double_of (z : Z) : spec_float := binary_normalize 53 1024 z 0 false.
Definition float_of_double (x : spec_float) : spec_float :=
  match x with
  | S754_finite s m e => binary_round 24 128 s m e
  | x => x
  end.
(** [frames * 1e9 / duration], as a [float] *)
Definition fps_of (frames duration : Z) : spec_float :=
  float_of_double (SFdiv 53 1024 (SFmul 53 1024 (double_of frames) (double_of 1000000000)) (double_of duration)).

(** ** FpsCounter *)
Record FpsCounter := mk_fps {
  mFps : spec_float; mMaxDuration : Z; mMinDuration : Z; mMaxDurationCounting : Z; mMinDurationCounting : Z;
  mFrames : Z; mLastLogTime : Z; mLastLogDuration : Z; mLastTime : Z; mLastDuration : Z; mCountInterval : Z
}.

Inductive fps_call := Cproperty_stc_interval | CsystemTime.
Inductive fps_resp := Rstring (s : list Z) | Rtime (t : Z).

Section Fps.
Context (answer : list (fps_call * fps_resp) -> fps_call -> fps_resp).
Abbreviation IO := (io FpsCounter fps_call fps_resp).
Abbreviation sys := (io_call answer).

(** The property is read with the default [1000]. *)
Definition reset : IO bool :=
  do r <- sys Cproperty_stc_interval;
  let value := match r with Rstring s => s | Rtime _ => [] end in
  do _ <- io_mod (fun _ => mk_fps (S754_zero false) (-1) (-1) (-1) (-1) 0 (-1) (-1) (-1) (-1) (ms2ns (atoi value)));
  io_ret true.

Definition update_at (timestamp : Z) (c : FpsCounter) : option (bool * FpsCounter) :=
  if (-1 =? mLastLogTime c) || (-1 =? mLastTime c) || (timestamp <=? mLastTime c) then
    Some (false, mk_fps (mFps c) (mMaxDuration c) (mMinDuration c) (mMaxDurationCounting c) (mMinDurationCounting c) (mFrames c)
                   timestamp (mLastLogDuration c) timestamp (mLastDuration c) (mCountInterval c))
  else
    let frames := u32 (mFrames c + 1) in
    last ← sub64 timestamp (mLastTime c);
    let max := if (-1 =? mMaxDurationCounting c) || (mMaxDurationCounting c <? last) then last else mMaxDurationCounting c in
    let min := if (-1 =? mMinDurationCounting c) || (last <? mMinDurationCounting c) then last else mMinDurationCounting c in
    duration ← sub64 timestamp (mLastLogTime c);
    if mCountInterval c <? duration then
      Some (true, mk_fps (fps_of frames duration) max min (-1) (-1) 0 timestamp duration timestamp last (mCountInterval c))
    else
      Some (false, mk_fps (mFps c) (mMaxDuration c) (mMinDuration c) max min frames (mLastLogTime c) (mLastLogDuration c) timestamp last
                     (mCountInterval c)).
Definition update_timestamp (timestamp : Z) : IO bool := io_pure (update_at timestamp).
Definition update : IO bool :=
  do r <- sys CsystemTime;
  match r with Rtime t => update_timestamp t | Rstring _ => undefined end.

(** A counter that is updated at these times. *)
Fixpoint updates (times : list Z) : IO (list bool) :=
  match times with
  | [] => io_ret []
  | t :: times => do b <- update_timestamp t; do l <- updates times; io_ret (b :: l)
  end.
End Fps.

(** ** What is counted

    The frames of an interval: the times between one and the next, the last one first. A report is made by the frame that ends the interval. *)
Record report := mk_report { r_fps : spec_float; r_max : Z; r_min : Z; r_duration : Z }.
Record counted := mk_counted { frames : list Z; reported : option report }.

Definition zmax (l : list Z) : Z := match l with [] => -1 | x :: l => foldr Z.max x l end.
Definition zmin (l : list Z) : Z := match l with [] => -1 | x :: l => foldr Z.min x l end.

Definition frame (interval d : Z) (s : counted) : bool * counted :=
  let f := d :: frames s in
  if interval <? zsum f then (true, mk_counted [] (Some (mk_report (fps_of (zlen f) (zsum f)) (zmax f) (zmin f) (zsum f))))
  else (false, mk_counted f (reported s)).
Fixpoint frames_at (interval last : Z) (times : list Z) (s : counted) : list bool * counted :=
  match times with
  | [] => ([], s)
  | t :: times => let (b, s) := frame interval (t - last) s in let (l, s) := frames_at interval t times s in (b :: l, s)
  end.

(** The counter and what it has counted since the time [last]. *)
Definition counts (interval last : Z) (s : counted) (c : FpsCounter) : Prop :=
  mCountInterval c = interval /\ mLastTime c = last /\ mLastLogTime c = last - zsum (frames s) /\ mFrames c = zlen (frames s) /\
  mMaxDurationCounting c = zmax (frames s) /\ mMinDurationCounting c = zmin (frames s) /\
  match reported s with
  | None => mFps c = S754_zero false /\ mMaxDuration c = -1 /\ mMinDuration c = -1 /\ mLastLogDuration c = -1
  | Some r => mFps c = r_fps r /\ mMaxDuration c = r_max r /\ mMinDuration c = r_min r /\ mLastLogDuration c = r_duration r
  end.

Lemma zmax_cons d l : Forall (fun x => 0 < x) l -> 0 < d ->
  (if (-1 =? zmax l) || (zmax l <? d) then d else zmax l) = zmax (d :: l).
Proof.
  intros Hl Hd. destruct l as [|x l]; [done|]. cbn [zmax foldr]. assert (0 < foldr Z.max x l) as H.
  { inversion Hl as [|? ? Hx Hl']; subst. clear Hl. induction Hl'; cbn [foldr]; [done|lia]. }
  assert (forall a b, foldr Z.max a (b :: l) = Z.max a (foldr Z.max b l)) as E.
  { clear. intros a b. cbn [foldr]. revert b. induction l as [|y l IH]; intros b; cbn [foldr]; [lia|]. specialize (IH b). lia. }
  specialize (E d x). cbn [foldr] in E. rewrite E. destruct (Z.eqb_spec (-1) (foldr Z.max x l)); [lia|]. cbn [orb].
  destruct (Z.ltb_spec (foldr Z.max x l) d); lia.
Qed.

Lemma zmin_cons d l : Forall (fun x => 0 < x) l -> 0 < d ->
  (if (-1 =? zmin l) || (d <? zmin l) then d else zmin l) = zmin (d :: l).
Proof.
  intros Hl Hd. destruct l as [|x l]; [done|]. cbn [zmin foldr]. assert (0 < foldr Z.min x l) as H.
  { inversion Hl as [|? ? Hx Hl']; subst. clear Hl. induction Hl'; cbn [foldr]; [done|lia]. }
  assert (forall a b, foldr Z.min a (b :: l) = Z.min a (foldr Z.min b l)) as E.
  { clear. intros a b. cbn [foldr]. revert b. induction l as [|y l IH]; intros b; cbn [foldr]; [lia|]. specialize (IH b). lia. }
  specialize (E d x). cbn [foldr] in E. rewrite E. destruct (Z.eqb_spec (-1) (foldr Z.min x l)); [lia|]. cbn [orb].
  destruct (Z.ltb_spec d (foldr Z.min x l)); lia.
Qed.

(** The times that a counter is shown: they grow, and differ from the mark -1. *)
Fixpoint growing (last : Z) (times : list Z) : Prop :=
  match times with [] => True | t :: times => last < t < 2 ^ 63 /\ growing t times end.

(** Of an interval: it began at a time, and has less than 2^32 frames. *)
Definition counting (last : Z) (s : counted) (bound : Z) : Prop :=
  0 <= last - zsum (frames s) /\ last < 2 ^ 63 /\ Forall (fun x => 0 < x) (frames s) /\ zlen (frames s) + bound < 2 ^ 32.

Lemma zsum_positive l : Forall (fun x => 0 < x) l -> 0 <= zsum l.
Proof. intros H. apply zsum_nonneg. induction H; constructor; [lia|done]. Qed.

Lemma update_counts interval last s c t : counts interval last s c -> counting last s 1 -> last < t < 2 ^ 63 ->
  exists c', update_at t c = Some ((frame interval (t - last) s).1, c') /\ counts interval t (frame interval (t - last) s).2 c'.
Proof.
  intros (H1 & H2 & H3 & H4 & H5 & H6 & H7) (B1 & B2 & B3 & B4) Ht. pose proof (zsum_positive _ B3) as Hn.
  assert (0 <= zlen (frames s)) by (unfold zlen; lia).
  unfold update_at. rewrite H2, H3, H4, H1, H5, H6, !(proj2 (Z.eqb_neq (-1) (last - _))), !(proj2 (Z.eqb_neq (-1) last)), (proj2 (Z.leb_gt t last)) by lia.
  cbn [orb]. unfold sub64, is_i64. rewrite !(proj2 (Z.leb_le (- 2 ^ 63) _)), !(proj2 (Z.ltb_lt _ (2 ^ 63))) by lia. cbn [andb mbind option_bind].
  rewrite wrapu_small, zmax_cons, zmin_cons by (done || lia). unfold frame. rewrite zsum_cons.
  replace (t - (last - zsum (frames s))) with (t - last + zsum (frames s)) by lia.
  assert (zlen (frames s) + 1 = zlen (t - last :: frames s)) as -> by (unfold zlen; cbn [List.length]; lia).
  destruct (Z.ltb_spec interval (t - last + zsum (frames s))); cbn [fst snd]; eexists; (split; [reflexivity|]).
  - unfold counts. cbn. split_and!; done || lia.
  - unfold counts. cbn [frames reported mCountInterval mLastTime mLastLogTime mFrames mMaxDurationCounting mMinDurationCounting mFps mMaxDuration mMinDuration mLastLogDuration].
    rewrite zsum_cons. split_and!; done || lia.
Qed.

Lemma frame_counting interval last s t bound : counting last s (bound + 1) -> 0 <= bound -> last < t < 2 ^ 63 ->
  counting t (frame interval (t - last) s).2 bound.
Proof.
  intros (B1 & B2 & B3 & B4) Hb Ht. unfold frame, counting. pose proof (zsum_positive _ B3) as Hn. unfold zlen in *.
  destruct (interval <? _); cbn [snd frames]; rewrite ?zsum_cons; cbn [List.length zsum foldr]; split_and!; try lia; constructor; done || lia.
Qed.

Lemma last_cons_default {A} (t : A) l d : List.last (t :: l) d = List.last l t.
Proof.
  revert t d. induction l as [|x l IH]; intros t d; [done|]. transitivity (List.last (x :: l) d); [done|].
  by rewrite (IH x d), (IH x t).
Qed.

Lemma updates_count interval times : forall last s (w : world FpsCounter fps_call fps_resp),
  counts interval last s (globals w) -> counting last s (zlen times) -> growing last times ->
  wp (updates times) (fun l w' => l = (frames_at interval last times s).1 /\ trace w' = trace w /\
    counts interval (List.last times last) (frames_at interval last times s).2 (globals w')) w.
Proof.
  induction times as [|t times IH]; intros last s w Hc Hb Hg; cbn [updates frames_at]; [by apply wp_ret|].
  destruct Hg as [Ht Hg]. assert (zlen (t :: times) = zlen times + 1) as El by (unfold zlen; cbn [List.length]; lia). rewrite El in Hb.
  assert (0 <= zlen times) by (unfold zlen; lia).
  destruct (update_counts interval last s (globals w) t Hc) as (c' & E & Hc'); [|done|].
  { destruct Hb as (? & ? & ? & ?). split_and!; done || lia. }
  apply wp_bind. eapply wp_pure; [exact E|]. apply wp_bind. eapply wp_mono.
  { apply IH; [exact Hc'|by apply frame_counting|done]. }
  cbn beta. intros l w' (-> & Ht' & Hl). apply wp_ret. destruct (frame interval (t - last) s) as [b s']. cbn [fst snd] in *.
  destruct (frames_at interval t times s') as [l' s'']. cbn [fst snd] in *. split_and!; [done..|].
  by rewrite last_cons_default.
Qed.

(** C34. A counter that is reset and then shown times that grow reports exactly when the time since its last report is longer than the
    interval of the property. What it reports then is the number of frames of that time over the time, as a [float], the
    longest and the shortest time between two of these frames, and the time; and the next interval begins with nothing counted. *)
Theorem fps_correct (answer : list (fps_call * fps_resp) -> fps_call -> fps_resp) (value : list Z) (t0 : Z) (times : list Z)
    (w : world FpsCounter fps_call fps_resp) :
  answer (trace w) Cproperty_stc_interval = Rstring value -> 0 <= t0 < 2 ^ 63 -> growing t0 times -> zlen times < 2 ^ 32 ->
  let interval := ms2ns (atoi value) in
  let (reports, s) := frames_at interval t0 times (mk_counted [] None) in
  wp (do _ <- reset answer; updates (t0 :: times))
    (fun l w' => l = false :: reports /\ counts interval (List.last times t0) s (globals w')) w.
Proof.
  intros Ha Ht Hg Hl interval. destruct (frames_at _ _ _ _) as [reports s] eqn:E.
  unfold reset. do 2 apply wp_bind. apply wp_call. rewrite Ha. apply wp_bind, wp_mod, wp_ret. cbn [updates]. apply wp_bind.
  eapply wp_pure; [reflexivity|]. cbn [mFps mMaxDuration mMinDuration mMaxDurationCounting mMinDurationCounting mFrames mLastLogDuration mLastDuration mCountInterval globals].
  apply wp_bind. eapply wp_mono.
  { apply (updates_count interval times t0 (mk_counted [] None)); [|split_and!; cbn; [lia..|constructor|done]|done].
    split_and!; cbn; done || lia. }
  cbn beta. intros l w' (-> & _ & Hc). rewrite E in Hc |- *. by apply wp_ret.
Qed.

Definition one_second (tr : list (fps_call * fps_resp)) (c : fps_call) : fps_resp :=
  match c with Cproperty_stc_interval => Rstring (str "1000") | CsystemTime => Rtime 0 end.
Definition no_counter : FpsCounter := mk_fps (S754_zero false) 0 0 0 0 0 0 0 0 0 0.
Definition some_times : list Z := [400000000; 800000000; 1250000000; 1500000000].

Lemma fps_correct_witness : exists w', (do _ <- reset one_second; updates (0 :: some_times)) (World no_counter [])
    = Some ([false; false; false; true; false], w') /\
  mMaxDuration (globals w') = 450000000 /\ mMinDuration (globals w') = 400000000 /\ mFrames (globals w') = 1 /\
  mFps (globals w') = S754_finite false 10066330 (-22).
Proof.
  pose proof (fps_correct one_second (str "1000") 0 some_times (World no_counter []) eq_refl ltac:(lia) ltac:(repeat split; lia) ltac:(done)) as H.
  destruct (wp_total _ _ _ H) as (l & w' & E & -> & Hc). exists w'. split; [exact E|].
  destruct Hc as (_ & _ & _ & H4 & _ & _ & (H7 & H8 & H9 & _)). rewrite H4, H7, H8, H9. vm_compute. split_and!; done.
Defined.

(** When the clock goes back, the interval begins again but the frames stay counted: here three frames are reported for a time that
    saw one. *)
Lemma fps_after_step_back : exists w', (do _ <- reset one_second; updates [0; 400000000; 800000000; 0; 1001000000]) (World no_counter [])
    = Some ([false; false; false; false; true], w') /\ mFps (globals w') = fps_of 3 1001000000.
Proof. eexists. split; [vm_compute; reflexivity|reflexivity]. Qed.
