(* ===== verification/GfxTunnel.v ===== *)
(** Dumps of a process for the service of GuiExt: the binder interface of a dump and the library that registers it
    (src/mediatek/graphics/ui_ext/lib/IDumpTunnel.cpp), and the list of reference-counted objects that a process dumps
    (RefBaseDump.cpp). Each method of the list locks [mMutex] and is one step.

    The address of an object is a number, NULL is 0. The lines of a dump are values, as the code formats them. *)
From Stdlib Require Import String List Sorted.
From stdpp Require Import gmap.
From S2P Require Import Prelude Maps CString Effects Parcel.

(** What is appended to the text. *)
Inductive line :=
  | Ltitle (monitor : Z) (process : list Z) (tracking : bool)
  | Lrule
  | Lobject (index object count : Z)
  | Lend
  | Ltext (s : list Z).

(** ** Calls *)
Inductive tcall :=
  | Cdlopen_gui_ext
  | CdlsymReg
  | CdlsymUnreg
  | Cdlclose
  | CregDump (f tunnel : Z) (monitor : Z) (* the key is the formatted address of the monitor *)
  | CunregDump (f : Z) (monitor : Z)
  | Cgetpid
  | Cfopen_cmdline (pid : Z)
  | Cfgets (size : Z)
  | Cfclose
  | Cproperty_rb_dump
  | Cnew_RefBaseDump (monitor : Z)
  | CtrackMe (object : Z) (enable retain : bool)
  | CprintRefs (object : Z)
  | CgetStrongCount (object : Z).
(** A value, and octets if some are returned. *)
Record tresp := mk_tresp { trv : Z; toctets : option (list Z) }.

(** ** State: the singletons [DumpTunnelHelper] and [RefBaseMonitor] of the process *)
Record helper := mk_helper { mSoHandle : Z; mRegDumpPtr : Z; mUnregDumpPtr : Z }.
Record RefBaseMonitor := mk_monitor { mIsTracking : bool; mProcessName : list Z; mDump : Z; RbList : keyed_vector Z }.
Record process := mk_process { the_helper : option helper; the_monitor : RefBaseMonitor }.
Definition with_helper (h : option helper) (p : process) : process := mk_process h (the_monitor p).
Definition with_monitor (m : RefBaseMonitor) (p : process) : process := mk_process (the_helper p) m.
Definition with_list (l : keyed_vector Z) (p : process) : process :=
  with_monitor (mk_monitor (mIsTracking (the_monitor p)) (mProcessName (the_monitor p)) (mDump (the_monitor p)) l) p.

Section Tunnel.
Context (answer : list (tcall * tresp) -> tcall -> tresp).
Abbreviation IO := (io process tcall tresp).
Abbreviation sys := (io_call answer).

(** ** DumpTunnelHelper *)
Definition new_DumpTunnelHelper : IO helper :=
  do so <- sys Cdlopen_gui_ext;
  if trv so =? 0 then io_ret (mk_helper 0 0 0)
  else do r <- sys CdlsymReg; do u <- sys CdlsymUnreg; io_ret (mk_helper (trv so) (trv r) (trv u)).
Definition helper_instance : IO helper :=
  do p <- io_get;
  match the_helper p with
  | Some h => io_ret h
  | None => do h <- new_DumpTunnelHelper; do _ <- io_mod (with_helper (Some h)); io_ret h
  end.
Definition delete_DumpTunnelHelper (h : helper) : IO unit :=
  if negb (mSoHandle h =? 0) then do _ <- sys Cdlclose; io_ret tt else io_ret tt.
Definition helper_regDump (tunnel monitor : Z) : IO bool :=
  do h <- helper_instance;
  if mRegDumpPtr h =? 0 then io_ret false
  else do r <- sys (CregDump (mRegDumpPtr h) tunnel monitor); io_ret (negb (trv r =? 0)).
Definition helper_unregDump (monitor : Z) : IO bool :=
  do h <- helper_instance;
  if mUnregDumpPtr h =? 0 then io_ret false
  else do r <- sys (CunregDump (mUnregDumpPtr h) monitor); io_ret (negb (trv r =? 0)).

(** ** RefBaseMonitor *)
Fixpoint starts_with (s t : list Z) : bool :=
  match s, t with [], _ => true | a :: s, b :: t => (a =? b) && starts_with s t | _ :: _, [] => false end.
(** [String8::find] finds it. *)
Fixpoint contains (s t : list Z) : bool :=
  starts_with s t || match t with [] => false | _ :: t => contains s t end.

(** What [fgets] reads is a string of at most 63 octets; if it reads nothing, the array was never set. *)
Definition getProcessName : IO (list Z) :=
  do pid <- sys Cgetpid;
  do fp <- sys (Cfopen_cmdline (trv pid));
  if negb (trv fp =? 0) then
    do name <- sys (Cfgets 64);
    do _ <- sys Cfclose;
    do name <- lift (toctets name);
    io_ret (c_string name)
  else io_ret (str "unknownProcess").

Definition new_RefBaseMonitor (this : Z) : IO unit :=
  do name <- getProcessName;
  do value <- sys Cproperty_rb_dump;
  let value := match toctets value with Some s => c_string s | None => str "Mary had a little lamb" end in
  do dump <- sys (Cnew_RefBaseDump this);
  do _ <- io_mod (with_monitor (mk_monitor (contains value name) name (trv dump) []));
  do _ <- helper_regDump (trv dump) this;
  io_ret tt.
Definition delete_RefBaseMonitor (this : Z) : IO unit := do _ <- helper_unregDump this; io_ret tt.

Definition NO_ERROR : Z := 0.
Definition monitor (pRb : Z) : IO Z :=
  do p <- io_get;
  do _ <- (if mIsTracking (the_monitor p) then do _ <- sys (CtrackMe pRb true false); io_ret tt else io_ret tt);
  do _ <- io_mod (fun p => with_list (kv_add pRb 0 (RbList (the_monitor p))) p);
  io_ret NO_ERROR.
Definition unmonitor (pRb : Z) : IO Z :=
  do _ <- io_mod (fun p => with_list (removeItem pRb (RbList (the_monitor p))) p);
  io_ret NO_ERROR.

Fixpoint dump_objects (tracking : bool) (i : Z) (l : keyed_vector Z) (result : list line) : IO (list line) :=
  match l with
  | [] => io_ret result
  | e :: l =>
    do _ <- (if tracking then do _ <- sys (CprintRefs e.1); io_ret tt else io_ret tt);
    do count <- sys (CgetStrongCount e.1);
    dump_objects tracking (i + 1) l (result ++ [Lobject i e.1 (trv count)])
  end.
Definition dump (this : Z) (result : list line) : IO (Z * list line) :=
  do p <- io_get;
  let m := the_monitor p in
  let result := result ++ [Ltitle this (mProcessName m) (mIsTracking m); Lrule] in
  do result <- dump_objects (mIsTracking m) 0 (RbList m) result;
  io_ret (NO_ERROR, result ++ [Lend]).

(** [RefBaseDump::kickDump]; [format] is what [appendFormat] makes of a line. *)
Context (format : line -> list Z).
Definition text (l : list line) : list Z := flat_map (fun x => match x with Ltext s => s | x => format x end) l.
Definition RefBaseDump_kickDump (this : Z) (result : list Z) (prefix : option (list Z)) : IO (Z * list Z) :=
  do r <- dump this [Ltext result]; io_ret (r.1, text r.2).

(** ** The binder interface: the proxy, and what the process that dumps does with a transaction *)
Context `{ops : parcel_ops} (FIRST_CALL_TRANSACTION PERMISSION_DENIED : Z).
Definition DUMPTUNNEL_DUMP : Z := FIRST_CALL_TRANSACTION.

Definition Bp_kickDump (transact : Z -> parcel -> IO (Z * parcel)) (result prefix : list Z) : IO (Z * list Z) :=
  let data := writeCString prefix (writeString8 result (writeInterfaceToken new_parcel)) in
  do err <- transact DUMPTUNNEL_DUMP data;
  if negb (err.1 =? NO_ERROR) then io_ret (err.1, result)
  else
    let result := readString8 err.2 in
    io_ret ((readInt32 result.2).1, result.1).

Definition Bn_onTransact (kickDump : list Z -> option (list Z) -> IO (Z * list Z)) (BBinder_onTransact : Z -> parcel -> IO (Z * parcel))
    (code : Z) (data : parcel) : IO (Z * parcel) :=
  if code =? DUMPTUNNEL_DUMP then
    let c := checkInterface data in
    if c.1 then
      let result := readString8 c.2 in
      let prefix := readCString result.2 in
      do ret <- kickDump result.1 prefix.1;
      io_ret (NO_ERROR, writeInt32 ret.1 (writeString8 ret.2 new_parcel))
    else io_ret (PERMISSION_DENIED, new_parcel)
  else BBinder_onTransact code data.

(** ** What a process does with its list *)
Inductive list_op := Monitor (object : Z) | Unmonitor (object : Z).
Fixpoint list_ops (l : list list_op) : IO unit :=
  match l with
  | [] => io_ret tt
  | Monitor o :: l => do _ <- monitor o; list_ops l
  | Unmonitor o :: l => do _ <- unmonitor o; list_ops l
  end.
End Tunnel.

(** ** What is monitored

    The objects that were added and not removed since. *)
Definition monitored (s : gset Z) (op : list_op) : gset Z := match op with Monitor o => {[o]} ∪ s | Unmonitor o => s ∖ {[o]} end.
Definition lists (s : gset Z) (l : keyed_vector Z) : Prop := sorted_keys l /\ forall k, In k (map fst l) <-> k ∈ s.

Lemma in_keys_value {V} (l : keyed_vector V) k : sorted_keys l -> In k (map fst l) <-> valueFor k l <> None.
Proof.
  intros Hs. split.
  - intros (e & <- & He)%in_map_iff. by rewrite (in_valueFor e.1 e.2) by (done || by destruct e).
  - destruct (valueFor k l) as [v|] eqn:E; [|done]. intros _. by apply in_map_iff; exists (k, v); split; [|apply valueFor_in].
Qed.

Lemma lists_add s l o : lists s l -> lists ({[o]} ∪ s) (kv_add o 0 l).
Proof.
  intros [Hs Hk]. pose proof (kv_add_sorted o 0 l Hs) as Hs'. split; [done|]. intros k.
  rewrite in_keys_value, valueFor_add, elem_of_union, elem_of_singleton, <- Hk, in_keys_value by done.
  destruct (Z.eqb_spec k o); naive_solver.
Qed.

Lemma lists_remove s l o : lists s l -> lists (s ∖ {[o]}) (removeItem o l).
Proof.
  intros [Hs Hk]. pose proof (removeItem_sorted o l Hs) as Hs'. split; [done|]. intros k.
  rewrite in_keys_value, valueFor_remove, elem_of_difference, elem_of_singleton, <- Hk, in_keys_value by done.
  destruct (Z.eqb_spec k o); naive_solver.
Qed.

(** What a trace says: the counts that were asked for, the objects that printed their references, those that were told to
    track. *)
Definition counts_asked (tr : list (tcall * tresp)) : list (Z * Z) :=
  omap (fun e => match e.1 with CgetStrongCount o => Some (o, trv e.2) | _ => None end) tr.
Definition printed (tr : list (tcall * tresp)) : list Z := omap (fun e => match e.1 with CprintRefs o => Some o | _ => None end) tr.
Definition tracked (tr : list (tcall * tresp)) : list Z := omap (fun e => match e.1 with CtrackMe o true false => Some o | _ => None end) tr.

(** The lines of the objects. *)
Fixpoint object_lines (i : Z) (l : list (Z * Z)) : list line :=
  match l with [] => [] | (o, c) :: l => Lobject i o c :: object_lines (i + 1) l end.
(** The objects that were added. *)
Definition added (l : list list_op) : list Z := omap (fun op => match op with Monitor o => Some o | Unmonitor _ => None end) l.

Section Facts.
Context (answer : list (tcall * tresp) -> tcall -> tresp).
Abbreviation W := (world process tcall tresp).

(** A part of the program has made calls; the counts, the references and the tracking among them. *)
Definition says (w w' : W) (counts : list (Z * Z)) (refs track : list Z) : Prop :=
  exists tr, trace w' = trace w ++ tr /\ counts_asked tr = counts /\ printed tr = refs /\ tracked tr = track.

Lemma says_nothing g (w : W) : says w (World g (trace w)) [] [] [].
Proof. exists []. by rewrite app_nil_r. Qed.
Lemma says_trans (w1 w2 w3 : W) a b c a' b' c' : says w1 w2 a b c -> says w2 w3 a' b' c' -> says w1 w3 (a ++ a') (b ++ b') (c ++ c').
Proof.
  intros (t1 & E1 & <- & <- & <-) (t2 & E2 & <- & <- & <-). exists (t1 ++ t2). unfold counts_asked, printed, tracked.
  rewrite !omap_app, app_assoc, <- E1. done.
Qed.
Lemma says_call c r g (w : W) :
  says w (World g (trace w ++ [(c, r)])) (counts_asked [(c, r)]) (printed [(c, r)]) (tracked [(c, r)]).
Proof. by exists [(c, r)]. Qed.

Lemma wp_dump_objects tracking l : forall i result (w : W),
  wp (dump_objects answer tracking i l result) (fun r w' => globals w' = globals w /\ exists counts,
    says w w' counts (if tracking then map fst l else []) [] /\ map fst counts = map fst l /\ r = result ++ object_lines i counts) w.
Proof.
  induction l as [|e l IH]; intros i result w; cbn [dump_objects].
  { apply wp_ret. split; [done|]. exists []. cbn. rewrite app_nil_r. split_and!; [|done..]. destruct tracking; exists []; by rewrite app_nil_r. }
  apply wp_bind. apply (wp_mono _ (fun _ w' => globals w' = globals w /\ says w w' [] (if tracking then [e.1] else []) [])).
  { destruct tracking; [|apply wp_ret; split; [done|]; exists []; by rewrite app_nil_r].
    apply wp_bind, sys_any. intros r. apply wp_ret. split; [done|]. apply (says_call (CprintRefs e.1)). }
  intros _ w1 [G1 S1]. apply wp_bind, sys_any. intros r. eapply wp_mono; [apply IH|]. cbn [globals].
  intros res w2 (G2 & counts & S2 & E & ->). split; [congruence|]. exists ((e.1, trv r) :: counts).
  pose proof (says_trans _ _ _ _ _ _ _ _ _ S1 (says_call (CgetStrongCount e.1) r (globals w1) w1)) as S3.
  pose proof (says_trans _ _ _ _ _ _ _ _ _ S3 S2) as S4. cbn [app map fst object_lines] in *. rewrite E. split_and!; [|done|by rewrite <- app_assoc].
  by destruct tracking.
Qed.

Lemma wp_list_ops ops : forall s (w : W), lists s (RbList (the_monitor (globals w))) ->
  wp (list_ops answer ops) (fun _ w' => lists (fold_left monitored ops s) (RbList (the_monitor (globals w'))) /\
    mIsTracking (the_monitor (globals w')) = mIsTracking (the_monitor (globals w)) /\
    mProcessName (the_monitor (globals w')) = mProcessName (the_monitor (globals w)) /\
    says w w' [] [] (if mIsTracking (the_monitor (globals w)) then added ops else [])) w.
Proof.
  induction ops as [|[o|o] ops IH]; intros s w Hl; cbn [list_ops].
  - apply wp_ret. split_and!; [done..|]. destruct (mIsTracking _); exists []; by rewrite app_nil_r.
  - unfold monitor. apply wp_bind, wp_bind, wp_get. apply wp_bind.
    apply (wp_mono _ (fun _ w' => globals w' = globals w /\ says w w' [] [] (if mIsTracking (the_monitor (globals w)) then [o] else []))).
    { destruct (mIsTracking _); [|apply wp_ret; split; [done|]; exists []; by rewrite app_nil_r].
      apply wp_bind, sys_any. intros r. apply wp_ret. split; [done|]. apply (says_call (CtrackMe o true false)). }
    intros _ w1 [G1 S1]. apply wp_bind, wp_mod, wp_ret. rewrite G1. eapply wp_mono; [apply IH; by apply lists_add|].
    cbn [globals with_list with_monitor the_monitor mIsTracking mProcessName]. intros _ w2 (H1 & H2 & H3 & S2). split_and!; [done..|].
    pose proof (says_trans _ _ _ _ _ _ _ _ _ S1 S2) as S3. cbn in S3. by destruct (mIsTracking _).
  - unfold unmonitor. apply wp_bind, wp_bind, wp_mod, wp_ret. eapply wp_mono; [apply IH; by apply lists_remove|].
    cbn [globals with_list with_monitor the_monitor mIsTracking mProcessName]. intros _ w2 (H1 & H2 & H3 & S2). split_and!; done.
Qed.
End Facts.

Section Correct.
Context (answer : list (tcall * tresp) -> tcall -> tresp) (format : line -> list Z).
Context `{laws : parcel_laws} (FIRST_CALL_TRANSACTION PERMISSION_DENIED : Z).
Context (BBinder_onTransact : Z -> parcel -> io process tcall tresp (Z * parcel)) (transact : Z -> parcel -> io process tcall tresp (Z * parcel)) (this : Z).
(** [fgets] reads a line, and the transport hands a transaction to the process of the monitor. *)
Context (fgets_reads : forall tr, exists s, toctets (answer tr (Cfgets 64)) = Some s).
Context (delivers : forall code data s, transact code data s =
  Bn_onTransact FIRST_CALL_TRANSACTION PERMISSION_DENIED (RefBaseDump_kickDump answer format this) BBinder_onTransact code data s).
Abbreviation W := (world process tcall tresp).

Lemma wp_helper_regDump tunnel mon (w : W) :
  wp (helper_regDump answer tunnel mon) (fun _ w' => the_monitor (globals w') = the_monitor (globals w) /\ says w w' [] [] []) w.
Proof.
  unfold helper_regDump. apply wp_bind.
  apply (wp_mono _ (fun _ w' => the_monitor (globals w') = the_monitor (globals w) /\ says w w' [] [] [])).
  - unfold helper_instance. apply wp_bind, wp_get. destruct (the_helper (globals w)); [apply wp_ret; split; [done|]; apply (says_nothing (globals w))|].
    unfold new_DumpTunnelHelper. do 2 apply wp_bind. apply sys_any. intros so.
    destruct (trv so =? 0); repeat sys_step; (split; [done|]); cbn [trace]; rewrite <- ?app_assoc; by eexists.
  - intros h w1 [H1 S1]. destruct (mRegDumpPtr h =? 0); [by apply wp_ret|]. apply wp_bind, sys_any. intros r. apply wp_ret. split; [done|].
    exact (says_trans _ _ _ _ _ _ _ _ _ S1 (says_call (CregDump (mRegDumpPtr h) tunnel mon) r (globals w1) w1)).
Qed.

Lemma wp_new_monitor (w : W) :
  wp (new_RefBaseMonitor answer this) (fun _ w' => RbList (the_monitor (globals w')) = [] /\ says w w' [] [] []) w.
Proof using fgets_reads.
  unfold new_RefBaseMonitor. apply wp_bind. apply (wp_mono _ (fun _ w' => says w w' [] [] [])).
  - unfold getProcessName. repeat (apply wp_bind, sys_any; intros ?). destruct (negb _); [|apply wp_ret; cbn [trace]; rewrite <- app_assoc; by eexists].
    apply wp_bind, sys_eq. intros name Ename. assert (exists s, toctets name = Some s) as [s Es] by (rewrite Ename; apply fgets_reads).
    clear Ename. apply wp_bind, sys_any. intros ?. apply wp_bind. eapply wp_lift; [exact Es|]. apply wp_ret. cbn [trace].
    rewrite <- !app_assoc. by eexists.
  - intros name w1 S1. apply wp_bind, sys_any. intros v. apply wp_bind, sys_any. intros d. apply wp_bind, wp_mod. cbn [globals trace]. apply wp_bind.
    eapply wp_mono; [apply wp_helper_regDump|]. cbn [globals the_monitor with_monitor]. intros b w2 [H2 S2]. apply wp_ret.
    split; [by rewrite H2|].
    pose proof (says_trans _ _ _ _ _ _ _ _ _ S1 (says_call Cproperty_rb_dump v (globals w1) w1)) as S3.
    pose proof (says_trans _ _ _ _ _ _ _ _ _ S3 (says_call (Cnew_RefBaseDump this) d (globals w1) _)) as S4.
    exact (says_trans _ _ _ _ _ _ _ _ _ S4 S2).
Qed.

(** A dump of the list, as the process makes it. *)
Definition dumped (result : list Z) (r : Z * list Z) (w w' : W) : Prop :=
  let m := the_monitor (globals w) in
  globals w' = globals w /\ r.1 = NO_ERROR /\ exists counts,
    says w w' counts (if mIsTracking m then map fst (RbList m) else []) [] /\ map fst counts = map fst (RbList m) /\
    r.2 = result ++ text format ([Ltitle this (mProcessName m) (mIsTracking m); Lrule] ++ object_lines 0 counts ++ [Lend]).

Lemma wp_kickDump result prefix (w : W) :
  wp (RefBaseDump_kickDump answer format this result prefix) (fun r w' => dumped result r w w') w.
Proof.
  unfold RefBaseDump_kickDump, dump. do 2 apply wp_bind. apply wp_get. apply wp_bind. eapply wp_mono; [apply wp_dump_objects|].
  intros res w' (G & counts & S & E & ->). do 2 apply wp_ret. unfold dumped. split_and!; [done..|]. exists counts. split_and!; [done..|].
  cbn [fst snd]. unfold text. rewrite !flat_map_app. cbn [flat_map app]. rewrite <- !app_assoc. done.
Qed.

Lemma wp_Bp_kickDump result prefix (w : W) :
  wp (Bp_kickDump FIRST_CALL_TRANSACTION transact result prefix) (fun r w' => dumped result r w w') w.
Proof using delivers laws.
  unfold Bp_kickDump. apply wp_bind. unfold wp at 1. rewrite delivers. unfold Bn_onTransact. rewrite Z.eqb_refl.
  set (data := writeCString _ _). written data Hd. cbv zeta. repeat parcel_read.
  pose proof (wp_kickDump result (Some prefix) w) as H. apply wp_total in H as (r & w' & E & Hr).
  unfold io_bind. rewrite E. unfold io_ret. cbn [fst snd]. change (NO_ERROR =? NO_ERROR) with true. cbn [negb].
  set (reply := writeInt32 _ _). written reply Hreply. repeat parcel_read. destruct r as [e t]. exact Hr.
Qed.

(** The list of the objects of a process, from its beginning: after any additions and removals it holds, in the order of their
    addresses, exactly the objects that were added and not removed since; each addition made the object track its references if the
    process is tracked. A dump that the service asks for through the binder is the one that the process makes: it leaves
    the list alone, and appends to the text the title and, for every object of the list and no other, its number, its address and the
    count it has then; and it prints the references of each if the process is tracked. *)
Theorem ref_dump_correct (l : list list_op) (result prefix : list Z) (w : W) :
  wp (do _ <- new_RefBaseMonitor answer this; list_ops answer l) (fun _ w1 =>
    let m := the_monitor (globals w1) in
    lists (fold_left monitored l ∅) (RbList m) /\ says w w1 [] [] (if mIsTracking m then added l else []) /\
    wp (Bp_kickDump FIRST_CALL_TRANSACTION transact result prefix) (fun r w2 => dumped result r w1 w2) w1) w.
Proof using fgets_reads delivers laws.
  apply wp_bind. eapply wp_mono; [apply wp_new_monitor|]. intros _ w0 [H0 S0]. eapply wp_mono; [apply (wp_list_ops answer l ∅)|].
  { rewrite H0. split; [constructor|]. intros k. cbn. set_solver. }
  intros _ w1 (H1 & H2 & _ & S1). split_and!; [done| |apply wp_Bp_kickDump]. rewrite H2. exact (says_trans _ _ _ _ _ _ _ _ _ S0 S1).
Qed.
End Correct.

(** A process that is tracked, with two objects. *)
Definition a_system (tr : list (tcall * tresp)) (c : tcall) : tresp :=
  match c with
  | Cfgets _ => mk_tresp 1 (Some (str "surfaceflinger"))
  | Cproperty_rb_dump => mk_tresp 1 (Some (str "flinger"))
  | CgetStrongCount o => mk_tresp (o + 1) None
  | _ => mk_tresp 1 None
  end.
Definition a_format (l : line) : list Z :=
  match l with Lobject i o c => [i; o; c] | Lend => [10] | _ => [] end.
Definition no_transaction (code : Z) (data : list parcel_item) : io process tcall tresp (Z * list parcel_item) := io_ret (-74, []).
Definition a_transact : Z -> list parcel_item -> io process tcall tresp (Z * list parcel_item) :=
  Bn_onTransact (ops := list_parcels) 1 (-1) (RefBaseDump_kickDump a_system a_format 77) no_transaction.
Definition some_list : list list_op := [Monitor 9; Monitor 5; Monitor 7; Unmonitor 9; Monitor 5].
Definition new_process : process := mk_process None (mk_monitor false [] 0 []).
Lemma a_system_reads tr : exists s, toctets (a_system tr (Cfgets 64)) = Some s.
Proof. by eexists. Qed.

Lemma ref_dump_correct_witness : exists w1 w2,
  (do _ <- new_RefBaseMonitor a_system 77; list_ops a_system some_list) (World new_process []) = Some (tt, w1) /\
  Bp_kickDump (ops := list_parcels) 1 a_transact [65] [66] w1 = Some ((0, [65; 0; 5; 6; 1; 7; 8; 10]), w2).
Proof.
  pose proof (ref_dump_correct a_system a_format (laws := list_parcel_laws) 1 (-1) no_transaction a_transact 77 a_system_reads
    (fun _ _ _ => eq_refl) some_list [65] [66] (World new_process [])) as H.
  apply wp_total in H as ([] & w1 & E & _ & _ & H). apply wp_total in H as ([e t] & w2 & E2 & _ & Ee & counts & Hc & _ & Ht).
  exists w1, w2. split; [exact E|]. rewrite E2. cbn [fst snd] in Ee, Ht. subst e. repeat f_equal.
  vm_compute in E. injection E as <-. vm_compute in E2. by injection E2 as <- _.
Defined.
