(* ===== verification/Shims.v ===== *)
(** The shims: src/libshims, functions that closed libraries expect and that call others.

    The log of lab126, the destruction of mutexes, and the functions that only pass their arguments on. *)
From Stdlib Require Import String List.
From stdpp Require Import gmap.
From S2P Require Import Prelude CString Effects.

Inductive shim_call :=
  | Cvsnprintf (size : Z) (* the formatted text, without its terminator *)
  | C__android_log_buf_write (tag text : list Z)
  | C__android_log_write (tag : option (list Z)) (text : list Z)
  | Cpthread_mutex_destroy
  | CGraphicBufferMapper_lock (handle usage : Z)
  | CGraphicBufferMapper_lockYCbCr (handle usage : Z)
  | CreadFileDescriptor
  | CRSA_verify_PKCS1_PSS_mgf1 (mgf1Hash : Z) (args : list Z)
  | CEVP_EncryptFinal_ex (ctx : Z)
  | CEVP_CIPHER_CTX_cleanup (ctx : Z).
Record shim_resp := mk_shim { shv : Z; shtext : list Z }.

Section Shims.
(** The state of a mutex is what bionic keeps in its first two octets; [after_destroy] what its own function leaves there. *)
Context (answer : list (shim_call * shim_resp) -> shim_call -> shim_resp) (EBUSY : Z) (after_destroy : Z -> Z -> Z).
Abbreviation IO := (io Z shim_call shim_resp).
Abbreviation sys := (io_call answer).

(** ** log/lab126_log_shim.cpp *)

(** [strncmp(s, t, n) == 0], of strings without their terminators. *)
Fixpoint strncmp_eq (s t : list Z) (n : nat) : bool :=
  match n, s, t with
  | O, _, _ | _, [], [] => true
  | S n, a :: s, b :: t => (a =? b) && strncmp_eq s t n
  | _, _, _ => false
  end.
Definition LOG_BUF_SIZE : Z := 1024.
Definition lab126_log_write (tag : option (list Z)) : IO Z :=
  let tag := default [] tag in
  if strncmp_eq tag (str "Sensors") 7 || strncmp_eq tag (str "qcom_se") 7 || strncmp_eq tag (str "rpmb") 7
     || strncmp_eq tag (str "AudioALSAStreamOut") 7 then io_ret 0
  else
    do r <- sys (Cvsnprintf LOG_BUF_SIZE);
    do e <- sys (C__android_log_buf_write (take 127 (str "AMZ-" ++ tag)) (take 1023 (shtext r)));
    io_ret (shv e).
Definition __vitals_log_print (tag : option (list Z)) : IO Z :=
  do e <- sys (C__android_log_write tag (str "__vitals_log_print not implemented")); io_ret (shv e).

(** ** bionic/pthread_mutex_destroy.cpp *)
Definition IsMutexDestroyed (mutex_state : Z) : bool := mutex_state =? 0xffff.
Definition pthread_mutex_destroy : IO Z :=
  do old_state <- io_get;
  if IsMutexDestroyed old_state then io_ret EBUSY
  else
    do r <- sys Cpthread_mutex_destroy;
    do _ <- io_mod (after_destroy (shv r));
    io_ret (shv r).
Fixpoint destroys (n : nat) : IO (list Z) :=
  match n with O => io_ret [] | S n => do r <- pthread_mutex_destroy; do l <- destroys n; io_ret (r :: l) end.

(** ** ui, parcel and drm *)
Definition lock (handle usage : Z) : IO unit := do _ <- sys (CGraphicBufferMapper_lock handle (u32 usage)); io_ret tt.
Definition lockYCbCr (handle usage : Z) : IO unit := do _ <- sys (CGraphicBufferMapper_lockYCbCr handle (u32 usage)); io_ret tt.
(** [outCommChannel] is not set. *)
Definition readParcelFileDescriptor (outCommChannel : Z) : IO (Z * Z) := do r <- sys CreadFileDescriptor; io_ret (shv r, outCommChannel).
Definition RSA_verify_PKCS1_PSS (args : list Z) : IO Z := do r <- sys (CRSA_verify_PKCS1_PSS_mgf1 0 args); io_ret (shv r).
Definition EVP_EncryptFinal (ctx : Z) : IO Z :=
  do result <- sys (CEVP_EncryptFinal_ex ctx); do _ <- sys (CEVP_CIPHER_CTX_cleanup ctx); io_ret (shv result).

(** ** What they do *)

(** The tags that are left out: two whole words, and all that begin so. *)
Definition skipped (tag : list Z) : bool :=
  bool_decide (take 7 tag = str "Sensors" \/ take 7 tag = str "qcom_se" \/ tag = str "rpmb" \/ take 7 tag = str "AudioAL").

Lemma strncmp_eq_long s t n : (n <= List.length t)%nat -> strncmp_eq s t n = bool_decide (take n s = take n t).
Proof.
  revert s t. induction n as [|n IH]; intros s t Hn; [by rewrite bool_decide_true by done; destruct s|].
  destruct t as [|b t]; [cbn in Hn; lia|]. destruct s as [|a s]; [by rewrite bool_decide_false by done|]. cbn [strncmp_eq take].
  rewrite IH by (cbn in Hn; lia). destruct (Z.eqb_spec a b) as [->|Hab]; cbn [andb].
  - apply bool_decide_ext. split; [by intros ->|by intros [= ->]].
  - rewrite bool_decide_false; [done|]. intros [= ? ?]. done.
Qed.
Lemma strncmp_eq_short s t n : (List.length t < n)%nat -> strncmp_eq s t n = bool_decide (s = t).
Proof.
  revert s t. induction n as [|n IH]; intros s t Hn; [lia|]. destruct s as [|a s], t as [|b t]; cbn [strncmp_eq]; try done.
  rewrite IH by (cbn in Hn; lia). destruct (Z.eqb_spec a b) as [->|Hab]; cbn [andb].
  - apply bool_decide_ext. split; [by intros ->|by intros [= ->]].
  - rewrite bool_decide_false; [done|]. intros [= ? ?]. done.
Qed.

Theorem lab126_log_correct (tag : option (list Z)) (w : world Z shim_call shim_resp) :
  let t := default [] tag in
  wp (lab126_log_write tag) (fun r w' =>
    if skipped t then r = 0 /\ w' = w
    else exists text e, trace w' = trace w ++ [(Cvsnprintf LOG_BUF_SIZE, text); (C__android_log_buf_write (take 127 (str "AMZ-" ++ t)) (take 1023 (shtext text)), e)]
           /\ r = shv e) w.
Proof.
  cbv zeta. unfold lab126_log_write. set (t := default [] tag).
  assert (skipped t = strncmp_eq t (str "Sensors") 7 || strncmp_eq t (str "qcom_se") 7 || strncmp_eq t (str "rpmb") 7
     || strncmp_eq t (str "AudioALSAStreamOut") 7) as <-.
  { rewrite !(strncmp_eq_long t (str "Sensors")), !(strncmp_eq_long t (str "qcom_se")), (strncmp_eq_short t (str "rpmb")),
      (strncmp_eq_long t (str "AudioALSAStreamOut")) by (cbn; lia).
    change (take 7 (str "AudioALSAStreamOut")) with (str "AudioAL"). change (take 7 (str "Sensors")) with (str "Sensors").
    change (take 7 (str "qcom_se")) with (str "qcom_se"). unfold skipped. rewrite !bool_decide_or. by rewrite !orb_assoc. }
  destruct (skipped t); [by apply wp_ret|]. repeat sys_step. eexists _, _. cbn [trace]. rewrite <- app_assoc. split; done.
Qed.

(** bionic marks a mutex that it destroyed: it is destroyed once, and the rest find it busy. *)
Theorem mutex_destroyed_once (n : nat) (w : world Z shim_call shim_resp) :
  (forall state, after_destroy 0 state = 0xffff) -> (forall tr, shv (answer tr Cpthread_mutex_destroy) = 0) -> globals w <> 0xffff ->
  wp (destroys (S n)) (fun r w' => r = 0 :: replicate n EBUSY /\ exists e, trace w' = trace w ++ [(Cpthread_mutex_destroy, e)]) w.
Proof.
  intros Hd Ha Hw. assert (forall m w1, globals w1 = 0xffff -> wp (destroys m) (fun r w' => r = replicate m EBUSY /\ w' = w1) w1) as Hbusy.
  { induction m as [|m IH]; intros w1 H1; cbn [destroys]; [by apply wp_ret|]. apply wp_bind. unfold pthread_mutex_destroy.
    apply wp_bind, wp_get. rewrite H1. apply wp_ret, wp_bind. eapply wp_mono; [by apply IH|]. intros r w2 [-> ->]. by apply wp_ret. }
  cbn [destroys]. apply wp_bind. unfold pthread_mutex_destroy. apply wp_bind, wp_get. unfold IsMutexDestroyed.
  rewrite (proj2 (Z.eqb_neq _ _)) by done. apply wp_bind, sys_eq. intros e ->. rewrite Ha. apply wp_bind, wp_mod, wp_ret, wp_bind.
  eapply wp_mono; [apply Hbusy; apply Hd|]. intros r w1 [-> ->]. apply wp_ret. split; [done|]. by eexists.
Qed.
End Shims.

Lemma mutex_destroyed_once_witness :
  (exists w', destroys (fun _ _ => mk_shim 0 []) 16 (fun _ _ => 0xffff) 3 (World 0 []) = Some ([0; 16; 16], w')).
Proof.
  pose proof (mutex_destroyed_once (fun _ _ => mk_shim 0 []) 16 (fun _ _ => 0xffff) 2 (World 0 []) (fun _ => eq_refl) (fun _ => eq_refl)
    ltac:(discriminate)) as H.
  apply wp_total in H as (r & w' & E & -> & _). by exists w'.
Defined.
